(* ===== verification/_CoqProject ===== *)
-Q . S2P
Prelude.v
GoStrings.v
Base64.v
Operation.v
Gpu.v
Resources.v
Engine.v
Canonical.v
Work.v
Schema.v
Contract.v
WorkStore.v
Reconcile.v
Runner.v
ReconcileStore.v
OperationStore.v
Commands.v
Managed.v
ManagedClose.v
Update.v
Server.v
Intake.v
Render.v
Executor.v
KServe.v
RuntimeSource.v
Publisher.v
Materializer.v
AccessKey.v
AccessPolicy.v
Credential.v
Perimeter.v
Tenancy.v
Read.v
