(* ===== verification/Prelude.v ===== *)
(** * A verification of the inference service

    The program (src/) turns requests for inference services into running
    Kubernetes workloads.  A gRPC server (internal/service) checks a request and
    hands it to a use case; the use cases are stacked (internal/data/model, image,
    kubernetes/namespace_create.go) on the PostgreSQL ones (internal/data/postgres),
    which accept a command in one transaction: the desired generation, an operation
    row, an audit event and a wake-up.  Work loops (internal/biz/work) lease one
    service at a time; the operation runner (internal/biz/inference/runner.go) moves
    its operation one durable step at a time through quota, GPU, model, runtime and
    publication providers; between operations the reconciler (internal/biz/reconcile)
    keeps the runtime at the desired generation.  The runtime providers
    (internal/data/kubernetes) render objects and apply, observe and delete them under
    UID, resource-version and generation fences.  GPU resources managed by Governance
    carry a frozen plan, a signed command and evidence for the refund.  Callers of a
    deployed model hold access keys (internal/biz/accesskey, accesspolicy).

    ** The files, in order

    - [Prelude], [GoStrings], [Base64]: errors as values with their wrapped causes,
      [result], the state-and-error monad [M], record updates, association lists and
      the tactics ([minv], [moves], ...) that invert computations; Go's strings,
      strconv, regexp and base64.
    - [Operation] (inference/operation.go, model.go): phases, steps, paths and the
      transition guard against the relation [op_edge].
    - [Gpu], [Resources], [Engine] (biz/gpu, biz/resources, postgres/engine.go):
      validation, quantities, release evidence, the stored engine command.
    - [Canonical], [Contract] (api/inference/contract/v1): canonical payloads, the
      validation of the managed requests, command hashes.
    - [Work], [Reconcile], [Runner]: the loop, the reconciler and the runner over the
      Go interfaces they call, records of computations over an arbitrary state.
    - [Schema]: the tables (postgres/models.go), statements, transactions and lost
      answers.  [WorkStore], [ReconcileStore], [OperationStore]: the stores of the
      three above, statement by statement, and the proofs that they meet the
      interfaces.
    - [Commands], [Managed], [ManagedClose], [Update] (postgres/command_usecase.go,
      repository.go, create_usecase.go, managed_gpu.go, managed_close.go,
      update_usecase.go, service/managed_gpu_release.go): the accepting transactions,
      durable acknowledgements, the close pass.
    - [Server] (service/inference.go, managed_gpu.go): every RPC up to its use case.
      [Intake]: the layers between them and their order in main.go.
    - [Render] (renderer.go, scheduling.go, security.go, model_volume.go,
      image_pull_secret.go, managed_lws.go, the rendering half of kserve.go),
      [Executor] (executor.go), [KServe] (the rest of kserve.go, runtime_router.go).
    - [RuntimeSource] (postgres/runtime_source.go, runtime_binding.go): the desired
      state the executors read and the identities they record.  [Publisher]
      (http_route_publisher.go, higress_rate_limit.go): routes, grants and shared
      limits.  [Materializer] (model/materializer.go): the download of a model.
    - [AccessKey], [AccessPolicy], [Credential] (biz/accesskey, biz/accesspolicy,
      postgres/access_key.go, access_policy.go, service_policy.go).
    - [Perimeter] (cmd/ani-inference-service/rpc_policy.go, trusted_tenant.go,
      service/access_key.go, access_policy.go, gatewayauthz/http.go,
      inferenceaccess/client.go): who may call what and for whom, the access-key and
      policy RPCs, the gateway's adapter.  [Tenancy]: what those calls leave alone.
    - [Read] (postgres/read_usecase.go): projections, cursor tokens and pages.

    Definitions keep the names of the source; where two methods of one file share a
    name the receiver is put in front ([Service_Create], [Router_Ensure]), and parts
    of a long function have a name of their own in lower case.  A Go interface is a
    record of computations, or a class when it stands for a library ([UuidLib],
    [QuantityLib], [KubeLib]) with its documented laws in a second class; a nil
    receiver, client or capability is [None]; every early return is a value of
    [result].

    ** What the theorems show

    - Queue and operations: a lease fences every write ([lease_fences_writes]), a
      wake-up is not lost while the attempt counter fits its column
      ([no_stranded_work]), an operation takes exactly the edges of its path, finitely
      many between two retries, and its row and its audit events move together
      ([validate_iff_edge], [transitions_bounded], [step_and_audit_atomic],
      [execution_advances_row], [runStep_follows_path]); active operations are those of
      the desired generation.
    - Accepting commands: a create, an update or a command is written as a whole or not at
      all ([create_all_or_nothing], [command_all_or_nothing], [update_all_or_nothing]);
      what the server lets through is what was signed, by whom and for which resource
      ([create_gate], [delete_gate], [update_gate], [command_hash_binds],
      [create_payload_exact]); a stacked create is written with a resolved namespace,
      image and artifact ([stacked_create_resolved]).
    - Managed GPUs: the association of a resource never changes, a delete that
      overtook its create blocks it, closes are reported before they complete, and a
      runtime counts as absent only when no Pod can hold the GPU ([association_immutable],
      [create_blocked_by_delete], [closes_are_reported], [absence_frees_gpu]).
    - Runtime: rendered workloads are owned, hardened, scheduled, pull the accepted
      image and mount the model read-only ([rendered_workloads],
      [accepted_image_renders]); an apply replaces only the bound object of the same
      tenant and service and no newer generation ([applies_are_fenced]); ready means the
      object of this generation and its children are current ([ready_means_current]);
      recorded identities do not change ([binding_identity_immutable], [observation_fenced]).
    - What the executors read is the desired generation and what they record is read
      back ([operation_acts_on_desired], [recorded_binding_fences]); a model counts as
      materialized only when the verified job of this artifact wrote the bound claim, and
      removing a service removes its downloads and nothing else
      ([materialized_means_verified], [cleanup_removes_downloads], [claim_fits_artifact]).
    - Publication: a route is written only behind its rate limit, limits stay while a
      route selects the model, and withdrawn means that nothing is left
      ([route_follows_limit], [published_models_stay_limited], [withdrawn_means_gone]).
    - Perimeter: every call is authorized by certificate, method and tenant, the gateway
      opens only for granted requests, and no access-key or policy call changes a row of
      another tenant, except that an access check marks the key it was given as used
      ([calls_are_authorized], [gateway_allows_only_granted], [tenants_are_isolated]).
    - Reads: following the page tokens lists every service of the tenant that is not
      deleted, or every operation, exactly once ([page_walk_complete]).
    - Access: a granted request had a valid key, policy and published model and was
      counted ([access_requires_grant], [access_counted]), keys only move forward
      ([keys_move_forward]), a created secret reads back ([created_secret_round_trip]).
    - Findings, as theorems: [early_wakeup_restarts_backoff],
      [rotated_secret_needs_spelling], [create_retry_needs_microseconds],
      [lws_model_never_applied], [digit_id_has_no_endpoint], [kserve_delete_follows_name],
      [publication_ignores_binding].

    ** Bounds, fuel and simplifications

    Recursion is structural except for the work loop, which runs for a number of
    iterations its statements quantify over: the Go loop runs until its context is
    cancelled.  int32 and int64 arithmetic wraps where the code can reach the bound
    ([int32], [bigint]); elsewhere the guards keep it in range.  A statement reads the
    clock once; transactions are serial and advisory locks only order them; a lost
    connection may lose a statement or only its answer.  Columns hold microseconds, Go
    times nanoseconds.  JSON columns hold the document they decode to; unstructured
    KServe trees are records whose options say which keys are present.  Iterating a Go
    map decides only which of several errors is reported.  Lower-casing is ASCII.
    Digests, protobuf's encoding, JSON text, quantities, AES-GCM, Argon2id, uuid
    parsing, the accelerator messages, remote services and the Kubernetes API are
    parameters or ports; a theorem that needs a law of one of them says so, and its
    witness instantiates it.

    ** Not modelled

    The status projection into a custom resource (status_projection.go,
    status_projector.go), the controller that only wakes the queue, the two small stores
    model_reference.go and admission.go, diagnostics and the invocation proxy (read-only
    probes and streaming), the clients of the accelerator and Governance services and
    all dialling, metrics, health and logging, the process set-up beyond the order in
    which main stacks the use cases, the router and the middlewares, and generated code.
    Of the middlewares of internal/server/observability.go only the tenant check is
    modelled; validate.Validator, which checks request messages, may refuse more calls
    than the model does, and the others only wrap the next handler.
    Concurrency of statements inside one transaction, timeouts and cancelled contexts
    are not modelled: a call may fail at any statement instead. *)

From stdpp Require Export base tactics gmap strings list pretty option sorting.
From Stdlib Require Export ZArith Lia.

#[export] Set Default Goal Selector "!".

Open Scope Z_scope.

(** ** Errors

    A Go [error] value.  [ENew] is a package-level [errors.New] value,
    identified by the name of its variable; [EFmt] is a [fmt.Errorf] value with
    its text and the errors it wraps with [%w]; [EJoin] is [errors.Join]. *)
Inductive goerr : Type :=
  | ENew (name text : string)
  | EFmt (text : string) (wrapped : list goerr)
  | EJoin (errs : list goerr).

Fixpoint error_text (e : goerr) : string :=
  match e with
  | ENew _ text => text
  | EFmt text _ => text
  | EJoin errs =>
      (fix join (es : list goerr) : string :=
         match es with
         | [] => ""
         | [e] => error_text e
         | e :: es => error_text e +:+ String (Ascii.ascii_of_nat 10) (join es)
         end) errs
  end.

(** [errors.Is(e, target)] for a sentinel [target], found by its name. *)
Fixpoint errors_is (e : goerr) (target : string) : bool :=
  match e with
  | ENew name _ => bool_decide (name = target)
  | EFmt _ wrapped => existsb (fun e => errors_is e target) wrapped
  | EJoin errs => existsb (fun e => errors_is e target) errs
  end.

(** [fmt.Errorf(text)]. *)
Definition errorf (text : string) : goerr := EFmt text [].
(** The [%q] verb, for text that needs no escapes. *)
Definition quoted (s : string) : string :=
  let q := String (Ascii.ascii_of_nat 34) EmptyString in q +:+ s +:+ q.
(** [fmt.Errorf("%w: text", e)] and [fmt.Errorf("text: %w", e)]. *)
Definition errorf_after (e : goerr) (text : string) : goerr :=
  EFmt (error_text e +:+ ": " +:+ text) [e].
Definition errorf_before (text : string) (e : goerr) : goerr :=
  EFmt (text +:+ ": " +:+ error_text e) [e].

(** [errors.Join] of two possibly nil errors. *)
Definition errors_join (a b : option goerr) : option goerr :=
  match a, b with
  | None, None => None
  | Some a, None => Some (EJoin [a])
  | None, Some b => Some (EJoin [b])
  | Some a, Some b => Some (EJoin [a; b])
  end.

(** ** Results and the error-state monad

    A Go function that returns [(A, error)] returns a [result A]; a function
    that also acts on shared state [S] is a computation of [M S A].  Effects
    made before an error are kept, as they are in Go. *)
Inductive result (A : Type) : Type :=
  | Ok (a : A)
  | Err (e : goerr).
Arguments Ok {A} a.
Arguments Err {A} e.

Definition is_ok {A} (r : result A) : bool :=
  match r with Ok _ => true | Err _ => false end.

#[global] Instance result_ret : MRet result := fun _ a => Ok a.
#[global] Instance result_bind : MBind result := fun _ _ f r =>
  match r with Ok a => f a | Err e => Err e end.

Definition M (S A : Type) : Type := S -> result A * S.

#[global] Instance M_ret {S} : MRet (M S) := fun _ a s => (Ok a, s).
#[global] Instance M_bind {S} : MBind (M S) := fun _ _ f c s =>
  match c s with
  | (Ok a, s') => f a s'
  | (Err e, s') => (Err e, s')
  end.

Definition throw {S A} (e : goerr) : M S A := fun s => (Err e, s).
(** Run a computation and hand its error to the caller as a value:
    [v, err := f(); if err ... else ...]. *)
Definition try {S A} (c : M S A) : M S (result A) := fun s =>
  let '(r, s') := c s in (Ok r, s').
(** Return a pure [(A, error)] pair from a stateful function. *)
Definition lift {S A} (r : result A) : M S A := fun s => (r, s).
Definition get_state {S} : M S S := fun s => (Ok s, s).
Definition put_state {S} (s : S) : M S unit := fun _ => (Ok tt, s).

(** [if err != nil { return err }] guards. *)
Definition check {S} (b : bool) (e : goerr) : M S unit := if b then mret tt else throw e.
Definition checkr (b : bool) (e : goerr) : result unit := if b then Ok tt else Err e.

(** ** Machine integers *)
Definition int32 (z : Z) : Z := (z + 2 ^ 31) mod 2 ^ 32 - 2 ^ 31.
Definition int64 (z : Z) : Z := (z + 2 ^ 63) mod 2 ^ 64 - 2 ^ 63.
Definition uint32 (z : Z) : Z := z mod 2 ^ 32.
Definition in_int32 (z : Z) : Prop := - 2 ^ 31 <= z < 2 ^ 31.
Definition in_int64 (z : Z) : Prop := - 2 ^ 63 <= z < 2 ^ 63.

Lemma int32_id z : in_int32 z -> int32 z = z.
Proof. unfold in_int32, int32. intros. rewrite Z.mod_small; lia. Qed.
Lemma int64_id z : in_int64 z -> int64 z = z.
Proof. unfold in_int64, int64. intros. rewrite Z.mod_small; lia. Qed.
Lemma uint32_id z : 0 <= z < 2 ^ 32 -> uint32 z = z.
Proof. unfold uint32. intros. by rewrite Z.mod_small. Qed.

(** ** Reasoning about computations *)

Section Inversion.
  Context {S A B : Type}.
  Implicit Types (c : M S A) (k : A -> M S B) (s t : S).

Lemma bind_ok_inv c k s b t :
    (c ≫= k) s = (Ok b, t) -> ∃ a u, c s = (Ok a, u) ∧ k a u = (Ok b, t).
  Proof.
    unfold mbind, M_bind. destruct (c s) as [[a|e] u] eqn:E; intros H; [|done].
    by exists a, u.
  Qed.

Lemma bind_err_inv c k s e t :
    (c ≫= k) s = (Err e, t) ->
    c s = (Err e, t) ∨ ∃ a u, c s = (Ok a, u) ∧ k a u = (Err e, t).
  Proof.
    unfold mbind, M_bind. destruct (c s) as [[a|e'] u] eqn:E; intros H; [|naive_solver].
    right. by exists a, u.
  Qed.

Lemma bind_run c k s a u : c s = (Ok a, u) -> (c ≫= k) s = k a u.
  Proof. unfold mbind, M_bind. by intros ->. Qed.
End Inversion.

Lemma rbind_ok_inv {A B} (r : result A) (k : A -> result B) b :
  (r ≫= k) = Ok b -> ∃ a, r = Ok a ∧ k a = Ok b.
Proof. destruct r as [a|e]; [|done]. intros H. by exists a. Qed.

Lemma check_ok_inv {S} b e (s : S) u t : check b e s = (Ok u, t) -> b = true ∧ s = t.
Proof. unfold check, throw. destruct b; [|done]. by intros [= _ <-]. Qed.
Lemma checkr_ok_inv b e u : checkr b e = Ok u -> b = true.
Proof. by destruct b. Qed.
Lemma try_inv {S A} (c : M S A) s r t : try c s = (r, t) -> ∃ v, r = Ok v ∧ c s = (v, t).
Proof. unfold try. destruct (c s) as [v u]. intros [= <- <-]. by exists v. Qed.

(** [moves R c]: every run of [c], successful or not, relates its start and end
    states by [R].  With [R] a preorder this composes through the monad, which
    is how frame and monotonicity facts of whole handlers are proved. *)
Definition moves {S A} (R : relation S) (c : M S A) : Prop := ∀ s, R s (c s).2.

Section Moves.
  Context {S : Type} (R : relation S) `{!PreOrder R}.

Lemma moves_ret {A} (a : A) : moves R (mret a : M S A).
  Proof. intros s. simpl. reflexivity. Qed.
Lemma moves_throw {A} e : moves R (throw e : M S A).
  Proof. intros s. simpl. reflexivity. Qed.
Lemma moves_lift {A} (r : result A) : moves R (lift r : M S A).
  Proof. intros s. simpl. reflexivity. Qed.
Lemma moves_check b e : moves R (check b e : M S unit).
  Proof. unfold check. destruct b; [apply moves_ret | apply moves_throw]. Qed.
Lemma moves_get : moves R (get_state : M S S).
  Proof. intros s. simpl. reflexivity. Qed.
Lemma moves_bind {A B} (c : M S A) (k : A -> M S B) :
    moves R c -> (∀ a, moves R (k a)) -> moves R (c ≫= k).
  Proof.
    intros Hc Hk s. unfold mbind, M_bind. specialize (Hc s).
    destruct (c s) as [[a|e] u]; simpl in *; [|done].
    etrans; [done|]. apply Hk.
  Qed.
Lemma moves_try {A} (c : M S A) : moves R c -> moves R (try c).
  Proof. intros Hc s. unfold try. specialize (Hc s). by destruct (c s). Qed.
End Moves.

Create HintDb moves discriminated.
#[export] Hint Resolve moves_ret moves_throw moves_lift moves_check moves_get moves_try : moves.

Lemma moves_weaken {S A} (R R' : relation S) (c : M S A) :
  (∀ s t, R s t -> R' s t) -> moves R c -> moves R' c.
Proof. unfold moves. auto. Qed.

(** [for _, x := range xs { if err := f(x); err != nil { return err } }]. *)
Fixpoint each {S A} (f : A -> M S unit) (xs : list A) : M S unit :=
  match xs with
  | [] => mret tt
  | x :: xs => _ ← f x; each f xs
  end.

Lemma moves_each {S A} (R : relation S) `{!PreOrder R} (f : A -> M S unit) xs :
  (∀ x, moves R (f x)) -> moves R (each f xs).
Proof.
  intros Hf. induction xs; cbn; [by apply moves_ret|]. apply moves_bind; [done..|]. intros _. done.
Qed.

(** The rest of a computation may rely on what its first part answered, and a loop
    on where its elements come from. *)
Lemma moves_bind_value {S A B} (R : relation S) `{!PreOrder R} (c : M S A) (k : A -> M S B) : moves R c ->
  (∀ s a s', c s = (Ok a, s') -> moves R (k a)) -> moves R (c ≫= k).
Proof.
  intros Hc Hk s. pose proof (Hc s) as H. unfold mbind, M_bind. destruct (c s) as [[a|e] t] eqn:E; [|done].
  etrans; [exact H|]. by eapply Hk.
Qed.
Lemma moves_each_in {S A} (R : relation S) `{!PreOrder R} (f : A -> M S unit) xs :
  (∀ x, x ∈ xs -> moves R (f x)) -> moves R (each f xs).
Proof.
  induction xs as [|x xs IH]; intros Hf; cbn; [by apply moves_ret|]. apply moves_bind; [done|apply Hf; left|].
  intros _. apply IH. intros y Hy. apply Hf. by right.
Qed.

(** Discharges a [moves] goal by following the structure of the computation;
    the leaves are found in the hint database [moves]. *)
Ltac moves :=
  repeat first
    [ progress intros
    | solve [eauto with moves typeclass_instances]
    | match goal with
      | |- moves _ (_ ≫= _) => apply moves_bind; [typeclasses eauto | | ]
      | |- moves _ (try _) => apply moves_try
      | |- moves _ (each _ _) => apply moves_each; [typeclasses eauto |]
      end
    | match goal with
      | |- moves _ (match ?x with _ => _ end) => destruct x eqn:?
      end
    | progress cbv zeta ].

(** A search whose only possible answer is [y] finds it. *)
Lemma head_omap_unique {A B} (f : A -> option B) l x y :
  x ∈ l -> f x = Some y -> (∀ x' y', x' ∈ l -> f x' = Some y' -> y' = y) -> head (omap f l) = Some y.
Proof.
  intros Hx Hf Hu. destruct (head (omap f l)) as [y'|] eqn:E.
  - apply head_Some_elem_of in E. apply list_elem_of_omap in E as (x' & Hx' & Hf'). f_equal. eauto.
  - apply head_None in E. assert (y ∈ omap f l) as Hin by (apply list_elem_of_omap; eauto).
    rewrite E in Hin. by apply not_elem_of_nil in Hin.
Qed.

(** ** Guards

    The checks at the head of a handler leave the state as it was; [guards H]
    peels them off a run [H], leaving their facts. *)
Definition guard {S A} (c : M S A) : Prop := ∀ s, (c s).2 = s.
Lemma guard_bind_inv {S A B} (c : M S A) (k : A -> M S B) s r t :
  guard c -> (c ≫= k) s = (r, t) -> (t = s ∧ is_ok r = false) ∨ ∃ a, c s = (Ok a, s) ∧ k a s = (r, t).
Proof.
  intros Hc. specialize (Hc s). unfold mbind, M_bind.
  destruct (c s) as [[a|e] u] eqn:E; cbn in Hc; subst u; intros H; [by right; eauto|].
  left. by injection H as <- <-.
Qed.
Lemma guard_lift {S A} (r : result A) : guard (lift r : M S A).
Proof. done. Qed.
Lemma guard_check {S} b e : guard (check b e : M S unit).
Proof. intros s. by destruct b. Qed.
Create HintDb guards discriminated.
#[export] Hint Resolve guard_lift guard_check : guards.
Ltac guards H :=
  repeat (apply guard_bind_inv in H;
    [destruct H as [[-> H]|(? & ?Hg & H)]; [left; done|] | by auto with guards || by (intros ?; case_match)]).

(** [yields P c]: a successful run of [c] returns a value of [P]. *)
Definition yields {S A} (P : A -> Prop) (c : M S A) : Prop := ∀ s a t, c s = (Ok a, t) -> P a.

Lemma yields_ret {S A} (P : A -> Prop) a : P a -> yields P (mret a : M S A).
Proof. intros H s b t [= <- _]. done. Qed.
Lemma yields_throw {S A} (P : A -> Prop) e : yields P (throw e : M S A).
Proof. by intros s a t [=]. Qed.
Lemma yields_bind {S A B} (P : B -> Prop) (c : M S A) (k : A -> M S B) :
  (∀ a, yields P (k a)) -> yields P (c ≫= k).
Proof. intros Hk s b t (a & u & _ & H)%bind_ok_inv. by eapply Hk. Qed.
Lemma yields_bind_with {S A B} (Q : A -> Prop) (P : B -> Prop) (c : M S A) (k : A -> M S B) :
  yields Q c -> (∀ a, Q a -> yields P (k a)) -> yields P (c ≫= k).
Proof. intros Hc Hk s b t (a & u & Ha & H)%bind_ok_inv. eapply Hk; eauto. Qed.

(** Follows a computation to its returns, leaving the facts about them. *)
Ltac yields :=
  repeat first
    [ progress intros
    | match goal with
      | |- yields _ (_ ≫= _) => apply yields_bind
      | |- yields _ (mret _) => apply yields_ret
      | |- yields _ (throw _) => apply yields_throw
      | |- yields _ (match ?x with _ => _ end) => destruct x
      end
    | progress cbv zeta ].

(** [minv H] inverts a successful run [H] step by step: the parts go to fresh
    hypotheses, the rest of the run stays in [H]. *)
Ltac minv_step H :=
  lazymatch type of H with
  | (_ ≫= _) _ = (Ok _, _) =>
      let a := fresh "a" in let u := fresh "u" in let H1 := fresh "Hm" in
      apply bind_ok_inv in H as (a & u & H1 & H);
      try minv_done H1
  | (_ ≫= _) = Ok _ =>
      let a := fresh "a" in let H1 := fresh "Hm" in
      apply rbind_ok_inv in H as (a & H1 & H);
      try minv_done H1
  end
with minv_done H :=
  lazymatch type of H with
  | check _ _ _ = (Ok _, _) => apply check_ok_inv in H as [H ?]; subst
  | checkr _ _ = Ok _ => apply checkr_ok_inv in H
  | try _ _ = (Ok _, _) =>
      let v := fresh "v" in apply try_inv in H as (v & [= <-] & H)
  | throw _ _ = (Ok _, _) => discriminate H
  end.
Ltac minv H := repeat minv_step H; try minv_done H.

(** A loop that ran to its end established [P] for each element, when [P] is
    kept by everything that runs after it. *)
Lemma each_inv {S A} (R : relation S) `{!PreOrder R} (f : A -> M S unit) (P : A -> S -> Prop) xs s t :
  (∀ x, moves R (f x)) ->
  (∀ x s t, P x s -> R s t -> P x t) ->
  (∀ x s t, x ∈ xs -> R s t -> ∀ u, f x t = (Ok tt, u) -> P x u) ->
  each f xs s = (Ok tt, t) -> R s t ∧ ∀ x, x ∈ xs -> P x t.
Proof.
  intros Hm Hp. revert s. induction xs as [|x xs IH]; intros s Hf H; cbn in H.
  { injection H as <-. split; [reflexivity|]. intros x ?%elem_of_nil. done. }
  minv H. destruct a. pose proof (Hm x s) as Hs. rewrite Hm0 in Hs. cbn in Hs.
  destruct (IH u) as [H1 H2]; [|done|].
  { intros y s' t' Hy Hr. apply (Hf y s' t'); [by right|done]. }
  split; [by etrans|]. intros y [->|Hy]%elem_of_cons; [|auto].
  eapply Hp; [|exact H1]. eapply (Hf x s s); [left|reflexivity|done].
Qed.

(** ** Record update

    [r <| f := v |>] replaces field [f] of [r].  A record type opts in with an
    [Eta] instance that rebuilds a value from its own fields. *)
Class Eta (R : Type) := eta : R -> R.
Class SetField {R T : Type} (f : R -> T) := set_field : T -> R -> R.
Arguments set_field {R T} f {_} v r /.

Ltac build_set_field :=
  lazymatch goal with
  | |- @SetField ?R _ ?f =>
      let e := constr:(@eta R ltac:(typeclasses eauto)) in
      let h := eval unfold eta in e in
      let h := eval red in h in
      refine (fun v r =>
        ltac:(let body := eval cbv beta in (h r) in
              let body' := eval pattern (f r) in body in
              lazymatch body' with
              | ?g _ => let out := eval cbv beta in (g v) in exact out
              end))
  end.
#[export] Hint Extern 1 (SetField _) => build_set_field : typeclass_instances.

Notation "r <| f := v |>" := (set_field f v r)
  (at level 1, left associativity, format "r  <| f  :=  v |>").

(** [case_bool]: split the first boolean test of the goal or of [H]. *)
Ltac case_bool :=
  match goal with
  | |- context [if bool_decide ?P then _ else _] => destruct (decide P);
      [rewrite (bool_decide_true P) by done | rewrite (bool_decide_false P) by done]
  | |- context [if ?b then _ else _] => destruct b eqn:?
  end.

(** ** ORDER BY

    Rows are ordered by a list of integers compared lexicographically; a NULLS
    FIRST column contributes two of them. *)
Fixpoint lex_le (a b : list Z) : bool :=
  match a, b with
  | [], _ => true
  | _ :: _, [] => false
  | x :: a, y :: b => (x <? y) || ((x =? y) && lex_le a b)
  end.
Definition nulls_first (t : option Z) : list Z :=
  match t with None => [0; 0] | Some t => [1; t] end.

Definition by_key {A} (key : A -> list Z) : relation A := fun a b => lex_le (key a) (key b) = true.
#[global] Instance by_key_dec {A} (key : A -> list Z) : RelDecision (by_key key).
Proof. intros a b. unfold by_key. apply _. Defined.
Definition order_by {A} (key : A -> list Z) (l : list A) : list A := merge_sort (by_key key) l.

Lemma lex_le_trans a b c : lex_le a b = true -> lex_le b c = true -> lex_le a c = true.
Proof.
  revert b c. induction a as [|x a IH]; intros [|y b] [|z c]; cbn; try done.
  rewrite !orb_true_iff, !andb_true_iff, !Z.ltb_lt, !Z.eqb_eq.
  intros [?|[-> ?]] [?|[-> ?]]; [left; lia|left; lia|left; lia|right; eauto].
Qed.
Lemma lex_le_total a b : lex_le a b = true ∨ lex_le b a = true.
Proof.
  revert b. induction a as [|x a IH]; intros [|y b]; cbn; auto.
  rewrite !orb_true_iff, !andb_true_iff, !Z.ltb_lt, !Z.eqb_eq.
  destruct (Z.lt_trichotomy x y) as [|[->|]]; [auto| |auto]. destruct (IH b); auto.
Qed.
#[global] Instance by_key_trans {A} (key : A -> list Z) : Transitive (by_key key).
Proof. intros a b c. apply lex_le_trans. Qed.
#[global] Instance by_key_total {A} (key : A -> list Z) : Total (by_key key).
Proof. intros a b. apply lex_le_total. Qed.

Lemma elem_of_order_by {A} (key : A -> list Z) l x : x ∈ order_by key l <-> x ∈ l.
Proof. unfold order_by. by rewrite merge_sort_Permutation. Qed.
Lemma order_by_nil {A} (key : A -> list Z) l : order_by key l = [] -> l = [].
Proof. intros H. apply Permutation_nil_r. rewrite <- H. unfold order_by. by rewrite merge_sort_Permutation. Qed.
(** The first row of an ordered query is a least one. *)
Lemma order_by_head {A} (key : A -> list Z) l x rest :
  order_by key l = x :: rest -> x ∈ l ∧ ∀ y, y ∈ l -> by_key key x y ∨ y = x.
Proof.
  intros H. split; [rewrite <- (elem_of_order_by key), H; left|].
  intros y. rewrite <- (elem_of_order_by key), H, elem_of_cons. intros [->|Hy]; [by right|]. left.
  pose proof (StronglySorted_merge_sort (by_key key) l) as Hs. unfold order_by in H. rewrite H in Hs.
  apply StronglySorted_inv in Hs as [_ Hs]. rewrite Forall_forall in Hs. auto.
Qed.

(** ** Column widths: SQLSTATE 22003 outside the range. *)
Definition OutOfRange : goerr := ENew "22003" "value out of range".
Definition bigint (z : Z) : result Z :=
  if (- 2 ^ 63 <=? z) && (z <? 2 ^ 63) then Ok z else Err OutOfRange.
Definition integer (z : Z) : result Z :=
  if (- 2 ^ 31 <=? z) && (z <? 2 ^ 31) then Ok z else Err OutOfRange.
Lemma bigint_ok z z' : bigint z = Ok z' -> z' = z.
Proof. unfold bigint. destruct (_ && _); [by intros [= <-]|done]. Qed.
Lemma integer_in_range z : in_int32 z -> integer z = Ok z.
Proof.
  unfold in_int32, integer. intros [H1 H2].
  by rewrite (proj2 (Z.leb_le _ _) H1), (proj2 (Z.ltb_lt _ _) H2).
Qed.
Lemma integer_ok z z' : integer z = Ok z' -> z' = z.
Proof. unfold integer. destruct (_ && _); [by intros [= <-]|done]. Qed.
