(* ===== verification/GoStrings.v ===== *)
(** * Strings

    The parts of Go's [strings], [strconv] and [regexp] packages that the
    service uses.  A Go string is the list of its bytes, here a [string]. *)

From S2P Require Import Prelude.
From Stdlib Require Import Ascii.

Definition code (c : ascii) : N := N_of_ascii c.

(** ** Character classes *)
Definition byte_in (lo hi : N) (c : ascii) : bool := (lo <=? code c)%N && (code c <=? hi)%N.
Definition is_digit (c : ascii) : bool := byte_in 48 57 c.
Definition is_lower (c : ascii) : bool := byte_in 97 122 c.
Definition is_lower_hex (c : ascii) : bool := is_digit c || byte_in 97 102 c.
Definition is_char (k : N) (c : ascii) : bool := (code c =? k)%N.

Fixpoint string_forallb (p : ascii -> bool) (s : string) : bool :=
  match s with
  | EmptyString => true
  | String c t => p c && string_forallb p t
  end.

(** [s] is one character of each class, in order. *)
Fixpoint matches (classes : list (ascii -> bool)) (s : string) : bool :=
  match classes, s with
  | [], EmptyString => true
  | p :: ps, String c t => p c && matches ps t
  | _, _ => false
  end.

(** ** Package strings *)
Fixpoint has_prefix (s p : string) : bool :=
  match p, s with
  | EmptyString, _ => true
  | String a p', String b s' => bool_decide (a = b) && has_prefix s' p'
  | String _ _, EmptyString => false
  end.

Fixpoint contains (s sub : string) : bool :=
  has_prefix s sub || match s with EmptyString => false | String _ t => contains t sub end.

Definition to_lower_ascii (c : ascii) : ascii :=
  if byte_in 65 90 c then ascii_of_N (code c + 32) else c.
(** [strings.ToLower]; exact on ASCII text, other bytes are left alone. *)
Fixpoint to_lower (s : string) : string :=
  match s with
  | EmptyString => EmptyString
  | String c t => String (to_lower_ascii c) (to_lower t)
  end.

Fixpoint str_take (n : nat) (s : string) : string :=
  match n, s with
  | O, _ | _, EmptyString => EmptyString
  | S n, String c t => String c (str_take n t)
  end.

Fixpoint str_rev_app (s acc : string) : string :=
  match s with
  | EmptyString => acc
  | String c t => str_rev_app t (String c acc)
  end.
Definition str_rev (s : string) : string := str_rev_app s EmptyString.

(** [unicode.IsSpace] on the UTF-8 encodings of one, two and three bytes. *)
Definition space1 (c : ascii) : bool := byte_in 9 13 c || is_char 32 c.
Definition space2 (c d : ascii) : bool := is_char 194 c && (is_char 133 d || is_char 160 d).
Definition space3 (c d e : ascii) : bool :=
  (is_char 225 c && is_char 154 d && is_char 128 e)
  || (is_char 226 c && is_char 128 d
      && (byte_in 128 138 e || is_char 168 e || is_char 169 e || is_char 175 e))
  || (is_char 226 c && is_char 129 d && is_char 159 e)
  || (is_char 227 c && is_char 128 d && is_char 128 e).

Fixpoint trim_left (s : string) : string :=
  match s with
  | EmptyString => EmptyString
  | String c t =>
      if space1 c then trim_left t else
      match t with
      | String d u =>
          if space2 c d then trim_left u else
          match u with
          | String e v => if space3 c d e then trim_left v else s
          | EmptyString => s
          end
      | EmptyString => s
      end
  end.

(** The same on the reversed bytes. *)
Fixpoint trim_left_rev (s : string) : string :=
  match s with
  | EmptyString => EmptyString
  | String c t =>
      if space1 c then trim_left_rev t else
      match t with
      | String d u =>
          if space2 d c then trim_left_rev u else
          match u with
          | String e v => if space3 e d c then trim_left_rev v else s
          | EmptyString => s
          end
      | EmptyString => s
      end
  end.

(** [strings.TrimSpace]. *)
Definition trim_space (s : string) : string := str_rev (trim_left_rev (str_rev (trim_left s))).

(** [strings.TrimSpace(s) == ""]. *)
Definition blank (s : string) : bool := bool_decide (trim_space s = "").

(** ** Package strconv *)

(** [strconv.FormatInt(z, 10)]. *)
Definition format_int (z : Z) : string := pretty z.

Fixpoint parse_digits (acc : N) (s : string) : option N :=
  match s with
  | EmptyString => Some acc
  | String c t => if is_digit c then parse_digits (acc * 10 + (code c - 48)) t else None
  end.

Definition parse_nat (s : string) : option N :=
  match s with EmptyString => None | _ => parse_digits 0 s end.

(** [strconv.ParseInt(s, 10, 64)]: [None] is any parse or range error. *)
Definition parse_int64 (s : string) : option Z :=
  z ← match s with
      | String c t =>
          if is_char 45 c then n ← parse_nat t; Some (- Z.of_N n)
          else if is_char 43 c then n ← parse_nat t; Some (Z.of_N n)
          else n ← parse_nat s; Some (Z.of_N n)
      | EmptyString => None
      end;
  if (- 2 ^ 63 <=? z) && (z <? 2 ^ 63) then Some z else None.

Lemma parse_digits_go x s :
  parse_digits 0 (pretty_N_go x s) = parse_digits x s.
Proof.
  revert s. induction (N.lt_wf_0 x) as [x _ IH]. intros s.
  destruct (decide (x = 0%N)) as [->|Hx]; [by rewrite pretty_N_go_0|].
  rewrite pretty_N_go_step by lia. rewrite IH by (apply N.div_lt; lia).
  assert (Hd : (x mod 10 < 10)%N) by (by apply N.mod_lt).
  assert (Hc : is_digit (pretty_N_char (x mod 10)) = true
               ∧ (code (pretty_N_char (x mod 10)) - 48 = x mod 10)%N).
  { revert Hd. generalize (x mod 10)%N. intros d Hd.
    assert (d ∈ [0; 1; 2; 3; 4; 5; 6; 7; 8; 9]%N) as Hin by (rewrite !elem_of_cons; lia).
    rewrite !elem_of_cons, elem_of_nil in Hin. by destruct_or! Hin; subst. }
  destruct Hc as [Hc1 Hc2]. cbn [parse_digits]. rewrite Hc1, Hc2.
  f_equal. rewrite N.mul_comm. symmetry. by apply N.div_mod'.
Qed.

Lemma parse_nat_pretty (n : N) : parse_nat (pretty n) = Some n.
Proof.
  unfold pretty, pretty_N. case_decide as Hn; [by subst|].
  pose proof (parse_digits_go n "") as H. cbn [parse_digits] in H.
  unfold parse_nat. destruct (pretty_N_go n "") eqn:E; [|done].
  cbn in H. congruence.
Qed.

Lemma pretty_N_head (n : N) c t : pretty n = String c t -> is_digit c = true.
Proof.
  intros E. pose proof (parse_nat_pretty n) as H. rewrite E in H. cbn in H.
  by destruct (is_digit c).
Qed.

(** A decimal survives formatting and parsing. *)
Lemma parse_format_int z : in_int64 z -> parse_int64 (format_int z) = Some z.
Proof.
  unfold in_int64. intros Hz. unfold parse_int64, format_int.
  assert (Hr : (- 2 ^ 63 <=? z) && (z <? 2 ^ 63) = true).
  { apply andb_true_iff. split; [apply Z.leb_le | apply Z.ltb_lt]; lia. }
  destruct z as [|p|p]; [done| |].
  - change (pretty (Z.pos p)) with (pretty (N.pos p)).
    destruct (pretty (N.pos p)) as [|c t] eqn:E.
    { pose proof (parse_nat_pretty (N.pos p)) as H. by rewrite E in H. }
    pose proof (pretty_N_head _ _ _ E) as Hd.
    assert (is_char 45 c = false ∧ is_char 43 c = false) as [-> ->].
    { unfold is_digit, byte_in, is_char in *. apply andb_true_iff in Hd as [H1 H2].
      apply N.leb_le in H1, H2. split; apply N.eqb_neq; lia. }
    rewrite <- E, parse_nat_pretty. cbn [mbind option_bind].
    change (Z.of_N (N.pos p)) with (Z.pos p). by rewrite Hr.
  - change (pretty (Z.neg p)) with (String "-" (pretty (N.pos p))).
    cbn [is_char code]. change (is_char 45 "-") with true. cbv iota.
    rewrite parse_nat_pretty. cbn [mbind option_bind].
    change (- Z.of_N (N.pos p)) with (Z.neg p). by rewrite Hr.
Qed.

(** Trimming: what is left is a part of the string, and trimming leaves it alone. *)
Lemma str_app_cons c s t : String c s +:+ t = String c (s +:+ t).
Proof. done. Qed.
Lemma str_app_assoc s t u : s +:+ (t +:+ u) = (s +:+ t) +:+ u.
Proof. induction s as [|c s IH]; [done|]. by rewrite !str_app_cons, IH. Qed.
Lemma str_app_nil s : s +:+ EmptyString = s.
Proof. induction s as [|c s IH]; [done|]. by rewrite !str_app_cons, IH. Qed.
Lemma str_app_length s t : String.length (s +:+ t) = (String.length s + String.length t)%nat.
Proof. induction s as [|c s IH]; [done|]. rewrite str_app_cons. cbn. by rewrite IH. Qed.
Lemma str_rev_app_spec s acc : str_rev_app s acc = str_rev s +:+ acc.
Proof.
  unfold str_rev. revert acc. induction s as [|c s IH]; intros acc; cbn; [done|]. rewrite IH, (IH (String c EmptyString)).
  by rewrite <- str_app_assoc.
Qed.
Lemma str_rev_cons c s : str_rev (String c s) = str_rev s +:+ String c EmptyString.
Proof. unfold str_rev at 1. cbn. apply str_rev_app_spec. Qed.
Lemma str_rev_append s t : str_rev (s +:+ t) = str_rev t +:+ str_rev s.
Proof.
  induction s as [|c s IH]; [by rewrite str_app_nil|]. rewrite str_app_cons, !str_rev_cons, IH. by rewrite str_app_assoc.
Qed.
Lemma str_rev_involutive s : str_rev (str_rev s) = s.
Proof. induction s as [|c s IH]; [done|]. rewrite str_rev_cons, str_rev_append, IH. done. Qed.
Lemma trim_left_part s : (∃ a, s = a +:+ trim_left s) ∧ trim_left (trim_left s) = trim_left s.
Proof.
  remember (String.length s) as n eqn:Hn. revert s Hn. induction (lt_wf n) as [n _ IH]. intros s ->.
  destruct s as [|c t]; [split; [by exists EmptyString|done]|].
  assert (∀ x y, String c t = x +:+ y -> (x ≠ EmptyString) -> trim_left (String c t) = trim_left y ->
    (∃ a, String c t = a +:+ trim_left (String c t)) ∧ trim_left (trim_left (String c t)) = trim_left (String c t)) as Hskip.
  { intros x y Hx Hne ->. edestruct (IH (String.length y)) as [[a Ha] Hy]; [|done|].
    - rewrite Hx. destruct x; [done|]. rewrite str_app_cons. cbn. rewrite str_app_length. lia.
    - split; [|done]. exists (x +:+ a). by rewrite <- str_app_assoc, <- Ha. }
  cbn [trim_left] in *. destruct (space1 c) eqn:E1; [by apply (Hskip (String c EmptyString) t)|].
  destruct t as [|d u]; [cbn; rewrite E1; by split; [exists EmptyString|]|].
  destruct (space2 c d) eqn:E2; [by apply (Hskip (String c (String d EmptyString)) u)|].
  destruct u as [|e v]; [cbn; rewrite E1, E2; by split; [exists EmptyString|]|].
  destruct (space3 c d e) eqn:E3; [by apply (Hskip (String c (String d (String e EmptyString))) v)|].
  cbn. rewrite E1, E2, E3. by split; [exists EmptyString|].
Qed.
Lemma trim_left_rev_part s : (∃ a, s = a +:+ trim_left_rev s) ∧ trim_left_rev (trim_left_rev s) = trim_left_rev s.
Proof.
  remember (String.length s) as n eqn:Hn. revert s Hn. induction (lt_wf n) as [n _ IH]. intros s ->.
  destruct s as [|c t]; [split; [by exists EmptyString|done]|].
  assert (∀ x y, String c t = x +:+ y -> (x ≠ EmptyString) -> trim_left_rev (String c t) = trim_left_rev y ->
    (∃ a, String c t = a +:+ trim_left_rev (String c t)) ∧ trim_left_rev (trim_left_rev (String c t)) = trim_left_rev (String c t)) as Hskip.
  { intros x y Hx Hne ->. edestruct (IH (String.length y)) as [[a Ha] Hy]; [|done|].
    - rewrite Hx. destruct x; [done|]. rewrite str_app_cons. cbn. rewrite str_app_length. lia.
    - split; [|done]. exists (x +:+ a). by rewrite <- str_app_assoc, <- Ha. }
  cbn [trim_left_rev] in *. destruct (space1 c) eqn:E1; [by apply (Hskip (String c EmptyString) t)|].
  destruct t as [|d u]; [cbn; rewrite E1; by split; [exists EmptyString|]|].
  destruct (space2 d c) eqn:E2; [by apply (Hskip (String c (String d EmptyString)) u)|].
  destruct u as [|e v]; [cbn; rewrite E1, E2; by split; [exists EmptyString|]|].
  destruct (space3 e d c) eqn:E3; [by apply (Hskip (String c (String d (String e EmptyString))) v)|].
  cbn. rewrite E1, E2, E3. by split; [exists EmptyString|].
Qed.
(** A prefix of a string that does not start with a space does not start with one. *)
Lemma trim_left_prefix s t : trim_left (s +:+ t) = s +:+ t -> trim_left s = s.
Proof.
  assert (∀ u v, trim_left u = v +:+ u -> v = EmptyString) as Hlen.
  { intros u v H. destruct (trim_left_part u) as [[a Ha] _]. rewrite H in Ha. apply (f_equal String.length) in Ha.
    rewrite !str_app_length in Ha. destruct v; [done|cbn in Ha; lia]. }
  destruct s as [|c s]; [done|]. rewrite str_app_cons. cbn [trim_left]. destruct (space1 c).
  { intros H. by apply (Hlen _ (String c EmptyString)) in H. }
  destruct s as [|d s]; [done|]. rewrite str_app_cons. destruct (space2 c d).
  { intros H. by apply (Hlen _ (String c (String d EmptyString))) in H. }
  destruct s as [|e s]; [done|]. rewrite str_app_cons. destruct (space3 c d e); [|done].
  intros H. by apply (Hlen _ (String c (String d (String e EmptyString)))) in H.
Qed.
Lemma trim_space_idemp s : trim_space (trim_space s) = trim_space s.
Proof.
  unfold trim_space at 2 3. destruct (trim_left_part s) as [_ Hl]. set (l := trim_left s) in *.
  destruct (trim_left_rev_part (str_rev l)) as [[a Ha] Hr]. set (r := trim_left_rev (str_rev l)) in *.
  unfold trim_space. rewrite (trim_left_prefix (str_rev r) (str_rev a)).
  - by rewrite str_rev_involutive, Hr.
  - by rewrite <- str_rev_append, <- Ha, str_rev_involutive.
Qed.
Lemma trim_space_blank s : trim_space s ≠ EmptyString -> blank (trim_space s) = false.
Proof. intros H. unfold blank. by rewrite bool_decide_eq_false_2 by (by rewrite trim_space_idemp). Qed.
