(* ===== verification/Base64.v ===== *)
(** * Unpadded base64

    encoding/base64, RawStdEncoding and RawURLEncoding: the alphabets, the groups
    of three bytes, and the decoder, which skips line breaks and ignores the
    unused bits of a short last group. *)

From S2P Require Import Prelude GoStrings.
From Stdlib Require Import Ascii.
Local Open Scope Z_scope.

Module Base64.
Inductive alphabet := StdAlphabet | UrlAlphabet.

Definition char_of (z : Z) : ascii := Ascii.ascii_of_N (Z.to_N z).
Definition byte (c : ascii) : Z := Z.of_N (code c).
(** A-Z, a-z, 0-9 and two more. *)
Definition enc_char (a : alphabet) (s : Z) : ascii :=
  char_of (if s <? 26 then 65 + s else if s <? 52 then 71 + s else if s <? 62 then s - 4
           else match a with
                | StdAlphabet => if s =? 62 then 43 else 47
                | UrlAlphabet => if s =? 62 then 45 else 95
                end).
Definition dec_char (a : alphabet) (c : ascii) : option Z :=
  let z := byte c in
  if (65 <=? z) && (z <=? 90) then Some (z - 65)
  else if (97 <=? z) && (z <=? 122) then Some (z - 71)
  else if (48 <=? z) && (z <=? 57) then Some (z + 4)
  else let '(x, y) := match a with StdAlphabet => (43, 47) | UrlAlphabet => (45, 95) end in
       if z =? x then Some 62 else if z =? y then Some 63 else None.

Fixpoint encode_groups (bs : list Z) : list Z :=
  match bs with
  | a :: b :: c :: rest =>
      a / 4 :: (a mod 4) * 16 + b / 16 :: (b mod 16) * 4 + c / 64 :: c mod 64 :: encode_groups rest
  | [a; b] => [a / 4; (a mod 4) * 16 + b / 16; (b mod 16) * 4]
  | [a] => [a / 4; (a mod 4) * 16]
  | [] => []
  end.
Fixpoint decode_groups (ss : list Z) : option (list Z) :=
  match ss with
  | s :: t :: u :: v :: rest =>
      (fun bs => s * 4 + t / 16 :: (t mod 16) * 16 + u / 4 :: (u mod 4) * 64 + v :: bs) <$> decode_groups rest
  | [s; t; u] => Some [s * 4 + t / 16; (t mod 16) * 16 + u / 4]
  | [s; t] => Some [s * 4 + t / 16]
  | [_] => None
  | [] => Some []
  end.

Fixpoint bytes (s : string) : list Z :=
  match s with EmptyString => [] | String c t => byte c :: bytes t end.
Fixpoint of_bytes (bs : list Z) : string :=
  match bs with [] => EmptyString | b :: bs => String (char_of b) (of_bytes bs) end.
Fixpoint chars (s : string) : list ascii :=
  match s with EmptyString => [] | String c t => c :: chars t end.
Fixpoint of_chars (cs : list ascii) : string :=
  match cs with [] => EmptyString | c :: cs => String c (of_chars cs) end.

Definition EncodeToString (a : alphabet) (src : string) : string := of_chars (enc_char a <$> encode_groups (bytes src)).
Definition line_break (c : ascii) : bool := is_char 10 c || is_char 13 c.
Definition DecodeString (a : alphabet) (s : string) : option string :=
  ss ← mapM (dec_char a) (filter (fun c => line_break c = false) (chars s));
  of_bytes <$> decode_groups ss.

(** ** Round trip *)
Ltac Zify.zify_post_hook ::= Z.to_euclidean_division_equations.

Definition sextet (s : Z) : Prop := 0 <= s < 64.
Definition octet (b : Z) : Prop := 0 <= b < 256.

Lemma byte_octet c : octet (byte c).
Proof. unfold byte, octet, code. pose proof (Ascii.N_ascii_bounded c). lia. Qed.
Lemma byte_char z : octet z -> byte (char_of z) = z.
Proof. intros [H1 H2]. unfold byte, char_of, code. rewrite Ascii.N_ascii_embedding; lia. Qed.
Lemma char_byte c : char_of (byte c) = c.
Proof. unfold byte, char_of, code. by rewrite N2Z.id, Ascii.ascii_N_embedding. Qed.

Lemma group_sextets bs : Forall octet bs -> Forall sextet (encode_groups bs).
Proof.
  intros H. induction bs as [bs IH] using (induction_ltof1 _ length).
  destruct bs as [|a [|b [|c rest]]]; cbn; unfold sextet;
    rewrite ?Forall_cons in H; unfold octet in H; repeat constructor; try lia.
  apply IH; [unfold ltof; cbn; lia|tauto].
Qed.
Lemma group_round_trip bs : Forall octet bs -> decode_groups (encode_groups bs) = Some bs.
Proof.
  intros H. induction bs as [bs IH] using (induction_ltof1 _ length).
  destruct bs as [|a [|b [|c rest]]]; cbn; rewrite ?Forall_cons in H; unfold octet in H.
  - done.
  - do 2 f_equal; lia.
  - repeat f_equal; lia.
  - rewrite IH; [cbn; repeat f_equal; lia|unfold ltof; cbn; lia|tauto].
Qed.
Lemma enc_byte a s : sextet s -> let z := byte (enc_char a s) in
  z = (if s <? 26 then 65 + s else if s <? 52 then 71 + s else if s <? 62 then s - 4
           else match a with
                | StdAlphabet => if s =? 62 then 43 else 47
                | UrlAlphabet => if s =? 62 then 45 else 95
                end).
Proof.
  intros H. unfold sextet in H. unfold enc_char. cbv zeta. apply byte_char. unfold octet.
  destruct a; repeat case_match; lia.
Qed.
Lemma char_round_trip a s : sextet s -> dec_char a (enc_char a s) = Some s.
Proof.
  intros H. pose proof (enc_byte a s H) as E. cbv zeta in E. unfold dec_char. rewrite E. unfold sextet in H.
  clear E. destruct a; repeat case_match; simplify_eq; try (f_equal; lia); exfalso; lia.
Qed.
Lemma char_no_break a s : sextet s -> line_break (enc_char a s) = false.
Proof.
  intros H. pose proof (enc_byte a s H) as E. cbv zeta in E. unfold line_break, is_char. unfold byte in E.
  unfold sextet in H. apply orb_false_iff. split; apply N.eqb_neq; intros Hc; rewrite Hc in E;
    destruct a; repeat case_match; lia.
Qed.
Lemma of_bytes_bytes s : of_bytes (bytes s) = s.
Proof. induction s as [|c s IH]; cbn; [done|]. by rewrite char_byte, IH. Qed.
Lemma chars_of_chars cs : chars (of_chars cs) = cs.
Proof. induction cs as [|c cs IH]; cbn; [done|]. by rewrite IH. Qed.
Lemma bytes_octets s : Forall octet (bytes s).
Proof. induction s; cbn; constructor; [apply byte_octet|done]. Qed.

(** Decoding gives back what was encoded. *)
Lemma decode_encode a src : DecodeString a (EncodeToString a src) = Some src.
Proof.
  pose proof (group_sextets _ (bytes_octets src)) as Hs. unfold DecodeString, EncodeToString. rewrite chars_of_chars.
  assert (E : filter (fun c => line_break c = false) (enc_char a <$> encode_groups (bytes src)) =
              enc_char a <$> encode_groups (bytes src)).
  { induction Hs as [|s ss H _ IH]; [done|]. rewrite fmap_cons, filter_cons_True; [by rewrite IH|by apply char_no_break]. }
  rewrite E. assert (Em : mapM (dec_char a) (enc_char a <$> encode_groups (bytes src)) = Some (encode_groups (bytes src))).
  { clear E. induction Hs as [|s ss H _ IH]; [done|]. cbn. by rewrite char_round_trip, IH. }
  rewrite Em. cbn. rewrite group_round_trip by apply bytes_octets. cbn. by rewrite of_bytes_bytes.
Qed.

(** *** Lengths and characters *)
Lemma length_encode a src n : String.length src = (3 * n + 2)%nat -> String.length (EncodeToString a src) = (4 * n + 3)%nat.
Proof.
  unfold EncodeToString. assert (H1 : ∀ cs, String.length (of_chars cs) = length cs) by (induction cs; cbn; congruence).
  assert (H2 : ∀ s, length (bytes s) = String.length s) by (induction s; cbn; congruence).
  rewrite H1, length_fmap, <- H2. generalize (bytes src) as bs. clear.
  induction n as [|n IH]; intros bs H.
  - by destruct bs as [|? [|? [|]]].
  - destruct bs as [|? [|? [|? bs]]]; cbn in H; try lia. cbn. rewrite IH; lia.
Qed.
(** Characters outside the alphabets do not occur. *)
Fixpoint has_char (k : Z) (s : string) : bool :=
  match s with EmptyString => false | String c t => (byte c =? k) || has_char k t end.
Lemma encode_without a src k : k < 43 -> has_char k (EncodeToString a src) = false.
Proof.
  intros Hk. unfold EncodeToString. pose proof (group_sextets _ (bytes_octets src)) as Hs.
  induction Hs as [|s ss H _ IH]; [done|]. cbn. rewrite IH, orb_false_r. apply Z.eqb_neq.
  rewrite (enc_byte a s H). unfold sextet in H. destruct a; repeat case_match; lia.
Qed.
End Base64.
