(* ===== verification/Operation.v ===== *)
(** * Operation steps

    internal/biz/inference/operation.go and model.go: the persisted vocabulary
    of an operation (phase, step, kind), the step path of every kind and the
    guard every persisted transition has to pass.  The abstract specification
    is the relation [op_edge]; [op_run] closes it under retries. *)

From S2P Require Import Prelude.
From stdpp Require Import relations.
Local Open Scope Z_scope.

Module Operation.

(** ** Vocabulary

    The Go types [OperationPhase] and [OperationStep] are strings, and so are
    the database columns: a value outside the constants is representable. *)
Definition OperationPending : string := "pending".
Definition OperationRunning : string := "running".
Definition OperationSucceeded : string := "succeeded".
Definition OperationFailed : string := "failed".

Definition StepAdmission : string := "admission".
Definition StepReserveQuota : string := "reserve_quota".
Definition StepResolveGPU : string := "resolve_gpu".
Definition StepApplyCR : string := "apply_cr".
Definition StepMaterializeModel : string := "materialize_model".
Definition StepApplyRuntime : string := "apply_runtime".
Definition StepObserveRuntime : string := "observe_runtime".
Definition StepWithdrawPublication : string := "withdraw_publication".
Definition StepDeleteRuntime : string := "delete_runtime".
Definition StepObserveAbsence : string := "observe_absence".
Definition StepDeleteCR : string := "delete_cr".
Definition StepPublish : string := "publish".
Definition StepReleaseQuota : string := "release_quota".
Definition StepReleasePreviousQuota : string := "release_previous_quota".
Definition StepComplete : string := "complete".

(** [operationPaths]: the ordered steps of each kind. *)
Definition start_path : list string :=
  [StepReserveQuota; StepResolveGPU; StepApplyCR; StepMaterializeModel; StepApplyRuntime;
   StepObserveRuntime; StepPublish; StepComplete].
Definition teardown_path : list string :=
  [StepWithdrawPublication; StepDeleteRuntime; StepObserveAbsence].

Definition operationPaths (kind : string) : option (list string) :=
  if bool_decide (kind = "create") then Some (StepAdmission :: start_path)
  else if bool_decide (kind = "start") then Some start_path
  else if bool_decide (kind = "update") || bool_decide (kind = "restart") then
    Some (teardown_path ++ StepReleasePreviousQuota :: start_path)
  else if bool_decide (kind = "stop") then
    Some (teardown_path ++ [StepReleaseQuota; StepComplete])
  else if bool_decide (kind = "delete") then
    Some (teardown_path ++ [StepDeleteCR; StepReleaseQuota; StepComplete])
  else None.

(** The index of [step] in [path], -1 when it is not there. *)
Fixpoint operationStepIndex_from (i : Z) (path : list string) (step : string) : Z :=
  match path with
  | [] => -1
  | candidate :: rest =>
      if bool_decide (candidate = step) then i else operationStepIndex_from (i + 1) rest step
  end.
Definition operationStepIndex (path : list string) (step : string) : Z :=
  operationStepIndex_from 0 path step.

Definition ValidateOperationStepTransition
    (kind fromPhase fromStep toPhase toStep : string) : result unit :=
  match operationPaths kind with
  | None => Err (errorf ("unknown operation kind " +:+ quoted kind))
  | Some path =>
      let len := Z.of_nat (length path) in
      if negb (bool_decide (fromPhase = OperationPending))
         && negb (bool_decide (fromPhase = OperationRunning)) then
        Err (errorf ("operation phase " +:+ quoted fromPhase +:+ " is not active"))
      else
      let from := operationStepIndex path fromStep in
      if (from <? 0) || (len - 1 <=? from) then
        Err (errorf ("step " +:+ quoted fromStep +:+ " is not an active step for " +:+ kind))
      else if bool_decide (toPhase = OperationFailed) then
        if negb (bool_decide (toStep = StepComplete)) then
          Err (errorf ("failed operation must use " +:+ quoted StepComplete +:+ " step"))
        else Ok tt
      else if bool_decide (toPhase = OperationSucceeded) then
        if negb (bool_decide (fromPhase = OperationRunning))
           || negb (bool_decide (toStep = StepComplete)) || negb (from =? len - 2) then
          Err (errorf ("cannot succeed " +:+ kind +:+ " from " +:+ fromPhase +:+ "/" +:+ fromStep))
        else Ok tt
      else if bool_decide (toPhase = OperationPending) then
        Err (errorf "running operation cannot return to pending; use retry")
      else if negb (bool_decide (toPhase = OperationRunning)) then
        Err (errorf ("unsupported target phase " +:+ quoted toPhase))
      else
      let to := operationStepIndex path toStep in
      if (to <? 0) || (len - 1 <=? to) then
        Err (errorf ("step " +:+ quoted toStep +:+ " is not an active step for " +:+ kind))
      else if bool_decide (fromPhase = OperationPending) then
        if negb (from =? to) then
          Err (errorf ("pending operation must be claimed at step " +:+ quoted fromStep +:+ " before advancing"))
        else Ok tt
      else if bool_decide (fromStep = StepReserveQuota) && bool_decide (toStep = StepApplyCR)
              && bool_decide (path !! Z.to_nat (from + 1) = Some StepResolveGPU) then
        Ok tt
      else if negb (to =? from + 1) then
        Err (errorf ("operation " +:+ kind +:+ " must advance from " +:+ quoted fromStep
                     +:+ " to " +:+ quoted (default "" (path !! Z.to_nat (from + 1)))))
      else Ok tt
  end.

(** ** Abstract specification *)

Abbreviation op_state := (string * string)%type.

(** One persisted transition of an operation whose kind has path [path]. *)
Inductive op_edge (path : list string) : op_state -> op_state -> Prop :=
  | edge_claim i s :
      path !! i = Some s -> (S i < length path)%nat ->
      op_edge path (OperationPending, s) (OperationRunning, s)
  | edge_advance i s s' :
      path !! i = Some s -> path !! S i = Some s' -> (S (S i) < length path)%nat ->
      op_edge path (OperationRunning, s) (OperationRunning, s')
  | edge_compat i j :
      path !! i = Some StepReserveQuota -> path !! S i = Some StepResolveGPU ->
      path !! j = Some StepApplyCR -> (S j < length path)%nat ->
      op_edge path (OperationRunning, StepReserveQuota) (OperationRunning, StepApplyCR)
  | edge_succeed i s :
      path !! i = Some s -> S (S i) = length path ->
      op_edge path (OperationRunning, s) (OperationSucceeded, StepComplete)
  | edge_fail i p s :
      p = OperationPending ∨ p = OperationRunning ->
      path !! i = Some s -> (S i < length path)%nat ->
      op_edge path (p, s) (OperationFailed, StepComplete).

(** A history of one operation: valid transitions and retries, which put an
    active operation back to pending at its step.  [op_run path tr st] reads:
    [st] is reached from the accepted operation through the states [tr]
    (most recent first, [st] included). *)
Inductive op_run (path : list string) : list op_state -> op_state -> Prop :=
  | run_start s : path !! 0%nat = Some s -> op_run path [(OperationPending, s)] (OperationPending, s)
  | run_edge tr st st' : op_run path tr st -> op_edge path st st' -> op_run path (st' :: tr) st'
  | run_retry tr p s :
      op_run path tr (p, s) -> p = OperationPending ∨ p = OperationRunning ->
      op_run path ((OperationPending, s) :: tr) (OperationPending, s).

(** ** The guard implements the specification *)

Lemma index_from_found i path k step :
  NoDup path -> path !! k = Some step ->
  operationStepIndex_from i path step = i + Z.of_nat k.
Proof.
  revert i k. induction path as [|c path IH]; intros i k Hnd Hk; [done|].
  apply NoDup_cons in Hnd as [Hc Hnd]. cbn. destruct k as [|k]; simplify_eq/=.
  - rewrite bool_decide_true by done. lia.
  - rewrite bool_decide_false; [rewrite (IH _ k) by done; lia|].
    intros ->. apply Hc. by eapply list_elem_of_lookup_2.
Qed.

Lemma index_found path k step :
  NoDup path -> path !! k = Some step -> operationStepIndex path step = Z.of_nat k.
Proof. intros. unfold operationStepIndex. by erewrite index_from_found. Qed.

Lemma index_from_lookup i path step :
  0 <= i -> operationStepIndex_from i path step = -1 ∨
  ∃ k, operationStepIndex_from i path step = i + Z.of_nat k ∧ path !! k = Some step.
Proof.
  revert i. induction path as [|c path IH]; intros i Hi; [by left|].
  cbn. case_bool_decide as Hc; [right; exists 0%nat; subst; split; [lia|done]|].
  destruct (IH (i + 1)) as [?|(k & Hk & ?)]; [lia|by left|].
  right. exists (S k). split; [lia|done].
Qed.

Lemma index_lookup path step :
  operationStepIndex path step = -1 ∨
  ∃ k, operationStepIndex path step = Z.of_nat k ∧ path !! k = Some step.
Proof. apply (index_from_lookup 0). lia. Qed.

(** The facts about the concrete paths that the proofs use. *)
Record good_path (path : list string) : Prop := {
  path_nodup : NoDup path;
  path_compat : ∀ i j, path !! i = Some StepReserveQuota ->
    path !! j = Some StepApplyCR -> j = S (S i);
  path_long : (1 < length path)%nat;
}.

Lemma operationPaths_good kind path : operationPaths kind = Some path -> good_path path.
Proof.
  unfold operationPaths. intros H.
  repeat (case_bool_decide; simplify_eq/=);
    (split; [apply (bool_decide_unpack _); by vm_compute | | cbn; lia]);
    intros i j Hi Hj;
    do 13 (try (destruct i as [|i]; simplify_eq/=));
    do 13 (try (destruct j as [|j]; simplify_eq/=)); done.
Qed.

(** Evaluates the guard once the index of each step is known. *)
Ltac guard_eval :=
  repeat first
    [ rewrite bool_decide_true by done
    | rewrite bool_decide_false by done
    | match goal with
      | |- context [?a <? ?b] => first
          [ rewrite (proj2 (Z.ltb_lt a b)) by lia | rewrite (proj2 (Z.ltb_ge a b)) by lia ]
      | |- context [?a <=? ?b] => first
          [ rewrite (proj2 (Z.leb_le a b)) by lia | rewrite (proj2 (Z.leb_gt a b)) by lia ]
      | |- context [?a =? ?b] => first
          [ rewrite (proj2 (Z.eqb_eq a b)) by lia | rewrite (proj2 (Z.eqb_neq a b)) by lia ]
      end
    | progress cbn [negb andb orb] ].

Lemma edge_validates kind path a b :
  operationPaths kind = Some path -> op_edge path a b ->
  ValidateOperationStepTransition kind a.1 a.2 b.1 b.2 = Ok tt.
Proof.
  intros Hp He. pose proof (operationPaths_good _ _ Hp) as [Hnd Hco _].
  unfold ValidateOperationStepTransition. rewrite Hp.
  destruct He as [i s Hi Hl|i s s' Hi Hj Hl|i j Hi Hr Hj Hl|i s Hi Hl|i p s Hpr Hi Hl]; cbn [fst snd].
  - rewrite !(index_found _ _ _ Hnd Hi). by guard_eval.
  - rewrite (index_found _ _ _ Hnd Hi), (index_found _ _ _ Hnd Hj). guard_eval.
    by repeat case_match.
  - pose proof (Hco _ _ Hi Hj) as ->.
    rewrite (index_found _ _ _ Hnd Hi), (index_found _ _ _ Hnd Hj).
    replace (Z.to_nat (Z.of_nat i + 1)) with (S i) by lia. rewrite Hr. by guard_eval.
  - rewrite (index_found _ _ _ Hnd Hi). by guard_eval.
  - rewrite (index_found _ _ _ Hnd Hi). destruct Hpr; subst; by guard_eval.
Qed.

(** Splits the boolean tests of a successful guard in [H]. *)
Ltac guard_inv H :=
  repeat match type of H with
    | context [if ?b then _ else _] => destruct b eqn:?; try discriminate H
    end;
  rewrite ?orb_false_iff, ?andb_false_iff, ?andb_true_iff, ?negb_false_iff, ?negb_true_iff,
    ?bool_decide_eq_true, ?bool_decide_eq_false, ?Z.ltb_ge, ?Z.leb_gt, ?Z.eqb_eq in *;
  destruct_and?; subst.

Lemma validates_edge kind path fp fs tp ts :
  operationPaths kind = Some path ->
  ValidateOperationStepTransition kind fp fs tp ts = Ok tt -> op_edge path (fp, fs) (tp, ts).
Proof.
  intros Hp H. unfold ValidateOperationStepTransition in H. rewrite Hp in H.
  destruct (index_lookup path fs) as [Hf|(i & Hf & Hi)]; rewrite Hf in H; [guard_inv H; lia|].
  destruct (index_lookup path ts) as [Ht|(j & Ht & Hj)]; rewrite Ht in H; guard_inv H;
    try lia.
  all: try (by destruct_or!; eapply edge_fail; eauto; try lia).
  all: try (by eapply edge_succeed; eauto; lia).
  all: try (assert (i = j) by lia; simplify_eq; eapply edge_claim; eauto; lia).
  all: destruct_or!; subst; try done.
  { replace (Z.to_nat (Z.of_nat i + 1)) with (S i) in * by lia.
    eapply edge_compat; eauto; lia. }
  all: assert (j = S i) by lia; subst; eapply edge_advance; eauto; lia.
Qed.
(** Claim C25.  [ValidateOperationStepTransition] accepts exactly the edges of
    the specification: claim at the same step, one step forward along the path
    of the kind (or the reserve_quota to apply_cr shortcut), success from the
    last active step, and failure of an active operation; every other pair of
    states, and every unknown kind, is refused. *)
Theorem validate_iff_edge kind fp fs tp ts :
  ValidateOperationStepTransition kind fp fs tp ts = Ok tt <->
  ∃ path, operationPaths kind = Some path ∧ op_edge path (fp, fs) (tp, ts).
Proof.
  split.
  - intros H. destruct (operationPaths kind) as [path|] eqn:Hp.
    + exists path. split; [done|]. by eapply validates_edge.
    + unfold ValidateOperationStepTransition in H. by rewrite Hp in H.
  - intros (path & Hp & He). exact (edge_validates _ _ _ _ Hp He).
Qed.

(** ** Runs *)

Section Runs.
  Context (path : list string) (Hgood : good_path path).

  (** The states a run has to pass through before step number [n]. *)
Definition required (n : nat) : list op_state :=
    pair OperationRunning <$> filter (.≠ StepResolveGPU) (take n path).

Lemma required_S n s :
    path !! n = Some s ->
    required (S n) = required n ++
      (if decide (s ≠ StepResolveGPU) then [(OperationRunning, s)] else []).
  Proof.
    intros Hs. unfold required. rewrite (take_S_r _ _ _ Hs), filter_app, fmap_app.
    f_equal. rewrite filter_cons, filter_nil. by case_decide.
  Qed.

  (** A run at a step has passed every earlier step in order. *)
Definition run_inv (tr : list op_state) (st : op_state) : Prop :=
    (st.1 = OperationPending ->
      ∃ i, path !! i = Some st.2 ∧ (S i < length path)%nat ∧ required i `sublist_of` reverse tr) ∧
    (st.1 = OperationRunning ->
      ∃ i, path !! i = Some st.2 ∧ (S i < length path)%nat ∧ required (S i) `sublist_of` reverse tr) ∧
    (st.1 = OperationSucceeded -> required (pred (length path)) `sublist_of` reverse tr).

Lemma required_extend n s tr :
    path !! n = Some s -> required n `sublist_of` reverse tr ->
    required (S n) `sublist_of` reverse ((OperationRunning, s) :: tr).
  Proof.
    intros Hs Hsub. rewrite (required_S _ _ Hs), reverse_cons.
    apply sublist_app; [done|]. case_decide; [done|]. apply sublist_nil_l.
  Qed.

Lemma required_weaken n st tr :
    required n `sublist_of` reverse tr -> required n `sublist_of` reverse (st :: tr).
  Proof. intros H. rewrite reverse_cons. by apply sublist_inserts_r. Qed.

Lemma index_unique i j s : path !! i = Some s -> path !! j = Some s -> i = j.
  Proof. destruct Hgood. intros. by eapply NoDup_lookup. Qed.

Lemma run_inv_edge tr st st' :
    run_inv tr st -> op_edge path st st' -> run_inv (st' :: tr) st'.
  Proof.
    intros (HP & HR & _) He.
    destruct He as [i s Hi Hl|i s s' Hi Hj Hl|i j Hi Hr Hj Hl|i s Hi Hl|]; cbn [fst snd] in *;
      (split; [done|split; [try done|try done]]); intros _.
    - destruct (HP eq_refl) as (k & Hk & _ & Hsub). exists k.
      split_and!; [done| |by apply required_extend].
      by rewrite (index_unique k i s).
    - destruct (HR eq_refl) as (k & Hk & _ & Hsub).
      rewrite (index_unique k i s) in Hsub by done.
      exists (S i). split_and!; [done|done|]. by apply required_extend.
    - destruct (HR eq_refl) as (k & Hk & _ & Hsub).
      rewrite (index_unique k i StepReserveQuota) in Hsub by done.
      pose proof (path_compat _ Hgood _ _ Hi Hj) as ->.
      exists (S (S i)). split_and!; [done|done|].
      apply required_extend; [done|]. rewrite (required_S _ _ Hr).
      rewrite decide_False by naive_solver. by rewrite app_nil_r.
    - destruct (HR eq_refl) as (k & Hk & _ & Hsub).
      rewrite (index_unique k i s) in Hsub by done.
      rewrite <- Hl. by apply required_weaken.
  Qed.

Lemma op_run_inv tr st : op_run path tr st -> run_inv tr st.
  Proof.
    induction 1 as [s Hs|tr st st' _ IH He|tr p s _ IH Hp].
    - split; [|done]. intros _. exists 0%nat.
      split_and!; [done|apply Hgood|apply sublist_nil_l].
    - by eapply run_inv_edge.
    - destruct IH as (HP & HR & _). split; [|done]. intros _.
      destruct Hp as [-> | ->]; [destruct (HP eq_refl) as (i & Hi & Hl & Hsub)
                                |destruct (HR eq_refl) as (i & Hi & Hl & Hsub)];
        exists i; (split_and!; [done|done|]); apply required_weaken; [done|].
      cbn in Hi. rewrite (required_S _ _ Hi) in Hsub.
      etrans; [|done]. by apply sublist_inserts_r.
  Qed.

  (** How many transitions a state still has before it. *)
Definition rank_is (st : op_state) (n : nat) : Prop :=
    (st.1 = OperationPending ∧ ∃ i, path !! i = Some st.2 ∧ n = (length path - i)%nat) ∨
    (st.1 = OperationRunning ∧ ∃ i, path !! i = Some st.2 ∧ S n = (length path - i)%nat) ∨
    ((st.1 = OperationSucceeded ∨ st.1 = OperationFailed) ∧ n = 0%nat).

Lemma op_edge_rank st st' n :
    op_edge path st st' -> rank_is st n -> ∃ m, (m < n)%nat ∧ rank_is st' m.
  Proof.
    intros He Hn.
    destruct He as [i s Hi Hl|i s s' Hi Hj Hl|i j Hi Hr Hj Hl|i s Hi Hl|i p s Hp Hi Hl];
      destruct Hn as [[Hc (k & Hk & ->)]|[[Hc (k & Hk & Hn)]|[[Hc|Hc] ->]]]; cbn [fst snd] in *;
      try done; try (by destruct Hp; subst);
      rewrite (index_unique k i _ Hk Hi) in *.
    - exists (length path - i - 1)%nat. split; [lia|]. right; left. split; [done|].
      exists i. split; [done|]. cbn. lia.
    - exists (n - 1)%nat. split; [lia|]. right; left. split; [done|].
      exists (S i). split; [done|]. lia.
    - pose proof (path_compat _ Hgood _ _ Hi Hj) as ->.
      exists (n - 2)%nat. split; [lia|]. right; left. split; [done|].
      exists (S (S i)). split; [done|]. lia.
    - exists 0%nat. split; [lia|]. right; right. split; [by left|done].
    - exists 0%nat. split; [lia|]. right; right. split; [by right|done].
    - exists 0%nat. split; [lia|]. right; right. split; [by right|done].
  Qed.

Lemma op_edge_source st st' : op_edge path st st' -> ∃ n, rank_is st n.
  Proof.
    intros [i s Hi Hl|i s s' Hi Hj Hl|i j Hi Hr Hj Hl|i s Hi Hl|i p s Hp Hi Hl];
      pose proof (lookup_lt_Some _ _ _ Hi).
    1: exists (length path - i)%nat; left; eauto.
    1-3: exists (length path - i - 1)%nat; right; left; (split; [done|]); exists i; (split; [done|]); cbn; lia.
    destruct Hp as [-> | ->]; [exists (length path - i)%nat; left; eauto|].
    exists (length path - i - 1)%nat. right; left. split; [done|]. exists i. split; [done|]. lia.
  Qed.

Lemma rank_unique st n m : rank_is st n -> rank_is st m -> n = m.
  Proof.
    intros [[E (k & Hk & ->)]|[[E (k & Hk & Hn)]|[E ->]]] [[E' (k' & Hk' & ->)]|[[E' (k' & Hk' & Hm)]|[E' ->]]];
      repeat match goal with H : _ ∨ _ |- _ => destruct H as [H|H] end; try done; try (by rewrite E in E');
      rewrite (index_unique k k' _ Hk Hk') in *; lia.
  Qed.

Lemma rank_bounded st n i : rank_is st n -> path !! i = Some st.2 -> (n <= length path - i)%nat.
  Proof.
    intros [[_ (k & Hk & ->)]|[[_ (k & Hk & Hn)]|[_ ->]]] Hi; try (pose proof (index_unique k i _ Hk Hi)); lia.
  Qed.

Lemma rank_total st n : rank_is st n -> (n <= length path)%nat.
  Proof. intros [[_ (k & _ & ->)]|[[_ (k & _ & Hn)]|[_ ->]]]; lia. Qed.
End Runs.

(** An operation that succeeded was running at every step of its
    path, in order, whatever the retries and claims in between: the only step
    a worker may have skipped is resolve_gpu. *)
Theorem succeeded_ran_every_step kind path tr :
  operationPaths kind = Some path ->
  op_run path tr (OperationSucceeded, StepComplete) ->
  (pair OperationRunning <$> filter (.≠ StepResolveGPU) (take (pred (length path)) path))
    `sublist_of` reverse tr.
Proof.
  intros Hp Hrun. apply operationPaths_good in Hp.
  exact (proj2 (proj2 (op_run_inv path Hp _ _ Hrun)) eq_refl).
Qed.

(** A stop that withdraws, fails to delete once, retries and completes. *)
Definition stop_history : list op_state :=
  [(OperationSucceeded, StepComplete); (OperationRunning, StepReleaseQuota);
   (OperationRunning, StepObserveAbsence); (OperationRunning, StepDeleteRuntime);
   (OperationPending, StepDeleteRuntime); (OperationRunning, StepDeleteRuntime);
   (OperationRunning, StepWithdrawPublication); (OperationPending, StepWithdrawPublication)].

Lemma stop_history_run :
  op_run (teardown_path ++ [StepReleaseQuota; StepComplete]) stop_history
    (OperationSucceeded, StepComplete).
Proof.
  eapply run_edge; [|by apply (edge_succeed _ 3); cbn; try lia].
  eapply run_edge; [|by apply (edge_advance _ 2); cbn; try lia].
  eapply run_edge; [|by apply (edge_advance _ 1); cbn; try lia].
  eapply run_edge; [|by apply (edge_claim _ 1); cbn; try lia].
  eapply run_retry; [|by right].
  eapply run_edge; [|by apply (edge_advance _ 0); cbn; try lia].
  eapply run_edge; [|by apply (edge_claim _ 0); cbn; try lia].
  by constructor.
Defined.

Lemma succeeded_ran_every_step_witness :
  [(OperationRunning, StepWithdrawPublication); (OperationRunning, StepDeleteRuntime);
   (OperationRunning, StepObserveAbsence); (OperationRunning, StepReleaseQuota)]
    `sublist_of` reverse stop_history.
Proof. exact (succeeded_ran_every_step "stop" _ _ eq_refl stop_history_run). Defined.

(** What the store lets an operation of a kind do: transitions the guard accepts,
    and retries, which put an active operation back to pending at its step.
    [a] counts the transitions, [r] the retries. *)
Inductive guarded (kind : string) (st : op_state) : nat -> nat -> op_state -> Prop :=
  | guarded_refl : guarded kind st 0 0 st
  | guarded_step a r p q : guarded kind st a r p ->
      ValidateOperationStepTransition kind p.1 p.2 q.1 q.2 = Ok tt -> guarded kind st (S a) r q
  | guarded_retry a r p s : guarded kind st a r (p, s) -> p = OperationPending ∨ p = OperationRunning ->
      guarded kind st a (S r) (OperationPending, s).

Lemma guarded_rank kind path st a r q :
  operationPaths kind = Some path -> guarded kind st a r q ->
  (a <= S r * length path)%nat ∧ (∀ n, rank_is path q n -> (a + n <= S r * length path)%nat) ∧
  (r = 0%nat -> ∀ m, rank_is path st m -> (a <= m)%nat ∧ ∃ n, rank_is path q n ∧ (a + n <= m)%nat).
Proof.
  intros Hp. pose proof (operationPaths_good _ _ Hp) as Hg.
  induction 1 as [|a r p q _ (IH1 & IH2 & IH3) Hv|a r p s _ (IH1 & IH2 & _) Hact].
  - split_and!; [lia|intros n Hn%rank_total; lia|]. intros _ m Hm. split; [lia|]. exists m. split; [done|lia].
  - destruct p as [fp fs], q as [tp ts]. apply (validates_edge _ _ _ _ _ _ Hp) in Hv.
    destruct (op_edge_source _ _ _ Hv) as [n0 Hn0].
    destruct (op_edge_rank path Hg _ _ _ Hv Hn0) as (m0 & Hlt & _). specialize (IH2 _ Hn0). split_and!; [lia| |].
    + intros n Hn. destruct (op_edge_rank path Hg _ _ _ Hv Hn0) as (m1 & Hlt1 & Hm1).
      rewrite (rank_unique path Hg _ _ _ Hn Hm1). lia.
    + intros Hr m Hm. destruct (IH3 Hr m Hm) as (_ & n & Hn & Hle).
      destruct (op_edge_rank path Hg _ _ _ Hv Hn) as (m1 & Hlt1 & Hm1). split; [lia|]. exists m1. split; [done|lia].
  - split_and!; [nia|intros n Hn%rank_total; nia|done].
Qed.

Lemma guarded_source kind path st a q :
  operationPaths kind = Some path -> guarded kind st a 0 q -> a = 0%nat ∨ ∃ m, rank_is path st m.
Proof.
  intros Hp H. remember 0%nat as r eqn:Hr in H. induction H as [|a r p q H IH Hv|]; [by left| |done].
  destruct (IH Hr) as [->|?]; [right|by right]. subst r. inversion H; subst.
  destruct p as [fp fs], q as [tp ts]. by eapply op_edge_source, validates_edge.
Qed.
(** Claim C28.  Progress is bounded.  Whatever state an operation is in, and
    whatever sequence of transitions the guard accepts for it, interrupted by any
    number of retries: between two retries, and before the first and after the
    last, there are at most as many transitions as its path has steps from where
    it stands, and never more than the path is long; with [r] retries at most
    [r + 1] times the length of the path. *)
Theorem transitions_bounded kind path st a r q :
  operationPaths kind = Some path -> guarded kind st a r q ->
  (a <= S r * length path)%nat ∧
  (r = 0%nat -> ∀ i, path !! i = Some st.2 -> (a <= length path - i)%nat).
Proof.
  intros Hp H. pose proof (operationPaths_good _ _ Hp) as Hg.
  destruct (guarded_rank _ _ _ _ _ _ Hp H) as (H1 & _ & H3). split; [done|]. intros -> i Hi.
  destruct (guarded_source _ _ _ _ _ Hp H) as [->|[m Hm]]; [lia|].
  destruct (H3 eq_refl m Hm) as [Hle _]. pose proof (rank_bounded path Hg _ _ _ Hm Hi). lia.
Qed.

(** The history of [stop_history]: six accepted transitions around one retry. *)
Lemma stop_guarded :
  guarded "stop" (OperationPending, StepWithdrawPublication) 6 1 (OperationSucceeded, StepComplete).
Proof.
  apply guarded_step with (p := (OperationRunning, StepReleaseQuota)); [|reflexivity].
  apply guarded_step with (p := (OperationRunning, StepObserveAbsence)); [|reflexivity].
  apply guarded_step with (p := (OperationRunning, StepDeleteRuntime)); [|reflexivity].
  apply guarded_step with (p := (OperationPending, StepDeleteRuntime)); [|reflexivity].
  apply guarded_retry with (p := OperationRunning); [|by right].
  apply guarded_step with (p := (OperationRunning, StepWithdrawPublication)); [|reflexivity].
  apply guarded_step with (p := (OperationPending, StepWithdrawPublication)); [|reflexivity].
  apply guarded_refl.
Defined.
Lemma transitions_bounded_witness :
  (6 <= 2 * length (teardown_path ++ [StepReleaseQuota; StepComplete]))%nat.
Proof. exact (proj1 (transitions_bounded "stop" _ _ 6 1 _ eq_refl stop_guarded)). Defined.

End Operation.
