(* ===== verification/Gpu.v ===== *)
(** * GPU requests, execution snapshots and release evidence

    internal/biz/gpu (gpu.go, release.go, refund.go) and the Pod-scope helpers
    of internal/data/postgres/operation_store.go. *)

From S2P Require Import Prelude GoStrings.
From stdpp Require Import sorting.
From Stdlib Require Import Ascii.
Local Open Scope Z_scope.

Module Gpu.

(** ** Data *)
Record Request := mkRequest {
  ClusterID : string; PoolID : string; ProfileID : string;
  ProfileVersion : Z;        (* uint64 *)
  Replicas : Z;              (* uint32 *)
  DevicesPerReplica : Z;     (* uint32 *)
  ContainerName : string }.
#[global] Instance Request_eq_dec : EqDecision Request.
Proof. solve_decision. Defined.

Record Execution := mkExecution {
  SchedulerName : string; QueueName : string; RuntimeClassName : string;
  NodeSelector : gmap string string;
  PodAnnotations : gmap string string;
  Resources : gmap string string;
  Exec_ExecutionDigest : string }.
#[global] Instance Execution_eq_dec : EqDecision Execution.
Proof. solve_decision. Defined.

Record Display := mkDisplay {
  Disp_ProfileID : string; Disp_ProfileVersion : Z; ProfileName : string;
  ModelKey : string; Mode : Z (* int32 *) }.
#[global] Instance Display_eq_dec : EqDecision Display.
Proof. solve_decision. Defined.

(** The three inner pointers may be nil. *)
Record Snapshot := mkSnapshot {
  Snap_Request : option Request; Snap_Execution : option Execution;
  Snap_Display : option Display; ExecutionDigest : string }.
#[global] Instance Snapshot_eq_dec : EqDecision Snapshot.
Proof. solve_decision. Defined.
#[global] Instance Snapshot_eta : Eta Snapshot := fun s =>
  mkSnapshot (Snap_Request s) (Snap_Execution s) (Snap_Display s) (ExecutionDigest s).

(** ** Patterns *)
Definition is_hyphen : ascii -> bool := is_char 45.
Definition uuid_classes : list (ascii -> bool) :=
  let hex n := replicate n is_lower_hex in
  hex 8%nat ++ [is_hyphen] ++ hex 4%nat ++ [is_hyphen] ++ byte_in 49 56 :: hex 3%nat
  ++ [is_hyphen] ++ (fun c => is_char 56 c || is_char 57 c || is_char 97 c || is_char 98 c)
  :: hex 3%nat ++ [is_hyphen] ++ hex 12%nat.
Definition uuidPattern (s : string) : bool := matches uuid_classes s.

Definition is_alnum (c : ascii) : bool := is_lower c || is_digit c.
Definition string_head (s : string) : option ascii :=
  match s with EmptyString => None | String c _ => Some c end.
Definition namePattern (s : string) : bool :=
  string_forallb (fun c => is_hyphen c || is_alnum c) s
  && from_option is_alnum false (string_head s)
  && from_option is_alnum false (string_head (str_rev s)).
Definition digestPattern (s : string) : bool := matches (replicate 64 is_lower_hex) s.

(** ** Validation *)
Definition ValidateRequest (r : option Request) : result unit :=
  match r with
  | None => Err (errorf "invalid GPU request")
  | Some r =>
      if negb (uuidPattern (ClusterID r)) || negb (uuidPattern (PoolID r))
         || negb (uuidPattern (ProfileID r)) || (ProfileVersion r =? 0) then
        Err (errorf "invalid GPU request")
      else if (Replicas r <? 1) || (16 <? Replicas r) || (DevicesPerReplica r <? 1)
              || (String.length (ContainerName r) =? 0)%nat
              || (63 <? String.length (ContainerName r))%nat
              || negb (namePattern (ContainerName r)) then
        Err (errorf "unsupported GPU request shape")
      else Ok tt
  end.

(** int32 replicas and workers; the product is computed in int64. *)
Definition TotalPods (replicas : Z) (mode : string) (workers : Z) : result Z :=
  if replicas <? 1 then Err (errorf "replicas must be positive")
  else if bool_decide (mode = "") || bool_decide (mode = "deployment") then
    if (1 <? workers) || (workers <? 0) then
      Err (errorf "worker_replicas is only valid for leader_worker_set")
    else Ok replicas
  else if bool_decide (mode = "leader_worker_set") then
    if workers <? 1 then Err (errorf "leader_worker_set requires workers")
    else
      let total := int64 (replicas * int64 (workers + 1)) in
      if 2 ^ 31 - 1 <? total then Err (errorf "GPU topology overflows pod count")
      else Ok (int32 total)
  else Err (errorf ("unsupported runtime mode " +:+ quoted mode)).

Definition ValidateTopology (r : option Request) (replicas : Z) (mode : string) (workers : Z)
    : result unit :=
  _ ← ValidateRequest r;
  _ ← checkr (negb (replicas <? 1)) (errorf "replicas must be positive");
  expected ← TotalPods replicas mode workers;
  match r with
  | None => Err (errorf "invalid GPU request")
  | Some r =>
      if negb (Replicas r =? uint32 expected) then
        Err (errorf ("GPU replicas must match GPU-bearing pod count " +:+ format_int expected))
      else if bool_decide (mode = "") || bool_decide (mode = "deployment") then
        if (1 <? workers) || (workers <? 0) then
          Err (errorf "worker_replicas is only valid for leader_worker_set")
        else if negb (bool_decide (ContainerName r = "kserve-container")) then
          Err (errorf "deployment GPU container must be kserve-container")
        else Ok tt
      else if bool_decide (mode = "leader_worker_set") then
        if workers <? 1 then Err (errorf "leader_worker_set requires workers")
        else if negb (bool_decide (ContainerName r = "main")) then
          Err (errorf "leader_worker_set GPU container must be main")
        else Ok tt
      else Err (errorf ("unsupported runtime mode " +:+ quoted mode))
  end.

Definition some_blank_entry (m : gmap string string) : bool :=
  existsb (fun kv => blank kv.1 || blank kv.2) (map_to_list m).

(** The Go loop visits the three maps in map order, which only selects the
    name in the message. *)
Definition ValidateExecution (e : option Execution) : result unit :=
  match e with
  | None => Err (errorf "GPU execution digest is required")
  | Some e =>
      if negb (digestPattern (trim_space (Exec_ExecutionDigest e))) then
        Err (errorf "GPU execution digest is required")
      else if some_blank_entry (NodeSelector e) then
        Err (errorf "empty GPU execution node_selector key/value")
      else if some_blank_entry (PodAnnotations e) then
        Err (errorf "empty GPU execution pod_annotations key/value")
      else if some_blank_entry (Resources e) then
        Err (errorf "empty GPU execution resources key/value")
      else Ok tt
  end.

(** [ValidateSnapshot] fills an empty snapshot digest from its execution
    through the pointer it was given: the result is the snapshot afterwards. *)
Definition ValidateSnapshot (s : option Snapshot) (request : option Request) : result Snapshot :=
  match s, request with
  | Some s, Some request =>
      match Snap_Request s, Snap_Execution s, Snap_Display s with
      | Some r, Some e, Some d =>
          if negb (bool_decide (r = request)) then
            Err (errorf "invalid GPU execution snapshot")
          else
          _ ← ValidateRequest (Some request);
          _ ← ValidateExecution (Some e);
          if negb (uuidPattern (Disp_ProfileID d))
             || negb (bool_decide (Disp_ProfileID d = ProfileID request))
             || (Disp_ProfileVersion d =? 0) || blank (ProfileName d) || blank (ModelKey d) then
            Err (errorf "invalid GPU display selection")
          else if negb (Disp_ProfileVersion d =? ProfileVersion request)
                  || (negb (Mode d =? 1) && negb (Mode d =? 2)) then
            Err (errorf "GPU display does not match request")
          else
          let s := if bool_decide (ExecutionDigest s = "")
                   then s <| ExecutionDigest := Exec_ExecutionDigest e |> else s in
          if bool_decide (ExecutionDigest s = "") || bool_decide (Exec_ExecutionDigest e = "")
             || negb (bool_decide (ExecutionDigest s = Exec_ExecutionDigest e)) then
            Err (errorf "GPU execution digest is required")
          else Ok s
      | _, _, _ => Err (errorf "invalid GPU execution snapshot")
      end
  | _, _ => Err (errorf "invalid GPU execution snapshot")
  end.

(** ** Release evidence *)
Record PodRef := mkPodRef {
  Pod_ClusterID : string; Pod_Namespace : string; Pod_Name : string;
  Pod_UID : string; Pod_ContainerName : string }.
#[global] Instance PodRef_eq_dec : EqDecision PodRef.
Proof. solve_decision. Defined.

Definition pod_blank (p : PodRef) : bool :=
  blank (Pod_ClusterID p) || blank (Pod_Namespace p) || blank (Pod_Name p)
  || blank (Pod_UID p) || blank (Pod_ContainerName p).

(** validateManagedGPUReleasePods: every field present, no UID twice. *)
Fixpoint validate_pods_from (seen : list string) (pods : list PodRef) : result unit :=
  match pods with
  | [] => Ok tt
  | pod :: rest =>
      if pod_blank pod then Err (errorf "pod field is required")
      else if bool_decide (Pod_UID pod ∈ seen) then
        Err (errorf ("duplicate pod UID " +:+ quoted (Pod_UID pod)))
      else validate_pods_from (Pod_UID pod :: seen) rest
  end.
Definition validateManagedGPUReleasePods (pods : list PodRef) : result unit :=
  validate_pods_from [] pods.

(** mergeManagedGPUReleasePods: [byUID] maps a UID to its Pod. *)
Fixpoint merge_pods_from (byUID : gmap string PodRef) (merged incoming : list PodRef)
    : result (list PodRef) :=
  match incoming with
  | [] => Ok merged
  | pod :: rest =>
      match byUID !! Pod_UID pod with
      | Some old =>
          if negb (bool_decide (old = pod)) then
            Err (errorf ("managed GPU release Pod UID " +:+ quoted (Pod_UID pod)
                         +:+ " changed identity"))
          else merge_pods_from byUID merged rest
      | None => merge_pods_from (<[Pod_UID pod := pod]> byUID) (merged ++ [pod]) rest
      end
  end.
Definition index_pods (pods : list PodRef) : gmap string PodRef :=
  foldl (fun m p => <[Pod_UID p := p]> m) ∅ pods.
Definition mergeManagedGPUReleasePods (existing incoming : list PodRef) : result (list PodRef) :=
  merge_pods_from (index_pods existing) existing incoming.

Record ReleaseProofInput := mkReleaseProofInput {
  RP_TenantID : string; RP_ResourceID : string; RP_CreateOperationID : string;
  RP_DeleteOperationID : string; RP_SealedAt : string; RP_Pods : list PodRef }.
#[global] Instance ReleaseProofInput_eta : Eta ReleaseProofInput := fun r =>
  mkReleaseProofInput (RP_TenantID r) (RP_ResourceID r) (RP_CreateOperationID r)
    (RP_DeleteOperationID r) (RP_SealedAt r) (RP_Pods r).

Record ReleaseProof := mkReleaseProof { EvidenceID : string; EvidenceDigest : string }.

Definition pod_uid_le (a b : PodRef) : Prop := String.le (Pod_UID a) (Pod_UID b).
#[global] Instance pod_uid_le_dec a b : Decision (pod_uid_le a b).
Proof. unfold pod_uid_le. apply _. Defined.

Section ReleaseProof.
(** What the code calls outside the repository and in the time package:
    [time.Parse(RFC3339Nano, s)] succeeds, the hex SHA-256 of the JSON
    encoding, and the name-based UUID. *)
Context (rfc3339nano : string -> bool)
        (sha256_json : ReleaseProofInput -> string)
        (uuid_sha1_url : string -> string).

Definition ValidateReleaseProofInput (i : ReleaseProofInput) : result unit :=
  if blank (RP_TenantID i) || blank (RP_ResourceID i) || blank (RP_CreateOperationID i)
     || blank (RP_DeleteOperationID i) || blank (RP_SealedAt i) then
    Err (errorf "field is required")
  else if negb (rfc3339nano (RP_SealedAt i)) then
    Err (errorf "sealed_at must be RFC3339Nano")
  else validate_pods_from [] (RP_Pods i).

Definition NewReleaseProof (i : ReleaseProofInput) : result ReleaseProof :=
  _ ← ValidateReleaseProofInput i;
  let pods := merge_sort pod_uid_le (RP_Pods i) in
  let i := i <| RP_Pods := pods |> in
  Ok (mkReleaseProof
        (uuid_sha1_url ("ani-inference/managed-gpu-release-proof/" +:+ RP_DeleteOperationID i))
        ("sha256:" +:+ sha256_json i)).
End ReleaseProof.

(** ** Refund notifications *)
Record RefundContext := mkRefundContext {
  ResourceClass : string; CreateCommandDigest : string;
  RC_TenantID : string; RC_ResourceID : string;
  OriginalCreateOperationID : string; DeleteOperationID : string;
  OwnerService : string; RC_ClusterID : string; RC_Snapshot : option Snapshot }.
#[global] Instance RefundContext_eq_dec : EqDecision RefundContext.
Proof. solve_decision. Defined.
#[global] Instance RefundContext_eta : Eta RefundContext := fun r =>
  mkRefundContext (ResourceClass r) (CreateCommandDigest r) (RC_TenantID r) (RC_ResourceID r)
    (OriginalCreateOperationID r) (DeleteOperationID r) (OwnerService r) (RC_ClusterID r)
    (RC_Snapshot r).

Record ReleaseNotification := mkReleaseNotification {
  ReleaseEventID : string; RN_CreateOperationID : string; RN_ResourceID : string;
  Reason : string }.
#[global] Instance ReleaseNotification_eq_dec : EqDecision ReleaseNotification.
Proof. solve_decision. Defined.

Definition ResourceReleased : string := "RESOURCE_RELEASED".
Definition AbortedCleaned : string := "ABORTED_CLEANED".
Definition ErrInvalidRefund : goerr := ENew "gpu.ErrInvalidRefund" "invalid managed GPU release".

Definition ValidateRefund (n : ReleaseNotification) (original : RefundContext) : result unit :=
  let invalid m := Err (errorf_after ErrInvalidRefund m) in
  if negb (uuidPattern (ReleaseEventID n)) then invalid "release_event_id must be a UUID"
  else if negb (uuidPattern (RN_CreateOperationID n)) then invalid "create_operation_id must be a UUID"
  else if negb (uuidPattern (RN_ResourceID n)) then invalid "resource_id must be a UUID"
  else if negb (bool_decide (RN_CreateOperationID n = OriginalCreateOperationID original))
          || negb (bool_decide (RN_ResourceID n = RC_ResourceID original)) then
    invalid "release identity mismatch"
  else if negb (uuidPattern (DeleteOperationID original))
          || bool_decide (DeleteOperationID original = OriginalCreateOperationID original) then
    invalid "persisted DELETE operation is required"
  else if negb (bool_decide (Reason n = ResourceReleased))
          && negb (bool_decide (Reason n = AbortedCleaned)) then
    invalid "release reason is required"
  else if negb (bool_decide (OwnerService original = "ani-inference")) then
    invalid "owner service mismatch"
  else Ok tt.

(** ** Pod topology *)

(** The pod count is exact on the whole int32 range: TotalPods
    returns a number exactly for the supported modes and worker counts, it is
    replicas or replicas * (workers + 1) as an integer, and a product beyond
    int32 is refused instead of wrapping. *)
Theorem TotalPods_exact replicas mode workers n :
  in_int32 replicas -> in_int32 workers ->
  TotalPods replicas mode workers = Ok n <->
  1 <= replicas ∧
  (((mode = "" ∨ mode = "deployment") ∧ 0 <= workers <= 1 ∧ n = replicas) ∨
   (mode = "leader_worker_set" ∧ 1 <= workers ∧ n = replicas * (workers + 1) ∧ n < 2 ^ 31)).
Proof.
  unfold in_int32, TotalPods. intros Hr Hw.
  rewrite (int64_id (workers + 1)) by (unfold in_int64; lia).
  destruct (Z.ltb_spec replicas 1); [split; [done|lia]|].
  rewrite int64_id by (unfold in_int64; nia).
  rewrite <- bool_decide_or. case_bool_decide as Hd.
  - destruct (Z.ltb_spec 1 workers), (Z.ltb_spec workers 0); cbn; naive_solver lia.
  - case_bool_decide as Hl; [|naive_solver].
    destruct (Z.ltb_spec workers 1); [naive_solver lia|].
    destruct (Z.ltb_spec (2 ^ 31 - 1) (replicas * (workers + 1))); [naive_solver lia|].
    rewrite int32_id by (unfold in_int32; nia).
    split; [intros [= <-]; split; [lia|]; right; split_and!; [done|lia..]|].
    intros (_ & [(? & _)|(_ & _ & -> & _)]); [by destruct Hd|done].
Qed.
Lemma TotalPods_exact_witness : TotalPods 3 "leader_worker_set" 2 = Ok 9.
Proof. apply (proj2 (TotalPods_exact 3 "leader_worker_set" 2 9 ltac:(unfold in_int32; lia) ltac:(unfold in_int32; lia))). split; [lia|]. right. repeat split; lia. Defined.

(** ** Pod scopes *)

(** What validation establishes: complete Pods with distinct UIDs. *)
Definition pods_ok (pods : list PodRef) : Prop :=
  Forall (fun p => pod_blank p = false) pods ∧ NoDup (Pod_UID <$> pods).

Lemma validate_pods_from_ok seen pods :
  validate_pods_from seen pods = Ok tt <->
  pods_ok pods ∧ ∀ p, p ∈ pods -> Pod_UID p ∉ seen.
Proof.
  revert seen. induction pods as [|p pods IH]; intros seen; cbn.
  { split; [|done]. intros _. repeat split; [constructor..|]. by intros ? ?%elem_of_nil. }
  unfold pods_ok in *. rewrite Forall_cons, fmap_cons, NoDup_cons.
  destruct (pod_blank p); [naive_solver|]. case_bool_decide as Hs; [set_solver|].
  rewrite IH, list_elem_of_fmap. set_solver.
Qed.

Lemma validate_pods_ok pods : validateManagedGPUReleasePods pods = Ok tt <-> pods_ok pods.
Proof. unfold validateManagedGPUReleasePods. rewrite validate_pods_from_ok. set_solver. Qed.

(** [byUID] is the index of [merged]. *)
Definition indexes (byUID : gmap string PodRef) (merged : list PodRef) : Prop :=
  ∀ u p, byUID !! u = Some p <-> p ∈ merged ∧ Pod_UID p = u.

Lemma indexes_snoc byUID merged p :
  indexes byUID merged -> byUID !! Pod_UID p = None ->
  indexes (<[Pod_UID p := p]> byUID) (merged ++ [p]).
Proof.
  intros Hi Hn u q. rewrite elem_of_app, list_elem_of_singleton.
  destruct (decide (u = Pod_UID p)) as [->|Hu].
  - rewrite lookup_insert_eq. split; [naive_solver|].
    intros [[Hq|Hq] E]; [|by subst]. by rewrite (proj2 (Hi (Pod_UID p) q)) in Hn.
  - rewrite lookup_insert_ne by done. rewrite (Hi u q). naive_solver.
Qed.

Lemma index_pods_ok pods : NoDup (Pod_UID <$> pods) -> indexes (index_pods pods) pods.
Proof.
  unfold index_pods. induction pods as [|p pods IH] using rev_ind; intros Hnd.
  { intros u q. cbn. rewrite elem_of_nil. naive_solver. }
  rewrite fmap_app, NoDup_app in Hnd. destruct Hnd as (Hnd & Hd & _).
  rewrite foldl_app. cbn. specialize (IH Hnd). apply indexes_snoc; [done|].
  destruct (foldl _ _ _ !! _) eqn:E; [|done].
  apply IH in E as [E Eu]. exfalso. apply (Hd (Pod_UID p)); [|set_solver].
  rewrite <- Eu. by apply list_elem_of_fmap_2.
Qed.

Lemma merge_pods_from_spec byUID merged incoming out :
  indexes byUID merged -> pods_ok merged ->
  Forall (fun p => pod_blank p = false) incoming ->
  merge_pods_from byUID merged incoming = Ok out ->
  (∃ added, out = merged ++ added) ∧ pods_ok out ∧
  (∀ p, p ∈ out <-> p ∈ merged ∨ p ∈ incoming) ∧
  ∃ byUID', indexes byUID' out ∧ merge_pods_from byUID' out incoming = Ok out.
Proof.
  revert byUID merged. induction incoming as [|p rest IH]; intros byUID merged Hi Hok Hb H; cbn in H.
  { simplify_eq. split_and!; [by exists []; rewrite app_nil_r|done|set_solver|by exists byUID]. }
  apply Forall_cons in Hb as [Hp Hb].
  destruct (byUID !! Pod_UID p) as [old|] eqn:E.
  - case_bool_decide as Ho; [|done]. subst old. cbn in H.
    destruct (IH _ _ Hi Hok Hb H) as ((added & ->) & Hok' & Hin & byUID' & Hi' & Hm).
    assert (p ∈ merged) by (exact (proj1 (proj1 (Hi _ _) E))).
    split_and!; [by exists added|done|set_solver|]. exists byUID'. split; [done|]. cbn.
    rewrite (proj2 (Hi' (Pod_UID p) p)) by (split; [set_solver|done]).
    by rewrite bool_decide_true.
  - assert (pods_ok (merged ++ [p])) as Hok1.
    { destruct Hok as [H1 H2]. split; [by apply Forall_app; split; [|constructor]|].
      rewrite fmap_app. apply NoDup_app. split_and!; [done| |apply NoDup_singleton].
      intros u (q & -> & Hq)%list_elem_of_fmap Hu. cbn in Hu.
      apply list_elem_of_singleton in Hu.
      by rewrite (proj2 (Hi (Pod_UID p) q)) in E. }
    destruct (IH _ _ (indexes_snoc _ _ _ Hi E) Hok1 Hb H)
      as ((added & ->) & Hok' & Hin & byUID' & Hi' & Hm).
    split_and!; [by exists (p :: added); rewrite <- app_assoc|done|set_solver|].
    exists byUID'. split; [done|]. cbn.
    rewrite (proj2 (Hi' (Pod_UID p) p)) by (split; [set_solver|done]).
    by rewrite bool_decide_true.
Qed.

Lemma merge_pods_from_index m m' merged incoming :
  indexes m merged -> indexes m' merged ->
  merge_pods_from m merged incoming = merge_pods_from m' merged incoming.
Proof.
  intros Hm Hm'. assert (m = m') as ->; [|done].
  apply map_eq. intros u. apply option_eq. intros p. rewrite (Hm u p), (Hm' u p). done.
Qed.

(**  Merging observed Pods into the recorded release scope keeps
    every Pod already recorded in its place, adds exactly the new ones, keeps
    the scope valid, and recording the same observation again changes nothing,
    so a retried observation cannot alter the evidence. *)
Theorem merge_pods_spec existing incoming out :
  validateManagedGPUReleasePods existing = Ok tt ->
  validateManagedGPUReleasePods incoming = Ok tt ->
  mergeManagedGPUReleasePods existing incoming = Ok out ->
  (∃ added, out = existing ++ added) ∧
  validateManagedGPUReleasePods out = Ok tt ∧
  (∀ p, p ∈ out <-> p ∈ existing ∨ p ∈ incoming) ∧
  mergeManagedGPUReleasePods out incoming = Ok out.
Proof.
  rewrite !validate_pods_ok. intros Hex [Hin _] H.
  pose proof (index_pods_ok _ (proj2 Hex)) as Hi.
  destruct (merge_pods_from_spec _ _ _ _ Hi Hex Hin H) as (Hpre & Hok & Hmem & m & Hm & Hrep).
  split_and!; [done..|]. unfold mergeManagedGPUReleasePods. rewrite <- Hrep.
  apply merge_pods_from_index; [|done]. apply index_pods_ok, Hok.
Qed.

Definition pod_a : PodRef := mkPodRef "c" "ns" "a" "uid-a" "main".
Definition pod_b : PodRef := mkPodRef "c" "ns" "b" "uid-b" "main".
Lemma merge_pods_spec_witness :
  mergeManagedGPUReleasePods [pod_a; pod_b] [pod_b; pod_a] = Ok [pod_a; pod_b].
Proof.
  assert (H : mergeManagedGPUReleasePods [pod_a] [pod_b; pod_a] = Ok [pod_a; pod_b])
    by (vm_compute; reflexivity).
  apply (merge_pods_spec [pod_a] [pod_b; pod_a] [pod_a; pod_b]);
    [vm_compute; reflexivity | vm_compute; reflexivity | exact H].
Defined.

(** ** Release proofs *)
Lemma sort_pods_perm pods pods' :
  NoDup (Pod_UID <$> pods) -> pods ≡ₚ pods' ->
  merge_sort pod_uid_le pods = merge_sort pod_uid_le pods'.
Proof.
  intros Hnd Hp.
  assert (Transitive pod_uid_le) by (intros a b c; unfold pod_uid_le; by etrans).
  assert (Total pod_uid_le) by (intros a b; unfold pod_uid_le; apply total; apply _).
  apply (Sorted_unique_strong pod_uid_le).
  - intros a b Ha Hb H1 H2. rewrite merge_sort_Permutation in Ha, Hb. rewrite <- Hp in Hb.
    assert (Pod_UID a = Pod_UID b) as E by (by apply (anti_symm String.le)).
    apply list_elem_of_lookup in Ha as [i Hi], Hb as [j Hj].
    assert (i = j); [|congruence].
    apply (NoDup_lookup _ i j (Pod_UID a) Hnd); rewrite list_lookup_fmap; [by rewrite Hi|].
    by rewrite Hj, E.
  - apply Sorted_merge_sort, _.
  - apply Sorted_merge_sort, _.
  - by rewrite !merge_sort_Permutation.
Qed.

Lemma validate_release_perm rfc3339nano i pods' :
  RP_Pods i ≡ₚ pods' ->
  ValidateReleaseProofInput rfc3339nano i = Ok tt ->
  ValidateReleaseProofInput rfc3339nano (i <| RP_Pods := pods' |>) = Ok tt.
Proof.
  intros Hp. unfold ValidateReleaseProofInput. simpl. repeat case_match; try done.
  rewrite !validate_pods_from_ok. unfold pods_ok. rewrite <- !Hp. set_solver.
Qed.

(** Release evidence does not depend on the order in which the Pods
    were recorded: any permutation of a valid scope yields the same evidence
    identity and digest, so a retried release reproduces its row. *)
Theorem release_proof_order_independent rfc3339nano sha256_json uuid_sha1_url i pods' proof :
  NewReleaseProof rfc3339nano sha256_json uuid_sha1_url i = Ok proof ->
  RP_Pods i ≡ₚ pods' ->
  NewReleaseProof rfc3339nano sha256_json uuid_sha1_url (i <| RP_Pods := pods' |>) = Ok proof.
Proof.
  unfold NewReleaseProof. intros H Hp.
  destruct (ValidateReleaseProofInput rfc3339nano i) as [[]|] eqn:Hv; [|done].
  rewrite (validate_release_perm _ _ _ Hp Hv). revert H. cbn [mbind result_bind].
  intros [= <-]. simpl.
  assert (NoDup (Pod_UID <$> RP_Pods i)) as Hnd.
  { unfold ValidateReleaseProofInput in Hv. repeat case_match; try done.
    by apply validate_pods_from_ok in Hv as [[_ ?] _]. }
  by rewrite (sort_pods_perm _ _ Hnd Hp).
Qed.

Definition sample_release : ReleaseProofInput :=
  mkReleaseProofInput "t" "r" "c" "d" "2026-01-01T00:00:00Z" [pod_a; pod_b].
Lemma release_proof_order_independent_witness :
  NewReleaseProof (fun _ => true) RP_SealedAt (fun s => s)
    (sample_release <| RP_Pods := [pod_b; pod_a] |>)
  = Ok (mkReleaseProof "ani-inference/managed-gpu-release-proof/d" "sha256:2026-01-01T00:00:00Z").
Proof.
  apply release_proof_order_independent; [vm_compute; reflexivity|]. apply Permutation_swap.
Defined.

(** ** Snapshots *)

(**  A snapshot accepted for a request is accepted again, unchanged,
    when the stored plan is reused: validation fills in the execution digest
    once and is then the identity, and the digest it leaves is the digest of
    the frozen execution of the same request. *)
Theorem snapshot_validation_stable s request s' :
  ValidateSnapshot s request = Ok s' ->
  ValidateSnapshot (Some s') request = Ok s' ∧
  (∃ e, Snap_Execution s' = Some e ∧ ExecutionDigest s' = Exec_ExecutionDigest e ∧
        ExecutionDigest s' ≠ "") ∧
  Snap_Request s' = request.
Proof.
  unfold ValidateSnapshot at 1. destruct s as [s|], request as [r|]; try done.
  destruct (Snap_Request s) as [r0|] eqn:Er, (Snap_Execution s) as [e|] eqn:Ee,
    (Snap_Display s) as [d|] eqn:Ed; try done.
  destruct (decide (r0 = r)) as [->|]; [|by rewrite bool_decide_false].
  rewrite bool_decide_true by done. cbn [negb]. intros H. minv H.
  destruct (_ || _ || _ || _ || _) eqn:B1 in H; [done|].
  destruct (_ || _) eqn:B2 in H; [done|].
  set (t := if bool_decide (ExecutionDigest s = "") then _ else _) in H.
  assert (Snap_Request t = Some r ∧ Snap_Execution t = Some e ∧ Snap_Display t = Some d) as (Hr & He & Hd).
  { unfold t. destruct (bool_decide (ExecutionDigest s = "")); simpl; auto. }
  destruct (_ || _ || _) eqn:B3 in H; [done|]. injection H as <-.
  rewrite !orb_false_iff, negb_false_iff, !bool_decide_eq_false, bool_decide_eq_true in B3.
  destruct B3 as [[B3 B4] B5]. split_and!; [|by exists e|done].
  unfold ValidateSnapshot. rewrite Hr, He, Hd, bool_decide_true by done. cbn [negb].
  rewrite Hm, Hm0. cbn [mbind result_bind]. rewrite B1, B2.
  rewrite (bool_decide_false (ExecutionDigest t = "")) by done. cbv zeta.
  rewrite (bool_decide_false (ExecutionDigest t = "")), (bool_decide_false (_ = "")) by done.
  by rewrite bool_decide_true.
Qed.

Definition sample_request : Request :=
  mkRequest "00000000-0000-1000-8000-000000000001" "00000000-0000-1000-8000-000000000002"
    "00000000-0000-1000-8000-000000000003" 7 2 1 "kserve-container".
Definition sample_digest : string :=
  "0123456789abcdef0123456789abcdef0123456789abcdef0123456789abcdef".
Definition sample_execution : Execution :=
  mkExecution "volcano" "q" "" {["zone" := "a"]} ∅ {["volcano.sh/vgpu-number" := "1"]} sample_digest.
Definition sample_display : Display :=
  mkDisplay "00000000-0000-1000-8000-000000000003" 7 "A100" "a100" 1.
Definition sample_snapshot (digest : string) : Snapshot :=
  mkSnapshot (Some sample_request) (Some sample_execution) (Some sample_display) digest.

Lemma snapshot_validation_stable_witness :
  ValidateSnapshot (Some (sample_snapshot sample_digest)) (Some sample_request)
  = Ok (sample_snapshot sample_digest).
Proof.
  apply (snapshot_validation_stable (Some (sample_snapshot EmptyString)) (Some sample_request)).
  vm_compute. reflexivity.
Defined.

End Gpu.
