(* ===== verification/Resources.v ===== *)
(** * Resource specifications

    internal/biz/resources (resources.go, aggregate.go) and
    internal/biz/admission/admission.go.  Kubernetes quantities
    (k8s.io/apimachinery) are the interface [QuantityLib]; the facts the code
    relies on are the laws [QuantityLaws]. *)

From S2P Require Import Prelude GoStrings Gpu.
From stdpp Require Import sorting.
Local Open Scope Z_scope.

(** k8s.io/apimachinery/pkg/api/resource and util/validation. *)
Class QuantityLib := {
  quantity : Type;
  ParseQuantity : string -> option quantity;
  q_sign : quantity -> Z;
  q_cmp : quantity -> quantity -> Z;
  q_string : quantity -> string;
  (** [Mul] scales in place and reports whether the result is exact. *)
  q_mul : quantity -> Z -> bool * quantity;
  IsQualifiedName : string -> bool;
}.

(** The documented behaviour of canonical quantities: the canonical form is not
    blank, carries no surrounding space, and parses to an equal quantity that
    has the same canonical form; the comparison only depends on the value. *)
Class QuantityLaws `{QuantityLib} := {
  q_string_trim q : trim_space (q_string q) = q_string q;
  q_string_nonempty q : q_string q ≠ "";
  q_parse_string q : ∃ q', ParseQuantity (q_string q) = Some q' ∧
    q_string q' = q_string q ∧ q_sign q' = q_sign q ∧
    (∀ r, q_cmp q' r = q_cmp q r) ∧ (∀ r, q_cmp r q' = q_cmp r q);
  q_cmp_refl q : q_cmp q q = 0;
}.

Module Resources.

Record Spec := mkSpec {
  Requests : gmap string string; Limits : gmap string string; GPU : option Gpu.Request }.
#[global] Instance Spec_eq_dec : EqDecision Spec.
Proof. solve_decision. Defined.

(** [Normalized] has the fields of [Spec]. *)
Abbreviation Normalized := Spec.

Section Normalize.
Context `{Q : QuantityLib}.

Definition parseQuantity (raw : string) : result quantity :=
  let s := trim_space raw in
  if bool_decide (s = "") then Err (errorf "quantity is empty")
  else match ParseQuantity s with
       | None => Err (errorf "unable to parse quantity")
       | Some q => if q_sign q <? 0 then Err (errorf "quantity must be non-negative") else Ok q
       end.

Definition isExtended (name : string) : bool :=
  contains name "/" && negb (has_prefix name "kubernetes.io/").

Definition parse_opt (what name : string) (raw : option string) : result (option quantity) :=
  match raw with
  | None => Ok None
  | Some raw =>
      match parseQuantity raw with
      | Ok q => Ok (Some q)
      | Err e => Err (errorf_before ("invalid " +:+ what +:+ " " +:+ quoted raw +:+ " for " +:+ name) e)
      end
  end.

(** Kubernetes defaults an extended-resource request from its limit. *)
Definition effective_request (name : string) (rq lq : option quantity) : option quantity :=
  match rq with
  | Some q => Some q
  | None => if isExtended name then lq else None
  end.
Definition exceeds (rq lq : option quantity) : bool :=
  match rq, lq with Some r, Some l => 0 <? q_cmp r l | _, _ => false end.
Definition differs (rq lq : option quantity) : bool :=
  match rq, lq with Some r, Some l => negb (q_cmp r l =? 0) | _, _ => false end.

(** The body of the loop over the ordered names: the request and limit
    recorded for [name]. *)
Definition normalize_entry (name : string) (rawRequest rawLimit : option string)
    : result (option string * option string) :=
  if negb (IsQualifiedName name) then Err (errorf ("invalid resource name " +:+ quoted name))
  else
  parsed_rq ← parse_opt "request" name rawRequest;
  lq ← parse_opt "limit" name rawLimit;
  let rq := effective_request name parsed_rq lq in
  if exceeds rq lq then Err (errorf ("request exceeds limit for " +:+ name))
  else if isExtended name && bool_decide (is_Some rawRequest) && bool_decide (is_Some rawLimit)
          && differs rq lq then
    Err (errorf ("extended resource " +:+ name +:+ " must have equal request and limit"))
  else Ok (q_string <$> rq, q_string <$> lq).

Fixpoint normalize_loop (i : Spec) (ordered : list string) (out : Normalized) : result Normalized :=
  match ordered with
  | [] => Ok out
  | name :: rest =>
      e ← normalize_entry name (Requests i !! name) (Limits i !! name);
      normalize_loop i rest
        (mkSpec (partial_alter (fun _ => e.1) name (Requests out))
                (partial_alter (fun _ => e.2) name (Limits out)) (GPU out))
  end.

Definition ordered_names (i : Spec) : list string :=
  merge_sort String.le (elements (dom (Requests i) ∪ dom (Limits i))).

Definition Normalize (i : Spec) : result Normalized :=
  _ ← match GPU i with
      | None => Ok tt
      | Some g =>
          _ ← Gpu.ValidateRequest (Some g);
          let names := elements (dom (Requests i)) ++ elements (dom (Limits i)) in
          match list_find (fun name => contains name "/" = true) names with
          | Some (_, name) =>
              Err (errorf ("GPU request cannot use extended resource " +:+ name))
          | None => Ok tt
          end
      end;
  if bool_decide (Requests i = ∅) && bool_decide (Limits i = ∅) then Ok (mkSpec ∅ ∅ (GPU i))
  else normalize_loop i (ordered_names i) (mkSpec ∅ ∅ (GPU i)).

(** ** Aggregation *)
Record Demand := mkDemand { Dem_Resources : Spec; Units : Z }.

Definition scale_quantity (units : Z) (name value : string) : result string :=
  match ParseQuantity value with
  | None => Err (errorf "unable to parse quantity")
  | Some q =>
      let '(exact, q') := q_mul q units in
      if exact then Ok (q_string q')
      else Err (errorf ("aggregate resource " +:+ name +:+ " exceeds quantity precision"))
  end.

Definition scale_all (units : Z) (m : gmap string string) : result (gmap string string) :=
  foldr (fun kv acc => acc ← acc; v ← scale_quantity units kv.1 kv.2; Ok (<[kv.1 := v]> acc))
    (Ok ∅) (map_to_list m).

Definition aggregate_units (replicas : Z) (runtimeMode : string) (workerReplicas : Z) : result Z :=
  _ ← checkr (negb (replicas <? 1)) (errorf "replicas must be positive");
  if bool_decide (runtimeMode = "") || bool_decide (runtimeMode = "deployment") then
    if (1 <? workerReplicas) || (workerReplicas <? 0) then
      Err (errorf "worker_replicas is only valid for leader_worker_set runtime")
    else Ok replicas
  else if bool_decide (runtimeMode = "leader_worker_set") then
    if workerReplicas <? 1 then Err (errorf "leader_worker_set requires at least one worker")
    else Ok (int64 (replicas * int64 (workerReplicas + 1)))
  else Err (errorf ("unsupported runtime mode " +:+ quoted runtimeMode)).

Definition Aggregate (spec : Spec) (replicas : Z) (runtimeMode : string) (workerReplicas : Z)
    : result Demand :=
  units ← aggregate_units replicas runtimeMode workerReplicas;
  values ← Normalize spec;
  requests ← scale_all units (Requests values);
  limits ← scale_all units (Limits values);
  Ok (mkDemand (mkSpec requests limits (GPU values)) units).

(** ** Admission: internal/biz/admission/admission.go *)
Record CreateRequest := mkCreateRequest {
  CR_Replicas : Z; CR_WorkerReplicas : Z; CR_RuntimeMode : string;
  CR_Requests : gmap string string; CR_Limits : gmap string string }.

Definition ValidateCreate (i : CreateRequest) : result unit :=
  let mode := CR_RuntimeMode i in
  _ ← if bool_decide (mode = "") || bool_decide (mode = "deployment") then
        _ ← checkr (negb (CR_Replicas i <? 1)) (errorf "replicas must be positive for deployment runtime");
        checkr (negb (1 <? CR_WorkerReplicas i))
          (errorf "worker_replicas is only valid for leader_worker_set runtime")
      else if bool_decide (mode = "leader_worker_set") then
        checkr (negb ((CR_Replicas i <? 1) || (CR_WorkerReplicas i <? 1)))
          (errorf "leader_worker_set requires replicas >= 1 and worker_replicas >= 1")
      else Err (errorf ("unsupported runtime mode " +:+ quoted mode));
  _ ← Normalize (mkSpec (CR_Requests i) (CR_Limits i) None);
  Ok tt.

(** ** Properties *)

Lemma normalize_loop_lookup i ordered out out' :
  NoDup ordered -> normalize_loop i ordered out = Ok out' ->
  GPU out' = GPU out ∧ ∀ name,
  (name ∈ ordered -> ∃ e, normalize_entry name (Requests i !! name) (Limits i !! name) = Ok e ∧
     Requests out' !! name = e.1 ∧ Limits out' !! name = e.2) ∧
  (name ∉ ordered -> Requests out' !! name = Requests out !! name ∧
     Limits out' !! name = Limits out !! name).
Proof.
  revert out. induction ordered as [|x rest IH]; intros out Hnd H; cbn in H.
  { simplify_eq. split; [done|]. intros name. split; [by intros ?%elem_of_nil|done]. }
  apply NoDup_cons in Hnd as [Hx Hnd]. minv H. destruct (IH _ Hnd H) as [HG IHn].
  split; [done|]. intros name. destruct (IHn name) as [Hin Hout]. split.
  - intros [->|Hr]%elem_of_cons; [|by apply Hin]. exists a. destruct (Hout Hx) as [-> ->].
    cbn. by rewrite !lookup_partial_alter_eq.
  - intros [Hn Hr]%not_elem_of_cons. destruct (Hout Hr) as [-> ->]. cbn.
    by rewrite !lookup_partial_alter_ne.
Qed.

Lemma normalize_loop_total i ordered out :
  (∀ name, name ∈ ordered ->
     is_ok (normalize_entry name (Requests i !! name) (Limits i !! name)) = true) ->
  ∃ out', normalize_loop i ordered out = Ok out'.
Proof.
  revert out. induction ordered as [|x rest IH]; intros out H; cbn; [eauto|].
  pose proof (H x ltac:(set_solver)) as Hx.
  destruct (normalize_entry x _ _) as [e|]; [|done]. cbn [mbind result_bind].
  apply IH. set_solver.
Qed.

Lemma ordered_names_nodup i : NoDup (ordered_names i).
Proof. unfold ordered_names. rewrite merge_sort_Permutation. apply NoDup_elements. Qed.
Lemma elem_of_ordered_names i name :
  name ∈ ordered_names i <-> is_Some (Requests i !! name) ∨ is_Some (Limits i !! name).
Proof.
  unfold ordered_names. rewrite merge_sort_Permutation, elem_of_elements, elem_of_union, !elem_of_dom.
  done.
Qed.

(** What a normalized specification records for each name. *)
Definition entry_of (i n : Spec) (name : string) : Prop :=
  (is_Some (Requests i !! name) ∨ is_Some (Limits i !! name) ->
   normalize_entry name (Requests i !! name) (Limits i !! name)
     = Ok (Requests n !! name, Limits n !! name)) ∧
  (Requests i !! name = None -> Limits i !! name = None ->
   Requests n !! name = None ∧ Limits n !! name = None).

Definition no_slash (i : Spec) : Prop :=
  ∀ name, is_Some (Requests i !! name) ∨ is_Some (Limits i !! name) -> contains name "/" = false.

Lemma Normalize_ok_iff i n :
  Normalize i = Ok n <->
  GPU n = GPU i ∧ (∀ g, GPU i = Some g -> Gpu.ValidateRequest (Some g) = Ok tt ∧ no_slash i) ∧
  ∀ name, entry_of i n name.
Proof.
  assert (Hfind : ∀ g, GPU i = Some g ->
    list_find (fun name => contains name "/" = true)
      (elements (dom (Requests i)) ++ elements (dom (Limits i))) = None <-> no_slash i).
  { intros _ _. rewrite list_find_None, Forall_app, !Forall_forall. unfold no_slash.
    setoid_rewrite elem_of_elements. setoid_rewrite elem_of_dom. setoid_rewrite not_true_iff_false.
    naive_solver. }
  assert (Hempty : Requests i = ∅ -> Limits i = ∅ -> ∀ m : Spec,
            (∀ name, entry_of i m name) -> GPU m = GPU i -> m = mkSpec ∅ ∅ (GPU i)).
  { intros H1 H2 [mr ml mg] He HG. unfold entry_of in He. rewrite H1, H2 in He.
    cbn in *. f_equal; [| |done]; apply map_eq; intros x; destruct (He x) as [_ Hn];
      rewrite !lookup_empty in Hn; destruct (Hn eq_refl eq_refl); by rewrite lookup_empty. }
  split.
  - unfold Normalize. intros H. minv H.
    assert (Hg : ∀ g, GPU i = Some g -> Gpu.ValidateRequest (Some g) = Ok tt ∧ no_slash i).
    { intros g Eg. rewrite Eg in Hm. minv Hm. destruct a0. split; [done|].
      apply (Hfind g Eg). by destruct (list_find _ _) as [[]|]. }
    destruct (bool_decide (Requests i = ∅) && _) eqn:B.
    + apply andb_true_iff in B as [B1%bool_decide_eq_true B2%bool_decide_eq_true]. simplify_eq/=.
      split_and!; [done..|]. intros name. unfold entry_of. rewrite B1, B2, !lookup_empty.
      split; [by intros [[??]|[??]]|done].
    + destruct (normalize_loop_lookup _ _ _ _ (ordered_names_nodup i) H) as [HG Hn].
      split_and!; [done..|]. intros name. destruct (Hn name) as [Hin Hout]. split.
      * intros Hs. destruct Hin as ([r l] & He & Hr & Hl); [by apply elem_of_ordered_names|].
        rewrite Hr, Hl. done.
      * intros Er El. destruct Hout as [-> ->]; [|done].
        rewrite elem_of_ordered_names, Er, El. by intros [[??]|[??]].
  - intros (HG & Hg & He). unfold Normalize.
    replace (match GPU i with None => Ok () | Some g => _ end) with (Ok tt).
    2:{ destruct (GPU i) as [g|] eqn:Eg; [|done]. destruct (Hg g eq_refl) as [-> Hs].
        cbn [mbind result_bind]. by rewrite (proj2 (Hfind g eq_refl) Hs). }
    cbn [mbind result_bind]. destruct (bool_decide (Requests i = ∅) && _) eqn:B.
    { apply andb_true_iff in B as [B1%bool_decide_eq_true B2%bool_decide_eq_true].
      by rewrite (Hempty B1 B2 n). }
    destruct (normalize_loop_total i (ordered_names i) (mkSpec ∅ ∅ (GPU i))) as [m Hm].
    { intros name Hn%elem_of_ordered_names. by rewrite (proj1 (He name) Hn). }
    rewrite Hm. f_equal. destruct (normalize_loop_lookup _ _ _ _ (ordered_names_nodup i) Hm) as [HG' Hl].
    assert (Hsame : ∀ name, Requests m !! name = Requests n !! name ∧ Limits m !! name = Limits n !! name).
    { intros name. destruct (Hl name) as [Hin Hout], (He name) as [He1 He2].
      destruct (decide (name ∈ ordered_names i)) as [Hi|Hi].
      - destruct (Hin Hi) as (e & Ee & -> & ->). apply elem_of_ordered_names in Hi.
        rewrite (He1 Hi) in Ee. by simplify_eq.
      - destruct (Hout Hi) as [-> ->]. cbn. rewrite !lookup_empty.
        rewrite elem_of_ordered_names in Hi. destruct He2 as [-> ->]; [..|done];
          apply eq_None_not_Some; naive_solver. }
    destruct m, n; cbn in *. f_equal; [..|congruence]; apply map_eq; intros; apply Hsame.
Qed.

(** *** Normalization is idempotent *)
Lemma parse_opt_inv what name raw q :
  parse_opt what name raw = Ok q ->
  match raw with
  | None => q = None
  | Some raw => ∃ v, q = Some v ∧ parseQuantity raw = Ok v
  end.
Proof.
  destruct raw as [raw|]; cbn; [|by intros [= <-]].
  destruct (parseQuantity raw) as [v|] eqn:E; [|done]. intros [= <-]. eauto.
Qed.

Lemma parseQuantity_sign raw q : parseQuantity raw = Ok q -> 0 <= q_sign q.
Proof.
  unfold parseQuantity. case_bool_decide; [done|]. destruct (ParseQuantity _) as [v|]; [|done].
  destruct (q_sign v <? 0) eqn:E; [done|]. intros [= <-]. lia.
Qed.

Context `{L : !QuantityLaws}.

(** The canonical text of a parsed quantity parses to an equal quantity. *)
Lemma parse_canonical what name raw v :
  parseQuantity raw = Ok v ->
  ∃ v', parse_opt what name (Some (q_string v)) = Ok (Some v') ∧ q_string v' = q_string v ∧
    (∀ r, q_cmp v' r = q_cmp v r) ∧ (∀ r, q_cmp r v' = q_cmp r v).
Proof.
  intros H%parseQuantity_sign. destruct (q_parse_string v) as (v' & Hp & Hs & Hg & Hc1 & Hc2).
  exists v'. split; [|done]. cbn. unfold parseQuantity. rewrite q_string_trim.
  rewrite bool_decide_false by apply q_string_nonempty. rewrite Hp.
  by rewrite (proj2 (Z.ltb_ge _ _)) by lia.
Qed.

Lemma entry_idem name rq lq r l :
  normalize_entry name rq lq = Ok (r, l) -> normalize_entry name r l = Ok (r, l).
Proof.
  unfold normalize_entry. destruct (IsQualifiedName name); cbn [negb]; [|done].
  intros H. minv H. apply parse_opt_inv in Hm, Hm0.
  assert (Hid : ∀ v (v' : quantity), (∀ q, q_cmp v' q = q_cmp v q) -> (∀ q, q_cmp q v' = q_cmp q v) ->
            q_cmp v' v' = 0) by (intros v v' H1 H2; rewrite H1, H2; apply q_cmp_refl).
  assert (Hcan : ∀ raw v, parseQuantity raw = Ok v -> ∀ what, ∃ v',
     parse_opt what name (Some (q_string v)) = Ok (Some v') ∧ q_string v' = q_string v ∧
    (∀ r, q_cmp v' r = q_cmp v r) ∧ (∀ r, q_cmp r v' = q_cmp r v))
    by (intros; by eapply parse_canonical).
  destruct rq as [rraw|]; [destruct Hm as (rv & -> & Hrv)|subst a];
    (destruct lq as [lraw|]; [destruct Hm0 as (lv & -> & Hlv)|subst a0]);
    cbn -[parse_opt isExtended] in H |- *.
  - destruct (0 <? q_cmp rv lv) eqn:Ex; [done|].
    destruct (isExtended name && true && true && _) eqn:Ed; [done|]. simplify_eq.
    destruct (Hcan _ _ Hrv "request") as (rv' & -> & Hr & Hr1 & Hr2). cbn -[parse_opt isExtended].
    destruct (Hcan _ _ Hlv "limit") as (lv' & -> & Hl & Hl1 & Hl2).
    cbn -[isExtended]. rewrite !Hr1, !Hl2, Ex, Ed, Hr, Hl. done.
  - rewrite !andb_false_r in H. simplify_eq.
    destruct (Hcan _ _ Hrv "request") as (rv' & -> & Hr & _). cbn -[isExtended].
    by rewrite !andb_false_r, Hr.
  - destruct (Hcan _ _ Hlv "limit") as (lv' & Hp & Hl & Hl1 & Hl2).
    destruct (Hcan _ _ Hlv "request") as (lv2 & Hp2 & Hs & Hs1 & Hs2).
    rewrite !andb_false_r in H. cbn in H.
    destruct (isExtended name) eqn:Ext; cbn -[parse_opt] in H.
    + rewrite q_cmp_refl in H. injection H as <- <-. cbn -[parse_opt]. rewrite Hp2. cbn -[parse_opt]. rewrite Hp. cbn. rewrite Hs1, Hl2, q_cmp_refl. cbn.
      by rewrite Hs, Hl.
    + simplify_eq. cbn -[parse_opt]. rewrite Hp. cbn. by rewrite Ext, Hl.
  - destruct (isExtended name) eqn:Ext; cbn in H; simplify_eq; cbn; by rewrite Ext.
Qed.

(** Normalizing a normalized specification changes nothing and
    cannot fail: a specification stored after [Normalize] can be validated
    again by a later stage with the same result. *)
Theorem Normalize_idempotent i n : Normalize i = Ok n -> Normalize n = Ok n.
Proof.
  intros (HG & Hg & He)%Normalize_ok_iff. apply Normalize_ok_iff.
  assert (Hback : ∀ name, is_Some (Requests n !! name) ∨ is_Some (Limits n !! name) ->
                          is_Some (Requests i !! name) ∨ is_Some (Limits i !! name)).
  { intros name Hn. destruct (He name) as [_ H].
    destruct (Requests i !! name), (Limits i !! name); eauto.
    destruct H as [H1 H2]; [done..|]. rewrite H1, H2 in Hn. destruct Hn as [[]|[]]; done. }
  split_and!; [done| |].
  - rewrite HG. intros g Eg. destruct (Hg g Eg) as [? Hs]. split; [done|].
    intros name Hn. by apply Hs, Hback.
  - intros name. destruct (He name) as [He1 He2]. split; [|done].
    intros Hn. by eapply entry_idem, He1, Hback.
Qed.
End Normalize.

(** A quantity library with two quantities, for the witnesses. *)
Definition toy_quantity (s : string) : option bool :=
  if bool_decide (s = "1") then Some true else if bool_decide (s = "2") then Some false else None.
#[local] Instance toy_lib : QuantityLib := {
  quantity := bool;
  ParseQuantity := toy_quantity;
  q_sign _ := 1;
  q_cmp a b := if eqb a b then 0 else if a then -1 else 1;
  q_string b := if b then "1" else "2";
  q_mul b _ := (true, b);
  IsQualifiedName s := negb (bool_decide (s = "")) }.
#[local] Instance toy_laws : QuantityLaws.
Proof.
  split; cbn.
  - by intros [].
  - by intros [].
  - intros b. exists b. by destruct b.
  - by intros [].
Qed.

Lemma Normalize_idempotent_witness :
  let n := mkSpec {["cpu" := "1"; "nvidia.com/gpu" := "2"]}
                  {["cpu" := "2"; "nvidia.com/gpu" := "2"]} None in
  Normalize (mkSpec {["cpu" := " 1 "]} {["cpu" := "2"; "nvidia.com/gpu" := "2"]} None) = Ok n ∧
  Normalize n = Ok n.
Proof.
  intros n. assert (H : Normalize (mkSpec {["cpu" := " 1 "]} {["cpu" := "2"; "nvidia.com/gpu" := "2"]} None) = Ok n)
    by (vm_compute; reflexivity).
  split; [exact H|]. exact (Normalize_idempotent _ _ H).
Defined.
End Resources.
