(* ===== verification/Engine.v ===== *)
(** * Engine commands

    internal/data/postgres/engine.go: the engine command is stored as a JSON
    document whose shape changed twice; every shape still reads back. *)

From S2P Require Import Prelude.

Module Engine.

(** A JSON document; the fields of an object are distinct and in any order. *)
Inductive json :=
  | JNull
  | JBool (b : bool)
  | JNumber (text : string)
  | JString (s : string)
  | JArray (items : list json)
  | JObject (fields : list (string * json)).

(** What a column or a payload may hold: nothing but white space, one document,
    or something that does not parse (two documents, a cut-off one, ...). *)
Inductive raw_json := Blank | Doc (d : json) | Malformed.

Fixpoint field (name : string) (fields : list (string * json)) : option json :=
  match fields with
  | [] => None
  | (n, d) :: rest => if bool_decide (n = name) then Some d else field name rest
  end.

(** [json.Unmarshal] into a [string]: null leaves it empty. *)
Definition as_string (d : json) : option string :=
  match d with JString s => Some s | JNull => Some "" | _ => None end.
(** [json.Unmarshal] into a [[]string]: null leaves it nil. *)
Definition as_strings (d : json) : option (list string) :=
  match d with JArray items => mapM as_string items | JNull => Some [] | _ => None end.

Definition marshalEngineSpec (command : string) : json := JObject [("command", JString command)].

(** The object that stands for a shell: [{"command": ["/bin/sh", "-c"], "args": [c]}]. *)
Definition legacy_wrapper (commandRaw : json) (fields : list (string * json)) : result string :=
  if negb (bool_decide (length fields = 2%nat)) then Err (errorf "invalid legacy engine wrapper fields") else
  match field "args" fields with
  | None => Err (errorf "invalid legacy engine args wrapper")
  | Some argsRaw =>
      if bool_decide (as_strings commandRaw = Some ["/bin/sh"; "-c"]) then
        match as_strings argsRaw with
        | Some [arg] => Ok arg
        | _ => Err (errorf "invalid legacy engine args wrapper")
        end
      else Err (errorf "invalid legacy engine command wrapper")
  end.

Definition unmarshalEngineSpec (raw : raw_json) : result string :=
  match raw with
  | Blank | Doc JNull => Ok ""
  | Doc (JString command) => Ok command
  | Doc (JObject fields) =>
      match field "command" fields with
      | None => Err (errorf "engine command is missing")
      | Some commandRaw =>
          match as_string commandRaw with
          | Some command =>
              if bool_decide (length fields = 1%nat) then Ok command
              else Err (errorf "engine command object must contain only command")
          | None => legacy_wrapper commandRaw fields
          end
      end
  | Doc _ => Err (errorf "invalid engine command JSON: expected object")
  | Malformed => Err (errorf "decode engine command")
  end.

(** The stored shapes of one command, oldest first. *)
Inductive stores (command : string) : json -> Prop :=
  | stores_string : stores command (JString command)
  | stores_wrapper args : args = [("command", JArray [JString "/bin/sh"; JString "-c"]);
                                  ("args", JArray [JString command])] ∨
                          args = [("args", JArray [JString command]);
                                  ("command", JArray [JString "/bin/sh"; JString "-c"])] ->
                          stores command (JObject args)
  | stores_object : stores command (marshalEngineSpec command).

(** Engine commands survive storage: what [marshalEngineSpec] writes
    reads back as the same command, and so does the command in each of the two
    older shapes. *)
Theorem engine_roundtrip command :
  unmarshalEngineSpec (Doc (marshalEngineSpec command)) = Ok command ∧
  ∀ d, stores command d -> unmarshalEngineSpec (Doc d) = Ok command.
Proof. split; [done|]. by intros d [|args [-> | ->]|]. Qed.

Lemma engine_roundtrip_witness :
  unmarshalEngineSpec (Doc (JObject [("args", JArray [JString "serve --port 1"]);
    ("command", JArray [JString "/bin/sh"; JString "-c"])])) = Ok "serve --port 1".
Proof. apply (proj2 (engine_roundtrip "serve --port 1")). apply stores_wrapper. by right. Defined.

(** Nothing else reads back as a command, except that null, a missing document
    and null fields count as the empty command. *)
Lemma unmarshal_inv d command :
  unmarshalEngineSpec (Doc d) = Ok command -> command ≠ "" ->
  d = JString command ∨ d = marshalEngineSpec command ∨
  ∃ fields c a, d = JObject fields ∧ length fields = 2%nat ∧ field "command" fields = Some c ∧
    field "args" fields = Some a ∧ as_strings c = Some ["/bin/sh"; "-c"] ∧ as_strings a = Some [command].
Proof.
  intros H Hne. destruct d as [| | |s| |fields]; simplify_eq/=; try done; [by left|].
  destruct (field "command" fields) as [c|] eqn:Ec; [|done].
  destruct (as_string c) as [s|] eqn:Es.
  - case_bool_decide as Hl; [|done]. injection H as ->. right. left.
    destruct fields as [|[n d] []]; try done. cbn in Ec. case_bool_decide; [|done]. simplify_eq.
    destruct c; simplify_eq/=; done.
  - unfold legacy_wrapper in H. case_bool_decide as Hl; [|done]. cbn in H.
    destruct (field "args" fields) as [a|] eqn:Ea; [|done]. case_bool_decide as Hw; [|done].
    destruct (as_strings a) as [[|x []]|] eqn:Eas; try done. injection H as ->. right. right.
    by exists fields, c, a.
Qed.
End Engine.
