(* ===== verification/Canonical.v ===== *)
(** * Canonical payloads

    api/inference/contract/v1/business_payload.go: the JSON object whose digest
    binds a command to its business content.  A protobuf message is seen as the Go
    code sees it, through reflection: its full name, whether it has unknown fields
    and its fields in descriptor order; a map field is listed by increasing key.
    The JSON text of an object and SHA-256 are parameters. *)

From S2P Require Import Prelude GoStrings Engine.
Local Open Scope Z_scope.

Module Canonical.
Import Engine.

(** ** Reflected messages *)
Inductive pfield (V : Type) :=
  | FMap (entries : list (string * V))
  | FList (items : list V)
  | FOne (v : V)
  | FAbsent.                            (* a message field that is not set *)
Arguments FMap {V} entries.
Arguments FList {V} items.
Arguments FOne {V} v.
Arguments FAbsent {V}.
Inductive pval :=
  | PString (s : string)
  | PBool (b : bool)
  | PEnum (z : Z)
  | PInt (z : Z)
  | PUint (z : Z)
  | POther                              (* bytes, floating point *)
  | PMsg (full : string) (unknown : bool) (fields : list (string * pfield pval)).

(** [msg.Has(field)]: a scalar is set when it is not its zero value. *)
Definition has_value (v : pval) : bool :=
  match v with
  | PString s => negb (bool_decide (s = ""))
  | PBool b => b
  | PEnum z | PInt z | PUint z => negb (z =? 0)
  | POther | PMsg _ _ _ => true
  end.
Definition has_field (f : pfield pval) : bool :=
  match f with
  | FMap l => negb (bool_decide (length l = 0%nat))
  | FList l => negb (bool_decide (length l = 0%nat))
  | FOne v => has_value v
  | FAbsent => false
  end.

(** ** The canonical object *)
Definition by_name (a b : string * json) : Prop := String.le a.1 b.1.
#[global] Instance by_name_dec : RelDecision by_name.
Proof. intros a b. unfold by_name. apply _. Defined.
(** [encoding/json] writes the keys of a map in increasing order. *)
Definition object (fields : list (string * json)) : json := JObject (merge_sort by_name fields).

Definition catalog_field (full name : string) : bool :=
  bool_decide (name = "contract_version") ||
  (bool_decide (full = "inference.v1.EngineSpec") &&
   (bool_decide (name = "image_id") || bool_decide (name = "image_scope"))).
Definition metadata_field (name : string) : bool :=
  bool_decide (name = "request_id") || bool_decide (name = "context").
Definition ErrCatalog : goerr := errorf "catalog fields require contract_version 2".

Section Fields.
Context (value : pval -> result json).
Fixpoint canonical_list (items : list pval) : result (list json) :=
  match items with
  | [] => Ok []
  | v :: rest => j ← value v; js ← canonical_list rest; Ok (j :: js)
  end.
Fixpoint canonical_map (entries : list (string * pval)) : result (list (string * json)) :=
  match entries with
  | [] => Ok []
  | (k, v) :: rest => j ← value v; js ← canonical_map rest; Ok ((k, j) :: js)
  end.
Definition canonical_field (f : pfield pval) : result json :=
  match f with
  | FMap entries => js ← canonical_map entries; Ok (object js)
  | FList items => js ← canonical_list items; Ok (JArray js)
  | FOne v => value v
  | FAbsent => Ok JNull
  end.
Fixpoint canonical_fields (business catalog : bool) (full : string) (fields : list (string * pfield pval))
    : result (list (string * json)) :=
  match fields with
  | [] => Ok []
  | (name, f) :: rest =>
      if negb catalog && catalog_field full name then
        if has_field f then Err ErrCatalog else canonical_fields business catalog full rest
      else if business && metadata_field name then canonical_fields business catalog full rest
      else j ← canonical_field f; js ← canonical_fields business catalog full rest; Ok ((name, j) :: js)
  end.
End Fields.

Definition ErrUnknown : goerr := errorf "unknown business fields are not allowed".
Fixpoint canonicalValueVersion (catalog : bool) (v : pval) : result json :=
  match v with
  | PMsg full unknown fields =>
      if unknown then Err ErrUnknown else
      js ← canonical_fields (canonicalValueVersion catalog) false catalog full fields;
      Ok (object js)
  | PString s => Ok (JString s)
  | PBool b => Ok (JBool b)
  | PEnum z => if z <? 0 then Err (errorf "negative enum is outside the canonical contract") else Ok (JString (format_int z))
  | PInt z => if z <? 0 then Err (errorf "negative integer is outside the canonical contract") else Ok (JString (format_int z))
  | PUint z => if 2 ^ 63 - 1 <? z then Err (errorf "canonical integer overflows int64") else Ok (JString (format_int z))
  | POther => Err (errorf "unsupported business field")
  end.
(** A message: [canonicalMessageVersion] and [canonicalMessage], which takes the
    version from the message's own contract_version field. *)
Definition pmsg : Type := string * bool * list (string * pfield pval).
Definition canonicalMessageVersion (m : pmsg) (business catalog : bool) : result (list (string * json)) :=
  let '(full, unknown, fields) := m in
  if unknown then Err ErrUnknown else
  canonical_fields (canonicalValueVersion catalog) business catalog full fields.
Fixpoint contract_version (fields : list (string * pfield pval)) : Z :=
  match fields with
  | [] => 0
  | (name, f) :: rest =>
      if bool_decide (name = "contract_version") then match f with FOne (PUint z) => z | _ => 0 end
      else contract_version rest
  end.
Definition canonicalMessage (m : pmsg) (business : bool) : result (list (string * json)) :=
  let version := contract_version m.2 in
  if negb (version =? 0) && negb (version =? 2) then Err (errorf "unsupported command contract version")
  else canonicalMessageVersion m business (version =? 2).

Section Text.
Context (encode_json : json -> string) (sha256_hex : string -> string).
Definition CanonicalBusinessPayload (m : pmsg) : result string :=
  o ← canonicalMessage m true; Ok (encode_json (object o)).
Definition BusinessPayloadDigest (m : pmsg) : result string :=
  raw ← CanonicalBusinessPayload m; Ok (sha256_hex raw).
Definition newline : string := String (Ascii.ascii_of_nat 10) EmptyString.
Definition governanceHash (o : list (string * json)) : string :=
  sha256_hex ("acc-c14n-v1" +:+ newline +:+ encode_json (object o)).
End Text.
(** ** What a canonical object determines

    A descriptor says what the fields of a message are; two messages of one type
    have the same one. *)
Inductive kind :=
  | KString | KBool | KEnum | KInt | KUint
  | KMsg (full : string) (fields : list (string * fkind))
with fkind := KMap (k : kind) | KList (k : kind) | KOne (k : kind).

Definition sorted_keys {V} (entries : list (string * V)) : Prop := NoDup entries.*1 ∧ Sorted String.le entries.*1.
Inductive has_kind : pval -> kind -> Prop :=
  | HString s : has_kind (PString s) KString
  | HBool b : has_kind (PBool b) KBool
  | HEnum z : has_kind (PEnum z) KEnum
  | HInt z : has_kind (PInt z) KInt
  | HUint z : has_kind (PUint z) KUint
  | HMsg full u fs ks : NoDup ks.*1 -> Forall2 (fun f k => f.1 = k.1 ∧ field_kind f.2 k.2) fs ks ->
      has_kind (PMsg full u fs) (KMsg full ks)
with field_kind : pfield pval -> fkind -> Prop :=
  | HMap l k : sorted_keys l -> Forall (fun e => has_kind e.2 k) l -> field_kind (FMap l) (KMap k)
  | HList l k : Forall (fun v => has_kind v k) l -> field_kind (FList l) (KList k)
  | HOne v k : has_kind v k -> field_kind (FOne v) (KOne k)
  | HAbsent full ks : field_kind FAbsent (KOne (KMsg full ks)).
Definition fields_kind (fs : list (string * pfield pval)) (ks : list (string * fkind)) : Prop :=
  Forall2 (fun f k => f.1 = k.1 ∧ field_kind f.2 k.2) fs ks.

(** Induction that reaches the messages nested in fields. *)
Definition field_all (P : pval -> Prop) (f : pfield pval) : Prop :=
  match f with
  | FMap l => Forall (fun e => P e.2) l
  | FList l => Forall P l
  | FOne v => P v
  | FAbsent => True
  end.
Section Induction.
Context (P : pval -> Prop).
Context (scalar : ∀ v, match v with PMsg _ _ _ => True | _ => P v end).
Context (msg : ∀ full u fs, Forall (fun f => field_all P f.2) fs -> P (PMsg full u fs)).
Fixpoint pval_nested_ind (v : pval) : P v :=
  match v with
  | PMsg full u fs =>
      msg full u fs ((fix fields fs : Forall (fun f => field_all P f.2) fs :=
        match fs with
        | [] => Forall_nil_2 _
        | (n, f) :: rest => Forall_cons_2 _ (n, f) rest
            (match f return field_all P f with
             | FMap l => (fix entries l : Forall (fun e => P e.2) l :=
                 match l with [] => Forall_nil_2 _ | (k, v) :: l => Forall_cons_2 _ (k, v) l (pval_nested_ind v) (entries l) end) l
             | FList l => (fix items l : Forall P l :=
                 match l with [] => Forall_nil_2 _ | v :: l => Forall_cons_2 _ v l (pval_nested_ind v) (items l) end) l
             | FOne v => pval_nested_ind v
             | FAbsent => I
             end) (fields rest)
        end) fs)
  | PString s => scalar (PString s) | PBool b => scalar (PBool b) | PEnum z => scalar (PEnum z)
  | PInt z => scalar (PInt z) | PUint z => scalar (PUint z) | POther => scalar POther
  end.
End Induction.

(** Sorting loses nothing when the names are known and distinct. *)
Lemma assoc_perm_eq {V} (l l' : list (string * V)) : l ≡ₚ l' -> l.*1 = l'.*1 -> NoDup l.*1 -> l = l'.
Proof.
  revert l'. induction l as [|[n v] l IH]; intros l' Hp Hn Hd.
  { by apply Permutation_nil_l in Hp as ->. }
  destruct l' as [|[n' v'] l']; [done|]. cbn in Hn. injection Hn as <- Hn. apply NoDup_cons in Hd as [Hd1 Hd2].
  assert (v' = v) as ->.
  { assert ((n, v') ∈ (n, v) :: l) as Hin by (rewrite Hp; left). apply elem_of_cons in Hin as [[= ->]|Hin]; [done|].
    exfalso. apply Hd1. apply list_elem_of_fmap. by exists (n, v'). }
  f_equal. apply Permutation_cons_inv in Hp. auto.
Qed.
Lemma object_inj js js' : object js = object js' -> js.*1 = js'.*1 -> NoDup js.*1 -> js = js'.
Proof.
  unfold object. intros [= E] Hn Hd. apply assoc_perm_eq; [|done..].
  by rewrite <- (merge_sort_Permutation by_name js), E, merge_sort_Permutation.
Qed.
Lemma object_perm js js' : object js = object js' -> js ≡ₚ js'.
Proof. unfold object. intros [= E]. by rewrite <- (merge_sort_Permutation by_name js), E, merge_sort_Permutation. Qed.

Section Determined.
Context (catalog : bool).
Local Abbreviation value := (canonicalValueVersion catalog).
Definition determined (v : pval) : Prop := ∀ k v' j,
  has_kind v k -> has_kind v' k -> value v = Ok j -> value v' = Ok j -> v = v'.

Lemma list_determined l l' k js : Forall determined l ->
  Forall (fun v => has_kind v k) l -> Forall (fun v => has_kind v k) l' ->
  canonical_list value l = Ok js -> canonical_list value l' = Ok js -> l = l'.
Proof.
  intros Hd. revert l' js. induction Hd as [|v l Hv _ IH]; intros [|v' l'] js K K' H H'; cbn -[canonicalValueVersion] in H, H'.
  - done.
  - injection H as <-. by minv H'.
  - injection H' as <-. by minv H.
  - minv H. minv H'. injection H as <-. injection H' as -> ->. apply Forall_cons in K as [K1 K2], K' as [K1' K2'].
    f_equal; [eauto|eauto].
Qed.
Lemma map_keys l js : canonical_map value l = Ok js -> js.*1 = l.*1.
Proof.
  revert js. induction l as [|[k v] l IH]; intros js H; cbn -[canonicalValueVersion] in H; [by injection H as <-|].
  minv H. injection H as <-. cbn. f_equal. auto.
Qed.
Lemma map_determined_same l l' k js : Forall (fun e => determined e.2) l -> l.*1 = l'.*1 ->
  Forall (fun e => has_kind e.2 k) l -> Forall (fun e => has_kind e.2 k) l' ->
  canonical_map value l = Ok js -> canonical_map value l' = Ok js -> l = l'.
Proof.
  intros Hd. revert l' js. induction Hd as [|[n v] l Hv _ IH]; intros [|[n' v'] l'] js Hn K K' H H'; try done.
  cbn -[canonicalValueVersion] in H, H'. cbn in Hn. injection Hn as <- Hn.
  minv H. minv H'. injection H as <-. injection H' as -> ->. apply Forall_cons in K as [K1 K2], K' as [K1' K2'].
  f_equal; [f_equal; eauto|eauto].
Qed.
Lemma map_determined l l' k js js' : Forall (fun e => determined e.2) l -> sorted_keys l -> sorted_keys l' ->
  Forall (fun e => has_kind e.2 k) l -> Forall (fun e => has_kind e.2 k) l' ->
  canonical_map value l = Ok js -> canonical_map value l' = Ok js' -> object js = object js' -> l = l'.
Proof.
  intros Hd [N1 S1] [N2 S2] K K' H H' E. pose proof (map_keys _ _ H) as E1. pose proof (map_keys _ _ H') as E2.
  assert (Hk : l.*1 = l'.*1).
  { apply (Sorted_unique String.le); [done..|]. rewrite <- E1, <- E2. f_equiv. by apply object_perm. }
  assert (js = js') as <- by (apply object_inj; congruence). eauto using map_determined_same.
Qed.
Lemma field_determined f f' k j : field_all determined f -> field_kind f k -> field_kind f' k ->
  canonical_field value f = Ok j -> canonical_field value f' = Ok j -> f = f'.
Proof.
  intros Hd K K' H H'. destruct K as [l k S K|l k K|v k K|full ks]; inversion K'; subst; cbn -[canonicalValueVersion] in H, H'.
  - minv H. minv H'. injection H as <-. injection H' as E. f_equal. eapply map_determined; eauto. unfold object. by rewrite E.
  - minv H. minv H'. injection H as <-. injection H' as ->. f_equal. eapply list_determined; eauto.
  - f_equal. eapply Hd; eauto.
  - inversion K; subst. exfalso. injection H' as <-. cbn in H. case_match; [done|]. by minv H.
  - match goal with Hv : has_kind v _ |- _ => inversion Hv; subst end. exfalso. injection H as <-. cbn in H'. case_match; [done|]. by minv H'.
  - done.
Qed.
(** The fields a canonical message shows, and the ones it must not have. *)
Definition shown (business : bool) (full name : string) : bool :=
  negb (negb catalog && catalog_field full name) && negb (business && metadata_field name).
Definition business_part (business : bool) (fs : list (string * pfield pval)) : list (string * pfield pval) :=
  filter (fun f => business && metadata_field f.1 = false) fs.

Lemma shown_names business full fs js : canonical_fields value business catalog full fs = Ok js ->
  js.*1 = filter (fun n => shown business full n = true) fs.*1.
Proof.
  revert js. induction fs as [|[n f] fs IH]; intros js H; cbn -[canonicalValueVersion] in H; [by injection H as <-|].
  rewrite fmap_cons. destruct (negb catalog && catalog_field full n) eqn:E1.
  { rewrite filter_cons_False; [|by unfold shown; cbn; rewrite E1]. destruct (has_field f); [done|auto]. }
  destruct (business && metadata_field n) eqn:E2.
  { rewrite filter_cons_False; [auto|unfold shown; cbn; by rewrite E1, E2]. }
  minv H. injection H as <-. rewrite filter_cons_True; [|unfold shown; cbn; by rewrite E1, E2]. cbn. f_equal. auto.
Qed.
Lemma unset_equal f f' k : field_kind f k -> field_kind f' k -> has_field f = false -> has_field f' = false -> f = f'.
Proof.
  assert (Hz : ∀ z, negb (z =? 0) = false -> z = 0) by (intros z ?%negb_false_iff; lia).
  intros K K' U U'. destruct K as [l k0 _ _|l k0 _|v k0 K|full ks]; inversion K'; subst; cbn in U, U'; try done.
  - destruct l, l0; done.
  - destruct l, l0; done.
  - destruct K; match goal with Hv : has_kind v0 _ |- _ => inversion Hv; subst end; cbn in U, U'; try done.
    + apply negb_false_iff, bool_decide_eq_true in U, U'. by subst.
    + by rewrite U, U'.
    + by rewrite (Hz _ U), (Hz _ U').
    + by rewrite (Hz _ U), (Hz _ U').
    + by rewrite (Hz _ U), (Hz _ U').
  - match goal with Hv : has_kind v _ |- _ => inversion Hv; subst end. done.
  - match goal with Hv : has_kind v _ |- _ => inversion Hv; subst end. done.
Qed.
Lemma fields_determined_same business full fs fs' ks js : Forall (fun f => field_all determined f.2) fs ->
  fields_kind fs ks -> fields_kind fs' ks ->
  canonical_fields value business catalog full fs = Ok js -> canonical_fields value business catalog full fs' = Ok js ->
  business_part business fs = business_part business fs'.
Proof.
  intros Hd K. revert fs' js. induction K as [|[n f] [n0 k] fs ks [E K] _ IH]; intros fs' js K' H H'.
  { by inversion K'. }
  apply Forall2_cons_inv_r in K' as ([n' f'] & fs1 & [E' K1] & K2 & ->). cbn in E, E', K, K1. subst n0 n'.
  apply Forall_cons in Hd as [Hd1 Hd2]. cbn -[canonicalValueVersion] in H, H'. unfold business_part.
  destruct (negb catalog && catalog_field full n) eqn:E1.
  - destruct (has_field f) eqn:Hf; [done|]. destruct (has_field f') eqn:Hf'; [done|].
    pose proof (unset_equal _ _ _ K K1 Hf Hf') as ->. specialize (IH Hd2 _ _ K2 H H'). unfold business_part in IH.
    rewrite !filter_cons. by rewrite IH.
  - destruct (business && metadata_field n) eqn:E2.
    + rewrite !filter_cons_False by (cbn; by rewrite E2). eapply IH; eauto.
    + minv H. minv H'. injection H as <-. injection H' as -> ->.
      pose proof (field_determined _ _ _ _ Hd1 K K1 Hm Hm1) as Ef. cbn in Ef. subst f'.
      specialize (IH Hd2 _ _ K2 Hm0 Hm2). unfold business_part in IH.
      rewrite !filter_cons_True by (cbn; by rewrite E2). by rewrite IH.
Qed.
Lemma kind_names fs ks : fields_kind fs ks -> fs.*1 = ks.*1.
Proof. induction 1 as [|f k fs ks [E _] _ IH]; [done|]. cbn. by rewrite E, IH. Qed.
Lemma fields_determined business full fs fs' ks js js' : Forall (fun f => field_all determined f.2) fs ->
  NoDup ks.*1 -> fields_kind fs ks -> fields_kind fs' ks ->
  canonical_fields value business catalog full fs = Ok js -> canonical_fields value business catalog full fs' = Ok js' ->
  object js = object js' -> business_part business fs = business_part business fs'.
Proof.
  intros Hd Hn K K' H H' E.
  pose proof (shown_names _ _ _ _ H) as E1. pose proof (shown_names _ _ _ _ H') as E2.
  rewrite (kind_names _ _ K) in E1. rewrite (kind_names _ _ K') in E2.
  assert (js = js') as <-.
  { apply object_inj; [done|congruence|]. rewrite E1. by apply NoDup_filter. }
  eauto using fields_determined_same.
Qed.
Lemma business_part_all fs : business_part false fs = fs.
Proof. unfold business_part. induction fs as [|f fs IH]; [done|]. rewrite filter_cons_True by done. by rewrite IH. Qed.

Lemma value_determined v : determined v.
Proof.
  apply pval_nested_ind; [intros []; try done|intros full u fs IH];
    intros k v' j K K' H H'; inversion K; subst; inversion K'; subst; cbn -[canonical_fields] in H, H'.
  - congruence.
  - congruence.
  - do 2 (case_match; [done|]). f_equal. apply (inj pretty). unfold format_int in *. congruence.
  - do 2 (case_match; [done|]). f_equal. apply (inj pretty). unfold format_int in *. congruence.
  - do 2 (case_match; [done|]). f_equal. apply (inj pretty). unfold format_int in *. congruence.
  - destruct u; [done|]. destruct u0; [done|]. minv H. minv H'. injection H as <-. injection H' as E.
    f_equal. rewrite <- (business_part_all fs), <- (business_part_all fs0).
    eapply fields_determined; eauto. unfold object. by rewrite E.
Qed.
End Determined.
(** *** Two messages with one canonical object *)
Lemma version_named fs : contract_version fs ≠ 0 -> "contract_version" ∈ fs.*1.
Proof.
  induction fs as [|[n f] fs IH]; cbn; [done|]. case_bool_decide as E; [intros _; subst; left|right; auto].
Qed.
Lemma catalog_shown catalog business full fs js js' fs' :
  canonical_fields (canonicalValueVersion catalog) business catalog full fs = Ok js ->
  canonical_fields (canonicalValueVersion true) business true full fs' = Ok js' ->
  object js = object js' -> contract_version fs' ≠ 0 -> catalog = true.
Proof.
  intros H H' E Hv. apply shown_names in H, H'. assert (Hin : "contract_version" ∈ js'.*1).
  { rewrite H'. apply list_elem_of_filter. split; [by destruct business|by apply version_named]. }
  rewrite <- (object_perm _ _ E), H in Hin. apply list_elem_of_filter in Hin as [Hin _]. by destruct catalog.
Qed.
Lemma message_determined m m' ks o o' : NoDup ks.*1 -> fields_kind m.2 ks -> fields_kind m'.2 ks -> m.1.1 = m'.1.1 ->
  canonicalMessage m true = Ok o -> canonicalMessage m' true = Ok o' -> object o = object o' ->
  business_part true m.2 = business_part true m'.2 ∧ m.1.2 = false ∧ m'.1.2 = false.
Proof.
  destruct m as [[full u] fs], m' as [[full' u'] fs']. cbn [fst snd]. intros Hn K K' <- H H' E.
  unfold canonicalMessage, canonicalMessageVersion in H, H'. cbn [fst snd] in H, H'.
  destruct (negb (contract_version fs =? 0) && _) eqn:V; [done|].
  destruct (negb (contract_version fs' =? 0) && _) eqn:V'; [done|].
  destruct u; [done|]. destruct u'; [done|]. split; [|done].
  assert (Ec : (contract_version fs =? 2) = (contract_version fs' =? 2)).
  { destruct (contract_version fs =? 2) eqn:C, (contract_version fs' =? 2) eqn:C'; try done; exfalso.
    - pose proof (catalog_shown _ _ _ _ _ _ _ H' H (eq_sym E)) as Hx. discriminate Hx. lia.
    - pose proof (catalog_shown _ _ _ _ _ _ _ H H' E) as Hx. discriminate Hx. lia. }
  rewrite <- Ec in H'. eapply fields_determined; eauto.
  apply Forall_forall. intros [n f] _. destruct f; cbn; try apply Forall_forall; intros; apply value_determined || done.
Qed.
End Canonical.
