(* ===== verification/Work.v ===== *)
(** * The durable work loop

    internal/biz/work: worker.go (one claimed item) and loop.go (the scheduler
    over tenants, recovery and the process loop).  The store, the executor and
    the tenant source are the Go interfaces: records of computations over an
    arbitrary state [S].  Metrics calls have no effect on that state and are left
    out. *)

From S2P Require Import Prelude.
Local Open Scope Z_scope.

Module Work.

Definition ErrStaleGeneration : goerr := ENew "work.ErrStaleGeneration" "stale generation".
Definition ErrLeaseLost : goerr :=
  ENew "work.ErrLeaseLost" "work lease expired, superseded, or generation changed".

Record Item := mkItem {
  TenantID : string; ServiceID : string; Generation : Z; DirtyVersion : Z; LeaseToken : string }.
Record Result := mkResult { Res_Generation : Z }.

Section Work.
Context {S : Type}.

(** [Claim] returns [(Item, bool, error)]: the flag is the option. *)
Record Store := mkStore {
  Claim : string -> M S (option Item);
  Commit : Item -> Result -> M S unit;
  Retry : Item -> goerr -> M S unit }.
Definition Executor := Item -> M S Result.
Record Worker := mkWorker { Worker_Store : Store; Worker_Execute : Executor }.

Definition Worker_RunOnce (w : Worker) (tenantID : string) : M S unit :=
  claimed ← Claim (Worker_Store w) tenantID;
  match claimed with
  | None => mret tt
  | Some item =>
      r ← try (Worker_Execute w item);
      match r with
      | Err e => _ ← Retry (Worker_Store w) item e; throw e
      | Ok result =>
          if negb (Res_Generation result =? Generation item) then throw ErrStaleGeneration
          else Commit (Worker_Store w) item result
      end
  end.

(** ** The loop

    A context is observed through [ctx.Err()]; the nil context is replaced by
    the background context, which is never done. *)
Definition Context := M S (option goerr).
Definition Background : Context := mret None.
Definition or_background (ctx : option Context) : Context :=
  match ctx with Some c => c | None => Background end.

Record WorkerPtr := mkWorkerPtr { P_Store : option Store; P_Execute : option Executor }.
Record Loop := mkLoop {
  L_Worker : option WorkerPtr;
  L_Tenants : option (M S (list string));
  L_Interval : Z;
  L_OnError : option (goerr -> M S unit);
  L_Recover : option (M S unit);
  L_Close : option (M S unit);
  L_Repair : option (M S unit);
  L_RecoveryInterval : Z }.

Definition Loop_validate (l : option Loop) : result (Worker * M S (list string)) :=
  let nil_worker := Err (errorf "durable work loop worker is nil") in
  match l with
  | None => nil_worker
  | Some l =>
      match L_Worker l with
      | None => nil_worker
      | Some w =>
          match P_Store w with
          | None => nil_worker
          | Some store =>
              match P_Execute w with
              | None => Err (errorf "durable work loop executor is nil")
              | Some execute =>
                  match L_Tenants l with
                  | None => Err (errorf "durable work loop tenant source is nil")
                  | Some tenants => Ok (mkWorker store execute, tenants)
                  end
              end
          end
      end
  end.

(** A function that returns a possibly nil error. *)
Definition return_err (e : option goerr) : M S unit :=
  match e with None => mret tt | Some e => throw e end.

Fixpoint tenant_loop (w : Worker) (ctx : Context) (tenants : list string) (joined : option goerr)
    : M S unit :=
  match tenants with
  | [] => e ← ctx; return_err (errors_join joined e)
  | tenant :: rest =>
      e ← ctx;
      match e with
      | Some e => return_err (errors_join joined (Some e))
      | None =>
          if bool_decide (tenant = "") then tenant_loop w ctx rest joined
          else
            r ← try (Worker_RunOnce w tenant);
            match r with
            | Ok _ => tenant_loop w ctx rest joined
            | Err e =>
                tenant_loop w ctx rest
                  (errors_join joined (Some (errorf_before ("durable work tenant " +:+ quoted tenant) e)))
            end
      end
  end.

Definition run_close (l : Loop) : M S (option goerr) :=
  match L_Close l with
  | None => mret None
  | Some close =>
      r ← try close;
      match r with
      | Ok _ => mret None
      | Err e => mret (errors_join None (Some (errorf_before "managed close" e)))
      end
  end.

Definition Loop_RunOnce (lp : option Loop) (ctx : option Context) : M S unit :=
  wt ← lift (Loop_validate lp);
  let ctx := or_background ctx in
  e ← ctx;
  match e, lp with
  | Some e, _ => throw e
  | None, None => throw (errorf "durable work loop worker is nil")
  | None, Some l =>
      joined ← run_close l;
      r ← try wt.2;
      match r with
      | Err e => return_err (errors_join joined (Some (errorf_before "durable work list tenants" e)))
      | Ok tenants => tenant_loop wt.1 ctx tenants joined
      end
  end.

(** [Run] keeps its own clock readings; [wait] is the final [select]: true when
    the ticker fired, false when the context is done.  Times in nanoseconds. *)
Definition Second : Z := 1000000000.
Definition interval_of (l : Loop) : Z := if L_Interval l <=? 0 then 5 * Second else L_Interval l.
Definition recovery_interval_of (l : Loop) : Z :=
  if L_RecoveryInterval l <=? 0 then 60 * Second else L_RecoveryInterval l.

Definition on_error (l : Loop) (e : goerr) : M S unit :=
  match L_OnError l with Some f => f e | None => mret tt end.

Definition present {A} (o : option A) : bool := match o with Some _ => true | None => false end.

(** The recovery block of one iteration; [last] is [lastRecovery], None while zero. *)
Definition run_recovery (l : Loop) (now : M S Z) (last : option Z) : M S (option Z) :=
  if negb (present (L_Recover l) || present (L_Repair l)) then mret last else
  due ← match last with
        | None => mret true
        | Some t => n ← now; mret (recovery_interval_of l <=? n - t)
        end;
  if negb due then mret last else
  t ← now;
  let recovery := match last, L_Repair l with
                  | Some _, Some repair => Some repair
                  | _, _ => L_Recover l
                  end in
  match recovery with
  | None => mret (Some t)
  | Some recovery =>
      r ← try recovery;
      match r with
      | Ok _ => mret (Some t)
      | Err e => _ ← on_error l (errorf_before "durable work recovery" e); mret (Some t)
      end
  end.

(** One iteration of [Run]: [Some e] ends the loop with [e]. *)
Definition Loop_iteration (l : Loop) (ctx : Context) (now : M S Z) (wait : M S bool) (last : option Z)
    : M S (option goerr * option Z) :=
  last ← run_recovery l now last;
  r ← try (Loop_RunOnce (Some l) (Some ctx));
  done ← ctx;
  match done with
  | Some e => mret (Some e, last)
  | None =>
      _ ← match r with Ok _ => mret tt | Err e => on_error l e end;
      ticked ← wait;
      if (ticked : bool) then mret (None, last) else e ← ctx; mret (e, last)
  end.

(** [fuel] bounds the iterations: [None] means still running. *)
Fixpoint Loop_Run (fuel : nat) (l : Loop) (ctx : Context) (now : M S Z) (wait : M S bool)
    (last : option Z) : M S (option goerr) :=
  match fuel with
  | O => mret None
  | Datatypes.S fuel =>
      '(stop, last) ← Loop_iteration l ctx now wait last;
      match stop with
      | Some e => mret (Some e)
      | None => Loop_Run fuel l ctx now wait last
      end
  end.

(** ** Properties *)

(** The states a pass goes through: every tenant in order, whatever happened to
    the tenants before it. *)
Definition attempt (w : Worker) (s : S) (tenant : string) : S := (Worker_RunOnce w tenant s).2.
Definition named (tenants : list string) : list string :=
  filter (fun t => t ≠ "") tenants.
(** The errors of the attempts, in order. *)
Fixpoint failures (w : Worker) (tenants : list string) (s : S) : list (string * goerr) :=
  match tenants with
  | [] => []
  | t :: rest =>
      match Worker_RunOnce w t s with
      | (Ok _, s') => failures w rest s'
      | (Err e, s') => (t, e) :: failures w rest s'
      end
  end.

Lemma errors_join_some a e : ∃ j, errors_join a (Some e) = Some j.
Proof. destruct a; eexists; done. Qed.

Lemma named_cons t rest :
  named (t :: rest) = if bool_decide (t = "") then named rest else t :: named rest.
Proof.
  unfold named. case_bool_decide; [rewrite filter_cons_False by naive_solver|
    rewrite filter_cons_True by done]; done.
Qed.

Lemma tenant_loop_run w tenants joined s :
  (tenant_loop w Background tenants joined s).2 = foldl (attempt w) s (named tenants) ∧
  (is_ok (tenant_loop w Background tenants joined s).1 = true <->
     joined = None ∧ failures w (named tenants) s = []).
Proof.
  revert joined s. induction tenants as [|t rest IH]; intros joined s.
  { destruct joined; cbn; (split; [done|split; [done|by intros [??]]]). }
  rewrite named_cons. cbn -[named]. unfold mbind, M_bind. cbn -[named].
  case_bool_decide as Ht; [apply IH|]. cbn -[named].
  unfold try, attempt at 2.
  destruct (Worker_RunOnce w t s) as [[[]|e] s'] eqn:E; cbn -[named]; [apply IH|].
  destruct (IH (errors_join joined (Some (errorf_before ("durable work tenant " +:+ quoted t) e))) s')
    as [-> ->]. split; [done|].
  destruct (errors_join_some joined (errorf_before ("durable work tenant " +:+ quoted t) e)) as [j ->].
  split; intros [??]; done.
Qed.

(**  One pass of the loop attempts every named tenant exactly once and
    in order: the state it leaves is the state after all attempts, however many
    of them (or the close hook) failed, and the pass reports success exactly
    when the close hook and every attempt succeeded. *)
Theorem RunOnce_attempts_every_tenant l w ts s tenants s1 s2 c :
  Loop_validate (Some l) = Ok (w, ts) ->
  run_close l s = (Ok c, s1) -> ts s1 = (Ok tenants, s2) ->
  (Loop_RunOnce (Some l) None s).2 = foldl (attempt w) s2 (named tenants) ∧
  (is_ok (Loop_RunOnce (Some l) None s).1 = true <->
     c = None ∧ failures w (named tenants) s2 = []).
Proof.
  intros Hv Hc Ht. unfold Loop_RunOnce. rewrite Hv. cbn -[tenant_loop].
  unfold mbind, M_bind, lift. cbn -[tenant_loop]. rewrite Hc. unfold try. rewrite Ht.
  apply tenant_loop_run.
Qed.

(** The process loop only stops for its context. *)
Lemma iteration_stop l ctx now wait last s e last' t :
  Loop_iteration l ctx now wait last s = (Ok (Some e, last'), t) ->
  ∃ u v, ctx u = (Ok (Some e), v).
Proof.
  unfold Loop_iteration. intros H. minv H. destruct a1 as [e'|].
  - apply (f_equal fst) in H as Hf. injection Hf as <- _. eauto.
  - minv H. destruct a2; [done|]. minv H. injection H as -> _ _. eauto.
Qed.
End Work.
Arguments Store : clear implicits.
Arguments Worker : clear implicits.
Arguments Loop : clear implicits.

(** A store over a list of calls: the second tenant fails to claim. *)
Definition log_store : Store (list string) := {|
  Claim t := fun log => (if bool_decide (t = "b") then Err (errorf "down") else Ok None, log ++ [t]);
  Commit _ _ := mret tt;
  Retry _ _ := mret tt |}.
Definition log_loop : Loop (list string) :=
  mkLoop (Some (mkWorkerPtr (Some log_store) (Some (fun i => mret (mkResult (Generation i))))))
    (Some (mret ["a"; "b"; ""; "c"])) 0 None None None None 0.

Lemma RunOnce_attempts_every_tenant_witness :
  (Loop_RunOnce (Some log_loop) None []).2 = ["a"; "b"; "c"] ∧
  is_ok (Loop_RunOnce (Some log_loop) None []).1 = false.
Proof.
  destruct (RunOnce_attempts_every_tenant log_loop
    (mkWorker log_store (fun i => mret (mkResult (Generation i)))) (mret ["a"; "b"; ""; "c"])
    [] ["a"; "b"; ""; "c"] [] [] None eq_refl eq_refl eq_refl) as [H1 H2].
  split; [rewrite H1; reflexivity|].
  apply not_true_is_false. intros E. apply H2 in E as [_ E]. discriminate E.
Defined.
End Work.
