(* ===== verification/Schema.v ===== *)
(** * Tables, statements and transactions

    The rows of internal/data/postgres/models.go, the database as one finite map
    per table, and the way the Go code talks to it: every statement of a session
    is one step that may be lost or lose its answer, a transaction is kept or
    undone as a whole.

    Conventions.  A UUID is its 128-bit value; times are microseconds since the
    epoch and a NULL column is [None]; a JSONB column holds the document its Go
    type decodes to, or [JBad] when the text does not decode.  A statement reads
    the clock once (now() and clock_timestamp() coincide) and transactions are
    serial: the row locks of FOR UPDATE and the advisory locks only order them. *)

From S2P Require Import Prelude GoStrings Gpu Resources Engine.
From Stdlib Require Import Ascii.
Local Open Scope Z_scope.

Definition uuid := N.

(** github.com/google/uuid: parsing and printing. *)
Class UuidLib := {
  uuid_parse : string -> option uuid;
  uuid_string : uuid -> string;
  (** [uuid.NewSHA1(uuid.NameSpaceOID, data)]. *)
  uuid_sha1_oid : string -> uuid;
}.
Class UuidLaws `{UuidLib} := {
  uuid_parse_string u : uuid_parse (uuid_string u) = Some u;
  uuid_parse_empty : uuid_parse "" = None;
}.

Inductive jsonb (A : Type) := JVal (a : A) | JBad.
Arguments JVal {A} a.
Arguments JBad {A}.

Module Schema.

(** ** Rows *)
Record ServiceRow := mkServiceRow {
  s_name : string; s_desired_state : string; s_desired_generation : Z;
  s_applied_generation : Z; s_current_operation_id : option uuid;
  s_deleted_at : option Z; s_created_at : Z; s_updated_at : Z }.
#[global] Instance ServiceRow_eta : Eta ServiceRow := fun r =>
  mkServiceRow (s_name r) (s_desired_state r) (s_desired_generation r) (s_applied_generation r)
    (s_current_operation_id r) (s_deleted_at r) (s_created_at r) (s_updated_at r).

(** The columns of a specification that a later generation inherits. *)
Record SpecBody := mkSpecBody {
  sp_model_id : option uuid; sp_model_version_id : uuid;
  sp_artifact_provider : string; sp_artifact_ref : string; sp_artifact_sha256 : string;
  sp_image_ref : string; sp_served_model_name : string; sp_engine_runtime : string;
  sp_command_argv : Engine.json; sp_resources : jsonb Resources.Spec; sp_replicas : Z;
  sp_runtime_mode : string; sp_worker_replicas : Z; sp_runtime_provider : string;
  sp_spec_json : gmap string string;
  sp_endpoint : option (Z * Z * string * string);
  sp_gpu_request : option (jsonb Gpu.Request); sp_gpu_plan : option (jsonb Gpu.Snapshot);
  sp_gpu_plan_digest : option string }.
#[global] Instance SpecBody_eta : Eta SpecBody := fun r =>
  mkSpecBody (sp_model_id r) (sp_model_version_id r) (sp_artifact_provider r) (sp_artifact_ref r)
    (sp_artifact_sha256 r) (sp_image_ref r) (sp_served_model_name r) (sp_engine_runtime r)
    (sp_command_argv r) (sp_resources r) (sp_replicas r) (sp_runtime_mode r) (sp_worker_replicas r)
    (sp_runtime_provider r) (sp_spec_json r) (sp_endpoint r) (sp_gpu_request r) (sp_gpu_plan r)
    (sp_gpu_plan_digest r).
Record SpecRow := mkSpecRow { sp_id : uuid; sp_body : SpecBody; sp_created_at : Z }.
#[global] Instance SpecRow_eta : Eta SpecRow := fun r =>
  mkSpecRow (sp_id r) (sp_body r) (sp_created_at r).

(** ** Messages

    The fields of [inferencev1.OperationResponse] that the accepting paths fill
    in; responses are stored as documents and replayed. *)
Inductive RuntimeMode := RUNTIME_MODE_DEPLOYMENT | RUNTIME_MODE_LEADER_WORKER_SET.
Record EndpointSpec := mkEndpointSpec {
  ContainerPort : Z; ServicePort : Z; TargetPort : string; Protocol : string }.
(** What a create answers about the service besides its identity. *)
Record ServiceDetail := mkServiceDetail {
  sd_name : string; sd_model_version_id : string; sd_replicas : Z;
  sd_resource : Resources.Spec; sd_mode : RuntimeMode; sd_worker_replicas : Z; sd_provider : string;
  sd_endpoint : option EndpointSpec; sd_artifact : string * string * string;
  sd_engine : string * string * string; sd_image_selection : option (string * string) }.
Record ResourceMessage := mkResourceMessage {
  rm_id : string; rm_desired_state : string; rm_generation : Z; rm_detail : option ServiceDetail }.
Record OperationMessage := mkOperationMessage {
  om_id : string; om_service_id : string; om_kind : string; om_phase : string; om_step : string;
  om_target_generation : Z; om_error_code : string; om_error_message : string }.
(** An accepted [DurableOwnerAck]: operation and resource. *)
Record OperationResponse := mkOperationResponse {
  or_resource : ResourceMessage; or_operation : OperationMessage; or_ack : option (string * string) }.

Record OperationRow := mkOperationRow {
  o_service_id : uuid; o_kind : string; o_phase : string; o_step : string;
  o_target_generation : Z; o_request_hash : string; o_attempt : Z; o_retry_at : option Z;
  o_lease_owner : option string; o_lease_until : option Z; o_lease_token : option uuid;
  o_error_code : string; o_error_message : string; o_created_at : Z; o_updated_at : Z;
  o_completed_at : option Z; o_result_snapshot : option (jsonb OperationResponse) }.
#[global] Instance OperationRow_eta : Eta OperationRow := fun r =>
  mkOperationRow (o_service_id r) (o_kind r) (o_phase r) (o_step r) (o_target_generation r)
    (o_request_hash r) (o_attempt r) (o_retry_at r) (o_lease_owner r) (o_lease_until r)
    (o_lease_token r) (o_error_code r) (o_error_message r) (o_created_at r) (o_updated_at r)
    (o_completed_at r) (o_result_snapshot r).

Record IdempotencyRow := mkIdempotencyRow {
  i_payload_hash : string; i_operation_id : uuid; i_created_at : Z; i_expires_at : option Z }.

Record RuntimeRow := mkRuntimeRow {
  r_generation : Z; r_runtime_phase : string; r_ready_replicas : Z; r_model_ready : bool;
  r_publication_phase : string; r_invocation_health : string; r_observed_at : option Z;
  r_stale_after : option Z; r_reason : string; r_updated_at : Z; r_runtime_mode : string;
  r_ready_groups : Z; r_ready_workers : Z; r_lws_uid : string; r_model_ready_known : bool }.
#[global] Instance RuntimeRow_eta : Eta RuntimeRow := fun r =>
  mkRuntimeRow (r_generation r) (r_runtime_phase r) (r_ready_replicas r) (r_model_ready r)
    (r_publication_phase r) (r_invocation_health r) (r_observed_at r) (r_stale_after r)
    (r_reason r) (r_updated_at r) (r_runtime_mode r) (r_ready_groups r) (r_ready_workers r)
    (r_lws_uid r) (r_model_ready_known r).

Record WorkRow := mkWorkRow {
  wk_dirty_version : Z; wk_acknowledged_version : Z; wk_next_run_at : option Z; wk_attempt : Z;
  wk_lease_owner : option string; wk_lease_until : option Z; wk_lease_token : option uuid;
  wk_last_error_code : string; wk_updated_at : Z }.
#[global] Instance WorkRow_eta : Eta WorkRow := fun r =>
  mkWorkRow (wk_dirty_version r) (wk_acknowledged_version r) (wk_next_run_at r) (wk_attempt r)
    (wk_lease_owner r) (wk_lease_until r) (wk_lease_token r) (wk_last_error_code r) (wk_updated_at r).

Record QuotaRow := mkQuotaRow {
  q_service_id : uuid; q_generation : Z; q_reservation_id : string;
  q_requested_resources : jsonb Resources.Spec; q_state : string; q_last_error_code : string;
  q_created_at : Z; q_updated_at : Z }.
#[global] Instance QuotaRow_eta : Eta QuotaRow := fun r =>
  mkQuotaRow (q_service_id r) (q_generation r) (q_reservation_id r) (q_requested_resources r)
    (q_state r) (q_last_error_code r) (q_created_at r) (q_updated_at r).

(** An audit document is an ordered list of fields. *)
Definition doc := list (string * string).
Record AuditRow := mkAuditRow {
  a_service_id : uuid; a_operation_id : option uuid; a_generation : Z; a_event_type : string;
  a_actor : string; a_request_id : string; a_before : doc; a_after : doc; a_payload : doc;
  a_created_at : Z }.

Record PublicationRow := mkPublicationRow {
  p_desired_phase : string; p_observed_phase : string; p_invocation_url : string;
  p_last_error_code : string; p_observed_at : option Z; p_updated_at : Z }.
#[global] Instance PublicationRow_eta : Eta PublicationRow := fun r =>
  mkPublicationRow (p_desired_phase r) (p_observed_phase r) (p_invocation_url r)
    (p_last_error_code r) (p_observed_at r) (p_updated_at r).

Record BindingRow := mkBindingRow {
  b_namespace : string; b_name : string; b_uid : string; b_resource_version : string;
  b_observed_at : Z }.

Record ObservationEventRow := mkObservationEventRow {
  e_service_id : uuid; e_generation : Z; e_source_kind : string; e_source_uid : string;
  e_source_resource_version : string; e_observed_at : Z }.

(** [pods] of a release scope: the sealed object, or the older bare array. *)
Inductive ScopeDoc := ScopeObject (sealed_at : string) (pods : list Gpu.PodRef)
                    | ScopeArray (pods : list Gpu.PodRef).

Record ManagedResourceRow := mkManagedResourceRow {
  m_create_operation_id : uuid; m_owner_service : string; m_original_context : jsonb Gpu.RefundContext;
  m_resource_class : string; m_create_command_digest : string;
  m_business_payload_digest : string; m_create_request_hash : string;
  m_create_payload : option string; m_delete_operation_id : option uuid; m_closing : bool;
  m_business_payload : option string }.
#[global] Instance ManagedResourceRow_eta : Eta ManagedResourceRow := fun r =>
  mkManagedResourceRow (m_create_operation_id r) (m_owner_service r) (m_original_context r)
    (m_resource_class r) (m_create_command_digest r) (m_business_payload_digest r)
    (m_create_request_hash r) (m_create_payload r) (m_delete_operation_id r) (m_closing r)
    (m_business_payload r).

Record ManagedCommandRow := mkManagedCommandRow {
  mc_resource_id : uuid; mc_create_operation_id : uuid; mc_kind : string; mc_payload_hash : string;
  mc_request_hash : string; mc_command_payload : string;
  mc_response_snapshot : jsonb OperationResponse; mc_durable_ack : string * string;
  mc_execution_intent : string; mc_created_at : Z; mc_actor : string; mc_close_state : string;
  mc_lease_token : option uuid; mc_lease_until : option Z; mc_retry_at : Z; mc_attempt : Z;
  mc_close_error : string; mc_release_evidence_id : string; mc_release_evidence_digest : string;
  mc_release_report : option (jsonb Gpu.ReleaseNotification); mc_completed_at : option Z }.
#[global] Instance ManagedCommandRow_eta : Eta ManagedCommandRow := fun r =>
  mkManagedCommandRow (mc_resource_id r) (mc_create_operation_id r) (mc_kind r) (mc_payload_hash r)
    (mc_request_hash r) (mc_command_payload r) (mc_response_snapshot r) (mc_durable_ack r)
    (mc_execution_intent r) (mc_created_at r) (mc_actor r) (mc_close_state r) (mc_lease_token r)
    (mc_lease_until r) (mc_retry_at r) (mc_attempt r) (mc_close_error r) (mc_release_evidence_id r)
    (mc_release_evidence_digest r) (mc_release_report r) (mc_completed_at r).

(** Access keys: times in microseconds, NULL texts as [None]. *)
Record KeyRow := mkKeyRow {
  k_name : string; k_prefix : string; k_secret_hash : string; k_hash_version : string;
  k_allowed_service_ids : list string; k_allowed_model_names : list string;
  k_requests_per_second : Z; k_requests_per_minute : Z; k_requests_per_hour : Z;
  k_expires_at : option Z; k_revoked_at : option Z; k_created_by : string; k_created_at : Z;
  k_last_used_at : option Z; k_version : Z; k_create_idempotency_key : option string;
  k_rotation_idempotency_key : option string; k_secret_ciphertext : option string; k_policy_id : option uuid }.
#[global] Instance KeyRow_eta : Eta KeyRow := fun r =>
  mkKeyRow (k_name r) (k_prefix r) (k_secret_hash r) (k_hash_version r) (k_allowed_service_ids r)
    (k_allowed_model_names r) (k_requests_per_second r) (k_requests_per_minute r) (k_requests_per_hour r)
    (k_expires_at r) (k_revoked_at r) (k_created_by r) (k_created_at r) (k_last_used_at r) (k_version r)
    (k_create_idempotency_key r) (k_rotation_idempotency_key r) (k_secret_ciphertext r) (k_policy_id r).
Record KeyAuditRow := mkKeyAuditRow {
  ka_key_id : uuid; ka_event_type : string; ka_actor : string; ka_request_id : string;
  ka_payload : doc; ka_created_at : Z }.
Record PolicyRow := mkPolicyRow {
  pl_name : string; pl_allowed_model_names : list string; pl_requests_per_second : Z;
  pl_requests_per_minute : Z; pl_requests_per_hour : Z; pl_version : Z; pl_created_at : Z; pl_updated_at : Z }.
#[global] Instance PolicyRow_eta : Eta PolicyRow := fun r =>
  mkPolicyRow (pl_name r) (pl_allowed_model_names r) (pl_requests_per_second r) (pl_requests_per_minute r)
    (pl_requests_per_hour r) (pl_version r) (pl_created_at r) (pl_updated_at r).
(** [accesspolicy.Policy]; its JSON is the payload of an audit event, kept as the value it encodes. *)
Record Policy := mkPolicy {
  P_ID : string; P_TenantID : string; P_Name : string; P_AllowedModelNames : list string;
  P_RequestsPerSecond : Z; P_RequestsPerMinute : Z; P_RequestsPerHour : Z; P_Version : Z }.
#[global] Instance Policy_eta : Eta Policy := fun p =>
  mkPolicy (P_ID p) (P_TenantID p) (P_Name p) (P_AllowedModelNames p) (P_RequestsPerSecond p)
    (P_RequestsPerMinute p) (P_RequestsPerHour p) (P_Version p).
Record PolicyAuditRow := mkPolicyAuditRow {
  pa_policy_id : uuid; pa_event_type : string; pa_actor : string; pa_request_id : string; pa_payload : Policy; pa_created_at : Z }.

(** The database. *)
Record DB := mkDB {
  services : gmap (uuid * uuid) ServiceRow;
  specs : gmap (uuid * uuid * Z) SpecRow;                      (* tenant, service, generation *)
  operations : gmap (uuid * uuid) OperationRow;
  idempotency : gmap (uuid * string * string) IdempotencyRow;  (* tenant, method, key *)
  runtimes : gmap (uuid * uuid) RuntimeRow;
  work : gmap (uuid * uuid) WorkRow;
  quotas : gmap (uuid * uuid) QuotaRow;                        (* tenant, operation *)
  audits : gmap (uuid * uuid) AuditRow;                        (* tenant, event *)
  publications : gmap (uuid * uuid * Z) PublicationRow;
  bindings : gmap (uuid * uuid * Z * string * string) BindingRow;
  observation_events : gmap (uuid * uuid) ObservationEventRow;
  scopes : gmap (uuid * uuid * uuid) (jsonb ScopeDoc);
  managed : gmap (uuid * uuid) ManagedResourceRow;
  placements : gmap (uuid * uuid) (string * string);
  managed_commands : gmap (uuid * uuid) ManagedCommandRow;     (* tenant, operation *)
  access_keys : gmap (uuid * uuid) KeyRow;
  key_audits : gmap (uuid * uuid) KeyAuditRow;                 (* tenant, event *)
  rate_buckets : gmap (uuid * uuid * string * Z) Z;            (* tenant, key, window, start *)
  policies : gmap (uuid * uuid) PolicyRow;
  policy_audits : gmap (uuid * uuid) PolicyAuditRow }.         (* tenant, event *)
#[global] Instance DB_eta : Eta DB := fun d =>
  mkDB (services d) (specs d) (operations d) (idempotency d) (runtimes d) (work d) (quotas d)
    (audits d) (publications d) (bindings d) (observation_events d) (scopes d) (managed d)
    (placements d) (managed_commands d) (access_keys d) (key_audits d) (rate_buckets d) (policies d)
    (policy_audits d).
Definition empty_db : DB := mkDB ∅ ∅ ∅ ∅ ∅ ∅ ∅ ∅ ∅ ∅ ∅ ∅ ∅ ∅ ∅ ∅ ∅ ∅ ∅ ∅.

(** ** Sessions

    [w_env] says what the network does with the coming statements: a lost
    statement has no effect, a lost answer keeps the effect and reports an
    error.  With no entry left everything is delivered at once.  [w_uuids] are
    the coming results of [uuid.New]. *)
Inductive fate := Delivered | Lost | AnswerLost.
Record World := mkWorld {
  w_db : DB; w_now : Z; w_env : list (N * fate); w_uuids : list uuid }.
#[global] Instance World_eta : Eta World := fun w =>
  mkWorld (w_db w) (w_now w) (w_env w) (w_uuids w).

Definition ErrConn : goerr := ENew "pgconn.ErrConn" "connection lost".
Definition ErrNoRows : goerr := ENew "pgx.ErrNoRows" "no rows in result set".
(** A unique violation: SQLSTATE 23505. *)
Definition UniqueViolation (constraint : string) : goerr :=
  ENew "23505" ("duplicate key value violates unique constraint " +:+ quoted constraint).

Definition round_trip : M World fate := fun w =>
  match w_env w with
  | [] => (Ok Delivered, w)
  | (dt, f) :: env => (Ok f, w <| w_now := w_now w + Z.of_N dt |> <| w_env := env |>)
  end.

(** A statement is a function of the clock and the database that fails or
    returns its answer and the database after it. *)
Definition statement (A : Type) := Z -> DB -> result (A * DB).

Definition run_stmt {A} (f : statement A) : M World A := fun w =>
  match f (w_now w) (w_db w) with
  | Ok (a, db) => (Ok a, w <| w_db := db |>)
  | Err e => (Err e, w)
  end.
Definition exec {A} (f : statement A) : M World A :=
  delivery ← round_trip;
  match delivery with
  | Delivered => run_stmt f
  | Lost => throw ErrConn
  | AnswerLost => _ ← try (run_stmt f); throw ErrConn
  end.

(** Reads, and [:one] queries that report a missing row as [ErrNoRows]. *)
Definition select {A} (f : Z -> DB -> A) : statement A := fun now db => Ok (f now db, db).
Definition select_one {A} (f : Z -> DB -> option A) : statement A := fun now db =>
  match f now db with Some a => Ok (a, db) | None => Err ErrNoRows end.
(** Writes that report the number of rows: at most one here, the keys being unique. *)
Definition execrows (f : Z -> DB -> option DB) : statement Z := fun now db =>
  match f now db with Some db' => Ok (1, db') | None => Ok (0, db) end.

Definition new_uuid : M World uuid := fun w =>
  match w_uuids w with
  | [] => (Ok 0%N, w)
  | u :: us => (Ok u, w <| w_uuids := us |>)
  end.

(** A transaction body ends by committing, or by returning without a commit,
    which the deferred Rollback undoes; an error is undone too. *)
Inductive ending (A : Type) := Commit (a : A) | Discard (a : A).
Arguments Commit {A} a.
Arguments Discard {A} a.

Definition undo {A} (before : DB) (e : goerr) : M World A := fun w =>
  (Err e, w <| w_db := before |>).
Definition commit_tx {A} (before : DB) (a : A) : M World A :=
  f ← round_trip;
  match f with
  | Delivered => mret a
  | Lost => undo before ErrConn
  | AnswerLost => throw ErrConn
  end.
Definition end_tx {A} (before : DB) (r : result (ending A) * World) : result A * World :=
  match r with
  | (Err e, w) => (Err e, w <| w_db := before |>)
  | (Ok (Discard a), w) => (Ok a, w <| w_db := before |>)
  | (Ok (Commit a), w) => commit_tx before a w
  end.
Definition run_tx {A} (body : M World (ending A)) : M World A := fun w =>
  end_tx (w_db w) (body w).
Definition transaction {A} (body : M World (ending A)) : M World A :=
  f ← round_trip;
  match f with
  | Lost | AnswerLost => throw ErrConn
  | Delivered => run_tx body
  end.

(** ** Frames

    [db_rel R] lifts a preorder on databases to sessions whose clock only moves
    forward; a computation that [moves] it is a composition of statements that
    all respect [R]. *)
Definition db_rel (R : relation DB) : relation World := fun w w' =>
  w_now w <= w_now w' ∧ R (w_db w) (w_db w').
#[global] Instance db_rel_preorder R : PreOrder R -> PreOrder (db_rel R).
Proof.
  intros HR. split.
  - intros w. split; [lia|reflexivity].
  - intros a b c [H1 H2] [H3 H4]. split; [lia|by etrans].
Qed.

Definition respects (R : relation DB) {A} (f : statement A) : Prop :=
  ∀ now db a db', f now db = Ok (a, db') -> R db db'.

Lemma respects_select {A} R (f : Z -> DB -> A) : Reflexive R -> respects R (select f).
Proof. intros HR now db a db' [= _ <-]. reflexivity. Qed.
Lemma respects_select_one {A} R (f : Z -> DB -> option A) :
  Reflexive R -> respects R (select_one f).
Proof. intros HR now db a db'. unfold select_one. destruct (f now db); [intros [= _ <-]|done]. done. Qed.
Lemma respects_execrows R f :
  Reflexive R -> (∀ now db db', f now db = Some db' -> R db db') -> respects R (execrows f).
Proof.
  intros HR Hf now db a db'. unfold execrows. destruct (f now db) eqn:E; intros [= _ <-]; eauto.
Qed.

Section Frames.
Context (R : relation DB) `{!PreOrder R}.

Lemma moves_round_trip : moves (db_rel R) round_trip.
Proof. intros w. unfold round_trip. destruct (w_env w) as [|[dt f] env]; split; simpl; try lia; reflexivity. Qed.
Lemma moves_run_stmt {A} (f : statement A) : respects R f -> moves (db_rel R) (run_stmt f).
Proof.
  intros Hf w. unfold run_stmt. destruct (f (w_now w) (w_db w)) as [[a db]|e] eqn:E; [|reflexivity].
  split; simpl; [lia|]. by eapply Hf.
Qed.
Lemma moves_exec {A} (f : statement A) : respects R f -> moves (db_rel R) (exec f).
Proof.
  intros Hf. unfold exec. apply moves_bind; [typeclasses eauto|apply moves_round_trip|].
  intros [].
  - by apply moves_run_stmt.
  - apply moves_throw; typeclasses eauto.
  - apply moves_bind; [typeclasses eauto|by apply moves_try, moves_run_stmt|].
    intros. apply moves_throw; typeclasses eauto.
Qed.
Lemma moves_new_uuid : moves (db_rel R) new_uuid.
Proof. intros w. unfold new_uuid. destruct (w_uuids w); split; simpl; try lia; reflexivity. Qed.
Lemma moves_transaction {A} (body : M World (ending A)) :
  moves (db_rel R) body -> moves (db_rel R) (transaction body).
Proof.
  intros Hb. unfold transaction. apply moves_bind; [typeclasses eauto|apply moves_round_trip|].
  intros []; [|apply moves_throw; typeclasses eauto..].
  intros w. unfold run_tx, end_tx. pose proof (Hb w) as Hw. pose proof moves_round_trip as Hr.
  destruct (body w) as [[[a|a]|e] w']; simpl in *;
    [|destruct Hw; split; simpl; [lia|reflexivity]..].
  unfold commit_tx, mbind, M_bind. specialize (Hr w').
  destruct (round_trip w') as [[[]|e] w'']; simpl in *; try (etrans; eassumption).
  destruct Hw, Hr. split; simpl; [lia|reflexivity].
Qed.
End Frames.
#[export] Hint Resolve moves_round_trip moves_new_uuid moves_exec : moves.
#[export] Hint Resolve respects_select respects_select_one : moves.

(** [moves] through transactions. *)
Ltac db_moves :=
  repeat first
    [ progress moves
    | match goal with
      | |- moves _ (transaction _) => apply moves_transaction; [typeclasses eauto |]
      end ].

(** A transaction that fails because of its body leaves the database alone. *)
Lemma transaction_undone {A} (body : M World (ending A)) w e w' :
  transaction body w = (Err e, w') -> w_db w' ≠ w_db w ->
  ∃ u a v, body u = (Ok (Commit a), v) ∧ e = ErrConn ∧ w_db u = w_db w.
Proof.
  unfold transaction, run_tx, end_tx, mbind, M_bind. destruct (round_trip w) as [[f|?] u] eqn:E.
  2:{ unfold round_trip in E. by destruct (w_env w) as [|[??]?]. }
  assert (Hu : w_db u = w_db w).
  { unfold round_trip in E. destruct (w_env w) as [|[??]?]; by simplify_eq/=. }
  destruct f.
  - destruct (body u) as [[[a|a]|e'] v] eqn:Eb; intros H Hne.
    + exists u, a, v. split_and!; [done| |done].
      unfold commit_tx, mbind, M_bind, round_trip, undo, throw in H.
      destruct (w_env v) as [|[? []]?]; simplify_eq/=; congruence.
    + by simplify_eq.
    + by simplify_eq/=.
  - intros H Hne. by inversion H; subst.
  - intros H Hne. by inversion H; subst.
Qed.

(** A successful transaction: its body ran on the starting database. *)
Lemma transaction_ok {A} (body : M World (ending A)) w a w' :
  transaction body w = (Ok a, w') ->
  ∃ u v, w_db u = w_db w ∧ w_now w <= w_now u ∧ w_uuids u = w_uuids w ∧
    ((body u = (Ok (Commit a), v) ∧ w_db w' = w_db v) ∨
     (body u = (Ok (Discard a), v) ∧ w_db w' = w_db w)).
Proof.
  unfold transaction, run_tx, end_tx, mbind, M_bind. destruct (round_trip w) as [[f|?] u] eqn:E.
  2:{ unfold round_trip in E. by destruct (w_env w) as [|[??]?]. }
  assert (Hu : w_db u = w_db w ∧ w_now w <= w_now u ∧ w_uuids u = w_uuids w).
  { unfold round_trip in E. destruct (w_env w) as [|[??]?]; simplify_eq/=; split_and!; done || lia. }
  destruct Hu as (Hu & Ht & Hr). destruct f; [|by intros H..].
  destruct (body u) as [[[b|b]|e'] v] eqn:Eb; intros H; simplify_eq/=.
  - exists u, v. split_and!; [done..|]. left.
    unfold commit_tx, mbind, M_bind, round_trip, undo, throw in H.
    destruct (w_env v) as [|[? []]?]; by inversion H; subst.
  - exists u, v. split_and!; [done..|]. right. done.
Qed.

(** Whatever a transaction reports, its effect is all of its body or nothing. *)
Lemma transaction_effect {A} (body : M World (ending A)) w r w' :
  transaction body w = (r, w') ->
  (w_db w' = w_db w ∧ ∀ a, r = Ok a -> ∃ u v, w_db u = w_db w ∧ body u = (Ok (Discard a), v)) ∨
  ∃ u a v, w_db u = w_db w ∧ w_now w <= w_now u ∧ w_uuids u = w_uuids w ∧
    body u = (Ok (Commit a), v) ∧ w_db w' = w_db v ∧ (r = Ok a ∨ r = Err ErrConn).
Proof.
  destruct r as [a|e]; intros H.
  - apply transaction_ok in H as (u & v & H1 & H2 & H3 & [[H4 H5]|[H4 H5]]).
    + right. exists u, a, v. split_and!; auto.
    + left. split; [done|]. intros b [= <-]. eauto.
  - unfold transaction, run_tx, end_tx, mbind, M_bind in H. destruct (round_trip w) as [[f|?] u] eqn:E.
    2:{ unfold round_trip in E. by destruct (w_env w) as [|[??]?]. }
    assert (Hu : w_db u = w_db w ∧ w_now w <= w_now u ∧ w_uuids u = w_uuids w).
    { unfold round_trip in E. destruct (w_env w) as [|[??]?]; simplify_eq/=; split_and!; done || lia. }
    destruct Hu as (Hu & Ht & Hr).
    destruct f; [|unfold throw in H; simplify_eq; by left..].
    destruct (body u) as [[[b|b]|e'] v] eqn:Eb; [| |by left; simplify_eq].
    + unfold commit_tx, mbind, M_bind, round_trip, undo, throw in H.
      destruct (w_env v) as [|[? []]?]; simplify_eq/=; [by left|].
      right. exists u, b, v. split_and!; auto.
    + by simplify_eq.
Qed.

Lemma exec_ok {A} (f : statement A) w a w' :
  exec f w = (Ok a, w') ->
  ∃ now, w_now w <= now ∧ f now (w_db w) = Ok (a, w_db w') ∧ w_now w' = now ∧
         w_uuids w' = w_uuids w.
Proof.
  unfold exec, mbind, M_bind, round_trip.
  assert (Hrun : ∀ u, run_stmt f u = (Ok a, w') ->
    f (w_now u) (w_db u) = Ok (a, w_db w') ∧ w_now w' = w_now u ∧ w_uuids w' = w_uuids u).
  { intros u. unfold run_stmt. destruct (f _ _) as [[b db]|e]; intros H; by simplify_eq/=. }
  destruct (w_env w) as [|[dt []] env].
  - intros (H1 & H2 & H3)%Hrun. exists (w_now w). split_and!; [lia|done..].
  - intros (H1 & H2 & H3)%Hrun. simpl in *. eexists. split_and!; [|done..]. lia.
  - done.
  - unfold try, run_stmt. by destruct (f _ _) as [[??]|].
Qed.

Lemma exec_err {A} (f : statement A) w e w' :
  exec f w = (Err e, w') -> w_uuids w' = w_uuids w ∧
  (e = ErrConn ∨ ∃ now, w_now w <= now ∧ f now (w_db w) = Err e ∧ w_db w' = w_db w).
Proof.
  unfold exec, mbind, M_bind, round_trip, try, run_stmt, throw.
  destruct (w_env w) as [|[dt []] env]; simpl.
  - destruct (f _ _) as [[b db]|e'] eqn:E; intros H; simplify_eq/=. split; [done|]. right.
    eexists. split_and!; [|done..]. lia.
  - destruct (f _ _) as [[b db]|e'] eqn:E; intros H; simplify_eq/=. split; [done|]. right.
    eexists. split_and!; [|done..]. lia.
  - intros H; simplify_eq/=. auto.
  - destruct (f _ _) as [[b db]|e'] eqn:E; intros H; simplify_eq/=; auto.
Qed.
Lemma new_uuid_db w u w' : new_uuid w = (Ok u, w') -> w_db w' = w_db w ∧ w_now w' = w_now w.
Proof. unfold new_uuid. destruct (w_uuids w); intros H; by simplify_eq/=. Qed.
(** With nothing left to go wrong, statements and transactions are delivered. *)
Lemma exec_delivered {A} (f : statement A) w a db' :
  w_env w = [] -> f (w_now w) (w_db w) = Ok (a, db') -> exec f w = (Ok a, w <| w_db := db' |>).
Proof. intros He Hf. unfold exec, mbind, M_bind, round_trip. rewrite He. unfold run_stmt. by rewrite Hf. Qed.
Lemma exec_read {A} (f : statement A) w a :
  w_env w = [] -> f (w_now w) (w_db w) = Ok (a, w_db w) -> exec f w = (Ok a, w).
Proof. intros He Hf. rewrite (exec_delivered _ _ _ _ He Hf). by destruct w. Qed.
Lemma select_ok {A} (f : Z -> DB -> A) w a w' : exec (select f) w = (Ok a, w') ->
  ∃ now, a = f now (w_db w) ∧ w_db w' = w_db w.
Proof. intros (now & _ & H & _)%exec_ok. injection H as <- H. eauto. Qed.
Lemma transaction_delivered {A} (body : M World (ending A)) w a w' :
  w_env w = [] -> w_env w' = [] -> body w = (Ok (Commit a), w') -> transaction body w = (Ok a, w').
Proof.
  intros He He' Hb. unfold transaction, mbind, M_bind, round_trip. rewrite He. unfold run_tx. rewrite Hb.
  cbn. unfold commit_tx, mbind, M_bind, round_trip. by rewrite He'.
Qed.
End Schema.

(** ** A concrete UUID library, for examples: binary digits, least first. *)
Module BinaryUuid.
Fixpoint print_pos (p : positive) : string :=
  match p with
  | xH => "1"
  | xO p => String "0" (print_pos p)
  | xI p => String "1" (print_pos p)
  end.
Fixpoint parse_pos (s : string) : option positive :=
  match s with
  | EmptyString => None
  | String c rest =>
      if bool_decide (c = "0"%char) then xO <$> parse_pos rest
      else if bool_decide (c = "1"%char) then
        match rest with EmptyString => Some xH | _ => xI <$> parse_pos rest end
      else None
  end.
Definition print (u : uuid) : string := match u with N0 => "0" | Npos p => print_pos p end.
Definition parse (s : string) : option uuid :=
  if bool_decide (s = "0") then Some 0%N else Npos <$> parse_pos s.
(** A stand-in for the SHA-1 UUID: the bytes of the name as a number. *)
Fixpoint number (s : string) : uuid :=
  match s with
  | EmptyString => 1%N
  | String c rest => (Ascii.N_of_ascii c + 256 * number rest)%N
  end.

Lemma print_pos_nonempty p : ∃ c s, print_pos p = String c s.
Proof. destruct p; cbn; eauto. Qed.
Lemma parse_print_pos p : parse_pos (print_pos p) = Some p.
Proof.
  induction p as [p IH|p IH|]; cbn -[bool_decide]; [|by rewrite bool_decide_true, IH|done].
  destruct (print_pos_nonempty p) as (c & s & E). rewrite E in *.
  rewrite bool_decide_false, bool_decide_true by done. by rewrite IH.
Qed.
#[export] Instance lib : UuidLib := {
  uuid_parse := parse; uuid_string := print; uuid_sha1_oid := number }.
#[export] Instance laws : UuidLaws.
Proof.
  split; [|done]. intros [|p]; [done|]. cbn -[parse print]. unfold parse, print.
  rewrite bool_decide_false.
  { by rewrite parse_print_pos. }
  intros E. pose proof (parse_print_pos p) as H. rewrite E in H. done.
Qed.
End BinaryUuid.
