(* ===== verification/Contract.v ===== *)
(** * The command contract

    api/inference/contract/v1: the protobuf requests of the managed commands,
    their validation and the hashes that bind them.  The accelerator messages and
    their validation, Kubernetes names and quantities are parameters; a loop over
    a Go map visits the entries in an order of its own, which only decides which
    of several errors is reported. *)

From S2P Require Import Prelude GoStrings Gpu Resources Engine Schema Canonical.
Local Open Scope Z_scope.

Module Contract.
Import Engine Canonical.

(** ** Messages

    [unknown] says whether a message arrived with fields its type does not have;
    an unset message field is [None], an enum is its number. *)
Record CommandContext := mkContext {
  cx_unknown : bool; cx_tenant_id : string; cx_resource_id : string; cx_operation_id : string;
  cx_request_digest : string }.
Record GpuRequest := mkGpuRequest {
  gr_unknown : bool; gr_cluster_id : string; gr_pool_id : string; gr_profile_id : string; gr_profile_version : Z;
  gr_replicas : Z; gr_devices_per_replica : Z; gr_container_name : string }.
Record ResourceSpec := mkResourceSpec {
  rs_unknown : bool; rs_requests : gmap string string; rs_limits : gmap string string; rs_gpu : option GpuRequest }.
Record Endpoint := mkEndpoint {
  ep_unknown : bool; ep_container_port : Z; ep_service_port : Z; ep_target_port : string; ep_protocol : string }.
Record RuntimeSpec := mkRuntimeSpec {
  rt_unknown : bool; rt_mode : Z; rt_worker_replicas : Z; rt_endpoint : option Endpoint; rt_provider : string }.
Record ModelArtifact := mkModelArtifact {
  ma_unknown : bool; ma_provider : string; ma_reference : string; ma_sha256 : string }.
Record EngineSpec := mkEngineSpec {
  en_unknown : bool; en_type : string; en_image : string; en_command : string; en_image_id : string;
  en_image_scope : string }.
Record FieldMask := mkFieldMask { fm_unknown : bool; fm_paths : list string }.
Record ManagedDeleteScope := mkDeleteScope {
  ds_unknown : bool; ds_resource_class : Z; ds_cluster_id : string; ds_create_command_digest : string }.

(** accelerator.v1: the messages and gpuprotocol.ValidateGpuExecution; and
    k8s.io/apimachinery's DNS labels ([None]: valid). *)
Class AcceleratorLib := {
  GpuExecution : Type; GpuDisplay : Type;
  ge_reflect : GpuExecution -> pmsg; gd_reflect : GpuDisplay -> pmsg;
  ge_resources : GpuExecution -> gmap string string; ge_node_selector : GpuExecution -> gmap string string;
  ge_pod_annotations : GpuExecution -> gmap string string; ge_scheduler_name : GpuExecution -> string;
  ge_queue_name : GpuExecution -> string; ge_runtime_class_name : GpuExecution -> string;
  ge_execution_digest : GpuExecution -> string;
  gd_profile_id : GpuDisplay -> string; gd_profile_version : GpuDisplay -> Z; gd_profile_name : GpuDisplay -> string;
  gd_model_key : GpuDisplay -> string; gd_mode : GpuDisplay -> Z;
  ValidateGpuExecution : option GpuExecution -> result unit;
  IsDNS1123Label : string -> option string }.
Definition SHARED_FIXED : Z := 1.
Definition WHOLE_EXCLUSIVE : Z := 2.
Definition CLASS_CPU : Z := 1.
Definition CLASS_GPU : Z := 2.
Definition MODE_UNSPECIFIED : Z := 0.
Definition MODE_DEPLOYMENT : Z := 1.
Definition MODE_LEADER_WORKER_SET : Z := 2.

Section Requests.
Context `{A : AcceleratorLib}.
Record CreateRequest := mkCreateRequest {
  cr_unknown : bool; cr_request_id : string; cr_name : string; cr_model_version_id : string;
  cr_resource : option ResourceSpec; cr_replicas : Z; cr_runtime : option RuntimeSpec;
  cr_model_artifact : option ModelArtifact; cr_engine : option EngineSpec; cr_served_model_name : string;
  cr_context : option CommandContext; cr_cluster_id : string; cr_gpu_execution : option GpuExecution;
  cr_gpu_display : option GpuDisplay; cr_contract_version : Z }.
Record UpdateRequest := mkUpdateRequest {
  ur_unknown : bool; ur_request_id : string; ur_resource_id : string; ur_expected_generation : Z;
  ur_update_mask : option FieldMask; ur_resource : option ResourceSpec; ur_replicas : Z;
  ur_runtime : option RuntimeSpec; ur_model_artifact : option ModelArtifact; ur_engine : option EngineSpec;
  ur_served_model_name : string; ur_model_version_id : string; ur_context : option CommandContext;
  ur_cluster_id : string; ur_gpu_execution : option GpuExecution; ur_gpu_display : option GpuDisplay;
  ur_contract_version : Z }.
Record DeleteRequest := mkDeleteRequest {
  dl_unknown : bool; dl_request_id : string; dl_resource_id : string; dl_context : option CommandContext;
  dl_create_operation_id : string; dl_managed_delete_scope : option ManagedDeleteScope }.
End Requests.

(** ** Reflection: the fields in the order of the .proto file *)
Definition message (m : pmsg) : pval := let '(full, unknown, fields) := m in PMsg full unknown fields.
Definition sub {A} (reflect : A -> pmsg) (o : option A) : pfield pval :=
  match o with Some a => FOne (message (reflect a)) | None => FAbsent end.
Definition str (s : string) : pfield pval := FOne (PString s).
Definition by_key_name (a b : string * string) : Prop := String.le a.1 b.1.
#[global] Instance by_key_name_dec : RelDecision by_key_name.
Proof. intros a b. unfold by_key_name. apply _. Defined.
Definition string_map (m : gmap string string) : pfield pval :=
  FMap ((fun e => (e.1, PString e.2)) <$> merge_sort by_key_name (map_to_list m)).

Definition context_reflect (c : CommandContext) : pmsg :=
  ("inference.v1.CommandContext", cx_unknown c,
   [("tenant_id", str (cx_tenant_id c)); ("resource_id", str (cx_resource_id c));
    ("operation_id", str (cx_operation_id c)); ("request_digest", str (cx_request_digest c))]).
Definition gpu_reflect (g : GpuRequest) : pmsg :=
  ("inference.v1.GpuRequest", gr_unknown g,
   [("cluster_id", str (gr_cluster_id g)); ("pool_id", str (gr_pool_id g)); ("profile_id", str (gr_profile_id g));
    ("profile_version", FOne (PUint (gr_profile_version g))); ("replicas", FOne (PUint (gr_replicas g)));
    ("devices_per_replica", FOne (PUint (gr_devices_per_replica g))); ("container_name", str (gr_container_name g))]).
Definition resource_reflect (r : ResourceSpec) : pmsg :=
  ("inference.v1.ResourceSpec", rs_unknown r,
   [("requests", string_map (rs_requests r)); ("limits", string_map (rs_limits r)); ("gpu", sub gpu_reflect (rs_gpu r))]).
Definition endpoint_reflect (e : Endpoint) : pmsg :=
  ("inference.v1.EndpointSpec", ep_unknown e,
   [("container_port", FOne (PInt (ep_container_port e))); ("service_port", FOne (PInt (ep_service_port e)));
    ("target_port", str (ep_target_port e)); ("protocol", str (ep_protocol e))]).
Definition runtime_reflect (r : RuntimeSpec) : pmsg :=
  ("inference.v1.RuntimeSpec", rt_unknown r,
   [("mode", FOne (PEnum (rt_mode r))); ("worker_replicas", FOne (PInt (rt_worker_replicas r)));
    ("endpoint", sub endpoint_reflect (rt_endpoint r)); ("provider", str (rt_provider r))]).
Definition artifact_reflect (a : ModelArtifact) : pmsg :=
  ("inference.v1.ModelArtifact", ma_unknown a,
   [("provider", str (ma_provider a)); ("reference", str (ma_reference a)); ("sha256", str (ma_sha256 a))]).
Definition engine_reflect (e : EngineSpec) : pmsg :=
  ("inference.v1.EngineSpec", en_unknown e,
   [("type", str (en_type e)); ("image", str (en_image e)); ("command", str (en_command e));
    ("image_id", str (en_image_id e)); ("image_scope", str (en_image_scope e))]).
Definition mask_reflect (m : FieldMask) : pmsg :=
  ("google.protobuf.FieldMask", fm_unknown m, [("paths", FList (PString <$> fm_paths m))]).
Definition scope_reflect (s : ManagedDeleteScope) : pmsg :=
  ("inference.v1.ManagedDeleteScope", ds_unknown s,
   [("resource_class", FOne (PEnum (ds_resource_class s))); ("cluster_id", str (ds_cluster_id s));
    ("create_command_digest", str (ds_create_command_digest s))]).

Section Reflection.
Context `{A : AcceleratorLib}.
Definition create_reflect (r : CreateRequest) : pmsg :=
  ("inference.v1.CreateInferenceServiceRequest", cr_unknown r,
   [("request_id", str (cr_request_id r)); ("name", str (cr_name r)); ("model_version_id", str (cr_model_version_id r));
    ("resource", sub resource_reflect (cr_resource r)); ("replicas", FOne (PInt (cr_replicas r)));
    ("runtime", sub runtime_reflect (cr_runtime r)); ("model_artifact", sub artifact_reflect (cr_model_artifact r));
    ("engine", sub engine_reflect (cr_engine r)); ("served_model_name", str (cr_served_model_name r));
    ("context", sub context_reflect (cr_context r)); ("cluster_id", str (cr_cluster_id r));
    ("gpu_execution", sub ge_reflect (cr_gpu_execution r)); ("gpu_display", sub gd_reflect (cr_gpu_display r));
    ("contract_version", FOne (PUint (cr_contract_version r)))]).
Definition update_reflect (r : UpdateRequest) : pmsg :=
  ("inference.v1.UpdateInferenceServiceRequest", ur_unknown r,
   [("request_id", str (ur_request_id r)); ("resource_id", str (ur_resource_id r));
    ("expected_generation", FOne (PInt (ur_expected_generation r))); ("update_mask", sub mask_reflect (ur_update_mask r));
    ("resource", sub resource_reflect (ur_resource r)); ("replicas", FOne (PInt (ur_replicas r)));
    ("runtime", sub runtime_reflect (ur_runtime r)); ("model_artifact", sub artifact_reflect (ur_model_artifact r));
    ("engine", sub engine_reflect (ur_engine r)); ("served_model_name", str (ur_served_model_name r));
    ("model_version_id", str (ur_model_version_id r)); ("context", sub context_reflect (ur_context r));
    ("cluster_id", str (ur_cluster_id r)); ("gpu_execution", sub ge_reflect (ur_gpu_execution r));
    ("gpu_display", sub gd_reflect (ur_gpu_display r)); ("contract_version", FOne (PUint (ur_contract_version r)))]).
Definition delete_reflect (r : DeleteRequest) : pmsg :=
  ("inference.v1.DeleteInferenceServiceRequest", dl_unknown r,
   [("request_id", str (dl_request_id r)); ("resource_id", str (dl_resource_id r));
    ("context", sub context_reflect (dl_context r)); ("create_operation_id", str (dl_create_operation_id r));
    ("managed_delete_scope", sub scope_reflect (dl_managed_delete_scope r))]).
End Reflection.
(** ** Validation *)
(** A loop over a Go map that returns at the first error. *)
Fixpoint check_entries (f : string -> string -> result unit) (entries : list (string * string)) : result unit :=
  match entries with [] => Ok tt | (k, v) :: rest => _ ← f k v; check_entries f rest end.
Definition check_map (f : string -> string -> result unit) (m : gmap string string) : result unit :=
  check_entries f (map_to_list m).
Definition validDigest (s : string) : bool := (String.length s =? 64)%nat && string_forallb is_lower_hex s.
Definition catalogImageID : string -> bool :=
  matches (is_char 105 :: is_char 109 :: is_char 103 :: is_char 95 :: repeat is_lower_hex 32).

Definition ValidateEngineSelection (engine : option EngineSpec) (version : Z) : result unit :=
  match engine with
  | None => Err (errorf "engine type and complete command are required")
  | Some e =>
      if blank (en_type e) || blank (en_command e) then Err (errorf "engine type and complete command are required")
      else if version =? 0 then
        checkr (bool_decide (en_image_id e = "") && bool_decide (en_image_scope e = "") && negb (blank (en_image e)))
          (errorf "legacy engine requires raw image and no catalog selection")
      else if version =? 2 then
        _ ← checkr (catalogImageID (en_image_id e)) (errorf "image_id must be a Resource catalog image ID");
        _ ← checkr (bool_decide (en_image_scope e = "platform") || bool_decide (en_image_scope e = "tenant"))
              (errorf "image_scope must be platform or tenant");
        checkr (bool_decide (en_image e = "")) (errorf "catalog selection and raw image are mutually exclusive")
      else Err (errorf "unsupported command contract version")
  end.

Record ExecutionTopology := mkTopology {
  ExecutionReplicas : Z; TopologyContainer : string; TopologyDevices : Z; TotalDevices : Z }.
Definition runtime_mode (r : option RuntimeSpec) : Z := match r with Some r => rt_mode r | None => 0 end.
Definition runtime_workers (r : option RuntimeSpec) : Z := match r with Some r => rt_worker_replicas r | None => 0 end.
Definition runtime_provider (r : option RuntimeSpec) : string := match r with Some r => rt_provider r | None => "" end.
Definition provider_ok (r : option RuntimeSpec) : bool :=
  let p := to_lower (trim_space (runtime_provider r)) in bool_decide (p = "") || bool_decide (p = "kserve").
(** The pods and their container, in int64. *)
Definition topology_pods (runtime : option RuntimeSpec) (replicas devices : Z) : result (Z * string) :=
  let mode := runtime_mode runtime in
  let workers := runtime_workers runtime in
  if (mode =? MODE_UNSPECIFIED) || (mode =? MODE_DEPLOYMENT) then
    if (workers <? 0) || (1 <? workers) then Err (errorf "deployment cannot specify multiple workers")
    else Ok (replicas, "kserve-container")
  else if mode =? MODE_LEADER_WORKER_SET then
    if workers <? 1 then Err (errorf "LWS worker_replicas must be positive")
    else if negb (devices =? 0) then Err (errorf "managed GPU LWS requires a synchronous pre-create projection hook")
    else Ok (int64 (replicas * int64 (workers + 1)), "main")
  else Err (errorf "unsupported runtime mode").
Definition NormalizeTopology (runtime : option RuntimeSpec) (replicas devices : Z) : result ExecutionTopology :=
  _ ← checkr (negb (replicas <? 1)) (errorf "replicas must be positive");
  _ ← checkr (provider_ok runtime) (errorf "runtime provider must be kserve");
  '(pods, container) ← topology_pods runtime replicas devices;
  _ ← checkr (negb (2 ^ 31 - 1 <? pods)) (errorf "runtime topology overflows execution container count");
  _ ← checkr (negb ((0 <? devices) && (16 <? pods))) (errorf "GPU execution container count exceeds 16");
  _ ← checkr (negb ((0 <? devices) && ((2 ^ 63 - 1) / devices <? pods))) (errorf "GPU topology overflows total devices");
  Ok (mkTopology (uint32 pods) container devices (int64 (pods * devices))).

Section Validation.
Context `{U : UuidLib} `{A : AcceleratorLib} `{Q : QuantityLib}.

(** [uuid.Parse] accepts the value, which is not nil and spelled as printed. *)
Definition canonical_uuid (value : string) : bool :=
  match uuid_parse value with
  | Some u => negb (bool_decide (u = 0%N)) && bool_decide (uuid_string u = value)
  | None => false
  end.
Definition canonicalUUID (name value : string) : result unit :=
  checkr (canonical_uuid value) (errorf (name +:+ " must be a canonical UUID")).
Definition ValidateKubernetesName (name : string) : result unit :=
  if bool_decide (name = "") then Err (errorf "name is required")
  else match IsDNS1123Label name with
       | Some e => Err (errorf ("name must be a lowercase DNS label: " +:+ e))
       | None => Ok tt
       end.
Definition ValidateCommandContext (context : option CommandContext) : result unit :=
  match context with
  | None => Err (errorf "command context is required")
  | Some c =>
      _ ← checkr (negb (cx_unknown c)) (errorf "command context contains unknown fields");
      _ ← canonicalUUID "tenant_id" (cx_tenant_id c);
      _ ← canonicalUUID "resource_id" (cx_resource_id c);
      _ ← canonicalUUID "operation_id" (cx_operation_id c);
      checkr (validDigest (cx_request_digest c)) (errorf "request_digest must be a lowercase SHA-256 digest")
  end.
Definition entry (m : gmap string string) (k : string) : string := default "" (m !! k).
Definition execution_resources (e : option GpuExecution) : gmap string string :=
  match e with Some e => ge_resources e | None => ∅ end.
Definition execution_selector (e : option GpuExecution) : gmap string string :=
  match e with Some e => ge_node_selector e | None => ∅ end.
(** [gpu] is the one selection passed along, possibly nil. *)
Definition ValidateFrozenGPU (clusterID : string) (execution : option GpuExecution) (display : option GpuDisplay)
    (gpu : option GpuRequest) : result unit :=
  _ ← checkr (canonical_uuid clusterID) (errorf "cluster_id must be a canonical UUID");
  match display with
  | None => Err (errorf "gpu_display is required with frozen GPU execution")
  | Some d =>
      _ ← checkr (negb (gd_reflect d).1.2) (errorf "gpu_display contains unknown fields");
      _ ← match gpu with
          | Some g =>
              _ ← checkr (bool_decide (gr_cluster_id g = clusterID))
                    (errorf "frozen GPU cluster_id must match resource.gpu.cluster_id");
              checkr (bool_decide (gr_profile_id g = gd_profile_id d) && (gr_profile_version g =? gd_profile_version d))
                (errorf "GPU profile differs between resource.gpu and gpu_display")
          | None => Ok tt
          end;
      _ ← checkr (canonical_uuid (gd_profile_id d)) (errorf "gpu_display.profile_id must be a canonical UUID");
      _ ← checkr (negb ((gd_profile_version d =? 0) || blank (gd_profile_name d) || blank (gd_model_key d)))
            (errorf "gpu_display profile_version, profile_name and model_key are required");
      _ ← checkr ((gd_mode d =? SHARED_FIXED) || (gd_mode d =? WHOLE_EXCLUSIVE)) (errorf "gpu_display.mode is required");
      _ ← match ValidateGpuExecution execution with
          | Ok _ => Ok tt
          | Err e => Err (errorf_before "gpu_execution" e)
          end;
      _ ← checkr (bool_decide (entry (execution_selector execution) "accelerator.ani.io/model-key" = gd_model_key d))
            (errorf "gpu_display.model_key differs from gpu_execution selector");
      let resources := execution_resources execution in
      if gd_mode d =? SHARED_FIXED then
        checkr (bool_decide (entry resources "volcano.sh/vgpu-number" = "1") &&
                negb (bool_decide (entry resources "volcano.sh/vgpu-cores" = "100")))
          (errorf "shared GPU display differs from gpu_execution resources")
      else checkr (bool_decide (entry resources "volcano.sh/vgpu-cores" = "100"))
             (errorf "whole GPU display differs from gpu_execution resources")
  end.

Definition resource_gpu (r : option ResourceSpec) : option GpuRequest := r ≫= rs_gpu.
Definition resource_requests (r : option ResourceSpec) : gmap string string :=
  match r with Some r => rs_requests r | None => ∅ end.
Definition resource_limits (r : option ResourceSpec) : gmap string string :=
  match r with Some r => rs_limits r | None => ∅ end.
Definition gpu_devices (g : option GpuRequest) : Z := match g with Some g => gr_devices_per_replica g | None => 0 end.
Definition check_endpoint (e : option Endpoint) : result unit :=
  match e with
  | None => Ok tt
  | Some e =>
      _ ← checkr (negb ((ep_container_port e <? 1) || (65535 <? ep_container_port e) || (ep_service_port e <? 1) ||
                        (65535 <? ep_service_port e) || bool_decide (ep_target_port e = ""))) (errorf "invalid endpoint ports");
      checkr (bool_decide (ep_protocol e = "TCP") || bool_decide (ep_protocol e = "UDP") || bool_decide (ep_protocol e = "SCTP"))
        (errorf "unsupported endpoint protocol")
  end.
Definition check_selection (runtime : option RuntimeSpec) (topology : ExecutionTopology) (g : GpuRequest) : result unit :=
  _ ← checkr (negb (runtime_mode runtime =? MODE_LEADER_WORKER_SET))
        (errorf "managed GPU LWS creation requires a synchronous pre-create projection hook; KServe v0.16 does not provide it");
  _ ← checkr (negb (negb (gr_replicas g =? ExecutionReplicas topology) || (gr_devices_per_replica g <? 1) ||
                    negb (bool_decide (gr_container_name g = TopologyContainer topology)) || (gr_profile_version g =? 0)))
        (errorf "GPU selection differs from fixed runtime topology");
  checkr (canonical_uuid (gr_cluster_id g) && canonical_uuid (gr_pool_id g) && canonical_uuid (gr_profile_id g))
    (errorf "GPU selection IDs must be canonical UUIDs").
Definition check_quantity (key raw : string) : result unit :=
  _ ← checkr (IsQualifiedName key) (errorf ("invalid resource name " +:+ quoted key));
  let lowered := to_lower key in
  _ ← checkr (negb (contains lowered "gpu" || contains lowered "gaudi")) (errorf "GPU quantities must use resource.gpu");
  match ParseQuantity (trim_space raw) with
  | Some q => checkr (negb (q_sign q <? 0)) (errorf ("invalid resource quantity for " +:+ key))
  | None => Err (errorf ("invalid resource quantity for " +:+ key))
  end.
(** A quantity that does not parse is the zero quantity [q0]. *)
Context (q0 : quantity).
Definition parsed (raw : string) : quantity := default q0 (ParseQuantity raw).
Definition check_limit (limits : gmap string string) (key raw : string) : result unit :=
  match limits !! key with
  | None => Ok tt
  | Some limit =>
      let c := q_cmp (parsed (trim_space raw)) (parsed (trim_space limit)) in
      _ ← checkr (negb (0 <? c)) (errorf ("request exceeds limit for " +:+ key));
      checkr (negb (contains key "/" && negb (has_prefix key "kubernetes.io/") && negb (c =? 0)))
        (errorf "extended resource request and limit differ")
  end.
Definition ValidateBusinessPayload (req : CreateRequest) : result unit :=
  _ ← ValidateKubernetesName (cr_name req);
  _ ← checkr (match uuid_parse (cr_model_version_id req) with Some u => negb (bool_decide (u = 0%N)) | None => false end)
        (errorf "model_version_id must be a UUID");
  _ ← ValidateEngineSelection (cr_engine req) (cr_contract_version req);
  _ ← checkr (negb (cr_replicas req <? 1)) (errorf "replicas must be positive");
  let runtime := cr_runtime req in
  _ ← checkr (provider_ok runtime) (errorf "runtime provider must be kserve");
  let gpu := resource_gpu (cr_resource req) in
  topology ← NormalizeTopology runtime (cr_replicas req) (gpu_devices gpu);
  _ ← check_endpoint (runtime ≫= rt_endpoint);
  _ ← match cr_context req with Some c => ValidateCommandContext (Some c) | None => Ok tt end;
  _ ← (if bool_decide (is_Some (cr_gpu_execution req)) || bool_decide (is_Some (cr_gpu_display req)) ||
          negb (bool_decide (cr_cluster_id req = "")) then
         match gpu with
         | None => Err (errorf "frozen GPU execution requires resource.gpu")
         | Some g => ValidateFrozenGPU (cr_cluster_id req) (cr_gpu_execution req) (cr_gpu_display req) (Some g)
         end
       else Ok tt);
  _ ← match gpu with Some g => check_selection runtime topology g | None => Ok tt end;
  _ ← check_map check_quantity (resource_requests (cr_resource req));
  _ ← check_map check_quantity (resource_limits (cr_resource req));
  check_map (check_limit (resource_limits (cr_resource req))) (resource_requests (cr_resource req)).

Definition ManagedResourceClassForCreate (req : CreateRequest) : result Z :=
  match cr_resource req with
  | None => Err (errorf "resource is required")
  | Some r =>
      match rs_gpu r with
      | None =>
          if negb (bool_decide (cr_cluster_id req = "")) || bool_decide (is_Some (cr_gpu_execution req)) ||
             bool_decide (is_Some (cr_gpu_display req))
          then Err (errorf "CPU commands cannot carry GPU attachments") else Ok CLASS_CPU
      | Some _ =>
          if bool_decide (cr_cluster_id req = "") || bool_decide (cr_gpu_execution req = None) ||
             bool_decide (cr_gpu_display req = None)
          then Err (errorf "GPU commands require frozen cluster, execution and display") else Ok CLASS_GPU
      end
  end.
Definition check_pair (quantities : gmap string string) : result unit :=
  _ ← checkr (bool_decide (size quantities = 2%nat)) (errorf "managed resources require exactly cpu and memory");
  let positive key := checkr (match ParseQuantity (entry quantities key) with Some q => negb (q_sign q <=? 0) | None => false end)
                        (errorf ("managed " +:+ key +:+ " must be positive")) in
  _ ← positive "cpu"; positive "memory".
Definition check_match (limits : gmap string string) (key raw : string) : result unit :=
  checkr (q_cmp (parsed raw) (parsed (entry limits key)) =? 0) (errorf ("managed " +:+ key +:+ " request and limit must match")).
Definition check_frozen (req : CreateRequest) (topology : ExecutionTopology) (g : GpuRequest) (devices : Z) : result unit :=
  _ ← checkr ((gr_replicas g =? ExecutionReplicas topology) && bool_decide (gr_container_name g = TopologyContainer topology))
        (errorf "GPU request differs from runtime topology");
  _ ← ValidateFrozenGPU (cr_cluster_id req) (cr_gpu_execution req) (cr_gpu_display req) (Some g);
  _ ← checkr (bool_decide (entry (execution_resources (cr_gpu_execution req)) "volcano.sh/vgpu-number" =
                           format_int (gr_devices_per_replica g)))
        (errorf "GPU execution device count differs from frozen selection");
  checkr (negb (match cr_gpu_display req with Some d => gd_mode d =? SHARED_FIXED | None => false end && negb (devices =? 1)))
    (errorf "shared GPU requires one device per execution container").
Definition ValidateManagedCreate (encode_json : json -> string) (req : CreateRequest) : result unit :=
  _ ← ValidateCommandContext (cr_context req);
  _ ← checkr (bool_decide (cr_model_artifact req = None)) (errorf "managed CREATE artifact must be resolved by Model");
  _ ← ValidateBusinessPayload req;
  _ ← CanonicalBusinessPayload encode_json (create_reflect req);
  class ← ManagedResourceClassForCreate req;
  let gpu := resource_gpu (cr_resource req) in
  _ ← check_pair (resource_requests (cr_resource req));
  _ ← check_pair (resource_limits (cr_resource req));
  _ ← check_map (check_match (resource_limits (cr_resource req))) (resource_requests (cr_resource req));
  let devices := if class =? CLASS_GPU then gpu_devices gpu else 0 in
  topology ← NormalizeTopology (cr_runtime req) (cr_replicas req) devices;
  match gpu with
  | Some g => if class =? CLASS_GPU then check_frozen req topology g devices else Ok tt
  | None => Ok tt
  end.
End Validation.
(** ** Deletes, updates and the command hashes *)
Section Commands.
Context `{U : UuidLib} `{A : AcceleratorLib}.
Context (encode_json : json -> string) (sha256_hex : string -> string).

Definition context_resource (c : option CommandContext) : string := match c with Some c => cx_resource_id c | None => "" end.
Definition context_operation (c : option CommandContext) : string := match c with Some c => cx_operation_id c | None => "" end.
Definition validateDeleteIdentity (req : DeleteRequest) : result unit :=
  _ ← checkr (bool_decide (dl_resource_id req = context_resource (dl_context req)))
        (errorf "DELETE resource differs from command context");
  _ ← canonicalUUID "create_operation_id" (dl_create_operation_id req);
  checkr (negb (bool_decide (dl_create_operation_id req = context_operation (dl_context req))))
    (errorf "DELETE must use a new operation_id").
Definition validateDeleteScope (scope : option ManagedDeleteScope) : result unit :=
  match scope with
  | None => Err (errorf "managed_delete_scope is required")
  | Some s =>
      _ ← checkr (validDigest (ds_create_command_digest s)) (errorf "create_command_digest must be a lowercase SHA-256 digest");
      if ds_resource_class s =? CLASS_CPU then
        checkr (bool_decide (ds_cluster_id s = "")) (errorf "CPU DELETE cannot carry cluster_id")
      else if ds_resource_class s =? CLASS_GPU then canonicalUUID "cluster_id" (ds_cluster_id s)
      else Err (errorf "managed_delete_scope resource_class is required")
  end.
Definition ValidateManagedDelete (req : DeleteRequest) : result unit :=
  _ ← ValidateCommandContext (dl_context req);
  _ ← validateDeleteIdentity req;
  _ ← canonicalMessage (delete_reflect req) false;
  validateDeleteScope (dl_managed_delete_scope req).

Definition mask_paths (req : UpdateRequest) : list string :=
  match ur_update_mask req with Some m => fm_paths m | None => [] end.
Definition check_path (req : UpdateRequest) (path : string) : result unit :=
  if bool_decide (path = "model_version_id") then canonicalUUID "model_version_id" (ur_model_version_id req)
  else if bool_decide (path = "served_model_name") then
    checkr (negb (blank (ur_served_model_name req))) (errorf "selected served_model_name must not be empty")
  else if bool_decide (path = "engine") then ValidateEngineSelection (ur_engine req) (ur_contract_version req)
  else Err (errorf ("unsupported update_mask path " +:+ quoted path)).
Fixpoint check_paths (req : UpdateRequest) (seen paths : list string) : result unit :=
  match paths with
  | [] => Ok tt
  | p :: rest =>
      _ ← checkr (negb (bool_decide (p ∈ seen))) (errorf ("duplicate update_mask path " +:+ quoted p));
      _ ← check_path req p;
      check_paths req (p :: seen) rest
  end.
Definition frozen_untouched (req : UpdateRequest) : bool :=
  bool_decide (ur_resource req = None) && (ur_replicas req =? 0) && bool_decide (ur_runtime req = None) &&
  bool_decide (ur_model_artifact req = None) && bool_decide (ur_cluster_id req = "") &&
  bool_decide (ur_gpu_execution req = None) && bool_decide (ur_gpu_display req = None).
Definition ValidateUpdatePatch (req : UpdateRequest) : result unit :=
  _ ← checkr (negb (bool_decide (ur_request_id req = ""))) (errorf "request_id is required");
  _ ← canonicalUUID "resource_id" (ur_resource_id req);
  _ ← checkr (negb (ur_expected_generation req <? 1)) (errorf "expected_generation must be positive");
  _ ← checkr (frozen_untouched req) (errorf "UPDATE cannot modify frozen resources, topology, provider, endpoint or artifact");
  _ ← canonicalMessage (update_reflect req) false;
  _ ← checkr (negb (bool_decide (mask_paths req = []))) (errorf "update_mask is required and must not be empty");
  check_paths req [] (mask_paths req).

Definition action (method : string) : json := JString ("/inference.v1.InferenceServiceManager/" +:+ method).
Definition identity_fields (tenantID actorType actorID : string) : list (string * json) :=
  [("tenant_id", JString tenantID); ("actor_type", JString actorType); ("actor_id", JString actorID);
   ("owner", JString "ani-inference")].
Definition managedCommandIdentity (context : option CommandContext) (tenantID actorType actorID : string)
    : result (list (string * json)) :=
  match context with
  | None => Err (errorf "managed command tenant mismatch")
  | Some c =>
      _ ← checkr (bool_decide (cx_tenant_id c = tenantID)) (errorf "managed command tenant mismatch");
      _ ← checkr (negb (cx_unknown c)) (errorf "command context contains unknown fields");
      _ ← canonicalUUID "tenant_id" tenantID;
      _ ← canonicalUUID "resource_id" (cx_resource_id c);
      _ ← canonicalUUID "operation_id" (cx_operation_id c);
      _ ← checkr (negb (blank actorType || blank actorID)) (errorf "actor type and ID are required");
      Ok (identity_fields tenantID actorType actorID ++
          [("resource_id", JString (cx_resource_id c)); ("operation_id", JString (cx_operation_id c))])
  end.
Definition hash (fields : list (string * json)) : result string := Ok (governanceHash encode_json sha256_hex fields).
Definition ManagedCreateCommandHash (req : CreateRequest) (tenantID actorType actorID : string) : result string :=
  identity ← managedCommandIdentity (cr_context req) tenantID actorType actorID;
  business ← canonicalMessage (create_reflect req) true;
  hash (identity ++ [("schema", JString "gov-inference-create-v2"); ("action", action "CreateInferenceService");
                     ("business", object business)]).
Definition ManagedDeleteCommandHash (req : DeleteRequest) (tenantID actorType actorID : string) : result string :=
  identity ← managedCommandIdentity (dl_context req) tenantID actorType actorID;
  _ ← validateDeleteIdentity req;
  _ ← validateDeleteScope (dl_managed_delete_scope req);
  _ ← canonicalMessage (delete_reflect req) false;
  scope ← match dl_managed_delete_scope req with
          | Some s => canonicalMessage (scope_reflect s) false
          | None => Err (errorf "managed_delete_scope is required")
          end;
  hash (identity ++ [("schema", JString "gov-inference-delete-v2"); ("action", action "DeleteInferenceService");
                     ("create_operation_id", JString (dl_create_operation_id req)); ("managed_delete_scope", object scope)]).

(** The value a selected path contributes. *)
Definition patch_value (req : UpdateRequest) (path : string) : result json :=
  if bool_decide (path = "model_version_id") then Ok (JString (ur_model_version_id req))
  else if bool_decide (path = "served_model_name") then Ok (JString (ur_served_model_name req))
  else match ur_engine req with
       | Some e => o ← canonicalMessageVersion (engine_reflect e) false (ur_contract_version req =? 2); Ok (object o)
       | None => Err (errorf "engine type and complete command are required")
       end.
Fixpoint patch (req : UpdateRequest) (paths : list string) : result (list (string * json)) :=
  match paths with
  | [] => Ok []
  | p :: rest => j ← patch_value req p; js ← patch req rest; Ok ((p, j) :: js)
  end.
Definition ManagedUpdateCommandHash (req : UpdateRequest) (tenantID actorType actorID : string) : result string :=
  _ ← ValidateUpdatePatch req;
  _ ← canonicalUUID "tenant_id" tenantID;
  _ ← checkr (negb (blank actorType || blank actorID)) (errorf "actor type and ID are required");
  _ ← match ur_context req with
      | Some c => checkr (bool_decide (cx_tenant_id c = tenantID) && bool_decide (cx_resource_id c = ur_resource_id req))
                    (errorf "UPDATE context identity mismatch")
      | None => Ok tt
      end;
  let paths := merge_sort String.le (mask_paths req) in
  js ← patch req paths;
  _ ← checkr ((ur_contract_version req =? 2) || (ur_contract_version req =? 0)) (errorf "unsupported command contract version");
  hash (("schema", JString "gov-inference-update-v2") :: identity_fields tenantID actorType actorID ++
        [("action", action "UpdateInferenceService"); ("resource_id", JString (ur_resource_id req));
         ("expected_generation", JString (format_int (ur_expected_generation req)));
         ("update_mask", JArray (JString <$> paths)); ("patch", object js)] ++
        (if ur_contract_version req =? 2 then [("contract_version", JString "2")] else [])).

(** business_payload.go: the digests of the first contract. *)
Definition ManagedCreateRequestHash (req : CreateRequest) (tenantID actorType actorID : string) : result string :=
  match resource_gpu (cr_resource req) with
  | None => Err (errorf "GPU business request is required")
  | Some g =>
      business ← canonicalMessage (create_reflect req) true;
      selection ← canonicalMessage (gpu_reflect g) false;
      hash (("schema", JString "gov-gpu-create-v1") :: identity_fields tenantID actorType actorID ++
            [("action", action "CreateInferenceService"); ("gpu_request", object selection);
             ("business_type", JString "inference.v1.CreateInferenceServiceRequest"); ("business", object business)])
  end.
Definition ManagedDeleteRequestHash (tenantID resourceID originalCreateID actorType actorID : string) : result string :=
  hash (("schema", JString "gov-gpu-delete-v1") :: identity_fields tenantID actorType actorID ++
        [("action", action "DeleteInferenceService"); ("resource_id", JString resourceID);
         ("create_operation_id", JString originalCreateID)]).
Definition ManagedUpdateRequestHash (req : UpdateRequest) (tenantID actorType actorID : string) : result string :=
  business ← canonicalMessage (update_reflect req) true;
  hash (("schema", JString "gov-gpu-update-v1") :: identity_fields tenantID actorType actorID ++
        [("action", action "UpdateInferenceService"); ("business_type", JString "inference.v1.UpdateInferenceServiceRequest");
         ("business", object business)]).
End Commands.
(** ** The topology agrees with the one the runner recomputes *)
Definition mode_name (mode : Z) : string :=
  if mode =? MODE_LEADER_WORKER_SET then "leader_worker_set" else if mode =? MODE_DEPLOYMENT then "deployment" else "".

(** The topology of an accepted command is exact and is the one the
    operation runner recomputes from the stored specification: for every int32
    replica and worker count and uint32 device count, NormalizeTopology accepts
    exactly when the provider is KServe, Gpu.TotalPods gives a pod count for the
    same replicas, mode and workers, and GPU commands use a deployment of at most
    16 pods; the answer is that pod count, the container of the mode, and the
    unwrapped product of pods and devices. *)
Theorem topology_agrees runtime replicas devices t :
  in_int32 replicas -> in_int32 (runtime_workers runtime) -> 0 <= devices < 2 ^ 32 ->
  NormalizeTopology runtime replicas devices = Ok t <->
  ∃ pods, provider_ok runtime = true ∧ 0 <= runtime_mode runtime <= 2 ∧
    Gpu.TotalPods replicas (mode_name (runtime_mode runtime)) (runtime_workers runtime) = Ok pods ∧
    (0 < devices -> runtime_mode runtime ≠ MODE_LEADER_WORKER_SET ∧ pods <= 16) ∧
    t = mkTopology pods (if runtime_mode runtime =? MODE_LEADER_WORKER_SET then "main" else "kserve-container")
          devices (pods * devices).
Proof.
  intros Hr Hw Hd. unfold NormalizeTopology. destruct (provider_ok runtime) eqn:Ep.
  2:{ split; [by destruct (negb _)|]. intros (? & ? & _). done. }
  unfold in_int32 in *. unfold topology_pods, mode_name, MODE_UNSPECIFIED, MODE_DEPLOYMENT, MODE_LEADER_WORKER_SET.
  set (m := runtime_mode runtime). set (w := runtime_workers runtime) in *. clearbody m w. clear Ep runtime.
  unfold Gpu.TotalPods. destruct (Z.ltb_spec replicas 1) as [|Hr1]; cbn [negb checkr mbind result_bind].
  { split; [done|]. intros (? & _ & _ & ? & _). done. }
  rewrite (int64_id (w + 1)) by (unfold in_int64; lia). rewrite !(int64_id (replicas * (w + 1))) by (unfold in_int64; nia).
  destruct (decide (m = 2)) as [->|Hm2].
  - cbn. destruct (Z.ltb_spec w 1) as [|Hw1]; [split; [done|]; by intros (? & _ & _ & ? & _)|].
    destruct (Z.eqb_spec devices 0) as [->|Hd0]; cbn.
    2:{ split; [done|]. intros (? & _ & _ & _ & Hx & _). destruct Hx; lia. }
    rewrite !Z.mul_0_r. destruct (Z.ltb_spec (2 ^ 31 - 1) (replicas * (w + 1))); cbn.
    { split; [done|]. by intros (? & _ & _ & ? & _). }
    rewrite int32_id by (unfold in_int32; lia). rewrite uint32_id by lia. split.
    + intros [= <-]. eexists. split_and!; [done|lia|lia|reflexivity|lia|]. by rewrite Z.mul_0_r.
    + intros (? & _ & _ & [= <-] & _ & ->). by rewrite Z.mul_0_r.
  - replace (m =? 2) with false by lia. destruct (decide (m = 0 ∨ m = 1)) as [Hm|Hm].
    2:{ replace (m =? 0) with false by lia. replace (m =? 1) with false by lia. cbn.
        split; [done|]. intros (? & _ & ? & _). lia. }
    assert (((m =? 0) || (m =? 1)) = true) as -> by lia.
    assert (Hmode : ∀ b : bool, (bool_decide ((if m =? 1 then "deployment" else "") = "")
              || bool_decide ((if m =? 1 then "deployment" else "") = "deployment")) = true)
      by (intros _; by destruct (m =? 1)).
    rewrite (Hmode true), (orb_comm (w <? 0)). destruct ((1 <? w) || (w <? 0)) eqn:Ew; cbn.
    { split; [done|]. by intros (? & _ & _ & ? & _). }
    replace (2 ^ 31 - 1 <? replicas) with false by lia. cbn. rewrite uint32_id by lia.
    destruct (Z.ltb_spec 0 devices) as [Hpos|Hz]; cbn.
    + destruct (Z.ltb_spec 16 replicas); cbn; [split; [done|]; intros (? & _ & _ & [= <-] & Hx & _); destruct Hx; lia|].
      replace ((2 ^ 63 - 1) / devices <? replicas) with false
        by (symmetry; apply Z.ltb_ge, Z.div_le_lower_bound; nia). cbn.
      rewrite int64_id by (unfold in_int64; nia). split.
      * intros [= <-]. eexists. split_and!; [done|lia|lia|done|done|done].
      * intros (? & _ & _ & [= <-] & _ & ->). done.
    + assert (devices = 0) as -> by lia. rewrite !Z.mul_0_r. split.
      * intros [= <-]. eexists. split_and!; [done|lia|lia|done|lia|by rewrite Z.mul_0_r].
      * intros (? & _ & _ & [= <-] & _ & ->). by rewrite Z.mul_0_r.
Qed.
(** ** What the create hash binds *)
(** A reflected message shows every field of the message, as its descriptor says. *)
Class AcceleratorLaws `{AcceleratorLib} := {
  ge_inj e e' : ge_reflect e = ge_reflect e' -> e = e';
  gd_inj d d' : gd_reflect d = gd_reflect d' -> d = d';
  ge_full : string; ge_fields : list (string * fkind);
  ge_kind e : has_kind (message (ge_reflect e)) (KMsg ge_full ge_fields);
  gd_full : string; gd_fields : list (string * fkind);
  gd_kind d : has_kind (message (gd_reflect d)) (KMsg gd_full gd_fields) }.

Lemma message_inj m m' : message m = message m' -> m = m'.
Proof. destruct m as [[??]?], m' as [[??]?]. cbn. by intros [= -> -> ->]. Qed.
Lemma sub_inj {A} (reflect : A -> pmsg) o o' : (∀ a b, reflect a = reflect b -> a = b) ->
  sub reflect o = sub reflect o' -> o = o'.
Proof. intros Hi. destruct o, o'; cbn; [|done..]. intros [= H%message_inj]. f_equal. auto. Qed.
Lemma string_map_inj m m' : string_map m = string_map m' -> m = m'.
Proof.
  unfold string_map. intros [= H]. assert (Hs : merge_sort by_key_name (map_to_list m) = merge_sort by_key_name (map_to_list m')).
  { assert (Hi : Inj (=) (=) (fun e : string * string => (e.1, PString e.2))).
    { intros [a b] [c d]. cbn. by intros [= -> ->]. }
    by apply (inj (fmap (M := list) (fun e : string * string => (e.1, PString e.2)))) in H. }
  apply map_to_list_inj. by rewrite <- (merge_sort_Permutation by_key_name), Hs, merge_sort_Permutation.
Qed.
Lemma string_map_kind m : field_kind (string_map m) (KMap KString).
Proof.
  unfold string_map. constructor.
  - unfold sorted_keys. rewrite <- list_fmap_compose. split.
    + change ((fst ∘ (fun e : string * string => (e.1, PString e.2))) <$> merge_sort by_key_name (map_to_list m))
        with ((merge_sort by_key_name (map_to_list m)).*1).
      rewrite merge_sort_Permutation. apply NoDup_fst_map_to_list.
    + assert (Ht : Total by_key_name) by (intros a b; apply (total String.le)).
      pose proof (Sorted_merge_sort by_key_name (map_to_list m)) as Hs.
      induction Hs as [|e l _ IH Hd]; [constructor|]. cbn. constructor; [done|].
      destruct Hd; constructor. done.
  - apply Forall_fmap, Forall_forall. intros. constructor.
Qed.
Lemma sub_kind {A} (reflect : A -> pmsg) o full ks : (∀ a, has_kind (message (reflect a)) (KMsg full ks)) ->
  field_kind (sub reflect o) (KOne (KMsg full ks)).
Proof. intros H. destruct o; constructor. auto. Qed.

Lemma gpu_inj g g' : gpu_reflect g = gpu_reflect g' -> g = g'.
Proof. destruct g, g'. cbn. intros [=]. by subst. Qed.
Lemma endpoint_inj e e' : endpoint_reflect e = endpoint_reflect e' -> e = e'.
Proof. destruct e, e'. cbn. intros [=]. by subst. Qed.
Lemma artifact_inj a a' : artifact_reflect a = artifact_reflect a' -> a = a'.
Proof. destruct a, a'. cbn. intros [=]. by subst. Qed.
Lemma engine_inj e e' : engine_reflect e = engine_reflect e' -> e = e'.
Proof. destruct e, e'. cbn. intros [=]. by subst. Qed.
Lemma runtime_inj r r' : runtime_reflect r = runtime_reflect r' -> r = r'.
Proof.
  destruct r, r'. unfold runtime_reflect, str. cbn -[sub]. intros [= -> -> -> H ->].
  by apply (sub_inj endpoint_reflect) in H as ->; [|apply endpoint_inj].
Qed.
Lemma resource_inj r r' : resource_reflect r = resource_reflect r' -> r = r'.
Proof.
  destruct r, r'. unfold resource_reflect. cbn -[sub string_map]. intros H. apply pair_equal_spec in H as [H1 H2].
  apply pair_equal_spec in H1 as [_ ->]. apply (f_equal (fmap snd)) in H2. cbn -[sub string_map] in H2.
  assert (Hx : ∀ a b c a' b' c' : pfield pval, [a; b; c] = [a'; b'; c'] -> a = a' ∧ b = b' ∧ c = c') by (by intros ?????? [= -> -> ->]).
  apply Hx in H2 as (->%string_map_inj & ->%string_map_inj & H2). by apply (sub_inj gpu_reflect) in H2 as ->; [|apply gpu_inj].
Qed.

Definition context_kinds : list (string * fkind) :=
  [("tenant_id", KOne KString); ("resource_id", KOne KString); ("operation_id", KOne KString); ("request_digest", KOne KString)].
Definition gpu_kinds : list (string * fkind) :=
  [("cluster_id", KOne KString); ("pool_id", KOne KString); ("profile_id", KOne KString); ("profile_version", KOne KUint);
   ("replicas", KOne KUint); ("devices_per_replica", KOne KUint); ("container_name", KOne KString)].
Definition resource_kinds : list (string * fkind) :=
  [("requests", KMap KString); ("limits", KMap KString); ("gpu", KOne (KMsg "inference.v1.GpuRequest" gpu_kinds))].
Definition endpoint_kinds : list (string * fkind) :=
  [("container_port", KOne KInt); ("service_port", KOne KInt); ("target_port", KOne KString); ("protocol", KOne KString)].
Definition runtime_kinds : list (string * fkind) :=
  [("mode", KOne KEnum); ("worker_replicas", KOne KInt);
   ("endpoint", KOne (KMsg "inference.v1.EndpointSpec" endpoint_kinds)); ("provider", KOne KString)].
Definition artifact_kinds : list (string * fkind) :=
  [("provider", KOne KString); ("reference", KOne KString); ("sha256", KOne KString)].
Definition engine_kinds : list (string * fkind) :=
  [("type", KOne KString); ("image", KOne KString); ("command", KOne KString); ("image_id", KOne KString);
   ("image_scope", KOne KString)].
(** Lists of field names are distinct. *)
Ltac distinct := apply (bool_decide_unpack _); vm_compute; exact I.
Ltac kinds := repeat first
  [ apply string_map_kind | apply sub_kind; intros ?
  | match goal with
    | |- has_kind (message ?m) _ => constructor; [distinct|]
    | |- Forall2 _ _ _ => constructor
    | |- _ ∧ _ => split
    | |- _ = _ => reflexivity
    | |- field_kind (_, _).2 _ => cbn -[str sub string_map]
    | |- field_kind (FOne _) _ => constructor
    | |- field_kind (str _) _ => constructor
    | |- has_kind _ _ => constructor
    end ].
Section Binding.
Context `{U : UuidLib} `{A : AcceleratorLib} {AL : AcceleratorLaws}.
Definition create_kinds : list (string * fkind) :=
  [("request_id", KOne KString); ("name", KOne KString); ("model_version_id", KOne KString);
   ("resource", KOne (KMsg "inference.v1.ResourceSpec" resource_kinds)); ("replicas", KOne KInt);
   ("runtime", KOne (KMsg "inference.v1.RuntimeSpec" runtime_kinds));
   ("model_artifact", KOne (KMsg "inference.v1.ModelArtifact" artifact_kinds));
   ("engine", KOne (KMsg "inference.v1.EngineSpec" engine_kinds)); ("served_model_name", KOne KString);
   ("context", KOne (KMsg "inference.v1.CommandContext" context_kinds)); ("cluster_id", KOne KString);
   ("gpu_execution", KOne (KMsg ge_full ge_fields)); ("gpu_display", KOne (KMsg gd_full gd_fields));
   ("contract_version", KOne KUint)].
Lemma create_kind r : fields_kind (create_reflect r).2 create_kinds.
Proof.
  unfold fields_kind, create_reflect, create_kinds. cbn -[str sub].
  repeat first [apply Forall2_nil; fail | apply Forall2_cons_2; [split; [reflexivity|]|] | apply Forall2_nil_2]; cbn -[str sub].
  all: kinds; try apply ge_kind; try apply gd_kind.
Qed.

(** The request without its correlation id and its command context. *)
Definition business (r : CreateRequest) : CreateRequest :=
  mkCreateRequest (cr_unknown r) "" (cr_name r) (cr_model_version_id r) (cr_resource r) (cr_replicas r) (cr_runtime r)
    (cr_model_artifact r) (cr_engine r) (cr_served_model_name r) None (cr_cluster_id r) (cr_gpu_execution r)
    (cr_gpu_display r) (cr_contract_version r).
Lemma business_determined r r' : business_part true (create_reflect r).2 = business_part true (create_reflect r').2 ->
  cr_unknown r = cr_unknown r' -> business r = business r'.
Proof.
  intros H Hu. unfold business.
  change (business_part true (create_reflect r).2) with
    [("name", str (cr_name r)); ("model_version_id", str (cr_model_version_id r));
     ("resource", sub resource_reflect (cr_resource r)); ("replicas", FOne (PInt (cr_replicas r)));
     ("runtime", sub runtime_reflect (cr_runtime r)); ("model_artifact", sub artifact_reflect (cr_model_artifact r));
     ("engine", sub engine_reflect (cr_engine r)); ("served_model_name", str (cr_served_model_name r));
     ("cluster_id", str (cr_cluster_id r)); ("gpu_execution", sub ge_reflect (cr_gpu_execution r));
     ("gpu_display", sub gd_reflect (cr_gpu_display r)); ("contract_version", FOne (PUint (cr_contract_version r)))] in H.
  change (business_part true (create_reflect r').2) with
    [("name", str (cr_name r')); ("model_version_id", str (cr_model_version_id r'));
     ("resource", sub resource_reflect (cr_resource r')); ("replicas", FOne (PInt (cr_replicas r')));
     ("runtime", sub runtime_reflect (cr_runtime r')); ("model_artifact", sub artifact_reflect (cr_model_artifact r'));
     ("engine", sub engine_reflect (cr_engine r')); ("served_model_name", str (cr_served_model_name r'));
     ("cluster_id", str (cr_cluster_id r')); ("gpu_execution", sub ge_reflect (cr_gpu_execution r'));
     ("gpu_display", sub gd_reflect (cr_gpu_display r')); ("contract_version", FOne (PUint (cr_contract_version r')))] in H.
  unfold str in H. injection H as -> -> H1 -> H2 H3 H4 -> -> H5 H6 ->.
  apply sub_inj in H1; [|apply resource_inj]. apply sub_inj in H2; [|apply runtime_inj].
  apply sub_inj in H3; [|apply artifact_inj]. apply sub_inj in H4; [|apply engine_inj].
  apply sub_inj in H5; [|apply ge_inj]. apply sub_inj in H6; [|apply gd_inj]. by rewrite Hu, H1, H2, H3, H4, H5, H6.
Qed.

Context (encode_json : json -> string) (sha256_hex : string -> string).
Lemma identity_form c t ty a id : managedCommandIdentity c t ty a = Ok id ->
  ∃ cx, c = Some cx ∧ cx_tenant_id cx = t ∧
    id = identity_fields t ty a ++ [("resource_id", JString (cx_resource_id cx)); ("operation_id", JString (cx_operation_id cx))].
Proof.
  unfold managedCommandIdentity. destruct c as [cx|]; [|done]. intros H. minv H. injection H as <-.
  apply bool_decide_eq_true in Hm. eauto.
Qed.
(** The hash of a managed create binds the command: two creates with
    the same hash come from the same tenant and actor, for the same resource and
    operation, and are equal in every business field - name, model, resources,
    replicas, runtime, engine, frozen GPU execution - so that only the correlation
    id and the digest in the context can differ.  The hypothesis is that the JSON
    text and SHA-256 tell the two canonical objects apart. *)
Theorem create_hash_binds r r' tenant type actor tenant' type' actor' h :
  (∀ o o', governanceHash encode_json sha256_hex o = governanceHash encode_json sha256_hex o' -> object o = object o') ->
  ManagedCreateCommandHash encode_json sha256_hex r tenant type actor = Ok h ->
  ManagedCreateCommandHash encode_json sha256_hex r' tenant' type' actor' = Ok h ->
  tenant = tenant' ∧ type = type' ∧ actor = actor' ∧
  context_resource (cr_context r) = context_resource (cr_context r') ∧
  context_operation (cr_context r) = context_operation (cr_context r') ∧ business r = business r'.
Proof.
  unfold ManagedCreateCommandHash, hash. intros Hc H H'. minv H. minv H'. injection H as <-. injection H' as E.
  apply identity_form in Hm as (cx & Ecx & _ & ->), Hm1 as (cx' & Ecx' & _ & ->).
  apply Hc in E. apply object_inj in E; [|done|distinct].
  cbn -[object action] in E. injection E as -> -> -> E1 E2 E3. rewrite Ecx, Ecx'. cbn.
  destruct (message_determined (create_reflect r) (create_reflect r') create_kinds a0 a2) as (Hb & Hu & Hu');
    [distinct|apply create_kind..|done|done|done|unfold object; by rewrite E3|].
  split_and!; [done..|]. apply business_determined; [done|]. cbn in Hu, Hu'. congruence.
Qed.
End Binding.
(** ** What the update hash binds *)
Section UpdateBinding.
Context `{U : UuidLib} `{A : AcceleratorLib}.
Context (encode_json : json -> string) (sha256_hex : string -> string).
Local Abbreviation update_hash := (ManagedUpdateCommandHash encode_json sha256_hex).

Lemma sort_perm (l l' : list string) : merge_sort String.le l = merge_sort String.le l' <-> l ≡ₚ l'.
Proof.
  split; intros H.
  - by rewrite <- (merge_sort_Permutation String.le l), H, merge_sort_Permutation.
  - apply (Sorted_unique String.le); [apply Sorted_merge_sort, _..|]. by rewrite !merge_sort_Permutation.
Qed.
Lemma patch_same req req' paths : (∀ p, p ∈ paths -> patch_value req p = patch_value req' p) ->
  patch req paths = patch req' paths.
Proof.
  induction paths as [|p paths IH]; intros H; [done|]. cbn -[patch_value]. rewrite (H p) by left.
  rewrite IH; [done|]. intros q Hq. apply H. by right.
Qed.
Lemma patch_names req paths js : patch req paths = Ok js -> js.*1 = paths.
Proof.
  revert js. induction paths as [|p paths IH]; intros js H; cbn -[patch_value] in H; [by injection H as <-|].
  minv H. injection H as <-. cbn. f_equal. auto.
Qed.
Lemma patch_values req req' paths js : patch req paths = Ok js -> patch req' paths = Ok js ->
  ∀ p, p ∈ paths -> patch_value req p = patch_value req' p.
Proof.
  revert js. induction paths as [|p paths IH]; intros js H H' q Hq; [by apply not_elem_of_nil in Hq|].
  cbn -[patch_value] in H, H'. minv H. minv H'. injection H as <-. injection H' as -> ->.
  apply elem_of_cons in Hq as [->|Hq]; [congruence|eauto].
Qed.
Lemma check_paths_nodup req seen paths : check_paths req seen paths = Ok tt -> NoDup paths ∧ ∀ p, p ∈ paths -> p ∉ seen.
Proof.
  revert seen. induction paths as [|p paths IH]; intros seen H; cbn -[check_path] in H.
  { split; [constructor|]. by intros p ?%not_elem_of_nil. }
  minv H. apply negb_true_iff, bool_decide_eq_false in Hm. apply IH in H as [H1 H2]. split.
  - constructor; [|done]. intros Hp. apply (H2 _ Hp). left.
  - intros q [->|Hq]%elem_of_cons; [done|]. intros Hs. apply (H2 _ Hq). by right.
Qed.

(** The fields of the hashed object. *)
Definition update_fields (req : UpdateRequest) (t ty a : string) (js : list (string * json)) : list (string * json) :=
  ("schema", JString "gov-inference-update-v2") :: identity_fields t ty a ++
  [("action", action "UpdateInferenceService"); ("resource_id", JString (ur_resource_id req));
   ("expected_generation", JString (format_int (ur_expected_generation req)));
   ("update_mask", JArray (JString <$> merge_sort String.le (mask_paths req))); ("patch", object js)] ++
  (if ur_contract_version req =? 2 then [("contract_version", JString "2")] else []).
(** A request that may be hashed for this tenant and actor. *)
Definition hashable (req : UpdateRequest) (t ty a : string) : Prop :=
  ValidateUpdatePatch req = Ok tt ∧ canonical_uuid t = true ∧ blank ty || blank a = false ∧
  (∀ c, ur_context req = Some c -> cx_tenant_id c = t ∧ cx_resource_id c = ur_resource_id req) ∧
  (ur_contract_version req = 0 ∨ ur_contract_version req = 2).
Lemma update_hash_form req t ty a h : update_hash req t ty a = Ok h <->
  hashable req t ty a ∧ ∃ js, patch req (merge_sort String.le (mask_paths req)) = Ok js ∧
    h = governanceHash encode_json sha256_hex (update_fields req t ty a js).
Proof.
  unfold ManagedUpdateCommandHash, hashable, hash. split.
  - intros H. minv H. injection H as <-. apply negb_true_iff in Hm1. destruct a0. split_and!; [done| |done| |lia|eauto].
    + unfold canonicalUUID in Hm0. by apply checkr_ok_inv in Hm0.
    + intros c Hc. rewrite Hc in Hm2. apply checkr_ok_inv, andb_true_iff in Hm2 as [H1 H2].
      by apply bool_decide_eq_true in H1, H2.
  - intros ((H1 & H2 & H3 & H4 & H5) & js & H6 & ->). rewrite H1. unfold canonicalUUID. rewrite H2, H3, H6.
    cbn [mbind result_bind checkr negb].
    assert (match ur_context req with
            | Some c => checkr (bool_decide (cx_tenant_id c = t) && bool_decide (cx_resource_id c = ur_resource_id req))
                          (errorf "UPDATE context identity mismatch")
            | None => Ok tt
            end = Ok tt) as ->.
    { destruct (ur_context req) as [c|]; [|done]. destruct (H4 c eq_refl). by rewrite !bool_decide_true. }
    cbn [mbind result_bind]. replace ((ur_contract_version req =? 2) || (ur_contract_version req =? 0)) with true by lia. done.
Qed.
Lemma update_fields_inj req req' t ty a t' ty' a' js js' :
  NoDup js.*1 -> js.*1 = merge_sort String.le (mask_paths req) -> js'.*1 = merge_sort String.le (mask_paths req') ->
  object (update_fields req t ty a js) = object (update_fields req' t' ty' a' js') ->
  t = t' ∧ ty = ty' ∧ a = a' ∧ ur_resource_id req = ur_resource_id req' ∧
  ur_expected_generation req = ur_expected_generation req' ∧ mask_paths req ≡ₚ mask_paths req' ∧ js = js' ∧
  (ur_contract_version req =? 2) = (ur_contract_version req' =? 2).
Proof.
  intros Hn E1 E2 E. assert (Ev : (ur_contract_version req =? 2) = (ur_contract_version req' =? 2)).
  { apply object_perm, (fmap_Permutation fst), Permutation_length in E. unfold update_fields in E.
    cbn in E. by destruct (_ =? 2), (_ =? 2). }
  apply object_inj in E.
  - unfold update_fields in E. cbn -[object action] in E. injection E as -> -> -> -> Eg Em Ep _.
    apply (inj pretty) in Eg. assert (Inj (=) (=) JString) by (by intros ?? [= ->]).
    apply (inj (fmap (M := list) JString)) in Em.
    assert (js = js') as <- by (apply object_inj; [unfold object; by rewrite Ep|congruence|done]).
    split_and!; [done..| |done|done]. by apply sort_perm.
  - unfold update_fields. rewrite Ev. by destruct (_ =? 2).
  - unfold update_fields. destruct (_ =? 2); distinct.
Qed.

(** The hash of an update depends on the patch and on nothing else: two
    updates that may be hashed have the same hash exactly when tenant, actor,
    resource, expected generation and contract version agree, their masks select
    the same paths, in any order, and they give the selected paths the same values.
    Values off the mask never matter.  (As above, the JSON text and SHA-256 are
    assumed to tell canonical objects apart; equal patches hash equally without it.) *)
Theorem update_hash_exact req req' t ty a t' ty' a' h h' :
  (∀ o o', governanceHash encode_json sha256_hex o = governanceHash encode_json sha256_hex o' -> object o = object o') ->
  update_hash req t ty a = Ok h -> update_hash req' t' ty' a' = Ok h' ->
  h = h' <->
  t = t' ∧ ty = ty' ∧ a = a' ∧ ur_resource_id req = ur_resource_id req' ∧
  ur_expected_generation req = ur_expected_generation req' ∧ ur_contract_version req = ur_contract_version req' ∧
  mask_paths req ≡ₚ mask_paths req' ∧ ∀ p, p ∈ mask_paths req -> patch_value req p = patch_value req' p.
Proof.
  intros Hc H H'. apply update_hash_form in H as ((V1 & _ & _ & _ & C1) & js & P & ->).
  apply update_hash_form in H' as ((V2 & _ & _ & _ & C2) & js' & P' & ->). split.
  - intros E%Hc. apply update_fields_inj in E as (-> & -> & -> & Er & Eg & Em & -> & Ev);
      [|rewrite (patch_names _ _ _ P), merge_sort_Permutation|by eapply patch_names..].
    + split_and!; try done.
      * destruct C1 as [C1|C1], C2 as [C2|C2]; rewrite C1, C2 in *; done.
      * intros p Hp. rewrite <- (proj2 (sort_perm _ _) Em) in P'. eapply patch_values; [exact P|exact P'|].
        by rewrite merge_sort_Permutation.
    + unfold ValidateUpdatePatch in V1. minv V1. by apply check_paths_nodup in V1 as [? _].
  - intros (-> & -> & -> & Er & Eg & Ev & Em & Hp). f_equal. unfold update_fields.
    rewrite Er, Eg, Ev, (proj2 (sort_perm _ _) Em). rewrite (proj2 (sort_perm _ _) Em) in P.
    rewrite (patch_same req req') in P; [|intros p Hq; apply Hp; by rewrite Em, <- (merge_sort_Permutation String.le)].
    congruence.
Qed.
End UpdateBinding.
(** ** Examples *)
Module Example.
(** A JSON text that loses nothing: a number for the tree of the document. *)
Fixpoint tree (j : json) : gen_tree string :=
  match j with
  | JNull => GenNode 0 []
  | JBool b => GenNode (if b then 1 else 2) []
  | JNumber s => GenNode 3 [GenLeaf s]
  | JString s => GenNode 4 [GenLeaf s]
  | JArray l => GenNode 5 ((fix go l := match l with [] => [] | j :: l => tree j :: go l end) l)
  | JObject l => GenNode 6 ((fix go l := match l with [] => [] | (n, j) :: l => GenNode 7 [GenLeaf n; tree j] :: go l end) l)
  end.
Fixpoint tree_inj (j : json) : ∀ j', tree j = tree j' -> j = j'.
Proof.
  destruct j as [|b|s|s|l|l]; intros [|b'|s'|s'|l'|l'] E; cbn in E; try destruct b; try destruct b'; try congruence.
  - f_equal. injection E as E. revert l' E.
    induction l as [|j l IH]; intros [|j' l'] E; try done. injection E as E1 E2. f_equal; auto.
  - f_equal. injection E as E. revert l' E.
    induction l as [|[n j] l IH]; intros [|[n' j'] l'] E; try done. injection E as -> E1 E2. f_equal; auto. f_equal. auto.
Defined.
Definition text (j : json) : string := pretty (encode (tree j)).
Definition plain (s : string) : string := s.
Lemma text_plain o o' : governanceHash text plain o = governanceHash text plain o' -> object o = object o'.
Proof.
  unfold governanceHash, plain. intros H. cbn in H. apply tree_inj, (inj encode), (inj pretty).
  by injection H.
Defined.
Import BinaryUuid.
#[local] Instance accelerator : AcceleratorLib := {|
  GpuExecution := unit; GpuDisplay := unit;
  ge_reflect _ := ("accelerator.v1.GpuExecution", false, []); gd_reflect _ := ("accelerator.v1.GpuDisplay", false, []);
  ge_resources _ := ∅; ge_node_selector _ := ∅; ge_pod_annotations _ := ∅; ge_scheduler_name _ := EmptyString; ge_queue_name _ := EmptyString;
  ge_runtime_class_name _ := EmptyString; ge_execution_digest _ := EmptyString; gd_profile_id _ := ""; gd_profile_version _ := 0; gd_profile_name _ := "";
  gd_model_key _ := ""; gd_mode _ := 0; ValidateGpuExecution _ := Ok tt; IsDNS1123Label _ := None |}.
#[local] Instance accelerator_laws : AcceleratorLaws.
Proof.
  refine {| ge_inj := _; ge_full := "accelerator.v1.GpuExecution"; ge_fields := [];
            gd_full := "accelerator.v1.GpuDisplay"; gd_fields := [] |}.
  - by intros [] [].
  - by intros [] [].
  - intros e. constructor; constructor.
  - intros d. constructor; constructor.
Defined.
Definition engine : EngineSpec := mkEngineSpec false "vllm" "image" "serve" "" "".
Definition create (request_id digest : string) : CreateRequest :=
  mkCreateRequest false request_id "svc" "1" (Some (mkResourceSpec false {["cpu" := "1"]} {["cpu" := "1"]} None)) 1 None None
    (Some engine) "chat" (Some (mkContext false "1" "01" "11" digest)) "" None None 0.
Definition create_hash enc sha (r : CreateRequest) : result string := ManagedCreateCommandHash enc sha r "1" "user" "me".
Lemma create_hashes enc sha : ∃ h, create_hash enc sha (create "r1" "") = Ok h ∧ create_hash enc sha (create "r2" "digest") = Ok h.
Proof. eexists. split; vm_compute; reflexivity. Qed.
Lemma create_hash_binds_witness : business (create "r1" "") = business (create "r2" "digest").
Proof.
  destruct (create_hashes text plain) as (h & H1 & H2).
  apply (create_hash_binds text plain (create "r1" "") (create "r2" "digest") "1" "user" "me" "1" "user" "me" h text_plain H1 H2).
Defined.
Definition update (mask : list string) (name : string) : UpdateRequest :=
  mkUpdateRequest false "r" "01" 1 (Some (mkFieldMask false mask)) None 0 None None (Some engine) name "1" None "" None None 0.
Definition update_hash enc sha (r : UpdateRequest) : result string := ManagedUpdateCommandHash enc sha r "1" "user" "me".
Lemma update_hashes enc sha : ∃ h h', update_hash enc sha (update ["engine"; "model_version_id"] "a") = Ok h ∧
  update_hash enc sha (update ["model_version_id"; "engine"] "b") = Ok h'.
Proof. do 2 eexists. split; vm_compute; reflexivity. Qed.
Lemma update_hash_exact_witness : ∃ h h',
  update_hash text plain (update ["engine"; "model_version_id"] "a") = Ok h ∧
  update_hash text plain (update ["model_version_id"; "engine"] "b") = Ok h' ∧ h = h'.
Proof.
  destruct (update_hashes text plain) as (h & h' & H1 & H2). exists h, h'. split; [done|]. split; [done|].
  apply (update_hash_exact text plain (update ["engine"; "model_version_id"] "a") (update ["model_version_id"; "engine"] "b")
    "1" "user" "me" "1" "user" "me" h h' text_plain H1 H2).
  split_and!; try reflexivity; [apply perm_swap|]. intros p [->|[->|[]%elem_of_nil]%elem_of_cons]%elem_of_cons; reflexivity.
Defined.
Lemma topology_agrees_witness :
  NormalizeTopology None 3 2 = Ok (mkTopology 3 "kserve-container" 2 6) <->
  ∃ pods, provider_ok None = true ∧ 0 <= runtime_mode None <= 2 ∧
    Gpu.TotalPods 3 (mode_name (runtime_mode None)) (runtime_workers None) = Ok pods ∧
    (0 < 2 -> runtime_mode None ≠ MODE_LEADER_WORKER_SET ∧ pods <= 16) ∧
    mkTopology 3 "kserve-container" 2 6 =
      mkTopology pods (if runtime_mode None =? MODE_LEADER_WORKER_SET then "main" else "kserve-container") 2 (pods * 2).
Proof. apply (topology_agrees None 3 2 (mkTopology 3 "kserve-container" 2 6)); unfold in_int32; cbn; lia. Defined.
End Example.
End Contract.
