(* ===== verification/WorkStore.v ===== *)
(** * The durable work store

    internal/data/postgres/work_store.go over the statements of work.sql.go and
    the two inserts into inference_resource_work of inference.sql.go: leases,
    notifications, retries and the recovery scans.  Receivers and pools are not
    nil; durations of the options are microseconds (float64 seconds in Go). *)

From S2P Require Import Prelude GoStrings Work Schema.
Local Open Scope Z_scope.

Module WorkStore.
Import Schema.

(** ** Statements *)
(** Tenant and service. *)
Abbreviation key := (uuid * uuid)%type.

(** An expired or absent lease. *)
Definition lease_free (now : Z) (w : WorkRow) : bool :=
  match wk_lease_until w with None => true | Some t => t <=? now end.
Definition is_due (now : Z) (w : WorkRow) : bool :=
  match wk_next_run_at w with
  | Some t => t <=? now
  | None => wk_acknowledged_version w <? wk_dirty_version w
  end.
(** [w.lease_token = $t AND w.lease_until > clock_timestamp()]. *)
Definition leased (now : Z) (token : uuid) (w : WorkRow) : bool :=
  bool_decide (wk_lease_token w = Some token) &&
  match wk_lease_until w with None => false | Some t => now <? t end.
Definition undeleted (s : ServiceRow) : bool := bool_decide (s_deleted_at s = None).

(** The rows of one tenant a worker may claim, joined with their service. *)
Definition claimable (now : Z) (db : DB) (tenant : uuid) (kw : key * WorkRow)
    : option (key * WorkRow * ServiceRow) :=
  let '(k, w) := kw in
  if bool_decide (k.1 = tenant) then
    match services db !! k with
    | Some s => if undeleted s && lease_free now w && is_due now w then Some (k, w, s) else None
    | None => None
    end
  else None.
Definition due_rows (now : Z) (db : DB) (tenant : uuid) : list (key * WorkRow * ServiceRow) :=
  omap (claimable now db tenant) (map_to_list (work db)).
Definition claim_order (r : key * WorkRow * ServiceRow) : list Z :=
  let '(k, w, _) := r in nulls_first (wk_next_run_at w) ++ [wk_updated_at w; Z.of_N k.2].

Record ClaimRow := mkClaimRow {
  c_key : key; c_dirty_version : Z; c_desired_generation : Z; c_lease_token : uuid }.

Definition ClaimResourceWork (owner : string) (token : uuid) (lease : Z) (tenant : uuid)
    : statement ClaimRow := fun now db =>
  match order_by claim_order (due_rows now db tenant) with
  | [] => Err ErrNoRows
  | (k, w, s) :: _ =>
      attempt ← integer (wk_attempt w + 1);
      let w' := w <| wk_lease_owner := Some owner |> <| wk_lease_token := Some token |>
                  <| wk_lease_until := Some (now + lease) |> <| wk_attempt := attempt |>
                  <| wk_updated_at := now |> in
      Ok (mkClaimRow k (wk_dirty_version w) (s_desired_generation s) token,
          db <| work := <[k := w']> (work db) |>)
  end.

Definition clear_lease (w : WorkRow) : WorkRow :=
  w <| wk_lease_owner := None |> <| wk_lease_until := None |> <| wk_lease_token := None |>.

Definition CommitResourceWork (claimed observe : Z) (k : key) (generation : Z) (token : uuid)
    : statement Z := execrows (fun now db =>
  match work db !! k, services db !! k with
  | Some w, Some s =>
      if (s_desired_generation s =? generation) && leased now token w &&
         (0 <=? claimed) && (claimed <=? wk_dirty_version w) then
        let next := if negb (undeleted s) then None
                    else if claimed <? wk_dirty_version w then Some now else Some (now + observe) in
        Some (db <| work := <[k := (clear_lease w)
          <| wk_acknowledged_version := Z.max (wk_acknowledged_version w) claimed |>
          <| wk_next_run_at := next |> <| wk_attempt := 0 |> <| wk_last_error_code := "" |>
          <| wk_updated_at := now |>]> (work db) |>)
      else None
  | _, _ => None
  end).

Definition RetryResourceWork (retry : Z) (code : string) (k : key) (generation : Z) (token : uuid)
    : statement Z := execrows (fun now db =>
  match work db !! k, services db !! k with
  | Some w, Some s =>
      if undeleted s && (s_desired_generation s =? generation) && leased now token w then
        Some (db <| work := <[k := (clear_lease w) <| wk_next_run_at := Some (now + retry) |>
          <| wk_last_error_code := code |> <| wk_updated_at := now |>]> (work db) |>)
      else None
  | _, _ => None
  end).

Definition ReleaseResourceWorkLease (k : key) : statement Z := execrows (fun now db =>
  match work db !! k with
  | Some w => Some (db <| work := <[k := (clear_lease w) <| wk_next_run_at := Some now |>
                <| wk_updated_at := now |>]> (work db) |>)
  | None => None
  end).

(** SQLSTATE 23503 and 23514. *)
Definition ForeignKeyViolation : goerr := ENew "23503" "foreign key violation".
Definition CheckViolation : goerr := ENew "23514" "check violation".

Definition new_work (now dirty : Z) : WorkRow :=
  mkWorkRow dirty 0 (Some now) 0 None None None "" now.
(** The inserted row passes its checks before the conflict is looked for. *)
Definition insert_work (on_conflict : Z -> WorkRow -> result WorkRow) (k : key) (dirty : Z)
    : statement unit := fun now db =>
  if dirty <? 0 then Err CheckViolation
  else match work db !! k with
       | Some w => w' ← on_conflict now w; Ok (tt, db <| work := <[k := w']> (work db) |>)
       | None =>
           if bool_decide (services db !! k = None) then Err ForeignKeyViolation
           else Ok (tt, db <| work := <[k := new_work now dirty]> (work db) |>)
       end.

Definition UpsertResourceWork (k : key) (dirty : Z) : statement unit :=
  insert_work (fun now w =>
    bumped ← bigint (wk_dirty_version w + 1);
    Ok (w <| wk_dirty_version := Z.max bumped dirty |> <| wk_next_run_at := Some now |>
          <| wk_updated_at := now |>)) k dirty.
Definition EnsureResourceWork (k : key) (dirty : Z) : statement unit :=
  insert_work (fun _ w => Ok w) k dirty.

Definition GetLeasedDesired (k : key) (token : uuid) : statement (key * Z) := select_one (fun now db =>
  match services db !! k, work db !! k with
  | Some s, Some w => if leased now token w then Some (k, s_desired_generation s) else None
  | _, _ => None
  end).

Definition ListDueResourceWork (tenant : uuid) : statement (list (key * Z * Z)) :=
  select (fun now db =>
    (fun '(k, w, s) => (k, wk_dirty_version w, s_desired_generation s)) <$>
      order_by claim_order (due_rows now db tenant)).

Definition live_services (db : DB) : list (key * ServiceRow) :=
  filter (fun ks => undeleted ks.2 = true) (map_to_list (services db)).
Definition ListTenantScopes : statement (list uuid) :=
  select (fun _ db =>
    order_by (fun t : uuid => [Z.of_N t]) (remove_dups ((fun ks : key * ServiceRow => ks.1.1) <$> live_services db))).
Definition ListUndeletedServices (tenant : uuid) : statement (list (key * Z)) :=
  select (fun _ db =>
    (fun ks => (ks.1, s_desired_generation ks.2)) <$>
      order_by (fun ks : key * ServiceRow => [s_updated_at ks.2; Z.of_N ks.1.2])
        (filter (fun ks => ks.1.1 = tenant) (live_services db))).

(** ** The store *)
Record WorkStoreOptions := mkOptions { Owner : string; Lease : Z; Observe : Z; RetryWait : Z }.
Definition NewWorkStore (o : WorkStoreOptions) : WorkStoreOptions :=
  let seconds v d := if v <=? 0 then d * 1000000 else v in
  mkOptions (if bool_decide (Owner o = "") then "inference-worker" else Owner o)
    (seconds (Lease o) 30) (seconds (Observe o) 30) (seconds (RetryWait o) 5).

Section Store.
Context `{U : UuidLib}.

Definition workUUID (label value : string) : result uuid :=
  match uuid_parse value with
  | Some u => Ok u
  | None => Err (errorf_before label (errorf "invalid UUID"))
  end.
Definition tenantUUID (v : string) : result uuid := workUUID "tenant_id" v.

Definition workErrorCode (e : option goerr) : string :=
  match e with
  | None => "retry"
  | Some e =>
      if errors_is e "work.ErrStaleGeneration" then "stale_generation"
      else let code := to_lower (error_text e) in
           if (120 <? Z.of_nat (String.length code)) then str_take 120 code else code
  end.

Definition Claim (opts : WorkStoreOptions) (tenantID : string) : M World (option Work.Item) :=
  tenant ← lift (tenantUUID tenantID);
  token ← new_uuid;
  r ← try (exec (ClaimResourceWork (Owner opts) token (Lease opts) tenant));
  match r with
  | Err e => if errors_is e "pgx.ErrNoRows" then mret None else throw e
  | Ok row => mret (Some (Work.mkItem (uuid_string (c_key row).1) (uuid_string (c_key row).2)
                (c_desired_generation row) (c_dirty_version row) (uuid_string (c_lease_token row))))
  end.

Definition Commit (opts : WorkStoreOptions) (item : Work.Item) (result : Work.Result) : M World unit :=
  _ ← check (Work.Res_Generation result =? Work.Generation item) Work.ErrStaleGeneration;
  tenant ← lift (tenantUUID (Work.TenantID item));
  service ← lift (workUUID "service_id" (Work.ServiceID item));
  token ← lift (workUUID "lease_token" (Work.LeaseToken item));
  rows ← exec (CommitResourceWork (Work.DirtyVersion item) (Observe opts) (tenant, service)
                 (Work.Generation item) token);
  check (rows =? 1) Work.ErrLeaseLost.

Definition Retry (opts : WorkStoreOptions) (item : Work.Item) (cause : goerr) : M World unit :=
  tenant ← lift (tenantUUID (Work.TenantID item));
  service ← lift (workUUID "service_id" (Work.ServiceID item));
  token ← lift (workUUID "lease_token" (Work.LeaseToken item));
  rows ← exec (RetryResourceWork (RetryWait opts) (workErrorCode (Some cause)) (tenant, service)
                 (Work.Generation item) token);
  check (rows =? 1) Work.ErrLeaseLost.

(** The store as the worker sees it. *)
Definition as_store (opts : WorkStoreOptions) : Work.Store World :=
  Work.mkStore (Claim opts) (Commit opts) (Retry opts).

Definition Notify (tenantID serviceID : string) (dirtyVersion : Z) : M World unit :=
  tenant ← lift (tenantUUID tenantID);
  service ← lift (workUUID "service_id" serviceID);
  exec (UpsertResourceWork (tenant, service) dirtyVersion).

Definition ScanDue (tenantID : string) : M World (list Work.Item) :=
  tenant ← lift (tenantUUID tenantID);
  rows ← exec (ListDueResourceWork tenant);
  mret ((fun '(k, dirty, generation) =>
    Work.mkItem (uuid_string k.1) (uuid_string k.2) generation dirty "") <$> rows).

Record ServiceTarget := mkTarget { T_TenantID : string; T_ServiceID : string; T_Generation : Z }.

Definition ListTenants : M World (list string) :=
  rows ← exec ListTenantScopes; mret (uuid_string <$> rows).

Definition ScanUndeletedServices (tenantID : string) : M World (list ServiceTarget) :=
  tenant ← lift (tenantUUID tenantID);
  rows ← exec (ListUndeletedServices tenant);
  mret ((fun r => mkTarget (uuid_string r.1.1) (uuid_string r.1.2) r.2) <$> rows).

Definition recoverTenant (tenant : string) : M World unit :=
  services ← ScanUndeletedServices tenant;
  each (fun t => Notify (T_TenantID t) (T_ServiceID t) (T_Generation t)) services.
Definition Recover : M World unit :=
  tenants ← ListTenants; each recoverTenant tenants.

Definition ensure_target (t : ServiceTarget) : M World unit :=
  tenant ← lift (tenantUUID (T_TenantID t));
  service ← lift (workUUID "service_id" (T_ServiceID t));
  exec (EnsureResourceWork (tenant, service) (T_Generation t)).
Definition Repair : M World unit :=
  tenants ← ListTenants;
  each (fun tenant =>
    services ← ScanUndeletedServices tenant;
    each ensure_target services) tenants.
End Store.

(** ** Histories

    Any interleaving of the statements of any number of sessions on the work
    table, newest event first.  [run_other] stands for everything else the
    service does: it leaves the work table alone, and a service row is neither
    removed nor undeleted. *)
Inductive event :=
  | EvClaim (k : key) (token : uuid) (dirty : Z)
  | EvNotify (k : key)
  | EvOther.

Definition services_evolve (db db' : DB) : Prop :=
  ∀ k s, services db !! k = Some s ->
    ∃ s', services db' !! k = Some s' ∧ (undeleted s' = true -> undeleted s = true).

Inductive run : list event -> Z -> DB -> Prop :=
  | run_init now db : work db = ∅ -> run [] now db
  | run_time h now now' db : run h now db -> now <= now' -> run h now' db
  | run_claim h now db owner token lease tenant row db' :
      run h now db -> ClaimResourceWork owner token lease tenant now db = Ok (row, db') ->
      run (EvClaim (c_key row) token (c_dirty_version row) :: h) now db'
  | run_commit h now db claimed observe k generation token n db' :
      run h now db -> CommitResourceWork claimed observe k generation token now db = Ok (n, db') ->
      run (EvOther :: h) now db'
  | run_retry h now db retry code k generation token n db' :
      run h now db -> RetryResourceWork retry code k generation token now db = Ok (n, db') ->
      run (EvOther :: h) now db'
  | run_release h now db k n db' :
      run h now db -> ReleaseResourceWorkLease k now db = Ok (n, db') -> run (EvOther :: h) now db'
  | run_notify h now db k dirty db' :
      run h now db -> UpsertResourceWork k dirty now db = Ok (tt, db') ->
      run (EvNotify k :: h) now db'
  | run_ensure h now db k dirty db' :
      run h now db -> EnsureResourceWork k dirty now db = Ok (tt, db') -> run (EvOther :: h) now db'
  | run_other h now db db' :
      run h now db -> work db' = work db -> services_evolve db db' -> run (EvOther :: h) now db'.

(** The token of the latest claim of a row. *)
Fixpoint last_claim (h : list event) (k : key) : option uuid :=
  match h with
  | [] => None
  | EvClaim k' token _ :: h => if bool_decide (k' = k) then Some token else last_claim h k
  | _ :: h => last_claim h k
  end.

Record row_ok (h : list event) (db : DB) (k : key) (w : WorkRow) : Prop := {
  ok_ack : 0 <= wk_acknowledged_version w <= wk_dirty_version w;
  ok_service : is_Some (services db !! k);
  ok_scheduled s : services db !! k = Some s -> undeleted s = true -> is_Some (wk_next_run_at w);
  ok_token token : wk_lease_token w = Some token -> last_claim h k = Some token;
}.
Record inv (h : list event) (db : DB) : Prop := {
  inv_rows k w : work db !! k = Some w -> row_ok h db k w;
  inv_claims h1 h2 k token d : h = h2 ++ EvClaim k token d :: h1 ->
    ∃ w, work db !! k = Some w ∧ d <= wk_dirty_version w ∧
         (EvNotify k ∈ h2 -> d < wk_dirty_version w);
}.

(** One row is written: what the event must guarantee about it. *)
Record writes (h : list event) (db : DB) (ev : event) (k0 : key) (w0 : WorkRow) : Prop := {
  wr_ok : row_ok (ev :: h) db k0 w0;
  wr_dirty w : work db !! k0 = Some w -> wk_dirty_version w <= wk_dirty_version w0 ∧
    (ev = EvNotify k0 -> wk_dirty_version w < wk_dirty_version w0);
  wr_event : match ev with
             | EvClaim k _ d => k = k0 ∧ d <= wk_dirty_version w0
             | EvNotify k => k = k0
             | EvOther => True
             end;
}.

Lemma inv_write h db db' ev k0 w0 :
  inv h db -> work db' = <[k0 := w0]> (work db) -> services db' = services db ->
  writes h db ev k0 w0 -> inv (ev :: h) db'.
Proof.
  intros [Hrows Hcl] Hw Hs [Hok Hd Hev]. split.
  - intros k w. rewrite Hw. intros [[<- <-]|[Hne Hk]]%lookup_insert_Some.
    { destruct Hok. split; rewrite ?Hs; done. }
    destruct (Hrows k w Hk) as [A B C D]. split; rewrite ?Hs; try done.
    intros token Ht. cbn. destruct ev as [k' tok d|k'|]; auto.
    destruct Hev as [-> _]. rewrite bool_decide_false by done. auto.
  - intros h1 h2 k token d Hh. rewrite Hw.
    destruct h2 as [|ev' h2]; cbn in Hh; simplify_eq.
    { destruct Hev as [-> Hle]. exists w0. rewrite lookup_insert_eq.
      split_and!; [done..|by intros ?%elem_of_nil]. }
    destruct (Hcl h1 h2 k token d eq_refl) as (w & Hk & Hle & Hn).
    destruct (decide (k = k0)) as [->|Hne].
    + exists w0. rewrite lookup_insert_eq. destruct (Hd w Hk) as [H1 H2].
      split_and!; [done|lia|]. intros [<-|?]%elem_of_cons; [|specialize (Hn ltac:(done)); lia].
      specialize (H2 eq_refl). lia.
    + exists w. rewrite lookup_insert_ne by done. split_and!; [done..|].
      intros [<-|?]%elem_of_cons; [|by apply Hn]. cbn in Hev. congruence.
Qed.

Lemma inv_keep h db db' :
  inv h db -> work db' = work db -> services_evolve db db' -> inv (EvOther :: h) db'.
Proof.
  intros [Hrows Hcl] Hw Hs. split.
  - intros k w. rewrite Hw. intros Hk. destruct (Hrows k w Hk) as [A B C D].
    destruct B as [s Es]. destruct (Hs k s Es) as (s' & Es' & Hu).
    split; [done|by eexists| |done].
    intros s2 E2 U2. simplify_eq.
    by apply (C s Es), Hu.
  - intros h1 h2 k token d Hh. rewrite Hw. destruct h2 as [|ev h2]; cbn in Hh; simplify_eq.
    destruct (Hcl h1 h2 k token d eq_refl) as (w & Hk & Hle & Hn). exists w. split_and!; [done..|].
    intros [?|?]%elem_of_cons; [done|auto].
Qed.
Lemma services_evolve_refl db : services_evolve db db.
Proof. intros k s H. eauto. Qed.

(** *** What each statement writes *)
Lemma claimable_spec now db tenant k w r :
  claimable now db tenant (k, w) = Some r ->
  ∃ s, r = (k, w, s) ∧ k.1 = tenant ∧ services db !! k = Some s ∧ undeleted s = true ∧
       lease_free now w = true ∧ is_due now w = true.
Proof.
  unfold claimable. case_bool_decide; [|done]. destruct (services db !! k) as [s|] eqn:E; [|done].
  destruct (undeleted s && _ && _) eqn:B; [|done]. intros [= <-].
  apply andb_true_iff in B as [[? ?]%andb_true_iff ?]. eauto 10.
Qed.
Lemma due_rows_spec now db tenant k w s :
  (k, w, s) ∈ due_rows now db tenant <->
  work db !! k = Some w ∧ services db !! k = Some s ∧ k.1 = tenant ∧ undeleted s = true ∧
  lease_free now w = true ∧ is_due now w = true.
Proof.
  unfold due_rows. rewrite list_elem_of_omap. split.
  - intros ([k' w'] & Hin%elem_of_map_to_list & H). apply claimable_spec in H as (s' & Hr & ?).
    simplify_eq. naive_solver.
  - intros (Hw & Hs & Ht & Hu & Hl & Hd). exists (k, w). rewrite elem_of_map_to_list. split; [done|].
    unfold claimable. rewrite bool_decide_true, Hs, Hu, Hl, Hd by done. done.
Qed.

Lemma claim_inv owner token lease tenant now db row db' :
  ClaimResourceWork owner token lease tenant now db = Ok (row, db') ->
  ∃ k w s w', (k, w, s) ∈ due_rows now db tenant ∧
    (∀ r, r ∈ due_rows now db tenant -> by_key claim_order (k, w, s) r ∨ r = (k, w, s)) ∧
    row = mkClaimRow k (wk_dirty_version w) (s_desired_generation s) token ∧
    db' = db <| work := <[k := w']> (work db) |> ∧
    wk_dirty_version w' = wk_dirty_version w ∧
    wk_acknowledged_version w' = wk_acknowledged_version w ∧
    wk_next_run_at w' = wk_next_run_at w ∧
    wk_lease_token w' = Some token ∧ wk_lease_until w' = Some (now + lease).
Proof.
  unfold ClaimResourceWork. destruct (order_by _ _) as [|[[k w] s] rest] eqn:E; [done|].
  apply order_by_head in E as [Hin Hmin]. intros H. minv H. simplify_eq.
  eexists k, w, s, _. split_and!; done.
Qed.

Lemma execrows_inv f now db n db' :
  execrows f now db = Ok (n, db') ->
  (f now db = None ∧ n = 0 ∧ db' = db) ∨ (f now db = Some db' ∧ n = 1).
Proof. unfold execrows. destruct (f now db); intros [= <- <-]; auto. Qed.

Lemma commit_inv claimed observe k generation token now db n db' :
  CommitResourceWork claimed observe k generation token now db = Ok (n, db') ->
  (n = 0 ∧ db' = db) ∨
  n = 1 ∧ ∃ w s w', work db !! k = Some w ∧ services db !! k = Some s ∧
    s_desired_generation s = generation ∧ leased now token w = true ∧
    0 <= claimed <= wk_dirty_version w ∧
    db' = db <| work := <[k := w']> (work db) |> ∧
    wk_dirty_version w' = wk_dirty_version w ∧
    wk_acknowledged_version w' = Z.max (wk_acknowledged_version w) claimed ∧
    wk_lease_token w' = None ∧ wk_lease_until w' = None ∧
    wk_next_run_at w' = if negb (undeleted s) then None
                        else if claimed <? wk_dirty_version w then Some now else Some (now + observe).
Proof.
  unfold CommitResourceWork. intros [(_ & -> & ->)|[H ->]]%execrows_inv; [by left|right; split; [done|]].
  destruct (work db !! k) as [w|] eqn:Ew; [|done].
  destruct (services db !! k) as [s|] eqn:Es; [|done].
  destruct ((_ =? _) && _ && _ && _) eqn:B; [|done]. simplify_eq.
  rewrite !andb_true_iff, Z.eqb_eq, !Z.leb_le in B. destruct B as [[[? ?] ?] ?].
  eexists w, s, _. split_and!; try reflexivity; done || lia.
Qed.

Lemma retry_inv retry code k generation token now db n db' :
  RetryResourceWork retry code k generation token now db = Ok (n, db') ->
  (n = 0 ∧ db' = db) ∨
  n = 1 ∧ ∃ w s w', work db !! k = Some w ∧ services db !! k = Some s ∧
    s_desired_generation s = generation ∧ undeleted s = true ∧ leased now token w = true ∧
    db' = db <| work := <[k := w']> (work db) |> ∧
    wk_dirty_version w' = wk_dirty_version w ∧
    wk_acknowledged_version w' = wk_acknowledged_version w ∧
    wk_lease_token w' = None ∧ wk_next_run_at w' = Some (now + retry).
Proof.
  unfold RetryResourceWork. intros [(_ & -> & ->)|[H ->]]%execrows_inv; [by left|right; split; [done|]].
  destruct (work db !! k) as [w|] eqn:Ew; [|done].
  destruct (services db !! k) as [s|] eqn:Es; [|done].
  destruct (undeleted s && _ && _) eqn:B; [|done]. simplify_eq.
  rewrite !andb_true_iff, Z.eqb_eq in B. destruct B as [[? ?] ?].
  eexists w, s, _. split_and!; try reflexivity; done.
Qed.

Lemma insert_work_inv f k dirty now db u db' :
  insert_work f k dirty now db = Ok (u, db') ->
  0 <= dirty ∧ ∃ w', db' = db <| work := <[k := w']> (work db) |> ∧
  ((∃ w, work db !! k = Some w ∧ f now w = Ok w') ∨
   (work db !! k = None ∧ is_Some (services db !! k) ∧ w' = new_work now dirty)).
Proof.
  unfold insert_work. destruct (Z.ltb_spec dirty 0); [done|]. intros H'. split; [lia|].
  destruct (work db !! k) as [w|] eqn:Ew.
  - minv H'. simplify_eq. exists a. split; [done|]. eauto.
  - case_bool_decide as Hs; [done|]. simplify_eq. eexists. split; [done|]. right.
    split_and!; [done| |done]. by apply not_eq_None_Some.
Qed.

(** A written row that keeps the lease of the old one. *)
Lemma writes_update h db ev k w w' :
  inv h db -> work db !! k = Some w ->
  (match ev with EvClaim _ _ _ => False | EvNotify k' => k' = k | EvOther => True end) ->
  0 <= wk_acknowledged_version w' <= wk_dirty_version w' ->
  wk_dirty_version w <= wk_dirty_version w' ->
  (ev = EvNotify k -> wk_dirty_version w < wk_dirty_version w') ->
  (∀ s, services db !! k = Some s -> undeleted s = true -> is_Some (wk_next_run_at w')) ->
  (wk_lease_token w' = None ∨ wk_lease_token w' = wk_lease_token w) ->
  writes h db ev k w'.
Proof.
  intros Hi Hw Hev Ha Hd Hn Hs Ht. destruct (inv_rows _ _ Hi k w Hw) as [A B C D].
  split; [split; try done| |].
  - intros token Etok. destruct ev as [| |]; [done|..]; cbn; apply D; destruct Ht; congruence.
  - intros w2 E2. simplify_eq. done.
  - by destruct ev.
Qed.

Lemma run_inv h now db : run h now db -> inv h db.
Proof.
  induction 1 as [now db He| |h now db owner token lease tenant row db' _ IH H
    |h now db claimed observe k generation token n db' _ IH H
    |h now db retry code k generation token n db' _ IH H|h now db k n db' _ IH H
    |h now db k dirty db' _ IH H|h now db k dirty db' _ IH H|h now db db' _ IH Hw Hs].
  - split; [intros k w; by rewrite He|]. by intros h1 [|? ?] ????.
  - done.
  - apply claim_inv in H as (k & w & s & w' & Hin & _ & -> & -> & Hd & Ha & Hn & Ht & _).
    apply due_rows_spec in Hin as (Hw & Hs & _). destruct (inv_rows _ _ IH k w Hw) as [A B C D].
    eapply inv_write; [exact IH|done..|]. split; [split| |]; cbn; rewrite ?Hd, ?Ha, ?Hn; try done.
    + rewrite Ht, bool_decide_true by done. done.
    + intros w2 E2. simplify_eq. done.
  - apply commit_inv in H as [[_ ->]|(_ & w & s & w' & Hw & Hs & _ & _ & Hc & -> & Hd & Ha & Ht & _ & Hn)].
    { apply (inv_keep _ db); [done..|apply services_evolve_refl]. }
    destruct (inv_rows _ _ IH k w Hw) as [A B C D]. eapply inv_write; [exact IH|done..|].
    eapply writes_update; try done; rewrite ?Hd, ?Ha; try done || lia; [|by left].
    intros s2 E2 U2. simplify_eq. rewrite Hn, U2. cbn. by destruct (_ <? _).
  - apply retry_inv in H as [[_ ->]|(_ & w & s & w' & Hw & Hs & _ & _ & _ & -> & Hd & Ha & Ht & Hn)].
    { apply (inv_keep _ db); [done..|apply services_evolve_refl]. }
    destruct (inv_rows _ _ IH k w Hw) as [A B C D]. eapply inv_write; [exact IH|done..|].
    eapply writes_update; try done; rewrite ?Hd, ?Ha, ?Hn; try done || lia. by left.
  - unfold ReleaseResourceWorkLease in H.
    apply execrows_inv in H as [(_ & _ & ->)|[H _]].
    { apply (inv_keep _ db); [done..|apply services_evolve_refl]. }
    destruct (work db !! k) as [w|] eqn:Ew; [|done]. simplify_eq.
    destruct (inv_rows _ _ IH k w Ew) as [A B C D]. eapply inv_write; [exact IH|done..|].
    eapply writes_update; try done. by left.
  - apply insert_work_inv in H as (Hd & w' & -> & [(w & Hw & Hf)|(Hn & Hs & ->)]).
    + minv Hf. apply bigint_ok in Hm as ->. simplify_eq.
      destruct (inv_rows _ _ IH k w Hw) as [A B C D]. eapply inv_write; [exact IH|done..|].
      eapply writes_update; simpl; try done || lia. by right.
    + eapply inv_write; [exact IH|done..|]. split; [split| |]; simpl; try done || lia.
      intros w2 E2. congruence.
  - apply insert_work_inv in H as (Hd & w' & -> & [(w & Hw & Hf)|(Hn & Hs & ->)]).
    + simplify_eq. destruct (inv_rows _ _ IH k w' Hw) as [A B C D].
      eapply inv_write; [exact IH|done..|]. eapply writes_update; try done || lia. by right.
    + eapply inv_write; [exact IH|done..|]. split; [split| |]; simpl; try done || lia.
      intros w2 E2. congruence.
  - by apply (inv_keep _ db).
Qed.

(** ** Claims about leases and notifications *)
Definition claim_tokens (h : list event) : list uuid :=
  omap (fun ev => match ev with EvClaim _ token _ => Some token | _ => None end) h.

Lemma last_claim_app h2 h1 k token :
  last_claim (h2 ++ h1) k = Some token ->
  (∃ d, EvClaim k token d ∈ h2) ∨ (last_claim h1 k = Some token ∧ ∀ t d, EvClaim k t d ∉ h2).
Proof.
  induction h2 as [|ev h2 IH]; cbn.
  { intros H. right. split; [done|]. intros t d H0. by apply elem_of_nil in H0. }
  destruct ev as [k' t' d'|k'|]; [case_bool_decide as Hk|..].
  - intros [= <-]. subst. left. exists d'. left.
  - intros [(d & H)|[H Hn]]%IH; [left; exists d; by right|right; split; [done|]].
    intros t d [[=]|?]%elem_of_cons; [congruence|by apply (Hn t d)].
  - intros [(d & H)|[H Hn]]%IH; [left; exists d; by right|right; split; [done|]].
    intros t d [[=]|?]%elem_of_cons. by apply (Hn t d).
  - intros [(d & H)|[H Hn]]%IH; [left; exists d; by right|right; split; [done|]].
    intros t d [[=]|?]%elem_of_cons. by apply (Hn t d).
Qed.

Lemma leased_token now token w : leased now token w = true -> wk_lease_token w = Some token.
Proof. unfold leased. rewrite andb_true_iff, bool_decide_eq_true. by intros [? _]. Qed.

Lemma leased_excludes h1 h2 k token d now db w :
  run (h2 ++ EvClaim k token d :: h1) now db ->
  NoDup (claim_tokens (h2 ++ EvClaim k token d :: h1)) ->
  work db !! k = Some w -> leased now token w = true ->
  ∀ token' d', EvClaim k token' d' ∉ h2.
Proof.
  intros Hr%run_inv Hnd Hw Hl. apply leased_token in Hl.
  pose proof (ok_token _ _ _ _ (inv_rows _ _ Hr k w Hw) token Hl) as Hlast.
  apply last_claim_app in Hlast as [(d2 & Hin)|[_ Hn]]; [|done].
  exfalso. unfold claim_tokens in Hnd. rewrite omap_app in Hnd. cbn in Hnd.
  apply NoDup_app in Hnd as (_ & Hdis & _).
  apply (Hdis token); [|left]. apply list_elem_of_omap. by eexists.
Qed.

(** Claim C1.  Lease fencing.  In every interleaving of claims, commits,
    retries, notifications, recoveries and lease releases in which no token is
    used for two claims, a commit or a retry with a claimed token takes effect
    only while no other worker has claimed the row since. *)
Theorem lease_fences_writes h1 h2 k token d now db db' claimed observe retry code generation :
  run (h2 ++ EvClaim k token d :: h1) now db ->
  NoDup (claim_tokens (h2 ++ EvClaim k token d :: h1)) ->
  (CommitResourceWork claimed observe k generation token now db = Ok (1, db') ∨
   RetryResourceWork retry code k generation token now db = Ok (1, db')) ->
  ∀ token' d', EvClaim k token' d' ∉ h2.
Proof.
  intros Hr Hnd [H|H].
  - apply commit_inv in H as [[? _]|(_ & w & _ & _ & Hw & _ & _ & Hl & _)]; [lia|].
    by eapply leased_excludes.
  - apply retry_inv in H as [[? _]|(_ & w & _ & _ & Hw & _ & _ & _ & Hl & _)]; [lia|].
    by eapply leased_excludes.
Qed.

(** No notification is lost.  Whatever happened between a claim and
    its commit, if one of the events was a notification of the row then the
    commit acknowledges an older version than the current one and leaves the row
    due and free at that very moment. *)
Theorem commit_keeps_notifications h1 h2 k token d now db db' observe generation s :
  run (h2 ++ EvClaim k token d :: h1) now db ->
  EvNotify k ∈ h2 ->
  services db !! k = Some s -> undeleted s = true ->
  CommitResourceWork d observe k generation token now db = Ok (1, db') ->
  ∃ w', (k, w', s) ∈ due_rows now db' k.1 ∧ d < wk_dirty_version w'.
Proof.
  intros Hr%run_inv Hn Hs Hu H.
  destruct (inv_claims _ _ Hr h1 h2 k token d eq_refl) as (w & Hw & _ & Hlt). specialize (Hlt Hn).
  apply commit_inv in H as [[? _]|(_ & w2 & s2 & w' & Hw2 & Hs2 & _ & _ & _ & -> & Hd & _ & _ & Hl & Hx)];
    [lia|]. simplify_eq.
  exists w'. rewrite Hd. split; [|done]. apply due_rows_spec. simpl.
  rewrite lookup_insert_eq. rewrite Hu in Hx. cbn in Hx.
  rewrite (proj2 (Z.ltb_lt _ _)) in Hx by lia.
  split_and!; [done..| |].
  - unfold lease_free. by rewrite Hl.
  - unfold is_due. rewrite Hx. apply Z.leb_refl.
Qed.

Lemma due_later h now db k w s :
  run h now db -> work db !! k = Some w -> services db !! k = Some s -> undeleted s = true ->
  ∃ T, ∀ now', T <= now' -> (k, w, s) ∈ due_rows now' db k.1.
Proof.
  intros Hr%run_inv Hw Hs Hu. destruct (ok_scheduled _ _ _ _ (inv_rows _ _ Hr k w Hw) s Hs Hu) as [t Ht].
  exists (Z.max t (default t (wk_lease_until w))). intros now' Hle. apply due_rows_spec.
  split_and!; [done..| |].
  - unfold lease_free. destruct (wk_lease_until w); cbn in *; [lia|done].
  - unfold is_due. rewrite Ht. lia.
Qed.

(** How often a row was claimed, and that its attempt counts no more than that. *)
Fixpoint claims_of (h : list event) (k : key) : Z :=
  match h with
  | [] => 0
  | EvClaim k' _ _ :: h => (if bool_decide (k' = k) then 1 else 0) + claims_of h k
  | _ :: h => claims_of h k
  end.
Lemma claims_nonneg h k : 0 <= claims_of h k.
Proof. induction h as [|[k' t d|k'|] h IH]; cbn; [lia| |done..]. case_bool_decide; lia. Qed.
Definition attempts_counted (h : list event) (db : DB) : Prop :=
  ∀ k w, work db !! k = Some w -> 0 <= wk_attempt w <= claims_of h k.
Lemma counted_write h db db' ev k w :
  attempts_counted h db -> work db' = <[k := w]> (work db) -> (∀ k, claims_of h k <= claims_of (ev :: h) k) ->
  0 <= wk_attempt w <= claims_of (ev :: h) k -> attempts_counted (ev :: h) db'.
Proof.
  intros Hc Hw Hev H0 k' w'. rewrite Hw. intros [[<- <-]|[_ Hk]]%lookup_insert_Some; [done|].
  specialize (Hc k' w' Hk). specialize (Hev k'). lia.
Qed.
Lemma commit_attempt claimed observe k generation token now db n db' :
  CommitResourceWork claimed observe k generation token now db = Ok (n, db') ->
  db' = db ∨ ∃ w', work db' = <[k := w']> (work db) ∧ wk_attempt w' = 0.
Proof.
  unfold CommitResourceWork. intros [(_ & _ & ->)|[H _]]%execrows_inv; [by left|right].
  destruct (work db !! k); [|done]. destruct (services db !! k); [|done]. destruct (_ && _ && _ && _); [|done].
  injection H as <-. by eexists.
Qed.
Lemma retry_attempt retry code k generation token now db n db' :
  RetryResourceWork retry code k generation token now db = Ok (n, db') ->
  db' = db ∨ ∃ w w', work db !! k = Some w ∧ work db' = <[k := w']> (work db) ∧ wk_attempt w' = wk_attempt w.
Proof.
  unfold RetryResourceWork. intros [(_ & _ & ->)|[H _]]%execrows_inv; [by left|right].
  destruct (work db !! k) as [w|]; [|done]. destruct (services db !! k); [|done]. destruct (_ && _ && _); [|done].
  injection H as <-. by eexists w, _.
Qed.
Lemma release_attempt k now db n db' :
  ReleaseResourceWorkLease k now db = Ok (n, db') ->
  db' = db ∨ ∃ w w', work db !! k = Some w ∧ work db' = <[k := w']> (work db) ∧ wk_attempt w' = wk_attempt w.
Proof.
  unfold ReleaseResourceWorkLease. intros [(_ & _ & ->)|[H _]]%execrows_inv; [by left|right].
  destruct (work db !! k) as [w|]; [|done]. injection H as <-. by eexists w, _.
Qed.
Lemma insert_attempt f k dirty now db u db' :
  (∀ w w', f now w = Ok w' -> wk_attempt w' = wk_attempt w) -> insert_work f k dirty now db = Ok (u, db') ->
  ∃ w', work db' = <[k := w']> (work db) ∧
    (wk_attempt w' = 0 ∨ ∃ w, work db !! k = Some w ∧ wk_attempt w' = wk_attempt w).
Proof.
  intros Hf (_ & w' & -> & [(w & Hw & E)|(_ & _ & ->)])%insert_work_inv; eexists; (split; [done|]); [right|by left].
  exists w. split; [done|]. by eapply Hf.
Qed.
Lemma run_attempts h now db : run h now db -> attempts_counted h db.
Proof.
  assert (Hother : ∀ h k, claims_of h k <= claims_of (EvOther :: h) k) by (intros; cbn; lia).
  induction 1 as [now db He| |h now db owner token lease tenant row db' _ IH H
    |h now db claimed observe k generation token n db' _ IH H
    |h now db retry code k generation token n db' _ IH H|h now db k n db' _ IH H
    |h now db k dirty db' _ IH H|h now db k dirty db' _ IH H|h now db db' _ IH Hw Hs].
  - intros k w. by rewrite He.
  - done.
  - unfold ClaimResourceWork in H. destruct (order_by _ _) as [|[[k w] s] rest] eqn:E; [done|].
    apply order_by_head in E as [Hin _]. apply due_rows_spec in Hin as (Hw & _). minv H. apply integer_ok in Hm as ->.
    injection H as <- <-. eapply counted_write; [exact IH|done|intros k'; cbn; case_bool_decide; lia|].
    specialize (IH k w Hw). cbn. rewrite bool_decide_true by done. lia.
  - apply commit_attempt in H as [->|(w' & Hw & H0)]; [done|]. eapply counted_write; [done..|]. rewrite H0. cbn.
    split; [lia|apply claims_nonneg].
  - apply retry_attempt in H as [->|(w & w' & Hk & Hw & H0)]; [done|]. eapply counted_write; [done..|]. rewrite H0. by apply IH.
  - apply release_attempt in H as [->|(w & w' & Hk & Hw & H0)]; [done|]. eapply counted_write; [done..|]. rewrite H0. by apply IH.
  - apply insert_attempt in H as (w' & Hw & [H0|(w & Hk & H0)]); [..|intros w w' Hf; minv Hf; by simplify_eq];
      (eapply counted_write; [done|done|cbn; lia|]); rewrite H0; cbn; [split; [lia|apply claims_nonneg]|by apply IH].
  - apply insert_attempt in H as (w' & Hw & [H0|(w & Hk & H0)]); [..|by intros w w' [= <-]];
      (eapply counted_write; [done|done|cbn; lia|]); rewrite H0; cbn; [split; [lia|apply claims_nonneg]|by apply IH].
  - intros k w. rewrite Hw. apply IH.
Qed.

(** Claim C27.  No work is stranded.  After any history that starts with an empty
    work table, every work row of an undeleted service becomes claimable and stays
    so: from some time on, a claim for its tenant picks a row that is due no later
    than it, and takes it for the caller's lease.  The only way this can fail is
    the 32-bit attempt counter: when the history holds at least 2^31 - 1 claims of
    the picked row, the claim may fail with an integer out of range. *)
Theorem no_stranded_work h now db k w s :
  run h now db -> work db !! k = Some w -> services db !! k = Some s -> undeleted s = true ->
  ∃ T, ∀ now' owner token lease, T <= now' ->
    ∃ k0 w0 s0, (k0, w0, s0) ∈ due_rows now' db k.1 ∧
      (by_key claim_order (k0, w0, s0) (k, w, s) ∨ (k, w, s) = (k0, w0, s0)) ∧
      ((∃ db' w', ClaimResourceWork owner token lease k.1 now' db =
           Ok (mkClaimRow k0 (wk_dirty_version w0) (s_desired_generation s0) token, db') ∧
         work db' !! k0 = Some w' ∧ wk_lease_token w' = Some token ∧ wk_lease_until w' = Some (now' + lease)) ∨
       (2 ^ 31 - 1 <= claims_of h k0 ∧ ClaimResourceWork owner token lease k.1 now' db = Err OutOfRange)).
Proof.
  intros Hr Hw Hs Hu. destruct (due_later h now db k w s) as [T HT]; [done..|].
  exists T. intros now' owner token lease Hle. specialize (HT now' Hle).
  unfold ClaimResourceWork. destruct (order_by _ _) as [|[[k0 w0] s0] rest] eqn:E.
  { apply order_by_nil in E. rewrite E in HT. by apply elem_of_nil in HT. }
  apply order_by_head in E as [Hin Hmin].
  pose proof (proj1 (due_rows_spec _ _ _ _ _ _) Hin) as (Hw0 & _).
  exists k0, w0, s0. split; [done|]. split; [by apply Hmin|].
  pose proof (run_attempts _ _ _ Hr k0 w0 Hw0) as Hatt. unfold integer.
  destruct (_ && _) eqn:B; [left|right].
  - eexists _, _. split; [done|]. cbn. rewrite lookup_insert_eq. done.
  - split; [|done]. apply andb_false_iff in B as [B|B]; lia.
Qed.

(** *** Repair *)
Section Repair.
Context {U : UuidLib} {UL : UuidLaws}.

Lemma workUUID_string label u : workUUID label (uuid_string u) = Ok u.
Proof. unfold workUUID. by rewrite uuid_parse_string. Qed.

(** Repair only ever adds rows to the work table. *)
Definition adds_work (db db' : DB) : Prop :=
  services db' = services db ∧ work db ⊆ work db'.
#[global] Instance adds_work_preorder : PreOrder adds_work.
Proof. split; [done|]. intros a b c [H1 H2] [H3 H4]. split; [congruence|by etrans]. Qed.

Lemma respects_ensure k dirty : respects adds_work (EnsureResourceWork k dirty).
Proof.
  intros now db u db' (_ & w' & -> & [(w & Hw & Hf)|(Hn & _ & ->)])%insert_work_inv; split; simpl; try done.
  - simplify_eq. by rewrite insert_id.
  - by apply insert_subseteq.
Qed.

#[local] Hint Resolve respects_ensure : moves.
Lemma moves_ensure_target t : moves (db_rel adds_work) (ensure_target t).
Proof. unfold ensure_target. moves. Qed.
Lemma moves_scan tenant : moves (db_rel adds_work) (ScanUndeletedServices tenant).
Proof. unfold ScanUndeletedServices. moves. Qed.

Lemma scan_ok tenant w targets w' :
  ScanUndeletedServices (uuid_string tenant) w = (Ok targets, w') ->
  w_db w' = w_db w ∧ ∀ service s, services (w_db w) !! (tenant, service) = Some s ->
    undeleted s = true -> ∃ g, mkTarget (uuid_string tenant) (uuid_string service) g ∈ targets.
Proof.
  unfold ScanUndeletedServices, tenantUUID. rewrite workUUID_string. intros H.
  minv H. cbn in Hm. injection Hm as <- <-. apply exec_ok in Hm0 as (now & _ & Hs & _).
  injection Hs as <- Hdb. injection H as <- <-. split; [done|].
  intros service s Hk Hu. exists (s_desired_generation s).
  apply list_elem_of_fmap. exists (tenant, service, s_desired_generation s). split; [done|].
  apply list_elem_of_fmap. exists ((tenant, service), s). split; [done|].
  apply elem_of_order_by, list_elem_of_filter. split; [done|].
  apply list_elem_of_filter. split; [done|]. by apply elem_of_map_to_list.
Qed.

Lemma tenants_ok w tenants w' :
  ListTenants w = (Ok tenants, w') ->
  w_db w' = w_db w ∧ (∀ x, x ∈ tenants -> ∃ t, x = uuid_string t) ∧
  ∀ k s, services (w_db w) !! k = Some s -> undeleted s = true -> uuid_string k.1 ∈ tenants.
Proof.
  unfold ListTenants. intros H. minv H. apply exec_ok in Hm as (now & _ & Hs & _).
  injection Hs as <- Hdb. injection H as <- <-. split_and!; [done| |].
  - intros x (t & -> & _)%list_elem_of_fmap. eauto.
  - intros k s Hk Hu. apply list_elem_of_fmap. exists k.1. split; [done|].
    apply elem_of_order_by, elem_of_remove_dups, list_elem_of_fmap. exists (k, s). split; [done|].
    apply list_elem_of_filter. split; [done|]. by apply elem_of_map_to_list.
Qed.

Lemma ensure_target_ok tenant service g w w' :
  ensure_target (mkTarget (uuid_string tenant) (uuid_string service) g) w = (Ok tt, w') ->
  is_Some (work (w_db w') !! (tenant, service)).
Proof.
  unfold ensure_target, tenantUUID. cbn. rewrite !workUUID_string. intros H. minv H.
  injection Hm as <- <-. injection Hm0 as <- <-. apply exec_ok in H as (now & _ & H & _).
  apply insert_work_inv in H as (_ & r & -> & _). simpl. rewrite lookup_insert_eq. by eexists.
Qed.

(** The work row of every live service of [tenant]. *)
Definition covered (tenant : string) (w : World) : Prop :=
  ∀ k s, uuid_string k.1 = tenant -> services (w_db w) !! k = Some s -> undeleted s = true ->
    is_Some (work (w_db w) !! k).
Lemma adds_work_lookup w w' k :
  db_rel adds_work w w' -> is_Some (work (w_db w) !! k) -> is_Some (work (w_db w') !! k).
Proof. intros (_ & _ & Hsub) [r Hr]. exists r. by eapply lookup_weaken. Qed.

Lemma repair_tenant_ok t w w' :
  (services ← ScanUndeletedServices (uuid_string t); each ensure_target services) w = (Ok tt, w') ->
  covered (uuid_string t) w'.
Proof.
  intros H. minv H. apply scan_ok in Hm as [Hdb Htargets].
  assert (Hr : db_rel adds_work u w') by
    (pose proof (moves_each _ _ a moves_ensure_target u) as Hr; by rewrite H in Hr).
  apply (each_inv (db_rel adds_work) _ (fun x v => ∀ k g,
     x = mkTarget (uuid_string k.1) (uuid_string k.2) g -> is_Some (work (w_db v) !! k)))
    in H as [_ H].
  - intros k s Ht Hs Hu. destruct Hr as (_ & Hsv & _). rewrite Hsv, Hdb in Hs.
    assert (k.1 = t) as <-.
    { apply (f_equal uuid_parse) in Ht. rewrite !uuid_parse_string in Ht. congruence. }
    destruct (Htargets k.2 s) as [g Hg]; [by rewrite <- surjective_pairing|done|].
    by eapply H.
  - apply moves_ensure_target.
  - intros x v v' Hx Hv k g E. eapply adds_work_lookup; eauto.
  - intros x v v' Hx Hv u' E k g ->. destruct k. by eapply ensure_target_ok.
Qed.

(**  Repair.  When the periodic repair scan reports success, every
    undeleted service has a work row, and every work row that existed before is
    unchanged: no notification is raised for it. *)
Theorem Repair_complete w w' :
  Repair w = (Ok tt, w') ->
  services (w_db w') = services (w_db w) ∧ work (w_db w) ⊆ work (w_db w') ∧
  ∀ k s, services (w_db w) !! k = Some s -> undeleted s = true -> is_Some (work (w_db w') !! k).
Proof.
  unfold Repair. intros H. minv H. apply tenants_ok in Hm as (Hdb & Hform & Hall).
  set (body := fun tenant => services ← ScanUndeletedServices tenant; each ensure_target services) in H.
  assert (Hmv : ∀ x, moves (db_rel adds_work) (body x)).
  { intros x. apply moves_bind; [apply _|apply moves_scan|].
    intros ts. apply moves_each; [apply _|apply moves_ensure_target]. }
  destruct (each_inv (db_rel adds_work) body covered a u w') as [(_ & H1 & H2) H3]; [done| | |done|].
  - intros x v v' Hx Hv k s Ht Hs Hu. destruct Hv as (Hn & Hsv & Hsub). rewrite Hsv in Hs.
    destruct (Hx k s Ht Hs Hu) as [r Hr]. exists r. by eapply lookup_weaken.
  - intros x v v' Hx _ u' E. destruct (Hform x Hx) as [t ->]. by eapply repair_tenant_ok.
  - rewrite Hdb in H1, H2. split_and!; [done..|]. intros k s Hs Hu.
    eapply (H3 (uuid_string k.1)); [by eapply Hall|done| |done]. by rewrite H1.
Qed.

(** *** One worker pass *)
Definition item_of (row : ClaimRow) : Work.Item :=
  Work.mkItem (uuid_string (c_key row).1) (uuid_string (c_key row).2) (c_desired_generation row)
    (c_dirty_version row) (uuid_string (c_lease_token row)).

Lemma claim_ok opts tenant w item w' :
  Claim opts (uuid_string tenant) w = (Ok item, w') ->
  ∃ now token, match item with
  | None => due_rows now (w_db w) tenant = [] ∧ w_db w' = w_db w
  | Some item => ∃ row, item = item_of row ∧ c_lease_token row = token ∧
      ClaimResourceWork (Owner opts) token (Lease opts) tenant now (w_db w) = Ok (row, w_db w')
  end.
Proof.
  unfold Claim, tenantUUID. rewrite workUUID_string. intros H. minv H. injection Hm as <- <-.
  assert (Hdb : w_db u0 = w_db w) by (unfold new_uuid in Hm0; destruct (w_uuids w); by simplify_eq).
  destruct a1 as [row|e].
  - injection H as <- <-. apply exec_ok in Hm1 as (now & _ & Hc & _). rewrite Hdb in Hc.
    exists now, a0. exists row. split_and!; [done| |done].
    apply claim_inv in Hc as (k & w0 & s & w0' & _ & _ & -> & _). done.
  - destruct (errors_is e "pgx.ErrNoRows") eqn:E; [|done]. injection H as <- <-.
    apply exec_err in Hm1 as (_ & [->|(now & _ & Hc & Hd)]); [done|].
    exists now, a0. rewrite Hdb in *. split; [|done].
    unfold ClaimResourceWork in Hc. destruct (order_by _ _) as [|[[k r] s] rest] eqn:Eo.
    { by eapply order_by_nil. }
    unfold integer in Hc. destruct (_ && _); by simplify_eq/=.
Qed.

Lemma commit_ok opts row r w w' :
  Commit opts (item_of row) r w = (Ok tt, w') ->
  Work.Res_Generation r = c_desired_generation row ∧ ∃ now,
  CommitResourceWork (c_dirty_version row) (Observe opts) (c_key row) (c_desired_generation row)
    (c_lease_token row) now (w_db w) = Ok (1, w_db w').
Proof.
  unfold Commit, tenantUUID. cbn. rewrite !workUUID_string. intros H. minv H.
  injection Hm0 as <- <-. injection Hm1 as <- <-. injection Hm2 as <- <-.
  apply Z.eqb_eq in Hm, H. subst. apply exec_ok in Hm3 as (now & _ & Hc & _).
  split; [done|]. exists now. by destruct (c_key row).
Qed.

(** A worker pass that reports success either found nothing due for
    its tenant and changed nothing, or it claimed one due row, ran the executor
    on that row, and committed it under the claim's own token and generation,
    acknowledging exactly the version it claimed: the row ends unleased, and is
    scheduled at once when a newer version arrived meanwhile, after the
    observation interval otherwise. *)
Theorem worker_pass_commits_claimed_version opts execute tenant w w' :
  Work.Worker_RunOnce (Work.mkWorker (as_store opts) execute) (uuid_string tenant) w = (Ok tt, w') ->
  (∃ now, due_rows now (w_db w) tenant = [] ∧ w_db w' = w_db w) ∨
  ∃ row now wc r we now' d s d',
    ClaimResourceWork (Owner opts) (c_lease_token row) (Lease opts) tenant now (w_db w)
      = Ok (row, w_db wc) ∧
    execute (item_of row) wc = (Ok r, we) ∧
    Work.Res_Generation r = c_desired_generation row ∧
    work (w_db we) !! c_key row = Some d ∧ services (w_db we) !! c_key row = Some s ∧
    s_desired_generation s = c_desired_generation row ∧
    leased now' (c_lease_token row) d = true ∧
    work (w_db w') = <[c_key row := d']> (work (w_db we)) ∧
    wk_acknowledged_version d' = Z.max (wk_acknowledged_version d) (c_dirty_version row) ∧
    wk_lease_token d' = None ∧
    (undeleted s = true -> wk_next_run_at d' =
       if c_dirty_version row <? wk_dirty_version d then Some now' else Some (now' + Observe opts)).
Proof.
  unfold Work.Worker_RunOnce. cbn. intros H. minv H.
  apply claim_ok in Hm as (now & token & Hc). destruct a as [item|].
  2:{ injection H as <-. left. by exists now. }
  right. destruct Hc as (row & -> & <- & Hc). minv H. destruct a as [r|e].
  2:{ by apply bind_ok_inv in H as (? & ? & _ & ?). }
  destruct (negb _) eqn:Eg; [done|]. apply commit_ok in H as [Hg [now' H]].
  apply commit_inv in H as
    [[? _]|(_ & d & s & d' & Hw & Hs & Hgen & Hl & _ & Hdb & _ & Ha & Ht & _ & Hn)]; [lia|].
  exists row, now, u, r, u0, now', d, s, d'. rewrite Hdb. split_and!; try done.
  intros Hu. by rewrite Hn, Hu.
Qed.
End Repair.

(** ** Examples *)
Import BinaryUuid.
Definition ex_service : ServiceRow := mkServiceRow "svc" "running" 1 0 None None 0 0.
Definition ex_db : DB := empty_db <| services := {[ (1%N, 2%N) := ex_service ]} |>.
Definition ex_opts : WorkStoreOptions := NewWorkStore (mkOptions "" 0 0 0).

Definition stmt_db {A} (f : statement A) (now : Z) (db : DB) : DB :=
  match f now db with Ok (_, db') => db' | Err _ => db end.
(** Notified at 0, claimed with token 7 at 10, notified again at 20. *)
Definition ex_db1 : DB := stmt_db (UpsertResourceWork (1%N, 2%N) 1) 0 ex_db.
Definition ex_db2 : DB := stmt_db (ClaimResourceWork "w" 7%N 30 1%N) 10 ex_db1.
Definition ex_db3 : DB := stmt_db (UpsertResourceWork (1%N, 2%N) 1) 20 ex_db2.
Definition ex_db4 : DB := stmt_db (CommitResourceWork 1 30 (1%N, 2%N) 1 7%N) 25 ex_db3.

Lemma ex_work1 : work ex_db1 = {[ (1%N, 2%N) := new_work 0 1 ]}.
Proof. vm_compute. reflexivity. Qed.
Lemma ex_work3 : work ex_db3 =
  {[ (1%N, 2%N) := mkWorkRow 2 0 (Some 20) 1 (Some "w") (Some 40) (Some 7%N) "" 20 ]}.
Proof. vm_compute. reflexivity. Qed.

Lemma ex_run : run [EvNotify (1%N, 2%N); EvClaim (1%N, 2%N) 7%N 1; EvNotify (1%N, 2%N)] 25 ex_db3.
Proof.
  apply (run_time _ 20); [|lia]. apply run_notify with (db := ex_db2) (dirty := 1); [|vm_compute; reflexivity].
  apply (run_time _ 10); [|lia].
  apply (run_claim [EvNotify (1%N, 2%N)] 10 ex_db1 "w" 7%N 30 1%N
    (mkClaimRow (1%N, 2%N) 1 1 7%N) ex_db2); [|vm_compute; reflexivity].
  apply (run_time _ 0); [|lia]. apply run_notify with (db := ex_db) (dirty := 1); [|vm_compute; reflexivity].
  by apply run_init.
Qed.

Lemma lease_fences_writes_witness :
  CommitResourceWork 1 30 (1%N, 2%N) 1 7%N 25 ex_db3 = Ok (1, ex_db4) ∧
  ∀ token' d', EvClaim (1%N, 2%N) token' d' ∉ [EvNotify (1%N, 2%N)].
Proof.
  assert (H : CommitResourceWork 1 30 (1%N, 2%N) 1 7%N 25 ex_db3 = Ok (1, ex_db4))
    by (vm_compute; reflexivity).
  split; [exact H|].
  apply (lease_fences_writes [EvNotify (1%N, 2%N)] [EvNotify (1%N, 2%N)] (1%N, 2%N) 7%N 1 25
    ex_db3 ex_db4 1 30 0 "" 1 ex_run); [|left; exact H].
  vm_compute. apply NoDup_singleton.
Defined.

Lemma commit_keeps_notifications_witness :
  ∃ w', ((1%N, 2%N), w', ex_service) ∈ due_rows 25 ex_db4 1%N ∧ 1 < wk_dirty_version w'.
Proof.
  apply (commit_keeps_notifications [EvNotify (1%N, 2%N)] [EvNotify (1%N, 2%N)] (1%N, 2%N) 7%N 1 25
    ex_db3 ex_db4 30 1 ex_service ex_run); [left|reflexivity|reflexivity|vm_compute; reflexivity].
Defined.

Lemma no_stranded_work_witness :
  ∃ w T, work ex_db3 !! (1%N, 2%N) = Some w ∧ ∀ now' owner token lease, T <= now' ->
    ∃ row db', ClaimResourceWork owner token lease 1%N now' ex_db3 = Ok (row, db').
Proof.
  destruct (work ex_db3 !! (1%N, 2%N)) as [w|] eqn:E; [|vm_compute in E; discriminate E].
  destruct (no_stranded_work _ 25 ex_db3 (1%N, 2%N) w ex_service ex_run E eq_refl eq_refl) as [T HT].
  exists w, T. split; [reflexivity|]. intros now' owner token lease Hle.
  destruct (HT now' owner token lease Hle) as (k0 & w0 & s0 & _ & _ & [(db' & w' & H & _)|[H _]]).
  - eexists _, db'. exact H.
  - exfalso. cbn in H. case_bool_decide; lia.
Defined.

Lemma Repair_complete_witness :
  is_Some (work (w_db (Repair (mkWorld ex_db 0 [] [])).2) !! (1%N, 2%N)).
Proof.
  destruct (Repair (mkWorld ex_db 0 [] [])) as [r w'] eqn:E.
  assert (Hr : r = Ok tt) by (apply (f_equal fst) in E; vm_compute in E; symmetry; exact E).
  subst r. exact (proj2 (proj2 (Repair_complete _ _ E)) (1%N, 2%N) ex_service eq_refl eq_refl).
Defined.

(** The executor of the example notifies the row it runs for. *)
Definition ex_execute (i : Work.Item) : M World Work.Result :=
  _ ← Notify (Work.TenantID i) (Work.ServiceID i) 1; mret (Work.mkResult (Work.Generation i)).
Definition ex_world : World := mkWorld ex_db1 10 [] [7%N].

Lemma worker_pass_commits_claimed_version_witness :
  ∃ row d', c_dirty_version row = 1 ∧ wk_next_run_at d' = Some 10 ∧ c_key row = (1%N, 2%N) ∧
    work (w_db (Work.Worker_RunOnce (Work.mkWorker (as_store ex_opts) ex_execute) "1" ex_world).2)
      !! c_key row = Some d'.
Proof.
  destruct (Work.Worker_RunOnce (Work.mkWorker (as_store ex_opts) ex_execute) "1" ex_world) as [r w'] eqn:E.
  assert (Hr : r = Ok tt) by (apply (f_equal fst) in E; vm_compute in E; symmetry; exact E).
  subst r.
  destruct (worker_pass_commits_claimed_version ex_opts ex_execute 1%N ex_world w' E)
    as [(now & Hd & Hw)|(row & now & wc & r & we & now' & d & s & d' & Hc & He & _ & Hd & Hs & _ & _ & Hw & _)].
  - apply (f_equal (fun x => work (w_db x.2))) in E. cbn [snd] in E. rewrite Hw in E.
    apply (f_equal (fun m => m !! (1%N, 2%N))) in E. vm_compute in E. discriminate E.
  - assert (Hk : c_key row = (1%N, 2%N)).
    { apply claim_inv in Hc as (k & w0 & s0 & w0' & Hin & _ & -> & _).
      apply due_rows_spec in Hin as (Hin & _). simpl.
      unfold ex_world in Hin. simpl in Hin. rewrite ex_work1 in Hin.
      apply lookup_singleton_Some in Hin as [Hin _]. symmetry. exact Hin. }
    exists (mkClaimRow (1%N, 2%N) 1 1 7%N). cbn [snd c_key c_dirty_version].
    destruct (work (w_db w') !! (1%N, 2%N)) as [d2|] eqn:E2.
    + exists d2. split_and!; [reflexivity| |reflexivity|exact E2].
      apply (f_equal (fun x => work (w_db x.2) !! (1%N, 2%N))) in E. cbn [snd] in E. rewrite E2 in E.
      vm_compute in E. injection E as <-. reflexivity.
    + exfalso. rewrite Hw, Hk, lookup_insert_eq in E2. discriminate E2.
Defined.
End WorkStore.
