(* ===== verification/Reconcile.v ===== *)
(** * The reconciler

    internal/biz/reconcile/reconcile.go: the observation facts and the two entry
    points, the event-driven [Reconcile] and the leased [Execute].  The repository
    and the runtime are interfaces over an arbitrary state; the lease-scoped
    repository is an optional capability found by a type assertion. *)

From S2P Require Import Prelude Work.
Local Open Scope Z_scope.

Module Reconcile.

Definition ErrStaleGeneration : goerr := ENew "reconcile.ErrStaleGeneration" "stale generation".
Definition ErrLeaseRepositoryRequired : goerr :=
  ENew "reconcile.ErrLeaseRepositoryRequired" "lease-scoped reconcile repository is required".

Record Desired := mkDesired { D_TenantID : string; D_ServiceID : string; D_Generation : Z }.

Record RuntimeObject := mkRuntimeObject {
  BindingGeneration : Z; Obj_Kind : string; Obj_Namespace : string; Obj_Name : string;
  Obj_UID : string; Obj_ResourceVersion : string; Obj_Role : string;
  ExpectedUID : string; ExpectedResourceVersion : string; Missing : bool; Terminating : bool }.

Record Observation := mkObservation {
  Obs_Generation : Z; Obs_RuntimePhase : string; Obs_ReadyReplicas : Z; Obs_ReadyGroups : Z;
  Obs_ReadyWorkers : Z; Obs_ModelReady : bool; Obs_ModelReadyKnown : bool;
  Obs_PublicationPhase : string; Obs_InvocationHealth : string; Obs_RuntimeMode : string;
  Obs_LWSUID : string; Obs_Reason : string; Obs_Objects : list RuntimeObject }.

Section Reconciler.
Context {S : Type}.

Record LeasedRepository := mkLeasedRepository {
  CurrentForWork : Work.Item -> M S Desired;
  SaveObservationForWork : Work.Item -> Observation -> M S unit }.
Record Repository := mkRepository {
  Current : string -> string -> M S Desired;
  SaveObservation : string -> string -> Z -> Observation -> M S unit;
  as_leased : option LeasedRepository }.
Definition Runtime := Desired -> M S Observation.
Record Reconciler := mkReconciler { R_Repository : option Repository; R_Runtime : option Runtime }.

(** [Reconcile] dereferences both interfaces: a nil one panics, so it is only
    defined on present ones. *)
Definition Reconcile (repo : Repository) (runtime : Runtime) (tenantID serviceID : string) : M S unit :=
  desired ← Current repo tenantID serviceID;
  observation ← runtime desired;
  _ ← check (Obs_Generation observation =? D_Generation desired) ErrStaleGeneration;
  SaveObservation repo tenantID serviceID (D_Generation desired) observation.

Definition item_incomplete (item : Work.Item) : bool :=
  bool_decide (Work.TenantID item = "") || bool_decide (Work.ServiceID item = "") ||
  (Work.Generation item <? 1) || bool_decide (Work.LeaseToken item = "").

Definition Execute (r : Reconciler) (item : Work.Item) : M S Work.Result :=
  match R_Repository r, R_Runtime r with
  | Some repository, Some runtime =>
      match as_leased repository with
      | None => throw ErrLeaseRepositoryRequired
      | Some repo =>
          _ ← check (negb (item_incomplete item)) ErrStaleGeneration;
          desired ← CurrentForWork repo item;
          _ ← check (bool_decide (D_TenantID desired = Work.TenantID item) &&
                     bool_decide (D_ServiceID desired = Work.ServiceID item) &&
                     (D_Generation desired =? Work.Generation item)) ErrStaleGeneration;
          observation ← runtime desired;
          _ ← check (Obs_Generation observation =? Work.Generation item) ErrStaleGeneration;
          _ ← SaveObservationForWork repo item observation;
          mret (Work.mkResult (Work.Generation item))
      end
  | _, _ => throw (errorf "reconcile repository and runtime are required")
  end.
End Reconciler.
Arguments LeasedRepository : clear implicits.
Arguments Repository : clear implicits.
Arguments Runtime : clear implicits.
Arguments Reconciler : clear implicits.
End Reconcile.
