(* ===== verification/Runner.v ===== *)
(** * The operation runner

    internal/biz/inference/runner.go with the ports of internal/biz/quota,
    publication and audit.  The runner executes one durable step of a claimed
    operation; every provider is an interface over an arbitrary state [S], a nil
    provider is [None], and a capability the code finds with a type assertion on
    its store is an optional field.  Metrics are left out. *)

From S2P Require Import Prelude GoStrings Operation Gpu Resources Work Schema Reconcile.
Local Open Scope Z_scope.

(** internal/biz/quota/quota.go *)
Module Quota.
Definition ErrReservationNotFound : goerr :=
  ENew "quota.ErrReservationNotFound" "quota reservation not found".
Record Reservation := mkReservation {
  TenantID : string; ServiceID : string; OperationID : string; Generation : string;
  ReservationID : string; LeaseToken : string; FenceOperationID : string;
  RequestedResources : Resources.Spec; Demand : option Resources.Demand;
  State : string; LastErrorCode : string }.
#[global] Instance Reservation_eta : Eta Reservation := fun r =>
  mkReservation (TenantID r) (ServiceID r) (OperationID r) (Generation r) (ReservationID r)
    (LeaseToken r) (FenceOperationID r) (RequestedResources r) (Demand r) (State r) (LastErrorCode r).
(** The zero value: no reservation. *)
Definition none : Reservation :=
  mkReservation "" "" "" "" "" "" "" (Resources.mkSpec ∅ ∅ None) None "" "".
Record Port (S : Type) := mkPort {
  Reserve : Reservation -> M S Reservation;
  Confirm : Reservation -> M S unit;
  Release : Reservation -> M S unit;
  Get : string -> string -> M S Reservation }.
Arguments Reserve {S}. Arguments Confirm {S}. Arguments Release {S}. Arguments Get {S}.
Arguments mkPort {S}.
End Quota.

(** internal/biz/publication/publication.go *)
Module Publication.
Record Publication := mkPublication {
  TenantID : string; ServiceID : string; OperationID : string; Generation : Z;
  LeaseToken : string; FenceOperationID : string; URL : string; State : string }.
#[global] Instance Publication_eta : Eta Publication := fun r =>
  mkPublication (TenantID r) (ServiceID r) (OperationID r) (Generation r) (LeaseToken r)
    (FenceOperationID r) (URL r) (State r).
Record Port (S : Type) := mkPort {
  Withdraw : Publication -> M S unit;
  ConfirmWithdrawn : Publication -> M S bool;
  Publish : Publication -> M S unit;
  ConfirmPublished : Publication -> M S bool;
  as_resolver : option (Publication -> M S string) }.
Arguments Withdraw {S}. Arguments ConfirmWithdrawn {S}. Arguments Publish {S}.
Arguments ConfirmPublished {S}. Arguments as_resolver {S}. Arguments mkPort {S}.
End Publication.

(** internal/biz/audit/audit.go; the JSON documents are field lists. *)
Module Audit.
Record Event := mkEvent {
  TenantID : string; EventID : string; ServiceID : string; OperationID : string; Generation : Z;
  EventType : string; Actor : string; RequestID : string;
  BeforeState : Schema.doc; AfterState : Schema.doc; Payload : Schema.doc }.
End Audit.

Module Runner.
Import Operation.

Definition ErrOperationProviderMissing : goerr :=
  ENew "inference.ErrOperationProviderMissing" "operation provider is not configured".
Definition ErrOperationNotReady : goerr :=
  ENew "inference.ErrOperationNotReady" "operation provider has not reached the required state".

Record OperationContext := mkOperationContext {
  TenantID : string; ServiceID : string; ID : string; Kind : string; Actor : string;
  RequestID : string; LeaseToken : string; Phase : string; Step : string; Attempt : Z;
  TargetGeneration : Z; Reservation : Quota.Reservation; PreviousReservation : Quota.Reservation;
  Pub : Publication.Publication; GPURequest : option Gpu.Request; GPUSnapshot : option Gpu.Snapshot;
  Managed : bool; ManagedGPU : bool; ManagedGPUCreateOperationID : string;
  ManagedGPUReleasePods : list Gpu.PodRef; ManagedGPUReleaseSealedAt : string;
  Replicas : Z; WorkerReplicas : Z; RuntimeMode : string }.
#[global] Instance OperationContext_eta : Eta OperationContext := fun r =>
  mkOperationContext (TenantID r) (ServiceID r) (ID r) (Kind r) (Actor r) (RequestID r)
    (LeaseToken r) (Phase r) (Step r) (Attempt r) (TargetGeneration r) (Reservation r)
    (PreviousReservation r) (Pub r) (GPURequest r) (GPUSnapshot r) (Managed r) (ManagedGPU r)
    (ManagedGPUCreateOperationID r) (ManagedGPUReleasePods r) (ManagedGPUReleaseSealedAt r)
    (Replicas r) (WorkerReplicas r) (RuntimeMode r).

Record RuntimeObservation := mkRuntimeObservation {
  Ready : bool; RO_RuntimePhase : string; RO_RuntimeMode : string; ReadyReplicas : Z;
  ReadyGroups : Z; ReadyWorkers : Z; LWSUID : string; ModelReady : bool; ModelReadyKnown : bool;
  InvocationHealth : string; Absent : bool; RO_Reason : string;
  Objects : list Reconcile.RuntimeObject; ReleasePods : list Gpu.PodRef }.
Record ModelObservation := mkModelObservation { MO_Ready : bool; Known : bool; MO_Reason : string }.

Record StepTransition := mkStepTransition {
  ST_TenantID : string; ST_OperationID : string; ST_Kind : string; ST_LeaseToken : string;
  ST_TargetGeneration : Z; ExpectedPhase : string; ExpectedStep : string; NextPhase : string;
  NextStep : string; ErrorCode : string; ErrorMessage : string }.

Record stepResult := mkStepResult {
  sr_phase : string; sr_step : string; sr_event : string; sr_errorMessage : string }.
Definition next_step (step event : string) : stepResult :=
  mkStepResult OperationRunning step event "".
Definition completed (event : string) : stepResult :=
  mkStepResult OperationSucceeded StepComplete event "".

Section Runner.
Context `{U : UuidLib} {S : Type}.

(** ** Ports *)
Record AtomicStepStore := mkAtomicStepStore {
  AdvanceOperationStepCASWithAudit : StepTransition -> Audit.Event -> M S unit;
  RetryOperationStepCASWithAudit : StepTransition -> Z -> Audit.Event -> M S unit }.
Record ModelObservationStore := mkModelObservationStore {
  MarkModelMaterializing : OperationContext -> M S unit;
  SaveModelObservation : OperationContext -> ModelObservation -> M S unit }.
Record ManagedGPUReleaseScopeStore := mkScopeStore {
  SaveManagedGPUReleasePods : OperationContext -> list Gpu.PodRef -> M S unit;
  LoadManagedGPUReleasePods : OperationContext -> M S (list Gpu.PodRef) }.
Record OperationStore := mkOperationStore {
  CurrentOperation : Work.Item -> M S OperationContext;
  AdvanceOperationStepCAS : StepTransition -> M S unit;
  RetryOperationStepCAS : StepTransition -> Z -> M S unit;
  SaveQuotaReservation : Quota.Reservation -> M S unit;
  SavePublication : Publication.Publication -> M S unit;
  SaveRuntimeObservation : OperationContext -> RuntimeObservation -> M S unit;
  as_atomic : option AtomicStepStore;
  as_model_store : option ModelObservationStore;
  as_gpu_store : option (OperationContext -> Gpu.Snapshot -> M S unit);
  as_scope_store : option ManagedGPUReleaseScopeStore }.

Record ModelPort := mkModelPort {
  EnsureModel : OperationContext -> M S ModelObservation;
  CleanupModel : OperationContext -> M S unit }.
Record RuntimePort := mkRuntimePort {
  ApplyCR : OperationContext -> M S unit;
  ApplyRuntime : OperationContext -> M S unit;
  ObserveRuntime : OperationContext -> M S RuntimeObservation;
  DeleteRuntime : OperationContext -> M S unit;
  ObserveAbsence : OperationContext -> M S RuntimeObservation;
  DeleteCR : OperationContext -> M S unit }.

(** [Now] is [time.Now().UTC().Format(time.RFC3339Nano)]; [RetryAfter] is in
    nanoseconds. *)
Record Runner := mkRunner {
  Store : OperationStore;
  Admission : option (OperationContext -> M S unit);
  Model : option ModelPort;
  GPU : option (OperationContext -> M S (option Gpu.Snapshot));
  QuotaPort : option (Quota.Port S);
  PublicationPort : option (Publication.Port S);
  Runtime : option RuntimePort;
  ManagedGPURelease : option (OperationContext -> M S unit);
  AuditSink : option (Audit.Event -> M S unit);
  RetryAfter : Z;
  Now : M S string }.

Definition missing {A} (what : string) : M S A := throw (errorf_after ErrOperationProviderMissing what).
Definition not_ready {A} (what : string) : M S A := throw (errorf_after ErrOperationNotReady what).
(** Use a provider, or fail because it is not configured. *)
Definition provider {P A} (p : option P) (what : string) (k : P -> M S A) : M S A :=
  match p with Some p => k p | None => missing what end.

Definition managedGPUReleaseScopeOperation (op : OperationContext) : OperationContext :=
  if bool_decide (ManagedGPUCreateOperationID op = "") then op
  else op <| ID := ManagedGPUCreateOperationID op |>.

Definition validateReservation (op : OperationContext) (r : Quota.Reservation) : result unit :=
  checkr (bool_decide (Quota.TenantID r = TenantID op) && bool_decide (Quota.ServiceID r = ServiceID op) &&
          bool_decide (Quota.OperationID r = ID op) &&
          bool_decide (Quota.Generation r = format_int (TargetGeneration op)) &&
          negb (bool_decide (Quota.ReservationID r = "")))
    (errorf "quota reservation identity does not match operation").

Definition retryAfter (r : Runner) : Z :=
  if RetryAfter r <=? 0 then 5000000000 else RetryAfter r.
Definition nextAfterQuota (op : OperationContext) : string := StepResolveGPU.

(** The reservation as it is written behind the lease of the current operation. *)
Definition fenced (op : OperationContext) (state code : string) (r : Quota.Reservation) : Quota.Reservation :=
  r <| Quota.State := state |> <| Quota.LeaseToken := LeaseToken op |>
    <| Quota.FenceOperationID := ID op |> <| Quota.LastErrorCode := code |>.
Definition fenced_publication (op : OperationContext) (state : string) (p : Publication.Publication)
    : Publication.Publication :=
  p <| Publication.State := state |> <| Publication.LeaseToken := LeaseToken op |>
    <| Publication.FenceOperationID := ID op |>.

(** Save what a failed provider call left behind and return the errors of both:
    [errors.Join(err, save)]; [if saveErr != nil { Join } else { err }]. *)
Definition fail_joined {A} (e : goerr) (save : M S unit) : M S A :=
  saved ← try save;
  match saved with Ok _ => throw (EJoin [e]) | Err e' => throw (EJoin [e; e']) end.
Definition fail_after {A} (e : goerr) (save : M S unit) : M S A :=
  saved ← try save;
  match saved with Ok _ => throw e | Err e' => throw (EJoin [e; e']) end.

(** ** Steps, one per case of [runStep] *)
Definition step_admission (r : Runner) (op : OperationContext) : M S stepResult :=
  provider (Admission r) "admission" (fun accept =>
  _ ← accept op;
  mret (next_step StepReserveQuota "admission.accepted")).

(** The reservation to go on with, and whether it was recovered from the
    authority: a reservation that is not yet reserved is looked up first. *)
Definition recover_reservation (q : Quota.Port S) (op : OperationContext) (r : Quota.Reservation)
    : M S (Quota.Reservation * bool) :=
  if bool_decide (Quota.State r = "reserved") then mret (r, false) else
  found ← try (Quota.Get q (Quota.TenantID r) (Quota.ReservationID r));
  match found with
  | Ok remote =>
      if bool_decide (Quota.ReservationID remote = "") then mret (r, false)
      else _ ← lift (validateReservation op remote); mret (remote, true)
  | Err e =>
      if errors_is e "quota.ErrReservationNotFound" then mret (r, false) else throw e
  end.

Definition confirm_reserved (r : Runner) (q : Quota.Port S) (op : OperationContext)
    (res : Quota.Reservation) : M S Quota.Reservation :=
  confirmed ← try (Quota.Confirm q res);
  match confirmed with
  | Ok _ => mret res
  | Err e => fail_joined e (SaveQuotaReservation (Store r)
               (fenced op (Quota.State res) "quota_confirm_failed" res))
  end.
Definition reserve_and_confirm (r : Runner) (q : Quota.Port S) (op : OperationContext)
    (res : Quota.Reservation) : M S Quota.Reservation :=
  res ← Quota.Reserve q res;
  _ ← lift (validateReservation op res);
  confirmed ← try (Quota.Confirm q res);
  match confirmed with
  | Ok _ => mret res
  | Err e => fail_after e (SaveQuotaReservation (Store r)
               (fenced op "reserved" "quota_confirm_failed" res))
  end.

Definition step_reserve_quota (r : Runner) (op : OperationContext) : M S stepResult :=
  let go event := mret (next_step (nextAfterQuota op) event) in
  if Managed op || ManagedGPU op then go "quota.governance_owned" else
  match QuotaPort r with
  | None => go "quota.skipped"
  | Some q =>
      let res := Reservation op in
      if bool_decide (Quota.ReservationID res = "") then throw (errorf "quota reservation is missing") else
      _ ← lift (validateReservation op res);
      if bool_decide (Quota.State res = "confirmed") then go "quota.already_confirmed" else
      '(res, recovered) ← recover_reservation q op res;
      if bool_decide (Quota.State res = "confirmed") then
        _ ← (if (recovered : bool) then SaveQuotaReservation (Store r) (fenced op (Quota.State res) "" res)
             else mret tt);
        go "quota.recovered_confirmed"
      else
        res ← (if bool_decide (Quota.State res = "reserved") then confirm_reserved r q op res
               else reserve_and_confirm r q op res);
        _ ← SaveQuotaReservation (Store r) (fenced op "confirmed" "" res);
        go "quota.confirmed"
  end.

(** [fmt.Errorf("<what>: %w", err)]. *)
Definition wrapped {A} (what : string) (r : result A) : M S A :=
  match r with Ok a => mret a | Err e => throw (errorf_before what e) end.
Definition check_topology (op : OperationContext) : M S unit :=
  wrapped "validate GPU request"
    (Gpu.ValidateTopology (GPURequest op) (Replicas op) (RuntimeMode op) (WorkerReplicas op)).

Definition step_resolve_gpu (r : Runner) (op : OperationContext) : M S stepResult :=
  let go event := mret (next_step StepApplyCR event) in
  match GPURequest op with
  | None => if ManagedGPU op then throw (errorf "managed GPU operation has no frozen GPU request")
            else go "gpu.skipped"
  | Some request =>
      _ ← check_topology op;
      match GPUSnapshot op with
      | Some plan =>
          _ ← wrapped "validate persisted GPU plan" (Gpu.ValidateSnapshot (Some plan) (Some request));
          go "gpu.reused"
      | None =>
          if ManagedGPU op then throw (errorf "managed GPU operation has no frozen Governance plan") else
          provider (GPU r) "GPU resolver" (fun resolve =>
          provider (as_gpu_store (Store r)) "GPU plan store" (fun save =>
          plan ← resolve op;
          _ ← check_topology op;
          plan ← wrapped "validate resolved GPU plan" (Gpu.ValidateSnapshot plan (Some request));
          _ ← save op plan;
          go "gpu.resolved"))
      end
  end.

Definition step_release_previous_quota (r : Runner) (op : OperationContext) : M S stepResult :=
  let go event := mret (next_step StepReserveQuota event) in
  if Managed op || ManagedGPU op then go "previous_quota.governance_owned" else
  match QuotaPort r with
  | None => go "previous_quota.skipped"
  | Some q =>
      let res := PreviousReservation op in
      if bool_decide (Quota.ReservationID res = "") then go "previous_quota.none" else
      released ← try (Quota.Release q res);
      match released with
      | Err e => fail_joined e (SaveQuotaReservation (Store r)
                   (fenced op "release_pending" "quota_release_failed" res))
      | Ok _ =>
          _ ← SaveQuotaReservation (Store r) (fenced op "released" "" res);
          go "previous_quota.released"
      end
  end.

Definition step_apply_cr (r : Runner) (op : OperationContext) : M S stepResult :=
  provider (Runtime r) "runtime" (fun rt =>
  _ ← ApplyCR rt op; mret (next_step StepMaterializeModel "cr.applied")).

Definition step_materialize_model (r : Runner) (op : OperationContext) : M S stepResult :=
  provider (Model r) "model" (fun model =>
  provider (as_model_store (Store r)) "model observation store" (fun store =>
  _ ← MarkModelMaterializing store op;
  observation ← EnsureModel model op;
  if negb (Known observation) || negb (MO_Ready observation) then
    not_ready ("model materialization: " +:+ MO_Reason observation)
  else
    _ ← SaveModelObservation store op observation;
    mret (next_step StepApplyRuntime "model.materialized"))).

Definition step_apply_runtime (r : Runner) (op : OperationContext) : M S stepResult :=
  provider (Runtime r) "runtime" (fun rt =>
  _ ← ApplyRuntime rt op; mret (next_step StepObserveRuntime "runtime.apply_requested")).

(** Run an action of the scope store when the store has that capability. *)
Definition with_scope_store {A} (r : Runner) (default : A)
    (k : ManagedGPUReleaseScopeStore -> M S A) : M S A :=
  match as_scope_store (Store r) with Some store => k store | None => mret default end.

Definition step_observe_runtime (r : Runner) (op : OperationContext) : M S stepResult :=
  provider (Runtime r) "runtime" (fun rt =>
  observation ← ObserveRuntime rt op;
  _ ← SaveRuntimeObservation (Store r) op observation;
  _ ← (if ManagedGPU op && negb (bool_decide (ReleasePods observation = [])) then
         with_scope_store r tt (fun store =>
           SaveManagedGPUReleasePods store (managedGPUReleaseScopeOperation op) (ReleasePods observation))
       else mret tt);
  if negb (Ready observation) || negb (ModelReadyKnown observation) || negb (ModelReady observation) then
    not_ready ("runtime/model: " +:+ RO_Reason observation)
  else mret (next_step StepPublish "runtime.ready")).

Definition step_withdraw_publication (r : Runner) (op : OperationContext) : M S stepResult :=
  provider (PublicationPort r) "publication" (fun port =>
  let withdrawing := fenced_publication op "withdrawing" (Pub op) in
  _ ← SavePublication (Store r) withdrawing;
  _ ← Publication.Withdraw port withdrawing;
  confirmed ← Publication.ConfirmWithdrawn port withdrawing;
  if negb confirmed then not_ready "publication withdrawal" else
  _ ← SavePublication (Store r) (fenced_publication op "withdrawn" withdrawing);
  mret (next_step StepDeleteRuntime "publication.withdrawn")).

Definition step_delete_runtime (r : Runner) (op : OperationContext) : M S stepResult :=
  provider (Runtime r) "runtime" (fun rt =>
  _ ← DeleteRuntime rt op; mret (next_step StepObserveAbsence "runtime.delete_requested")).

Definition load_scope (r : Runner) (op : OperationContext) : M S OperationContext :=
  with_scope_store r op (fun store =>
    pods ← LoadManagedGPUReleasePods store (managedGPUReleaseScopeOperation op);
    mret (op <| ManagedGPUReleasePods := pods |>)).

Definition after_absence (kind : string) : string :=
  if bool_decide (kind = "delete") then StepDeleteCR
  else if bool_decide (kind = "stop") then StepReleaseQuota
  else if bool_decide (kind = "update") || bool_decide (kind = "restart") then StepReleasePreviousQuota
  else StepReserveQuota.

Definition step_observe_absence (r : Runner) (op : OperationContext) : M S stepResult :=
  provider (Runtime r) "runtime" (fun rt =>
  observation ← ObserveAbsence rt op;
  _ ← SaveRuntimeObservation (Store r) op observation;
  op ← (if ManagedGPU op && (negb (bool_decide (ReleasePods observation = [])) || Absent observation) then
          with_scope_store r op (fun store =>
            op ← (if Absent observation && bool_decide (ManagedGPUReleaseSealedAt op = "") then
                    now ← Now r; mret (op <| ManagedGPUReleaseSealedAt := now |>)
                  else mret op);
            _ ← SaveManagedGPUReleasePods store (managedGPUReleaseScopeOperation op) (ReleasePods observation);
            mret op)
        else mret op);
  op ← (if ManagedGPU op && bool_decide (ManagedGPUReleasePods op = []) then load_scope r op else mret op);
  if negb (Absent observation) then not_ready ("runtime deletion: " +:+ RO_Reason observation)
  else mret (next_step (after_absence (Kind op)) "runtime.absent")).

Definition step_delete_cr (r : Runner) (op : OperationContext) : M S stepResult :=
  provider (Runtime r) "runtime" (fun rt =>
  provider (Model r) "model" (fun model =>
  _ ← DeleteCR rt op;
  _ ← CleanupModel model op;
  mret (next_step StepReleaseQuota "cr.deleted"))).

Definition resolve_endpoint (port : Publication.Port S) (p : Publication.Publication)
    : M S Publication.Publication :=
  match Publication.as_resolver port with
  | None => mret p
  | Some endpoint =>
      url ← endpoint p;
      if bool_decide (url = "") then throw (errorf "published endpoint is empty")
      else mret (p <| Publication.URL := url |>)
  end.

Definition step_publish (r : Runner) (op : OperationContext) : M S stepResult :=
  provider (PublicationPort r) "publication" (fun port =>
  let publishing := fenced_publication op "publishing" (Pub op) in
  _ ← SavePublication (Store r) publishing;
  _ ← Publication.Publish port publishing;
  confirmed ← Publication.ConfirmPublished port publishing;
  if negb confirmed then not_ready "publication" else
  published ← resolve_endpoint port publishing;
  _ ← SavePublication (Store r) (fenced_publication op "published" published);
  mret (completed "publication.published")).

Definition release_managed_gpu (r : Runner) (op : OperationContext) : M S stepResult :=
  provider (ManagedGPURelease r) "managed GPU release" (fun release =>
  op ← (if bool_decide (ManagedGPUReleasePods op = []) then load_scope r op else mret op);
  _ ← release op;
  mret (completed "quota.governance_released")).

Definition step_release_quota (r : Runner) (op : OperationContext) : M S stepResult :=
  if ManagedGPU op && bool_decide (Kind op = "delete") then release_managed_gpu r op
  else if Managed op || ManagedGPU op then mret (completed "quota.governance_owned")
  else
    let res := Reservation op in
    if bool_decide (Quota.ReservationID res = "") then mret (completed "quota.none")
    else if bool_decide (Kind op = "delete") && bool_decide (Quota.State res = "pending") &&
            has_prefix (Quota.ReservationID res) "pending-" then
      _ ← SaveQuotaReservation (Store r) (fenced op "released" "" res);
      mret (completed "quota.pending_cancelled")
    else match QuotaPort r with
    | None => mret (completed "quota.skipped")
    | Some q =>
        released ← try (Quota.Release q res);
        match released with
        | Err e => fail_after e (SaveQuotaReservation (Store r)
                     (fenced op "release_pending" "quota_release_failed" res))
        | Ok _ =>
            _ ← SaveQuotaReservation (Store r) (fenced op "released" "" res);
            mret (completed "quota.released")
        end
    end.

Definition runStep (r : Runner) (op : OperationContext) : M S stepResult :=
  let at_step step := bool_decide (Step op = step) in
  if at_step StepAdmission then step_admission r op
  else if at_step StepReserveQuota then step_reserve_quota r op
  else if at_step StepResolveGPU then step_resolve_gpu r op
  else if at_step StepReleasePreviousQuota then step_release_previous_quota r op
  else if at_step StepApplyCR then step_apply_cr r op
  else if at_step StepMaterializeModel then step_materialize_model r op
  else if at_step StepApplyRuntime then step_apply_runtime r op
  else if at_step StepObserveRuntime then step_observe_runtime r op
  else if at_step StepWithdrawPublication then step_withdraw_publication r op
  else if at_step StepDeleteRuntime then step_delete_runtime r op
  else if at_step StepObserveAbsence then step_observe_absence r op
  else if at_step StepDeleteCR then step_delete_cr r op
  else if at_step StepPublish then step_publish r op
  else if at_step StepReleaseQuota then step_release_quota r op
  else throw (errorf ("unsupported operation step " +:+ quoted (Step op))).

(** ** Transitions *)
Definition operationEventID (op : OperationContext) (phase step : string) : string :=
  uuid_string (uuid_sha1_oid
    (ID op +:+ "|" +:+ phase +:+ "|" +:+ step +:+ "|" +:+ format_int (Attempt op))).
Definition operationState (phase step message : string) : Schema.doc :=
  [("phase", phase); ("step", step); ("message", message)].

Definition transition_event (op : OperationContext) (phase step event message : string) : Audit.Event :=
  Audit.mkEvent (TenantID op) (operationEventID op phase step) (ServiceID op) (ID op)
    (TargetGeneration op) ("inference.operation." +:+ event) (Actor op) (RequestID op)
    (operationState (Phase op) (Step op) "") (operationState phase step message)
    [("step", step); ("event", event)].

Definition transition (r : Runner) (op : OperationContext) (phase step event message : string) : M S unit :=
  let auditEvent := transition_event op phase step event message in
  let tr := mkStepTransition (TenantID op) (ID op) (Kind op) (LeaseToken op) (TargetGeneration op)
              (Phase op) (Step op) phase step "" message in
  match as_atomic (Store r) with
  | Some atomic => AdvanceOperationStepCASWithAudit atomic tr auditEvent
  | None =>
      provider (AuditSink r) "audit" (fun append =>
      _ ← append auditEvent;
      AdvanceOperationStepCAS (Store r) tr)
  end.

Definition retry_event (op : OperationContext) (cause : goerr) : Audit.Event :=
  Audit.mkEvent (TenantID op) (operationEventID op OperationPending (Step op)) (ServiceID op) (ID op)
    (TargetGeneration op) "inference.operation.step.retry" (Actor op) (RequestID op)
    (operationState (Phase op) (Step op) "")
    (operationState OperationPending (Step op) (error_text cause))
    [("step", Step op); ("error", error_text cause)].

(** [retry] returns the error the caller reports. *)
Definition retry (r : Runner) (op : OperationContext) (cause : goerr) : M S goerr :=
  let tr := mkStepTransition (TenantID op) (ID op) (Kind op) (LeaseToken op) (TargetGeneration op)
              (Phase op) (Step op) "" "" "provider_retry" (error_text cause) in
  let joined e := EJoin [cause; e] in
  done ← try (match as_atomic (Store r) with
    | Some atomic => RetryOperationStepCASWithAudit atomic tr (retryAfter r) (retry_event op cause)
    | None =>
        provider (AuditSink r) "audit" (fun append =>
        _ ← append (retry_event op cause);
        RetryOperationStepCAS (Store r) tr (retryAfter r))
    end);
  match done with Ok _ => mret cause | Err e => mret (joined e) end.

Definition validate (item : Work.Item) : result unit :=
  checkr (negb (Reconcile.item_incomplete item)) Work.ErrStaleGeneration.

Definition fail_retry {A} (r : Runner) (op : OperationContext) (e : goerr) : M S A :=
  e' ← retry r op e; throw e'.

(** Take a pending operation; the context to run with. *)
Definition take (r : Runner) (op : OperationContext) : M S OperationContext :=
  if bool_decide (Phase op = OperationPending) then
    claimed ← try (transition r op OperationRunning (Step op) "claimed" "");
    match claimed with
    | Err e => fail_retry r op e
    | Ok _ => mret (op <| Phase := OperationRunning |>)
    end
  else mret op.

Definition run_and_advance (r : Runner) (op : OperationContext) : M S unit :=
  next ← try (runStep r op);
  match next with
  | Err e => fail_retry r op e
  | Ok next =>
      moved ← try (transition r op (sr_phase next) (sr_step next) (sr_event next) (sr_errorMessage next));
      match moved with Err e => fail_retry r op e | Ok _ => mret tt end
  end.

Definition execute_active (r : Runner) (item : Work.Item) (op : OperationContext) : M S Work.Result :=
  op ← take r op;
  _ ← run_and_advance r op;
  mret (Work.mkResult (Work.Generation item)).

Definition Execute (r : Runner) (item : Work.Item) : M S Work.Result :=
  _ ← lift (validate item);
  op ← CurrentOperation (Store r) item;
  if negb (bool_decide (TenantID op = Work.TenantID item)) ||
     negb (bool_decide (ServiceID op = Work.ServiceID item)) ||
     negb (TargetGeneration op =? Work.Generation item) || bool_decide (ID op = "") then
    throw Work.ErrStaleGeneration
  else
  let op := op <| LeaseToken := Work.LeaseToken item |> in
  if bool_decide (Phase op = OperationSucceeded) || bool_decide (Phase op = OperationFailed) then
    mret (Work.mkResult (Work.Generation item))
  else if negb (bool_decide (Phase op = OperationPending)) && negb (bool_decide (Phase op = OperationRunning)) then
    throw (errorf ("unsupported operation phase " +:+ quoted (Phase op)))
  else execute_active r item op.

(** ** Steps follow the path of their kind *)

(** What a step that succeeds asks for. *)
Definition step_target (kind step : string) : option op_state :=
  let at_step x := bool_decide (step = x) in
  if at_step StepAdmission then Some (OperationRunning, StepReserveQuota)
  else if at_step StepReserveQuota then Some (OperationRunning, StepResolveGPU)
  else if at_step StepResolveGPU then Some (OperationRunning, StepApplyCR)
  else if at_step StepReleasePreviousQuota then Some (OperationRunning, StepReserveQuota)
  else if at_step StepApplyCR then Some (OperationRunning, StepMaterializeModel)
  else if at_step StepMaterializeModel then Some (OperationRunning, StepApplyRuntime)
  else if at_step StepApplyRuntime then Some (OperationRunning, StepObserveRuntime)
  else if at_step StepObserveRuntime then Some (OperationRunning, StepPublish)
  else if at_step StepWithdrawPublication then Some (OperationRunning, StepDeleteRuntime)
  else if at_step StepDeleteRuntime then Some (OperationRunning, StepObserveAbsence)
  else if at_step StepObserveAbsence then Some (OperationRunning, after_absence kind)
  else if at_step StepDeleteCR then Some (OperationRunning, StepReleaseQuota)
  else if at_step StepPublish then Some (OperationSucceeded, StepComplete)
  else if at_step StepReleaseQuota then Some (OperationSucceeded, StepComplete)
  else None.

Lemma yields_provider {P A} (Q : A -> Prop) (p : option P) what (k : P -> M S A) :
  (∀ p, yields Q (k p)) -> yields Q (provider p what k).
Proof. intros H. unfold provider, missing. yields. apply H. Qed.
Lemma yields_fail_after {A} (Q : A -> Prop) e save : yields Q (fail_after e save : M S A).
Proof. unfold fail_after. yields. Qed.
Lemma yields_fail_joined {A} (Q : A -> Prop) e save : yields Q (fail_joined e save : M S A).
Proof. unfold fail_joined. yields. Qed.

Lemma runStep_target r op :
  yields (fun n => step_target (Kind op) (Step op) = Some (sr_phase n, sr_step n)) (runStep r op).
Proof.
  unfold runStep, step_target. cbv zeta. repeat case_bool_decide;
    unfold step_admission, step_reserve_quota, step_resolve_gpu, step_release_previous_quota,
      step_apply_cr, step_materialize_model, step_apply_runtime, step_observe_runtime,
      step_withdraw_publication, step_delete_runtime, step_delete_cr, step_publish,
      step_release_quota, release_managed_gpu, not_ready;
    try (yields; repeat (apply yields_provider; yields); try apply yields_fail_after;
         try apply yields_fail_joined; done).
  (* observe_absence: the kind of the operation does not change on the way *)
  unfold step_observe_absence, not_ready, load_scope, with_scope_store.
  apply yields_provider. intros rt. apply yields_bind. intros observation. apply yields_bind. intros _.
  apply yields_bind_with with (Q := fun op' => Kind op' = Kind op).
  { destruct (_ && _); [|by apply yields_ret]. destruct (as_scope_store _); [|by apply yields_ret].
    apply yields_bind_with with (Q := fun op' => Kind op' = Kind op); yields; done. }
  intros op1 Hop1. apply yields_bind_with with (Q := fun op' => Kind op' = Kind op).
  { yields; done. }
  intros op2 Hop2. yields. by rewrite Hop2.
Qed.

Lemma step_target_edge kind path step st :
  operationPaths kind = Some path -> step ∈ path -> step_target kind step = Some st ->
  ValidateOperationStepTransition kind OperationRunning step st.1 st.2 = Ok tt.
Proof.
  assert (Hall : Forall (fun kind => match operationPaths kind with
    | None => True
    | Some path => Forall (fun step => match step_target kind step with
        | None => True
        | Some st => ValidateOperationStepTransition kind OperationRunning step st.1 st.2 = Ok tt
        end) path
    end) ["create"; "update"; "start"; "stop"; "restart"; "delete"])
    by (repeat constructor).
  intros Hp Hin Ht.
  assert (Hk : kind ∈ ["create"; "update"; "start"; "stop"; "restart"; "delete"]).
  { apply dec_stable. intros Hk. rewrite !not_elem_of_cons in Hk. destruct_and! Hk.
    unfold operationPaths in Hp. by rewrite !bool_decide_false in Hp. }
  rewrite Forall_forall in Hall. specialize (Hall kind Hk). rewrite Hp, Forall_forall in Hall.
  specialize (Hall step Hin). by rewrite Ht in Hall.
Qed.

(** Claim C30.  A step of the runner that succeeds always asks for the
    transition its operation kind allows next: for every kind and every step of
    its path, the result passes the guard the store applies to it. *)
Theorem runStep_follows_path r op path s n s' :
  operationPaths (Kind op) = Some path -> Step op ∈ path ->
  runStep r op s = (Ok n, s') ->
  ValidateOperationStepTransition (Kind op) OperationRunning (Step op) (sr_phase n) (sr_step n) = Ok tt.
Proof.
  intros Hp Hin H. apply runStep_target in H.
  by apply (step_target_edge _ _ _ _ Hp Hin H).
Qed.

(** ** Reserve is only called when nothing is known to be reserved *)
Definition replace_reserve (f : Quota.Reservation -> M S Quota.Reservation) (r : Runner) : Runner :=
  mkRunner (Store r) (Admission r) (Model r) (GPU r)
    ((fun q => Quota.mkPort f (Quota.Confirm q) (Quota.Release q) (Quota.Get q)) <$> QuotaPort r)
    (PublicationPort r) (Runtime r) (ManagedGPURelease r) (AuditSink r) (RetryAfter r) (Now r).

(** The reservation may already exist at the quota authority. *)
Definition may_be_reserved (q : Quota.Port S) (res : Quota.Reservation) (s : S) : Prop :=
  Quota.State res = "reserved" ∨ Quota.State res = "confirmed" ∨
  (∃ e u, Quota.Get q (Quota.TenantID res) (Quota.ReservationID res) s = (Err e, u) ∧
          errors_is e "quota.ErrReservationNotFound" = false) ∨
  (∃ remote u, Quota.Get q (Quota.TenantID res) (Quota.ReservationID res) s = (Ok remote, u) ∧
          Quota.ReservationID remote ≠ "" ∧
          (Quota.State remote = "reserved" ∨ Quota.State remote = "confirmed")).

(** Quota is never reserved twice.  When the durable reservation is
    already reserved or confirmed, when the authority reports it as reserved or
    confirmed, or when the lookup fails with anything but not-found, the
    reserve_quota step runs the same whatever Reserve would do: it is not
    called. *)
Theorem reserve_not_repeated f r q op s :
  QuotaPort r = Some q -> may_be_reserved q (Reservation op) s ->
  step_reserve_quota (replace_reserve f r) op s = step_reserve_quota r op s.
Proof.
  intros Hq Hknown. unfold step_reserve_quota, replace_reserve. cbn [QuotaPort Store fmap option_fmap option_map].
  rewrite Hq. destruct (Managed op || ManagedGPU op); [done|].
  cbn [fmap option_fmap option_map]. case_bool_decide as Hid; [done|].
  unfold mbind, M_bind, lift. destruct (validateReservation op (Reservation op)); [|done].
  case_bool_decide as Hc; [done|].
  unfold recover_reservation. cbn [Quota.Get].
  case_bool_decide as Hr.
  - cbn. by rewrite Hr.
  - unfold mbind, M_bind, try.
    destruct Hknown as [?|[?|[(e & u & -> & He)|(remote & u & -> & Hne & Hs)]]]; [done..| |].
    + by rewrite He.
    + rewrite (bool_decide_false _ Hne). unfold lift, mbind, M_bind.
      destruct (validateReservation op remote); [|done]. cbn.
      destruct Hs as [-> | ->]; cbn; reflexivity.
Qed.

(** ** The step store interface

    What the runner needs from an atomic operation store, for one operation of
    kind [kind] whose persisted phase and step are [abs s]: loading shows the
    persisted state; an advance that reports success moved it from the expected
    state to the next one and the guard allows that; one that reports an error
    either did nothing or its answer was lost; a retry puts an active operation
    back to pending at its step, or does nothing. *)
Definition same_abs (abs : S -> op_state) : relation S := fun s t => abs t = abs s.
#[global] Instance same_abs_preorder abs : PreOrder (same_abs abs).
Proof. split; [done|]. intros a b c H1 H2. unfold same_abs in *. congruence. Qed.

Definition advances (kind : string) (tr : StepTransition) (st st' : op_state) : Prop :=
  st = (ExpectedPhase tr, ExpectedStep tr) ∧ st' = (NextPhase tr, NextStep tr) ∧
  ValidateOperationStepTransition kind (ExpectedPhase tr) (ExpectedStep tr)
    (NextPhase tr) (NextStep tr) = Ok tt.

Class StepStore (store : OperationStore) (atomic : AtomicStepStore) (kind : string)
    (abs : S -> op_state) := {
  ss_atomic : as_atomic store = Some atomic;
  (** Transitions of this operation, and those of any other. *)
  ss_own : StepTransition -> Prop;
  ss_foreign : StepTransition -> Prop;
  (** The persisted operation is of kind [kind]. *)
  ss_kind : S -> Prop;
  ss_current item s op s' : ss_kind s -> CurrentOperation store item s = (Ok op, s') ->
    ((∀ tr, ST_TenantID tr = TenantID op -> ST_OperationID tr = ID op ->
        ST_Kind tr = Kind op -> ss_own tr) ∧ (Phase op, Step op) = abs s ∧ Kind op = kind) ∨
    (∀ tr, ST_TenantID tr = TenantID op -> ST_OperationID tr = ID op -> ss_foreign tr);
  ss_current_frame item : moves (same_abs abs) (CurrentOperation store item);
  ss_advance tr ev s r s' : ss_own tr ->
    AdvanceOperationStepCASWithAudit atomic tr ev s = (r, s') ->
    advances kind tr (abs s) (abs s') ∨ (abs s' = abs s ∧ is_ok r = false);
  ss_retry tr after ev s r s' : ss_own tr ->
    RetryOperationStepCASWithAudit atomic tr after ev s = (r, s') ->
    abs s' = abs s ∨
    (abs s = (ExpectedPhase tr, ExpectedStep tr) ∧ abs s' = (OperationPending, ExpectedStep tr));
  ss_advance_foreign tr ev : ss_foreign tr ->
    moves (same_abs abs) (AdvanceOperationStepCASWithAudit atomic tr ev);
  ss_retry_foreign tr after ev : ss_foreign tr ->
    moves (same_abs abs) (RetryOperationStepCASWithAudit atomic tr after ev);
}.

(** The parts outside the operation store stay within [R]. *)
Record port_frames (r : Runner) (R : relation S) : Prop := {
  fr_now : moves R (Now r);
  fr_admission : ∀ f op, Admission r = Some f -> moves R (f op);
  fr_resolver : ∀ f op, GPU r = Some f -> moves R (f op);
  fr_release : ∀ f op, ManagedGPURelease r = Some f -> moves R (f op);
  fr_ensure : ∀ m op, Model r = Some m -> moves R (EnsureModel m op);
  fr_cleanup : ∀ m op, Model r = Some m -> moves R (CleanupModel m op);
  fr_runtime : ∀ m op, Runtime r = Some m ->
    moves R (ApplyCR m op) ∧ moves R (ApplyRuntime m op) ∧
    moves R (ObserveRuntime m op) ∧ moves R (DeleteRuntime m op) ∧
    moves R (ObserveAbsence m op) ∧ moves R (DeleteCR m op);
  fr_quota_port : ∀ q x y z, QuotaPort r = Some q ->
    moves R (Quota.Reserve q x) ∧ moves R (Quota.Confirm q x) ∧
    moves R (Quota.Release q x) ∧ moves R (Quota.Get q y z);
  fr_publication_port : ∀ q x, PublicationPort r = Some q ->
    moves R (Publication.Withdraw q x) ∧
    moves R (Publication.ConfirmWithdrawn q x) ∧
    moves R (Publication.Publish q x) ∧
    moves R (Publication.ConfirmPublished q x) ∧
    ∀ f, Publication.as_resolver q = Some f -> moves R (f x);
}.
(** Everything else a step calls leaves the operation row alone. *)
Record frames (r : Runner) (abs : S -> op_state) : Prop := {
  fr_quota : ∀ x, moves (same_abs abs) (SaveQuotaReservation (Store r) x);
  fr_publication : ∀ x, moves (same_abs abs) (SavePublication (Store r) x);
  fr_observation : ∀ op x, moves (same_abs abs) (SaveRuntimeObservation (Store r) op x);
  fr_model_mark : ∀ m op, as_model_store (Store r) = Some m ->
    moves (same_abs abs) (MarkModelMaterializing m op);
  fr_model_save : ∀ m op x, as_model_store (Store r) = Some m ->
    moves (same_abs abs) (SaveModelObservation m op x);
  fr_gpu : ∀ save op x, as_gpu_store (Store r) = Some save -> moves (same_abs abs) (save op x);
  fr_scope_save : ∀ m op x, as_scope_store (Store r) = Some m ->
    moves (same_abs abs) (SaveManagedGPUReleasePods m op x);
  fr_scope_load : ∀ m op, as_scope_store (Store r) = Some m ->
    moves (same_abs abs) (LoadManagedGPUReleasePods m op);
  fr_ports : port_frames r (same_abs abs);
}.

Lemma port_frames_weaken r (R R' : relation S) :
  (∀ s t, R s t -> R' s t) -> port_frames r R -> port_frames r R'.
Proof.
  intros HR Hp. assert (Hw : ∀ A (c : M S A), moves R c -> moves R' c).
  { intros A c. by apply moves_weaken. }
  destruct Hp as [? ? ? ? ? ? Hrt Hq Hpub]. split; eauto.
  - intros m op (? & ? & ? & ? & ? & ?)%(λ H, Hrt m op H). split_and!; auto.
  - intros q x y z (? & ? & ? & ?)%(λ H, Hq q x y z H). split_and!; auto.
  - intros q x (? & ? & ? & ? & ?)%(λ H, Hpub q x H). split_and!; eauto.
Qed.

Section Simulation.
Context (r : Runner) (atomic : AtomicStepStore) (kind : string)
  (abs : S -> op_state) `{Hst : !StepStore (Store r) atomic kind abs} (Hfr : frames r abs).

Lemma moves_provider {P A} (p : option P) what (k : P -> M S A) :
  (∀ x, p = Some x -> moves (same_abs abs) (k x)) -> moves (same_abs abs) (provider p what k).
Proof. intros H. unfold provider, missing. destruct p; [by apply H|]. moves. Qed.
Lemma moves_wrapped {A} what (x : result A) : moves (same_abs abs) (wrapped what x).
Proof. unfold wrapped. moves. Qed.

#[local] Hint Resolve moves_wrapped : moves.
Lemma moves_quota q : QuotaPort r = Some q -> ∀ x y z,
  moves (same_abs abs) (Quota.Reserve q x) ∧ moves (same_abs abs) (Quota.Confirm q x) ∧
  moves (same_abs abs) (Quota.Release q x) ∧ moves (same_abs abs) (Quota.Get q y z).
Proof. intros. by apply (fr_quota_port _ _ (fr_ports _ _ Hfr)). Qed.

(** Proves a frame by unfolding to the ports. *)
Ltac frame :=
  repeat first
    [ progress moves
    | match goal with |- moves _ (provider _ _ _) => apply moves_provider; intros ? ? end
    | solve [ eapply (fr_quota _ _ Hfr) | eapply (fr_publication _ _ Hfr)
            | eapply (fr_observation _ _ Hfr) | eapply (fr_now _ _ (fr_ports _ _ Hfr)) ]
    | solve [ eapply (fr_model_mark _ _ Hfr); eassumption
            | eapply (fr_model_save _ _ Hfr); eassumption
            | eapply (fr_gpu _ _ Hfr); eassumption
            | eapply (fr_scope_save _ _ Hfr); eassumption
            | eapply (fr_scope_load _ _ Hfr); eassumption
            | eapply (fr_admission _ _ (fr_ports _ _ Hfr)); eassumption
            | eapply (fr_resolver _ _ (fr_ports _ _ Hfr)); eassumption
            | eapply (fr_release _ _ (fr_ports _ _ Hfr)); eassumption
            | eapply (fr_ensure _ _ (fr_ports _ _ Hfr)); eassumption
            | eapply (fr_cleanup _ _ (fr_ports _ _ Hfr)); eassumption ]
    | match goal with
      | H : Runtime r = Some ?m |- moves _ (?f ?m ?op) =>
          pose proof (fr_runtime _ _ (fr_ports _ _ Hfr) m op H) as (? & ? & ? & ? & ? & ?); assumption
      | H : QuotaPort r = Some ?q |- moves _ (Quota.Get ?q ?y ?z) =>
          exact (proj2 (proj2 (proj2 (moves_quota q H Quota.none y z))))
      | H : QuotaPort r = Some ?q |- moves _ (_ ?q ?x) =>
          pose proof (moves_quota q H x "" "") as (? & ? & ? & ?); assumption
      | H : PublicationPort r = Some ?q |- moves _ (_ ?q ?x) =>
          pose proof (fr_publication_port _ _ (fr_ports _ _ Hfr) q x H) as (? & ? & ? & ? & ?); assumption
      end ].

Lemma moves_runStep op : moves (same_abs abs) (runStep r op).
Proof.
  unfold runStep. cbv zeta. repeat case_bool_decide;
    unfold step_admission, step_reserve_quota, step_resolve_gpu, step_release_previous_quota,
      step_apply_cr, step_materialize_model, step_apply_runtime, step_observe_runtime,
      step_withdraw_publication, step_delete_runtime, step_observe_absence, step_delete_cr,
      step_publish, step_release_quota, release_managed_gpu, not_ready, check_topology,
      recover_reservation, confirm_reserved, reserve_and_confirm, fail_joined, fail_after,
      resolve_endpoint, load_scope, with_scope_store.
  all: frame.
  eapply (fr_publication_port _ _ (fr_ports _ _ Hfr)); eassumption.
Qed.

(** The transitions of a context that belongs to this operation. *)
Definition own (op : OperationContext) : Prop :=
  Kind op = kind ∧ ∀ tr, ST_TenantID tr = TenantID op -> ST_OperationID tr = ID op ->
    ST_Kind tr = Kind op -> ss_own tr.

Lemma transition_effect op phase step event message s res s' :
  own op -> transition r op phase step event message s = (res, s') ->
  (abs s = (Phase op, Step op) ∧ abs s' = (phase, step) ∧
   ValidateOperationStepTransition kind (Phase op) (Step op) phase step = Ok tt) ∨
  (abs s' = abs s ∧ is_ok res = false).
Proof.
  intros [Hk Ho]. unfold transition. rewrite (ss_atomic (kind := kind) (abs := abs)).
  intros H. eapply (ss_advance (kind := kind) (abs := abs)) in H; [exact H|]. by apply Ho.
Qed.

Lemma fail_retry_effect {A} op e s (res : result A) s' :
  own op -> fail_retry r op e s = (res, s') -> is_ok res = false ∧
  (abs s' = abs s ∨ (abs s = (Phase op, Step op) ∧ abs s' = (OperationPending, Step op))).
Proof.
  intros [Hk Ho]. unfold fail_retry, retry. rewrite (ss_atomic (kind := kind) (abs := abs)). cbv zeta.
  unfold mbind, M_bind, try. destruct (RetryOperationStepCASWithAudit _ _ _ _ _) as [r1 s1] eqn:E.
  eapply (ss_retry (kind := kind) (abs := abs)) in E; [|by apply Ho]. cbn in E.
  destruct r1; cbn; unfold throw; intros H; simplify_eq; (split; [done|exact E]).
Qed.

(** The operation is still at step [x]. *)
Definition at_step (x : string) (st : op_state) : Prop :=
  st = (OperationPending, x) ∨ st = (OperationRunning, x).
(** The operation advanced past [x] because its step succeeded. *)
Definition stepped (x : string) (st : op_state) : Prop :=
  ∃ op u n u', Step op = x ∧ Kind op = kind ∧ runStep r op u = (Ok n, u') ∧
    st = (sr_phase n, sr_step n) ∧
    ValidateOperationStepTransition kind OperationRunning x (sr_phase n) (sr_step n) = Ok tt.

Lemma take_effect op s res s' :
  own op -> (Phase op, Step op) = abs s -> at_step (Step op) (abs s) ->
  take r op s = (res, s') ->
  at_step (Step op) (abs s') ∧
  (∀ op', res = Ok op' -> (Phase op', Step op') = (OperationRunning, Step op) ∧
     abs s' = (OperationRunning, Step op) ∧ own op').
Proof.
  intros Ho Ha Hat. unfold take. case_bool_decide as Hp.
  - unfold mbind, M_bind, try.
    destruct (transition r op _ _ _ _ s) as [r1 s1] eqn:E. apply transition_effect in E; [|done].
    assert (Hs1 : at_step (Step op) (abs s1)).
    { destruct E as [(_ & -> & _)|[-> _]]; [by right|done]. }
    destruct r1 as [[]|e].
    + intros [= <- <-]. split; [exact Hs1|]. intros op' [= <-]. simpl.
      destruct E as [(_ & E & _)|[_ ?]]; [split_and!; done|done].
    + intros H%fail_retry_effect; [|done]. destruct H as [Hno [Hs|[_ Hs]]]; rewrite Hs.
      * split; [done|]. by intros op' ->.
      * split; [by left|]. by intros op' ->.
  - intros [= <- <-]. split; [exact Hat|]. intros op' [= <-].
    destruct Hat as [Hat|Hat]; rewrite Hat in Ha |- *; simplify_eq/=; split_and!; done || congruence.
Qed.

Lemma run_and_advance_effect op s res s' :
  own op -> abs s = (OperationRunning, Step op) -> Phase op = OperationRunning ->
  run_and_advance r op s = (res, s') ->
  (at_step (Step op) (abs s') ∧ is_ok res = false) ∨ stepped (Step op) (abs s').
Proof.
  intros Ho Ha Hp. unfold run_and_advance. unfold mbind, M_bind, try.
  destruct (runStep r op s) as [r1 s1] eqn:E1.
  assert (Hs1 : abs s1 = (OperationRunning, Step op)).
  { rewrite <- Ha. pose proof (moves_runStep op s) as Hm. by rewrite E1 in Hm. }
  destruct r1 as [n|e].
  - destruct (transition r op _ _ _ _ s1) as [r2 s2] eqn:E2.
    apply transition_effect in E2; [|done]. rewrite Hp in E2.
    destruct E2 as [(_ & Hs2 & Hv)|[Hs2 Hno]].
    + assert (Hst2 : stepped (Step op) (abs s2)) by (exists op, s, n, s1; split_and!; try done; apply Ho).
      destruct r2 as [[]|e]; [intros [= <- <-]; by right|].
      intros H%fail_retry_effect; [|done]. destruct H as [Hno [Hs|[Hs Hs']]].
      * rewrite Hs. by right.
      * left. split; [|done]. rewrite Hs'. by left.
    + destruct r2 as [[]|e]; [done|]. intros H%fail_retry_effect; [|done]. left.
      destruct H as [Hno' [Hs|[_ Hs]]]; (split; [|done]); rewrite Hs, ?Hs2, ?Hs1; [by right|by left].
  - intros H%fail_retry_effect; [|done]. left.
    destruct H as [Hno [Hs|[_ Hs]]]; (split; [|done]); rewrite Hs, ?Hs1; [by right|by left].
Qed.

(** Contexts of other operations leave this one alone. *)
Definition foreign (op : OperationContext) : Prop :=
  ∀ tr, ST_TenantID tr = TenantID op -> ST_OperationID tr = ID op -> ss_foreign tr.
Lemma foreign_moves op :
  foreign op ->
  (∀ phase step event message, moves (same_abs abs) (transition r op phase step event message)) ∧
  (∀ A e, moves (same_abs abs) (fail_retry r op e : M S A)).
Proof.
  intros Hf. split.
  - intros. unfold transition. rewrite (ss_atomic (kind := kind) (abs := abs)).
    apply (ss_advance_foreign (kind := kind)). by apply Hf.
  - intros. unfold fail_retry, retry. rewrite (ss_atomic (kind := kind) (abs := abs)). cbv zeta. moves.
    apply (ss_retry_foreign (kind := kind)). by apply Hf.
Qed.
Lemma foreign_take op :
  foreign op -> moves (same_abs abs) (take r op) ∧ yields foreign (take r op).
Proof.
  intros Hf. destruct (foreign_moves op Hf) as [Ht Hr]. split.
  - unfold take. moves; auto.
  - unfold take. case_bool_decide; [|by apply yields_ret]. yields.
    + done.
    + unfold fail_retry. yields.
Qed.
Lemma foreign_run op : foreign op -> moves (same_abs abs) (run_and_advance r op).
Proof.
  intros Hf. destruct (foreign_moves op Hf) as [Ht Hr]. unfold run_and_advance.
  moves; auto using moves_runStep.
Qed.

Lemma foreign_active item op : foreign op -> moves (same_abs abs) (execute_active r item op).
Proof.
  intros Hf s. destruct (foreign_take op Hf) as [Ht Hy]. unfold execute_active, mbind, M_bind.
  specialize (Ht s). destruct (take r op s) as [[op'|e] u] eqn:E; [|exact Ht]. cbn in Ht.
  apply Hy in E. pose proof (foreign_run op' E u) as Hr.
  destruct (run_and_advance r op' u) as [[[]|e] v]; cbn in *; by etrans.
Qed.

(** What one execution does to the operation, whichever operation it loads. *)
Lemma Execute_effect item s res s' p x :
  ss_kind s -> abs s = (p, x) -> Execute r item s = (res, s') ->
  (abs s' = abs s ∨ at_step x (abs s') ∨ stepped x (abs s')) ∧
  (is_ok res = true -> at_step x (abs s) ->
   (∀ op s1, CurrentOperation (Store r) item s = (Ok op, s1) -> ~ foreign op) -> stepped x (abs s')) ∧
  (p = OperationSucceeded ∨ p = OperationFailed -> abs s' = abs s).
Proof.
  intros Hkind Ha. unfold Execute, mbind, M_bind, lift.
  destruct (validate item) as [[]|e]; [|intros [= <- <-]; naive_solver].
  destruct (CurrentOperation (Store r) item s) as [[op|e] s1] eqn:Ec;
    pose proof (ss_current_frame (abs := abs) (kind := kind) item s) as Hf; rewrite Ec in Hf; cbn in Hf;
    [|intros [= <- <-]; rewrite Hf; naive_solver].
  pose proof Ec as Hcur. unfold same_abs in Hf.
  destruct (negb _ || _ || _ || _); [intros [= <- <-]; rewrite Hf; naive_solver|].
  apply (ss_current (kind := kind) (abs := abs)) in Ec as [(Ho & Hps & Hk)|Hfor]; [| |done].
  2:{ intros H. assert (Hsame : abs s' = abs s).
      { rewrite <- Hf. destruct (_ || _); [by injection H as _ <-|].
        destruct (_ && _); [by injection H as _ <-|].
        match type of H with execute_active r item ?o _ = _ =>
          pose proof (foreign_active item o Hfor s1) as Hm end.
        by rewrite H in Hm. }
      split_and!; [by left| |done]. intros _ _ Hown. destruct (Hown op s1 eq_refl Hfor). }
  cbn. rewrite Ha in Hps. injection Hps as Hp Hx.
  destruct (bool_decide (Phase op = OperationSucceeded) || _) eqn:Edone.
  { intros [= <- <-]. rewrite Hf, Ha. split_and!; [by left| |done].
    apply orb_true_iff in Edone as [Ed%bool_decide_eq_true|Ed%bool_decide_eq_true];
      intros _ [Hc|Hc]; rewrite <- Hp, Ed in Hc; discriminate Hc. }
  apply orb_false_iff in Edone as [Hns%bool_decide_eq_false Hnf%bool_decide_eq_false].
  assert (Hlast : p = OperationSucceeded ∨ p = OperationFailed -> abs s' = abs s) by naive_solver.
  destruct (negb _ && negb _) eqn:Eact; [intros [= <- <-]; rewrite Hf; split_and!; [by left| |done]|].
  { apply andb_true_iff in Eact as [E1%negb_true_iff%bool_decide_eq_false
      E2%negb_true_iff%bool_decide_eq_false]. rewrite Ha. intros _ [Hc|Hc]; congruence. }
  assert (Hat : at_step x (abs s1)).
  { rewrite Hf, Ha, <- Hp. apply andb_false_iff in Eact as [E%negb_false_iff%bool_decide_eq_true
      |E%negb_false_iff%bool_decide_eq_true]; rewrite E; [by left|by right]. }
  match goal with |- context [execute_active r item ?o _] => set (op1 := o) end.
  unfold execute_active, mbind, M_bind. destruct (take r op1 s1) as [r2 s2] eqn:Et.
  apply take_effect in Et as [Hat2 Hok2]; [|split; done|..].
  2:{ cbn. rewrite Hf, Ha. congruence. }
  2:{ cbn. by rewrite Hx. }
  change (Step op1) with (Step op) in *. rewrite Hx in *.
  destruct r2 as [op2|e]; [|intros [= <- <-]; split_and!; [by right; left|done|done]].
  destruct (Hok2 op2 eq_refl) as ([= Hp2 Hx2] & Ha2 & Hk2).
  destruct (run_and_advance r op2 s2) as [r3 s3] eqn:Er.
  apply run_and_advance_effect in Er; [|done|by rewrite Hx2|done]. rewrite Hx2 in Er.
  destruct r3 as [[]|e]; intros [= <- <-]; (split_and!; [|intros Hok _ _|done]);
    destruct Er as [[? ?]|?]; try done; by right; (left + right).
Qed.
End Simulation.
End Runner.
Arguments Runner : clear implicits.
Arguments OperationStore : clear implicits.
Arguments RuntimePort : clear implicits.
Arguments ModelPort : clear implicits.
Arguments AtomicStepStore : clear implicits.
Arguments ModelObservationStore : clear implicits.
Arguments ManagedGPUReleaseScopeStore : clear implicits.

(** ** A small store, for examples: the state is the phase and step of one
    managed start operation. *)
Module Example.
Import BinaryUuid.

Definition context (st : op_state) : OperationContext :=
  mkOperationContext "t" "s" "op" "start" "" "" "lease" st.1 st.2 0 1 Quota.none Quota.none
    (Publication.mkPublication "" "" "" 0 "" "" "" "") None None true false "" [] "" 1 1 "deployment".
Definition expected (tr : StepTransition) : op_state := (ExpectedPhase tr, ExpectedStep tr).
Definition atomic : AtomicStepStore op_state := {|
  AdvanceOperationStepCASWithAudit tr _ := fun st =>
    if bool_decide (st = expected tr) &&
       is_ok (ValidateOperationStepTransition "start" (ExpectedPhase tr) (ExpectedStep tr) (NextPhase tr) (NextStep tr))
    then (Ok tt, (NextPhase tr, NextStep tr)) else (Err (errorf "CAS"), st);
  RetryOperationStepCASWithAudit tr _ _ := fun st =>
    if bool_decide (st = expected tr) then (Ok tt, (OperationPending, ExpectedStep tr))
    else (Err (errorf "CAS"), st) |}.
Definition store : OperationStore op_state := {|
  CurrentOperation _ := fun st => (Ok (context st), st);
  AdvanceOperationStepCAS _ := mret tt; RetryOperationStepCAS _ _ := mret tt;
  SaveQuotaReservation _ := mret tt; SavePublication _ := mret tt;
  SaveRuntimeObservation _ _ := mret tt; as_atomic := Some atomic; as_model_store := None;
  as_gpu_store := None; as_scope_store := None |}.
(** A quota port that counts on being asked first. *)
Definition quota : Quota.Port op_state := Quota.mkPort
  (fun x => mret x) (fun _ => mret tt) (fun _ => mret tt)
  (fun _ _ => throw (errorf "authority unavailable")).
Definition runner : Runner op_state :=
  mkRunner store None None None (Some quota) None None None None 0 (mret "").
Definition item : Work.Item := Work.mkItem "t" "s" 1 1 "lease".

#[local] Instance step_store : StepStore store atomic "start" (fun st => st).
Proof.
  refine {| ss_own := fun tr => ST_Kind tr = "start"; ss_foreign := fun tr => False;
    ss_kind := fun _ => True |}.
  - done.
  - intros i s op s' _ [= <- <-]. left. split_and!; [done| |done]. by destruct s.
  - intros i st. done.
  - intros tr ev s r s' Ho H. unfold atomic in H. cbn in H.
    destruct (bool_decide (s = expected tr) && _) eqn:E; injection H as <- <-; [left|by right].
    apply andb_true_iff in E as [E1%bool_decide_eq_true E2]. split_and!; [done..|].
    by destruct (ValidateOperationStepTransition _ _ _ _ _) as [[]|].
  - intros tr after ev s r s' Ho H. unfold atomic in H. cbn in H.
    case_bool_decide; injection H as <- <-; [by right|by left].
  - done.
  - done.
Defined.
Lemma runner_frames : frames runner (fun st => st).
Proof.
  split; try done. split; try done; intros; split_and!; try done; cbn in *; simplify_eq; intros st; done.
Qed.

(** The interface has instances: one execution of the example. *)
Lemma example_steps :
  stepped runner "start" StepReserveQuota (Execute runner item (OperationPending, StepReserveQuota)).2.
Proof.
  destruct (Execute runner item (OperationPending, StepReserveQuota)) as [res s'] eqn:E.
  apply (Execute_effect runner atomic "start" (fun st => st) (Hst := step_store) runner_frames item
    (OperationPending, StepReserveQuota) res s' OperationPending StepReserveQuota I eq_refl E).
  - apply (f_equal fst) in E. vm_compute in E. cbn [fst] in E. subst res. reflexivity.
  - by left.
  - intros op s1 _ Hfor.
    by apply (Hfor (mkStepTransition (TenantID op) (ID op) "" "" 0 "" "" "" "" "" "")).
Qed.

Lemma runStep_follows_path_witness :
  ValidateOperationStepTransition "start" OperationRunning StepReserveQuota OperationRunning StepResolveGPU
    = Ok tt.
Proof.
  apply (runStep_follows_path runner (context (OperationRunning, StepReserveQuota)) start_path
    (OperationRunning, StepReserveQuota) (next_step StepResolveGPU "quota.governance_owned")
    (OperationRunning, StepReserveQuota)); [reflexivity|left|vm_compute; reflexivity].
Defined.

Definition unmanaged : OperationContext :=
  (context (OperationRunning, StepReserveQuota)) <| Managed := false |>
    <| Reservation := Quota.mkReservation "t" "s" "op" "1" "pending-1" "" ""
         (Resources.mkSpec ∅ ∅ None) None "pending" "" |>.
Lemma reserve_not_repeated_witness :
  step_reserve_quota (replace_reserve (fun _ => throw (errorf "reserved twice")) runner) unmanaged ("", "")
    = (Err (errorf "authority unavailable"), ("", "")).
Proof.
  rewrite (reserve_not_repeated _ runner quota unmanaged ("", "")); [vm_compute; reflexivity|reflexivity|].
  right. right. left. exists (errorf "authority unavailable"), ("", ""). split; reflexivity.
Defined.
End Example.
End Runner.
