(* ===== verification/ReconcileStore.v ===== *)
(** * Observations and runtime bindings in PostgreSQL

    internal/data/postgres/reconcile_store.go, runtime_binding.go and
    status_semantics.go over their statements in inference.sql.go. *)

From S2P Require Import Prelude GoStrings Work Schema WorkStore Reconcile.
Local Open Scope Z_scope.

Module ReconcileStore.
Import Schema WorkStore.

(** ** status_semantics.go *)
Definition normalizeRuntimePhase (phase : string) : string :=
  if bool_decide (phase = "") || bool_decide (phase = "unknown") then "pending" else phase.
Definition normalizePublicationPhase (phase : string) : string :=
  if bool_decide (phase = "") || bool_decide (phase = "unknown") then "withdrawn" else phase.
Definition normalizeInvocationHealth (runtimePhase publicationPhase health : string) : string :=
  let health := if bool_decide (health = "") then "unhealthy" else health in
  if bool_decide (health = "unknown") &&
     (negb (bool_decide (runtimePhase = "ready")) || negb (bool_decide (publicationPhase = "published")))
  then "unhealthy" else health.

(** ** Statements *)
Definition GetService (k : key) : statement (key * ServiceRow) := select_one (fun _ db =>
  match services db !! k with Some s => Some (k, s) | None => None end).

(** The latest publication at or below a generation. *)
Definition publications_of (db : DB) (k : key) (upto : Z) : list (Z * PublicationRow) :=
  omap (fun kp : (uuid * uuid * Z) * PublicationRow =>
    let '((t, s, g), p) := kp in
    if bool_decide ((t, s) = k) && (g <=? upto) then Some (g, p) else None)
    (map_to_list (publications db)).
Definition latest_publication (db : DB) (k : key) (upto : Z) : option (Z * PublicationRow) :=
  head (order_by (fun gp : Z * PublicationRow => [- gp.1; - p_updated_at gp.2]) (publications_of db k upto)).

(** [GetRuntime]: the publication phase is read from its owner table. *)
Definition GetRuntime (k : key) : statement RuntimeRow := select_one (fun _ db =>
  match runtimes db !! k, services db !! k with
  | Some rt, Some s =>
      Some (rt <| r_publication_phase :=
        match latest_publication db k (s_desired_generation s) with
        | Some (_, p) => p_observed_phase p
        | None => "withdrawn"
        end |>)
  | _, _ => None
  end).

(** The columns written by the two observation updates. *)
Record ObservationParams := mkObservationParams {
  op_generation : Z; op_runtime_mode : string; op_ready_groups : Z; op_ready_workers : Z;
  op_lws_uid : string; op_runtime_phase : string; op_ready_replicas : Z; op_model_ready : bool;
  op_publication_phase : string; op_invocation_health : string; op_reason : string }.

Definition in_list (s : string) (l : list string) : bool := bool_decide (s ∈ l).
(** The CHECK constraints of inference_runtime on the written columns. *)
Definition observation_checks (p : ObservationParams) : bool :=
  (0 <? op_generation p) &&
  in_list (op_runtime_mode p) ["deployment"; "leader_worker_set"] &&
  in_list (op_runtime_phase p) ["unknown"; "pending"; "loading"; "ready"; "degraded"; "stopped"] &&
  in_list (op_publication_phase p) ["withdrawn"; "publishing"; "published"; "withdrawing"; "unknown"] &&
  in_list (op_invocation_health p) ["unknown"; "healthy"; "unhealthy"] &&
  (0 <=? op_ready_replicas p) && (0 <=? op_ready_groups p) && (0 <=? op_ready_workers p).

Definition two_minutes : Z := 120000000.
Definition observe_row (p : ObservationParams) (now : Z) (r : RuntimeRow) : RuntimeRow :=
  r <| r_generation := op_generation p |> <| r_runtime_mode := op_runtime_mode p |>
    <| r_ready_groups := op_ready_groups p |> <| r_ready_workers := op_ready_workers p |>
    <| r_lws_uid := op_lws_uid p |> <| r_runtime_phase := op_runtime_phase p |>
    <| r_ready_replicas := op_ready_replicas p |> <| r_model_ready := op_model_ready p |>
    <| r_publication_phase := op_publication_phase p |>
    <| r_invocation_health := op_invocation_health p |> <| r_observed_at := Some now |>
    <| r_stale_after := Some (now + two_minutes) |> <| r_updated_at := now |>
    <| r_reason := op_reason p |>.

(** The runtime row an observation of [generation] may replace; [guard] adds the
    lease condition of the leased variant. *)
Definition observable (guard : DB -> bool) (k : key) (generation : Z) (db : DB) : option RuntimeRow :=
  match runtimes db !! k, services db !! k with
  | Some r, Some s =>
      if (s_desired_generation s =? generation) && (r_generation r <=? generation) && guard db
      then Some r else None
  | _, _ => None
  end.
Definition holds_lease (k : key) (now : Z) (token : uuid) (db : DB) : bool :=
  match work db !! k with Some w => leased now token w | None => false end.
Definition update_observation (guard : Z -> DB -> bool) (k : key) (p : ObservationParams)
    : statement Z := fun now db =>
  match observable (guard now) k (op_generation p) db with
  | None => Ok (0, db)
  | Some r =>
      if observation_checks p then Ok (1, db <| runtimes := <[k := observe_row p now r]> (runtimes db) |>)
      else Err CheckViolation
  end.
Definition UpdateObservationCAS (k : key) (p : ObservationParams) : statement Z :=
  update_observation (fun _ _ => true) k p.
Definition UpdateObservationForWork (k : key) (p : ObservationParams) (token : uuid) : statement Z :=
  update_observation (fun now => holds_lease k now token) k p.

Definition MarkServiceAppliedGeneration (k : key) (generation : Z) : statement Z :=
  execrows (fun now db =>
    match services db !! k with
    | Some s =>
        if (s_desired_generation s =? generation) && undeleted s then
          Some (db <| services := <[k := s
            <| s_applied_generation := Z.max (s_applied_generation s) generation |>
            <| s_updated_at := now |>]> (services db) |>)
        else None
    | None => None
    end).

(** Bindings: keyed by tenant, service, generation, kind and role; the object
    name is unique within a generation and kind. *)
Definition bkey (k : key) (generation : Z) (kind role : string) : uuid * uuid * Z * string * string :=
  (k.1, k.2, generation, kind, role).
Definition name_taken (db : DB) (k : key) (generation : Z) (kind role namespace name : string) : bool :=
  existsb (fun kb : (uuid * uuid * Z * string * string) * BindingRow =>
    let '((t, s, g, kd, rl), b) := kb in
    bool_decide ((t, s, g, kd) = (k.1, k.2, generation, kind)) && negb (bool_decide (rl = role)) &&
    bool_decide (b_namespace b = namespace) && bool_decide (b_name b = name))
    (map_to_list (bindings db)).

Record BindingParams := mkBindingParams {
  bp_generation : Z; bp_kind : string; bp_namespace : string; bp_name : string; bp_uid : string;
  bp_resource_version : string; bp_role : string; bp_expected_uid : string;
  bp_expected_resource_version : string }.

Definition binding_checks (p : BindingParams) : bool :=
  (0 <? bp_generation p) &&
  in_list (bp_kind p) ["InferenceService"; "KServeInferenceService"; "KServeLLMInferenceService";
                       "Deployment"; "Service"; "Pod"; "LeaderWorkerSet"] &&
  in_list (bp_role p) ["control"; "runtime"; "endpoint"; "member"].
Definition same_object (b : BindingRow) (p : BindingParams) : bool :=
  bool_decide (b_uid b = bp_uid p) && bool_decide (b_namespace b = bp_namespace p) &&
  bool_decide (b_name b = bp_name p).
Definition expected_matches (b : BindingRow) (p : BindingParams) : bool :=
  (bool_decide (b_uid b = bp_expected_uid p) &&
   bool_decide (b_resource_version b = bp_expected_resource_version p)) ||
  (bool_decide (bp_expected_uid p = "") && bool_decide (bp_expected_resource_version p = "") &&
   bool_decide (b_resource_version b = bp_resource_version p)).

Definition UpsertRuntimeBindingCAS (k : key) (p : BindingParams) : statement Z := fun now db =>
  let bk := bkey k (bp_generation p) (bp_kind p) (bp_role p) in
  let row := mkBindingRow (bp_namespace p) (bp_name p) (bp_uid p) (bp_resource_version p) now in
  if negb (binding_checks p) then Err CheckViolation
  else match bindings db !! bk with
  | Some b =>
      if same_object b p && expected_matches b p
      then Ok (1, db <| bindings := <[bk := row]> (bindings db) |>)
      else Ok (0, db)
  | None =>
      if name_taken db k (bp_generation p) (bp_kind p) (bp_role p) (bp_namespace p) (bp_name p)
      then Err (UniqueViolation "inference_runtime_bindings_object_key")
      else if bool_decide (services db !! k = None) then Err ForeignKeyViolation
      else Ok (1, db <| bindings := <[bk := row]> (bindings db) |>)
  end.

Definition DeleteRuntimeBindingCAS (k : key) (generation : Z) (kind role uid rv : string) : statement Z :=
  execrows (fun _ db =>
    match bindings db !! bkey k generation kind role with
    | Some b =>
        if bool_decide (b_uid b = uid) && bool_decide (b_resource_version b = rv)
        then Some (db <| bindings := delete (bkey k generation kind role) (bindings db) |>) else None
    | None => None
    end).
Definition GetRuntimeBinding (k : key) (generation : Z) (kind role : string) : statement BindingRow :=
  select_one (fun _ db => bindings db !! bkey k generation kind role).

Definition AppendObservationEvent (tenant event_id : uuid) (e : ObservationEventRow) : statement unit :=
  fun _ db =>
  if negb (0 <? e_generation e) then Err CheckViolation
  else if bool_decide (is_Some (observation_events db !! (tenant, event_id)))
  then Err (UniqueViolation "inference_observation_events_pkey")
  else if bool_decide (services db !! (tenant, e_service_id e) = None) then Err ForeignKeyViolation
  else Ok (tt, db <| observation_events := <[(tenant, event_id) := e]> (observation_events db) |>).

(** ** reconcile_store.go *)
Section Store.
Context `{U : UuidLib}.
Import Reconcile.

Definition Current (tenantID serviceID : string) : M World Desired :=
  tenant ← lift (tenantUUID tenantID);
  service ← lift (workUUID "service_id" serviceID);
  r ← try (exec (GetService (tenant, service)));
  match r with
  | Ok (_, s) => mret (mkDesired tenantID serviceID (s_desired_generation s))
  | Err e =>
      if errors_is e "pgx.ErrNoRows"
      then throw (errorf ("inference service " +:+ tenantID +:+ "/" +:+ serviceID +:+ " not found"))
      else throw e
  end.

Definition CurrentForWork (item : Work.Item) : M World Desired :=
  tenant ← lift (tenantUUID (Work.TenantID item));
  service ← lift (workUUID "service_id" (Work.ServiceID item));
  lease ← lift (workUUID "lease_token" (Work.LeaseToken item));
  r ← try (exec (GetLeasedDesired (tenant, service) lease));
  match r with
  | Ok (k, generation) => mret (mkDesired (uuid_string k.1) (uuid_string k.2) generation)
  | Err e => if errors_is e "pgx.ErrNoRows" then throw ErrStaleGeneration else throw e
  end.

(** The facts to write: empty fields get their defaults, and facts this observer
    did not supply are taken from the current row; an invocation fact only
    within the same generation. *)
Definition defaulted (s d : string) : string := if bool_decide (s = "") then d else s.
Definition merge_observation (generation : Z) (o : Observation) (current : option RuntimeRow)
    : ObservationParams :=
  let modelReady := match current with
    | Some c => if Obs_ModelReadyKnown o then Obs_ModelReady o else r_model_ready c
    | None => Obs_ModelReady o
    end in
  let publication := match current with
    | Some c => if bool_decide (Obs_PublicationPhase o = "") || bool_decide (Obs_PublicationPhase o = "unknown")
                then r_publication_phase c else Obs_PublicationPhase o
    | None => defaulted (Obs_PublicationPhase o) "withdrawn"
    end in
  let health := match current with
    | Some c => if bool_decide (Obs_InvocationHealth o = "") && (r_generation c =? generation)
                then r_invocation_health c else defaulted (Obs_InvocationHealth o) "unknown"
    | None => defaulted (Obs_InvocationHealth o) "unknown"
    end in
  mkObservationParams generation (defaulted (Obs_RuntimeMode o) "deployment") (Obs_ReadyGroups o)
    (Obs_ReadyWorkers o) (Obs_LWSUID o) (defaulted (Obs_RuntimePhase o) "pending")
    (Obs_ReadyReplicas o) modelReady publication health (Obs_Reason o).

Definition current_runtime (k : key) : M World (option RuntimeRow) :=
  current ← try (exec (GetRuntime k));
  match current with
  | Ok c => mret (Some c)
  | Err e => if errors_is e "pgx.ErrNoRows" then mret None else throw e
  end.
(** Read the current facts, replace them, and mark the generation applied. *)
Definition project_observation (update : key -> ObservationParams -> statement Z) (k : key)
    (generation : Z) (o : Observation) : M World unit :=
  current ← current_runtime k;
  rows ← exec (update k (merge_observation generation o current));
  _ ← check (rows =? 1) ErrStaleGeneration;
  rows ← exec (MarkServiceAppliedGeneration k generation);
  check (rows =? 1) ErrStaleGeneration.

Definition SaveObservation (tenantID serviceID : string) (generation : Z) (o : Observation) : M World unit :=
  _ ← check (negb (generation <? 1) && (Obs_Generation o =? generation)) ErrStaleGeneration;
  tenant ← lift (tenantUUID tenantID);
  service ← lift (workUUID "service_id" serviceID);
  transaction (
    _ ← project_observation UpdateObservationCAS (tenant, service) generation o;
    mret (Schema.Commit tt)).

Definition object_incomplete (generation : Z) (object : RuntimeObject) : bool :=
  negb (BindingGeneration object =? generation) || bool_decide (Obj_Kind object = "") ||
  bool_decide (Obj_Namespace object = "") || bool_decide (Obj_Name object = "") ||
  bool_decide (Obj_UID object = "") || bool_decide (Obj_ResourceVersion object = "") ||
  bool_decide (Obj_Role object = "").

Definition save_object (k : key) (generation : Z) (object : RuntimeObject) : M World unit :=
  _ ← check (negb (object_incomplete generation object)) ErrStaleGeneration;
  rows ← (if Missing object then
            exec (DeleteRuntimeBindingCAS k (BindingGeneration object) (Obj_Kind object)
                    (Obj_Role object) (Obj_UID object) (Obj_ResourceVersion object))
          else
            exec (UpsertRuntimeBindingCAS k (mkBindingParams (BindingGeneration object)
                    (Obj_Kind object) (Obj_Namespace object) (Obj_Name object) (Obj_UID object)
                    (Obj_ResourceVersion object) (Obj_Role object) (ExpectedUID object)
                    (ExpectedResourceVersion object))));
  check (rows =? 1) ErrStaleGeneration.

Definition writeObservationEvent (k : key) (generation : Z) (sourceKind sourceUID resourceVersion : string)
    : M World unit :=
  event_id ← new_uuid;
  exec (fun now => AppendObservationEvent k.1 event_id
    (mkObservationEventRow k.2 generation sourceKind sourceUID resourceVersion now) now).

Definition SaveObservationForWork (item : Work.Item) (o : Observation) : M World unit :=
  let generation := Work.Generation item in
  _ ← check (negb (generation <? 1) && (Obs_Generation o =? generation)) ErrStaleGeneration;
  tenant ← lift (tenantUUID (Work.TenantID item));
  service ← lift (workUUID "service_id" (Work.ServiceID item));
  lease ← lift (workUUID "lease_token" (Work.LeaseToken item));
  let k := (tenant, service) in
  transaction (
    _ ← project_observation (fun k p => UpdateObservationForWork k p lease) k generation o;
    _ ← each (save_object k generation) (Obs_Objects o);
    _ ← (if bool_decide (length (Obs_Objects o) = 0%nat)
         then writeObservationEvent k generation "runtime" "" ""
         else each (fun object => writeObservationEvent k generation (Obj_Kind object)
                      (Obj_UID object) (Obj_ResourceVersion object)) (Obs_Objects o));
    mret (Schema.Commit tt)).

(** The repository as the reconciler sees it. *)
Definition as_repository : Reconcile.Repository World :=
  Reconcile.mkRepository Current SaveObservation
    (Some (Reconcile.mkLeasedRepository CurrentForWork SaveObservationForWork)).

(** ** runtime_binding.go *)
Definition ErrInvalidUUID : goerr := ENew "postgres.ErrInvalidUUID" "invalid UUID".
Definition ErrRuntimeBindingCAS : goerr :=
  ENew "postgres.ErrRuntimeBindingCAS" "runtime binding CAS conflict".

Definition parseUUID (label value : string) (allowEmpty : bool) : result (option uuid) :=
  if bool_decide (value = "") && allowEmpty then Ok None
  else match uuid_parse value with
       | Some u => Ok (Some u)
       | None => Err (errorf_after ErrInvalidUUID label)
       end.
(** [parseUUID(label, value, false)]. *)
Definition requireUUID (label value : string) : result uuid :=
  match uuid_parse value with Some u => Ok u | None => Err (errorf_after ErrInvalidUUID label) end.

Definition validateRuntimeBindingInput (p : BindingParams) : result unit :=
  _ ← checkr (negb (bp_generation p <? 1)) (errorf "generation must be positive");
  _ ← (let fields := [("object_kind", bp_kind p); ("object_namespace", bp_namespace p);
         ("object_name", bp_name p); ("object_uid", bp_uid p);
         ("resource_version", bp_resource_version p); ("role", bp_role p)] in
       match list_find (fun f => blank f.2 = true) fields with
       | Some (_, (label, _)) => Err (errorf (label +:+ " is required"))
       | None => Ok tt
       end);
  checkr (eqb (bool_decide (bp_expected_uid p = "")) (bool_decide (bp_expected_resource_version p = "")))
    (errorf "expected UID and expected resourceVersion must be supplied together").

Definition Repository_UpsertRuntimeBindingCAS (tenantID serviceID : string) (p : BindingParams)
    : M World unit :=
  _ ← lift (validateRuntimeBindingInput p);
  tenant ← lift (requireUUID "tenant_id" tenantID);
  service ← lift (requireUUID "service_id" serviceID);
  rows ← exec (UpsertRuntimeBindingCAS (tenant, service) p);
  check (rows =? 1) ErrRuntimeBindingCAS.

Definition Repository_GetRuntimeBinding (tenantID serviceID : string) (generation : Z)
    (kind role : string) : M World BindingRow :=
  _ ← check (negb ((generation <? 1) || blank kind || blank role))
        (errorf "generation, object kind and role are required");
  tenant ← lift (requireUUID "tenant_id" tenantID);
  service ← lift (requireUUID "service_id" serviceID);
  exec (GetRuntimeBinding (tenant, service) generation kind role).

Definition Repository_DeleteRuntimeBindingCAS (tenantID serviceID : string) (generation : Z)
    (kind role uid rv : string) : M World unit :=
  _ ← check (negb ((generation <? 1) || blank kind || blank role || blank uid || blank rv))
        (errorf "generation, object kind, role, UID and resourceVersion are required");
  tenant ← lift (requireUUID "tenant_id" tenantID);
  service ← lift (requireUUID "service_id" serviceID);
  rows ← exec (DeleteRuntimeBindingCAS (tenant, service) generation kind role uid rv);
  check (rows =? 1) ErrRuntimeBindingCAS.

(** ** Properties *)

(** *** Bindings never change their object *)
(** One statement over a session: it took effect at the clock it ends with, its
    answer delivered or lost, or it failed without effect. *)
Lemma exec_effect {A} (f : statement A) w r w' :
  exec f w = (r, w') -> w_now w <= w_now w' ∧
  ((∃ a, f (w_now w') (w_db w) = Ok (a, w_db w') ∧ (r = Ok a ∨ r = Err ErrConn)) ∨
   (w_db w' = w_db w ∧ ∃ e, r = Err e)).
Proof.
  unfold exec, mbind, M_bind, round_trip, try, run_stmt, throw.
  destruct (w_env w) as [|[dt []] env]; simpl; [| |intros [= <- <-]; simpl; split; [lia|eauto]|];
    (destruct (f _ _) as [[x db]|e] eqn:E; intros [= <- <-]; simpl in *; (split; [lia|]); eauto 6).
Qed.

(** What an upsert that takes effect writes: the row of the given generation,
    kind and role, and nothing else.  A row already there must be of the same
    object, and carry the UID and version the caller expects, or, with nothing
    expected, already the given version. *)
Record binding_written (k : key) (p : BindingParams) (now : Z) (db db' : DB) : Prop := {
  bw_row : let bk := bkey k (bp_generation p) (bp_kind p) (bp_role p) in
    db' = db <| bindings := <[bk := mkBindingRow (bp_namespace p) (bp_name p) (bp_uid p)
                                      (bp_resource_version p) now]> (bindings db) |>;
  bw_fence : ∀ b, bindings db !! bkey k (bp_generation p) (bp_kind p) (bp_role p) = Some b ->
    b_uid b = bp_uid p ∧ b_namespace b = bp_namespace p ∧ b_name b = bp_name p ∧
    (b_uid b = bp_expected_uid p ∧ b_resource_version b = bp_expected_resource_version p ∨
     bp_expected_uid p = "" ∧ bp_expected_resource_version p = "" ∧
       b_resource_version b = bp_resource_version p);
  bw_fresh : bindings db !! bkey k (bp_generation p) (bp_kind p) (bp_role p) = None ->
    is_Some (services db !! k) ∧
    name_taken db k (bp_generation p) (bp_kind p) (bp_role p) (bp_namespace p) (bp_name p) = false;
}.

Lemma upsert_binding_inv k p now db n db' :
  UpsertRuntimeBindingCAS k p now db = Ok (n, db') ->
  (n = 0 ∧ db' = db) ∨ (n = 1 ∧ binding_written k p now db db').
Proof.
  unfold UpsertRuntimeBindingCAS. destruct (negb (binding_checks p)); [done|].
  set (bk := bkey _ _ _ _). destruct (bindings db !! bk) as [b|] eqn:E.
  - destruct (same_object b p && expected_matches b p) eqn:B; intros [= <- <-]; [right|by left].
    split; [done|]. split; [done| |fold bk; congruence]. fold bk. rewrite E. intros ? [= <-].
    apply andb_true_iff in B as [Bs Be]. unfold same_object in Bs. unfold expected_matches in Be.
    rewrite orb_true_iff, !andb_true_iff, !bool_decide_eq_true in Be.
    rewrite !andb_true_iff, !bool_decide_eq_true in Bs. naive_solver.
  - destruct (name_taken _ _ _ _ _ _ _) eqn:En; [done|].
    destruct (bool_decide (services db !! k = None)) eqn:Es; intros [= <- <-].
    right. split; [done|]. split; [done|fold bk; congruence|]. intros _.
    apply bool_decide_eq_false in Es. split; [by destruct (services db !! k)|done].
Qed.

(** Claim C3.  A binding's object is immutable.  Whatever UID, namespace, name
    and version an upsert is given and whatever it reports, every binding there
    was before is there afterwards with the same UID, namespace and name.  The
    database is unchanged and the upsert fails, or exactly one binding changed,
    that of the given generation, kind and role: it was absent (its service
    exists and no other role holds the object's name) and is now the given
    object, or it was the given object with the UID and version the caller
    expects (with nothing expected: with the given version already), and only
    its version and observation time are replaced.  An upsert that takes effect
    succeeds, unless its answer is lost. *)
Theorem binding_identity_immutable tenantID serviceID p w r w' :
  Repository_UpsertRuntimeBindingCAS tenantID serviceID p w = (r, w') ->
  (∀ bk b, bindings (w_db w) !! bk = Some b -> ∃ b', bindings (w_db w') !! bk = Some b' ∧
     b_uid b' = b_uid b ∧ b_namespace b' = b_namespace b ∧ b_name b' = b_name b) ∧
  ((w_db w' = w_db w ∧ r ≠ Ok tt) ∨
   ∃ tenant service, uuid_parse tenantID = Some tenant ∧ uuid_parse serviceID = Some service ∧
     w_now w <= w_now w' ∧ binding_written (tenant, service) p (w_now w') (w_db w) (w_db w') ∧
     (r = Ok tt ∨ r = Err ErrConn)).
Proof.
  intros H.
  assert (Hout : (w_db w' = w_db w ∧ r ≠ Ok tt) ∨
    ∃ tenant service, uuid_parse tenantID = Some tenant ∧ uuid_parse serviceID = Some service ∧
     w_now w <= w_now w' ∧ binding_written (tenant, service) p (w_now w') (w_db w) (w_db w') ∧
     (r = Ok tt ∨ r = Err ErrConn)).
  { revert H. unfold Repository_UpsertRuntimeBindingCAS, requireUUID, lift.
    destruct (validateRuntimeBindingInput p); [|intros [= <- <-]; by left].
    destruct (uuid_parse tenantID) as [tenant|]; [|intros [= <- <-]; by left].
    destruct (uuid_parse serviceID) as [service|]; [|intros [= <- <-]; by left].
    unfold mbind, M_bind. destruct (exec (UpsertRuntimeBindingCAS (tenant, service) p) w) as [rows u] eqn:E.
    apply exec_effect in E as [Ht [(n & Hs & Hr)|[Hs [e ->]]]]; [|intros [= <- <-]; by left].
    apply upsert_binding_inv in Hs as [[-> Hs]|[-> Hs]]; destruct Hr as [-> | ->];
      intros [= <- <-]; [by left..| |]; right; eauto 8. }
  split; [|exact Hout]. intros bk b Hb.
  destruct Hout as [[-> _]|(tenant & service & _ & _ & _ & [-> Hf _] & _)]; [by exists b|].
  cbn. destruct (decide (bk = bkey (tenant, service) (bp_generation p) (bp_kind p) (bp_role p))) as [->|Hne].
  - rewrite lookup_insert_eq. eexists. split; [done|]. cbn. apply Hf in Hb. naive_solver.
  - rewrite lookup_insert_ne by done. eauto.
Qed.

(** *** Generations *)
(** The applied and the observed generation never pass the desired one. *)
Definition generations_ok (db : DB) : Prop :=
  ∀ k s, services db !! k = Some s ->
    s_applied_generation s <= s_desired_generation s ∧
    ∀ r, runtimes db !! k = Some r -> r_generation r <= s_desired_generation s.
Definition keeps_generations (db db' : DB) : Prop := generations_ok db -> generations_ok db'.
#[global] Instance keeps_generations_preorder : PreOrder keeps_generations.
Proof. split; [by intros db H|]. intros a b c H1 H2 H. auto. Qed.

Lemma respects_update_observation guard k p :
  respects keeps_generations (update_observation guard k p).
Proof.
  intros now db n db'. unfold update_observation.
  destruct (observable _ k _ db) as [r|] eqn:E; [|intros [= _ <-]; reflexivity].
  destruct (observation_checks p); [|done]. intros [= _ <-] Hg k2 s2 Hs2. simpl in *.
  destruct (Hg k2 s2 Hs2) as [H1 H2]. split; [done|]. intros r2.
  intros [[<- <-]|[_ Hr]]%lookup_insert_Some; [|by apply H2]. cbn.
  unfold observable in E. rewrite Hs2 in E. destruct (runtimes db !! k) as [r0|]; [|done].
  destruct (_ =? _) eqn:Eg; [|done]. lia.
Qed.
Lemma respects_mark_applied k g : respects keeps_generations (MarkServiceAppliedGeneration k g).
Proof.
  apply respects_execrows; [apply _|]. intros now db db'.
  destruct (services db !! k) as [s|] eqn:Es; [|done].
  destruct (_ && _) eqn:B; [|done]. intros [= <-] Hg k2 s2. simpl.
  apply andb_true_iff in B as [B%Z.eqb_eq _].
  intros [[<- <-]|[_ Hs]]%lookup_insert_Some; [|by apply Hg].
  destruct (Hg k s Es) as [H1 H2]. simpl. split; [lia|done].
Qed.
Lemma respects_same {A} (f : statement A) :
  (∀ now db a db', f now db = Ok (a, db') ->
     services db' = services db ∧ runtimes db' = runtimes db) -> respects keeps_generations f.
Proof. intros H now db a db' [Hs Hr]%H Hg k s. rewrite Hs, Hr. apply Hg. Qed.
Lemma upsert_binding_frame k p now db n db' :
  UpsertRuntimeBindingCAS k p now db = Ok (n, db') -> ∃ b, db' = db <| bindings := b |>.
Proof.
  unfold UpsertRuntimeBindingCAS. destruct (negb _); [done|].
  destruct (bindings db !! _); [destruct (_ && _)|destruct (name_taken _ _ _ _ _ _ _); [done|case_bool_decide; [done|]]];
    intros [= _ <-]; first [by eexists (<[_ := _]> _)|exists (bindings db); by destruct db].
Qed.
Lemma delete_binding_frame k g kind role uid rv now db n db' :
  DeleteRuntimeBindingCAS k g kind role uid rv now db = Ok (n, db') -> ∃ b, db' = db <| bindings := b |>.
Proof.
  unfold DeleteRuntimeBindingCAS. intros [(_ & _ & ->)|[H _]]%execrows_inv.
  - exists (bindings db). by destruct db.
  - destruct (bindings db !! _); [|done]. destruct (_ && _); [|done]. simplify_eq. by eexists.
Qed.
Lemma append_event_frame tenant id e now db u db' :
  AppendObservationEvent tenant id e now db = Ok (u, db') -> ∃ x, db' = db <| observation_events := x |>.
Proof.
  unfold AppendObservationEvent. destruct (negb _); [done|]. case_bool_decide; [done|].
  case_bool_decide; [done|]. intros [= _ <-]. by eexists.
Qed.
Lemma respects_upsert_binding k p : respects keeps_generations (UpsertRuntimeBindingCAS k p).
Proof. apply respects_same. intros now db n db' [b ->]%upsert_binding_frame. done. Qed.
Lemma respects_delete_binding k g kind role uid rv :
  respects keeps_generations (DeleteRuntimeBindingCAS k g kind role uid rv).
Proof. apply respects_same. intros now db n db' [b ->]%delete_binding_frame. done. Qed.
Lemma respects_append_event tenant id k2 g a b c :
  respects keeps_generations
    (fun now => AppendObservationEvent tenant id (mkObservationEventRow k2 g a b c now) now).
Proof. apply respects_same. intros now db n db' [x ->]%append_event_frame. done. Qed.

#[local] Hint Resolve respects_update_observation respects_mark_applied respects_upsert_binding
  respects_delete_binding respects_append_event : moves.

Lemma moves_project update k g o :
  (∀ k p, respects keeps_generations (update k p)) ->
  moves (db_rel keeps_generations) (project_observation update k g o).
Proof. intros Hu. unfold project_observation, current_runtime. moves. Qed.
Lemma moves_write_event k g a b c : moves (db_rel keeps_generations) (writeObservationEvent k g a b c).
Proof. unfold writeObservationEvent. moves. Qed.
Lemma moves_save_object k g object : moves (db_rel keeps_generations) (save_object k g object).
Proof. unfold save_object. moves. Qed.

(** Saving an observation, leased or not, successfully or not,
    preserves that no service has applied, and no runtime row has observed, a
    generation beyond the desired one. *)
Theorem observations_keep_generations w item o tenantID serviceID generation :
  generations_ok (w_db w) ->
  generations_ok (w_db (SaveObservationForWork item o w).2) ∧
  generations_ok (w_db (SaveObservation tenantID serviceID generation o w).2).
Proof.
  intros Hg. split.
  - assert (Hm : moves (db_rel keeps_generations) (SaveObservationForWork item o)).
    { unfold SaveObservationForWork. db_moves; auto using moves_save_object, moves_write_event.
      apply moves_project. intros. apply respects_update_observation. }
    apply (proj2 (Hm w)), Hg.
  - assert (Hm : moves (db_rel keeps_generations) (SaveObservation tenantID serviceID generation o)).
    { unfold SaveObservation. db_moves.
      apply moves_project. intros. apply respects_update_observation. }
    apply (proj2 (Hm w)), Hg.
Qed.

(** *** The lease fence *)
(** The parts of the database an observation writes, given that it is written. *)
Record observed (k : key) (generation : Z) (token : uuid) (since : Z) (db db' : DB) : Prop := {
  ob_lease : ∃ now row, since <= now ∧ work db !! k = Some row ∧ leased now token row = true;
  ob_service : ∃ s s', services db !! k = Some s ∧ s_desired_generation s = generation ∧
    undeleted s = true ∧ services db' !! k = Some s' ∧
    s_applied_generation s' = Z.max (s_applied_generation s) generation;
  ob_runtime : ∃ r r', runtimes db !! k = Some r ∧ r_generation r <= generation ∧
    runtimes db' !! k = Some r' ∧ r_generation r' = generation;
}.

(** Later statements of the transaction only touch bindings and events. *)
Definition same_facts (db db' : DB) : Prop :=
  work db' = work db ∧ services db' = services db ∧ runtimes db' = runtimes db.
#[global] Instance same_facts_preorder : PreOrder same_facts.
Proof. split; [done|]. unfold same_facts. intros a b c (?&?&?) (?&?&?). split_and!; congruence. Qed.

Lemma moves_facts_objects k g object : moves (db_rel same_facts) (save_object k g object).
Proof.
  unfold save_object. moves.
  - apply moves_exec; [apply _|]. intros now db n db' [b ->]%delete_binding_frame. done.
  - apply moves_exec; [apply _|]. intros now db n db' [b ->]%upsert_binding_frame. done.
Qed.
Lemma moves_facts_event k g a b c : moves (db_rel same_facts) (writeObservationEvent k g a b c).
Proof.
  unfold writeObservationEvent. moves. apply moves_exec; [apply _|].
  intros now db n db' [x ->]%append_event_frame. done.
Qed.

Lemma project_observed k g o token w w' :
  project_observation (fun k p => UpdateObservationForWork k p token) k g o w = (Ok tt, w') ->
  observed k g token (w_now w) (w_db w) (w_db w').
Proof.
  unfold project_observation. intros H. minv H.
  assert (Hcur : db_rel same_facts w u).
  { assert (Hmv : moves (db_rel same_facts) (current_runtime k)) by (unfold current_runtime; moves).
    specialize (Hmv w). by rewrite Hm in Hmv. }
  destruct Hcur as (Ht & Hw & Hs & Hr). apply Z.eqb_eq in Hm1, H. subst.
  apply exec_ok in Hm0 as (now & Hle & Hup & Hn & _).
  apply exec_ok in Hm2 as (now2 & _ & Hmark & _).
  unfold UpdateObservationForWork, update_observation in Hup.
  destruct (observable _ k _ (w_db u)) as [r|] eqn:Eo; [|discriminate Hup].
  destruct (observation_checks _); [|discriminate Hup]. injection Hup as Hup.
  unfold observable, holds_lease in Eo. rewrite Hr, Hs, Hw in Eo.
  destruct (runtimes (w_db w) !! k) as [r0|] eqn:Er; [|done].
  destruct (services (w_db w) !! k) as [s|] eqn:Es; [|done].
  destruct (_ && _ && _) eqn:B; [|done]. rewrite !andb_true_iff in B. destruct B as [[Bg Bo] Bl].
  cbn in Bg, Bo. apply Z.eqb_eq in Bg. apply Z.leb_le in Bo.
  destruct (work (w_db w) !! k) as [row|] eqn:Ew; [|done]. simplify_eq/=.
  unfold MarkServiceAppliedGeneration in Hmark.
  apply execrows_inv in Hmark as [(_ & ? & _)|[Hmark _]]; [lia|].
  rewrite <- Hup in Hmark. simpl in Hmark. rewrite Hs, Es in Hmark.
  destruct (_ && undeleted s) eqn:Bu in Hmark; [|done]. apply andb_true_iff in Bu as [_ Bu].
  injection Hmark as Hmark. rewrite <- Hmark. split.
  - exists (w_now u1), row. split_and!; [lia|done..].
  - eexists _, _. split_and!; [done..|simpl; apply lookup_insert_eq|done].
  - eexists _, _. split_and!; [done..|simpl; apply lookup_insert_eq|done].
Qed.

(** Observation writes are fenced and atomic.  Whatever
    SaveObservationForWork reports, the database is unchanged unless the item's
    token held an unexpired lease on the row and the item's generation was the
    desired generation of an undeleted service; then the runtime row records
    that generation and the service's applied generation covers it. *)
Theorem observation_fenced tenant service generation token dirty o w r w' :
  let k := (tenant, service) in
  let item := Work.mkItem (uuid_string tenant) (uuid_string service) generation dirty (uuid_string token) in
  UuidLaws ->
  SaveObservationForWork item o w = (r, w') ->
  (w_db w' = w_db w ∧ r ≠ Ok tt) ∨ observed k generation token (w_now w) (w_db w) (w_db w').
Proof.
  intros k item HU. unfold SaveObservationForWork. cbn. intros H.
  unfold tenantUUID, workUUID in H. rewrite !uuid_parse_string in H.
  unfold check in H. destruct (_ && _); cbn in H; [|left; injection H as <- <-; split; done].
  unfold mbind at 1, M_bind at 1, mret, M_ret in H. unfold lift, mbind at 1, M_bind at 1 in H.
  apply transaction_effect in H as [[Hdb Hr]|(u & [] & v & Hdb & Ht & _ & Hb & Hv & Hr)].
  - left. split; [done|]. intros ->. destruct (Hr tt eq_refl) as (u & v & _ & Hb). by minv Hb.
  - right. minv Hb. destruct a. apply project_observed in Hm.
    assert (Hrest : db_rel same_facts u0 v).
    { clear Hm. injection Hb as <-.
      assert (Hm : moves (db_rel same_facts) (each (save_object (tenant, service) generation) (Obs_Objects o)))
        by (apply moves_each; [apply _|apply moves_facts_objects]).
      pose proof (Hm u0) as H1. rewrite Hm0 in H1. etrans; [exact H1|].
      match type of Hm1 with ?c _ = _ => assert (Hm' : moves (db_rel same_facts) c) end.
      { moves; auto using moves_facts_event. }
      pose proof (Hm' u1) as H2. by rewrite Hm1 in H2. }
    destruct Hrest as (_ & Hw & Hs & Hrt). rewrite Hv, <- Hdb. destruct Hm as [(now & row & ? & ?) ? ?].
    split; [exists now, row; split; [lia|done]|by rewrite Hs|by rewrite Hrt].
Qed.
End Store.

(** ** Examples: the service of [WorkStore.ex_db2], leased with token 7 until 40. *)
Import BinaryUuid.
Definition ex_runtime : RuntimeRow :=
  mkRuntimeRow 1 "pending" 0 false "withdrawn" "unhealthy" None None "runtime_pending" 0
    "deployment" 0 0 "" false.
Definition ex_world : World :=
  mkWorld (ex_db2 <| runtimes := {[ (1%N, 2%N) := ex_runtime ]} |>) 20 [] [5%N; 6%N].
Definition ex_object (rv : string) : Reconcile.RuntimeObject :=
  Reconcile.mkRuntimeObject 1 "Deployment" "ns" "d" "uid-1" rv "runtime" "" "" false false.
Definition ex_observation : Reconcile.Observation :=
  Reconcile.mkObservation 1 "ready" 1 0 0 true true "" "" "" "" "" [ex_object "9"].
Definition ex_item : Work.Item := Work.mkItem (uuid_string 1%N) (uuid_string 2%N) 1 1 (uuid_string 7%N).

Lemma observation_fenced_witness :
  observed (1%N, 2%N) 1 7%N 20 (w_db ex_world) (w_db (SaveObservationForWork ex_item ex_observation ex_world).2).
Proof.
  destruct (SaveObservationForWork ex_item ex_observation ex_world) as [r w'] eqn:E.
  destruct (observation_fenced 1%N 2%N 1 7%N 1 ex_observation ex_world r w' BinaryUuid.laws E)
    as [[_ Hr]|H]; [|exact H].
  exfalso. apply Hr. apply (f_equal fst) in E. vm_compute in E. cbn [fst] in E. symmetry. exact E.
Defined.

Lemma observations_keep_generations_witness :
  generations_ok (w_db (SaveObservationForWork ex_item ex_observation ex_world).2).
Proof.
  refine (proj1 (observations_keep_generations ex_world ex_item ex_observation "" "" 1 _)).
  intros k s Hs. unfold ex_world in *. simpl in Hs.
  assert (Hsv : services ex_db2 = {[ (1%N, 2%N) := ex_service ]}) by (vm_compute; reflexivity).
  rewrite Hsv in Hs. apply lookup_singleton_Some in Hs as [<- <-]. split; [cbn; lia|].
  intros r. simpl. intros Hr. rewrite lookup_singleton_eq in Hr. injection Hr as <-. cbn. lia.
Defined.

(** A second object under the same generation, kind and role is refused; the
    bound object moves to the version the caller read it at. *)
Definition ex_binding (uid rv euid erv : string) : BindingParams :=
  mkBindingParams 1 "Deployment" "ns" "d" uid rv "runtime" euid erv.
Definition ex_bind (p : BindingParams) (w : World) : result unit * World :=
  Repository_UpsertRuntimeBindingCAS (uuid_string 1%N) (uuid_string 2%N) p w.
Definition ex_bound : World := (ex_bind (ex_binding "uid-1" "9" "" "") ex_world).2.
Definition ex_rebound : World := (ex_bind (ex_binding "uid-1" "10" "uid-1" "9") ex_bound).2.
Lemma binding_identity_immutable_witness :
  (ex_bind (ex_binding "uid-2" "10" "uid-1" "9") ex_bound).1 ≠ Ok tt ∧
  binding_written (1%N, 2%N) (ex_binding "uid-1" "10" "uid-1" "9") 20 (w_db ex_bound) (w_db ex_rebound) ∧
  bindings (w_db ex_bound) !! bkey (1%N, 2%N) 1 "Deployment" "runtime" =
    Some (mkBindingRow "ns" "d" "uid-1" "9" 20) ∧
  bindings (w_db ex_rebound) !! bkey (1%N, 2%N) 1 "Deployment" "runtime" =
    Some (mkBindingRow "ns" "d" "uid-1" "10" 20).
Proof.
  split; [vm_compute; discriminate|]. split; [|split; vm_compute; reflexivity].
  destruct (ex_bind (ex_binding "uid-1" "10" "uid-1" "9") ex_bound) as [r w'] eqn:E.
  destruct (proj2 (binding_identity_immutable _ _ _ _ _ _ E)) as [[_ Hr]|(t & s & Ht & Hs & _ & Hw & _)].
  - exfalso. apply Hr. apply (f_equal fst) in E. vm_compute in E. cbn [fst] in E. symmetry. exact E.
  - unfold ex_rebound. rewrite E. rewrite (uuid_parse_string 1%N) in Ht.
    rewrite (uuid_parse_string 2%N) in Hs. injection Ht as <-. injection Hs as <-.
    replace 20 with (w_now w'); [exact Hw|]. apply (f_equal (w_now ∘ snd)) in E. vm_compute in E. cbn in E. exact (eq_sym E).
Defined.
End ReconcileStore.
