(* ===== verification/OperationStore.v ===== *)
(** * Operations in PostgreSQL

    internal/data/postgres/operation_state.go and operation_store.go: the
    implementation of the runner's store over the statements of inference.sql.go
    and managed_gpu.sql.go. *)

From S2P Require Import Prelude GoStrings Operation Gpu Resources Work Schema WorkStore Reconcile Runner ReconcileStore.
Local Open Scope Z_scope.

Module OperationStore.
Import Schema WorkStore ReconcileStore Operation.

Definition ErrOperationCAS : goerr := ENew "postgres.ErrOperationCAS" "operation state CAS failed".

(** ** Statements on operations *)
Module Sql.
Definition GetOperation (tenant id : uuid) : statement OperationRow :=
  select_one (fun _ db => operations db !! (tenant, id)).

(** The joined rows that fence a write of operation [id]: its service, of which
    it is the current operation, and the work row leased with [token]. *)
Definition fenced_operation (now : Z) (db : DB) (tenant id token : uuid)
    : option (OperationRow * ServiceRow) :=
  match operations db !! (tenant, id) with
  | Some o =>
      let k := (tenant, o_service_id o) in
      match services db !! k with
      | Some s =>
          if bool_decide (s_current_operation_id s = Some id) && holds_lease k now token db
          then Some (o, s) else None
      | None => None
      end
  | None => None
  end.

Record StepParams := mkStepParams {
  st_tenant : uuid; st_operation : uuid; st_generation : Z; st_phase : string; st_step : string;
  st_token : uuid; st_error_code : string; st_error_message : string }.

(** The row a step compare-and-swap may replace. *)
Definition step_row (now : Z) (db : DB) (p : StepParams) : option OperationRow :=
  match fenced_operation now db (st_tenant p) (st_operation p) (st_token p) with
  | Some (o, s) =>
      if (o_target_generation o =? st_generation p) && bool_decide (o_phase o = st_phase p) &&
         bool_decide (o_step o = st_step p) && (s_desired_generation s =? o_target_generation o)
      then Some o else None
  | None => None
  end.

Definition active (phase : string) : bool :=
  bool_decide (phase = OperationPending) || bool_decide (phase = OperationRunning).
(** The partial unique index inference_operations_one_active: another active
    operation of the same service. *)
Definition other_active (db : DB) (tenant id service : uuid) : bool :=
  existsb (fun ko : (uuid * uuid) * OperationRow =>
    bool_decide (ko.1.1 = tenant) && negb (bool_decide (ko.1.2 = id)) &&
    bool_decide (o_service_id ko.2 = service) && active (o_phase ko.2))
    (map_to_list (operations db)).
Definition operation_steps : list string :=
  [StepAdmission; StepReserveQuota; StepResolveGPU; StepReleasePreviousQuota; StepApplyCR;
   StepMaterializeModel; StepApplyRuntime; StepObserveRuntime; StepWithdrawPublication;
   StepDeleteRuntime; StepObserveAbsence; StepDeleteCR; StepPublish; "verify_invocation";
   StepReleaseQuota; StepComplete].
Definition operation_phases : list string :=
  [OperationPending; OperationRunning; OperationSucceeded; OperationFailed].
(** Write an operation row, subject to its constraints. *)
Definition put_operation (tenant id : uuid) (o : OperationRow) (db : DB) : result DB :=
  if negb (in_list (o_phase o) operation_phases && in_list (o_step o) operation_steps)
  then Err CheckViolation
  else if active (o_phase o) && other_active db tenant id (o_service_id o)
  then Err (UniqueViolation "inference_operations_one_active")
  else Ok (db <| operations := <[(tenant, id) := o]> (operations db) |>).

Definition write_row (now : Z) (db : DB) (p : StepParams) (f : OperationRow -> result OperationRow)
    : result (Z * DB) :=
  match step_row now db p with
  | None => Ok (0, db)
  | Some o =>
      o' ← f o; db' ← put_operation (st_tenant p) (st_operation p) o' db; Ok (1, db')
  end.

Definition retry_due (now : Z) (o : OperationRow) : bool :=
  match o_retry_at o with None => true | Some t => t <=? now end.
Definition advanced (now : Z) (phase step code message : string) (o : OperationRow) : OperationRow :=
  o <| o_phase := phase |> <| o_step := step |> <| o_error_code := code |>
    <| o_error_message := message |> <| o_retry_at := None |>
    <| o_completed_at := if bool_decide (phase = OperationSucceeded) || bool_decide (phase = OperationFailed)
                         then Some now else None |>
    <| o_updated_at := now |>.
Definition AdvanceOperationStepCAS (p : StepParams) (next_phase next_step : string) : statement Z :=
  fun now db =>
  match step_row now db p with
  | Some o =>
      if retry_due now o
      then write_row now db p (fun o => Ok (advanced now next_phase next_step (st_error_code p) (st_error_message p) o))
      else Ok (0, db)
  | None => Ok (0, db)
  end.
Definition retried (now retry : Z) (attempt : Z) (code message : string) (o : OperationRow) : OperationRow :=
  o <| o_phase := OperationPending |> <| o_attempt := attempt |> <| o_retry_at := Some (now + retry) |>
    <| o_lease_owner := None |> <| o_lease_until := None |> <| o_lease_token := None |>
    <| o_error_code := code |> <| o_error_message := message |> <| o_updated_at := now |>.
Definition RetryOperationStepCAS (p : StepParams) (retry : Z) : statement Z := fun now db =>
  write_row now db p (fun o =>
    attempt ← integer (o_attempt o + 1);
    Ok (retried now retry attempt (st_error_code p) (st_error_message p) o)).

Definition MarkServiceDeleted (k : key) (operation : uuid) (generation : Z) : statement Z :=
  execrows (fun now db =>
    match services db !! k with
    | Some s =>
        if bool_decide (s_current_operation_id s = Some operation) &&
           bool_decide (s_desired_state s = "deleted") && (s_desired_generation s =? generation)
        then Some (db <| services := <[k := s
               <| s_deleted_at := Some (default now (s_deleted_at s)) |> <| s_updated_at := now |>]>
               (services db) |>)
        else None
    | None => None
    end).

(** ON CONFLICT DO NOTHING. *)
Definition AppendAuditEvent (tenant event_id : uuid) (a : AuditRow) : statement unit := fun _ db =>
  if negb (0 <? a_generation a) then Err CheckViolation
  else if bool_decide (is_Some (audits db !! (tenant, event_id))) then Ok (tt, db)
  else if bool_decide (services db !! (tenant, a_service_id a) = None) ||
          match a_operation_id a with
          | Some op => bool_decide (operations db !! (tenant, op) = None)
          | None => false
          end then Err ForeignKeyViolation
  else Ok (tt, db <| audits := <[(tenant, event_id) := a]> (audits db) |>).

(** ** Statements on facts *)
Definition SaveGPUPlanCAS (k : key) (operation : uuid) (generation : Z) (token : uuid)
    (plan : Gpu.Snapshot) (digest : string) : statement Z := execrows (fun now db =>
  let sk := (k.1, k.2, generation) in
  match specs db !! sk, fenced_operation now db k.1 operation token with
  | Some sp, Some (o, s) =>
      if (o_target_generation o =? generation) && bool_decide (o_phase o = OperationRunning) &&
         bool_decide (o_step o = StepResolveGPU) && (s_desired_generation s =? o_target_generation o) &&
         match sp_gpu_plan (sp_body sp) with
         | None => true
         | Some (JVal old) => bool_decide (old = plan)
         | Some JBad => false
         end
      then Some (db <| specs := <[sk := sp <| sp_body := (sp_body sp)
             <| sp_gpu_plan := Some (JVal plan) |> <| sp_gpu_plan_digest := Some digest |> |>]>
             (specs db) |>)
      else None
  | _, _ => None
  end).

Definition quota_states : list string :=
  ["pending"; "reserved"; "confirmed"; "release_pending"; "released"; "failed"].
(** UNIQUE (tenant_id, reservation_id). *)
Definition reservation_taken (db : DB) (tenant operation : uuid) (reservation : string) : bool :=
  existsb (fun kq : (uuid * uuid) * QuotaRow =>
    bool_decide (kq.1.1 = tenant) && negb (bool_decide (kq.1.2 = operation)) &&
    bool_decide (q_reservation_id kq.2 = reservation)) (map_to_list (quotas db)).

Definition UpdateQuotaReservationFenced (tenant operation : uuid) (reservation : string)
    (requested : Resources.Spec) (state code : string) (generation : Z) (fence token : uuid)
    : statement Z := fun now db =>
  match quotas db !! (tenant, operation), fenced_operation now db tenant fence token with
  | Some q, Some (o, _) =>
      if (q_generation q =? generation) && (q_generation q <=? o_target_generation o) then
        if negb (in_list state quota_states) then Err CheckViolation
        else if reservation_taken db tenant operation reservation
        then Err (UniqueViolation "inference_quota_reservations_tenant_id_reservation_id_key")
        else Ok (1, db <| quotas := <[(tenant, operation) := q
          <| q_reservation_id := reservation |> <| q_requested_resources := JVal requested |>
          <| q_state := state |> <| q_last_error_code := code |> <| q_updated_at := now |>]> (quotas db) |>)
      else Ok (0, db)
  | _, _ => Ok (0, db)
  end.

Definition desired_phases : list string := ["withdrawn"; "publishing"; "published"; "withdrawing"].
Definition observed_phases : list string := "unknown" :: desired_phases.
Definition intermediate (phase : string) : bool := in_list phase ["publishing"; "withdrawing"].
Definition UpsertPublicationFenced (k : key) (generation : Z) (desired observed url code : string)
    (fence token : uuid) : statement Z := fun now db =>
  let pk := (k.1, k.2, generation) in
  match fenced_operation now db k.1 fence token with
  | Some (o, _) =>
      if generation <=? o_target_generation o then
        if negb ((0 <? generation) && in_list desired desired_phases && in_list observed observed_phases)
        then Err CheckViolation
        else match publications db !! pk with
        | Some p =>
            Ok (1, db <| publications := <[pk := p <| p_desired_phase := desired |>
              <| p_observed_phase := if intermediate desired then p_observed_phase p else observed |>
              <| p_invocation_url := url |> <| p_last_error_code := code |> <| p_updated_at := now |>]>
              (publications db) |>)
        | None =>
            if bool_decide (services db !! k = None) then Err ForeignKeyViolation
            else Ok (1, db <| publications := <[pk := mkPublicationRow desired observed url code None now]>
                   (publications db) |>)
        end
      else Ok (0, db)
  | None => Ok (0, db)
  end.

(** The two model facts, fenced by lease and generation. *)
Definition update_model (f : Z -> RuntimeRow -> RuntimeRow) (k : key) (generation : Z) (token : uuid)
    : statement Z := execrows (fun now db =>
  match observable (holds_lease k now token) k generation db with
  | Some r => Some (db <| runtimes := <[k := f now r]> (runtimes db) |>)
  | None => None
  end).
Definition refreshed (now : Z) (reason : string) (r : RuntimeRow) : RuntimeRow :=
  r <| r_observed_at := Some now |> <| r_stale_after := Some (now + two_minutes) |>
    <| r_updated_at := now |> <| r_reason := reason |>.
Definition UpdateModelObservationForWork (k : key) (generation : Z) (ready : bool) (reason : string)
    (token : uuid) : statement Z :=
  update_model (fun now r => (refreshed now reason r) <| r_model_ready := ready |>
                               <| r_model_ready_known := true |>) k generation token.
Definition MarkModelMaterializingForWork (k : key) (generation : Z) (token : uuid) : statement Z :=
  update_model (fun now r => (refreshed now "model materialization pending" r)
                  <| r_model_ready := false |> <| r_model_ready_known := false |>) k generation token.

(** ** Reads *)
Definition GetLeasedOperation (tenant token : uuid) : statement (uuid * OperationRow) :=
  select_one (fun now db =>
    head (omap (fun kw : key * WorkRow =>
      let '(k, w) := kw in
      if bool_decide (k.1 = tenant) && leased now token w then
        match services db !! k with
        | Some s =>
            match s_current_operation_id s with
            | Some id =>
                match operations db !! (tenant, id) with
                | Some o => if bool_decide (o_service_id o = k.2) &&
                               (o_target_generation o =? s_desired_generation s)
                            then Some (id, o) else None
                | None => None
                end
            | None => None
            end
        | None => None
        end
      else None) (map_to_list (work db)))).

Definition GetManagedGPUState (k : key) : statement (bool * bool) := select (fun _ db =>
  match managed db !! k with Some m => (true, m_closing m) | None => (false, false) end).
Definition GetManagedGPUResource (k : key) : statement ManagedResourceRow :=
  select_one (fun _ db => managed db !! k).
Definition GetManagedGPUReleaseScope (k : key) (operation : uuid) : statement (jsonb ScopeDoc) :=
  select_one (fun _ db => scopes db !! (k.1, k.2, operation)).
Definition UpsertManagedGPUReleaseScope (k : key) (operation : uuid) (pods : ScopeDoc) : statement unit :=
  fun _ db => Ok (tt, db <| scopes := <[(k.1, k.2, operation) := JVal pods]> (scopes db) |>).

Definition GetSpec (k : key) (generation : Z) : statement (Z * SpecRow) := select_one (fun _ db =>
  match specs db !! (k.1, k.2, generation) with Some sp => Some (generation, sp) | None => None end).
Definition GetLatestSpec (k : key) (generation : Z) : statement (Z * SpecRow) := select_one (fun _ db =>
  head (order_by (fun gs : Z * SpecRow => [- gs.1])
    (omap (fun ks : (uuid * uuid * Z) * SpecRow =>
       let '((t, s, g), sp) := ks in
       if bool_decide ((t, s) = k) && (g <=? generation) then Some (g, sp) else None)
       (map_to_list (specs db))))).

(** LIKE 'inference.%.accepted'. *)
Definition like_accepted (event_type : string) : bool :=
  has_prefix event_type "inference." && has_prefix (str_rev event_type) (str_rev ".accepted") &&
  (19 <=? Z.of_nat (String.length event_type)).
Definition GetOperationAuditContext (tenant operation : uuid) : statement (string * string) :=
  select_one (fun _ db =>
    (fun ia : uuid * AuditRow => (a_actor ia.2, a_request_id ia.2)) <$>
      head (order_by (fun ia : uuid * AuditRow => [a_created_at ia.2; Z.of_N ia.1])
        (omap (fun ka : (uuid * uuid) * AuditRow =>
           if bool_decide (ka.1.1 = tenant) && bool_decide (a_operation_id ka.2 = Some operation) &&
              like_accepted (a_event_type ka.2) then Some (ka.1.2, ka.2) else None)
           (map_to_list (audits db))))).

Definition latest_reservation (states : list string) (upto : Z -> bool) (k : key) (db : DB)
    : option (uuid * QuotaRow) :=
  head (order_by (fun iq : uuid * QuotaRow => [- q_generation iq.2; - q_updated_at iq.2])
    (omap (fun kq : (uuid * uuid) * QuotaRow =>
       if bool_decide ((kq.1.1, q_service_id kq.2) = k) && upto (q_generation kq.2) &&
          in_list (q_state kq.2) states then Some (kq.1.2, kq.2) else None)
       (map_to_list (quotas db)))).
Definition GetActiveQuotaReservation (k : key) (generation : Z) : statement (uuid * QuotaRow) :=
  select_one (fun _ => latest_reservation ["pending"; "reserved"; "confirmed"; "release_pending"]
                         (fun g => g <=? generation) k).
Definition GetPreviousQuotaReservation (k : key) (generation : Z) : statement (uuid * QuotaRow) :=
  select_one (fun _ => latest_reservation ["reserved"; "confirmed"; "release_pending"]
                         (fun g => g <? generation) k).
Definition GetPublication (k : key) (generation : Z) : statement (Z * PublicationRow) :=
  select_one (fun _ db =>
    match publications db !! (k.1, k.2, generation) with Some p => Some (generation, p) | None => None end).
Definition GetLatestPublication (k : key) (generation : Z) : statement (Z * PublicationRow) :=
  select_one (fun _ db => latest_publication db k generation).

End Sql.
Import Sql.

(** ** operation_state.go *)
Section Store.
Context `{U : UuidLib} `{Q : QuantityLib}.
(** [time.Parse(time.RFC3339Nano, s)] succeeds. *)
Context (rfc3339nano : string -> bool).
Import Runner.

(** [retryAfter.Seconds()], in microseconds. *)
Definition microseconds (nanoseconds : Z) : Z := nanoseconds / 1000.

Definition Repository_AdvanceOperationStepCAS (tr : StepTransition) : M World unit :=
  tenant ← lift (requireUUID "tenant_id" (ST_TenantID tr));
  operation ← lift (requireUUID "operation_id" (ST_OperationID tr));
  _ ← check (negb (ST_TargetGeneration tr <? 1)) (errorf "target generation must be positive");
  lease ← lift (requireUUID "lease_token" (ST_LeaseToken tr));
  _ ← lift (ValidateOperationStepTransition (ST_Kind tr) (ExpectedPhase tr) (ExpectedStep tr)
              (NextPhase tr) (NextStep tr));
  rows ← exec (Sql.AdvanceOperationStepCAS (mkStepParams tenant operation (ST_TargetGeneration tr)
                 (ExpectedPhase tr) (ExpectedStep tr) lease (ErrorCode tr) (ErrorMessage tr))
                 (NextPhase tr) (NextStep tr));
  check (rows =? 1) ErrOperationCAS.

Definition Repository_RetryOperationStepCAS (tr : StepTransition) (retryAfter : Z) : M World unit :=
  _ ← check (negb (retryAfter <? 0)) (errorf "retry duration cannot be negative");
  tenant ← lift (requireUUID "tenant_id" (ST_TenantID tr));
  operation ← lift (requireUUID "operation_id" (ST_OperationID tr));
  _ ← check (negb (bool_decide (ST_Kind tr = "") || (ST_TargetGeneration tr <? 1) ||
                   negb (active (ExpectedPhase tr)))) ErrOperationCAS;
  lease ← lift (requireUUID "lease_token" (ST_LeaseToken tr));
  rows ← exec (Sql.RetryOperationStepCAS (mkStepParams tenant operation (ST_TargetGeneration tr)
                 (ExpectedPhase tr) (ExpectedStep tr) lease (ErrorCode tr) (ErrorMessage tr))
                 (microseconds retryAfter));
  check (rows =? 1) ErrOperationCAS.

(** ** operation_store.go *)
Definition audit_row (service operation : uuid) (e : Audit.Event) (now : Z) : AuditRow :=
  mkAuditRow service (Some operation) (Audit.Generation e) (Audit.EventType e) (Audit.Actor e)
    (Audit.RequestID e) (Audit.BeforeState e) (Audit.AfterState e) (Audit.Payload e) now.

(** The statements of [stepWithAudit], inside its transaction; [write] is the
    step or the retry. *)
Definition step_body (write : statement Z) (tr : StepTransition) (e : Audit.Event) (retry : bool)
    (tenant op : uuid) : M World (ending unit) :=
  rows ← exec write;
  _ ← check (rows =? 1) ErrOperationCAS;
  current ← exec (GetOperation tenant op);
  _ ← check (bool_decide (uuid_string (o_service_id current) = Audit.ServiceID e))
        (errorf "audit service does not match operation");
  _ ← (if negb retry && bool_decide (ST_Kind tr = "delete") && bool_decide (NextPhase tr = OperationSucceeded)
       then rows ← exec (MarkServiceDeleted (tenant, o_service_id current) op (ST_TargetGeneration tr));
            check (rows =? 1) ErrOperationCAS
       else mret tt);
  eTenant ← lift (tenantUUID (Audit.TenantID e));
  eService ← lift (workUUID "service_id" (Audit.ServiceID e));
  eOperation ← lift (workUUID "operation_id" (Audit.OperationID e));
  eID ← lift (match uuid_parse (Audit.EventID e) with
              | Some u => Ok u | None => Err (errorf "invalid UUID") end);
  _ ← exec (fun now => AppendAuditEvent eTenant eID (audit_row eService eOperation e now) now);
  mret (Schema.Commit tt).

Definition stepWithAudit (tr : StepTransition) (e : Audit.Event) (retry : bool) (after : Z) : M World unit :=
  tenant ← lift (tenantUUID (ST_TenantID tr));
  op ← lift (workUUID "operation_id" (ST_OperationID tr));
  lease ← lift (workUUID "lease_token" (ST_LeaseToken tr));
  _ ← check (negb (ST_TargetGeneration tr <? 1)) (errorf "target generation must be positive");
  _ ← check (bool_decide (Audit.TenantID e = ST_TenantID tr) &&
             bool_decide (Audit.OperationID e = ST_OperationID tr) &&
             (Audit.Generation e =? ST_TargetGeneration tr))
        (errorf "audit identity does not match operation transition");
  _ ← (if retry then mret tt
       else lift (ValidateOperationStepTransition (ST_Kind tr) (ExpectedPhase tr) (ExpectedStep tr)
                    (NextPhase tr) (NextStep tr)));
  let p := mkStepParams tenant op (ST_TargetGeneration tr) (ExpectedPhase tr) (ExpectedStep tr) lease
             (ErrorCode tr) (ErrorMessage tr) in
  transaction (step_body
    (if retry then Sql.RetryOperationStepCAS p (microseconds after)
     else Sql.AdvanceOperationStepCAS p (NextPhase tr) (NextStep tr)) tr e retry tenant op).

Definition AdvanceOperationStepCASWithAudit (tr : StepTransition) (e : Audit.Event) : M World unit :=
  stepWithAudit tr e false 0.
Definition RetryOperationStepCASWithAudit (tr : StepTransition) (after : Z) (e : Audit.Event) : M World unit :=
  stepWithAudit tr e true after.

(** *** Release scopes *)
Definition encodeManagedGPUReleaseScope (sealedAt : string) (pods : list Gpu.PodRef) : result ScopeDoc :=
  if negb (blank sealedAt) && negb (rfc3339nano sealedAt)
  then Err (errorf_before "invalid managed GPU release sealed_at" (errorf "cannot parse time"))
  else Ok (ScopeObject sealedAt pods).
Definition decodeManagedGPUReleaseScope (payload : jsonb ScopeDoc) : result (string * list Gpu.PodRef) :=
  match payload with
  | JVal (ScopeObject sealedAt pods) =>
      if bool_decide (sealedAt = "") then Ok ("", pods)
      else if rfc3339nano sealedAt then Ok (sealedAt, pods) else Err (errorf "cannot parse time")
  | JVal (ScopeArray pods) => Ok ("", pods)
  | JBad => Err (errorf "cannot decode release scope")
  end.

Definition scope_key (op : OperationContext) : result (key * uuid) :=
  tenant ← tenantUUID (TenantID op);
  service ← workUUID "service_id" (ServiceID op);
  operation ← workUUID "operation_id" (ID op);
  Ok ((tenant, service), operation).

(** [fmt.Errorf("<what>: %w", err)] around a pure result. *)
Definition wrap {A} (what : string) (r : result A) : result A :=
  match r with Ok a => Ok a | Err e => Err (errorf_before what e) end.

Definition SaveManagedGPUReleasePods (op : OperationContext) (pods : list Gpu.PodRef) : M World unit :=
  _ ← lift (Gpu.validateManagedGPUReleasePods pods);
  '(k, operation) ← lift (scope_key op);
  existing ← try (exec (GetManagedGPUReleaseScope k operation));
  '(sealedAt, pods) ← (match existing with
    | Ok payload =>
        old ← lift (wrap "decode existing managed GPU release scope" (decodeManagedGPUReleaseScope payload));
        pods ← lift (Gpu.mergeManagedGPUReleasePods old.2 pods);
        mret (if bool_decide (ManagedGPUReleaseSealedAt op = "") then old.1
              else ManagedGPUReleaseSealedAt op, pods)
    | Err e => if errors_is e "pgx.ErrNoRows" then mret (ManagedGPUReleaseSealedAt op, pods) else throw e
    end);
  payload ← lift (wrap "encode managed GPU release scope" (encodeManagedGPUReleaseScope sealedAt pods));
  exec (UpsertManagedGPUReleaseScope k operation payload).

Definition LoadManagedGPUReleasePods (op : OperationContext) : M World (list Gpu.PodRef) :=
  '(k, operation) ← lift (scope_key op);
  payload ← exec (GetManagedGPUReleaseScope k operation);
  scope ← lift (wrap "decode managed GPU release scope" (decodeManagedGPUReleaseScope payload));
  _ ← lift (wrap "invalid persisted managed GPU release scope"
              (Gpu.validateManagedGPUReleasePods scope.2));
  mret scope.2.

(** *** Facts *)
Definition SaveGPUSnapshot (op : OperationContext) (plan : Gpu.Snapshot) : M World unit :=
  match GPURequest op with
  | None => throw (errorf "GPU request is required")
  | Some request =>
      plan ← lift (Gpu.ValidateSnapshot (Some plan) (Some request));
      tenant ← lift (tenantUUID (TenantID op));
      service ← lift (workUUID "service_id" (ServiceID op));
      operation ← lift (workUUID "operation_id" (ID op));
      lease ← lift (workUUID "lease_token" (LeaseToken op));
      rows ← exec (SaveGPUPlanCAS (tenant, service) operation (TargetGeneration op) lease plan
                     (Gpu.ExecutionDigest plan));
      check (rows =? 1) ErrOperationCAS
  end.

Definition parse_generation (s : string) : result Z :=
  match parse_int64 s with
  | Some g => if g <? 1 then Err (errorf "invalid reservation generation") else Ok g
  | None => Err (errorf "invalid reservation generation")
  end.

Definition SaveQuotaReservation (r : Quota.Reservation) : M World unit :=
  tenant ← lift (tenantUUID (Quota.TenantID r));
  op ← lift (workUUID "operation_id" (Quota.OperationID r));
  gen ← lift (parse_generation (Quota.Generation r));
  lease ← lift (workUUID "lease_token" (Quota.LeaseToken r));
  fence ← lift (workUUID "fence_operation_id"
            (if bool_decide (Quota.FenceOperationID r = "") then Quota.OperationID r
             else Quota.FenceOperationID r));
  rows ← exec (UpdateQuotaReservationFenced tenant op (Quota.ReservationID r)
                 (Quota.RequestedResources r) (Quota.State r) (Quota.LastErrorCode r) gen fence lease);
  check (rows =? 1) Reconcile.ErrStaleGeneration.

Definition SavePublication (p : Publication.Publication) : M World unit :=
  tenant ← lift (tenantUUID (Publication.TenantID p));
  service ← lift (workUUID "service_id" (Publication.ServiceID p));
  let state := Publication.State p in
  _ ← check (in_list state desired_phases) (errorf ("invalid publication state " +:+ quoted state));
  let observed := if intermediate state then "withdrawn" else state in
  op ← lift (workUUID "fence_operation_id"
         (if bool_decide (Publication.FenceOperationID p = "") then Publication.OperationID p
          else Publication.FenceOperationID p));
  lease ← lift (workUUID "lease_token" (Publication.LeaseToken p));
  rows ← exec (UpsertPublicationFenced (tenant, service) (Publication.Generation p) state observed
                 (Publication.URL p) "" op lease);
  check (rows =? 1) Reconcile.ErrStaleGeneration.

Definition bizObservation (op : OperationContext) (phase health : string) (fact : RuntimeObservation)
    : Reconcile.Observation :=
  Reconcile.mkObservation (TargetGeneration op)
    (if bool_decide (RO_RuntimePhase fact = "") then phase else RO_RuntimePhase fact)
    (ReadyReplicas fact) (ReadyGroups fact) (ReadyWorkers fact) (ModelReady fact)
    (ModelReadyKnown fact) "" health (RO_RuntimeMode fact) (LWSUID fact) (RO_Reason fact) (Objects fact).
Definition SaveRuntimeObservation (op : OperationContext) (fact : RuntimeObservation) : M World unit :=
  let health := if bool_decide (InvocationHealth fact = "") then "unhealthy" else InvocationHealth fact in
  let '(phase, health) :=
    if Absent fact then ("stopped", "unhealthy")
    else if Ready fact then ("ready", health) else ("degraded", health) in
  SaveObservationForWork
    (Work.mkItem (TenantID op) (ServiceID op) (TargetGeneration op) 0 (LeaseToken op))
    (bizObservation op phase health fact).

Definition model_statement (op : OperationContext) (write : key -> uuid -> statement Z) : M World unit :=
  tenant ← lift (tenantUUID (TenantID op));
  service ← lift (workUUID "service_id" (ServiceID op));
  lease ← lift (workUUID "lease_token" (LeaseToken op));
  rows ← exec (write (tenant, service) lease);
  check (rows =? 1) Reconcile.ErrStaleGeneration.
Definition SaveModelObservation (op : OperationContext) (fact : ModelObservation) : M World unit :=
  _ ← check (Known fact) (errorf "model observation is not known");
  model_statement op (fun k lease =>
    UpdateModelObservationForWork k (TargetGeneration op) (MO_Ready fact) (MO_Reason fact) lease).
Definition MarkModelMaterializing (op : OperationContext) : M World unit :=
  model_statement op (fun k lease => MarkModelMaterializingForWork k (TargetGeneration op) lease).

(** *** CurrentOperation *)
(** [None] for [pgx.ErrNoRows], any other error is returned. *)
Definition optional {A} (f : statement A) : M World (option A) :=
  r ← try (exec f);
  match r with
  | Ok a => mret (Some a)
  | Err e => if errors_is e "pgx.ErrNoRows" then mret None else throw e
  end.

Definition decodeResourceSpec (payload : jsonb Resources.Spec) : result Resources.Spec :=
  match payload with
  | JBad => Err (errorf "cannot decode resource spec")
  | JVal spec => Resources.Normalize spec
  end.
Definition reservationFromRow (k : key) (operation : uuid) (row : QuotaRow) (op : OperationContext)
    : result Quota.Reservation :=
  spec ← wrap "decode quota resource snapshot" (decodeResourceSpec (q_requested_resources row));
  Ok (Quota.mkReservation (uuid_string k.1) (uuid_string k.2) (uuid_string operation)
        (format_int (q_generation row)) (q_reservation_id row) (LeaseToken op) (ID op) spec None
        (q_state row) (q_last_error_code row)).

Definition positive_workers (n : Z) : Z := if n =? 0 then 1 else n.
Definition populateQuotaDemand (r : Quota.Reservation) (tenant : uuid) : M World Quota.Reservation :=
  service ← lift (workUUID "service_id" (Quota.ServiceID r));
  generation ← lift (parse_generation (Quota.Generation r));
  exact ← try (exec (GetSpec (tenant, service) generation));
  spec ← try (match exact with
    | Ok s => mret s
    | Err e => if errors_is e "pgx.ErrNoRows" then exec (GetLatestSpec (tenant, service) generation)
               else throw e
    end);
  '(_, row) ← lift (wrap "load quota demand spec" spec);
  let body := sp_body row in
  demandSpec ← lift (wrap "decode quota demand spec" (decodeResourceSpec (sp_resources body)));
  demand ← lift (wrap "aggregate quota demand"
    (Resources.Aggregate demandSpec (sp_replicas body) (sp_runtime_mode body)
       (positive_workers (sp_worker_replicas body))));
  mret (r <| Quota.Demand := Some demand |>).
(** A reservation row as the runner gets it. *)
Definition load_reservation (k : key) (op : OperationContext) (row : option (uuid * QuotaRow))
    : M World Quota.Reservation :=
  match row with
  | None => mret Quota.none
  | Some (operation, row) =>
      r ← lift (reservationFromRow k operation row op);
      populateQuotaDemand r k.1
  end.

(** The managed part: class, original create operation and its Pod scope. *)
Definition load_managed (k : key) (op : OperationContext) : M World OperationContext :=
  '(managed, _) ← exec (GetManagedGPUState k);
  let op := op <| Managed := managed |> in
  if negb managed then mret op else
  row ← exec (GetManagedGPUResource k);
  original ← (match m_original_context row with
    | JVal c => mret c
    | JBad => throw (errorf_before "decode managed GPU context" (errorf "cannot decode"))
    end);
  let op := op <| ManagedGPU := bool_decide (Gpu.ResourceClass original = "gpu") ||
                                bool_decide (is_Some (Gpu.RC_Snapshot original)) |>
               <| ManagedGPUCreateOperationID := Gpu.OriginalCreateOperationID original |> in
  create ← lift (workUUID "managed GPU create operation" (Gpu.OriginalCreateOperationID original));
  scope ← optional (GetManagedGPUReleaseScope k create);
  match scope with
  | None => mret op
  | Some raw =>
      '(sealedAt, pods) ← lift (wrap "decode managed GPU release scope" (decodeManagedGPUReleaseScope raw));
      _ ← lift (wrap "invalid managed GPU release scope" (Gpu.validateManagedGPUReleasePods pods));
      mret (op <| ManagedGPUReleaseSealedAt := sealedAt |> <| ManagedGPUReleasePods := pods |>)
  end.

(** The specification of the target generation; a delete has none of its own. *)
Definition load_spec (k : key) (op : OperationContext) : M World (option (Z * SpecRow)) :=
  exact ← optional (GetSpec k (TargetGeneration op));
  match exact with
  | Some s => mret (Some s)
  | None => if bool_decide (Kind op = "delete") then optional (GetLatestSpec k (TargetGeneration op))
            else mret None
  end.
Definition decode_json {A} (what : string) (j : option (jsonb A)) : result (option A) :=
  match j with
  | None => Ok None
  | Some (JVal a) => Ok (Some a)
  | Some JBad => Err (errorf_before what (errorf "cannot decode"))
  end.
Definition apply_spec (body : SpecBody) (op : OperationContext) : result OperationContext :=
  request ← decode_json "decode GPU request" (sp_gpu_request body);
  plan ← decode_json "decode GPU plan" (sp_gpu_plan body);
  let digest_differs := match plan, sp_gpu_plan_digest body with
    | Some plan, Some digest => negb (bool_decide (Gpu.ExecutionDigest plan = digest))
    | _, _ => false
    end in
  _ ← checkr (negb digest_differs) (errorf "GPU plan digest does not match persisted digest");
  Ok (op <| Replicas := sp_replicas body |>
         <| WorkerReplicas := positive_workers (sp_worker_replicas body) |>
         <| RuntimeMode := defaulted (sp_runtime_mode body) "deployment" |>
         <| GPURequest := request |> <| GPUSnapshot := plan |>).

Definition load_publication (k : key) (item : Work.Item) (operation : uuid) (op : OperationContext)
    : M World Publication.Publication :=
  row ← optional (if bool_decide (Step op = StepPublish) then GetPublication k (TargetGeneration op)
                  else GetLatestPublication k (TargetGeneration op));
  let id := uuid_string operation in
  mret match row with
  | Some (generation, p) =>
      Publication.mkPublication (uuid_string k.1) (uuid_string k.2) id generation (Work.LeaseToken item)
        id (p_invocation_url p) (p_observed_phase p)
  | None =>
      Publication.mkPublication (Work.TenantID item) (Work.ServiceID item) id (TargetGeneration op)
        (Work.LeaseToken item) id "" "withdrawn"
  end.

Definition no_publication : Publication.Publication := Publication.mkPublication "" "" "" 0 "" "" "" "".
Definition context_of (tenant id : uuid) (row : OperationRow) (lease : string) : OperationContext :=
  mkOperationContext (uuid_string tenant) (uuid_string (o_service_id row)) (uuid_string id) (o_kind row)
    "" "" lease (o_phase row) (o_step row) (o_attempt row) (o_target_generation row) Quota.none
    Quota.none no_publication None None false false "" [] "" 0 0 "".

Definition load_operation (item : Work.Item) (tenant id : uuid) (row : OperationRow)
    : M World OperationContext :=
  let k := (tenant, o_service_id row) in
  op ← load_managed k (context_of tenant id row (Work.LeaseToken item));
  spec ← load_spec k op;
  op ← lift (match spec with Some (_, s) => apply_spec (sp_body s) op | None => Ok op end);
  caller ← optional (GetOperationAuditContext tenant id);
  let op := match caller with
            | Some (actor, request) => op <| Actor := actor |> <| RequestID := request |>
            | None => op
            end in
  active ← optional (GetActiveQuotaReservation k (TargetGeneration op));
  reservation ← load_reservation k op active;
  let op := op <| Reservation := reservation |> in
  previous ← (if bool_decide (Kind op = "update") || bool_decide (Kind op = "restart")
              then previous ← optional (GetPreviousQuotaReservation k (TargetGeneration op));
                   load_reservation k op previous
              else mret Quota.none);
  let op := op <| PreviousReservation := previous |> in
  publication ← load_publication k item id op;
  mret (op <| Pub := publication |>).
Definition CurrentOperation (item : Work.Item) : M World OperationContext :=
  tenant ← lift (tenantUUID (Work.TenantID item));
  lease ← lift (workUUID "lease_token" (Work.LeaseToken item));
  found ← optional (GetLeasedOperation tenant lease);
  match found with
  | None => throw Work.ErrStaleGeneration
  | Some (id, row) => load_operation item tenant id row
  end.

(** The store as the runner sees it: every optional capability is present. *)
Definition atomic_store : AtomicStepStore World :=
  mkAtomicStepStore AdvanceOperationStepCASWithAudit RetryOperationStepCASWithAudit.
Definition as_operation_store : Runner.OperationStore World :=
  mkOperationStore CurrentOperation Repository_AdvanceOperationStepCAS Repository_RetryOperationStepCAS
    SaveQuotaReservation SavePublication SaveRuntimeObservation (Some atomic_store)
    (Some (mkModelObservationStore MarkModelMaterializing SaveModelObservation))
    (Some SaveGPUSnapshot)
    (Some (mkScopeStore SaveManagedGPUReleasePods LoadManagedGPUReleasePods)).

(** ** Properties *)

(** *** The step compare-and-swap *)
Lemma select_one_inv {A} (f : Z -> DB -> option A) now db a db' :
  select_one f now db = Ok (a, db') -> f now db = Some a ∧ db' = db.
Proof. unfold select_one. destruct (f now db); [|done]. by intros [= <- <-]. Qed.
(** The row a step write replaces, and what fences the write. *)
Record fence_ok (now : Z) (db : DB) (p : StepParams) (o : OperationRow) (s : ServiceRow) : Prop := {
  fo_operation : operations db !! (st_tenant p, st_operation p) = Some o;
  fo_service : services db !! (st_tenant p, o_service_id o) = Some s;
  fo_current : s_current_operation_id s = Some (st_operation p);
  fo_lease : holds_lease (st_tenant p, o_service_id o) now (st_token p) db = true;
  fo_generation : o_target_generation o = st_generation p;
  fo_desired : s_desired_generation s = o_target_generation o;
  fo_phase : o_phase o = st_phase p;
  fo_step : o_step o = st_step p;
}.

Lemma step_row_some now db p o : step_row now db p = Some o -> ∃ s, fence_ok now db p o s.
Proof.
  unfold step_row, fenced_operation.
  destruct (operations db !! _) as [o'|] eqn:Eo; [|done].
  destruct (services db !! _) as [s|] eqn:Es; [|done].
  destruct (bool_decide (s_current_operation_id s = _) && _) eqn:B1; [|done].
  destruct (_ && _ && _ && _) eqn:B2; [|done]. intros [= <-].
  rewrite !andb_true_iff, !bool_decide_eq_true in B1.
  rewrite !andb_true_iff, !bool_decide_eq_true, !Z.eqb_eq in B2.
  destruct B1 as [? ?], B2 as [[[? ?] ?] ?].
  exists s. by split.
Qed.
Lemma put_operation_ok tenant id o db db' :
  put_operation tenant id o db = Ok db' -> db' = db <| operations := <[(tenant, id) := o]> (operations db) |>.
Proof. unfold put_operation. destruct (negb _); [done|]. destruct (_ && _); [done|]. by intros [= <-]. Qed.

Definition set_operation (p : StepParams) (o : OperationRow) (db : DB) : DB :=
  db <| operations := <[(st_tenant p, st_operation p) := o]> (operations db) |>.

Lemma advance_inv p phase step now db n db' :
  Sql.AdvanceOperationStepCAS p phase step now db = Ok (n, db') ->
  (n = 0 ∧ db' = db) ∨ n = 1 ∧ ∃ o s, fence_ok now db p o s ∧ retry_due now o = true ∧
    db' = set_operation p (advanced now phase step (st_error_code p) (st_error_message p) o) db.
Proof.
  unfold Sql.AdvanceOperationStepCAS, write_row.
  destruct (step_row now db p) as [o|] eqn:E; [|intros [= <- <-]; by left].
  destruct (retry_due now o) eqn:Er; [|intros [= <- <-]; by left].
  intros H. minv H. injection Hm as <-. apply put_operation_ok in Hm0 as ->. injection H as <- <-.
  right. split; [done|]. destruct (step_row_some _ _ _ _ E) as [s Hs]. by exists o, s.
Qed.
Lemma retry_step_inv p retry now db n db' :
  Sql.RetryOperationStepCAS p retry now db = Ok (n, db') ->
  (n = 0 ∧ db' = db) ∨ n = 1 ∧ ∃ o s, fence_ok now db p o s ∧
    db' = set_operation p (retried now retry (o_attempt o + 1) (st_error_code p) (st_error_message p) o) db.
Proof.
  unfold Sql.RetryOperationStepCAS, write_row.
  destruct (step_row now db p) as [o|] eqn:E; [|intros [= <- <-]; by left].
  intros H. minv H. minv Hm. apply integer_ok in Hm1 as ->. injection Hm as <-.
  apply put_operation_ok in Hm0 as ->. injection H as <- <-.
  right. split; [done|]. destruct (step_row_some _ _ _ _ E) as [s Hs]. by exists o, s.
Qed.

Lemma mark_deleted_inv k op g now db n db' :
  MarkServiceDeleted k op g now db = Ok (n, db') ->
  (n = 0 ∧ db' = db) ∨ n = 1 ∧ ∃ s s', services db !! k = Some s ∧ s_desired_state s = "deleted" ∧
    db' = db <| services := <[k := s']> (services db) |> ∧ undeleted s' = false ∧
    s_desired_generation s' = s_desired_generation s ∧
    s_current_operation_id s' = s_current_operation_id s.
Proof.
  unfold MarkServiceDeleted. intros [(_ & -> & ->)|[H ->]]%execrows_inv; [by left|right; split; [done|]].
  destruct (services db !! k) as [s|] eqn:Es; [|done].
  destruct (_ && _ && _) eqn:B; [|done]. rewrite !andb_true_iff, !bool_decide_eq_true in B.
  destruct B as [[_ B] _]. injection H as <-. by eexists s, _.
Qed.
Lemma append_audit_inv tenant id a now db u db' :
  AppendAuditEvent tenant id a now db = Ok (u, db') ->
  ∃ m, db' = db <| audits := m |> ∧ is_Some (m !! (tenant, id)) ∧
       (∀ x, audits db !! (tenant, id) = Some x -> m = audits db).
Proof.
  unfold AppendAuditEvent. destruct (negb _); [done|]. case_bool_decide as Ha.
  - intros [= _ <-]. exists (audits db). split; [by destruct db|done].
  - destruct (_ || _); [done|]. intros [= _ <-]. eexists. split; [done|].
    rewrite lookup_insert_eq. split; [by eexists|]. intros x Hx. destruct Ha. by eexists.
Qed.

(** *** One step and its audit event *)
(** What [step_body] commits: [o'] is the new operation row. *)
(** Every service keeps its desired generation and current operation. *)
Definition same_heads (m m' : gmap key ServiceRow) : Prop := ∀ k s, m !! k = Some s ->
  ∃ s', m' !! k = Some s' ∧ s_desired_generation s' = s_desired_generation s ∧
        s_current_operation_id s' = s_current_operation_id s.
Record step_committed (p : StepParams) (since : Z) (tr : StepTransition) (e : Audit.Event)
    (retry : bool) (o' : Z -> OperationRow -> OperationRow) (db db' : DB) : Prop := {
  sc_row : ∃ now o s, since <= now ∧ fence_ok now db p o s ∧ (retry = false -> retry_due now o = true) ∧
    operations db' = <[(st_tenant p, st_operation p) := o' now o]> (operations db) ∧
    (retry = false -> ST_Kind tr = "delete" -> NextPhase tr = OperationSucceeded ->
       ∃ s', services db' !! (st_tenant p, o_service_id o) = Some s' ∧ undeleted s' = false);
  sc_audit : ∃ t id, uuid_parse (Audit.TenantID e) = Some t ∧ uuid_parse (Audit.EventID e) = Some id ∧
    is_Some (audits db' !! (t, id));
  sc_work : work db' = work db;
  sc_services : same_heads (services db) (services db');
}.

Lemma audit_tail_effect e w r w' :
  (eTenant ← lift (tenantUUID (Audit.TenantID e));
   eService ← lift (workUUID "service_id" (Audit.ServiceID e));
   eOperation ← lift (workUUID "operation_id" (Audit.OperationID e));
   eID ← lift (match uuid_parse (Audit.EventID e) with
               | Some u => Ok u | None => Err (errorf "invalid UUID") end);
   _ ← exec (fun now => AppendAuditEvent eTenant eID (audit_row eService eOperation e now) now);
   mret (Schema.Commit tt)) w = (Ok (Schema.Commit r), w') ->
  ∃ t id m, uuid_parse (Audit.TenantID e) = Some t ∧ uuid_parse (Audit.EventID e) = Some id ∧
    w_db w' = (w_db w) <| audits := m |> ∧ is_Some (m !! (t, id)).
Proof.
  intros H. minv H. injection H as _ <-.
  unfold tenantUUID, workUUID, lift in Hm, Hm0, Hm1, Hm2.
  destruct (uuid_parse (Audit.TenantID e)) as [t|] eqn:Et; [|done]. injection Hm as <- <-.
  destruct (uuid_parse (Audit.ServiceID e)) as [sv|]; [|done]. injection Hm0 as <- <-.
  destruct (uuid_parse (Audit.OperationID e)) as [o|]; [|done]. injection Hm1 as <- <-.
  destruct (uuid_parse (Audit.EventID e)) as [id|] eqn:Ei; [|done]. injection Hm2 as <- <-.
  apply exec_ok in Hm3 as (now & _ & Ha & _). apply append_audit_inv in Ha as (m & Hm & Hs & _).
  by exists t, id, m.
Qed.

Definition delete_completed (tr : StepTransition) (retry : bool) : bool :=
  negb retry && bool_decide (ST_Kind tr = "delete") && bool_decide (NextPhase tr = OperationSucceeded).
Lemma mark_step_effect (b : bool) k op g (w : World) u w' :
  (if b then rows ← exec (MarkServiceDeleted k op g); check (rows =? 1) ErrOperationCAS else mret tt) w
    = (Ok u, w') ->
  ∃ m, w_db w' = (w_db w) <| services := m |> ∧ same_heads (services (w_db w)) m ∧
    (b = true -> ∃ s', m !! k = Some s' ∧ undeleted s' = false).
Proof.
  destruct b; intros H.
  - minv H. apply exec_ok in Hm as (now & _ & Hd & _).
    apply mark_deleted_inv in Hd as [[-> _]|(_ & s & s' & Hs & _ & -> & Hu & Hg & Hc)]; [done|].
    eexists. split; [done|]. split; [|intros _; rewrite lookup_insert_eq; by exists s'].
    intros k' s0 Hs0. destruct (decide (k' = k)) as [->|]; [|rewrite lookup_insert_ne by done; by exists s0].
    exists s'. rewrite lookup_insert_eq. split_and!; congruence.
  - injection H as _ <-. exists (services (w_db w)). split; [by destruct (w_db w)|].
    split; [intros k' s Hs; by exists s|done].
Qed.

Lemma step_body_effect write p tr e retry o' w r w' :
  (∀ now db n db', write now db = Ok (n, db') ->
     (n = 0 ∧ db' = db) ∨ n = 1 ∧ ∃ o s, fence_ok now db p o s ∧ (retry = false -> retry_due now o = true) ∧
       db' = set_operation p (o' now o) db) ->
  (∀ now o, o_service_id (o' now o) = o_service_id o) ->
  step_body write tr e retry (st_tenant p) (st_operation p) w = (Ok (Schema.Commit r), w') ->
  step_committed p (w_now w) tr e retry o' (w_db w) (w_db w').
Proof.
  intros Hw Ho H. unfold step_body in H.
  apply bind_ok_inv in H as (rows & u1 & H1 & H). apply bind_ok_inv in H as ([] & u2 & H2 & H).
  apply check_ok_inv in H2 as [H2 <-]. apply exec_ok in H1 as (now & Ht & H1 & _).
  apply Hw in H1 as [[-> _]|(_ & o & s & Hf & Hr & Hdb)]; [done|].
  apply bind_ok_inv in H as (cur & u3 & H3 & H). apply exec_ok in H3 as (? & _ & H3 & _).
  unfold Sql.GetOperation in H3. apply select_one_inv in H3 as [H3 E3]. rewrite Hdb in H3. cbn in H3. rewrite lookup_insert_eq in H3.
  injection H3 as <-.
  apply bind_ok_inv in H as ([] & u4 & H4 & H). apply check_ok_inv in H4 as [_ <-].
  apply bind_ok_inv in H as ([] & u5 & H5 & H). apply mark_step_effect in H5 as (m & E5 & Hh & Hm).
  apply audit_tail_effect in H as (t & id & m' & Pt & Pi & E & Ha).
  rewrite E3, Hdb in Hh. rewrite E, E5, E3, Hdb. split; cbn; [|by exists t, id|done|done].
  exists now, o, s. split_and!; [done..|]. intros -> Hk Hp. rewrite <- (Ho now o). apply Hm.
  by rewrite Hk, Hp.
Qed.

(** The parameters of the step statement of a transition. *)
Definition step_params (tr : StepTransition) : option StepParams :=
  match uuid_parse (ST_TenantID tr), uuid_parse (ST_OperationID tr), uuid_parse (ST_LeaseToken tr) with
  | Some tenant, Some op, Some lease =>
      Some (mkStepParams tenant op (ST_TargetGeneration tr) (ExpectedPhase tr) (ExpectedStep tr) lease
              (ErrorCode tr) (ErrorMessage tr))
  | _, _, _ => None
  end.
(** The row that replaces the operation's. *)
Definition next_row (tr : StepTransition) (retry : bool) (after : Z) (now : Z) (o : OperationRow)
    : OperationRow :=
  if retry then retried now (microseconds after) (o_attempt o + 1) (ErrorCode tr) (ErrorMessage tr) o
  else advanced now (NextPhase tr) (NextStep tr) (ErrorCode tr) (ErrorMessage tr) o.
Lemma next_row_service tr retry after now o : o_service_id (next_row tr retry after now o) = o_service_id o.
Proof. by destruct retry. Qed.

Lemma tenantUUID_ok s (w : World) u w' : lift (tenantUUID s) w = (Ok u, w') -> uuid_parse s = Some u ∧ w' = w.
Proof. unfold tenantUUID, workUUID, lift. destruct (uuid_parse s); [|done]. by intros [= <- <-]. Qed.
Lemma workUUID_ok what s (w : World) u w' :
  lift (workUUID what s) w = (Ok u, w') -> uuid_parse s = Some u ∧ w' = w.
Proof. unfold workUUID, lift. destruct (uuid_parse s); [|done]. by intros [= <- <-]. Qed.
Lemma validated_ok (retry : bool) tr (w : World) u w' :
  (if retry then mret tt
   else lift (ValidateOperationStepTransition (ST_Kind tr) (ExpectedPhase tr) (ExpectedStep tr)
                (NextPhase tr) (NextStep tr))) w = (Ok u, w') ->
  w' = w ∧ (retry = false ->
    ValidateOperationStepTransition (ST_Kind tr) (ExpectedPhase tr) (ExpectedStep tr)
      (NextPhase tr) (NextStep tr) = Ok tt).
Proof.
  destruct retry; [by intros [= _ <-]|]. unfold lift. intros [= E <-]. split; [done|]. by destruct u.
Qed.

Lemma stepWithAudit_effect tr e retry after w r w' :
  stepWithAudit tr e retry after w = (r, w') ->
  (w_db w' = w_db w ∧ is_ok r = false) ∨
  ∃ p, step_params tr = Some p ∧
    (retry = false -> ValidateOperationStepTransition (ST_Kind tr) (ExpectedPhase tr) (ExpectedStep tr)
                        (NextPhase tr) (NextStep tr) = Ok tt) ∧
    step_committed p (w_now w) tr e retry (next_row tr retry after) (w_db w) (w_db w') ∧
    (r = Ok tt ∨ r = Err ErrConn).
Proof.
  intros H. unfold stepWithAudit in H. guards H.
  apply tenantUUID_ok in Hg as [Ht _]. apply workUUID_ok in Hg0 as [Ho _], Hg1 as [Hl _].
  apply validated_ok in Hg4 as [_ Hv]. unfold step_params. rewrite Ht, Ho, Hl.
  apply transaction_effect in H as [[Hdb Hd]|(u & [] & v & Hu & Hn & _ & Hb & Hdb & Hr)].
  - left. split; [done|]. destruct r as [[]|]; [|done].
    destruct (Hd _ eq_refl) as (u & v & _ & Hb). unfold step_body in Hb. by minv Hb.
  - right. set (p := mkStepParams _ _ _ _ _ _ _ _) in *.
    exists p. split; [done|]. split; [done|]. split; [|done]. rewrite <- Hu, Hdb.
    apply (step_body_effect _ p _ _ _ (next_row tr retry after)) in Hb; cycle 1.
    + intros now db n db' Hw. destruct retry.
      * apply retry_step_inv in Hw as [|(-> & o & s & Hf & ->)]; [by left|]. right. split; [done|].
        by exists o, s.
      * apply advance_inv in Hw as [|(-> & o & s & Hf & Hd & ->)]; [by left|]. right. split; [done|].
        by exists o, s.
    + apply next_row_service.
    + destruct Hb as [(now & o & s & Hle & Hrest) ? ? ?]. split; [|done..]. exists now, o, s.
      split; [lia|done].
Qed.

(** *** Everything else leaves the operations alone *)
Definition same_operations (db db' : DB) : Prop := operations db' = operations db.
#[global] Instance same_operations_preorder : PreOrder same_operations.
Proof. split; [done|]. unfold same_operations. intros a b c ? ?. congruence. Qed.

(** A statement all of whose branches write other tables. *)
Ltac writes_elsewhere :=
  repeat first [case_match | case_bool_decide]; intros; simplify_eq; try done; by intuition.
Lemma respects_quota tenant op res req st code g fence token :
  respects same_operations (UpdateQuotaReservationFenced tenant op res req st code g fence token).
Proof. intros now db n db'. unfold UpdateQuotaReservationFenced. writes_elsewhere. Qed.
Lemma respects_publication k g d o url code fence token :
  respects same_operations (UpsertPublicationFenced k g d o url code fence token).
Proof. intros now db n db'. unfold UpsertPublicationFenced. writes_elsewhere. Qed.
Lemma respects_model g k gen token : respects same_operations (update_model g k gen token).
Proof. apply respects_execrows; [apply _|]. intros now db db'. writes_elsewhere. Qed.
Lemma respects_gpu_plan k op g token plan digest :
  respects same_operations (SaveGPUPlanCAS k op g token plan digest).
Proof. apply respects_execrows; [apply _|]. intros now db db'. cbv zeta. writes_elsewhere. Qed.
Lemma respects_scope k op pods : respects same_operations (UpsertManagedGPUReleaseScope k op pods).
Proof. by intros now db n db' [= _ <-]. Qed.
Lemma respects_observation guard k p : respects same_operations (update_observation guard k p).
Proof. intros now db n db'. unfold update_observation. writes_elsewhere. Qed.
Lemma respects_applied k g : respects same_operations (MarkServiceAppliedGeneration k g).
Proof. apply respects_execrows; [apply _|]. intros now db db'. writes_elsewhere. Qed.
Lemma respects_bind k p : respects same_operations (UpsertRuntimeBindingCAS k p).
Proof. by intros now db n db' [b ->]%upsert_binding_frame. Qed.
Lemma respects_unbind k g kind role uid rv :
  respects same_operations (DeleteRuntimeBindingCAS k g kind role uid rv).
Proof. by intros now db n db' [b ->]%delete_binding_frame. Qed.
Lemma respects_event tenant id e :
  respects same_operations (fun now => AppendObservationEvent tenant id (e now) now).
Proof. by intros now db n db' [x ->]%append_event_frame. Qed.
#[local] Hint Resolve respects_quota respects_publication respects_model respects_gpu_plan
  respects_scope respects_observation respects_applied respects_bind respects_unbind respects_event : moves.

Lemma moves_save_quota x : moves (db_rel same_operations) (SaveQuotaReservation x).
Proof. unfold SaveQuotaReservation. moves. Qed.
Lemma moves_save_publication x : moves (db_rel same_operations) (SavePublication x).
Proof. unfold SavePublication. moves. Qed.
Lemma moves_save_observation op x : moves (db_rel same_operations) (SaveRuntimeObservation op x).
Proof.
  unfold SaveRuntimeObservation, SaveObservationForWork, project_observation, current_runtime,
    UpdateObservationForWork, save_object, writeObservationEvent.
  db_moves.
Qed.
Lemma moves_model_mark op : moves (db_rel same_operations) (MarkModelMaterializing op).
Proof. unfold MarkModelMaterializing, model_statement, MarkModelMaterializingForWork. moves. Qed.
Lemma moves_model_save op x : moves (db_rel same_operations) (SaveModelObservation op x).
Proof. unfold SaveModelObservation, model_statement, UpdateModelObservationForWork. moves. Qed.
Lemma moves_gpu_save op x : moves (db_rel same_operations) (SaveGPUSnapshot op x).
Proof. unfold SaveGPUSnapshot. moves. Qed.
Lemma moves_scope_save op x : moves (db_rel same_operations) (SaveManagedGPUReleasePods op x).
Proof. unfold SaveManagedGPUReleasePods, GetManagedGPUReleaseScope. moves. Qed.
Lemma moves_scope_load op : moves (db_rel same_operations) (LoadManagedGPUReleasePods op).
Proof. unfold LoadManagedGPUReleasePods, GetManagedGPUReleaseScope. moves. Qed.

(** *** Loading *)
Lemma moves_optional {A} (g : statement A) :
  respects same_operations g -> moves (db_rel same_operations) (optional g).
Proof. intros Hg. unfold optional. moves. Qed.
#[local] Hint Resolve moves_optional : moves.
Lemma moves_reservation k op row : moves (db_rel same_operations) (load_reservation k op row).
Proof. unfold load_reservation, populateQuotaDemand, Sql.GetSpec, Sql.GetLatestSpec. moves. Qed.
Lemma moves_load_managed k op : moves (db_rel same_operations) (load_managed k op).
Proof.
  unfold load_managed, GetManagedGPUState, GetManagedGPUResource, GetManagedGPUReleaseScope. moves.
Qed.
#[local] Hint Resolve moves_reservation moves_load_managed : moves.
Lemma moves_load_publication k item op o : moves (db_rel same_operations) (load_publication k item op o).
Proof. unfold load_publication. moves. apply moves_optional. destruct (bool_decide _); apply respects_select_one, _. Qed.
#[local] Hint Resolve moves_load_publication : moves.
Lemma moves_current item : moves (db_rel same_operations) (CurrentOperation item).
Proof.
  unfold CurrentOperation, load_operation, load_spec, GetLeasedOperation, Sql.GetSpec, Sql.GetLatestSpec,
    GetOperationAuditContext, GetActiveQuotaReservation, GetPreviousQuotaReservation. moves.
Qed.

(** The identity and the state of the loaded operation. *)
Definition same_operation (op op' : OperationContext) : Prop :=
  TenantID op' = TenantID op ∧ ID op' = ID op ∧ Kind op' = Kind op ∧ Phase op' = Phase op ∧
  Step op' = Step op ∧ ServiceID op' = ServiceID op ∧ TargetGeneration op' = TargetGeneration op.
Lemma yields_load_managed k op : yields (same_operation op) (load_managed k op).
Proof. unfold load_managed. yields; done. Qed.
Lemma yields_apply_spec (spec : option (Z * SpecRow)) op :
  yields (S := World) (same_operation op)
    (lift (match spec with Some (_, s) => apply_spec (sp_body s) op | None => Ok op end)).
Proof.
  intros w op' w' [= H _]. destruct spec as [[g s]|]; [|by simplify_eq]. unfold apply_spec in H.
  minv H. by injection H as <-.
Qed.
Lemma yields_load_operation item tenant id row :
  yields (same_operation (context_of tenant id row (Work.LeaseToken item))) (load_operation item tenant id row).
Proof.
  unfold load_operation. eapply yields_bind_with; [apply yields_load_managed|]. intros op Hop.
  apply yields_bind. intros spec. eapply yields_bind_with; [apply yields_apply_spec|]. intros op' Hop'.
  apply yields_bind. intros caller. cbv zeta. repeat (apply yields_bind; intros ?).
  apply yields_ret. destruct Hop as (?&?&?&?&?&?&?), Hop' as (?&?&?&?&?&?&?).
  destruct caller as [[??]|]; split_and!; cbn in *; congruence.
Qed.
Lemma leased_operation_inv tenant token now db id row db' :
  GetLeasedOperation tenant token now db = Ok ((id, row), db') ->
  operations db !! (tenant, id) = Some row ∧ db' = db.
Proof.
  unfold GetLeasedOperation. intros [H ->]%select_one_inv. split; [|done].
  apply head_Some_elem_of in H. apply list_elem_of_omap in H as ([k w] & _ & H).
  repeat (case_match; try done). by simplify_eq.
Qed.
Lemma optional_inv {A} (g : statement A) w a w' :
  optional g w = (Ok (Some a), w') -> ∃ now, g now (w_db w) = Ok (a, w_db w').
Proof.
  unfold optional. intros H. minv H. destruct a0 as [b|e]; [|by destruct (errors_is _ _)].
  injection H as <- <-. apply exec_ok in Hm as (now & _ & H & _). eauto.
Qed.
Lemma current_loads item w op w' :
  CurrentOperation item w = (Ok op, w') ->
  ∃ tenant id row, operations (w_db w) !! (tenant, id) = Some row ∧
    TenantID op = uuid_string tenant ∧ ID op = uuid_string id ∧ Kind op = o_kind row ∧
    Phase op = o_phase row ∧ Step op = o_step row.
Proof.
  unfold CurrentOperation. intros H.
  apply bind_ok_inv in H as (tenant & u1 & [_ ->]%tenantUUID_ok & H).
  apply bind_ok_inv in H as (lease & u2 & [_ ->]%workUUID_ok & H).
  apply bind_ok_inv in H as (found & u3 & Hf & H). destruct found as [[id row]|]; [|done].
  apply optional_inv in Hf as (now & Hf). apply leased_operation_inv in Hf as [Hrow _].
  exists tenant, id, row. split; [done|].
  apply yields_load_operation in H as (-> & -> & -> & -> & -> & _). done.
Qed.

(** *** The PostgreSQL store keeps the runner's contract *)
Section Contract.
Context {UL : UuidLaws} (tenant id : uuid) (kind : string).

(** Phase and step of the row of one operation. *)
Definition row_state (w : World) : op_state :=
  match operations (w_db w) !! (tenant, id) with Some o => (o_phase o, o_step o) | None => ("", "") end.
Definition row_kind (w : World) : Prop :=
  ∀ o, operations (w_db w) !! (tenant, id) = Some o -> o_kind o = kind.
Definition addressed (tr : StepTransition) : option (uuid * uuid) :=
  match uuid_parse (ST_TenantID tr), uuid_parse (ST_OperationID tr) with
  | Some t, Some o => Some (t, o)
  | _, _ => None
  end.
Definition elsewhere (tr : StepTransition) : Prop :=
  ∃ t o, addressed tr = Some (t, o) ∧ (t, o) ≠ (tenant, id).

Lemma same_row {A} (c : M World A) : moves (db_rel same_operations) c -> moves (same_abs row_state) c.
Proof. apply moves_weaken. intros w w' [_ H]. unfold same_abs, row_state. by rewrite H. Qed.
Lemma step_params_addressed tr p :
  step_params tr = Some p -> addressed tr = Some (st_tenant p, st_operation p) ∧
    st_phase p = ExpectedPhase tr ∧ st_step p = ExpectedStep tr.
Proof.
  unfold step_params, addressed. repeat (case_match; try done). by intros [= <-].
Qed.

Lemma foreign_step tr e retry after : elsewhere tr -> moves (same_abs row_state) (stepWithAudit tr e retry after).
Proof.
  intros (t & o & Ha & Hne) w. destruct (stepWithAudit tr e retry after w) as [r w'] eqn:H.
  unfold same_abs, row_state. cbn.
  apply stepWithAudit_effect in H as [[-> _]|(p & Hp & _ & [(now & o0 & s & _ & _ & _ & Hops & _) _ _ _] & _)];
    [done|].
  apply step_params_addressed in Hp as (Hp & _). rewrite Hops, lookup_insert_ne; [done|]. congruence.
Qed.
Lemma own_step tr e retry after w r w' :
  addressed tr = Some (tenant, id) -> stepWithAudit tr e retry after w = (r, w') ->
  (row_state w' = row_state w ∧ is_ok r = false) ∨
  (row_state w = (ExpectedPhase tr, ExpectedStep tr) ∧
   ∃ now o, row_state w' = (o_phase (next_row tr retry after now o), o_step (next_row tr retry after now o)) ∧
     o_step o = ExpectedStep tr ∧
     (retry = false -> ValidateOperationStepTransition (ST_Kind tr) (ExpectedPhase tr) (ExpectedStep tr)
                        (NextPhase tr) (NextStep tr) = Ok tt)).
Proof.
  intros Ha H. unfold row_state.
  apply stepWithAudit_effect in H as [[-> ?]|(p & Hp & Hv & [(now & o & s & _ & Hf & _ & Hops & _) _ _ _] & _)];
    [by left|]. right.
  apply step_params_addressed in Hp as (Hp & Hph & Hst). rewrite Ha in Hp. injection Hp as Ht Hid.
  destruct Hf. rewrite Hops, Ht, Hid. rewrite fo_operation0, lookup_insert_eq.
  split; [congruence|]. exists now, o. split_and!; [done|congruence|done].
Qed.

#[global] Instance postgres_step_store : StepStore as_operation_store atomic_store kind row_state.
Proof.
  refine {| ss_own := fun tr => addressed tr = Some (tenant, id) ∧ ST_Kind tr = kind;
            ss_foreign := elsewhere; ss_kind := row_kind |}.
  - done.
  - intros item w op w' Hk H. apply current_loads in H as (t & i & row & Hrow & Ht & Hi & HK & HP & HS).
    assert (Ha : ∀ tr, ST_TenantID tr = TenantID op -> ST_OperationID tr = ID op -> addressed tr = Some (t, i)).
    { intros tr E1 E2. unfold addressed. by rewrite E1, E2, Ht, Hi, !uuid_parse_string. }
    destruct (decide ((t, i) = (tenant, id))) as [[= -> ->]|Hne].
    + left. assert (o_kind row = kind) by by apply Hk. split_and!; [|by unfold row_state; rewrite Hrow, HP, HS|congruence].
      intros tr E1 E2 E3. split; [auto|congruence].
    + right. intros tr E1 E2. exists t, i. auto.
  - intros item. apply same_row, moves_current.
  - intros tr e w r w' [Ha Hk] H. apply (own_step _ _ false 0) in H as [?|(H1 & now & o & H2 & _ & H3)]; auto.
    left. rewrite H1, H2. split_and!; [done..|]. rewrite <- Hk. auto.
  - intros tr after e w r w' [Ha Hk] H. apply (own_step _ _ true after) in H as [[? _]|(H1 & now & o & H2 & H3 & _)]; auto.
    right. rewrite H1, H2. cbn. by rewrite H3.
  - intros tr e. apply foreign_step.
  - intros tr after e. apply foreign_step.
Defined.
End Contract.

Lemma postgres_frames r tenant id :
  Store r = as_operation_store -> port_frames r (db_rel same_operations) ->
  frames r (row_state tenant id).
Proof.
  intros Hs Hp. split; rewrite ?Hs; cbn; intros; simplify_eq; try apply same_row;
    auto using moves_save_quota, moves_save_publication, moves_save_observation, moves_model_mark,
      moves_model_save, moves_gpu_save, moves_scope_save, moves_scope_load.
  eapply port_frames_weaken; [|done]. intros w w' [_ H]. unfold same_abs, row_state. by rewrite H.
Qed.

(** Claim C2.  A step and its audit event are one write.  Whatever
    [stepWithAudit] reports, either the database is as before, and then it
    reported an error, or all of it is committed: the addressed operation was
    the current one of its service, at the expected phase, step and generation,
    with the caller's lease alive; its row, and no other operation, is the
    advanced (or retried) one; the audit event is recorded; a completed delete
    has its service deleted; and an error can only be a lost answer. *)
Theorem step_and_audit_atomic tr e retry after w r w' :
  stepWithAudit tr e retry after w = (r, w') ->
  (w_db w' = w_db w ∧ is_ok r = false) ∨
  (∃ p now o s, step_params tr = Some p ∧ w_now w <= now ∧ fence_ok now (w_db w) p o s ∧
    operations (w_db w') =
      <[(st_tenant p, st_operation p) := next_row tr retry after now o]> (operations (w_db w)) ∧
    (∃ t ev, uuid_parse (Audit.TenantID e) = Some t ∧ uuid_parse (Audit.EventID e) = Some ev ∧
       is_Some (audits (w_db w') !! (t, ev))) ∧
    (delete_completed tr retry = true ->
       ∃ s', services (w_db w') !! (st_tenant p, o_service_id o) = Some s' ∧ undeleted s' = false) ∧
    (retry = false -> retry_due now o = true)) ∧ (r = Ok tt ∨ r = Err ErrConn).
Proof.
  intros H. apply stepWithAudit_effect in H as [?|(p & Hp & _ & [(now & o & s & Hn & Hf & Hr & Ho & Hd) Ha _ _] & Hres)];
    [by left|]. right. split; [|done]. exists p, now, o, s. split_and!; try done.
  unfold delete_completed. rewrite !andb_true_iff, negb_true_iff, !bool_decide_eq_true.
  intros [[? ?] ?]. auto.
Qed.

(** Claim C26.  One execution of the runner over this store moves the row of any
    operation only along its path: its phase and step stay, or it is pending or
    running at the same step, or the step it was at succeeded and the row is at
    the successor the transition guard allows for its kind.  A finished operation
    never changes, and an execution that succeeds on an active operation has
    advanced it. *)
Theorem execution_advances_row {UL : UuidLaws} r tenant id item w o res w' :
  Store r = as_operation_store -> port_frames r (db_rel same_operations) ->
  operations (w_db w) !! (tenant, id) = Some o -> Execute r item w = (res, w') ->
  let was := (o_phase o, o_step o) in let now := row_state tenant id w' in
  (now = was ∨ at_step (o_step o) now ∨ stepped r (o_kind o) (o_step o) now) ∧
  (o_phase o = OperationSucceeded ∨ o_phase o = OperationFailed -> now = was) ∧
  (is_ok res = true -> active (o_phase o) = true ->
   (∀ op w1, CurrentOperation item w = (Ok op, w1) -> TenantID op = uuid_string tenant ∧ ID op = uuid_string id) ->
   stepped r (o_kind o) (o_step o) now).
Proof.
  intros Hs Hp Ho H. cbv zeta. pose proof (postgres_frames r tenant id Hs Hp) as Hfr.
  assert (Hrow : row_state tenant id w = (o_phase o, o_step o)) by (unfold row_state; by rewrite Ho).
  assert (Hk : row_kind tenant id (o_kind o) w) by (intros o'; rewrite Ho; by intros [= <-]).
  destruct r as [store ? ? ? ? ? ? ? ? ? ?]. cbn in Hs. subst store.
  destruct (Execute_effect (mkRunner as_operation_store _ _ _ _ _ _ _ _ _ _) atomic_store (o_kind o) (row_state tenant id)
    (Hst := postgres_step_store tenant id (o_kind o)) Hfr item w res w' _ _ Hk Hrow H) as (H1 & H2 & H3).
  rewrite Hrow in H1, H2, H3. split_and!; [done..|]. intros Hok Hact Hcur.
  apply H2; [done| |].
  - apply orb_true_iff in Hact as [E%bool_decide_eq_true|E%bool_decide_eq_true]; rewrite E; [by left|by right].
  - intros op w1 Hop Hfor. destruct (Hcur op w1 Hop) as [E1 E2].
    destruct (Hfor (mkStepTransition (TenantID op) (ID op) "" "" 0 "" "" "" "" "" "")) as (t & i & Ha & Hne);
      [done..|].
    unfold addressed in Ha. cbn in Ha. rewrite E1, E2, !uuid_parse_string in Ha. congruence.
Qed.

Lemma fence_ok_row now db p o s : fence_ok now db p o s -> step_row now db p = Some o.
Proof.
  intros [Ho Hs Hc Hl Hg Hd Hp Hst]. unfold step_row, fenced_operation.
  rewrite Ho, Hs, Hc, Hl, (bool_decide_true (Some _ = _)) by done. cbn [andb].
  by rewrite Hd, Hg, !Z.eqb_refl, !bool_decide_true by done.
Qed.

Lemma write_row_some now db p (f : OperationRow -> result OperationRow) o o' db' :
  step_row now db p = Some o -> f o = Ok o' -> put_operation (st_tenant p) (st_operation p) o' db = Ok db' ->
  write_row now db p f = Ok (1, db').
Proof. intros H1 H2 H3. unfold write_row. by rewrite H1, H2; cbn [mbind result_bind]; rewrite H3. Qed.
Lemma put_retried now retry attempt code message tenant id o db :
  in_list (o_step o) operation_steps = true -> other_active db tenant id (o_service_id o) = false ->
  let o' := retried now retry attempt code message o in
  put_operation tenant id o' db = Ok (db <| operations := <[(tenant, id) := o']> (operations db) |>).
Proof.
  intros Hst Hoa o'. unfold put_operation.
  change (o_step o') with (o_step o). change (o_service_id o') with (o_service_id o).
  change (o_phase o') with OperationPending. by rewrite Hst, Hoa.
Qed.

(** *** An early wake-up *)
(** With every statement delivered at once: what the read of the current operation
    establishes about the row it loads. *)
Lemma optional_quiet {A} (g : statement A) w a w' :
  w_env w = [] -> optional g w = (Ok (Some a), w') -> g (w_now w) (w_db w) = Ok (a, w_db w').
Proof.
  intros He H. unfold optional, exec, mbind, M_bind, try, round_trip in H. rewrite He in H. unfold run_stmt in H.
  destruct (g (w_now w) (w_db w)) as [[b db]|e]; [by injection H as -> <-|]. by destruct (errors_is e "pgx.ErrNoRows").
Qed.
Lemma leased_operation_fence tenant token now db id row db' :
  GetLeasedOperation tenant token now db = Ok ((id, row), db') ->
  operations db !! (tenant, id) = Some row ∧ ∃ s, services db !! (tenant, o_service_id row) = Some s ∧
    s_current_operation_id s = Some id ∧ holds_lease (tenant, o_service_id row) now token db = true ∧
    s_desired_generation s = o_target_generation row.
Proof.
  unfold GetLeasedOperation. intros [H ->]%select_one_inv.
  apply head_Some_elem_of in H. apply list_elem_of_omap in H as ([[t sv] w] & Hin & H). cbn [fst snd] in H.
  destruct (bool_decide (t = tenant) && leased now token w) eqn:B; [|done]. apply andb_true_iff in B as [->%bool_decide_eq_true Hl].
  destruct (services db !! (tenant, sv)) as [s|] eqn:Es; [|done]. destruct (s_current_operation_id s) as [i|] eqn:Ei; [|done].
  destruct (operations db !! (tenant, i)) as [o|] eqn:Eo; [|done].
  destruct (bool_decide (o_service_id o = sv) && (o_target_generation o =? s_desired_generation s)) eqn:B; [|done].
  apply andb_true_iff in B as [<-%bool_decide_eq_true Eg%Z.eqb_eq]. injection H as <- <-. split; [done|]. exists s. split_and!; try done.
  unfold holds_lease. apply elem_of_map_to_list in Hin. by rewrite Hin.
Qed.
Lemma current_fenced {UL : UuidLaws} tenant service generation dirty token w op w' :
  w_env w = [] ->
  CurrentOperation (Work.mkItem (uuid_string tenant) service generation dirty (uuid_string token)) w = (Ok op, w') ->
  ∃ id row s, same_operation (context_of tenant id row (uuid_string token)) op ∧
    ∀ code message, fence_ok (w_now w) (w_db w)
      (mkStepParams tenant id (o_target_generation row) (o_phase row) (o_step row) token code message) row s.
Proof.
  intros He H. unfold CurrentOperation, tenantUUID, workUUID in H. cbn [Work.TenantID Work.LeaseToken] in H. rewrite !uuid_parse_string in H.
  rewrite (bind_run _ _ w tenant w), (bind_run _ _ w token w) in H by done.
  apply bind_ok_inv in H as (found & u & Hf & H). destruct found as [[id row]|]; [|done].
  apply optional_quiet in Hf; [|done]. apply leased_operation_fence in Hf as (Ho & s & Hs & Hc & Hl & Hg).
  exists id, row, s. split; [by apply yields_load_operation in H|]. intros code message. split; done.
Qed.

(** The transaction of a retry whose row is fenced, delivered at once. *)
Lemma retry_delivered {UL : UuidLaws} tenant id token service kind generation phase step code message e after eid w o s :
  let p := mkStepParams tenant id generation phase step token code message in
  let tr := mkStepTransition (uuid_string tenant) (uuid_string id) kind (uuid_string token) generation phase step "" "" code message in
  w_env w = [] -> 1 <= generation -> fence_ok (w_now w) (w_db w) p o s -> o_service_id o = service ->
  in_list (o_step o) operation_steps = true -> other_active (w_db w) tenant id service = false -> - 2 ^ 31 <= o_attempt o + 1 < 2 ^ 31 ->
  (Audit.TenantID e, Audit.OperationID e, Audit.ServiceID e, Audit.Generation e, Audit.EventID e) =
    (uuid_string tenant, uuid_string id, uuid_string service, generation, uuid_string eid) ->
  ∃ w', stepWithAudit tr e true after w = (Ok tt, w') ∧
    operations (w_db w') = <[(tenant, id) := next_row tr true after (w_now w) o]> (operations (w_db w)).
Proof.
  intros p tr He Hg Hf Hsv Hst Hoa Ha [= E1 E2 E3 E4 E5].
  set (o' := next_row tr true after (w_now w) o). set (w1 := w <| w_db := set_operation p o' (w_db w) |>).
  assert (Hwrite : Sql.RetryOperationStepCAS p (microseconds after) (w_now w) (w_db w) = Ok (1, set_operation p o' (w_db w))).
  { apply fence_ok_row in Hf. eapply write_row_some; [exact Hf| |apply put_retried; [done|by rewrite Hsv]].
    rewrite integer_in_range by done. reflexivity. }
  assert (∃ db2, AppendAuditEvent tenant eid (audit_row service id e (w_now w)) (w_now w) (w_db w1) = Ok (tt, db2) ∧
    operations db2 = operations (w_db w1)) as (db2 & Happ & Hops).
  { unfold AppendAuditEvent. cbn [a_generation audit_row a_service_id a_operation_id]. rewrite E4. destruct (Z.ltb_spec 0 generation); [|lia]. cbn [negb].
    case_bool_decide; [by eexists|]. cbn. rewrite lookup_insert_eq. pose proof (fo_service _ _ _ _ _ Hf) as Hs. cbn in Hs. rewrite Hsv in Hs.
    rewrite Hs, (bool_decide_false (Some _ = None)) by done. cbn. by eexists. }
  exists (w1 <| w_db := db2 |>). split; [|cbn; by rewrite Hops]. unfold stepWithAudit, tenantUUID, workUUID. cbn [ST_TenantID ST_OperationID ST_LeaseToken tr ST_TargetGeneration].
  rewrite !uuid_parse_string. do 3 (erewrite bind_run by reflexivity). unfold check. destruct (Z.ltb_spec generation 1); [lia|]. cbn [negb].
  erewrite bind_run by reflexivity. rewrite E1, E2, E4, !(bool_decide_true (_ = _)), Z.eqb_refl by done. cbn [andb].
  do 2 (erewrite bind_run by reflexivity). cbv zeta. fold p. apply transaction_delivered; [done..|].
  unfold step_body. rewrite (bind_run _ _ w 1 w1) by (by apply exec_delivered). rewrite (bind_run _ _ w1 tt w1) by done.
  rewrite (bind_run _ _ w1 o' w1) by (apply exec_read; [done|]; unfold GetOperation, select_one; cbn; by rewrite lookup_insert_eq).
  assert (o_service_id o' = service) as Es by done. rewrite Es, E3. unfold check. rewrite (bool_decide_true (uuid_string service = uuid_string service)) by done.
  do 2 (erewrite bind_run by reflexivity). unfold tenantUUID, workUUID. rewrite E1, E2, E5, !uuid_parse_string.
  do 4 (erewrite bind_run by reflexivity). rewrite (bind_run _ _ w1 tt (w1 <| w_db := db2 |>)); [done|]. by apply exec_delivered.
Qed.
(** Taking a fenced operation before its retry is due changes nothing. *)
Lemma advance_early {UL : UuidLaws} tr e p o s w :
  w_env w = [] -> step_params tr = Some p -> fence_ok (w_now w) (w_db w) p o s -> retry_due (w_now w) o = false ->
  ∃ cause, stepWithAudit tr e false 0 w = (Err cause, w) ∧
    (1 <= ST_TargetGeneration tr -> Audit.TenantID e = ST_TenantID tr -> Audit.OperationID e = ST_OperationID tr ->
     Audit.Generation e = ST_TargetGeneration tr ->
     ValidateOperationStepTransition (ST_Kind tr) (ExpectedPhase tr) (ExpectedStep tr) (NextPhase tr) (NextStep tr) = Ok tt ->
     cause = ErrOperationCAS).
Proof.
  intros He Hp Hf Hr. unfold step_params in Hp. unfold stepWithAudit, tenantUUID, workUUID.
  destruct (uuid_parse (ST_TenantID tr)) as [t|]; [|done]. destruct (uuid_parse (ST_OperationID tr)) as [i|]; [|done].
  destruct (uuid_parse (ST_LeaseToken tr)) as [l|]; [|done]. injection Hp as <-. do 3 (erewrite bind_run by reflexivity).
  unfold check. destruct (Z.ltb_spec (ST_TargetGeneration tr) 1); cbn [negb]; [eexists; split; [done|lia]|].
  erewrite bind_run by reflexivity.
  destruct (bool_decide (Audit.TenantID e = ST_TenantID tr) && bool_decide (Audit.OperationID e = ST_OperationID tr) &&
    (Audit.Generation e =? ST_TargetGeneration tr)) eqn:Eid.
  2:{ eexists. split; [done|]. intros _ H1 H2 H3. rewrite !bool_decide_true, H3, Z.eqb_refl in Eid by done. done. }
  erewrite bind_run by reflexivity. cbn [negb].
  destruct (ValidateOperationStepTransition _ _ _ _ _) as [[]|cause]; [|eexists; split; [done|by intros _ _ _ _ [=]]].
  erewrite bind_run by reflexivity. cbv zeta. exists ErrOperationCAS. split; [|done].
  set (p := mkStepParams _ _ _ _ _ _ _ _) in *.
  assert (Hwrite : Sql.AdvanceOperationStepCAS p (NextPhase tr) (NextStep tr) (w_now w) (w_db w) = Ok (0, w_db w)).
  { unfold Sql.AdvanceOperationStepCAS. apply fence_ok_row in Hf. by rewrite Hf, Hr. }
  unfold transaction, mbind at 1, M_bind at 1, round_trip. rewrite He. unfold run_tx, step_body.
  rewrite (bind_run _ _ w 0 w) by (by apply exec_read). cbn. by destruct w.
Qed.

(** Claim C32.  A wake-up during the back-off restarts the back-off.  An operation
    that was put back waits until its retry time.  A runner that executes its work
    item before that time, with the lease alive and every statement delivered at
    once, cannot take the operation, but records a retry of its own: the execution
    fails, and the row is at the same step with its attempt counted up, its recorded
    error replaced by that of the refused take (the failed compare-and-swap, for a
    kind and step the guard knows), and its retry time set to the full delay from
    now.  The item is that of the service and generation of the operation; no other
    operation of the service is active and the step is one the table allows, which
    the schema ensures; and the attempt counter is below its maximum. *)
Theorem early_wakeup_restarts_backoff {UL : UuidLaws} r tenant id dirty token w op o :
  let item := Work.mkItem (uuid_string tenant) (uuid_string (o_service_id o)) (o_target_generation o) dirty (uuid_string token) in
  Store r = as_operation_store -> w_env w = [] ->
  CurrentOperation item w = (Ok op, w) -> ID op = uuid_string id -> operations (w_db w) !! (tenant, id) = Some o ->
  1 <= o_target_generation o -> o_phase o = OperationPending -> retry_due (w_now w) o = false ->
  in_list (o_step o) operation_steps = true -> other_active (w_db w) tenant id (o_service_id o) = false ->
  - 2 ^ 31 <= o_attempt o + 1 < 2 ^ 31 ->
  ∃ e w', Execute r item w = (Err e, w') ∧
    operations (w_db w') = <[(tenant, id) := retried (w_now w) (microseconds (retryAfter r)) (o_attempt o + 1)
                                               "provider_retry" (error_text e) o]> (operations (w_db w)) ∧
    (ValidateOperationStepTransition (o_kind o) OperationPending (o_step o) OperationRunning (o_step o) = Ok tt -> e = ErrOperationCAS).
Proof.
  intros item HS He Hop Hid Ho Hg Hph Hr Hst Hoa Ha.
  assert (Hne : ∀ u, uuid_string u ≠ "").
  { intros u E. pose proof (uuid_parse_string u) as H. by rewrite E, uuid_parse_empty in H. }
  destruct (current_fenced _ _ _ _ _ _ _ _ He Hop) as (id' & row & s & (Et & Ei & Ek & Ep & Est & Esv & Eg) & Hf). cbn in Et, Ei, Ek, Ep, Est, Esv, Eg.
  assert (id' = id) as ->. { rewrite Ei in Hid. apply (f_equal uuid_parse) in Hid. rewrite !uuid_parse_string in Hid. congruence. }
  pose proof (fo_operation _ _ _ _ _ (Hf "" "")) as Hrow. cbn in Hrow. rewrite Ho in Hrow. injection Hrow as <-.
  set (op1 := op <| LeaseToken := uuid_string token |>).
  destruct (advance_early (mkStepTransition (uuid_string tenant) (uuid_string id) (o_kind o) (uuid_string token) (o_target_generation o)
      (o_phase o) (o_step o) OperationRunning (o_step o) "" "")
    (transition_event op1 OperationRunning (o_step o) "claimed" "") _ o s w He ltac:(unfold step_params; cbn; by rewrite !uuid_parse_string) (Hf _ _) Hr)
    as (cause & Hadv & Hcause).
  destruct (retry_delivered tenant id token (o_service_id o) (o_kind o) (o_target_generation o) (o_phase o) (o_step o) "provider_retry" (error_text cause)
    (retry_event op1 cause) (retryAfter r)
    (uuid_sha1_oid (ID op1 +:+ "|" +:+ OperationPending +:+ "|" +:+ Step op1 +:+ "|" +:+ format_int (Attempt op1))) w o s He Hg (Hf _ _) eq_refl Hst Hoa Ha)
    as (w' & Hret & Hops).
  { by rewrite <- Et, <- Ei, <- Esv, <- Eg. }
  exists cause, w'. split_and!.
  - unfold Execute, validate, Reconcile.item_incomplete. rewrite HS. cbn [Runner.CurrentOperation as_operation_store].
    rewrite (bind_run _ _ w tt w).
    2:{ unfold lift, checkr. cbn [Work.TenantID Work.ServiceID Work.Generation Work.LeaseToken item].
        rewrite !(bool_decide_false (uuid_string _ = "")) by done. by destruct (Z.ltb_spec (o_target_generation o) 1); [lia|]. }
    rewrite (bind_run _ _ w op w) by done. cbn [Work.TenantID Work.ServiceID Work.Generation Work.LeaseToken item].
    rewrite Et, Esv, Eg, Ei, !(bool_decide_true (_ = _)), Z.eqb_refl, (bool_decide_false (uuid_string id = "")) by done. cbn [negb orb].
    fold op1. change (Phase op1) with (Phase op). rewrite Ep, Hph.
    rewrite (bool_decide_false (OperationPending = OperationSucceeded)), (bool_decide_false (OperationPending = OperationFailed)),
      (bool_decide_true (OperationPending = OperationPending)) by done. cbn [negb orb andb].
    unfold execute_active, take, transition, fail_retry, retry. rewrite HS. cbn [as_atomic as_operation_store atomic_store].
    change (Phase op1) with (Phase op). change (Step op1) with (Step op). rewrite Ep, Hph, (bool_decide_true (OperationPending = OperationPending)) by done.
    change (TenantID op1) with (TenantID op). change (ID op1) with (ID op). change (Kind op1) with (Kind op).
    change (TargetGeneration op1) with (TargetGeneration op). change (LeaseToken op1) with (uuid_string token).
    rewrite Et, Ei, Ek, Eg, Est. rewrite Hph in Hadv, Hret.
    unfold mbind, M_bind, try. cbn [Runner.AdvanceOperationStepCASWithAudit Runner.RetryOperationStepCASWithAudit atomic_store].
    unfold AdvanceOperationStepCASWithAudit, RetryOperationStepCASWithAudit. rewrite Hadv. by rewrite Hret.
  - rewrite Hops. done.
  - intros Hv. apply Hcause; try done. by rewrite Hph.
Qed.
End Store.

(** ** Examples: a managed service whose start operation is about to reserve
    quota, its work leased with token 7 until 40. *)
Import BinaryUuid Runner.
Definition ex_operation : OperationRow :=
  mkOperationRow 2%N "start" OperationPending StepReserveQuota 1 "hash" 0 None None None None "" "" 0 0 None None.
Definition ex_managed : ManagedResourceRow :=
  mkManagedResourceRow 9%N "owner"
    (JVal (Gpu.mkRefundContext "cpu" "" (uuid_string 1%N) (uuid_string 2%N) (uuid_string 9%N) "" "owner" "" None))
    "cpu" "" "" "" None None false None.
Definition ex_op_db : DB := ex_db2
  <| services := {[ (1%N, 2%N) := ex_service <| s_current_operation_id := Some 3%N |> ]} |>
  <| operations := {[ (1%N, 3%N) := ex_operation ]} |>
  <| managed := {[ (1%N, 2%N) := ex_managed ]} |>.
Definition ex_op_world : World := mkWorld ex_op_db 20 [] [].
Definition ex_runner : Runner World :=
  mkRunner (as_operation_store (Q := Resources.toy_lib) (fun _ => true)) None None None None None None None None 0 (mret "").

Lemma execution_advances_row_witness :
  row_state 1%N 3%N (Execute ex_runner ex_item ex_op_world).2 = (OperationRunning, StepResolveGPU) ∧
  stepped ex_runner "start" StepReserveQuota (row_state 1%N 3%N (Execute ex_runner ex_item ex_op_world).2).
Proof.
  split; [vm_compute; reflexivity|].
  destruct (Execute ex_runner ex_item ex_op_world) as [res w'] eqn:E.
  refine (proj2 (proj2 (execution_advances_row (Q := Resources.toy_lib) (fun _ => true) (UL := laws) ex_runner
    1%N 3%N ex_item ex_op_world ex_operation res w' eq_refl _ eq_refl E)) _ eq_refl _).
  - split; [intros w; split; [cbn; lia|reflexivity]|intros; discriminate..].
  - apply (f_equal fst) in E. vm_compute in E. cbn [fst] in E. subst res. reflexivity.
  - intros op w1 H. apply (f_equal fst) in H. vm_compute in H. cbn [fst] in H.
    injection H as <-. split; vm_compute; reflexivity.
Defined.

(** The same operation advanced by hand, with its event. *)
Definition ex_transition : StepTransition :=
  mkStepTransition (uuid_string 1%N) (uuid_string 3%N) "start" (uuid_string 7%N) 1
    OperationPending StepReserveQuota OperationRunning StepReserveQuota "" "".
Definition ex_event : Audit.Event :=
  Audit.mkEvent (uuid_string 1%N) (uuid_string 4%N) (uuid_string 2%N) (uuid_string 3%N) 1 "inference.step"
    "actor" "request" [] [] [].
Lemma step_and_audit_atomic_witness :
  is_Some (audits (w_db (stepWithAudit ex_transition ex_event false 0 ex_op_world).2) !! (1%N, 4%N)) ∧
  row_state 1%N 3%N (stepWithAudit ex_transition ex_event false 0 ex_op_world).2
    = (OperationRunning, StepReserveQuota).
Proof.
  split; [|vm_compute; reflexivity].
  destruct (stepWithAudit ex_transition ex_event false 0 ex_op_world) as [r w'] eqn:E.
  destruct (step_and_audit_atomic _ _ _ _ _ _ _ E)
    as [[_ Hr]|[(p & now & o & s & _ & _ & _ & _ & (t & ev & Ht & Hev & Ha) & _) _]].
  - exfalso. apply (f_equal fst) in E. vm_compute in E. cbn [fst] in E. subst r. discriminate Hr.
  - vm_compute in Ht, Hev. injection Ht as <-. injection Hev as <-. exact Ha.
Defined.

(** Put back until 60 by an earlier retry, and woken at 20. *)
Definition ex_waiting : OperationRow :=
  ex_operation <| o_attempt := 1 |> <| o_retry_at := Some 60 |>.
Definition ex_waiting_db : DB := ex_op_db <| operations := {[ (1%N, 3%N) := ex_waiting ]} |>.
Definition ex_waiting_world : World := mkWorld ex_waiting_db 20 [] [].
Definition ex_loaded : OperationContext :=
  match (CurrentOperation (Store ex_runner) ex_item ex_waiting_world).1 with
  | Ok op => op | Err _ => context_of 1%N 3%N ex_waiting "" end.
(** Woken at 20, it waits until 20 plus the default delay instead of until 60. *)
Lemma early_wakeup_restarts_backoff_witness :
  let '(res, w') := Execute ex_runner ex_item ex_waiting_world in
  res = Err ErrOperationCAS ∧ ∃ o', operations (w_db w') !! (1%N, 3%N) = Some o' ∧ o_attempt o' = 2 ∧
    o_retry_at o' = Some (20 + 5000000).
Proof.
  destruct (early_wakeup_restarts_backoff (Q := Resources.toy_lib) (fun _ => true) (UL := laws) ex_runner 1%N 3%N 1 7%N
    ex_waiting_world ex_loaded ex_waiting) as (e & w' & HE & Hops & He); 
    [reflexivity|reflexivity|vm_compute; reflexivity|vm_compute; reflexivity|reflexivity|cbn; lia|reflexivity|reflexivity|reflexivity|reflexivity|cbn; lia|].
  change (Execute ex_runner ex_item ex_waiting_world = (Err e, w')) in HE. rewrite HE.
  rewrite (He eq_refl) in *. split; [reflexivity|]. eexists. rewrite Hops, lookup_insert_eq. split; [reflexivity|]. split; reflexivity.
Defined.
End OperationStore.
