(* ===== verification/Commands.v ===== *)
(** * Lifecycle commands

    internal/data/postgres/command_usecase.go: start, stop, restart and delete
    of a service, accepted in one transaction that advances the desired state,
    records the operation and wakes the worker.  A command that carries a managed
    attachment takes another path, which is not part of this file. *)

From S2P Require Import Prelude GoStrings Operation Gpu Resources Work Schema WorkStore Reconcile Runner ReconcileStore OperationStore.
Local Open Scope Z_scope.

Module Commands.
Import Schema WorkStore ReconcileStore Operation OperationStore OperationStore.Sql.

Definition ErrNotFound : goerr := ENew "inference.ErrNotFound" "inference service not found".
Definition ErrGenerationConflict : goerr :=
  ENew "inference.ErrGenerationConflict" "inference generation changed".
Definition ErrOperationActive : goerr :=
  ENew "inference.ErrOperationActive" "inference service has an active operation".
Definition ErrInvalidState : goerr :=
  ENew "inference.ErrInvalidState" "inference command is not valid for the current state".
Definition ErrIdempotencyConflict : goerr :=
  ENew "inference.ErrIdempotencyConflict" "idempotency key already used with a different request".

(** ** Statements *)
(** pg_advisory_xact_lock: transactions already run one after the other. *)
Definition LockIdempotency (tenant method request : string) : statement unit := select (fun _ _ => tt).
Definition GetIdempotency (tenant : uuid) (method request : string) : statement IdempotencyRow :=
  select_one (fun _ db => idempotency db !! (tenant, method, request)).
(** ON CONFLICT DO NOTHING. *)
Definition PutIdempotency (tenant : uuid) (method request hash : string) (operation : uuid)
    (expires : option Z) : statement Z := fun now db =>
  let ik := (tenant, method, request) in
  if bool_decide (is_Some (idempotency db !! ik)) then Ok (0, db)
  else if bool_decide (operations db !! (tenant, operation) = None) then Err ForeignKeyViolation
  else Ok (1, db <| idempotency := <[ik := mkIdempotencyRow hash operation now expires]> (idempotency db) |>).

Definition GetServiceForUpdate (k : key) : statement ServiceRow := select_one (fun _ db => services db !! k).

Definition cancelled (now : Z) (o : OperationRow) : OperationRow :=
  o <| o_phase := OperationFailed |> <| o_error_code := "cancelled_by_delete" |>
    <| o_error_message := "cancelled by delete request" |> <| o_retry_at := None |>
    <| o_lease_owner := None |> <| o_lease_until := None |> <| o_lease_token := None |>
    <| o_completed_at := Some now |> <| o_updated_at := now |>.
Definition CancelActiveOperation (k : key) : statement Z := execrows (fun now db =>
  match services db !! k with
  | Some s =>
      match s_current_operation_id s with
      | Some id =>
          match operations db !! (k.1, id) with
          | Some o =>
              if bool_decide (o_service_id o = k.2) && undeleted s && active (o_phase o)
              then Some (db <| operations := <[(k.1, id) := cancelled now o]> (operations db) |>)
              else None
          | None => None
          end
      | None => None
      end
  | None => None
  end).

(** PRIMARY KEY (tenant_id, id) of the specifications. *)
Definition spec_id_taken (db : DB) (tenant id : uuid) : bool :=
  existsb (fun ks : (uuid * uuid * Z) * SpecRow =>
    bool_decide (ks.1.1.1 = tenant) && bool_decide (sp_id ks.2 = id)) (map_to_list (specs db)).
Definition CloneSpecGeneration (id : uuid) (k : key) (source target : Z) : statement Z := fun now db =>
  match specs db !! (k.1, k.2, source) with
  | None => Ok (0, db)
  | Some sp =>
      if negb (0 <? target) then Err CheckViolation
      else if spec_id_taken db k.1 id then Err (UniqueViolation "inference_specs_pkey")
      else if bool_decide (is_Some (specs db !! (k.1, k.2, target)))
      then Err (UniqueViolation "inference_specs_tenant_id_service_id_generation_key")
      else if bool_decide (services db !! k = None) then Err ForeignKeyViolation
      else Ok (1, db <| specs := <[(k.1, k.2, target) := mkSpecRow id (sp_body sp) now]> (specs db) |>)
  end.

Definition TransitionService (k : key) (state : string) (target : Z) (operation : uuid) (expected : Z)
    : statement Z := fun now db =>
  match services db !! k with
  | Some s =>
      if (s_desired_generation s =? expected) && undeleted s then
        if negb (in_list state ["running"; "stopped"; "deleted"] && (0 <? target) &&
                 (s_applied_generation s <=? target)) then Err CheckViolation
        else Ok (1, db <| services := <[k := s <| s_desired_state := state |>
               <| s_desired_generation := target |> <| s_current_operation_id := Some operation |>
               <| s_updated_at := now |>]> (services db) |>)
      else Ok (0, db)
  | None => Ok (0, db)
  end.

Definition operation_kinds : list string := ["create"; "update"; "start"; "stop"; "restart"; "delete"].
Definition new_operation (now : Z) (service : uuid) (kind phase step : string) (target : Z) (hash : string)
    : OperationRow :=
  mkOperationRow service kind phase step target hash 0 None None None None "" "" now now None None.
Definition InsertOperation (tenant id service : uuid) (kind phase step : string) (target : Z) (hash : string)
    : statement unit := fun now db =>
  if negb (in_list kind operation_kinds && (0 <? target)) then Err CheckViolation
  else if bool_decide (is_Some (operations db !! (tenant, id)))
  then Err (UniqueViolation "inference_operations_pkey")
  else
    db' ← put_operation tenant id (new_operation now service kind phase step target hash) db;
    if bool_decide (services db !! (tenant, service) = None) then Err ForeignKeyViolation
    else Ok (tt, db').

Definition InsertQuotaReservation (k : key) (operation : uuid) (generation : Z) (reservation : string)
    (requested : jsonb Resources.Spec) : statement unit := fun now db =>
  if negb (0 <? generation) then Err CheckViolation
  else if bool_decide (is_Some (quotas db !! (k.1, operation)))
  then Err (UniqueViolation "inference_quota_reservations_pkey")
  else if reservation_taken db k.1 operation reservation
  then Err (UniqueViolation "inference_quota_reservations_tenant_id_reservation_id_key")
  else if bool_decide (services db !! k = None) || bool_decide (operations db !! (k.1, operation) = None)
  then Err ForeignKeyViolation
  else Ok (tt, db <| quotas := <[(k.1, operation) :=
         mkQuotaRow k.2 generation reservation requested "pending" "" now now]> (quotas db) |>).

(** ** command_usecase.go *)
Record CommandInput := mkCommandInput {
  TenantID : string; RequestID : string; Actor : string; ServiceID : string; Kind : string;
  RequestHash : string; ExpectedGeneration : Z }.

Definition validCommandState (kind state : string) : result unit :=
  let refuse text := Err (errorf_after ErrInvalidState text) in
  if bool_decide (kind = "start") then
    if bool_decide (state = "stopped") then Ok tt else refuse "start requires stopped state"
  else if bool_decide (kind = "stop") then
    if bool_decide (state = "running") then Ok tt else refuse "stop requires running state"
  else if bool_decide (kind = "restart") then
    if bool_decide (state = "running") || bool_decide (state = "stopped") then Ok tt
    else refuse "restart requires running or stopped state"
  else if bool_decide (kind = "delete") then
    if bool_decide (state = "deleted") then refuse "service already deleted" else Ok tt
  else Ok tt.

(** The state a command asks for. *)
Definition state_of (kind default : string) : string :=
  if bool_decide (kind = "start") || bool_decide (kind = "restart") then "running"
  else if bool_decide (kind = "stop") then "stopped"
  else if bool_decide (kind = "delete") then "deleted" else default.
Definition first_step (kind : string) : string :=
  if bool_decide (kind = "start") then StepReserveQuota else StepWithdrawPublication.
Definition needs_quota (kind : string) : bool := bool_decide (kind = "start") || bool_decide (kind = "restart").

Section Command.
Context `{U : UuidLib}.
(** The deterministic encoding of [ServiceCommandRequest{request_id,
    resource_id, expected_generation}], and [sha256.Sum256] in hex. *)
Context (marshal_command : string -> string -> Z -> result string) (sha256_hex : string -> string).

Definition commandResponse (serviceID operationID : string) (generation : Z) (kind step : string)
    : OperationResponse :=
  mkOperationResponse (mkResourceMessage serviceID (state_of kind "") generation None)
    (mkOperationMessage operationID serviceID kind OperationPending step generation "" "") None.
Definition commandResponseFromRow (id : uuid) (o : OperationRow) : OperationResponse :=
  let service := uuid_string (o_service_id o) in
  mkOperationResponse (mkResourceMessage service "" (o_target_generation o) None)
    (mkOperationMessage (uuid_string id) service (o_kind o) (o_phase o) (o_step o)
       (o_target_generation o) (o_error_code o) (o_error_message o)) None.

Definition command_method (kind : string) : string := "InferenceService/" +:+ kind.
Definition nul : string := String Ascii.zero EmptyString.
(** The digest of a delete accepted before deletes dropped their expected generation. *)
Definition legacy_delete (input : CommandInput) (hash : string) (o : OperationRow) : bool :=
  bool_decide (Kind input = "delete") && bool_decide (o_kind o = "delete") &&
  (2 <=? o_target_generation o) &&
  match marshal_command (RequestID input) (ServiceID input) (o_target_generation o - 1) with
  | Ok encoded => bool_decide (hash = sha256_hex ("delete" +:+ nul +:+ Actor input +:+ nul +:+ encoded))
  | Err _ => false
  end.

(** The operation of an earlier request with the same key, if there is one. *)
Definition replayed_command (input : CommandInput) (tenant : uuid) : M World (option (uuid * OperationRow)) :=
  if bool_decide (RequestID input = "") then mret None else
  let method := command_method (Kind input) in
  _ ← exec (LockIdempotency (TenantID input) method (RequestID input));
  existing ← try (exec (GetIdempotency tenant method (RequestID input)));
  match existing with
  | Ok row =>
      o ← exec (Sql.GetOperation tenant (i_operation_id row));
      _ ← check (bool_decide (i_payload_hash row = RequestHash input) ||
                 legacy_delete input (i_payload_hash row) o) ErrIdempotencyConflict;
      mret (Some (i_operation_id row, o))
  | Err e => if errors_is e "pgx.ErrNoRows" then mret None else throw e
  end.

(** The current service row, which the command may act on. *)
Definition commanded_service (input : CommandInput) (k : key) : M World (ServiceRow * bool) :=
  found ← try (exec (GetServiceForUpdate k));
  current ← (match found with
             | Ok s => mret s
             | Err e => throw (if errors_is e "pgx.ErrNoRows" then ErrNotFound else e)
             end);
  _ ← check ((bool_decide (Kind input = "delete") ||
              (s_desired_generation current =? ExpectedGeneration input)) && undeleted current)
        ErrGenerationConflict;
  '(managed, closing) ← exec (GetManagedGPUState k);
  _ ← check (negb (managed && bool_decide (Kind input = "delete")))
        (errorf_after ErrInvalidState "managed DELETE requires a trusted Governance attachment");
  _ ← check (negb (closing && needs_quota (Kind input)))
        (errorf_after ErrInvalidState "managed resource has a closing intent");
  _ ← lift (validCommandState (Kind input) (s_desired_state current));
  mret (current, managed).

Definition clone_spec (input : CommandInput) (k : key) (source target : Z) : M World unit :=
  if bool_decide (Kind input = "delete") then mret tt else
  id ← new_uuid;
  rows ← exec (CloneSpecGeneration id k source target);
  check (rows =? 1) (errorf_after ErrInvalidState "missing current specification").

Definition insert_operation (input : CommandInput) (k : key) (id : uuid) (target : Z) : M World unit :=
  r ← try (exec (InsertOperation k.1 id k.2 (Kind input) OperationPending (first_step (Kind input)) target
                   (RequestHash input)));
  match r with
  | Ok _ => mret tt
  | Err e => throw (if errors_is e "23505" then ErrOperationActive else e)
  end.

(** What follows the operation row: the worker is woken, the request key and the
    audit event are recorded. *)
Definition announce_command (input : CommandInput) (k : key) (id : uuid) (target : Z) (state : string)
    (quota : option (jsonb Resources.Spec)) (cancelledActive : Z) : M World unit :=
  let kind := Kind input in
  _ ← (if 0 <? cancelledActive then exec (ReleaseResourceWorkLease k) else mret 0);
  _ ← (match quota with
       | Some requested => exec (InsertQuotaReservation k id target ("pending-" +:+ uuid_string id) requested)
       | None => mret tt
       end);
  _ ← exec (UpsertResourceWork k target);
  _ ← (if bool_decide (RequestID input = "") then mret 0
       else exec (PutIdempotency k.1 (command_method kind) (RequestID input) (RequestHash input) id None));
  event ← new_uuid;
  exec (fun now => AppendAuditEvent k.1 event
    (mkAuditRow k.2 (Some id) target ("inference." +:+ kind +:+ ".accepted") (Actor input)
       (RequestID input) [] [] [("desired_state", state); ("kind", kind)] now) now).

(** The resources of the current specification, which a start or restart
    reserves again; a managed service is charged elsewhere. *)
Definition command_quota (input : CommandInput) (k : key) (generation : Z) (managed : bool)
    : M World (option (jsonb Resources.Spec)) :=
  if needs_quota (Kind input) then
    '(_, sp) ← exec (Sql.GetSpec k generation);
    mret (if managed then None else Some (sp_resources (sp_body sp)))
  else mret None.

(** Everything a newly accepted command writes. *)
Definition accept_command (input : CommandInput) (k : key) (id : uuid) : M World OperationResponse :=
  '(current, managed) ← commanded_service input k;
  let generation := s_desired_generation current in
  let target := int64 (generation + 1) in
  let kind := Kind input in
  let state := state_of kind (s_desired_state current) in
  cancelledActive ← (if bool_decide (kind = "delete") then exec (CancelActiveOperation k) else mret 0);
  quota ← command_quota input k generation managed;
  _ ← clone_spec input k generation target;
  rows ← exec (TransitionService k state target id generation);
  _ ← check (rows =? 1) ErrGenerationConflict;
  _ ← insert_operation input k id target;
  _ ← announce_command input k id target state quota cancelledActive;
  mret (commandResponse (uuid_string k.2) (uuid_string id) target kind (first_step kind)).

Definition command_body (input : CommandInput) (k : key) (id : uuid) : M World (ending OperationResponse) :=
  earlier ← replayed_command input k.1;
  match earlier with
  | Some (old, o) => mret (Schema.Commit (commandResponseFromRow old o))
  | None => response ← accept_command input k id; mret (Schema.Commit response)
  end.

(** [Command] for an input without a managed attachment. *)
Definition Command_direct (input : CommandInput) : M World OperationResponse :=
  tenant ← lift (requireUUID "tenant_id" (TenantID input));
  service ← lift (requireUUID "service_id" (ServiceID input));
  _ ← check (bool_decide (Kind input = "delete") || negb (ExpectedGeneration input <? 1)) ErrGenerationConflict;
  _ ← check (in_list (Kind input) ["start"; "stop"; "restart"; "delete"])
        (errorf_after ErrInvalidState (Kind input));
  id ← new_uuid;
  transaction (command_body input (tenant, service) id).

(** ** Properties *)

(** *** What the statements do *)
Lemma cancel_inv k now db n db' :
  CancelActiveOperation k now db = Ok (n, db') ->
  (n = 0 ∧ db' = db ∧ ∀ s id o, services db !! k = Some s -> s_current_operation_id s = Some id ->
     operations db !! (k.1, id) = Some o -> o_service_id o = k.2 -> undeleted s = true ->
     active (o_phase o) = false) ∨
  n = 1 ∧ ∃ s id o, services db !! k = Some s ∧ s_current_operation_id s = Some id ∧
    operations db !! (k.1, id) = Some o ∧ o_service_id o = k.2 ∧ active (o_phase o) = true ∧
    db' = db <| operations := <[(k.1, id) := cancelled now o]> (operations db) |>.
Proof.
  unfold CancelActiveOperation. intros [(H & -> & ->)|[H ->]]%execrows_inv.
  - left. split_and!; [done..|]. intros s id o Hs Hc Ho Hsv Hu. rewrite Hs, Hc, Ho, Hsv, Hu in H.
    rewrite bool_decide_true in H by done. by destruct (active (o_phase o)).
  - right. split; [done|]. destruct (services db !! k) as [s|] eqn:Es; [|done].
    destruct (s_current_operation_id s) as [id|] eqn:Ec; [|done].
    destruct (operations db !! _) as [o|] eqn:Eo; [|done].
    destruct (_ && _ && _) eqn:B; [|done]. injection H as <-.
    rewrite !andb_true_iff, bool_decide_eq_true in B. destruct B as [[? ?] ?]. by exists s, id, o.
Qed.

Lemma clone_inv id k source target now db n db' :
  CloneSpecGeneration id k source target now db = Ok (n, db') ->
  (n = 0 ∧ db' = db) ∨
  n = 1 ∧ ∃ sp sp', specs db !! (k.1, k.2, source) = Some sp ∧ specs db !! (k.1, k.2, target) = None ∧
    sp_body sp' = sp_body sp ∧ db' = db <| specs := <[(k.1, k.2, target) := sp']> (specs db) |>.
Proof.
  unfold CloneSpecGeneration. destruct (specs db !! (k.1, k.2, source)) as [sp|]; [|intros [= <- <-]; by left].
  destruct (negb _); [done|]. destruct (spec_id_taken _ _ _); [done|]. case_bool_decide as Hn; [done|].
  case_bool_decide; [done|]. intros [= <- <-]. right. split; [done|]. exists sp, (mkSpecRow id (sp_body sp) now).
  split_and!; [done| |done..]. by apply eq_None_not_Some.
Qed.

Lemma transition_inv k state target id expected now db n db' :
  TransitionService k state target id expected now db = Ok (n, db') ->
  (n = 0 ∧ db' = db) ∨
  n = 1 ∧ ∃ s s', services db !! k = Some s ∧ s_desired_generation s = expected ∧
    db' = db <| services := <[k := s']> (services db) |> ∧
    s' = s <| s_desired_state := state |> <| s_desired_generation := target |>
           <| s_current_operation_id := Some id |> <| s_updated_at := now |>.
Proof.
  unfold TransitionService. destruct (services db !! k) as [s|] eqn:Es; [|intros [= <- <-]; by left].
  destruct (_ && _) eqn:B; [|intros [= <- <-]; by left]. destruct (negb _); [done|]. intros [= <- <-].
  apply andb_true_iff in B as [B%Z.eqb_eq _]. right. split; [done|]. by eexists s, _.
Qed.

Lemma insert_operation_inv tenant id service kind phase step target hash now db u db' :
  InsertOperation tenant id service kind phase step target hash now db = Ok (u, db') ->
  operations db !! (tenant, id) = None ∧ 0 < target ∧
  (active phase = true -> other_active db tenant id service = false) ∧
  db' = db <| operations := <[(tenant, id) :=
    new_operation now service kind phase step target hash]> (operations db) |>.
Proof.
  unfold InsertOperation. destruct (negb _) eqn:B; [done|]. case_bool_decide as Hn; [done|].
  intros H. minv H. case_bool_decide; [done|]. injection H as _ <-.
  apply negb_false_iff, andb_true_iff in B as [_ B%Z.ltb_lt].
  split; [by apply eq_None_not_Some|]. split; [done|]. split; [|by apply put_operation_ok in Hm].
  intros Ha. unfold put_operation in Hm. destruct (negb _); [done|]. cbn in Hm. rewrite Ha in Hm.
  by destruct (other_active _ _ _ _).
Qed.

Lemma other_active_false db tenant id service i o :
  other_active db tenant id service = false -> operations db !! (tenant, i) = Some o ->
  o_service_id o = service -> active (o_phase o) = true -> i = id.
Proof.
  unfold other_active. intros H Ho Hs Ha. destruct (decide (i = id)); [done|]. exfalso.
  apply elem_of_map_to_list in Ho. apply list_elem_of_In in Ho.
  apply not_true_iff_false in H. apply H. apply existsb_exists. eexists. split; [exact Ho|]. cbn.
  by rewrite (bool_decide_false (i = id)), !bool_decide_true, Ha by done.
Qed.

Lemma release_inv k now db n db' :
  ReleaseResourceWorkLease k now db = Ok (n, db') ->
  ∃ m, db' = db <| work := m |> ∧ (∀ k', k' ≠ k -> m !! k' = work db !! k') ∧
    match work db !! k with
    | Some old => ∃ wk, m !! k = Some wk ∧ wk_lease_token wk = None ∧ wk_dirty_version wk = wk_dirty_version old
    | None => m !! k = None
    end.
Proof.
  unfold ReleaseResourceWorkLease. intros [(H & _ & ->)|[H _]]%execrows_inv;
    destruct (work db !! k) as [old|] eqn:E; try done.
  - exists (work db). split; [by destruct db|done].
  - injection H as <-. eexists. split; [done|]. split.
    + intros k' Hk. by rewrite lookup_insert_ne.
    + rewrite lookup_insert_eq. by eexists.
Qed.
Lemma upsert_work_inv k dirty now db u db' :
  UpsertResourceWork k dirty now db = Ok (u, db') ->
  ∃ wk, db' = db <| work := <[k := wk]> (work db) |> ∧ wk_next_run_at wk = Some now ∧
    match work db !! k with
    | Some old => wk_dirty_version old < wk_dirty_version wk ∧ wk_lease_token wk = wk_lease_token old
    | None => wk = new_work now dirty
    end.
Proof.
  unfold UpsertResourceWork. intros (_ & wk & -> & [(old & Ho & Hf)|(Hn & _ & ->)])%insert_work_inv.
  - minv Hf. apply bigint_ok in Hm as ->. injection Hf as <-. eexists. split; [done|]. split; [done|].
    rewrite Ho. cbn. split; [lia|done].
  - eexists. split; [done|]. split; [done|]. by rewrite Hn.
Qed.
Lemma quota_insert_inv k id g res req now db u db' :
  InsertQuotaReservation k id g res req now db = Ok (u, db') ->
  db' = db <| quotas := <[(k.1, id) := mkQuotaRow k.2 g res req "pending" "" now now]> (quotas db) |>.
Proof.
  unfold InsertQuotaReservation. destruct (negb _); [done|]. case_bool_decide; [done|].
  destruct (reservation_taken _ _ _ _); [done|]. destruct (_ || _); [done|]. by intros [= _ <-].
Qed.
Lemma put_idempotency_inv tenant method request hash id expires now db n db' :
  PutIdempotency tenant method request hash id expires now db = Ok (n, db') ->
  (is_Some (idempotency db !! (tenant, method, request)) ∧ db' = db) ∨
  db' = db <| idempotency := <[(tenant, method, request) := mkIdempotencyRow hash id now expires]>
                               (idempotency db) |>.
Proof.
  unfold PutIdempotency. case_bool_decide as H1; [intros [= _ <-]; by left|]. case_bool_decide; [done|].
  intros [= _ <-]. by right.
Qed.

(** What [announce_command] leaves behind. *)
Record announced (input : CommandInput) (k : key) (id : uuid) (released : bool) (since : Z) (db db' : DB)
    : Prop := {
  an_rows : services db' = services db ∧ operations db' = operations db ∧ specs db' = specs db;
  an_work : ∃ now wk, since <= now ∧ work db' !! k = Some wk ∧ wk_next_run_at wk = Some now ∧
    (∀ old, work db !! k = Some old -> wk_dirty_version old < wk_dirty_version wk) ∧
    (released = true -> wk_lease_token wk = None);
  an_others : ∀ k', k' ≠ k -> work db' !! k' = work db !! k';
  an_request : RequestID input ≠ "" ->
    let ik := (k.1, command_method (Kind input), RequestID input) in
    idempotency db !! ik = None ->
    ∃ row, idempotency db' !! ik = Some row ∧ i_payload_hash row = RequestHash input ∧ i_operation_id row = id;
  an_audit : ∃ event, is_Some (audits db' !! (k.1, event));
}.

(** The parts, each as a change of one table. *)
Lemma released_effect (b : bool) k (w : World) n w' :
  (if b then exec (ReleaseResourceWorkLease k) else mret 0) w = (Ok n, w') ->
  w_now w <= w_now w' ∧ ∃ m, w_db w' = (w_db w) <| work := m |> ∧ (∀ k', k' ≠ k -> m !! k' = work (w_db w) !! k') ∧
    match work (w_db w) !! k with
    | Some old => ∃ wk, m !! k = Some wk ∧ wk_dirty_version wk = wk_dirty_version old ∧
                        (b = true -> wk_lease_token wk = None)
    | None => m !! k = None
    end.
Proof.
  destruct b; intros H.
  - apply exec_ok in H as (now & Ht & H & <- & _). split; [done|].
    apply release_inv in H as (m & -> & Ho & Hk). exists m. split_and!; [done..|].
    destruct (work _ !! k); [|done]. destruct Hk as (wk & ? & ? & ?). by exists wk.
  - injection H as _ <-. split; [done|]. exists (work (w_db w)). split; [by destruct (w_db w)|]. split; [done|].
    destruct (work _ !! k) as [old|]; [|done]. by exists old.
Qed.
Lemma reserved_effect quota k id g res (w : World) u w' :
  (match quota with Some req => exec (InsertQuotaReservation k id g res req) | None => mret tt end) w
    = (Ok u, w') ->
  w_now w <= w_now w' ∧ ∃ m, w_db w' = (w_db w) <| quotas := m |>.
Proof.
  destruct quota; intros H.
  - apply exec_ok in H as (now & Ht & H & <- & _). apply quota_insert_inv in H. split; [done|]. by eexists.
  - injection H as _ <-. split; [done|]. exists (quotas (w_db w)). by destruct (w_db w).
Qed.
Lemma keyed_effect (b : bool) tenant method request hash id (w : World) n w' :
  (if b then mret 0 else exec (PutIdempotency tenant method request hash id None)) w = (Ok n, w') ->
  ∃ m, w_db w' = (w_db w) <| idempotency := m |> ∧
    (b = false -> idempotency (w_db w) !! (tenant, method, request) = None ->
     ∃ row, m !! (tenant, method, request) = Some row ∧ i_payload_hash row = hash ∧ i_operation_id row = id).
Proof.
  destruct b; intros H.
  - injection H as _ <-. exists (idempotency (w_db w)). split; [by destruct (w_db w)|done].
  - apply exec_ok in H as (now & _ & H & _). apply put_idempotency_inv in H as [[[? Hs] ->]| ->].
    + exists (idempotency (w_db w)). split; [by destruct (w_db w)|]. intros _ ?. congruence.
    + eexists. split; [done|]. intros _ _. rewrite lookup_insert_eq. by eexists.
Qed.

Lemma announce_effect input k id target state quota n w u w' :
  announce_command input k id target state quota n w = (Ok u, w') ->
  announced input k id (0 <? n) (w_now w) (w_db w) (w_db w').
Proof using U.
  clear marshal_command sha256_hex.
  intros H. unfold announce_command in H. cbv zeta in H.
  apply bind_ok_inv in H as (? & w1 & H1 & H). apply released_effect in H1 as (T1 & m & E1 & Ho & Hk).
  apply bind_ok_inv in H as (? & w2 & H2 & H). apply reserved_effect in H2 as (T2 & q & E2).
  apply bind_ok_inv in H as (? & w3 & H3 & H). apply exec_ok in H3 as (now & T3 & H3 & _).
  apply upsert_work_inv in H3 as (wk & E3 & Hn & Hd).
  apply bind_ok_inv in H as (? & w4 & H4 & H). apply keyed_effect in H4 as (i & E4 & Hi).
  apply bind_ok_inv in H as (event & w5 & H5 & H).
  apply new_uuid_db in H5 as [E5 _].
  apply exec_ok in H as (now' & _ & H & _). apply append_audit_inv in H as (a & E6 & Ha & _).
  rewrite E1 in E2. rewrite E2 in E3, Hd. rewrite E3 in E4, Hi. rewrite E5, E4 in E6. rewrite E6. cbn in Hd.
  split; cbn.
  - done.
  - exists now, wk. rewrite lookup_insert_eq. split_and!; [lia|done..| |].
    + intros old Hold. rewrite Hold in Hk. destruct Hk as (wk0 & Hk & Hdv & _). rewrite Hk in Hd.
      rewrite <- Hdv. tauto.
    + intros Hr. destruct (work (w_db w) !! k).
      * destruct Hk as (wk0 & Hk & _ & Hl). rewrite Hk in Hd. destruct Hd as [_ ->]. auto.
      * rewrite Hk in Hd. by rewrite Hd.
  - intros k' Hne. rewrite lookup_insert_ne by done. by apply Ho.
  - intros Hreq Hnone. apply Hi; [by apply bool_decide_eq_false|done].
  - by exists event.
Qed.

(** Everything an accepted command did. *)
Record accepted (input : CommandInput) (k : key) (id : uuid) (since : Z) (db db' : DB) : Prop := {
  (** An undeleted service in a state the command applies to, whose generation
      moves on by one to the wanted state under the new operation. *)
  ac_service : ∃ s now, let s' := s <| s_desired_state := state_of (Kind input) (s_desired_state s) |>
      <| s_desired_generation := int64 (s_desired_generation s + 1) |>
      <| s_current_operation_id := Some id |> <| s_updated_at := now |> in
    services db !! k = Some s ∧ undeleted s = true ∧
    validCommandState (Kind input) (s_desired_state s) = Ok tt ∧
    (Kind input ≠ "delete" -> s_desired_generation s = ExpectedGeneration input) ∧
    services db' = <[k := s']> (services db) ∧
    (** The operation, and the specification it will run. *)
    (∃ t, operations db' !! (k.1, id) = Some (new_operation t k.2 (Kind input) OperationPending
       (first_step (Kind input)) (int64 (s_desired_generation s + 1)) (RequestHash input))) ∧
    (Kind input ≠ "delete" -> ∃ sp sp', specs db !! (k.1, k.2, s_desired_generation s) = Some sp ∧
       specs db' !! (k.1, k.2, int64 (s_desired_generation s + 1)) = Some sp' ∧ sp_body sp' = sp_body sp) ∧
    0 < int64 (s_desired_generation s + 1);
  (** No other operation changes, except that a delete cancels the active one. *)
  ac_operations : ∀ t i, (t, i) ≠ (k.1, id) -> operations db' !! (t, i) = operations db !! (t, i) ∨
    ∃ o now, Kind input = "delete" ∧ t = k.1 ∧ operations db !! (t, i) = Some o ∧ o_service_id o = k.2 ∧
      active (o_phase o) = true ∧ operations db' !! (t, i) = Some (cancelled now o);
  ac_new : operations db !! (k.1, id) = None;
  (** Afterwards the new operation is the only active one of its service. *)
  ac_alone : ∀ i o, operations db' !! (k.1, i) = Some o -> o_service_id o = k.2 ->
    active (o_phase o) = true -> i = id;
  ac_announced : ∃ released db0, work db0 = work db ∧ idempotency db0 = idempotency db ∧
    announced input k id released since db0 db' ∧
    (** Cancelling takes the lease away from the worker that ran the operation. *)
    ∀ i o, operations db !! (k.1, i) = Some o -> operations db' !! (k.1, i) ≠ Some o -> released = true;
}.

(** The parts of [accept_command] before the announcement. *)
Lemma commanded_effect input k w s b w' :
  commanded_service input k w = (Ok (s, b), w') ->
  w_db w' = w_db w ∧ w_now w <= w_now w' ∧ services (w_db w) !! k = Some s ∧ undeleted s = true ∧
  validCommandState (Kind input) (s_desired_state s) = Ok tt ∧
  (Kind input ≠ "delete" -> s_desired_generation s = ExpectedGeneration input).
Proof.
  intros H. unfold commanded_service in H.
  apply bind_ok_inv in H as (r & w1 & H1 & H). apply try_inv in H1 as (v & [= ->] & H1).
  apply bind_ok_inv in H as (cur & w2 & H2 & H). destruct v as [s0|e]; [|done]. injection H2 as <- <-.
  apply exec_ok in H1 as (now & T1 & H1 & Hn1 & _).
  unfold GetServiceForUpdate in H1. apply select_one_inv in H1 as [H1 E1].
  apply bind_ok_inv in H as ([] & w3 & H3 & H). apply check_ok_inv in H3 as [H3 <-].
  apply andb_true_iff in H3 as [Hg Hu].
  apply bind_ok_inv in H as ([m c] & w4 & H4 & H). apply exec_ok in H4 as (now4 & T4 & H4 & Hn4 & _).
  injection H4 as _ E4. minv H. injection H as <- <- <-.
  apply (f_equal fst) in Hm1 as Hv. cbn in Hv. injection Hm1 as _ <-.
  split_and!; [congruence|lia|done|done| |].
  - destruct a1. exact Hv.
  - intros Hd. apply orb_true_iff in Hg as [?%bool_decide_eq_true|?%Z.eqb_eq]; congruence.
Qed.

Lemma cancelling_effect (b : bool) k (w : World) n w' :
  (if b then exec (CancelActiveOperation k) else mret 0) w = (Ok n, w') ->
  w_now w <= w_now w' ∧ ∃ m, w_db w' = (w_db w) <| operations := m |> ∧
    ((n = 0 ∧ m = operations (w_db w)) ∨
     b = true ∧ n = 1 ∧ ∃ id o now, operations (w_db w) !! (k.1, id) = Some o ∧ o_service_id o = k.2 ∧
       active (o_phase o) = true ∧ m = <[(k.1, id) := cancelled now o]> (operations (w_db w))).
Proof.
  destruct b; intros H.
  - apply exec_ok in H as (now & Ht & H & <- & _). split; [done|].
    apply cancel_inv in H as [(-> & -> & _)|(-> & s & id & o & Hs & Hc & Ho & Hsv & Ha & ->)].
    + exists (operations (w_db w)). split; [by destruct (w_db w)|by left].
    + eexists. split; [done|]. right. split_and!; [done..|]. by eexists id, o, _.
  - injection H as <- <-. split; [done|]. exists (operations (w_db w)). split; [by destruct (w_db w)|by left].
Qed.

(** The operation table after the cancellation, row by row. *)
Lemma cancelled_rows (b : bool) (k : key) (n : Z) (ops m : gmap key OperationRow) :
  (n = 0 ∧ m = ops) ∨
  (b = true ∧ n = 1 ∧ ∃ id o now, ops !! (k.1, id) = Some o ∧ o_service_id o = k.2 ∧
     active (o_phase o) = true ∧ m = <[(k.1, id) := cancelled now o]> ops) ->
  ∀ t i, m !! (t, i) = ops !! (t, i) ∨
    ∃ o now, b = true ∧ n = 1 ∧ t = k.1 ∧ ops !! (t, i) = Some o ∧ o_service_id o = k.2 ∧
      active (o_phase o) = true ∧ m !! (t, i) = Some (cancelled now o).
Proof.
  intros [[_ ->]|(Hb & Hn & id & o & now & Ho & Hs & Ha & ->)] t i; [by left|].
  destruct (decide ((t, i) = (k.1, id))) as [[= -> ->]|Hne].
  - right. exists o, now. by rewrite lookup_insert_eq.
  - left. by rewrite lookup_insert_ne.
Qed.
Lemma announced_since input k id b t t' db db' :
  t' <= t -> announced input k id b t db db' -> announced input k id b t' db db'.
Proof.
  intros Ht [H1 (now & wk & ? & H2) H3 H4 H5]. split; [done| |done..].
  exists now, wk. split; [lia|done].
Qed.

Lemma quota_read input k g b (w : World) q w' :
  command_quota input k g b w = (Ok q, w') -> w_db w' = w_db w ∧ w_now w <= w_now w'.
Proof.
  unfold command_quota. destruct (needs_quota _); intros H; [|by injection H as _ <-].
  apply bind_ok_inv in H as ([g' sp] & w1 & H1 & H). injection H as _ <-.
  apply exec_ok in H1 as (now & T & H1 & <- & _). unfold Sql.GetSpec in H1.
  apply select_one_inv in H1 as [_ ->]. done.
Qed.

Lemma clone_effect input k source target (w : World) u w' :
  clone_spec input k source target w = (Ok u, w') ->
  w_now w <= w_now w' ∧ ∃ m, w_db w' = (w_db w) <| specs := m |> ∧
    (Kind input ≠ "delete" -> ∃ sp sp', specs (w_db w) !! (k.1, k.2, source) = Some sp ∧
       m !! (k.1, k.2, target) = Some sp' ∧ sp_body sp' = sp_body sp).
Proof.
  unfold clone_spec. case_bool_decide as Hd; intros H.
  - injection H as _ <-. split; [done|]. exists (specs (w_db w)). split; [by destruct (w_db w)|done].
  - apply bind_ok_inv in H as (id & w1 & H1 & H). apply bind_ok_inv in H as (n & w2 & H2 & H).
    apply check_ok_inv in H as [Hn <-]. apply exec_ok in H2 as (now & T & H2 & <- & _).
    apply new_uuid_db in H1 as [E1 En]. rewrite En in T. split; [done|]. rewrite E1 in H2.
    apply clone_inv in H2 as [[-> _]|(_ & sp & sp' & Hs & _ & Hb & ->)]; [done|].
    eexists. split; [done|]. intros _. exists sp, sp'. by rewrite lookup_insert_eq.
Qed.

Lemma inserted_effect input k id target (w : World) u w' :
  insert_operation input k id target w = (Ok u, w') ->
  w_now w <= w_now w' ∧ operations (w_db w) !! (k.1, id) = None ∧ 0 < target ∧
  other_active (w_db w) k.1 id k.2 = false ∧
  ∃ t, w_db w' = (w_db w) <| operations := <[(k.1, id) := new_operation t k.2 (Kind input) OperationPending
         (first_step (Kind input)) target (RequestHash input)]> (operations (w_db w)) |>.
Proof.
  unfold insert_operation. intros H. apply bind_ok_inv in H as (r & w1 & H1 & H).
  apply try_inv in H1 as (v & [= ->] & H1). destruct v as [[]|e]; [|done]. injection H as _ <-.
  apply exec_ok in H1 as (now & T & H1 & <- & _).
  apply insert_operation_inv in H1 as (Hn & Hp & Ha & ->). split_and!; [done..|by apply Ha|by eexists].
Qed.

Lemma accept_effect input k id w r w' :
  accept_command input k id w = (Ok r, w') -> accepted input k id (w_now w) (w_db w) (w_db w').
Proof.
  intros H. unfold accept_command in H.
  apply bind_ok_inv in H as ([s b] & w1 & H1 & H). apply commanded_effect in H1 as (E1 & T1 & Hs & Hu & Hv & Hg).
  cbv zeta in H.
  apply bind_ok_inv in H as (n & w2 & H2 & H). apply cancelling_effect in H2 as (T2 & m & E2 & Hm).
  apply bind_ok_inv in H as (q & w3 & H3 & H). apply quota_read in H3 as (E3 & T3).
  apply bind_ok_inv in H as ([] & w4 & H4 & H). apply clone_effect in H4 as (T4 & sp & E4 & Hsp).
  apply bind_ok_inv in H as (rows & w5 & H5 & H). apply exec_ok in H5 as (now5 & T5 & H5 & <- & _).
  apply bind_ok_inv in H as ([] & w6 & H6 & H). apply check_ok_inv in H6 as [H6 <-].
  apply bind_ok_inv in H as ([] & w7 & H7 & H). apply inserted_effect in H7 as (T7 & Hnone & Hpos & Hoa & t & E7).
  apply bind_ok_inv in H as ([] & w8 & H8 & H). injection H as _ <-. apply announce_effect in H8 as Han.
  rewrite E3, E2, E1 in E4. rewrite E4 in H5. rewrite E3, E2, E1 in Hsp.
  apply transition_inv in H5 as [[-> _]|(_ & s0 & s' & Hs0 & _ & E5 & ->)]; [done|].
  cbn in Hs0. rewrite Hs in Hs0. injection Hs0 as <-. rewrite E5 in Hnone, Hoa, E7. cbn in Hnone, E7.
  rewrite E1 in Hm. destruct (an_rows _ _ _ _ _ _ _ Han) as (Rs & Ro & Rp).
  rewrite E7 in Rs, Ro, Rp. cbn in Rs, Ro, Rp. pose proof (cancelled_rows _ _ _ _ _ Hm) as Hrows.
  split.
  - exists s, (w_now w5). rewrite Rs, Ro, Rp, lookup_insert_eq. split_and!; [done..|by exists t|done|done].
  - intros t' i Hne. rewrite Ro, lookup_insert_ne by done.
    destruct (Hrows t' i) as [?|(o & now & Hb & _ & Hx)]; [by left|right]. exists o, now.
    split; [by apply bool_decide_eq_true in Hb|done].
  - destruct (Hrows k.1 id) as [Hx|(o & now & _ & _ & _ & _ & _ & _ & Hx)]; congruence.
  - intros i o Hi Hsv Ha. rewrite Ro in Hi. apply lookup_insert_Some in Hi as [[[= ->] _]|[Hne Hi]]; [done|].
    by apply (other_active_false _ _ _ _ _ _ Hoa Hi).
  - exists (0 <? n), (w_db w7). rewrite E7. split_and!; [done|done|rewrite <- E7|].
    { eapply announced_since; [|exact Han]. lia. }
    intros i o Hi Hch. rewrite Ro in Hch. destruct (decide ((k.1, i) = (k.1, id))) as [[= ->]|Hne].
    + destruct (Hrows k.1 id) as [Hx|(o' & now & _ & _ & _ & _ & _ & _ & Hx)]; congruence.
    + rewrite lookup_insert_ne in Hch by done.
      destruct (Hrows k.1 i) as [Hx|(o' & now & _ & -> & _)]; [congruence|done].
Qed.

(** *** Replays *)
(** The request recorded in [row] for operation [o] is this one. *)
Definition same_request (input : CommandInput) (row : IdempotencyRow) (o : OperationRow) : bool :=
  bool_decide (i_payload_hash row = RequestHash input) || legacy_delete input (i_payload_hash row) o.
Lemma moves_replayed input tenant : moves (db_rel eq) (replayed_command input tenant).
Proof. unfold replayed_command, LockIdempotency, GetIdempotency, Sql.GetOperation. moves. Qed.
Lemma replayed_effect input tenant (w : World) r w' :
  replayed_command input tenant w = (Ok r, w') ->
  let ik := (tenant, command_method (Kind input), RequestID input) in
  w_db w' = w_db w ∧ w_now w <= w_now w' ∧
  match r with
  | None => RequestID input ≠ "" -> idempotency (w_db w) !! ik = None
  | Some (id, o) => ∃ row, RequestID input ≠ "" ∧ idempotency (w_db w) !! ik = Some row ∧
      i_operation_id row = id ∧ operations (w_db w) !! (tenant, id) = Some o ∧
      same_request input row o = true
  end.
Proof.
  intros H. cbv zeta. pose proof (moves_replayed input tenant w) as Hm. rewrite H in Hm. destruct Hm as [Ht Hdb].
  split_and!; [done..|]. revert H. unfold replayed_command. case_bool_decide as Hr; intros H; [by injection H as <- _|].
  apply bind_ok_inv in H as (? & w1 & H1 & H). apply exec_ok in H1 as (? & _ & H1 & _). injection H1 as _ E1.
  apply bind_ok_inv in H as (v & w2 & H2 & H). apply try_inv in H2 as (y & [= ->] & H2). rewrite E1.
  destruct y as [row|e].
  - apply exec_ok in H2 as (? & _ & H2 & _). unfold GetIdempotency in H2. apply select_one_inv in H2 as [H2 E2].
    apply bind_ok_inv in H as (o & w3 & H3 & H). apply exec_ok in H3 as (? & _ & H3 & _).
    unfold Sql.GetOperation in H3. apply select_one_inv in H3 as [H3 _].
    minv H. injection H as <- _. exists row. by rewrite E2 in H3.
  - destruct (errors_is e "pgx.ErrNoRows") eqn:Ee; [|done]. injection H as <- _.
    apply exec_err in H2 as (_ & [->|(now & _ & H2 & _)]); [done|].
    intros _. unfold GetIdempotency, select_one in H2. by destruct (idempotency _ !! _).
Qed.

Lemma command_body_effect input k id w r w' :
  command_body input k id w = (Ok r, w') ->
  (∃ row o, RequestID input ≠ "" ∧
     idempotency (w_db w) !! (k.1, command_method (Kind input), RequestID input) = Some row ∧
     operations (w_db w) !! (k.1, i_operation_id row) = Some o ∧ same_request input row o = true ∧
     w_db w' = w_db w ∧
     r = Schema.Commit (commandResponseFromRow (i_operation_id row) o)) ∨
  accepted input k id (w_now w) (w_db w) (w_db w') ∧
  (RequestID input ≠ "" -> idempotency (w_db w) !! (k.1, command_method (Kind input), RequestID input) = None) ∧
  ∃ target, r = Schema.Commit (commandResponse (uuid_string k.2) (uuid_string id) target (Kind input)
                                 (first_step (Kind input))).
Proof.
  unfold command_body. intros H. apply bind_ok_inv in H as (e & w1 & H1 & H).
  apply replayed_effect in H1 as (E1 & T1 & Hx). destruct e as [[old o]|].
  - injection H as <- <-. left. destruct Hx as (row & Hr & Hi & <- & Ho & Hs). by exists row, o.
  - right. apply bind_ok_inv in H as (resp & w2 & H2 & H). injection H as <- <-.
    assert (Hresp : ∃ target, resp = commandResponse (uuid_string k.2) (uuid_string id) target (Kind input)
              (first_step (Kind input))).
    { unfold accept_command in H2. apply bind_ok_inv in H2 as ([s b] & ? & _ & H2). cbv zeta in H2.
      repeat apply bind_ok_inv in H2 as (? & ? & _ & H2). injection H2 as <- _. by eexists. }
    apply accept_effect in H2. rewrite E1 in H2. split_and!; [|done|].
    + destruct H2 as [? ? ? ? (b & db0 & ? & ? & Han & ?)]. split; [done..|]. exists b, db0.
      split_and!; [done..| |done]. by eapply announced_since.
    + destruct Hresp as [target ->]. by exists target.
Qed.

(** *** The whole command *)
Definition addressed_service (input : CommandInput) : option key :=
  match uuid_parse (TenantID input), uuid_parse (ServiceID input) with
  | Some tenant, Some service => Some (tenant, service)
  | _, _ => None
  end.
Lemma requireUUID_ok what s (w : World) u w' :
  lift (requireUUID what s) w = (Ok u, w') -> uuid_parse s = Some u.
Proof.
  unfold requireUUID, lift. destruct (uuid_parse s); [|done]. by intros [= <- _].
Qed.

(** A replay answers with the recorded operation. *)
Definition replays (input : CommandInput) (k : key) (db : DB) (r : OperationResponse) : Prop :=
  ∃ row o, RequestID input ≠ "" ∧
    idempotency db !! (k.1, command_method (Kind input), RequestID input) = Some row ∧
    operations db !! (k.1, i_operation_id row) = Some o ∧ same_request input row o = true ∧
    r = commandResponseFromRow (i_operation_id row) o.

Lemma command_effect input w r w' :
  Command_direct input w = (r, w') ->
  (w_db w' = w_db w ∧ is_ok r = false) ∨
  ∃ k id response, addressed_service input = Some k ∧ (r = Ok response ∨ r = Err ErrConn) ∧
    ((w_db w' = w_db w ∧ replays input k (w_db w) response) ∨
     accepted input k id (w_now w) (w_db w) (w_db w') ∧
     (RequestID input ≠ "" ->
        idempotency (w_db w) !! (k.1, command_method (Kind input), RequestID input) = None) ∧
     ∃ target, response = commandResponse (uuid_string k.2) (uuid_string id) target (Kind input)
                            (first_step (Kind input))).
Proof.
  intros H. unfold Command_direct in H. guards H. apply requireUUID_ok in Hg, Hg0.
  unfold addressed_service. rewrite Hg, Hg0. unfold mbind, M_bind in H.
  destruct (new_uuid w) as [[id|?] w1] eqn:Eu; [|by unfold new_uuid in Eu; destruct (w_uuids w)].
  assert (E1 : w_db w1 = w_db w ∧ w_now w1 = w_now w)
    by (unfold new_uuid in Eu; destruct (w_uuids w); by simplify_eq/=). destruct E1 as [E1 T1].
  apply transaction_effect in H as [[Hdb Hd]|(u & e & v & Hu & Hn & _ & Hb & Hdb & Hr)].
  - left. split; [congruence|]. destruct r as [resp|]; [|done].
    destruct (Hd _ eq_refl) as (u & v & _ & Hb).
    apply command_body_effect in Hb as [(? & ? & _ & _ & _ & _ & _ & [=])|(_ & _ & ? & [=])].
  - right. exists (x, x0), id, e. split_and!; [done..|]. rewrite Hdb.
    rewrite E1 in Hu. rewrite T1 in Hn. rewrite <- Hu.
    apply command_body_effect in Hb as [(row & o & ? & ? & ? & ? & Hv & [= ->])|(Hacc & Hnew & target & [= ->])].
    + left. split; [done|]. by exists row, o.
    + right. split_and!; [|done|by exists target].
      destruct Hacc as [? ? ? ? (b & db0 & ? & ? & Han & ?)]. split; [done..|]. exists b, db0.
      split_and!; [done..| |done]. by eapply announced_since.
Qed.

(** A command is accepted whole or not at all.  Whatever
    [Command_direct] reports: either the database is as before, and a reported
    success then replays the operation recorded under the request key; or the
    command is accepted completely ([accepted]): an undeleted service in a state
    the command applies to moves to the next generation and the wanted state, the
    new pending operation is its current and only active one, the specification is
    carried over, the worker is woken with a newer version, a delete cancels the
    running operation and takes its lease away, the request key is recorded, and
    an error can only be a lost answer. *)
Theorem command_all_or_nothing input w r w' :
  Command_direct input w = (r, w') ->
  (w_db w' = w_db w ∧
   ∀ response, r = Ok response -> ∃ k, addressed_service input = Some k ∧ replays input k (w_db w) response) ∨
  ∃ k id, addressed_service input = Some k ∧ accepted input k id (w_now w) (w_db w) (w_db w') ∧
    ((∃ target, r = Ok (commandResponse (uuid_string k.2) (uuid_string id) target (Kind input)
                          (first_step (Kind input)))) ∨ r = Err ErrConn).
Proof.
  intros H. apply command_effect in H as [[Hdb Hr]|(k & id & resp & Hk & Hr & [[Hdb Hrep]|(Hacc & _ & target & ->)])].
  - left. split; [done|]. by intros resp ->.
  - left. split; [done|]. intros resp' ->. destruct Hr as [[= ->]|[=]]. by exists k.
  - right. exists k, id. split_and!; [done..|]. destruct Hr as [->| ->]; [left; by exists target|by right].
Qed.

(** *** Active operations are current *)
(** Every active operation is the current one of its service, for the desired
    generation: what every fence of the runner asks for. *)
Definition active_current (db : DB) : Prop := ∀ t id o,
  operations db !! (t, id) = Some o -> active (o_phase o) = true ->
  ∃ s, services db !! (t, o_service_id o) = Some s ∧ s_current_operation_id s = Some id ∧
       s_desired_generation s = o_target_generation o.

Lemma accepted_active_current input k id since db db' :
  accepted input k id since db db' -> active_current db -> active_current db'.
Proof.
  intros [(s & now & Hs & _ & _ & _ & Hs' & (t0 & Hnew) & _ & _) Hops _ Halone _] Hinv t i o Ho Ha.
  rewrite Hs'. destruct (decide ((t, i) = (k.1, id))) as [[= -> ->]|Hne].
  - rewrite Hnew in Ho. injection Ho as <-. cbn. rewrite <- surjective_pairing, lookup_insert_eq.
    by eexists.
  - destruct (Hops t i Hne) as [E|(o' & now' & _ & _ & _ & _ & _ & E)]; [|by rewrite E in Ho; injection Ho as <-].
    rewrite lookup_insert_ne; [rewrite E in Ho; by apply Hinv|]. intros ->. destruct Hne. cbn. f_equal.
    by apply (Halone i o).
Qed.
Lemma step_active_current tr e retry after w r w' :
  stepWithAudit tr e retry after w = (r, w') -> active_current (w_db w) -> active_current (w_db w').
Proof.
  intros H Hinv.
  apply stepWithAudit_effect in H as [[-> _]|(p & _ & _ & [(now & o & s & _ & Hf & _ & Ho & _) _ _ Hh] & _)];
    [done|]. intros t i o' Hi Ha. rewrite Ho in Hi.
  assert (∃ s0, services (w_db w) !! (t, o_service_id o') = Some s0 ∧ s_current_operation_id s0 = Some i ∧
            s_desired_generation s0 = o_target_generation o') as (s0 & Hs0 & Hc & Hg).
  { apply lookup_insert_Some in Hi as [[[= <- <-] <-]|[_ Hi]]; [|by apply Hinv].
    rewrite next_row_service. destruct Hf. exists s. split_and!; [done..|]. by destruct retry. }
  destruct (Hh _ _ Hs0) as (s1 & -> & Hg1 & Hc1). exists s1. split_and!; congruence.
Qed.

(** Claim C31.  Active operations are current.  If every active operation is
    the current one of its service for the desired generation, then this still
    holds after any direct command and after any step of the runner, whatever they
    report: no operation is left active that the fences of the runner would refuse
    for good, and with it no service is left blocked for new commands. *)
Theorem active_operations_stay_current input tr e retry after w :
  active_current (w_db w) ->
  active_current (w_db (Command_direct input w).2) ∧
  active_current (w_db (stepWithAudit tr e retry after w).2).
Proof.
  intros Hinv. split.
  - destruct (Command_direct input w) as [r w'] eqn:H. cbn.
    apply command_effect in H as [[-> _]|(k & id & resp & _ & _ & [[-> _]|(Hacc & _)])]; [done..|].
    by eapply accepted_active_current.
  - destruct (stepWithAudit tr e retry after w) as [r w'] eqn:H. by eapply step_active_current.
Qed.

(**  An active operation is found by its worker.  When active
    operations are current, the worker that holds the live lease of a service (and
    no other row of the tenant carries that token) loads exactly the active
    operation of that service. *)
Theorem active_operation_loaded t id o wk token now db :
  active_current db -> operations db !! (t, id) = Some o -> active (o_phase o) = true ->
  work db !! (t, o_service_id o) = Some wk -> leased now token wk = true ->
  (∀ k' wk', work db !! k' = Some wk' -> k'.1 = t -> leased now token wk' = true -> k' = (t, o_service_id o)) ->
  GetLeasedOperation t token now db = Ok ((id, o), db).
Proof.
  intros Hinv Ho Ha Hw Hl Huniq. destruct (Hinv _ _ _ Ho Ha) as (s & Hs & Hc & Hg).
  unfold GetLeasedOperation, select_one. erewrite head_omap_unique; [done|by apply elem_of_map_to_list| |].
  - cbv beta iota. cbn [fst snd]. by rewrite Hl, bool_decide_true, Hs, Hc, Ho, Hg, Z.eqb_refl, bool_decide_true.
  - intros [k' wk'] y' Hin%elem_of_map_to_list. destruct (_ && _) eqn:B; [|done].
    apply andb_true_iff in B as [Bt%bool_decide_eq_true Bl].
    rewrite (Huniq k' wk' Hin Bt Bl), Hs, Hc, Ho. destruct (_ && _); [|done]. by intros [= <-].
Qed.

(** *** Repeating a request *)
(** The checks before the transaction. *)
Definition well_formed (input : CommandInput) (k : key) : Prop :=
  addressed_service input = Some k ∧
  (bool_decide (Kind input = "delete") || negb (ExpectedGeneration input <? 1)) = true ∧
  in_list (Kind input) ["start"; "stop"; "restart"; "delete"] = true.
Lemma command_well_formed input w response w' :
  Command_direct input w = (Ok response, w') -> ∃ k, well_formed input k.
Proof.
  unfold Command_direct. intros H. apply bind_ok_inv in H as (t & ? & Ht%requireUUID_ok & H).
  apply bind_ok_inv in H as (s & ? & Hs%requireUUID_ok & H).
  apply bind_ok_inv in H as (? & ? & [H1 _]%check_ok_inv & H).
  apply bind_ok_inv in H as (? & ? & [H2 _]%check_ok_inv & _).
  exists (t, s). unfold well_formed, addressed_service. by rewrite Ht, Hs.
Qed.
Lemma command_run input k w :
  well_formed input k ->
  Command_direct input w = (id ← new_uuid; transaction (command_body input k id)) w.
Proof.
  intros (Ha & H1 & H2). unfold addressed_service in Ha. unfold Command_direct, requireUUID.
  destruct (uuid_parse (TenantID input)); [|done]. destruct (uuid_parse (ServiceID input)); [|done].
  injection Ha as <-. by rewrite H1, H2.
Qed.
Lemma replay_run input k id w row o :
  w_env w = [] -> RequestID input ≠ "" ->
  idempotency (w_db w) !! (k.1, command_method (Kind input), RequestID input) = Some row ->
  operations (w_db w) !! (k.1, i_operation_id row) = Some o -> same_request input row o = true ->
  transaction (command_body input k id) w = (Ok (commandResponseFromRow (i_operation_id row) o), w).
Proof.
  intros He Hr Hi Ho Hs. apply transaction_delivered; [done..|].
  unfold command_body. rewrite (bind_run _ _ _ (Some (i_operation_id row, o)) w); [reflexivity|].
  unfold replayed_command. rewrite bool_decide_false by done. cbv zeta.
  erewrite bind_run by (by apply exec_read).
  erewrite bind_run by (unfold try; erewrite exec_read; [reflexivity|done|];
                        unfold GetIdempotency, select_one; by rewrite Hi).
  cbn beta iota. erewrite bind_run by (apply exec_read; [done|]; unfold Sql.GetOperation, select_one; by rewrite Ho).
  unfold same_request in Hs. rewrite Hs. reflexivity.
Qed.

(** The operations of [db] are still there in [db'], whatever became of them. *)
Definition operations_kept (db db' : DB) : Prop := ∀ i o, operations db !! i = Some o ->
  ∃ o', operations db' !! i = Some o' ∧ o_service_id o' = o_service_id o ∧ o_kind o' = o_kind o ∧
        o_target_generation o' = o_target_generation o.
Lemma same_request_kept input row o o' :
  o_kind o' = o_kind o -> o_target_generation o' = o_target_generation o ->
  same_request input row o' = same_request input row o.
Proof. intros H1 H2. unfold same_request, legacy_delete. by rewrite H1, H2. Qed.

Lemma command_recorded input w response w' k :
  Command_direct input w = (Ok response, w') -> addressed_service input = Some k -> RequestID input ≠ "" ->
  ∃ row o, idempotency (w_db w') !! (k.1, command_method (Kind input), RequestID input) = Some row ∧
    operations (w_db w') !! (k.1, i_operation_id row) = Some o ∧ same_request input row o = true ∧
    om_id (or_operation response) = uuid_string (i_operation_id row) ∧
    rm_id (or_resource response) = uuid_string (o_service_id o).
Proof.
  intros H Hk Hreq.
  apply command_effect in H as [[_ [=]]|(k' & id & r & Hk' & Hr & Hcase)]. rewrite Hk in Hk'. injection Hk' as <-.
  destruct Hr as [[= ->]|[=]]. destruct Hcase as [[-> (row & o & _ & Hi & Ho & Hs & ->)]|(Hacc & Hnew & target & ->)].
  - by exists row, o.
  - destruct Hacc as [(s & now & _ & _ & _ & _ & _ & (t & Ho) & _) _ _ _ (b & db0 & _ & Ei & Han & _)].
    destruct (an_request _ _ _ _ _ _ _ Han Hreq) as (row & Hi & Hh & Hid); [rewrite Ei; auto|].
    exists row. rewrite Hid. eexists. split_and!; [done..| |done|done].
    unfold same_request. by rewrite Hh, bool_decide_true.
Qed.

(** Repeating an accepted request is harmless.  Once a command with
    a request key succeeded, the same command, repeated at any later time while
    the key and its operation are still recorded (whatever became of the
    operation), reaches the database, succeeds, names the same operation and
    service, and changes nothing. *)
Theorem command_repeated input w response w' w2 :
  Command_direct input w = (Ok response, w') -> RequestID input ≠ "" ->
  idempotency (w_db w') ⊆ idempotency (w_db w2) -> operations_kept (w_db w') (w_db w2) -> w_env w2 = [] ->
  ∃ response2 w3, Command_direct input w2 = (Ok response2, w3) ∧ w_db w3 = w_db w2 ∧
    om_id (or_operation response2) = om_id (or_operation response) ∧
    rm_id (or_resource response2) = rm_id (or_resource response).
Proof.
  intros H Hreq Hsub Hkept Henv. destruct (command_well_formed _ _ _ _ H) as [k Hwf].
  destruct (command_recorded _ _ _ _ k H (proj1 Hwf) Hreq) as (row & o & Hi & Ho & Hs & E1 & E2).
  destruct (Hkept _ _ Ho) as (o' & Ho' & Hsv & Hkd & Hg).
  assert (Hu : ∃ id w1, new_uuid w2 = (Ok id, w1) ∧ w_db w1 = w_db w2 ∧ w_env w1 = []).
  { unfold new_uuid. destruct (w_uuids w2); by eexists _, _. }
  destruct Hu as (id & w1 & Hu & Hdb & Hen). rewrite (command_run _ k _ Hwf), (bind_run _ _ _ _ _ Hu).
  eexists _, w1. split; [apply (replay_run _ k id w1 row o')|]; rewrite ?Hdb; try done.
  - by eapply lookup_weaken.
  - by rewrite (same_request_kept _ _ o o').
  - cbn. by rewrite E1, E2, Hsv.
Qed.
End Command.

(** ** Examples: deleting the service of [OperationStore.ex_op_db], whose start
    operation is pending and whose work is leased with token 7. *)
Import BinaryUuid.
Definition ex_direct_db : DB := ex_op_db <| managed := ∅ |>.
Definition ex_direct_world : World := mkWorld ex_direct_db 20 [] [10%N; 11%N].
Definition ex_delete : CommandInput :=
  mkCommandInput (uuid_string 1%N) "request-1" "actor" (uuid_string 2%N) "delete" "hash" 0.
Definition ex_marshal (request service : string) (generation : Z) : result string := Ok (request +:+ service).
Definition ex_command : M World OperationResponse := Command_direct ex_marshal (fun s => s) ex_delete.
Definition ex_response : OperationResponse :=
  commandResponse (uuid_string 2%N) (uuid_string 10%N) 2 "delete" StepWithdrawPublication.
Lemma ex_command_ok : (ex_command ex_direct_world).1 = Ok ex_response.
Proof. vm_compute. reflexivity. Qed.

Lemma command_all_or_nothing_witness :
  accepted ex_delete (1%N, 2%N) 10%N 20 ex_direct_db (w_db (ex_command ex_direct_world).2).
Proof.
  destruct (ex_command ex_direct_world) as [r w'] eqn:E. pose proof ex_command_ok as Hr. rewrite E in Hr. cbn in Hr.
  destruct (command_all_or_nothing ex_marshal (fun s => s) ex_delete ex_direct_world r w' E)
    as [[_ H]|(k & id & Hk & Hacc & [(target & ->)|Hc])].
  - destruct (H _ Hr) as (k & Hk & (row & o & _ & Hi & _)). vm_compute in Hi. discriminate Hi.
  - vm_compute in Hk. injection Hk as <-. 
    apply (f_equal (fun x => match x with Ok y => uuid_parse (om_id (or_operation y)) | Err _ => None end)) in Hr.
    cbn [om_id or_operation commandResponse ex_response] in Hr.
    rewrite !uuid_parse_string in Hr. injection Hr as ->. exact Hacc.
  - rewrite Hc in Hr. discriminate Hr.
Defined.

Lemma ex_active : active_current ex_direct_db.
Proof.
  intros t id o Ho Ha. assert (E : operations ex_direct_db = {[ (1%N, 3%N) := ex_operation ]}) by done.
  rewrite E in Ho. apply lookup_singleton_Some in Ho as [[= <- <-] <-]. by eexists.
Qed.
Lemma active_operations_stay_current_witness :
  active_current (w_db (ex_command ex_direct_world).2) ∧
  active_current (w_db (stepWithAudit ex_transition ex_event false 0 ex_direct_world).2).
Proof.
  exact (active_operations_stay_current ex_marshal (fun s => s) ex_delete ex_transition ex_event false 0
           ex_direct_world ex_active).
Defined.

Lemma active_operation_loaded_witness :
  GetLeasedOperation 1%N 7%N 20 ex_direct_db = Ok ((3%N, ex_operation), ex_direct_db).
Proof.
  refine (active_operation_loaded 1%N 3%N ex_operation _ 7%N 20 ex_direct_db ex_active eq_refl eq_refl eq_refl
    eq_refl _).
  intros k' wk' Hw _ _. assert (E : work ex_direct_db = {[ (1%N, 2%N) := (mkWorkRow 1 0 (Some 0) 1 (Some "w") (Some 40) (Some 7%N) "" 10) ]})
    by (vm_compute; reflexivity).
  rewrite E in Hw. by apply lookup_singleton_Some in Hw as [<- _].
Defined.

(** The same request again, on the database the first one left. *)
Lemma command_repeated_witness :
  ∃ response2 w3, ex_command (ex_command ex_direct_world).2 = (Ok response2, w3) ∧
    w_db w3 = w_db (ex_command ex_direct_world).2 ∧
    om_id (or_operation response2) = om_id (or_operation ex_response) ∧
    rm_id (or_resource response2) = rm_id (or_resource ex_response).
Proof.
  pose proof ex_command_ok as Hr. destruct (ex_command ex_direct_world) as [r w'] eqn:E. cbn in Hr. subst r.
  refine (command_repeated ex_marshal (fun s => s) ex_delete ex_direct_world ex_response w' w' E _ _ _ _).
  - discriminate.
  - reflexivity.
  - intros i o Ho. by exists o.
  - apply (f_equal (fun x => w_env x.2)) in E. vm_compute in E. by symmetry.
Defined.
End Commands.
