(* ===== verification/Managed.v ===== *)
(** * Managed commands and creation

    internal/data/postgres/managed_gpu.go, repository.go and create_usecase.go:
    CREATE and DELETE commands that carry a Governance attachment are serialized
    on their resource, checked against the immutable association of the first
    CREATE, and acknowledged durably; [CreateService] writes a new service with
    everything that belongs to it in one transaction. *)

From S2P Require Import Prelude GoStrings Operation Gpu Resources Engine Work Schema WorkStore Reconcile Runner ReconcileStore OperationStore Commands.
Local Open Scope Z_scope.

Module Managed.
Import Schema WorkStore ReconcileStore Operation OperationStore OperationStore.Sql Commands.

(** ** Statements on managed resources and commands *)
Definition NotNullViolation : goerr := ENew "23502" "null value violates not-null constraint".

(** Advisory locks: transactions already run one after the other. *)
Definition LockManagedGPUKey (lock : string) : statement unit := select (fun _ _ => tt).
Definition GetManagedGPUCommand (tenant operation : uuid) : statement ManagedCommandRow :=
  select_one (fun _ db => managed_commands db !! (tenant, operation)).
Definition GetManagedGPUResourceForUpdate (k : key) : statement ManagedResourceRow :=
  select_one (fun _ db => managed db !! k).
Definition ManagedGPUServiceExists (k : key) : statement bool :=
  select (fun _ db => bool_decide (is_Some (services db !! k))).
(** Anything that shows an earlier accepted execution. *)
Definition ManagedExecutionFacts (k : key) : statement bool := select (fun _ db =>
  existsb (fun ko : (uuid * uuid) * OperationRow =>
    bool_decide (ko.1.1 = k.1) && bool_decide (o_service_id ko.2 = k.2)) (map_to_list (operations db)) ||
  bool_decide (is_Some (work db !! k)) ||
  match managed db !! k with Some m => bool_decide (is_Some (m_create_payload m)) | None => false end).

(** UNIQUE (tenant_id, create_operation_id). *)
Definition create_taken (db : DB) (tenant create : uuid) : bool :=
  existsb (fun km : key * ManagedResourceRow =>
    bool_decide (km.1.1 = tenant) && bool_decide (m_create_operation_id km.2 = create))
    (map_to_list (managed db)).
Definition InsertManagedGPUResource (k : key) (create : uuid) (owner class digest : string)
    (original : Gpu.RefundContext) : statement unit := fun _ db =>
  if negb (bool_decide (owner = "ani-inference") && in_list class ["cpu"; "gpu"]) then Err CheckViolation
  else if bool_decide (is_Some (managed db !! k))
  then Err (UniqueViolation "inference_managed_gpu_resources_pkey")
  else if create_taken db k.1 create
  then Err (UniqueViolation "inference_managed_gpu_resources_tenant_id_create_operation_id_key")
  else Ok (tt, db <| managed := <[k := mkManagedResourceRow create owner (JVal original) class digest
                                         "" "" None None false None]> (managed db) |>).

(** [:exec] updates of at most one row. *)
Definition update_managed (f : ManagedResourceRow -> option ManagedResourceRow) (k : key) : statement unit :=
  fun _ db =>
  match managed db !! k with
  | Some m => match f m with
              | Some m' => Ok (tt, db <| managed := <[k := m']> (managed db) |>)
              | None => Ok (tt, db)
              end
  | None => Ok (tt, db)
  end.
Definition SetManagedGPUClosing (k : key) (delete_operation : uuid) : statement unit :=
  update_managed (fun m => Some (m <| m_closing := true |>
    <| m_delete_operation_id := Some (default delete_operation (m_delete_operation_id m)) |>)) k.
Definition SaveManagedGPUCreate (k : key) (business digest hash payload : string) : statement unit :=
  update_managed (fun m => match m_create_payload m with
    | Some _ => None
    | None => Some (m <| m_business_payload := Some business |> <| m_business_payload_digest := digest |>
                      <| m_create_request_hash := hash |> <| m_create_payload := Some payload |>)
    end) k.

Definition intents : list string := ["create_pending"; "blocked_by_delete"; "closing_intent"].
Definition InsertManagedGPUCommand (tenant operation : uuid) (row : Z -> ManagedCommandRow) : statement unit :=
  fun now db =>
  let c := row now in
  if negb (in_list (mc_kind c) ["create"; "delete"] && in_list (mc_execution_intent c) intents)
  then Err CheckViolation
  else if bool_decide (is_Some (managed_commands db !! (tenant, operation)))
  then Err (UniqueViolation "inference_managed_gpu_commands_pkey")
  else if match managed db !! (tenant, mc_resource_id c) with
          | Some m => negb (bool_decide (m_create_operation_id m = mc_create_operation_id c))
          | None => true
          end then Err ForeignKeyViolation
  else Ok (tt, db <| managed_commands := <[(tenant, operation) := c]> (managed_commands db) |>).

Definition close_states : list string := [""; "pending"; "unknown_execution"; "complete"].
Definition SetManagedCloseState (tenant operation : uuid) (actor state error : string) : statement unit :=
  fun now db =>
  match managed_commands db !! (tenant, operation) with
  | Some c =>
      if bool_decide (mc_kind c = "delete") then
        if negb (in_list state close_states) then Err CheckViolation
        else Ok (tt, db <| managed_commands := <[(tenant, operation) := c <| mc_actor := actor |>
               <| mc_close_state := state |>
               <| mc_completed_at := if bool_decide (state = "complete") then Some now else None |>
               <| mc_close_error := error |>]> (managed_commands db) |>)
      else Ok (tt, db)
  | None => Ok (tt, db)
  end.

(** ** Intake *)
Record ManagedCommand := mkManagedCommand {
  MC_Context : Gpu.RefundContext; MC_ResourceClass : string; MC_CreateCommandDigest : string;
  MC_Actor : string; MC_Payload : string; MC_Business : string; MC_BusinessDigest : string;
  MC_RequestHash : string }.
#[global] Instance ManagedCommand_eta : Eta ManagedCommand := fun r =>
  mkManagedCommand (MC_Context r) (MC_ResourceClass r) (MC_CreateCommandDigest r) (MC_Actor r)
    (MC_Payload r) (MC_Business r) (MC_BusinessDigest r) (MC_RequestHash r).

Definition managedClass (c : ManagedCommand) : string :=
  if negb (bool_decide (MC_ResourceClass c = "")) then MC_ResourceClass c
  else if negb (bool_decide (Gpu.ResourceClass (MC_Context c) = "")) then Gpu.ResourceClass (MC_Context c)
  else match Gpu.RC_Snapshot (MC_Context c) with Some _ => "gpu" | None => "cpu" end.

Record managedIntake := mkIntake { mi_closing : bool; mi_replay : option (jsonb OperationResponse) }.

Definition differs (given saved : string) : bool :=
  negb (bool_decide (given = "")) && negb (bool_decide (saved = given)).

(** The checks of a command against the stored association; the context a
    DELETE goes on with, restored from the CREATE. *)
Definition check_association (kind : string) (create operation : uuid) (c : ManagedCommand)
    (row : ManagedResourceRow) : result (managedIntake * ManagedCommand) :=
  let original := MC_Context c in
  let conflict b := checkr (negb b) ErrIdempotencyConflict in
  let deleting := bool_decide (is_Some (m_delete_operation_id row)) in
  saved ← match m_original_context row with
          | JVal s => Ok s
          | JBad => Err (errorf "cannot decode managed GPU context")
          end;
  _ ← conflict (negb (bool_decide (m_create_operation_id row = create)));
  _ ← conflict (differs (Gpu.ResourceClass original) (m_resource_class row));
  _ ← conflict (negb (bool_decide (Gpu.CreateCommandDigest original = "")) &&
                negb (bool_decide (m_create_command_digest row = "")) &&
                negb (bool_decide (Gpu.CreateCommandDigest original = m_create_command_digest row)));
  _ ← conflict (differs (Gpu.RC_ClusterID original) (Gpu.RC_ClusterID saved));
  if bool_decide (kind = "create") && deleting then Ok (mkIntake true None, c) else
  c' ← (if bool_decide (kind = "delete") then
          _ ← conflict (differs (Gpu.OwnerService original) (Gpu.OwnerService saved) ||
                        differs (Gpu.RC_ClusterID original) (Gpu.RC_ClusterID saved) ||
                        (bool_decide (is_Some (Gpu.RC_Snapshot original)) &&
                         negb (bool_decide (Gpu.RC_Snapshot original = Gpu.RC_Snapshot saved))));
          Ok (c <| MC_Context := original <| Gpu.OwnerService := Gpu.OwnerService saved |>
                 <| Gpu.RC_ClusterID := Gpu.RC_ClusterID saved |>
                 <| Gpu.RC_Snapshot := Gpu.RC_Snapshot saved |>
                 <| Gpu.ResourceClass := Gpu.ResourceClass saved |>
                 <| Gpu.CreateCommandDigest := Gpu.CreateCommandDigest saved |> |>)
        else
          _ ← conflict (negb (bool_decide (saved <| Gpu.DeleteOperationID := "" |> =
                                           original <| Gpu.DeleteOperationID := "" |>)));
          Ok c);
  _ ← conflict (bool_decide (kind = "delete") && deleting &&
                negb (bool_decide (m_delete_operation_id row = Some operation)));
  _ ← conflict (bool_decide (kind = "create") && negb (bool_decide (m_business_payload_digest row = "")) &&
                negb (bool_decide (m_business_payload_digest row = MC_BusinessDigest c)));
  Ok (mkIntake deleting None, c').

Section Intake.
Context `{U : UuidLib}.
(** [sha256.Sum256] in hex, and the wire encoding of a command. *)
Context (marshal_command : string -> string -> Z -> result string) (sha256_hex : string -> string).
(** [time.Now().UTC().Format(time.RFC3339Nano)] of a reading of the clock, and its parser. *)
Context (format_time : Z -> string) (rfc3339nano : string -> bool).

(** The four identities every managed command has to parse. *)
Definition managed_ids (original : Gpu.RefundContext) (operationID : string)
    : result (key * uuid * uuid) :=
  tenant ← requireUUID "tenant_id" (Gpu.RC_TenantID original);
  resource ← requireUUID "resource_id" (Gpu.RC_ResourceID original);
  operation ← requireUUID "operation_id" operationID;
  create ← requireUUID "create_operation_id" (Gpu.OriginalCreateOperationID original);
  Ok ((tenant, resource), operation, create).

Definition prepareManagedCommand (c : ManagedCommand) (kind operationID : string)
    : M World (managedIntake * ManagedCommand) :=
  let original := MC_Context c in
  '(k, operation, create) ← lift (managed_ids original operationID);
  _ ← exec (LockManagedGPUKey (Gpu.RC_TenantID original +:+ ":command:" +:+ operationID));
  _ ← exec (LockManagedGPUKey (Gpu.RC_TenantID original +:+ ":" +:+ Gpu.RC_ResourceID original));
  existing ← optional (GetManagedGPUCommand k.1 operation);
  match existing with
  | Some row =>
      _ ← check (bool_decide (mc_payload_hash row = sha256_hex (MC_Payload c))) ErrIdempotencyConflict;
      mret (mkIntake false (Some (mc_response_snapshot row)), c)
  | None =>
      saved ← optional (GetManagedGPUResourceForUpdate k);
      match saved with
      | Some row => lift (check_association kind create operation c row)
      | None =>
          directExists ← exec (ManagedGPUServiceExists k);
          _ ← check (negb directExists)
                (errorf_after ErrInvalidState "existing direct resource is not Governance managed");
          _ ← exec (InsertManagedGPUResource k create (Gpu.OwnerService original) (managedClass c)
                 (Gpu.CreateCommandDigest original) (original <| Gpu.DeleteOperationID := "" |>));
          mret (mkIntake false None, c)
      end
  end.

Definition command_row (resource create : uuid) (c : ManagedCommand) (kind operationID intent : string)
    (response : OperationResponse) (now : Z) : ManagedCommandRow :=
  mkManagedCommandRow resource create kind (sha256_hex (MC_Payload c)) (MC_RequestHash c) (MC_Payload c)
    (JVal response) (operationID, Gpu.RC_ResourceID (MC_Context c)) intent now "" "" None None now 0 "" "" ""
    None None.

Definition persistManagedCommand (c : ManagedCommand) (kind operationID intent : string)
    (response : OperationResponse) : M World unit :=
  '(k, operation, create) ← lift (managed_ids (MC_Context c) operationID);
  _ ← (if bool_decide (kind = "delete") then exec (SetManagedGPUClosing k operation)
       else if negb (bool_decide (intent = "blocked_by_delete"))
       then exec (SaveManagedGPUCreate k (MC_Business c) (MC_BusinessDigest c) (MC_RequestHash c) (MC_Payload c))
       else mret tt);
  exec (InsertManagedGPUCommand k.1 operation (command_row k.2 create c kind operationID intent response)).

Definition decodeManagedResponse (raw : jsonb OperationResponse) : result OperationResponse :=
  match raw with JVal r => Ok r | JBad => Err (errorf "cannot decode response snapshot") end.

Definition managedIntentResponse (original : Gpu.RefundContext) (operationID kind intent : string)
    : OperationResponse :=
  let resource := Gpu.RC_ResourceID original in
  mkOperationResponse (mkResourceMessage resource "deleted" 0 None)
    (mkOperationMessage operationID resource kind OperationPending intent 0 "" "")
    (Some (operationID, resource)).

(** ** DELETE *)
(** The resource was never created here: only the closing intent is recorded,
    and how far a release can be concluded. *)
Definition delete_unseen (input : CommandInput) (c : ManagedCommand) (original : Gpu.RefundContext)
    (k : key) (operation : uuid) : M World (ending OperationResponse) :=
  let deleteID := Gpu.DeleteOperationID original in
  unknown ← exec (ManagedExecutionFacts k);
  let '(state, reason) :=
    if (unknown : bool) then ("unknown_execution", "prior accepted execution cannot be excluded")
    else if bool_decide (managedClass c = "cpu") then ("complete", "") else ("pending", "") in
  let response := managedIntentResponse original deleteID "delete" "closing_intent" in
  _ ← persistManagedCommand c "delete" deleteID "closing_intent" response;
  _ ← exec (SetManagedCloseState k.1 operation (Actor input) state reason);
  _ ← (if negb unknown && bool_decide (managedClass c = "gpu") then
         w ← get_state;
         scope ← lift (encodeManagedGPUReleaseScope rfc3339nano (format_time (w_now w)) []);
         exec (UpsertManagedGPUReleaseScope k operation scope)
       else mret tt);
  mret (Schema.Commit response).

Definition delete_event (input : CommandInput) (k : key) (operation : uuid) (target : Z) : M World unit :=
  event ← new_uuid;
  exec (fun now => AppendAuditEvent k.1 event
    (mkAuditRow k.2 (Some operation) target "inference.delete.accepted" (Actor input) (RequestID input)
       [] [] [("desired_state", "deleted"); ("kind", "delete")] now) now).

(** The resource exists: its active operation is cancelled and the delete
    operation takes its place. *)
Definition delete_service (input : CommandInput) (c : ManagedCommand) (original : Gpu.RefundContext)
    (k : key) (operation : uuid) (s : ServiceRow) : M World (ending OperationResponse) :=
  _ ← check (undeleted s && negb (bool_decide (s_desired_state s = "deleted")))
        (errorf_after ErrInvalidState "managed resource is already deleted");
  let target := int64 (s_desired_generation s + 1) in
  cancelledActive ← exec (CancelActiveOperation k);
  rows ← exec (TransitionService k "deleted" target operation (s_desired_generation s));
  _ ← check (rows =? 1) ErrGenerationConflict;
  _ ← insert_operation input k operation target;
  _ ← (if 0 <? cancelledActive then exec (ReleaseResourceWorkLease k) else mret 0);
  _ ← exec (UpsertResourceWork k target);
  _ ← delete_event input k operation target;
  let response := (commandResponse (uuid_string k.2) (Gpu.DeleteOperationID original) target "delete"
                     StepWithdrawPublication) in
  let response := mkOperationResponse (or_resource response) (or_operation response)
    (Some (Gpu.DeleteOperationID original, Gpu.RC_ResourceID original)) in
  _ ← persistManagedCommand c "delete" (Gpu.DeleteOperationID original) "closing_intent" response;
  mret (Schema.Commit response).

Definition managed_delete_body (input : CommandInput) (c : ManagedCommand) : M World (ending OperationResponse) :=
  let original := MC_Context c in
  '(accepted, c) ← prepareManagedCommand c "delete" (Gpu.DeleteOperationID original);
  match mi_replay accepted with
  | Some raw => response ← lift (decodeManagedResponse raw); mret (Discard response)
  | None =>
      (* the identities were parsed by prepareManagedCommand *)
      '(k, operation, _) ← lift (managed_ids original (Gpu.DeleteOperationID original));
      service ← optional (GetServiceForUpdate k);
      match service with
      | None => delete_unseen input c original k operation
      | Some s => delete_service input c original k operation s
      end
  end.

Definition acceptManagedDelete (input : CommandInput) (c : ManagedCommand) : M World OperationResponse :=
  let original := MC_Context c in
  _ ← check (bool_decide (Kind input = "delete") && bool_decide (Gpu.RC_TenantID original = TenantID input) &&
             bool_decide (Gpu.RC_ResourceID original = ServiceID input) &&
             negb (bool_decide (Gpu.DeleteOperationID original = ""))) ErrInvalidState;
  transaction (managed_delete_body input c).

(** [CommandUseCase.Command]. *)
Definition Command (input : CommandInput) (attachment : option ManagedCommand) : M World OperationResponse :=
  match attachment with
  | Some c => acceptManagedDelete input c
  | None => Command_direct marshal_command sha256_hex input
  end.

(** ** The original context *)
Definition GetManagedGPURefundContext (k : key) (create : uuid)
    : statement (jsonb Gpu.RefundContext * option uuid) := select_one (fun _ db =>
  match managed db !! k with
  | Some m => if bool_decide (m_create_operation_id m = create)
              then Some (m_original_context m, m_delete_operation_id m) else None
  | None => None
  end).
Definition LoadRefundContext (tenantID resourceID originalCreateID : string) : M World Gpu.RefundContext :=
  tenant ← lift (requireUUID "tenant_id" tenantID);
  resource ← lift (requireUUID "resource_id" resourceID);
  create ← lift (requireUUID "create_operation_id" originalCreateID);
  '(raw, deletion) ← exec (GetManagedGPURefundContext (tenant, resource) create);
  match raw with
  | JBad => throw (errorf "cannot decode managed GPU context")
  | JVal original =>
      mret match deletion with
           | Some d => original <| Gpu.DeleteOperationID := uuid_string d |>
           | None => original
           end
  end.
End Intake.

(** ** Creation *)
(** The partial unique index on live names. *)
Definition name_in_use (db : DB) (tenant : uuid) (name : string) : bool :=
  existsb (fun ks : key * ServiceRow =>
    bool_decide (ks.1.1 = tenant) && bool_decide (s_name ks.2 = name) && undeleted ks.2)
    (map_to_list (services db)).
Definition InsertService (k : key) (name state : string) (generation : Z) : statement unit := fun now db =>
  if negb (in_list state ["running"; "stopped"; "deleted"] && (0 <? generation)) then Err CheckViolation
  else if bool_decide (is_Some (services db !! k)) then Err (UniqueViolation "inference_services_pkey")
  else if name_in_use db k.1 name then Err (UniqueViolation "inference_services_active_tenant_name_key")
  else Ok (tt, db <| services := <[k := mkServiceRow name state generation 0 None None now now]> (services db) |>).
Definition InsertNamespacePlacement (k : key) (name uid : string) : statement unit := fun _ db =>
  if bool_decide (name = "") || bool_decide (uid = "") then Err CheckViolation
  else if bool_decide (is_Some (placements db !! k))
  then Err (UniqueViolation "inference_namespace_placements_pkey")
  else if bool_decide (services db !! k = None) then Err ForeignKeyViolation
  else Ok (tt, db <| placements := <[k := (name, uid)]> (placements db) |>).
Definition SetCurrentOperation (k : key) (operation : uuid) : statement unit := fun now db =>
  match services db !! k with
  | Some s => Ok (tt, db <| services := <[k := s <| s_current_operation_id := Some operation |>
                            <| s_updated_at := now |>]> (services db) |>)
  | None => Ok (tt, db)
  end.

Definition port_ok (p : Z) : bool := (1 <=? p) && (p <=? 65535).
Definition endpoint_ok (e : option (Z * Z * string * string)) : bool :=
  match e with
  | None => true
  | Some (container, service, target, protocol) =>
      port_ok container && port_ok service && negb (bool_decide (target = "")) &&
      in_list protocol ["TCP"; "UDP"; "SCTP"]
  end.
Definition runtime_modes : list string := ["deployment"; "leader_worker_set"].
Definition spec_checks (generation : Z) (b : SpecBody) : bool :=
  (0 <? generation) && (0 <? sp_replicas b) && in_list (sp_runtime_mode b) runtime_modes &&
  (0 <? sp_worker_replicas b) && in_list (sp_runtime_provider b) ["deployment"; "kserve"] &&
  endpoint_ok (sp_endpoint b).
Definition InsertSpec (id : uuid) (k : key) (generation : Z) (b : SpecBody) : statement unit := fun now db =>
  if negb (spec_checks generation b) then Err CheckViolation
  else if spec_id_taken db k.1 id then Err (UniqueViolation "inference_specs_pkey")
  else if bool_decide (is_Some (specs db !! (k.1, k.2, generation)))
  then Err (UniqueViolation "inference_specs_tenant_id_service_id_generation_key")
  else if bool_decide (services db !! k = None) then Err ForeignKeyViolation
  else Ok (tt, db <| specs := <[(k.1, k.2, generation) := mkSpecRow id b now]> (specs db) |>).
Definition InsertRuntime (k : key) (generation : Z) (mode : string) : statement unit := fun now db =>
  if negb ((0 <? generation) && in_list mode runtime_modes) then Err CheckViolation
  else if bool_decide (is_Some (runtimes db !! k)) then Err (UniqueViolation "inference_runtime_pkey")
  else if bool_decide (services db !! k = None) then Err ForeignKeyViolation
  else Ok (tt, db <| runtimes := <[k := mkRuntimeRow generation "pending" 0 false "withdrawn" "unhealthy" None
                                         None "runtime_pending" now mode 0 0 "" false]> (runtimes db) |>).

Record CreateAggregateInput := mkCreateAggregateInput {
  CA_RuntimeNamespace : string; CA_RuntimeNamespaceUID : string;
  CA_TenantID : string; CA_ServiceID : string; CA_SpecID : string; CA_OperationID : string;
  CA_Name : string; CA_ModelID : string; CA_ModelVersionID : string;
  CA_ArtifactProvider : string; CA_ArtifactRef : string; CA_ArtifactSHA256 : string; CA_ImageRef : string;
  CA_ServedModelName : string; CA_EngineRuntime : string; CA_RuntimeProvider : string;
  CA_EngineJSON : option Engine.json; CA_Resources : jsonb Resources.Spec; CA_SpecJSON : gmap string string;
  CA_GPURequest : option (jsonb Gpu.Request); CA_GPUSnapshot : option (jsonb Gpu.Snapshot);
  CA_GPUSnapshotDigest : string; CA_Replicas : Z; CA_WorkerReplicas : Z; CA_RuntimeMode : string;
  CA_RequestHash : string; CA_Method : string; CA_IdempotencyKey : string; CA_QuotaReservationID : string;
  CA_Actor : string; CA_RequestID : string; CA_Generation : Z; CA_Endpoint : option EndpointSpec;
  CA_Managed : option ManagedCommand; CA_ResponseSnapshot : option OperationResponse }.
Record CreateAggregateResult := mkCreateAggregateResult {
  CR_ServiceID : string; CR_OperationID : string; CR_Replayed : bool;
  CR_ResponseSnapshot : option (jsonb OperationResponse) }.

Definition endpointParams (e : option EndpointSpec) : option (Z * Z * string * string) :=
  match e with
  | None => None
  | Some e => Some (ContainerPort e, ServicePort e, TargetPort e, Protocol e)
  end.
Definition or_default (z d : Z) : Z := if z =? 0 then d else z.

Section Create.
Context `{U : UuidLib}.
Context (sha256_hex : string -> string).

(** [parseUUID(label, value, true)], with a fresh identifier for an empty value. *)
Definition uuid_or_new (id : option uuid) : M World uuid :=
  match id with Some u => mret u | None => new_uuid end.

(** The identities and defaults of a create. *)
Record create_ids := mkCreateIds {
  ci_key : key; ci_spec : uuid; ci_operation : uuid; ci_model : option uuid; ci_version : uuid }.
Definition resolve_ids (input : CreateAggregateInput) : M World create_ids :=
  tenant ← lift (requireUUID "tenant_id" (CA_TenantID input));
  service ← lift (parseUUID "service_id" (CA_ServiceID input) true);
  spec ← lift (parseUUID "spec_id" (CA_SpecID input) true);
  operation ← lift (parseUUID "operation_id" (CA_OperationID input) true);
  model ← lift (parseUUID "model_id" (CA_ModelID input) true);
  version ← lift (requireUUID "model_version_id" (CA_ModelVersionID input));
  service ← uuid_or_new service;
  spec ← uuid_or_new spec;
  operation ← uuid_or_new operation;
  mret (mkCreateIds (tenant, service) spec operation model version).

Definition create_generation (input : CreateAggregateInput) : Z := or_default (CA_Generation input) 1.
Definition create_method (input : CreateAggregateInput) : string :=
  defaulted (CA_Method input) "CreateInferenceService".
Definition create_mode (input : CreateAggregateInput) : string := defaulted (CA_RuntimeMode input) "deployment".

Definition spec_body (input : CreateAggregateInput) (ids : create_ids) : SpecBody :=
  mkSpecBody (ci_model ids) (ci_version ids) (CA_ArtifactProvider input) (CA_ArtifactRef input)
    (CA_ArtifactSHA256 input) (CA_ImageRef input) (CA_ServedModelName input) (CA_EngineRuntime input)
    (default (Engine.marshalEngineSpec "") (CA_EngineJSON input)) (CA_Resources input) (or_default (CA_Replicas input) 1) (create_mode input)
    (or_default (CA_WorkerReplicas input) 1) (defaulted (CA_RuntimeProvider input) "deployment")
    (CA_SpecJSON input) (endpointParams (CA_Endpoint input)) (CA_GPURequest input) (CA_GPUSnapshot input)
    (if bool_decide (CA_GPUSnapshotDigest input = "") then None else Some (CA_GPUSnapshotDigest input)).

(** What a managed create does before any business write: go on, or answer. *)
Definition managed_create (input : CreateAggregateInput) (ids : create_ids) (c : ManagedCommand)
    : M World (option (ending CreateAggregateResult)) :=
  let original := MC_Context c in
  let service := uuid_string (ci_key ids).2 in
  let operation := uuid_string (ci_operation ids) in
  _ ← check (bool_decide (Gpu.RC_TenantID original = CA_TenantID input) &&
             bool_decide (Gpu.RC_ResourceID original = service) &&
             bool_decide (Gpu.OriginalCreateOperationID original = operation) &&
             bool_decide (is_Some (CA_ResponseSnapshot input)) &&
             negb (bool_decide (MC_ResourceClass c = "gpu") && bool_decide (CA_GPUSnapshot input = None)))
        ErrInvalidState;
  '(accepted, _) ← prepareManagedCommand sha256_hex c "create" operation;
  match mi_replay accepted with
  | Some raw => mret (Some (Discard (mkCreateAggregateResult service operation true (Some raw))))
  | None =>
      if mi_closing accepted then
        let response := managedIntentResponse original operation "create" "blocked_by_delete" in
        _ ← persistManagedCommand sha256_hex c "create" operation "blocked_by_delete" response;
        mret (Some (Schema.Commit (mkCreateAggregateResult service operation false (Some (JVal response)))))
      else mret None
  end.

(** An earlier create with the same key. *)
Definition recorded_create (input : CreateAggregateInput) (tenant : uuid) : M World (option CreateAggregateResult) :=
  existing ← optional (GetIdempotency tenant (create_method input) (CA_IdempotencyKey input));
  match existing with
  | Some row =>
      _ ← check (bool_decide (i_payload_hash row = CA_RequestHash input)) ErrIdempotencyConflict;
      o ← exec (Sql.GetOperation tenant (i_operation_id row));
      mret (Some (mkCreateAggregateResult (uuid_string (o_service_id o)) (uuid_string (i_operation_id row))
                    true None))
  | None => mret None
  end.
Definition replayed_create (input : CreateAggregateInput) (tenant : uuid) : M World (option CreateAggregateResult) :=
  if bool_decide (CA_IdempotencyKey input = "") then mret None else
  _ ← exec (LockIdempotency (CA_TenantID input) (create_method input) (CA_IdempotencyKey input));
  recorded_create input tenant.

Definition place_namespace (input : CreateAggregateInput) (k : key) : M World unit :=
  let name := CA_RuntimeNamespace input in let uid := CA_RuntimeNamespaceUID input in
  if bool_decide (name = "") && bool_decide (uid = "") then mret tt
  else if bool_decide (name = "") || bool_decide (uid = "")
  then throw (errorf "namespace placement name and UID must both be set")
  else exec (InsertNamespacePlacement k name uid).

(** The rows of the new service. *)
Definition write_service (input : CreateAggregateInput) (ids : create_ids) : M World unit :=
  let k := ci_key ids in let operation := ci_operation ids in
  let generation := create_generation input in
  _ ← exec (InsertService k (CA_Name input) "running" generation);
  _ ← place_namespace input k;
  _ ← exec (InsertOperation k.1 operation k.2 "create" OperationPending StepAdmission generation (CA_RequestHash input));
  _ ← exec (SetCurrentOperation k operation);
  _ ← exec (InsertSpec (ci_spec ids) k generation (spec_body input ids));
  _ ← exec (InsertRuntime k generation (create_mode input));
  _ ← (match CA_Managed input with
       | None => exec (InsertQuotaReservation k operation generation
                   (defaulted (CA_QuotaReservationID input) ("pending-" +:+ uuid_string operation))
                   (CA_Resources input))
       | Some _ => mret tt
       end);
  exec (UpsertResourceWork k generation).

Definition day : Z := 86400000000.
Definition create_event (input : CreateAggregateInput) (ids : create_ids) : M World unit :=
  event ← new_uuid;
  exec (fun now => AppendAuditEvent (ci_key ids).1 event
    (mkAuditRow (ci_key ids).2 (Some (ci_operation ids)) (create_generation input) "inference.create.accepted"
       (CA_Actor input) (CA_RequestID input) [] [] [("operation_id", uuid_string (ci_operation ids))] now) now).

Definition create_writes (input : CreateAggregateInput) (ids : create_ids) : M World (ending CreateAggregateResult) :=
  let k := ci_key ids in let operation := ci_operation ids in
  _ ← write_service input ids;
  w ← get_state;
  rows ← (if bool_decide (CA_IdempotencyKey input = "") then mret 1
          else exec (PutIdempotency k.1 (create_method input) (CA_IdempotencyKey input) (CA_RequestHash input)
                       operation (Some (w_now w + day))));
  raced ← (if rows =? 0 then recorded_create input k.1 else mret None);
  match raced with
  | Some result => mret (Schema.Commit result)
  | None =>
  _ ← check (negb (rows =? 0)) ErrNoRows;
  _ ← create_event input ids;
  _ ← (match CA_Managed input, CA_ResponseSnapshot input with
       | Some c, Some snapshot =>
           persistManagedCommand sha256_hex c "create" (uuid_string operation) "create_pending" snapshot
       | _, _ => mret tt
       end);
  mret (Schema.Commit (mkCreateAggregateResult (uuid_string k.2) (uuid_string operation) false None))
  end.
Definition create_body (input : CreateAggregateInput) (ids : create_ids) : M World (ending CreateAggregateResult) :=
  intake ← (match CA_Managed input with Some c => managed_create input ids c | None => mret None end);
  match intake with
  | Some answer => mret answer
  | None =>
      earlier ← replayed_create input (ci_key ids).1;
      match earlier with
      | Some result => mret (Schema.Commit result)
      | None => create_writes input ids
      end
  end.

Definition CreateService (input : CreateAggregateInput) : M World CreateAggregateResult :=
  ids ← resolve_ids input;
  transaction (create_body input ids).

(** ** create_usecase.go *)
Record ImageSelection := mkImageSelection {
  IS_ImageID : string; IS_Scope : string; IS_OS : string; IS_Architecture : string; IS_Variant : string;
  IS_RegistryAuthority : string; IS_PullSecretRef : string }.
Record CreateInput := mkCreateInput {
  CI_RuntimeNamespace : string; CI_RuntimeNamespaceUID : string; CI_ImageSelection : option ImageSelection;
  CI_TenantID : string; CI_RequestID : string; CI_Actor : string; CI_Name : string;
  CI_ModelVersionID : string; CI_ArtifactProvider : string; CI_ArtifactRef : string;
  CI_ArtifactSHA256 : string; CI_ModelCapabilities : list string; CI_ImageRef : string;
  CI_ServedModelName : string; CI_EngineRuntime : string; CI_RuntimeProvider : string;
  CI_EngineCommand : string; CI_Resources : Resources.Spec; CI_GPUSnapshot : option Gpu.Snapshot;
  CI_GPUSnapshotDigest : string; CI_Replicas : Z; CI_WorkerReplicas : Z; CI_RuntimeMode : string;
  CI_Endpoint : option EndpointSpec; CI_RequestHash : string; CI_Managed : option ManagedCommand;
  CI_ImageID : string; CI_ImageScope : string }.

#[global] Instance CreateInput_eta : Eta CreateInput := fun r =>
  mkCreateInput (CI_RuntimeNamespace r) (CI_RuntimeNamespaceUID r) (CI_ImageSelection r) (CI_TenantID r)
    (CI_RequestID r) (CI_Actor r) (CI_Name r) (CI_ModelVersionID r) (CI_ArtifactProvider r) (CI_ArtifactRef r)
    (CI_ArtifactSHA256 r) (CI_ModelCapabilities r) (CI_ImageRef r) (CI_ServedModelName r) (CI_EngineRuntime r)
    (CI_RuntimeProvider r) (CI_EngineCommand r) (CI_Resources r) (CI_GPUSnapshot r) (CI_GPUSnapshotDigest r)
    (CI_Replicas r) (CI_WorkerReplicas r) (CI_RuntimeMode r) (CI_Endpoint r) (CI_RequestHash r) (CI_Managed r)
    (CI_ImageID r) (CI_ImageScope r).
(** JSON text of the overlay documents of a specification. *)
Context (json_strings : list string -> string) (json_selection : ImageSelection -> string).
Definition spec_values (capabilities : list string) (selection : option ImageSelection) : gmap string string :=
  let m := {[ "model_capabilities" := json_strings capabilities ]} in
  match selection with Some s => <["image_selection" := json_selection s]> m | None => m end.

Definition runtimeModeEnum (mode : string) : RuntimeMode :=
  if bool_decide (mode = "leader_worker_set") then RUNTIME_MODE_LEADER_WORKER_SET else RUNTIME_MODE_DEPLOYMENT.
Definition runtimeProviderEnum (provider : string) : string := defaulted provider "deployment".

Definition createResponse (input : CreateInput) (serviceID operationID : string) : OperationResponse :=
  mkOperationResponse
    (mkResourceMessage serviceID "running" 1 (Some (mkServiceDetail (CI_Name input) (CI_ModelVersionID input)
       (CI_Replicas input) (CI_Resources input) (runtimeModeEnum (CI_RuntimeMode input))
       (CI_WorkerReplicas input) (runtimeProviderEnum (CI_RuntimeProvider input)) (CI_Endpoint input)
       (CI_ArtifactProvider input, CI_ArtifactRef input, CI_ArtifactSHA256 input)
       (CI_EngineRuntime input, CI_ImageRef input, CI_EngineCommand input)
       ((fun s => (IS_ImageID s, IS_Scope s)) <$> CI_ImageSelection input))))
    (mkOperationMessage operationID serviceID "create" OperationPending StepAdmission 1 "" "")
    (match CI_Managed input with Some _ => Some (operationID, serviceID) | None => None end).

Definition aggregate_of (input : CreateInput) (service spec operation : uuid) : CreateAggregateInput :=
  mkCreateAggregateInput (CI_RuntimeNamespace input) (CI_RuntimeNamespaceUID input) (CI_TenantID input)
    (uuid_string service) (uuid_string spec) (uuid_string operation) (CI_Name input) ""
    (CI_ModelVersionID input) (CI_ArtifactProvider input) (CI_ArtifactRef input) (CI_ArtifactSHA256 input)
    (CI_ImageRef input) (CI_ServedModelName input) (CI_EngineRuntime input) (CI_RuntimeProvider input)
    (Some (Engine.marshalEngineSpec (CI_EngineCommand input))) (JVal (CI_Resources input))
    (spec_values (CI_ModelCapabilities input) (CI_ImageSelection input))
    (JVal <$> Resources.GPU (CI_Resources input)) (JVal <$> CI_GPUSnapshot input)
    (if bool_decide (CI_GPUSnapshotDigest input = "")
     then from_option Gpu.ExecutionDigest "" (CI_GPUSnapshot input) else CI_GPUSnapshotDigest input)
    (CI_Replicas input) (CI_WorkerReplicas input) (CI_RuntimeMode input) (CI_RequestHash input)
    "CreateInferenceService" (match CI_Managed input with Some _ => "" | None => CI_RequestID input end) ""
    (CI_Actor input) (CI_RequestID input) 1 (CI_Endpoint input) (CI_Managed input)
    (match CI_Managed input with
     | Some _ => Some (createResponse input (uuid_string service) (uuid_string operation))
     | None => None
     end).

(** A managed create uses the identities of its attachment. *)
Definition create_identity (input : CreateInput) (service operation : uuid) : result (uuid * uuid) :=
  match CI_Managed input with
  | None => Ok (service, operation)
  | Some c =>
      match uuid_parse (Gpu.RC_ResourceID (MC_Context c)),
            uuid_parse (Gpu.OriginalCreateOperationID (MC_Context c)) with
      | Some service, Some operation => Ok (service, operation)
      | _, _ => Err (errorf "invalid UUID")
      end
  end.
Definition Create (input : CreateInput) : M World OperationResponse :=
  service ← new_uuid;
  operation ← new_uuid;
  '(service, operation) ← lift (create_identity input service operation);
  spec ← new_uuid;
  result ← CreateService (aggregate_of input service spec operation);
  match CR_ResponseSnapshot result with
  | Some raw => lift (decodeManagedResponse raw)
  | None => mret (createResponse input (CR_ServiceID result) (CR_OperationID result))
  end.

(** [Repository.PrepareCreate]: replay or a refusal before any remote read. *)
Definition prepare_body (c : ManagedCommand) : M World (ending (option OperationResponse)) :=
  let original := MC_Context c in
  let operation := Gpu.OriginalCreateOperationID original in
  '(accepted, _) ← prepareManagedCommand sha256_hex c "create" operation;
  match mi_replay accepted with
  | Some raw => response ← lift (decodeManagedResponse raw); mret (Discard (Some response))
  | None =>
      if negb (mi_closing accepted) then mret (Discard None) else
      let response := managedIntentResponse original operation "create" "blocked_by_delete" in
      _ ← persistManagedCommand sha256_hex c "create" operation "blocked_by_delete" response;
      mret (Schema.Commit (Some response))
  end.
Definition PrepareCreate (input : CreateInput) : M World (option OperationResponse) :=
  match CI_Managed input with
  | None => mret None
  | Some c => transaction (prepare_body c)
  end.
End Create.

(** ** The association is immutable *)
Record keeps_row (m m' : ManagedResourceRow) : Prop := {
  kr_create : m_create_operation_id m' = m_create_operation_id m;
  kr_context : m_original_context m' = m_original_context m;
  kr_class : m_resource_class m' = m_resource_class m;
  kr_owner : m_owner_service m' = m_owner_service m;
  kr_digest : m_create_command_digest m' = m_create_command_digest m;
  kr_delete : ∀ d, m_delete_operation_id m = Some d -> m_delete_operation_id m' = Some d;
  kr_payload : ∀ p, m_create_payload m = Some p -> m_create_payload m' = Some p ∧
    m_business_payload_digest m' = m_business_payload_digest m;
}.
#[global] Instance keeps_row_preorder : PreOrder keeps_row.
Proof.
  split; [by split|]. intros a b c [] []. split; try congruence; [by auto|].
  intros p Hp. destruct (kr_payload0 p Hp) as [Hb E1]. destruct (kr_payload1 p Hb) as [Hc E2].
  split; congruence.
Qed.
(** No association is dropped, and none changes identity, snapshot, payload or
    delete operation. *)
Definition keeps_associations (db db' : DB) : Prop := ∀ k m, managed db !! k = Some m ->
  ∃ m', managed db' !! k = Some m' ∧ keeps_row m m'.
#[global] Instance keeps_associations_preorder : PreOrder keeps_associations.
Proof.
  split.
  - intros db k m Hm. exists m. by split.
  - intros a b c H1 H2 k m Hm. destruct (H1 k m Hm) as (m1 & Hm1 & R1).
    destruct (H2 k m1 Hm1) as (m2 & Hm2 & R2). exists m2. split; [done|by etrans].
Qed.

(** Statements that leave the associations alone respect every such relation. *)
Definition same_managed (db db' : DB) : Prop := managed db' = managed db.
#[global] Instance same_managed_preorder : PreOrder same_managed.
Proof. split; [done|]. intros a b c. unfold same_managed. congruence. Qed.
Class IgnoresOthers (R : relation DB) : Prop := ignores_others : ∀ db db', same_managed db db' -> R db db'.
Lemma respects_ignoring {A} R `{!IgnoresOthers R} (f : statement A) : respects same_managed f -> respects R f.
Proof. intros H now db a db' E. by eapply ignores_others, H. Qed.
#[global] Instance keeps_associations_ignores : IgnoresOthers keeps_associations.
Proof. intros db db' E k m Hm. exists m. rewrite E. by split. Qed.
Lemma respects_unmanaged {A} (f : statement A) :
  (∀ now db a db', f now db = Ok (a, db') -> managed db' = managed db) -> respects same_managed f.
Proof. intros H now db a db' E. by eapply H. Qed.
Lemma respects_update_managed f k :
  (∀ m m', f m = Some m' -> keeps_row m m') -> respects keeps_associations (update_managed f k).
Proof.
  intros Hf now db a db'. unfold update_managed.
  destruct (managed db !! k) as [m|] eqn:Em; [destruct (f m) as [m'|] eqn:Ef|]; intros [= _ <-]; try reflexivity.
  intros k' m0 Hm0. cbn. destruct (decide (k' = k)) as [->|].
  - exists m'. rewrite lookup_insert_eq. split; [done|]. rewrite Em in Hm0. injection Hm0 as <-. by apply Hf.
  - exists m0. rewrite lookup_insert_ne by done. by split.
Qed.
Lemma respects_closing k d : respects keeps_associations (SetManagedGPUClosing k d).
Proof.
  apply respects_update_managed. intros m m' [= <-]. split; cbn; try done. by intros d' ->.
Qed.
Lemma respects_save_create k b d h p : respects keeps_associations (SaveManagedGPUCreate k b d h p).
Proof.
  apply respects_update_managed. intros m m'. destruct (m_create_payload m) eqn:E; [done|].
  intros [= <-]. split; cbn; try done. intros p'. by rewrite E.
Qed.
Lemma respects_insert_resource k c o cl d r : respects keeps_associations (InsertManagedGPUResource k c o cl d r).
Proof.
  intros now db a db'. unfold InsertManagedGPUResource. destruct (negb _); [done|].
  case_bool_decide as Hn; [done|]. destruct (create_taken _ _ _); [done|]. intros [= _ <-] k' m Hm. cbn.
  exists m. rewrite lookup_insert_ne; [by split|]. intros ->. apply Hn. by eexists.
Qed.

(** Statements that do not write the associations. *)
Ltac unmanaged :=
  apply respects_unmanaged; intros ? ? ? ? H; cbv beta in H;
  repeat match type of H with
    | context [match ?x with _ => _ end] => destruct x; try done
    end; by simplify_eq.
Lemma unmanaged_command t o r : respects same_managed (InsertManagedGPUCommand t o r).
Proof. unfold InsertManagedGPUCommand. unmanaged. Qed.
Lemma unmanaged_close t o a s e : respects same_managed (SetManagedCloseState t o a s e).
Proof. unfold SetManagedCloseState. unmanaged. Qed.
Lemma unmanaged_cancel k : respects same_managed (CancelActiveOperation k).
Proof.
  apply respects_unmanaged. intros now db n db'.
  intros [(_ & -> & _)|(_ & s & id & o & _ & _ & _ & _ & _ & ->)]%cancel_inv; done.
Qed.
Lemma unmanaged_clone id k s t : respects same_managed (CloneSpecGeneration id k s t).
Proof.
  apply respects_unmanaged. intros now db n db' [[_ ->]|(_ & sp & sp' & _ & _ & _ & ->)]%clone_inv; done.
Qed.
Lemma unmanaged_transition k s t o e : respects same_managed (TransitionService k s t o e).
Proof.
  apply respects_unmanaged. intros now db n db' [[_ ->]|(_ & s0 & s' & _ & _ & -> & _)]%transition_inv; done.
Qed.
Lemma unmanaged_insert_operation t i s k p st g h : respects same_managed (InsertOperation t i s k p st g h).
Proof. apply respects_unmanaged. by intros now db u db' (_ & _ & _ & ->)%insert_operation_inv. Qed.
Lemma unmanaged_release k : respects same_managed (ReleaseResourceWorkLease k).
Proof. apply respects_unmanaged. by intros now db n db' (m & -> & _)%release_inv. Qed.
Lemma unmanaged_upsert k d : respects same_managed (UpsertResourceWork k d).
Proof. apply respects_unmanaged. by intros now db u db' (wk & -> & _)%upsert_work_inv. Qed.
Lemma unmanaged_quota k i g r q : respects same_managed (InsertQuotaReservation k i g r q).
Proof. apply respects_unmanaged. intros now db u db' H. by apply quota_insert_inv in H as ->. Qed.
Lemma unmanaged_idempotency t m r h i e : respects same_managed (PutIdempotency t m r h i e).
Proof. apply respects_unmanaged. intros now db n db' [[_ ->]| ->]%put_idempotency_inv; done. Qed.
Lemma unmanaged_audit t e row : respects same_managed (fun now => AppendAuditEvent t e (row now) now).
Proof. apply respects_unmanaged. by intros now db u db' (m & -> & _)%append_audit_inv. Qed.
Lemma unmanaged_scope k o p : respects same_managed (UpsertManagedGPUReleaseScope k o p).
Proof. apply respects_unmanaged. by intros now db u db' [= _ <-]. Qed.
Lemma unmanaged_service k n s g : respects same_managed (InsertService k n s g).
Proof. unfold InsertService. unmanaged. Qed.
Lemma unmanaged_placement k n u : respects same_managed (InsertNamespacePlacement k n u).
Proof. unfold InsertNamespacePlacement. unmanaged. Qed.
Lemma unmanaged_current k o : respects same_managed (SetCurrentOperation k o).
Proof. unfold SetCurrentOperation. unmanaged. Qed.
Lemma unmanaged_spec i k g b : respects same_managed (InsertSpec i k g b).
Proof. unfold InsertSpec. unmanaged. Qed.
Lemma unmanaged_runtime k g m : respects same_managed (InsertRuntime k g m).
Proof. unfold InsertRuntime. unmanaged. Qed.
#[export] Hint Resolve respects_closing respects_save_create respects_insert_resource : moves.
#[export] Hint Extern 3 (respects ?R _) =>
  lazymatch R with same_managed => fail | _ => simple apply respects_ignoring end : moves.
#[export] Hint Resolve unmanaged_command
  unmanaged_close unmanaged_cancel unmanaged_clone unmanaged_transition unmanaged_insert_operation
  unmanaged_release unmanaged_upsert unmanaged_quota unmanaged_idempotency unmanaged_audit unmanaged_scope
  unmanaged_service unmanaged_placement unmanaged_current unmanaged_spec unmanaged_runtime : moves.

(** *** Handlers *)
#[local] Hint Resolve respects_select respects_select_one : moves.
Lemma moves_optional_row {A} (g : statement A) :
  respects keeps_associations g -> moves (db_rel keeps_associations) (optional g).
Proof. intros Hg. unfold optional. db_moves. Qed.
#[local] Hint Resolve moves_optional_row : moves.
Section Immutable.
Context `{U : UuidLib}.
Context (marshal_command : string -> string -> Z -> result string) (sha256_hex : string -> string).
Context (format_time : Z -> string) (rfc3339nano : string -> bool).
Local Abbreviation keep := (moves (db_rel keeps_associations)).

Lemma keep_prepare c kind o : keep (prepareManagedCommand sha256_hex c kind o).
Proof.
  unfold prepareManagedCommand, LockManagedGPUKey, GetManagedGPUCommand, GetManagedGPUResourceForUpdate,
    ManagedGPUServiceExists. db_moves.
Qed.
Lemma keep_persist c kind o i r : keep (persistManagedCommand sha256_hex c kind o i r).
Proof. unfold persistManagedCommand. db_moves. Qed.
#[local] Hint Resolve keep_prepare keep_persist : moves.
Lemma keep_delete input c : keep (acceptManagedDelete sha256_hex format_time rfc3339nano input c).
Proof.
  unfold acceptManagedDelete, managed_delete_body, delete_unseen, delete_service, delete_event, insert_operation,
    ManagedExecutionFacts, GetServiceForUpdate. db_moves.
Qed.
Lemma keep_direct input : keep (Command_direct marshal_command sha256_hex input).
Proof.
  unfold Command_direct, command_body, accept_command, commanded_service, clone_spec, insert_operation,
    announce_command, command_quota, replayed_command, LockIdempotency, GetIdempotency, Sql.GetOperation,
    GetServiceForUpdate, Sql.GetSpec. db_moves.
Qed.
Lemma keep_create input : keep (CreateService sha256_hex input).
Proof.
  unfold CreateService, resolve_ids, create_body, create_writes, managed_create, replayed_create, recorded_create, write_service,
    place_namespace, create_event, uuid_or_new, LockIdempotency, GetIdempotency, Sql.GetOperation. db_moves.
Qed.
Lemma keep_prepare_create input : keep (PrepareCreate sha256_hex input).
Proof. unfold PrepareCreate, prepare_body. db_moves. Qed.
End Immutable.

(** Claim C33.  The association of a managed resource is immutable.  Whatever a
    managed or direct command, a create or the check before a create report, an
    association that is recorded stays recorded, with the same create operation,
    original context, class, owner and create digest; its delete operation and the
    create payload are written at most once. *)
Theorem association_immutable {U : UuidLib} marshal sha format rfc k m w cmd attachment ca cr :
  managed (w_db w) !! k = Some m ->
  ∀ w', w' = (Command marshal sha format rfc cmd attachment w).2 ∨ w' = (CreateService sha ca w).2 ∨
        w' = (PrepareCreate sha cr w).2 ->
  ∃ m', managed (w_db w') !! k = Some m' ∧ keeps_row m m'.
Proof.
  intros Hm w' Hw. assert (db_rel keeps_associations w w') as [_ H]; [|by apply H].
  destruct Hw as [->|[->| ->]].
  - unfold Command. destruct attachment; [apply keep_delete | apply keep_direct].
  - apply keep_create.
  - apply keep_prepare_create.
Qed.

(** ** Associations are well formed *)
Record association_ok `{UuidLib} (k : key) (m : ManagedResourceRow) : Prop := {
  ao_context : ∃ original, m_original_context m = JVal original ∧
    uuid_parse (Gpu.RC_TenantID original) = Some k.1 ∧ uuid_parse (Gpu.RC_ResourceID original) = Some k.2 ∧
    uuid_parse (Gpu.OriginalCreateOperationID original) = Some (m_create_operation_id m) ∧
    Gpu.DeleteOperationID original = "" ∧ Gpu.OwnerService original = m_owner_service m ∧
    Gpu.CreateCommandDigest original = m_create_command_digest m;
  ao_owner : m_owner_service m = "ani-inference";
  ao_class : in_list (m_resource_class m) ["cpu"; "gpu"] = true;
  ao_closing : m_closing m = bool_decide (is_Some (m_delete_operation_id m));
}.
Definition associations_ok `{UuidLib} (db : DB) : Prop := ∀ k m, managed db !! k = Some m -> association_ok k m.
Definition keeps_ok `{UuidLib} (db db' : DB) : Prop := associations_ok db -> associations_ok db'.
#[global] Instance keeps_ok_preorder `{UuidLib} : PreOrder keeps_ok.
Proof. split; [intros db Hok; exact Hok|]. intros a b c. unfold keeps_ok. auto. Qed.
#[global] Instance keeps_ok_ignores `{UuidLib} : IgnoresOthers keeps_ok.
Proof. intros db db' E Hok k m. rewrite E. apply Hok. Qed.
Section WellFormed.
Context `{U : UuidLib}.
Context (marshal_command : string -> string -> Z -> result string) (sha256_hex : string -> string).
Context (format_time : Z -> string) (rfc3339nano : string -> bool).
Local Abbreviation keep := (moves (db_rel keeps_ok)).

Lemma ok_update_managed f k :
  (∀ m m', f m = Some m' -> association_ok k m -> association_ok k m') -> respects keeps_ok (update_managed f k).
Proof.
  intros Hf now db a db'. unfold update_managed.
  destruct (managed db !! k) as [m|] eqn:Em; [destruct (f m) as [m'|] eqn:Ef|]; intros [= _ <-]; try reflexivity.
  intros Hok k' m0. cbn. intros [[<- <-]|[_ Hm0]]%lookup_insert_Some; [|by apply Hok]. by eapply Hf, Hok.
Qed.
Lemma ok_closing k d : respects keeps_ok (SetManagedGPUClosing k d).
Proof.
  apply ok_update_managed. intros m m' [= <-] []. split; cbn; done.
Qed.
Lemma ok_save_create k b d h p : respects keeps_ok (SaveManagedGPUCreate k b d h p).
Proof.
  apply ok_update_managed. intros m m'. destruct (m_create_payload m); [done|]. intros [= <-] []. by split.
Qed.
Lemma ok_insert_resource k c class original :
  uuid_parse (Gpu.RC_TenantID original) = Some k.1 -> uuid_parse (Gpu.RC_ResourceID original) = Some k.2 ->
  uuid_parse (Gpu.OriginalCreateOperationID original) = Some c ->
  respects keeps_ok (InsertManagedGPUResource k c (Gpu.OwnerService original) class (Gpu.CreateCommandDigest original)
                       (original <| Gpu.DeleteOperationID := "" |>)).
Proof.
  intros H1 H2 H3 now db a db'. unfold InsertManagedGPUResource. destruct (negb _) eqn:B; [done|].
  apply negb_false_iff, andb_true_iff in B as [Ho%bool_decide_eq_true Hc].
  destruct (bool_decide _); [done|]. destruct (create_taken _ _ _); [done|].
  intros [= _ <-] Hok k' m. cbn. intros [[<- <-]|[_ Hm]]%lookup_insert_Some; [|by apply Hok].
  split; cbn; try done. by eexists.
Qed.
#[local] Hint Resolve ok_closing ok_save_create : moves.
Lemma ok_optional {A} (g : statement A) : respects keeps_ok g -> keep (optional g).
Proof. intros Hg. unfold optional. db_moves. Qed.
#[local] Hint Resolve ok_optional : moves.
Lemma ok_prepare c kind o : keep (prepareManagedCommand sha256_hex c kind o).
Proof.
  intros w. unfold prepareManagedCommand.
  destruct (managed_ids (MC_Context c) o) as [[[k operation] create]|e] eqn:Hids; [|reflexivity].
  cbv zeta. erewrite bind_run by reflexivity. cbn beta iota. revert w.
  match goal with |- ∀ w, db_rel _ w (?c w).2 => change (keep c) end.
  unfold managed_ids, requireUUID in Hids.
  destruct (uuid_parse (Gpu.RC_TenantID _)) eqn:H1; [|done]. destruct (uuid_parse (Gpu.RC_ResourceID _)) eqn:H2; [|done].
  destruct (uuid_parse o); [|done]. destruct (uuid_parse (Gpu.OriginalCreateOperationID _)) eqn:H3; [|done].
  injection Hids as <- <- <-. pose proof (ok_insert_resource (_, _) _ (managedClass c) _ H1 H2 H3) as Hins.
  unfold LockManagedGPUKey, GetManagedGPUCommand, GetManagedGPUResourceForUpdate, ManagedGPUServiceExists. db_moves.
Qed.
Lemma ok_persist c kind o i r : keep (persistManagedCommand sha256_hex c kind o i r).
Proof. unfold persistManagedCommand. db_moves. Qed.
#[local] Hint Resolve ok_prepare ok_persist : moves.
Lemma ok_delete input c : keep (acceptManagedDelete sha256_hex format_time rfc3339nano input c).
Proof.
  unfold acceptManagedDelete, managed_delete_body, delete_unseen, delete_service, delete_event, insert_operation,
    ManagedExecutionFacts, GetServiceForUpdate. db_moves.
Qed.
Lemma ok_direct input : keep (Command_direct marshal_command sha256_hex input).
Proof.
  unfold Command_direct, command_body, accept_command, commanded_service, clone_spec, insert_operation,
    announce_command, command_quota, replayed_command, LockIdempotency, GetIdempotency, Sql.GetOperation,
    GetServiceForUpdate, Sql.GetSpec. db_moves.
Qed.
Lemma ok_create input : keep (CreateService sha256_hex input).
Proof.
  unfold CreateService, resolve_ids, create_body, create_writes, managed_create, replayed_create, recorded_create,
    write_service, place_namespace, create_event, uuid_or_new, LockIdempotency, GetIdempotency, Sql.GetOperation.
  db_moves.
Qed.
Lemma ok_prepare_create input : keep (PrepareCreate sha256_hex input).
Proof. unfold PrepareCreate, prepare_body. db_moves. Qed.

(** Claim C34.  Associations stay well formed.  If every recorded association
    belongs to this service, has a known class, decodes to a context whose tenant,
    resource and create identities are those of its row, carries no delete
    operation in that context, and is closing exactly when it has a delete
    operation, then so is every association after any command, create or check
    before a create, whatever they report. *)
Theorem associations_well_formed w cmd attachment ca cr :
  associations_ok (w_db w) ->
  associations_ok (w_db (Command marshal_command sha256_hex format_time rfc3339nano cmd attachment w).2) ∧
  associations_ok (w_db (CreateService sha256_hex ca w).2) ∧
  associations_ok (w_db (PrepareCreate sha256_hex cr w).2).
Proof.
  intros Hok. split_and!.
  - unfold Command. destruct attachment; [eapply ok_delete | eapply ok_direct]; done.
  - by eapply ok_create.
  - by eapply ok_prepare_create.
Qed.
End WellFormed.

(** ** What intake and acknowledgement do *)
Section Effects.
Context `{U : UuidLib} {UL : UuidLaws}.
Context (marshal_command : string -> string -> Z -> result string) (sha256_hex : string -> string).
Context (format_time : Z -> string) (rfc3339nano : string -> bool).

Lemma optional_ok {A} (f : Z -> DB -> option A) w r w' :
  optional (select_one f) w = (Ok r, w') -> w_db w' = w_db w ∧ w_now w <= w_now w' ∧
  ∃ now, f now (w_db w) = r.
Proof.
  unfold optional. intros H. apply bind_ok_inv in H as (v & w1 & H1 & H). apply try_inv in H1 as (v' & [= ->] & H1).
  destruct v' as [a|e].
  - injection H as <- <-. apply exec_ok in H1 as (now & T & H1 & <- & _).
    apply select_one_inv in H1 as [H1 ->]. eauto.
  - destruct (errors_is _ _) eqn:E; [|done]. injection H as <- <-.
    pose proof (moves_exec eq _ (respects_select_one eq f _) w) as [Hw Hd]. rewrite H1 in Hw, Hd. cbn in Hw, Hd.
    apply exec_err in H1 as [_ [->|(now & Ht & H1 & H2)]]; [done|]. split_and!; [done..|].
    exists now. unfold select_one in H1. by destruct (f _ _).
Qed.

(** A command is answered from its record, continues on a recorded association,
    or opens one. *)
Inductive prepared (c : ManagedCommand) (kind : string) (k : key) (operation create : uuid) (db : DB)
    : managedIntake -> ManagedCommand -> DB -> Prop :=
  | prepared_replay row : managed_commands db !! (k.1, operation) = Some row ->
      mc_payload_hash row = sha256_hex (MC_Payload c) ->
      prepared c kind k operation create db (mkIntake false (Some (mc_response_snapshot row))) c db
  | prepared_known m intake c' : managed_commands db !! (k.1, operation) = None ->
      managed db !! k = Some m -> check_association kind create operation c m = Ok (intake, c') ->
      prepared c kind k operation create db intake c' db
  | prepared_new now db' : managed_commands db !! (k.1, operation) = None ->
      managed db !! k = None -> services db !! k = None ->
      InsertManagedGPUResource k create (Gpu.OwnerService (MC_Context c)) (managedClass c)
        (Gpu.CreateCommandDigest (MC_Context c)) ((MC_Context c) <| Gpu.DeleteOperationID := "" |>) now db
        = Ok (tt, db') ->
      prepared c kind k operation create db (mkIntake false None) c db'.

Lemma prepare_effect c kind operationID w intake c' w' :
  prepareManagedCommand sha256_hex c kind operationID w = (Ok (intake, c'), w') ->
  ∃ k operation create, managed_ids (MC_Context c) operationID = Ok (k, operation, create) ∧
    w_now w <= w_now w' ∧ prepared c kind k operation create (w_db w) intake c' (w_db w').
Proof.
  intros H. unfold prepareManagedCommand in H.
  apply bind_ok_inv in H as ([[k operation] create] & w0 & H0 & H). injection H0 as H0 <-.
  exists k, operation, create. split; [done|].
  apply bind_ok_inv in H as ([] & w1 & H1 & H). apply exec_ok in H1 as (t1 & T1 & [= E1] & N1 & _).
  apply bind_ok_inv in H as ([] & w2 & H2 & H). apply exec_ok in H2 as (t2 & T2 & [= E2] & N2 & _).
  apply bind_ok_inv in H as (e & w3 & H3 & H). unfold GetManagedGPUCommand in H3.
  apply optional_ok in H3 as (E3 & T3 & _ & Hc). rewrite E1, E2 in *. destruct e as [row|].
  - apply bind_ok_inv in H as ([] & w4 & H4 & H). apply check_ok_inv in H4 as [H4%bool_decide_eq_true <-].
    injection H as <- <- <-. split; [lia|]. rewrite E3. by constructor.
  - apply bind_ok_inv in H as (s & w4 & H4 & H). unfold GetManagedGPUResourceForUpdate in H4.
    apply optional_ok in H4 as (E4 & T4 & _ & Hm). rewrite E3 in *. destruct s as [m|].
    + injection H as H <-. split; [lia|]. rewrite E4. by econstructor.
    + apply bind_ok_inv in H as (b & w5 & H5 & H). apply exec_ok in H5 as (t5 & T5 & H5 & N5 & _).
      injection H5 as Hb E5. rewrite E4 in *.
      apply bind_ok_inv in H as ([] & w6 & H6 & H). apply check_ok_inv in H6 as [H6 <-].
      apply bind_ok_inv in H as ([] & w7 & H7 & H). apply exec_ok in H7 as (t7 & T7 & H7 & N7 & _).
      injection H as <- <- <-. split; [lia|]. rewrite <- E5 in H7. eapply prepared_new; [done..| |exact H7].
      apply negb_true_iff in H6. rewrite <- Hb in H6. apply bool_decide_eq_false in H6.
      by apply eq_None_not_Some.
Qed.

(** The acknowledgement: one new command row; besides it only the association
    moves. *)
Lemma insert_command_inv tenant operation row now db db' :
  InsertManagedGPUCommand tenant operation row now db = Ok (tt, db') ->
  db' = db <| managed_commands := <[(tenant, operation) := row now]> (managed_commands db) |>.
Proof.
  unfold InsertManagedGPUCommand. destruct (negb _); [done|]. case_bool_decide; [done|].
  destruct (match _ with Some _ => _ | None => _ end); [done|]. by intros [= <-].
Qed.
Lemma update_managed_inv f k now db db' :
  update_managed f k now db = Ok (tt, db') -> ∃ m, db' = db <| managed := m |>.
Proof.
  unfold update_managed. intros H. exists (managed db').
  destruct (managed db !! k) as [m|]; [destruct (f m)|]; injection H as <-; by destruct db.
Qed.
Lemma persist_effect c kind operationID intent response w u w' :
  persistManagedCommand sha256_hex c kind operationID intent response w = (Ok u, w') ->
  ∃ k operation create now m, managed_ids (MC_Context c) operationID = Ok (k, operation, create) ∧
    w_db w' = (w_db w) <| managed := m |>
      <| managed_commands := <[(k.1, operation) :=
           command_row sha256_hex k.2 create c kind operationID intent response now]> (managed_commands (w_db w)) |>.
Proof.
  intros H. unfold persistManagedCommand in H.
  apply bind_ok_inv in H as ([[k operation] create] & w0 & H0 & H). injection H0 as H0 <-.
  apply bind_ok_inv in H as ([] & w1 & H1 & H). apply exec_ok in H as (now & _ & H & _).
  destruct u. apply insert_command_inv in H.
  assert (∃ m, w_db w1 = (w_db w) <| managed := m |>) as (m & E).
  { destruct (bool_decide _); [|destruct (negb _)].
    - apply exec_ok in H1 as (? & _ & H1 & _). exact (update_managed_inv _ _ _ _ _ H1).
    - apply exec_ok in H1 as (? & _ & H1 & _). exact (update_managed_inv _ _ _ _ _ H1).
    - injection H1 as <-. exists (managed (w_db w)). by destruct (w_db w). }
  exists k, operation, create, now, m. split; [done|]. by rewrite H, E.
Qed.

(** A refusal to create leaves everything but the managed tables. *)
Record rows_kept (db db' : DB) : Prop := {
  rk_services : services db' = services db; rk_operations : operations db' = operations db;
  rk_specs : specs db' = specs db; rk_runtimes : runtimes db' = runtimes db;
  rk_work : work db' = work db; rk_quotas : quotas db' = quotas db;
  rk_placements : placements db' = placements db }.
Definition business_kept (db db' : DB) : Prop := rows_kept db db' ∧ idempotency db' = idempotency db.

Lemma checked_create create operation c m intake c' d :
  check_association "create" create operation c m = Ok (intake, c') -> m_delete_operation_id m = Some d ->
  intake = mkIntake true None.
Proof.
  unfold check_association. intros H Hd. rewrite Hd in H. cbv zeta in H.
  rewrite (bool_decide_true (is_Some (Some d))) in H by eauto. cbn -[mbind] in H. minv H. by injection H as <- <-.
Qed.

(** The answer the managed table holds for a create command: its row is keyed by
    the tenant and the command's own operation, carries the hash of the command's
    own payload, and holds the answer. *)
Definition create_recorded (c : ManagedCommand) (t : uuid) (answer : jsonb OperationResponse) (db : DB) : Prop :=
  ∃ operation row, uuid_parse (Gpu.OriginalCreateOperationID (MC_Context c)) = Some operation ∧
    managed_commands db !! (t, operation) = Some row ∧
    mc_payload_hash row = sha256_hex (MC_Payload c) ∧ mc_response_snapshot row = answer.
Definition blocked_response (c : ManagedCommand) : OperationResponse :=
  managedIntentResponse (MC_Context c) (Gpu.OriginalCreateOperationID (MC_Context c)) "create" "blocked_by_delete".

(** A managed create for a resource under deletion never goes on to its business writes. *)
Lemma managed_create_closing input ids c w r w' m d :
  managed_create sha256_hex input ids c w = (Ok r, w') ->
  managed (w_db w) !! (ci_key ids) = Some m -> m_delete_operation_id m = Some d ->
  uuid_parse (CA_TenantID input) = Some (ci_key ids).1 ->
  let service := uuid_string (ci_key ids).2 in
  let operation := Gpu.OriginalCreateOperationID (MC_Context c) in
  (∃ answer, r = Some (Discard (mkCreateAggregateResult service operation true (Some answer))) ∧
     create_recorded c (ci_key ids).1 answer (w_db w)) ∨
  (r = Some (Schema.Commit (mkCreateAggregateResult service operation false (Some (JVal (blocked_response c))))) ∧
     create_recorded c (ci_key ids).1 (JVal (blocked_response c)) (w_db w')) ∧ business_kept (w_db w) (w_db w').
Proof.
  intros H Hm Hd Ht service operation0. unfold managed_create in H. cbv zeta in H.
  apply bind_ok_inv in H as ([] & w0 & H0 & H). apply check_ok_inv in H0 as [H0 <-].
  apply andb_true_iff in H0 as [H0 _]. apply andb_true_iff in H0 as [H0 _]. apply andb_true_iff in H0 as [H0 C3].
  apply andb_true_iff in H0 as [C1 C2]. apply bool_decide_eq_true in C1, C2, C3.
  apply bind_ok_inv in H as ([intake c'] & w1 & H1 & H).
  apply prepare_effect in H1 as (k & operation & create & Hids & _ & Hp).
  unfold managed_ids, requireUUID in Hids. rewrite C1, C2, C3, Ht, !uuid_parse_string in Hids.
  cbn in Hids. rewrite <- surjective_pairing in Hids. injection Hids as <- <- <-.
  remember (w_db w1) as d1 eqn:E1. unfold create_recorded, service, operation0.
  destruct Hp as [row Hrow Hh|m0 intake c' Hnone Hm0 Hc|now db' _ Hnone].
  - left. exists (mc_response_snapshot row). cbn in H. injection H as <- _. rewrite C3, uuid_parse_string.
    split; [done|]. by exists (ci_operation ids), row.
  - right. rewrite Hm in Hm0. injection Hm0 as <-. rewrite (checked_create _ _ _ _ _ _ _ Hc Hd) in H. cbn in H.
    apply bind_ok_inv in H as ([] & w2 & H2 & H). injection H as <- <-.
    apply persist_effect in H2 as (k & op & create & now & mm & Hids & E).
    unfold managed_ids, requireUUID in Hids. rewrite C1, C2, C3, Ht, !uuid_parse_string in Hids.
    cbn in Hids. rewrite <- surjective_pairing in Hids. injection Hids as <- <- <-.
    unfold blocked_response. rewrite C3, uuid_parse_string, E. split.
    + split; [done|]. eexists _, _. cbn. by rewrite lookup_insert_eq.
    + rewrite <- E1. split; [by split|done].
  - congruence.
Qed.

(** Identities given by the caller are used; reading them touches nothing. *)
Definition given (text : string) (id : uuid) : Prop := ∀ u, uuid_parse text = Some u -> id = u.
Lemma uuid_or_new_ok label text w id w' :
  (o ← lift (parseUUID label text true); uuid_or_new o) w = (Ok id, w') -> given text id.
Proof.
  unfold parseUUID. intros H u Hu. apply bind_ok_inv in H as (o & w1 & H1 & H). injection H1 as H1 <-.
  case_bool_decide as E; cbn in H1; [subst text; by rewrite uuid_parse_empty in Hu|].
  rewrite Hu in H1. injection H1 as <-. by injection H as <-.
Qed.
Lemma moves_resolved input : moves (db_rel eq) (resolve_ids input).
Proof. unfold resolve_ids, uuid_or_new. db_moves. Qed.
Lemma resolved input w ids w' :
  resolve_ids input w = (Ok ids, w') -> w_db w' = w_db w ∧ w_now w <= w_now w' ∧
  uuid_parse (CA_TenantID input) = Some (ci_key ids).1 ∧ given (CA_ServiceID input) (ci_key ids).2 ∧
  given (CA_OperationID input) (ci_operation ids).
Proof.
  intros H. pose proof (moves_resolved input w) as [T D]. rewrite H in T, D. split_and!; [done..| | |].
  all: unfold resolve_ids in H; apply bind_ok_inv in H as (t & ? & Ht%requireUUID_ok & H);
    apply bind_ok_inv in H as (s & ? & Hs & H); injection Hs as Hs <-;
    apply bind_ok_inv in H as (sp & ? & Hsp & H); injection Hsp as Hsp <-;
    apply bind_ok_inv in H as (o & ? & Ho & H); injection Ho as Ho <-;
    apply bind_ok_inv in H as (mo & ? & Hmo & H); injection Hmo as Hmo <-;
    apply bind_ok_inv in H as (v & ? & Hv & H); injection Hv as Hv <-;
    apply bind_ok_inv in H as (s' & ? & Hs' & H); apply bind_ok_inv in H as (sp' & ? & Hsp' & H);
    apply bind_ok_inv in H as (o' & ? & Ho' & H); injection H as <- _; cbn.
  - done.
  - eapply (uuid_or_new_ok "service_id"). erewrite (bind_run _ _ _ s); [exact Hs'|]. unfold lift. by rewrite Hs.
  - eapply (uuid_or_new_ok "operation_id"). erewrite (bind_run _ _ _ o); [exact Ho'|]. unfold lift. by rewrite Ho.
Qed.

(** Claim C7.  A delete that arrived first wins.  Once the association of a
    resource carries a delete operation, a managed create for that resource writes
    no service, operation, specification, runtime, work, quota, key or placement,
    whatever it reports.  If it succeeds, it names the resource and the command's
    own create operation, and either nothing at all was written and the answer is
    the one recorded before under that operation with the hash of this command's
    payload, or the answer says that this create is blocked by the delete, and is
    recorded under that operation and hash. *)
Theorem create_blocked_by_delete input c t s m d w r w' :
  CA_Managed input = Some c -> uuid_parse (CA_TenantID input) = Some t ->
  uuid_parse (CA_ServiceID input) = Some s -> managed (w_db w) !! (t, s) = Some m ->
  m_delete_operation_id m = Some d -> CreateService sha256_hex input w = (r, w') ->
  business_kept (w_db w) (w_db w') ∧
  ∀ result, r = Ok result -> ∃ answer,
    result = mkCreateAggregateResult (uuid_string s) (Gpu.OriginalCreateOperationID (MC_Context c))
               (CR_Replayed result) (Some answer) ∧
    ((CR_Replayed result = true ∧ w_db w' = w_db w ∧ create_recorded c t answer (w_db w)) ∨
     (CR_Replayed result = false ∧ answer = JVal (blocked_response c) ∧
      om_step (or_operation (blocked_response c)) = "blocked_by_delete" ∧
      create_recorded c t answer (w_db w'))).
Proof.
  intros Hc Ht Hs Hm Hd H. unfold CreateService, mbind, M_bind in H.
  pose proof (moves_resolved input w) as [_ D]. destruct (resolve_ids input w) as [[ids|e] w1] eqn:Ei.
  2:{ injection H as <- <-. cbn in D. rewrite <- D. split; [split; [by split|done]|done]. }
  apply resolved in Ei as (Edb & _ & Et & Es & _). rewrite Ht in Et. injection Et as Et. apply Es in Hs.
  assert (Hk : ci_key ids = (t, s)) by (rewrite (surjective_pairing (ci_key ids)); congruence).
  assert (Hbody : ∀ u e v, create_body sha256_hex input ids u = (Ok e, v) -> w_db u = w_db w ->
    ∃ o, managed_create sha256_hex input ids c u = (Ok o, v) ∧ o = Some e).
  { intros u e v Hb Eu. unfold create_body in Hb. rewrite Hc in Hb.
    apply bind_ok_inv in Hb as (o & v1 & Hb1 & Hb). exists o.
    pose proof Hb1 as Hx. eapply managed_create_closing in Hx; [|rewrite Eu, Hk; done|done|rewrite Hk; done].
    destruct Hx as [(answer & -> & _)|[(-> & _) _]]; by injection Hb as <- <-. }
  apply transaction_effect in H as [[E Hr]|(u & a & v & Eu & _ & _ & Hb & E & Hr)].
  - rewrite E, Edb. split; [split; [by split|done]|]. intros result ->. destruct (Hr _ eq_refl) as (u & v & Eu & Hb).
    rewrite Edb in Eu. destruct (Hbody _ _ _ Hb Eu) as (o & Hmc & ->).
    eapply managed_create_closing in Hmc; [|rewrite Eu, Hk; done|done|rewrite Hk; done].
    destruct Hmc as [(answer & [= ->] & Hrow)|[([=] & _) _]]. rewrite Eu, Hk in Hrow. rewrite Hk.
    exists answer. split; [done|]. by left.
  - rewrite Edb in Eu. destruct (Hbody _ _ _ Hb Eu) as (o & Hmc & ->).
    eapply managed_create_closing in Hmc; [|rewrite Eu, Hk; done|done|rewrite Hk; done].
    destruct Hmc as [(answer & [=] & _)|[([= ->] & Hrow) Hkept]]. rewrite E, <- Eu. split; [done|].
    intros result ->. destruct Hr as [[= ->]|[=]]. rewrite Hk in Hrow |- *. eexists. split; [done|]. by right.
Qed.

(** *** Repeating a managed command *)
(** A restored context has the identities and the payload of the command. *)
Definition same_command (c c' : ManagedCommand) : Prop :=
  MC_Payload c' = MC_Payload c ∧ ∀ o, managed_ids (MC_Context c') o = managed_ids (MC_Context c) o.
Lemma association_command kind create operation c m intake c' :
  check_association kind create operation c m = Ok (intake, c') -> same_command c c' ∧ mi_replay intake = None.
Proof.
  unfold check_association. intros H. cbv zeta in H. apply rbind_ok_inv in H as (saved & _ & H).
  do 4 (apply rbind_ok_inv in H as (? & _ & H)).
  destruct (bool_decide (kind = "create") && _); [by injection H as <- <-|].
  apply rbind_ok_inv in H as (c1 & H1 & H). do 2 (apply rbind_ok_inv in H as (? & _ & H)). injection H as <- <-.
  split; [|done]. case_bool_decide; apply rbind_ok_inv in H1 as (? & _ & H1); by injection H1 as <-.
Qed.
Lemma prepared_command c kind k operation create db intake c' db' :
  prepared c kind k operation create db intake c' db' -> same_command c c'.
Proof. destruct 1 as [| ? ? ? _ _ H|]; [done| |done]. by eapply association_command. Qed.

(** The acknowledgement of a command is recorded. *)
Definition acknowledged (c : ManagedCommand) (operationID : string) (response : OperationResponse) (db : DB) : Prop :=
  ∃ k operation create row, managed_ids (MC_Context c) operationID = Ok (k, operation, create) ∧
    managed_commands db !! (k.1, operation) = Some row ∧ mc_payload_hash row = sha256_hex (MC_Payload c) ∧
    mc_response_snapshot row = JVal response.
Lemma persisted c c' kind operationID intent response w u w' :
  persistManagedCommand sha256_hex c' kind operationID intent response w = (Ok u, w') -> same_command c c' ->
  acknowledged c operationID response (w_db w').
Proof.
  intros (k & operation & create & now & m & Hids & E)%persist_effect [Hp Hsame]. rewrite Hsame in Hids.
  eexists k, operation, create, _. rewrite E. cbn. rewrite lookup_insert_eq. split_and!; [done..| |done].
  cbn. by rewrite Hp.
Qed.
(** What follows the acknowledgement of a DELETE keeps it. *)
Definition keeps_acks (db db' : DB) : Prop := ∀ i row, managed_commands db !! i = Some row ->
  ∃ row', managed_commands db' !! i = Some row' ∧ mc_payload_hash row' = mc_payload_hash row ∧
          mc_response_snapshot row' = mc_response_snapshot row.
#[global] Instance keeps_acks_preorder : PreOrder keeps_acks.
Proof.
  split; [intros db i row H; by exists row|]. intros a b c H1 H2 i row Hi.
  destruct (H1 i row Hi) as (r1 & Hi1 & E1 & E2). destruct (H2 i r1 Hi1) as (r2 & Hi2 & E3 & E4).
  exists r2. split_and!; congruence.
Qed.
Lemma acks_close t o a s e : respects keeps_acks (SetManagedCloseState t o a s e).
Proof.
  intros now db u db'. unfold SetManagedCloseState. destruct (managed_commands db !! _) as [row|] eqn:Er.
  2:{ intros [= _ <-]. reflexivity. }
  destruct (bool_decide _); [destruct (negb _); [done|]|]; intros [= _ <-]; [|reflexivity].
  intros i row0 Hi. cbn. destruct (decide (i = (t, o))) as [->|].
  - rewrite lookup_insert_eq. rewrite Er in Hi. injection Hi as <-. by eexists.
  - rewrite lookup_insert_ne by done. by eexists.
Qed.
Lemma acks_scope k o p : respects keeps_acks (UpsertManagedGPUReleaseScope k o p).
Proof. by intros now db u db' [= _ <-] i row Hi; exists row. Qed.
#[local] Hint Resolve acks_close acks_scope : moves.
Lemma acknowledged_kept c o response db db' :
  acknowledged c o response db -> keeps_acks db db' -> acknowledged c o response db'.
Proof.
  intros (k & operation & create & row & Hids & Hr & Hh & Hs) Hk.
  destruct (Hk _ _ Hr) as (row' & Hr' & E1 & E2). exists k, operation, create, row'. split_and!; congruence.
Qed.

Lemma delete_unseen_acknowledged input c c' original k operation w response w' :
  delete_unseen sha256_hex format_time rfc3339nano input c' original k operation w = (Ok (Schema.Commit response), w') ->
  same_command c c' -> acknowledged c (Gpu.DeleteOperationID original) response (w_db w').
Proof.
  intros H Hc. unfold delete_unseen in H. cbv zeta in H. apply bind_ok_inv in H as (unknown & w1 & _ & H).
  match type of H with context [let '(_, _) := ?p in _] => destruct p as [state reason] end.
  apply bind_ok_inv in H as ([] & w2 & H2 & H). eapply persisted in H2; [|done].
  match type of H with ?t w2 = _ => assert (Hmv : moves (db_rel keeps_acks) t) by db_moves end.
  specialize (Hmv w2). rewrite H in Hmv. destruct Hmv as [_ Hk].
  apply bind_ok_inv in H as ([] & w3 & _ & H). apply bind_ok_inv in H as ([] & w4 & _ & H).
  injection H as <- <-. by eapply acknowledged_kept.
Qed.
Lemma delete_service_acknowledged input c c' original k operation s w response w' :
  delete_service sha256_hex input c' original k operation s w = (Ok (Schema.Commit response), w') ->
  same_command c c' -> acknowledged c (Gpu.DeleteOperationID original) response (w_db w').
Proof.
  intros H Hc. unfold delete_service in H. cbv zeta in H.
  do 8 (apply bind_ok_inv in H as (? & ? & _ & H)). apply bind_ok_inv in H as ([] & w1 & H1 & H).
  injection H as <- <-. by eapply persisted.
Qed.
Lemma delete_unseen_commits input c original k operation :
  yields (fun e => ∃ r, e = Schema.Commit r)
    (delete_unseen sha256_hex format_time rfc3339nano input c original k operation).
Proof. unfold delete_unseen. yields; eauto. Qed.
Lemma delete_service_commits input c original k operation s :
  yields (fun e => ∃ r, e = Schema.Commit r) (delete_service sha256_hex input c original k operation s).
Proof. unfold delete_service. yields; eauto. Qed.
Lemma delete_acknowledged input c w response w' :
  acceptManagedDelete sha256_hex format_time rfc3339nano input c w = (Ok response, w') ->
  acknowledged c (Gpu.DeleteOperationID (MC_Context c)) response (w_db w').
Proof.
  intros H. unfold acceptManagedDelete in H. apply bind_ok_inv in H as ([] & w0 & [_ <-]%check_ok_inv & H).
  apply transaction_ok in H as (u & v & Eu & _ & _ & Hb).
  assert (∃ e, managed_delete_body sha256_hex format_time rfc3339nano input c u = (Ok e, v) ∧
    ((e = Schema.Commit response ∧ w_db w' = w_db v) ∨ (e = Discard response ∧ w_db w' = w_db u)))
    as (e & H & He) by (rewrite Eu; destruct Hb as [[? ?]|[? ?]]; eauto).
  unfold managed_delete_body in H. apply bind_ok_inv in H as ([intake c'] & w1 & H1 & H).
  apply prepare_effect in H1 as (k & operation & create & Hids & _ & Hp). cbv zeta in H. pose proof (prepared_command _ _ _ _ _ _ _ _ _ Hp) as Hc.
  destruct (mi_replay intake) as [raw|] eqn:Er.
  - destruct Hp as [row Hr Hh|? ? ? _ _ Ha|]; [|apply association_command in Ha as [_ Ha]; congruence|done].
    injection Er as <-. apply bind_ok_inv in H as (resp & w2 & Hd & H). injection H as <- _.
    destruct He as [[[=] _]|[[= <-] E]]. exists k, operation, create, row. rewrite E. split_and!; [done..|].
    unfold decodeManagedResponse in Hd. destruct (mc_response_snapshot row); [|done]. by injection Hd as -> _.
  - rewrite Hids in H. erewrite bind_run in H by reflexivity. apply bind_ok_inv in H as (s & w2 & _ & H).
    assert (He' : ∃ r, e = Schema.Commit r).
    { destruct s; [by eapply delete_service_commits | by eapply delete_unseen_commits]. }
    destruct He' as [r ->]. destruct He as [[[= ->] E]|[[=] _]]. rewrite E.
    destruct s; [by eapply delete_service_acknowledged | by eapply delete_unseen_acknowledged].
Qed.

(** Forward: a recorded command is answered from its record, or refused. *)
Lemma prepare_recorded c kind operationID k operation create row w :
  w_env w = [] -> managed_ids (MC_Context c) operationID = Ok (k, operation, create) ->
  managed_commands (w_db w) !! (k.1, operation) = Some row ->
  prepareManagedCommand sha256_hex c kind operationID w =
    if bool_decide (mc_payload_hash row = sha256_hex (MC_Payload c))
    then (Ok (mkIntake false (Some (mc_response_snapshot row)), c), w) else (Err ErrIdempotencyConflict, w).
Proof.
  intros He Hids Hr. unfold prepareManagedCommand. cbv zeta. rewrite Hids.
  erewrite bind_run by reflexivity. cbn beta iota. erewrite bind_run by (by apply exec_read).
  erewrite bind_run by (by apply exec_read).
  erewrite bind_run.
  2:{ unfold optional. erewrite bind_run; [|unfold try; erewrite exec_read; [reflexivity|done|]];
        [reflexivity|]. unfold GetManagedGPUCommand, select_one. by rewrite Hr. }
  cbn beta iota. by case_bool_decide.
Qed.
Lemma transaction_refused {A} (body : M World (ending A)) w e :
  w_env w = [] -> body w = (Err e, w) -> transaction body w = (Err e, w).
Proof.
  intros He Hb. unfold transaction, mbind, M_bind, round_trip. rewrite He. unfold run_tx. rewrite Hb. cbn.
  by destruct w.
Qed.
Lemma transaction_discarded {A} (body : M World (ending A)) w a :
  w_env w = [] -> body w = (Ok (Discard a), w) -> transaction body w = (Ok a, w).
Proof.
  intros He Hb. unfold transaction, mbind, M_bind, round_trip. rewrite He. unfold run_tx. rewrite Hb. cbn.
  by destruct w.
Qed.

(**  An acknowledged delete is acknowledged the same way again.  Once
    a managed delete succeeded, the same command, repeated at any later time while
    its record is kept, succeeds with exactly the recorded response and changes
    nothing; the same operation with another payload is refused and changes
    nothing. *)
Theorem managed_delete_repeated input c w response w' w2 :
  Command marshal_command sha256_hex format_time rfc3339nano input (Some c) w = (Ok response, w') ->
  keeps_acks (w_db w') (w_db w2) -> w_env w2 = [] ->
  Command marshal_command sha256_hex format_time rfc3339nano input (Some c) w2 = (Ok response, w2) ∧
  ∀ payload, sha256_hex payload ≠ sha256_hex (MC_Payload c) ->
    Command marshal_command sha256_hex format_time rfc3339nano input (Some (c <| MC_Payload := payload |>)) w2
      = (Err ErrIdempotencyConflict, w2).
Proof.
  intros H Hk He. cbn in H |- *. unfold acceptManagedDelete in *.
  pose proof H as Hchk. apply bind_ok_inv in Hchk as ([] & w0 & [Hchk _]%check_ok_inv & _).
  pose proof (acknowledged_kept _ _ _ _ _ (delete_acknowledged _ _ _ _ _ H) Hk)
    as (k & operation & create & row & Hids & Hr & Hh & Hs). cbv zeta in Hchk |- *. split.
  - rewrite Hchk. erewrite bind_run by reflexivity. apply transaction_discarded; [done|].
    unfold managed_delete_body. cbv zeta. erewrite bind_run.
    2:{ erewrite prepare_recorded by done. by rewrite bool_decide_true. }
    cbn beta iota. cbn [mi_replay]. rewrite Hs. reflexivity.
  - intros payload Hne. cbn [MC_Context MC_Payload]. cbn [MC_Context] in Hchk. rewrite Hchk.
    erewrite bind_run by reflexivity. apply transaction_refused; [done|]. unfold managed_delete_body. cbv zeta.
    unfold mbind at 1, M_bind. erewrite prepare_recorded by done. cbn [MC_Payload].
    rewrite bool_decide_false by congruence. done.
Qed.

(** *** What a create writes *)
Lemma insert_service_inv k name state g now db u db' :
  InsertService k name state g now db = Ok (u, db') -> services db !! k = None ∧ 0 < g ∧
  name_in_use db k.1 name = false ∧
  db' = db <| services := <[k := mkServiceRow name state g 0 None None now now]> (services db) |>.
Proof.
  unfold InsertService. destruct (negb _) eqn:B; [done|]. case_bool_decide as Hn; [done|].
  destruct (name_in_use _ _ _) eqn:En; [done|]. intros [= _ <-].
  apply negb_false_iff, andb_true_iff in B as [_ B]. split_and!; [by apply eq_None_not_Some|lia|done..].
Qed.
Lemma place_effect input k w u w' :
  place_namespace input k w = (Ok u, w') -> w_now w <= w_now w' ∧ ∃ m, w_db w' = (w_db w) <| placements := m |> ∧
    (CA_RuntimeNamespace input ≠ "" -> m !! k = Some (CA_RuntimeNamespace input, CA_RuntimeNamespaceUID input)).
Proof.
  unfold place_namespace. case_bool_decide as H1; cbn [andb orb].
  - case_bool_decide as H2; cbn; intros H; [|done]. injection H as _ <-. split; [done|].
    exists (placements (w_db w)). split; [by destruct (w_db w)|done].
  - destruct (bool_decide (CA_RuntimeNamespaceUID _ = _)); cbn; intros H; [done|].
    apply exec_ok in H as (now & T & H & <- & _). split; [done|]. unfold InsertNamespacePlacement in H.
    destruct (_ || _); [done|]. case_bool_decide; [done|]. case_bool_decide; [done|]. injection H as _ H.
    eexists. split; [by rewrite <- H|]. intros _. by rewrite lookup_insert_eq.
Qed.
Lemma insert_spec_inv id k g b now db u db' :
  InsertSpec id k g b now db = Ok (u, db') -> specs db !! (k.1, k.2, g) = None ∧
  db' = db <| specs := <[(k.1, k.2, g) := mkSpecRow id b now]> (specs db) |>.
Proof.
  unfold InsertSpec. destruct (negb _); [done|]. destruct (spec_id_taken _ _ _); [done|].
  case_bool_decide as Hn; [done|]. case_bool_decide; [done|]. intros [= _ <-].
  split; [by apply eq_None_not_Some|done].
Qed.
Lemma insert_runtime_inv k g mode now db u db' :
  InsertRuntime k g mode now db = Ok (u, db') -> runtimes db !! k = None ∧ ∃ rt,
  db' = db <| runtimes := <[k := rt]> (runtimes db) |> ∧ r_generation rt = g ∧ r_model_ready rt = false ∧
  r_publication_phase rt = "withdrawn".
Proof.
  unfold InsertRuntime. destruct (negb _); [done|]. case_bool_decide as Hn; [done|].
  case_bool_decide; [done|]. intros [= _ <-]. split; [by apply eq_None_not_Some|]. by eexists.
Qed.
Lemma set_current_inv k operation now db u db' s :
  SetCurrentOperation k operation now db = Ok (u, db') -> services db !! k = Some s ->
  db' = db <| services := <[k := s <| s_current_operation_id := Some operation |> <| s_updated_at := now |>]>
                            (services db) |>.
Proof. unfold SetCurrentOperation. intros H Hs. rewrite Hs in H. by injection H as _ <-. Qed.

(** Everything an accepted create did. *)
Record created (input : CreateAggregateInput) (ids : create_ids) (since : Z) (db db' : DB) : Prop := {
  cr_service : services db !! (ci_key ids) = None ∧ name_in_use db (ci_key ids).1 (CA_Name input) = false ∧
    ∃ now now', services db' = <[ci_key ids := mkServiceRow (CA_Name input) "running" (create_generation input) 0
      (Some (ci_operation ids)) None now now']> (services db);
  cr_operation : operations db !! ((ci_key ids).1, ci_operation ids) = None ∧
    ∃ now, operations db' = <[((ci_key ids).1, ci_operation ids) := new_operation now (ci_key ids).2 "create"
      OperationPending StepAdmission (create_generation input) (CA_RequestHash input)]> (operations db);
  cr_alone : other_active db (ci_key ids).1 (ci_operation ids) (ci_key ids).2 = false;
  cr_spec : ∃ now, specs db' = <[((ci_key ids).1, (ci_key ids).2, create_generation input) :=
      mkSpecRow (ci_spec ids) (spec_body input ids) now]> (specs db);
  cr_runtime : ∃ rt, runtimes db' !! (ci_key ids) = Some rt ∧ r_generation rt = create_generation input ∧
    r_model_ready rt = false ∧ r_publication_phase rt = "withdrawn";
  cr_placement : CA_RuntimeNamespace input ≠ "" ->
    placements db' !! (ci_key ids) = Some (CA_RuntimeNamespace input, CA_RuntimeNamespaceUID input);
  (** Quota is reserved here only when Governance has not charged for it. *)
  cr_quota : match CA_Managed input with
    | Some _ => quotas db' = quotas db
    | None => ∃ q, quotas db' !! ((ci_key ids).1, ci_operation ids) = Some q ∧ q_state q = "pending"
    end;
  cr_work : ∃ now wk, since <= now ∧ work db' !! (ci_key ids) = Some wk ∧ wk_next_run_at wk = Some now;
}.

Lemma write_effect input ids w u w' :
  write_service input ids w = (Ok u, w') ->
  w_now w <= w_now w' ∧ created input ids (w_now w) (w_db w) (w_db w') ∧ idempotency (w_db w') = idempotency (w_db w) ∧
  managed_commands (w_db w') = managed_commands (w_db w).
Proof.
  intros H. unfold write_service in H. cbv zeta in H.
  apply bind_ok_inv in H as ([] & w1 & H1 & H). apply exec_ok in H1 as (t1 & T1 & H1 & N1 & _).
  apply insert_service_inv in H1 as (Hs & Hg & Hn & E1).
  apply bind_ok_inv in H as ([] & w2 & H2 & H). apply place_effect in H2 as (T2 & pl & E2 & Hpl).
  apply bind_ok_inv in H as ([] & w3 & H3 & H). apply exec_ok in H3 as (t3 & T3 & H3 & N3 & _).
  apply insert_operation_inv in H3 as (Ho & _ & Ha & E3). specialize (Ha eq_refl).
  rewrite E2, E1 in Ho, Ha, E3. cbn in Ho.
  apply bind_ok_inv in H as ([] & w4 & H4 & H). apply exec_ok in H4 as (t4 & T4 & H4 & N4 & _).
  eapply set_current_inv in H4; [|rewrite E3; cbn; by rewrite lookup_insert_eq]. rewrite E3 in H4.
  apply bind_ok_inv in H as ([] & w5 & H5 & H). apply exec_ok in H5 as (t5 & T5 & H5 & N5 & _).
  apply insert_spec_inv in H5 as (Hsp & E5). rewrite H4 in E5.
  apply bind_ok_inv in H as ([] & w6 & H6 & H). apply exec_ok in H6 as (t6 & T6 & H6 & N6 & _).
  apply insert_runtime_inv in H6 as (_ & rt & E6 & Hrt). rewrite E5 in E6.
  apply bind_ok_inv in H as ([] & w7 & H7 & H).
  assert (Hq : w_now w6 <= w_now w7 ∧ ∃ q, w_db w7 = (w_db w6) <| quotas := q |> ∧
    match CA_Managed input with
    | Some _ => q = quotas (w_db w6)
    | None => ∃ row, q !! ((ci_key ids).1, ci_operation ids) = Some row ∧ q_state row = "pending"
    end).
  { destruct (CA_Managed input).
    - injection H7 as <-. split; [done|]. exists (quotas (w_db w6)). split; [by destruct (w_db w6)|done].
    - apply exec_ok in H7 as (t7 & T7 & H7 & N7 & _). apply quota_insert_inv in H7. split; [lia|].
      eexists. split; [done|]. rewrite lookup_insert_eq. by eexists. }
  destruct Hq as (T7 & q & E7 & Hq). rewrite E6 in E7, Hq.
  apply exec_ok in H as (t8 & T8 & H8 & N8 & _). apply upsert_work_inv in H8 as (wk & E8 & Hd & _).
  rewrite E7 in E8. rewrite E8. split; [lia|]. split_and!; [|done..]. split; cbn.
  - split_and!; [done..|]. eexists _, _. by rewrite insert_insert_eq.
  - split; [done|]. by eexists.
  - done.
  - by eexists.
  - exists rt. by rewrite lookup_insert_eq.
  - done.
  - done.
  - exists t8, wk. rewrite lookup_insert_eq. split_and!; [lia|done..].
Qed.

(** The created rows are found again when the tables they were read from and
    written to are the same. *)
Lemma created_frame input ids since since' db0 db db1 db1' :
  created input ids since' db db1 -> rows_kept db0 db -> rows_kept db1 db1' -> since <= since' ->
  created input ids since db0 db1'.
Proof.
  intros [H1 H2 H3 H4 H5 H6 H7 (now & wk & ? & H8)] [A1 A2 A3 A4 A5 A6 A7] [B1 B2 B3 B4 B5 B6 B7] Ht.
  unfold name_in_use, other_active in *.
  split; unfold name_in_use, other_active; rewrite ?B1, ?B2, ?B3, ?B4, ?B5, ?B6, ?B7, <- ?A1, <- ?A2, <- ?A3, <- ?A6;
    try done. exists now, wk. split; [lia|done].
Qed.

(** The request key of a create, when it has one, names its operation. *)
Definition key_recorded (input : CreateAggregateInput) (ids : create_ids) (db : DB) : Prop :=
  CA_IdempotencyKey input ≠ "" -> ∃ row,
    idempotency db !! ((ci_key ids).1, create_method input, CA_IdempotencyKey input) = Some row ∧
    i_payload_hash row = CA_RequestHash input ∧ i_operation_id row = ci_operation ids.

Lemma recorded_effect input tenant w r w' :
  recorded_create input tenant w = (Ok r, w') -> w_db w' = w_db w ∧ w_now w <= w_now w' ∧
  match r with
  | Some result => CR_Replayed result = true ∧ CR_ResponseSnapshot result = None
  | None => idempotency (w_db w) !! (tenant, create_method input, CA_IdempotencyKey input) = None
  end.
Proof.
  unfold recorded_create, GetIdempotency. intros H. apply bind_ok_inv in H as (e & w1 & H1 & H).
  apply optional_ok in H1 as (E1 & T1 & _ & He). destruct e as [row|].
  - apply bind_ok_inv in H as ([] & w2 & [_ <-]%check_ok_inv & H).
    apply bind_ok_inv in H as (o & w3 & H3 & H). apply exec_ok in H3 as (t3 & T3 & H3 & N3 & _).
    unfold Sql.GetOperation in H3. apply select_one_inv in H3 as [_ E3]. injection H as <- <-.
    split_and!; [congruence|lia|done|done].
  - injection H as <- <-. done.
Qed.
Lemma replayed_create_effect input tenant w r w' :
  replayed_create input tenant w = (Ok r, w') -> w_db w' = w_db w ∧ w_now w <= w_now w' ∧
  match r with
  | Some result => CA_IdempotencyKey input ≠ "" ∧ CR_Replayed result = true ∧ CR_ResponseSnapshot result = None
  | None => CA_IdempotencyKey input ≠ "" ->
      idempotency (w_db w) !! (tenant, create_method input, CA_IdempotencyKey input) = None
  end.
Proof.
  unfold replayed_create. case_bool_decide as Hk; intros H; [by injection H as <- <-|].
  apply bind_ok_inv in H as ([] & w1 & H1 & H). apply exec_ok in H1 as (t1 & T1 & H1 & N1 & _).
  injection H1 as E1. apply recorded_effect in H as (E2 & T2 & H). rewrite E1. split_and!; [congruence|lia|].
  by destruct r.
Qed.

(** The key is free, so it is taken by this create. *)
Lemma key_effect input ids expires w n w' :
  (if bool_decide (CA_IdempotencyKey input = "") then mret 1
   else exec (PutIdempotency (ci_key ids).1 (create_method input) (CA_IdempotencyKey input) (CA_RequestHash input)
                (ci_operation ids) expires)) w = (Ok n, w') ->
  (CA_IdempotencyKey input ≠ "" ->
     idempotency (w_db w) !! ((ci_key ids).1, create_method input, CA_IdempotencyKey input) = None) ->
  n = 1 ∧ w_now w <= w_now w' ∧ rows_kept (w_db w) (w_db w') ∧ key_recorded input ids (w_db w').
Proof.
  intros H Hnone. case_bool_decide as Hk.
  - injection H as <- <-. split_and!; [done|done|by split|by intros []].
  - apply exec_ok in H as (t & T & H & N & _). specialize (Hnone Hk). unfold PutIdempotency in H. cbv zeta in H.
    rewrite Hnone in H. rewrite bool_decide_false in H by (by intros [? ?]).
    case_bool_decide; [done|]. injection H as <- H. rewrite <- H. split_and!; [done|lia|by split|].
    intros _. cbn. rewrite lookup_insert_eq. by eexists.
Qed.

(** The managed part of a create that goes on: the association only. *)
Lemma managed_create_on input ids c w w' :
  managed_create sha256_hex input ids c w = (Ok None, w') ->
  rows_kept (w_db w) (w_db w') ∧ idempotency (w_db w') = idempotency (w_db w) ∧ w_now w <= w_now w' ∧
  Gpu.OriginalCreateOperationID (MC_Context c) = uuid_string (ci_operation ids) ∧ is_Some (CA_ResponseSnapshot input).
Proof.
  unfold managed_create. cbv zeta. intros H. apply bind_ok_inv in H as ([] & w0 & [H0 <-]%check_ok_inv & H).
  apply andb_true_iff in H0 as [H0 _]. apply andb_true_iff in H0 as [H0 B1]. apply andb_true_iff in H0 as [_ B2].
  apply bool_decide_eq_true in B1, B2.
  apply bind_ok_inv in H as ([intake c'] & w1 & H1 & H).
  apply prepare_effect in H1 as (k & operation & create & _ & T & Hp).
  destruct (mi_replay intake); [done|]. destruct (mi_closing intake); [by minv H|]. injection H as <-.
  remember (w_db w1) as d1. destruct Hp as [| |now d1 _ _ _ Hi]; [split_and!; try done; by split..|].
  unfold InsertManagedGPUResource in Hi. destruct (negb _); [done|]. destruct (bool_decide _); [done|].
  destruct (create_taken _ _ _); [done|]. injection Hi as <-. split_and!; done.
Qed.
(** The managed part of a create that stops. *)
Lemma managed_create_stops input ids c w e w' :
  managed_create sha256_hex input ids c w = (Ok (Some e), w') ->
  let answer b raw := mkCreateAggregateResult (uuid_string (ci_key ids).2) (uuid_string (ci_operation ids)) b (Some raw) in
  (∃ row, e = Discard (answer true (mc_response_snapshot row)) ∧
    (∀ response, mc_response_snapshot row = JVal response ->
       acknowledged c (uuid_string (ci_operation ids)) response (w_db w))) ∨
  (∃ response, e = Schema.Commit (answer false (JVal response)) ∧ business_kept (w_db w) (w_db w') ∧
    om_step (or_operation response) = "blocked_by_delete" ∧
    acknowledged c (uuid_string (ci_operation ids)) response (w_db w')).
Proof.
  unfold managed_create. cbv zeta. intros H. apply bind_ok_inv in H as ([] & w0 & [H0 <-]%check_ok_inv & H).
  apply bind_ok_inv in H as ([intake c'] & w1 & H1 & H).
  apply prepare_effect in H1 as (k & operation & create & Hids & _ & Hp).
  remember (w_db w1) as d1 eqn:E1. destruct Hp as [row Hr Hh|m intake c' Hn Hm Ha|]; cbn in H; [| |done].
  - injection H as <- _. left. exists row. split; [done|]. intros response Hs. by exists k, operation, create, row.
  - apply association_command in Ha as [Hc Hi]. rewrite Hi in H. destruct (mi_closing intake); [|done].
    apply bind_ok_inv in H as ([] & w2 & H2 & H). injection H as <- <-. right. eexists. split; [done|].
    pose proof H2 as (? & ? & ? & ? & ? & _ & E)%persist_effect. rewrite <- E1 in E. split_and!; [|done|].
    + rewrite E. split; [by split|done].
    + by eapply persisted.
Qed.

Lemma create_event_effect input ids w u w' :
  create_event input ids w = (Ok u, w') -> rows_kept (w_db w) (w_db w') ∧
  idempotency (w_db w') = idempotency (w_db w) ∧ ∃ event, is_Some (audits (w_db w') !! ((ci_key ids).1, event)).
Proof.
  unfold create_event. intros H. apply bind_ok_inv in H as (event & w1 & [E _]%new_uuid_db & H).
  apply exec_ok in H as (t & _ & H & _). apply append_audit_inv in H as (m & E' & Ha & _). rewrite E', E.
  split_and!; [by split|done|by exists event].
Qed.

(** A create that wrote a service: its rows, its key, its audit event, and for a
    managed one its acknowledgement. *)
Record fully_created (input : CreateAggregateInput) (ids : create_ids) (since : Z) (db db' : DB) : Prop := {
  fc_rows : created input ids since db db';
  fc_key : key_recorded input ids db';
  fc_audit : ∃ event, is_Some (audits db' !! ((ci_key ids).1, event));
  fc_ack : ∀ c, CA_Managed input = Some c -> ∃ response, CA_ResponseSnapshot input = Some response ∧
    acknowledged c (uuid_string (ci_operation ids)) response db';
}.
Lemma rows_kept_trans db db' db'' : rows_kept db db' -> rows_kept db' db'' -> rows_kept db db''.
Proof. intros [] []. split; congruence. Qed.

Lemma create_written input ids w e w' :
  (CA_IdempotencyKey input ≠ "" ->
     idempotency (w_db w) !! ((ci_key ids).1, create_method input, CA_IdempotencyKey input) = None) ->
  (∀ c, CA_Managed input = Some c -> is_Some (CA_ResponseSnapshot input)) ->
  create_writes sha256_hex input ids w = (Ok e, w') ->
  fully_created input ids (w_now w) (w_db w) (w_db w') ∧
  e = Schema.Commit (mkCreateAggregateResult (uuid_string (ci_key ids).2) (uuid_string (ci_operation ids)) false None).
Proof.
  intros Hnone Hsnap H. unfold create_writes in H. cbv zeta in H.
  apply bind_ok_inv in H as ([] & w1 & H1 & H). apply write_effect in H1 as (T1 & Hcr & Ei & Em).
  apply bind_ok_inv in H as (w1' & ? & Hg & H). injection Hg as <- <-.
  apply bind_ok_inv in H as (n & w2 & H2 & H).
  apply key_effect in H2 as (-> & T2 & K2 & Hkey); [|by rewrite Ei].
  cbn [Z.eqb] in H. erewrite bind_run in H by reflexivity.
  apply bind_ok_inv in H as ([] & w3 & H3 & H). injection H3 as <-.
  apply bind_ok_inv in H as ([] & w4 & H4 & H). apply create_event_effect in H4 as (K4 & E4 & Hau).
  apply bind_ok_inv in H as ([] & w5 & H5 & H). injection H as <- <-. split; [|done].
  assert (rows_kept (w_db w4) (w_db w5) ∧ idempotency (w_db w5) = idempotency (w_db w4) ∧
          audits (w_db w5) = audits (w_db w4) ∧ ∀ c, CA_Managed input = Some c ->
            ∃ response, CA_ResponseSnapshot input = Some response ∧
              acknowledged c (uuid_string (ci_operation ids)) response (w_db w5)) as (K5 & E5 & A5 & Hack).
  { destruct (CA_Managed input) as [c|]; [|injection H5 as <-; split_and!; [by split|done..]].
    destruct (Hsnap c eq_refl) as [snap Es]. rewrite Es in H5 |- *.
    pose proof H5 as (? & ? & ? & ? & ? & _ & E)%persist_effect. split_and!; [rewrite E; by split|by rewrite E..|].
    intros c0 [= <-]. exists snap. split; [done|]. by eapply persisted. }
  split.
  - eapply created_frame; [exact Hcr|by split| |done]. eauto using rows_kept_trans.
  - intros Hne. rewrite E5, E4. by apply Hkey.
  - destruct Hau as [event Hau]. exists event. by rewrite A5.
  - done.
Qed.

(** One run of the body of a create. *)
Inductive create_run (input : CreateAggregateInput) (ids : create_ids) (since : Z) (db : DB)
    : ending CreateAggregateResult -> DB -> Prop :=
  | run_replayed_ack db' row c : CA_Managed input = Some c ->
      (∀ response, mc_response_snapshot row = JVal response ->
         acknowledged c (uuid_string (ci_operation ids)) response db) ->
      create_run input ids since db (Discard (mkCreateAggregateResult (uuid_string (ci_key ids).2)
        (uuid_string (ci_operation ids)) true (Some (mc_response_snapshot row)))) db'
  | run_blocked db' response c : CA_Managed input = Some c -> business_kept db db' ->
      om_step (or_operation response) = "blocked_by_delete" ->
      acknowledged c (uuid_string (ci_operation ids)) response db' ->
      create_run input ids since db (Schema.Commit (mkCreateAggregateResult (uuid_string (ci_key ids).2)
        (uuid_string (ci_operation ids)) false (Some (JVal response)))) db'
  | run_replayed_key result db' : CA_IdempotencyKey input ≠ "" -> business_kept db db' ->
      CR_Replayed result = true -> CR_ResponseSnapshot result = None ->
      create_run input ids since db (Schema.Commit result) db'
  | run_created db' : fully_created input ids since db db' ->
      create_run input ids since db (Schema.Commit (mkCreateAggregateResult (uuid_string (ci_key ids).2)
        (uuid_string (ci_operation ids)) false None)) db'.

Lemma create_body_run input ids w e w' :
  create_body sha256_hex input ids w = (Ok e, w') -> create_run input ids (w_now w) (w_db w) e (w_db w').
Proof.
  intros H. unfold create_body in H. apply bind_ok_inv in H as (intake & w1 & H1 & H). destruct intake as [e0|].
  - injection H as -> ->. destruct (CA_Managed input) as [c|] eqn:Ec; [|done].
    apply managed_create_stops in H1 as [(row & -> & Hr)|(response & -> & Hk & Hs & Ha)].
    + by eapply run_replayed_ack.
    + by eapply run_blocked.
  - assert (rows_kept (w_db w) (w_db w1) ∧ idempotency (w_db w1) = idempotency (w_db w) ∧ w_now w <= w_now w1 ∧
            (∀ c, CA_Managed input = Some c -> is_Some (CA_ResponseSnapshot input))) as (K & Ei & T & Hsnap).
    { destruct (CA_Managed input) as [c|].
      - apply managed_create_on in H1 as (? & ? & ? & _ & ?). done.
      - injection H1 as <-. done. }
    apply bind_ok_inv in H as (earlier & w2 & H2 & H). apply replayed_create_effect in H2 as (E2 & T2 & H2).
    destruct earlier as [result|].
    + injection H as <- <-. destruct H2 as (Hk & Hr & Hs). apply run_replayed_key; [done| |done..].
      split; [by rewrite E2|congruence].
    + apply create_written in H as [[Hc Hk Hau Hack] ->]; [|rewrite E2; done|done].
      apply run_created. split; [|done..]. eapply created_frame; [exact Hc|by rewrite E2|done|lia].
Qed.

(** Claim C4.  A create is accepted whole or not at all.  Whatever
    [CreateService] reports: either nothing changed, and a success then repeats
    an earlier answer; or no row of the service tables changed and a managed
    create was answered as blocked, an unmanaged one from its key; or the service
    was created completely ([fully_created]): a new running service whose current
    and only active operation is the new pending one at admission, its first
    specification and an unready runtime, the placement, a pending quota
    reservation unless Governance charged for it, due work, the request key, an
    audit event and, when managed, the acknowledgement. *)
Theorem create_all_or_nothing input w r w' :
  CreateService sha256_hex input w = (r, w') ->
  (w_db w' = w_db w ∧ ∀ result, r = Ok result -> CR_Replayed result = true) ∨
  (business_kept (w_db w) (w_db w') ∧ ∀ result, r = Ok result ->
     CR_Replayed result = true ∧ CA_IdempotencyKey input ≠ "" ∨
     ∃ response, CR_ResponseSnapshot result = Some (JVal response) ∧
       om_step (or_operation response) = "blocked_by_delete") ∨
  ∃ ids, uuid_parse (CA_TenantID input) = Some (ci_key ids).1 ∧ given (CA_ServiceID input) (ci_key ids).2 ∧
    given (CA_OperationID input) (ci_operation ids) ∧
    fully_created input ids (w_now w) (w_db w) (w_db w') ∧
    (r = Ok (mkCreateAggregateResult (uuid_string (ci_key ids).2) (uuid_string (ci_operation ids)) false None) ∨
     r = Err ErrConn).
Proof.
  intros H. unfold CreateService, mbind, M_bind in H. pose proof (moves_resolved input w) as [_ D].
  destruct (resolve_ids input w) as [[ids|e] w1] eqn:Ei.
  2:{ injection H as <- <-. by left. }
  apply resolved in Ei as (Edb & T & Ids). rewrite <- Edb.
  apply transaction_effect in H as [[E Hr]|(u & a & v & Eu & Tu & _ & Hb & E & Hr)].
  - left. split; [done|]. intros result ->. destruct (Hr _ eq_refl) as (u & v & Eu & Hb).
    apply create_body_run in Hb. by inversion Hb.
  - apply create_body_run in Hb. rewrite Eu in Hb. rewrite E.
    remember (Schema.Commit a) as e eqn:Ee. destruct Hb as [|d response c Hc Hk Hs Hack|result d Hk Hb Hrep _|d Hfull].
    + done.
    + injection Ee as <-. right. left. split; [done|]. intros result ->. destruct Hr as [[= ->]|[=]]. right. by eexists.
    + injection Ee as ->. right. left. split; [done|]. intros result ->. destruct Hr as [[= ->]|[=]]. by left.
    + injection Ee as <-. right. right. exists ids. destruct Ids as (? & ? & ?). split_and!; [done..| |done].
      destruct Hfull as [Hc ? ? ?]. split; [|done..]. eapply created_frame; [exact Hc|by split|by split|lia].
Qed.

(** *** Active operations stay current *)
Lemma created_active_current input ids since db db' :
  created input ids since db db' -> active_current db -> active_current db'.
Proof.
  intros [(Hn & _ & t1 & t2 & Es) (_ & t3 & Eo) _ _ _ _ _ _] Hinv t i o Ho Ha. rewrite Es, Eo in *.
  apply lookup_insert_Some in Ho as [[[= <- <-] <-]|[Hne Ho]].
  - cbn. rewrite <- surjective_pairing, lookup_insert_eq. by eexists.
  - destruct (Hinv _ _ _ Ho Ha) as (s & Hs & Hc & Hg). exists s. rewrite lookup_insert_ne; [done|].
    intros Ek. rewrite Ek, Hs in Hn. done.
Qed.
Lemma rows_active_current db db' : rows_kept db db' -> active_current db -> active_current db'.
Proof. intros [E1 E2 _ _ _ _ _] H t i o. rewrite E1, E2. apply H. Qed.

Definition same_rows (db db' : DB) : Prop := services db' = services db ∧ operations db' = operations db.
#[global] Instance same_rows_preorder : PreOrder same_rows.
Proof. split; [done|]. intros a b c [] []. split; congruence. Qed.
Lemma same_rows_active db db' : same_rows db db' -> active_current db -> active_current db'.
Proof. intros [E1 E2] H t i o. rewrite E1, E2. apply H. Qed.

Lemma respects_rows {A} (f : statement A) :
  (∀ now db a db', f now db = Ok (a, db') -> services db' = services db ∧ operations db' = operations db) ->
  respects same_rows f.
Proof. intros H now db a db' E. by eapply H. Qed.
Lemma rows_update_managed f k : respects same_rows (update_managed f k).
Proof. apply respects_rows. intros now db [] db' (m & ->)%update_managed_inv. done. Qed.
Lemma rows_command t o r : respects same_rows (InsertManagedGPUCommand t o r).
Proof. apply respects_rows. by intros now db [] db' ->%insert_command_inv. Qed.
Lemma rows_release k : respects same_rows (ReleaseResourceWorkLease k).
Proof. apply respects_rows. by intros now db n db' (m & -> & _)%release_inv. Qed.
Lemma rows_upsert k d : respects same_rows (UpsertResourceWork k d).
Proof. apply respects_rows. by intros now db u db' (wk & -> & _)%upsert_work_inv. Qed.
Lemma rows_audit t e row : respects same_rows (fun now => AppendAuditEvent t e (row now) now).
Proof. apply respects_rows. by intros now db u db' (m & -> & _)%append_audit_inv. Qed.
Lemma rows_scope k o p : respects same_rows (UpsertManagedGPUReleaseScope k o p).
Proof. apply respects_rows. by intros now db u db' [= _ <-]. Qed.
Lemma rows_close t o a s e : respects same_rows (SetManagedCloseState t o a s e).
Proof.
  apply respects_rows. intros now db u db'. unfold SetManagedCloseState.
  destruct (managed_commands db !! _); [destruct (bool_decide _); [destruct (negb _)|]|]; by intros [= _ <-].
Qed.
Lemma rows_association k c o cl d r : respects same_rows (InsertManagedGPUResource k c o cl d r).
Proof.
  apply respects_rows. intros now db u db'. unfold InsertManagedGPUResource.
  destruct (negb _); [done|]. case_bool_decide; [done|]. destruct (create_taken _ _ _); [done|].
  by intros [= _ <-].
Qed.
#[local] Hint Resolve rows_update_managed rows_command rows_release rows_upsert rows_audit rows_scope rows_close
  rows_association : moves.
Lemma rows_optional {A} (g : statement A) : respects same_rows g -> moves (db_rel same_rows) (optional g).
Proof. intros Hg. unfold optional. db_moves. Qed.
#[local] Hint Resolve rows_optional : moves.
Lemma rows_prepare c kind o : moves (db_rel same_rows) (prepareManagedCommand sha256_hex c kind o).
Proof.
  unfold prepareManagedCommand, LockManagedGPUKey, GetManagedGPUCommand, GetManagedGPUResourceForUpdate,
    ManagedGPUServiceExists. db_moves.
Qed.
Lemma rows_persist c kind o i r : moves (db_rel same_rows) (persistManagedCommand sha256_hex c kind o i r).
Proof. unfold persistManagedCommand, SetManagedGPUClosing, SaveManagedGPUCreate. db_moves. Qed.
#[local] Hint Resolve rows_prepare rows_persist : moves.
Lemma rows_unseen input c original k o :
  moves (db_rel same_rows) (delete_unseen sha256_hex format_time rfc3339nano input c original k o).
Proof. unfold delete_unseen, ManagedExecutionFacts. db_moves. Qed.
Lemma rows_delete_event input k o t : moves (db_rel same_rows) (delete_event input k o t).
Proof. unfold delete_event. db_moves. Qed.
#[local] Hint Resolve rows_unseen rows_delete_event : moves.

Lemma delete_service_rows input c original k operation s w e w' :
  delete_service sha256_hex input c original k operation s w = (Ok e, w') -> services (w_db w) !! k = Some s ->
  Kind input = "delete" -> active_current (w_db w) -> active_current (w_db w').
Proof.
  intros H Hs Hkind Hinv. unfold delete_service in H. cbv zeta in H.
  apply bind_ok_inv in H as ([] & w0 & [_ <-]%check_ok_inv & H).
  apply bind_ok_inv in H as (n & w1 & H1 & H). apply (cancelling_effect true) in H1 as (_ & m & E1 & Hm).
  apply bind_ok_inv in H as (rows & w2 & H2 & H). apply exec_ok in H2 as (t2 & _ & H2 & _).
  apply bind_ok_inv in H as ([] & w3 & [Hrows <-]%check_ok_inv & H).
  apply transition_inv in H2 as [[-> _]|(_ & s0 & s' & Hs0 & _ & E2 & ->)]; [done|].
  rewrite E1 in Hs0, E2. cbn in Hs0. rewrite Hs in Hs0. injection Hs0 as <-.
  apply bind_ok_inv in H as ([] & w4 & H4 & H). apply inserted_effect in H4 as (_ & Hnone & _ & Hoa & t4 & E4).
  match type of H with ?t w4 = _ => assert (Hmv : moves (db_rel same_rows) t) by db_moves end.
  specialize (Hmv w4). rewrite H in Hmv. destruct Hmv as [_ Hmv]. eapply same_rows_active; [exact Hmv|].
  rewrite E4, E2. rewrite E2 in Hoa. pose proof (cancelled_rows _ _ _ _ _ Hm) as Hold.
  intros t i o Ho Ha. cbn in Ho |- *. apply lookup_insert_Some in Ho as [[[= <- <-] <-]|[Hne Ho]].
  - cbn. rewrite <- surjective_pairing, lookup_insert_eq. by eexists.
  - destruct (Hold t i) as [E|(o' & now & _ & _ & _ & _ & _ & _ & E)]; rewrite E in Ho; [|by injection Ho as <-].
    destruct (Hinv _ _ _ Ho Ha) as (s1 & Hs1 & Hc & Hg). exists s1. rewrite lookup_insert_ne; [done|].
    intros ->. destruct Hne. cbn. f_equal. symmetry.
    eapply other_active_false; [exact Hoa|cbn; by rewrite E|done|done].
Qed.
Lemma delete_active_current input c w :
  active_current (w_db w) ->
  active_current (w_db (acceptManagedDelete sha256_hex format_time rfc3339nano input c w).2).
Proof.
  intros Hinv. destruct (acceptManagedDelete _ _ _ _ _ w) as [r w'] eqn:H. cbn. unfold acceptManagedDelete in H.
  apply guard_bind_inv in H as [[-> _]|([] & Hc & H)]; [done| |by auto with guards].
  apply check_ok_inv in Hc as [Hc _]. apply andb_true_iff in Hc as [Hc _]. apply andb_true_iff in Hc as [Hc _].
  apply andb_true_iff in Hc as [Hkind%bool_decide_eq_true _].
  apply transaction_effect in H as [[-> _]|(u & a & v & Eu & _ & _ & H & -> & _)]; [done|]. rewrite <- Eu in Hinv.
  unfold managed_delete_body in H. cbv zeta in H. apply bind_ok_inv in H as ([intake c'] & w1 & H1 & H).
  pose proof (rows_prepare c "delete" (Gpu.DeleteOperationID (MC_Context c)) u) as [_ D1]. rewrite H1 in D1. cbn in D1.
  apply same_rows_active in D1 as Hinv1; [|done].
  destruct (mi_replay intake); [by minv H|].
  apply bind_ok_inv in H as ([[k operation] create] & w2 & Hids & H). injection Hids as _ <-.
  apply bind_ok_inv in H as (s & w3 & H3 & H). unfold GetServiceForUpdate in H3.
  apply optional_ok in H3 as (E3 & _ & _ & Hs). rewrite <- E3 in Hinv1, Hs. destruct s as [s|].
  - by eapply delete_service_rows.
  - pose proof (rows_unseen input c' (MC_Context c) k operation w3) as [_ D]. rewrite H in D.
    by eapply same_rows_active.
Qed.

(**  Creating and deleting keep active operations current.  If every
    active operation is the current one of its service for the desired
    generation, this still holds after any create and after any managed or direct
    command, whatever they report. *)
Theorem intake_keeps_active_current input cmd attachment w :
  active_current (w_db w) ->
  active_current (w_db (CreateService sha256_hex input w).2) ∧
  active_current (w_db (Command marshal_command sha256_hex format_time rfc3339nano cmd attachment w).2).
Proof.
  intros Hinv. split.
  - destruct (CreateService sha256_hex input w) as [r w'] eqn:H. cbn.
    unfold CreateService, mbind, M_bind in H. pose proof (moves_resolved input w) as [_ D].
    destruct (resolve_ids input w) as [[ids|e] w1]; cbn in D; rewrite D in Hinv; [|by injection H as _ <-].
    apply transaction_effect in H as [[-> _]|(u & a & v & Eu & _ & _ & Hb & -> & _)]; [done|].
    rewrite <- Eu in Hinv. apply create_body_run in Hb. remember (Schema.Commit a) as e.
    destruct Hb as [|? ? ? _ [Hk _] _ _|? ? _ [Hk _] _ _|? [Hc _ _ _]]; [done|..];
      eauto using rows_active_current, created_active_current.
  - unfold Command. destruct attachment as [c|]; [by apply delete_active_current|].
    destruct (Command_direct _ _ _ w) as [r w'] eqn:H. cbn.
    apply command_effect in H as [[-> _]|(k & id & resp & _ & _ & [[-> _]|(Hacc & _)])]; [done..|].
    by eapply accepted_active_current.
Qed.
End Effects.

(** ** Examples: a managed delete of the service of [OperationStore.ex_op_db], and
    creates of a resource of tenant 1. *)
Import BinaryUuid.
Definition ex_context (delete : string) : Gpu.RefundContext :=
  Gpu.mkRefundContext "cpu" "" (uuid_string 1%N) (uuid_string 2%N) (uuid_string 9%N) delete "owner" "" None.
Definition ex_attachment (delete : string) : ManagedCommand :=
  mkManagedCommand (ex_context delete) "cpu" "" "actor" "payload" "business" "digest" "hash".
Definition ex_rfc (s : string) : bool := true.
Definition ex_managed_delete (w : World) : result OperationResponse * World :=
  Command ex_marshal (fun s => s) (fun _ => "") ex_rfc ex_delete (Some (ex_attachment (uuid_string 12%N))) w.
Definition ex_ack : OperationResponse :=
  mkOperationResponse (or_resource (commandResponse (uuid_string 2%N) (uuid_string 12%N) 2 "delete" StepWithdrawPublication))
    (or_operation (commandResponse (uuid_string 2%N) (uuid_string 12%N) 2 "delete" StepWithdrawPublication))
    (Some (uuid_string 12%N, uuid_string 2%N)).
Definition ex_create : CreateInput :=
  mkCreateInput "namespace" "namespace-uid" None (uuid_string 1%N) "create-1" "actor" "chat"
    (uuid_string 8%N) "provider" "ref" "sha" [] "image" "chat" "vllm" "deployment" "" (Resources.mkSpec ∅ ∅ None)
    None "" 1 1 "deployment" None "hash" None "" "".
Definition ex_aggregate : CreateAggregateInput :=
  aggregate_of (fun _ => "[]") (fun _ => "{}") ex_create 5%N 4%N 6%N.
(** The managed create of the deleted resource. *)
Definition ex_managed_create : CreateAggregateInput :=
  aggregate_of (fun _ => "[]") (fun _ => "{}") (ex_create <| CI_Managed := Some (ex_attachment "") |>) 2%N 4%N 9%N.
Lemma ex_managed_delete_ok : (ex_managed_delete ex_op_world).1 = Ok ex_ack.
Proof. vm_compute. reflexivity. Qed.

Lemma association_immutable_witness :
  ∃ m', managed (w_db (ex_managed_delete ex_op_world).2) !! (1%N, 2%N) = Some m' ∧ keeps_row ex_managed m'.
Proof.
  refine (association_immutable ex_marshal (fun s => s) (fun _ => "") ex_rfc (1%N, 2%N) ex_managed ex_op_world ex_delete
    (Some (ex_attachment (uuid_string 12%N)))
    ex_aggregate ex_create _ _ _).
  - vm_compute. reflexivity.
  - by left.
Defined.

Lemma managed_delete_repeated_witness :
  ex_managed_delete (ex_managed_delete ex_op_world).2 = (Ok ex_ack, (ex_managed_delete ex_op_world).2).
Proof.
  pose proof ex_managed_delete_ok as Hr. destruct (ex_managed_delete ex_op_world) as [r w'] eqn:E. cbn in Hr. subst r.
  refine (proj1 (managed_delete_repeated ex_marshal (fun s => s) (fun _ => "") ex_rfc ex_delete
    (ex_attachment (uuid_string 12%N)) ex_op_world ex_ack w' w' E _ _)).
  - reflexivity.
  - apply (f_equal (fun x => w_env x.2)) in E. vm_compute in E. by symmetry.
Defined.

Lemma create_blocked_by_delete_witness :
  let w := (ex_managed_delete ex_op_world).2 in
  let '(r, w') := CreateService (fun s => s) ex_managed_create w in
  business_kept (w_db w) (w_db w') ∧ is_ok r = true ∧
  create_recorded (fun s => s) (ex_attachment "") 1%N (JVal (blocked_response (ex_attachment ""))) (w_db w').
Proof.
  cbv zeta. destruct (CreateService (fun s => s) ex_managed_create (ex_managed_delete ex_op_world).2) as [r w'] eqn:E.
  assert (Hr : is_ok r = true ∧ (∀ x, r = Ok x -> CR_Replayed x = false)).
  { apply (f_equal fst) in E. vm_compute in E. cbn [fst] in E. subst r. split; [reflexivity|]. by intros x [= <-]. }
  destruct Hr as [Hok Hnew].
  pose proof (create_blocked_by_delete (fun s => s) ex_managed_create (ex_attachment "") 1%N 2%N
    (default ex_managed (managed (w_db (ex_managed_delete ex_op_world).2) !! (1%N, 2%N))) 12%N
    (ex_managed_delete ex_op_world).2 r w' eq_refl) as Hthm.
  destruct Hthm as [Hk Hans]; [vm_compute; reflexivity..|exact E|].
  split; [exact Hk|]. split; [exact Hok|]. destruct r as [x|e]; [|discriminate Hok].
  destruct (Hans x eq_refl) as (answer & _ & [(Hx & _)|(_ & -> & _ & H)]); [|exact H].
  rewrite (Hnew x eq_refl) in Hx. discriminate Hx.
Defined.

Lemma create_all_or_nothing_witness :
  ∃ ids, fully_created (fun s => s) ex_aggregate ids 20 ex_op_db (w_db (CreateService (fun s => s) ex_aggregate ex_op_world).2).
Proof.
  destruct (CreateService (fun s => s) ex_aggregate ex_op_world) as [r w'] eqn:E.
  assert (Hr : r = Ok (mkCreateAggregateResult (uuid_string 5%N) (uuid_string 6%N) false None))
    by (apply (f_equal fst) in E; vm_compute in E; cbn [fst] in E; by subst r).
  destruct (create_all_or_nothing (fun s => s) ex_aggregate ex_op_world r w' E)
    as [[_ H]|[[_ H]|(ids & _ & _ & _ & H & _)]]; [discriminate (H _ Hr)| |by exists ids].
  destruct (H _ Hr) as [[H1 _]|(resp & H1 & _)]; discriminate H1.
Defined.

Lemma ex_op_active : active_current ex_op_db.
Proof.
  intros t id o Ho Ha. assert (E : operations ex_op_db = {[ (1%N, 3%N) := ex_operation ]}) by done.
  rewrite E in Ho. apply lookup_singleton_Some in Ho as [[= <- <-] <-]. by eexists.
Qed.
Lemma intake_keeps_active_current_witness :
  active_current (w_db (CreateService (fun s => s) ex_aggregate ex_op_world).2) ∧
  active_current (w_db (ex_managed_delete ex_op_world).2).
Proof.
  exact (intake_keeps_active_current ex_marshal (fun s => s) (fun _ => "") ex_rfc ex_aggregate ex_delete
    (Some (ex_attachment (uuid_string 12%N))) ex_op_world ex_op_active).
Defined.

(** The association as a first create leaves it. *)
Definition ex_ok_context : Gpu.RefundContext := (ex_context "") <| Gpu.OwnerService := "ani-inference" |>.
Definition ex_ok_db : DB := ex_op_db <| managed := {[ (1%N, 2%N) := ex_managed
  <| m_original_context := JVal ex_ok_context |> <| m_owner_service := "ani-inference" |> ]} |>.
Lemma ex_ok : associations_ok ex_ok_db.
Proof.
  intros k m Hm. cbn in Hm. apply lookup_singleton_Some in Hm as [<- <-]. split; [|reflexivity..].
  exists ex_ok_context. split_and!; [reflexivity|vm_compute; reflexivity..].
Qed.
Lemma associations_well_formed_witness :
  let w := mkWorld ex_ok_db 20 [] [] in
  associations_ok (w_db (Command ex_marshal (fun s => s) (fun _ => "") ex_rfc ex_delete
    (Some (ex_attachment (uuid_string 12%N))) w).2) ∧
  associations_ok (w_db (CreateService (fun s => s) ex_aggregate w).2) ∧
  associations_ok (w_db (PrepareCreate (fun s => s) ex_create w).2).
Proof.
  exact (associations_well_formed ex_marshal (fun s => s) (fun _ => "") ex_rfc (mkWorld ex_ok_db 20 [] []) ex_delete
    (Some (ex_attachment (uuid_string 12%N))) ex_aggregate ex_create ex_ok).
Defined.
End Managed.
