(* ===== verification/ManagedClose.v ===== *)
(** * Closing managed resources

    internal/data/postgres/managed_close.go and
    internal/service/managed_gpu_release.go: the pass that closes resources whose
    DELETE overtook their CREATE, and the coordinator that refunds a managed GPU
    resource.  The report that leaves the process is made durable first, under the
    lease of whoever sends it, and is written once. *)

From S2P Require Import Prelude GoStrings Operation Gpu Resources Engine Work Schema WorkStore Reconcile Runner ReconcileStore OperationStore Commands Managed.
Local Open Scope Z_scope.

Module ManagedClose.
Import Commands Managed Schema WorkStore ReconcileStore Operation Runner.Runner OperationStore OperationStore.Sql.

(** ** Statements *)
Definition second : Z := 1000000.
Definition close_due (now : Z) (c : ManagedCommandRow) : bool :=
  bool_decide (mc_kind c = "delete") && bool_decide (mc_close_state c = "pending") && (mc_retry_at c <=? now) &&
  match mc_lease_until c with None => true | Some until => until <? now end.
Definition due_closes (now : Z) (db : DB) (tenant : uuid) : list (key * ManagedCommandRow) :=
  filter (fun kc => bool_decide (kc.1.1 = tenant) && close_due now kc.2 = true) (map_to_list (managed_commands db)).
Definition ClaimManagedClose (tenant token : uuid) : statement (uuid * ManagedCommandRow) := fun now db =>
  match order_by (fun kc : key * ManagedCommandRow => [mc_retry_at kc.2; Z.of_N kc.1.2]) (due_closes now db tenant) with
  | [] => Err ErrNoRows
  | (k, c) :: _ =>
      attempt ← integer (mc_attempt c + 1);
      let c' := c <| mc_lease_token := Some token |> <| mc_lease_until := Some (now + 30 * second) |>
                  <| mc_attempt := attempt |> in
      Ok ((k.2, c'), db <| managed_commands := <[k := c']> (managed_commands db) |>)
  end.
Definition close_held (now : Z) (token : uuid) (c : ManagedCommandRow) : bool :=
  bool_decide (mc_lease_token c = Some token) &&
  match mc_lease_until c with Some until => now <? until | None => false end.
Definition update_command (k : key) (f : Z -> DB -> ManagedCommandRow -> option ManagedCommandRow) : statement Z :=
  execrows (fun now db =>
    c ← managed_commands db !! k;
    c' ← f now db c;
    Some (db <| managed_commands := <[k := c']> (managed_commands db) |>)).
(** A NULL token completes without a lease. *)
Definition CompleteManagedClose (k : key) (token : option uuid) : statement Z := update_command k (fun now _ c =>
  if match token with None => true | Some t => close_held now t c end && bool_decide (mc_kind c = "delete")
  then Some (c <| mc_close_state := "complete" |>
               <| mc_completed_at := Some (default now (mc_completed_at c)) |>
               <| mc_lease_token := None |> <| mc_lease_until := None |> <| mc_close_error := "" |>)
  else None).
Definition RetryManagedClose (k : key) (token : uuid) (error : string) : statement Z := update_command k (fun now _ c =>
  if close_held now token c && bool_decide (mc_close_state c = "pending")
  then Some (c <| mc_lease_token := None |> <| mc_lease_until := None |> <| mc_retry_at := now + 5 * second |>
               <| mc_close_error := error |>)
  else None).
(** The lease of a close, or of the worker that runs the delete operation. *)
Definition report_fenced (now : Z) (db : DB) (k : key) (token : uuid) (c : ManagedCommandRow) : bool :=
  let resource := (k.1, mc_resource_id c) in
  (bool_decide (mc_close_state c = "pending") && close_held now token c) ||
  (bool_decide (mc_close_state c = "") &&
   match work db !! resource, services db !! resource with
   | Some w, Some s => leased now token w && bool_decide (s_current_operation_id s = Some k.2) &&
                       bool_decide (s_desired_state s = "deleted")
   | _, _ => false
   end).
Definition SaveManagedReleaseReport_sql (k : key) (evidence digest : string) (n : Gpu.ReleaseNotification)
    (token : uuid) : statement Z := update_command k (fun now db c =>
  if bool_decide (mc_kind c = "delete") && report_fenced now db k token c &&
     match managed db !! (k.1, mc_resource_id c) with
     | Some m => m_closing m && bool_decide (m_delete_operation_id m = Some k.2)
     | None => false
     end &&
     match mc_release_report c with
     | None => true
     | Some saved => match saved with JVal old => bool_decide (old = n) | JBad => false end &&
                     bool_decide (mc_release_evidence_id c = evidence) &&
                     bool_decide (mc_release_evidence_digest c = digest)
     end
  then Some (c <| mc_release_evidence_id := evidence |> <| mc_release_evidence_digest := digest |>
               <| mc_release_report := Some (JVal n) |>)
  else None).
Definition ListManagedCloseTenants : statement (list uuid) := select (fun _ db =>
  order_by (fun t : uuid => [Z.of_N t]) (remove_dups ((fun kc : key * ManagedCommandRow => kc.1.1) <$>
    filter (fun kc : key * ManagedCommandRow => bool_decide (mc_kind kc.2 = "delete") &&
              in_list (mc_close_state kc.2) ["pending"; "unknown_execution"] = true)
      (map_to_list (managed_commands db))))).

(** ** The release coordinator, over its interfaces *)
Section Coordinator.
Context {S : Type}.
(** [gpu.ReleaseReportStore], which a context store may also implement. *)
Record ReleaseReportStore := mkReportStore {
  LoadManagedReleaseReport : Gpu.RefundContext -> M S (option Gpu.ReleaseNotification);
  SaveManagedReleaseReport : Gpu.RefundContext -> string -> string -> Gpu.ReleaseNotification -> string -> M S unit }.
Record RefundContextStore := mkContextStore {
  CS_LoadRefundContext : string -> string -> string -> M S Gpu.RefundContext;
  CS_Reports : option ReleaseReportStore }.
Record ManagedGPUReleaseCoordinator := mkCoordinator {
  Contexts : option RefundContextStore;
  Reporter : option (Gpu.ReleaseNotification -> M S unit) }.

Definition ErrManagedGPUReleaseNotConfigured : goerr :=
  ENew "service.ErrManagedGPUReleaseNotConfigured" "managed GPU release is not configured".
Definition ErrManagedGPUReleaseNotProven : goerr :=
  ENew "service.ErrManagedGPUReleaseNotProven" "managed GPU release was not proven".

Context (rfc3339nano : string -> bool) (sha256_json : Gpu.ReleaseProofInput -> string) (uuid_sha1_url : string -> string).
Definition save_report (reports : option ReleaseReportStore) (original : Gpu.RefundContext) (proof : Gpu.ReleaseProof)
    (n : Gpu.ReleaseNotification) (token : string) : M S unit :=
  match reports with
  | Some store =>
      r ← try (SaveManagedReleaseReport store original (Gpu.EvidenceID proof) (Gpu.EvidenceDigest proof) n token);
      match r with
      | Ok _ => mret tt
      | Err e => throw (errorf_before "persist managed GPU release report" e)
      end
  | None => mret tt
  end.
Definition send_report (report : Gpu.ReleaseNotification -> M S unit) (n : Gpu.ReleaseNotification) : M S unit :=
  r ← try (report n);
  match r with Ok _ => mret tt | Err e => throw (errorf_before "report managed GPU release" e) end.
Definition saved_report (reports : option ReleaseReportStore) (original : Gpu.RefundContext)
    : M S (option Gpu.ReleaseNotification) :=
  match reports with Some store => LoadManagedReleaseReport store original | None => mret None end.
Definition first_report (op : OperationContext) : Gpu.ReleaseNotification :=
  Gpu.mkReleaseNotification (uuid_sha1_url ("ani-inference/managed-gpu-release/" +:+ ID op))
    (ManagedGPUCreateOperationID op) (ServiceID op) Gpu.ResourceReleased.

Definition ReleaseManagedGPU (c : option ManagedGPUReleaseCoordinator) (op : OperationContext) : M S unit :=
  match c ≫= Contexts, c ≫= Reporter with
  | Some contexts, Some report =>
      let unproven text := errorf_after ErrManagedGPUReleaseNotProven text in
      _ ← check (ManagedGPU op && bool_decide (Kind op = "delete")) (unproven "operation is not a managed GPU delete");
      _ ← check (negb (bool_decide (trim_space (ManagedGPUCreateOperationID op) = "")))
            (unproven "original create operation is missing");
      loaded ← try (CS_LoadRefundContext contexts (TenantID op) (ServiceID op) (ManagedGPUCreateOperationID op));
      original ← lift (wrap "load managed GPU release context" loaded);
      _ ← check (negb (bool_decide (Gpu.DeleteOperationID original = "")) &&
                 bool_decide (Gpu.DeleteOperationID original = ID op))
            (unproven "persisted delete operation does not match");
      saved ← saved_report (CS_Reports contexts) original;
      match saved with
      | Some n => report n
      | None =>
          let sealedAt := trim_space (ManagedGPUReleaseSealedAt op) in
          _ ← check (negb (bool_decide (sealedAt = ""))) (unproven "runtime absence was not sealed");
          proof ← lift (match Gpu.NewReleaseProof rfc3339nano sha256_json uuid_sha1_url
                          (Gpu.mkReleaseProofInput (TenantID op) (ServiceID op) (ManagedGPUCreateOperationID op)
                             (ID op) sealedAt (ManagedGPUReleasePods op)) with
                        | Ok proof => Ok proof
                        | Err e => Err (unproven (error_text e))
                        end);
          _ ← save_report (CS_Reports contexts) original proof (first_report op) (LeaseToken op);
          send_report report (first_report op)
      end
  | _, _ => throw ErrManagedGPUReleaseNotConfigured
  end.
End Coordinator.
Arguments ReleaseReportStore S : clear implicits.
Arguments RefundContextStore S : clear implicits.
Arguments ManagedGPUReleaseCoordinator S : clear implicits.

(** ** The PostgreSQL side *)
Section Repository.
Context `{U : UuidLib}.
Context (rfc3339nano : string -> bool).

(** [pgUUIDMust]: a value that does not parse is NULL, which no row matches. *)
Definition pgUUIDMust (value : string) : option uuid := uuid_parse value.
Definition command_key (original : Gpu.RefundContext) : option key :=
  t ← pgUUIDMust (Gpu.RC_TenantID original);
  o ← pgUUIDMust (Gpu.DeleteOperationID original);
  Some (t, o).

Definition Repository_LoadManagedReleaseReport (original : Gpu.RefundContext)
    : M World (option Gpu.ReleaseNotification) :=
  row ← exec (match command_key original with
              | Some k => GetManagedGPUCommand k.1 k.2
              | None => select_one (fun _ _ => None)
              end);
  match mc_release_report row with
  | None => mret None
  | Some JBad => throw (errorf "cannot decode release report")
  | Some (JVal n) =>
      _ ← check (negb (bool_decide (mc_release_evidence_id row = "") || bool_decide (mc_release_evidence_digest row = "")))
            (errorf "release report has no durable evidence");
      _ ← lift (Gpu.ValidateRefund n original);
      mret (Some n)
  end.
Definition Repository_SaveManagedReleaseReport (original : Gpu.RefundContext) (evidenceID evidenceDigest : string)
    (n : Gpu.ReleaseNotification) (leaseToken : string) : M World unit :=
  _ ← lift (Gpu.ValidateRefund n original);
  _ ← check (negb (bool_decide (evidenceID = "") || bool_decide (evidenceDigest = ""))) Gpu.ErrInvalidRefund;
  token ← lift (requireUUID "release lease" leaseToken);
  rows ← exec (match command_key original with
               | Some k => SaveManagedReleaseReport_sql k evidenceID evidenceDigest n token
               | None => execrows (fun _ _ => None)
               end);
  check (rows =? 1) ErrGenerationConflict.

Definition repository_contexts : RefundContextStore World :=
  mkContextStore LoadRefundContext
    (Some (mkReportStore Repository_LoadManagedReleaseReport Repository_SaveManagedReleaseReport)).

(** The operation a close is released as. *)
Definition close_operation (tenant operation token : uuid) (row : ManagedCommandRow) (sealedAt : string)
    (pods : list Gpu.PodRef) : OperationContext :=
  mkOperationContext (uuid_string tenant) (uuid_string (mc_resource_id row)) (uuid_string operation) "delete"
    (mc_actor row) (uuid_string operation) (uuid_string token) "" "" 0 0 Quota.none Quota.none (Publication.mkPublication "" "" "" 0 "" "" "" "")
    None None true true (uuid_string (mc_create_operation_id row)) pods sealedAt 0 0 "".
Definition release_close (release : option (OperationContext -> M World unit)) (tenant operation token : uuid)
    (row : ManagedCommandRow) : M World unit :=
  original ← LoadRefundContext (uuid_string tenant) (uuid_string (mc_resource_id row))
               (uuid_string (mc_create_operation_id row));
  if bool_decide (Gpu.ResourceClass original = "cpu")
  then throw (errorf "CPU pending close lacks proven nonexecution") else
  match release with
  | None => throw (errorf "managed GPU release is not configured")
  | Some release =>
      raw ← exec (GetManagedGPUReleaseScope (tenant, mc_resource_id row) operation);
      '(seal, pods) ← lift (decodeManagedGPUReleaseScope rfc3339nano raw);
      _ ← check (negb (bool_decide (seal = ""))) (errorf "managed close seal missing");
      release (close_operation tenant operation token row seal pods)
  end.
(** [errors.Join] of the errors so far with further ones. *)
Definition join_all (joined : option goerr) (errs : list goerr) : option goerr :=
  match option_list joined ++ errs with [] => None | errs => Some (EJoin errs) end.
(** One tenant, which adds its errors to the others. *)
Definition close_tenant (release : option (OperationContext -> M World unit)) (tenant : uuid) (joined : option goerr)
    : M World (option goerr) :=
  token ← new_uuid;
  claimed ← try (exec (ClaimManagedClose tenant token));
  match claimed with
  | Err e => mret (if errors_is e "pgx.ErrNoRows" then joined else join_all joined [e])
  | Ok (operation, row) =>
      released ← try (release_close release tenant operation token row);
      match released with
      | Err e =>
          retried ← try (exec (RetryManagedClose (tenant, operation) token (error_text e)));
          mret (join_all joined (e :: match retried with Ok _ => [] | Err e' => [e'] end))
      | Ok _ =>
          rows ← try (exec (CompleteManagedClose (tenant, operation) (Some token)));
          mret (join_all joined match rows with
                                | Ok rows => if rows =? 1 then [] else [ErrGenerationConflict]
                                | Err e => [e]
                                end)
      end
  end.
Fixpoint close_tenants (release : option (OperationContext -> M World unit)) (ctx : @Work.Context World)
    (tenants : list uuid) (joined : option goerr) : M World (option goerr) :=
  match tenants with
  | [] => mret joined
  | tenant :: rest =>
      e ← ctx;
      match e with
      | Some e => mret (join_all joined [e])
      | None => joined ← close_tenant release tenant joined; close_tenants release ctx rest joined
      end
  end.
Definition RunManagedCloses (ctx : @Work.Context World) (release : option (OperationContext -> M World unit)) : M World unit :=
  tenants ← exec ListManagedCloseTenants;
  joined ← close_tenants release ctx tenants None;
  Work.return_err joined.
End Repository.

(** ** Reports are written once *)
Record keeps_report (c c' : ManagedCommandRow) : Prop := {
  kp_report : ∀ r, mc_release_report c = Some r -> mc_release_report c' = Some r ∧
    mc_release_evidence_id c' = mc_release_evidence_id c ∧
    mc_release_evidence_digest c' = mc_release_evidence_digest c;
  kp_identity : mc_resource_id c' = mc_resource_id c ∧ mc_create_operation_id c' = mc_create_operation_id c ∧
    mc_kind c' = mc_kind c;
}.
#[global] Instance keeps_report_preorder : PreOrder keeps_report.
Proof.
  split; [by split|]. intros a b c [H1 (I1 & I2 & I3)] [H2 (J1 & J2 & J3)]. split; [|split_and!; congruence].
  intros r Hr. destruct (H1 r Hr) as (Hb & E1 & E2). destruct (H2 r Hb) as (Hc & E3 & E4). split_and!; congruence.
Qed.
(** Commands are kept, with their reports; none is completed except those of [P];
    the associations stay as they are. *)
Record closes (P : key -> Prop) (db db' : DB) : Prop := {
  cl_kept : ∀ i c, managed_commands db !! i = Some c -> ∃ c', managed_commands db' !! i = Some c' ∧ keeps_report c c';
  cl_complete : ∀ i c', managed_commands db' !! i = Some c' -> mc_close_state c' = "complete" ->
    P i ∨ ∃ c, managed_commands db !! i = Some c ∧ mc_close_state c = "complete";
  cl_managed : managed db' = managed db;
}.
#[global] Instance closes_preorder P : PreOrder (closes P).
Proof.
  split.
  - intros db. split; [|by eauto|done]. intros i c Hc. exists c. by split.
  - intros a b d [K1 C1 M1] [K2 C2 M2]. split; [| |congruence].
    + intros i c Hc. destruct (K1 i c Hc) as (c1 & Hc1 & R1). destruct (K2 i c1 Hc1) as (c2 & Hc2 & R2).
      exists c2. split; [done|by etrans].
    + intros i c Hc Hs. destruct (C2 i c Hc Hs) as [?|(c1 & Hc1 & Hs1)]; [by left|by eapply C1].
Qed.
Lemma closes_none P db db' : closes (fun _ => False) db db' -> closes P db db'.
Proof. intros [K C Hm]. split; [done| |done]. intros i c Hc Hs. destruct (C i c Hc Hs) as [[]|?]. by right. Qed.
Lemma closes_equal P db : closes P db db.
Proof. reflexivity. Qed.

Lemma closes_insert P db k c c' :
  managed_commands db !! k = Some c -> keeps_report c c' ->
  (mc_close_state c' = "complete" -> P k ∨ mc_close_state c = "complete") ->
  closes P db (db <| managed_commands := <[k := c']> (managed_commands db) |>).
Proof.
  intros Hc Hr Hs. split; [| |done]; cbn.
  - intros i c0 Hi. destruct (decide (i = k)) as [->|].
    + exists c'. rewrite lookup_insert_eq. split; [done|]. rewrite Hc in Hi. by injection Hi as <-.
    + exists c0. rewrite lookup_insert_ne by done. by split.
  - intros i c0 [[<- <-]|[_ Hi]]%lookup_insert_Some H; [|right; by exists c0].
    destruct (Hs H) as [?|?]; [by left|right; by exists c].
Qed.
Lemma respects_update_command P k f :
  (∀ now db c c', f now db c = Some c' -> keeps_report c c' ∧
     (mc_close_state c' = "complete" -> P k ∨ mc_close_state c = "complete")) ->
  respects (closes P) (update_command k f).
Proof.
  intros Hf. apply respects_execrows; [apply _|]. intros now db db' H.
  destruct (managed_commands db !! k) as [c|] eqn:Hc; cbn in H; [|done].
  destruct (f now db c) as [c'|] eqn:E; [|done]. injection H as <-. destruct (Hf _ _ _ _ E). by eapply closes_insert.
Qed.
Lemma respects_claim_close P tenant token : respects (closes P) (ClaimManagedClose tenant token).
Proof.
  intros now db a db' H. unfold ClaimManagedClose in H.
  destruct (order_by _ _) as [|[k c] rest] eqn:Eo; [done|]. minv H. injection H as _ <-.
  apply order_by_head in Eo as [Hin _]. apply list_elem_of_filter in Hin as [_ Hin].
  apply elem_of_map_to_list in Hin. eapply closes_insert; [done|by split|by auto].
Qed.
Lemma respects_retry_close P k token e : respects (closes P) (RetryManagedClose k token e).
Proof.
  apply respects_update_command. intros now db c c'. destruct (_ && _); [|done]. intros [= <-].
  split; [by split|by auto].
Qed.
Lemma respects_complete_close P k token : P k -> respects (closes P) (CompleteManagedClose k token).
Proof.
  intros Hk. apply respects_update_command. intros now db c c'. destruct (_ && _); [|done]. intros [= <-].
  split; [by split|by auto].
Qed.
Lemma respects_save_report P k ev d n token : respects (closes P) (SaveManagedReleaseReport_sql k ev d n token).
Proof.
  apply respects_update_command. intros now db c c'. destruct (_ && _) eqn:B; [|done]. intros [= <-].
  apply andb_true_iff in B as [_ B]. split; [|by auto]. split; [|done]. cbn. intros r Hr. rewrite Hr in B.
  destruct r as [old|]; [|done]. apply andb_true_iff in B as [B Bd]. apply andb_true_iff in B as [Bo Be].
  apply bool_decide_eq_true in Bo, Be, Bd. by subst.
Qed.
Lemma respects_insert_command_row P tenant operation row :
  (∀ now, mc_close_state (row now) ≠ "complete") -> respects (closes P) (InsertManagedGPUCommand tenant operation row).
Proof.
  intros Hrow now db [] db'. unfold InsertManagedGPUCommand. destruct (negb _); [done|].
  case_bool_decide as Hn; [done|]. destruct (match _ with Some _ => _ | None => _ end); [done|]. intros [= <-].
  apply eq_None_not_Some in Hn. split; cbn; [| |done].
  - intros i c Hi. exists c. rewrite lookup_insert_ne; [by split|]. intros <-. congruence.
  - intros i c' [[<- <-]|[_ Hi]]%lookup_insert_Some Hs; [by apply Hrow in Hs|right; by exists c'].
Qed.
Lemma respects_set_close P tenant operation actor state e :
  (state = "complete" -> P (tenant, operation)) ->
  respects (closes P) (SetManagedCloseState tenant operation actor state e).
Proof.
  intros HP now db u db'. unfold SetManagedCloseState.
  destruct (managed_commands db !! (tenant, operation)) as [c|] eqn:Hc; [|intros [= _ <-]; reflexivity].
  destruct (bool_decide _); [destruct (negb _); [done|]|]; intros [= _ <-]; [|reflexivity].
  eapply closes_insert; [done|by split|by auto].
Qed.
#[local] Hint Resolve respects_claim_close respects_retry_close respects_complete_close respects_save_report : moves.

(** ** What a release leaves behind *)
(** The command has this very report, with evidence. *)
Definition recorded (db : DB) (k : key) (n : Gpu.ReleaseNotification) : bool :=
  match managed_commands db !! k with
  | Some c => match mc_release_report c with Some (JVal saved) => bool_decide (saved = n) | _ => false end &&
              negb (bool_decide (mc_release_evidence_id c = "") || bool_decide (mc_release_evidence_digest c = ""))
  | None => false
  end.
Lemma recorded_kept P db db' k n : closes P db db' -> recorded db k n = true -> recorded db' k n = true.
Proof.
  intros [K _ _]. unfold recorded. destruct (managed_commands db !! k) as [c|] eqn:Hc; [|done].
  destruct (K k c Hc) as (c' & -> & [Hr _]). intros [H1 H2]%andb_true_iff.
  destruct (mc_release_report c) as [r|] eqn:Er; [|done]. destruct (Hr _ eq_refl) as (-> & -> & ->). by rewrite H1.
Qed.

Section Release.
Context `{U : UuidLib} {UL : UuidLaws}.
Context (rfc3339nano : string -> bool) (sha256_json : Gpu.ReleaseProofInput -> string) (uuid_sha1_url : string -> string).

Lemma load_context_ok a b c w original w' :
  LoadRefundContext a b c w = (Ok original, w') -> w_db w' = w_db w ∧ w_now w <= w_now w' ∧
  ∃ t r m saved, uuid_parse a = Some t ∧ uuid_parse b = Some r ∧ managed (w_db w) !! (t, r) = Some m ∧
    m_original_context m = JVal saved ∧ Gpu.RC_TenantID original = Gpu.RC_TenantID saved.
Proof.
  intros H. unfold LoadRefundContext in H.
  apply bind_ok_inv in H as (t & w1 & Ht & H). injection Ht as Ht <-.
  apply bind_ok_inv in H as (r & w2 & Hr & H). injection Hr as Hr <-.
  apply bind_ok_inv in H as (cr & w3 & Hc & H). injection Hc as _ <-.
  apply bind_ok_inv in H as ([raw d] & w4 & He & H). apply exec_ok in He as (now & T & He & N & _).
  unfold GetManagedGPURefundContext in He. apply select_one_inv in He as [He E]. cbn beta in He.
  destruct (managed (w_db w) !! (t, r)) as [m|] eqn:Hm; [|done].
  case_bool_decide; [|done]. injection He as <- <-. destruct (m_original_context m) as [saved|] eqn:Ec; [|done].
  injection H as <- <-. split_and!; [done|lia|]. exists t, r, m, saved.
  unfold requireUUID in Ht, Hr. destruct (uuid_parse a); [|done]. destruct (uuid_parse b); [|done].
  injection Ht as <-. injection Hr as <-. split_and!; try done. by destruct (m_delete_operation_id m).
Qed.
Lemma load_report_ok original w r w' :
  Repository_LoadManagedReleaseReport original w = (Ok r, w') -> w_db w' = w_db w ∧
  ∀ n, r = Some n -> ∃ k, command_key original = Some k ∧ recorded (w_db w') k n = true.
Proof.
  intros H. unfold Repository_LoadManagedReleaseReport in H.
  apply bind_ok_inv in H as (row & w1 & H1 & H). apply exec_ok in H1 as (now & _ & H1 & _).
  assert (∃ k, command_key original = Some k ∧ managed_commands (w_db w) !! k = Some row ∧ w_db w1 = w_db w)
    as (k & Hk & Hrow & E).
  { destruct (command_key original) as [k|]; [|apply select_one_inv in H1 as [[=] _]].
    unfold GetManagedGPUCommand in H1. apply select_one_inv in H1 as [H1 E].
    exists k. rewrite <- surjective_pairing in H1. done. }
  destruct (mc_release_report row) as [[n|]|] eqn:Er; [|done|].
  - apply bind_ok_inv in H as ([] & w2 & [Hev <-]%check_ok_inv & H). apply bind_ok_inv in H as (? & w3 & Hv & H).
    injection Hv as _ <-. injection H as <- <-. split; [done|]. intros ? [= <-]. exists k. split; [done|].
    unfold recorded. by rewrite E, Hrow, Er, bool_decide_true, Hev.
  - injection H as <- <-. done.
Qed.
Lemma save_report_ok original ev d n token w u w' :
  Repository_SaveManagedReleaseReport original ev d n token w = (Ok u, w') ->
  ∃ k, command_key original = Some k ∧ recorded (w_db w') k n = true.
Proof.
  intros H. unfold Repository_SaveManagedReleaseReport in H.
  apply bind_ok_inv in H as ([] & w1 & _ & H). apply bind_ok_inv in H as ([] & w2 & [Hev <-]%check_ok_inv & H).
  apply bind_ok_inv in H as (t & w3 & _ & H). apply bind_ok_inv in H as (rows & w4 & H4 & H).
  apply check_ok_inv in H as [Hrows <-]. apply exec_ok in H4 as (now & _ & H4 & _).
  destruct (command_key original) as [k|]; [|injection H4 as <- _; done].
  exists k. split; [done|]. unfold SaveManagedReleaseReport_sql, update_command in H4.
  apply execrows_inv in H4 as [(_ & -> & _)|[H4 _]]; [done|].
  destruct (managed_commands (w_db w3) !! k) as [c|] eqn:Hc; cbn in H4; [|done].
  destruct (_ && _); [|done]. injection H4 as <-. unfold recorded. cbn. rewrite lookup_insert_eq. cbn.
  by rewrite bool_decide_true.
Qed.

(** The key of the command of an operation. *)
Definition operation_key (op : OperationContext) : option key :=
  t ← uuid_parse (TenantID op); o ← uuid_parse (ID op); Some (t, o).
Lemma loaded_key op w original w' k :
  LoadRefundContext (TenantID op) (ServiceID op) (ManagedGPUCreateOperationID op) w = (Ok original, w') ->
  associations_ok (w_db w) -> Gpu.DeleteOperationID original = ID op -> command_key original = Some k ->
  operation_key op = Some k.
Proof.
  intros H Hok Hd Hk. apply load_context_ok in H as (_ & _ & t & r & m & saved & Ht & _ & Hm & Hs & Et).
  destruct (Hok _ _ Hm) as [(s' & Hs' & Hp & _) _ _ _]. rewrite Hs in Hs'. injection Hs' as <-. cbn in Hp.
  unfold command_key, pgUUIDMust in Hk. unfold operation_key. by rewrite Et, Hp, Hd in Hk; rewrite Ht.
Qed.

Lemma bind_ext {S A B} (c : M S A) (k1 k2 : A -> M S B) s :
  (∀ a t, c s = (Ok a, t) -> k1 a t = k2 a t) -> (c ≫= k1) s = (c ≫= k2) s.
Proof. intros H. unfold mbind, M_bind. destruct (c s) as [[a|e] t] eqn:E; [by apply H|done]. Qed.

(** A reporter that refuses what is not on record. *)
Definition guarded (op : OperationContext) (report : Gpu.ReleaseNotification -> M World unit)
    (n : Gpu.ReleaseNotification) : M World unit :=
  w ← get_state;
  if from_option (fun k => recorded (w_db w) k n) false (operation_key op) then report n
  else throw (errorf "the report is not on record").
Definition coordinator (report : Gpu.ReleaseNotification -> M World unit) : ManagedGPUReleaseCoordinator World :=
  mkCoordinator (Some repository_contexts) (Some report).
Definition release_with (report : Gpu.ReleaseNotification -> M World unit) : OperationContext -> M World unit :=
  ReleaseManagedGPU rfc3339nano sha256_json uuid_sha1_url (Some (coordinator report)).

(** A release is reported only when it is on record.  Every
    notification the coordinator sends to Governance is, at that moment, the
    recorded report of the delete command of that operation, with evidence:
    replacing the reporter by one that refuses anything else changes no run. *)
Theorem reports_are_recorded report op w :
  associations_ok (w_db w) -> release_with (guarded op report) op w = release_with report op w.
Proof.
  intros Hok. unfold release_with, ReleaseManagedGPU, coordinator. cbn [mbind option_bind Contexts Reporter]. cbv zeta.
  apply bind_ext. intros [] w1 [_ <-]%check_ok_inv. apply bind_ext. intros [] w1 [_ <-]%check_ok_inv.
  apply bind_ext. intros loaded w1 (v & [= ->] & Hl)%try_inv.
  apply bind_ext. intros original w2 Ho. injection Ho as Ho <-. destruct v as [o|]; [|done]. injection Ho as ->.
  apply bind_ext. intros [] w2 [Hd <-]%check_ok_inv. apply andb_true_iff in Hd as [_ Hd%bool_decide_eq_true].
  assert (Hsend : ∀ n u, (∃ k, command_key original = Some k ∧ recorded (w_db u) k n = true) ->
    guarded op report n u = report n u).
  { intros n u (k & Hk & Hr). unfold guarded. erewrite bind_run by reflexivity.
    rewrite (loaded_key _ _ _ _ _ Hl Hok Hd Hk). cbn. by rewrite Hr. }
  apply bind_ext. intros [n|] w2 Hs; cbn [saved_report CS_Reports repository_contexts] in Hs.
  - apply load_report_ok in Hs as [_ Hs]. by apply Hsend, Hs.
  - apply bind_ext. intros [] w3 _. apply bind_ext. intros proof w4 _. apply bind_ext. intros [] w5 Hsave.
    cbn [save_report CS_Reports repository_contexts] in Hsave.
    apply bind_ok_inv in Hsave as (r & w6 & (v & [= ->] & Hsave)%try_inv & Hret).
    destruct v as [[]|]; [|done]. injection Hret as <-. apply save_report_ok in Hsave.
    unfold send_report. unfold mbind, M_bind, try. by rewrite Hsend.
Qed.

(** A release that succeeds leaves its report on record. *)
Lemma release_recorded report op w w' :
  (∀ n, moves (db_rel eq) (report n)) -> associations_ok (w_db w) -> release_with report op w = (Ok tt, w') ->
  ∃ k n, operation_key op = Some k ∧ recorded (w_db w') k n = true.
Proof.
  intros Hrep Hok H. unfold release_with, ReleaseManagedGPU, coordinator in H.
  cbn [mbind option_bind Contexts Reporter] in H. cbv zeta in H.
  apply bind_ok_inv in H as ([] & w1 & [_ <-]%check_ok_inv & H).
  apply bind_ok_inv in H as ([] & w1 & [_ <-]%check_ok_inv & H).
  apply bind_ok_inv in H as (loaded & w1 & (v & [= ->] & Hl)%try_inv & H).
  apply bind_ok_inv in H as (original & w2 & Ho & H). injection Ho as Ho <-. destruct v as [o|]; [|done].
  injection Ho as ->. apply bind_ok_inv in H as ([] & w2 & [Hd <-]%check_ok_inv & H).
  apply andb_true_iff in Hd as [_ Hd%bool_decide_eq_true].
  assert (Hsent : ∀ n u, (∃ k, command_key original = Some k ∧ recorded (w_db u) k n = true) -> w_db w' = w_db u ->
    ∃ k n, operation_key op = Some k ∧ recorded (w_db w') k n = true).
  { intros n u (k & Hk & Hr) ->. exists k, n. split; [|done]. exact (loaded_key _ _ _ _ _ Hl Hok Hd Hk). }
  apply bind_ok_inv in H as (saved & w2 & Hs & H). cbn [saved_report CS_Reports repository_contexts] in Hs.
  apply load_report_ok in Hs as [_ Hs]. destruct saved as [n|].
  - eapply Hsent; [by apply Hs|]. pose proof (Hrep n w2) as [_ D]. rewrite H in D. by symmetry.
  - apply bind_ok_inv in H as ([] & w3 & _ & H). apply bind_ok_inv in H as (proof & w4 & _ & H).
    apply bind_ok_inv in H as ([] & w5 & Hsave & H). cbn [save_report CS_Reports repository_contexts] in Hsave.
    apply bind_ok_inv in Hsave as (r & w6 & (v & [= ->] & Hsave)%try_inv & Hret).
    destruct v as [[]|]; [|done]. injection Hret as <-. apply save_report_ok in Hsave.
    eapply Hsent; [exact Hsave|]. unfold send_report in H.
    apply bind_ok_inv in H as (r & w7 & (v & [= ->] & H7)%try_inv & H). destruct v as [|]; [|done].
    injection H as <-. match type of H7 with report ?n _ = _ => pose proof (Hrep n w6) as [_ D] end.
    rewrite H7 in D. by symmetry.
Qed.

(** *** One pass over the tenants *)
Lemma closes_of_eq {A} P (c : M World A) : moves (db_rel eq) c -> moves (db_rel (closes P)) c.
Proof. apply moves_weaken. intros s t [T E]. split; [done|]. rewrite E. reflexivity. Qed.
Lemma moves_load_context P a b c : moves (db_rel (closes P)) (LoadRefundContext a b c).
Proof. unfold LoadRefundContext, GetManagedGPURefundContext. db_moves. Qed.
Lemma moves_save_report P o e d n t : moves (db_rel (closes P)) (Repository_SaveManagedReleaseReport o e d n t).
Proof.
  unfold Repository_SaveManagedReleaseReport. 
  assert (respects (closes P) (execrows (fun _ _ => None))) by (apply respects_execrows; [apply _|done]).
  destruct (command_key o); db_moves.
Qed.
Lemma moves_load_report P o : moves (db_rel (closes P)) (Repository_LoadManagedReleaseReport o).
Proof. unfold Repository_LoadManagedReleaseReport, GetManagedGPUCommand. destruct (command_key o); db_moves. Qed.
#[local] Hint Resolve moves_load_context moves_save_report moves_load_report : moves.
Lemma moves_release P report op :
  (∀ n, moves (db_rel eq) (report n)) -> moves (db_rel (closes P)) (release_with report op).
Proof.
  intros Hrep. assert (Hr : ∀ n, moves (db_rel (closes P)) (report n)) by (intros; by apply closes_of_eq).
  unfold release_with, ReleaseManagedGPU, coordinator, saved_report, save_report, send_report, repository_contexts.
  cbn [mbind option_bind Contexts Reporter CS_Reports CS_LoadRefundContext]. db_moves.
Qed.
Lemma moves_release_close P report tenant operation token row :
  (∀ n, moves (db_rel eq) (report n)) ->
  moves (db_rel (closes P)) (release_close rfc3339nano (Some (release_with report)) tenant operation token row).
Proof.
  intros Hrep. pose proof (fun op => moves_release P report op Hrep) as Hr.
  unfold release_close, GetManagedGPUReleaseScope. db_moves.
Qed.

(** Whatever became complete has a recorded report. *)
Definition completed_reported (db db' : DB) : Prop := ∃ P : key -> Prop, closes P db db' ∧
  ∀ k, P k -> ∃ n, recorded db' k n = true.
#[global] Instance completed_reported_preorder : PreOrder completed_reported.
Proof.
  split.
  - intros db. exists (fun _ => False). split; [reflexivity|done].
  - intros a b c (P & H1 & HP) (Q & H2 & HQ). exists (fun k => P k ∨ Q k). split.
    + destruct H1 as [K1 C1 M1], H2 as [K2 C2 M2]. etrans; split; try done.
      * intros i c' Hi Hs. destruct (C1 i c' Hi Hs); auto.
      * intros i c' Hi Hs. destruct (C2 i c' Hi Hs); auto.
    + intros k [Hk|Hk]; [|by apply HQ]. destruct (HP k Hk) as [n Hn]. exists n. by eapply recorded_kept.
Qed.
Lemma no_close_reported db db' : closes (fun _ => False) db db' -> completed_reported db db'.
Proof. intros H. exists (fun _ => False). by split. Qed.

Lemma close_tenant_reported report tenant joined w :
  (∀ n, moves (db_rel eq) (report n)) -> associations_ok (w_db w) ->
  completed_reported (w_db w) (w_db (close_tenant rfc3339nano (Some (release_with report)) tenant joined w).2).
Proof.
  intros Hrep Hok. unfold close_tenant, mbind, M_bind, try.
  set (never := fun _ : key => False).
  pose proof (moves_new_uuid (closes never) w) as [_ R1]. destruct (new_uuid w) as [[token|e] w1]; cbn in R1;
    [|by apply no_close_reported].
  pose proof (moves_exec (closes never) _ (respects_claim_close never tenant token) w1) as [_ R2].
  destruct (exec (ClaimManagedClose tenant token) w1) as [claimed w2]; cbn in R2.
  assert (R12 : closes never (w_db w) (w_db w2)) by (by etrans).
  destruct claimed as [[operation row]|e]; [|by apply no_close_reported].
  pose proof (moves_release_close never report tenant operation token row Hrep w2) as [_ R3].
  destruct (release_close _ _ tenant operation token row w2) as [released w3] eqn:H3. cbn in R3.
  assert (R13 : closes never (w_db w) (w_db w3)) by (by etrans). destruct released as [[]|e].
  - assert (∃ n, recorded (w_db w3) (tenant, operation) n = true) as [n Hn].
    { unfold release_close in H3. apply bind_ok_inv in H3 as (original & w4 & H4 & H3).
      apply load_context_ok in H4 as (E4 & _). destruct (bool_decide _); [done|].
      apply bind_ok_inv in H3 as (raw & w5 & H5 & H3). apply exec_ok in H5 as (now & _ & H5 & _).
      unfold GetManagedGPUReleaseScope in H5. apply select_one_inv in H5 as [_ E5].
      apply bind_ok_inv in H3 as ([seal pods] & w6 & H6 & H3). injection H6 as _ <-.
      apply bind_ok_inv in H3 as ([] & w6 & [_ <-]%check_ok_inv & H3).
      apply release_recorded in H3 as (k & n & Hk & Hn); [|done|].
      - unfold operation_key in Hk. cbn in Hk. rewrite !uuid_parse_string in Hk. injection Hk as <-. by exists n.
      - rewrite E5, E4. intros k m Hm. apply Hok. by rewrite <- (cl_managed _ _ _ R12). }
    set (this := fun k : key => k = (tenant, operation)).
    pose proof (moves_exec (closes this) _ (respects_complete_close this (tenant, operation) (Some token) eq_refl) w3) as [_ R4].
    destruct (exec (CompleteManagedClose _ _) w3) as [rows w4]. cbn in R4 |- *.
    etrans; [by apply no_close_reported|]. exists this. split; [done|]. intros k ->. exists n. by eapply recorded_kept.
  - pose proof (moves_exec (closes never) _ (respects_retry_close never (tenant, operation) token (error_text e)) w3)
      as [_ R4].
    destruct (exec (RetryManagedClose _ _ _) w3) as [rows w4]. cbn in R4 |- *. apply no_close_reported. by etrans.
Qed.

Lemma close_tenants_reported report ctx tenants joined w :
  (∀ n, moves (db_rel eq) (report n)) -> moves (db_rel eq) ctx -> associations_ok (w_db w) ->
  completed_reported (w_db w) (w_db (close_tenants rfc3339nano (Some (release_with report)) ctx tenants joined w).2).
Proof.
  intros Hrep Hctx. revert joined w. induction tenants as [|tenant rest IH]; intros joined w Hok; [reflexivity|].
  cbn [close_tenants]. unfold mbind, M_bind. pose proof (Hctx w) as [_ D]. destruct (ctx w) as [[[e|]|e] w1]; cbn in D;
    [by rewrite D| |by rewrite D].
  rewrite D in Hok |- *. pose proof (close_tenant_reported report tenant joined w1 Hrep Hok) as R.
  destruct (close_tenant _ _ _ _ w1) as [[joined'|e] w2]; cbn in R; [|done]. etrans; [exact R|]. apply IH.
  destruct R as (P & HP & _). intros k m Hm. apply Hok. by rewrite <- (cl_managed _ _ _ HP).
Qed.

(** Claim C8.  A close is completed only after its release is on record.  One
    pass of the closer keeps every recorded report as it is, and every command
    that is complete after the pass was complete before it or has a recorded
    report with evidence; whatever the pass reports, and whichever answers get
    lost. *)
Theorem closes_are_reported report ctx w k c' :
  (∀ n, moves (db_rel eq) (report n)) -> moves (db_rel eq) ctx -> associations_ok (w_db w) ->
  let w' := (RunManagedCloses rfc3339nano ctx (Some (release_with report)) w).2 in
  managed_commands (w_db w') !! k = Some c' ->
  (mc_close_state c' = "complete" ->
     (∃ c, managed_commands (w_db w) !! k = Some c ∧ mc_close_state c = "complete") ∨
     ∃ n, recorded (w_db w') k n = true) ∧
  ∀ n, recorded (w_db w) k n = true -> recorded (w_db w') k n = true.
Proof.
  intros Hrep Hctx Hok w' Hc. assert (completed_reported (w_db w) (w_db w')) as (P & HP & Hrec).
  { unfold w', RunManagedCloses, mbind, M_bind.
    assert (moves (db_rel eq) (exec ListManagedCloseTenants)) as HL by (unfold ListManagedCloseTenants; db_moves).
    specialize (HL w) as [_ HL]. destruct (exec ListManagedCloseTenants w) as [[tenants|e] w1]; cbn in HL;
      rewrite HL in Hok |- *; [|reflexivity].
    pose proof (close_tenants_reported report ctx tenants None w1 Hrep Hctx Hok) as R.
    destruct (close_tenants _ _ _ _ _ w1) as [[joined|e] w2]; cbn in R |- *; [|done]. by destruct joined. }
  split.
  - intros Hs. destruct (cl_complete _ _ _ HP k c' Hc Hs) as [Hk|?]; [right; by apply Hrec|by left].
  - intros n. by eapply recorded_kept.
Qed.
End Release.

(** ** Example: a delete that arrived before its create, closed by one pass *)
Module Example.
(** Identifiers 2, 9 and 12 in canonical form, the others as binary numbers. *)
Definition two := "22222222-2222-4222-8222-222222222222".
Definition nine := "99999999-9999-4999-8999-999999999999".
Definition twelve := "cccccccc-cccc-4ccc-8ccc-cccccccccccc".
Definition print (u : uuid) : string :=
  if decide (u = 2%N) then two else if decide (u = 9%N) then nine else if decide (u = 12%N) then twelve
  else BinaryUuid.print u.
Definition parse (s : string) : option uuid :=
  if decide (s = two) then Some 2%N else if decide (s = nine) then Some 9%N
  else if decide (s = twelve) then Some 12%N else BinaryUuid.parse s.
#[export] Instance lib : UuidLib := {
  uuid_parse := parse; uuid_string := print; uuid_sha1_oid := BinaryUuid.number }.
Lemma binary u : BinaryUuid.parse (BinaryUuid.print u) = Some u.
Proof. apply (uuid_parse_string (H := BinaryUuid.lib) (UuidLaws := BinaryUuid.laws)). Qed.
#[export] Instance laws : UuidLaws.
Proof.
  split; [|done]. intros u. cbn [uuid_parse uuid_string lib]. unfold print.
  destruct (decide (u = 2%N)) as [->|]; [done|]. destruct (decide (u = 9%N)) as [->|]; [done|].
  destruct (decide (u = 12%N)) as [->|]; [done|]. unfold parse.
  assert (∀ s, BinaryUuid.parse s = None -> BinaryUuid.print u ≠ s) as Hne.
  { intros s Hs E. pose proof (binary u) as B. rewrite E in B. congruence. }
  rewrite !decide_False by (apply Hne; reflexivity). apply binary.
Qed.

Definition original : Gpu.RefundContext :=
  Gpu.mkRefundContext "gpu" "" (print 1%N) two nine "" "ani-inference" "" None.
Definition association : ManagedResourceRow :=
  mkManagedResourceRow 9%N "ani-inference" (JVal original) "gpu" "" "" "" None (Some 12%N) true None.
Definition command : ManagedCommandRow :=
  mkManagedCommandRow 2%N 9%N "delete" "hash" "hash" "payload" JBad (twelve, two) "closing_intent" 0 "actor" "pending"
    None None 0 0 "" "" "" None None.
Definition db : DB := empty_db <| managed := {[ (1%N, 2%N) := association ]} |>
  <| managed_commands := {[ (1%N, 12%N) := command ]} |>
  <| scopes := {[ (1%N, 2%N, 12%N) := JVal (ScopeObject "2026-01-01T00:00:00Z" []) ]} |>.
Definition world : World := mkWorld db 20 [] [13%N].
Lemma db_ok : associations_ok db.
Proof.
  intros k m Hm. cbn in Hm. apply lookup_singleton_Some in Hm as [<- <-]. split; [|reflexivity..].
  exists original. split_and!; [reflexivity|vm_compute; reflexivity..].
Qed.
Definition report (n : Gpu.ReleaseNotification) : M World unit := mret tt.
Lemma report_frame n : moves (db_rel eq) (report n).
Proof. by apply moves_ret, _. Qed.
Definition release := release_with (fun _ => true) (fun _ => "digest") (fun _ => nine).
Definition pass : result unit * World :=
  RunManagedCloses (fun _ => true) Work.Background (Some (release report)) world.
Definition notification : Gpu.ReleaseNotification := Gpu.mkReleaseNotification nine nine two Gpu.ResourceReleased.

(** The pass completes the command and leaves the report. *)
Lemma pass_completes : mc_close_state <$> (managed_commands (w_db pass.2) !! (1%N, 12%N)) = Some "complete" ∧
  recorded (w_db pass.2) (1%N, 12%N) notification = true.
Proof. split; vm_compute; reflexivity. Qed.

Lemma closes_are_reported_witness :
  ∃ c', managed_commands (w_db pass.2) !! (1%N, 12%N) = Some c' ∧ mc_close_state c' = "complete" ∧
    ∃ n, recorded (w_db pass.2) (1%N, 12%N) n = true.
Proof.
  destruct (managed_commands (w_db pass.2) !! (1%N, 12%N)) as [c'|] eqn:E.
  2:{ exfalso. apply (f_equal (fmap mc_close_state)) in E. rewrite (proj1 pass_completes) in E. discriminate E. }
  assert (Hs : mc_close_state c' = "complete").
  { pose proof (proj1 pass_completes) as H. rewrite E in H. by injection H. }
  exists c'. split_and!; [done..|].
  destruct (proj1 (closes_are_reported (fun _ => true) (fun _ => "digest") (fun _ => nine) report Work.Background
    world (1%N, 12%N) c' report_frame (moves_ret _ _) db_ok E) Hs) as [(c & Hc & Hcs)|H]; [|exact H].
  vm_compute in Hc. injection Hc as <-. discriminate Hcs.
Defined.

Definition operation : OperationContext :=
  close_operation 1%N 12%N 13%N command "2026-01-01T00:00:00Z" [].
Definition held : ManagedCommandRow := command <| mc_lease_token := Some 13%N |> <| mc_lease_until := Some 50 |>.
Definition held_world : World := mkWorld (db <| managed_commands := {[ (1%N, 12%N) := held ]} |>) 20 [] [].
Lemma reports_are_recorded_witness :
  release (guarded operation report) operation held_world = release report operation held_world ∧
  is_ok (release report operation held_world).1 = true.
Proof.
  split; [|vm_compute; reflexivity].
  exact (reports_are_recorded (fun _ => true) (fun _ => "digest") (fun _ => nine) report operation held_world db_ok).
Defined.
End Example.
End ManagedClose.
