(* ===== verification/Update.v ===== *)
(** * Updating a service

    internal/data/postgres/update_usecase.go: an update writes the specification
    of the next generation from the current one and the fields that change, and
    starts an update operation.  With an update mask only the model version, the
    served model name and the engine may change; everything else is inherited. *)

From S2P Require Import Prelude GoStrings Operation Gpu Resources Engine Work Schema WorkStore Reconcile Runner ReconcileStore OperationStore Commands Managed.
Local Open Scope Z_scope.

Module Update.
Import Schema WorkStore ReconcileStore Operation OperationStore OperationStore.Sql Commands Managed.

(** ** Statements *)
(** The columns [CloneSpecWithRuntimeUpdate] replaces: empty texts and NULLs of
    the first group inherit the source row. *)
Record SpecUpdate := mkSpecUpdate {
  su_model_version_id : option uuid; su_artifact_provider : string; su_artifact_ref : string;
  su_artifact_sha256 : string; su_image_ref : string; su_served_model_name : string; su_engine_runtime : string;
  su_command_argv : option Engine.json; su_runtime_provider : string; su_overlay : option (gmap string string);
  su_resources : jsonb Resources.Spec; su_replicas : Z; su_runtime_mode : string; su_worker_replicas : Z;
  su_endpoint : option (Z * Z * string * string); su_gpu_request : option (jsonb Gpu.Request);
  su_gpu_plan : option (jsonb Gpu.Snapshot); su_gpu_plan_digest : option string }.
Definition updated_body (b : SpecBody) (u : SpecUpdate) : SpecBody :=
  mkSpecBody (sp_model_id b) (default (sp_model_version_id b) (su_model_version_id u))
    (defaulted (su_artifact_provider u) (sp_artifact_provider b)) (defaulted (su_artifact_ref u) (sp_artifact_ref b))
    (defaulted (su_artifact_sha256 u) (sp_artifact_sha256 b)) (defaulted (su_image_ref u) (sp_image_ref b))
    (defaulted (su_served_model_name u) (sp_served_model_name b))
    (defaulted (su_engine_runtime u) (sp_engine_runtime b)) (default (sp_command_argv b) (su_command_argv u))
    (su_resources u) (su_replicas u) (su_runtime_mode u) (su_worker_replicas u)
    (defaulted (su_runtime_provider u) (sp_runtime_provider b))
    (match su_overlay u with Some o => o ∪ sp_spec_json b | None => sp_spec_json b end)
    (su_endpoint u) (su_gpu_request u) (su_gpu_plan u) (su_gpu_plan_digest u).
Definition CloneSpecWithRuntimeUpdate (id : uuid) (k : key) (source target : Z) (u : SpecUpdate) : statement Z :=
  fun now db =>
  match specs db !! (k.1, k.2, source) with
  | None => Ok (0, db)
  | Some sp =>
      let body := updated_body (sp_body sp) u in
      if negb (spec_checks target body) then Err CheckViolation
      else if spec_id_taken db k.1 id then Err (UniqueViolation "inference_specs_pkey")
      else if bool_decide (is_Some (specs db !! (k.1, k.2, target)))
      then Err (UniqueViolation "inference_specs_tenant_id_service_id_generation_key")
      else if bool_decide (services db !! k = None) then Err ForeignKeyViolation
      else Ok (1, db <| specs := <[(k.1, k.2, target) := mkSpecRow id body now]> (specs db) |>)
  end.
Definition SaveOperationAcceptanceResponse (tenant operation : uuid) (response : OperationResponse) : statement Z :=
  execrows (fun _ db =>
    match operations db !! (tenant, operation) with
    | Some o => if bool_decide (is_Some (o_result_snapshot o)) then None
                else Some (db <| operations := <[(tenant, operation) := o <| o_result_snapshot := Some (JVal response) |>]>
                                                 (operations db) |>)
    | None => None
    end).

(** ** Input and responses *)
Record UpdateInput := mkUpdateInput {
  UI_ImageSelection : option ImageSelection; UI_TenantID : string; UI_RequestID : string; UI_Actor : string;
  UI_ServiceID : string; UI_RequestHash : string; UI_ExpectedGeneration : Z; UI_UpdateMask : list string;
  UI_ModelVersionID : string; UI_ArtifactProvider : string; UI_ArtifactRef : string; UI_ArtifactSHA256 : string;
  UI_ModelCapabilities : list string; UI_ImageRef : string; UI_ServedModelName : string; UI_EngineRuntime : string;
  UI_RuntimeProvider : string; UI_EngineCommand : string; UI_ManagedOperationID : string;
  UI_Resources : Resources.Spec; UI_GPUSnapshot : option Gpu.Snapshot; UI_GPUSnapshotDigest : string;
  UI_Replicas : Z; UI_WorkerReplicas : Z; UI_RuntimeMode : string; UI_Endpoint : option EndpointSpec;
  UI_ImageID : string; UI_ImageScope : string }.

#[global] Instance UpdateInput_eta : Eta UpdateInput := fun r =>
  mkUpdateInput (UI_ImageSelection r) (UI_TenantID r) (UI_RequestID r) (UI_Actor r) (UI_ServiceID r)
    (UI_RequestHash r) (UI_ExpectedGeneration r) (UI_UpdateMask r) (UI_ModelVersionID r) (UI_ArtifactProvider
    r) (UI_ArtifactRef r) (UI_ArtifactSHA256 r) (UI_ModelCapabilities r) (UI_ImageRef r) (UI_ServedModelName
    r) (UI_EngineRuntime r) (UI_RuntimeProvider r) (UI_EngineCommand r) (UI_ManagedOperationID r)
    (UI_Resources r) (UI_GPUSnapshot r) (UI_GPUSnapshotDigest r) (UI_Replicas r) (UI_WorkerReplicas r)
    (UI_RuntimeMode r) (UI_Endpoint r) (UI_ImageID r) (UI_ImageScope r).

Definition endpointInputFromSpec (b : SpecBody) : option EndpointSpec :=
  match sp_endpoint b with
  | None => None
  | Some (container, service, target, protocol) => Some (mkEndpointSpec container service target protocol)
  end.

Section Update.
Context `{U : UuidLib}.

Definition acknowledge (response : OperationResponse) (operation service : string) : OperationResponse :=
  mkOperationResponse (or_resource response) (or_operation response) (Some (operation, service)).
Definition managedUpdateResponse (serviceID operationID : string) (generation : Z) (managed : bool) : OperationResponse :=
  let response := commandResponse serviceID operationID generation "update" StepWithdrawPublication in
  if managed then acknowledge response operationID serviceID else response.
Definition updateResponseFromOperation (id : uuid) (o : OperationRow) : OperationResponse :=
  match o_result_snapshot o with
  | Some (JVal response) =>
      if bool_decide (om_id (or_operation response) = uuid_string id) &&
         bool_decide (rm_id (or_resource response) = uuid_string (o_service_id o))
      then response else commandResponseFromRow id o
  | _ => commandResponseFromRow id o
  end.
Definition managedUpdateResponseFromOperation (id : uuid) (o : OperationRow) : OperationResponse :=
  acknowledge (updateResponseFromOperation id o) (uuid_string id) (uuid_string (o_service_id o)).

(** ** The mask *)
Definition update_fields : list string := ["model_version_id"; "served_model_name"; "engine"].
Fixpoint check_mask (seen mask : list string) : bool :=
  match mask with
  | [] => true
  | p :: rest => negb (in_list p seen) && in_list p update_fields && check_mask (p :: seen) rest
  end.
Definition selected (input : UpdateInput) (p : string) : bool := in_list p (UI_UpdateMask input).
Definition mask_complete (input : UpdateInput) : bool :=
  negb (selected input "model_version_id" && bool_decide (UI_ModelVersionID input = "") ||
        selected input "served_model_name" && bool_decide (UI_ServedModelName input = "") ||
        selected input "engine" && (bool_decide (UI_EngineCommand input = "") || bool_decide (UI_ImageRef input = "") ||
                                    bool_decide (UI_EngineRuntime input = ""))).
Definition masked (input : UpdateInput) : bool := negb (bool_decide (UI_UpdateMask input = [])).

(** The overlay on the JSON document of a specification. *)
Context (json_strings : list string -> string) (json_selection : ImageSelection -> string).
Definition spec_overlay (version : string) (capabilities : list string) (image : string)
    (selection : option ImageSelection) : option (gmap string string) :=
  let m : gmap string string :=
    if bool_decide (version = "") then ∅ else {[ "model_capabilities" := json_strings capabilities ]} in
  let m := match selection with
           | Some s => <["image_selection" := json_selection s]> m
           | None => if bool_decide (image = "") then m else <["image_selection" := "null"]> m
           end in
  if bool_decide (m = ∅) then None else Some m.

(** The columns of an update without a mask, which replaces the whole runtime. *)
Definition full_update (input : UpdateInput) (version : option uuid) : SpecUpdate :=
  mkSpecUpdate version (UI_ArtifactProvider input) (UI_ArtifactRef input) (UI_ArtifactSHA256 input)
    (UI_ImageRef input) (UI_ServedModelName input) (UI_EngineRuntime input)
    (if bool_decide (UI_EngineCommand input = "") then None
     else Some (Engine.marshalEngineSpec (UI_EngineCommand input)))
    (UI_RuntimeProvider input)
    (spec_overlay (UI_ModelVersionID input) (UI_ModelCapabilities input) (UI_ImageRef input) (UI_ImageSelection input))
    (JVal (UI_Resources input)) (UI_Replicas input) (defaulted (UI_RuntimeMode input) "deployment")
    (if UI_WorkerReplicas input <? 1 then 1 else UI_WorkerReplicas input)
    (endpointParams (UI_Endpoint input)) (JVal <$> Resources.GPU (UI_Resources input))
    (JVal <$> UI_GPUSnapshot input)
    (let digest := if bool_decide (UI_GPUSnapshotDigest input = "")
                   then from_option Gpu.ExecutionDigest "" (UI_GPUSnapshot input) else UI_GPUSnapshotDigest input in
     if bool_decide (digest = "") then None else Some digest).
(** The columns of a masked update: the selected fields, over the frozen rest. *)
Definition masked_update (input : UpdateInput) (version : option uuid) (b : SpecBody) : SpecUpdate :=
  let model := selected input "model_version_id" in
  let name := selected input "served_model_name" in
  let engine := selected input "engine" in
  let text (sel : bool) (s : string) := if sel then s else "" in
  mkSpecUpdate (if model then version else None) (text model (UI_ArtifactProvider input))
    (text model (UI_ArtifactRef input)) (text model (UI_ArtifactSHA256 input))
    (text engine (UI_ImageRef input)) (text name (UI_ServedModelName input)) (text engine (UI_EngineRuntime input))
    (if engine && negb (bool_decide (UI_EngineCommand input = ""))
     then Some (Engine.marshalEngineSpec (UI_EngineCommand input)) else None)
    (sp_runtime_provider b)
    (spec_overlay (text model (UI_ModelVersionID input)) (if model then UI_ModelCapabilities input else [])
       (text engine (UI_ImageRef input)) (UI_ImageSelection input))
    (sp_resources b) (sp_replicas b) (defaulted (sp_runtime_mode b) "deployment")
    (if sp_worker_replicas b <? 1 then 1 else sp_worker_replicas b)
    (endpointParams (endpointInputFromSpec b)) (sp_gpu_request b) (sp_gpu_plan b)
    (match sp_gpu_plan_digest b with Some digest => if bool_decide (digest = "") then None else Some digest
                                   | None => None end).

(** ** The transaction *)
(** The same checks and writes as a command of kind update. *)
Definition as_command (input : UpdateInput) : CommandInput :=
  mkCommandInput (UI_TenantID input) (UI_RequestID input) (UI_Actor input) (UI_ServiceID input) "update"
    (UI_RequestHash input) (UI_ExpectedGeneration input).

Definition managed_replay (input : UpdateInput) (tenant id : uuid) : M World (option OperationResponse) :=
  if bool_decide (UI_ManagedOperationID input = "") then mret None else
  _ ← exec (LockManagedGPUKey (UI_TenantID input +:+ ":command:" +:+ UI_ManagedOperationID input));
  existing ← optional (Sql.GetOperation tenant id);
  match existing with
  | Some o =>
      _ ← check (bool_decide (o_request_hash o = UI_RequestHash input)) ErrIdempotencyConflict;
      mret (Some (managedUpdateResponseFromOperation id o))
  | None => mret None
  end.
Definition recorded_update (input : UpdateInput) (tenant : uuid) : M World (option (uuid * OperationRow)) :=
  existing ← optional (GetIdempotency tenant (command_method "update") (UI_RequestID input));
  match existing with
  | Some row =>
      _ ← check (bool_decide (i_payload_hash row = UI_RequestHash input)) ErrIdempotencyConflict;
      o ← exec (Sql.GetOperation tenant (i_operation_id row));
      mret (Some (i_operation_id row, o))
  | None => mret None
  end.
Definition request_replay (input : UpdateInput) (tenant : uuid) : M World (option OperationResponse) :=
  if bool_decide (UI_RequestID input = "") then mret None else
  _ ← exec (LockIdempotency (UI_TenantID input) (command_method "update") (UI_RequestID input));
  existing ← recorded_update input tenant;
  mret match existing with
       | Some (id, o) =>
           let response := updateResponseFromOperation id o in
           Some (if bool_decide (UI_ManagedOperationID input = "") then response
                 else acknowledge response (uuid_string id) (uuid_string (o_service_id o)))
       | None => None
       end.

(** The service an update may act on, and whether Governance manages it. *)
Definition updated_service (input : UpdateInput) (k : key) : M World (ServiceRow * bool) :=
  _ ← exec (LockManagedGPUKey (UI_TenantID input +:+ ":" +:+ UI_ServiceID input));
  found ← try (exec (GetServiceForUpdate k));
  current ← (match found with
             | Ok s => mret s
             | Err e => throw (if errors_is e "pgx.ErrNoRows" then ErrNotFound else e)
             end);
  _ ← check ((s_desired_generation current =? UI_ExpectedGeneration input) && undeleted current) ErrGenerationConflict;
  _ ← check (bool_decide (s_desired_state current = "running")) ErrInvalidState;
  row ← optional (Sql.GetManagedGPUResource k);
  let managed := bool_decide (is_Some row) in
  _ ← check (bool_decide (UI_ManagedOperationID input = "") || managed)
        (errorf_after ErrInvalidState "managed GPU resource is missing");
  _ ← check (negb (from_option m_closing false row))
        (errorf_after ErrInvalidState "managed resource has a closing intent");
  mret (current, managed).

(** The new columns. *)
Definition plan_update (input : UpdateInput) (k : key) (version : option uuid) (generation : Z) (managed : bool)
    : M World SpecUpdate :=
  if masked input then
    _ ← check (check_mask [] (UI_UpdateMask input)) ErrInvalidState;
    _ ← check (mask_complete input) ErrInvalidState;
    '(_, sp) ← exec (Sql.GetSpec k generation);
    _ ← check (match sp_resources (sp_body sp) with JVal _ => true | JBad => false end)
          (errorf "cannot decode resources");
    mret (masked_update input version (sp_body sp))
  else
    _ ← check (negb managed) (errorf_after ErrInvalidState "managed update_mask is required");
    mret (full_update input version).

Definition accept_update (input : UpdateInput) (k : key) (id : uuid) (version : option uuid)
    : M World OperationResponse :=
  '(current, managed) ← updated_service input k;
  let generation := s_desired_generation current in
  let target := int64 (generation + 1) in
  columns ← plan_update input k version generation managed;
  spec ← new_uuid;
  rows ← exec (CloneSpecWithRuntimeUpdate spec k generation target columns);
  _ ← check (rows =? 1) (errorf_after ErrInvalidState "missing current specification");
  rows ← exec (TransitionService k (s_desired_state current) target id generation);
  _ ← check (rows =? 1) ErrGenerationConflict;
  _ ← insert_operation (as_command input) k id target;
  _ ← announce_command (as_command input) k id target (s_desired_state current)
        (if (managed : bool) then None else Some (su_resources columns)) 0;
  let response := managedUpdateResponse (uuid_string k.2) (uuid_string id) target
                    (negb (bool_decide (UI_ManagedOperationID input = ""))) in
  rows ← exec (SaveOperationAcceptanceResponse k.1 id response);
  _ ← check (rows =? 1) ErrGenerationConflict;
  mret response.

Definition update_body (input : UpdateInput) (k : key) (id : uuid) (version : option uuid)
    : M World (ending OperationResponse) :=
  earlier ← managed_replay input k.1 id;
  match earlier with
  | Some response => mret (Schema.Commit response)
  | None =>
      earlier ← request_replay input k.1;
      match earlier with
      | Some response => mret (Schema.Commit response)
      | None => response ← accept_update input k id version; mret (Schema.Commit response)
      end
  end.

Definition update_id (input : UpdateInput) (fresh : uuid) : result uuid :=
  if bool_decide (UI_ManagedOperationID input = "") then Ok fresh
  else requireUUID "managed_gpu_operation_id" (UI_ManagedOperationID input).
Definition Update (input : UpdateInput) : M World OperationResponse :=
  tenant ← lift (requireUUID "tenant_id" (UI_TenantID input));
  service ← lift (requireUUID "service_id" (UI_ServiceID input));
  version ← lift (parseUUID "model_version_id" (UI_ModelVersionID input) true);
  _ ← check (negb (UI_ExpectedGeneration input <? 1)) ErrGenerationConflict;
  fresh ← new_uuid;
  id ← lift (update_id input fresh);
  transaction (update_body input (tenant, service) id version).

(** [PrepareUpdate]: the answer of an earlier acceptance, before any remote read. *)
Definition PrepareUpdate (input : UpdateInput) : M World (option OperationResponse) :=
  tenant ← lift (requireUUID "tenant_id" (UI_TenantID input));
  if negb (bool_decide (UI_ManagedOperationID input = "")) then
    id ← lift (requireUUID "operation_id" (UI_ManagedOperationID input));
    existing ← optional (Sql.GetOperation tenant id);
    match existing with
    | Some o =>
        _ ← check (bool_decide (o_request_hash o = UI_RequestHash input)) ErrIdempotencyConflict;
        mret (Some (managedUpdateResponseFromOperation id o))
    | None => mret None
    end
  else if negb (bool_decide (UI_RequestID input = "")) then
    existing ← recorded_update input tenant;
    mret match existing with Some (id, o) => Some (updateResponseFromOperation id o) | None => None end
  else mret None.
End Update.
(** The overlay, key by key. *)
Lemma overlay_lookup js jsel version caps image sel (m : gmap string string) f :
  match spec_overlay js jsel version caps image sel with Some o => o ∪ m | None => m end !! f =
  if bool_decide (f = "image_selection") then
    match sel with
    | Some s => Some (jsel s)
    | None => if bool_decide (image = "") then m !! f else Some "null"
    end
  else if bool_decide (f = "model_capabilities") && negb (bool_decide (version = "")) then Some (js caps)
  else m !! f.
Proof.
  unfold spec_overlay.
  set (o1 := if bool_decide (version = "") then ∅ else {[ "model_capabilities" := js caps ]} : gmap string string).
  set (o2 := match sel with Some s => _ | None => _ end). 
  transitivity ((o2 ∪ m) !! f).
  { case_bool_decide as E; [rewrite E, map_empty_union|]; done. }
  rewrite lookup_union. 
  assert (H1 : o1 !! f = if bool_decide (f = "model_capabilities") && negb (bool_decide (version = "")) then Some (js caps) else None).
  { unfold o1. case_bool_decide as Ev; cbn.
    - rewrite andb_false_r. apply lookup_empty.
    - rewrite andb_true_r. case_bool_decide as Ef; [subst; apply lookup_singleton_eq|by rewrite lookup_singleton_ne]. }
  assert (H2 : o2 !! f = if bool_decide (f = "image_selection") then
     match sel with Some s => Some (jsel s) | None => if bool_decide (image = "") then None else Some "null" end else o1 !! f).
  { unfold o2. destruct (decide (f = "image_selection")) as [->|Ef].
    - rewrite (bool_decide_true ("image_selection" = _)) by done. cbn in H1.
      destruct sel; [by rewrite lookup_insert_eq|]. destruct (bool_decide (image = "")); [done|by rewrite lookup_insert_eq].
    - rewrite (bool_decide_false (f = _)) by done.
      destruct sel; [by rewrite lookup_insert_ne|]. destruct (bool_decide (image = "")); [done|by rewrite lookup_insert_ne]. }
  rewrite H2, H1. destruct (bool_decide (f = "image_selection")).
  - destruct sel; [by destruct (m !! f)|]. destruct (bool_decide (image = "")); by destruct (m !! f).
  - destruct (_ && _); by destruct (m !! f).
Qed.

Lemma in_list_nonempty s l : in_list s l = true -> in_list "" l = false -> s ≠ "".
Proof. intros H1 H2 ->. congruence. Qed.
Lemma defaulted_nonempty s d : s ≠ "" -> defaulted s d = s.
Proof. intros H. unfold defaulted. by rewrite bool_decide_false. Qed.
Lemma defaulted_same s : defaulted s s = s.
Proof. unfold defaulted. by destruct (bool_decide _). Qed.
(** ** What a masked update keeps *)
(** A masked update changes what it selects and nothing else.  Over a
    specification that satisfies the constraints of its table, the new columns
    inherit the resources, replicas, runtime, endpoint and GPU plan; the model
    version and artifact change only when selected, and so do the served name and
    the engine (whose catalog selection comes with the engine); selected texts are
    the given ones. *)
Theorem masked_update_inherits json_strings json_selection input version b g :
  spec_checks g b = true -> sp_gpu_plan_digest b ≠ Some "" -> mask_complete input = true ->
  (UI_ImageSelection input = None ∨ selected input "engine" = true) ->
  let b' := updated_body b (masked_update json_strings json_selection input version b) in
  (sp_resources b' = sp_resources b ∧ sp_replicas b' = sp_replicas b ∧ sp_runtime_mode b' = sp_runtime_mode b ∧
   sp_worker_replicas b' = sp_worker_replicas b ∧ sp_runtime_provider b' = sp_runtime_provider b ∧
   sp_endpoint b' = sp_endpoint b ∧ sp_gpu_request b' = sp_gpu_request b ∧ sp_gpu_plan b' = sp_gpu_plan b ∧
   sp_gpu_plan_digest b' = sp_gpu_plan_digest b ∧ sp_model_id b' = sp_model_id b) ∧
  (if selected input "model_version_id" then sp_model_version_id b' = default (sp_model_version_id b) version ∧
      sp_spec_json b' !! "model_capabilities" = Some (json_strings (UI_ModelCapabilities input))
   else sp_model_version_id b' = sp_model_version_id b ∧ sp_artifact_ref b' = sp_artifact_ref b ∧
      sp_artifact_provider b' = sp_artifact_provider b ∧ sp_artifact_sha256 b' = sp_artifact_sha256 b ∧
      sp_spec_json b' !! "model_capabilities" = sp_spec_json b !! "model_capabilities") ∧
  sp_served_model_name b' = (if selected input "served_model_name" then UI_ServedModelName input
                             else sp_served_model_name b) ∧
  (if selected input "engine" then sp_image_ref b' = UI_ImageRef input ∧ sp_engine_runtime b' = UI_EngineRuntime input ∧
      sp_command_argv b' = Engine.marshalEngineSpec (UI_EngineCommand input)
   else sp_image_ref b' = sp_image_ref b ∧ sp_engine_runtime b' = sp_engine_runtime b ∧
      sp_command_argv b' = sp_command_argv b ∧
      sp_spec_json b' !! "image_selection" = sp_spec_json b !! "image_selection") ∧
  ∀ f, f ≠ "model_capabilities" -> f ≠ "image_selection" -> sp_spec_json b' !! f = sp_spec_json b !! f.
Proof.
  intros Hchk Hdig Hmask Himg b'. unfold spec_checks in Hchk.
  apply andb_true_iff in Hchk as [Hchk _]. apply andb_true_iff in Hchk as [Hchk Hprov].
  apply andb_true_iff in Hchk as [Hchk Hwork]. apply andb_true_iff in Hchk as [_ Hmode].
  apply in_list_nonempty in Hmode, Hprov; [|done..]. unfold mask_complete in Hmask.
  apply negb_true_iff, orb_false_iff in Hmask as [Hmask Heng]. apply orb_false_iff in Hmask as [Hver Hname].
  assert (Hov : ∀ f, sp_spec_json b' !! f = _) by (intros; apply overlay_lookup).
  split; [|split; [|split; [|split]]].
  - cbn. rewrite !defaulted_same, defaulted_nonempty by done.
    rewrite (proj2 (Z.ltb_ge _ _)) by lia. split_and!; try done.
    + by destruct (sp_endpoint b) as [[[[? ?] ?] ?]|] eqn:E; unfold endpointInputFromSpec; rewrite E.
    + destruct (sp_gpu_plan_digest b) as [d|]; [|done]. rewrite bool_decide_false; [done|]. by intros ->.
  - rewrite !Hov. cbn. destruct (selected input "model_version_id") eqn:Es; cbn in Hver |- *; [|done].
    rewrite Hver. done.
  - cbn. destruct (selected input "served_model_name"); cbn in Hname; [|done].
    rewrite defaulted_nonempty; [done|]. by apply bool_decide_eq_false in Hname.
  - rewrite !Hov. cbn. destruct (selected input "engine"); cbn in Heng |- *.
    + apply orb_false_iff in Heng as [Heng H3%bool_decide_eq_false]. apply orb_false_iff in Heng as
        [H1%bool_decide_eq_false H2%bool_decide_eq_false]. by rewrite !defaulted_nonempty, bool_decide_false by done.
    + destruct Himg as [->|[=]]. done.
  - intros f H1 H2. by rewrite Hov, !bool_decide_false by done.
Qed.

(** ** An accepted update *)
Section Effects.
Context `{U : UuidLib} {UL : UuidLaws}.
Context (json_strings : list string -> string) (json_selection : ImageSelection -> string).

Lemma clone_update_inv id k source target u now db n db' :
  CloneSpecWithRuntimeUpdate id k source target u now db = Ok (n, db') ->
  (n = 0 ∧ db' = db) ∨
  n = 1 ∧ ∃ sp, specs db !! (k.1, k.2, source) = Some sp ∧ specs db !! (k.1, k.2, target) = None ∧
    spec_checks target (updated_body (sp_body sp) u) = true ∧
    db' = db <| specs := <[(k.1, k.2, target) := mkSpecRow id (updated_body (sp_body sp) u) now]> (specs db) |>.
Proof.
  unfold CloneSpecWithRuntimeUpdate. destruct (specs db !! (k.1, k.2, source)) as [sp|]; [|intros [= <- <-]; by left].
  cbv zeta. destruct (negb _) eqn:B; [done|]. destruct (spec_id_taken _ _ _); [done|]. case_bool_decide as Hn; [done|].
  case_bool_decide; [done|]. intros [= <- <-]. right. split; [done|]. exists sp. apply negb_false_iff in B.
  split_and!; [done| |done..]. by apply eq_None_not_Some.
Qed.
Lemma save_response_inv tenant id response now db n db' o :
  SaveOperationAcceptanceResponse tenant id response now db = Ok (n, db') -> operations db !! (tenant, id) = Some o ->
  n = 1 -> db' = db <| operations := <[(tenant, id) := o <| o_result_snapshot := Some (JVal response) |>]>
                                   (operations db) |>.
Proof.
  unfold SaveOperationAcceptanceResponse. intros [(_ & -> & _)|[H _]]%execrows_inv Ho Hn; [done|].
  rewrite Ho in H. case_bool_decide; [done|]. by injection H as <-.
Qed.

(** Everything an accepted update did. *)
Record updated (input : UpdateInput) (version : option uuid) (k : key) (id : uuid) (since : Z)
    (response : OperationResponse) (db db' : DB) : Prop := {
  (** A running service at the expected generation moves on by one under the new
      operation, with the columns of the mask, or all of them. *)
  up_service : ∃ s now sp sp' columns, services db !! k = Some s ∧ undeleted s = true ∧ s_desired_state s = "running" ∧
    s_desired_generation s = UI_ExpectedGeneration input ∧
    let target := int64 (s_desired_generation s + 1) in
    services db' = <[k := s <| s_desired_state := "running" |> <| s_desired_generation := target |>
      <| s_current_operation_id := Some id |> <| s_updated_at := now |>]> (services db) ∧
    (∃ t, operations db' = <[(k.1, id) := (new_operation t k.2 "update" OperationPending StepWithdrawPublication target
       (UI_RequestHash input)) <| o_result_snapshot := Some (JVal response) |>]> (operations db)) ∧
    specs db !! (k.1, k.2, s_desired_generation s) = Some sp ∧ specs db' !! (k.1, k.2, target) = Some sp' ∧
    sp_body sp' = updated_body (sp_body sp) columns ∧ spec_checks target (sp_body sp') = true ∧
    columns = (if masked input then masked_update json_strings json_selection input version (sp_body sp)
               else full_update json_strings json_selection input version) ∧
    response = managedUpdateResponse (uuid_string k.2) (uuid_string id) target
                 (negb (bool_decide (UI_ManagedOperationID input = "")));
  up_new : operations db !! (k.1, id) = None ∧ other_active db k.1 id k.2 = false;
  (** A managed resource is open, and updated through the mask only. *)
  up_managed : ∀ m, managed db !! k = Some m -> m_closing m = false ∧ masked input = true;
  up_announced : ∃ db0 db1, work db0 = work db ∧ idempotency db0 = idempotency db ∧
    announced (as_command input) k id false since db0 db1 ∧ work db1 = work db' ∧ idempotency db1 = idempotency db' ∧
    audits db1 = audits db';
}.

Lemma updated_service_effect input k w s b w' :
  updated_service input k w = (Ok (s, b), w') ->
  w_db w' = w_db w ∧ w_now w <= w_now w' ∧ services (w_db w) !! k = Some s ∧ undeleted s = true ∧
  s_desired_state s = "running" ∧ s_desired_generation s = UI_ExpectedGeneration input ∧
  (∀ m, managed (w_db w) !! k = Some m -> m_closing m = false ∧ b = true).
Proof.
  intros H. unfold updated_service in H. apply bind_ok_inv in H as ([] & w0 & H0 & H).
  apply exec_ok in H0 as (t0 & T0 & [= E0] & N0 & _).
  apply bind_ok_inv in H as (r & w1 & H1 & H). apply try_inv in H1 as (v & [= ->] & H1).
  apply bind_ok_inv in H as (cur & w2 & H2 & H). destruct v as [s0|e]; [|done]. injection H2 as <- <-.
  apply exec_ok in H1 as (now & T1 & H1 & N1 & _).
  unfold GetServiceForUpdate in H1. apply select_one_inv in H1 as [H1 E1].
  apply bind_ok_inv in H as ([] & w3 & [H3 <-]%check_ok_inv & H). apply andb_true_iff in H3 as [Hg%Z.eqb_eq Hu].
  apply bind_ok_inv in H as ([] & w4 & [H4%bool_decide_eq_true <-]%check_ok_inv & H).
  apply bind_ok_inv in H as (row & w5 & H5 & H). unfold Sql.GetManagedGPUResource in H5.
  apply optional_ok in H5 as (E5 & T5 & _ & H5). cbv zeta in H.
  apply bind_ok_inv in H as ([] & w6 & [_ <-]%check_ok_inv & H).
  apply bind_ok_inv in H as ([] & w7 & [Hc%negb_true_iff <-]%check_ok_inv & H). injection H as <- <- <-.
  rewrite E5, E1, <- E0. rewrite E1, <- E0 in H5. split_and!; [done|lia|by rewrite E0|done..|].
  intros m Hm. rewrite Hm in H5. subst row. cbn in Hc. split; [done|by apply bool_decide_eq_true_2].
Qed.
Lemma plan_effect input k version g b w u w' :
  plan_update json_strings json_selection input k version g b w = (Ok u, w') ->
  w_db w' = w_db w ∧ w_now w <= w_now w' ∧ (b = true -> masked input = true) ∧
  ∀ sp, specs (w_db w) !! (k.1, k.2, g) = Some sp ->
    u = (if masked input then masked_update json_strings json_selection input version (sp_body sp)
         else full_update json_strings json_selection input version).
Proof.
  unfold plan_update. destruct (masked input); intros H.
  - apply bind_ok_inv in H as ([] & w1 & [_ <-]%check_ok_inv & H).
    apply bind_ok_inv in H as ([] & w1 & [_ <-]%check_ok_inv & H).
    apply bind_ok_inv in H as ([g' sp] & w1 & H1 & H). apply exec_ok in H1 as (t & T & H1 & <- & _).
    unfold Sql.GetSpec in H1. apply select_one_inv in H1 as [H1 E1].
    apply bind_ok_inv in H as ([] & w2 & [_ <-]%check_ok_inv & H). injection H as <- <-.
    split_and!; [done..|]. intros sp0 Hsp. rewrite Hsp in H1. by injection H1 as _ <-.
  - apply bind_ok_inv in H as ([] & w1 & [Hb <-]%check_ok_inv & H). injection H as <- <-.
    split_and!; [done|done|by destruct b|done].
Qed.

Lemma accept_update_effect input k id version w response w' :
  accept_update json_strings json_selection input k id version w = (Ok response, w') ->
  updated input version k id (w_now w) response (w_db w) (w_db w').
Proof.
  intros H. unfold accept_update in H.
  apply bind_ok_inv in H as ([s b] & w1 & H1 & H).
  apply updated_service_effect in H1 as (E1 & T1 & Hs & Hu & Hst & Hg & Hman). cbv zeta in H.
  apply bind_ok_inv in H as (u & w2 & H2 & H). apply plan_effect in H2 as (E2 & T2 & Hb & Hplan).
  apply bind_ok_inv in H as (spec & w3 & [E3 N3]%new_uuid_db & H).
  apply bind_ok_inv in H as (rows & w4 & H4 & H). apply exec_ok in H4 as (t4 & T4 & H4 & N4 & _).
  apply bind_ok_inv in H as ([] & w5 & [Hr4 <-]%check_ok_inv & H).
  rewrite E3, E2, E1 in H4. rewrite E1 in Hplan.
  apply clone_update_inv in H4 as [[-> _]|(_ & sp & Hsp & _ & Hchk & E4)]; [done|].
  apply bind_ok_inv in H as (rows' & w6 & H6 & H). apply exec_ok in H6 as (t6 & T6 & H6 & N6 & _).
  apply bind_ok_inv in H as ([] & w7 & [Hr6 <-]%check_ok_inv & H). rewrite E4 in H6.
  apply transition_inv in H6 as [[-> _]|(_ & s0 & s' & Hs0 & _ & E6 & ->)]; [done|].
  cbn in Hs0. rewrite Hs in Hs0. injection Hs0 as <-.
  apply bind_ok_inv in H as ([] & w8 & H8 & H). apply inserted_effect in H8 as (T8 & Hnone & _ & Hoa & t8 & E8).
  rewrite E6 in Hnone, Hoa, E8. cbn in Hnone.
  apply bind_ok_inv in H as ([] & w9 & H9 & H). apply announce_effect in H9 as Han.
  destruct (an_rows _ _ _ _ _ _ _ Han) as (Rs & Ro & Rp).
  apply bind_ok_inv in H as (rows'' & w10 & H10 & H). apply exec_ok in H10 as (t10 & T10 & H10 & N10 & _).
  apply bind_ok_inv in H as ([] & w11 & [Hr10%Z.eqb_eq <-]%check_ok_inv & H). injection H as <- <-.
  rewrite E8 in Rs, Ro, Rp. cbn in Rs, Ro, Rp.
  eapply save_response_inv in H10; [|rewrite Ro; by rewrite lookup_insert_eq|done].
  split.
  - eexists s, _, sp, _, u. rewrite Hst in Rs. rewrite H10. cbn. rewrite Rs, Rp, Ro, lookup_insert_eq, insert_insert_eq.
    split_and!; [done..|by exists t8|done|done|done|done|by apply Hplan|done].
  - done.
  - intros m Hm. destruct (Hman m Hm) as [? ->]. auto.
  - exists (w_db w8), (w_db w9). rewrite H10. cbn. split_and!; [by rewrite E8|by rewrite E8| |done..].
    eapply announced_since; [|exact Han]. lia.
Qed.

Lemma updated_since input version k id t t' response db db' :
  t' <= t -> updated input version k id t response db db' -> updated input version k id t' response db db'.
Proof.
  intros Ht [H1 H2 H3 (d0 & d1 & E1 & E2 & Han & X1 & X2 & X3)]. split; [done..|]. exists d0, d1. split_and!; try done.
  by eapply announced_since.
Qed.
Lemma updated_active_current input version k id since response db db' :
  updated input version k id since response db db' -> active_current db -> active_current db'.
Proof.
  intros [(s & now & sp & sp' & cols & Hs & _ & _ & _ & Hs' & (t0 & Ho') & _) [Hnone Hoa] _ _] Hinv t i o Ho Ha.
  rewrite Hs'. rewrite Ho' in Ho. apply lookup_insert_Some in Ho as [[[= <- <-] <-]|[Hne Ho]].
  - cbn. rewrite <- surjective_pairing, lookup_insert_eq. by eexists.
  - destruct (Hinv _ _ _ Ho Ha) as (s1 & Hs1 & Hc & Hg). exists s1. rewrite lookup_insert_ne; [done|].
    intros ->. destruct Hne. cbn. f_equal. symmetry. by eapply other_active_false.
Qed.

(** The service an update addresses, its operation and model version. *)
Definition addressed (input : UpdateInput) (k : key) (id : uuid) (version : option uuid) : Prop :=
  uuid_parse (UI_TenantID input) = Some k.1 ∧ uuid_parse (UI_ServiceID input) = Some k.2 ∧
  (UI_ManagedOperationID input ≠ "" -> uuid_parse (UI_ManagedOperationID input) = Some id) ∧
  parseUUID "model_version_id" (UI_ModelVersionID input) true = Ok version.
(** The answers given from an earlier acceptance of the same request. *)
Definition replays (input : UpdateInput) (k : key) (db : DB) (response : OperationResponse) : Prop :=
  ∃ id o, operations db !! (k.1, id) = Some o ∧
    ((UI_ManagedOperationID input ≠ "" ∧ o_request_hash o = UI_RequestHash input ∧
      response = managedUpdateResponseFromOperation id o) ∨
     ∃ row, idempotency db !! (k.1, command_method "update", UI_RequestID input) = Some row ∧ i_operation_id row = id ∧
       i_payload_hash row = UI_RequestHash input ∧
       (response = updateResponseFromOperation id o ∨ response = managedUpdateResponseFromOperation id o)).

Lemma managed_replay_effect input tenant id w r w' :
  managed_replay input tenant id w = (Ok r, w') -> w_db w' = w_db w ∧ w_now w <= w_now w' ∧
  ∀ response, r = Some response -> ∃ o, operations (w_db w) !! (tenant, id) = Some o ∧ UI_ManagedOperationID input ≠ "" ∧
    o_request_hash o = UI_RequestHash input ∧ response = managedUpdateResponseFromOperation id o.
Proof.
  unfold managed_replay. case_bool_decide as Hm; intros H; [by injection H as <- <-|].
  apply bind_ok_inv in H as ([] & w1 & H1 & H). apply exec_ok in H1 as (t1 & T1 & [= E1] & N1 & _).
  apply bind_ok_inv in H as (e & w2 & H2 & H). unfold Sql.GetOperation in H2.
  apply optional_ok in H2 as (E2 & T2 & _ & He). destruct e as [o|].
  - apply bind_ok_inv in H as ([] & w3 & [Hh%bool_decide_eq_true <-]%check_ok_inv & H). injection H as <- <-.
    split_and!; [congruence|lia|]. intros response [= <-]. exists o. by rewrite E1.
  - injection H as <- <-. split_and!; [congruence|lia|done].
Qed.
Lemma recorded_update_effect input tenant w r w' :
  recorded_update input tenant w = (Ok r, w') -> w_db w' = w_db w ∧ w_now w <= w_now w' ∧
  ∀ id o, r = Some (id, o) -> operations (w_db w) !! (tenant, id) = Some o ∧ ∃ row,
    idempotency (w_db w) !! (tenant, command_method "update", UI_RequestID input) = Some row ∧ i_operation_id row = id ∧
    i_payload_hash row = UI_RequestHash input.
Proof.
  unfold recorded_update, GetIdempotency. intros H. apply bind_ok_inv in H as (e & w1 & H1 & H).
  apply optional_ok in H1 as (E1 & T1 & _ & He). destruct e as [row|].
  - apply bind_ok_inv in H as ([] & w2 & [Hh%bool_decide_eq_true <-]%check_ok_inv & H).
    apply bind_ok_inv in H as (o & w3 & H3 & H). apply exec_ok in H3 as (t3 & T3 & H3 & N3 & _).
    unfold Sql.GetOperation in H3. apply select_one_inv in H3 as [Ho E3]. injection H as <- <-.
    split_and!; [congruence|lia|]. intros id o' [= <- <-]. rewrite <- E1. split; [done|]. exists row. by rewrite E1.
  - injection H as <- <-. split_and!; [done|lia|done].
Qed.
Lemma request_replay_effect input k w r w' :
  request_replay input k.1 w = (Ok r, w') -> w_db w' = w_db w ∧ w_now w <= w_now w' ∧
  ∀ response, r = Some response -> replays input k (w_db w) response.
Proof.
  unfold request_replay. case_bool_decide as Hm; intros H; [by injection H as <- <-|].
  apply bind_ok_inv in H as ([] & w1 & H1 & H). apply exec_ok in H1 as (t1 & T1 & [= E1] & N1 & _).
  apply bind_ok_inv in H as (e & w2 & H2 & H). apply recorded_update_effect in H2 as (E2 & T2 & He). injection H as <- <-.
  split_and!; [congruence|lia|]. destruct e as [[id o]|]; [|done]. intros response [= <-].
  destruct (He id o eq_refl) as (Ho & row & Hi & Hid & Hh). rewrite <- E1 in Ho, Hi.
  exists id, o. split; [done|]. right. exists row. split_and!; [done..|]. case_bool_decide; auto.
Qed.
Lemma update_body_effect input k id version w e w' :
  update_body json_strings json_selection input k id version w = (Ok e, w') ->
  ∃ response, e = Schema.Commit response ∧
    ((w_db w' = w_db w ∧ replays input k (w_db w) response) ∨
     updated input version k id (w_now w) response (w_db w) (w_db w')).
Proof.
  intros H. unfold update_body in H. apply bind_ok_inv in H as (r & w1 & H1 & H).
  apply managed_replay_effect in H1 as (E1 & T1 & Hr1). destruct r as [response|].
  - injection H as <- <-. exists response. split; [done|]. left. split; [done|].
    destruct (Hr1 _ eq_refl) as (o & Ho & Hx). exists id, o. split; [done|by left].
  - apply bind_ok_inv in H as (r & w2 & H2 & H). apply request_replay_effect in H2 as (E2 & T2 & Hr2).
    rewrite E1 in E2, Hr2. destruct r as [response|].
    + injection H as <- <-. exists response. split; [done|]. left. split; [done|by apply Hr2].
    + apply bind_ok_inv in H as (response & w3 & H3 & H). injection H as <- <-. exists response. split; [done|]. right.
      apply accept_update_effect in H3. rewrite E2 in H3. eapply updated_since; [|exact H3]. lia.
Qed.

(** An update is accepted whole or not at all.  Whatever [Update]
    reports: either the database is as before, and a success then repeats the
    answer of an earlier acceptance of the same request; or the update is
    accepted completely ([updated]): a running service at the expected generation
    moves to the next one under a new pending update operation, which is its only
    active one and carries the response, the specification of that generation has
    the columns of the mask (or all of them), a managed resource is open and
    masked, the worker is woken, the key and an audit event are recorded, and an
    error can only be a lost answer.  Active operations stay current. *)
Theorem update_all_or_nothing input w r w' :
  Update json_strings json_selection input w = (r, w') ->
  ((w_db w' = w_db w ∧ ∀ response, r = Ok response -> ∃ k, replays input k (w_db w) response) ∨
   ∃ k id version response, addressed input k id version ∧
     updated input version k id (w_now w) response (w_db w) (w_db w') ∧ (r = Ok response ∨ r = Err ErrConn)) ∧
  (active_current (w_db w) -> active_current (w_db w')).
Proof.
  intros H. cut ((w_db w' = w_db w ∧ ∀ response, r = Ok response -> ∃ k, replays input k (w_db w) response) ∨
   ∃ k id version response, addressed input k id version ∧
     updated input version k id (w_now w) response (w_db w) (w_db w') ∧ (r = Ok response ∨ r = Err ErrConn)).
  { intros Hc. split; [done|]. destruct Hc as [[-> _]|(k & id & v & resp & _ & Hu & _)]; [done|].
    by eapply updated_active_current. }
  unfold Update in H.
  destruct (uuid_parse (UI_TenantID input)) as [t|] eqn:Et; [|left; unfold requireUUID in H; rewrite Et in H; by injection H as <- <-].
  destruct (uuid_parse (UI_ServiceID input)) as [s|] eqn:Es;
    [|left; unfold requireUUID in H; rewrite Et, Es in H; by injection H as <- <-].
  unfold requireUUID at 1 2 in H. rewrite Et, Es in H. do 2 erewrite bind_run in H by reflexivity.
  apply guard_bind_inv in H as [[-> Hr]|(version & Hv & H)]; [left; split; [done|]; by intros ? ->| |by auto with guards].
  apply (f_equal fst) in Hv. cbn in Hv.
  apply guard_bind_inv in H as [[-> Hr]|([] & _ & H)]; [left; split; [done|]; by intros ? ->| |by auto with guards].
  destruct (new_uuid w) as [[fresh|e] w1] eqn:En;
    [|left; unfold mbind, M_bind in H; rewrite En in H; unfold new_uuid in En; by destruct (w_uuids w)].
  rewrite (bind_run _ _ _ _ _ En) in H. apply new_uuid_db in En as [Edb Enow].
  apply guard_bind_inv in H as [[-> Hr]|(id & Hid & H)]; [left; split; [done|]; by intros ? ->| |by auto with guards].
  apply (f_equal fst) in Hid. cbn in Hid. assert (Haddr : addressed input (t, s) id version).
  { split_and!; [done..| |done]. intros Hm. unfold update_id, requireUUID in Hid. rewrite bool_decide_false in Hid by done.
    destruct (uuid_parse (UI_ManagedOperationID input)); [|done]. by simplify_eq. }
  rewrite <- Edb, <- Enow.
  apply transaction_effect in H as [[E Hr]|(u & a & v & Eu & Tu & _ & Hb & E & Hr)].
  - left. split; [done|]. intros response ->. destruct (Hr _ eq_refl) as (u & v & _ & Hb).
    apply update_body_effect in Hb as (? & [=] & _).
  - apply update_body_effect in Hb as (response & [= ->] & Hcase). rewrite Eu in Hcase. rewrite E.
    destruct Hcase as [[Hdb Hrep]|Hup].
    + left. split; [done|]. intros response' ->. destruct Hr as [[= ->]|[=]]. by exists (t, s).
    + right. exists (t, s), id, version, response. split_and!; [done| |done]. by eapply updated_since.
Qed.
End Effects.

(** ** Example: renaming the model of the service of [Commands.ex_direct_db], whose
    operation has succeeded. *)
Import BinaryUuid.
Definition ex_body : SpecBody :=
  mkSpecBody None 8%N "provider" "ref" "sha" "image" "chat" "vllm" (Engine.marshalEngineSpec "serve")
    (JVal (Resources.mkSpec ∅ ∅ None)) 1 "deployment" 1 "deployment" ∅ None None None None.
Definition ex_update_db : DB := ex_direct_db
  <| services := {[ (1%N, 2%N) := mkServiceRow "chat" "running" 1 1 (Some 3%N) None 0 0 ]} |>
  <| specs := {[ (1%N, 2%N, 1) := mkSpecRow 4%N ex_body 0 ]} |>
  <| operations := {[ (1%N, 3%N) := ex_operation <| o_phase := OperationSucceeded |> ]} |>.
Definition ex_update : UpdateInput :=
  mkUpdateInput None (uuid_string 1%N) "update-1" "actor" (uuid_string 2%N) "hash" 1 ["served_model_name"] "" "" "" ""
    [] "" "chat-2" "" "" "" "" (Resources.mkSpec ∅ ∅ None) None "" 0 0 "" None "" "".
Definition ex_json_strings (l : list string) : string := "[]".
Definition ex_json_selection (s : ImageSelection) : string := "{}".
Definition ex_update_world : World := mkWorld ex_update_db 20 [] [10%N; 11%N; 12%N].
Definition ex_update_run : result OperationResponse * World :=
  Update ex_json_strings ex_json_selection ex_update ex_update_world.
Lemma ex_update_ok : ex_update_run.1 =
  Ok (managedUpdateResponse (uuid_string 2%N) (uuid_string 10%N) 2 false).
Proof. vm_compute. reflexivity. Qed.

Lemma update_all_or_nothing_witness :
  ∃ k id version response, addressed ex_update k id version ∧
    updated ex_json_strings ex_json_selection ex_update version k id 20 response ex_update_db (w_db ex_update_run.2).
Proof.
  destruct ex_update_run as [r w'] eqn:E. pose proof ex_update_ok as Hr. rewrite E in Hr. cbn in Hr.
  destruct (proj1 (update_all_or_nothing ex_json_strings ex_json_selection ex_update ex_update_world r w' E))
    as [[_ H]|(k & id & v & resp & Ha & Hu & _)]; [|by exists k, id, v, resp].
  destruct (H _ Hr) as (k & id & o & Ho & [[Hm _]|(row & Hi & _)]); [done|].
  assert (En : idempotency ex_update_db = ∅) by reflexivity.
  change (idempotency ex_update_db !! (k.1, command_method "update", UI_RequestID ex_update) = Some row) in Hi.
  rewrite En, lookup_empty in Hi. discriminate Hi.
Defined.

Lemma masked_update_inherits_witness :
  sp_served_model_name (updated_body ex_body (masked_update ex_json_strings ex_json_selection ex_update None ex_body)) = "chat-2" ∧
  sp_image_ref (updated_body ex_body (masked_update ex_json_strings ex_json_selection ex_update None ex_body)) = "image".
Proof.
  destruct (masked_update_inherits ex_json_strings ex_json_selection ex_update None ex_body 1)
    as (_ & _ & H1 & H2 & _); [reflexivity|discriminate|reflexivity|by left|].
  split; [exact H1|]. exact (proj1 H2).
Defined.
End Update.
