(* ===== verification/Server.v ===== *)
(** * The gRPC server

    internal/service/inference.go and managed_gpu.go: what a request must pass
    before a use case sees it.  The caller is what the transport put into the
    context; the use cases are ports over a state of their own, so that every
    statement holds for the PostgreSQL ones and for the layers around them.
    protobuf's deterministic encoding is a parameter of the reflected message; it
    does not see the bytes of unknown fields. *)

From S2P Require Import Prelude GoStrings Operation Gpu Resources Engine Canonical Work Schema Contract WorkStore Reconcile Runner ReconcileStore OperationStore Commands Managed Update.
From Stdlib Require Import Ascii.
Local Open Scope Z_scope.

Module Server.
Import Schema Commands Managed Update Engine Canonical Contract.

(** ** The caller *)
Record Caller := mkCaller {
  caller_tenant : option string;        (* WithTenantID *)
  caller_actor : option string;         (* WithActor *)
  caller_governance : bool }.           (* gpu.WithGovernanceIdentity *)
Definition TenantID (ctx : Caller) : option string :=
  match caller_tenant ctx with Some t => if bool_decide (t = "") then None else Some t | None => None end.
Definition ErrMissingTenant : goerr := ENew "service.ErrMissingTenant" "tenant identity is required".
Definition ErrTenantMismatch : goerr := ENew "service.ErrTenantMismatch" "request tenant does not match trusted tenant".
Definition RequireTenant (ctx : Caller) (directTenant : string) : result string :=
  let direct := trim_space directTenant in
  match TenantID ctx with
  | None => Err ErrMissingTenant
  | Some trusted =>
      if negb (bool_decide (direct = "")) && negb (bool_decide (direct = trusted)) then Err ErrTenantMismatch
      else Ok trusted
  end.
Definition Actor (ctx : Caller) : string := default "" (caller_actor ctx).
Definition GovernanceIdentity (ctx : Caller) : bool := caller_governance ctx.

(** [status.Error]. *)
Definition status (code text : string) : goerr :=
  ENew ("status." +:+ code) ("rpc error: code = " +:+ code +:+ " desc = " +:+ text).
Definition InvalidArgument (text : string) : goerr := status "InvalidArgument" text.
Definition FailedPrecondition (text : string) : goerr := status "FailedPrecondition" text.
Definition PermissionDenied (text : string) : goerr := status "PermissionDenied" text.
Definition invalid {A} (r : result A) : result A :=
  match r with Ok a => Ok a | Err e => Err (InvalidArgument (error_text e)) end.
Definition tenant_of (ctx : Caller) : result string :=
  match TenantID ctx with Some t => Ok t | None => Err (status "Unauthenticated" "tenant identity is required") end.

(** ** The subject of a command *)
Definition trim_prefix (s p : string) : string :=
  if has_prefix s p then String.substring (String.length p) (String.length s - String.length p) s else s.
(** The text before and after the first byte [sep]. *)
Fixpoint cut (sep : ascii) (s : string) : option (string * string) :=
  match s with
  | EmptyString => None
  | String c rest =>
      if bool_decide (c = sep) then Some (EmptyString, rest)
      else match cut sep rest with Some (a, b) => Some (String c a, b) | None => None end
  end.
Definition colon : ascii := Ascii.ascii_of_nat 58.
Definition splitActor (actor : string) : result (string * string) :=
  let enveloped := has_prefix actor "governance:" in
  match cut colon (trim_prefix actor "governance:") with
  | Some (typeName, id) =>
      Ok (if enveloped && bool_decide (typeName = "access-key") then "api_key" else typeName, id)
  | None => Err (errorf "actor must be type:id")
  end.
Definition actorType (actor : string) : string := match splitActor actor with Ok (t, _) => t | Err _ => "" end.
Definition actorID (actor : string) : string := match splitActor actor with Ok (_, i) => i | Err _ => "" end.

(** ** Parts of a request *)
Definition runtimeMode (r : option RuntimeSpec) : string :=
  let mode := runtime_mode r in
  if (mode =? MODE_UNSPECIFIED) || (mode =? MODE_DEPLOYMENT) then "deployment"
  else if mode =? MODE_LEADER_WORKER_SET then "leader_worker_set" else "unsupported".
Definition runtimeProvider (r : option RuntimeSpec) : string :=
  let given := runtime_provider r in
  let provider := if bool_decide (given = "") then "kserve" else to_lower (trim_space given) in
  if bool_decide (provider = "kserve") then provider else "unsupported".
Definition gpuInput (g : option GpuRequest) : option Gpu.Request :=
  (fun g => Gpu.mkRequest (gr_cluster_id g) (gr_pool_id g) (gr_profile_id g) (gr_profile_version g) (gr_replicas g)
              (gr_devices_per_replica g) (gr_container_name g)) <$> g.
Definition gpuProto (g : option Gpu.Request) : option GpuRequest :=
  (fun g => mkGpuRequest false (Gpu.ClusterID g) (Gpu.PoolID g) (Gpu.ProfileID g) (Gpu.ProfileVersion g)
              (Gpu.Replicas g) (Gpu.DevicesPerReplica g) (Gpu.ContainerName g)) <$> g.
Definition engineInput (e : option Contract.EngineSpec) : string * string * string :=
  match e with Some e => (en_image e, en_type e, en_command e) | None => ("", "", "") end.
Definition engine_image (e : option Contract.EngineSpec) : string * string :=
  match e with Some e => (en_image_id e, en_image_scope e) | None => ("", "") end.
Definition isLegacyGPUResourceName (name : string) : bool :=
  let name := to_lower (trim_space name) in contains name "gpu" || contains name "gaudi".
Definition validateGPUResourceMap (r : option ResourceSpec) : result unit :=
  match r with
  | None => Ok tt
  | Some r =>
      match rs_gpu r with
      | Some _ => Ok tt
      | None =>
          let check name (_ : string) := checkr (negb (isLegacyGPUResourceName name))
            (errorf ("GPU resource " +:+ quoted name +:+ " must be supplied as resource.gpu")) in
          _ ← check_map check (rs_requests r); check_map check (rs_limits r)
      end
  end.
Definition endpointInput (e : option Endpoint) : option EndpointSpec :=
  (fun e => mkEndpointSpec (ep_container_port e) (ep_service_port e) (ep_target_port e) (ep_protocol e)) <$> e.
Definition validateEndpoint (e : option Endpoint) : result unit :=
  match e with
  | None => Ok tt
  | Some e =>
      if (ep_container_port e <? 1) || (65535 <? ep_container_port e) || (ep_service_port e <? 1) || (65535 <? ep_service_port e)
      then Err (errorf "endpoint container_port and service_port must be in 1..65535")
      else if bool_decide (ep_target_port e = "") then Err (errorf "endpoint target_port is required")
      else checkr (bool_decide (ep_protocol e = "TCP") || bool_decide (ep_protocol e = "UDP") || bool_decide (ep_protocol e = "SCTP"))
             (errorf "endpoint protocol must be TCP, UDP or SCTP")
  end.
Definition runtime_endpoint (r : option RuntimeSpec) : option Endpoint := r ≫= rt_endpoint.
(** The worker count of a create: at least one. *)
Definition create_workers (r : option RuntimeSpec) : Z := if 0 <? runtime_workers r then runtime_workers r else 1.

(** ** Pages *)
Record ListOptions := mkListOptions { lo_limit : Z; lo_offset : Z; lo_status : string; lo_capability : string }.
Definition listPage (page size : option Z) : result ListOptions :=
  let p := default 1 page in
  let n := default 20 size in
  if (p <? 1) || (100 <? p) || (n <? 1) || (100 <? n)
  then Err (InvalidArgument "page and page_size must be between 1 and 100")
  else Ok (mkListOptions n (int64 (int64 (p - 1) * n)) "" "").
Definition listStatus (filter : string) : result string :=
  let s := to_lower (trim_space filter) in
  if bool_decide (s = "") || bool_decide (s = "running") then Ok s else Err (InvalidArgument "unsupported status filter").
Definition commandStatusError (e : goerr) : goerr :=
  if errors_is e "inference.ErrNotFound" then status "NotFound" (error_text e)
  else if errors_is e "inference.ErrGenerationConflict" then status "Aborted" (error_text e)
  else if errors_is e "inference.ErrOperationActive" || errors_is e "inference.ErrInvalidState"
  then FailedPrecondition (error_text e)
  else if errors_is e "inference.ErrIdempotencyConflict" then status "AlreadyExists" (error_text e)
  else e.
(** ** The server and its ports

    [None] is a port that is not wired, or an answer without an operation. *)
Section Handlers.
Context {S Service OperationView : Type}.
Record ReadUseCase := mkReadUseCase {
  rd_GetService : string -> string -> M S Service;
  rd_ListServicesPage : string -> ListOptions -> M S (list Service * Z);
  rd_GetOperation : string -> string -> M S OperationView;
  rd_ListOperationsPage : string -> string -> ListOptions -> M S (list OperationView * Z) }.
Record InferenceServer := mkServer {
  sv_create : option (CreateInput -> M S (option OperationResponse));
  sv_read : option ReadUseCase;
  sv_command : option (CommandInput -> option ManagedCommand -> M S (option OperationResponse));
  sv_update : option (UpdateInput -> M S (option OperationResponse));
  sv_refund : option (Gpu.ReleaseNotification -> M S unit);
  sv_managedGPUClusterID : string; sv_managedGPUReady : option bool }.
Definition SetManagedGPUReady (s : InferenceServer) (ready : bool) : InferenceServer :=
  mkServer (sv_create s) (sv_read s) (sv_command s) (sv_update s) (sv_refund s) (sv_managedGPUClusterID s) (Some ready).
Definition SetManagedGPUClusterID (s : InferenceServer) (id : string) : InferenceServer :=
  mkServer (sv_create s) (sv_read s) (sv_command s) (sv_update s) (sv_refund s) (trim_space id) (sv_managedGPUReady s).
Definition validateManagedGPUClusterID (s : InferenceServer) (clusterID : string) : result unit :=
  let configured := trim_space (sv_managedGPUClusterID s) in
  if bool_decide (configured = "") then Err (FailedPrecondition "managed GPU cluster identity is not configured")
  else checkr (bool_decide (trim_space clusterID = configured))
         (InvalidArgument "managed GPU cluster_id does not match process cluster").
Definition managedGPUConfigured (s : InferenceServer) : bool := default true (sv_managedGPUReady s).
Definition not_ready : goerr := FailedPrecondition "managed GPU dependencies are not ready".
Definition ReportManagedGPUCompletion (s : InferenceServer) (n : Gpu.ReleaseNotification) : M S unit :=
  match sv_refund s with
  | None => throw (errorf "managed GPU refund reporter is not configured")
  | Some report => report n
  end.

(** *** Reads *)
Definition reading {B} (s : InferenceServer) (ctx : Caller) (k : string -> ReadUseCase -> M S B) : M S B :=
  tenant ← lift (tenant_of ctx);
  match sv_read s with
  | None => throw (FailedPrecondition "inference read use case is not configured")
  | Some read => k tenant read
  end.
(** [errors.Is(err, pgx.ErrNoRows)] becomes NotFound. *)
Definition found {B} (what : string) (c : M S B) : M S B :=
  r ← try c;
  match r with
  | Ok b => mret b
  | Err e => throw (if errors_is e "pgx.ErrNoRows" then status "NotFound" (what +:+ " not found") else e)
  end.
Definition GetInferenceService (s : InferenceServer) (ctx : Caller) (id : string) : M S Service :=
  _ ← check (negb (bool_decide (id = ""))) (InvalidArgument "resource_id is required");
  reading s ctx (fun tenant read => found "inference service" (rd_GetService read tenant id)).
Definition ListInferenceServices (s : InferenceServer) (ctx : Caller) (page size : option Z) (filter capability : string)
    : M S (list Service * Z) :=
  reading s ctx (fun tenant read =>
    opts ← lift (listPage page size);
    filter ← lift (listStatus filter);
    rd_ListServicesPage read tenant
      (mkListOptions (lo_limit opts) (lo_offset opts) filter (to_lower (trim_space capability)))).
Definition GetOperation (s : InferenceServer) (ctx : Caller) (id : string) : M S OperationView :=
  _ ← check (negb (bool_decide (id = ""))) (InvalidArgument "operation_id is required");
  reading s ctx (fun tenant read => found "operation" (rd_GetOperation read tenant id)).
Definition ListOperations (s : InferenceServer) (ctx : Caller) (resource : string) (page size : option Z)
    : M S (list OperationView * Z) :=
  reading s ctx (fun tenant read =>
    opts ← lift (listPage page size); rd_ListOperationsPage read tenant resource opts).

(** *** Commands without a body *)
Context `{U : UuidLib} `{A : AcceleratorLib} `{Q : QuantityLib} (q0 : quantity).
Context (encode_json : json -> string) (sha256_hex : string -> string) (proto_marshal : pmsg -> result string).
Record ServiceCommandRequest := mkServiceCommand { sc_unknown : bool; sc_request_id : string; sc_resource_id : string; sc_expected_generation : Z }.
Definition command_reflect (r : ServiceCommandRequest) : pmsg :=
  ("inference.v1.ServiceCommandRequest", sc_unknown r,
   [("request_id", str (sc_request_id r)); ("resource_id", str (sc_resource_id r));
    ("expected_generation", FOne (PInt (sc_expected_generation r)))]).
Definition answer (what : string) (r : result (option OperationResponse)) : result OperationResponse :=
  match r with
  | Err e => Err (commandStatusError e)
  | Ok None => Err (status "Internal" (what +:+ " use case returned no asynchronous operation"))
  | Ok (Some out) => Ok out
  end.
Definition internal {B} (r : result B) : result B :=
  match r with Ok b => Ok b | Err e => Err (status "Internal" ("marshal request: " +:+ error_text e)) end.
Definition command_input (ctx : Caller) (tenant kind : string) (req : ServiceCommandRequest) (encoded : string) : CommandInput :=
  mkCommandInput tenant (sc_request_id req) (Actor ctx) (sc_resource_id req) kind
    (sha256_hex (kind +:+ nul +:+ Actor ctx +:+ nul +:+ encoded)) (sc_expected_generation req).
Definition acceptCommand (s : InferenceServer) (ctx : Caller) (kind : string) (req : ServiceCommandRequest)
    : M S OperationResponse :=
  tenant ← lift (tenant_of ctx);
  _ ← check (negb (bool_decide (sc_request_id req = "") || bool_decide (sc_resource_id req = "") ||
                   (negb (bool_decide (kind = "delete")) && (sc_expected_generation req <? 1))))
        (InvalidArgument "request_id and resource_id are required; non-delete commands also require positive expected_generation");
  match sv_command s with
  | None => throw (FailedPrecondition "inference command use case is not configured")
  | Some command =>
      encoded ← lift (internal (proto_marshal (command_reflect req)));
      r ← try (command (command_input ctx tenant kind req encoded) None);
      lift (answer "command" r)
  end.
Definition StartInferenceService (s : InferenceServer) (ctx : Caller) := acceptCommand s ctx "start".
Definition StopInferenceService (s : InferenceServer) (ctx : Caller) := acceptCommand s ctx "stop".
Definition RestartInferenceService (s : InferenceServer) (ctx : Caller) := acceptCommand s ctx "restart".

(** *** Updates *)
Definition same_scope (tenant : string) (req : UpdateRequest) (c : CommandContext) : bool :=
  bool_decide (cx_tenant_id c = tenant) && bool_decide (cx_resource_id c = ur_resource_id req).
(** Off-mask fields are cleared and the mask is sorted, so that only the patch counts. *)
Definition on_mask (req : UpdateRequest) (path : string) : bool := bool_decide (path ∈ mask_paths req).
Definition canonical_update (req : UpdateRequest) : UpdateRequest :=
  mkUpdateRequest (ur_unknown req) "" (ur_resource_id req) (ur_expected_generation req)
    ((fun m => mkFieldMask (fm_unknown m) (merge_sort String.le (fm_paths m))) <$> ur_update_mask req)
    (ur_resource req) (ur_replicas req) (ur_runtime req) (ur_model_artifact req)
    (if on_mask req "engine" then ur_engine req else None)
    (if on_mask req "served_model_name" then ur_served_model_name req else "")
    (if on_mask req "model_version_id" then ur_model_version_id req else "")
    (ur_context req) (ur_cluster_id req) (ur_gpu_execution req) (ur_gpu_display req) (ur_contract_version req).
Definition managedOperationID (req : UpdateRequest) : string := context_operation (ur_context req).
Definition update_input (ctx : Caller) (tenant : string) (req : UpdateRequest) (requestHash : string) : UpdateInput :=
  let canonical := canonical_update req in
  let '(image, engineRuntime, command) := engineInput (ur_engine canonical) in
  let '(imageID, scope) := engine_image (ur_engine canonical) in
  mkUpdateInput None tenant (ur_request_id req) (Actor ctx) (ur_resource_id req) requestHash
    (ur_expected_generation req) (mask_paths req) (ur_model_version_id canonical) "" "" "" [] image
    (ur_served_model_name canonical) engineRuntime "" command (managedOperationID req) (Resources.mkSpec ∅ ∅ None)
    None "" 0 0 "" None imageID scope.
Definition check_managed_update (ctx : Caller) (tenant : string) (req : UpdateRequest) : result unit :=
  match ur_context req with
  | None => Ok tt
  | Some c =>
      _ ← checkr (GovernanceIdentity ctx) (PermissionDenied "managed updates require Governance");
      _ ← invalid (ValidateCommandContext (Some c));
      checkr (same_scope tenant req c) (PermissionDenied "managed update scope mismatch")
  end.
Definition update_hash (ctx : Caller) (tenant : string) (req : UpdateRequest) : result string :=
  encoded ← proto_marshal (update_reflect (canonical_update req));
  match ur_context req with
  | None => Ok (sha256_hex (Actor ctx +:+ nul +:+ encoded))
  | Some c =>
      expected ← invalid (ManagedUpdateCommandHash encode_json sha256_hex req tenant (actorType (Actor ctx)) (actorID (Actor ctx)));
      _ ← checkr (bool_decide (expected = cx_request_digest c)) (InvalidArgument "Governance UPDATE request digest mismatch");
      Ok expected
  end.
Definition UpdateInferenceService (s : InferenceServer) (ctx : Caller) (req : UpdateRequest) : M S OperationResponse :=
  tenant ← lift (tenant_of ctx);
  _ ← check (negb (bool_decide (ur_request_id req = "") || bool_decide (ur_resource_id req = "") ||
                   (ur_expected_generation req <? 1)))
        (InvalidArgument "request_id, resource_id and positive expected_generation are required");
  _ ← lift (invalid (ValidateUpdatePatch req));
  match sv_update s with
  | None => throw (FailedPrecondition "inference update use case is not configured")
  | Some update =>
      _ ← lift (check_managed_update ctx tenant req);
      requestHash ← lift (update_hash ctx tenant req);
      r ← try (update (update_input ctx tenant req requestHash));
      lift (answer "update" r)
  end.
(** *** Creates *)
Definition managedSnapshot (req : CreateRequest) : result Gpu.Snapshot :=
  match gpuInput (resource_gpu (cr_resource req)) with
  | None => Err (InvalidArgument "resource.gpu is required")
  | Some request =>
      match cr_gpu_execution req, cr_gpu_display req with
      | Some e, Some d =>
          if bool_decide (cr_cluster_id req = "")
          then Err (InvalidArgument "frozen GPU execution, display and cluster_id are required") else
          let execution := Gpu.mkExecution (ge_scheduler_name e) (ge_queue_name e) (ge_runtime_class_name e)
            (ge_node_selector e) (ge_pod_annotations e) (ge_resources e) (ge_execution_digest e) in
          let display := Gpu.mkDisplay (gd_profile_id d) (gd_profile_version d) (gd_profile_name d) (gd_model_key d) (gd_mode d) in
          let snapshot := Gpu.mkSnapshot (Some request) (Some execution) (Some display) (ge_execution_digest e) in
          if negb (bool_decide (Gpu.ClusterID request = cr_cluster_id req))
          then Err (InvalidArgument "GPU cluster_id differs from frozen execution")
          else invalid (Gpu.ValidateSnapshot (Some snapshot) (Some request))
      | _, _ => Err (InvalidArgument "frozen GPU execution, display and cluster_id are required")
      end
  end.
(** The frozen plan of a GPU create, for this process's cluster. *)
Definition frozen_plan (s : InferenceServer) (req : CreateRequest) : result (string * option Gpu.Snapshot) :=
  match resource_gpu (cr_resource req) with
  | None => Ok ("cpu", None)
  | Some _ =>
      _ ← checkr (managedGPUConfigured s) not_ready;
      _ ← validateManagedGPUClusterID s (cr_cluster_id req);
      snapshot ← managedSnapshot req;
      Ok ("gpu", Some snapshot)
  end.
Definition without_request_id (req : CreateRequest) : CreateRequest :=
  mkCreateRequest (cr_unknown req) "" (cr_name req) (cr_model_version_id req) (cr_resource req) (cr_replicas req)
    (cr_runtime req) (cr_model_artifact req) (cr_engine req) (cr_served_model_name req) (cr_context req)
    (cr_cluster_id req) (cr_gpu_execution req) (cr_gpu_display req) (cr_contract_version req).
Definition tenant_matches (ctx : Caller) (c : option CommandContext) : result string :=
  match TenantID ctx, c with
  | Some tenant, Some c =>
      if bool_decide (tenant = cx_tenant_id c) then Ok tenant
      else Err (PermissionDenied "GPU command tenant does not match authenticated scope")
  | _, _ => Err (PermissionDenied "GPU command tenant does not match authenticated scope")
  end.
Definition context_digest (c : option CommandContext) : string := match c with Some c => cx_request_digest c | None => "" end.
Definition managedCreate (s : InferenceServer) (ctx : Caller) (req : CreateRequest) : result ManagedCommand :=
  _ ← checkr (GovernanceIdentity ctx) (PermissionDenied "GPU commands require the authenticated Governance service");
  let context := cr_context req in
  _ ← invalid (ValidateCommandContext context);
  tenant ← tenant_matches ctx context;
  _ ← invalid (ValidateManagedCreate q0 encode_json req);
  '(class, snapshot) ← frozen_plan s req;
  _ ← invalid (ValidateBusinessPayload q0 req);
  business ← invalid (CanonicalBusinessPayload encode_json (create_reflect req));
  digest ← BusinessPayloadDigest encode_json sha256_hex (create_reflect req);
  let actor := Actor ctx in
  requestHash ← ManagedCreateCommandHash encode_json sha256_hex req tenant (actorType actor) (actorID actor);
  let expected := context_digest context in
  _ ← checkr (bool_decide (requestHash = expected)) (InvalidArgument "Governance CREATE request digest mismatch");
  payload ← proto_marshal (create_reflect (without_request_id req));
  Ok (mkManagedCommand
        (Gpu.mkRefundContext class expected tenant (context_resource context) (context_operation context) "" "ani-inference"
           (cr_cluster_id req) snapshot)
        class expected actor payload business digest expected).
(** The command of a create, when it has one. *)
Definition create_attachment (s : InferenceServer) (ctx : Caller) (req : CreateRequest) (gpu : option Gpu.Request)
    : result (option ManagedCommand) :=
  if bool_decide (is_Some gpu) || bool_decide (is_Some (cr_context req))
  then c ← managedCreate s ctx req; Ok (Some c)
  else if bool_decide (is_Some (cr_gpu_execution req)) || bool_decide (is_Some (cr_gpu_display req)) ||
          negb (bool_decide (cr_cluster_id req = ""))
  then Err (InvalidArgument "frozen GPU context requires resource.gpu")
  else Ok None.
(** What is hashed: the effective resources, mode, workers and provider. *)
Definition canonical_create (req : CreateRequest) (n : Resources.Normalized) : CreateRequest :=
  let r := cr_runtime req in
  mkCreateRequest (cr_unknown req) (cr_request_id req) (cr_name req) (cr_model_version_id req)
    (Some (mkResourceSpec false (Resources.Requests n) (Resources.Limits n) (gpuProto (Resources.GPU n)))) (cr_replicas req)
    (Some (mkRuntimeSpec false
             (if bool_decide (runtimeMode r = "leader_worker_set") then MODE_LEADER_WORKER_SET else MODE_DEPLOYMENT)
             (create_workers r) (runtime_endpoint r) (runtimeProvider r)))
    (cr_model_artifact req) (cr_engine req) (cr_served_model_name req) (cr_context req) (cr_cluster_id req)
    (cr_gpu_execution req) (cr_gpu_display req) (cr_contract_version req).
Definition artifact_parts (a : option ModelArtifact) : string * string * string :=
  match a with Some a => (ma_provider a, ma_reference a, ma_sha256 a) | None => ("", "", "") end.
Definition build_create (ctx : Caller) (tenant : string) (req : CreateRequest) (n : Resources.Normalized)
    (managed : option ManagedCommand) (encoded : string) : CreateInput :=
  let '(image, engineRuntime, command) := engineInput (cr_engine req) in
  let '(imageID, scope) := engine_image (cr_engine req) in
  let '(provider, reference, sha) := artifact_parts (cr_model_artifact req) in
  let snapshot := managed ≫= fun c => Gpu.RC_Snapshot (MC_Context c) in
  mkCreateInput "" "" None tenant (cr_request_id req) (Actor ctx) (cr_name req) (cr_model_version_id req)
    provider reference sha [] image (cr_served_model_name req) engineRuntime (runtimeProvider (cr_runtime req)) command n
    snapshot (from_option Gpu.ExecutionDigest "" snapshot) (cr_replicas req) (create_workers (cr_runtime req))
    (runtimeMode (cr_runtime req)) (endpointInput (runtime_endpoint (cr_runtime req)))
    (match managed with Some c => sha256_hex (MC_Payload c) | None => sha256_hex encoded end) managed imageID scope.
Definition resource_spec (req : CreateRequest) : Resources.Spec :=
  Resources.mkSpec (resource_requests (cr_resource req)) (resource_limits (cr_resource req))
    (gpuInput (resource_gpu (cr_resource req))).
Definition check_gpu_topology (s : InferenceServer) (req : CreateRequest) (gpu : option Gpu.Request) : result unit :=
  match gpu with
  | None => Ok tt
  | Some g =>
      _ ← checkr (negb (bool_decide (is_Some (cr_context req)) && negb (managedGPUConfigured s))) not_ready;
      invalid (Gpu.ValidateTopology (Some g) (cr_replicas req) (runtimeMode (cr_runtime req)) (create_workers (cr_runtime req)))
  end.
Definition create_input (s : InferenceServer) (ctx : Caller) (req : CreateRequest) : result CreateInput :=
  tenant ← tenant_of ctx;
  _ ← checkr (negb (bool_decide (cr_request_id req = "") || bool_decide (cr_name req = "") ||
                    bool_decide (cr_model_version_id req = "")))
        (InvalidArgument "request_id, name and model_version_id are required");
  _ ← invalid (ValidateKubernetesName (cr_name req));
  _ ← invalid (ValidateEngineSelection (cr_engine req) (cr_contract_version req));
  _ ← invalid (validateGPUResourceMap (cr_resource req));
  normalized ← invalid (Resources.Normalize (resource_spec req));
  let runtime := cr_runtime req in
  _ ← checkr (negb (bool_decide (runtimeProvider runtime = "unsupported"))) (InvalidArgument "runtime provider must be kserve");
  _ ← invalid (validateEndpoint (runtime_endpoint runtime));
  _ ← invalid (Resources.ValidateCreate (Resources.mkCreateRequest (cr_replicas req) (create_workers runtime)
                 (runtimeMode runtime) (Resources.Requests normalized) (Resources.Limits normalized)));
  _ ← check_gpu_topology s req (Resources.GPU normalized);
  managed ← create_attachment s ctx req (Resources.GPU normalized);
  encoded ← internal (proto_marshal (create_reflect (canonical_create req normalized)));
  Ok (build_create ctx tenant req normalized managed encoded).
Definition create_answer (r : result (option OperationResponse)) : result OperationResponse :=
  match r with
  | Err e => Err (if errors_is e "inference.ErrIdempotencyConflict" then status "AlreadyExists" (error_text e) else e)
  | Ok None => Err (status "Internal" "create use case returned no asynchronous operation")
  | Ok (Some out) => Ok out
  end.
Definition CreateInferenceService (s : InferenceServer) (ctx : Caller) (req : CreateRequest) : M S OperationResponse :=
  input ← lift (create_input s ctx req);
  match sv_create s with
  | None => throw (FailedPrecondition "inference create use case is not configured")
  | Some create => r ← try (create input); lift (create_answer r)
  end.
(** [managedUpdateSnapshot]: the attachment of an update, checked as that of a create. *)
Definition managedUpdateSnapshot (req : UpdateRequest) : result Gpu.Snapshot :=
  _ ← invalid (ValidateFrozenGPU (ur_cluster_id req) (ur_gpu_execution req) (ur_gpu_display req) (resource_gpu (ur_resource req)));
  managedSnapshot (mkCreateRequest false "" "" (ur_model_version_id req) (ur_resource req) (ur_replicas req) (ur_runtime req)
    None (ur_engine req) "" None (ur_cluster_id req) (ur_gpu_execution req) (ur_gpu_display req) 0).

(** *** Deletes *)
Definition scope_class (r : DeleteRequest) : Z := match dl_managed_delete_scope r with Some d => ds_resource_class d | None => 0 end.
Definition scope_cluster (r : DeleteRequest) : string := match dl_managed_delete_scope r with Some d => ds_cluster_id d | None => "" end.
Definition scope_digest (r : DeleteRequest) : string := match dl_managed_delete_scope r with Some d => ds_create_command_digest d | None => "" end.
Definition managed_delete (s : InferenceServer) (ctx : Caller) (req : DeleteRequest) : result (CommandInput * ManagedCommand) :=
  _ ← invalid (ValidateManagedDelete req);
  _ ← checkr (negb ((scope_class req =? CLASS_GPU) && negb (managedGPUConfigured s))) not_ready;
  _ ← invalid (ValidateCommandContext (dl_context req));
  _ ← checkr (GovernanceIdentity ctx) (PermissionDenied "GPU commands require the authenticated Governance service");
  tenant ← tenant_matches ctx (dl_context req);
  _ ← checkr (negb (negb (bool_decide (dl_resource_id req = context_resource (dl_context req))) ||
                    bool_decide (dl_create_operation_id req = ""))) (InvalidArgument "invalid managed DELETE identity");
  let actor := Actor ctx in
  expected ← ManagedDeleteCommandHash encode_json sha256_hex req tenant (actorType actor) (actorID actor);
  let digest := context_digest (dl_context req) in
  _ ← checkr (bool_decide (expected = digest)) (InvalidArgument "Governance DELETE request digest mismatch");
  payload ← proto_marshal (delete_reflect (mkDeleteRequest (dl_unknown req) "" (dl_resource_id req) (dl_context req)
              (dl_create_operation_id req) (dl_managed_delete_scope req)));
  class ← (if scope_class req =? CLASS_GPU then _ ← validateManagedGPUClusterID s (scope_cluster req); Ok "gpu" else Ok "cpu");
  Ok (mkCommandInput tenant (dl_request_id req) actor (dl_resource_id req) "delete" (sha256_hex payload) 0,
      mkManagedCommand
        (Gpu.mkRefundContext class (scope_digest req) tenant (dl_resource_id req) (dl_create_operation_id req)
           (context_operation (dl_context req)) "ani-inference" (scope_cluster req) None)
        class (scope_digest req) actor payload "" "" digest).
Definition DeleteInferenceService (s : InferenceServer) (ctx : Caller) (req : DeleteRequest) : M S (option OperationResponse) :=
  _ ← check (negb (bool_decide (dl_request_id req = ""))) (InvalidArgument "request_id is required");
  match dl_context req with
  | None =>
      _ ← check (bool_decide (dl_managed_delete_scope req = None))
            (InvalidArgument "managed_delete_scope requires trusted command context");
      out ← acceptCommand s ctx "delete" (mkServiceCommand false (dl_request_id req) (dl_resource_id req) 0);
      mret (Some out)
  | Some _ =>
      '(input, c) ← lift (managed_delete s ctx req);
      match sv_command s with
      | None => throw (FailedPrecondition "inference command use case is not configured")
      | Some command =>
          r ← try (command input (Some c));
          lift (match r with Ok out => Ok out | Err e => Err (commandStatusError e) end)
      end
  end.
End Handlers.
Arguments InferenceServer : clear implicits.
(** ** What passes the gate *)
Lemma invalid_ok {B} (r : result B) b : invalid r = Ok b -> r = Ok b.
Proof. by destruct r as [|]. Qed.
Lemma tenant_of_ok ctx t : tenant_of ctx = Ok t -> TenantID ctx = Some t.
Proof. unfold tenant_of. destruct (TenantID ctx); [|done]. by intros [= ->]. Qed.
Lemma TenantID_nonempty ctx t : TenantID ctx = Some t -> t ≠ "".
Proof. unfold TenantID. destruct (caller_tenant ctx) as [t'|]; [|done]. case_bool_decide; [done|]. by intros [= <-]. Qed.
Lemma canonical_parse `{UuidLib} v : canonical_uuid v = true -> ∃ u, uuid_parse v = Some u ∧ uuid_string u = v.
Proof.
  unfold canonical_uuid. destruct (uuid_parse v) as [u|]; [|done]. intros [_ E%bool_decide_eq_true]%andb_true_iff. eauto.
Qed.
Lemma context_canonical `{UuidLib} c : ValidateCommandContext (Some c) = Ok tt ->
  canonical_uuid (cx_tenant_id c) = true ∧ canonical_uuid (cx_resource_id c) = true ∧
  canonical_uuid (cx_operation_id c) = true.
Proof.
  unfold ValidateCommandContext, canonicalUUID. intros E. by minv E.
Qed.
Lemma mode_supported r : runtimeMode r ≠ "unsupported" -> runtimeMode r = "deployment" ∨ runtimeMode r = "leader_worker_set".
Proof. unfold runtimeMode. destruct (_ || _); [by left|]. destruct (_ =? _); [by right|done]. Qed.
Lemma create_workers_pos r : 1 <= create_workers r.
Proof. unfold create_workers. destruct (Z.ltb_spec 0 (runtime_workers r)); lia. Qed.
Lemma created_runtime `{QuantityLib} r replicas requests limits u :
  negb (bool_decide (runtimeProvider r = "unsupported")) = true ->
  Resources.ValidateCreate (Resources.mkCreateRequest replicas (create_workers r) (runtimeMode r) requests limits) = Ok u ->
  runtimeProvider r = "kserve" ∧ 1 <= replicas ∧
  (runtimeMode r = "leader_worker_set" ∨ runtimeMode r = "deployment" ∧ create_workers r = 1).
Proof.
  intros Hp%negb_true_iff%bool_decide_eq_false E. split.
  { revert Hp. unfold runtimeProvider. by case_bool_decide; case_bool_decide. }
  assert (Hw := create_workers_pos r). unfold Resources.ValidateCreate in E. cbn in E. minv E. clear E. revert Hm.
  destruct (decide (runtimeMode r = "unsupported")) as [->|[-> | ->]%mode_supported]; [done|..].
  - rewrite (bool_decide_true ("deployment" = "deployment")), orb_true_r by done. intros E. minv E.
    split; [lia|]. right. split; [done|lia].
  - rewrite (bool_decide_true ("leader_worker_set" = "leader_worker_set")), !(bool_decide_false ("leader_worker_set" = _)) by done.
    intros E%checkr_ok_inv. split; [lia|]. by left.
Qed.
Lemma Normalize_gpu `{QuantityLib} i n : Resources.Normalize i = Ok n -> Resources.GPU n = Resources.GPU i.
Proof.
  unfold Resources.Normalize. intros E. minv E. destruct (_ && _) in E; [by injection E as <-|].
  assert (Hl : ∀ l out, Resources.normalize_loop i l out = Ok n -> Resources.GPU n = Resources.GPU out).
  { induction l as [|x l IH]; intros out Hn; cbn -[Resources.normalize_entry] in Hn; [by injection Hn as ->|].
    minv Hn. by apply IH in Hn. }
  by apply Hl in E.
Qed.
Section Gate.
Context {S Service OperationView : Type}.
Context `{U : UuidLib} `{A : AcceleratorLib} `{Q : QuantityLib} (q0 : quantity).
Context (encode_json : json -> string) (sha256_hex : string -> string) (proto_marshal : pmsg -> result string).
Local Abbreviation Server := (InferenceServer S Service OperationView).
Local Abbreviation create_rpc := (CreateInferenceService q0 encode_json sha256_hex proto_marshal).
Local Abbreviation delete_rpc := (DeleteInferenceService encode_json sha256_hex proto_marshal).
Local Abbreviation update_rpc := (UpdateInferenceService encode_json sha256_hex proto_marshal).

(** The command behind a managed create. *)
Record governed_create (s : Server) (ctx : Caller) (req : CreateRequest) (input : CreateInput) (c : ManagedCommand) : Prop := {
  gc_governance : GovernanceIdentity ctx = true;
  gc_context : ∃ cx, cr_context req = Some cx ∧ cx_tenant_id cx = CI_TenantID input ∧
    ManagedCreateCommandHash encode_json sha256_hex req (CI_TenantID input) (actorType (Actor ctx)) (actorID (Actor ctx))
      = Ok (cx_request_digest cx) ∧
    MC_RequestHash c = cx_request_digest cx ∧ MC_CreateCommandDigest c = cx_request_digest cx ∧
    Gpu.RC_ResourceID (MC_Context c) = cx_resource_id cx ∧ Gpu.OriginalCreateOperationID (MC_Context c) = cx_operation_id cx;
  gc_tenant : Gpu.RC_TenantID (MC_Context c) = CI_TenantID input;
  (** The durable create reads the identities back. *)
  gc_identity : ∀ a b, ∃ service operation, create_identity input a b = Ok (service, operation) ∧
    uuid_string service = Gpu.RC_ResourceID (MC_Context c) ∧ uuid_string operation = Gpu.OriginalCreateOperationID (MC_Context c);
  gc_business : BusinessPayloadDigest encode_json sha256_hex (create_reflect req) = Ok (MC_BusinessDigest c);
  gc_cpu : resource_gpu (cr_resource req) = None -> managedClass c = "cpu" ∧ CI_GPUSnapshot input = None;
  gc_gpu g : resource_gpu (cr_resource req) = Some g ->
    managedClass c = "gpu" ∧ sv_managedGPUReady s ≠ Some false ∧
    trim_space (cr_cluster_id req) = trim_space (sv_managedGPUClusterID s) ∧ trim_space (sv_managedGPUClusterID s) ≠ "" ∧
    (∃ pods, Gpu.TotalPods (CI_Replicas input) (CI_RuntimeMode input) (CI_WorkerReplicas input) = Ok pods ∧ gr_replicas g = uint32 pods) ∧
    ∃ snapshot, CI_GPUSnapshot input = Some snapshot ∧ Gpu.RC_Snapshot (MC_Context c) = Some snapshot ∧
      Gpu.ValidateSnapshot (Some snapshot) (Resources.GPU (CI_Resources input)) = Ok snapshot ∧
      CI_GPUSnapshotDigest input = Gpu.ExecutionDigest snapshot ∧ CI_GPUSnapshotDigest input ≠ "" }.
Record admitted_create (s : Server) (ctx : Caller) (req : CreateRequest) (input : CreateInput) : Prop := {
  ac_tenant : caller_tenant ctx = Some (CI_TenantID input) ∧ CI_TenantID input ≠ "";
  ac_names : CI_RequestID input = cr_request_id req ∧ cr_request_id req ≠ "" ∧ CI_Name input = cr_name req ∧
    ValidateKubernetesName (cr_name req) = Ok tt ∧ CI_ModelVersionID input = cr_model_version_id req;
  ac_actor : CI_Actor input = Actor ctx;
  ac_resources : Resources.Normalize (resource_spec req) = Ok (CI_Resources input);
  ac_runtime : CI_RuntimeProvider input = "kserve" ∧ 1 <= CI_Replicas input ∧ 1 <= CI_WorkerReplicas input ∧
    (CI_RuntimeMode input = "leader_worker_set" ∨ CI_RuntimeMode input = "deployment" ∧ CI_WorkerReplicas input = 1);
  ac_gpu : Resources.GPU (CI_Resources input) = gpuInput (resource_gpu (cr_resource req));
  ac_managed c : CI_Managed input = Some c -> governed_create s ctx req input c;
  ac_direct : CI_Managed input = None ->
    resource_gpu (cr_resource req) = None ∧ cr_context req = None ∧ cr_gpu_execution req = None ∧
    cr_gpu_display req = None ∧ cr_cluster_id req = "" ∧ CI_GPUSnapshot input = None }.

Lemma managedSnapshot_ok req snapshot : managedSnapshot req = Ok snapshot ->
  ∃ g, gpuInput (resource_gpu (cr_resource req)) = Some g ∧ Gpu.ValidateSnapshot (Some snapshot) (Some g) = Ok snapshot ∧
    Gpu.ExecutionDigest snapshot ≠ "".
Proof.
  unfold managedSnapshot. destruct (gpuInput _) as [g|]; [|done]. destruct (cr_gpu_execution req); [|done].
  destruct (cr_gpu_display req); [|done]. case_bool_decide; [done|]. case_bool_decide; [|done]. cbn [negb].
  intros [H1 [(e & _ & _ & H2) _]]%invalid_ok%Gpu.snapshot_validation_stable. eauto.
Qed.
Lemma topology_pods_ok g replicas mode workers : Gpu.ValidateTopology (Some g) replicas mode workers = Ok tt ->
  ∃ pods, Gpu.TotalPods replicas mode workers = Ok pods ∧ Gpu.Replicas g = uint32 pods.
Proof.
  unfold Gpu.ValidateTopology. intros H. minv H. exists a1. split; [done|].
  destruct (Z.eqb_spec (Gpu.Replicas g) (uint32 a1)); [done|discriminate H].
Qed.
Lemma cluster_checked (s : Server) cluster u : validateManagedGPUClusterID s cluster = Ok u ->
  trim_space cluster = trim_space (sv_managedGPUClusterID s) ∧ trim_space (sv_managedGPUClusterID s) ≠ "".
Proof.
  unfold validateManagedGPUClusterID. case_bool_decide as E; [done|]. by intros ?%checkr_ok_inv%bool_decide_eq_true.
Qed.
Lemma frozen_plan_ok (s : Server) req class snapshot : frozen_plan s req = Ok (class, snapshot) ->
  match resource_gpu (cr_resource req) with
  | None => class = "cpu" ∧ snapshot = None
  | Some g => class = "gpu" ∧ sv_managedGPUReady s ≠ Some false ∧
      trim_space (cr_cluster_id req) = trim_space (sv_managedGPUClusterID s) ∧ trim_space (sv_managedGPUClusterID s) ≠ "" ∧
      ∃ sn, snapshot = Some sn ∧ Gpu.ValidateSnapshot (Some sn) (gpuInput (Some g)) = Ok sn ∧ Gpu.ExecutionDigest sn ≠ ""
  end.
Proof.
  unfold frozen_plan, managedGPUConfigured. destruct (resource_gpu _) as [g|] eqn:Eg; intros H.
  2:{ by injection H as <- <-. }
  minv H. injection H as <- <-. apply cluster_checked in Hm0 as [].
  apply managedSnapshot_ok in Hm1 as (r & E1 & E2 & E3). rewrite Eg in E1. split_and!; [done| |done|done|].
  - intros E. by rewrite E in Hm.
  - exists a1. split_and!; [done| |done]. by rewrite E1.
Qed.
Lemma tenant_matches_ok ctx c t : tenant_matches ctx c = Ok t ->
  TenantID ctx = Some t ∧ ∃ cx, c = Some cx ∧ cx_tenant_id cx = t.
Proof.
  unfold tenant_matches. destruct (TenantID ctx) as [t'|]; [|done]. destruct c as [cx|]; [|done].
  case_bool_decide; [|done]. intros [= <-]. eauto.
Qed.
Lemma managedCreate_ok (s : Server) ctx req c : managedCreate q0 encode_json sha256_hex proto_marshal s ctx req = Ok c ->
  ∃ cx tenant class snapshot payload business digest, GovernanceIdentity ctx = true ∧ cr_context req = Some cx ∧
    ValidateCommandContext (Some cx) = Ok tt ∧ TenantID ctx = Some tenant ∧ cx_tenant_id cx = tenant ∧
    ManagedCreateCommandHash encode_json sha256_hex req tenant (actorType (Actor ctx)) (actorID (Actor ctx)) = Ok (cx_request_digest cx) ∧
    frozen_plan s req = Ok (class, snapshot) ∧
    BusinessPayloadDigest encode_json sha256_hex (create_reflect req) = Ok digest ∧
    c = mkManagedCommand (Gpu.mkRefundContext class (cx_request_digest cx) tenant (cx_resource_id cx) (cx_operation_id cx) ""
                            "ani-inference" (cr_cluster_id req) snapshot)
          class (cx_request_digest cx) (Actor ctx) payload business digest (cx_request_digest cx).
Proof.
  unfold managedCreate. intros H. minv H. destruct a3 as [class snapshot]. minv H. injection H as <-.
  apply tenant_matches_ok in Hm1 as (Ht & cx & Ec & Et). rewrite Ec in *.
  apply invalid_ok in Hm0. destruct a0. apply bool_decide_eq_true in Hm8. cbn in Hm8. subst a6.
  exists cx, a1, class, snapshot, a8, a4, a5. split_and!; done.
Qed.
Record built (ctx : Caller) (tenant : string) (req : CreateRequest) (n : Resources.Normalized) (m : option ManagedCommand)
    (i : CreateInput) : Prop := {
  b_tenant : CI_TenantID i = tenant; b_request : CI_RequestID i = cr_request_id req; b_actor : CI_Actor i = Actor ctx;
  b_name : CI_Name i = cr_name req; b_version : CI_ModelVersionID i = cr_model_version_id req;
  b_provider : CI_RuntimeProvider i = runtimeProvider (cr_runtime req); b_resources : CI_Resources i = n;
  b_snapshot : CI_GPUSnapshot i = m ≫= (fun c => Gpu.RC_Snapshot (MC_Context c));
  b_digest : CI_GPUSnapshotDigest i = from_option Gpu.ExecutionDigest "" (CI_GPUSnapshot i);
  b_replicas : CI_Replicas i = cr_replicas req; b_workers : CI_WorkerReplicas i = create_workers (cr_runtime req);
  b_mode : CI_RuntimeMode i = runtimeMode (cr_runtime req); b_managed : CI_Managed i = m }.
Lemma build_create_built ctx tenant req n m e : built ctx tenant req n m (build_create sha256_hex ctx tenant req n m e).
Proof. unfold build_create, engineInput, engine_image, artifact_parts. destruct (cr_engine req), (cr_model_artifact req); by split. Qed.
Lemma created_governed (s : Server) ctx req input tenant n c : built ctx tenant req n (Some c) input ->
  tenant_of ctx = Ok tenant -> Resources.Normalize (resource_spec req) = Ok n ->
  check_gpu_topology s req (Resources.GPU n) = Ok tt ->
  managedCreate q0 encode_json sha256_hex proto_marshal s ctx req = Ok c -> governed_create s ctx req input c.
Proof.
  intros B Ht%tenant_of_ok En%Normalize_gpu Htop
    (cx & t & class & snapshot & payload & business & digest & Hg & Ec & Hv & Ht' & Etc & Eh & Ep & Eb & ->)%managedCreate_ok.
  assert (t = tenant) as -> by congruence. destruct (context_canonical cx Hv) as (_ & (r & Hr & Er)%canonical_parse & (o & Ho & Eo)%canonical_parse).
  apply frozen_plan_ok in Ep. split; cbn.
  - done.
  - exists cx. rewrite (b_tenant _ _ _ _ _ _ B). done.
  - by rewrite (b_tenant _ _ _ _ _ _ B).
  - intros a b. exists r, o. split_and!; [|done..]. unfold create_identity. rewrite (b_managed _ _ _ _ _ _ B). cbn. by rewrite Hr, Ho.
  - done.
  - intros Hn. rewrite Hn in Ep. destruct Ep as [-> ->]. split; [done|]. by rewrite (b_snapshot _ _ _ _ _ _ B).
  - intros g Hsome. rewrite Hsome in Ep. destruct Ep as (-> & E1 & E2 & E3 & sn & -> & E4 & E5).
    assert (Egpu : Resources.GPU n = gpuInput (Some g)) by (rewrite En; cbn; by rewrite Hsome).
    rewrite Egpu in Htop. unfold check_gpu_topology, gpuInput in Htop. cbn [fmap option_fmap option_map] in Htop. minv Htop. apply invalid_ok, topology_pods_ok in Htop. destruct B as [].
    rewrite b_digest0, b_snapshot0, b_replicas0, b_workers0, b_mode0, b_resources0, Egpu. cbn -[gpuInput].
    split_and!; [done..|]. exists sn. done.
Qed.
Lemma create_input_admitted (s : Server) ctx req input :
  create_input q0 encode_json sha256_hex proto_marshal s ctx req = Ok input -> admitted_create s ctx req input.
Proof.
  unfold create_input. intros H. minv H. injection H as <-.
  pose proof (build_create_built ctx a req a4 a9 a10) as B. set (input := build_create _ _ _ _ _ _ _) in *. clearbody input.
  apply invalid_ok in Hm4. apply invalid_ok in Hm1. apply invalid_ok in Hm7. destruct a1, a8.
  pose proof (tenant_of_ok _ _ Hm) as Ht. pose proof (TenantID_nonempty _ _ Ht) as Hne. pose proof (Normalize_gpu _ _ Hm4) as Eg.
  unfold create_attachment in Hm9. apply negb_true_iff, orb_false_iff in Hm0 as [[Hrq _]%orb_false_iff _].
  apply bool_decide_eq_false in Hrq. split.
  - rewrite (b_tenant _ _ _ _ _ _ B). split; [|done]. unfold TenantID in Ht. destruct (caller_tenant ctx) as [t|]; [|done].
    case_bool_decide; [done|]. by injection Ht as ->.
  - destruct B as []. split_and!; done.
  - by rewrite (b_actor _ _ _ _ _ _ B).
  - by rewrite (b_resources _ _ _ _ _ _ B).
  - destruct B as []. rewrite b_provider0, b_replicas0, b_workers0, b_mode0.
    pose proof (create_workers_pos (cr_runtime req)) as Hw.
    destruct (created_runtime _ _ _ _ _ Hm5 Hm7) as (? & ? & ?). split_and!; done.
  - by rewrite (b_resources _ _ _ _ _ _ B).
  - intros c Hc. rewrite (b_managed _ _ _ _ _ _ B) in Hc. subst a9. eapply created_governed; [done..|].
    destruct (_ || _) in Hm9; [minv Hm9; by injection Hm9 as ->|]. by destruct (_ || _) in Hm9.
  - intros Hn. rewrite (b_managed _ _ _ _ _ _ B) in Hn. subst a9. rewrite (b_snapshot _ _ _ _ _ _ B).
    destruct (bool_decide (is_Some (Resources.GPU a4)) || bool_decide (is_Some (cr_context req))) eqn:Eo; [by minv Hm9|].
    apply orb_false_iff in Eo as [E1%bool_decide_eq_false%eq_None_not_Some E2%bool_decide_eq_false%eq_None_not_Some].
    destruct (_ || _) eqn:Eo in Hm9; [done|]. apply orb_false_iff in Eo as [[E3 E4]%orb_false_iff E5%negb_false_iff%bool_decide_eq_true].
    apply bool_decide_eq_false, eq_None_not_Some in E3, E4. split_and!; try done.
    rewrite E1 in Eg. cbn in Eg. by destruct (resource_gpu _).
Qed.

(** Claim C5. A create reaches the use case only through the gate: either it is
    refused and nothing changes, or the use case runs exactly once, its answer is
    passed on, and its input carries the tenant of the authenticated caller, the
    normalised resources and a supported runtime.  A create that asks for GPUs or
    carries a command context is passed on only as a Governance command: the
    caller is Governance, the digest in the context is the hash of this very
    request for this tenant and actor, the resource and operation ids parse back
    unchanged in the durable create, and GPUs come with a valid frozen plan for
    the cluster of this process and the pod count of the topology.  Any other
    create carries no GPU attachment at all. *)
Theorem create_gate (s : Server) ctx req st r st' : create_rpc s ctx req st = (r, st') ->
  (is_ok r = false ∧ st' = st) ∨
  ∃ create input answer, sv_create s = Some create ∧ admitted_create s ctx req input ∧
    create input st = (answer, st') ∧ r = create_answer answer.
Proof.
  unfold CreateInferenceService, mbind, M_bind, lift.
  destruct (create_input _ _ _ _ s ctx req) as [input|e] eqn:E; [|intros [= <- <-]; by left].
  destruct (sv_create s) as [create|]; [|intros [= <- <-]; by left]. unfold try. destruct (create input st) as [a u] eqn:Ea.
  intros [= <- <-]. right. exists create, input, a. split_and!; [done|by apply create_input_admitted|done|done].
Qed.
(** The command behind a managed delete; its first check in the use case holds. *)
Record governed_delete (s : Server) (ctx : Caller) (req : DeleteRequest) (input : CommandInput) (c : ManagedCommand) : Prop := {
  gd_governance : GovernanceIdentity ctx = true;
  gd_context : ∃ cx, dl_context req = Some cx ∧ cx_tenant_id cx = Commands.TenantID input ∧
    ManagedDeleteCommandHash encode_json sha256_hex req (Commands.TenantID input) (actorType (Actor ctx)) (actorID (Actor ctx))
      = Ok (cx_request_digest cx) ∧ MC_RequestHash c = cx_request_digest cx ∧
    Gpu.DeleteOperationID (MC_Context c) = cx_operation_id cx ∧ ServiceID input = cx_resource_id cx;
  gd_addressed : Kind input = "delete" ∧ Gpu.RC_TenantID (MC_Context c) = Commands.TenantID input ∧
    Gpu.RC_ResourceID (MC_Context c) = ServiceID input ∧ Gpu.DeleteOperationID (MC_Context c) ≠ "" ∧
    Gpu.DeleteOperationID (MC_Context c) ≠ Gpu.OriginalCreateOperationID (MC_Context c);
  gd_ids : canonical_uuid (ServiceID input) = true ∧ canonical_uuid (Gpu.DeleteOperationID (MC_Context c)) = true ∧
    canonical_uuid (Gpu.OriginalCreateOperationID (MC_Context c)) = true;
  gd_class : managedClass c = "cpu" ∧ Gpu.RC_ClusterID (MC_Context c) = "" ∨
    managedClass c = "gpu" ∧ sv_managedGPUReady s ≠ Some false ∧
    trim_space (Gpu.RC_ClusterID (MC_Context c)) = trim_space (sv_managedGPUClusterID s) ∧ trim_space (sv_managedGPUClusterID s) ≠ "" }.
Lemma deleted_scope req : validateDeleteScope (dl_managed_delete_scope req) = Ok tt ->
  scope_class req = CLASS_CPU ∧ scope_cluster req = "" ∨ scope_class req = CLASS_GPU.
Proof.
  unfold validateDeleteScope, scope_class, scope_cluster. destruct (dl_managed_delete_scope req) as [d|]; [|done].
  intros H. minv H. destruct (Z.eqb_spec (ds_resource_class d) CLASS_CPU); [left|].
  - apply checkr_ok_inv, bool_decide_eq_true in H. done.
  - destruct (Z.eqb_spec (ds_resource_class d) CLASS_GPU); [by right|done].
Qed.
Lemma managed_delete_governed {UL : UuidLaws} (s : Server) ctx req input c :
  managed_delete encode_json sha256_hex proto_marshal s ctx req = Ok (input, c) -> governed_delete s ctx req input c.
Proof.
  unfold managed_delete. intros H. minv H. injection H as <- <-. apply invalid_ok in Hm. apply invalid_ok in Hm1.
  unfold ValidateManagedDelete in Hm. destruct a. minv Hm. apply deleted_scope in Hm.
  apply tenant_matches_ok in Hm3 as (_ & cx & Ec & Et). rewrite Ec in *. destruct a1.
  destruct (context_canonical cx Hm1) as (_ & Hr & Ho). unfold validateDeleteIdentity in Hm10. minv Hm10.
  rewrite Ec in *. apply bool_decide_eq_true in Hm3, Hm6. apply negb_true_iff, bool_decide_eq_false in Hm10.
  apply checkr_ok_inv in Hm12. cbn in Hm6, Hm3, Hm10. subst a5. split; cbn -[trim_space].
  - done.
  - exists cx. split_and!; done.
  - split_and!; [done..| |by apply not_eq_sym]. intros E. rewrite E in Ho. apply canonical_parse in Ho as (? & Hp & _).
    by rewrite uuid_parse_empty in Hp.
  - rewrite Hm3. done.
  - destruct Hm as [[Hs Hc]|Hs].
    + rewrite Hs in Hm8. replace (CLASS_CPU =? CLASS_GPU) with false in Hm8 by done. injection Hm8 as <-. by left.
    + rewrite Hs in Hm8, Hm0. replace (CLASS_GPU =? CLASS_GPU) with true in Hm8, Hm0 by done.
      apply rbind_ok_inv in Hm8 as (u & Hv & [= <-]). right. apply cluster_checked in Hv as []. split_and!; [done| |done|done].
      unfold managedGPUConfigured in Hm0. intros E. by rewrite E in Hm0.
Qed.
Lemma command_accepted (s : Server) ctx kind req st r st' : acceptCommand sha256_hex proto_marshal s ctx kind req st = (r, st') ->
  (is_ok r = false ∧ st' = st) ∨
  ∃ command tenant encoded a, sv_command s = Some command ∧ TenantID ctx = Some tenant ∧
    proto_marshal (command_reflect req) = Ok encoded ∧ sc_request_id req ≠ "" ∧ sc_resource_id req ≠ "" ∧
    (kind = "delete" ∨ 1 <= sc_expected_generation req) ∧
    command (command_input sha256_hex ctx tenant kind req encoded) None st = (a, st') ∧ r = answer "command" a.
Proof.
  unfold acceptCommand. intros H. guards H. destruct (sv_command s) as [command|]; [|unfold throw in H; injection H as <- <-; by left].
  guards H. injection Hg as Hg%tenant_of_ok. apply check_ok_inv in Hg0 as [Hg0 _].
  apply negb_true_iff, orb_false_iff in Hg0 as [[E1 E2]%orb_false_iff E3].
  apply bool_decide_eq_false in E1, E2. injection Hg1 as Hg1.
  unfold mbind, M_bind, try, lift in H. destruct (command _ None st) as [a u] eqn:Ea. injection H as <- <-. right.
  exists command, x, x1, a. split_and!; try done; [by destruct (proto_marshal _)|].
  apply andb_false_iff in E3 as [E3%negb_false_iff%bool_decide_eq_true|E3]; [by left|right; lia].
Qed.

(** A delete reaches the use case only through the gate: it is refused
    and nothing changes, or the use case runs once.  Without a command context the
    input is that of the caller's tenant and has no attachment.  With one, the
    caller is Governance, the digest is the hash of this request for this tenant
    and actor, the ids are canonical and the delete operation is new, a GPU delete
    is for this process's cluster - and the first check of the managed delete,
    which would refuse a mismatched attachment, always passes. *)
Theorem delete_gate {UL : UuidLaws} (s : Server) ctx req st r st' : delete_rpc s ctx req st = (r, st') ->
  (is_ok r = false ∧ st' = st) ∨
  ∃ command input attachment a, sv_command s = Some command ∧ command input attachment st = (a, st') ∧
    caller_tenant ctx = Some (Commands.TenantID input) ∧ Commands.RequestID input = dl_request_id req ∧ dl_request_id req ≠ "" ∧
    ServiceID input = dl_resource_id req ∧ Kind input = "delete" ∧ Commands.Actor input = Actor ctx ∧
    match attachment with
    | None => dl_context req = None ∧ dl_managed_delete_scope req = None
    | Some c => governed_delete s ctx req input c
    end.
Proof.
  unfold DeleteInferenceService. intros H. guards H. apply check_ok_inv in Hg as [Hid%negb_true_iff%bool_decide_eq_false _].
  assert (Hct : ∀ t, TenantID ctx = Some t -> caller_tenant ctx = Some t).
  { unfold TenantID. intros t. destruct (caller_tenant ctx) as [t'|]; [|done]. by destruct (bool_decide (t' = "")). }
  destruct (dl_context req) as [cx|] eqn:Ec.
  - guards H. injection Hg as Hg. destruct x0 as [input c]. destruct (sv_command s) as [command|]; [|unfold throw in H; injection H as <- <-; by left].
    unfold mbind, M_bind, try, lift in H. destruct (command input (Some c) st) as [a u] eqn:Ea.
    assert (st' = u) as -> by (by injection H). clear H. right. exists command, input, (Some c), a.
    pose proof (managed_delete_governed _ _ _ _ _ Hg) as G.
    unfold managed_delete in Hg. minv Hg. injection Hg as <- <-. apply tenant_matches_ok in Hm3 as (Ht & _). cbn.
    split_and!; try done. by apply Hct.
  - guards H. apply check_ok_inv in Hg as [Hs%bool_decide_eq_true _]. unfold mbind, M_bind in H.
    destruct (acceptCommand _ _ _ _ _ _ st) as [r0 u] eqn:Ea. apply command_accepted in Ea as [[Hr ->]|Ea].
    { destruct r0; [done|]. injection H as <- <-. by left. }
    destruct Ea as (command & tenant & encoded & a & Es & Ht & _ & _ & _ & _ & Ea & ->).
    assert (st' = u) as -> by (destruct (answer "command" a); by injection H). right.
    exists command, (command_input sha256_hex ctx tenant "delete" (mkServiceCommand false (dl_request_id req) (dl_resource_id req) 0) encoded), None, a.
    split_and!; try done. by apply Hct.
Qed.
(** What an accepted update asks of the use case. *)
Record admitted_update (s : Server) (ctx : Caller) (req : UpdateRequest) (input : UpdateInput) : Prop := {
  au_caller : caller_tenant ctx = Some (UI_TenantID input) ∧ UI_Actor input = Actor ctx;
  au_names : UI_RequestID input = ur_request_id req ∧ ur_request_id req ≠ "" ∧ UI_ServiceID input = ur_resource_id req ∧
    canonical_uuid (ur_resource_id req) = true ∧ UI_ExpectedGeneration input = ur_expected_generation req ∧
    1 <= ur_expected_generation req;
  au_mask : UI_UpdateMask input = mask_paths req ∧ mask_paths req ≠ [] ∧ check_mask [] (UI_UpdateMask input) = true;
  au_version : UI_ModelVersionID input ≠ "" <-> "model_version_id" ∈ mask_paths req;
  au_served : UI_ServedModelName input ≠ "" <-> "served_model_name" ∈ mask_paths req;
  au_engine : "engine" ∈ mask_paths req -> UI_EngineRuntime input ≠ "" ∧ UI_EngineCommand input ≠ "" ∧
    (ur_contract_version req = 0 ∧ UI_ImageRef input ≠ "" ∧ UI_ImageID input = "" ∨
     ur_contract_version req = 2 ∧ UI_ImageRef input = "" ∧ catalogImageID (UI_ImageID input) = true);
  au_no_engine : "engine" ∉ mask_paths req ->
    UI_EngineRuntime input = "" ∧ UI_EngineCommand input = "" ∧ UI_ImageRef input = "" ∧ UI_ImageID input = "";
  au_frozen : UI_Resources input = Resources.mkSpec ∅ ∅ None ∧ UI_GPUSnapshot input = None ∧ UI_Replicas input = 0 ∧
    UI_WorkerReplicas input = 0 ∧ UI_RuntimeProvider input = "" ∧ UI_Endpoint input = None ∧ UI_ArtifactRef input = "";
  au_managed cx : ur_context req = Some cx -> GovernanceIdentity ctx = true ∧ cx_tenant_id cx = UI_TenantID input ∧
    cx_resource_id cx = UI_ServiceID input ∧ UI_ManagedOperationID input = cx_operation_id cx ∧ UI_ManagedOperationID input ≠ "" ∧
    UI_RequestHash input = cx_request_digest cx ∧
    ManagedUpdateCommandHash encode_json sha256_hex req (UI_TenantID input) (actorType (Actor ctx)) (actorID (Actor ctx))
      = Ok (UI_RequestHash input);
  au_direct : ur_context req = None -> UI_ManagedOperationID input = "" }.
Lemma check_paths_in req seen paths p : check_paths req seen paths = Ok tt -> p ∈ paths -> check_path req p = Ok tt.
Proof.
  revert seen. induction paths as [|q paths IH]; intros seen H Hp; [by apply not_elem_of_nil in Hp|].
  cbn -[check_path] in H. minv H. destruct a0. apply elem_of_cons in Hp as [->|Hp]; [done|eauto].
Qed.
Lemma check_paths_mask req seen paths : check_paths req seen paths = Ok tt -> check_mask seen paths = true.
Proof.
  revert seen. induction paths as [|q paths IH]; intros seen H; [done|]. cbn -[check_path ReconcileStore.in_list] in *. minv H.
  apply IH in H. rewrite H, andb_true_r. apply andb_true_iff. split.
  - unfold ReconcileStore.in_list. apply negb_true_iff, bool_decide_eq_false in Hm. apply negb_true_iff. by apply bool_decide_eq_false.
  - unfold ReconcileStore.in_list, update_fields. apply bool_decide_eq_true. unfold check_path in Hm0.
    repeat (case_bool_decide; [subst; set_solver|]). done.
Qed.
Lemma nonblank s : blank s = false -> s ≠ "".
Proof. by intros H ->. Qed.
Lemma selection_parts e version : ValidateEngineSelection e version = Ok tt -> ∃ x, e = Some x ∧ en_type x ≠ "" ∧ en_command x ≠ "" ∧
  (version = 0 ∧ en_image x ≠ "" ∧ en_image_id x = "" ∨ version = 2 ∧ en_image x = "" ∧ catalogImageID (en_image_id x) = true).
Proof.
  unfold ValidateEngineSelection. destruct e as [x|]; [|done]. destruct (blank (en_type x) || blank (en_command x)) eqn:E; [done|].
  apply orb_false_iff in E as [E1%nonblank E2%nonblank]. destruct (Z.eqb_spec version 0) as [->|].
  - intros [[H1%bool_decide_eq_true _]%andb_true_iff H2%negb_true_iff%nonblank]%checkr_ok_inv%andb_true_iff. eauto 10.
  - destruct (Z.eqb_spec version 2) as [->|]; [|done]. intros H. minv H. apply bool_decide_eq_true in H. eauto 10.
Qed.
Lemma on_mask_spec req p : on_mask req p = true <-> p ∈ mask_paths req.
Proof. unfold on_mask. by rewrite bool_decide_eq_true. Qed.
Lemma patch_checked {UL : UuidLaws} req : check_paths req [] (mask_paths req) = Ok tt ->
  ("engine" ∈ mask_paths req -> ValidateEngineSelection (ur_engine req) (ur_contract_version req) = Ok tt) ∧
  ("model_version_id" ∈ mask_paths req -> ur_model_version_id req ≠ "") ∧
  ("served_model_name" ∈ mask_paths req -> ur_served_model_name req ≠ "").
Proof.
  intros Hv. split_and!; intros Hp; apply (check_paths_in _ _ _ _ Hv) in Hp; unfold check_path in Hp;
    vm_compute bool_decide in Hp; cbn iota in Hp; [done|..].
  - unfold canonicalUUID in Hp. apply checkr_ok_inv, canonical_parse in Hp as (u & Hp & _). intros E. rewrite E in Hp.
    by rewrite uuid_parse_empty in Hp.
  - by apply nonblank, negb_true_iff, (checkr_ok_inv _ _ _ Hp).
Qed.
(** The engine of the canonical update and what the input takes of it. *)
Lemma update_input_engine ctx tenant req h : let i := update_input ctx tenant req h in
  let e := if on_mask req "engine" then ur_engine req else None in
  (UI_ImageRef i, UI_EngineRuntime i, UI_EngineCommand i) = engineInput e ∧ (UI_ImageID i, UI_ImageScope i) = engine_image e.
Proof. unfold update_input. cbn. destruct (if on_mask req "engine" then ur_engine req else None); done. Qed.
Lemma admitted_patch {UL : UuidLaws} (s : Server) ctx req tenant h :
  TenantID ctx = Some tenant -> ur_request_id req ≠ "" -> ValidateUpdatePatch req = Ok tt ->
  check_managed_update ctx tenant req = Ok tt -> update_hash encode_json sha256_hex proto_marshal ctx tenant req = Ok h ->
  admitted_update s ctx req (update_input ctx tenant req h).
Proof.
  intros Ht Hid Hv Hc Hh. unfold ValidateUpdatePatch in Hv. minv Hv.
  assert (Hct : caller_tenant ctx = Some tenant).
  { unfold TenantID in Ht. destruct (caller_tenant ctx) as [t'|]; [|done]. by destruct (bool_decide (t' = "")). }
  assert (Hb : canonical_uuid (ur_resource_id req) = true) by (unfold canonicalUUID in Hm0; by apply checkr_ok_inv in Hm0).
  destruct (patch_checked req Hv) as (Hsel & Hver & Hname).
  pose proof (update_input_engine ctx tenant req h) as [E1 E2]. cbn zeta in E1, E2.
  assert (Hrest : let i := update_input ctx tenant req h in UI_TenantID i = tenant ∧ UI_Actor i = Actor ctx ∧
    UI_RequestID i = ur_request_id req ∧ UI_ServiceID i = ur_resource_id req ∧ UI_ExpectedGeneration i = ur_expected_generation req ∧
    UI_UpdateMask i = mask_paths req ∧ UI_ModelVersionID i = (if on_mask req "model_version_id" then ur_model_version_id req else "") ∧
    UI_ServedModelName i = (if on_mask req "served_model_name" then ur_served_model_name req else "") ∧
    UI_ManagedOperationID i = managedOperationID req ∧ UI_RequestHash i = h ∧
    UI_Resources i = Resources.mkSpec ∅ ∅ None ∧ UI_GPUSnapshot i = None ∧ UI_Replicas i = 0 ∧
    UI_WorkerReplicas i = 0 ∧ UI_RuntimeProvider i = "" ∧ UI_Endpoint i = None ∧ UI_ArtifactRef i = "").
  { unfold update_input. destruct (engineInput _) as [[??]?], (engine_image _). done. }
  set (input := update_input ctx tenant req h) in *. clearbody input. cbn zeta in Hrest.
  destruct Hrest as (F1 & F2 & F3 & F4 & F5 & F6 & F7 & F8 & F9 & F10 & F11). split; rewrite ?F1, ?F2, ?F3, ?F4, ?F5, ?F6.
  - done.
  - split_and!; try done. lia.
  - split_and!; [done| |by apply check_paths_mask in Hv]. by apply negb_true_iff, bool_decide_eq_false in Hm4.
  - rewrite F7, <- on_mask_spec. destruct (on_mask req "model_version_id") eqn:E; [|done].
    split; [done|intros _]. by apply Hver, on_mask_spec.
  - rewrite F8, <- on_mask_spec. destruct (on_mask req "served_model_name") eqn:E; [|done].
    split; [done|intros _]. by apply Hname, on_mask_spec.
  - intros He. rewrite (proj2 (on_mask_spec _ _) He) in E1, E2. destruct (selection_parts _ _ (Hsel He)) as (x & Ex & ? & ? & Hx).
    rewrite Ex in E1, E2. cbn in E1, E2. injection E1 as -> -> ->. injection E2 as -> _. done.
  - intros He. assert (on_mask req "engine" = false) as Eo by (apply not_true_is_false; by rewrite on_mask_spec).
    rewrite Eo in E1, E2. cbn in E1, E2. injection E1 as -> -> ->. injection E2 as -> _. done.
  - done.
  - intros cx Ecx. unfold check_managed_update in Hc. unfold update_hash in Hh. rewrite Ecx in Hc, Hh. minv Hc. minv Hh.
    injection Hh as ->. apply bool_decide_eq_true in Hm9. apply andb_true_iff in Hc as [Hc1%bool_decide_eq_true Hc2%bool_decide_eq_true].
    apply invalid_ok in Hm6, Hm8. destruct a6. destruct (context_canonical cx Hm6) as (_ & _ & (o & Ho & _)%canonical_parse).
    rewrite F9, F10. unfold managedOperationID. rewrite Ecx. cbn. split_and!; try done.
    intros E. rewrite E in Ho. by rewrite uuid_parse_empty in Ho.
  - intros En. rewrite F9. unfold managedOperationID. by rewrite En.
Qed.

(** An update reaches the use case only through the gate: it is refused
    and nothing changes, or the use case runs once.  Its input names the caller's
    tenant, a canonical service id and a positive generation; its mask is not
    empty, has no duplicates and only the three fields the durable update accepts;
    a field has a value exactly when the mask selects it, and an engine is
    complete with a raw image or a catalogue image, never both; resources,
    topology, provider, endpoint and artifact are left to be inherited.  With a
    command context the caller is Governance and the recorded hash is both the
    digest of the context and the hash of this very patch. *)
Theorem update_gate {UL : UuidLaws} (s : Server) ctx req st r st' : update_rpc s ctx req st = (r, st') ->
  (is_ok r = false ∧ st' = st) ∨
  ∃ update input a, sv_update s = Some update ∧ admitted_update s ctx req input ∧
    update input st = (a, st') ∧ r = answer "update" a.
Proof.
  unfold UpdateInferenceService. intros H. guards H. destruct (sv_update s) as [update|]; [|unfold throw in H; injection H as <- <-; by left].
  guards H. injection Hg as Hg%tenant_of_ok. injection Hg1 as Hg1%invalid_ok. injection Hg2 as Hg2. injection Hg3 as Hg3.
  apply check_ok_inv in Hg0 as [[[E1%bool_decide_eq_false _]%orb_false_iff _]%negb_true_iff%orb_false_iff _].
  unfold mbind, M_bind, try, lift in H. destruct (update _ st) as [a u] eqn:Ea. injection H as <- <-. right.
  destruct x1, x2. exists update, (update_input ctx x req x3), a. split_and!; [done| |done|done]. by apply admitted_patch.
Qed.
End Gate.
(** ** Idempotency payloads *)
Fixpoint no_byte (c : ascii) (s : string) : bool :=
  match s with EmptyString => true | String d rest => negb (bool_decide (d = c)) && no_byte c rest end.
Lemma cut_app c a b : no_byte c a = true -> cut c (a +:+ String c b) = Some (a, b).
Proof.
  induction a as [|d a IH]; intros H.
  - change ((EmptyString +:+ String c b)) with (String c b). cbn. by rewrite bool_decide_true.
  - change (String d a +:+ String c b) with (String d (a +:+ String c b)). cbn in H |- *.
    apply andb_true_iff in H as [Hd%negb_true_iff Ha]. by rewrite Hd, IH.
Qed.
Lemma cut_inj c a a' b b' : no_byte c a = true -> no_byte c a' = true ->
  a +:+ String c b = a' +:+ String c b' -> a = a' ∧ b = b'.
Proof. intros Ha Ha' E. apply (f_equal (cut c)) in E. rewrite !cut_app in E by done. by injection E. Qed.
(** The effective runtime of a create, written out. *)
Definition effective_runtime `{AcceleratorLib} (req : CreateRequest) : CreateRequest :=
  let r := cr_runtime req in
  mkCreateRequest (cr_unknown req) (cr_request_id req) (cr_name req) (cr_model_version_id req) (cr_resource req) (cr_replicas req)
    (Some (mkRuntimeSpec false (if bool_decide (runtimeMode r = "leader_worker_set") then MODE_LEADER_WORKER_SET else MODE_DEPLOYMENT)
             (create_workers r) (runtime_endpoint r) (runtimeProvider r)))
    (cr_model_artifact req) (cr_engine req) (cr_served_model_name req) (cr_context req) (cr_cluster_id req)
    (cr_gpu_execution req) (cr_gpu_display req) (cr_contract_version req).
Lemma effective_mode r : runtimeMode r ≠ "unsupported" ->
  runtimeMode (Some (mkRuntimeSpec false (if bool_decide (runtimeMode r = "leader_worker_set") then MODE_LEADER_WORKER_SET else MODE_DEPLOYMENT)
             (create_workers r) (runtime_endpoint r) (runtimeProvider r))) = runtimeMode r.
Proof. intros [-> | ->]%mode_supported; reflexivity. Qed.
Section Payloads.
Context {S Service OperationView : Type}.
Context `{U : UuidLib} `{A : AcceleratorLib} {AL : AcceleratorLaws} `{Q : QuantityLib} (q0 : quantity).
Context (encode_json : json -> string) (sha256_hex : string -> string) (proto_marshal : pmsg -> result string).
Local Abbreviation Server := (InferenceServer S Service OperationView).
(** The deterministic encoding determines the message, and SHA-256 the text. *)
Context (marshal_inj : ∀ m m' text, proto_marshal m = Ok text -> proto_marshal m' = Ok text -> m = m').
Context (hash_inj : ∀ x y, sha256_hex x = sha256_hex y -> x = y).

(** The recorded hash of a start, stop, restart or delete stands for
    the command, its actor and its request: a request id is replayed only by the
    same actor, for the same action on the same service and generation.  (Actors
    have no NUL byte; encoding and hash are assumed injective.) *)
Theorem command_hash_binds ctx ctx' tenant tenant' kind kind' req req' text text' :
  kind ∈ ["start"; "stop"; "restart"; "delete"] -> kind' ∈ ["start"; "stop"; "restart"; "delete"] ->
  no_byte Ascii.zero (Actor ctx) = true -> no_byte Ascii.zero (Actor ctx') = true ->
  proto_marshal (command_reflect req) = Ok text -> proto_marshal (command_reflect req') = Ok text' ->
  RequestHash (command_input sha256_hex ctx tenant kind req text) = RequestHash (command_input sha256_hex ctx' tenant' kind' req' text') ->
  kind = kind' ∧ Actor ctx = Actor ctx' ∧ req = req'.
Proof.
  intros Hk Hk' Ha Ha' Hm Hm' E. cbn in E. apply hash_inj in E.
  assert (Hn : ∀ k, k ∈ ["start"; "stop"; "restart"; "delete"] -> no_byte Ascii.zero k = true).
  { intros k. rewrite !elem_of_cons, elem_of_nil. by intros [-> |[-> |[-> |[-> |[]]]]]. }
  apply cut_inj in E as [-> E]; [|auto..]. apply cut_inj in E as [-> <-]; [|done..]. split_and!; [done..|].
  pose proof (marshal_inj _ _ _ Hm Hm') as E. destruct req, req'. by injection E as -> -> -> ->.
Qed.
Lemma context_inj c c' : context_reflect c = context_reflect c' -> c = c'.
Proof. destruct c, c'. cbn. intros [=]. by subst. Qed.
Lemma create_inj r r' : create_reflect r = create_reflect r' -> r = r'.
Proof.
  destruct r, r'. unfold create_reflect, str. cbn -[sub].
  intros [= -> -> -> -> H1 -> H2 H3 H4 -> H5 -> H6 H7 ->].
  apply sub_inj in H1; [|apply resource_inj]. apply sub_inj in H2; [|apply runtime_inj]. apply sub_inj in H3; [|apply artifact_inj].
  apply sub_inj in H4; [|apply engine_inj]. apply sub_inj in H5; [|apply context_inj]. apply sub_inj in H6; [|apply ge_inj].
  apply sub_inj in H7; [|apply gd_inj]. by subst.
Qed.
Lemma gpuProto_inj g g' : gpuProto g = gpuProto g' -> g = g'.
Proof. destruct g as [[]|], g' as [[]|]; cbn; try done. intros [=]. by subst. Qed.
Local Abbreviation input_of := (create_input q0 encode_json sha256_hex proto_marshal).
(** Writing the runtime out changes nothing that is read from it. *)
Lemma effective_same ctx tenant req n m text : runtimeMode (cr_runtime req) ≠ "unsupported" -> runtimeProvider (cr_runtime req) = "kserve" ->
  let r' := cr_runtime (effective_runtime req) in
  runtimeMode r' = runtimeMode (cr_runtime req) ∧ create_workers r' = create_workers (cr_runtime req) ∧
  runtimeProvider r' = runtimeProvider (cr_runtime req) ∧ canonical_create (effective_runtime req) n = canonical_create req n ∧
  build_create sha256_hex ctx tenant (effective_runtime req) n m text = build_create sha256_hex ctx tenant req n m text.
Proof.
  intros Hm Hp r'. assert (Er : runtimeMode r' = runtimeMode (cr_runtime req)) by (by apply effective_mode).
  assert (Ew : create_workers r' = create_workers (cr_runtime req)).
  { unfold r', create_workers at 1. cbn. pose proof (create_workers_pos (cr_runtime req)).
    by destruct (Z.ltb_spec 0 (create_workers (cr_runtime req))); [|lia]. }
  assert (Ep : runtimeProvider r' = runtimeProvider (cr_runtime req))
    by (unfold r', effective_runtime; cbn -[runtimeProvider]; by rewrite Hp).
  split_and!; [done..| |]; [unfold canonical_create|unfold build_create]; fold r'; by rewrite Er, Ew, Ep.
Qed.
#[local] Ltac next H := rewrite H; cbn [checkr mbind result_bind].
(** The steps of an accepted direct create. *)
Lemma direct_create (s : Server) ctx req input : input_of s ctx req = Ok input -> CI_Managed input = None ->
  ∃ tenant n text, Resources.GPU n = None ∧ proto_marshal (create_reflect (canonical_create req n)) = Ok text ∧
    runtimeMode (cr_runtime req) ≠ "unsupported" ∧ runtimeProvider (cr_runtime req) = "kserve" ∧
    input = build_create sha256_hex ctx tenant req n None text ∧ input_of s ctx (effective_runtime req) = Ok input.
Proof.
  intros H Hm. pose proof (create_input_admitted _ _ _ _ s ctx req input H) as [_ _ _ _ _ Hgpu _ Hd].
  destruct (Hd Hm) as (Eg & Ec & Ee & Ed & Ecl & _). unfold create_input in H. minv H. injection H as <-.
  apply invalid_ok in Hm8 as Hc. destruct (created_runtime _ _ _ _ _ Hm6 Hc) as (Hp & _ & Hmode).
  assert (Hmo : runtimeMode (cr_runtime req) ≠ "unsupported") by (destruct Hmode as [-> |[-> _]]; done).
  rewrite (b_managed _ _ _ _ _ _ (build_create_built sha256_hex ctx a req a4 a9 a10)) in Hm. subst a9.
  rewrite (b_resources _ _ _ _ _ _ (build_create_built sha256_hex ctx a req a4 None a10)), Eg in Hgpu. cbn in Hgpu.
  exists a, a4, a10. split_and!; [done|by destruct (proto_marshal _)|done|done|done|].
  destruct (effective_same ctx a req a4 None a10 Hmo Hp) as (Er & Ew & Ep & Eq & Eb).
  unfold create_input. cbv zeta. rewrite Er, Ew, Ep.
  change (cr_request_id (effective_runtime req)) with (cr_request_id req). change (cr_name (effective_runtime req)) with (cr_name req).
  change (cr_model_version_id (effective_runtime req)) with (cr_model_version_id req).
  change (cr_engine (effective_runtime req)) with (cr_engine req). change (cr_resource (effective_runtime req)) with (cr_resource req).
  change (cr_contract_version (effective_runtime req)) with (cr_contract_version req).
  change (cr_replicas (effective_runtime req)) with (cr_replicas req). change (resource_spec (effective_runtime req)) with (resource_spec req).
  change (runtime_endpoint (cr_runtime (effective_runtime req))) with (runtime_endpoint (cr_runtime req)).
  next Hm0. next Hm1. next Hm2. next Hm3. next Hm4. next Hm5. next Hm6. next Hm7. next Hm8.
  rewrite Hgpu in Hm10 |- *. unfold create_attachment in Hm10 |- *. change (cr_context (effective_runtime req)) with (cr_context req).
  rewrite Ec in Hm10 |- *. change (cr_gpu_execution (effective_runtime req)) with (cr_gpu_execution req).
  change (cr_gpu_display (effective_runtime req)) with (cr_gpu_display req). change (cr_cluster_id (effective_runtime req)) with (cr_cluster_id req).
  rewrite Ee, Ed, Ecl. cbn -[build_create canonical_create effective_runtime]. rewrite Eq. next Hm11.
  rewrite (bool_decide_true ("" = "")) by done. cbn -[build_create effective_runtime]. by rewrite Eb.
Qed.

(** The recorded hash of a direct create stands for what is created.
    Spelling the runtime out - provider, mode and worker count with their
    defaults - gives the same input and so the same hash, and two creates with the
    same hash, from any callers, differ in the tenant and the actor only: request
    id, name, model, artifact, engine, resources, replicas, runtime and endpoint
    are the same.  (Encoding and hash are assumed injective.) *)
Theorem create_payload_exact (s : Server) ctx req input : input_of s ctx req = Ok input -> CI_Managed input = None ->
  input_of s ctx (effective_runtime req) = Ok input ∧
  ∀ (s' : Server) ctx' req' input', input_of s' ctx' req' = Ok input' -> CI_Managed input' = None ->
    CI_RequestHash input' = CI_RequestHash input ->
    input' = input <| CI_TenantID := CI_TenantID input' |> <| CI_Actor := CI_Actor input' |>.
Proof.
  intros H Hm. destruct (direct_create _ _ _ _ H Hm) as (t & n & text & Hg & He & Hmo & Hp & -> & Heff). split; [done|].
  intros s' ctx' req' input' H' Hm' Eh. destruct (direct_create _ _ _ _ H' Hm') as (t' & n' & text' & Hg' & He' & Hmo' & Hp' & -> & _).
  assert (text' = text) as ->.
  { apply hash_inj. revert Eh. unfold build_create. destruct (engineInput _) as [[??]?], (engine_image _), (artifact_parts _) as [[??]?].
    by destruct (engineInput (cr_engine req)) as [[??]?], (engine_image (cr_engine req)), (artifact_parts (cr_model_artifact req)) as [[??]?]. }
  pose proof (create_inj _ _ (marshal_inj _ _ _ He' He)) as E. unfold canonical_create in E.
  injection E as _ E1 E2 E3 E4 E5 E6 E7 E8 E9 E10 E11 E12 E13 E14 _ _ _ _ _.
  assert (n' = n) as -> by (destruct n, n'; cbn in *; by rewrite E4, E5, Hg, Hg').
  assert (Em : runtimeMode (cr_runtime req') = runtimeMode (cr_runtime req)).
  { revert E8. by destruct (mode_supported _ Hmo) as [-> | ->], (mode_supported _ Hmo') as [-> | ->]. }
  unfold build_create. rewrite E1, E2, E3, E7, E9, E10, E11, E12, E13, E14, Em.
  by destruct (engineInput _) as [[??]?], (engine_image _), (artifact_parts _) as [[??]?].
Qed.
End Payloads.
(** ** Examples *)
Module Example.
(** UUIDs of the right shape, each its own number. *)
#[local] Instance uuids : UuidLib := {|
  uuid_parse s := if Gpu.uuidPattern s then Some (Npos (encode s)) else None;
  uuid_string u := match u with Npos p => default EmptyString (decode p) | N0 => EmptyString end;
  uuid_sha1_oid _ := 1%N |}.
#[local] Instance accelerator : AcceleratorLib := {|
  GpuExecution := unit; GpuDisplay := unit;
  ge_reflect _ := ("accelerator.v1.GpuExecution", false, []); gd_reflect _ := ("accelerator.v1.GpuDisplay", false, []);
  ge_resources _ := {["volcano.sh/vgpu-number" := "1"; "volcano.sh/vgpu-cores" := "50"]};
  ge_node_selector _ := {["accelerator.ani.io/model-key" := "a100"]}; ge_pod_annotations _ := ∅;
  ge_scheduler_name _ := "volcano"; ge_queue_name _ := "q"; ge_runtime_class_name _ := EmptyString;
  ge_execution_digest _ := Gpu.sample_digest; gd_profile_id _ := Gpu.ProfileID Gpu.sample_request; gd_profile_version _ := 7;
  gd_profile_name _ := "A100"; gd_model_key _ := "a100"; gd_mode _ := SHARED_FIXED;
  ValidateGpuExecution _ := Ok tt; IsDNS1123Label _ := None |}.
#[local] Existing Instance Resources.toy_lib.
Definition tenant : string := "00000000-0000-1000-8000-00000000000a".
Definition resource : string := "00000000-0000-1000-8000-00000000000b".
Definition operation : string := "00000000-0000-1000-8000-00000000000c".
Definition text (j : json) : string := "json".
Definition sha (s : string) : string := Gpu.sample_digest.
Definition marshal (m : pmsg) : result string := Ok "bytes".
Definition log : Type := list CreateInput * list (CommandInput * option ManagedCommand) * list UpdateInput.
Definition response : option OperationResponse := Some (mkOperationResponse (mkResourceMessage resource "running" 1 None)
  (mkOperationMessage operation resource "create" "pending" "admission" 1 "" "") None).
Definition server : InferenceServer log unit unit := mkServer
  (Some (fun i s => (Ok response, (i :: s.1.1, s.1.2, s.2)))) None
  (Some (fun i c s => (Ok response, (s.1.1, (i, c) :: s.1.2, s.2))))
  (Some (fun i s => (Ok response, (s.1.1, s.1.2, i :: s.2)))) None (Gpu.ClusterID Gpu.sample_request) (Some true).
Definition governance : Caller := mkCaller (Some tenant) (Some "governance:user:me") true.
Definition context (op : string) : CommandContext := mkContext false tenant resource op Gpu.sample_digest.
Definition selection : GpuRequest :=
  mkGpuRequest false (Gpu.ClusterID Gpu.sample_request) (Gpu.PoolID Gpu.sample_request) (Gpu.ProfileID Gpu.sample_request) 7 2 1 "kserve-container".
Definition quantities : gmap string string := {["cpu" := "1"; "memory" := "1"]}.
Definition gpu_create : CreateRequest := mkCreateRequest false "r1" "chat" resource
  (Some (mkResourceSpec false quantities quantities (Some selection))) 2 None None
  (Some (mkEngineSpec false "vllm" "image" "serve" "" "")) "chat" (Some (context operation)) (Gpu.ClusterID Gpu.sample_request) (Some tt) (Some tt) 0.
Definition zero : @quantity Resources.toy_lib := true.
Definition create_run : result OperationResponse * log :=
  CreateInferenceService zero text sha marshal server governance gpu_create ([], [], []).
Lemma create_gate_witness : ∃ create input answer, sv_create server = Some create ∧
  admitted_create text sha server governance gpu_create input ∧ create input ([], [], []) = (answer, create_run.2) ∧
  create_run.1 = create_answer answer.
Proof.
  destruct (create_gate zero text sha marshal server governance gpu_create ([], [], []) create_run.1 create_run.2)
    as [[H _]|H]; [vm_compute; reflexivity|vm_compute in H; discriminate|exact H].
Defined.
(** An encoding that loses nothing: the message as a tree, the tree as a number. *)
Fixpoint ptree (v : pval) : gen_tree string :=
  match v with
  | PString s => GenNode 0 [GenLeaf s]
  | PBool b => GenNode 1 [GenLeaf (if b then "t" else "f")]
  | PEnum z => GenNode 2 [GenLeaf (pretty z)]
  | PInt z => GenNode 3 [GenLeaf (pretty z)]
  | PUint z => GenNode 4 [GenLeaf (pretty z)]
  | POther => GenNode 5 []
  | PMsg full unknown fields => GenNode 6 (GenLeaf full :: GenLeaf (if unknown then "t" else "f") ::
      (fix fs l := match l with
       | [] => []
       | (n, f) :: l => GenNode 7 [GenLeaf n; match f with
           | FMap e => GenNode 8 ((fix es l := match l with [] => [] | (k, v) :: l => GenNode 12 [GenLeaf k; ptree v] :: es l end) e)
           | FList i => GenNode 9 ((fix items l := match l with [] => [] | v :: l => ptree v :: items l end) i)
           | FOne v => GenNode 10 [ptree v]
           | FAbsent => GenNode 11 []
           end] :: fs l
       end) fields)
  end.
Definition flag_inj (b b' : bool) : (if b then "t" else "f") = (if b' then "t" else "f") -> b = b'.
Proof. by destruct b, b'. Defined.
Fixpoint ptree_inj (v : pval) : ∀ v', ptree v = ptree v' -> v = v'.
Proof.
  destruct v as [s|b|z|z|z| |full u fs]; intros [s'|b'|z'|z'|z'| |full' u' fs'] E; cbn in E; try discriminate E; try done.
  - by injection E as ->.
  - injection E as E%flag_inj. by subst.
  - injection E as E. apply (inj pretty) in E. by subst.
  - injection E as E. apply (inj pretty) in E. by subst.
  - injection E as E. apply (inj pretty) in E. by subst.
  - injection E as -> E2%flag_inj E3. subst u'. f_equal. revert fs' E3.
    induction fs as [|[n f] fs IH]; intros [|[n' f'] fs'] E; try done. injection E as -> E1 E2. f_equal; [|by apply IH]. f_equal.
    destruct f as [e|i|v|], f' as [e'|i'|v'|]; cbn in E1; try discriminate E1; try done.
    + f_equal. injection E1 as E1. revert e' E1. induction e as [|[k v] e IHe]; intros [|[k' v'] e'] E1; try done.
      injection E1 as -> Ev E1. f_equal; [|by apply IHe]. f_equal. by apply ptree_inj.
    + f_equal. injection E1 as E1. revert i' E1. induction i as [|v i IHi]; intros [|v' i'] E1; try done.
      injection E1 as Ev E1. f_equal; [by apply ptree_inj|by apply IHi].
    + injection E1 as E1. f_equal. by apply ptree_inj.
Defined.
Definition encoding (m : pmsg) : result string := Ok (pretty (encode (ptree (message m)))).
Lemma encoding_inj m m' t : encoding m = Ok t -> encoding m' = Ok t -> m = m'.
Proof. unfold encoding. intros [= <-] [= E%(inj pretty)%(inj encode)%ptree_inj]. by apply message_inj. Qed.
Definition plain (s : string) : string := s.
Lemma command_hash_binds_witness : let req := mkServiceCommand false "r" resource 1 in
  "stop" = "stop" ∧ Actor governance = Actor governance ∧ req = req.
Proof.
  intros req. apply (command_hash_binds plain encoding encoding_inj (fun _ _ H => H) governance governance tenant tenant "stop" "stop"
    req req (pretty (encode (ptree (message (command_reflect req))))) (pretty (encode (ptree (message (command_reflect req)))))).
  1-2: by right; left. all: reflexivity.
Defined.
#[local] Instance accelerator_laws : AcceleratorLaws.
Proof.
  refine {| ge_inj := _; ge_full := "accelerator.v1.GpuExecution"; ge_fields := [];
            gd_full := "accelerator.v1.GpuDisplay"; gd_fields := [] |}.
  - by intros [] [].
  - by intros [] [].
  - intros e. constructor; constructor.
  - intros d. constructor; constructor.
Defined.
Definition direct (runtime : option RuntimeSpec) : CreateRequest := mkCreateRequest false "r1" "chat" resource
  (Some (mkResourceSpec false quantities quantities None)) 1 runtime None
  (Some (mkEngineSpec false "vllm" "image" "serve" "" "")) "chat" None "" None None 0.
Definition user : Caller := mkCaller (Some tenant) (Some "user:me") false.
Definition other : Caller := mkCaller (Some tenant) (Some "user:you") false.
Definition direct_input (f : pmsg -> string) (caller : Caller) (runtime : option RuntimeSpec) : result CreateInput :=
  create_input zero text plain (fun m => Ok (f m)) server caller (direct runtime).
Lemma direct_runs f : ∃ i i', direct_input f user None = Ok i ∧ CI_Managed i = None ∧
  direct_input f other (Some (mkRuntimeSpec false 0 0 None " KServe")) = Ok i' ∧ CI_Managed i' = None ∧
  CI_RequestHash i' = CI_RequestHash i.
Proof. do 2 eexists. split_and!; vm_compute; reflexivity. Qed.
Lemma create_payload_exact_witness : ∃ i i', CI_RequestHash i' = CI_RequestHash i ∧
  i' = i <| CI_TenantID := CI_TenantID i' |> <| CI_Actor := CI_Actor i' |>.
Proof.
  destruct (direct_runs (fun m => pretty (encode (ptree (message m))))) as (i & i' & H1 & H2 & H3 & H4 & H5).
  exists i, i'. split; [exact H5|].
  exact (proj2 (create_payload_exact zero text plain encoding encoding_inj (fun _ _ H => H) server user (direct None) i H1 H2)
    server other (direct (Some (mkRuntimeSpec false 0 0 None " KServe"))) i' H3 H4 H5).
Defined.
End Example.
(** Updates and deletes, with the UUIDs of the use cases' examples. *)
Module Commands_Example.
Import BinaryUuid Example.
#[local] Existing Instances accelerator.
Definition gov : Caller := mkCaller (Some "1") (Some "governance:user:me") true.
Definition delete_request : DeleteRequest := mkDeleteRequest false "r" "01" (Some (mkContext false "1" "01" "11" Gpu.sample_digest)) "001"
  (Some (mkDeleteScope false CLASS_CPU "" Gpu.sample_digest)).
Definition delete_run : result (option OperationResponse) * log :=
  DeleteInferenceService text sha marshal server gov delete_request ([], [], []).
Lemma delete_gate_witness : ∃ command input c a, sv_command server = Some command ∧
  command input (Some c) ([], [], []) = (a, delete_run.2) ∧ governed_delete text sha server gov delete_request input c.
Proof.
  destruct (delete_gate text sha marshal server gov delete_request ([], [], []) delete_run.1 delete_run.2)
    as [[H _]|(command & input & [c|] & a & H1 & H2 & _ & _ & _ & _ & _ & _ & H3)];
    [vm_compute; reflexivity|vm_compute in H; discriminate| |vm_compute in H3; by destruct H3].
  exists command, input, c, a. split; [exact H1|]. split; [exact H2|exact H3].
Defined.
Definition update_request : UpdateRequest := mkUpdateRequest false "r" "01" 1 (Some (mkFieldMask false ["served_model_name"; "engine"])) None 0
  None None (Some (mkEngineSpec false "vllm" "image" "serve" "" "")) "chat" "" (Some (mkContext false "1" "01" "11" Gpu.sample_digest)) "" None None 0.
Definition update_run : result OperationResponse * log :=
  UpdateInferenceService text sha marshal server gov update_request ([], [], []).
Lemma update_gate_witness : ∃ update input a, sv_update server = Some update ∧
  admitted_update text sha server gov update_request input ∧ update input ([], [], []) = (a, update_run.2) ∧
  update_run.1 = answer "update" a.
Proof.
  destruct (update_gate text sha marshal server gov update_request ([], [], []) update_run.1 update_run.2)
    as [[H _]|H]; [vm_compute; reflexivity|vm_compute in H; discriminate|exact H].
Defined.
End Commands_Example.
End Server.
