(* ===== verification/Intake.v ===== *)
(** * The layers around the durable use cases

    internal/data/model/create.go, update.go and client.go, internal/data/image/client.go,
    internal/data/kubernetes/namespace_create.go, tenant_namespace.go and
    namespace_prerequisites.go, internal/biz/inference/image.go, and the way
    cmd/ani-inference-service/main.go stacks them: a create resolves the tenant's
    namespace, then the catalogue image, then the model artifact, and only then is
    written.  The remote services are ports that may take any time: the state after
    a call is whatever other sessions made of it. *)

From S2P Require Import Prelude GoStrings Operation Gpu Resources Engine Canonical Work Schema Contract WorkStore Reconcile Runner ReconcileStore OperationStore Commands Managed Update Server.
From Stdlib Require Import Ascii.
Local Open Scope Z_scope.

Module Intake.
Import Schema WorkStore ReconcileStore OperationStore Commands Managed Update Server.

(** ** Strings *)
Fixpoint str_drop (n : nat) (s : string) : string :=
  match n, s with O, _ => s | _, EmptyString => EmptyString | S n, String _ t => str_drop n t end.
Definition has_suffix (s p : string) : bool :=
  (String.length p <=? String.length s)%nat && bool_decide (str_drop (String.length s - String.length p) s = p).
(** What follows the first occurrence of a non-empty [sub]. *)
Fixpoint after (sub s : string) : option string :=
  if has_prefix s sub then Some (str_drop (String.length sub) s)
  else match s with EmptyString => None | String _ t => after sub t end.
(** The text before the first of these bytes. *)
Fixpoint before_any (stops : list ascii) (s : string) : string :=
  match s with
  | EmptyString => EmptyString
  | String c t => if bool_decide (c ∈ stops) then EmptyString else String c (before_any stops t)
  end.

(** ** Pull secrets: internal/biz/inference/image.go *)
Definition ErrIncompletePullScope : goerr :=
  ENew "inference.ErrIncompletePullScope" "image pull scope requires tenant, cluster, namespace and registry".
Definition authority_end : list ascii := [ascii_of_nat 47; ascii_of_nat 63; ascii_of_nat 35].
Definition normalizeRegistryAuthority (authority : string) : string :=
  let a := trim_space (to_lower authority) in
  let a := default a (after "://" a) in
  let a := before_any authority_end a in
  if has_suffix a ":443" then str_take (String.length a - 4) a else a.
Definition PullSecretName (sha256_hex : string -> string) (tenant cluster namespace registry : string) : result string :=
  let parts := [to_lower tenant; to_lower cluster; to_lower namespace; normalizeRegistryAuthority registry] in
  if existsb (fun p => bool_decide (p = "")) parts then Err ErrIncompletePullScope
  else Ok ("ani-pull-" +:+ str_take 32 (sha256_hex
         (to_lower tenant +:+ nul +:+ to_lower cluster +:+ nul +:+ to_lower namespace +:+ nul +:+ normalizeRegistryAuthority registry))).

(** ** The model catalogue: internal/data/model/client.go *)
Record ModelVersion := mkModelVersion {
  mv_id : string; mv_model_id : string; mv_status : string; mv_checksum : string; mv_storage_path : string; mv_size : Z }.
Record ModelSnapshot := mkModelSnapshot {
  ms_version : string; ms_model : string; ms_artifact_ref : string; ms_artifact_sha256 : string; ms_size : Z;
  ms_capabilities : list string }.
(** [hex.DecodeString] and the number of bytes it gives. *)
Definition is_hex (c : ascii) : bool := is_lower_hex c || byte_in 65 70 c.
Definition hex_bytes (s : string) : option nat :=
  if string_forallb is_hex s && Nat.even (String.length s) then Some (Nat.div2 (String.length s)) else None.
Fixpoint collect_capabilities (seen caps : list string) : list string :=
  match caps with
  | [] => []
  | c :: rest =>
      let c := to_lower (trim_space c) in
      if bool_decide (c = "") || bool_decide (c ∈ seen) then collect_capabilities seen rest
      else c :: collect_capabilities (c :: seen) rest
  end.
Section Layers.
Context {St : Type}.
(** [GetModelVersion]: the version, if any, and the capabilities of its model. *)
Context (get_model_version : option (string -> string -> M St (option ModelVersion * list string))).
Definition GetReadyVersion (tenant version : string) : M St ModelSnapshot :=
  match get_model_version with
  | None => throw (FailedPrecondition "Model client is not configured")
  | Some get =>
      _ ← check (negb (bool_decide (tenant = "") || bool_decide (version = "")))
            (InvalidArgument "tenant and model version ID are required");
      '(v, capabilities) ← get tenant version;
      match v with
      | None => throw (status "NotFound" "Model version missing")
      | Some v =>
          _ ← check (bool_decide (mv_id v = version)) (status "DataLoss" "Model returned a different version");
          _ ← check (bool_decide (mv_status v = "ready")) (FailedPrecondition "Model version is not ready");
          _ ← check (bool_decide (hex_bytes (mv_checksum v) = Some 32%nat) && negb (blank (mv_storage_path v)))
                (status "DataLoss" "Model artifact is incomplete");
          mret (mkModelSnapshot (mv_id v) (mv_model_id v) (mv_storage_path v) (mv_checksum v) (mv_size v)
                  (collect_capabilities [] capabilities))
      end
  end.

(** ** Use cases and their preflight

    [Some] answers a preflight that handled the request. *)
Record CreateLayer := mkCreateLayer {
  cl_create : CreateInput -> M St OperationResponse;
  cl_prepare : option (CreateInput -> M St (option OperationResponse)) }.
Record UpdateLayer := mkUpdateLayer {
  ul_update : UpdateInput -> M St OperationResponse;
  ul_prepare : option (UpdateInput -> M St (option OperationResponse)) }.
(** [if out, handled, err := preflight(in); handled || err != nil { return out, err }]. *)
Definition preflight {I} (prepare : option (I -> M St (option OperationResponse))) (input : I) (k : M St OperationResponse)
    : M St OperationResponse :=
  match prepare with
  | None => k
  | Some prepare => out ← prepare input; match out with Some out => mret out | None => k end
  end.
(** After a failed remote call: a receipt committed meanwhile wins over the error. *)
Definition receipt_or {I} (prepare : I -> M St (option OperationResponse)) (input : I) (e : goerr) : M St OperationResponse :=
  preflight (Some prepare) input (throw e).

Definition artifact_differs (ref sha : string) (v : ModelSnapshot) : bool :=
  (negb (bool_decide (ref = "")) && negb (bool_decide (ref = ms_artifact_ref v))) ||
  (negb (bool_decide (sha = "")) && negb (bool_decide (sha = ms_artifact_sha256 v))).
Definition with_artifact (input : CreateInput) (v : ModelSnapshot) : CreateInput :=
  input <| CI_ArtifactProvider := "model" |> <| CI_ArtifactRef := ms_artifact_ref v |>
        <| CI_ArtifactSHA256 := ms_artifact_sha256 v |> <| CI_ModelCapabilities := ms_capabilities v |>.
Definition model_create (next : CreateLayer) (input : CreateInput) : M St OperationResponse :=
  preflight (cl_prepare next) input (
    _ ← check (negb (blank (CI_EngineRuntime input) || (blank (CI_ImageRef input) && bool_decide (CI_ImageID input = "")) ||
                     blank (CI_EngineCommand input))) (InvalidArgument "engine type, image and startup command are required");
    v ← GetReadyVersion (CI_TenantID input) (CI_ModelVersionID input);
    _ ← check (negb (artifact_differs (CI_ArtifactRef input) (CI_ArtifactSHA256 input) v))
          (InvalidArgument "artifact does not match Model version");
    cl_create next (with_artifact input v)).
Definition with_update_artifact (input : UpdateInput) (v : ModelSnapshot) : UpdateInput :=
  input <| UI_ArtifactProvider := "model" |> <| UI_ArtifactRef := ms_artifact_ref v |>
        <| UI_ArtifactSHA256 := ms_artifact_sha256 v |> <| UI_ModelCapabilities := ms_capabilities v |>.
Definition model_update (next : UpdateLayer) (input : UpdateInput) : M St OperationResponse :=
  preflight (ul_prepare next) input (
    if bool_decide (UI_ModelVersionID input = "") then
      _ ← check (bool_decide (UI_ArtifactProvider input = "") && bool_decide (UI_ArtifactRef input = "") &&
                 bool_decide (UI_ArtifactSHA256 input = "")) (InvalidArgument "artifact changes require model_version_id");
      ul_update next input
    else
      v ← GetReadyVersion (UI_TenantID input) (UI_ModelVersionID input);
      _ ← check (negb (artifact_differs (UI_ArtifactRef input) (UI_ArtifactSHA256 input) v))
            (InvalidArgument "artifact does not match Model version");
      ul_update next (with_update_artifact input v)).
End Layers.
Arguments CreateLayer : clear implicits.
Arguments UpdateLayer : clear implicits.
(** ** The image catalogue: internal/data/image/client.go *)
Record Platform := mkPlatform { pl_os : string; pl_architecture : string; pl_variant : string }.
Inductive ImageScope := IMAGE_SCOPE_UNSPECIFIED | IMAGE_SCOPE_PLATFORM | IMAGE_SCOPE_TENANT.
#[global] Instance ImageScope_eq_dec : EqDecision ImageScope.
Proof. solve_decision. Defined.
#[global] Instance Platform_eq_dec : EqDecision Platform.
Proof. solve_decision. Defined.
Record ResolvedImage := mkResolvedImage {
  ri_tenant : string; ri_image : string; ri_scope : ImageScope; ri_digest : string; ri_reference : string;
  ri_registry : string; ri_platform : Platform }.
Definition fixedDigest (s : string) : bool :=
  has_prefix s "sha256:" && (String.length s =? 71)%nat && string_forallb is_lower_hex (str_drop 7 s).
Section Images.
Context {St : Type} (sha256_hex : string -> string).
(** tenant, image, scope and target platform. *)
Record ImageClient := mkImageClient {
  ic_runtime : option (string -> string -> ImageScope -> Platform -> M St ResolvedImage);
  ic_platform : option Platform; ic_namespace : string; ic_cluster : string; ic_require_catalog : bool }.
Definition no_image_runtime : goerr := FailedPrecondition "image runtime is not configured".
Definition wire_scope (scope : string) : result ImageScope :=
  if bool_decide (scope = "platform") then Ok IMAGE_SCOPE_PLATFORM
  else if bool_decide (scope = "tenant") then Ok IMAGE_SCOPE_TENANT else Err (InvalidArgument "invalid image scope").
Definition resolution_ok (tenant id : string) (scope : ImageScope) (p : Platform) (r : ResolvedImage) : bool :=
  bool_decide (ri_tenant r = tenant) && bool_decide (ri_image r = id) && bool_decide (ri_scope r = scope) &&
  fixedDigest (ri_digest r) && has_suffix (ri_reference r) ("@" +:+ ri_digest r) && negb (bool_decide (ri_registry r = "")) &&
  has_prefix (ri_reference r) (ri_registry r +:+ "/") && bool_decide (ri_platform r = p).
Definition ResolveInNamespace (c : option ImageClient) (tenant id scope namespace : string) : M St (string * ImageSelection) :=
  match c with
  | Some (mkImageClient (Some resolve) (Some p) _ cluster _) =>
      _ ← check (negb (bool_decide (namespace = "") || bool_decide (cluster = ""))) no_image_runtime;
      wire ← lift (wire_scope scope);
      r ← resolve tenant id wire p;
      _ ← check (resolution_ok tenant id wire p r) (status "Internal" "invalid image runtime resolution");
      name ← lift (match PullSecretName sha256_hex tenant cluster namespace (ri_registry r) with
                   | Ok name => Ok name
                   | Err _ => Err (status "Internal" "invalid pull Secret scope")
                   end);
      mret (ri_reference r,
            mkImageSelection id scope (pl_os p) (pl_architecture p) (pl_variant p) (ri_registry r) name)
  | _ => throw no_image_runtime
  end.
Definition Resolve_image (c : option ImageClient) (tenant id scope : string) : M St (string * ImageSelection) :=
  match c with
  | None => throw no_image_runtime
  | Some c => ResolveInNamespace (Some c) tenant id scope (ic_namespace c)
  end.
(** The ErrorInfo details of a status, as domain and reason. *)
Context (status_details : goerr -> option (list (string * string))).
Definition rejection_reasons : list string :=
  ["IMAGE_NOT_FOUND"; "SPACE_NOT_FOUND"; "SPACE_NOT_READY"; "IMAGE_PROJECT_DENIED"; "UNSUPPORTED_ARTIFACT"; "PLATFORM_MISMATCH";
   "INVALID_REFERENCE"; "SPACE_OWNERSHIP_UNCONFIRMED"].
Fixpoint first_reason (details : list (string * string)) : string :=
  match details with
  | [] => ""
  | (domain, reason) :: rest =>
      if bool_decide (domain = "image.ani.io") && bool_decide (reason ∈ rejection_reasons) then reason else first_reason rest
  end.
Definition rejectionReason (e : goerr) : string := match status_details e with Some l => first_reason l | None => "" end.
(** The rejection names the command; its metadata are listed as wrapped texts. *)
Definition image_rejected (tenant reason : string) (c : ManagedCommand) : goerr :=
  EFmt "rpc error: code = FailedPrecondition desc = IMAGE_ADMISSION_REJECTED"
    [errorf "stage=pre_accept"; errorf ("operation_id=" +:+ Gpu.OriginalCreateOperationID (MC_Context c));
     errorf ("resource_id=" +:+ Gpu.RC_ResourceID (MC_Context c)); errorf ("tenant_id=" +:+ tenant);
     errorf ("request_digest=" +:+ MC_CreateCommandDigest c); errorf ("image_reason=" +:+ reason)].
Definition admissionError (e : goerr) (input : CreateInput) : goerr :=
  let reason := rejectionReason e in
  match CI_Managed input with
  | Some c => if bool_decide (reason = "") then e else image_rejected (CI_TenantID input) reason c
  | None => e
  end.
Definition image_create (client : option ImageClient) (prepare : CreateInput -> M St (option OperationResponse))
    (next : CreateLayer St) (input : CreateInput) : M St OperationResponse :=
  preflight (Some prepare) input (
    if bool_decide (CI_ImageID input = "") then
      _ ← check (negb (match client with Some c => ic_require_catalog c | None => false end))
            (FailedPrecondition "new inference requires catalog image selection");
      cl_create next input
    else
      let namespace := if bool_decide (CI_RuntimeNamespace input = "")
                       then match client with Some c => ic_namespace c | None => "" end else CI_RuntimeNamespace input in
      r ← try (ResolveInNamespace client (CI_TenantID input) (CI_ImageID input) (CI_ImageScope input) namespace);
      match r with
      | Err e => receipt_or prepare input (admissionError e input)
      | Ok (ref, selection) => cl_create next (input <| CI_ImageRef := ref |> <| CI_ImageSelection := Some selection |>)
      end).
Definition engine_changed (input : UpdateInput) : bool :=
  bool_decide (UI_UpdateMask input = []) || bool_decide ("engine" ∈ UI_UpdateMask input).
Definition image_update (client : option ImageClient) (namespace_for : option (string -> string -> M St string))
    (prepare : UpdateInput -> M St (option OperationResponse)) (next : UpdateLayer St) (input : UpdateInput) : M St OperationResponse :=
  preflight (Some prepare) input (
    if negb (engine_changed input) then ul_update next input
    else if bool_decide (UI_ImageID input = "") then
      _ ← check (negb (match client with Some c => ic_require_catalog c | None => false end))
            (FailedPrecondition "image update requires catalog selection");
      ul_update next input
    else
      namespace ← (match namespace_for with
                   | Some f => f (UI_TenantID input) (UI_ServiceID input)
                   | None => mret (match client with Some c => ic_namespace c | None => "" end)
                   end);
      r ← try (ResolveInNamespace client (UI_TenantID input) (UI_ImageID input) (UI_ImageScope input) namespace);
      match r with
      | Err e => receipt_or prepare input e
      | Ok (ref, selection) => ul_update next (input <| UI_ImageRef := ref |> <| UI_ImageSelection := Some selection |>)
      end).
End Images.
Arguments ImageClient : clear implicits.

(** ** The tenant namespace: tenant_namespace.go, namespace_prerequisites.go, namespace_create.go *)
Definition tenantNamespaceOwnerLabel : string := "network.ani.io/managed-by".
Definition tenantNamespaceOwner : string := "ani-network-service".
Definition tenantNamespaceIDLabel : string := "network.ani.io/tenant-id".
Record Namespace := mkNamespace {
  ns_name : string; ns_uid : string; ns_deleting : bool; ns_phase : string; ns_labels : gmap string string }.
Record TenantNamespace := mkTenantNamespace { tn_name : string; tn_uid : string }.
#[global] Instance TenantNamespace_eq_dec : EqDecision TenantNamespace.
Proof. solve_decision. Defined.
Section Namespaces.
Context {St : Type} `{U : UuidLib}.
(** The namespaces with these labels; [None]: no reader. *)
Context (list_namespaces : option (gmap string string -> M St (list Namespace))).
Definition owner_labels (tenant : string) : gmap string string :=
  {[tenantNamespaceOwnerLabel := tenantNamespaceOwner; tenantNamespaceIDLabel := tenant]}.
Definition owned_by (tenant : string) (ns : Namespace) : bool :=
  (String.length (ns_name ns) =? 43)%nat && has_prefix (ns_name ns) "tenant-" &&
  bool_decide (str_drop 7 (ns_name ns) = tenant) && negb (bool_decide (ns_uid ns = "")) && negb (ns_deleting ns) &&
  bool_decide (ns_phase ns = "Active") &&
  bool_decide (default "" (ns_labels ns !! tenantNamespaceOwnerLabel) = tenantNamespaceOwner) &&
  bool_decide (default "" (ns_labels ns !! tenantNamespaceIDLabel) = tenant).
Definition Resolve_namespace (tenant : string) : M St TenantNamespace :=
  match list_namespaces with
  | None => throw (errorf "tenant namespace reader is unavailable")
  | Some list =>
      _ ← check (Contract.canonical_uuid tenant) (errorf "tenant namespace requires a canonical tenant UUID");
      r ← try (list (owner_labels tenant));
      match r with
      | Err e => throw (errorf_before "discover tenant namespace" e)
      | Ok [ns] =>
          _ ← check (owned_by tenant ns) (errorf "platform-owned tenant namespace is invalid or unavailable");
          mret (mkTenantNamespace (ns_name ns) (ns_uid ns))
      | Ok l => throw (errorf ("expected one platform-owned tenant namespace, found " +:+ format_int (Z.of_nat (length l))))
      end
  end.
Definition Verify (tenant : string) (pinned : TenantNamespace) : M St unit :=
  _ ← check (negb (bool_decide (tn_name pinned = "") || bool_decide (tn_uid pinned = "")))
        (errorf "pinned tenant namespace identity is required");
  actual ← Resolve_namespace tenant;
  check (bool_decide (actual = pinned)) (errorf "tenant namespace identity changed").
Record Prerequisites := mkPrerequisites {
  pr_service_account : option (string -> string -> M St unit);                         (* namespace, name *)
  pr_config_map : option (string -> string -> M St (gmap string string * gmap string string));  (* data, binary data *)
  pr_account_name : string; pr_ca_config_map : string; pr_ca_key : string }.
Definition check_account (p : Prerequisites) (ns : TenantNamespace) : M St unit :=
  let name := trim_space (pr_account_name p) in
  if bool_decide (name = "") then mret tt
  else match pr_service_account p with
       | None => throw (errorf "tenant runtime prerequisites are not configured")
       | Some get =>
           r ← try (get (tn_name ns) name);
           match r with
           | Ok _ => mret tt
           | Err e => throw (errorf_before ("tenant runtime service account " +:+ tn_name ns +:+ "/" +:+ name +:+ " is unavailable") e)
           end
       end.
Definition check_ca (p : Prerequisites) (ns : TenantNamespace) : M St unit :=
  let name := trim_space (pr_ca_config_map p) in
  if bool_decide (name = "") then mret tt
  else match pr_config_map p with
       | None => throw (errorf "tenant runtime prerequisites are not configured")
       | Some get =>
           r ← try (get (tn_name ns) name);
           match r with
           | Err e => throw (errorf_before ("tenant model-download CA " +:+ tn_name ns +:+ "/" +:+ name +:+ " is unavailable") e)
           | Ok (data, binary) =>
               let key := if blank (pr_ca_key p) then "ca-certificates.crt" else trim_space (pr_ca_key p) in
               check (negb (bool_decide (default "" (data !! key) = "") && bool_decide (default "" (binary !! key) = "")))
                 (errorf ("tenant model-download CA " +:+ tn_name ns +:+ "/" +:+ name +:+ " is missing key " +:+ key))
           end
       end.
(** Both readers are the one [Reader]: they are there or not together. *)
Definition Prerequisites_Check (p : Prerequisites) (ns : TenantNamespace) : M St unit :=
  _ ← check (bool_decide (is_Some (pr_service_account p)) && bool_decide (is_Some (pr_config_map p)) &&
             negb (bool_decide (tn_name ns = "")) && negb (bool_decide (tn_uid ns = "")))
        (errorf "tenant runtime prerequisites are not configured");
  _ ← check_account p ns;
  check_ca p ns.
Definition namespace_create (prerequisites : option Prerequisites) (prepare : CreateInput -> M St (option OperationResponse))
    (next : CreateLayer St) (input : CreateInput) : M St OperationResponse :=
  preflight (Some prepare) input (
    ns ← try (Resolve_namespace (CI_TenantID input));
    match ns with
    | Err e => receipt_or prepare input e
    | Ok ns =>
        ready ← try (match prerequisites with Some p => Prerequisites_Check p ns | None => mret tt end);
        match ready with
        | Err e => receipt_or prepare input e
        | Ok _ => cl_create next (input <| CI_RuntimeNamespace := tn_name ns |> <| CI_RuntimeNamespaceUID := tn_uid ns |>)
        end
    end).
End Namespaces.
Arguments Prerequisites : clear implicits.
(** ** The stack: cmd/ani-inference-service/main.go *)
Section Stack.
Context {St : Type} `{U : UuidLib} (sha256_hex : string -> string) (status_details : goerr -> option (list (string * string))).
Record Clients := mkClients {
  get_version : option (string -> string -> M St (option ModelVersion * list string));
  images : option (ImageClient St);
  namespaces : gmap string string -> M St (list Namespace);
  prerequisites : Prerequisites St }.
Definition with_model (c : Clients) (next : CreateLayer St) : CreateLayer St :=
  match get_version c with Some g => mkCreateLayer (model_create (Some g) next) None | None => next end.
Definition with_image (c : Clients) (prepare : CreateInput -> M St (option OperationResponse)) (next : CreateLayer St) : CreateLayer St :=
  match images c with
  | Some client => mkCreateLayer (image_create sha256_hex status_details (Some client) prepare next) None
  | None => next
  end.
Definition wired_create (c : Clients) (create : CreateInput -> M St OperationResponse)
    (prepare : CreateInput -> M St (option OperationResponse)) : CreateInput -> M St OperationResponse :=
  let durable := mkCreateLayer create (Some prepare) in
  namespace_create (Some (namespaces c)) (Some (prerequisites c)) prepare (with_image c prepare (with_model c durable)).
(** The namespace of an existing service, which must still be the one it was placed in. *)
Definition namespace_for_service (c : Clients) (fallback : string) (placement : string -> string -> M St TenantNamespace)
    (tenant service : string) : M St string :=
  r ← try (placement tenant service);
  match r with
  | Err e => if errors_is e "pgx.ErrNoRows" then mret fallback else throw e
  | Ok p => _ ← Verify (Some (namespaces c)) tenant p; mret (tn_name p)
  end.
Definition wired_update (c : Clients) (update : UpdateInput -> M St OperationResponse)
    (prepare : UpdateInput -> M St (option OperationResponse)) (placement : string -> string -> M St TenantNamespace)
    : UpdateInput -> M St OperationResponse :=
  let durable := mkUpdateLayer update (Some prepare) in
  let modelled := match get_version c with Some g => mkUpdateLayer (model_update (Some g) durable) None | None => durable end in
  match images c with
  | Some client => image_update sha256_hex (Some client) (Some (namespace_for_service c (ic_namespace client) placement)) prepare modelled
  | None => ul_update modelled
  end.
End Stack.
Arguments Clients : clear implicits.

(** *** The placement of a service: internal/data/postgres/namespace_placement.go *)
Section Placement.
Context `{U : UuidLib}.
Definition GetNamespacePlacement (k : key) : statement (string * string) := select_one (fun _ db => placements db !! k).
Definition Repository_GetNamespacePlacement (tenantID serviceID : string) : M World TenantNamespace :=
  tenant ← lift (requireUUID "tenant_id" tenantID);
  service ← lift (requireUUID "service_id" serviceID);
  row ← exec (GetNamespacePlacement (tenant, service));
  mret (mkTenantNamespace row.1 row.2).
End Placement.

(** ** What a stacked create writes *)
Lemma prefix_split s p : has_prefix s p = true -> s = p +:+ str_drop (String.length p) s.
Proof.
  revert s. induction p as [|c p IH]; intros s H; [by destruct s|]. destruct s as [|d s]; [done|].
  cbn in H. apply andb_true_iff in H as [->%bool_decide_eq_true H]. change (String d s = String d (p +:+ str_drop (String.length p) s)).
  f_equal. by apply IH.
Qed.
(** The namespaces reader answered exactly one namespace for the tenant's labels:
    the platform's, of this tenant, with an identity, active and not being deleted. *)
Record namespace_found {St} (list : gmap string string -> M St (list Namespace)) (tenant name uid : string) (n : Namespace) : Prop := {
  nf_answered : ∃ t t', list (owner_labels tenant) t = (Ok [n], t');
  nf_name : ns_name n = name;
  nf_tenant : name = "tenant-" +:+ tenant;
  nf_uid : ns_uid n = uid;
  nf_identified : uid ≠ "";
  nf_live : ns_deleting n = false;
  nf_active : ns_phase n = "Active";
  nf_owner : ns_labels n !! tenantNamespaceOwnerLabel = Some tenantNamespaceOwner;
  nf_label : default "" (ns_labels n !! tenantNamespaceIDLabel) = tenant }.
Lemma namespace_owned {St} `{UuidLib} list tenant (s s' : St) ns : Resolve_namespace (Some list) tenant s = (Ok ns, s') ->
  ∃ n, namespace_found list tenant (tn_name ns) (tn_uid ns) n.
Proof.
  unfold Resolve_namespace. intros E. minv E. destruct a0 as [[|n [|]]|]; try discriminate E.
  minv E. injection E as <- <-. unfold owned_by in Hm1. repeat (apply andb_true_iff in Hm1 as [Hm1 ?]).
  apply bool_decide_eq_true in H0, H1, H2, H5. apply negb_true_iff in H3, H4. apply bool_decide_eq_false in H4.
  exists n. unfold try in Hm0. destruct (list _ _) as [r t] eqn:El. injection Hm0 as -> ->. split; cbn; try done; eauto.
  - rewrite (prefix_split (ns_name n) "tenant-") by done. by f_equal.
  - by destruct (ns_labels n !! tenantNamespaceOwnerLabel) as [x|]; [cbn in H1; by subst|].
Qed.
Section Resolved.
Context {St : Type} `{U : UuidLib} (sha256_hex : string -> string) (status_details : goerr -> option (list (string * string))).
(** The parts of an input that the layers do not touch. *)
Definition accepted_part (i : CreateInput) : CreateInput :=
  i <| CI_RuntimeNamespace := "" |> <| CI_RuntimeNamespaceUID := "" |> <| CI_ImageRef := "" |> <| CI_ImageSelection := None |>
    <| CI_ArtifactProvider := "" |> <| CI_ArtifactRef := "" |> <| CI_ArtifactSHA256 := "" |> <| CI_ModelCapabilities := [] |>.
Record placed (c : Clients St) (input out : CreateInput) : Prop := {
  pl_found : ∃ n, namespace_found (namespaces c) (CI_TenantID input) (CI_RuntimeNamespace out) (CI_RuntimeNamespaceUID out) n;
  pl_checked : ∃ t t', Prerequisites_Check (prerequisites c)
    (mkTenantNamespace (CI_RuntimeNamespace out) (CI_RuntimeNamespaceUID out)) t = (Ok tt, t') }.
(** The image catalogue resolved this image of this tenant to [r], for the configured platform. *)
Record image_found (client : ImageClient St) (tenant id scope : string) (p : Platform) (r : ResolvedImage) : Prop := {
  if_platform : ic_platform client = Some p;
  if_answered : ∃ resolve t t', ic_runtime client = Some resolve ∧ resolve tenant id (ri_scope r) p t = (Ok r, t');
  if_tenant : ri_tenant r = tenant;
  if_image : ri_image r = id;
  if_scope : (scope = "platform" ∧ ri_scope r = IMAGE_SCOPE_PLATFORM) ∨ (scope = "tenant" ∧ ri_scope r = IMAGE_SCOPE_TENANT);
  if_target : ri_platform r = p;
  if_digest : fixedDigest (ri_digest r) = true;
  if_pinned : has_suffix (ri_reference r) ("@" +:+ ri_digest r) = true;
  if_registry : ri_registry r ≠ "" ∧ has_prefix (ri_reference r) (ri_registry r +:+ "/") = true }.
Record imaged (c : Clients St) (input out : CreateInput) : Prop := {
  im_catalog : CI_ImageID input ≠ "" -> ∀ client, images c = Some client -> ∃ p r name,
    image_found client (CI_TenantID input) (CI_ImageID input) (CI_ImageScope input) p r ∧
    CI_ImageRef out = ri_reference r ∧
    PullSecretName sha256_hex (CI_TenantID input) (ic_cluster client) (CI_RuntimeNamespace out) (ri_registry r) = Ok name ∧
    CI_ImageSelection out = Some (mkImageSelection (CI_ImageID input) (CI_ImageScope input) (pl_os p) (pl_architecture p)
                                    (pl_variant p) (ri_registry r) name);
  im_raw : CI_ImageID input = "" -> CI_ImageRef out = CI_ImageRef input ∧ CI_ImageSelection out = CI_ImageSelection input ∧
    (∀ client, images c = Some client -> ic_require_catalog client = false) }.
(** The model catalogue answered [v] with these capabilities: the version asked
    for, ready, with a complete artifact. *)
Record version_found (get : string -> string -> M St (option ModelVersion * list string)) (tenant version : string)
    (v : ModelVersion) (caps : list string) : Prop := {
  vf_answered : ∃ t t', get tenant version t = (Ok (Some v, caps), t');
  vf_id : mv_id v = version;
  vf_ready : mv_status v = "ready";
  vf_checksum : hex_bytes (mv_checksum v) = Some 32%nat;
  vf_path : blank (mv_storage_path v) = false }.
Record sourced (c : Clients St) (input out : CreateInput) : Prop := {
  so_model : ∀ get, get_version c = Some get -> ∃ v caps,
    version_found get (CI_TenantID input) (CI_ModelVersionID input) v caps ∧
    CI_ArtifactProvider out = "model" ∧ CI_ArtifactRef out = mv_storage_path v ∧ CI_ArtifactSHA256 out = mv_checksum v ∧
    CI_ModelCapabilities out = collect_capabilities [] caps ∧ NoDup (CI_ModelCapabilities out) ∧
    (CI_ArtifactRef input ≠ "" -> CI_ArtifactRef out = CI_ArtifactRef input) ∧
    (CI_ArtifactSHA256 input ≠ "" -> CI_ArtifactSHA256 out = CI_ArtifactSHA256 input);
  so_raw : get_version c = None -> CI_ArtifactProvider out = CI_ArtifactProvider input ∧
    CI_ArtifactRef out = CI_ArtifactRef input ∧ CI_ArtifactSHA256 out = CI_ArtifactSHA256 input ∧
    CI_ModelCapabilities out = CI_ModelCapabilities input }.

Lemma capabilities_nodup seen caps : NoDup (collect_capabilities seen caps) ∧ ∀ x, x ∈ collect_capabilities seen caps -> x ∉ seen.
Proof.
  revert seen. induction caps as [|c caps IH]; intros seen; cbn -[trim_space].
  { split; [constructor|]. by intros x ?%not_elem_of_nil. }
  destruct (bool_decide _ || bool_decide _) eqn:E; [apply IH|]. apply orb_false_iff in E as [_ E%bool_decide_eq_false].
  destruct (IH (to_lower (trim_space c) :: seen)) as [H1 H2]. split.
  - constructor; [|done]. intros Hx. apply (H2 _ Hx). left.
  - intros x [->|Hx]%elem_of_cons; [done|]. intros Hs. apply (H2 _ Hx). by right.
Qed.
Lemma ready_version get tenant version (s : St) ms s' : GetReadyVersion (Some get) tenant version s = (Ok ms, s') ->
  ∃ v caps, version_found get tenant version v caps ∧
    ms = mkModelSnapshot version (mv_model_id v) (mv_storage_path v) (mv_checksum v) (mv_size v) (collect_capabilities [] caps).
Proof.
  unfold GetReadyVersion. intros H. minv H. destruct a0 as [[mv|] caps]; [|discriminate].
  minv H. injection H as <- <-. apply andb_true_iff in Hm3 as [?%bool_decide_eq_true ?%negb_true_iff].
  apply bool_decide_eq_true in Hm1, Hm2. exists mv, caps. split; [|by rewrite Hm1]. split; eauto.
Qed.
Lemma preflight_ok {I} prepare (i : I) k (s s' : St) out : preflight (Some prepare) i k s = (Ok out, s') ->
  prepare i s = (Ok (Some out), s') ∨ ∃ s1, k s1 = (Ok out, s').
Proof. unfold preflight. intros H. minv H. destruct a as [o|]; [left; by injection H as -> ->|right; eauto]. Qed.

Context (c : Clients St) (create : CreateInput -> M St OperationResponse) (prepare : CreateInput -> M St (option OperationResponse)).
(** A receipt the preflight found for the same command. *)
Definition receipt (input : CreateInput) (out : OperationResponse) (s' : St) : Prop :=
  ∃ i s, prepare i s = (Ok (Some out), s') ∧ accepted_part i = accepted_part input.
(** The durable create ran, on an input that satisfies [P]. *)
Definition written (P : CreateInput -> Prop) (out : OperationResponse) (s' : St) : Prop :=
  ∃ i s, P i ∧ create i s = (Ok out, s').
Local Abbreviation durable := (mkCreateLayer create (Some prepare)).

Lemma model_writes input (s s' : St) out : cl_create (with_model c durable) input s = (Ok out, s') ->
  receipt input out s' ∨ written (fun i => sourced c input i ∧ accepted_part i = accepted_part input ∧
    CI_RuntimeNamespace i = CI_RuntimeNamespace input ∧ CI_RuntimeNamespaceUID i = CI_RuntimeNamespaceUID input ∧
    CI_ImageRef i = CI_ImageRef input ∧ CI_ImageSelection i = CI_ImageSelection input) out s'.
Proof.
  unfold with_model. destruct (get_version c) as [g|] eqn:Eg; cbn [cl_create].
  2:{ intros H. right. exists input, s. split; [|done]. split_and!; try done. split; [by rewrite Eg|done]. }
  unfold model_create. intros [H|(s1 & H)]%preflight_ok; [left; exists input, s; done|]. minv H.
  apply ready_version in Hm0 as (v & caps & Hv & ->). right. eexists (with_artifact input _), _. split; [|exact H].
  split_and!; try done. split; [|by rewrite Eg]. rewrite Eg. intros get [= <-]. cbn. apply negb_true_iff, orb_false_iff in Hm1 as [D1 D2].
  exists v, caps. split_and!; try done.
  - apply capabilities_nodup.
  - intros Hn. rewrite bool_decide_false in D1 by done. by apply andb_false_iff in D1 as [|?%negb_false_iff%bool_decide_eq_true].
  - intros Hn. rewrite bool_decide_false in D2 by done. by apply andb_false_iff in D2 as [|?%negb_false_iff%bool_decide_eq_true].
Qed.
Lemma resolved_image client tenant id scope namespace (s : St) ref sel s' :
  ResolveInNamespace sha256_hex (Some client) tenant id scope namespace s = (Ok (ref, sel), s') ->
  ∃ p r name, image_found client tenant id scope p r ∧ ref = ri_reference r ∧
    PullSecretName sha256_hex tenant (ic_cluster client) namespace (ri_registry r) = Ok name ∧
    sel = mkImageSelection id scope (pl_os p) (pl_architecture p) (pl_variant p) (ri_registry r) name.
Proof.
  unfold ResolveInNamespace. destruct client as [[resolve|] [p|] n cluster req]; try by intros [=]. intros H. minv H.
  injection H as <- <- <-. unfold resolution_ok in Hm2. repeat (apply andb_true_iff in Hm2 as [Hm2 ?]).
  apply bool_decide_eq_true in Hm2, H4, H5, H. apply negb_true_iff in H1. apply bool_decide_eq_false in H1.
  exists p, a1, a3. split_and!; try done.
  - split; cbn; try done; [by rewrite H4; eauto|]. rewrite H4. unfold lift, wire_scope in Hm0. injection Hm0 as Hm0 _.
    destruct (bool_decide_reflect (scope = "platform")); [left; split; congruence|].
    destruct (bool_decide_reflect (scope = "tenant")); [right; split; congruence|done].
  - unfold lift in Hm3. injection Hm3 as Hm3 _. by destruct (PullSecretName _ _ _ _ _); simplify_eq.
Qed.
Record resolved (input i : CreateInput) : Prop := {
  rs_same : accepted_part i = accepted_part input;
  rs_placed : placed c input i;
  rs_image : imaged c input i;
  rs_source : sourced c input i }.
Lemma receipt_same i j out s' : accepted_part i = accepted_part j -> receipt i out s' -> receipt j out s'.
Proof. intros E (x & s & H & Ex). exists x, s. split; [done|congruence]. Qed.
Lemma accepted_fields i j : accepted_part i = accepted_part j ->
  CI_TenantID i = CI_TenantID j ∧ CI_ImageID i = CI_ImageID j ∧ CI_ImageScope i = CI_ImageScope j.
Proof. destruct i, j. intros [=]. done. Qed.
Local Abbreviation image_layer := (with_image sha256_hex status_details c prepare (with_model c durable)).
Lemma image_writes input (s s' : St) out : CI_RuntimeNamespace input ≠ "" -> cl_create image_layer input s = (Ok out, s') ->
  receipt input out s' ∨ written (fun i => accepted_part i = accepted_part input ∧
    CI_RuntimeNamespace i = CI_RuntimeNamespace input ∧ CI_RuntimeNamespaceUID i = CI_RuntimeNamespaceUID input ∧
    imaged c input i ∧ sourced c input i) out s'.
Proof.
  intros Hns. unfold with_image. destruct (images c) as [client|] eqn:Ei; cbn [cl_create].
  2:{ intros [H|(i & s1 & (H1 & H2 & H3 & H4 & H5 & H6) & H)]%model_writes; [by left|]. right. exists i, s1.
      split_and!; try done. split; [by rewrite Ei|]. by rewrite Ei, H5, H6. }
  unfold image_create. intros [H|(s1 & H)]%preflight_ok; [left; by exists input, s|].
  destruct (bool_decide_reflect (CI_ImageID input = "")) as [Eid|Eid].
  - minv H. apply model_writes in H as [H|(i & s2 & (H1 & H2 & H3 & H4 & H5 & H6) & H)]; [by left|]. right. exists i, s2.
    split_and!; try done. split; [done|]. intros _. split_and!; [done..|]. rewrite Ei. intros cl [= <-]. by apply negb_true_iff in Hm.
  - cbv zeta in H. rewrite bool_decide_false in H by done. minv H. destruct a as [[ref sel]|e].
    2:{ apply preflight_ok in H as [H|(? & H)]; [|discriminate]. left. eexists _, _. split; [exact H|done]. }
    apply resolved_image in Hm as (p & r & name & E1 & -> & E2 & ->).
    apply model_writes in H as [H|(i & s2 & (H1 & H2 & H3 & H4 & H5 & H6) & H)]; [left; by eapply receipt_same; [|exact H]|].
    right. exists i, s2. split; [|done]. split_and!; [done..| |by destruct H1; split]. split; [|done].
    rewrite Ei. intros _ cl [= <-]. exists p, r, name. rewrite H3, H5, H6. done.
Qed.

(** Claim C37. A create that gets through the layers is either the recorded
    receipt of a request equal to this one in everything the layers do not set, or
    it is written with everything resolved.  Always: the namespace, by name and
    UID, is the only one the cluster listed with the platform's and the tenant's
    labels, named after the tenant, active and not being deleted, and it passed
    the configured prerequisites.  Where an image catalogue is configured and the
    request selects an image: the written reference is the one the catalogue
    answered for that tenant, image, scope and the configured platform, pinned by
    digest inside the registry the catalogue named, with the pull secret of
    exactly this tenant, cluster, namespace and registry; a raw image passes
    unchanged and only where the catalogue is not required.  Where a model
    catalogue is configured: the written artifact and capabilities are those of
    the version the catalogue answered, which is the requested one, is ready and
    has a complete checksum and path, and they do not contradict the request;
    without one the artifact fields pass unchanged.  Tenant, request id, hash,
    attachment, resources and every other field are those of the request.  Remote
    calls may be interleaved with other sessions. *)
Theorem stacked_create_resolved input (s s' : St) out :
  wired_create sha256_hex status_details c create prepare input s = (Ok out, s') ->
  receipt input out s' ∨ written (resolved input) out s'.
Proof.
  unfold wired_create, namespace_create. intros [H|(s1 & H)]%preflight_ok; [left; by exists input, s|].
  minv H. destruct a as [ns|e].
  2:{ apply preflight_ok in H as [H|(? & H)]; [|discriminate]. left. eexists _, _. split; [exact H|done]. }
  minv H. destruct a as [[]|e].
  2:{ apply preflight_ok in H as [H|(? & H)]; [|discriminate]. left. eexists _, _. split; [exact H|done]. }
  assert (Hp : ∃ t t', Prerequisites_Check (prerequisites c) ns t = (Ok tt, t')) by eauto.
  apply namespace_owned in Hm as [n Hn].
  apply image_writes in H as [H|(i & s2 & (H1 & H2 & H3 & H4 & H5) & H)]; [left; by eapply receipt_same; [|exact H]| |cbn; by rewrite (nf_tenant _ _ _ _ _ Hn)].
  right. exists i, s2. split; [|done]. cbn in H2, H3. split; [done| |by destruct H4; split|by destruct H5; split].
  rewrite <- H2, <- H3 in Hn. split; [by exists n|]. rewrite H2, H3. by destruct ns.
Qed.
End Resolved.
(** ** Example *)
Module Example.
Import Server.Example.
#[local] Existing Instance uuids.
Definition reference : string := "registry.local/team/vllm@sha256:" +:+ Gpu.sample_digest.
Definition amd64 : Platform := mkPlatform "linux" "amd64" "".
Definition image_id : string := "img_0123456789abcdef0123456789abcdef".
Definition catalogue : ImageClient log := mkImageClient
  (Some (fun t i sc p => mret (mkResolvedImage t i sc ("sha256:" +:+ Gpu.sample_digest) reference "registry.local" p)))
  (Some amd64) "" "cluster" true.
Definition clients : Clients log := mkClients
  (Some (fun t v => mret (Some (mkModelVersion v "m" "ready" Gpu.sample_digest "s3://bucket/model" 1), [" Chat"; "chat"])))
  (Some catalogue)
  (fun labels => mret [mkNamespace ("tenant-" +:+ tenant) "uid" false "Active" labels])
  (mkPrerequisites (Some (fun _ _ => mret tt)) (Some (fun _ _ => mret (∅, ∅))) "" "" "").
Definition input : CreateInput := mkCreateInput "" "" None tenant "r1" "user:me" "chat" resource "" "" "" [] "" "chat" "vllm" "kserve"
  "serve" (Resources.mkSpec ∅ ∅ None) None "" 1 1 "deployment" None "hash" None image_id "platform".
Definition created (i : CreateInput) : M log OperationResponse := fun s =>
  (from_option Ok (Err (errorf "")) response, (i :: s.1.1, s.1.2, s.2)).
Definition stack_run : result OperationResponse * log :=
  wired_create sha (fun _ => None) clients created (fun _ => mret None) input ([], [], []).
Lemma stacked_create_resolved_witness : ∃ out, stack_run.1 = Ok out ∧
  (receipt (fun _ => mret None) input out stack_run.2 ∨ written created (resolved sha clients input) out stack_run.2).
Proof.
  eexists. split; [vm_compute; reflexivity|].
  eapply (stacked_create_resolved sha (fun _ => None) clients created (fun _ => mret None) input ([], [], [])).
  vm_compute. reflexivity.
Defined.
End Example.
End Intake.
