(* ===== verification/Render.v ===== *)
(** * Rendering

    internal/data/kubernetes/renderer.go, scheduling.go, security.go,
    model_volume.go, image_pull_secret.go (the projection), managed_lws.go and the
    rendering half of kserve.go: a desired generation becomes a Deployment, a
    LeaderWorkerSet, an endpoint Service or a KServe object.  Kubernetes types are
    records of the fields this code writes or compares; an unstructured KServe tree
    is a record whose options say which keys are present.  The API machinery's name
    checks and label constants are the interface [KubeLib]. *)

From S2P Require Import Prelude GoStrings Operation Gpu Resources Engine Canonical Work Schema Contract WorkStore Reconcile Runner ReconcileStore OperationStore Commands Managed Update Server Intake.
From Stdlib Require Import Ascii.
Local Open Scope Z_scope.

(** k8s.io/apimachinery/pkg/util/validation (the first message, if any) and the
    constants of volcano.sh/apis and sigs.k8s.io/lws. *)
Class KubeLib := {
  IsDNS1035Label : string -> option string;
  IsValidLabelValue : string -> bool;
  IsDNS1123Subdomain : string -> bool;
  QueueNameAnnotationKey : string;
  WorkerIndexLabelKey : string;
  GroupIndexLabelKey : string;
  SetNameLabelKey : string }.

Module Render.
Import Managed.Managed Intake.Intake.

Definition serviceIDLabel : string := "ani.kubercloud.com/service-id".
Definition tenantIDLabel : string := "ani.kubercloud.com/tenant-id".
Definition generationLabel : string := "ani.kubercloud.com/generation".
Definition inferenceRuntimeUID : Z := 65534.
Definition KServeInferenceServiceKind : string := "KServeInferenceService".
Definition KServeLLMInferenceServiceKind : string := "KServeLLMInferenceService".
Definition kserveDeploymentMode : string := "Standard".
Definition KServeLLMWorkloadServicePort : Z := 8000.

(** ** Types *)
Inductive IntOrString := FromInt (n : Z) | FromString (s : string).
Record EndpointSpec := mkEndpoint {
  e_container_port : Z; e_service_port : Z; e_target_port : IntOrString; e_protocol : string }.
Record RuntimeSpec := mkRuntimeSpec {
  r_cluster : string; r_namespace_uid : string; r_tenant : string; r_service : string; r_name : string;
  r_namespace : string; r_image : string; r_model_version : string; r_artifact_provider : string;
  r_artifact_ref : string; r_artifact_sha256 : string; r_served_model : string; r_engine : string;
  r_provider : string; r_account : string; r_generation : Z; r_command : string;
  r_resources : Resources.Normalized; r_replicas : Z; r_workers : Z; r_mode : string;
  r_container_port : Z; r_service_port : Z; r_target_port : IntOrString; r_protocol : string;
  r_endpoint : option EndpointSpec; r_model_claim : string; r_snapshot : option Gpu.Snapshot;
  r_managed : bool; r_managed_gpu : bool; r_selection : option ImageSelection }.
#[global] Instance RuntimeSpec_eta : Eta RuntimeSpec := fun r =>
  mkRuntimeSpec (r_cluster r) (r_namespace_uid r) (r_tenant r) (r_service r) (r_name r) (r_namespace r) (r_image r)
    (r_model_version r) (r_artifact_provider r) (r_artifact_ref r) (r_artifact_sha256 r) (r_served_model r) (r_engine r)
    (r_provider r) (r_account r) (r_generation r) (r_command r) (r_resources r) (r_replicas r) (r_workers r) (r_mode r)
    (r_container_port r) (r_service_port r) (r_target_port r) (r_protocol r) (r_endpoint r) (r_model_claim r) (r_snapshot r)
    (r_managed r) (r_managed_gpu r) (r_selection r).

Record ContainerPort := mkContainerPort { cp_name : string; cp_port : Z; cp_protocol : string }.
(** [vm_propagation] is empty for a nil pointer. *)
Record VolumeMount := mkVolumeMount {
  vm_name : string; vm_path : string; vm_sub_path : string; vm_read_only : bool; vm_sub_path_expr : string; vm_propagation : string }.
Record Probe := mkProbe { pb_path : string; pb_port : Z; pb_period : Z; pb_timeout : Z; pb_failures : Z }.
Inductive VolumeSource := ClaimSource (claim : string) (read_only : bool) | EmptyDirSource (medium size : string).
Record Volume := mkVolume { v_name : string; v_source : VolumeSource }.
(** [corev1.SecurityContext] of a container and of a pod. *)
Record ContainerSecurity := mkContainerSecurity { cs_escalation : bool; cs_drop : list string }.
Record PodSecurity := mkPodSecurity {
  ps_user : Z; ps_group : Z; ps_non_root : bool; ps_fs_group : Z; ps_seccomp : string }.
#[global] Instance ContainerPort_eq_dec : EqDecision ContainerPort.
Proof. solve_decision. Defined.
#[global] Instance VolumeMount_eq_dec : EqDecision VolumeMount.
Proof. solve_decision. Defined.
#[global] Instance IntOrString_eq_dec : EqDecision IntOrString.
Proof. solve_decision. Defined.

(** [metav1.ObjectMeta], as sent. *)
Record Meta := mkMeta { m_name : string; m_namespace : string; m_labels : gmap string string; m_annotations : gmap string string }.
Record Service_ := mkService {
  sv_meta : Meta; sv_selector : gmap string string; sv_port : Z; sv_target : IntOrString; sv_protocol : string }.

Section Render.
Context `{Q : QuantityLib} `{K : KubeLib} (sha256_hex : string -> string).

Record Requirements := mkRequirements { rq_requests : gmap string quantity; rq_limits : gmap string quantity }.
Record Container := mkContainer {
  c_name : string; c_image : string; c_command : list string; c_args : list string; c_resources : Requirements;
  c_ports : list ContainerPort; c_env : list (string * string); c_mounts : list VolumeMount; c_startup : option Probe;
  c_readiness : option Probe; c_security : option ContainerSecurity }.
#[global] Instance Container_eta : Eta Container := fun r =>
  mkContainer (c_name r) (c_image r) (c_command r) (c_args r) (c_resources r) (c_ports r) (c_env r) (c_mounts r) (c_startup r)
    (c_readiness r) (c_security r).
Record PodSpec := mkPodSpec {
  p_account : string; p_containers : list Container; p_scheduler : string; p_selector : gmap string string;
  p_runtime_class : option string; p_security : option PodSecurity; p_automount : option bool; p_volumes : list Volume;
  p_pull_secrets : list string }.
#[global] Instance PodSpec_eta : Eta PodSpec := fun r =>
  mkPodSpec (p_account r) (p_containers r) (p_scheduler r) (p_selector r) (p_runtime_class r) (p_security r) (p_automount r)
    (p_volumes r) (p_pull_secrets r).
Record PodTemplate := mkTemplate { t_labels : gmap string string; t_annotations : gmap string string; t_spec : PodSpec }.
Record Deployment_ := mkDeployment {
  d_meta : Meta; d_replicas : Z; d_match : gmap string string; d_template : PodTemplate }.
Record RolloutStrategy := mkRollout {
  ro_type : string; ro_max_unavailable : IntOrString; ro_max_surge : IntOrString; ro_partition : Z }.
Record LeaderWorkerSet_ := mkLWS {
  l_meta : Meta; l_replicas : Z; l_size : Z; l_template : PodTemplate; l_startup : string; l_rollout : RolloutStrategy }.
(** The predictor of an InferenceService and the two templates of an
    LLMInferenceService; [pd_bad] lists the keys whose value has another type. *)
Record Predictor := mkPredictor {
  pd_containers : option (list (option Container)); pd_min : option Z; pd_max : option Z; pd_scheduler : option string;
  pd_selector : option (gmap string string); pd_runtime_class : option string; pd_account : option string;
  pd_pull_secrets : option (list string); pd_security : option PodSecurity; pd_automount : option bool;
  pd_annotations : option (gmap string string); pd_volumes : option (list Volume); pd_bad : list string }.
#[global] Instance Predictor_eta : Eta Predictor := fun r =>
  mkPredictor (pd_containers r) (pd_min r) (pd_max r) (pd_scheduler r) (pd_selector r) (pd_runtime_class r) (pd_account r)
    (pd_pull_secrets r) (pd_security r) (pd_automount r) (pd_annotations r) (pd_volumes r) (pd_bad r).
Inductive KServeSpec :=
  | InferenceServiceSpec (predictor : Predictor)
  | LLMInferenceServiceSpec (uri name : string) (replicas pipeline : Z) (template worker : Predictor).
Record KServeObject := mkKServe { k_meta : Meta; k_spec : KServeSpec }.

(** ** Helpers *)
Definition normalizeEndpoint (spec : RuntimeSpec) : RuntimeSpec :=
  match r_endpoint spec with
  | None => spec
  | Some e => spec <| r_container_port := e_container_port e |> <| r_service_port := e_service_port e |>
                   <| r_target_port := e_target_port e |> <| r_protocol := e_protocol e |>
  end.
Definition shellCommand (raw : string) : list string * list string :=
  if blank raw then ([], []) else (["/bin/sh"; "-c"], [raw]).
Definition validPort (port : Z) : bool := (1 <=? port) && (port <=? 65535).
Definition validProtocol (p : string) : bool := bool_decide (p = "TCP") || bool_decide (p = "UDP") || bool_decide (p = "SCTP").
Definition parse_list (what : string) (m : gmap string string) : result (gmap string quantity) :=
  foldr (fun kv acc => acc ← acc;
           match ParseQuantity kv.2 with
           | None => Err (errorf_before ("invalid " +:+ what +:+ " " +:+ quoted kv.2 +:+ " for " +:+ kv.1) (errorf "unable to parse quantity"))
           | Some q => Ok (<[kv.1 := q]> acc)
           end) (Ok ∅) (map_to_list m).
Definition resourceRequirements (spec : Resources.Normalized) : result Requirements :=
  requests ← parse_list "request" (Resources.Requests spec);
  limits ← parse_list "limit" (Resources.Limits spec);
  Ok (mkRequirements requests limits).
Definition kserveResourceRequirements (spec : Resources.Normalized) : result Requirements :=
  r ← resourceRequirements spec;
  Ok (mkRequirements (rq_requests r) (rq_limits r ∪ rq_requests r)).
Definition ModelClaimName (spec : RuntimeSpec) : string :=
  "ani-model-" +:+ str_take 24 (sha256_hex (r_tenant spec +:+ "/" +:+ r_service spec +:+ "/" +:+ format_int (r_generation spec))).
(** The labels of an object and of its pods, and of a label map a caller reads. *)
Definition owner_labels (spec : RuntimeSpec) : gmap string string :=
  <[tenantIDLabel := r_tenant spec]> {[serviceIDLabel := r_service spec]}.
Definition stable_labels (spec : RuntimeSpec) : gmap string string :=
  <["app.kubernetes.io/name" := "ani-inference"]> (owner_labels spec).
Definition runtime_labels (spec : RuntimeSpec) : gmap string string :=
  <[generationLabel := format_int (r_generation spec)]> (stable_labels spec).
Definition label (m : gmap string string) (key : string) : string := default "" (m !! key).
Definition OwnedBy (labels : gmap string string) (tenant service : string) : bool :=
  negb (bool_decide (tenant = "") || bool_decide (service = "")) &&
  bool_decide (label labels tenantIDLabel = tenant) && bool_decide (label labels serviceIDLabel = service).

(** ** Security and the model volume *)
Definition ApplyNonRootSecurity (pod : PodSpec) : PodSpec :=
  pod <| p_security := Some (mkPodSecurity inferenceRuntimeUID inferenceRuntimeUID true inferenceRuntimeUID "RuntimeDefault") |>
      <| p_automount := Some false |>
      <| p_containers := (fun c => c <| c_security := Some (mkContainerSecurity false ["ALL"]) |>) <$> p_containers pod |>.
Definition model_volumes (claim : string) : list Volume :=
  [mkVolume "model" (ClaimSource claim true); mkVolume "shm" (EmptyDirSource "Memory" "512Mi"); mkVolume "runtime-home" (EmptyDirSource "" "")].
Definition model_mounts : list VolumeMount :=
  [mkVolumeMount "model" "/models" "data" true "" ""; mkVolumeMount "shm" "/dev/shm" "" false "" "";
   mkVolumeMount "runtime-home" "/nonexistent" "" false "" ""].
Definition with_probes (port : Z) (c : Container) : Container :=
  c <| c_startup := Some (mkProbe "/health" port 5 3 120) |> <| c_readiness := Some (mkProbe "/health" port 5 3 3) |>.
(** [&pod.Containers[0]]; every caller passes one container. *)
Definition on_first {A} (f : A -> A) (l : list A) : list A := match l with [] => [] | x :: l => f x :: l end.
Definition mountModelVolume (pod : PodSpec) (spec : RuntimeSpec) (probes : bool) : result PodSpec :=
  if bool_decide (r_model_claim spec = "") || negb (bool_decide (r_artifact_provider spec = "model")) then
    Err (errorf "model PVC requires the Model provider")
  else
    Ok (pod <| p_automount := Some false |> <| p_volumes := model_volumes (r_model_claim spec) |>
            <| p_containers := on_first (fun c =>
                 let c := c <| c_mounts := model_mounts |> in
                 if probes then with_probes (r_container_port spec) c else c) (p_containers pod) |>).
Definition mountModel (pod : PodSpec) (spec : RuntimeSpec) : result PodSpec :=
  if bool_decide (r_model_claim spec = "") then Ok pod
  else if negb (bool_decide (r_artifact_provider spec = "model")) || (r_container_port spec <=? 0) then
    Err (errorf "model PVC requires Model provider and an explicit endpoint")
  else mountModelVolume pod spec true.

(** ** The frozen GPU execution *)
Definition validateGPUSnapshot (spec : RuntimeSpec) : result unit :=
  match Resources.GPU (r_resources spec), r_snapshot spec with
  | None, None => Ok tt
  | None, Some _ => Err (errorf "GPU execution requires a GPU request")
  | Some _, None => Err (errorf "GPU request requires a frozen GPU execution")
  | Some request, Some snapshot =>
      _ ← (match Gpu.ValidateSnapshot (Some snapshot) (Some request) with
           | Ok _ => Ok tt | Err e => Err (errorf_before "invalid GPU execution" e) end);
      _ ← (match Gpu.ValidateTopology (Some request) (r_replicas spec) (r_mode spec) (r_workers spec) with
           | Ok _ => Ok tt | Err e => Err (errorf_before "invalid GPU topology" e) end);
      checkr (negb (bool_decide (r_mode spec = "leader_worker_set"))) (errorf "GPU LeaderWorkerSet is explicitly unsupported")
  end.
Definition add_selectors (plan selector : gmap string string) : result (gmap string string) :=
  foldr (fun kv acc => acc ← acc;
           if blank kv.1 || blank kv.2 then Err (errorf "GPU execution selector key and value are required")
           else match acc !! kv.1 with
                | Some previous => if bool_decide (previous = kv.2) then Ok acc
                                   else Err (errorf ("GPU execution selector " +:+ quoted kv.1 +:+ " conflicts"))
                | None => Ok (<[kv.1 := kv.2]> acc)
                end) (Ok selector) (map_to_list plan).
Definition agrees (m : gmap string quantity) (name : string) (q : quantity) : bool :=
  match m !! name with Some current => q_cmp current q =? 0 | None => true end.
Definition add_resources (plan : gmap string string) (r : Requirements) : result Requirements :=
  foldr (fun kv acc => acc ← acc;
           match ParseQuantity kv.2 with
           | None => Err (errorf_before ("invalid GPU execution resource " +:+ quoted kv.2 +:+ " for " +:+ kv.1) (errorf "unable to parse quantity"))
           | Some q =>
               _ ← checkr (agrees (rq_limits acc) kv.1 q) (errorf ("GPU execution conflicts with container limit " +:+ quoted kv.1));
               _ ← checkr (agrees (rq_requests acc) kv.1 q) (errorf ("GPU execution conflicts with container request " +:+ quoted kv.1));
               Ok (mkRequirements (<[kv.1 := q]> (rq_requests acc)) (<[kv.1 := q]> (rq_limits acc)))
           end) (Ok r) (map_to_list plan).
Definition gpu_annotations (e : Gpu.Execution) : result (gmap string string) :=
  _ ← checkr (negb (Gpu.some_blank_entry (Gpu.PodAnnotations e))) (errorf "GPU execution annotation key and value are required");
  _ ← checkr (negb (bool_decide (Gpu.QueueName e = ""))) (errorf "GPU execution queue is required");
  _ ← checkr (match Gpu.PodAnnotations e !! QueueNameAnnotationKey with
              | Some value => bool_decide (value = Gpu.QueueName e) | None => true end)
        (errorf "GPU queue annotation conflicts with execution");
  Ok (<[QueueNameAnnotationKey := Gpu.QueueName e]> (Gpu.PodAnnotations e)).
Definition class_after (e : Gpu.Execution) (current : option string) : result (option string) :=
  if bool_decide (Gpu.RuntimeClassName e = "") then Ok current
  else match current with
       | Some c => if bool_decide (c = Gpu.RuntimeClassName e) then Ok (Some (Gpu.RuntimeClassName e))
                   else Err (errorf "GPU execution conflicts with pod runtime class")
       | None => Ok (Some (Gpu.RuntimeClassName e))
       end.
(** The pod afterwards and the annotations of its template. *)
Definition applyGPUSnapshotToPod (spec : RuntimeSpec) (pod : PodSpec) (expected : string)
    : result (gmap string string * PodSpec) :=
  _ ← validateGPUSnapshot spec;
  match Resources.GPU (r_resources spec), r_snapshot spec ≫= Gpu.Snap_Execution with
  | None, _ => Ok (∅, pod)
  | Some _, None => Err (errorf "GPU request requires a frozen GPU execution")
  | Some _, Some e =>
      match p_containers pod with
      | [c] =>
          _ ← checkr (bool_decide (c_name c = expected)) (errorf ("GPU execution container must be " +:+ quoted expected));
          _ ← checkr (bool_decide (p_scheduler pod = "") || bool_decide (p_scheduler pod = Gpu.SchedulerName e))
                (errorf "GPU execution conflicts with pod scheduler");
          selector ← add_selectors (Gpu.NodeSelector e) (p_selector pod);
          class ← class_after e (p_runtime_class pod);
          resources ← add_resources (Gpu.Resources e) (c_resources c);
          annotations ← gpu_annotations e;
          Ok (annotations, pod <| p_scheduler := Gpu.SchedulerName e |> <| p_selector := selector |> <| p_runtime_class := class |>
                               <| p_containers := [c <| c_resources := resources |>] |>)
      | _ => Err (errorf ("GPU execution container must be " +:+ quoted expected))
      end
  end.
Definition applyInferenceScheduling (spec : RuntimeSpec) (pod : PodSpec) (container : string)
    : result (gmap string string * PodSpec) :=
  _ ← checkr (bool_decide (p_scheduler pod = "") || bool_decide (p_scheduler pod = "volcano")) (errorf "inference requires the volcano scheduler");
  r ← applyGPUSnapshotToPod spec (pod <| p_scheduler := "volcano" |>) container;
  match Resources.GPU (r_resources spec) with
  | None => Ok ({[QueueNameAnnotationKey := "default"]}, r.2)
  | Some _ => Ok r
  end.

(** ** The accepted image *)
(** What follows the last occurrence of [sub]. *)
Fixpoint after_last (sub s : string) : option string :=
  match s with
  | EmptyString => None
  | String _ t => match after_last sub t with
                  | Some r => Some r
                  | None => if has_prefix s sub then Some (str_drop (String.length sub) s) else None
                  end
  end.
Definition selection_complete (spec : RuntimeSpec) (s : ImageSelection) : bool :=
  negb (bool_decide (r_tenant spec = "") || bool_decide (r_namespace spec = "") || bool_decide (r_namespace_uid spec = "") ||
        bool_decide (IS_ImageID s = "") || negb (bool_decide (IS_Scope s = "tenant") || bool_decide (IS_Scope s = "platform")) ||
        bool_decide (IS_RegistryAuthority s = "") || bool_decide (IS_OS s = "") || bool_decide (IS_Architecture s = "") ||
        negb (IsValidLabelValue (IS_OS s)) || negb (IsValidLabelValue (IS_Architecture s)) ||
        negb (IsDNS1123Subdomain (IS_PullSecretRef s)) ||
        negb (has_prefix (r_image spec) (IS_RegistryAuthority s +:+ "/")) || negb (contains (r_image spec) "@sha256:")).
Definition fixed_hex_digest (digest : string) : bool :=
  bool_decide (is_Some (hex_bytes digest)) && (String.length digest =? 64)%nat && bool_decide (to_lower digest = digest).
Definition validateImageProjection (spec : RuntimeSpec) : result unit :=
  match r_selection spec with
  | None => Ok tt
  | Some s =>
      _ ← checkr (selection_complete spec s) (errorf "accepted image selection is incomplete or has mismatched pull scope");
      _ ← checkr (match PullSecretName sha256_hex (r_tenant spec) (r_cluster spec) (r_namespace spec) (IS_RegistryAuthority s) with
                  | Ok expected => bool_decide (expected = IS_PullSecretRef s) | Err _ => false end)
            (errorf "accepted pull Secret reference is not the shared tenant scope");
      checkr (fixed_hex_digest (default "" (after_last "@sha256:" (r_image spec))))
        (errorf "accepted image reference must contain a fixed sha256 digest")
  end.
(** The Go loop ranges over a map of these two keys; the order only matters for
    a pod that is dropped with the error. *)
Definition select_platform (key value : string) (selector : gmap string string) : result (gmap string string) :=
  match selector !! key with
  | Some existing => if bool_decide (existing = value) then Ok selector
                     else Err (errorf "accepted image platform conflicts with scheduling placement")
  | None => Ok (<[key := value]> selector)
  end.
Definition applyImageProjection (spec : RuntimeSpec) (pod : PodSpec) : result PodSpec :=
  match r_selection spec with
  | None => Ok pod
  | Some s =>
      _ ← validateImageProjection spec;
      selector ← select_platform "kubernetes.io/os" (IS_OS s) (p_selector pod);
      selector ← select_platform "kubernetes.io/arch" (IS_Architecture s) selector;
      let pod := pod <| p_selector := selector |> in
      Ok (if bool_decide (IS_PullSecretRef s ∈ p_pull_secrets pod) then pod
          else pod <| p_pull_secrets := p_pull_secrets pod ++ [IS_PullSecretRef s] |>)
  end.

(** ** The typed objects *)
Definition container_ports (spec : RuntimeSpec) : result (list ContainerPort) :=
  if 0 <? r_container_port spec then
    _ ← checkr (validPort (r_container_port spec) && validProtocol (r_protocol spec))
          (errorf "container port requires a valid port and explicit protocol");
    Ok [mkContainerPort "http" (r_container_port spec) (r_protocol spec)]
  else Ok [].
Definition identified (spec : RuntimeSpec) : bool :=
  negb (bool_decide (r_name spec = "") || bool_decide (r_namespace spec = "") || bool_decide (r_service spec = "") ||
        bool_decide (r_tenant spec = "")).
Definition require_named (spec : RuntimeSpec) : result unit :=
  checkr (identified spec && negb (bool_decide (r_image spec = ""))) (errorf "name, namespace, tenant ID, service ID and image are required").
Definition new_container (name : string) (spec : RuntimeSpec) (requirements : Requirements) (ports : list ContainerPort) : Container :=
  let '(command, args) := shellCommand (r_command spec) in
  mkContainer name (r_image spec) command args requirements ports [] [] None None None.
Definition new_pod (account : string) (c : Container) : PodSpec := mkPodSpec account [c] "" ∅ None None None [] [].
Definition generation_annotation (spec : RuntimeSpec) : gmap string string := {[generationLabel := format_int (r_generation spec)]}.
Definition runtime_meta (spec : RuntimeSpec) : Meta :=
  mkMeta (r_name spec) (r_namespace spec) (runtime_labels spec) (generation_annotation spec).
(** Non-root, scheduled, with the accepted image. *)
Definition scheduled_pod (spec : RuntimeSpec) (pod : PodSpec) (container : string) : result (gmap string string * PodSpec) :=
  r ← applyInferenceScheduling spec pod container;
  pod ← applyImageProjection spec r.2;
  Ok (r.1, pod).
Definition Deployment (spec : RuntimeSpec) : result Deployment_ :=
  let spec := normalizeEndpoint spec in
  _ ← require_named spec;
  _ ← checkr (negb ((r_generation spec <? 1) || (r_replicas spec <? 1))) (errorf "generation and replicas must be positive");
  _ ← checkr (bool_decide (r_mode spec = "") || bool_decide (r_mode spec = "deployment"))
        (errorf ("runtime mode " +:+ quoted (r_mode spec) +:+ " requires the LeaderWorkerSet renderer"));
  requirements ← resourceRequirements (r_resources spec);
  ports ← container_ports spec;
  r ← scheduled_pod spec (ApplyNonRootSecurity (new_pod (r_account spec) (new_container "inference" spec requirements ports))) "inference";
  pod ← mountModel r.2 spec;
  Ok (mkDeployment (runtime_meta spec) (r_replicas spec) (stable_labels spec) (mkTemplate (runtime_labels spec) r.1 pod)).
(** No [normalizeEndpoint] here. *)
Definition LeaderWorkerSet (spec : RuntimeSpec) : result LeaderWorkerSet_ :=
  _ ← require_named spec;
  _ ← checkr (negb ((r_generation spec <? 1) || (r_replicas spec <? 1) || (r_workers spec <? 1)))
        (errorf "generation and replicas must be positive and worker replicas must be positive");
  requirements ← resourceRequirements (r_resources spec);
  ports ← container_ports spec;
  r ← scheduled_pod spec (ApplyNonRootSecurity (new_pod (r_account spec) (new_container "inference" spec requirements ports))) "inference";
  pod ← mountModel r.2 spec;
  Ok (mkLWS (runtime_meta spec) (r_replicas spec) (int32 (r_workers spec + 1)) (mkTemplate (runtime_labels spec) r.1 pod)
        "LeaderCreated" (mkRollout "RollingUpdate" (FromInt 1) (FromInt 0) 0)).
Definition Service (spec : RuntimeSpec) : result Service_ :=
  let spec := normalizeEndpoint spec in
  _ ← checkr (identified spec) (errorf "name, namespace, tenant ID and service ID are required");
  _ ← checkr (negb (r_generation spec <? 1)) (errorf "generation must be positive");
  _ ← checkr (validPort (r_container_port spec) && validPort (r_service_port spec)) (errorf "container and service ports must be between 1 and 65535");
  _ ← checkr (match r_target_port spec with FromInt n => validPort n | FromString s => negb (bool_decide (s = "")) end)
        (errorf "target port must be an explicit positive port or name");
  _ ← checkr (validProtocol (r_protocol spec)) (errorf "service protocol must be TCP, UDP or SCTP");
  let name := r_service spec +:+ "-endpoint" in
  match IsDNS1035Label name with
  | Some e => Err (errorf ("endpoint service name " +:+ quoted name +:+ " is invalid: " +:+ e))
  | None =>
      Ok (mkService (mkMeta name (r_namespace spec) (runtime_labels spec) (generation_annotation spec))
            (if bool_decide (r_mode spec = "leader_worker_set") then <[WorkerIndexLabelKey := "0"]> (runtime_labels spec) else runtime_labels spec)
            (r_service_port spec) (r_target_port spec) (r_protocol spec))
  end.
(** managed_lws.go: never a projection. *)
Definition ProjectManagedGPULeaderWorkerSet (spec : RuntimeSpec) : result LeaderWorkerSet_ :=
  if negb (r_managed_gpu spec) || negb (bool_decide (r_mode spec = "leader_worker_set"))
  then Err (errorf "accepted Governance GPU LWS snapshot is required")
  else Err (errorf "GPU LeaderWorkerSet is explicitly unsupported").

(** ** KServe *)
Definition KServePredictorServiceName (name : string) : string := name +:+ "-predictor".
Definition KServeLLMWorkloadServiceName (name : string) : string := name +:+ "-kserve-workload-svc".
Definition when {A} (b : bool) (a : A) (else_ : option A) : option A := if b then Some a else else_.
Definition applyGPUSnapshotToPredictor (predictor : Predictor) (pod : PodSpec) (annotations : gmap string string) : Predictor :=
  predictor <| pd_scheduler := when (negb (bool_decide (p_scheduler pod = ""))) (p_scheduler pod) (pd_scheduler predictor) |>
            <| pd_selector := when (negb (bool_decide (p_selector pod = ∅))) (p_selector pod) (pd_selector predictor) |>
            <| pd_runtime_class := match p_runtime_class pod with
                                   | Some c => when (negb (bool_decide (c = ""))) c (pd_runtime_class predictor)
                                   | None => pd_runtime_class predictor end |>
            <| pd_account := when (negb (blank (p_account pod))) (p_account pod) (pd_account predictor) |>
            <| pd_pull_secrets := when (negb (bool_decide (p_pull_secrets pod = []))) (p_pull_secrets pod) (pd_pull_secrets predictor) |>
            <| pd_security := match p_security pod with Some s => Some s | None => pd_security predictor end |>
            <| pd_automount := match p_automount pod with Some b => Some b | None => pd_automount predictor end |>
            <| pd_annotations := when (negb (bool_decide (annotations = ∅))) annotations (pd_annotations predictor) |>.
Definition with_volumes (pod : PodSpec) (p : Predictor) : Predictor :=
  p <| pd_volumes := match p_volumes pod with [] => pd_volumes p | v => Some v end |>
    <| pd_automount := match p_automount pod with Some b => Some b | None => pd_automount p end |>.
Definition new_predictor (pod : PodSpec) (replicas : option Z) : Predictor :=
  mkPredictor (Some (Some <$> p_containers pod)) replicas replicas None None None None None None None None None [].
Definition kserve_labels (spec : RuntimeSpec) : gmap string string :=
  <["ani.kubercloud.com/provider" := "kserve"]> (runtime_labels spec).
Definition mount_kserve (spec : RuntimeSpec) (pod : PodSpec) : result PodSpec :=
  if 0 <? r_container_port spec then mountModel pod spec
  else if bool_decide (r_model_claim spec = "") then Ok pod else mountModelVolume pod spec false.
Definition renderKServeInferenceService (spec : RuntimeSpec) : result KServeObject :=
  let spec := normalizeEndpoint spec in
  _ ← require_named spec;
  _ ← checkr (String.length (KServePredictorServiceName (r_name spec)) <=? 63)%nat (errorf "KServe predictor Service name exceeds 63 characters");
  _ ← checkr (negb ((r_generation spec <? 1) || (r_replicas spec <? 1))) (errorf "generation and replicas must be positive");
  _ ← validateGPUSnapshot spec;
  requirements ← kserveResourceRequirements (r_resources spec);
  ports ← container_ports spec;
  pod ← mount_kserve spec (ApplyNonRootSecurity (new_pod (trim_space (r_account spec)) (new_container "kserve-container" spec requirements ports)));
  r ← scheduled_pod spec pod "kserve-container";
  let predictor := applyGPUSnapshotToPredictor (new_predictor r.2 (Some (r_replicas spec))) r.2 r.1 in
  Ok (mkKServe (mkMeta (r_name spec) (r_namespace spec) (kserve_labels spec)
                 (<["serving.kserve.io/deploymentMode" := kserveDeploymentMode]>
                    (<["serving.kserve.io/autoscalerClass" := "external"]> (generation_annotation spec))))
        (InferenceServiceSpec (with_volumes r.2 predictor))).
Definition firstNonEmpty (a b : string) : string := if negb (blank a) then a else if negb (blank b) then b else "".
Definition llm_port (spec : RuntimeSpec) : result unit :=
  _ ← checkr (negb (blank (r_model_claim spec))) (errorf "LLMInferenceService requires a materialized model PVC");
  _ ← checkr ((r_container_port spec =? 0) || (r_container_port spec =? KServeLLMWorkloadServicePort))
        (errorf "LLMInferenceService requires container port 8000");
  checkr (negb (0 <? r_container_port spec) || bool_decide (r_protocol spec = "TCP")) (errorf "LLMInferenceService requires TCP protocol").
Definition llm_template (spec : RuntimeSpec) (pod : PodSpec) : Predictor :=
  let account := trim_space (r_account spec) in
  let p := (new_predictor pod None) <| pd_account := when (negb (bool_decide (account = ""))) account None |> in
  with_volumes pod (applyGPUSnapshotToPredictor p pod ∅).
Definition renderKServeLLMInferenceService (spec : RuntimeSpec) : result KServeObject :=
  let spec := normalizeEndpoint spec in
  _ ← checkr (negb (r_managed_gpu spec || bool_decide (is_Some (Resources.GPU (r_resources spec)))))
        (errorf "GPU LWS rendering requires a synchronous pre-create projection hook; KServe v0.16 drops required queue and pod annotations");
  _ ← require_named spec;
  _ ← checkr (String.length (KServeLLMWorkloadServiceName (r_name spec)) <=? 63)%nat (errorf "KServe workload Service name exceeds 63 characters");
  _ ← checkr (negb ((r_generation spec <? 1) || (r_replicas spec <? 1))) (errorf "generation and replicas must be positive");
  _ ← validateGPUSnapshot spec;
  _ ← llm_port spec;
  requirements ← kserveResourceRequirements (r_resources spec);
  ports ← container_ports spec;
  pod ← mount_kserve spec (ApplyNonRootSecurity (new_pod (trim_space (r_account spec)) (new_container "main" spec requirements ports)));
  r ← scheduled_pod spec pod "main";
  let workers := if r_workers spec <? 1 then 1 else r_workers spec in
  Ok (mkKServe (mkMeta (r_name spec) (r_namespace spec) (kserve_labels spec) (generation_annotation spec))
        (LLMInferenceServiceSpec ("pvc://" +:+ r_model_claim spec +:+ "/data") (firstNonEmpty (r_served_model spec) (r_name spec))
           (r_replicas spec) (int32 (workers + 1)) (llm_template spec r.2) (llm_template spec r.2))).
Definition RenderKServeRuntime (spec : RuntimeSpec) : result KServeObject :=
  if bool_decide (r_mode spec = "") || bool_decide (r_mode spec = "deployment") then renderKServeInferenceService spec
  else if bool_decide (r_mode spec = "leader_worker_set") then renderKServeLLMInferenceService spec
  else Err (errorf ("unsupported KServe runtime mode " +:+ quoted (r_mode spec))).

(** ** What a rendered pod is *)
Lemma add_selectors_ok plan selector out : add_selectors plan selector = Ok out -> plan ⊆ out ∧ selector ⊆ out.
Proof.
  unfold add_selectors. rewrite <- (list_to_map_to_list plan) at 2. generalize (NoDup_fst_map_to_list plan).
  generalize (map_to_list plan) as l. intros l. revert out. induction l as [|[k v] l IH]; intros out Hn H; cbn -[blank] in H.
  { injection H as <-. cbn. split; [apply map_empty_subseteq|done]. }
  apply NoDup_cons in Hn as [Hk Hn]. minv H. destruct (IH _ Hn Hm) as [H1 H2]. cbn.
  destruct (_ || _); [done|]. destruct (a !! k) as [p|] eqn:Ek.
  - destruct (bool_decide_reflect (p = v)) as [->|]; [|done]. injection H as <-. split; [|done]. by apply insert_subseteq_l.
  - injection H as <-. split; [by apply insert_mono|]. etrans; [done|]. by apply insert_subseteq.
Qed.
Lemma add_resources_ok plan r out : add_resources plan r = Ok out ->
  ∀ k v, plan !! k = Some v -> ∃ q, ParseQuantity v = Some q ∧ rq_limits out !! k = Some q ∧ rq_requests out !! k = Some q.
Proof.
  unfold add_resources. intros H k v Hk. apply elem_of_map_to_list in Hk. revert out H Hk.
  generalize (NoDup_fst_map_to_list plan). generalize (map_to_list plan) as l. intros l.
  induction l as [|[k' v'] l IH]; intros Hn out H Hin; [by apply not_elem_of_nil in Hin|]. cbn in H.
  apply NoDup_cons in Hn as [Hk Hn]. minv H. destruct (ParseQuantity v') as [q|] eqn:Eq; [|done]. minv H. injection H as <-.
  cbn. apply elem_of_cons in Hin as [[= -> ->]|Hin].
  - exists q. by rewrite !lookup_insert_eq.
  - destruct (IH Hn _ Hm Hin) as (q' & ? & ? & ?). exists q'. split; [done|].
    assert (k' ≠ k) by (intros ->; apply Hk, list_elem_of_fmap; by exists (k, v)). by rewrite !lookup_insert_ne.
Qed.

(** Runs as nobody, cannot escalate, has no API token, and its only container
    runs the accepted image with the accepted command. *)
Record hardened (spec : RuntimeSpec) (pod : PodSpec) : Prop := {
  hd_security : p_security pod = Some (mkPodSecurity inferenceRuntimeUID inferenceRuntimeUID true inferenceRuntimeUID "RuntimeDefault");
  hd_token : p_automount pod = Some false;
  hd_container : ∃ c, p_containers pod = [c] ∧ c_image c = r_image spec ∧ (c_command c, c_args c) = shellCommand (r_command spec) ∧
    c_security c = Some (mkContainerSecurity false ["ALL"]) }.
(** Holds exactly the accelerators of its frozen plan, where the plan says. *)
Definition accelerated (spec : RuntimeSpec) (annotations : gmap string string) (pod : PodSpec) : Prop :=
  match Resources.GPU (r_resources spec) with
  | None => r_snapshot spec = None ∧ annotations = {[QueueNameAnnotationKey := "default"]}
  | Some request => ∃ snapshot e, r_snapshot spec = Some snapshot ∧ Gpu.Snap_Request snapshot = Some request ∧ Gpu.Snap_Execution snapshot = Some e ∧
      annotations = <[QueueNameAnnotationKey := Gpu.QueueName e]> (Gpu.PodAnnotations e) ∧ Gpu.QueueName e ≠ "" ∧
      Gpu.NodeSelector e ⊆ p_selector pod ∧ (Gpu.RuntimeClassName e ≠ "" -> p_runtime_class pod = Some (Gpu.RuntimeClassName e)) ∧
      ∀ c k v, c ∈ p_containers pod -> Gpu.Resources e !! k = Some v ->
        ∃ q, ParseQuantity v = Some q ∧ rq_limits (c_resources c) !! k = Some q ∧ rq_requests (c_resources c) !! k = Some q
  end.
(** Lands on a node of the image's platform and can pull it. *)
Definition pulls_image (spec : RuntimeSpec) (pod : PodSpec) : Prop :=
  ∀ s, r_selection spec = Some s -> validateImageProjection spec = Ok tt ∧ p_selector pod !! "kubernetes.io/os" = Some (IS_OS s) ∧
    p_selector pod !! "kubernetes.io/arch" = Some (IS_Architecture s) ∧ IS_PullSecretRef s ∈ p_pull_secrets pod.
(** Mounts the model of this generation, read-only. *)
Definition mounted (spec : RuntimeSpec) (pod : PodSpec) : Prop :=
  if bool_decide (r_model_claim spec = "") then p_volumes pod = []
  else p_volumes pod = model_volumes (r_model_claim spec) ∧ r_artifact_provider spec = "model" ∧
       ∀ c, c ∈ p_containers pod -> c_mounts c = model_mounts.
(** Asks for no resource but the accepted ones and those of the frozen plan. *)
Definition accounted (spec : RuntimeSpec) (r : Requirements) : Prop :=
  ∀ k q, rq_requests r !! k = Some q ∨ rq_limits r !! k = Some q ->
    ∃ v, ParseQuantity v = Some q ∧
      (Resources.Requests (r_resources spec) !! k = Some v ∨ Resources.Limits (r_resources spec) !! k = Some v ∨
       Resources.GPU (r_resources spec) ≠ None ∧
         ∃ e, r_snapshot spec ≫= Gpu.Snap_Execution = Some e ∧ Gpu.Resources e !! k = Some v).
Definition resourced (spec : RuntimeSpec) (pod : PodSpec) : Prop :=
  Forall (fun c => accounted spec (c_resources c)) (p_containers pod).
Record workload (spec : RuntimeSpec) (annotations : gmap string string) (pod : PodSpec) : Prop := {
  wl_hardened : hardened spec pod;
  wl_scheduler : p_scheduler pod = "volcano";
  wl_accelerated : accelerated spec annotations pod;
  wl_resourced : resourced spec pod;
  wl_image : pulls_image spec pod;
  wl_model : mounted spec pod }.

Lemma parse_list_only what m out k q : parse_list what m = Ok out -> out !! k = Some q ->
  ∃ v, ParseQuantity v = Some q ∧ m !! k = Some v.
Proof.
  unfold parse_list. intros H Hk. setoid_rewrite <- elem_of_map_to_list. revert out H Hk. generalize (map_to_list m) as l. intros l.
  induction l as [|[k' v'] l IH]; intros out H Hk; cbn in H; [by injection H as <-|]. minv H.
  destruct (ParseQuantity v') as [q'|] eqn:Eq; [|done]. injection H as <-.
  apply lookup_insert_Some in Hk as [[<- <-]|[_ Hk]]; [exists v'; split; [done|left]|].
  destruct (IH _ Hm Hk) as (v & ? & ?). exists v. split; [done|by right].
Qed.
Lemma requirements_accounted spec r : resourceRequirements (r_resources spec) = Ok r -> accounted spec r.
Proof.
  unfold resourceRequirements. intros H. minv H. injection H as <-. intros k q [Hk|Hk]; cbn in Hk.
  - destruct (parse_list_only _ _ _ _ _ Hm Hk) as (v & ? & ?). eauto.
  - destruct (parse_list_only _ _ _ _ _ Hm0 Hk) as (v & ? & ?). eauto.
Qed.
Lemma kserve_accounted spec r : kserveResourceRequirements (r_resources spec) = Ok r -> accounted spec r.
Proof.
  unfold kserveResourceRequirements. intros H. minv H. injection H as <-. apply requirements_accounted in Hm.
  intros k q [Hk|Hk]; cbn in Hk; [by apply Hm; left|]. apply lookup_union_Some_raw in Hk as [Hk|[_ Hk]]; apply Hm; auto.
Qed.
Lemma add_resources_only plan r out k q : add_resources plan r = Ok out ->
  rq_requests out !! k = Some q ∨ rq_limits out !! k = Some q ->
  (rq_requests r !! k = Some q ∨ rq_limits r !! k = Some q) ∨ ∃ v, ParseQuantity v = Some q ∧ plan !! k = Some v.
Proof.
  unfold add_resources. intros H Hk. setoid_rewrite <- (elem_of_map_to_list plan). revert out H Hk. generalize (map_to_list plan) as l. intros l.
  induction l as [|[k' v'] l IH]; intros out H Hk; cbn in H.
  { injection H as <-. by left. }
  minv H.
  destruct (ParseQuantity v') as [q'|] eqn:Eq; [|done]. minv H. injection H as <-. cbn in Hk. rewrite !lookup_insert_Some in Hk.
  assert ((k' = k ∧ q' = q) ∨ (rq_requests a !! k = Some q ∨ rq_limits a !! k = Some q)) as [[<- <-]|Ha] by tauto.
  - right. exists v'. split; [done|left].
  - destruct (IH _ Hm Ha) as [?|(v & ? & ?)]; [by left|]. right. exists v. split; [done|by right].
Qed.
Lemma resourced_new spec account name requirements ports : accounted spec requirements ->
  resourced spec (ApplyNonRootSecurity (new_pod account (new_container name spec requirements ports))).
Proof. intros H. unfold resourced, new_container. destruct (shellCommand _). by apply Forall_singleton. Qed.
Lemma resourced_volume spec pod probes out : mountModelVolume pod spec probes = Ok out -> resourced spec pod -> resourced spec out.
Proof.
  unfold mountModelVolume. destruct (_ || _); [done|]. intros [= <-]. unfold resourced. cbn.
  destruct (p_containers pod); [done|]. cbn. rewrite !Forall_cons. by destruct probes.
Qed.
Lemma resourced_mount spec pod out : mountModel pod spec = Ok out -> resourced spec pod -> resourced spec out.
Proof. unfold mountModel. destruct (bool_decide _); [by intros [= <-]|]. destruct (_ || _); [done|]. apply resourced_volume. Qed.
Lemma resourced_mount_kserve spec pod out : mount_kserve spec pod = Ok out -> resourced spec pod -> resourced spec out.
Proof.
  unfold mount_kserve. destruct (_ <? _); [apply resourced_mount|]. destruct (bool_decide _); [by intros [= <-]|]. apply resourced_volume.
Qed.
Lemma resourced_snapshot spec pod name an out : applyGPUSnapshotToPod spec pod name = Ok (an, out) -> resourced spec pod -> resourced spec out.
Proof.
  unfold applyGPUSnapshotToPod, resourced. intros H Hr. minv H. destruct (Resources.GPU _) eqn:Eg; [|by injection H as _ <-].
  destruct (r_snapshot spec ≫= _) as [e|] eqn:Ee; [|done]. destruct (p_containers pod) as [|c [|]]; [done| |done].
  minv H. injection H as _ <-. inversion_clear Hr as [|? ? Hc _]. cbn. apply Forall_singleton. cbn. intros k q Hk.
  destruct (add_resources_only _ _ _ _ _ Hm4 Hk) as [?|(v & ? & ?)]; [by apply Hc|]. exists v. split; [done|]. right. right. rewrite Eg. eauto.
Qed.
Lemma projected_containers spec pod out : applyImageProjection spec pod = Ok out -> p_containers out = p_containers pod.
Proof.
  unfold applyImageProjection. destruct (r_selection spec) as [s|]; [|by intros [= <-]]. intros H. minv H. injection H as <-.
  by destruct (bool_decide _).
Qed.
Lemma resourced_scheduled spec pod name an out : scheduled_pod spec pod name = Ok (an, out) -> resourced spec pod -> resourced spec out.
Proof.
  unfold scheduled_pod, applyInferenceScheduling. intros H Hr. minv H. injection H as _ <-. unfold resourced.
  rewrite (projected_containers _ _ _ Hm0). minv Hm. destruct a2 as [an1 p1].
  apply resourced_snapshot in Hm2; [|done]. destruct (Resources.GPU _); by injection Hm as <-.
Qed.

Lemma new_hardened spec account name requirements ports :
  hardened spec (ApplyNonRootSecurity (new_pod account (new_container name spec requirements ports))).
Proof. split; [done..|]. unfold new_container. destruct (shellCommand _) eqn:E. eexists. split; [done|]. done. Qed.
Lemma mount_volume_ok pod spec probes out : mountModelVolume pod spec probes = Ok out ->
  (hardened spec pod -> hardened spec out) ∧ p_scheduler out = p_scheduler pod ∧
  (∀ an, accelerated spec an pod -> accelerated spec an out) ∧ (pulls_image spec pod -> pulls_image spec out) ∧
  (hardened spec pod -> r_model_claim spec ≠ "" ∧ mounted spec out).
Proof.
  unfold mountModelVolume. destruct (_ || _) eqn:E; [done|]. apply orb_false_iff in E as [E1%bool_decide_eq_false E2%negb_false_iff%bool_decide_eq_true].
  intros [= <-]. split_and!; try done.
  - intros [H1 H2 (c & H3 & H4 & H5 & H6)]. split; [done..|]. cbn. rewrite H3. cbn. eexists. split; [done|]. by destruct probes.
  - intros an. unfold accelerated. destruct (Resources.GPU _); [|done]. intros (s & e & ? & ? & ? & ? & ? & ? & ? & Hc).
    exists s, e. split_and!; try done. intros c k v Hin. cbn in Hin. destruct (p_containers pod) as [|c0 l]; [by apply not_elem_of_nil in Hin|].
    cbn in Hin. apply elem_of_cons in Hin as [->|Hin].
    + intros Hk. destruct (Hc c0 k v) as (q & ?); [left|done|]. exists q. by destruct probes.
    + apply Hc. by right.
  - intros [_ _ (c & H3 & _)]. split; [done|]. unfold mounted. rewrite bool_decide_false by done. split_and!; [done..|].
    cbn. rewrite H3. cbn. intros c' ->%list_elem_of_singleton. by destruct probes.
Qed.

Lemma validated_snapshot spec request : validateGPUSnapshot spec = Ok tt -> Resources.GPU (r_resources spec) = Some request ->
  ∃ snapshot e, r_snapshot spec = Some snapshot ∧ Gpu.Snap_Request snapshot = Some request ∧ Gpu.Snap_Execution snapshot = Some e.
Proof.
  unfold validateGPUSnapshot. intros H Eg. rewrite Eg in H. destruct (r_snapshot spec) as [s|]; [|done]. minv H.
  unfold Gpu.ValidateSnapshot in Hm. destruct (Gpu.Snap_Request s) as [r|] eqn:Er; [|done]. destruct (Gpu.Snap_Execution s) as [e|] eqn:Ee; [|done].
  destruct (Gpu.Snap_Display s); [|done]. destruct (bool_decide_reflect (r = request)) as [->|]; [|done]. eauto 10.
Qed.
Lemma class_after_ok e current out : class_after e current = Ok out -> Gpu.RuntimeClassName e ≠ "" -> out = Some (Gpu.RuntimeClassName e).
Proof.
  unfold class_after. intros H Hn. rewrite bool_decide_false in H by done. destruct current; [|by injection H as <-].
  destruct (bool_decide _); [by injection H as <-|done].
Qed.
Lemma gpu_annotations_ok e out : gpu_annotations e = Ok out ->
  out = <[QueueNameAnnotationKey := Gpu.QueueName e]> (Gpu.PodAnnotations e) ∧ Gpu.QueueName e ≠ "".
Proof.
  unfold gpu_annotations. intros H. minv H. injection H as <-. split; [done|]. by apply negb_true_iff, bool_decide_eq_false in Hm0.
Qed.
Lemma gpu_pod spec pod name annotations out : applyGPUSnapshotToPod spec pod name = Ok (annotations, out) ->
  Resources.GPU (r_resources spec) ≠ None -> p_scheduler pod = "volcano" -> hardened spec pod ->
  hardened spec out ∧ p_scheduler out = "volcano" ∧ accelerated spec annotations out ∧ (mounted spec pod -> mounted spec out).
Proof.
  unfold applyGPUSnapshotToPod. intros H Hn Hs [H1 H2 (c & H3 & H4 & H5 & H6)]. minv H. destruct a.
  destruct (Resources.GPU (r_resources spec)) as [request|] eqn:Eg; [|done].
  destruct (validated_snapshot spec request Hm Eg) as (s & e & Es & Er & Ee). rewrite Es in H. cbn in H. rewrite Ee, H3 in H. minv H.
  injection H as <- <-. apply orb_true_iff in Hm1 as [?%bool_decide_eq_true|?%bool_decide_eq_true]; [by rewrite Hs in *|].
  apply add_selectors_ok in Hm2 as [H7 H8]. split_and!; try (cbn; congruence).
  - split; [done..|]. eexists. split; [done|]. done.
  - unfold accelerated. rewrite Eg. exists s, e. apply gpu_annotations_ok in Hm5 as [-> ?]. split_and!; try done; [by apply (class_after_ok _ _ _ Hm3)|]. cbn. intros c' k v ->%list_elem_of_singleton Hk.
    by apply (add_resources_ok _ _ _ Hm4).
  - unfold mounted. rewrite H3. destruct (decide (r_model_claim spec = "")); [by rewrite !bool_decide_true|].
    rewrite !bool_decide_false by done. cbn. intros (? & ? & Hc). split_and!; try done.
    intros c' ->%list_elem_of_singleton. cbn. apply Hc. left.
Qed.
Lemma scheduling_ok spec pod name annotations out : applyInferenceScheduling spec pod name = Ok (annotations, out) -> hardened spec pod ->
  hardened spec out ∧ p_scheduler out = "volcano" ∧ accelerated spec annotations out ∧ (mounted spec pod -> mounted spec out).
Proof.
  unfold applyInferenceScheduling. intros H Hh. minv H.
  assert (hardened spec (pod <| p_scheduler := "volcano" |>)) as Hh' by by destruct Hh.
  destruct (Resources.GPU (r_resources spec)) as [request|] eqn:Eg.
  - injection H as ->. apply gpu_pod in Hm0; [|by rewrite Eg|done..]. done.
  - injection H as <- <-. unfold applyGPUSnapshotToPod in Hm0. rewrite Eg in Hm0. minv Hm0. destruct a1. injection Hm0 as <-.
    split_and!; [done..| |done]. unfold accelerated. rewrite Eg. split; [|done].
    unfold validateGPUSnapshot in Hm1. rewrite Eg in Hm1. by destruct (r_snapshot spec).
Qed.
Lemma select_platform_ok key value selector out : select_platform key value selector = Ok out ->
  out !! key = Some value ∧ selector ⊆ out.
Proof.
  unfold select_platform. destruct (selector !! key) as [v|] eqn:E.
  - destruct (bool_decide_reflect (v = value)) as [->|]; [|done]. by intros [= <-].
  - intros [= <-]. rewrite lookup_insert_eq. split; [done|]. by apply insert_subseteq.
Qed.
(** Selectors only grow: what a plan selected stays selected. *)
Lemma projection_ok spec pod out : applyImageProjection spec pod = Ok out ->
  pulls_image spec out ∧ p_selector pod ⊆ p_selector out ∧
  (p_account out, p_containers out, p_scheduler out, p_runtime_class out, p_security out, p_automount out, p_volumes out) =
  (p_account pod, p_containers pod, p_scheduler pod, p_runtime_class pod, p_security pod, p_automount pod, p_volumes pod).
Proof.
  unfold applyImageProjection, pulls_image. destruct (r_selection spec) as [s|]; [|by intros [= <-]]. intros H. minv H. injection H as <-.
  apply select_platform_ok in Hm0 as [H1 H2], Hm1 as [H3 H4]. destruct a. split_and!.
  - intros s' [= <-]. split_and!; [done|..].
    + destruct (bool_decide _); cbn; by eapply lookup_weaken.
    + by destruct (bool_decide _).
    + cbn. case_bool_decide; cbn; [done|]. set_solver.
  - destruct (bool_decide _); cbn; by etrans.
  - by destruct (bool_decide _).
Qed.
Lemma scheduled_ok spec pod name annotations out : scheduled_pod spec pod name = Ok (annotations, out) -> hardened spec pod ->
  hardened spec out ∧ p_scheduler out = "volcano" ∧ accelerated spec annotations out ∧ pulls_image spec out ∧
  (mounted spec pod -> mounted spec out).
Proof.
  unfold scheduled_pod. intros H Hh. minv H. destruct a as [an p]. injection H as <- <-. cbn in *.
  apply scheduling_ok in Hm as (H1 & H2 & H3 & H4); [|done]. apply projection_ok in Hm0 as (H5 & H6 & [= E1 E2 E3 E4 E5 E6 E7]).
  split_and!; [|congruence| |done|].
  - destruct H1 as [? ? ?]. split; by rewrite ?E2, ?E5, ?E6.
  - unfold accelerated in *. destruct (Resources.GPU _); [|done]. destruct H3 as (s & e & ? & ? & ? & ? & ? & ? & ? & ?).
    exists s, e. rewrite E2, E4. split_and!; try done. by etrans.
  - unfold mounted in *. by rewrite E2, E7.
Qed.
Lemma mount_ok pod spec out : mountModel pod spec = Ok out -> hardened spec pod -> p_volumes pod = [] ->
  hardened spec out ∧ p_scheduler out = p_scheduler pod ∧ (∀ an, accelerated spec an pod -> accelerated spec an out) ∧
  (pulls_image spec pod -> pulls_image spec out) ∧ mounted spec out.
Proof.
  unfold mountModel. destruct (bool_decide_reflect (r_model_claim spec = "")) as [E|E].
  { intros [= <-] Hh Hv. split_and!; try done. unfold mounted. by rewrite bool_decide_true. }
  destruct (_ || _); [done|]. intros (H1 & H2 & H3 & H4 & H5)%mount_volume_ok Hh Hv. split_and!; try done; [by apply H1|by apply H5].
Qed.
Lemma mount_kserve_ok pod spec out : mount_kserve spec pod = Ok out -> hardened spec pod -> p_volumes pod = [] ->
  hardened spec out ∧ mounted spec out.
Proof.
  unfold mount_kserve. destruct (_ <? _).
  { intros H Hh Hv. by apply mount_ok in H as (? & _ & _ & _ & ?). }
  destruct (bool_decide_reflect (r_model_claim spec = "")) as [E|E].
  { intros [= <-] Hh Hv. split; [done|]. unfold mounted. by rewrite bool_decide_true. }
  intros (H1 & H2 & H3 & H4 & H5)%mount_volume_ok Hh Hv. split; [by apply H1|by apply H5].
Qed.

(** The keys of a KServe pod template carry the pod. *)
Record carries (p : Predictor) (pod : PodSpec) : Prop := {
  ca_containers : pd_containers p = Some (Some <$> p_containers pod);
  ca_scheduler : pd_scheduler p = Some (p_scheduler pod);
  ca_security : pd_security p = p_security pod;
  ca_token : pd_automount p = p_automount pod;
  ca_selector : default ∅ (pd_selector p) = p_selector pod;
  ca_class : ∀ c, p_runtime_class pod = Some c -> c ≠ "" -> pd_runtime_class p = Some c;
  ca_secrets : default [] (pd_pull_secrets p) = p_pull_secrets pod;
  ca_volumes : default [] (pd_volumes p) = p_volumes pod;
  ca_typed : pd_bad p = [] }.
Lemma predictor_carries pod p an : p_scheduler pod ≠ "" -> p_security pod ≠ None -> p_automount pod ≠ None ->
  pd_containers p = Some (Some <$> p_containers pod) -> pd_bad p = [] -> pd_selector p = None -> pd_pull_secrets p = None ->
  pd_volumes p = None -> carries (with_volumes pod (applyGPUSnapshotToPredictor p pod an)) pod.
Proof.
  intros Hs Hc Ha Ec Eb E1 E2 E3. split; cbn; try done.
  - by rewrite bool_decide_false.
  - by destruct (p_security pod).
  - by destruct (p_automount pod).
  - rewrite E1. case_bool_decide as E; cbn; [by rewrite E|done].
  - intros c -> Hn. by rewrite bool_decide_false.
  - rewrite E2. case_bool_decide as E; cbn; [by rewrite E|done].
  - rewrite E3. by destruct (p_volumes pod).
Qed.
Lemma workload_set spec annotations pod : workload spec annotations pod ->
  p_scheduler pod ≠ "" ∧ p_security pod ≠ None ∧ p_automount pod ≠ None.
Proof. intros [[H1 H2 _] H3 _ _ _ _]. by rewrite H1, H2, H3. Qed.
(** An object that says whose it is. *)
Definition owned_object (spec : RuntimeSpec) (m : Meta) : Prop :=
  m_name m = r_name spec ∧ m_namespace m = r_namespace spec ∧ OwnedBy (m_labels m) (r_tenant spec) (r_service spec) = true ∧
  label (m_labels m) generationLabel = format_int (r_generation spec).
Lemma owned_labels spec : identified spec = true -> OwnedBy (runtime_labels spec) (r_tenant spec) (r_service spec) = true.
Proof.
  unfold identified. rewrite negb_true_iff, !orb_false_iff. intros [[[_ _] ?%bool_decide_eq_false] ?%bool_decide_eq_false].
  unfold OwnedBy. rewrite !(bool_decide_false (_ = "")) by done.
  assert (label (runtime_labels spec) tenantIDLabel = r_tenant spec) as ->.
  { unfold label, runtime_labels, stable_labels, owner_labels. rewrite !lookup_insert_ne by done. by rewrite lookup_insert_eq. }
  assert (label (runtime_labels spec) serviceIDLabel = r_service spec) as ->; [|by rewrite !bool_decide_true].
  unfold label, runtime_labels, stable_labels, owner_labels. rewrite !lookup_insert_ne by done. by rewrite lookup_singleton_eq.
Qed.
Lemma owned_meta spec : require_named spec = Ok tt -> owned_object spec (runtime_meta spec).
Proof.
  unfold require_named. intros [H _]%checkr_ok_inv%andb_true_iff. split_and!; [done..|by apply owned_labels|].
  unfold label. cbn. by rewrite lookup_insert_eq.
Qed.
Lemma kserve_meta spec annotations : require_named spec = Ok tt ->
  owned_object spec (mkMeta (r_name spec) (r_namespace spec) (kserve_labels spec) annotations).
Proof.
  intros (_ & _ & H1 & H2)%owned_meta. split_and!; [done..| |].
  - unfold OwnedBy, label, kserve_labels in *. cbn in *. by rewrite !lookup_insert_ne by done.
  - unfold label, kserve_labels in *. cbn in *. by rewrite lookup_insert_ne by done.
Qed.
Lemma kserve_workload spec account name requirements ports pod an out :
  kserveResourceRequirements (r_resources spec) = Ok requirements ->
  mount_kserve spec (ApplyNonRootSecurity (new_pod account (new_container name spec requirements ports))) = Ok pod ->
  scheduled_pod spec pod name = Ok (an, out) -> workload spec an out.
Proof.
  intros Hq Hmount Hsched. pose proof (resourced_mount_kserve _ _ _ Hmount (resourced_new _ _ _ _ _ (kserve_accounted _ _ Hq))) as Hr.
  pose proof (resourced_scheduled _ _ _ _ _ Hsched Hr). apply mount_kserve_ok in Hmount as [H1 H2]; [|apply new_hardened|done].
  apply scheduled_ok in Hsched as (H3 & H4 & H5 & H6 & H7); [|done]. split; auto.
Qed.
Lemma typed_workload spec requirements ports an pod out :
  resourceRequirements (r_resources spec) = Ok requirements ->
  scheduled_pod spec (ApplyNonRootSecurity (new_pod (r_account spec) (new_container "inference" spec requirements ports))) "inference" = Ok (an, pod) ->
  p_volumes pod = [] -> mountModel pod spec = Ok out -> workload spec an out.
Proof.
  intros Hq Hsched Hv Hmount. pose proof (resourced_scheduled _ _ _ _ _ Hsched (resourced_new _ _ _ _ _ (requirements_accounted _ _ Hq))) as Hr.
  pose proof (resourced_mount _ _ _ Hmount Hr). apply scheduled_ok in Hsched as (H3 & H4 & H5 & H6 & H7); [|apply new_hardened].
  apply mount_ok in Hmount as (H8 & H9 & H10 & H11 & H12); [|done..]. split; [done|congruence|auto..].
Qed.
Lemma scheduled_volumes spec pod name an out : scheduled_pod spec pod name = Ok (an, out) -> p_volumes out = p_volumes pod.
Proof.
  unfold scheduled_pod. intros H. minv H. injection H as <- <-. apply projection_ok in Hm0 as (_ & _ & [= _ _ _ _ _ _ ->]).
  unfold applyInferenceScheduling in Hm. minv Hm. assert (p_volumes a2.2 = p_volumes pod) as E.
  { unfold applyGPUSnapshotToPod in Hm1. minv Hm1. destruct (Resources.GPU _); [|by injection Hm1 as <-].
    destruct (_ ≫= _); [|done]. destruct (p_containers _) as [|c [|]]; [done| |done]. minv Hm1. by injection Hm1 as <-. }
  destruct (Resources.GPU _); by injection Hm as <-.
Qed.

Lemma endpoint_only spec :
  (∀ m, owned_object (normalizeEndpoint spec) m = owned_object spec m) ∧
  r_replicas (normalizeEndpoint spec) = r_replicas spec ∧ r_resources (normalizeEndpoint spec) = r_resources spec ∧
  r_managed_gpu (normalizeEndpoint spec) = r_managed_gpu spec.
Proof. unfold owned_object, normalizeEndpoint. by destruct (r_endpoint spec). Qed.
Lemma deployment_ok spec d : Deployment spec = Ok d ->
  owned_object (normalizeEndpoint spec) (d_meta d) ∧ d_replicas d = r_replicas (normalizeEndpoint spec) ∧ d_match d ⊆ t_labels (d_template d) ∧
  workload (normalizeEndpoint spec) (t_annotations (d_template d)) (t_spec (d_template d)).
Proof.
  unfold Deployment. generalize (normalizeEndpoint spec). clear spec. intros spec. cbv zeta. intros H. minv H. destruct a. injection H as <-.
  cbn [d_meta d_replicas d_match d_template t_labels t_annotations t_spec].
  split_and!; [by apply owned_meta|done|by apply insert_subseteq|]. destruct a4 as [an p]. apply (typed_workload _ a2 a3 _ p); [done..| |done].
  by apply scheduled_volumes in Hm4.
Qed.
Lemma lws_ok spec l : LeaderWorkerSet spec = Ok l ->
  owned_object spec (l_meta l) ∧ l_replicas l = r_replicas spec ∧ l_size l = int32 (r_workers spec + 1) ∧
  workload spec (t_annotations (l_template l)) (t_spec (l_template l)).
Proof.
  unfold LeaderWorkerSet. intros H. minv H. destruct a. injection H as <-. cbn [l_meta l_replicas l_size l_template t_annotations t_spec].
  split_and!; [by apply owned_meta|done..|]. destruct a3 as [an p]. apply (typed_workload _ a1 a2 _ p); [done..| |done].
  by apply scheduled_volumes in Hm3.
Qed.
Lemma queue_annotation spec annotations pod : workload spec annotations pod -> annotations ≠ ∅.
Proof.
  intros [_ _ Ha _ _ _] E. unfold accelerated in Ha. subst annotations.
  destruct (Resources.GPU _); [destruct Ha as (? & ? & _ & _ & _ & Ha & _)|destruct Ha as [_ Ha]]; symmetry in Ha;
    [by apply insert_non_empty in Ha|by apply map_non_empty_singleton in Ha].
Qed.
Lemma kserve_ok spec k : renderKServeInferenceService spec = Ok k ->
  owned_object (normalizeEndpoint spec) (k_meta k) ∧ ∃ annotations pod p, workload (normalizeEndpoint spec) annotations pod ∧
    k_spec k = InferenceServiceSpec p ∧ carries p pod ∧ pd_annotations p = Some annotations ∧
    pd_min p = Some (r_replicas (normalizeEndpoint spec)) ∧ pd_max p = Some (r_replicas (normalizeEndpoint spec)).
Proof.
  unfold renderKServeInferenceService. generalize (normalizeEndpoint spec). clear spec. intros spec. cbv zeta. intros H. minv H. destruct a.
  injection H as <-. cbn [k_meta k_spec]. split; [by apply kserve_meta|]. destruct a6 as [an p].
  pose proof (kserve_workload _ _ _ _ _ _ _ _ Hm3 Hm5 Hm6) as Hw. destruct (workload_set _ _ _ Hw) as (? & ? & ?).
  eexists an, p, _. split; [done|]. split; [reflexivity|]. split; [by apply predictor_carries|].
  split_and!; [|reflexivity..]. cbn. rewrite bool_decide_false; [done|]. by eapply queue_annotation.
Qed.
Lemma llm_ok spec k : renderKServeLLMInferenceService spec = Ok k ->
  owned_object (normalizeEndpoint spec) (k_meta k) ∧ ∃ annotations pod uri name pipeline template worker,
    workload (normalizeEndpoint spec) annotations pod ∧
    k_spec k = LLMInferenceServiceSpec uri name (r_replicas (normalizeEndpoint spec)) pipeline template worker ∧
    carries template pod ∧ carries worker pod ∧ (pd_annotations template = None ∧ pd_annotations worker = None) ∧
    Resources.GPU (r_resources (normalizeEndpoint spec)) = None ∧ r_managed_gpu (normalizeEndpoint spec) = false.
Proof.
  unfold renderKServeLLMInferenceService. generalize (normalizeEndpoint spec). clear spec. intros spec. cbv zeta. intros H. minv H. destruct a0.
  injection H as <-. cbn [k_meta k_spec]. split; [by apply kserve_meta|]. destruct a8 as [an p].
  pose proof (kserve_workload _ _ _ _ _ _ _ _ Hm5 Hm7 Hm8) as Hw. destruct (workload_set _ _ _ Hw) as (? & ? & ?).
  apply negb_true_iff, orb_false_iff in Hm as [G1 G2%bool_decide_eq_false].
  eexists an, p, _, _, _, _, _. split; [done|]. split; [reflexivity|].
  split_and!; [by apply predictor_carries..|done|done| |done]. by destruct (Resources.GPU _); [destruct G2|].
Qed.

(** Claim C10. Whatever renderer a desired generation goes through, the pods it
    asks for are the accepted workload: one container with the accepted image and
    command, running as nobody without privilege escalation, capabilities or an API
    token, scheduled by Volcano; the accelerators of the frozen plan as equal
    requests and limits with the plan's queue, annotations, node selectors and
    runtime class, or, without a GPU request, the default queue and no plan; no
    other resource than the accepted requests and limits and those of the plan, so
    without a GPU none but the accepted ones; the platform and the pull secret of
    the accepted image; the model volume of this generation, read-only.  The object
    carries the tenant, service and generation it is for.  The pod template of a
    Deployment, of a LeaderWorkerSet and of a single-node KServe object is that
    pod with its annotations.  The multi-node KServe object never carries a GPU;
    its two templates are that pod without any annotation, so without the queue. *)
Theorem rendered_workloads spec :
  (∀ d, Deployment spec = Ok d -> owned_object spec (d_meta d) ∧ d_replicas d = r_replicas spec ∧ d_match d ⊆ t_labels (d_template d) ∧
     workload (normalizeEndpoint spec) (t_annotations (d_template d)) (t_spec (d_template d))) ∧
  (∀ l, LeaderWorkerSet spec = Ok l -> owned_object spec (l_meta l) ∧ l_replicas l = r_replicas spec ∧ l_size l = int32 (r_workers spec + 1) ∧
     workload spec (t_annotations (l_template l)) (t_spec (l_template l))) ∧
  (∀ k, RenderKServeRuntime spec = Ok k -> owned_object spec (k_meta k) ∧ ∃ annotations pod, workload (normalizeEndpoint spec) annotations pod ∧
     match k_spec k with
     | InferenceServiceSpec p => carries p pod ∧ pd_annotations p = Some annotations ∧
         pd_min p = Some (r_replicas spec) ∧ pd_max p = Some (r_replicas spec)
     | LLMInferenceServiceSpec _ _ replicas _ template worker => carries template pod ∧ carries worker pod ∧
         (pd_annotations template = None ∧ pd_annotations worker = None) ∧ replicas = r_replicas spec ∧
         Resources.GPU (r_resources spec) = None ∧ r_managed_gpu spec = false
     end).
Proof.
  destruct (endpoint_only spec) as (En & Er & Es & Eg). split_and!.
  - intros d (H1 & H2 & H3)%deployment_ok. by rewrite En, Er in *.
  - apply lws_ok.
  - unfold RenderKServeRuntime. destruct (_ || _); [|destruct (bool_decide _); [|done]]; intros k.
    + intros (H1 & an & p & pd & H2 & -> & H3 & H4 & H5 & H6)%kserve_ok. rewrite En, Er in *. eauto 10.
    + intros (H1 & an & p & uri & name & pipe & tpl & wk & H2 & -> & H3 & H4 & Ha & H5 & H6)%llm_ok.
      rewrite En, Es, Eg in *. split; [done|]. exists an, p. split; [done|]. by rewrite Er.
Qed.

(** Unlike the other renderers, [LeaderWorkerSet] does not copy the endpoint of the
    specification into the port fields that the model mount requires. *)
Lemma lws_ignores_endpoint spec : r_container_port spec = 0 -> r_model_claim spec ≠ "" -> is_ok (LeaderWorkerSet spec) = false.
Proof.
  intros Hp Hc. destruct (LeaderWorkerSet spec) as [l|e] eqn:H; [|done]. unfold LeaderWorkerSet in H. minv H.
  unfold mountModel in Hm4. rewrite bool_decide_false, Hp, orb_true_r in Hm4 by done. done.
Qed.
(** A service whose id starts with a digit cannot have an endpoint
    Service: its name is the id with a suffix, and a DNS-1035 label starts with a
    letter, so rendering fails whatever the endpoint is.  Most UUIDs start with a
    digit. *)
Theorem digit_id_has_no_endpoint spec c rest :
  (∀ name, IsDNS1035Label name = None -> from_option is_lower false (Gpu.string_head name) = true) ->
  r_service spec = String c rest -> is_digit c = true -> is_ok (Service spec) = false.
Proof.
  intros Hl Hs Hd. destruct (Service spec) as [v|e] eqn:H; [|done]. unfold Service in H. cbv zeta in H. minv H.
  assert (r_service (normalizeEndpoint spec) = r_service spec) as E by (unfold normalizeEndpoint; by destruct (r_endpoint spec)).
  rewrite E, Hs in H. destruct (IsDNS1035Label _) eqn:El in H; [done|]. apply Hl in El. cbn in El.
  unfold is_lower, is_digit, byte_in in *. apply andb_true_iff in El as [E1%N.leb_le _], Hd as [_ E2%N.leb_le]. lia.
Qed.

(** ** The image that was accepted is the image that is rendered *)
Lemma str_take_drop n s : str_take n s +:+ str_drop n s = s.
Proof. revert s. induction n as [|n IH]; intros [|c s]; [done..|]. change (String c (str_take n s +:+ str_drop n s) = String c s). by rewrite IH. Qed.
Lemma suffix_split s p : has_suffix s p = true -> ∃ pre, s = pre +:+ p.
Proof.
  unfold has_suffix. intros [_ H%bool_decide_eq_true]%andb_true_iff.
  exists (str_take (String.length s - String.length p) s). by rewrite <- (str_take_drop (String.length s - String.length p) s), H at 1.
Qed.
Lemma after_last_app sub pre x r : after_last sub x = Some r -> after_last sub (pre +:+ x) = Some r.
Proof. intros H. induction pre as [|c pre IH]; [done|].
  change (String c pre +:+ x) with (String c (pre +:+ x)). cbn. by rewrite IH. Qed.
Lemma contains_app pre x sub : contains x sub = true -> contains (pre +:+ x) sub = true.
Proof. intros H. induction pre as [|c pre IH]; [done|].
  change (String c pre +:+ x) with (String c (pre +:+ x)). cbn [contains]. by rewrite IH, orb_true_r. Qed.
Lemma prefix_app p x : has_prefix (p +:+ x) p = true.
Proof. induction p as [|c p IH]; [by destruct x|]. change (String c p +:+ x) with (String c (p +:+ x)). cbn. by rewrite bool_decide_true, IH. Qed.
Lemma prefix_contains s p : has_prefix s p = true -> contains s p = true.
Proof. intros H. destruct s; cbn [contains]; by rewrite H. Qed.
Lemma at_free t : Server.Server.no_byte "@" t = true -> after_last "@sha256:" t = None.
Proof.
  induction t as [|c t IH]; [done|]. cbn. intros [H1%negb_true_iff%bool_decide_eq_false H2]%andb_true_iff. rewrite IH by done.
  by rewrite bool_decide_false.
Qed.
Lemma no_byte_app c a b : Server.Server.no_byte c (a +:+ b) = Server.Server.no_byte c a && Server.Server.no_byte c b.
Proof.
  induction a as [|d a IH]; [done|]. change (String d a +:+ b) with (String d (a +:+ b)). cbn. by rewrite IH, andb_assoc.
Qed.
Lemma hex_at_free t : string_forallb is_lower_hex t = true -> Server.Server.no_byte "@" t = true.
Proof.
  induction t as [|c t IH]; [done|]. cbn -[is_lower_hex]. intros [H1 H2]%andb_true_iff. rewrite IH by done.
  destruct (bool_decide_reflect (c = "@"%char)) as [->|]; done.
Qed.
Lemma lower_hex_case t : string_forallb is_lower_hex t = true -> to_lower t = t ∧ string_forallb is_hex t = true.
Proof.
  induction t as [|c t IH]; [done|]. cbn -[is_lower_hex is_hex to_lower_ascii]. intros [H1 H2]%andb_true_iff. destruct (IH H2) as [-> ->].
  split; [|by unfold is_hex; rewrite H1]. f_equal. unfold to_lower_ascii, is_lower_hex, is_digit, byte_in in *.
  destruct (_ && _) eqn:E in |- *; [|done]. apply andb_true_iff in E as [E1%N.leb_le E2%N.leb_le].
  apply orb_true_iff in H1 as [[H3%N.leb_le H4%N.leb_le]%andb_true_iff|[H3%N.leb_le H4%N.leb_le]%andb_true_iff]; lia.
Qed.
Lemma fixed_digest_split digest : fixedDigest digest = true ->
  ∃ h, digest = "sha256:" +:+ h ∧ String.length h = 64%nat ∧ string_forallb is_lower_hex h = true.
Proof.
  unfold fixedDigest. intros [[H1 H2%Nat.eqb_eq]%andb_true_iff H3]%andb_true_iff. exists (str_drop 7 digest).
  pose proof (prefix_split _ _ H1) as E. split_and!; [done| |done].
  rewrite E in H2. cbn in H2. by injection H2 as H2.
Qed.
Lemma digest_reference ref digest : fixedDigest digest = true -> has_suffix ref ("@" +:+ digest) = true ->
  contains ref "@sha256:" = true ∧ ∃ h, after_last "@sha256:" ref = Some h ∧ fixed_hex_digest h = true.
Proof.
  intros (h & -> & Hl & Hh)%fixed_digest_split (pre & ->)%suffix_split. change ("@" +:+ ("sha256:" +:+ h)) with ("@sha256:" +:+ h).
  split; [apply contains_app, prefix_contains, prefix_app|]. exists h. split.
  - apply after_last_app. change ("@sha256:" +:+ h) with (String "@" ("sha256:" +:+ h)). cbn [after_last].
    rewrite at_free by (rewrite no_byte_app, (hex_at_free h) by done; vm_compute; done).
    change (String "@" ("sha256:" +:+ h)) with ("@sha256:" +:+ h). by rewrite prefix_app.
  - unfold fixed_hex_digest, hex_bytes. destruct (lower_hex_case h Hh) as [El Ex]. rewrite Ex, Hl, El. rewrite bool_decide_true by (cbn; eauto).
    by rewrite bool_decide_true.
Qed.

Lemma lowered_empty s : to_lower s = "" <-> s = "".
Proof. by destruct s. Qed.
Lemma pull_scope_named tenant cluster namespace registry name : PullSecretName sha256_hex tenant cluster namespace registry = Ok name ->
  tenant ≠ "" ∧ namespace ≠ "".
Proof.
  unfold PullSecretName. cbv zeta. destruct (existsb _ _) eqn:E; [done|]. intros _. cbn in E. rewrite !orb_false_iff in E.
  destruct E as (E1%bool_decide_eq_false & _ & E3%bool_decide_eq_false & _). rewrite lowered_empty in E1, E3. done.
Qed.
(** What the image catalogue resolved at admission is what the
    workload may pull: for the reference and selection that a resolution returned,
    the projection at render time passes exactly when the tenant, cluster,
    namespace and registry of the workload name the pull secret of the selection,
    in particular in the namespace and cluster it was resolved for.  Names of
    shared secrets are assumed to be DNS subdomains, and the configured platform to
    consist of label values. *)
Theorem accepted_image_projects {St} (client : ImageClient St) tenant id scope namespace (s s' : St) ref sel p spec :
  (∀ data, IsDNS1123Subdomain ("ani-pull-" +:+ str_take 32 (sha256_hex data)) = true) ->
  ic_platform client = Some p ->
  IsValidLabelValue (pl_os p) = true ∧ pl_os p ≠ "" ∧ IsValidLabelValue (pl_architecture p) = true ∧ pl_architecture p ≠ "" ->
  id ≠ "" -> r_namespace_uid spec ≠ "" ->
  ResolveInNamespace sha256_hex (Some client) tenant id scope namespace s = (Ok (ref, sel), s') ->
  r_image spec = ref -> r_selection spec = Some sel ->
  (validateImageProjection spec = Ok tt <->
   PullSecretName sha256_hex (r_tenant spec) (r_cluster spec) (r_namespace spec) (IS_RegistryAuthority sel) = Ok (IS_PullSecretRef sel)) ∧
  (r_tenant spec = tenant -> r_cluster spec = ic_cluster client -> r_namespace spec = namespace -> validateImageProjection spec = Ok tt).
Proof.
  intros Hsub Hp (Ho1 & Ho2 & Ha1 & Ha2) Hid Hu Hr Hi Hs.
  apply resolved_image in Hr as (p' & r & name & [Hp' _ _ _ Hscope _ Hd Hsuf [Hreg Hpre]] & -> & Hname & ->).
  set (registry := ri_registry r) in *. assert (scope = "platform" ∨ scope = "tenant") as Hsc by tauto. clear Hscope. rename Hsc into Hscope.
  rewrite Hp in Hp'. injection Hp' as <-. destruct (digest_reference _ _ Hd Hsuf) as (Hc & h & Hl & Hh).
  assert (IsDNS1123Subdomain name = true) as Hn.
  { unfold PullSecretName in Hname. cbv zeta in Hname. destruct (existsb _ _); [done|]. injection Hname as <-. apply Hsub. }
  assert (validateImageProjection spec = Ok tt <-> PullSecretName sha256_hex (r_tenant spec) (r_cluster spec) (r_namespace spec) registry = Ok name) as Hiff.
  { unfold validateImageProjection. rewrite Hs. cbn [IS_RegistryAuthority IS_PullSecretRef]. split.
    - intros H. minv H. destruct (PullSecretName _ _ _ _ _) as [e|] in Hm0 |- *; [|done]. by apply bool_decide_eq_true in Hm0 as ->.
    - intros H. destruct (pull_scope_named _ _ _ _ _ H) as [Ht Hns]. rewrite H, Hi, Hl, bool_decide_true by done.
      assert (selection_complete spec (mkImageSelection id scope (pl_os p) (pl_architecture p) (pl_variant p) registry name) = true) as ->.
      { unfold selection_complete. cbn. rewrite Hi, Hc, Hpre, Ho1, Ha1, Hn. rewrite !(bool_decide_false (_ = "")) by done.
        destruct Hscope as [->| ->]; done. }
      cbn. by rewrite Hh. }
  cbn [IS_RegistryAuthority IS_PullSecretRef]. split; [done|]. intros E1 E2 E3. apply Hiff. by rewrite E1, E2, E3.
Qed.
End Render.

(** ** Example: a GPU predictor and the two legacy forms. *)
Module Example.
Import Server.Server.Example Intake.Intake.Example.
#[local] Existing Instance Resources.toy_lib.
(** DNS-1035 reduced to its first letter. *)
#[local] Instance kube_lib : KubeLib := {|
  IsDNS1035Label name := if from_option is_lower false (Gpu.string_head name) then None else Some "must start with a letter";
  IsValidLabelValue s := (String.length s <=? 63)%nat; IsDNS1123Subdomain s := negb (bool_decide (s = ""));
  QueueNameAnnotationKey := "scheduling.volcano.sh/queue-name"; WorkerIndexLabelKey := "worker-index";
  GroupIndexLabelKey := "group-index"; SetNameLabelKey := "set-name" |}.
Definition gpu_execution : Gpu.Execution :=
  Gpu.mkExecution "volcano" "queue" "nvidia" {["gpu" := "a100"]} {["vgpu" := "on"]} {["nvidia.com/gpu" := "1"]} Gpu.sample_digest.
Definition gpu_plan : Gpu.Snapshot :=
  Gpu.mkSnapshot (Some Gpu.sample_request) (Some gpu_execution)
    (Some (Gpu.mkDisplay "00000000-0000-1000-8000-000000000003" 7 "name" "model" 1)) Gpu.sample_digest.
Definition image_selection : ImageSelection :=
  mkImageSelection image_id "platform" "linux" "amd64" "" "registry.local"
    (match PullSecretName sha tenant "cluster" ("tenant-" +:+ tenant) "registry.local" with Ok n => n | Err _ => "" end).
Definition endpoint : EndpointSpec := mkEndpoint 8000 80 (FromInt 8000) "TCP".
Definition spec (service mode : string) (gpu : option Gpu.Request) (plan : option Gpu.Snapshot) : RuntimeSpec :=
  mkRuntimeSpec "cluster" "uid" tenant service "chat" ("tenant-" +:+ tenant) reference "" "model" "s3://bucket/model" Gpu.sample_digest "chat"
    "vllm" "kserve" "runner" 3 "serve" (Resources.mkSpec {["cpu" := "1"]} {["memory" := "2"]} gpu) (match gpu with Some _ => 2 | None => 1 end) 1 mode 0 0 (FromInt 0) ""
    (Some endpoint) "claim" plan (bool_decide (is_Some gpu)) (bool_decide (is_Some gpu)) (Some image_selection).
Definition gpu_spec : RuntimeSpec := spec resource "deployment" (Some Gpu.sample_request) (Some gpu_plan).
Definition cpu_spec (mode : string) : RuntimeSpec := spec resource mode None None.
Definition single_node (r : result KServeObject) : bool :=
  match r with Ok k => match k_spec k with InferenceServiceSpec _ => true | LLMInferenceServiceSpec _ _ _ _ _ _ => false end | Err _ => false end.
Lemma rendered_workloads_witness :
  (∃ k annotations pod, RenderKServeRuntime sha gpu_spec = Ok k ∧ workload sha (normalizeEndpoint gpu_spec) annotations pod ∧
     match k_spec k with InferenceServiceSpec p => carries p pod ∧ pd_annotations p = Some annotations | _ => False end) ∧
  (∃ k, RenderKServeRuntime sha (cpu_spec "leader_worker_set") = Ok k ∧ owned_object (cpu_spec "leader_worker_set") (k_meta k)) ∧
  (∃ d, Deployment sha (cpu_spec "deployment") = Ok d ∧ d_replicas d = r_replicas (cpu_spec "deployment")).
Proof.
  split; [|split].
  - assert (single_node (RenderKServeRuntime sha gpu_spec) = true) as Hk by (vm_compute; reflexivity).
    pose proof (proj2 (proj2 (rendered_workloads sha gpu_spec))) as H. revert H Hk. generalize (RenderKServeRuntime sha gpu_spec).
    intros [k|e] H Hk; [|discriminate Hk]. destruct (H k eq_refl) as (_ & an & pod & Hw & Hc). exists k, an, pod.
    split; [reflexivity|]. split; [exact Hw|]. cbn in Hk. destruct (k_spec k); [|discriminate Hk]. destruct Hc as (H1 & H2 & _). exact (conj H1 H2).
  - assert (is_ok (RenderKServeRuntime sha (cpu_spec "leader_worker_set")) = true) as Hk by (vm_compute; reflexivity).
    pose proof (proj2 (proj2 (rendered_workloads sha (cpu_spec "leader_worker_set")))) as H. revert H Hk.
    generalize (RenderKServeRuntime sha (cpu_spec "leader_worker_set")).
    intros [k|e] H Hk; [|discriminate Hk]. exists k. split; [reflexivity|]. exact (proj1 (H k eq_refl)).
  - assert (is_ok (Deployment sha (cpu_spec "deployment")) = true) as Hk by (vm_compute; reflexivity).
    pose proof (proj1 (rendered_workloads sha (cpu_spec "deployment"))) as H. revert H Hk. generalize (Deployment sha (cpu_spec "deployment")).
    intros [d|e] H Hk; [|discriminate Hk]. exists d. split; [reflexivity|]. exact (proj1 (proj2 (H d eq_refl))).
Defined.
Lemma lws_reads_flat_ports :
  is_ok (LeaderWorkerSet sha (cpu_spec "leader_worker_set")) = false ∧
  is_ok (LeaderWorkerSet sha (normalizeEndpoint (cpu_spec "leader_worker_set"))) = true ∧
  is_ok (Deployment sha (cpu_spec "deployment")) = true.
Proof. split_and!; vm_compute; reflexivity. Qed.
Lemma digit_id_has_no_endpoint_witness :
  is_ok (Service (cpu_spec "deployment")) = false ∧ is_ok (Service (spec "a1234567" "deployment" None None)) = true.
Proof.
  split; [|vm_compute; reflexivity].
  apply (digit_id_has_no_endpoint (cpu_spec "deployment") "0" "0000000-0000-1000-8000-00000000000b"); [|reflexivity..].
  intros name. cbn. by destruct (from_option _ _ _).
Defined.
End Example.
End Render.
