(* ===== verification/Executor.v ===== *)
(** * The runtime executor

    internal/data/kubernetes/executor.go and the pull-secret check of
    image_pull_secret.go.  The cluster is reached through [Reader] and [Client]
    values over an arbitrary state: what a call answers, and what other parties do
    meanwhile, is up to the cluster.  A nil client, reader, store or probe is
    [None].  The invocation probe itself (invocation_probe.go) is a port. *)

From S2P Require Import Prelude GoStrings Operation Gpu Resources Engine Canonical Work Schema Contract WorkStore Reconcile Runner ReconcileStore OperationStore Commands Managed Update Server Intake Render.
Local Open Scope Z_scope.

Module Executor.
Import Managed.Managed Render.Render.

(** ** API errors *)
Definition NotFound (what : string) : goerr := ENew "kubernetes.NotFound" (what +:+ " not found").
Definition Conflict (what : string) : goerr := ENew "kubernetes.Conflict" what.
Definition IsNotFound (e : goerr) : bool := errors_is e "kubernetes.NotFound".
Definition IsConflict (e : goerr) : bool := errors_is e "kubernetes.Conflict".

(** ** Desired state *)
Record RuntimeBinding := mkBinding {
  b_kind : string; b_namespace : string; b_name : string; b_uid : string; b_rv : string; b_role : string; b_generation : Z }.
Record DesiredRuntime := mkDesiredRuntime {
  dr_spec : RuntimeSpec; dr_state : string; dr_phase : string; dr_model_ready : bool; dr_model_known : bool; dr_quota : bool;
  dr_withdrawn : bool; dr_published : bool; dr_bindings : list RuntimeBinding }.
#[global] Instance DesiredRuntime_eta : Eta DesiredRuntime := fun r =>
  mkDesiredRuntime (dr_spec r) (dr_state r) (dr_phase r) (dr_model_ready r) (dr_model_known r) (dr_quota r) (dr_withdrawn r)
    (dr_published r) (dr_bindings r).
Record BindingRecord := mkBindingRecord {
  br_tenant : string; br_service : string; br_generation : Z; br_kind : string; br_namespace : string; br_name : string;
  br_uid : string; br_rv : string; br_role : string; br_expected_uid : string; br_expected_rv : string }.
#[global] Instance Observation_eta : Eta Reconcile.Observation := fun r =>
  Reconcile.mkObservation (Reconcile.Obs_Generation r) (Reconcile.Obs_RuntimePhase r) (Reconcile.Obs_ReadyReplicas r)
    (Reconcile.Obs_ReadyGroups r) (Reconcile.Obs_ReadyWorkers r) (Reconcile.Obs_ModelReady r) (Reconcile.Obs_ModelReadyKnown r)
    (Reconcile.Obs_PublicationPhase r) (Reconcile.Obs_InvocationHealth r) (Reconcile.Obs_RuntimeMode r) (Reconcile.Obs_LWSUID r)
    (Reconcile.Obs_Reason r) (Reconcile.Obs_Objects r).

(** ** What the API server answers *)
Record OwnerRef := mkOwner { ow_api : string; ow_kind : string; ow_name : string; ow_uid : string; ow_controller : bool }.
Record ObjectMeta := mkObjectMeta {
  o_kind : string; o_namespace : string; o_name : string; o_uid : string; o_rv : string; o_labels : gmap string string;
  o_annotations : gmap string string; o_deleting : bool; o_generation : Z; o_owners : list OwnerRef }.
(** [metav1.GetControllerOf]. *)
Definition controller_of (m : ObjectMeta) : option OwnerRef := head (filter (fun o => ow_controller o = true) (o_owners m)).

Section Executor.
Context `{Q : QuantityLib} `{K : KubeLib} (sha256_hex : string -> string) {St : Type}.

Record Pod := mkPod {
  pod_meta : ObjectMeta; pod_phase : string; pod_containers : list Container; pod_init : list Container;
  pod_conditions : list (string * string) }.
(** Replicas pointers may be nil. *)
Record DeploymentStatus := mkDeploymentStatus {
  ds_replicas : option Z; ds_template : PodTemplate; ds_observed : Z; ds_updated : Z; ds_available : Z; ds_ready : Z }.
Record LWSStatus := mkLWSStatus {
  ls_replicas : option Z; ls_size : option Z; ls_leader : option PodTemplate; ls_worker : PodTemplate; ls_observed : Z;
  ls_updated : Z; ls_ready : Z }.
(** A typed object: its metadata and the part of it that is read.  [BCR] carries
    the generation of the specification. *)
Inductive Body :=
  | BDeployment (d : DeploymentStatus) | BLWS (l : LWSStatus) | BCR (generation : Z) | BOther.
Record Object := mkObject { ob_meta : ObjectMeta; ob_body : Body }.
Record CREndpoint := mkCREndpoint { ce_container : Z; ce_service : Z; ce_target : string; ce_protocol : string }.
Record CRSpec := mkCRSpec {
  cs_generation : Z; cs_state : string; cs_model_version : string; cs_artifact_digest : string; cs_served_model : string;
  cs_resources : Requirements; cs_replicas : Z; cs_mode : string; cs_workers : Z; cs_engine : string; cs_image : string;
  cs_command : string; cs_endpoint : option CREndpoint }.
(** What is applied; the UID and resource version are those carried along. *)
Inductive Manifest :=
  | MDeployment (d : Deployment_) | MLWS (l : LeaderWorkerSet_) | MService (s : Service_) | MKServe (k : KServeObject)
  | MCR (m : Meta) (spec : CRSpec).
Record Applied := mkApplied { ap_manifest : Manifest; ap_uid : string; ap_rv : string }.

(** A KServe object as read back.  [ko_conditions] and its elements are [None]
    where the tree has no such list or another type; an [Err] is a value of
    another type where the code can tell it from an absent one. *)
Record Condition := mkCondition { cn_type : string; cn_status : string; cn_message : string; cn_reason : string }.
Record KObject := mkKObject {
  ko_meta : ObjectMeta; ko_predictor : option Predictor; ko_template : option Predictor; ko_worker : option Predictor;
  ko_spec_annotations : result (gmap string string); ko_conditions : option (list (option Condition)); ko_observed : result (option Z) }.
(** The type of a secret and whether it has registry credentials. *)
Record Secret := mkSecret { se_type : string; se_config : string }.
(** The kind is the one a binding names. *)
Record Reader := mkReader {
  rd_get : string -> string -> string -> M St Object;
  rd_kserve : string -> string -> string -> M St KObject;
  rd_secret : string -> string -> M St Secret;
  rd_pod : string -> string -> M St Pod;
  rd_pods : string -> gmap string string -> M St (list Pod) }.
Record Client := mkClient {
  cl_reader : Reader;
  cl_apply : string -> Applied -> M St unit;
  (** kind, namespace, name, UID and resource version preconditions, foreground *)
  cl_delete : string -> string -> string -> string -> string -> bool -> M St unit;
  (** kind, namespace, name and the annotation a merge patch removes *)
  cl_unmark : string -> string -> string -> string -> M St unit }.
Definition Source := string -> string -> Z -> M St DesiredRuntime.
Record RuntimeExecutor := mkExecutor {
  x_client : option Client; x_probe : option (string -> string -> Z -> string -> M St (string * string));
  x_api_reader : option Reader; x_cr_client : option Client; x_source : option Source;
  x_bindings : option (BindingRecord -> M St unit); x_field_manager : string; x_account : string; x_require_quota : bool }.

Definition nil_client : goerr := errorf "kubernetes runtime executor client is nil".
Definition with_client {A} (e : RuntimeExecutor) (k : Client -> M St A) : M St A :=
  match x_client e with Some c => k c | None => throw nil_client end.
(** [reader := client.Reader(c); if e.APIReader != nil { reader = e.APIReader }]. *)
Definition reader_for (e : RuntimeExecutor) (c : Client) : Reader := default (cl_reader c) (x_api_reader e).

(** ** Bindings *)
Definition kindForRuntimeMode (mode : string) : string :=
  if bool_decide (mode = "leader_worker_set") then "LeaderWorkerSet" else "Deployment".
Definition find_binding (role kind : string) (spec : DesiredRuntime) : option RuntimeBinding :=
  head (filter (fun b => b_role b = role ∧ b_kind b = kind) (dr_bindings spec)).
Definition controlBindingForSpec (spec : DesiredRuntime) : option RuntimeBinding := find_binding "control" "InferenceService" spec.
Definition endpointBindingForSpec (spec : DesiredRuntime) : option RuntimeBinding := find_binding "endpoint" "Service" spec.
Definition runtimeBindingForMode (spec : DesiredRuntime) : option RuntimeBinding :=
  find_binding "runtime" (kindForRuntimeMode (r_mode (dr_spec spec))) spec.
Definition expectedUID (b : option RuntimeBinding) : string := match b with Some b => b_uid b | None => "" end.
Definition expectedResourceVersion (b : option RuntimeBinding) : string := match b with Some b => b_rv b | None => "" end.
Definition runtimeModeForSpec (spec : RuntimeSpec) : string := if bool_decide (r_mode spec = "") then "deployment" else r_mode spec.
Definition objectForKind (kind : string) : result unit :=
  checkr (bool_decide (kind ∈ ["Deployment"; "LeaderWorkerSet"; "Service"; "Pod"; "InferenceService"]))
    (errorf ("unsupported runtime binding kind " +:+ quoted kind)).
Definition runtimeLoadingPhase (known ready : bool) : string := if known && ready then "loading" else "pending".
Definition endpointConfigured (spec : RuntimeSpec) : bool :=
  let s := normalizeEndpoint spec in
  bool_decide (is_Some (r_endpoint spec)) || (0 <? r_container_port s) || (0 <? r_service_port s) ||
  match r_target_port s with FromInt _ => false | FromString _ => true end || negb (bool_decide (r_protocol s = "")).
Definition ownerForRuntime (owner : string) : string := if bool_decide (owner = "") then "ani-inference" else owner.

(** ** The target of an operation *)
Definition state_for_kind (kind : string) : string :=
  if bool_decide (kind = "stop") then "stopped" else if bool_decide (kind = "delete") then "deleted" else "running".
Definition same_identity (spec : RuntimeSpec) (tenant service : string) (generation : Z) : result unit :=
  _ ← checkr (bool_decide (r_tenant spec = "") || bool_decide (r_tenant spec = tenant)) (errorf "desired runtime tenant mismatch");
  _ ← checkr (bool_decide (r_service spec = "") || bool_decide (r_service spec = service)) (errorf "desired runtime service mismatch");
  checkr ((r_generation spec =? 0) || (r_generation spec =? generation)) Reconcile.ErrStaleGeneration.
Definition identify (e : RuntimeExecutor) (spec : DesiredRuntime) (tenant service : string) (generation : Z) : DesiredRuntime :=
  spec <| dr_spec := (dr_spec spec) <| r_account := x_account e |> <| r_tenant := tenant |> <| r_service := service |>
                                    <| r_generation := generation |> |>.
Definition operation_facts (op : Runner.OperationContext) (spec : DesiredRuntime) : DesiredRuntime :=
  spec <| dr_quota := dr_quota spec || bool_decide (Quota.State (Runner.Reservation op) = "confirmed") |>
       <| dr_withdrawn := dr_withdrawn spec || bool_decide (Publication.State (Runner.Pub op) = "withdrawn") |>
       <| dr_published := dr_published spec || (bool_decide (Publication.State (Runner.Pub op) = "published") &&
                                               (Publication.Generation (Runner.Pub op) =? Runner.TargetGeneration op)) |>
       <| dr_state := if bool_decide (dr_state spec = "") then state_for_kind (Runner.Kind op) else dr_state spec |>.
Definition operationRuntime (e : RuntimeExecutor) (op : Runner.OperationContext) : M St DesiredRuntime :=
  with_client e (fun _ =>
  match x_source e with
  | None => throw (errorf "kubernetes runtime executor desired source is nil")
  | Some source =>
      _ ← check (negb (bool_decide (Runner.TenantID op = "") || bool_decide (Runner.ServiceID op = "") ||
                       (Runner.TargetGeneration op <? 1) || bool_decide (Runner.LeaseToken op = ""))) Reconcile.ErrStaleGeneration;
      spec ← source (Runner.TenantID op) (Runner.ServiceID op) (Runner.TargetGeneration op);
      _ ← lift (same_identity (dr_spec spec) (Runner.TenantID op) (Runner.ServiceID op) (Runner.TargetGeneration op));
      mret (operation_facts op (identify e spec (Runner.TenantID op) (Runner.ServiceID op) (Runner.TargetGeneration op)))
  end).

(** ** The control resource *)
Definition endpointForCR (spec : RuntimeSpec) : option CREndpoint :=
  let target := match r_target_port spec with FromInt n => format_int n | FromString s => s end in
  let untouched := match r_target_port spec with FromInt _ => true | FromString _ => false end in
  if bool_decide (r_endpoint spec = None) && (r_container_port spec =? 0) && (r_service_port spec =? 0) && untouched &&
     bool_decide (r_protocol spec = "") then None
  else Some (mkCREndpoint (r_container_port spec) (r_service_port spec) target (r_protocol spec)).
Definition resourceList (values : gmap string string) : result (gmap string quantity) :=
  foldr (fun kv acc => acc ← acc;
           match ParseQuantity kv.2 with
           | None => Err (errorf_before ("invalid resource " +:+ quoted kv.2 +:+ " for " +:+ kv.1) (errorf "unable to parse quantity"))
           | Some q => Ok (<[kv.1 := q]> acc)
           end) (Ok ∅) (map_to_list values).
Definition cr_labels (spec : RuntimeSpec) : gmap string string :=
  <[generationLabel := format_int (r_generation spec)]> (owner_labels spec).
Definition cr_spec (spec : RuntimeSpec) (state : string) (requirements : Requirements) : CRSpec :=
  mkCRSpec (r_generation spec) (if bool_decide (state = "stopped") || bool_decide (state = "deleted") then state else "running")
    (r_model_version spec) (r_artifact_sha256 spec) (r_served_model spec) requirements (r_replicas spec) (r_mode spec) (r_workers spec)
    (r_engine spec) (r_image spec) (r_command spec) (endpointForCR spec).
(** The checks on an existing control resource. *)
Definition fence_cr (spec : RuntimeSpec) (expected : option RuntimeBinding) (current : Object) : result unit :=
  let m := ob_meta current in
  _ ← checkr (OwnedBy (o_labels m) (r_tenant spec) (r_service spec)) (errorf "inference service CR is occupied by a different tenant or service");
  match expected with
  | None => Err (errorf "existing inference service CR requires a persisted control binding")
  | Some b =>
      _ ← checkr (bool_decide (b_kind b = "InferenceService") && bool_decide (b_role b = "control") &&
                  bool_decide (b_namespace b = o_namespace m) && bool_decide (b_name b = o_name m) && negb (bool_decide (b_uid b = "")) &&
                  bool_decide (b_uid b = o_uid m)) Reconcile.ErrStaleGeneration;
      match ob_body current with
      | BCR generation => checkr (generation <=? r_generation spec) Reconcile.ErrStaleGeneration
      | _ => Ok tt
      end
  end.
(** [err == nil] passes the fence and carries its resource version, NotFound
    carries none, anything else is returned. *)
Definition read_fenced (reader : Reader) (kind namespace name : string) (fence : Object -> result unit) : M St (option Object) :=
  r ← try (rd_get reader kind namespace name);
  match r with
  | Ok current => _ ← lift (fence current); mret (Some current)
  | Err e => if IsNotFound e then mret None else throw e
  end.
Definition carried (current : option Object) (f : ObjectMeta -> string) : string := match current with Some o => f (ob_meta o) | None => "" end.
Definition record_binding (e : RuntimeExecutor) (spec : RuntimeSpec) (kind role : string) (observed : Object) (expected : option RuntimeBinding)
    : M St unit :=
  match x_bindings e with
  | None => mret tt
  | Some upsert =>
      upsert (mkBindingRecord (r_tenant spec) (r_service spec) (r_generation spec) kind (o_namespace (ob_meta observed))
                (o_name (ob_meta observed)) (o_uid (ob_meta observed)) (o_rv (ob_meta observed)) role (expectedUID expected)
                (expectedResourceVersion expected))
  end.
Definition applyCR_ (e : RuntimeExecutor) (spec : RuntimeSpec) (state : string) (expected : option RuntimeBinding) : M St unit :=
  match x_cr_client e with
  | None => mret tt
  | Some c =>
      let spec := normalizeEndpoint spec in
      requests ← lift (resourceList (Resources.Requests (r_resources spec)));
      limits ← lift (resourceList (Resources.Limits (r_resources spec)));
      let reader := reader_for e c in
      current ← read_fenced reader "InferenceService" (r_namespace spec) (r_name spec) (fence_cr spec expected);
      _ ← cl_apply c (ownerForRuntime (x_field_manager e))
            (mkApplied (MCR (mkMeta (r_name spec) (r_namespace spec) (cr_labels spec) ∅) (cr_spec spec state (mkRequirements requests limits)))
               (carried current o_uid) (carried current o_rv));
      observed ← rd_get reader "InferenceService" (r_namespace spec) (r_name spec);
      record_binding e spec "InferenceService" "control" observed expected
  end.
Definition ApplyCR (e : RuntimeExecutor) (op : Runner.OperationContext) : M St unit :=
  spec ← operationRuntime e op;
  applyCR_ e (dr_spec spec) (dr_state spec) (controlBindingForSpec spec).

(** ** Fenced applies *)
Definition parse_generation (m : ObjectMeta) : option Z := parse_int64 (label (o_labels m) generationLabel).
Definition same_object (kind : string) (b : RuntimeBinding) (m : ObjectMeta) : bool :=
  bool_decide (b_kind b = kind) && bool_decide (b_namespace b = o_namespace m) && bool_decide (b_name b = o_name m) &&
  bool_decide (b_uid b = o_uid m) && bool_decide (b_rv b = o_rv m).
Definition fence_generation (what : string) (spec : RuntimeSpec) (m : ObjectMeta) : result unit :=
  match parse_generation m with
  | Some g => _ ← checkr (1 <=? g) (errorf ("existing " +:+ what +:+ " is missing its generation label"));
              checkr (g <=? r_generation spec) Reconcile.ErrStaleGeneration
  | None => Err (errorf ("existing " +:+ what +:+ " is missing its generation label"))
  end.
Definition fence_runtime (spec : RuntimeSpec) (expected : option RuntimeBinding) (current : Object) : result unit :=
  let m := ob_meta current in
  _ ← checkr (OwnedBy (o_labels m) (r_tenant spec) (r_service spec)) (errorf "runtime name is occupied by a different tenant or service");
  _ ← fence_generation "runtime" spec m;
  match expected with
  | None => Err (errorf "existing runtime requires a persisted runtime binding")
  | Some b =>
      _ ← checkr (same_object (kindForRuntimeMode (r_mode spec)) b m) Reconcile.ErrStaleGeneration;
      checkr (negb (o_deleting m)) (errorf "runtime deletion is still in progress")
  end.
Definition render_runtime (spec : RuntimeSpec) : result Manifest :=
  if bool_decide (r_mode spec = "") || bool_decide (r_mode spec = "deployment") then d ← Deployment sha256_hex spec; Ok (MDeployment d)
  else if bool_decide (r_mode spec = "leader_worker_set") then l ← LeaderWorkerSet sha256_hex spec; Ok (MLWS l)
  else Err (errorf ("unsupported runtime mode " +:+ quoted (r_mode spec))).
Definition applyFenced (e : RuntimeExecutor) (spec : RuntimeSpec) (expected : option RuntimeBinding) : M St Object :=
  with_client e (fun c =>
    manifest ← lift (render_runtime spec);
    let kind := kindForRuntimeMode (r_mode spec) in
    let reader := reader_for e c in
    current ← read_fenced reader kind (r_namespace spec) (r_name spec) (fence_runtime spec expected);
    _ ← cl_apply c (ownerForRuntime (x_field_manager e)) (mkApplied manifest "" (carried current o_rv));
    observed ← rd_get reader kind (r_namespace spec) (r_name spec);
    _ ← record_binding e spec kind "runtime" observed expected;
    mret observed).
Definition Apply (e : RuntimeExecutor) (spec : RuntimeSpec) : M St Object := applyFenced e spec None.
Definition fence_endpoint (spec : RuntimeSpec) (expected : option RuntimeBinding) (current : Object) : result unit :=
  let m := ob_meta current in
  _ ← checkr (OwnedBy (o_labels m) (r_tenant spec) (r_service spec)) (errorf "endpoint name is occupied by a different tenant or service");
  _ ← fence_generation "endpoint" spec m;
  _ ← checkr (match expected with Some b => same_object "Service" b m | None => false end) Reconcile.ErrStaleGeneration;
  checkr (negb (o_deleting m)) (errorf "endpoint deletion is still in progress").
Definition applyEndpointFenced (e : RuntimeExecutor) (spec : RuntimeSpec) (expected : option RuntimeBinding) : M St Object :=
  with_client e (fun c =>
    s ← lift (Service spec);
    let reader := reader_for e c in
    let name := m_name (sv_meta s) in
    current ← read_fenced reader "Service" (r_namespace spec) name (fence_endpoint spec expected);
    _ ← cl_apply c (ownerForRuntime (x_field_manager e)) (mkApplied (MService s) "" (carried current o_rv));
    observed ← rd_get reader "Service" (r_namespace spec) name;
    _ ← record_binding e spec "Service" "endpoint" observed expected;
    mret observed).
Definition apply_endpoint (e : RuntimeExecutor) (spec : DesiredRuntime) : M St unit :=
  if endpointConfigured (dr_spec spec) then _ ← applyEndpointFenced e (dr_spec spec) (endpointBindingForSpec spec); mret tt else mret tt.
Definition ApplyRuntime (e : RuntimeExecutor) (op : Runner.OperationContext) : M St unit :=
  spec ← operationRuntime e op;
  _ ← check (negb (x_require_quota e) || dr_quota spec) (errorf "quota reservation must be confirmed before runtime apply");
  _ ← applyFenced e (dr_spec spec) (runtimeBindingForMode spec);
  apply_endpoint e spec.

(** ** Pods that may hold a managed GPU *)
Definition uses_extended (c : Container) : bool :=
  existsb (fun kv => contains kv.1 "/") (map_to_list (rq_requests (c_resources c)) ++ map_to_list (rq_limits (c_resources c))).
Definition isOwnedModelMaterializerPod (pod : Pod) (spec : RuntimeSpec) : bool :=
  bool_decide (r_artifact_provider spec = "model") &&
  bool_decide (label (o_labels (pod_meta pod)) "ani.kubercloud.com/component" = "model-materializer") &&
  match controller_of (pod_meta pod) with
  | None => false
  | Some o => bool_decide (ow_api o = "batch/v1") && bool_decide (ow_kind o = "Job") && negb (bool_decide (ow_uid o = "")) &&
              bool_decide (ow_name o = ModelClaimName sha256_hex spec +:+ "-fetch")
  end && negb (existsb uses_extended (pod_containers pod ++ pod_init pod)).
Definition kserve_selector (spec : RuntimeSpec) : gmap string string := {["serving.kserve.io/inferenceservice" := r_name spec]}.
Definition managed_gpu (spec : RuntimeSpec) : option Gpu.Request :=
  if r_managed_gpu spec then Resources.GPU (r_resources spec) else None.
(** The pods of this service, and of its KServe object when KServe runs it. *)
Definition list_pods (reader : Reader) (spec : RuntimeSpec) (labels : gmap string string) : M St (list Pod) :=
  owned ← rd_pods reader (r_namespace spec) labels;
  if bool_decide (r_provider spec = "kserve") then
    kserve ← rd_pods reader (r_namespace spec) (kserve_selector spec);
    mret (owned ++ kserve)
  else mret owned.
(** A label that is present names another owner. *)
Definition foreign (m : ObjectMeta) (key value : string) : bool :=
  negb (bool_decide (label (o_labels m) key = "")) && negb (bool_decide (label (o_labels m) key = value)).
Fixpoint release_refs (spec : RuntimeSpec) (request : Gpu.Request) (seen : list string) (pods : list Pod) : result (list Gpu.PodRef) :=
  match pods with
  | [] => Ok []
  | pod :: rest =>
      let m := pod_meta pod in
      if bool_decide (o_uid m = "") || bool_decide (o_name m = "") || bool_decide (o_namespace m = "") ||
         foreign m tenantIDLabel (r_tenant spec) || foreign m serviceIDLabel (r_service spec) ||
         foreign m generationLabel (format_int (r_generation spec)) || isOwnedModelMaterializerPod pod spec
      then release_refs spec request seen rest
      else if negb (existsb (fun c => bool_decide (c_name c = Gpu.ContainerName request)) (pod_containers pod)) then
        Err (errorf ("managed GPU Pod " +:+ o_namespace m +:+ "/" +:+ o_name m +:+ " is missing container " +:+ quoted (Gpu.ContainerName request)))
      else if bool_decide (o_uid m ∈ seen) then release_refs spec request seen rest
      else refs ← release_refs spec request (o_uid m :: seen) rest;
           Ok (Gpu.mkPodRef (Gpu.ClusterID request) (o_namespace m) (o_name m) (o_uid m) (Gpu.ContainerName request) :: refs)
  end.
Definition managedGPUReleasePods (e : RuntimeExecutor) (spec : RuntimeSpec) : M St (list Gpu.PodRef) :=
  match x_client e, managed_gpu spec with
  | Some c, Some request =>
      pods ← list_pods (cl_reader c) spec (<[generationLabel := format_int (r_generation spec)]> (owner_labels spec));
      lift (release_refs spec request [] pods)
  | _, _ => mret []
  end.
Definition terminal (pod : Pod) : bool := bool_decide (pod_phase pod = "Succeeded") || bool_decide (pod_phase pod = "Failed").
(** The pod belongs to this service as far as its labels say. *)
Definition at_generation (spec : RuntimeSpec) (pod : Pod) : RuntimeSpec :=
  match parse_generation (pod_meta pod) with Some g => spec <| r_generation := g |> | None => spec end.
Definition may_hold (spec : RuntimeSpec) (pod : Pod) : bool :=
  let m := pod_meta pod in
  negb (foreign m tenantIDLabel (r_tenant spec)) && negb (foreign m serviceIDLabel (r_service spec)) &&
  negb (isOwnedModelMaterializerPod pod (at_generation spec pod)).
Definition pod_path (pod : Pod) : string := o_namespace (pod_meta pod) +:+ "/" +:+ o_name (pod_meta pod).
Fixpoint remaining_listed (spec : RuntimeSpec) (recorded seen : list string) (pods : list Pod) : list string :=
  match pods with
  | [] => []
  | pod :: rest =>
      let uid := o_uid (pod_meta pod) in
      if bool_decide (uid ∈ seen) then remaining_listed spec recorded seen rest
      else if negb (terminal pod) && (bool_decide (uid ∈ recorded) || may_hold spec pod)
      then pod_path pod :: remaining_listed spec recorded (uid :: seen) rest
      else remaining_listed spec recorded (uid :: seen) rest
  end.
Fixpoint remaining_recorded (reader : Reader) (seen : list string) (recorded : list Gpu.PodRef) : M St (list string) :=
  match recorded with
  | [] => mret []
  | ref :: rest =>
      if bool_decide (Gpu.Pod_UID ref ∈ seen) then remaining_recorded reader seen rest
      else
        r ← try (rd_pod reader (Gpu.Pod_Namespace ref) (Gpu.Pod_Name ref));
        match r with
        | Err e => if IsNotFound e then remaining_recorded reader seen rest else throw e
        | Ok pod =>
            more ← remaining_recorded reader seen rest;
            mret (if bool_decide (o_uid (pod_meta pod) = Gpu.Pod_UID ref) && negb (terminal pod) then pod_path pod :: more else more)
        end
  end.
Definition managedGPUPodsRemaining (e : RuntimeExecutor) (spec : RuntimeSpec) (recorded : list Gpu.PodRef) : M St (list string) :=
  match x_client e, managed_gpu spec with
  | Some c, Some _ =>
      let reader := reader_for e c in
      pods ← list_pods reader spec (owner_labels spec);
      more ← remaining_recorded reader ((fun p => o_uid (pod_meta p)) <$> pods) recorded;
      mret (remaining_listed spec (Gpu.Pod_UID <$> recorded) [] pods ++ more)
  | _, _ => mret []
  end.
Fixpoint join (sep : string) (l : list string) : string :=
  match l with [] => "" | [s] => s | s :: l => s +:+ sep +:+ join sep l end.
Definition requireManagedGPUPodsGone (e : RuntimeExecutor) (spec : RuntimeSpec) (recorded : list Gpu.PodRef)
    (o : Reconcile.Observation) : M St Reconcile.Observation :=
  if negb (bool_decide (Reconcile.Obs_RuntimePhase o = "stopped")) then mret o
  else
    remaining ← managedGPUPodsRemaining e spec recorded;
    mret (match remaining with
          | [] => o
          | _ => o <| Reconcile.Obs_RuntimePhase := "degraded" |>
                   <| Reconcile.Obs_Reason := "managed GPU Pods still present: " +:+ join "," remaining |>
          end).

(** ** Observations *)
Definition new_observation (generation : Z) (mode publication phase reason : string) : Reconcile.Observation :=
  Reconcile.mkObservation generation phase 0 0 0 false false publication "unhealthy" mode "" reason [].
Definition missing_fact (b : RuntimeBinding) : Reconcile.RuntimeObject :=
  Reconcile.mkRuntimeObject (b_generation b) (b_kind b) (b_namespace b) (b_name b) (b_uid b) (b_rv b) (b_role b) (b_uid b) (b_rv b) true false.
Definition validateObservedObject (kind : string) (m : ObjectMeta) (tenant service : string) (generation : Z) (expected : option RuntimeBinding)
    : result Reconcile.RuntimeObject :=
  _ ← checkr (OwnedBy (o_labels m) tenant service) (errorf "observed runtime ownership labels do not match");
  g ← match parse_generation m with
      | Some g => if 1 <=? g then Ok g else Err (errorf "observed runtime is missing a valid generation label")
      | None => Err (errorf "observed runtime is missing a valid generation label")
      end;
  _ ← checkr (g =? generation) Reconcile.ErrStaleGeneration;
  _ ← checkr (negb (bool_decide (o_uid m = ""))) (errorf "observed runtime is missing UID");
  _ ← checkr (negb (bool_decide (o_rv m = ""))) (errorf "observed runtime is missing resourceVersion");
  _ ← checkr (match expected with
              | None => true
              | Some b => bool_decide (b_namespace b = o_namespace m) && bool_decide (b_name b = o_name m) &&
                          negb (bool_decide (b_uid b = "")) && bool_decide (b_uid b = o_uid m)
              end) Reconcile.ErrStaleGeneration;
  let role := match expected with Some b => if bool_decide (b_role b = "") then "runtime" else b_role b | None => "runtime" end in
  Ok (Reconcile.mkRuntimeObject generation kind (o_namespace m) (o_name m) (o_uid m) (o_rv m) role (expectedUID expected)
        (expectedResourceVersion expected) false (o_deleting m)).
Definition in_range (lo hi : Z) (s : string) : option Z :=
  z ← parse_int64 s; if (- 2 ^ 31 <=? z) && (z <? 2 ^ 31) && (lo <=? z) && (z <=? hi) then Some z else None.
Definition pod_ready (pod : Pod) : bool := bool_decide (("Ready", "True") ∈ pod_conditions pod).
(** The slot of a running, ready worker: its group and its index in it. *)
Definition ready_slot (groups workers : Z) (pod : Pod) : option (Z * Z) :=
  if o_deleting (pod_meta pod) || negb (bool_decide (pod_phase pod = "Running")) then None
  else
    worker ← in_range 1 workers (label (o_labels (pod_meta pod)) WorkerIndexLabelKey);
    group ← in_range 0 (groups - 1) (label (o_labels (pod_meta pod)) GroupIndexLabelKey);
    if pod_ready pod then Some (group, worker) else None.
Definition ready_slots (groups workers : Z) (pods : list Pod) : gset (Z * Z) := list_to_set (omap (ready_slot groups workers) pods).
Definition readyLWSWorkers (c : Client) (spec : RuntimeSpec) : M St Z :=
  pods ← rd_pods (cl_reader c) (r_namespace spec)
    (<[SetNameLabelKey := r_name spec]> (<[generationLabel := format_int (r_generation spec)]> (owner_labels spec)));
  mret (int32 (Z.of_nat (size (ready_slots (r_replicas spec) (r_workers spec) pods)))).
Definition readiness (current updated ready : bool) (o : Reconcile.Observation) : Reconcile.Observation :=
  if current && updated && ready then o <| Reconcile.Obs_RuntimePhase := "ready" |>
  else if current && updated then o <| Reconcile.Obs_RuntimePhase := "degraded" |> <| Reconcile.Obs_Reason := "runtime readiness regressed" |>
  else o <| Reconcile.Obs_RuntimePhase := "pending" |>.
Definition observe_lws (c : Client) (spec : RuntimeSpec) (m : ObjectMeta) (l : LWSStatus) (o : Reconcile.Observation) : M St Reconcile.Observation :=
  workers ← readyLWSWorkers c spec;
  let desired := default 0 (ls_replicas l) in
  let desiredWorkers := match ls_size l with Some size => if 1 <? size then int32 (desired * int32 (size - 1)) else 0 | None => 0 end in
  mret (readiness ((0 <? o_generation m) && (o_generation m <=? ls_observed l)) (desired <=? ls_updated l)
          ((0 <? desired) && (desired <=? ls_ready l) && (desiredWorkers <=? workers))
          (o <| Reconcile.Obs_ReadyGroups := ls_ready l |> <| Reconcile.Obs_ReadyReplicas := ls_ready l |>
             <| Reconcile.Obs_LWSUID := o_uid m |> <| Reconcile.Obs_ReadyWorkers := workers |>)).
(** Available replicas only matter for readiness. *)
Definition observe_deployment (m : ObjectMeta) (d : DeploymentStatus) (o : Reconcile.Observation) : Reconcile.Observation :=
  let desired := default 0 (ds_replicas d) in
  readiness ((0 <? o_generation m) && (o_generation m <=? ds_observed d)) (desired <=? ds_updated d)
    ((desired <=? ds_available d) && (0 <? desired) && (desired <=? ds_ready d)) (o <| Reconcile.Obs_ReadyReplicas := ds_ready d |>).
Definition observe (c : Client) (spec : RuntimeSpec) (expected : option RuntimeBinding) : M St Reconcile.Observation :=
  let kind := kindForRuntimeMode (runtimeModeForSpec spec) in
  let o := new_observation (r_generation spec) (runtimeModeForSpec spec) "unknown" "" "" in
  _ ← check (match expected with Some b => bool_decide (b_kind b = kind) | None => true end) Reconcile.ErrStaleGeneration;
  r ← try (rd_get (cl_reader c) kind (r_namespace spec) (r_name spec));
  match r with
  | Err e =>
      if IsNotFound e then
        mret (o <| Reconcile.Obs_RuntimePhase := "degraded" |> <| Reconcile.Obs_Reason := "runtime object is missing" |>
                <| Reconcile.Obs_Objects := match expected with Some b => [missing_fact b] | None => [] end |>)
      else throw e
  | Ok obj =>
      fact ← lift (validateObservedObject kind (ob_meta obj) (r_tenant spec) (r_service spec) (r_generation spec) expected);
      let o := o <| Reconcile.Obs_Objects := [fact] |> in
      if o_deleting (ob_meta obj) then
        mret (o <| Reconcile.Obs_RuntimePhase := "degraded" |> <| Reconcile.Obs_Reason := "runtime object is being deleted" |>)
      else match ob_body obj with
           | BLWS l => observe_lws c spec (ob_meta obj) l o
           | BDeployment d => mret (observe_deployment (ob_meta obj) d o)
           | _ => throw (errorf "unsupported observed runtime kind")
           end
  end.

Definition observeBinding (c : Client) (tenant service : string) (b : RuntimeBinding) : M St (Reconcile.RuntimeObject * bool) :=
  _ ← lift (objectForKind (b_kind b));
  r ← try (rd_get (cl_reader c) (b_kind b) (b_namespace b) (b_name b));
  match r with
  | Err e => if IsNotFound e then mret (missing_fact b, true) else throw e
  | Ok obj => fact ← lift (validateObservedObject (b_kind b) (ob_meta obj) tenant service (b_generation b) (Some b)); mret (fact, false)
  end.
Definition runtime_role (b : RuntimeBinding) : bool :=
  bool_decide (b_role b = "") || bool_decide (b_role b = "runtime") || bool_decide (b_role b = "endpoint").
Fixpoint observe_bindings (c : Client) (spec : RuntimeSpec) (bindings : list RuntimeBinding) (o : Reconcile.Observation) : M St Reconcile.Observation :=
  match bindings with
  | [] => mret o
  | b :: rest =>
      if negb (runtime_role b) then observe_bindings c spec rest o
      else
        '(fact, missing) ← observeBinding c (r_tenant spec) (r_service spec) b;
        let o := o <| Reconcile.Obs_Objects := Reconcile.Obs_Objects o ++ [fact] |> in
        observe_bindings c spec rest
          (if (missing : bool) then o else o <| Reconcile.Obs_RuntimePhase := "degraded" |> <| Reconcile.Obs_Reason := "runtime deletion pending" |>)
  end.
Definition no_binding : goerr := errorf "runtime deletion requires a persisted runtime binding".
Definition observeDeletion (c : Client) (generation : Z) (spec : RuntimeSpec) (bindings : list RuntimeBinding) : M St Reconcile.Observation :=
  o ← observe_bindings c spec bindings (new_observation generation (r_mode spec) "withdrawn" "stopped" "");
  _ ← check (match Reconcile.Obs_Objects o with [] => false | _ => true end) no_binding;
  mret o.

(** ** Invocation and health *)
Definition ErrUnavailable : goerr := ENew "diagnostics.ErrUnavailable" "runtime diagnostics unavailable".
Definition ProbeInvocation (e : RuntimeExecutor) (tenant service : string) (generation : Z) (model : string) : M St (string * string) :=
  match x_source e, x_probe e, x_api_reader e, x_client e with
  | Some _, Some probe, Some _, _ | Some _, Some probe, _, Some _ => probe tenant service generation model
  | _, _, _, _ => throw ErrUnavailable
  end.
Definition reason_or (reason : string) (o : Reconcile.Observation) : Reconcile.Observation :=
  if bool_decide (Reconcile.Obs_Reason o = "") then o <| Reconcile.Obs_Reason := reason |> else o.
Definition observeInvocation (e : RuntimeExecutor) (spec : DesiredRuntime) (o : Reconcile.Observation) : M St Reconcile.Observation :=
  if negb (bool_decide (Reconcile.Obs_RuntimePhase o = "ready")) || negb (dr_published spec) || negb (dr_model_known spec) || negb (dr_model_ready spec)
  then mret (reason_or "runtime_not_ready" (o <| Reconcile.Obs_InvocationHealth := "unhealthy" |>))
  else
    r ← try (ProbeInvocation e (r_tenant (dr_spec spec)) (r_service (dr_spec spec)) (r_generation (dr_spec spec)) (r_served_model (dr_spec spec)));
    mret (match r with
          | Err _ => reason_or "invocation_probe_unavailable" (o <| Reconcile.Obs_InvocationHealth := "unknown" |>)
          | Ok (state, reason) =>
              let o := o <| Reconcile.Obs_InvocationHealth := state |> in
              if bool_decide (reason = "") then o else o <| Reconcile.Obs_Reason := reason |>
          end).
Definition degraded (reason : string) (o : Reconcile.Observation) : Reconcile.Observation :=
  o <| Reconcile.Obs_RuntimePhase := "degraded" |> <| Reconcile.Obs_Reason := reason |>.
Definition observe_endpoint (c : Client) (spec : DesiredRuntime) (o : Reconcile.Observation) : M St Reconcile.Observation :=
  if negb (endpointConfigured (dr_spec spec)) then mret o
  else match endpointBindingForSpec spec with
       | None => mret (degraded "endpoint binding is missing" o)
       | Some b =>
           '(fact, missing) ← observeBinding c (r_tenant (dr_spec spec)) (r_service (dr_spec spec)) b;
           let o := o <| Reconcile.Obs_Objects := Reconcile.Obs_Objects o ++ [fact] |> in
           mret (if (missing : bool) then degraded "endpoint service is missing" o
                 else if Reconcile.Terminating fact then degraded "endpoint service is being deleted" o else o)
       end.
Definition model_facts (spec : DesiredRuntime) (o : Reconcile.Observation) : Reconcile.Observation :=
  o <| Reconcile.Obs_ModelReady := dr_model_ready spec |> <| Reconcile.Obs_ModelReadyKnown := dr_model_known spec |>.
Definition observeHealth (e : RuntimeExecutor) (c : Client) (spec : DesiredRuntime) (binding : option RuntimeBinding) : M St Reconcile.Observation :=
  o ← observe c (dr_spec spec) binding;
  o ← observe_endpoint c spec o;
  let o := model_facts spec o in
  let o := if bool_decide (Reconcile.Obs_RuntimePhase o = "pending") && dr_model_known spec && dr_model_ready spec
           then reason_or "runtime_loading" (o <| Reconcile.Obs_RuntimePhase := "loading" |>) else o in
  observeInvocation e spec o.
Definition runtime_observation (o : Reconcile.Observation) (ready known model_ready absent : bool) (health : string)
    (refs : list Gpu.PodRef) : Runner.RuntimeObservation :=
  Runner.mkRuntimeObservation ready (Reconcile.Obs_RuntimePhase o) (Reconcile.Obs_RuntimeMode o) (Reconcile.Obs_ReadyReplicas o)
    (Reconcile.Obs_ReadyGroups o) (Reconcile.Obs_ReadyWorkers o) (Reconcile.Obs_LWSUID o) model_ready known health absent
    (Reconcile.Obs_Reason o) (Reconcile.Obs_Objects o) refs.
Definition is_ready (o : Reconcile.Observation) : bool := bool_decide (Reconcile.Obs_RuntimePhase o = "ready").
Definition ObserveRuntime (e : RuntimeExecutor) (op : Runner.OperationContext) : M St Runner.RuntimeObservation :=
  spec ← operationRuntime e op;
  with_client e (fun c =>
    o ← observeHealth e c spec (runtimeBindingForMode spec);
    refs ← managedGPUReleasePods e (dr_spec spec);
    mret (runtime_observation o (is_ready o) (Reconcile.Obs_ModelReadyKnown o) (Reconcile.Obs_ModelReady o) false
            (Reconcile.Obs_InvocationHealth o) refs)).
Definition validateCurrentRuntimeSpec (spec : DesiredRuntime) : result unit :=
  _ ← checkr (negb (bool_decide (r_tenant (dr_spec spec) = "") || bool_decide (r_service (dr_spec spec) = "") ||
                    (r_generation (dr_spec spec) <? 1) || bool_decide (r_namespace (dr_spec spec) = "") || bool_decide (r_name (dr_spec spec) = "")))
        (errorf "runtime observation requires tenant, service, generation, namespace and name");
  checkr (bool_decide (dr_state spec = "") || bool_decide (dr_state spec = "running"))
    (errorf "read-only runtime observation requires a running desired state").
Definition observeUnboundCurrent (get : M St unit) (spec : DesiredRuntime) (reason : string) : M St Reconcile.Observation :=
  r ← try get;
  match r with
  | Ok _ => throw Reconcile.ErrStaleGeneration
  | Err e =>
      if IsNotFound e then
        mret (model_facts spec (new_observation (r_generation (dr_spec spec)) (runtimeModeForSpec (dr_spec spec)) "unknown" "degraded" reason))
      else throw e
  end.
Definition observeCurrent (e : RuntimeExecutor) (spec : DesiredRuntime) : M St Reconcile.Observation :=
  match x_client e, x_source e with
  | Some c, Some _ =>
      _ ← lift (validateCurrentRuntimeSpec spec);
      match runtimeBindingForMode spec with
      | None =>
          let kind := kindForRuntimeMode (r_mode (dr_spec spec)) in
          observeUnboundCurrent (_ ← rd_get (cl_reader c) kind (r_namespace (dr_spec spec)) (r_name (dr_spec spec)); mret tt) spec
            "runtime object is missing"
      | Some b => observeHealth e c spec (Some b)
      end
  | _, _ => throw (errorf "kubernetes runtime observation is not configured")
  end.

(** ** Deletion *)
Definition Delete (e : RuntimeExecutor) (b : RuntimeBinding) : M St unit :=
  with_client e (fun c =>
    _ ← check (negb (bool_decide (b_namespace b = "") || bool_decide (b_name b = "") || bool_decide (b_uid b = "") || bool_decide (b_rv b = "")))
          (errorf "runtime binding requires namespace, name, UID and resourceVersion");
    _ ← lift (objectForKind (b_kind b));
    r ← try (cl_delete c (b_kind b) (b_namespace b) (b_name b) (b_uid b) (b_rv b) true);
    match r with
    | Ok _ => mret tt
    | Err err =>
        if IsNotFound err then mret tt
        else if negb (IsConflict err) then throw err
        else
          current ← try (rd_get (cl_reader c) (b_kind b) (b_namespace b) (b_name b));
          match current with
          | Err e => if IsNotFound e then mret tt else throw e
          | Ok obj => if bool_decide (o_uid (ob_meta obj) = b_uid b) && o_deleting (ob_meta obj) then mret tt else throw err
          end
    end).
(** Deletes the selected bindings and says whether there was one. *)
Fixpoint delete_each (delete : RuntimeBinding -> M St unit) (select : RuntimeBinding -> bool) (bindings : list RuntimeBinding) : M St bool :=
  match bindings with
  | [] => mret false
  | b :: rest => if negb (select b) then delete_each delete select rest else _ ← delete b; _ ← delete_each delete select rest; mret true
  end.
Definition DeleteRuntime (e : RuntimeExecutor) (op : Runner.OperationContext) : M St unit :=
  spec ← operationRuntime e op;
  _ ← check (dr_withdrawn spec) (errorf "publication withdrawal must be confirmed before runtime deletion");
  deleted ← delete_each (Delete e) runtime_role (dr_bindings spec);
  check deleted no_binding.
Definition absence (o : Reconcile.Observation) : Runner.RuntimeObservation :=
  runtime_observation o false false false (bool_decide (Reconcile.Obs_RuntimePhase o = "stopped")) "unhealthy" [].
Definition ObserveAbsence (e : RuntimeExecutor) (op : Runner.OperationContext) : M St Runner.RuntimeObservation :=
  spec ← operationRuntime e op;
  _ ← check (dr_withdrawn spec) (errorf "publication withdrawal must be confirmed before runtime absence observation");
  with_client e (fun c =>
    o ← observeDeletion c (Runner.TargetGeneration op) (dr_spec spec) (dr_bindings spec);
    o ← requireManagedGPUPodsGone e (dr_spec spec) (Runner.ManagedGPUReleasePods op) o;
    mret (absence o)).
Definition DeleteCR (e : RuntimeExecutor) (op : Runner.OperationContext) : M St unit :=
  match x_cr_client e with
  | None => throw (errorf "kubernetes CR client is nil")
  | Some cr =>
      spec ← operationRuntime e op;
      r ← try (rd_get (reader_for e cr) "InferenceService" (r_namespace (dr_spec spec)) (r_name (dr_spec spec)));
      match r with
      | Err e => if IsNotFound e then mret tt else throw e
      | Ok obj =>
          let m := ob_meta obj in
          _ ← check (OwnedBy (o_labels m) (Runner.TenantID op) (Runner.ServiceID op))
                (errorf "inference service CR is occupied by a different tenant or service");
          match controlBindingForSpec spec with
          | None => throw (errorf "inference service CR requires a persisted control binding")
          | Some b =>
              _ ← check (bool_decide (b_kind b = "InferenceService") && bool_decide (b_role b = "control") &&
                         bool_decide (b_namespace b = o_namespace m) && bool_decide (b_name b = o_name m) && bool_decide (b_uid b = o_uid m))
                    Reconcile.ErrStaleGeneration;
              _ ← check (negb (bool_decide (o_uid m = "") || bool_decide (o_rv m = "")))
                    (errorf "inference service CR is missing current UID or resourceVersion");
              cl_delete cr "InferenceService" (o_namespace m) (o_name m) (o_uid m) (o_rv m) false
          end
      end
  end.

(** ** The continuous reconciler *)
Definition ensure_running (e : RuntimeExecutor) (c : Client) (spec : DesiredRuntime) : M St Reconcile.Observation :=
  _ ← check (negb (x_require_quota e) || dr_quota spec) (errorf "quota reservation must be confirmed before runtime apply");
  _ ← applyCR_ e (dr_spec spec) (dr_state spec) (controlBindingForSpec spec);
  _ ← applyFenced e (dr_spec spec) (runtimeBindingForMode spec);
  _ ← apply_endpoint e spec;
  observeHealth e c spec (runtimeBindingForMode spec).
Definition ensure_stopped (e : RuntimeExecutor) (c : Client) (generation : Z) (spec : DesiredRuntime) : M St Reconcile.Observation :=
  _ ← check (dr_withdrawn spec) (errorf "publication withdrawal must be confirmed before runtime deletion");
  _ ← applyCR_ e (dr_spec spec) (dr_state spec) (controlBindingForSpec spec);
  match dr_bindings spec with
  | [] => _ ← check (bool_decide (dr_phase spec = "stopped")) no_binding;
          mret (new_observation generation (runtimeModeForSpec (dr_spec spec)) "withdrawn" "stopped" "")
  | _ => deleted ← delete_each (Delete e) runtime_role (dr_bindings spec);
         _ ← check deleted no_binding;
         observeDeletion c generation (dr_spec spec) (dr_bindings spec)
  end.
Definition Ensure (e : RuntimeExecutor) (d : Reconcile.Desired) : M St Reconcile.Observation :=
  with_client e (fun c =>
  match x_source e with
  | None => throw (errorf "kubernetes runtime executor desired source is nil")
  | Some source =>
      _ ← check (negb (bool_decide (Reconcile.D_TenantID d = "") || bool_decide (Reconcile.D_ServiceID d = "") || (Reconcile.D_Generation d <? 1)))
            (errorf "tenant, service and positive generation are required");
      spec ← source (Reconcile.D_TenantID d) (Reconcile.D_ServiceID d) (Reconcile.D_Generation d);
      _ ← lift (same_identity (dr_spec spec) (Reconcile.D_TenantID d) (Reconcile.D_ServiceID d) (Reconcile.D_Generation d));
      let spec := identify e spec (Reconcile.D_TenantID d) (Reconcile.D_ServiceID d) (Reconcile.D_Generation d) in
      if bool_decide (dr_state spec = "") || bool_decide (dr_state spec = "running") then ensure_running e c spec
      else if bool_decide (dr_state spec = "stopped") || bool_decide (dr_state spec = "deleted") then ensure_stopped e c (Reconcile.D_Generation d) spec
      else throw (errorf ("unsupported desired state " +:+ quoted (dr_state spec)))
  end).

(** ** The release gate

    [live] says which pods exist; an honest reader answers from the state it is
    asked in, and identities are unique. *)
Section Gate.
Context (live : St -> Pod -> Prop).
Record honest (reader : Reader) : Prop := {
  hn_list ns selector s l s' : rd_pods reader ns selector s = (Ok l, s') ->
    ∀ p, p ∈ l <-> live s p ∧ o_namespace (pod_meta p) = ns ∧ selector ⊆ o_labels (pod_meta p);
  hn_get ns name s p s' : rd_pod reader ns name s = (Ok p, s') ->
    live s p ∧ o_namespace (pod_meta p) = ns ∧ o_name (pod_meta p) = name;
  hn_absent ns name s e s' p : rd_pod reader ns name s = (Err e, s') -> IsNotFound e = true -> live s p ->
    o_namespace (pod_meta p) = ns -> o_name (pod_meta p) ≠ name }.
Definition unique_pods : Prop := ∀ s p q, live s p -> live s q ->
  o_uid (pod_meta p) = o_uid (pod_meta q) ∨ (o_namespace (pod_meta p) = o_namespace (pod_meta q) ∧ o_name (pod_meta p) = o_name (pod_meta q)) -> p = q.

(** A pod that holds the GPU of this service: not finished, and labelled as its
    workload (any generation) or recorded as one of its pods. *)
Definition held_by_label (spec : RuntimeSpec) (uid : string) (s : St) : Prop :=
  ∃ p, live s p ∧ o_uid (pod_meta p) = uid ∧ o_namespace (pod_meta p) = r_namespace spec ∧ owner_labels spec ⊆ o_labels (pod_meta p) ∧
    terminal p = false ∧ isOwnedModelMaterializerPod p (at_generation spec p) = false.
Definition held_by_record (ref : Gpu.PodRef) (s : St) : Prop :=
  ∃ p, live s p ∧ o_uid (pod_meta p) = Gpu.Pod_UID ref ∧ o_namespace (pod_meta p) = Gpu.Pod_Namespace ref ∧
    o_name (pod_meta p) = Gpu.Pod_Name ref ∧ terminal p = false.
Definition held (spec : RuntimeSpec) (recorded : list Gpu.PodRef) (s : St) : Prop :=
  (∃ uid, held_by_label spec uid s) ∨ ∃ ref, ref ∈ recorded ∧ held_by_record ref s.
(** The pod survives the calls an observation makes. *)
Definition quiet (R : relation St) (reader : Reader) : Prop :=
  (∀ k ns n, moves R (rd_get reader k ns n)) ∧ (∀ k ns n, moves R (rd_kserve reader k ns n)) ∧
  (∀ ns n, moves R (rd_pod reader ns n)) ∧ (∀ ns l, moves R (rd_pods reader ns l)).
Definition survives (H : St -> Prop) : relation St := fun s t => H s -> H t.
#[global] Instance survives_preorder H : PreOrder (survives H).
Proof. split; unfold survives; [intros s; auto|intros s t u; auto]. Qed.

Lemma own_labels_not_foreign spec m : owner_labels spec ⊆ o_labels m ->
  foreign m tenantIDLabel (r_tenant spec) = false ∧ foreign m serviceIDLabel (r_service spec) = false.
Proof.
  intros H. unfold foreign, label.
  assert (o_labels m !! tenantIDLabel = Some (r_tenant spec)) as -> by (eapply lookup_weaken; [|done]; apply lookup_insert_eq).
  assert (o_labels m !! serviceIDLabel = Some (r_service spec)) as -> by (eapply lookup_weaken; [|done]; unfold owner_labels; rewrite lookup_insert_ne by done; apply lookup_singleton_eq).
  cbn. rewrite (bool_decide_true (r_tenant spec = r_tenant spec)), (bool_decide_true (r_service spec = r_service spec)) by done.
  by rewrite !andb_false_r.
Qed.
Definition counts (spec : RuntimeSpec) (recorded : list string) (p : Pod) : bool :=
  negb (terminal p) && (bool_decide (o_uid (pod_meta p) ∈ recorded) || may_hold spec p).
Lemma listed_remains spec recorded uid l1 l2 seen : uid ∉ seen -> (∃ p, p ∈ l1 ∧ o_uid (pod_meta p) = uid) ->
  (∀ p, p ∈ l1 -> o_uid (pod_meta p) = uid -> counts spec recorded p = true) -> remaining_listed spec recorded seen (l1 ++ l2) ≠ [].
Proof.
  revert seen. induction l1 as [|q l1 IH]; intros seen Hs (p & Hp & Hu) Hc; [by apply not_elem_of_nil in Hp|]. cbn.
  destruct (decide (o_uid (pod_meta q) = uid)) as [E|E].
  - rewrite bool_decide_false by by rewrite E. fold (counts spec recorded q). rewrite Hc by (done || left). done.
  - assert (∃ p, p ∈ l1 ∧ o_uid (pod_meta p) = uid) as Hp'.
    { exists p. split; [|done]. apply elem_of_cons in Hp as [->|]; [by destruct E|done]. }
    assert (∀ p, p ∈ l1 -> o_uid (pod_meta p) = uid -> counts spec recorded p = true) as Hc' by (intros x Hx; apply Hc; by right).
    repeat case_match; try done; apply IH; try done. set_solver.
Qed.
Section Reads.
Context (reader : Reader) (Hh : honest reader) (Hu : unique_pods).
Lemma recorded_remains ref seen recorded s l s' : quiet (survives (held_by_record ref)) reader -> ref ∈ recorded -> Gpu.Pod_UID ref ∉ seen ->
  remaining_recorded reader seen recorded s = (Ok l, s') -> held_by_record ref s -> l ≠ [].
Proof.
  intros (_ & _ & Hq & _). revert s l s'. induction recorded as [|r recorded IH]; intros s l s' Hin Hn H Hs; [by apply not_elem_of_nil in Hin|].
  cbn in H. apply elem_of_cons in Hin as [<-|Hin].
  - rewrite bool_decide_false in H by done. minv H. destruct Hs as (p & Hp & H1 & H2 & H3 & H4). destruct a as [q|e].
    + apply (hn_get _ Hh) in Hm as (Hq1 & Hq2 & Hq3). minv H. injection H as <- _.
      assert (q = p) as -> by (apply (Hu s); [done..|]; right; by rewrite H2, H3). rewrite H1, bool_decide_true, H4 by done. done.
    + destruct (IsNotFound e) eqn:E; [|done]. by destruct (hn_absent _ Hh _ _ _ _ _ p Hm E Hp H2).
  - destruct (bool_decide _); [by apply (IH s l s')|]. minv H. assert (held_by_record ref u) as Hs'.
    { pose proof (Hq (Gpu.Pod_Namespace r) (Gpu.Pod_Name r) s Hs) as Hx. by rewrite Hm in Hx. }
    destruct a as [q|e].
    + minv H. injection H as <- _. apply (IH _ _ _ Hin Hn) in Hm0; [|done]. by destruct (_ && _).
    + destruct (IsNotFound e); [by apply (IH u l s')|done].
Qed.
(** What the lists say about a held pod. *)
Lemma listed_by_record ref spec s owned s1 : rd_pods reader (r_namespace spec) (owner_labels spec) s = (Ok owned, s1) -> held_by_record ref s ->
  ∀ p, p ∈ owned -> o_uid (pod_meta p) = Gpu.Pod_UID ref -> terminal p = false.
Proof.
  intros H (p & Hp & H1 & _ & _ & H4) q Hq Eq. apply (hn_list _ Hh _ _ _ _ _ H) in Hq as (Hq & _).
  assert (q = p) as -> by (apply (Hu s); [done..|]; left; congruence). done.
Qed.
Lemma kserve_by_record ref spec s listed s1 : rd_pods reader (r_namespace spec) (kserve_selector spec) s = (Ok listed, s1) -> held_by_record ref s ->
  ∀ p, p ∈ listed -> o_uid (pod_meta p) = Gpu.Pod_UID ref -> terminal p = false.
Proof.
  intros H (p & Hp & H1 & _ & _ & H4) q Hq Eq. apply (hn_list _ Hh _ _ _ _ _ H) in Hq as (Hq & _).
  assert (q = p) as -> by (apply (Hu s); [done..|]; left; congruence). done.
Qed.
Lemma list_pods_split spec s pods s' : list_pods reader spec (owner_labels spec) s = (Ok pods, s') ->
  ∃ owned rest s1, rd_pods reader (r_namespace spec) (owner_labels spec) s = (Ok owned, s1) ∧ pods = owned ++ rest ∧
    (rest = [] ∧ s' = s1 ∨ rd_pods reader (r_namespace spec) (kserve_selector spec) s1 = (Ok rest, s')).
Proof.
  unfold list_pods. intros H. minv H. destruct (bool_decide _).
  - minv H. injection H as <- <-. eauto 10.
  - injection H as <- <-. exists a, [], u. rewrite app_nil_r. auto.
Qed.
End Reads.

Lemma held_remains e c spec recorded s l s' : x_client e = Some c -> honest (reader_for e c) -> unique_pods ->
  (∀ ref, ref ∈ recorded -> quiet (survives (held_by_record ref)) (reader_for e c)) ->
  managed_gpu spec ≠ None -> managedGPUPodsRemaining e spec recorded s = (Ok l, s') -> held spec recorded s -> l ≠ [].
Proof.
  intros Ec Hh Hu Hq Hg H Hs. unfold managedGPUPodsRemaining in H. rewrite Ec in H. destruct (managed_gpu spec); [|done]. cbv zeta in H. minv H.
  injection H as <- <-. destruct (list_pods_split _ _ _ _ _ Hm) as (owned & rest & s1 & H1 & -> & H2).
  intros [E1 E2]%app_eq_nil. destruct Hs as [(uid & p & Hp & Hu1 & Hn & Hl & Ht & Hm')|(ref & Hin & Hr)].
  - revert E1. apply (listed_remains _ _ uid); [by apply not_elem_of_nil| |].
    + exists p. split; [|done]. by apply (hn_list _ Hh _ _ _ _ _ H1).
    + intros q Hq' Eq. apply (hn_list _ Hh _ _ _ _ _ H1) in Hq' as (Hq' & _).
      assert (q = p) as -> by (apply (Hu s); [done..|]; left; congruence). unfold counts, may_hold.
      destruct (own_labels_not_foreign _ _ Hl) as [-> ->]. rewrite Ht, Hm'. by rewrite orb_true_r.
  - destruct (decide (Gpu.Pod_UID ref ∈ (fun p => o_uid (pod_meta p)) <$> (owned ++ rest))) as [Hx|Hx].
    + apply list_elem_of_fmap in Hx as (p & Ep & Hp). revert E1. rewrite <- (app_nil_r (owned ++ rest)).
      apply (listed_remains _ _ (Gpu.Pod_UID ref)); [by apply not_elem_of_nil|eauto|]. intros q Hq' Eq. unfold counts.
      rewrite (bool_decide_true (_ ∈ _)) by (rewrite Eq; by apply list_elem_of_fmap_2). rewrite andb_true_r. apply negb_true_iff.
      apply elem_of_app in Hq' as [Hq'|Hq']; [by eapply listed_by_record|].
      destruct H2 as [[-> _]|H2]; [by apply not_elem_of_nil in Hq'|]. eapply kserve_by_record; [done..| |done|done].
      pose proof (proj2 (proj2 (proj2 (Hq ref Hin))) (r_namespace spec) (owner_labels spec) s Hr) as Hx. by rewrite H1 in Hx.
    + eapply recorded_remains in Hm0; [by destruct Hm0|done|done|by apply Hq|done|done|].
      pose proof (proj2 (proj2 (proj2 (Hq ref Hin)))) as Hl. pose proof (Hl (r_namespace spec) (owner_labels spec) s Hr) as Hy. rewrite H1 in Hy. cbn in Hy.
      destruct H2 as [[_ ->]|H2]; [done|]. pose proof (Hl (r_namespace spec) (kserve_selector spec) s1 Hy) as Hz. by rewrite H2 in Hz.
Qed.
End Gate.

(** ** Observing only reads *)
Section Quiet.
Context (R : relation St) `{!PreOrder R}.
(** Reading the desired state and the cluster is all an observation does. *)
Record steady (e : RuntimeExecutor) (c : Client) : Prop := {
  st_source source tenant service generation : x_source e = Some source -> moves R (source tenant service generation);
  st_client : quiet R (cl_reader c);
  st_reader : quiet R (reader_for e c) }.
Lemma moves_operationRuntime e c op : steady e c -> moves R (operationRuntime e op).
Proof. intros [Hs _ _]. unfold operationRuntime, with_client. destruct (x_client e); [|moves]. destruct (x_source e) eqn:E; moves. Qed.
Lemma moves_observeBinding c tenant service b : quiet R (cl_reader c) -> moves R (observeBinding c tenant service b).
Proof. intros (H & _). unfold observeBinding. moves. Qed.
Lemma moves_observe_bindings c spec bindings o : quiet R (cl_reader c) -> moves R (observe_bindings c spec bindings o).
Proof.
  intros H. pose proof (moves_observeBinding c) as Hb. revert o. induction bindings as [|b bindings IH]; intros o; cbn; [moves|].
  destruct (negb _); [apply IH|]. apply moves_bind; [typeclasses eauto|by apply Hb|]. intros [fact missing]. apply IH.
Qed.
Lemma moves_observeDeletion c generation spec bindings : quiet R (cl_reader c) -> moves R (observeDeletion c generation spec bindings).
Proof. intros H. pose proof (moves_observe_bindings c spec) as Hb. unfold observeDeletion. moves. Qed.
End Quiet.

Section Blocked.
Context (live : St -> Pod -> Prop).
(** Every pod that counts survives the observation. *)
Definition undisturbed (spec : RuntimeSpec) (recorded : list Gpu.PodRef) (e : RuntimeExecutor) (c : Client) : Prop :=
  (∀ uid, steady (survives (held_by_label live spec uid)) e c) ∧
  (∀ ref, ref ∈ recorded -> steady (survives (held_by_record live ref)) e c).
Lemma survives_held {A} spec recorded (m : M St A) : (∀ uid, moves (survives (held_by_label live spec uid)) m) ->
  (∀ ref, ref ∈ recorded -> moves (survives (held_by_record live ref)) m) -> moves (survives (held live spec recorded)) m.
Proof.
  intros H1 H2 s [(uid & H)|(ref & Hin & H)].
  - left. exists uid. by apply H1.
  - right. exists ref. split; [done|]. by apply H2.
Qed.
Lemma undisturbed_held spec recorded e c : undisturbed spec recorded e c -> steady (survives (held live spec recorded)) e c.
Proof.
  intros [H1 H2]. split.
  - intros source tenant service generation E. apply survives_held; intros.
    + by apply (st_source _ _ _ (H1 uid)).
    + by apply (st_source _ _ _ (H2 ref H)).
  - split_and!; intros; apply survives_held; intros; first [apply (st_client _ _ _ (H1 uid))|by apply (st_client _ _ _ (H2 _ H))].
  - split_and!; intros; apply survives_held; intros; first [apply (st_reader _ _ _ (H1 uid))|by apply (st_reader _ _ _ (H2 _ H))].
Qed.
Lemma gone_means_free e c spec recorded o s o' s' : x_client e = Some c -> honest live (reader_for e c) -> unique_pods live ->
  undisturbed spec recorded e c -> managed_gpu spec ≠ None ->
  requireManagedGPUPodsGone e spec recorded o s = (Ok o', s') -> Reconcile.Obs_RuntimePhase o' = "stopped" -> ¬ held live spec recorded s.
Proof.
  intros Ec Hh Hu [_ Hd] Hg. unfold requireManagedGPUPodsGone. case_bool_decide as E; cbn [negb].
  - intros H. minv H. injection H as <- <-. intros Ep Hs. eapply held_remains in Hm; [|done..| |done|done].
    + by destruct a.
    + intros ref Hin. by apply (st_reader _ _ _ (Hd ref Hin)).
  - intros [= <- <-] Hp. by rewrite Hp in E.
Qed.
End Blocked.
End Executor.
End Executor.
