(* ===== verification/KServe.v ===== *)
(** * The KServe executor and the runtime router

    The reading and writing half of internal/data/kubernetes/kserve.go,
    runtime_router.go, and the pull-secret check of image_pull_secret.go: KServe
    objects are applied, deleted and judged ready through the objects KServe makes
    of them, and the router sends every operation to the executor that owns the
    objects recorded for the service. *)

From S2P Require Import Prelude GoStrings Operation Gpu Resources Engine Canonical Work Schema Contract WorkStore Reconcile Runner ReconcileStore OperationStore Commands Managed Update Server Intake Render Executor.
Local Open Scope Z_scope.

Module KServe.
Import Managed.Managed Intake.Intake Render.Render Executor.Executor.

Section KServe.
Context `{Q : QuantityLib} `{K : KubeLib} (sha256_hex : string -> string) {St : Type}.
Local Abbreviation Executor := (RuntimeExecutor (St := St)).
Local Abbreviation Reader := (Executor.Executor.Reader (St := St)).
Local Abbreviation Client := (Executor.Executor.Client (St := St)).

Definition KServeLLMWorkloadName (name : string) : string := name +:+ "-kserve-mn".
Definition kserveKindForMode (mode : string) : string :=
  if bool_decide (mode = "leader_worker_set") then KServeLLMInferenceServiceKind else KServeInferenceServiceKind.
Definition isKServeBindingKind (kind : string) : bool :=
  bool_decide (kind = KServeInferenceServiceKind) || bool_decide (kind = KServeLLMInferenceServiceKind).
Definition kserve_role (b : RuntimeBinding) : bool :=
  isKServeBindingKind (b_kind b) && (bool_decide (b_role b = "") || bool_decide (b_role b = "runtime")).
Definition kserveBindings (spec : DesiredRuntime) : list RuntimeBinding := filter (fun b => kserve_role b = true) (dr_bindings spec).
Definition kserveBindingForSpec (spec : DesiredRuntime) : option RuntimeBinding := head (kserveBindings spec).

(** ** Comparing what runs with what was sent *)
Definition quantities_equal (a b : gmap string quantity) : bool :=
  bool_decide (dom a = dom b) && forallb (fun kv => match b !! kv.1 with Some q => q_cmp kv.2 q =? 0 | None => false end) (map_to_list a).
(** [apiequality.Semantic.DeepEqual] on resources. *)
Definition requirements_equal (a b : Requirements) : bool :=
  quantities_equal (rq_requests a) (rq_requests b) && quantities_equal (rq_limits a) (rq_limits b).
Definition same_process (expected actual : Container) : bool :=
  bool_decide (c_name expected = c_name actual) && bool_decide (c_image expected = c_image actual) &&
  bool_decide (c_command expected = c_command actual) && bool_decide (c_args expected = c_args actual) &&
  requirements_equal (c_resources expected) (c_resources actual) && bool_decide (c_ports expected = c_ports actual).
Definition predictor_container_matches (expected actual : Container) : bool :=
  same_process expected actual && bool_decide (c_env expected = c_env actual) && bool_decide (c_mounts expected = c_mounts actual).
Definition kserveContainerMatches (expected actual : Container) : bool :=
  same_process expected actual && forallb (fun v => bool_decide (v ∈ c_env actual)) (c_env expected) &&
  forallb (fun v => bool_decide (v ∈ c_mounts actual)) (c_mounts expected).
Definition malformed (t : Predictor) (key : string) : bool := bool_decide (key ∈ pd_bad t).
Definition sub_map (a b : gmap string string) : bool := forallb (fun kv => bool_decide (label b kv.1 = kv.2)) (map_to_list a).
Definition kservePodPlacementMatches (t : Predictor) (actual : PodSpec) (annotations : gmap string string) : bool :=
  match pd_scheduler t with Some s => bool_decide (s = p_scheduler actual) | None => true end &&
  negb (malformed t "imagePullSecrets") &&
  forallb (fun n => negb (bool_decide (n = "")) && bool_decide (n ∈ p_pull_secrets actual)) (default [] (pd_pull_secrets t)) &&
  negb (malformed t "nodeSelector") && sub_map (default ∅ (pd_selector t)) (p_selector actual) &&
  match pd_runtime_class t with Some c => bool_decide (p_runtime_class actual = Some c) | None => true end &&
  negb (malformed t "annotations") && sub_map (default ∅ (pd_annotations t)) annotations.
Definition only_container (t : Predictor) : option (option Container) :=
  match pd_containers t with Some [c] => Some c | _ => None end.
Definition template_matches (workload_annotations : gmap string string) (t : option Predictor) (actual : option PodTemplate) : bool :=
  match t, actual with
  | Some t, Some a =>
      match only_container t, p_containers (t_spec a) with
      | Some (Some expected), [c] =>
          kserveContainerMatches expected c && kservePodPlacementMatches t (t_spec a) (t_annotations a) &&
          sub_map workload_annotations (t_annotations a)
      | _, _ => false
      end
  | _, _ => false
  end.
Definition kserveLLMTemplatesMatch (obj : KObject) (l : LWSStatus) : bool :=
  match ko_spec_annotations obj with
  | Err _ => false
  | Ok annotations => template_matches annotations (ko_template obj) (ls_leader l) && template_matches annotations (ko_worker obj) (Some (ls_worker l))
  end.

(** ** Readiness *)
Fixpoint ready_condition (conditions : list (option Condition)) : bool * string :=
  match conditions with
  | [] => (false, "KServe Ready condition is not available")
  | Some c :: rest =>
      if negb (bool_decide (cn_type c = "Ready")) then ready_condition rest
      else if bool_decide (cn_status c = "True") then (true, "")
      else if negb (blank (cn_message c)) then (false, cn_message c)
      else if negb (blank (cn_reason c)) then (false, cn_reason c)
      else (false, "KServe Ready condition is not true")
  | None :: rest => ready_condition rest
  end.
Definition kserveReady (obj : KObject) : bool * string :=
  match ko_conditions obj with
  | None => (false, "KServe readiness condition is not available")
  | Some l => ready_condition l
  end.
Definition controlled_by (obj : KObject) (kind : string) (m : ObjectMeta) : bool :=
  existsb (fun o => ow_controller o && bool_decide (ow_uid o = o_uid (ko_meta obj)) && bool_decide (ow_kind o = kind)) (o_owners m).
(** The checks on the Deployment that KServe made, in their order. *)
Definition predictor_status (obj : KObject) (replicas : Z) (m : ObjectMeta) (d : DeploymentStatus) : result unit :=
  _ ← checkr (controlled_by obj "InferenceService" m) (errorf "KServe predictor Deployment is not owned by this InferenceService");
  match ko_predictor obj with
  | None => Err (errorf "KServe predictor spec is not available")
  | Some predictor =>
      match only_container predictor with
      | None => Err (errorf "KServe predictor container spec is not available")
      | Some None => Err (errorf "KServe predictor container spec is invalid")
      | Some (Some expected) =>
          let template := t_spec (ds_template d) in
          _ ← checkr (existsb (predictor_container_matches expected) (p_containers template))
                (errorf "KServe predictor Deployment has not applied the current container spec");
          _ ← checkr (kservePodPlacementMatches predictor template (t_annotations (ds_template d)))
                (errorf "KServe predictor Deployment has not applied the current scheduling spec");
          _ ← checkr (negb ((o_generation m <? 1) || (ds_observed d <? o_generation m))) (errorf "KServe predictor Deployment status is stale");
          _ ← checkr (match ko_observed obj with Ok (Some g) => (1 <=? g) && (ds_observed d <=? g) | _ => false end)
                (errorf "KServe status is stale");
          let replicas := if replicas <? 1 then 1 else replicas in
          checkr (negb ((ds_updated d <? replicas) || (ds_available d <? replicas) || (ds_ready d <? replicas)))
            (errorf "KServe predictor Deployment is not ready")
      end
  end.
(** Readiness answers carry their reason instead of failing. *)
Definition reason_of (r : result unit) : bool * string := match r with Ok _ => (true, "") | Err e => (false, error_text e) end.
Definition kservePredictorReady (reader : Reader) (obj : KObject) (replicas : Z) : M St (bool * string) :=
  r ← try (rd_get reader "Deployment" (o_namespace (ko_meta obj)) (KServePredictorServiceName (o_name (ko_meta obj))));
  mret (match r with
        | Err e => (false, if IsNotFound e then "KServe predictor Deployment is not available" else error_text e)
        | Ok d => match ob_body d with
                  | BDeployment s => reason_of (predictor_status obj replicas (ob_meta d) s)
                  | _ => (false, "KServe predictor Deployment is not available")
                  end
        end).
Record LLMReady := mkLLMReady { lr_ready : bool; lr_reason : string; lr_groups : Z; lr_workers : Z; lr_uid : string }.
Definition lws_worker_slot (expected : Container) (groups workers : Z) (pod : Pod) : option (Z * Z) :=
  match pod_containers pod with
  | [c] => if kserveContainerMatches expected c then ready_slot groups workers pod else None
  | _ => None
  end.
Definition readyKServeLWSWorkers (reader : Reader) (m : ObjectMeta) (l : LWSStatus) (groups workers : Z) : M St Z :=
  pods ← rd_pods reader (o_namespace m) {[SetNameLabelKey := o_name m]};
  match p_containers (t_spec (ls_worker l)) with
  | [expected] => mret (int32 (Z.of_nat (size (list_to_set (omap (lws_worker_slot expected groups workers) pods) : gset (Z * Z)))))
  | _ => throw (errorf "KServe LeaderWorkerSet worker template is invalid")
  end.
Definition lws_status (obj : KObject) (spec : RuntimeSpec) (size : Z) (m : ObjectMeta) (l : LWSStatus) : result unit :=
  _ ← checkr (controlled_by obj "LLMInferenceService" m) (errorf "KServe LeaderWorkerSet is not owned by this LLMInferenceService");
  _ ← checkr (negb ((o_generation m <? 1) || (ls_observed l <? o_generation m))) (errorf "KServe LeaderWorkerSet status is stale");
  _ ← checkr (bool_decide (ls_replicas l = Some (r_replicas spec))) (errorf "KServe LeaderWorkerSet replica spec is stale");
  _ ← checkr (bool_decide (ls_size l = Some size)) (errorf "KServe LeaderWorkerSet parallelism is stale");
  _ ← checkr (kserveLLMTemplatesMatch obj l) (errorf "KServe LeaderWorkerSet template has not applied the current container spec");
  checkr (negb (ls_updated l <? r_replicas spec)) (errorf "KServe LeaderWorkerSet is not ready").
Definition llm_size (spec : RuntimeSpec) : Z := let size := int32 (r_workers spec + 1) in if size <? 2 then 2 else size.
Definition llm_workers (reader : Reader) (spec : RuntimeSpec) (m : ObjectMeta) (l : LWSStatus) : M St LLMReady :=
  let groups := r_replicas spec in
  let size := llm_size spec in
  r ← try (readyKServeLWSWorkers reader m l groups (size - 1));
  mret (match r with
        | Err e => mkLLMReady false (error_text e) 0 0 (o_uid m)
        | Ok workers =>
            if ls_ready l <? groups then mkLLMReady false "KServe LeaderWorkerSet is not ready" (ls_ready l) workers (o_uid m)
            else if workers <? int32 (groups * (size - 1)) then mkLLMReady false "KServe LeaderWorkerSet workers are not ready" (ls_ready l) workers (o_uid m)
            else mkLLMReady true "" (ls_ready l) workers (o_uid m)
        end).
(** A missing observed generation is not stale. *)
Definition llm_stale (obj : KObject) : bool :=
  match ko_observed obj with Err _ => true | Ok (Some g) => g <? o_generation (ko_meta obj) | Ok None => false end.
Definition kserveLLMReady (reader : Reader) (obj : KObject) (spec : RuntimeSpec) : M St LLMReady :=
  let fail reason uid := mret (mkLLMReady false reason 0 0 uid) in
  if llm_stale obj then fail "KServe LLMInferenceService status is stale" ""
  else
    r ← try (rd_get reader "LeaderWorkerSet" (o_namespace (ko_meta obj)) (KServeLLMWorkloadName (r_name spec)));
    match r with
    | Err e => fail (if IsNotFound e then "KServe LeaderWorkerSet is not available" else error_text e) ""
    | Ok lws =>
        match ob_body lws with
        | BLWS l =>
            match lws_status obj spec (llm_size spec) (ob_meta lws) l with
            | Err e => fail (error_text e) (o_uid (ob_meta lws))
            | Ok _ => llm_workers reader spec (ob_meta lws) l
            end
        | _ => fail "KServe LeaderWorkerSet is not available" ""
        end
    end.

(** ** Observing *)
Definition kserve_binding_ok (m : ObjectMeta) (expected : option RuntimeBinding) : bool :=
  match expected with
  | None => true
  | Some b => bool_decide (b_namespace b = o_namespace m) && bool_decide (b_name b = o_name m) && bool_decide (b_uid b = o_uid m)
  end.
Definition validateKServeObject (obj : KObject) (spec : RuntimeSpec) (expected : option RuntimeBinding) : result Reconcile.RuntimeObject :=
  let m := ko_meta obj in
  _ ← checkr (OwnedBy (o_labels m) (r_tenant spec) (r_service spec)) (errorf "observed KServe ownership labels do not match");
  _ ← checkr (match parse_generation m with Some g => (1 <=? g) && (g =? r_generation spec) | None => false end) Reconcile.ErrStaleGeneration;
  _ ← checkr (negb (bool_decide (o_uid m = "") || bool_decide (o_rv m = ""))) (errorf "observed KServe object is missing UID or resourceVersion");
  _ ← checkr (kserve_binding_ok m expected) Reconcile.ErrStaleGeneration;
  let kind := if bool_decide (o_kind m = "LLMInferenceService") then KServeLLMInferenceServiceKind else KServeInferenceServiceKind in
  Ok (Reconcile.mkRuntimeObject (r_generation spec) kind (o_namespace m) (o_name m) (o_uid m) (o_rv m) "runtime" (expectedUID expected)
        (expectedResourceVersion expected) false false).
Definition kserve_health (reader : Reader) (spec : DesiredRuntime) (obj : KObject) (o : Reconcile.Observation)
    : M St (bool * string * Reconcile.Observation) :=
  let s := dr_spec spec in
  match kserveReady obj with
  | (false, reason) => mret (false, reason, o)
  | (true, _) =>
      if bool_decide (r_mode s = "leader_worker_set") then
        r ← kserveLLMReady reader obj s;
        mret (lr_ready r, lr_reason r,
              o <| Reconcile.Obs_ReadyGroups := lr_groups r |> <| Reconcile.Obs_ReadyWorkers := lr_workers r |>
                <| Reconcile.Obs_LWSUID := lr_uid r |> <| Reconcile.Obs_ReadyReplicas := lr_groups r |>)
      else
        '(ready, reason) ← kservePredictorReady reader obj (r_replicas s);
        mret (ready, reason, o)
  end.
Definition observeKServe (e : Executor) (c : Client) (spec : DesiredRuntime) (expected : option RuntimeBinding) : M St Reconcile.Observation :=
  let s := dr_spec spec in
  let kind := kserveKindForMode (r_mode s) in
  let reader := reader_for e c in
  let o := new_observation (r_generation s) (runtimeModeForSpec s) "unknown" "" "" in
  r ← try (rd_kserve reader kind (r_namespace s) (r_name s));
  match r with
  | Err err => if IsNotFound err then mret (degraded "KServe runtime object is missing" o) else throw err
  | Ok obj =>
      fact ← lift (validateKServeObject obj s expected);
      let o := o <| Reconcile.Obs_Objects := [fact] |> in
      if o_deleting (ko_meta obj) then mret (degraded "KServe runtime object is being deleted" o)
      else
        '(ready, reason, o) ← kserve_health reader spec obj o;
        mret (if (ready : bool) then
                let o := o <| Reconcile.Obs_RuntimePhase := "ready" |> in
                if bool_decide (kind = KServeInferenceServiceKind) then o <| Reconcile.Obs_ReadyReplicas := r_replicas s |> else o
              else o <| Reconcile.Obs_RuntimePhase := runtimeLoadingPhase (dr_model_known spec) (dr_model_ready spec) |>
                     <| Reconcile.Obs_Reason := reason |>)
  end.

(** ** Applying *)
Definition fence_kserve (spec : RuntimeSpec) (expected : option RuntimeBinding) (m : ObjectMeta) : result unit :=
  _ ← checkr (OwnedBy (o_labels m) (r_tenant spec) (r_service spec)) (errorf "KServe runtime object is occupied by a different tenant or service");
  _ ← checkr (match parse_generation m with Some g => g <=? r_generation spec | None => false end) Reconcile.ErrStaleGeneration;
  _ ← checkr (match expected with Some b => bool_decide (b_uid b = o_uid m) | None => false end) Reconcile.ErrStaleGeneration;
  checkr (negb (o_deleting m)) (errorf "KServe runtime object deletion is still in progress").
Definition read_kserve (reader : Reader) (kind namespace name : string) (fence : ObjectMeta -> result unit) : M St (option ObjectMeta) :=
  r ← try (rd_kserve reader kind namespace name);
  match r with
  | Ok current => _ ← lift (fence (ko_meta current)); mret (Some (ko_meta current))
  | Err err => if IsNotFound err then mret None else throw err
  end.
Definition kserve_binding (kind : string) (spec : RuntimeSpec) (m : ObjectMeta) : RuntimeBinding :=
  mkBinding kind (o_namespace m) (o_name m) (o_uid m) (o_rv m) "runtime" (r_generation spec).
Definition applyKServe (e : Executor) (c : Client) (spec : DesiredRuntime) (expected : option RuntimeBinding) : M St Reconcile.Observation :=
  let s := dr_spec spec in
  manifest ← lift (RenderKServeRuntime sha256_hex s);
  let reader := reader_for e c in
  let kind := kserveKindForMode (r_mode s) in
  current ← read_kserve reader kind (r_namespace s) (r_name s) (fence_kserve s expected);
  _ ← cl_apply c (ownerForRuntime (x_field_manager e))
        (mkApplied (MKServe manifest) "" (match current with Some m => o_rv m | None => "" end));
  observed ← rd_kserve reader kind (r_namespace s) (r_name s);
  let m := ko_meta observed in
  _ ← (match x_bindings e with
       | None => mret tt
       | Some upsert => upsert (mkBindingRecord (r_tenant s) (r_service s) (r_generation s) kind (o_namespace m) (o_name m) (o_uid m) (o_rv m)
                                  "runtime" (expectedUID expected) (expectedResourceVersion expected))
       end);
  observeKServe e c spec (Some (kserve_binding kind s m)).

(** ** The durable steps; [None] is a nil executor. *)
Definition with_executor {A} (k : option Executor) (f : Executor -> M St A) : M St A :=
  match k with Some e => f e | None => throw (errorf "KServe runtime executor is nil") end.
Definition KServe_ApplyCR (k : option Executor) (op : Runner.OperationContext) : M St unit := with_executor k (fun e => ApplyCR e op).
Definition KServe_DeleteCR (k : option Executor) (op : Runner.OperationContext) : M St unit := with_executor k (fun e => DeleteCR e op).
Definition quota_gate (e : Executor) (spec : DesiredRuntime) : bool :=
  negb (x_require_quota e && negb (r_managed (dr_spec spec)) && negb (r_managed_gpu (dr_spec spec)) && negb (dr_quota spec)).
Definition KServe_ApplyRuntime (k : option Executor) (op : Runner.OperationContext) : M St unit :=
  with_executor k (fun e =>
    spec ← operationRuntime e op;
    _ ← check (quota_gate e spec) (errorf "quota reservation must be confirmed before runtime apply");
    with_client e (fun c => _ ← applyKServe e c spec (kserveBindingForSpec spec); mret tt)).
Definition KServe_ObserveRuntime (k : option Executor) (op : Runner.OperationContext) : M St Runner.RuntimeObservation :=
  with_executor k (fun e =>
    spec ← operationRuntime e op;
    with_client e (fun c =>
      o ← observeKServe e c spec (kserveBindingForSpec spec);
      o ← observeInvocation e spec o;
      refs ← managedGPUReleasePods sha256_hex e (dr_spec spec);
      mret (runtime_observation (o <| Reconcile.Obs_RuntimeMode := runtimeModeForSpec (dr_spec spec) |>) (is_ready o) (dr_model_known spec)
              (dr_model_ready spec) false (Reconcile.Obs_InvocationHealth o) refs))).
Definition confirmKServeAbsent (e : Executor) (spec : DesiredRuntime) : M St unit :=
  match x_api_reader e with
  | None => throw (errorf "KServe runtime absence check requires an uncached API reader")
  | Some reader =>
      r ← try (rd_kserve reader (kserveKindForMode (r_mode (dr_spec spec))) (r_namespace (dr_spec spec)) (r_name (dr_spec spec)));
      match r with
      | Err err => if IsNotFound err then mret tt else throw err
      | Ok _ => throw (errorf "KServe runtime object exists without a persisted runtime binding")
      end
  end.
Definition mode_annotation : string := "serving.kserve.io/deploymentMode".
(** The patch that removes the mode marker, and the object afterwards. *)
Definition unmark (c : Client) (reader : Reader) (kind : string) (obj : KObject) : M St (option ObjectMeta) :=
  let m := ko_meta obj in
  if bool_decide (is_Some (o_annotations m !! mode_annotation)) then
    _ ← cl_unmark c kind (o_namespace m) (o_name m) mode_annotation;
    r ← try (rd_kserve reader kind (o_namespace m) (o_name m));
    match r with
    | Ok obj => mret (Some (ko_meta obj))
    | Err err => if IsNotFound err then mret None else throw err
    end
  else mret (Some m).
Definition deleteKServe (e : Executor) (b : RuntimeBinding) : M St unit :=
  with_client e (fun c =>
  _ ← check (negb (bool_decide (b_namespace b = "") || bool_decide (b_name b = "") || bool_decide (b_uid b = "") || bool_decide (b_rv b = "")))
        (errorf "KServe runtime binding requires namespace, name, UID and resourceVersion");
  let reader := reader_for e c in
  r ← try (rd_kserve reader (b_kind b) (b_namespace b) (b_name b));
  match r with
  | Err err => if IsNotFound err then mret tt else throw err
  | Ok obj =>
      _ ← check (bool_decide (o_uid (ko_meta obj) = b_uid b)) Reconcile.ErrStaleGeneration;
      if o_deleting (ko_meta obj) then mret tt
      else
        m ← unmark c reader (b_kind b) obj;
        match m with
        | None => mret tt
        | Some m =>
            d ← try (cl_delete c (b_kind b) (o_namespace m) (o_name m) (o_uid m) (o_rv m) true);
            match d with
            | Ok _ => mret tt
            | Err err => if IsNotFound err then mret tt else throw err
            end
        end
  end).
Definition KServe_DeleteRuntime (k : option Executor) (op : Runner.OperationContext) : M St unit :=
  with_executor k (fun e =>
    spec ← operationRuntime e op;
    _ ← check (dr_withdrawn spec) (errorf "publication withdrawal must be confirmed before runtime deletion");
    deleted ← delete_each (deleteKServe e) kserve_role (dr_bindings spec);
    if (deleted : bool) then mret tt else confirmKServeAbsent e spec).
(** The first bound object that is still there decides. *)
Fixpoint absent_bindings (reader : Reader) (bindings : list RuntimeBinding) : M St bool :=
  match bindings with
  | [] => mret true
  | b :: rest =>
      r ← try (rd_kserve reader (b_kind b) (b_namespace b) (b_name b));
      match r with
      | Ok _ => mret false
      | Err err => if IsNotFound err then absent_bindings reader rest else throw err
      end
  end.
(** These two observations leave the publication and health empty. *)
Definition bare_observation (generation : Z) (mode phase reason : string) : Reconcile.Observation :=
  Reconcile.mkObservation generation phase 0 0 0 false false "" "" mode "" reason [].
Definition observeKServeAbsence (e : Executor) (c : Client) (spec : DesiredRuntime) : M St Reconcile.Observation :=
  let s := dr_spec spec in
  match kserveBindings spec with
  | [] => _ ← confirmKServeAbsent e spec;
          mret (new_observation (r_generation s) (runtimeModeForSpec s) "withdrawn" "stopped" "")
  | bindings =>
      gone ← absent_bindings (reader_for e c) bindings;
      mret (if (gone : bool) then bare_observation (r_generation s) (runtimeModeForSpec s) "stopped" ""
            else bare_observation (r_generation s) (runtimeModeForSpec s) "degraded" "KServe runtime object deletion pending")
  end.
Definition KServe_ObserveAbsence (k : option Executor) (op : Runner.OperationContext) : M St Runner.RuntimeObservation :=
  with_executor k (fun e =>
    spec ← operationRuntime e op;
    _ ← check (dr_withdrawn spec) (errorf "publication withdrawal must be confirmed before runtime absence observation");
    with_client e (fun c =>
      o ← observeKServeAbsence e c spec;
      o ← requireManagedGPUPodsGone sha256_hex e (dr_spec spec) (Runner.ManagedGPUReleasePods op) o;
      mret (Runner.mkRuntimeObservation false (Reconcile.Obs_RuntimePhase o) (Reconcile.Obs_RuntimeMode o) 0 0 0 "" false false "unhealthy"
              (bool_decide (Reconcile.Obs_RuntimePhase o = "stopped")) (Reconcile.Obs_Reason o) [] []))).
Definition kserve_stopped (e : Executor) (c : Client) (d : Reconcile.Desired) (spec : DesiredRuntime) : M St Reconcile.Observation :=
  _ ← check (dr_withdrawn spec) (errorf "publication withdrawal must be confirmed before runtime deletion");
  _ ← applyCR_ e (dr_spec spec) (dr_state spec) (controlBindingForSpec spec);
  match kserveBindings spec with
  | [] => _ ← check (bool_decide (dr_phase spec = "stopped")) (errorf "KServe runtime deletion requires a persisted runtime binding");
          mret (new_observation (Reconcile.D_Generation d) (runtimeModeForSpec (dr_spec spec)) "withdrawn" "stopped" "")
  | bindings => _ ← each (deleteKServe e) bindings; observeKServeAbsence e c spec
  end.
Definition KServe_Ensure (k : option Executor) (d : Reconcile.Desired) : M St Reconcile.Observation :=
  match k ≫= (fun e => c ← x_client e; Some (e, c)) with
  | None => throw (errorf "KServe runtime executor is not configured")
  | Some (e, c) =>
      match x_source e with
      | None => throw (errorf "KServe runtime desired state is incomplete")
      | Some source =>
          _ ← check (negb (bool_decide (Reconcile.D_TenantID d = "") || bool_decide (Reconcile.D_ServiceID d = "") || (Reconcile.D_Generation d <? 1)))
                (errorf "KServe runtime desired state is incomplete");
          spec ← source (Reconcile.D_TenantID d) (Reconcile.D_ServiceID d) (Reconcile.D_Generation d);
          _ ← check ((r_generation (dr_spec spec) =? 0) || (r_generation (dr_spec spec) =? Reconcile.D_Generation d)) Reconcile.ErrStaleGeneration;
          let spec := identify e spec (Reconcile.D_TenantID d) (Reconcile.D_ServiceID d) (Reconcile.D_Generation d) in
          if bool_decide (dr_state spec = "") || bool_decide (dr_state spec = "running") then
            _ ← check (quota_gate e spec) (errorf "quota reservation must be confirmed before runtime apply");
            _ ← applyCR_ e (dr_spec spec) (dr_state spec) (controlBindingForSpec spec);
            o ← applyKServe e c spec (kserveBindingForSpec spec);
            observeInvocation e spec o
          else if bool_decide (dr_state spec = "stopped") || bool_decide (dr_state spec = "deleted") then kserve_stopped e c d spec
          else throw (errorf ("unsupported desired state " +:+ quoted (dr_state spec)))
      end
  end.
Definition KServe_observeCurrent (k : option Executor) (spec : DesiredRuntime) : M St Reconcile.Observation :=
  match k ≫= (fun e => c ← x_client e; _ ← x_source e; Some (e, c)) with
  | None => throw (errorf "KServe runtime observation is not configured")
  | Some (e, c) =>
      _ ← lift (validateCurrentRuntimeSpec spec);
      match kserveBindingForSpec spec with
      | None =>
          observeUnboundCurrent (_ ← rd_kserve (reader_for e c) (kserveKindForMode (r_mode (dr_spec spec))) (r_namespace (dr_spec spec)) (r_name (dr_spec spec)); mret tt)
            spec "KServe runtime object is missing"
      | Some b =>
          o ← observeKServe e c spec (Some b);
          observeInvocation e spec (model_facts spec o)
      end
  end.

(** ** Pull secrets *)
Record PullSecretReceipt := mkReceipt { rc_ref : string; rc_registry : string; rc_generation : Z }.
(** The gRPC code of an error. *)
Context (status_code : goerr -> string).
Definition isTransientEnsureFailure (e : goerr) : bool :=
  bool_decide (status_code e = "Unavailable") || bool_decide (status_code e = "DeadlineExceeded") || errors_is e "context.DeadlineExceeded".
Definition pullSecretUnavailable (cause : goerr) : goerr :=
  EFmt "image pull Secret temporarily unavailable" [ENew "kubernetes.pullSecretUnavailableError" ""; cause].
Definition is_unavailable (e : goerr) : bool := errors_is e "kubernetes.pullSecretUnavailableError".
(** tenant, namespace, namespace UID and registry; [cancelled] is [ctx.Err() != nil]. *)
Record ResourcePullSecrets := mkPullSecrets {
  ps_ensurer : option (string -> string -> string -> string -> M St PullSecretReceipt); ps_reader : option Reader }.
Context (cancelled : M St bool).
Definition PullSecrets_Ensure (r : option ResourcePullSecrets) (spec : RuntimeSpec) : M St unit :=
  match r_selection spec with
  | None => mret tt
  | Some selection =>
      _ ← lift (validateImageProjection sha256_hex spec);
      match r with
      | Some (mkPullSecrets (Some ensure) (Some reader)) =>
          receipt ← try (ensure (r_tenant spec) (r_namespace spec) (r_namespace_uid spec) (IS_RegistryAuthority selection));
          match receipt with
          | Err err =>
              over ← cancelled;
              if negb over && isTransientEnsureFailure err then throw (pullSecretUnavailable err) else throw err
          | Ok receipt =>
              _ ← check (bool_decide (rc_ref receipt = IS_PullSecretRef selection) && bool_decide (rc_registry receipt = IS_RegistryAuthority selection) &&
                         (1 <=? rc_generation receipt)) (errorf "image pull Secret receipt differs from the frozen reference");
              s ← try (rd_secret reader (r_namespace spec) (IS_PullSecretRef selection));
              match s with
              | Err err => throw (if IsNotFound err then errorf "image pull Secret is not visible after ensure" else errorf "read ensured image pull Secret")
              | Ok s => check (bool_decide (se_type s = "kubernetes.io/dockerconfigjson") && negb (bool_decide (se_config s = "")))
                          (errorf "ensured image pull Secret has unexpected content type")
              end
          end
      | _ => throw (errorf "image pull Secret synchronization is not configured")
      end
  end.

(** ** The router *)
(** A reconciler, with its read-only observation when it has one. *)
Record Reconciler := mkReconciler { rc_ensure : Reconcile.Desired -> M St Reconcile.Observation; rc_observe : option (DesiredRuntime -> M St Reconcile.Observation) }.
Record RuntimeRouter := mkRouter {
  rt_source : option (Source (St := St)); rt_deployment : option (Runner.RuntimePort St); rt_kserve : option (Runner.RuntimePort St);
  rt_deployment_reconcile : option Reconciler; rt_kserve_reconcile : option Reconciler; rt_pull_secrets : option (RuntimeSpec -> M St unit) }.
Definition router_desired (r : RuntimeRouter) (op : Runner.OperationContext) : M St DesiredRuntime :=
  match rt_source r with
  | None => throw (errorf "runtime router source is nil")
  | Some source =>
      _ ← check (negb (bool_decide (Runner.TenantID op = "") || bool_decide (Runner.ServiceID op = "") || (Runner.TargetGeneration op <? 1)))
            Reconcile.ErrStaleGeneration;
      source (Runner.TenantID op) (Runner.ServiceID op) (Runner.TargetGeneration op)
  end.
Fixpoint provider_of_bindings (bindings : list RuntimeBinding) : option string :=
  match bindings with
  | [] => None
  | b :: rest =>
      if negb (bool_decide (b_role b = "") || bool_decide (b_role b = "runtime")) then provider_of_bindings rest
      else if isKServeBindingKind (b_kind b) then Some "kserve"
      else if bool_decide (b_kind b = "Deployment") || bool_decide (b_kind b = "LeaderWorkerSet") then Some "deployment"
      else provider_of_bindings rest
  end.
Definition runtimeProviderForBindings (spec : DesiredRuntime) : string :=
  match provider_of_bindings (dr_bindings spec) with
  | Some provider => provider
  | None => let provider := to_lower (trim_space (r_provider (dr_spec spec))) in if bool_decide (provider = "") then "deployment" else provider
  end.
Definition select {A} (what : string) (deployment kserve : option A) (spec : DesiredRuntime) : result A :=
  let provider := runtimeProviderForBindings spec in
  if bool_decide (provider = "deployment") then from_option Ok (Err (errorf ("deployment " +:+ what +:+ " provider is not configured"))) deployment
  else if bool_decide (provider = "kserve") then from_option Ok (Err (errorf ("KServe " +:+ what +:+ " provider is not configured"))) kserve
  else Err (errorf ("unsupported runtime provider " +:+ quoted provider)).
Definition choose (r : RuntimeRouter) : DesiredRuntime -> result (Runner.RuntimePort St) := select "runtime" (rt_deployment r) (rt_kserve r).
Definition chooseReconcile (r : RuntimeRouter) : DesiredRuntime -> result Reconciler :=
  select "reconcile" (rt_deployment_reconcile r) (rt_kserve_reconcile r).
Definition ensurePullSecrets (r : RuntimeRouter) (spec : RuntimeSpec) : M St unit :=
  match r_selection spec with
  | None => mret tt
  | Some _ => match rt_pull_secrets r with
              | None => throw (errorf "accepted image requires configured pull Secret synchronization")
              | Some ensure => ensure spec
              end
  end.
Definition routed {A} (r : RuntimeRouter) (op : Runner.OperationContext) (secrets : bool) (run : Runner.RuntimePort St -> M St A) : M St A :=
  spec ← router_desired r op;
  _ ← (if secrets then ensurePullSecrets r (dr_spec spec) else mret tt);
  provider ← lift (choose r spec);
  run provider.
Definition Router_ApplyCR (r : RuntimeRouter) (op : Runner.OperationContext) : M St unit := routed r op true (fun p => Runner.ApplyCR p op).
Definition Router_ApplyRuntime (r : RuntimeRouter) (op : Runner.OperationContext) : M St unit := routed r op true (fun p => Runner.ApplyRuntime p op).
Definition Router_ObserveRuntime (r : RuntimeRouter) (op : Runner.OperationContext) : M St Runner.RuntimeObservation :=
  routed r op false (fun p => Runner.ObserveRuntime p op).
Definition Router_DeleteRuntime (r : RuntimeRouter) (op : Runner.OperationContext) : M St unit := routed r op false (fun p => Runner.DeleteRuntime p op).
Definition Router_ObserveAbsence (r : RuntimeRouter) (op : Runner.OperationContext) : M St Runner.RuntimeObservation :=
  routed r op false (fun p => Runner.ObserveAbsence p op).
Definition Router_DeleteCR (r : RuntimeRouter) (op : Runner.OperationContext) : M St unit := routed r op false (fun p => Runner.DeleteCR p op).
(** Only a temporary failure to refresh the pull secret falls back to a
    read-only observation, and only of exactly the desired generation. *)
Definition observe_instead (r : RuntimeRouter) (d : Reconcile.Desired) (spec : DesiredRuntime) (err : goerr) : M St Reconcile.Observation :=
  let s := dr_spec spec in
  _ ← check (bool_decide (r_tenant s = Reconcile.D_TenantID d) && bool_decide (r_service s = Reconcile.D_ServiceID d) &&
             (r_generation s =? Reconcile.D_Generation d)) Reconcile.ErrStaleGeneration;
  provider ← lift (chooseReconcile r spec);
  match rc_observe provider with Some observe => observe spec | None => throw err end.
Definition Router_Ensure (r : RuntimeRouter) (d : Reconcile.Desired) : M St Reconcile.Observation :=
  match rt_source r with
  | None => throw (errorf "runtime router source is nil")
  | Some source =>
      spec ← source (Reconcile.D_TenantID d) (Reconcile.D_ServiceID d) (Reconcile.D_Generation d);
      secrets ← (if bool_decide (dr_state spec = "running") then try (ensurePullSecrets r (dr_spec spec)) else mret (Ok tt));
      match secrets with
      | Ok _ => provider ← lift (chooseReconcile r spec); rc_ensure provider d
      | Err err =>
          over ← (if is_unavailable err then cancelled else mret true);
          if (over : bool) then throw err else observe_instead r d spec err
      end
  end.
(** The ports the process wires into the router. *)
Definition deployment_port (e : Executor) : Runner.RuntimePort St :=
  Runner.mkRuntimePort (ApplyCR e) (ApplyRuntime sha256_hex e) (ObserveRuntime sha256_hex e) (DeleteRuntime e) (ObserveAbsence sha256_hex e) (DeleteCR e).
Definition kserve_port (e : Executor) : Runner.RuntimePort St :=
  Runner.mkRuntimePort (KServe_ApplyCR (Some e)) (KServe_ApplyRuntime (Some e)) (KServe_ObserveRuntime (Some e)) (KServe_DeleteRuntime (Some e))
    (KServe_ObserveAbsence (Some e)) (KServe_DeleteCR (Some e)).
Definition router_port (r : RuntimeRouter) : Runner.RuntimePort St :=
  Runner.mkRuntimePort (Router_ApplyCR r) (Router_ApplyRuntime r) (Router_ObserveRuntime r) (Router_DeleteRuntime r) (Router_ObserveAbsence r)
    (Router_DeleteCR r).
Definition wired_router (e : Executor) (secrets : option (RuntimeSpec -> M St unit)) : RuntimeRouter :=
  mkRouter (x_source e) (Some (deployment_port e)) (Some (kserve_port e))
    (Some (mkReconciler (Ensure sha256_hex e) (Some (observeCurrent e)))) (Some (mkReconciler (KServe_Ensure (Some e)) (Some (KServe_observeCurrent (Some e)))))
    secrets.

(** ** The release gate *)
Lemma moves_absent_bindings (R : relation St) `{!PreOrder R} reader bindings : quiet R reader -> moves R (absent_bindings reader bindings).
Proof. intros (_ & H & _). induction bindings as [|b bindings IH]; cbn; moves. Qed.
Lemma moves_kserve_absence (R : relation St) `{!PreOrder R} e c spec : x_client e = Some c -> steady R e c -> moves R (observeKServeAbsence e c spec).
Proof.
  intros Ec [_ _ Hr]. unfold observeKServeAbsence. cbv zeta. destruct (kserveBindings spec).
  - unfold confirmKServeAbsent, reader_for in *. destruct (x_api_reader e); [|moves]. cbn in Hr. destruct Hr as (_ & Hr & _). moves.
  - pose proof (moves_absent_bindings R (reader_for e c)) as Hb. moves.
Qed.
Section Absence.
Context (live : St -> Pod -> Prop) (e : Executor) (c : Client) (Ec : x_client e = Some c).
Context (Hh : honest live (reader_for e c)) (Hu : unique_pods live).
(** The pods that hold the GPU of this operation's service at its start. *)
Definition frees (op : Runner.OperationContext) (s : St) : Prop :=
  ∃ spec u u', operationRuntime e op u = (Ok spec, u') ∧ dr_withdrawn spec = true ∧
    (managed_gpu (dr_spec spec) ≠ None -> undisturbed sha256_hex live (dr_spec spec) (Runner.ManagedGPUReleasePods op) e c ->
     ¬ held sha256_hex live (dr_spec spec) (Runner.ManagedGPUReleasePods op) s).
Lemma gate_after {A} op spec (m : M St A) s0 s u a u' o v o' :
  operationRuntime e op s = (Ok spec, u) -> dr_withdrawn spec = true -> m u = (Ok a, u') ->
  (∀ R, PreOrder R -> steady R e c -> moves R m) -> (∀ R, PreOrder R -> steady R e c -> R s0 s) ->
  requireManagedGPUPodsGone sha256_hex e (dr_spec spec) (Runner.ManagedGPUReleasePods op) o u' = (Ok o', v) ->
  Reconcile.Obs_RuntimePhase o' = "stopped" -> frees op s0.
Proof.
  intros Hs Hw Hm Hmv H0 Hg Hp. exists spec, s, u. split_and!; [done..|]. intros Hman Hd Hheld.
  eapply gone_means_free in Hg; [|done..]. apply Hg.
  pose proof (undisturbed_held _ _ _ _ _ _ Hd) as Hst.
  pose proof (H0 _ _ Hst Hheld) as H1. pose proof (moves_operationRuntime _ e c op Hst s H1) as H2. rewrite Hs in H2.
  pose proof (Hmv _ _ Hst u H2) as H3. by rewrite Hm in H3.
Qed.
Lemma deployment_frees op s0 s obs s' : (∀ R, PreOrder R -> steady R e c -> R s0 s) ->
  ObserveAbsence sha256_hex e op s = (Ok obs, s') -> Runner.Absent obs = true -> frees op s0.
Proof.
  intros H0. unfold ObserveAbsence, with_client. intros H Ha. minv H. rewrite Ec in H. minv H. injection H as <- _.
  cbn in Ha. apply bool_decide_eq_true in Ha. eapply (gate_after op a (observeDeletion c _ _ _)); [done..| |done|done|done].
  intros R HR [_ Hc _]. by apply moves_observeDeletion.
Qed.
Lemma kserve_frees op s0 s obs s' : (∀ R, PreOrder R -> steady R e c -> R s0 s) ->
  KServe_ObserveAbsence (Some e) op s = (Ok obs, s') -> Runner.Absent obs = true -> frees op s0.
Proof.
  intros H0. unfold KServe_ObserveAbsence, with_executor, with_client. intros H Ha. minv H. rewrite Ec in H. minv H. injection H as <- _.
  cbn in Ha. apply bool_decide_eq_true in Ha. eapply (gate_after op a (observeKServeAbsence e c _)); [done..| |done|done|done].
  intros R HR Hst. by apply moves_kserve_absence.
Qed.
(** Claim C6. An answer that the runtime of an operation is absent, which seals
    the scope whose GPU is refunded, means that no pod holds the GPU: publication
    was withdrawn, and at the start of the observation no unfinished pod carried
    the labels of the service (whatever its generation, terminating or not, except
    the CPU-only model download pod) and none of the recorded pods was running.
    The reader answers from the state of the cluster, in which identities are
    unique; objects may come and go, as long as a pod that counts does not vanish
    during the observation itself. *)
Theorem absence_frees_gpu secrets op s obs s' :
  Router_ObserveAbsence (wired_router e secrets) op s = (Ok obs, s') -> Runner.Absent obs = true -> frees op s.
Proof.
  unfold Router_ObserveAbsence, routed. intros H Ha. minv H. injection Hm0 as _ <-. unfold lift in Hm1. injection Hm1 as Hc <-.
  assert (∀ R, PreOrder R -> steady R e c -> R s u) as H0.
  { intros R HR Hst. unfold router_desired in Hm. cbn in Hm. destruct (x_source e) as [source|] eqn:Es; [|done]. minv Hm.
    pose proof (st_source _ _ _ Hst source (Runner.TenantID op) (Runner.ServiceID op) (Runner.TargetGeneration op) Es) as Hmv.
    match goal with Hx : source _ _ _ ?t = (Ok _, _) |- _ => pose proof (Hmv t) as Hy; by rewrite Hx in Hy end. }
  unfold choose, select in Hc. cbn in Hc. destruct (bool_decide _); [|destruct (bool_decide _); [|done]]; injection Hc as <-; cbn in H.
  - by eapply deployment_frees.
  - by eapply kserve_frees.
Qed.
End Absence.

(** ** Fenced applies

    [writes] lists the objects that applies have changed, as the server held them
    just before; creating an object changes none.  A resource version stands for
    one content of an object, and an apply that carries one is refused unless the
    object still has it. *)
Section Fences.
Context (e : Executor) (c : Client) (writes : St -> list (string * ObjectMeta)) (shown : string -> ObjectMeta -> Prop).
Local Abbreviation reader := (reader_for e c).
Definition manifest_key (m : Manifest) : string * string * string :=
  match m with
  | MDeployment d => ("Deployment", m_namespace (d_meta d), m_name (d_meta d))
  | MLWS l => ("LeaderWorkerSet", m_namespace (l_meta l), m_name (l_meta l))
  | MService v => ("Service", m_namespace (sv_meta v), m_name (sv_meta v))
  | MKServe k => (match k_spec k with InferenceServiceSpec _ => KServeInferenceServiceKind | _ => KServeLLMInferenceServiceKind end,
                  m_namespace (k_meta k), m_name (k_meta k))
  | MCR m _ => ("InferenceService", m_namespace m, m_name m)
  end.
Definition unwritten : relation St := fun s t => writes t = writes s.
#[local] Instance unwritten_preorder : PreOrder unwritten.
Proof. split; unfold unwritten; [intros s; done|intros s t u; congruence]. Qed.
Record api_server : Prop := {
  as_reads : quiet unwritten reader;
  as_get kind ns name s o s' : rd_get reader kind ns name s = (Ok o, s') ->
    shown kind (ob_meta o) ∧ o_namespace (ob_meta o) = ns ∧ o_name (ob_meta o) = name;
  as_kserve kind ns name s o s' : rd_kserve reader kind ns name s = (Ok o, s') ->
    shown kind (ko_meta o) ∧ o_namespace (ko_meta o) = ns ∧ o_name (ko_meta o) = name;
  as_apply owner a s r s' : cl_apply c owner a s = (r, s') -> unwritten s s' ∨
    ∃ m, writes s' = ((manifest_key (ap_manifest a)).1.1, m) :: writes s ∧ shown (manifest_key (ap_manifest a)).1.1 m ∧
      o_namespace m = (manifest_key (ap_manifest a)).1.2 ∧ o_name m = (manifest_key (ap_manifest a)).2 ∧ (ap_rv a ≠ "" -> o_rv m = ap_rv a);
  as_bindings upsert record : x_bindings e = Some upsert -> moves unwritten (upsert record);
  as_version kind m m' : shown kind m -> shown kind m' -> o_namespace m = o_namespace m' -> o_name m = o_name m' -> o_rv m = o_rv m' -> m = m';
  as_versioned kind m : shown kind m -> o_rv m ≠ "" }.
Context (A : api_server).
Lemma apply_carried owner manifest m s r s' : shown (manifest_key manifest).1.1 m -> o_namespace m = (manifest_key manifest).1.2 ->
  o_name m = (manifest_key manifest).2 -> cl_apply c owner (mkApplied manifest "" (o_rv m)) s = (r, s') ->
  unwritten s s' ∨ writes s' = ((manifest_key manifest).1.1, m) :: writes s.
Proof.
  intros Hm Hn Hname H. destruct (as_apply A _ _ _ _ _ H) as [E|(m' & E & Hs & E1 & E2 & E3)]; [by left|]. right. cbn in *.
  assert (m' = m) as ->; [|done]. eapply (as_version A); [done|done|congruence..|]. apply E3. by eapply (as_versioned A).
Qed.
Definition generation_at_most (m : ObjectMeta) (generation : Z) : Prop := ∃ g, parse_generation m = Some g ∧ g <= generation.
(** The fence: of this tenant and service, of no later generation, the object the
    database recorded, and not on its way out. *)
Definition fenced (spec : RuntimeSpec) (expected : option RuntimeBinding) (m : ObjectMeta) : Prop :=
  OwnedBy (o_labels m) (r_tenant spec) (r_service spec) = true ∧ generation_at_most m (r_generation spec) ∧
  (∃ b, expected = Some b ∧ b_uid b = o_uid m) ∧ o_deleting m = false.
(** Nothing is changed but a fenced object, unless there was none when it looked. *)
Definition fenced_change (spec : RuntimeSpec) (expected : option RuntimeBinding) (kind : string) (s s' : St) : Prop :=
  unwritten s s' ∨ ∃ m, writes s' = (kind, m) :: writes s ∧ o_namespace m = r_namespace spec ∧ o_name m = r_name spec ∧
    (fenced spec expected m ∨ ∃ t err t', IsNotFound err = true ∧
      (rd_get reader kind (r_namespace spec) (r_name spec) t = (Err err, t') ∨ rd_kserve reader kind (r_namespace spec) (r_name spec) t = (Err err, t'))).
Lemma change_then spec expected kind s t u : fenced_change spec expected kind s t -> unwritten t u -> fenced_change spec expected kind s u.
Proof. unfold fenced_change, unwritten. by intros H ->. Qed.
Lemma change_after spec expected kind s t u : unwritten s t -> fenced_change spec expected kind t u -> fenced_change spec expected kind s u.
Proof. unfold fenced_change, unwritten. by intros <-. Qed.
Lemma kserve_key spec k : RenderKServeRuntime sha256_hex spec = Ok k ->
  manifest_key (MKServe k) = (kserveKindForMode (r_mode spec), r_namespace spec, r_name spec).
Proof.
  unfold RenderKServeRuntime, kserveKindForMode. destruct (decide (r_mode spec = "leader_worker_set")) as [E|E].
  - assert (bool_decide (r_mode spec = "") || bool_decide (r_mode spec = "deployment") = false) as -> by by rewrite E.
    rewrite (bool_decide_true (_ = "leader_worker_set")) by done. intros (Ho & H)%llm_ok.
    destruct H as (? & ? & ? & ? & ? & ? & ? & _ & Ek & _). cbn. rewrite Ek.
    rewrite (proj1 (endpoint_only spec)) in Ho. destruct Ho as (-> & -> & _). done.
  - rewrite (bool_decide_false (_ = "leader_worker_set")) by done. destruct (_ || _); [|done]. intros (Ho & H)%kserve_ok.
    destruct H as (? & ? & ? & _ & Ek & _). cbn. rewrite Ek. rewrite (proj1 (endpoint_only spec)) in Ho. destruct Ho as (-> & -> & _). done.
Qed.
Lemma typed_key spec m : render_runtime sha256_hex spec = Ok m ->
  manifest_key m = (kindForRuntimeMode (r_mode spec), r_namespace spec, r_name spec).
Proof.
  unfold render_runtime, kindForRuntimeMode. destruct (decide (r_mode spec = "leader_worker_set")) as [E|E].
  - assert (bool_decide (r_mode spec = "") || bool_decide (r_mode spec = "deployment") = false) as -> by by rewrite E.
    rewrite (bool_decide_true (_ = "leader_worker_set")) by done. intros H. minv H. injection H as <-.
    apply lws_ok in Hm as ((H1 & H2 & _) & _). cbn. by rewrite H1, H2.
  - rewrite (bool_decide_false (_ = "leader_worker_set")) by done. destruct (_ || _); [|done]. intros H. minv H. injection H as <-.
    apply deployment_ok in Hm as (Ho & _). rewrite (proj1 (endpoint_only spec)) in Ho. destruct Ho as (H1 & H2 & _). cbn. by rewrite H1, H2.
Qed.

Lemma fence_runtime_ok spec expected o : fence_runtime spec expected o = Ok tt -> fenced spec expected (ob_meta o).
Proof.
  unfold fence_runtime, fence_generation. cbv zeta. intros H. minv H. destruct (parse_generation (ob_meta o)) as [g|] eqn:Eg; [|done].
  minv Hm0. destruct expected as [b|]; [|done]. minv H. apply negb_true_iff in H.
  apply Z.leb_le in Hm0. split_and!; [done|by exists g| |done]. exists b. split; [done|].
  unfold same_object in Hm2. rewrite !andb_true_iff, !bool_decide_eq_true in Hm2. by destruct Hm2 as [[_ Hx] _].
Qed.
Lemma fence_kserve_ok spec expected m : fence_kserve spec expected m = Ok tt -> fenced spec expected m.
Proof.
  unfold fence_kserve. intros H. minv H. apply negb_true_iff in H. destruct expected as [b|]; [|done].
  apply bool_decide_eq_true in Hm1. destruct (parse_generation m) as [g|] eqn:Eg; [|done]. apply Z.leb_le in Hm0.
  split_and!; [done|by exists g|eauto|done].
Qed.
Lemma moves_record_binding spec kind role o expected : moves unwritten (record_binding e spec kind role o expected).
Proof. unfold record_binding. destruct (x_bindings e) eqn:E; [by eapply (as_bindings A)|moves]. Qed.
Lemma moves_read_fenced kind ns name fence : moves unwritten (read_fenced reader kind ns name fence).
Proof. destruct (as_reads A) as (H & _). unfold read_fenced. moves. Qed.
Lemma moves_read_kserve kind ns name fence : moves unwritten (read_kserve reader kind ns name fence).
Proof. destruct (as_reads A) as (_ & H & _). unfold read_kserve. moves. Qed.
(** An apply after a read that found [m], or nothing. *)
Lemma applied_change spec expected kind owner manifest cur s r s' :
  manifest_key manifest = (kind, r_namespace spec, r_name spec) ->
  match cur with
  | Some m => fenced spec expected m ∧ shown kind m ∧ o_namespace m = r_namespace spec ∧ o_name m = r_name spec
  | None => ∃ t err t', IsNotFound err = true ∧
      (rd_get reader kind (r_namespace spec) (r_name spec) t = (Err err, t') ∨ rd_kserve reader kind (r_namespace spec) (r_name spec) t = (Err err, t'))
  end ->
  cl_apply c owner (mkApplied manifest "" (match cur with Some m => o_rv m | None => "" end)) s = (r, s') -> fenced_change spec expected kind s s'.
Proof.
  intros Hk Hc H. destruct cur as [m|].
  - destruct Hc as (Hf & Hs & H1 & H2). apply apply_carried in H as [E|E]; [by left| |by rewrite Hk..].
    right. exists m. rewrite E, Hk. auto.
  - destruct (as_apply A _ _ _ _ _ H) as [E|(m & E & Hs & E1 & E2 & _)]; [by left|]. right. exists m. cbn in *. rewrite Hk in *.
    split_and!; [done..|by right].
Qed.
Lemma read_fenced_ok spec expected kind s cur s' : read_fenced reader kind (r_namespace spec) (r_name spec) (fence_runtime spec expected) s = (Ok cur, s') ->
  match ob_meta <$> cur with
  | Some m => fenced spec expected m ∧ shown kind m ∧ o_namespace m = r_namespace spec ∧ o_name m = r_name spec
  | None => ∃ t err t', IsNotFound err = true ∧
      (rd_get reader kind (r_namespace spec) (r_name spec) t = (Err err, t') ∨ rd_kserve reader kind (r_namespace spec) (r_name spec) t = (Err err, t'))
  end.
Proof.
  unfold read_fenced. intros H. minv H. destruct a as [o|err].
  - minv H. injection H as <- <-. unfold lift in Hm0. injection Hm0 as Hf _. destruct a. cbn. split; [by apply fence_runtime_ok|].
    by eapply (as_get A).
  - destruct (IsNotFound err) eqn:E; [|done]. injection H as <- <-. cbn. eauto 10.
Qed.
Lemma read_kserve_ok spec expected kind s cur s' : read_kserve reader kind (r_namespace spec) (r_name spec) (fence_kserve spec expected) s = (Ok cur, s') ->
  match cur with
  | Some m => fenced spec expected m ∧ shown kind m ∧ o_namespace m = r_namespace spec ∧ o_name m = r_name spec
  | None => ∃ t err t', IsNotFound err = true ∧
      (rd_get reader kind (r_namespace spec) (r_name spec) t = (Err err, t') ∨ rd_kserve reader kind (r_namespace spec) (r_name spec) t = (Err err, t'))
  end.
Proof.
  unfold read_kserve. intros H. minv H. destruct a as [o|err].
  - minv H. injection H as <- <-. unfold lift in Hm0. injection Hm0 as Hf _. destruct a. split; [by apply fence_kserve_ok|].
    by eapply (as_kserve A).
  - destruct (IsNotFound err) eqn:E; [|done]. injection H as <- <-. eauto 10.
Qed.
Lemma moves_observeKServe spec expected : moves unwritten (observeKServe e c spec expected).
Proof.
  destruct (as_reads A) as (H1 & H2 & H3 & H4).
  unfold observeKServe, kserve_health, kservePredictorReady, kserveLLMReady, llm_workers, readyKServeLWSWorkers. moves.
Qed.
(** A run whose parts move by [unwritten] around one fenced change. *)
Lemma change_bind {B D} spec expected kind (m : M St B) (k : B -> M St D) s :
  fenced_change spec expected kind s (m s).2 -> (∀ b, moves unwritten (k b)) -> fenced_change spec expected kind s ((m ≫= k) s).2.
Proof. intros H Hk. unfold mbind, M_bind. destruct (m s) as [[b|err] t]; cbn in *; [|done]. eapply change_then; [done|]. apply Hk. Qed.
Lemma bind_change {B D} spec expected kind (m : M St B) (k : B -> M St D) s : moves unwritten m ->
  (∀ b t, m s = (Ok b, t) -> fenced_change spec expected kind t (k b t).2) -> fenced_change spec expected kind s ((m ≫= k) s).2.
Proof.
  intros H Hk. specialize (H s). unfold mbind, M_bind. destruct (m s) as [[b|err] t]; cbn in *; [|by left].
  eapply change_after; [done|]. by apply Hk.
Qed.
(** Claim C9. An apply never takes over an object: whatever its outcome, it
    changes at most one object, of the rendered name, and that object had passed
    every fence in exactly the state it was changed in (it carried this tenant and
    service, no later generation, the UID the database recorded, and was not being
    deleted), unless there was no object when the executor looked.  Holds for the
    KServe and for the typed executor, against a server that refuses an apply whose
    resource version is not the current one. *)
Theorem applies_are_fenced spec expected s :
  fenced_change (dr_spec spec) expected (kserveKindForMode (r_mode (dr_spec spec))) s (applyKServe e c spec expected s).2 ∧
  (x_client e = Some c ->
   fenced_change (dr_spec spec) expected (kindForRuntimeMode (r_mode (dr_spec spec))) s (applyFenced sha256_hex e (dr_spec spec) expected s).2).
Proof.
  split.
  - unfold applyKServe. cbv zeta. apply bind_change; [moves|]. intros k t Hk. unfold lift in Hk. injection Hk as Hk <-.
    apply bind_change; [apply moves_read_kserve|]. intros cur t Hr. apply read_kserve_ok in Hr. apply change_bind.
    + destruct (cl_apply _ _ _ _) as [r u] eqn:Ea. by eapply applied_change; [apply kserve_key| |].
    + intros _. apply moves_bind; [typeclasses eauto|apply (as_reads A)|]. intros o. apply moves_bind; [typeclasses eauto| |].
      * destruct (x_bindings e) eqn:E; [by eapply (as_bindings A)|moves].
      * intros _. apply moves_observeKServe.
  - intros Ec. unfold applyFenced, with_client. rewrite Ec. cbv zeta. apply bind_change; [moves|]. intros k t Hk. unfold lift in Hk. injection Hk as Hk <-.
    apply bind_change; [apply moves_read_fenced|]. intros cur t Hr. apply read_fenced_ok in Hr. apply change_bind.
    + destruct (cl_apply _ _ _ _) as [r u] eqn:Ea. eapply applied_change; [by apply typed_key|exact Hr|]. by destruct cur.
    + intros _. apply moves_bind; [typeclasses eauto|apply (as_reads A)|]. intros o. apply moves_bind; [typeclasses eauto|apply moves_record_binding|]. moves.
Qed.
End Fences.

(** ** Deleting by name *)
(** Claim C39. Deleting a KServe object that still carries the mode annotation
    removes whatever object has the name after the annotation was taken off: the
    preconditions are those of the object read back, which is not compared with the
    binding again.  So when the bound object is replaced between the two reads, the
    delete goes to the replacement, which the binding's UID was recorded to
    prevent. *)
Theorem kserve_delete_follows_name (e : Executor) (c : Client) b obj obj' (s s1 s2 s3 : St) : x_client e = Some c ->
  bool_decide (b_namespace b = "") || bool_decide (b_name b = "") || bool_decide (b_uid b = "") || bool_decide (b_rv b = "") = false ->
  rd_kserve (reader_for e c) (b_kind b) (b_namespace b) (b_name b) s = (Ok obj, s1) ->
  o_uid (ko_meta obj) = b_uid b -> o_deleting (ko_meta obj) = false -> is_Some (o_annotations (ko_meta obj) !! mode_annotation) ->
  cl_unmark c (b_kind b) (o_namespace (ko_meta obj)) (o_name (ko_meta obj)) mode_annotation s1 = (Ok tt, s2) ->
  rd_kserve (reader_for e c) (b_kind b) (o_namespace (ko_meta obj)) (o_name (ko_meta obj)) s2 = (Ok obj', s3) ->
  (deleteKServe e b s).2 =
    (cl_delete c (b_kind b) (o_namespace (ko_meta obj')) (o_name (ko_meta obj')) (o_uid (ko_meta obj')) (o_rv (ko_meta obj')) true s3).2.
Proof.
  intros Ec Hb H1 Hu Hd Hm H2 H3. unfold deleteKServe, with_client, unmark. rewrite Ec, Hb. cbv zeta.
  unfold mbind, M_bind, try, check, mret, M_ret, throw. cbn [negb]. rewrite H1, Hd, (bool_decide_true (_ = b_uid b)), (bool_decide_true (is_Some _)) by done.
  rewrite H2, H3. destruct (cl_delete _ _ _ _ _ _ _ _) as [[u|err] t]; [done|]. by destruct (IsNotFound err).
Qed.

(** ** Readiness *)
Lemma size_of_list (l : list (Z * Z)) : (size (list_to_set l : gset (Z * Z)) <= length l)%nat.
Proof.
  induction l as [|x l IH]; [by rewrite list_to_set_nil, size_empty|]. rewrite list_to_set_cons, size_union_alt, size_singleton. cbn.
  pose proof (subseteq_size (list_to_set l ∖ {[x]} : gset (Z * Z)) (list_to_set l) ltac:(set_solver)). lia.
Qed.
(** As many slots as there are positions fill every position. *)
Lemma slots_fill groups workers (l : list (Z * Z)) : 0 <= groups -> 0 <= workers ->
  (∀ g w, (g, w) ∈ l -> 0 <= g < groups ∧ 1 <= w <= workers) ->
  groups * workers <= Z.of_nat (size (list_to_set l : gset (Z * Z))) ->
  ∀ g w, 0 <= g < groups -> 1 <= w <= workers -> (g, w) ∈ l.
Proof.
  intros Hg Hw Hin Hs g w Hg' Hw'. set (grid := list_prod (seqZ 0 groups) (seqZ 1 workers)).
  assert (list_to_set l = (list_to_set grid : gset (Z * Z))) as E.
  { apply set_subseteq_size_eq.
    - intros [g' w']. rewrite !elem_of_list_to_set. intros (H1 & H2)%Hin. unfold grid. rewrite <- list_cprod_list_prod.
      apply list_elem_of_cprod. cbn. rewrite !elem_of_seqZ. lia.
    - etrans; [apply size_of_list|]. unfold grid. rewrite length_prod, !length_seqZ. nia. }
  apply (elem_of_list_to_set (C := gset (Z * Z))). rewrite E, elem_of_list_to_set. unfold grid. rewrite <- list_cprod_list_prod.
  apply list_elem_of_cprod. cbn. rewrite !elem_of_seqZ. lia.
Qed.
Lemma in_range_ok lo hi s z : in_range lo hi s = Some z -> lo <= z <= hi ∧ parse_int64 s = Some z.
Proof.
  unfold in_range. destruct (parse_int64 s) as [z'|]; [|done]. cbn. destruct (_ && _) eqn:E; [|done]. intros [= ->].
  apply andb_true_iff in E as [[_ E1%Z.leb_le]%andb_true_iff E2%Z.leb_le]. done.
Qed.
(** A running, ready pod at this position of the set. *)
Definition worker_at (groups workers : Z) (pod : Pod) (g w : Z) : Prop :=
  o_deleting (pod_meta pod) = false ∧ pod_phase pod = "Running" ∧ ("Ready", "True") ∈ pod_conditions pod ∧
  parse_int64 (label (o_labels (pod_meta pod)) GroupIndexLabelKey) = Some g ∧ 0 <= g < groups ∧
  parse_int64 (label (o_labels (pod_meta pod)) WorkerIndexLabelKey) = Some w ∧ 1 <= w <= workers.
Lemma ready_slot_ok groups workers pod g w : ready_slot groups workers pod = Some (g, w) -> worker_at groups workers pod g w.
Proof.
  unfold ready_slot. destruct (_ || _) eqn:E; [done|]. apply orb_false_iff in E as [E1 E2%negb_false_iff%bool_decide_eq_true]. cbn.
  destruct (in_range 1 _ _) as [w'|] eqn:Ew; [|done]. cbn. destruct (in_range 0 _ _) as [g'|] eqn:Eg; [|done]. cbn.
  unfold pod_ready. case_bool_decide; [|done]. intros [= -> ->]. apply in_range_ok in Ew as [? ?], Eg as [? ?]. unfold worker_at. split_and!; try done; lia.
Qed.
(** The judgement of a predictor Deployment. *)
Record predictor_current (obj : KObject) (replicas : Z) (m : ObjectMeta) (d : DeploymentStatus) : Prop := {
  pc_owner : controlled_by obj "InferenceService" m = true;
  pc_container : ∃ p expected actual, ko_predictor obj = Some p ∧ pd_containers p = Some [Some expected] ∧
    actual ∈ p_containers (t_spec (ds_template d)) ∧ predictor_container_matches expected actual = true ∧
    kservePodPlacementMatches p (t_spec (ds_template d)) (t_annotations (ds_template d)) = true;
  pc_observed : 1 <= o_generation m <= ds_observed d;
  pc_replicas : replicas <= ds_updated d ∧ replicas <= ds_available d ∧ replicas <= ds_ready d ∧ 1 <= ds_ready d }.
Lemma predictor_status_ok obj replicas m d : predictor_status obj replicas m d = Ok tt -> predictor_current obj replicas m d.
Proof.
  unfold predictor_status. intros H. minv H. destruct (ko_predictor obj) as [p|] eqn:Ep; [|done].
  unfold only_container in H. destruct (pd_containers p) as [[|[expected|] [|]]|] eqn:Ec; try done. cbv zeta in H. minv H.
  apply existsb_exists in Hm0 as (actual & Ha%list_elem_of_In & Hx). apply negb_true_iff in Hm2, H.
  rewrite !orb_false_iff, !Z.ltb_ge in *. split; [done|eauto 10|lia|].
  destruct (replicas <? 1) eqn:E; [apply Z.ltb_lt in E|apply Z.ltb_ge in E]; lia.
Qed.
(** The judgement of a LeaderWorkerSet: every worker position is filled by a
    ready pod that runs the worker container. *)
Record set_current (obj : KObject) (spec : RuntimeSpec) (m : ObjectMeta) (l : LWSStatus) (pods : list Pod) : Prop := {
  sc_owner : controlled_by obj "LLMInferenceService" m = true;
  sc_templates : kserveLLMTemplatesMatch obj l = true;
  sc_size : ls_replicas l = Some (r_replicas spec) ∧ ls_size l = Some (llm_size spec);
  sc_groups : r_replicas spec <= ls_ready l ∧ r_replicas spec <= ls_updated l;
  sc_workers g w : 0 <= g < r_replicas spec -> 1 <= w <= llm_size spec - 1 ->
    ∃ pod expected container, pod ∈ pods ∧ worker_at (r_replicas spec) (llm_size spec - 1) pod g w ∧ p_containers (t_spec (ls_worker l)) = [expected] ∧
      pod_containers pod = [container] ∧ kserveContainerMatches expected container = true }.
Lemma llm_size_at_least spec : 2 <= llm_size spec.
Proof. unfold llm_size. cbv zeta. destruct (_ <? 2) eqn:E; [lia|]. by apply Z.ltb_ge in E. Qed.
Lemma llm_workers_ok (reader : Reader) spec m l s r s' : 0 <= r_replicas spec -> r_replicas spec * (llm_size spec - 1) < 2 ^ 31 ->
  llm_workers reader spec m l s = (Ok r, s') -> lr_ready r = true ->
  r_replicas spec <= ls_ready l ∧ ∃ pods, rd_pods reader (o_namespace m) {[SetNameLabelKey := o_name m]} s = (Ok pods, s') ∧
    ∀ g w, 0 <= g < r_replicas spec -> 1 <= w <= llm_size spec - 1 -> ∃ pod expected container, pod ∈ pods ∧
      worker_at (r_replicas spec) (llm_size spec - 1) pod g w ∧ p_containers (t_spec (ls_worker l)) = [expected] ∧
      pod_containers pod = [container] ∧ kserveContainerMatches expected container = true.
Proof.
  intros Hr Hb. pose proof (llm_size_at_least spec) as Hsz. unfold llm_workers, readyKServeLWSWorkers. cbv zeta. intros H Hready. minv H.
  injection H as <- <-. destruct a as [n|]; [|done]. destruct (ls_ready l <? _) eqn:E1; [done|]. destruct (n <? _) eqn:E2; [done|].
  apply Z.ltb_ge in E1, E2. split; [done|]. minv Hm. destruct (p_containers _) as [|expected [|]] eqn:Ec; try done. injection Hm as <- <-.
  exists a. split; [done|]. set (slots := omap (lws_worker_slot expected (r_replicas spec) (llm_size spec - 1)) a) in *.
  assert (∀ g w, (g, w) ∈ slots -> ∃ pod container, pod ∈ a ∧ worker_at (r_replicas spec) (llm_size spec - 1) pod g w ∧
    pod_containers pod = [container] ∧ kserveContainerMatches expected container = true) as Hslot.
  { intros g w (pod & Hp & Hx)%list_elem_of_omap. unfold lws_worker_slot in Hx. destruct (pod_containers pod) as [|ct [|]] eqn:Ep; try done.
    destruct (kserveContainerMatches expected ct) eqn:Ek; [|done]. exists pod, ct. split_and!; [done| |done|done]. by apply ready_slot_ok. }
  intros g w Hg Hw. destruct (Hslot g w) as (pod & ct & ? & ? & ? & ?); [|by exists pod, expected, ct].
  apply (slots_fill (r_replicas spec) (llm_size spec - 1)); try lia.
  - intros g' w' (pod & ct & _ & (_ & _ & _ & _ & H1 & _ & H2) & _)%Hslot. done.
  - assert (∀ z, 0 <= z -> int32 z <= z) as Hle by (intros z Hz; unfold int32; pose proof (Z.mod_le (z + 2 ^ 31) (2 ^ 32)); lia).
    rewrite int32_id in E2 by (unfold in_int32; nia). etrans; [exact E2|]. apply Hle. lia.
Qed.

(** The cluster gave this answer. *)
Definition answered {B} (m : M St B) (b : B) : Prop := ∃ t t', m t = (Ok b, t').
Definition generation_current (reader : Reader) (spec : RuntimeSpec) (obj : KObject) : Prop :=
  if bool_decide (r_mode spec = "leader_worker_set") then
    0 <= r_replicas spec -> r_replicas spec * (llm_size spec - 1) < 2 ^ 31 ->
    ∃ m l pods, answered (rd_get reader "LeaderWorkerSet" (o_namespace (ko_meta obj)) (KServeLLMWorkloadName (r_name spec))) (mkObject m (BLWS l)) ∧
      answered (rd_pods reader (o_namespace m) {[SetNameLabelKey := o_name m]}) pods ∧ set_current obj spec m l pods
  else
    ∃ m d, answered (rd_get reader "Deployment" (o_namespace (ko_meta obj)) (KServePredictorServiceName (o_name (ko_meta obj)))) (mkObject m (BDeployment d)) ∧
      predictor_current obj (r_replicas spec) m d.
Lemma llm_ready_ok (reader : Reader) obj spec s r s' : bool_decide (r_mode spec = "leader_worker_set") = true ->
  kserveLLMReady reader obj spec s = (Ok r, s') -> lr_ready r = true -> generation_current reader spec obj.
Proof.
  intros Em. unfold kserveLLMReady, generation_current. rewrite Em. cbv zeta. destruct (llm_stale obj); [by intros [= <- _]|].
  intros H Hr H0 Hb. minv H. destruct a as [o|err]; [|by injection H as <- _]. destruct o as [m [d|l|g|]]; cbn in H; try by injection H as <- _.
  destruct (lws_status _ _ _ _ _) as [[]|err] eqn:El; [|by injection H as <- _]. pose proof H as H'.
  apply llm_workers_ok in H' as (Hready & pods & Hp & Hw); [|done..]. exists m, l, pods. split; [eexists _, _; done|].
  split; [eexists _, _; done|]. unfold lws_status in El. minv El. apply negb_true_iff, Z.ltb_ge in El.
  apply bool_decide_eq_true in Hm2, Hm3. by split.
Qed.
Lemma predictor_ready_ok (reader : Reader) obj spec s reason s' : bool_decide (r_mode spec = "leader_worker_set") = false ->
  kservePredictorReady reader obj (r_replicas spec) s = (Ok (true, reason), s') -> generation_current reader spec obj.
Proof.
  intros Em. unfold kservePredictorReady, generation_current. rewrite Em. intros H. minv H. injection H as H _.
  destruct a as [[m [d|l|g|]]|err]; try done. cbn in H. destruct (predictor_status _ _ _ _) as [[]|] eqn:E; [|done].
  exists m, d. split; [eexists _, _; done|]. by apply predictor_status_ok.
Qed.
Lemma kserve_ready_ok (e : Executor) (c : Client) spec expected s o s' : observeKServe e c spec expected s = (Ok o, s') -> Reconcile.Obs_RuntimePhase o = "ready" ->
  ∃ obj, answered (rd_kserve (reader_for e c) (kserveKindForMode (r_mode (dr_spec spec))) (r_namespace (dr_spec spec)) (r_name (dr_spec spec))) obj ∧
    OwnedBy (o_labels (ko_meta obj)) (r_tenant (dr_spec spec)) (r_service (dr_spec spec)) = true ∧
    parse_generation (ko_meta obj) = Some (r_generation (dr_spec spec)) ∧ o_deleting (ko_meta obj) = false ∧
    (∀ b, expected = Some b -> b_uid b = o_uid (ko_meta obj)) ∧ generation_current (reader_for e c) (dr_spec spec) obj.
Proof.
  unfold observeKServe. cbv zeta. intros H Hp. minv H. destruct a as [obj|err].
  2:{ destruct (IsNotFound err); [|done]. by injection H as <- _. }
  minv H. unfold lift in Hm0. injection Hm0 as Hv <-. exists obj. split; [eexists _, _; done|].
  unfold validateKServeObject in Hv. cbv zeta in Hv. minv Hv. clear Hv. destruct (o_deleting (ko_meta obj)) eqn:Ed; [by injection H as <- _|].
  minv H. destruct a4 as [[ready reason] o']. destruct (parse_generation (ko_meta obj)) as [g|]; [|done].
  apply andb_true_iff in Hm1 as [_ ->%Z.eqb_eq]. split_and!; try done.
  { intros b ->. unfold kserve_binding_ok in Hm3. rewrite !andb_true_iff, !bool_decide_eq_true in Hm3. by destruct Hm3. }
  destruct ready.
  2:{ injection H as <- _. cbn in Hp. unfold runtimeLoadingPhase in Hp. by destruct (_ && _). }
  unfold kserve_health in Hm4. destruct (kserveReady obj) as [[] r]; [|done]. destruct (bool_decide (r_mode _ = _)) eqn:Em; minv Hm4.
  - injection Hm4 as Hr _ _ _. by eapply llm_ready_ok.
  - destruct a4 as [rd rs]. injection Hm4 as -> _ _ _. by eapply predictor_ready_ok.
Qed.
Lemma reason_or_keeps reason o : Reconcile.Obs_RuntimePhase (reason_or reason o) = Reconcile.Obs_RuntimePhase o ∧
  Reconcile.Obs_InvocationHealth (reason_or reason o) = Reconcile.Obs_InvocationHealth o.
Proof. unfold reason_or. by destruct (bool_decide _). Qed.
Lemma invocation_ok (e : Executor) spec o s o' s' : observeInvocation e spec o s = (Ok o', s') ->
  Reconcile.Obs_RuntimePhase o' = Reconcile.Obs_RuntimePhase o ∧
  (Reconcile.Obs_InvocationHealth o' = "healthy" -> Reconcile.Obs_RuntimePhase o = "ready" ∧ dr_published spec = true ∧ dr_model_known spec = true ∧ dr_model_ready spec = true).
Proof.
  unfold observeInvocation. destruct (_ || _ || _ || _) eqn:E.
  - intros H. pose proof (reason_or_keeps "runtime_not_ready" (o <| Reconcile.Obs_InvocationHealth := "unhealthy" |>)) as [H1 H2].
    unfold mret, M_ret in H. set (x := reason_or _ _) in *. assert (o' = x) as -> by congruence. by rewrite H1, H2.
  - rewrite !orb_false_iff, !negb_false_iff, bool_decide_eq_true in E. intros H. minv H. injection H as <- _.
    split; [|naive_solver]. destruct a as [[st rs]|err]; [by destruct (bool_decide _)|].
    by rewrite (proj1 (reason_or_keeps _ _)).
Qed.
(** Claim C13. A runtime that is reported ready is the runtime of the target
    generation, running what was applied: the KServe object read back carries the
    tenant, service and exactly the target generation, has the recorded UID and is
    not being deleted; the Deployment it controls runs the container and the
    placement of its predictor with every replica updated, available and ready, or
    the LeaderWorkerSet it controls matches its templates and every worker position
    of every group is filled by a ready pod running the worker container (below
    2^31 positions).  Invocation is reported healthy only for a ready, published
    runtime whose model is known to be ready. *)
Theorem ready_means_current e op s obs s' : KServe_ObserveRuntime (Some e) op s = (Ok obs, s') -> Runner.Ready obs = true ->
  ∃ c spec s1 obj, x_client e = Some c ∧ operationRuntime e op s = (Ok spec, s1) ∧
    answered (rd_kserve (reader_for e c) (kserveKindForMode (r_mode (dr_spec spec))) (r_namespace (dr_spec spec)) (r_name (dr_spec spec))) obj ∧
    OwnedBy (o_labels (ko_meta obj)) (Runner.TenantID op) (Runner.ServiceID op) = true ∧
    parse_generation (ko_meta obj) = Some (Runner.TargetGeneration op) ∧ o_deleting (ko_meta obj) = false ∧
    (∀ b, kserveBindingForSpec spec = Some b -> b_uid b = o_uid (ko_meta obj)) ∧
    generation_current (reader_for e c) (dr_spec spec) obj ∧
    (Runner.InvocationHealth obs = "healthy" -> dr_published spec = true ∧ dr_model_known spec = true ∧ dr_model_ready spec = true).
Proof.
  unfold KServe_ObserveRuntime, with_executor, with_client. intros H Hr. minv H. destruct (x_client e) as [c|] eqn:Ec; [|done]. minv H.
  injection H as <- _. cbn in Hr |- *. apply bool_decide_eq_true in Hr. apply invocation_ok in Hm1 as [E1 E2]. rewrite E1 in Hr.
  destruct (kserve_ready_ok _ _ _ _ _ _ _ Hm0 Hr) as (obj & H1 & H2 & H3 & H4 & H5 & H6).
  assert (r_tenant (dr_spec a) = Runner.TenantID op ∧ r_service (dr_spec a) = Runner.ServiceID op ∧ r_generation (dr_spec a) = Runner.TargetGeneration op) as (T1 & T2 & T3).
  { unfold operationRuntime, with_client in Hm. rewrite Ec in Hm. destruct (x_source e); [|done]. minv Hm. injection Hm as <- _. done. }
  rewrite T1, T2 in H2. rewrite T3 in H3. exists c, a, u, obj. split_and!; try done. intros Hh. by apply E2 in Hh as (_ & ? & ? & ?).
Qed.
End KServe.

(** ** Example: one KServe object with its Deployment. *)
Module Example.
Import Server.Server.Example Intake.Intake.Example Render.Render.Example.
#[local] Existing Instance Resources.toy_lib.
#[local] Existing Instance Render.Render.Example.kube_lib.
(** The state says whether the object exists, whether generation 3 was applied,
    and which objects were changed. *)
Record Cluster := mkCluster { cs_present : bool; cs_applied : bool; cs_writes : list (string * ObjectMeta) }.
Definition namespace : string := "tenant-" +:+ tenant.
Definition object_meta (generation rv : string) : ObjectMeta :=
  mkObjectMeta "InferenceService" namespace "chat" "u1" rv
    (<[generationLabel := generation]> (<[tenantIDLabel := tenant]> {[serviceIDLabel := resource]})) ∅ false 1 [].
Definition before : ObjectMeta := object_meta "2" "1".
Definition after : ObjectMeta := object_meta "3" "2".
Definition the_predictor : option Predictor :=
  match RenderKServeRuntime sha (cpu_spec "deployment") with
  | Ok k => match k_spec k with InferenceServiceSpec p => Some p | _ => None end
  | Err _ => None
  end.
Definition the_template : PodTemplate :=
  match the_predictor with
  | Some p => mkTemplate ∅ (default ∅ (pd_annotations p))
                (mkPodSpec "" (omap id (default [] (pd_containers p))) (default "" (pd_scheduler p)) (default ∅ (pd_selector p)) None None None []
                   (default [] (pd_pull_secrets p)))
  | None => mkTemplate ∅ ∅ (mkPodSpec "" [] "" ∅ None None None [] [])
  end.
Definition the_object (s : Cluster) : KObject :=
  mkKObject (if cs_applied s then after else before) the_predictor None None (Ok ∅) (Some [None; Some (mkCondition "Ready" "True" "" "")]) (Ok (Some 1)).
Definition the_deployment : Object :=
  mkObject (mkObjectMeta "Deployment" namespace "chat-predictor" "d1" "7" ∅ ∅ false 1 [mkOwner "" "InferenceService" "chat" "u1" true])
    (BDeployment (mkDeploymentStatus (Some 1) the_template 1 1 1 1)).
Definition other_pod : Pod := mkPod (mkObjectMeta "Pod" namespace "other" "p9" "1" ∅ ∅ false 1 []) "Running" [] [] [].
Definition pods_with (ns : string) (selector : gmap string string) : list Pod :=
  filter (fun p => o_namespace (pod_meta p) = ns ∧ map_Forall (fun k v => o_labels (pod_meta p) !! k = Some v) selector) [other_pod].
Definition the_reader : Reader (St := Cluster) := mkReader
  (fun kind ns name s => if bool_decide (kind = "Deployment") && bool_decide (ns = namespace) && bool_decide (name = "chat-predictor")
                         then (Ok the_deployment, s) else (Err (NotFound name), s))
  (fun kind ns name s => if cs_present s && bool_decide (kind = KServeInferenceServiceKind) && bool_decide (ns = namespace) && bool_decide (name = "chat")
                         then (Ok (the_object s), s) else (Err (NotFound name), s))
  (fun _ name s => (Err (NotFound name), s))
  (fun ns name s => if bool_decide (ns = namespace) && bool_decide (name = "other") then (Ok other_pod, s) else (Err (NotFound name), s))
  (fun ns selector s => (Ok (pods_with ns selector), s)).
Definition the_apply (_ : string) (a : Applied) : M Cluster unit := fun s =>
  let current := if cs_applied s then after else before in
  if cs_present s && bool_decide (manifest_key (ap_manifest a) = (KServeInferenceServiceKind, namespace, "chat")) &&
     (bool_decide (ap_rv a = "") || bool_decide (ap_rv a = o_rv current))
  then (Ok tt, mkCluster true true ((KServeInferenceServiceKind, current) :: cs_writes s))
  else (Err (Conflict "conflict"), s).
Definition the_client : Client (St := Cluster) := mkClient the_reader the_apply (fun _ _ _ _ _ _ => mret tt) (fun _ _ _ _ => mret tt).
Definition the_binding : RuntimeBinding := mkBinding KServeInferenceServiceKind namespace "chat" "u1" "1" "runtime" 2.
Definition gpu_desired : DesiredRuntime := mkDesiredRuntime gpu_spec "deleted" "" true true true true false [the_binding].
Definition cpu_desired : DesiredRuntime := mkDesiredRuntime (cpu_spec "deployment") "running" "" true true true false true [the_binding].
Definition the_executor (d : DesiredRuntime) : RuntimeExecutor (St := Cluster) :=
  mkExecutor (Some the_client) (Some (fun _ _ _ _ => mret ("healthy", ""))) (Some the_reader) None (Some (fun _ _ _ => mret d)) (Some (fun _ => mret tt)) ""
    "runner" false.
Definition the_operation : Runner.OperationContext :=
  Runner.mkOperationContext tenant resource "op" "delete" "user:me" "r1" "lease" "running" "observe_absence" 0 3 Quota.none Quota.none
    (Publication.mkPublication "" "" "" 0 "" "" "" "") None None true true "" [Gpu.mkPodRef "c" namespace "gone" "p1" "kserve-container"] "" 1 1 "deployment".
Definition present : Cluster := mkCluster true false [].
Definition gone : Cluster := mkCluster false false [].
Definition live (s : Cluster) (p : Pod) : Prop := p = other_pod.

Lemma reader_honest : honest live the_reader.
Proof.
  split.
  - intros ns selector s l s' [= <- _] p. unfold pods_with. rewrite list_elem_of_filter, list_elem_of_singleton. unfold live.
    rewrite map_subseteq_spec. unfold map_Forall. naive_solver.
  - intros ns name s p s'. cbn. destruct (_ && _) eqn:E; [|done]. intros [= <- _]. rewrite andb_true_iff, !bool_decide_eq_true in E. by destruct E as [-> ->].
  - intros ns name s e s' p. cbn. destruct (_ && _) eqn:E; [done|]. intros _ _ -> <- En. cbn in En. rewrite <- En in E.
    by rewrite !bool_decide_true in E.
Qed.
Lemma pods_unique : unique_pods live.
Proof. by intros s p q -> ->. Qed.
Lemma server_lawful d : api_server (the_executor d) the_client cs_writes (fun kind m => kind = "Deployment" ∧ m = ob_meta the_deployment ∨
  kind = KServeInferenceServiceKind ∧ (m = before ∨ m = after)).
Proof.
  split.
  - split_and!; intros; intros s; cbn; repeat case_match; reflexivity.
  - intros kind ns name s o s'. cbn. destruct (_ && _) eqn:E; [|done]. intros [= <- _]. rewrite !andb_true_iff, !bool_decide_eq_true in E.
    destruct E as [[-> ->] ->]. split; [by left|done].
  - intros kind ns name s o s'. cbn. destruct (_ && _) eqn:E; [|done]. intros [= <- _]. rewrite !andb_true_iff, !bool_decide_eq_true in E.
    destruct E as [[[_ ->] ->] ->]. unfold the_object. cbn. destruct (cs_applied s); (split; [right; by auto|done]).
  - intros owner a s r s'. cbn. unfold the_apply. destruct (_ && _) eqn:E; [|intros [= _ <-]; by left]. intros [= _ <-]. right.
    rewrite !andb_true_iff, orb_true_iff, !bool_decide_eq_true in E. destruct E as [[_ Ek] Er]. exists (if cs_applied s then after else before).
    rewrite Ek. cbn. split; [done|]. split; [right; destruct (cs_applied s); auto|]. split; [by destruct (cs_applied s)|].
    split; [by destruct (cs_applied s)|]. intros Hn. by destruct Er as [Er|Er].
  - intros upsert record [= <-] s. reflexivity.
  - intros kind m m' [[_ ->]|[-> Hm]] [[Hk ->]|[Hk Hm']]; [done|by destruct Hm' as [-> | ->]|done|]. by destruct Hm as [-> | ->], Hm' as [-> | ->].
  - intros kind m [[_ ->]|[_ [-> | ->]]]; done.
Qed.

Lemma absence_frees_gpu_witness : frees sha live (the_executor gpu_desired) the_client the_operation gone.
Proof.
  assert (match Router_ObserveAbsence (wired_router sha (the_executor gpu_desired) None) the_operation gone with (Ok o, _) => Runner.Absent o | _ => false end = true) as H
    by (vm_compute; reflexivity).
  destruct (Router_ObserveAbsence (wired_router sha (the_executor gpu_desired) None) the_operation gone) as [[o|e] s'] eqn:E; [|discriminate H].
  exact (absence_frees_gpu sha live (the_executor gpu_desired) the_client eq_refl reader_honest pods_unique None the_operation gone o s' E H).
Defined.
Lemma applies_are_fenced_witness :
  let s' := (applyKServe sha (the_executor cpu_desired) the_client cpu_desired (Some the_binding) present).2 in
  cs_writes s' = [(KServeInferenceServiceKind, before)] ∧
  fenced_change (the_executor cpu_desired) the_client cs_writes (cpu_spec "deployment") (Some the_binding) KServeInferenceServiceKind present s'.
Proof.
  split; [vm_compute; reflexivity|].
  exact (proj1 (applies_are_fenced sha (the_executor cpu_desired) the_client cs_writes _ (server_lawful cpu_desired) cpu_desired (Some the_binding) present)).
Defined.
Lemma ready_means_current_witness : ∃ obj, o_uid (ko_meta obj) = "u1" ∧ parse_generation (ko_meta obj) = Some 3 ∧ o_deleting (ko_meta obj) = false.
Proof.
  set (run := KServe_ObserveRuntime sha (Some (the_executor cpu_desired)) the_operation (mkCluster true true [])).
  assert (match run with (Ok o, _) => Runner.Ready o | _ => false end = true) as H by (vm_compute; reflexivity).
  destruct run as [[o|e] s'] eqn:E; [|discriminate H].
  destruct (ready_means_current sha (the_executor cpu_desired) the_operation (mkCluster true true []) o s' E H)
    as (c & spec & s1 & obj & _ & Es & _ & _ & Hg & Hd & Hb & _).
  exists obj. split; [|exact (conj Hg Hd)]. symmetry. apply (Hb the_binding).
  vm_compute in Es. injection Es as <- _. vm_compute. reflexivity.
Defined.
(** The bound object is replaced while its annotation is removed. *)
Record Swap := mkSwap { sw_replaced : bool; sw_deleted : list string }.
Definition swapped (s : Swap) : KObject :=
  mkKObject (mkObjectMeta "InferenceService" namespace "chat" (if sw_replaced s then "u2" else "u1") "1" ∅
               (if sw_replaced s then ∅ else {[mode_annotation := "Standard"]}) false 1 []) None None None (Ok ∅) None (Ok None).
Definition swap_reader : Reader (St := Swap) := mkReader (fun _ _ name s => (Err (NotFound name), s)) (fun _ _ _ s => (Ok (swapped s), s))
  (fun _ name s => (Err (NotFound name), s)) (fun _ name s => (Err (NotFound name), s)) (fun _ _ s => (Ok [], s)).
Definition swap_client : Client (St := Swap) := mkClient swap_reader (fun _ _ => mret tt)
  (fun _ _ _ uid _ _ s => (Ok tt, mkSwap (sw_replaced s) (uid :: sw_deleted s))) (fun _ _ _ _ s => (Ok tt, mkSwap true (sw_deleted s))).
Definition swap_executor : RuntimeExecutor (St := Swap) := mkExecutor (Some swap_client) None (Some swap_reader) None None None "" "" false.
Lemma kserve_delete_follows_name_witness :
  b_uid the_binding = "u1" ∧ sw_deleted (deleteKServe swap_executor the_binding (mkSwap false [])).2 = ["u2"].
Proof.
  split; [reflexivity|].
  erewrite (kserve_delete_follows_name swap_executor swap_client the_binding (swapped (mkSwap false [])) (swapped (mkSwap true []))
           (mkSwap false []) (mkSwap false []) (mkSwap true []) (mkSwap true []));
    [reflexivity|reflexivity|reflexivity|reflexivity|reflexivity|reflexivity|eexists; reflexivity|reflexivity|reflexivity].
Defined.
End Example.
End KServe.
