(* ===== verification/RuntimeSource.v ===== *)
(** * The desired runtime in PostgreSQL

    internal/data/postgres/runtime_source.go, the source of desired generations the
    executors read, and the adapter of runtime_binding.go through which they record
    what they applied.  The text of a plan column decodes to the current shape and,
    for rows of an older release, to [LegacyPlan]; the text of an accepted image
    selection is decoded by the parameter [parse_selection].  The namespace verifier
    is a port. *)

From S2P Require Import Prelude GoStrings Operation Gpu Resources Engine Canonical Work Schema Contract WorkStore Reconcile Runner ReconcileStore OperationStore Commands Managed Update Server Intake Render Executor KServe.
Local Open Scope Z_scope.

Module RuntimeSource.
Import Schema.Schema WorkStore.WorkStore ReconcileStore.ReconcileStore OperationStore.OperationStore OperationStore.OperationStore.Sql.
Import Managed.Managed Intake.Intake Render.Render Executor.Executor KServe.KServe.

(** ** Bindings of a service
    [ListCurrentRuntimeBindings]: for every kind and role the row of the latest
    generation, in the order of kind and role. *)
Definition binding_at := (string * string * Z * BindingRow)%type.
Definition by_kind_role (x y : binding_at) : Prop :=
  String.ltb x.1.1.1 y.1.1.1 = true ∨ x.1.1.1 = y.1.1.1 ∧ String.le x.1.1.2 y.1.1.2.
#[global] Instance by_kind_role_dec : RelDecision by_kind_role.
Proof. intros x y. unfold by_kind_role. apply _. Defined.
Definition bindings_upto (db : DB) (k : key) (generation : Z) : list binding_at :=
  omap (fun kb : (uuid * uuid * Z * string * string) * BindingRow =>
    let '((t, s, g, kind, role), b) := kb in
    if bool_decide ((t, s) = k) && (g <=? generation) then Some (kind, role, g, b) else None) (map_to_list (bindings db)).
Definition latest_of (l : list binding_at) (x : binding_at) : Prop :=
  Forall (fun y => y.1.1 = x.1.1 -> y.1.2 <= x.1.2) l.
#[global] Instance latest_of_dec l x : Decision (latest_of l x).
Proof. apply Forall_dec. intros y. destruct (decide (y.1.1 = x.1.1)); [|by left]. destruct (decide (y.1.2 <= x.1.2)); [by left|right; auto]. Defined.
Definition ListCurrentRuntimeBindings (k : key) (generation : Z) : statement (list binding_at) := Schema.select (fun _ db =>
  let l := bindings_upto db k generation in merge_sort by_kind_role (filter (latest_of l) l)).

(** ** Documents *)
(** A plan written before the execution and display parts were separated. *)
Record LegacyPlan := mkLegacyPlan {
  lp_request : option Gpu.Request; lp_profile_id : string; lp_profile_version : Z; lp_display_name : string; lp_mode : Z;
  lp_model_key : string; lp_scheduler : string; lp_queue : string; lp_runtime_class : string;
  lp_node_labels : list (string * string); lp_annotations : list (string * string); lp_limits : list (string * string);
  lp_digest : string }.
(** A later entry of the same key wins. *)
Definition to_map (items : list (string * string)) : gmap string string :=
  foldl (fun m e => if bool_decide (e.1 = "") then m else <[e.1 := e.2]> m) ∅ items.
Definition current_shape (plan : jsonb Gpu.Snapshot) : option Gpu.Snapshot :=
  match plan with
  | JVal s => match Gpu.Snap_Request s, Gpu.Snap_Execution s, Gpu.Snap_Display s with
              | Some _, Some _, Some _ => Some s
              | _, _, _ => None
              end
  | JBad => None
  end.
Definition decodePersistedGPUSnapshot (plan : jsonb Gpu.Snapshot) (legacy : jsonb LegacyPlan) (request : option Gpu.Request)
    : result Gpu.Snapshot :=
  match current_shape plan, legacy with
  | Some s, _ => Ok s
  | None, JBad => Err (errorf "cannot decode")
  | None, JVal l =>
      match match lp_request l with Some r => Some r | None => request end with
      | Some r =>
          if bool_decide (lp_profile_id l = "") || bool_decide (lp_model_key l = "") || bool_decide (lp_digest l = "")
          then Err (errorf "unsupported persisted GPU snapshot")
          else Ok (Gpu.mkSnapshot (Some r)
                 (Some (Gpu.mkExecution (lp_scheduler l) (lp_queue l) (lp_runtime_class l) (to_map (lp_node_labels l))
                          (to_map (lp_annotations l)) (to_map (lp_limits l)) (lp_digest l)))
                 (Some (Gpu.mkDisplay (lp_profile_id l) (lp_profile_version l) (lp_display_name l) (lp_model_key l) (lp_mode l)))
                 (lp_digest l))
      | None => Err (errorf "unsupported persisted GPU snapshot")
      end
  end.

(** [strconv.Atoi] and [intstr.FromInt], which keeps 32 bits. *)
Definition runtime_target (raw : string) : IntOrString :=
  match parse_int64 raw with Some n => FromInt (int32 n) | None => FromString raw end.
Definition runtime_endpoint (b : SpecBody) : option EndpointSpec :=
  (fun e => let '(container, service, target, protocol) := e in mkEndpoint container service (runtime_target target) protocol) <$> sp_endpoint b.
Definition owned_binding (b : binding_at) : RuntimeBinding :=
  let '(kind, role, g, row) := b in
  mkBinding kind (Schema.b_namespace row) (Schema.b_name row) (Schema.b_uid row) (b_resource_version row) role g.

Section Source.
Context `{U : UuidLib} `{Q : QuantityLib} (sha256_hex : string -> string).
Context (parse_selection : string -> result (option ImageSelection)) (legacy_plan : SpecRow -> jsonb LegacyPlan).

Record RuntimeSource := mkSource {
  src_namespace : string; src_cluster : string; src_namespace_uid : string;
  src_verifier : option (string -> TenantNamespace -> M World unit) }.

Definition namespaceIdentity (src : RuntimeSource) (tenantID serviceID : string) : M World TenantNamespace :=
  _ ← check (negb (bool_decide (src_namespace src = ""))) (errorf "runtime source is not configured");
  tenant ← lift (tenantUUID tenantID);
  service ← lift (workUUID "service_id" serviceID);
  placement ← optional (GetNamespacePlacement (tenant, service));
  match placement with
  | None => mret (mkTenantNamespace (src_namespace src) (src_namespace_uid src))
  | Some (name, uid) =>
      match src_verifier src with
      | None => throw (errorf "tenant namespace verifier is required for pinned placement")
      | Some verify =>
          r ← try (verify tenantID (mkTenantNamespace name uid));
          _ ← lift (wrap "verify runtime placement" r);
          mret (mkTenantNamespace name uid)
      end
  end.
Definition NamespaceForService (src : RuntimeSource) (tenantID serviceID : string) : M World string :=
  ns ← namespaceIdentity src tenantID serviceID; mret (tn_name ns).

(** The specification of the generation; a deleted service has none of its own. *)
Definition desired_spec (k : key) (state : string) (generation : Z) : M World (Z * SpecRow) :=
  exact ← optional (GetSpec k generation);
  match exact with
  | Some row => mret row
  | None =>
      _ ← check (bool_decide (state = "deleted")) (errorf ("inference spec generation " +:+ format_int generation +:+ " not found"));
      latest ← optional (GetLatestSpec k generation);
      match latest with
      | Some row => mret row
      | None => throw (errorf ("inference spec generation <= " +:+ format_int generation +:+ " not found"))
      end
  end.
Definition accepted_selection (src : RuntimeSource) (ns : TenantNamespace) (b : SpecBody) : result (option ImageSelection) :=
  selection ← (match sp_spec_json b !! "image_selection" with
               | None => Ok None
               | Some raw => wrap "decode accepted image selection" (parse_selection raw)
               end);
  _ ← checkr (negb (bool_decide (is_Some selection) && (bool_decide (src_cluster src = "") || bool_decide (tn_uid ns = ""))))
        (errorf "runtime source cluster identity and namespace UID are required for catalog images");
  Ok selection.
Definition decoded_resources (b : SpecBody) : result Resources.Spec :=
  match sp_resources b with
  | JBad => Err (errorf_before "decode resources" (errorf "cannot decode"))
  | JVal spec =>
      match Resources.GPU spec, sp_gpu_request b with
      | None, Some JBad => Err (errorf_before "decode gpu request" (errorf "cannot decode"))
      | None, Some (JVal request) => Ok (Resources.mkSpec (Resources.Requests spec) (Resources.Limits spec) (Some request))
      | _, _ => Ok spec
      end
  end.
Definition persisted_plan (row : SpecRow) (request : option Gpu.Request) : result (option Gpu.Snapshot) :=
  match sp_gpu_plan (sp_body row) with
  | None => Ok None
  | Some raw =>
      plan ← wrap "decode gpu snapshot" (decodePersistedGPUSnapshot raw (legacy_plan row) request);
      _ ← checkr (match sp_gpu_plan_digest (sp_body row) with
                  | Some digest => bool_decide (Gpu.ExecutionDigest plan = digest) | None => true end)
            (errorf "GPU plan digest does not match persisted digest");
      _ ← checkr (bool_decide (is_Some request)) (errorf "GPU plan has no GPU request");
      plan ← Gpu.ValidateSnapshot (Some plan) request;
      Ok (Some plan)
  end.
Definition managed_plan (managed : bool) (plan : option Gpu.Snapshot) (request : option Gpu.Request) : result unit :=
  if managed && bool_decide (is_Some request)
  then _ ← wrap "invalid accepted Governance GPU snapshot" (Gpu.ValidateSnapshot plan request); Ok tt
  else Ok tt.
Definition desired_bindings (k : key) (generation : Z) : M World (list binding_at) :=
  bs ← exec (ListCurrentRuntimeBindings k generation);
  match bs with
  | [] => if 1 <? generation then exec (ListCurrentRuntimeBindings k (generation - 1)) else mret []
  | _ => mret bs
  end.

(** The desired specification without the model claim, which is named after it. *)
Definition runtime_spec (src : RuntimeSource) (tenantID serviceID name : string) (ns : TenantNamespace) (generation : Z) (b : SpecBody)
    (command : string) (normalized : Resources.Normalized) (request : option Gpu.Request) (plan : option Gpu.Snapshot) (managed : bool)
    (selection : option ImageSelection) : RuntimeSpec :=
  mkRuntimeSpec (src_cluster src) (tn_uid ns) tenantID serviceID name (tn_name ns) (sp_image_ref b) (uuid_string (sp_model_version_id b))
    (sp_artifact_provider b) (sp_artifact_ref b) (sp_artifact_sha256 b) (sp_served_model_name b) (sp_engine_runtime b)
    (defaulted (sp_runtime_provider b) "deployment") "" generation command normalized (sp_replicas b)
    (positive_workers (sp_worker_replicas b)) (defaulted (sp_runtime_mode b) "deployment") 0 0 (FromInt 0) "" (runtime_endpoint b) ""
    plan managed (managed && bool_decide (is_Some request)) selection.
Definition with_claim (spec : RuntimeSpec) : RuntimeSpec :=
  if bool_decide (r_artifact_provider spec = "model") then spec <| r_model_claim := ModelClaimName sha256_hex spec |> else spec.

Definition CurrentRuntime (src : RuntimeSource) (tenantID serviceID : string) (generation : Z) : M World DesiredRuntime :=
  _ ← check (negb (bool_decide (src_namespace src = ""))) (errorf "runtime source namespace is required");
  _ ← check (negb (generation <? 1)) (errorf "runtime source generation must be positive");
  tenant ← lift (tenantUUID tenantID);
  service ← lift (workUUID "service_id" serviceID);
  let k := (tenant, service) in
  ns ← namespaceIdentity src tenantID serviceID;
  '(managed, _) ← exec (GetManagedGPUState k);
  found ← optional (GetService k);
  '(_, aggregate) ← lift (match found with
    | Some s => Ok s
    | None => Err (errorf ("inference service " +:+ tenantID +:+ "/" +:+ serviceID +:+ " not found")) end);
  _ ← check (s_desired_generation aggregate =? generation)
        (errorf ("desired generation " +:+ format_int (s_desired_generation aggregate) +:+ " does not match requested " +:+ format_int generation));
  '(_, row) ← desired_spec k (s_desired_state aggregate) generation;
  let b := sp_body row in
  selection ← lift (accepted_selection src ns b);
  command ← lift (Engine.unmarshalEngineSpec (Engine.Doc (sp_command_argv b)));
  spec ← lift (decoded_resources b);
  normalized ← lift (Resources.Normalize spec);
  plan ← lift (persisted_plan row (Resources.GPU spec));
  _ ← lift (managed_plan managed plan (Resources.GPU spec));
  bs ← desired_bindings k generation;
  rt ← optional (GetRuntime k);
  reservation ← optional (GetActiveQuotaReservation k generation);
  publication ← optional (GetLatestPublication k generation);
  let s := runtime_spec src tenantID serviceID (s_name aggregate) ns generation b command normalized (Resources.GPU spec) plan managed selection in
  mret (mkDesiredRuntime (with_claim s)
    (s_desired_state aggregate) (match rt with Some r => normalizeRuntimePhase (r_runtime_phase r) | None => "pending" end)
    (from_option r_model_ready false rt) (from_option r_model_ready_known false rt)
    (match reservation with Some (_, q) => bool_decide (q_state q = "confirmed") | None => false end)
    (match publication with
     | Some (_, p) => bool_decide (p_observed_phase p = "withdrawn") && bool_decide (p_desired_phase p = "withdrawn") | None => true end)
    (match publication with
     | Some (g, p) => (g =? generation) && bool_decide (p_observed_phase p = "published") && bool_decide (p_desired_phase p = "published")
     | None => false end)
    (owned_binding <$> bs)).

(** ** What an apply records: [UpsertRuntimeBinding] *)
Definition binding_params (rec : BindingRecord) : BindingParams :=
  mkBindingParams (br_generation rec) (br_kind rec) (br_namespace rec) (br_name rec) (br_uid rec) (br_rv rec) (br_role rec)
    (br_expected_uid rec) (br_expected_rv rec).
Definition UpsertRuntimeBinding (rec : BindingRecord) : M World unit :=
  Repository_UpsertRuntimeBindingCAS (br_tenant rec) (br_service rec) (binding_params rec).

(** ** What the source reads *)
Lemma elem_of_bindings_upto db k g x : x ∈ bindings_upto db k g <->
  x.1.2 <= g ∧ bindings db !! bkey k x.1.2 x.1.1.1 x.1.1.2 = Some x.2.
Proof.
  destruct k as [t s], x as [[[kind role] gx] row]. unfold bindings_upto, bkey. cbn. rewrite list_elem_of_omap. split.
  - intros ([[[[[t' s'] g'] kind'] role'] row'] & Hin%elem_of_map_to_list & H). destruct (_ && _) eqn:B; [|done].
    apply andb_true_iff in B as [B1%bool_decide_eq_true B2]. injection H as <- <- <- <-. injection B1 as -> ->. split; [lia|done].
  - intros [Hg Hr]. exists ((t, s, gx, kind, role), row). split; [by apply elem_of_map_to_list|].
    rewrite bool_decide_true by done. by destruct (Z.leb_spec gx g); [|lia].
Qed.
(** The rows a generation acts on: for every kind and role the latest one. *)
Definition current_binding (db : DB) (k : key) (g : Z) (x : binding_at) : Prop :=
  x.1.2 <= g ∧ bindings db !! bkey k x.1.2 x.1.1.1 x.1.1.2 = Some x.2 ∧
  ∀ g', x.1.2 < g' <= g -> bindings db !! bkey k g' x.1.1.1 x.1.1.2 = None.
Lemma listed_bindings k g now db l db' : ListCurrentRuntimeBindings k g now db = Ok (l, db') ->
  db' = db ∧ ∀ x, x ∈ l <-> current_binding db k g x.
Proof.
  intros [= <- <-]. split; [done|]. intros x. rewrite merge_sort_Permutation, list_elem_of_filter, elem_of_bindings_upto.
  unfold latest_of, current_binding. rewrite Forall_forall. split.
  - intros (Hl & Hg & Hr). split_and!; [done..|]. intros g' Hg'. apply eq_None_not_Some. intros [row' Hr'].
    specialize (Hl (x.1.1, g', row')). rewrite elem_of_bindings_upto in Hl. cbn in Hl. destruct x as [[[??]?]?]. cbn in *.
    specialize (Hl (conj (proj2 Hg') Hr') eq_refl). lia.
  - intros (Hg & Hr & Hn). split_and!; [|done..]. intros [[[kind role] g'] row'] [Hg' Hr']%elem_of_bindings_upto. cbn in *. intros Ek.
    destruct x as [[[kind0 role0] gx] row]. cbn in *. injection Ek as -> ->.
    destruct (decide (gx < g')) as [Hlt|]; [|lia]. rewrite Hn in Hr' by lia. done.
Qed.
Lemma current_unique db k g x y : current_binding db k g x -> current_binding db k g y -> x.1.1 = y.1.1 -> x = y.
Proof.
  destruct x as [[[kind role] gx] row], y as [[[kind' role'] gy] row']. unfold current_binding. cbn.
  intros (H1 & H2 & H3) (H4 & H5 & H6) [= -> ->].
  assert (gx = gy) as ->.
  { destruct (Z.lt_trichotomy gx gy) as [Hl|[->|Hl]]; [|done|].
    - rewrite H3 in H5 by lia. done.
    - rewrite H6 in H2 by lia. done. }
  rewrite H2 in H5. by injection H5 as ->.
Qed.
Lemma desired_bindings_current k g w l w' : desired_bindings k g w = (Ok l, w') ->
  w_db w' = w_db w ∧ ∀ x, x ∈ l <-> current_binding (w_db w) k g x.
Proof.
  unfold desired_bindings. intros H. minv H. apply exec_ok in Hm as (now & _ & Hl & _). destruct (listed_bindings _ _ _ _ _ _ Hl) as [E1 E2].
  destruct a as [|x l0].
  2:{ injection H as <- <-. done. }
  destruct (1 <? g).
  2:{ injection H as <- <-. done. }
  apply exec_ok in H as (now' & _ & Hl' & _). destruct (listed_bindings _ _ _ _ _ _ Hl') as [E3 E4]. rewrite E1 in E3, E4.
  split; [done|]. intros x. rewrite E4. split; [|intros Hx; apply E2 in Hx; by apply elem_of_nil in Hx].
  intros (Hg & Hr & Hn). exfalso. assert (∃ y, current_binding (w_db w) k g y) as [y Hy].
  { destruct (bindings (w_db w) !! bkey k g x.1.1.1 x.1.1.2) as [row|] eqn:E.
    - exists (x.1.1, g, row). split_and!; cbn; [lia|done|]. intros; lia.
    - exists x. split_and!; [lia|done|]. intros g' Hg'. destruct (decide (g' = g)) as [->|]; [done|]. apply Hn. lia. }
  apply E2 in Hy. by apply elem_of_nil in Hy.
Qed.

(** The namespace of a service: the verified placement, or the fallback. *)
Definition placed_in (src : RuntimeSource) (tenantID : string) (k : key) (w w' : World) (ns : TenantNamespace) : Prop :=
  match placements (w_db w) !! k with
  | None => ns = mkTenantNamespace (src_namespace src) (src_namespace_uid src) ∧ w_db w' = w_db w
  | Some (name, uid) => ns = mkTenantNamespace name uid ∧
      ∃ verify u u', src_verifier src = Some verify ∧ w_db u = w_db w ∧ verify tenantID ns u = (Ok tt, u') ∧ w_db w' = w_db u'
  end.
Lemma wrap_ok {A} what (r : result A) a : wrap what r = Ok a -> r = Ok a.
Proof. by destruct r. Qed.
Lemma namespace_identity src tenantID serviceID w ns w' : namespaceIdentity src tenantID serviceID w = (Ok ns, w') ->
  ∃ tenant service, tenantUUID tenantID = Ok tenant ∧ workUUID "service_id" serviceID = Ok service ∧
    placed_in src tenantID (tenant, service) w w' ns.
Proof.
  unfold namespaceIdentity. intros H. minv H. injection Hm0 as Ht <-. injection Hm1 as Hs <-.
  exists a0, a1. split_and!; [done..|]. apply optional_ok in Hm2 as (Hd & _ & now & Hp). unfold placed_in. rewrite Hp.
  destruct a2 as [[name uid]|]; [|injection H as <- <-; split; [done|congruence]].
  destruct (src_verifier src) as [verify|] eqn:Ev; [|done]. minv H. injection Hm1 as Hw <-. apply wrap_ok in Hw as ->.
  injection H as <- <-. split; [done|]. exists verify, u2, u0. destruct a3. done.
Qed.

(** The specification in force: the generation's own, or for a deleted service
    the latest before it. *)
Definition spec_in_force (db : DB) (k : key) (g : Z) (state : string) (row : SpecRow) : Prop :=
  specs db !! (k.1, k.2, g) = Some row ∨
  specs db !! (k.1, k.2, g) = None ∧ state = "deleted" ∧ ∃ g', g' < g ∧ specs db !! (k.1, k.2, g') = Some row ∧
    ∀ g'', g' < g'' < g -> specs db !! (k.1, k.2, g'') = None.
Lemma latest_spec k g now db x db' : GetLatestSpec k g now db = Ok (x, db') ->
  x.1 <= g ∧ specs db !! (k.1, k.2, x.1) = Some x.2 ∧ ∀ g', x.1 < g' <= g -> specs db !! (k.1, k.2, g') = None.
Proof.
  unfold GetLatestSpec. intros [H _]%select_one_inv. destruct (order_by _ _) as [|y rest] eqn:E; [done|]. injection H as ->.
  apply order_by_head in E as [Hin Hmin].
  assert (∀ g' row, (g', row) ∈ omap (λ ks : uuid * uuid * Z * SpecRow, let '(t, s, g0, sp) := ks in
    if bool_decide ((t, s) = k) && (g0 <=? g) then Some (g0, sp) else None) (map_to_list (specs db)) <->
    g' <= g ∧ specs db !! (k.1, k.2, g') = Some row) as Hiff.
  { intros g' row. rewrite list_elem_of_omap. split.
    - intros ([[[t s] g0] sp] & Hr%elem_of_map_to_list & B). destruct (_ && _) eqn:B'; [|done]. injection B as -> ->.
      apply andb_true_iff in B' as [<-%bool_decide_eq_true B']. split; [lia|done].
    - intros [Hg Hr]. exists ((k.1, k.2, g'), row). split; [by apply elem_of_map_to_list|]. destruct k. cbn.
      rewrite bool_decide_true by done. by destruct (Z.leb_spec g' g); [|lia]. }
  destruct x as [gx row]. apply Hiff in Hin as [H1 H2]. cbn. split_and!; [done..|]. intros g' Hg'. apply eq_None_not_Some. intros [row' Hr].
  destruct (Hmin (g', row')) as [Hb|[= -> ->]]; [by apply Hiff; split; [lia|]| |lia].
  unfold by_key in Hb. cbn in Hb. destruct (Z.ltb_spec (- gx) (- g')); [lia|]. destruct (Z.eqb_spec (- gx) (- g')); [lia|done].
Qed.
Lemma desired_spec_in_force k state g w x w' : desired_spec k state g w = (Ok x, w') ->
  w_db w' = w_db w ∧ spec_in_force (w_db w) k g state x.2.
Proof.
  unfold desired_spec. intros H. minv H. apply optional_ok in Hm as (Hd & _ & now & Hs).
  destruct a as [y|].
  - injection H as <- <-. split; [done|]. left. destruct (specs _ !! _) eqn:E; [|done]. by injection Hs as <-.
  - minv H. apply bool_decide_eq_true in Hm. destruct (specs _ !! _) eqn:E in Hs; [done|]. destruct a0 as [y|]; [|done].
    injection H as <- <-. pose proof Hm0 as Hl. apply optional_ok in Hl as (Hd' & _ & _). apply optional_inv in Hm0 as (now' & Hl).
    apply latest_spec in Hl as (H1 & H2 & H3). rewrite Hd in H2, H3, Hd'. split; [done|]. right. split_and!; [done..|].
    exists y.1. destruct (decide (y.1 = g)) as [Eg|]; [rewrite Eg in H2; congruence|]. split_and!; [lia|done|]. intros g'' Hg. apply H3. lia.
Qed.
Lemma latest_publication_at db k g g' p : latest_publication db k g = Some (g', p) -> publications db !! (k.1, k.2, g') = Some p.
Proof.
  unfold latest_publication. destruct (order_by _ _) as [|x rest] eqn:E; [done|]. intros [= ->].
  apply order_by_head in E as [Hin _]. unfold publications_of in Hin.
  apply list_elem_of_omap in Hin as ([[[t s] g0] p0] & Hr%elem_of_map_to_list & B). destruct (_ && _) eqn:B'; [|done].
  injection B as -> ->. by apply andb_true_iff in B' as [<-%bool_decide_eq_true _].
Qed.

(** The desired runtime [d] of generation [g] of the service [k] in [db]. *)
Record desired_of (src : RuntimeSource) (db : DB) (k : key) (g : Z) (sv : ServiceRow) (row : SpecRow) (ns : TenantNamespace) (d : DesiredRuntime) : Prop := {
  do_service : services db !! k = Some sv;
  do_generation : s_desired_generation sv = g ∧ r_generation (dr_spec d) = g;
  do_state : dr_state d = s_desired_state sv ∧ r_name (dr_spec d) = s_name sv;
  do_spec : spec_in_force db k g (s_desired_state sv) row;
  do_image : r_image (dr_spec d) = sp_image_ref (sp_body row) ∧ r_replicas (dr_spec d) = sp_replicas (sp_body row) ∧
    r_mode (dr_spec d) = defaulted (sp_runtime_mode (sp_body row)) "deployment" ∧
    r_artifact_provider (dr_spec d) = sp_artifact_provider (sp_body row) ∧ r_endpoint (dr_spec d) = runtime_endpoint (sp_body row);
  do_selection : match sp_spec_json (sp_body row) !! "image_selection" with
    | None => r_selection (dr_spec d) = None | Some raw => parse_selection raw = Ok (r_selection (dr_spec d)) end;
  do_namespace : r_namespace (dr_spec d) = tn_name ns ∧ r_namespace_uid (dr_spec d) = tn_uid ns;
  do_bindings : ∀ b, b ∈ dr_bindings d <-> ∃ x, b = owned_binding x ∧ current_binding db k g x;
  do_published : dr_published d = true -> ∃ p, publications db !! (k.1, k.2, g) = Some p ∧
    p_observed_phase p = "published" ∧ p_desired_phase p = "published";
  do_withdrawn : dr_withdrawn d = true -> ∀ g' p, latest_publication db k g = Some (g', p) ->
    p_observed_phase p = "withdrawn" ∧ p_desired_phase p = "withdrawn";
  do_managed : r_managed (dr_spec d) = bool_decide (is_Some (managed db !! k));
  do_gpu : r_managed_gpu (dr_spec d) = true ∨ r_snapshot (dr_spec d) ≠ None ->
    ∃ snapshot request, r_snapshot (dr_spec d) = Some snapshot ∧ Resources.GPU (r_resources (dr_spec d)) = Some request ∧
      Gpu.ValidateSnapshot (Some snapshot) (Some request) = Ok snapshot;
  do_claim : r_model_claim (dr_spec d) = if bool_decide (r_artifact_provider (dr_spec d) = "model")
    then "ani-model-" +:+ str_take 24 (sha256_hex (r_tenant (dr_spec d) +:+ "/" +:+ r_service (dr_spec d) +:+ "/" +:+ format_int g)) else "";
  do_ports : r_container_port (dr_spec d) = 0;
  do_cluster : r_cluster (dr_spec d) = src_cluster src ∧ (r_selection (dr_spec d) ≠ None -> tn_uid ns ≠ "") }.
Lemma snapshot_ok s request v : Gpu.ValidateSnapshot s request = Ok v ->
  s ≠ None ∧ ∃ r, request = Some r ∧ Gpu.ValidateSnapshot (Some v) (Some r) = Ok v.
Proof.
  intros H. destruct s as [s|], request as [r|]; try done. split; [done|]. exists r. split; [done|].
  by apply Gpu.snapshot_validation_stable in H as [H _].
Qed.
Lemma plan_ok row request plan managed : persisted_plan row request = Ok plan -> managed_plan managed plan request = Ok tt ->
  managed && bool_decide (is_Some request) = true ∨ plan ≠ None ->
  ∃ s r, plan = Some s ∧ request = Some r ∧ Gpu.ValidateSnapshot (Some s) (Some r) = Ok s.
Proof.
  intros H1 H2 H. unfold persisted_plan in H1. destruct (sp_gpu_plan (sp_body row)) as [raw|].
  - minv H1. apply snapshot_ok in Hm2 as (_ & r & -> & Hv). injection H1 as <-. eauto.
  - injection H1 as <-. destruct H as [H|]; [|done]. unfold managed_plan in H2. rewrite H in H2. minv H2. apply wrap_ok in Hm.
    by apply snapshot_ok in Hm as [].
Qed.
(** Only the model claim depends on [with_claim]. *)
Lemma with_claim_eq spec : ∃ claim, with_claim spec = spec <| r_model_claim := claim |> ∧
  claim = if bool_decide (r_artifact_provider spec = "model") then ModelClaimName sha256_hex spec else r_model_claim spec.
Proof. unfold with_claim. case_bool_decide; eexists; split; try done. by destruct spec. Qed.
Lemma selection_ok src ns b sel : accepted_selection src ns b = Ok sel ->
  match sp_spec_json b !! "image_selection" with None => sel = None | Some raw => parse_selection raw = Ok sel end ∧
  (sel ≠ None -> tn_uid ns ≠ "").
Proof.
  unfold accepted_selection. intros H. minv H. injection H as <-. split; [destruct (_ !! _); [by apply wrap_ok in Hm|by injection Hm]|].
  intros Hne E. destruct a; [|done]. by rewrite E, orb_true_r in Hm0.
Qed.

(** A successful read of the desired runtime. *)
Lemma current_runtime_reads src tenantID serviceID g w d w' :
  CurrentRuntime src tenantID serviceID g w = (Ok d, w') ->
  ∃ tenant service ns sv row u, tenantUUID tenantID = Ok tenant ∧ workUUID "service_id" serviceID = Ok service ∧
    placed_in src tenantID (tenant, service) w u ns ∧ w_db w' = w_db u ∧
    r_tenant (dr_spec d) = tenantID ∧ r_service (dr_spec d) = serviceID ∧
    desired_of src (w_db w') (tenant, service) g sv row ns d.
Proof.
  unfold CurrentRuntime. intros H. minv H. injection Hm1 as Ht <-. injection Hm2 as Hs <-. rename a1 into tenant, a2 into service, a3 into ns.
  apply namespace_identity in Hm3 as (t' & s' & Ht' & Hs' & Hp). rewrite Ht in Ht'. rewrite Hs in Hs'. injection Ht' as <-. injection Hs' as <-.
  destruct a4 as [mg closing]. apply select_ok in Hm4 as (now & Emg & D1).
  apply bind_ok_inv in H as (found & v1 & F & H). apply optional_ok in F as (D2 & _ & now2 & F).
  apply bind_ok_inv in H as ([k' sv] & v2 & F' & H). injection F' as F' <-. destruct found as [y|]; [|done]. injection F' as ->.
  apply bind_ok_inv in H as ([] & v3 & Hg & H). minv_done Hg. apply Z.eqb_eq in Hg.
  apply bind_ok_inv in H as ([gs row] & v4 & Hsp & H). apply desired_spec_in_force in Hsp as [D3 Hsp].
  minv H. injection Hm1 as Hsel <-. injection Hm2 as Hcmd <-. injection Hm3 as Hres <-. injection Hm4 as Hnorm <-. injection Hm5 as Hplan <-.
  injection Hm6 as Hmp <-. apply desired_bindings_current in Hm7 as [D4 Hb]. apply optional_ok in Hm8 as (D5 & _). apply optional_ok in Hm9 as (D6 & _).
  apply optional_ok in Hm10 as (D7 & _ & now3 & Hpub). injection H as <- <-.
  rewrite D6, D5, D4, D3, D2, D1 in Hpub. rewrite D3, D2, D1 in Hb. rewrite D2, D1 in Hsp. rewrite D1 in F.
  assert (w_db u11 = w_db u2) as Ew by congruence. exists tenant, service, ns, sv, row, u2. rewrite Ew. clear D1 D2 D3 D4 D5 D6 D7.
  destruct (with_claim_eq (runtime_spec src tenantID serviceID (s_name sv) ns g (sp_body row) a2 a4 (Resources.GPU a3) a5 mg a1))
    as (claim & -> & Ec). cbn -[uuid_string] in Ec. split_and!; [done..|]. split; cbn -[uuid_string].
  - destruct (services _ !! _); [by injection F as _ ->|done].
  - done.
  - done.
  - done.
  - done.
  - by eapply selection_ok in Hsel as [].
  - done.
  - intros b. rewrite list_elem_of_fmap. setoid_rewrite Hb. done.
  - destruct a10 as [[g' p]|]; [|done]. rewrite !andb_true_iff, !bool_decide_eq_true. intros [[->%Z.eqb_eq ?] ?].
    exists p. split; [|done]. by eapply (latest_publication_at _ (tenant, service)).
  - intros Hw g' p Hl. rewrite Hl in Hpub. subst a10. by rewrite andb_true_iff, !bool_decide_eq_true in Hw.
  - destruct (managed _ !! _); by injection Emg as -> _.
  - destruct a6. apply Resources.Normalize_ok_iff in Hnorm as [-> _]. by apply (plan_ok row (Resources.GPU a3)).
  - done.
  - done.
  - split; [done|]. by eapply selection_ok in Hsel as [_ ?].
Qed.

(** ** Executors over this source *)
Section Wired.
Context `{K : KubeLib} (src : RuntimeSource) (e : RuntimeExecutor (St := World)) (Hsource : x_source e = Some (CurrentRuntime src)).

Lemma operation_runtime_reads op w spec w' : operationRuntime e op w = (Ok spec, w') ->
  ∃ d, CurrentRuntime src (Runner.TenantID op) (Runner.ServiceID op) (Runner.TargetGeneration op) w = (Ok d, w') ∧
    spec = operation_facts op (identify e d (Runner.TenantID op) (Runner.ServiceID op) (Runner.TargetGeneration op)).
Proof.
  unfold operationRuntime, with_client. rewrite Hsource. destruct (x_client e); [|done]. intros H. minv H.
  injection Hm1 as _ <-. injection H as <- <-. by exists a0.
Qed.

(** Claim C11. The executors act on the desired generation: an operation step works
    on what the database holds for its target generation, which is the desired
    generation of the service row, with the specification in force (its own, or for
    a deleted service the latest before it), in the verified placement of the service
    or else the configured namespace; its bindings are, for every kind and role,
    those of the latest generation; it counts as published only when both phases of
    exactly this generation are, or the operation recorded so, and as withdrawn only
    when the latest publication is, or the operation recorded so; and a GPU snapshot
    it carries, as every managed GPU service must, is valid for the GPU request. *)
Theorem operation_acts_on_desired op w spec w' : operationRuntime e op w = (Ok spec, w') ->
  ∃ tenant service ns sv row u d, tenantUUID (Runner.TenantID op) = Ok tenant ∧ workUUID "service_id" (Runner.ServiceID op) = Ok service ∧
    placed_in src (Runner.TenantID op) (tenant, service) w u ns ∧ w_db w' = w_db u ∧
    desired_of src (w_db w') (tenant, service) (Runner.TargetGeneration op) sv row ns d ∧
    dr_spec spec = (dr_spec d) <| r_account := x_account e |> ∧ dr_bindings spec = dr_bindings d ∧
    (dr_published spec = true -> dr_published d = true ∨
       Publication.State (Runner.Pub op) = "published" ∧ Publication.Generation (Runner.Pub op) = Runner.TargetGeneration op) ∧
    (dr_withdrawn spec = true -> dr_withdrawn d = true ∨ Publication.State (Runner.Pub op) = "withdrawn").
Proof.
  intros (d & Hd & ->)%operation_runtime_reads.
  apply current_runtime_reads in Hd as (tenant & service & ns & sv & row & u & Ht & Hs & Hp & Ew & Et & Es & Hof).
  exists tenant, service, ns, sv, row, u, d. split_and!; try done.
  - destruct (do_generation _ _ _ _ _ _ _ _ Hof) as [_ Eg]. unfold operation_facts, identify. cbn. rewrite <- Et at 1. rewrite <- Es at 1.
    rewrite <- Eg at 1. by destruct (dr_spec d).
  - cbn. rewrite orb_true_iff, andb_true_iff, bool_decide_eq_true, Z.eqb_eq. done.
  - cbn. by rewrite orb_true_iff, bool_decide_eq_true.
Qed.

(** Claim C38. A distributed runtime with a materialized model cannot be applied by
    the deployment provider: the source fills the endpoint and never the flat port
    fields, the only ones [LeaderWorkerSet] reads, and the model mount requires a
    port, so every apply of such a service fails, whatever its endpoint. *)
Theorem lws_model_never_applied op w spec u : operationRuntime e op w = (Ok spec, u) ->
  r_mode (dr_spec spec) = "leader_worker_set" -> r_artifact_provider (dr_spec spec) = "model" ->
  (∃ d, (CurrentRuntime src (Runner.TenantID op) (Runner.ServiceID op) (Runner.TargetGeneration op) w).1 = Ok d ∧ r_container_port (dr_spec d) = 0) ∧
  is_ok (ApplyRuntime sha256_hex e op w).1 = false.
Proof.
  intros Hop Hm Ha. unfold ApplyRuntime. rewrite (bind_run _ _ _ _ _ Hop).
  apply operation_runtime_reads in Hop as (d & Hd & Espec). pose proof Hd as Hread.
  apply current_runtime_reads in Hd as (tenant & service & ns & sv & row & u' & _ & _ & _ & _ & _ & _ & Hof).
  assert (r_container_port (dr_spec spec) = 0) as Hport by (rewrite Espec; cbn; apply Hof).
  split; [exists d; rewrite Hread; split; [done|apply Hof]|]. clear Hread.
  assert (r_model_claim (dr_spec spec) ≠ "") as Hclaim.
  { rewrite Espec. cbn. rewrite (do_claim _ _ _ _ _ _ _ _ Hof). rewrite Espec in Ha. cbn in Ha. rewrite bool_decide_true by done. done. }
  pose proof (lws_ignores_endpoint sha256_hex _ Hport Hclaim) as Hl. clear Espec Hof Ha.
  match goal with |- is_ok (?run).1 = false => destruct run as [[[]|] v] eqn:E; [|done] end. minv E. unfold applyFenced, with_client in Hm1. destruct (x_client e); [|done]. minv Hm1.
  injection Hm2 as Hr _. unfold render_runtime in Hr. rewrite Hm in Hr. cbn in Hr. by destruct (LeaderWorkerSet _ _).
Qed.
End Wired.

Lemma upsert_recorded k p now db db' : UpsertRuntimeBindingCAS k p now db = Ok (1, db') ->
  bindings db' !! bkey k (bp_generation p) (bp_kind p) (bp_role p) =
    Some (mkBindingRow (bp_namespace p) (bp_name p) (bp_uid p) (bp_resource_version p) now).
Proof.
  unfold UpsertRuntimeBindingCAS. destruct (negb _); [done|].
  destruct (bindings db !! _); [destruct (_ && _); [|done]|destruct (name_taken _ _ _ _ _ _ _); [done|case_bool_decide; [done|]]];
    intros [= <-]; apply lookup_insert_eq.
Qed.
Lemma head_filter_unique {A} (P : A -> Prop) `{!∀ x, Decision (P x)} l x :
  x ∈ l -> P x -> (∀ y, y ∈ l -> P y -> y = x) -> head (filter P l) = Some x.
Proof.
  intros Hx HP Hu. assert (x ∈ filter P l) as Hin by (by apply list_elem_of_filter).
  destruct (filter P l) as [|y r] eqn:E; [by apply elem_of_nil in Hin|]. cbn. f_equal. apply Hu.
  - eapply list_elem_of_filter. rewrite E. left.
  - eapply (list_elem_of_filter P l). rewrite E. left.
Qed.
Lemma verified_bindings src tenantID k w u ns :
  (∀ verify tenantID ns u r u', src_verifier src = Some verify -> verify tenantID ns u = (r, u') -> bindings (w_db u') = bindings (w_db u)) ->
  placed_in src tenantID k w u ns -> bindings (w_db u) = bindings (w_db w).
Proof.
  intros Hv. unfold placed_in. destruct (placements _ !! _) as [[name uid]|]; [|by intros [_ ->]].
  intros (_ & verify & v & v' & Hs & E1 & Hr & E2). rewrite E2, <- E1. by eapply Hv.
Qed.
(** Claim C12. The identity an apply records is the fence of the next one: after a
    binding has been recorded for the desired generation, the desired runtime read
    back has exactly that object as its binding of that kind and role, older
    generations notwithstanding. *)
Theorem recorded_binding_fences src rec w w1 d w2 :
  (∀ verify tenantID ns u r u', src_verifier src = Some verify -> verify tenantID ns u = (r, u') -> bindings (w_db u') = bindings (w_db u)) ->
  UpsertRuntimeBinding rec w = (Ok tt, w1) -> CurrentRuntime src (br_tenant rec) (br_service rec) (br_generation rec) w1 = (Ok d, w2) ->
  find_binding (br_role rec) (br_kind rec) d =
    Some (mkBinding (br_kind rec) (br_namespace rec) (br_name rec) (br_uid rec) (br_rv rec) (br_role rec) (br_generation rec)).
Proof.
  intros Hv Hu Hr. unfold UpsertRuntimeBinding, Repository_UpsertRuntimeBindingCAS in Hu. minv Hu.
  injection Hm as _ <-. injection Hm0 as Ht <-. injection Hm1 as Hs <-. apply Z.eqb_eq in Hu as ->. apply exec_ok in Hm2 as (now & _ & Hu & _).
  apply upsert_recorded in Hu. cbn in Hu.
  apply current_runtime_reads in Hr as (tenant & service & ns & sv & row & u & Ht' & Hs' & Hp & Ew & _ & _ & Hof).
  assert (tenant = a0 ∧ service = a1) as [-> ->].
  { unfold tenantUUID, workUUID, requireUUID in *. split; repeat case_match; congruence. }
  apply (verified_bindings _ _ _ _ _ _ Hv) in Hp. rewrite Ew in Hof. set (x := (br_kind rec, br_role rec, br_generation rec,
    mkBindingRow (br_namespace rec) (br_name rec) (br_uid rec) (br_rv rec) now) : binding_at).
  assert (current_binding (w_db u) (a0, a1) (br_generation rec) x) as Hx.
  { split_and!; cbn; [lia|by rewrite Hp|intros; lia]. }
  apply head_filter_unique; [|done|].
  - apply (do_bindings _ _ _ _ _ _ _ _ Hof). by exists x.
  - intros b (y & -> & Hy)%(do_bindings _ _ _ _ _ _ _ _ Hof) [E1 E2]. rewrite (current_unique _ _ _ _ _ Hy Hx); [done|].
    destruct y as [[[kind role] g] r]. cbn in *. by rewrite E1, E2.
Qed.

(** An accepted image is pulled where the service was placed: when the
    specification in force has the reference and the selection that the catalogue
    resolved for the tenant in the namespace of the service, and the source and the
    catalogue client name the same cluster, every desired runtime read from the
    database passes the image check of the renderer.  The selection is assumed to
    survive its JSON column, names of shared secrets to be DNS subdomains, and the
    configured platform to consist of label values. *)
Theorem accepted_image_renders `{K : KubeLib} {St} (json_selection : ImageSelection -> string) src (client : ImageClient St)
    id scope (s s' : St) ref sel p tenantID serviceID g w d w' ns tenant service row :
  (∀ selection, parse_selection (json_selection selection) = Ok (Some selection)) ->
  (∀ data, IsDNS1123Subdomain ("ani-pull-" +:+ str_take 32 (sha256_hex data)) = true) ->
  ic_platform client = Some p ->
  IsValidLabelValue (pl_os p) = true ∧ pl_os p ≠ "" ∧ IsValidLabelValue (pl_architecture p) = true ∧ pl_architecture p ≠ "" ->
  id ≠ "" -> src_cluster src = ic_cluster client ->
  tenantUUID tenantID = Ok tenant -> workUUID "service_id" serviceID = Ok service ->
  ResolveInNamespace sha256_hex (Some client) tenantID id scope (tn_name ns) s = (Ok (ref, sel), s') ->
  placements (w_db w) !! (tenant, service) = Some (tn_name ns, tn_uid ns) ->
  specs (w_db w') !! (tenant, service, g) = Some row -> sp_image_ref (sp_body row) = ref ->
  sp_spec_json (sp_body row) !! "image_selection" = Some (json_selection sel) ->
  CurrentRuntime src tenantID serviceID g w = (Ok d, w') ->
  r_selection (dr_spec d) = Some sel ∧ validateImageProjection sha256_hex (dr_spec d) = Ok tt.
Proof.
  intros Hj Hsub Hp Hpl Hid Hc Ht Hs Hres Hplace Hrow Href Hsel Hr.
  pose proof (current_runtime_reads _ _ _ _ _ _ _ Hr) as (tenant' & service' & ns' & sv & row' & u & Ht' & Hs' & Hp' & Ew & Et & Es & Hof).
  rewrite Ht in Ht'. injection Ht' as <-. rewrite Hs in Hs'. injection Hs' as <-.
  unfold placed_in in Hp'. rewrite Hplace in Hp'. destruct Hp' as [-> _].
  assert (row' = row) as ->.
  { destruct (do_spec _ _ _ _ _ _ _ _ Hof) as [H|[H _]]; cbn in H; congruence. }
  pose proof (do_selection _ _ _ _ _ _ _ _ Hof) as Hse. rewrite Hsel, Hj in Hse. injection Hse as Hse. split; [done|].
  destruct (do_namespace _ _ _ _ _ _ _ _ Hof) as [En Eu].
  eapply (accepted_image_projects sha256_hex client tenantID id scope (tn_name ns) s s' ref sel p); try done.
  - rewrite Eu. apply (proj2 (do_cluster _ _ _ _ _ _ _ _ Hof)). by rewrite <- Hse.
  - rewrite (proj1 (do_image _ _ _ _ _ _ _ _ Hof)). done.
  - by rewrite (proj1 (do_cluster _ _ _ _ _ _ _ _ Hof)).
Qed.
End Source.

(** ** Example: the third generation of a service in its tenant's namespace; the
    second was a KServe service too. *)
Module Example.
Import Server.Server.Example Intake.Intake.Example Render.Render.Example KServe.KServe.Example.
#[local] Existing Instance Resources.toy_lib.
#[local] Existing Instance Server.Server.Example.uuids.
#[local] Existing Instance Render.Render.Example.kube_lib.
(** A selection as one number in binary. *)
Definition selection_parts (s : ImageSelection) : string * string * string * string * string * string * string :=
  (IS_ImageID s, IS_Scope s, IS_OS s, IS_Architecture s, IS_Variant s, IS_RegistryAuthority s, IS_PullSecretRef s).
Definition json_selection (s : ImageSelection) : string := BinaryUuid.print_pos (encode (selection_parts s)).
Definition parse_selection (raw : string) : result (option ImageSelection) :=
  match p ← BinaryUuid.parse_pos raw; decode p with
  | Some (id, scope, os, arch, variant, registry, ref) => Ok (Some (mkImageSelection id scope os arch variant registry ref))
  | None => Err (errorf "invalid character")
  end.
Lemma selection_round_trip s : parse_selection (json_selection s) = Ok (Some s).
Proof. unfold parse_selection, json_selection. rewrite BinaryUuid.parse_print_pos. cbn -[encode decode]. rewrite decode_encode. by destruct s. Qed.
Definition id_of (s : string) : uuid := default 0%N (uuid_parse s).
Definition the_key : key := (id_of tenant, id_of resource).
Definition the_body (mode : string) : SpecBody :=
  mkSpecBody None 8%N "model" "s3://bucket/model" Gpu.sample_digest reference "chat" "vllm" (Engine.marshalEngineSpec "serve")
    (JVal (Resources.mkSpec {["cpu" := "1"]} {["memory" := "2"]} None)) 1 mode 1 "deployment"
    {["image_selection" := json_selection image_selection]} (Some (8000, 80, "8000", "TCP")) None None None.
Definition the_db (mode : string) : DB := empty_db
  <| services := {[ the_key := mkServiceRow "chat" "running" 3 2 None None 0 0 ]} |>
  <| specs := {[ (the_key.1, the_key.2, 3) := mkSpecRow 4%N (the_body mode) 0 ]} |>
  <| placements := {[ the_key := (namespace, "uid") ]} |>
  <| bindings := {[ bkey the_key 2 KServeInferenceServiceKind "runtime" := mkBindingRow namespace "chat" "u1" "1" 0 ]} |>.
Definition the_world (mode : string) : World := mkWorld (the_db mode) 20 [] [].
Definition source : RuntimeSource := mkSource "control" "cluster" "uid" (Some (fun _ _ => mret tt)).
Definition the_legacy (row : SpecRow) : jsonb LegacyPlan := JBad.
Definition read_runtime (w : World) : result DesiredRuntime * World := CurrentRuntime sha parse_selection the_legacy source tenant resource 3 w.
Definition the_client : Client (St := World) := mkClient
  (mkReader (fun _ _ name s => (Err (NotFound name), s)) (fun _ _ name s => (Err (NotFound name), s)) (fun _ name s => (Err (NotFound name), s))
     (fun _ name s => (Err (NotFound name), s)) (fun _ _ s => (Ok [], s)))
  (fun _ _ => mret tt) (fun _ _ _ _ _ _ => mret tt) (fun _ _ _ _ => mret tt).
Definition executor : RuntimeExecutor (St := World) :=
  mkExecutor (Some the_client) None None None (Some (CurrentRuntime sha parse_selection the_legacy source)) (Some UpsertRuntimeBinding) "" "runner" false.

Lemma operation_acts_on_desired_witness : ∃ spec, r_generation (dr_spec spec) = 3 ∧ r_namespace (dr_spec spec) = namespace ∧
  (operationRuntime executor the_operation (the_world "deployment")).1 = Ok spec.
Proof.
  assert (is_ok (operationRuntime executor the_operation (the_world "deployment")).1 = true) as H by (vm_compute; reflexivity).
  destruct (operationRuntime executor the_operation (the_world "deployment")) as [[spec|] w'] eqn:E; [|discriminate H]. exists spec.
  destruct (operation_acts_on_desired sha parse_selection the_legacy source executor eq_refl the_operation (the_world "deployment") spec w' E)
    as (t & s & ns & sv & row & u & d & Ht & Hs & Hp & _ & Hof & Es & _).
  rewrite Es. split; [exact (proj2 (do_generation _ _ _ _ _ _ _ _ _ _ Hof))|]. split; [|reflexivity].
  transitivity (tn_name ns); [exact (proj1 (do_namespace _ _ _ _ _ _ _ _ _ _ Hof))|].
  assert ((t, s) = the_key) as Ek by (vm_compute in Ht, Hs; injection Ht as <-; injection Hs as <-; vm_compute; reflexivity).
  unfold placed_in in Hp. rewrite Ek in Hp. assert (placements (w_db (the_world "deployment")) !! the_key = Some (namespace, "uid")) as Ep by (vm_compute; reflexivity).
  rewrite Ep in Hp. destruct Hp as [-> _]. reflexivity.
Defined.
Lemma lws_model_never_applied_witness : is_ok (ApplyRuntime sha executor the_operation (the_world "leader_worker_set")).1 = false ∧
  is_ok (read_runtime (the_world "leader_worker_set")).1 = true.
Proof.
  split; [|vm_compute; reflexivity].
  set (run := operationRuntime executor the_operation (the_world "leader_worker_set")).
  assert (match run.1 with Ok spec => bool_decide (r_mode (dr_spec spec) = "leader_worker_set") && bool_decide (r_artifact_provider (dr_spec spec) = "model")
          | Err _ => false end = true) as H by (vm_compute; reflexivity).
  destruct run as [[spec|] u] eqn:E; [|discriminate H]. apply andb_true_iff in H as [H1 H2].
  apply (proj2 (lws_model_never_applied sha parse_selection the_legacy source executor eq_refl the_operation (the_world "leader_worker_set") spec u E
    (bool_decide_eq_true_1 _ H1) (bool_decide_eq_true_1 _ H2))).
Defined.
(** The third generation is applied: KServe made a new object. *)
Definition the_record : BindingRecord :=
  mkBindingRecord tenant resource 3 KServeInferenceServiceKind namespace "chat" "u2" "5" "runtime" "u1" "1".
Lemma recorded_binding_fences_witness : ∃ w1 d w2, UpsertRuntimeBinding the_record (the_world "deployment") = (Ok tt, w1) ∧
  read_runtime w1 = (Ok d, w2) ∧
  find_binding "runtime" KServeInferenceServiceKind d = Some (mkBinding KServeInferenceServiceKind namespace "chat" "u2" "5" "runtime" 3).
Proof.
  assert (is_ok (UpsertRuntimeBinding the_record (the_world "deployment")).1 = true ∧
          is_ok (read_runtime (UpsertRuntimeBinding the_record (the_world "deployment")).2).1 = true) as [H1 H2] by (vm_compute; split; reflexivity).
  destruct (UpsertRuntimeBinding the_record (the_world "deployment")) as [[[]|] w1] eqn:E1; [|discriminate H1]. cbn [snd] in H2.
  destruct (read_runtime w1) as [[d|] w2] eqn:E2; [|discriminate H2]. exists w1, d, w2. split; [reflexivity|]. split; [exact E2|].
  apply (recorded_binding_fences sha parse_selection the_legacy source the_record (the_world "deployment") w1 d w2); [|exact E1|exact E2].
  intros verify t ns u r u' [= <-] [= _ <-]. reflexivity.
Defined.
Lemma image_resolved : ResolveInNamespace sha (Some catalogue) tenant image_id "platform" namespace ([], [], []) = (Ok (reference, image_selection), ([], [], [])).
Proof. vm_compute. reflexivity. Qed.
Lemma world_read : is_ok (read_runtime (the_world "deployment")).1 = true.
Proof. vm_compute. reflexivity. Qed.
Lemma world_kept w d w' : read_runtime w = (Ok d, w') -> w_db w' = w_db w.
Proof.
  intros (t & s & ns & sv & row & u & _ & _ & Hp & -> & _)%current_runtime_reads. unfold placed_in in Hp.
  destruct (placements _ !! _) as [[name uid]|]; [|by destruct Hp]. destruct Hp as (_ & verify & v & v' & [= <-] & <- & [= ->] & ->). done.
Qed.
Lemma world_rows : tenantUUID tenant = Ok the_key.1 ∧ workUUID "service_id" resource = Ok the_key.2 ∧
  placements (the_db "deployment") !! the_key = Some (namespace, "uid") ∧
  specs (the_db "deployment") !! (the_key.1, the_key.2, 3) = Some (mkSpecRow 4%N (the_body "deployment") 0) ∧
  sp_spec_json (the_body "deployment") !! "image_selection" = Some (json_selection image_selection).
Proof. vm_compute. repeat split. Qed.
Lemma accepted_image_renders_witness : ∃ d w', read_runtime (the_world "deployment") = (Ok d, w') ∧ validateImageProjection sha (dr_spec d) = Ok tt.
Proof.
  pose proof world_read as H1. destruct world_rows as (R1 & R2 & R3 & R4 & R5).
  destruct (read_runtime (the_world "deployment")) as [[d|] w'] eqn:E; [|discriminate H1]. exists d, w'. split; [reflexivity|].
  rewrite <- (world_kept _ _ _ E : w_db w' = the_db "deployment") in R4.
  refine (proj2 (accepted_image_renders sha parse_selection the_legacy json_selection source catalogue image_id "platform" ([], [], []) ([], [], [])
            reference image_selection amd64 tenant resource 3 (the_world "deployment") d w' (mkTenantNamespace namespace "uid") the_key.1 the_key.2
            (mkSpecRow 4%N (the_body "deployment") 0) selection_round_trip (fun _ => eq_refl) eq_refl _ _ eq_refl R1 R2 image_resolved R3 R4 eq_refl R5 E)).
  - vm_compute. repeat split; discriminate.
  - discriminate.
Defined.
End Example.
End RuntimeSource.
