(* ===== verification/Publisher.v ===== *)
(** * Publication through the gateway

    internal/data/kubernetes/http_route_publisher.go and higress_rate_limit.go: the
    route of a generation, the grant that lets it refer to a Service of another
    namespace, and the per-model limits of the shared gateway plugin, which every
    publication edits under an optimistic lock.  The cluster is a record of
    computations over an arbitrary state; the JSON text of the ownership annotation
    and URLs are parameters; [visit] is the order in which Go visits a map. *)

From S2P Require Import Prelude GoStrings Operation Gpu Resources Engine Canonical Work Schema Contract WorkStore Reconcile Runner ReconcileStore OperationStore Commands Managed Update Server Intake Render Executor KServe.
From Stdlib Require Import Ascii.
Local Open Scope Z_scope.

Module Publisher.
Import Render.Render Executor.Executor KServe.KServe.
Import Runner.Publication.

Definition managedByLabel : string := "ani.kubercloud.com/managed-by".
Definition routeRoleLabel : string := "ani.kubercloud.com/route-role".
Definition managedByInference : string := "ani-inference".
Definition bootstrapRouteRole : string := "bootstrap".
Definition KServePredictorServicePort : Z := 80.
Definition higressRateLimitQPS : Z := 10.
Definition higressRateLimitOwnersAnnotation : string := "ani.liangzai006.io/rate-limit-owners".
Definition higressRateLimitMaxUpdateRetries : nat := 5.

(** ** Objects of the gateway API *)
Record RouteMatch := mkMatch { mt_path : string; mt_headers : list (string * string) }.
Record Backend := mkBackend { bk_name : string; bk_namespace : option string; bk_port : Z }.
(** [ru_remove] is the request header filter. *)
Record Rule := mkRule { ru_matches : list RouteMatch; ru_remove : list string; ru_backends : list Backend }.
Record ParentRef := mkParentRef { pf_name : string; pf_namespace : option string; pf_section : option string }.
Record ParentStatus := mkParentStatus { pt_ref : ParentRef; pt_conditions : list (string * string) }.
(** As read, and as sent. *)
Record Route := mkRoute { rt_meta : ObjectMeta; rt_rules : list Rule; rt_parents : list ParentStatus }.
Record RouteManifest := mkRouteManifest { rm_meta : Meta; rm_parents : list ParentRef; rm_rules : list Rule }.
Record GrantSpec := mkGrantSpec { gs_from : list (string * string * string); gs_to : list (string * string * option string) }.
#[global] Instance GrantSpec_eq_dec : EqDecision GrantSpec.
Proof. solve_decision. Defined.
Record Grant := mkGrant { gr_meta : ObjectMeta; gr_spec : GrantSpec }.
Record GrantManifest := mkGrantManifest { gm_meta : Meta; gm_spec : GrantSpec }.

(** A value under query_per_second, and an element of limit_keys. *)
Inductive Number := NInt (z : Z) | NFloat (truncated : Z) (integral : bool) | NText (parsed : option Z) | NOther.
Inductive Entry := EObject (key : option string) (qps : Number) | EOther.
Definition int64Value (n : Number) : option Z :=
  match n with
  | NInt z => Some z
  | NFloat z integral => if integral then Some z else None
  | NText z => z
  | NOther => None
  end.
(** The shared plugin: limit_keys is [None] where the key is absent and an [Err]
    where the tree has something else. *)
Record Plugin := mkPlugin { wp_annotations : gmap string string; wp_keys : result (option (list Entry)) }.

(** ** Strings *)
Fixpoint trim_slashes_rev (s : string) : string :=
  match s with String "/"%char rest => trim_slashes_rev rest | _ => s end.
(** [strings.TrimRight(s, "/")]. *)
Definition trim_slashes (s : string) : string := str_rev (trim_slashes_rev (str_rev s)).
(** [strings.Cut(s, "/")]. *)
Fixpoint cut_slash (s : string) : option (string * string) :=
  match s with
  | EmptyString => None
  | String "/"%char rest => Some (EmptyString, rest)
  | String c rest => '(a, b) ← cut_slash rest; Some (String c a, b)
  end.
Fixpoint uniqueStrings (seen values : list string) : list string :=
  match values with
  | [] => []
  | v :: rest => if bool_decide (v ∈ seen) then uniqueStrings seen rest else v :: uniqueStrings (v :: seen) rest
  end.
Definition removeString (values : list string) (unwanted : string) : list string :=
  uniqueStrings [] (filter (fun v => v ≠ unwanted) values).
Definition sorted (refs : list string) : list string := merge_sort String.le refs.

Lemma elem_of_unique seen l x : x ∈ uniqueStrings seen l <-> x ∈ l ∧ x ∉ seen.
Proof.
  revert seen. induction l as [|v l IH]; intros seen; cbn; [rewrite elem_of_nil; naive_solver|].
  case_bool_decide as Hv; [rewrite IH; set_solver|]. rewrite elem_of_cons, IH. destruct (decide (x = v)); set_solver.
Qed.
Lemma elem_of_sorted l x : x ∈ sorted l <-> x ∈ l.
Proof. unfold sorted. by rewrite merge_sort_Permutation. Qed.
Lemma elem_of_removed l x y : x ∈ removeString l y <-> x ∈ l ∧ x ≠ y.
Proof. unfold removeString. rewrite elem_of_unique, list_elem_of_filter. set_solver. Qed.
(** What storing and reading owners does to one list. *)
Definition stored (refs : list string) : list string := sorted (uniqueStrings [] (sorted refs)).
Lemma elem_of_stored l x : x ∈ stored l <-> x ∈ l.
Proof. unfold stored. rewrite elem_of_sorted, elem_of_unique, elem_of_sorted. set_solver. Qed.
Lemma stored_nil l : stored l = [] <-> l = [].
Proof.
  split; [|by intros ->]. intros H. destruct l as [|x l]; [done|]. assert (x ∈ stored (x :: l)) as Hx by (apply elem_of_stored; left).
  rewrite H in Hx. by apply elem_of_nil in Hx.
Qed.
Lemma removed_nil refs owner o : removeString refs owner = [] -> o ∈ refs -> o = owner.
Proof.
  intros H Ho. destruct (decide (o = owner)) as [|Hne]; [done|]. assert (o ∈ removeString refs owner) as Hr by (by apply elem_of_removed).
  rewrite H in Hr. by apply elem_of_nil in Hr.
Qed.
Lemma size_delete_some (keys : gmap string Z) model : (1 < size keys)%nat -> delete model keys ≠ ∅.
Proof.
  intros Hs He%map_size_empty_iff. destruct (keys !! model) as [z|] eqn:E.
  - rewrite map_size_delete_Some in He by (by eexists). lia.
  - rewrite map_size_delete_None in He by done. lia.
Qed.

Section Publisher.
Context {St : Type} (sha256_hex : string -> string).
Context (owners_json : gmap string (list string) -> string) (parse_owners : string -> result (gmap string (list string))).
Context (visit : gmap string (list string) -> list (string * list string)).

(** net/url: scheme, host and path of a URL, and the URL of the three. *)
Context (parse_url : string -> option (string * string * string)) (url_string : string -> string -> string -> string).

Record GatewayReader := mkGatewayReader {
  gr_route : string -> string -> M St Route; gr_routes : string -> M St (list Route);
  gr_grant : string -> string -> M St Grant; gr_plugin : string -> string -> M St Plugin }.
Record GatewayClient := mkGatewayClient {
  gc_reader : GatewayReader;
  gc_apply : string -> RouteManifest -> M St unit;                       (* field owner *)
  gc_create : GrantManifest -> M St unit;
  gc_delete_route : string -> string -> string -> string -> M St unit;   (* namespace, name, UID, resource version *)
  gc_delete_grant : string -> string -> string -> string -> M St unit;
  gc_patch_plugin : Plugin -> Plugin -> M St unit }.                     (* base and target, under the lock *)
Record HTTPRoutePublisher := mkPublisher {
  hp_client : option GatewayClient; hp_api_reader : option GatewayReader;
  hp_source : option (string -> string -> Z -> M St DesiredRuntime);
  hp_namespace_for : option (string -> string -> M St string);
  hp_provider : string; hp_gateway_namespace : string; hp_gateway : string; hp_route_namespace : string; hp_base_url : string;
  hp_path_prefix : string; hp_route_prefix : string; hp_field_manager : string; hp_limit_namespace : string; hp_limit_plugin : string }.

Definition gateway_reader (p : HTTPRoutePublisher) (c : GatewayClient) : GatewayReader := default (gc_reader c) (hp_api_reader p).
Definition validate (p : HTTPRoutePublisher) (pub : Publication) : M St GatewayClient :=
  match hp_client p with
  | None => throw (errorf "publication Kubernetes client is nil")
  | Some c =>
      _ ← check (negb (bool_decide (TenantID pub = "") || bool_decide (ServiceID pub = "") || (Generation pub <? 1)))
            (errorf "publication tenant, service and positive generation are required");
      _ ← check (negb (bool_decide (hp_gateway p = "") || bool_decide (hp_gateway_namespace p = "")))
            (errorf "publication Gateway namespace and name are required");
      _ ← check (negb (blank (hp_base_url p))) (errorf "publication public base URL is required");
      mret c
  end.
Definition routeNamespace (p : HTTPRoutePublisher) (runtime : string) : string :=
  if bool_decide (hp_route_namespace p = "") then runtime else hp_route_namespace p.
Definition routeName (pub : Publication) : string :=
  "ani-pub-" +:+ str_take 20 (sha256_hex (TenantID pub +:+ "|" +:+ ServiceID pub +:+ "|" +:+ format_int (Generation pub))).
Definition samePublication (m : ObjectMeta) (pub : Publication) : bool :=
  bool_decide (label (o_labels m) tenantIDLabel = TenantID pub) && bool_decide (label (o_labels m) serviceIDLabel = ServiceID pub) &&
  bool_decide (label (o_labels m) generationLabel = format_int (Generation pub)).
Definition sameBootstrapRoute (m : ObjectMeta) : bool :=
  bool_decide (label (o_labels m) managedByLabel = managedByInference) && bool_decide (label (o_labels m) routeRoleLabel = bootstrapRouteRole).
Definition publicationLabels (pub : Publication) : gmap string string :=
  <[tenantIDLabel := TenantID pub]> (<[serviceIDLabel := ServiceID pub]>
    (<[generationLabel := format_int (Generation pub)]> {[managedByLabel := managedByInference]})).
Definition pathPrefix (p : HTTPRoutePublisher) : string :=
  let path := trim_space (hp_path_prefix p) in
  let path := if bool_decide (path = "") then "/v1/completions" else path in
  let path := if has_prefix path "/" then path else "/" +:+ path in
  if (1 <? String.length path)%nat then trim_slashes path else path.
Definition routePrefix (p : HTTPRoutePublisher) : string :=
  let path := trim_space (hp_route_prefix p) in
  let path := if bool_decide (path = "") then "/v1/" else path in
  let path := if has_prefix path "/" then path else "/" +:+ path in
  if bool_decide (path = "/v1") then path +:+ "/" else path.
Definition gateway_parent (p : HTTPRoutePublisher) : ParentRef := mkParentRef (hp_gateway p) (Some (hp_gateway_namespace p)) (Some "http").
Definition route (p : HTTPRoutePublisher) (pub : Publication) (namespace : string) (backend : Backend) (model : string) : RouteManifest :=
  mkRouteManifest (mkMeta (routeName pub) namespace (publicationLabels pub) ∅) [gateway_parent p]
    [mkRule [mkMatch (routePrefix p) [("x-higress-llm-model", model)]] ["x-api-key"] [backend]].

(** ** The shared limits *)
Definition routeOwnerID (namespace name : string) : string := trim_space namespace +:+ "/" +:+ trim_space name.
Definition entry_key (e : Entry) : option string := match e with EObject key _ => key | EOther => None end.
Definition read_entry (i : Z) (e : Entry) : result (string * Z) :=
  match e with
  | EOther => Err (errorf ("Higress rate-limit key " +:+ format_int i +:+ " is not an object"))
  | EObject key qps =>
      match key with
      | None => Err (errorf ("Higress rate-limit key " +:+ format_int i +:+ " has no key"))
      | Some key =>
          if blank key then Err (errorf ("Higress rate-limit key " +:+ format_int i +:+ " has no key")) else
          match int64Value qps with
          | Some z => if z <? 1 then Err (errorf ("Higress rate-limit key " +:+ quoted key +:+ " has invalid query_per_second")) else Ok (key, z)
          | None => Err (errorf ("Higress rate-limit key " +:+ quoted key +:+ " has invalid query_per_second"))
          end
      end
  end.
Fixpoint read_entries (i : Z) (keys : gmap string Z) (entries : list Entry) : result (gmap string Z) :=
  match entries with
  | [] => Ok keys
  | e :: rest => '(key, qps) ← read_entry i e; read_entries (i + 1) (<[key := qps]> keys) rest
  end.
Definition rateLimitEntries (plugin : Plugin) : result (list Entry * gmap string Z) :=
  match wp_keys plugin with
  | Err e => Err (errorf_before "read Higress rate-limit keys" e)
  | Ok None => Ok ([], ∅)
  | Ok (Some entries) => keys ← read_entries 0 ∅ entries; Ok (entries, keys)
  end.
Definition setRateLimitEntries (plugin : Plugin) (entries : list Entry) : Plugin := mkPlugin (wp_annotations plugin) (Ok (Some entries)).
Definition owners_error (e : string * list string) : option goerr :=
  if blank e.1 then Some (errorf "Higress rate-limit ownership contains an empty model")
  else if existsb blank e.2 then Some (errorf ("Higress rate-limit ownership for " +:+ quoted e.1 +:+ " contains an empty owner"))
  else None.
Definition rateLimitOwners (plugin : Plugin) : result (gmap string (list string)) :=
  let value := default "" (wp_annotations plugin !! higressRateLimitOwnersAnnotation) in
  if blank value then Ok ∅ else
  match parse_owners value with
  | Err e => Err (errorf_before "decode Higress rate-limit ownership annotation" e)
  | Ok owners =>
      match head (omap owners_error (visit owners)) with Some e => Err e | None => Ok (sorted <$> owners) end
  end.
Definition setRateLimitOwners (plugin : Plugin) (owners : gmap string (list string)) : Plugin :=
  mkPlugin (if bool_decide (owners = ∅) then delete higressRateLimitOwnersAnnotation (wp_annotations plugin)
            else <[higressRateLimitOwnersAnnotation := owners_json ((fun refs => uniqueStrings [] (sorted refs)) <$> owners)]> (wp_annotations plugin))
    (wp_keys plugin).
Definition removeRateLimitEntry (entries : list Entry) (model : string) : list Entry := filter (fun e => entry_key e ≠ Some model) entries.

Definition rateLimitNamespace (p : HTTPRoutePublisher) : string :=
  if negb (blank (hp_limit_namespace p)) then trim_space (hp_limit_namespace p)
  else if negb (blank (hp_gateway_namespace p)) then trim_space (hp_gateway_namespace p) else "higress-system".
Definition rateLimitPluginName (p : HTTPRoutePublisher) : string :=
  if negb (blank (hp_limit_plugin p)) then trim_space (hp_limit_plugin p) else "ani-request-rate-limit".
Definition getRateLimitPlugin (p : HTTPRoutePublisher) (c : GatewayClient) : M St Plugin :=
  r ← try (gr_plugin (gateway_reader p c) (rateLimitNamespace p) (rateLimitPluginName p));
  let key := rateLimitNamespace p +:+ "/" +:+ rateLimitPluginName p in
  match r with
  | Ok plugin => mret plugin
  | Err e => throw (errorf_before (if IsNotFound e then "Higress rate-limit WasmPlugin " +:+ key +:+ " not found"
                                   else "read Higress rate-limit WasmPlugin " +:+ key) e)
  end.

(** The plugin with the owner recorded; [None] when nothing changes. *)
Definition limited (model owner : string) (plugin : Plugin) : result (option Plugin) :=
  '(entries, keys) ← rateLimitEntries plugin;
  owners ← rateLimitOwners plugin;
  if bool_decide (keys !! model = None) then
    Ok (Some (setRateLimitOwners (setRateLimitEntries plugin (entries ++ [EObject (Some model) (NInt higressRateLimitQPS)]))
                (<[model := default [] (owners !! model) ++ [owner]]> owners)))
  else match owners !! model with
  | Some refs => if bool_decide (owner ∈ refs) then Ok None
                 else Ok (Some (setRateLimitOwners (setRateLimitEntries plugin entries) (<[model := refs ++ [owner]]> owners)))
  | None => Ok None
  end.
Fixpoint ensure_loop (p : HTTPRoutePublisher) (c : GatewayClient) (model owner : string) (attempts : nat) : M St unit :=
  match attempts with
  | O => throw (errorf "update Higress rate-limit plugin conflicted after 5 retries")
  | S attempts =>
      plugin ← getRateLimitPlugin p c;
      target ← lift (limited model owner plugin);
      match target with
      | None => mret tt
      | Some target =>
          r ← try (gc_patch_plugin c plugin target);
          match r with
          | Ok _ => mret tt
          | Err e => if IsConflict e then ensure_loop p c model owner attempts
                     else throw (errorf_before "update Higress rate-limit plugin" e)
          end
      end
  end.
Definition ensureRateLimit (p : HTTPRoutePublisher) (c : GatewayClient) (model owner : string) : M St unit :=
  let model := trim_space model in let owner := trim_space owner in
  _ ← check (negb (bool_decide (model = "") || bool_decide (owner = ""))) (errorf "Higress rate-limit model and owner are required");
  ensure_loop p c model owner higressRateLimitMaxUpdateRetries.

Definition routeSelectsModel (r : Route) (model : string) : bool :=
  existsb (fun rule => existsb (fun m => existsb (fun h => bool_decide (h = ("x-higress-llm-model", model))) (mt_headers m)) (ru_matches rule)) (rt_rules r).
Definition hasModelRoute (p : HTTPRoutePublisher) (c : GatewayClient) (model owner : string) : M St bool :=
  match cut_slash owner with
  | None => throw (errorf ("invalid rate-limit owner " +:+ quoted owner))
  | Some (namespace, name) =>
      _ ← check (negb (bool_decide (namespace = "") || bool_decide (name = ""))) (errorf ("invalid rate-limit owner " +:+ quoted owner));
      r ← try (gr_routes (gateway_reader p c) namespace);
      routes ← lift (match r with Ok routes => Ok routes | Err e => Err (errorf_before ("list HTTPRoutes while cleaning model " +:+ quoted model) e) end);
      mret (existsb (fun r => negb (bool_decide (o_name (rt_meta r) = name) || o_deleting (rt_meta r)) && routeSelectsModel r model) routes)
  end.
(** The first model, in the order of the map, that the owner holds. *)
Definition owned_model (owners : gmap string (list string)) (owner : string) : option (string * list string) :=
  head (filter (fun e => owner ∈ e.2) (visit owners)).
(** The plugin when [model] loses its last owner. *)
Definition unlimited (model : string) (keep : bool) (plugin : Plugin) : result Plugin :=
  if keep then Ok plugin else
  '(entries, keys) ← rateLimitEntries plugin;
  Ok (if bool_decide (1 < size keys)%nat then setRateLimitEntries plugin (removeRateLimitEntry entries model) else plugin).
Definition disown (p : HTTPRoutePublisher) (c : GatewayClient) (owner : string) (plugin : Plugin) : M St (option Plugin) :=
  owners ← lift (rateLimitOwners plugin);
  match owned_model owners owner with
  | None => mret None
  | Some (model, refs) =>
      match removeString refs owner with
      | [] => keep ← hasModelRoute p c model owner;
              target ← lift (unlimited model keep plugin);
              mret (Some (setRateLimitOwners target (delete model owners)))
      | refs => mret (Some (setRateLimitOwners plugin (<[model := refs]> owners)))
      end
  end.
Fixpoint cleanup_loop (p : HTTPRoutePublisher) (c : GatewayClient) (owner : string) (attempts : nat) : M St unit :=
  match attempts with
  | O => throw (errorf "cleanup Higress rate-limit plugin conflicted after 5 retries")
  | S attempts =>
      plugin ← getRateLimitPlugin p c;
      target ← disown p c owner plugin;
      match target with
      | None => mret tt
      | Some target =>
          r ← try (gc_patch_plugin c plugin target);
          match r with
          | Ok _ => mret tt
          | Err e => if IsConflict e then cleanup_loop p c owner attempts
                     else throw (errorf_before "update Higress rate-limit plugin" e)
          end
      end
  end.
Definition cleanupRateLimit (p : HTTPRoutePublisher) (c : GatewayClient) (owner : string) : M St unit :=
  let owner := trim_space owner in
  _ ← check (negb (bool_decide (owner = ""))) (errorf "Higress rate-limit owner is required");
  cleanup_loop p c owner higressRateLimitMaxUpdateRetries.

(** ** Publishing *)
(** The provider that serves the generation: its own, else that of its bindings,
    else the configured one. *)
Definition publication_provider (p : HTTPRoutePublisher) (d : DesiredRuntime) : string :=
  let own := to_lower (trim_space (r_provider (dr_spec d))) in
  let bound := if bool_decide (own = "") then default "" (provider_of_bindings (dr_bindings d)) else own in
  let configured := if bool_decide (bound = "") then to_lower (trim_space (hp_provider p)) else bound in
  if bool_decide (configured = "") then "deployment" else configured.
(** The Service behind the route and its port. *)
Definition publication_backend (provider : string) (pub : Publication) (d : DesiredRuntime) : string * Z :=
  let spec := dr_spec d in
  if bool_decide (provider = "kserve") then
    let kind := from_option b_kind "" (kserveBindingForSpec d) in
    if bool_decide (kind = KServeLLMInferenceServiceKind) || bool_decide (kind = "") && bool_decide (r_mode spec = "leader_worker_set")
    then (KServeLLMWorkloadServiceName (r_name spec), KServeLLMWorkloadServicePort)
    else (KServePredictorServiceName (r_name spec), KServePredictorServicePort)
  else (ServiceID pub +:+ "-endpoint", match r_endpoint spec with Some e => e_service_port e | None => r_service_port spec end).

Definition grant_spec (routeNS backend : string) : GrantSpec :=
  mkGrantSpec [("gateway.networking.k8s.io", "HTTPRoute", routeNS)] [("", "Service", Some backend)].
Definition ensureBackendGrant (p : HTTPRoutePublisher) (c : GatewayClient) (pub : Publication) (routeNS targetNS backend : string) : M St unit :=
  r ← try (gr_grant (gateway_reader p c) targetNS (routeName pub));
  match r with
  | Err e => if IsNotFound e then gc_create c (mkGrantManifest (mkMeta (routeName pub) targetNS (publicationLabels pub) ∅) (grant_spec routeNS backend))
             else throw e
  | Ok current =>
      check (samePublication (gr_meta current) pub && bool_decide (label (o_labels (gr_meta current)) managedByLabel = managedByInference) &&
             negb (o_deleting (gr_meta current)) && bool_decide (gr_spec current = grant_spec routeNS backend))
        (errorf "ReferenceGrant ownership or backend mismatch")
  end.
(** The route that is there, if any, is ours and stays. *)
Definition fence_route (own : ObjectMeta -> bool) (foreign deleting : string) (m : ObjectMeta) : result unit :=
  _ ← checkr (own m) (errorf foreign); checkr (negb (o_deleting m)) (errorf deleting).
Definition read_route (p : HTTPRoutePublisher) (c : GatewayClient) (namespace name : string) (fence : ObjectMeta -> result unit) : M St unit :=
  r ← try (gr_route (gateway_reader p c) namespace name);
  match r with
  | Ok current => lift (fence (rt_meta current))
  | Err e => if IsNotFound e then mret tt else throw e
  end.
Definition field_owner (p : HTTPRoutePublisher) (fallback : string) : string :=
  if bool_decide (hp_field_manager p = "") then fallback else hp_field_manager p.
Definition publish_desired (p : HTTPRoutePublisher) (c : GatewayClient) (pub : Publication) (d : DesiredRuntime) : M St unit :=
  let spec := dr_spec d in
  _ ← check (negb (blank (r_served_model spec))) (errorf "publication served model name is required");
  _ ← check (negb (bool_decide (r_namespace spec = "") || bool_decide (r_name spec = ""))) (errorf "publication runtime namespace and name are required");
  let provider := publication_provider p d in
  _ ← check (bool_decide (provider = "deployment") || bool_decide (provider = "kserve"))
        (errorf ("unsupported publication runtime provider " +:+ quoted provider));
  let '(backend, port) := publication_backend provider pub d in
  _ ← check ((1 <=? port) && (port <=? 65535)) (errorf ("publication backend service port " +:+ format_int port +:+ " is invalid"));
  let ns := routeNamespace p (r_namespace spec) in
  _ ← read_route p c ns (routeName pub)
        (fence_route (fun m => samePublication m pub) "HTTPRoute is owned by a different publication" "HTTPRoute deletion is still in progress");
  let other := negb (bool_decide (ns = r_namespace spec)) in
  _ ← (if other then ensureBackendGrant p c pub ns (r_namespace spec) backend else mret tt);
  _ ← ensureRateLimit p c (r_served_model spec) (routeOwnerID ns (routeName pub));
  gc_apply c (field_owner p "ani-inference-publication")
    (route p pub ns (mkBackend backend (if other then Some (r_namespace spec) else None) port) (r_served_model spec)).
Definition Publish (p : HTTPRoutePublisher) (pub : Publication) : M St unit :=
  c ← validate p pub;
  match hp_source p with
  | None => throw (errorf "publication desired runtime source is nil")
  | Some source => d ← source (TenantID pub) (ServiceID pub) (Generation pub); publish_desired p c pub d
  end.

(** ** Withdrawing *)
(** The namespace of a withdrawal is the configured one. *)
Definition Withdraw (p : HTTPRoutePublisher) (pub : Publication) : M St unit :=
  c ← validate p pub;
  let ns := routeNamespace p (hp_route_namespace p) in
  r ← try (gr_route (gateway_reader p c) ns (routeName pub));
  match r with
  | Err e => if IsNotFound e then mret tt else throw e
  | Ok current =>
      let m := rt_meta current in
      _ ← check (samePublication m pub) (errorf "HTTPRoute is owned by a different publication");
      _ ← check (negb (bool_decide (o_uid m = "") || bool_decide (o_rv m = ""))) (errorf "HTTPRoute is missing UID or resourceVersion");
      gc_delete_route c (o_namespace m) (o_name m) (o_uid m) (o_rv m)
  end.
Definition grant_namespace (p : HTTPRoutePublisher) (pub : Publication) : M St string :=
  match hp_source p with
  | None => throw (errorf "publication desired runtime source is nil")
  | Some source =>
      match hp_namespace_for p with
      | Some namespace_for => namespace_for (TenantID pub) (ServiceID pub)
      | None => d ← source (TenantID pub) (ServiceID pub) (Generation pub); mret (r_namespace (dr_spec d))
      end
  end.
Definition cleanupBackendGrant (p : HTTPRoutePublisher) (c : GatewayClient) (pub : Publication) (routeNS : string) : M St bool :=
  targetNS ← grant_namespace p pub;
  if bool_decide (targetNS = routeNS) then mret true else
  r ← try (gr_grant (gateway_reader p c) targetNS (routeName pub));
  match r with
  | Err e => if IsNotFound e then mret true else throw e
  | Ok grant =>
      let m := gr_meta grant in
      _ ← check (samePublication m pub && bool_decide (label (o_labels m) managedByLabel = managedByInference))
            (errorf "ReferenceGrant is owned by a different publication");
      _ ← check (negb (bool_decide (o_uid m = "") || bool_decide (o_rv m = ""))) (errorf "ReferenceGrant is missing UID or resourceVersion");
      r ← try (gc_delete_grant c (o_namespace m) (o_name m) (o_uid m) (o_rv m));
      match r with
      | Err e => if IsNotFound e then mret false else throw e
      | Ok _ => mret false
      end
  end.
Definition ConfirmWithdrawn (p : HTTPRoutePublisher) (pub : Publication) : M St bool :=
  c ← validate p pub;
  let ns := routeNamespace p (hp_route_namespace p) in
  r ← try (gr_route (gateway_reader p c) ns (routeName pub));
  match r with
  | Ok _ => mret false
  | Err e =>
      if IsNotFound e then
        _ ← cleanupRateLimit p c (routeOwnerID ns (routeName pub));
        cleanupBackendGrant p c pub ns
      else throw e
  end.

(** ** Confirming *)
Definition matchesGatewayParent (p : HTTPRoutePublisher) (s : ParentStatus) (namespace : string) : bool :=
  bool_decide (pf_name (pt_ref s) = hp_gateway p) &&
  bool_decide ((match pf_namespace (pt_ref s) with
                | Some ns => if bool_decide (ns = "") then namespace else ns | None => namespace end) = hp_gateway_namespace p).
Definition condition_true (what : string) (s : ParentStatus) : bool := bool_decide ((what, "True") ∈ pt_conditions s).
Definition ConfirmPublished (p : HTTPRoutePublisher) (pub : Publication) : M St bool :=
  c ← validate p pub;
  let ns := routeNamespace p (hp_route_namespace p) in
  r ← try (gr_route (gateway_reader p c) ns (routeName pub));
  match r with
  | Err e => if IsNotFound e then mret false else throw e
  | Ok current =>
      _ ← check (samePublication (rt_meta current) pub) (errorf "HTTPRoute is owned by a different publication");
      let parents := filter (fun s => matchesGatewayParent p s (o_namespace (rt_meta current)) = true) (rt_parents current) in
      mret (existsb (condition_true "Accepted") parents && existsb (condition_true "ResolvedRefs") parents)
  end.
Definition Endpoint (p : HTTPRoutePublisher) (pub : Publication) : M St string :=
  _ ← validate p pub;
  match parse_url (trim_space (hp_base_url p)) with
  | Some (scheme, host, path) =>
      _ ← check (negb (bool_decide (scheme = "") || bool_decide (host = ""))) (errorf "publication public base URL must include scheme and host");
      mret (url_string scheme host (trim_slashes path +:+ pathPrefix p))
  | None => throw (errorf "publication public base URL must include scheme and host")
  end.
(** The publisher as the runner's port. *)
Definition publication_port (p : HTTPRoutePublisher) : Port St :=
  mkPort (Withdraw p) (ConfirmWithdrawn p) (Publish p) (ConfirmPublished p) (Some (Endpoint p)).

(** ** The fallback route of the model router *)
Definition EnsureBootstrapRoute (p : HTTPRoutePublisher) (name sink : string) (port : Z) : M St unit :=
  match hp_client p with
  | None => throw (errorf "publication Kubernetes client is nil")
  | Some c =>
      _ ← check (negb (blank name)) (errorf "Higress bootstrap route name is required");
      _ ← check (negb (blank sink)) (errorf "Higress bootstrap service name is required");
      _ ← check ((1 <=? port) && (port <=? 65535)) (errorf ("Higress bootstrap service port " +:+ format_int port +:+ " is invalid"));
      _ ← check (negb (bool_decide (hp_gateway p = "") || bool_decide (hp_gateway_namespace p = "")))
            (errorf "publication Gateway namespace and name are required");
      let ns := trim_space (hp_route_namespace p) in
      _ ← check (negb (bool_decide (ns = ""))) (errorf "Higress bootstrap route namespace is required");
      _ ← read_route p c ns (trim_space name) (fence_route sameBootstrapRoute "Higress bootstrap HTTPRoute is owned by a different controller"
            "Higress bootstrap HTTPRoute deletion is still in progress");
      gc_apply c (field_owner p "ani-inference-bootstrap")
        (mkRouteManifest (mkMeta (trim_space name) ns (<[managedByLabel := managedByInference]> {[routeRoleLabel := bootstrapRouteRole]}) ∅)
           [gateway_parent p] [mkRule [mkMatch (routePrefix p) []] ["x-api-key"] [mkBackend sink None port]])
  end.

(** ** The limits of the shared plugin *)
Section Limits.
Context (owners_read : ∀ m, m ≠ ∅ -> parse_owners (owners_json m) = Ok m ∧ blank (owners_json m) = false).
Context (visits : ∀ m, visit m ≡ₚ map_to_list m).
#[local] Set Default Proof Using "Type + owners_read + visits".

(** Every owned model has a limit and an owner. *)
Record limits_ok (plugin : Plugin) (keys : gmap string Z) (owners : gmap string (list string)) : Prop := {
  lo_keys : ∃ entries, rateLimitEntries plugin = Ok (entries, keys);
  lo_owners : rateLimitOwners plugin = Ok owners;
  lo_limited : ∀ model refs, owners !! model = Some refs -> is_Some (keys !! model) ∧ refs ≠ [] }.

Definition named (owners : gmap string (list string)) : Prop :=
  ∀ model refs, owners !! model = Some refs -> blank model = false ∧ ∀ ref, ref ∈ refs -> blank ref = false.
Lemma owners_checked owners : head (omap owners_error (visit owners)) = None <-> named owners.
Proof.
  assert (head (omap owners_error (visit owners)) = None <-> ∀ e, e ∈ visit owners -> owners_error e = None) as ->.
  { induction (visit owners) as [|e l IH]; cbn; [split; [by intros _ e ?%elem_of_nil|done]|]. destruct (owners_error e) eqn:E; cbn.
    - split; [done|]. intros H. rewrite H in E; [done|left].
    - rewrite IH. split; [intros H x [->|Hx]%elem_of_cons; auto|intros H x Hx; apply H; by right]. }
  split.
  - intros H m refs Hm. specialize (H (m, refs)). unfold owners_error in H. cbn in H.
    destruct (blank m) eqn:Eb; [discriminate H; by rewrite visits; apply elem_of_map_to_list|]. split; [done|]. intros ref Hr.
    destruct (existsb blank refs) eqn:Ex; [discriminate H; by rewrite visits; apply elem_of_map_to_list|].
    destruct (blank ref) eqn:Er; [|done]. rewrite <- Ex. symmetry. apply existsb_exists. exists ref. split; [by apply list_elem_of_In|done].
  - intros H [m refs]. rewrite visits, elem_of_map_to_list. intros Hm. destruct (H m refs Hm) as [H1 H2]. unfold owners_error. cbn. rewrite H1.
    destruct (existsb blank refs) eqn:Ex; [|done]. apply existsb_exists in Ex as (ref & Hr%list_elem_of_In & Hb). rewrite H2 in Hb; done.
Qed.
Lemma read_named plugin owners : rateLimitOwners plugin = Ok owners -> named owners.
Proof.
  unfold rateLimitOwners. destruct (blank _); [intros [= <-] m refs H; by rewrite lookup_empty in H|].
  destruct (parse_owners _) as [o|]; [|done]. destruct (head _) eqn:E; [done|]. intros [= <-] m refs. apply owners_checked in E.
  rewrite lookup_fmap. destruct (o !! m) as [l|] eqn:El; [|done]. intros [= <-]. destruct (E m l El) as [H1 H2].
  split; [done|]. intros ref Hr%(proj1 (elem_of_sorted _ _)). auto.
Qed.
Lemma set_owners_read plugin owners : named owners -> rateLimitOwners (setRateLimitOwners plugin owners) = Ok (stored <$> owners).
Proof.
  intros Hn. unfold rateLimitOwners, setRateLimitOwners. cbn. case_bool_decide as Ho.
  - rewrite lookup_delete_eq. cbn. by rewrite Ho, fmap_empty.
  - rewrite lookup_insert_eq. cbn.
    assert ((λ refs, uniqueStrings [] (sorted refs)) <$> owners ≠ ∅) as Hne by (intros H%fmap_empty_inv; done).
    destruct (owners_read _ Hne) as [-> ->].
    assert (named ((λ refs, uniqueStrings [] (sorted refs)) <$> owners)) as ->%owners_checked.
    { intros m l. rewrite lookup_fmap. destruct (owners !! m) as [refs|] eqn:E; [|done]. intros [= <-]. destruct (Hn m refs E) as [H1 H2].
      split; [done|]. intros ref [Hr _]%elem_of_unique. by apply H2, elem_of_sorted. }
    f_equal. rewrite <- map_fmap_compose. done.
Qed.
Lemma set_owners_keys plugin owners : rateLimitEntries (setRateLimitOwners plugin owners) = rateLimitEntries plugin.
Proof. done. Qed.
Lemma read_entries_snoc i keys l model keys' : read_entries i keys l = Ok keys' -> blank model = false ->
  read_entries i keys (l ++ [EObject (Some model) (NInt higressRateLimitQPS)]) = Ok (<[model := higressRateLimitQPS]> keys').
Proof.
  revert i keys. induction l as [|e l IH]; intros i keys H Hm; cbn [read_entries app] in *.
  - injection H as <-. cbn. by rewrite Hm.
  - minv H. rewrite Hm0. cbn. destruct a. by apply IH.
Qed.
Lemma read_entry_at i j e kq : read_entry i e = Ok kq -> read_entry j e = Ok kq.
Proof. destruct e as [[k|] q|]; cbn; [|done|done]. by destruct (blank k), (int64Value q). Qed.
Lemma read_entries_removed model i j keys l keys' : read_entries i keys l = Ok keys' ->
  read_entries j (delete model keys) (removeRateLimitEntry l model) = Ok (delete model keys').
Proof.
  revert i j keys. induction l as [|e l IH]; intros i j keys H; cbn [read_entries] in *; [by injection H as ->|].
  minv H. destruct a as [key qps]. assert (entry_key e = Some key) as Ek.
  { destruct e as [[k|] q|]; cbn in Hm; try done. destruct (blank k); [done|]. destruct (int64Value q); [|done].
    destruct (_ <? _); [done|]. by injection Hm as ->. }
  unfold removeRateLimitEntry in *. rewrite filter_cons. destruct (decide _) as [Hd|Hd].
  - apply (IH _ (j + 1)) in H. cbn [read_entries]. rewrite (read_entry_at _ _ _ _ Hm). cbn. rewrite delete_insert_ne in H by congruence. done.
  - apply (IH _ j) in H. destruct (decide (key = model)) as [->|]; [|destruct Hd; congruence]. by rewrite delete_insert_eq in H.
Qed.
Lemma owned_model_some owners owner model refs : owned_model owners owner = Some (model, refs) -> owners !! model = Some refs ∧ owner ∈ refs.
Proof.
  unfold owned_model. intros H%head_Some_elem_of. apply list_elem_of_filter in H as [H1 H2]. rewrite visits in H2.
  split; [by apply elem_of_map_to_list|done].
Qed.
Lemma owned_model_none owners owner model refs : owned_model owners owner = None -> owners !! model = Some refs -> owner ∉ refs.
Proof.
  unfold owned_model. intros H Hm Ho. destruct (filter _ _) as [|] eqn:E; [|done].
  assert ((model, refs) ∈ filter (λ e : string * list string, owner ∈ e.2) (visit owners)) as Hin.
  { apply list_elem_of_filter. split; [done|]. rewrite visits. by apply elem_of_map_to_list. }
  rewrite E in Hin. by apply elem_of_nil in Hin.
Qed.

(** The plugin after an update: with the recorded owner, or as it is. *)
Definition updated_to (plugin : Plugin) (target : option Plugin) : Plugin := default plugin target.
(** The publication [owner] is covered by the limit of [model]: the limit is there,
    and either nobody holds it, so that no withdrawal removes it, or [owner] does. *)
Definition limited_for (keys : gmap string Z) (owners : gmap string (list string)) (model owner : string) : Prop :=
  is_Some (keys !! model) ∧ ∀ refs, owners !! model = Some refs -> owner ∈ refs.
Lemma owners_set plugin keys keys' owners model refs : (∃ entries, rateLimitEntries plugin = Ok (entries, keys')) -> named owners ->
  (∀ m l, owners !! m = Some l -> is_Some (keys !! m) ∧ l ≠ []) -> keys ⊆ keys' -> is_Some (keys' !! model) ->
  refs ≠ [] -> blank model = false -> (∀ ref, ref ∈ refs -> blank ref = false) ->
  limits_ok (setRateLimitOwners plugin (<[model := refs]> owners)) keys' (stored <$> <[model := refs]> owners).
Proof.
  intros He Hn Hl Hk Hm Hr Hb Hbr. split; [done| |].
  - apply set_owners_read. intros m l [[<- <-]|[_ Hx]]%lookup_insert_Some; [done|by apply Hn].
  - intros m l. rewrite lookup_fmap. destruct (decide (m = model)) as [->|Hne].
    + rewrite lookup_insert_eq. intros [= <-]. by rewrite stored_nil.
    + rewrite lookup_insert_ne by done. destruct (owners !! m) as [r|] eqn:Er; [|done]. intros [= <-]. rewrite stored_nil.
      destruct (Hl _ _ Er) as [[q Hq] ?]. split; [|done]. exists q. by eapply lookup_weaken.
Qed.
Lemma set_limited keys keys' owners model refs m o : limited_for keys owners m o ∨ m = model ∧ is_Some (keys' !! model) -> keys ⊆ keys' ->
  (m = model -> o ∈ refs) -> limited_for keys' (stored <$> <[model := refs]> owners) m o.
Proof.
  intros Hl Hk Hm. assert (is_Some (keys' !! m)) as Hi.
  { destruct Hl as [[[q Hq] _]|[-> ?]]; [exists q; by eapply lookup_weaken|done]. }
  split; [done|]. intros l. rewrite lookup_fmap. destruct (decide (m = model)) as [->|Hne].
  - rewrite lookup_insert_eq. intros [= <-]. by apply elem_of_stored, Hm.
  - rewrite lookup_insert_ne by done. destruct (owners !! m) as [r|] eqn:Er; [|done]. intros [= <-]. apply elem_of_stored.
    destruct Hl as [[_ Hl]|[-> _]]; [by apply Hl|done].
Qed.
Lemma entries_appended plugin entries keys model : rateLimitEntries plugin = Ok (entries, keys) -> blank model = false ->
  rateLimitEntries (setRateLimitEntries plugin (entries ++ [EObject (Some model) (NInt higressRateLimitQPS)])) =
    Ok (entries ++ [EObject (Some model) (NInt higressRateLimitQPS)], <[model := higressRateLimitQPS]> keys).
Proof.
  unfold rateLimitEntries. cbn. intros He Hm. destruct (wp_keys plugin) as [[l|]|]; [| |done].
  - minv He. injection He as <- <-. by rewrite (read_entries_snoc _ _ _ _ _ Hm0).
  - injection He as <- <-. cbn. by rewrite Hm.
Qed.
Lemma entries_kept plugin entries keys : rateLimitEntries plugin = Ok (entries, keys) -> read_entries 0 ∅ entries = Ok keys.
Proof. unfold rateLimitEntries. destruct (wp_keys plugin) as [[x|]|]; intros He; [minv He; by injection He as <- <-|by injection He as <- <-|done]. Qed.
Lemma limited_ok model owner plugin target keys owners : blank model = false -> blank owner = false ->
  limited model owner plugin = Ok target -> limits_ok plugin keys owners ->
  ∃ keys' owners', limits_ok (updated_to plugin target) keys' owners' ∧ keys ⊆ keys' ∧ limited_for keys' owners' model owner ∧
    ∀ m o, limited_for keys owners m o -> limited_for keys' owners' m o.
Proof.
  intros Hm Ho H Hok. pose proof Hok as [[entries He] Hw Hl]. unfold limited in H. rewrite He, Hw in H. cbn in H. pose proof (read_named _ _ Hw) as Hn.
  case_bool_decide as Hk.
  - injection H as <-. assert (owners !! model = None) as Eo.
    { destruct (owners !! model) eqn:E; [|done]. apply Hl in E as [[? E] _]. congruence. }
    rewrite Eo. cbn. assert (keys ⊆ <[model := higressRateLimitQPS]> keys) as Hs by (by apply insert_subseteq).
    exists (<[model := higressRateLimitQPS]> keys), (stored <$> <[model := [owner]]> owners).
    split_and!; [|done|eapply set_limited; [right; by rewrite lookup_insert_eq|done|intros _; by apply list_elem_of_singleton]|].
    + eapply (owners_set _ keys); [eexists; by apply entries_appended|done|done|done|by rewrite lookup_insert_eq|done|done|].
      intros ref ->%list_elem_of_singleton. done.
    + intros m o Hf. eapply set_limited; [by left|done|]. intros ->. destruct Hf as [[? Hf] _]. congruence.
  - assert (is_Some (keys !! model)) as Hkm by (by apply not_eq_None_Some).
    destruct (owners !! model) as [refs|] eqn:Er.
    2: { injection H as <-. exists keys, owners. split_and!; [done..|split; [done|congruence]|done]. }
    case_bool_decide as Hin; injection H as <-.
    { exists keys, owners. split_and!; [done..|split; [done|intros ?; rewrite Er; by intros [= <-]]|done]. }
    exists keys, (stored <$> <[model := refs ++ [owner]]> owners).
    split_and!; [|done|eapply set_limited; [by right|done|intros _; apply elem_of_app; right; by apply list_elem_of_singleton]|].
    + eapply (owners_set _ keys); [|done|done|done|done|by destruct refs|done|].
      * exists entries. unfold rateLimitEntries. cbn. by rewrite (entries_kept _ _ _ He).
      * intros ref [Hr|Hr%list_elem_of_singleton]%elem_of_app; [by eapply (proj2 (Hn _ _ Er))|by subst].
    + intros m o Hf. eapply set_limited; [by left|done|]. intros ->. apply elem_of_app. left. by apply Hf.
Qed.

(** No other live route in the namespace of the owner's route selects [model]. *)
Definition unselected (p : HTTPRoutePublisher) (c : GatewayClient) (owner model : string) : Prop :=
  ∃ namespace name routes, cut_slash owner = Some (namespace, name) ∧ answered (gr_routes (gateway_reader p c) namespace) routes ∧
    ∀ r, r ∈ routes -> o_name (rt_meta r) ≠ name -> o_deleting (rt_meta r) = false -> routeSelectsModel r model = false.
Lemma no_model_route p c model owner s s' : hasModelRoute p c model owner s = (Ok false, s') -> unselected p c owner model.
Proof.
  unfold hasModelRoute. destruct (cut_slash owner) as [[namespace name]|] eqn:E; [|done]. intros H. minv H. injection Hm1 as Hr <-.
  destruct a0 as [routes|]; [|done]. injection Hr as ->. injection H as H _. exists namespace, name, a1. split_and!; [done|by do 2 eexists|].
  intros r Hr Hn Hd. destruct (routeSelectsModel r model) eqn:Es; [|done]. exfalso. eapply (eq_true_false_abs _ _ H). Unshelve.
  apply existsb_exists. exists r. split; [by apply list_elem_of_In|]. rewrite bool_decide_eq_false_2, Hd, Es by done. done.
Qed.
Lemma owners_deleted plugin keys owners model : (∃ entries, rateLimitEntries plugin = Ok (entries, keys)) -> named owners ->
  (∀ m l, m ≠ model -> owners !! m = Some l -> is_Some (keys !! m) ∧ l ≠ []) ->
  limits_ok (setRateLimitOwners plugin (delete model owners)) keys (stored <$> delete model owners).
Proof.
  intros He Hn Hl. split; [done| |].
  - apply set_owners_read. intros m l [_ Hx]%lookup_delete_Some. by apply Hn.
  - intros m l. rewrite lookup_fmap. destruct (delete model owners !! m) as [r|] eqn:Er; [|done]. intros [= <-]. rewrite stored_nil.
    apply lookup_delete_Some in Er as [Hne Er]. by apply Hl.
Qed.
Lemma entries_removed plugin entries keys model : rateLimitEntries plugin = Ok (entries, keys) ->
  rateLimitEntries (setRateLimitEntries plugin (removeRateLimitEntry entries model)) = Ok (removeRateLimitEntry entries model, delete model keys).
Proof.
  intros He%entries_kept. apply (read_entries_removed model 0 0) in He. rewrite delete_empty in He. unfold rateLimitEntries. cbn. by rewrite He.
Qed.
(** What a withdrawal of [owner] makes of the limits. *)
Record disowned (p : HTTPRoutePublisher) (c : GatewayClient) (owner : string) (keys keys' : gmap string Z) (owners owners' : gmap string (list string)) : Prop := {
  dn_limited : ∀ m o, o ≠ owner -> limited_for keys owners m o -> limited_for keys' owners' m o;
  dn_removed : ∀ m, is_Some (keys !! m) -> keys' !! m = None -> unselected p c owner m;
  dn_keys : keys' ⊆ keys;
  dn_some : keys ≠ ∅ -> keys' ≠ ∅ }.
Lemma disowned_refl p c owner keys owners : disowned p c owner keys keys owners owners.
Proof. split; [done|intros m [? ?] ?; congruence|done|done]. Qed.
Lemma disowned_last p c owner keys keys' owners model refs : owners !! model = Some refs -> (∀ o, o ∈ refs -> o = owner) ->
  keys' = keys ∨ keys' = delete model keys ∧ unselected p c owner model ∧ (1 < size keys)%nat ->
  disowned p c owner keys keys' owners (stored <$> delete model owners).
Proof.
  intros Hm Ho Hk. split.
  - intros m o Hne [Hi Hf]. assert (m ≠ model) as Hn by (intros ->; by apply Hne, Ho, Hf). split.
    + destruct Hk as [->|(-> & _)]; [done|]. by rewrite lookup_delete_ne by done.
    + intros l. rewrite lookup_fmap, lookup_delete_ne by done. destruct (owners !! m) as [r|] eqn:Er; [|done]. intros [= <-].
      by apply elem_of_stored, Hf.
  - intros m [q Hq] Hn. destruct Hk as [->|(-> & Hu & _)]; [congruence|]. destruct (decide (m = model)) as [->|Hne]; [done|].
    rewrite lookup_delete_ne in Hn by done. congruence.
  - destruct Hk as [->|(-> & _)]; [done|apply delete_subseteq].
  - destruct Hk as [->|(-> & _ & Hs)]; [done|]. intros _. by apply size_delete_some.
Qed.
Lemma disowned_one p c owner keys owners model refs : owners !! model = Some refs ->
  disowned p c owner keys keys owners (stored <$> <[model := removeString refs owner]> owners).
Proof.
  intros Hm. split; [|intros m [? ?] ?; congruence|done|done]. intros m o Hne Hf. eapply set_limited; [by left|done|]. intros ->.
  apply elem_of_removed. split; [by apply Hf|done].
Qed.
Lemma disown_ok p c owner plugin target keys owners s s' : disown p c owner plugin s = (Ok target, s') -> limits_ok plugin keys owners ->
  ∃ keys' owners', limits_ok (updated_to plugin target) keys' owners' ∧ disowned p c owner keys keys' owners owners'.
Proof.
  intros H Hok. pose proof Hok as [[entries He] Hw Hl]. pose proof (read_named _ _ Hw) as Hn. unfold disown in H. rewrite Hw in H. minv H. injection Hm as <- <-.
  destruct (owned_model owners owner) as [[model refs]|] eqn:Eo.
  2: { injection H as <- _. exists keys, owners. split; [done|apply disowned_refl]. }
  apply owned_model_some in Eo as [Em _]. destruct (removeString refs owner) as [|o rest] eqn:Er.
  - minv H. injection H as <- <-. unfold updated_to. cbn [default]. destruct a; cbn in Hm0.
    + injection Hm0 as <- <-. exists keys, (stored <$> delete model owners). split.
      * apply owners_deleted; [by eexists|done|]. intros m l _. apply Hl.
      * eapply disowned_last; [done|intros o; by apply removed_nil|by left].
    + rewrite He in Hm0. cbn in Hm0. injection Hm0 as <- <-. apply no_model_route in Hm. case_bool_decide as Hs.
      * exists (delete model keys), (stored <$> delete model owners). split.
        -- apply owners_deleted; [eexists; by apply entries_removed|done|]. intros m l Hne. rewrite lookup_delete_ne by done. apply Hl.
        -- eapply disowned_last; [done|intros o; by apply removed_nil|by right].
      * exists keys, (stored <$> delete model owners). split; [apply owners_deleted; [by eexists|done|]; intros m l _; apply Hl|].
        eapply disowned_last; [done|intros o; by apply removed_nil|by left].
  - injection H as <- <-. rewrite <- Er. exists keys, (stored <$> <[model := removeString refs owner]> owners).
    split; [|by apply disowned_one]. apply (owners_set _ keys); [by eexists|done..|by eapply Hl|by rewrite Er|by eapply (proj1 (Hn _ _ Em))|].
    intros ref [Hr _]%elem_of_removed. by eapply (proj2 (Hn _ _ Em)).
Qed.

(** *** The plugin as every publication sees it
    [held] is the plugin in the cluster.  Other publications may edit it at any
    time; [keeps o] says that an edit leaves [o] covered wherever it was. *)
Context (held : St -> Plugin).
Definition covers (plugin : Plugin) (model owner : string) : Prop :=
  ∃ keys owners, limits_ok plugin keys owners ∧ limited_for keys owners model owner.
Definition sound (plugin : Plugin) : Prop := ∃ keys owners, limits_ok plugin keys owners.
Definition keeps (o : string) (plugin plugin' : Plugin) : Prop :=
  (sound plugin -> sound plugin') ∧ ∀ m, covers plugin m o -> covers plugin' m o.
#[global] Instance keeps_preorder o : PreOrder (keeps o).
Proof using Type. split; [done|]. intros x y z [H1 H2] [H3 H4]. split; auto. Qed.
Definition held_keeps (o : string) : relation St := fun s s' => keeps o (held s) (held s').
#[global] Instance held_keeps_preorder o : PreOrder (held_keeps o).
Proof using Type. split; [intros s; unfold held_keeps; reflexivity|intros s t u; unfold held_keeps; by etrans]. Qed.
(** The API server: a read answers the plugin of some moment of the call, a patch
    under the lock lands on the plugin it was computed from or not at all, and it
    has landed when it is acknowledged. *)
Record shared_plugin (p : HTTPRoutePublisher) (c : GatewayClient) (o : string) : Prop := {
  sp_read : ∀ ns name s r s', gr_plugin (gateway_reader p c) ns name s = (r, s') ->
    ∃ mid, keeps o (held s) mid ∧ keeps o mid (held s') ∧ ∀ plugin, r = Ok plugin -> plugin = mid;
  sp_list : ∀ ns, moves (held_keeps o) (gr_routes (gateway_reader p c) ns);
  sp_patch : ∀ base target s r s', gc_patch_plugin c base target s = (r, s') ->
    keeps o (held s) base ∧ keeps o target (held s') ∨ r ≠ Ok tt ∧ keeps o (held s) (held s') }.

Lemma limited_keeps model owner plugin target o : blank model = false -> blank owner = false ->
  limited model owner plugin = Ok target -> keeps o plugin (updated_to plugin target) ∧ (sound plugin -> covers (updated_to plugin target) model owner).
Proof.
  intros Hm Ho H. split; [split|].
  - intros (keys & owners & Hok). destruct (limited_ok _ _ _ _ _ _ Hm Ho H Hok) as (k & w & Hok' & _). by exists k, w.
  - intros m (keys & owners & Hok & Hf). destruct (limited_ok _ _ _ _ _ _ Hm Ho H Hok) as (k & w & Hok' & _ & _ & Hk). exists k, w. auto.
  - intros (keys & owners & Hok). destruct (limited_ok _ _ _ _ _ _ Hm Ho H Hok) as (k & w & Hok' & _ & Hc & _). by exists k, w.
Qed.
Lemma disown_keeps p c owner plugin target s s' o : disown p c owner plugin s = (Ok target, s') -> o ≠ owner ->
  keeps o plugin (updated_to plugin target).
Proof.
  intros H Hne. split.
  - intros (keys & owners & Hok). destruct (disown_ok _ _ _ _ _ _ _ _ _ H Hok) as (k & w & Hok' & _). by exists k, w.
  - intros m (keys & owners & Hok & Hf). destruct (disown_ok _ _ _ _ _ _ _ _ _ H Hok) as (k & w & Hok' & [Hd _ _ _]). exists k, w. auto.
Qed.
Lemma read_keeps p c o : shared_plugin p c o -> moves (held_keeps o) (getRateLimitPlugin p c).
Proof.
  intros Hs. unfold getRateLimitPlugin. moves. intros s. destruct (gr_plugin _ _ _ s) as [r s'] eqn:E.
  destruct (sp_read _ _ _ Hs _ _ _ _ _ E) as (mid & H1 & H2 & _). unfold held_keeps. cbn. by etrans.
Qed.
Lemma patch_keeps p c o base target : shared_plugin p c o -> keeps o base target -> moves (held_keeps o) (gc_patch_plugin c base target).
Proof.
  intros Hs Hk s. destruct (gc_patch_plugin _ _ _ s) as [r s'] eqn:E. unfold held_keeps. cbn.
  destruct (sp_patch _ _ _ Hs _ _ _ _ _ E) as [[H1 H2]|[_ H]]; [|done]. etrans; [exact H1|]. by etrans.
Qed.
Lemma list_keeps p c o model owner : shared_plugin p c o -> moves (held_keeps o) (hasModelRoute p c model owner).
Proof. intros Hs. unfold hasModelRoute. moves. by apply sp_list. Qed.
#[local] Hint Resolve read_keeps patch_keeps list_keeps : moves.
Lemma ensure_moves p c model owner attempts o : shared_plugin p c o -> blank model = false -> blank owner = false ->
  moves (held_keeps o) (ensure_loop p c model owner attempts).
Proof.
  intros Hs Hm Ho. induction attempts as [|n IH]; cbn [ensure_loop]; [moves|]. apply moves_bind; [typeclasses eauto|by apply read_keeps|].
  intros plugin. apply moves_bind_value; [typeclasses eauto|moves|]. intros s [target|] s' Ht; [|moves].
  injection Ht as Ht _. destruct (limited_keeps _ _ _ _ o Hm Ho Ht) as [Hk _]. moves.
Qed.
Lemma cleanup_moves p c owner attempts o : shared_plugin p c o -> o ≠ owner -> moves (held_keeps o) (cleanup_loop p c owner attempts).
Proof.
  intros Hs Ho. induction attempts as [|n IH]; cbn [cleanup_loop]; [moves|]. apply moves_bind; [typeclasses eauto|by apply read_keeps|].
  intros plugin. apply moves_bind_value; [typeclasses eauto|unfold disown; moves|]. intros s [target|] s' Ht; [|moves].
  apply disown_keeps with (o := o) in Ht; [|done]. moves.
Qed.
Lemma keeps_sound o plugin plugin' : keeps o plugin plugin' -> sound plugin -> sound plugin'.
Proof. by intros [H _]. Qed.
Lemma keeps_covers o plugin plugin' m : keeps o plugin plugin' -> covers plugin m o -> covers plugin' m o.
Proof. intros [_ H]. apply H. Qed.
Lemma ensured p c model owner attempts s s' : shared_plugin p c owner -> blank model = false -> blank owner = false ->
  ensure_loop p c model owner attempts s = (Ok tt, s') -> sound (held s) -> covers (held s') model owner.
Proof.
  intros Hs Hm Ho. revert s. induction attempts as [|n IH]; intros s H Hg; cbn [ensure_loop] in H; [done|]. minv H.
  unfold getRateLimitPlugin in Hm0. minv Hm0. destruct a1 as [plugin|]; [|done]. injection Hm0 as <- <-. injection Hm1 as Ht <-.
  destruct (sp_read _ _ _ Hs _ _ _ _ _ Hm2) as (mid & H1 & H2 & He). specialize (He _ eq_refl) as ->.
  apply keeps_sound in H1; [|done]. destruct (limited_keeps _ _ _ _ owner Hm Ho Ht) as [Hk Hc]. specialize (Hc H1).
  destruct a0 as [target|]; [|injection H as <-; by eapply keeps_covers]. minv H.
  destruct (sp_patch _ _ _ Hs _ _ _ _ _ Hm0) as [[Hb Hl]|[Hr Hl]].
  - destruct a as [[]|e]; [injection H as <-; by eapply keeps_covers|]. destruct (IsConflict e); [|done]. eapply IH; [done|].
    by eapply keeps_sound; [exact Hl|]; eapply keeps_sound.
  - destruct a as [[]|e]; [done|]. destruct (IsConflict e); [|done]. eapply IH; [done|]. eapply keeps_sound; [exact Hl|]. by eapply keeps_sound.
Qed.
Lemma ensure_trimmed p c model owner s : let model' := trim_space model in let owner' := trim_space owner in
  (∃ e, ensureRateLimit p c model owner s = (Err e, s)) ∨
  blank model' = false ∧ blank owner' = false ∧
    ensureRateLimit p c model owner s = ensure_loop p c model' owner' higressRateLimitMaxUpdateRetries s.
Proof.
  cbn. unfold ensureRateLimit. destruct (decide (trim_space model = "")) as [E|Em]; [left; rewrite E; by eexists|].
  destruct (decide (trim_space owner = "")) as [E|Eo]; [left; rewrite E, (bool_decide_eq_true_2 ("" = "")), orb_true_r by done; by eexists|].
  right. rewrite !bool_decide_eq_false_2 by done. split_and!; [by apply trim_space_blank..|done].
Qed.
(** Claim C16. The per-model limits of the shared gateway plugin.  Under the API
    server's optimistic lock, and whatever other publications do to the plugin in
    between: a publication that recorded its limit ([ensureRateLimit] returned
    without error) is covered by a limit of its model in a well-formed plugin;
    recording any limit, also when it fails on the way, leaves every publication
    covered that was; and so does cleaning up after a withdrawal for every
    publication but the withdrawn one.  The plugin stays readable throughout. *)
Theorem published_models_stay_limited p c :
  (∀ model owner s s', shared_plugin p c (trim_space owner) -> sound (held s) -> ensureRateLimit p c model owner s = (Ok tt, s') ->
     covers (held s') (trim_space model) (trim_space owner)) ∧
  (∀ o model owner, shared_plugin p c o -> moves (held_keeps o) (ensureRateLimit p c model owner)) ∧
  (∀ o owner, shared_plugin p c o -> o ≠ trim_space owner -> moves (held_keeps o) (cleanupRateLimit p c owner)).
Proof.
  split_and!.
  - intros model owner s s' Hs Hg H. destruct (ensure_trimmed p c model owner s) as [[e He]|(Hm & Ho & He)]; [congruence|].
    rewrite He in H. by eapply ensured.
  - intros o model owner Hs s. destruct (ensure_trimmed p c model owner s) as [[e ->]|(Hm & Ho & ->)]; [reflexivity|]. by apply ensure_moves.
  - intros o owner Hs Hne. unfold cleanupRateLimit. apply moves_bind; [typeclasses eauto|moves|]. intros _. by apply cleanup_moves.
Qed.

(** The owner a publication of [d] records, and calls that leave it covered. *)
Definition route_owner (p : HTTPRoutePublisher) (pub : Publication) (d : DesiredRuntime) : string :=
  trim_space (routeOwnerID (routeNamespace p (r_namespace (dr_spec d))) (routeName pub)).
Record shared_gateway (p : HTTPRoutePublisher) (c : GatewayClient) (source : string -> string -> Z -> M St DesiredRuntime) (o : string) : Prop := {
  sg_plugin : shared_plugin p c o;
  sg_source : ∀ tenant service g, moves (held_keeps o) (source tenant service g);
  sg_route : ∀ ns name, moves (held_keeps o) (gr_route (gateway_reader p c) ns name);
  sg_grant : ∀ ns name, moves (held_keeps o) (gr_grant (gateway_reader p c) ns name);
  sg_create : ∀ g, moves (held_keeps o) (gc_create c g) }.
Lemma moves_sound o {A} (m : M St A) r t t' : moves (held_keeps o) m -> m t = (r, t') -> sound (held t) -> sound (held t').
Proof. intros Hm E. specialize (Hm t). rewrite E in Hm. by eapply keeps_sound. Qed.
Lemma read_route_moves p c source o ns name fence : shared_gateway p c source o -> moves (held_keeps o) (read_route p c ns name fence).
Proof. intros Hs. unfold read_route. moves. by eapply sg_route. Qed.
Lemma grant_moves p c source o pub routeNS targetNS backend : shared_gateway p c source o ->
  moves (held_keeps o) (ensureBackendGrant p c pub routeNS targetNS backend).
Proof. intros Hs. unfold ensureBackendGrant. moves; [by eapply sg_grant|by eapply sg_create]. Qed.
Lemma Publish_inv p c source pub s s' : hp_client p = Some c -> hp_source p = Some source -> Publish p pub s = (Ok tt, s') ->
  ∃ d t, source (TenantID pub) (ServiceID pub) (Generation pub) s = (Ok d, t) ∧ publish_desired p c pub d t = (Ok tt, s').
Proof.
  intros Hc Hsrc H. unfold Publish, validate in H. rewrite Hc, Hsrc in H. minv H. minv Hm. injection Hm as <- <-. eauto.
Qed.
(** Claim C17. A route is exposed only behind its limit.  When a publication
    succeeds, the model of the desired generation had its limit in the shared plugin
    at the moment the route was applied, with this route as a recorded owner or
    with an unowned limit that no withdrawal removes; and what was applied is one
    rule, for the model header of exactly this model, that strips the caller's key
    and sends the request to one Service in the namespace of the runtime, on a valid
    port. *)
Theorem route_follows_limit p c source pub s s' : hp_client p = Some c -> hp_source p = Some source ->
  (∀ d, shared_gateway p c source (route_owner p pub d)) -> sound (held s) -> Publish p pub s = (Ok tt, s') ->
  ∃ d t backend port, answered (source (TenantID pub) (ServiceID pub) (Generation pub)) d ∧
    let ns := r_namespace (dr_spec d) in let route_ns := routeNamespace p ns in
    publication_backend (publication_provider p d) pub d = (backend, port) ∧ 1 <= port <= 65535 ∧
    covers (held t) (trim_space (r_served_model (dr_spec d))) (route_owner p pub d) ∧
    gc_apply c (field_owner p "ani-inference-publication")
      (mkRouteManifest (mkMeta (routeName pub) route_ns (publicationLabels pub) ∅) [gateway_parent p]
        [mkRule [mkMatch (routePrefix p) [("x-higress-llm-model", r_served_model (dr_spec d))]] ["x-api-key"]
           [mkBackend backend (if bool_decide (route_ns = ns) then None else Some ns) port]]) t = (Ok tt, s').
Proof.
  intros Hc Hsrc Hlaw Hg H. destruct (Publish_inv _ _ _ _ _ _ Hc Hsrc H) as (d & u & Hd & Hp). specialize (Hlaw d).
  assert (sound (held u)) as Hu by (eapply moves_sound; [by eapply sg_source|done..]).
  unfold publish_desired in Hp. destruct (publication_backend _ _ _) as [backend port] eqn:Eb. minv Hp.
  apply (moves_sound _ _ _ _ _ (read_route_moves _ _ _ _ _ _ _ Hlaw)) in Hm3; [|done].
  assert (sound (held u1)) as Hu1.
  { eapply moves_sound; [|exact Hm4|done]. case_bool_decide; [exact (moves_ret (held_keeps (route_owner p pub d)) tt)|by eapply grant_moves]. }
  destruct a5. destruct (ensure_trimmed p c (r_served_model (dr_spec d)) (routeOwnerID (routeNamespace p (r_namespace (dr_spec d))) (routeName pub)) u1)
    as [[e He]|(Hmb & Hob & He)]; [congruence|]. rewrite He in Hm5.
  exists d, u2, backend, port. split; [by do 2 eexists|]. cbn zeta. split_and!; [done|lia|lia|by eapply ensured; [apply Hlaw|..]|].
  revert Hp. unfold route. by case_bool_decide.
Qed.
End Limits.
#[local] Set Default Proof Using "Type".

Lemma grant_gone p c pub ns s s' : cleanupBackendGrant p c pub ns s = (Ok true, s') ->
  ∃ target t, grant_namespace p pub s = (Ok target, t) ∧
    (target = ns ∧ s' = t ∨ ∃ e, gr_grant (gateway_reader p c) target (routeName pub) t = (Err e, s') ∧ IsNotFound e = true).
Proof.
  unfold cleanupBackendGrant. intros H. minv H. exists a, u. split; [done|]. case_bool_decide as Hns; [injection H as <-; by left|right]. minv H.
  destruct a0 as [grant|e]; [|destruct (IsNotFound e) eqn:E; [injection H as <-; by exists e|done]]. minv H.
  match type of H with match ?r with _ => _ end _ = _ => destruct r as [|e] end; [done|]. by destruct (IsNotFound e).
Qed.
(** Claim C18. A confirmed withdrawal means that nothing serves the publication any
    more, in the order that never leaves an exposed route unlimited.  With a route
    namespace configured, there is one name under which any publication of this
    generation applies its route, whatever its runtime namespace, backend and model.
    A confirmation first asked for the route of that name and was answered that it
    does not exist; in the state after that answer the limit was cleaned up for
    exactly that route; in the state after the clean-up the namespace of the service
    was read; and last the grant in that namespace was answered not to exist, unless
    the route lives in that namespace and never needed one. *)
Theorem withdrawn_means_gone p pub s s' : hp_route_namespace p ≠ "" -> ConfirmWithdrawn p pub s = (Ok true, s') ->
  ∃ c e target gone limited placed, hp_client p = Some c ∧
    let ns := hp_route_namespace p in let name := routeName pub in
    (∀ runtime backend model, let m := rm_meta (route p pub (routeNamespace p runtime) backend model) in
       m_namespace m = ns ∧ m_name m = name) ∧
    gr_route (gateway_reader p c) ns name s = (Err e, gone) ∧ IsNotFound e = true ∧
    cleanupRateLimit p c (routeOwnerID ns name) gone = (Ok tt, limited) ∧
    grant_namespace p pub limited = (Ok target, placed) ∧
    (target = ns ∧ s' = placed ∨
     ∃ e', gr_grant (gateway_reader p c) target name placed = (Err e', s') ∧ IsNotFound e' = true).
Proof.
  intros Hns H. unfold ConfirmWithdrawn, validate in H. destruct (hp_client p) as [c|]; [|by minv H]. minv H. minv Hm. injection Hm as <- <-.
  assert (∀ runtime, routeNamespace p runtime = hp_route_namespace p) as Hr by (intros; unfold routeNamespace; by rewrite bool_decide_eq_false_2).
  rewrite Hr in *. destruct a0 as [|e]; [done|]. destruct (IsNotFound e) eqn:Ee; [|done]. minv H. destruct a.
  apply grant_gone in H as (target & t & Hg & Ht). do 6 eexists. split; [done|]. cbn zeta. split_and!; try eassumption; try done.
  intros runtime backend model. cbn. by rewrite Hr.
Qed.

(** Claim C40. The comment on the provider of a publication says that a persisted
    binding is authoritative while a generation is migrated and that this mirrors
    the runtime router.  The router does follow the binding, the publication follows
    the provider of the desired generation first: in every generation whose provider
    differs from the one of its binding the two disagree, and the route of a
    generation that moves from KServe to a Deployment refers to the Service of the
    Deployment while the router still works on the KServe object. *)
Theorem publication_ignores_binding p pub d bound : provider_of_bindings (dr_bindings d) = Some bound ->
  to_lower (trim_space (r_provider (dr_spec d))) ≠ "" ->
  runtimeProviderForBindings d = bound ∧ publication_provider p d = to_lower (trim_space (r_provider (dr_spec d))) ∧
  (to_lower (trim_space (r_provider (dr_spec d))) = "deployment" ->
     (publication_backend (publication_provider p d) pub d).1 = ServiceID pub +:+ "-endpoint").
Proof.
  intros Hb Hn. assert (publication_provider p d = to_lower (trim_space (r_provider (dr_spec d)))) as Hp.
  { unfold publication_provider. destruct (to_lower _); [done|]. by rewrite bool_decide_eq_false_2 by done. }
  split_and!; [unfold runtimeProviderForBindings; by rewrite Hb|done|]. intros He. by rewrite Hp, He.
Qed.
End Publisher.

(** ** Witnesses: one cluster that keeps its plugin *)
Module Example.
Import Server.Server.Example Render.Render.Example KServe.KServe.Example.
Definition owners_text (m : gmap string (list string)) : string := Schema.BinaryUuid.print_pos (encode m).
Definition parse_text (s : string) : result (gmap string (list string)) :=
  match p ← Schema.BinaryUuid.parse_pos s; decode p with Some m => Ok m | None => Err (errorf "invalid character") end.
Lemma print_pos_rev p : ∃ x, str_rev (Schema.BinaryUuid.print_pos p) = String "1"%char x.
Proof.
  induction p as [p [x IH]|p [x IH]|]; cbn [Schema.BinaryUuid.print_pos]; [rewrite str_rev_cons, IH; by eexists..|by eexists].
Qed.
Lemma print_pos_left p : trim_left (Schema.BinaryUuid.print_pos p) = Schema.BinaryUuid.print_pos p.
Proof. destruct p as [p|p|]; [destruct p as [p|p|]; [destruct p..|]|destruct p as [p|p|]; [destruct p..|]|]; reflexivity. Qed.
Lemma no_space2 d : space2 d "1"%char = false.
Proof. unfold space2. by destruct (is_char 194 d). Qed.
Lemma no_space3 e d : space3 e d "1"%char = false.
Proof. unfold space3. by destruct (is_char 225 e), (is_char 226 e), (is_char 227 e), (is_char 154 d), (is_char 128 d), (is_char 129 d). Qed.
Lemma owners_round_trip (m : gmap string (list string)) : m ≠ ∅ -> parse_text (owners_text m) = Ok m ∧ blank (owners_text m) = false.
Proof.
  intros _. unfold parse_text, owners_text. split.
  - rewrite Schema.BinaryUuid.parse_print_pos. cbn -[encode decode]. by rewrite decode_encode.
  - unfold blank, trim_space. rewrite print_pos_left. destruct (print_pos_rev (encode m)) as [x ->].
    assert (trim_left_rev (String "1"%char x) = String "1"%char x) as ->.
    { by destruct x as [|d [|e x]]; cbn [trim_left_rev]; [|rewrite no_space2..]; [| |rewrite no_space3]. }
    rewrite str_rev_cons. apply bool_decide_eq_false_2. by destruct (str_rev x).
Qed.
#[global] Instance Number_eq_dec : EqDecision Number.
Proof. solve_decision. Defined.
#[global] Instance Entry_eq_dec : EqDecision Entry.
Proof. solve_decision. Defined.
Definition same_plugin (a b : Plugin) : bool :=
  bool_decide (wp_annotations a = wp_annotations b) &&
  match wp_keys a, wp_keys b with Ok x, Ok y => bool_decide (x = y) | _, _ => false end.
Lemma same_plugin_eq a b : same_plugin a b = true -> a = b.
Proof.
  destruct a as [x [k|]], b as [y [l|]]; unfold same_plugin; cbn; intros H; try (by rewrite andb_false_r in H).
  apply andb_true_iff in H as [H1 H2]. apply bool_decide_eq_true in H1, H2. congruence.
Qed.
Definition the_gateway_reader : GatewayReader (St := Plugin) := mkGatewayReader
  (fun _ name s => (Err (NotFound name), s)) (fun _ s => (Ok [], s)) (fun _ name s => (Err (NotFound name), s)) (fun _ _ s => (Ok s, s)).
Definition the_gateway : GatewayClient (St := Plugin) := mkGatewayClient the_gateway_reader (fun _ _ => mret tt) (fun _ => mret tt)
  (fun _ _ _ _ => mret tt) (fun _ _ _ _ => mret tt)
  (fun base target s => if same_plugin base s then (Ok tt, target) else (Err (Conflict "modified"), s)).
Definition the_source (_ _ : string) (_ : Z) : M Plugin DesiredRuntime := mret cpu_desired.
Definition the_publisher : HTTPRoutePublisher := mkPublisher (Some the_gateway) None (Some the_source) None "" "higress-system" "gateway"
  "routes" "http://gateway" "" "" "" "" "".
Definition the_publication : Publication := mkPublication tenant resource "op" 3 "lease" "op" "" "".
Definition the_plugin : Plugin := mkPlugin ∅ (Ok (Some [EObject (Some "fallback") (NInt 1)])).
Lemma plugin_keeps o {A} (m : M Plugin A) : (∀ s, (m s).2 = s) -> moves (held_keeps parse_text map_to_list id o) m.
Proof. intros H s. rewrite H. reflexivity. Qed.
Lemma the_plugin_shared o : shared_plugin parse_text map_to_list id the_publisher the_gateway o.
Proof.
  split; [intros ns name s r s' [= <- <-]; exists s; split_and!; [reflexivity..|by intros ? [= <-]]|intros; by apply plugin_keeps|].
  intros base target s r s'. cbn. destruct (same_plugin base s) eqn:E; intros [= <- <-].
  - apply same_plugin_eq in E as ->. left. split; reflexivity.
  - right. split; [done|reflexivity].
Qed.
Lemma the_gateway_shared o : shared_gateway parse_text map_to_list id the_publisher the_gateway the_source o.
Proof. split; [apply the_plugin_shared|intros; by apply plugin_keeps..]. Qed.
Lemma the_plugin_sound : sound parse_text map_to_list the_plugin.
Proof. exists {["fallback" := 1]}, ∅. split; [by eexists|done|]. intros m l. by rewrite lookup_empty. Qed.
Definition limit_call : M Plugin unit := ensureRateLimit owners_text parse_text map_to_list the_publisher the_gateway "model" "routes/r".
Lemma limit_call_runs : is_ok (limit_call the_plugin).1 = true.
Proof. vm_compute. reflexivity. Qed.
Lemma published_models_stay_limited_witness :
  covers parse_text map_to_list (limit_call the_plugin).2 "model" "routes/r" ∧
  moves (held_keeps parse_text map_to_list id "routes/r") (cleanupRateLimit owners_text parse_text map_to_list the_publisher the_gateway "routes/q").
Proof.
  destruct (published_models_stay_limited owners_text parse_text map_to_list owners_round_trip (fun m => reflexivity _) id the_publisher the_gateway)
    as (H1 & _ & H3). split.
  - pose proof limit_call_runs as Hr. destruct (limit_call the_plugin) as [[[]|e] s'] eqn:E; [|discriminate Hr].
    exact (H1 "model" "routes/r" the_plugin s' (the_plugin_shared _) the_plugin_sound E).
  - apply (H3 "routes/r" "routes/q" (the_plugin_shared _)). vm_compute. discriminate.
Defined.
Definition publish_call : M Plugin unit := Publish sha owners_text parse_text map_to_list the_publisher the_publication.
Lemma publish_call_runs : is_ok (publish_call the_plugin).1 = true.
Proof. vm_compute. reflexivity. Qed.
Lemma route_follows_limit_witness : ∃ s' t d, (publish_call the_plugin).2 = s' ∧
  covers parse_text map_to_list t (trim_space (r_served_model (dr_spec d))) (route_owner sha the_publisher the_publication d).
Proof.
  pose proof publish_call_runs as Hr. destruct (publish_call the_plugin) as [[[]|e] s'] eqn:E; [|discriminate Hr].
  destruct (route_follows_limit sha owners_text parse_text map_to_list owners_round_trip (fun m => reflexivity _) id the_publisher the_gateway the_source
    the_publication the_plugin s' eq_refl eq_refl (fun d => the_gateway_shared _) the_plugin_sound E) as (d & t & b & port & _ & _ & _ & Hc & _).
  exists s', t, d. split; [reflexivity|exact Hc].
Defined.
Definition confirm_call : M Plugin bool := ConfirmWithdrawn sha owners_text parse_text map_to_list the_publisher the_publication.
Lemma confirm_call_answers : (confirm_call the_plugin).1 = Ok true.
Proof. vm_compute. reflexivity. Qed.
Lemma withdrawn_means_gone_witness : ∃ c gone limited, hp_client the_publisher = Some c ∧
  cleanupRateLimit owners_text parse_text map_to_list the_publisher c
    (routeOwnerID (hp_route_namespace the_publisher) (routeName sha the_publication)) gone = (Ok tt, limited).
Proof.
  pose proof confirm_call_answers as Hr. destruct (confirm_call the_plugin) as [r s'] eqn:E. cbn in Hr. subst r.
  destruct (withdrawn_means_gone sha owners_text parse_text map_to_list the_publisher the_publication the_plugin s')
    as (c & e & target & gone & limited & placed & Hc & _ & _ & _ & H & _); [discriminate|exact E|]. exists c, gone, limited. exact (conj Hc H).
Defined.
(** A generation that moves from KServe to a Deployment. *)
Definition moving_desired : DesiredRuntime := cpu_desired <| dr_spec := (dr_spec cpu_desired) <| r_provider := "deployment" |> |>.
Lemma publication_ignores_binding_witness : runtimeProviderForBindings moving_desired = "kserve" ∧
  (publication_backend (publication_provider the_publisher moving_desired) the_publication moving_desired).1 = resource +:+ "-endpoint".
Proof.
  destruct (publication_ignores_binding the_publisher the_publication moving_desired "kserve") as (H1 & _ & H2); [reflexivity|vm_compute; discriminate|].
  split; [exact H1|apply H2; vm_compute; reflexivity].
Defined.
End Example.
End Publisher.
