(* ===== verification/Materializer.v ===== *)
(** * The model materializer

    internal/data/model/materializer.go and GetArtifactDownloadURL of client.go: a
    Job that downloads one artifact of the catalogue into a claim, its observation
    and its removal.  The cluster and the catalogue are records of computations over
    an arbitrary state; a nil client, source or catalogue is [None].  [type_name] is
    the [%T] verb, which keeps the text of an error out of the message, [script] is
    the embedded downloader. *)

From S2P Require Import Prelude GoStrings Operation Gpu Resources Engine Canonical Work Schema Contract WorkStore Reconcile Runner ReconcileStore OperationStore Commands Managed Update Server Intake Render Executor KServe.
Local Open Scope Z_scope.

Module Materializer.
Import Server.Server Intake.Intake Render.Render Executor.Executor KServe.KServe.
Import Runner.Runner.

Definition materializationComponentLabel : string := "ani.kubercloud.com/component".
Definition materializationComponentValue : string := "model-materializer".
Definition artifactAnnotation : string := "ani.kubercloud.com/artifact-sha256".
Definition versionAnnotation : string := "ani.kubercloud.com/model-version-id".
Definition claimUIDAnnotation : string := "ani.kubercloud.com/model-claim-uid".

(** ** Objects *)
Inductive ObjectKind := KJob | KPod | KClaim | KSecret.
#[global] Instance ObjectKind_eq_dec : EqDecision ObjectKind.
Proof. solve_decision. Defined.
(** The image and arguments of a container, and the conditions as type and status. *)
Record JobObject := mkJobObject { jb_meta : ObjectMeta; jb_containers : list (string * list string); jb_conditions : list (string * string) }.
Record ClaimObject := mkClaimObject { cm_meta : ObjectMeta; cm_phase : string }.
Record ClaimManifest := mkClaimManifest { cf_meta : Meta; cf_mode : string; cf_storage : string; cf_class : option string }.
Inductive JobVolume := JClaim (name : string) | JEmptyDir | JConfigMap (name key path : string).
Inductive EnvValue := EText (text : string) | ESecret (name key : string).
Record JobContainer := mkJobContainer {
  jc_name : string; jc_image : string; jc_command : list string; jc_args : list string; jc_mounts : list (string * string * bool);
  jc_requests : list (string * string); jc_limits : list (string * string); jc_env : list (string * EnvValue); jc_security : option ContainerSecurity }.
#[global] Instance JobContainer_eta : Eta JobContainer := fun r =>
  mkJobContainer (jc_name r) (jc_image r) (jc_command r) (jc_args r) (jc_mounts r) (jc_requests r) (jc_limits r) (jc_env r) (jc_security r).
Record JobPod := mkJobPod {
  jp_restart : string; jp_automount : option bool; jp_volumes : list (string * JobVolume); jp_containers : list JobContainer;
  jp_account : string; jp_security : option PodSecurity }.
#[global] Instance JobPod_eta : Eta JobPod := fun r =>
  mkJobPod (jp_restart r) (jp_automount r) (jp_volumes r) (jp_containers r) (jp_account r) (jp_security r).
Record JobManifest := mkJobManifest { jf_meta : Meta; jf_backoff : Z; jf_deadline : Z; jf_labels : gmap string string; jf_pod : JobPod }.

(** ** Sizes *)
(** [float64(z)] of an integer below 2^63 in size: 53 significant bits, ties to even. *)
Definition float64_of (z : Z) : Z :=
  let m := Z.abs z in
  let ulp := 2 ^ (Z.max 0 (Z.log2 m - 52)) in
  let q := m / ulp in let r := m mod ulp in
  let q := if (ulp <? 2 * r) || ((2 * r =? ulp) && Z.odd q) then q + 1 else q in
  Z.sgn z * (q * ulp).
Definition pvc_gi (bytes : Z) : Z :=
  let need := - (- float64_of (int64 (bytes * 2)) / 2 ^ 30) in
  if need <? 1 then 1 else need.
Definition pvcSize (bytes : Z) : string := if bytes <=? 0 then "1Gi" else format_int (pvc_gi bytes) +:+ "Gi".
Definition materializationAccessMode (storageClass : string) : string :=
  let storageClass := trim_space storageClass in
  if bool_decide (storageClass = "") || bool_decide (to_lower storageClass = "local-path") then "ReadWriteOnce" else "ReadWriteMany".

(** ** Ownership *)
(** [for k, v := range want { if have[k] != v ... }]. *)
Definition agrees_on (want have : gmap string string) : bool :=
  forallb (fun kv => bool_decide (label have kv.1 = kv.2)) (map_to_list want).
Definition owned (labels annotations : gmap string string) (m : ObjectMeta) : result unit :=
  _ ← checkr (agrees_on labels (o_labels m)) (errorf "materialization object ownership mismatch");
  _ ← checkr (agrees_on annotations (o_annotations m)) (errorf "materialization artifact identity mismatch");
  checkr (negb (o_deleting m)) (errorf "materialization object is terminating").
Definition isMaterializationObject (m : ObjectMeta) : bool :=
  bool_decide (label (o_labels m) materializationComponentLabel = materializationComponentValue) ||
  negb (bool_decide (label (o_annotations m) versionAnnotation = "")).
Definition podJobName (m : ObjectMeta) : string :=
  let name := label (o_labels m) "batch.kubernetes.io/job-name" in
  if bool_decide (name = "") then label (o_labels m) "job-name" else name.
Definition isMaterializationPod (jobNames jobUIDs : list string) (m : ObjectMeta) : bool :=
  let name := podJobName m in
  isMaterializationObject m ||
  (negb (bool_decide (name = "")) && (bool_decide (name ∈ jobNames) || has_suffix name "-fetch")) ||
  existsb (fun o => bool_decide (ow_uid o ∈ jobUIDs)) (o_owners m).
Definition ensureMaterializationOwnership (m job : ObjectMeta) (name namespace : string) : result unit :=
  _ ← checkr (bool_decide (o_namespace m = namespace) &&
              (bool_decide (o_name m = name) || bool_decide (o_name m = name +:+ "-download") || bool_decide (o_name m = name +:+ "-fetch")))
        (errorf "materialization reset object identity mismatch");
  _ ← checkr (agrees_on (o_labels job) (o_labels m)) (errorf "materialization reset object ownership mismatch");
  checkr (agrees_on (delete claimUIDAnnotation (o_annotations job)) (o_annotations m)) (errorf "materialization reset object identity mismatch").
(** The first condition that is true and ends a Job. *)
Fixpoint job_outcome (conditions : list (string * string)) : option string :=
  match conditions with
  | [] => None
  | (kind, st) :: rest =>
      if bool_decide (st = "True") && (bool_decide (kind = "Complete") || bool_decide (kind = "Failed")) then Some kind else job_outcome rest
  end.

(** *** Bounds *)
Lemma float64_exact z : 0 < z <= 2 ^ 53 -> float64_of z = z.
Proof.
  intros Hz. destruct (decide (z = 2 ^ 53)) as [->|Hne]; [reflexivity|]. unfold float64_of. rewrite Z.abs_eq, Z.sgn_pos by lia.
  assert (Z.log2 z <= 52) as Hl by (assert (Z.log2 z < 53); [apply Z.log2_lt_pow2; lia|lia]).
  rewrite Z.max_l by lia. change (2 ^ 0) with 1. rewrite Z.mod_1_r, Z.div_1_r. destruct (_ || _) eqn:E; [discriminate E|lia].
Qed.
Lemma float64_nonpos z : z <= 0 -> float64_of z <= 0.
Proof.
  intros Hz. unfold float64_of. set (ulp := 2 ^ _). assert (0 < ulp) as Hu by (apply Z.pow_pos_nonneg; lia).
  assert (0 <= Z.abs z / ulp) as Hq by (apply Z.div_pos; lia). set (q := Z.abs z / ulp) in *.
  assert (0 <= (if (ulp <? 2 * (Z.abs z mod ulp)) || ((2 * (Z.abs z mod ulp) =? ulp) && Z.odd q) then q + 1 else q)) as Hq' by (destruct (_ || _); lia).
  destruct (decide (z = 0)) as [->|]; [cbn; lia|]. rewrite Z.sgn_neg by lia. nia.
Qed.
(** The claim of a model fits its archive and its unpacked files.  For every
    artifact up to 4 PiB it asks for the least number of gibibytes that holds twice the
    artifact; beyond, the size stays positive, and where doubling the size overflows
    64 bits, from 4 EiB on, it falls back to one gibibyte. *)
Theorem claim_fits_artifact bytes : 0 < bytes < 2 ^ 63 -> pvcSize bytes = format_int (pvc_gi bytes) +:+ "Gi" ∧ 1 <= pvc_gi bytes ∧
  (bytes <= 2 ^ 52 -> 2 * bytes <= pvc_gi bytes * 2 ^ 30 < 2 * bytes + 2 ^ 30) ∧
  (2 ^ 62 <= bytes -> pvc_gi bytes = 1).
Proof.
  intros Hb. split; [unfold pvcSize; by rewrite (proj2 (Z.leb_gt _ _)) by lia|]. unfold pvc_gi. split_and!.
  - destruct (_ <? _) eqn:E; lia.
  - intros Hs. assert (int64 (bytes * 2) = bytes * 2) as -> by (unfold int64; rewrite Z.mod_small; lia). rewrite float64_exact by lia.
    pose proof (Z.div_mod (- (bytes * 2)) (2 ^ 30) ltac:(lia)) as Hd. pose proof (Z.mod_pos_bound (- (bytes * 2)) (2 ^ 30) ltac:(lia)).
    destruct (_ <? 1) eqn:E; nia.
  - intros Ho. assert (int64 (bytes * 2) <= 0) as Hn.
    { unfold int64. replace (bytes * 2 + 2 ^ 63) with ((bytes * 2 - 2 ^ 63) + 1 * 2 ^ 64) by lia. rewrite Z.mod_add, Z.mod_small; lia. }
    apply float64_nonpos in Hn. assert (0 <= - float64_of (int64 (bytes * 2)) / 2 ^ 30) by (apply Z.div_pos; lia).
    destruct (_ <? 1) eqn:E; lia.
Qed.

Section Materializer.
Context {St : Type} (sha256_hex : string -> string) (type_name : goerr -> string) (script : string).
(** Scheme and host of a URL; the current time. *)
Context (parse_url : string -> option (string * string)) (now : M St Z).

Record JobReader := mkJobReader {
  jr_job : string -> string -> M St JobObject; jr_claim : string -> string -> M St ClaimObject; jr_secret : string -> string -> M St ObjectMeta;
  jr_list : ObjectKind -> string -> gmap string string -> M St (list ObjectMeta) }.
Record JobClient := mkJobClient {
  jk_reader : JobReader;
  jk_create_claim : ClaimManifest -> M St string;                     (* answers the UID *)
  jk_create_secret : Meta -> string -> M St unit;
  jk_update_secret : ObjectMeta -> string -> M St unit;
  jk_create_job : JobManifest -> M St unit;
  jk_delete : ObjectKind -> ObjectMeta -> option string -> bool -> M St unit }.   (* UID precondition, foreground *)
(** The answer of GetModelDownloadURL; no expiry where it is missing or invalid. *)
Record DownloadReply := mkDownloadReply { dl_url : string; dl_path : string; dl_expires : option Z }.
Record Catalog := mkCatalog {
  ct_version : option (string -> string -> M St (option ModelVersion * list string));
  ct_download : option (string -> string -> string -> M St DownloadReply) }.
Definition GetArtifactDownloadURL (c : Catalog) (tenant version requester : string) : M St (string * string) :=
  match ct_download c with
  | None => throw (FailedPrecondition "Model client is not configured")
  | Some get =>
      _ ← check (negb (bool_decide (tenant = "") || bool_decide (version = ""))) (InvalidArgument "tenant and model version ID are required");
      r ← get tenant version requester;
      match dl_expires r with
      | None => throw (status "DataLoss" "Model returned invalid expiry")
      | Some exp =>
          t ← now;
          _ ← check (match parse_url (dl_url r) with
                     | None => false
                     | Some (scheme, host) => (bool_decide (scheme = "http") || bool_decide (scheme = "https")) && negb (bool_decide (host = ""))
                     end && negb (bool_decide (dl_path r = "")) && (t <? exp)) (status "DataLoss" "Model returned invalid or expired download URL");
          mret (dl_url r, dl_path r)
      end
  end.
Record Materializer := mkMaterializer {
  mz_catalog : option Catalog; mz_source : option (string -> string -> Z -> M St DesiredRuntime); mz_client : option JobClient;
  mz_reader : option JobReader; mz_class : string; mz_image : string; mz_namespace : string; mz_account : string; mz_ca : string; mz_ca_key : string }.
Definition job_reader (m : Materializer) (c : JobClient) : JobReader := default (jk_reader c) (mz_reader m).
Definition not_configured : goerr := errorf "model materializer dependencies are not configured".

(** ** Ensuring *)
Definition job_labels (op : OperationContext) : gmap string string :=
  <[tenantIDLabel := TenantID op]> (<[serviceIDLabel := ServiceID op]> (<[generationLabel := format_int (TargetGeneration op)]>
    {[materializationComponentLabel := materializationComponentValue]})).
Definition job_annotations (spec : RuntimeSpec) : gmap string string :=
  <[artifactAnnotation := r_artifact_sha256 spec]> {[versionAnnotation := r_model_version spec]}.
Definition downloader (m : Materializer) (claim secret sha : string) (size : Z) : JobPod :=
  mkJobPod "Never" (Some false) [("model", JClaim claim); ("tmp", JEmptyDir)]
    [mkJobContainer "download" (mz_image m) ["python3"] ["-c"; script] [("model", "/model", false); ("tmp", "/tmp", false)]
       [("cpu", "100m"); ("memory", "128Mi")] [("cpu", "1"); ("memory", "512Mi")]
       [("MODEL_SHA256", EText sha); ("MODEL_MAX_BYTES", EText (format_int size)); ("MODEL_DOWNLOAD_URL", ESecret secret "url")] None] "" None.
Definition with_ca (m : Materializer) (pod : JobPod) : JobPod :=
  if bool_decide (mz_ca m = "") then pod else
  let key := if bool_decide (mz_ca_key m = "") then "ca-certificates.crt" else mz_ca_key m in
  pod <| jp_volumes := jp_volumes pod ++ [("download-ca", JConfigMap (mz_ca m) key "ca-certificates.crt")] |>
      <| jp_containers := on_first (fun c => c <| jc_mounts := jc_mounts c ++ [("download-ca", "/run/model-download-ca", true)] |>
           <| jc_env := jc_env c ++ [("SSL_CERT_FILE", EText "/run/model-download-ca/ca-certificates.crt")] |>) (jp_containers pod) |>.
(** [kube.ApplyNonRootSecurity] on the pod of a Job. *)
Definition job_security (pod : JobPod) : JobPod :=
  pod <| jp_security := Some (mkPodSecurity inferenceRuntimeUID inferenceRuntimeUID true inferenceRuntimeUID "RuntimeDefault") |>
      <| jp_automount := Some false |>
      <| jp_containers := (fun c => c <| jc_security := Some (mkContainerSecurity false ["ALL"]) |>) <$> jp_containers pod |>.
Definition fetch_job (m : Materializer) (namespace name uid : string) (labels annotations : gmap string string) (sha : string) (size : Z) : JobManifest :=
  mkJobManifest (mkMeta (name +:+ "-fetch") namespace labels (<[claimUIDAnnotation := uid]> annotations)) 2 600 labels
    (job_security ((with_ca m (downloader m name (name +:+ "-download") sha size)) <| jp_account := trim_space (mz_account m) |>)).
Definition model_claim (m : Materializer) (namespace name : string) (labels annotations : gmap string string) (size : Z) : ClaimManifest :=
  mkClaimManifest (mkMeta name namespace labels annotations) (materializationAccessMode (mz_class m)) (pvcSize size)
    (if blank (mz_class m) then None else Some (trim_space (mz_class m))).

Definition read_failed (m : Materializer) (c : JobClient) (namespace name : string) (job : ObjectMeta) (what : ObjectKind) : M St (list (ObjectKind * ObjectMeta)) :=
  r ← try (match what with
           | KSecret => jr_secret (job_reader m c) namespace (name +:+ "-download")
           | _ => claim ← jr_claim (job_reader m c) namespace name; mret (cm_meta claim)
           end);
  match r with
  | Err e => if IsNotFound e then mret [] else throw e
  | Ok object => _ ← lift (ensureMaterializationOwnership object job name namespace); mret [(what, object)]
  end.
Definition resetFailedMaterialization (m : Materializer) (c : JobClient) (namespace name : string) (job : ObjectMeta) : M St unit :=
  claims ← read_failed m c namespace name job KClaim;
  secrets ← read_failed m c namespace name job KSecret;
  each (fun o => r ← try (jk_delete c o.1 o.2 None false);
                 match r with Err e => if IsNotFound e then mret tt else throw e | Ok _ => mret tt end)
    ((KJob, job) :: claims ++ secrets).
Definition verified_observation : ModelObservation := mkModelObservation true true "model archive downloaded and checksum verified by Job".
(** The Job that is there: [Some] when it settles the call. *)
Definition observe_job (m : Materializer) (c : JobClient) (namespace name : string) (labels annotations : gmap string string) (job : JobObject)
    : M St (option ModelObservation) :=
  _ ← lift (owned labels annotations (jb_meta job));
  _ ← check (match jb_containers job with [(image, [_; body])] => bool_decide (image = mz_image m) && bool_decide (body = script) | _ => false end)
        (errorf "materialization Job implementation mismatch");
  match job_outcome (jb_conditions job) with
  | None => mret None
  | Some kind =>
      if bool_decide (kind = "Complete") then
        claim ← jr_claim (job_reader m c) namespace name;
        _ ← lift (owned labels annotations (cm_meta claim));
        _ ← check (bool_decide (cm_phase claim = "Bound") && bool_decide (o_uid (cm_meta claim) = label (o_annotations (jb_meta job)) claimUIDAnnotation))
              (errorf "verified model PVC is unavailable or replaced");
        mret (Some verified_observation)
      else _ ← resetFailedMaterialization m c namespace name (jb_meta job); throw (errorf "model download Job failed; reset for retry")
  end.
Definition ensure_claim (m : Materializer) (c : JobClient) (namespace name : string) (labels annotations : gmap string string) (size : Z) : M St string :=
  r ← try (jr_claim (job_reader m c) namespace name);
  match r with
  | Err e => if IsNotFound e then jk_create_claim c (model_claim m namespace name labels annotations size) else throw e
  | Ok claim => _ ← lift (owned labels annotations (cm_meta claim)); mret (o_uid (cm_meta claim))
  end.
(** The error of a failed call is reported by its type only. *)
Definition masked {A} (what : string) (call : M St A) : M St A :=
  r ← try call; match r with Ok a => mret a | Err e => throw (errorf (what +:+ ": " +:+ type_name e)) end.
Definition ensure_secret (m : Materializer) (c : JobClient) (namespace name url : string) (labels annotations : gmap string string) : M St unit :=
  r ← try (jr_secret (job_reader m c) namespace (name +:+ "-download"));
  match r with
  | Err e => if IsNotFound e then masked "create model download credential" (jk_create_secret c (mkMeta (name +:+ "-download") namespace labels annotations) url)
             else throw (errorf ("read model download credential: " +:+ type_name e))
  | Ok secret => _ ← lift (owned labels annotations secret); masked "refresh model download credential" (jk_update_secret c secret url)
  end.
Definition start_download (m : Materializer) (c : JobClient) (catalog : Catalog) (op : OperationContext) (spec : RuntimeSpec) (size : Z) (missing : bool)
    : M St ModelObservation :=
  let namespace := r_namespace spec in let name := ModelClaimName sha256_hex spec in
  let labels := job_labels op in let annotations := job_annotations spec in
  uid ← ensure_claim m c namespace name labels annotations size;
  '(url, path) ← GetArtifactDownloadURL catalog (TenantID op) (r_model_version spec) "inference-materializer";
  _ ← check (bool_decide (path = r_artifact_ref spec) && (has_prefix url "http:" || has_prefix url "https:"))
        (errorf "model download identity or transport mismatch");
  _ ← ensure_secret m c namespace name url labels annotations;
  _ ← (if missing then jk_create_job c (fetch_job m namespace name uid labels annotations (r_artifact_sha256 spec) size) else mret tt);
  mret (mkModelObservation false false "model download Job is pending").
Definition model_scope (op : OperationContext) (spec : RuntimeSpec) : bool :=
  bool_decide (r_tenant spec = TenantID op) && bool_decide (r_service spec = ServiceID op) && (r_generation spec =? TargetGeneration op) &&
  negb (blank (r_namespace spec)) && bool_decide (r_artifact_provider spec = "model") && has_suffix (r_artifact_ref spec) ".tar".
Definition Materializer_EnsureModel (m : option Materializer) (op : OperationContext) : M St ModelObservation :=
  match m with
  | Some (mkMaterializer (Some catalog) (Some source) (Some c) _ _ _ _ _ _ _ as m) =>
      _ ← check (negb (bool_decide (mz_image m = ""))) not_configured;
      _ ← check (negb (bool_decide (ServiceID op = "") || (TargetGeneration op <? 1) || bool_decide (LeaseToken op = "")))
            (errorf "model materializer scope mismatch");
      desired ← source (TenantID op) (ServiceID op) (TargetGeneration op);
      let spec := dr_spec desired in
      _ ← check (model_scope op spec) (errorf "model materializer requires matching model scope and a tar artifact");
      snapshot ← GetReadyVersion (ct_version catalog) (TenantID op) (r_model_version spec);
      _ ← check (bool_decide (ms_artifact_ref snapshot = r_artifact_ref spec) && bool_decide (ms_artifact_sha256 snapshot = r_artifact_sha256 spec))
            (errorf "Model artifact differs from immutable Inference snapshot");
      _ ← check (0 <? ms_size snapshot) (errorf "Model artifact size must be positive");
      let name := ModelClaimName sha256_hex spec in
      r ← try (jr_job (job_reader m c) (r_namespace spec) (name +:+ "-fetch"));
      match r with
      | Err e => if IsNotFound e then start_download m c catalog op spec (ms_size snapshot) true else throw e
      | Ok job =>
          settled ← observe_job m c (r_namespace spec) name (job_labels op) (job_annotations spec) job;
          match settled with
          | Some observation => mret observation
          | None => start_download m c catalog op spec (ms_size snapshot) false
          end
      end
  | _ => throw not_configured
  end.

(** ** Removing *)
Definition materializationListOptions (op : OperationContext) : gmap string string :=
  <[tenantIDLabel := TenantID op]> {[serviceIDLabel := ServiceID op]}.
Definition list_materialization (m : Materializer) (c : JobClient) (op : OperationContext) (namespace verb what : string) (kind : ObjectKind) : M St (list ObjectMeta) :=
  r ← try (jr_list (job_reader m c) kind namespace (materializationListOptions op));
  lift (OperationStore.OperationStore.wrap (verb +:+ " model materialization " +:+ what) r).
Definition deleteMaterializationObject (c : JobClient) (kind : ObjectKind) (object : ObjectMeta) : M St unit :=
  r ← try (jk_delete c kind object (if bool_decide (o_uid object = "") then None else Some (o_uid object)) true);
  match r with
  | Ok _ => mret tt
  | Err e => if IsNotFound e then mret tt
             else throw (errorf_before ("delete model materialization " +:+ o_namespace object +:+ "/" +:+ o_name object) e)
  end.
Definition none_left (left : ObjectMeta -> bool) (objects : list ObjectMeta) : M St unit :=
  check (negb (existsb left objects)) (errorf "model materialization resources are still terminating").
Definition ensureMaterializationAbsent (m : Materializer) (c : JobClient) (op : OperationContext) (namespace : string) : M St unit :=
  jobs ← list_materialization m c op namespace "verify" "jobs" KJob;
  _ ← none_left isMaterializationObject jobs;
  pods ← list_materialization m c op namespace "verify" "pods" KPod;
  _ ← none_left (fun p => isMaterializationObject p || has_suffix (podJobName p) "-fetch") pods;
  claims ← list_materialization m c op namespace "verify" "claims" KClaim;
  _ ← none_left isMaterializationObject claims;
  secrets ← list_materialization m c op namespace "verify" "secrets" KSecret;
  none_left isMaterializationObject secrets.
Definition cleanup_namespace (m : Materializer) (op : OperationContext) : M St string :=
  namespace ← (match mz_source m with
               | None => mret (mz_namespace m)
               | Some source =>
                   desired ← source (TenantID op) (ServiceID op) (TargetGeneration op);
                   let spec := dr_spec desired in
                   _ ← check (bool_decide (r_tenant spec = TenantID op) && bool_decide (r_service spec = ServiceID op) &&
                              (r_generation spec =? TargetGeneration op)) (errorf "model cleanup runtime scope mismatch");
                   mret (r_namespace spec)
               end);
  _ ← check (negb (blank namespace)) (errorf "model cleanup namespace is unavailable");
  mret namespace.
Definition remove_materialization (m : Materializer) (c : JobClient) (op : OperationContext) : M St unit :=
  _ ← check (negb (blank (TenantID op) || blank (ServiceID op))) (errorf "model materializer scope mismatch");
  namespace ← cleanup_namespace m op;
  jobs ← list_materialization m c op namespace "list" "jobs" KJob;
  let jobs := filter (fun o => isMaterializationObject o = true) jobs in
  let jobNames := o_name <$> jobs in
  let jobUIDs := filter (fun uid => uid ≠ "") (o_uid <$> jobs) in
  pods ← list_materialization m c op namespace "list" "pods" KPod;
  let pods := filter (fun o => isMaterializationPod jobNames jobUIDs o = true) pods in
  claims ← list_materialization m c op namespace "list" "claims" KClaim;
  let claims := filter (fun o => isMaterializationObject o = true) claims in
  secrets ← list_materialization m c op namespace "list" "secrets" KSecret;
  let secrets := filter (fun o => isMaterializationObject o = true) secrets in
  _ ← each (deleteMaterializationObject c KJob) jobs;
  _ ← each (deleteMaterializationObject c KPod) pods;
  _ ← each (deleteMaterializationObject c KClaim) claims;
  _ ← each (deleteMaterializationObject c KSecret) secrets;
  ensureMaterializationAbsent m c op namespace.
Definition Materializer_CleanupModel (m : option Materializer) (op : OperationContext) : M St unit :=
  match m with
  | Some m => match mz_client m with Some c => remove_materialization m c op | None => throw not_configured end
  | None => throw not_configured
  end.
(** The materializer as the runner's port. *)
Definition materializer_port (m : option Materializer) : ModelPort St := mkModelPort (Materializer_EnsureModel m) (Materializer_CleanupModel m).

(** ** What a ready model is *)
Lemma agrees_on_lookup want have k v : agrees_on want have = true -> want !! k = Some v -> label have k = v.
Proof.
  unfold agrees_on. intros H Hk. apply Is_true_true in H. apply forallb_True in H. rewrite Forall_forall in H.
  specialize (H (k, v)). cbn in H. apply bool_decide_unpack in H; [done|]. by apply elem_of_map_to_list.
Qed.
(** The object belongs to this service, generation and artifact. *)
Record downloads (op : OperationContext) (spec : RuntimeSpec) (m : ObjectMeta) : Prop := {
  dw_tenant : label (o_labels m) tenantIDLabel = TenantID op;
  dw_service : label (o_labels m) serviceIDLabel = ServiceID op;
  dw_generation : label (o_labels m) generationLabel = format_int (TargetGeneration op);
  dw_artifact : label (o_annotations m) artifactAnnotation = r_artifact_sha256 spec;
  dw_version : label (o_annotations m) versionAnnotation = r_model_version spec;
  dw_stays : o_deleting m = false }.
Lemma owned_downloads op spec m : owned (job_labels op) (job_annotations spec) m = Ok tt -> downloads op spec m.
Proof.
  unfold owned. intros H. minv H. apply negb_true_iff in H.
  split; [eapply agrees_on_lookup; [eassumption|reflexivity]..|done].
Qed.
Lemma terminal_in conditions kind : job_outcome conditions = Some kind -> (kind, "True") ∈ conditions.
Proof.
  induction conditions as [|[k st] rest IH]; cbn; [done|]. destruct (bool_decide (st = "True") && _) eqn:E; [|right; auto].
  intros [= <-]. apply andb_true_iff in E as [E _]. apply bool_decide_eq_true in E as ->. left.
Qed.
(** The Job that downloaded the artifact into the claim, and the claim. *)
Record downloaded (m : Materializer) (op : OperationContext) (spec : RuntimeSpec) (job : JobObject) (claim : ClaimObject) : Prop := {
  dd_job : downloads op spec (jb_meta job);
  dd_claim : downloads op spec (cm_meta claim);
  dd_script : ∃ flag, jb_containers job = [(mz_image m, [flag; script])];
  dd_complete : ("Complete", "True") ∈ jb_conditions job;
  dd_bound : cm_phase claim = "Bound";
  dd_same : o_uid (cm_meta claim) = label (o_annotations (jb_meta job)) claimUIDAnnotation }.
Lemma script_of (containers : list (string * list string)) image :
  match containers with [(i, [_; body])] => bool_decide (i = image) && bool_decide (body = script) | _ => false end = true ->
  ∃ flag, containers = [(image, [flag; script])].
Proof.
  destruct containers as [|[i [|flag [|body [|]]]] [|]]; try discriminate. intros [H1 H2]%andb_true_iff.
  apply bool_decide_eq_true in H1, H2. subst. by exists flag.
Qed.
Lemma lifted {A} (r : result A) (s : St) a s' : lift r s = (Ok a, s') -> r = Ok a ∧ s = s'.
Proof. by intros [= -> ->]. Qed.
Lemma observed_job m c ns name op spec job s o s' :
  observe_job m c ns name (job_labels op) (job_annotations spec) job s = (Ok (Some o), s') ->
  ∃ claim, answered (jr_claim (job_reader m c) ns name) claim ∧ downloaded m op spec job claim.
Proof.
  unfold observe_job. intros H. minv H. destruct a. apply lifted in Hm as [Hj <-].
  destruct (job_outcome (jb_conditions job)) as [kind|] eqn:Et; [|done]. case_bool_decide as Hk; [subst kind|by minv H].
  minv H. apply lifted in Hm1 as [Hc <-]. destruct a1. exists a. split; [by do 2 eexists|]. apply andb_true_iff in Hm2 as [H1 H2].
  apply bool_decide_eq_true in H1, H2. split; [by apply owned_downloads..| |by apply terminal_in|done|done].
  by apply script_of.
Qed.
Lemma pending_not_ready m c catalog op spec size missing s o s' :
  start_download m c catalog op spec size missing s = (Ok o, s') -> MO_Ready o = false.
Proof. unfold start_download. intros H. minv H. destruct a0 as [url path]. minv H. by injection H as <- _. Qed.

(** Claim C14. A model counts as materialized only when it was verified.  When the
    runner leaves the materialization step for the runtime, the artifact recorded for
    the desired generation is still the one of the ready catalogue version, a Job
    labelled with this tenant, service and generation and annotated with this
    checksum and version ran exactly the configured image and the embedded downloader
    and completed, and the claim that Job wrote - the same UID, not a replacement -
    is bound, carries the same labels and is not being deleted. *)
Theorem materialized_means_verified `{U : UuidLib} (r : Runner.Runner St) m op s res s' : Model r = Some (materializer_port m) ->
  step_materialize_model r op s = (Ok res, s') ->
  ∃ mz c catalog source d v job claim,
    m = Some mz ∧ mz_client mz = Some c ∧ mz_catalog mz = Some catalog ∧ mz_source mz = Some source ∧
    answered (source (TenantID op) (ServiceID op) (TargetGeneration op)) d ∧ model_scope op (dr_spec d) = true ∧
    answered (GetReadyVersion (ct_version catalog) (TenantID op) (r_model_version (dr_spec d))) v ∧
    ms_artifact_ref v = r_artifact_ref (dr_spec d) ∧ ms_artifact_sha256 v = r_artifact_sha256 (dr_spec d) ∧
    (let name := ModelClaimName sha256_hex (dr_spec d) in let ns := r_namespace (dr_spec d) in
     answered (jr_job (job_reader mz c) ns (name +:+ "-fetch")) job ∧ answered (jr_claim (job_reader mz c) ns name) claim) ∧
    downloaded mz op (dr_spec d) job claim.
Proof.
  intros Hr H. unfold step_materialize_model, provider in H. rewrite Hr in H. destruct (as_model_store _) as [store|]; [|by minv H].
  minv H. destruct (negb _ || negb _) eqn:Eo; [done|]. clear H. apply orb_false_iff in Eo as [_ Eo]. apply negb_false_iff in Eo.
  cbn in Hm0. unfold Materializer_EnsureModel in Hm0. destruct m as [[[catalog|] [source|] [c|] rd class image ns acc ca cak]|]; try done.
  set (mz := mkMaterializer _ _ _ _ _ _ _ _ _ _) in Hm0. minv Hm0.
  apply andb_true_iff in Hm6 as [Hs1 Hs2]. apply bool_decide_eq_true in Hs1, Hs2.
  destruct a8 as [job|e]; [|destruct (IsNotFound e); [apply pending_not_ready in Hm0; congruence|done]].
  minv Hm0. destruct a8 as [o|]; [|apply pending_not_ready in Hm0; congruence]. apply observed_job in Hm6 as (claim & Hc & Hd).
  exists mz, c, catalog, source, a3, a5, job, claim. split_and!; try done; try (by do 2 eexists). split; [by do 2 eexists|done].
Qed.

(** ** What removal touches *)
Definition of_service (op : OperationContext) (m : ObjectMeta) : Prop :=
  label (o_labels m) tenantIDLabel = TenantID op ∧ label (o_labels m) serviceIDLabel = ServiceID op.
(** Marked as a download; a Pod may also name a Job with the suffix of the download
    Jobs, or name or be owned by a marked Job of the service. *)
Definition removable (op : OperationContext) (kind : ObjectKind) (m : ObjectMeta) : Prop :=
  of_service op m ∧
  (isMaterializationObject m = true ∨
   kind = KPod ∧ (has_suffix (podJobName m) "-fetch" = true ∨
     ∃ job, of_service op job ∧ isMaterializationObject job = true ∧
       (podJobName m = o_name job ∨ ∃ w, w ∈ o_owners m ∧ ow_uid w = o_uid job))).
(** The Pods of the download Jobs among the listed [jobs]. *)
Definition fetch_pod (jobs : list ObjectMeta) (p : ObjectMeta) : Prop :=
  isMaterializationObject p = true ∨
  (podJobName p ≠ "" ∧ (has_suffix (podJobName p) "-fetch" = true ∨
     ∃ job, job ∈ jobs ∧ isMaterializationObject job = true ∧ podJobName p = o_name job)) ∨
  ∃ job w, job ∈ jobs ∧ isMaterializationObject job = true ∧ o_uid job ≠ "" ∧ w ∈ o_owners p ∧ ow_uid w = o_uid job.
Definition precondition (m : ObjectMeta) : option string := if bool_decide (o_uid m = "") then None else Some (o_uid m).
Section Removal.
Context (R : relation St) `{!PreOrder R} (m : Materializer) (c : JobClient) (op : OperationContext).
(** The API server answers a list with objects its selector matches; [R] is kept by
    reads and by deleting what is removable under its UID. *)
Record removal : Prop := {
  rv_source : ∀ source tenant service g, mz_source m = Some source -> moves R (source tenant service g);
  rv_list : ∀ kind ns selector, moves R (jr_list (job_reader m c) kind ns selector);
  rv_selected : ∀ kind ns selector s l s' o k v, jr_list (job_reader m c) kind ns selector s = (Ok l, s') -> o ∈ l ->
    selector !! k = Some v -> label (o_labels o) k = v;
  rv_delete : ∀ kind o, removable op kind o -> moves R (jk_delete c kind o (precondition o) true) }.
Context (Hr : removal).
Lemma listed verb what kind ns s l s' o : list_materialization m c op ns verb what kind s = (Ok l, s') -> o ∈ l -> of_service op o.
Proof.
  unfold list_materialization. intros H Ho. minv H. destruct a as [l'|]; [|done]. apply lifted in H as [[= ->] _].
  split; (eapply rv_selected; [exact Hr|exact Hm|exact Ho|reflexivity]).
Qed.
Lemma list_moves verb what kind ns : moves R (list_materialization m c op ns verb what kind).
Proof. unfold list_materialization. moves. by apply rv_list. Qed.
Lemma delete_moves kind o : removable op kind o -> moves R (deleteMaterializationObject c kind o).
Proof. intros Ho. unfold deleteMaterializationObject. moves. by apply rv_delete. Qed.
Lemma marked_removable kind o : of_service op o -> isMaterializationObject o = true -> removable op kind o.
Proof. intros H1 H2. split; [done|by left]. Qed.
Lemma pod_removable jobs o : (∀ j, j ∈ jobs -> of_service op j ∧ isMaterializationObject j = true) -> of_service op o ->
  isMaterializationPod (o_name <$> jobs) (filter (fun uid => uid ≠ "") (o_uid <$> jobs)) o = true -> removable op KPod o.
Proof.
  intros Hj Ho H. split; [done|]. unfold isMaterializationPod in H. apply orb_true_iff in H as [H|H]; [apply orb_true_iff in H as [H|H]|].
  - by left.
  - right. split; [done|]. apply andb_true_iff in H as [_ H]. apply orb_true_iff in H as [H|H]; [|by left]. right.
    apply bool_decide_eq_true in H. apply list_elem_of_fmap in H as (job & Hn & Hin). destruct (Hj _ Hin). exists job. auto.
  - right. split; [done|]. right. apply existsb_exists in H as (w & Hw%list_elem_of_In & Hu). apply bool_decide_eq_true in Hu.
    apply list_elem_of_filter in Hu as [_ Hu]. apply list_elem_of_fmap in Hu as (job & Hn & Hin). destruct (Hj _ Hin). exists job. split_and!; [done..|].
    right. by exists w.
Qed.
Lemma absent_moves ns : moves R (ensureMaterializationAbsent m c op ns).
Proof. unfold ensureMaterializationAbsent, none_left. moves; apply list_moves. Qed.
Lemma namespace_moves : moves R (cleanup_namespace m op).
Proof. unfold cleanup_namespace. moves. by eapply rv_source. Qed.
Lemma each_delete_moves kind l : (∀ o, o ∈ l -> removable op kind o) -> moves R (each (deleteMaterializationObject c kind) l).
Proof. intros H. apply moves_each_in; [done|]. intros o Ho. by apply delete_moves, H. Qed.
Lemma materializer_cleanup_moves : moves R (remove_materialization m c op).
Proof.
  unfold remove_materialization. apply moves_bind; [done|moves|]. intros _.
  apply moves_bind; [done|apply namespace_moves|]. intros namespace.
  apply moves_bind_value; [done|apply list_moves|]. intros s1 jobs t1 H1. cbv zeta.
  apply moves_bind_value; [done|apply list_moves|]. intros s2 pods t2 H2.
  apply moves_bind_value; [done|apply list_moves|]. intros s3 claims t3 H3.
  apply moves_bind_value; [done|apply list_moves|]. intros s4 secrets t4 H4.
  assert (∀ kind (l : list ObjectMeta), (∀ o, o ∈ l -> of_service op o) -> ∀ o, o ∈ filter (λ o, isMaterializationObject o = true) l -> removable op kind o) as Hmark.
  { intros kind l Hl o [Hm Ho]%list_elem_of_filter. apply marked_removable; auto. }
  apply moves_bind; [done|apply each_delete_moves, Hmark; intros o; by apply (listed _ _ _ _ _ _ _ _ H1)|intros _].
  apply moves_bind; [done|apply each_delete_moves|intros _].
  { intros o [Hm Ho]%list_elem_of_filter. eapply pod_removable; [|by apply (listed _ _ _ _ _ _ _ _ H2)|exact Hm].
    intros j [Hj Hin]%list_elem_of_filter. split; [by apply (listed _ _ _ _ _ _ _ _ H1)|done]. }
  apply moves_bind; [done|apply each_delete_moves, Hmark; intros o; by apply (listed _ _ _ _ _ _ _ _ H3)|intros _].
  apply moves_bind; [done|apply each_delete_moves, Hmark; intros o; by apply (listed _ _ _ _ _ _ _ _ H4)|intros _]. apply absent_moves.
Qed.
End Removal.
(** *** A successful removal, state by state *)
(** The cluster was asked to delete each object of the list under the UID it was
    listed with, and answered that it will, or that the object is gone. *)
Fixpoint deletions (c : JobClient) (kind : ObjectKind) (l : list ObjectMeta) (s s' : St) : Prop :=
  match l with
  | [] => s = s'
  | o :: l => ∃ r t, jk_delete c kind o (precondition o) true s = (r, t) ∧
      (r = Ok tt ∨ ∃ e, r = Err e ∧ IsNotFound e = true) ∧ deletions c kind l t s'
  end.
(** The four kinds listed one after the other. *)
Record listing (m : Materializer) (c : JobClient) (op : OperationContext) (ns : string)
    (jobs pods claims secrets : list ObjectMeta) (s s' : St) : Prop := {
  li_chain : let ask kind := jr_list (job_reader m c) kind ns (materializationListOptions op) in
    ∃ s1 s2 s3, ask KJob s = (Ok jobs, s1) ∧ ask KPod s1 = (Ok pods, s2) ∧ ask KClaim s2 = (Ok claims, s3) ∧
      ask KSecret s3 = (Ok secrets, s') }.
Definition marked (l : list ObjectMeta) : list ObjectMeta := filter (fun o => isMaterializationObject o = true) l.
(** List, delete what is found, list again and find nothing marked. *)
Record removed (m : Materializer) (c : JobClient) (op : OperationContext) (s s' : St) : Prop := {
  rm_run : ∃ ns s1 s2 s3 s4 s5 s6 jobs pods claims secrets doomed jobs' pods' claims' secrets',
    cleanup_namespace m op s = (Ok ns, s1) ∧
    listing m c op ns jobs pods claims secrets s1 s2 ∧
    (∀ p, p ∈ doomed <-> p ∈ pods ∧ fetch_pod jobs p) ∧
    deletions c KJob (marked jobs) s2 s3 ∧ deletions c KPod doomed s3 s4 ∧
    deletions c KClaim (marked claims) s4 s5 ∧ deletions c KSecret (marked secrets) s5 s6 ∧
    listing m c op ns jobs' pods' claims' secrets' s6 s' ∧
    (∀ o, o ∈ jobs' ++ pods' ++ claims' ++ secrets' -> isMaterializationObject o = false) ∧
    (∀ p, p ∈ pods' -> has_suffix (podJobName p) "-fetch" = false) }.

Lemma list_answered m c op ns verb what kind s l s' : list_materialization m c op ns verb what kind s = (Ok l, s') ->
  jr_list (job_reader m c) kind ns (materializationListOptions op) s = (Ok l, s').
Proof.
  unfold list_materialization. intros H. minv H. destruct a as [l'|]; [|done].
  apply lifted in H as [[= ->] <-]. done.
Qed.
Lemma deletions_ok c kind l s s' : each (deleteMaterializationObject c kind) l s = (Ok tt, s') -> deletions c kind l s s'.
Proof.
  revert s. induction l as [|o l IH]; intros s H; cbn in H; [by injection H as ->|]. minv H. destruct a.
  unfold deleteMaterializationObject in Hm. minv Hm.  cbn. exists a, u. unfold precondition.
  destruct a as [[]|e].
  - injection Hm as <-. split_and!; [done|by left|by apply IH].
  - destruct (IsNotFound e) eqn:E; [|done]. injection Hm as <-. split_and!; [done|right; by exists e|by apply IH].
Qed.
Lemma none_left_ok left objects s u s' : none_left left objects s = (Ok u, s') -> s = s' ∧ ∀ o, o ∈ objects -> left o = false.
Proof.
  intros [H ->]%check_ok_inv. split; [done|]. intros o Ho. apply negb_true_iff in H. destruct (left o) eqn:E; [|done]. rewrite <- H. symmetry.
  apply existsb_exists. exists o. split; [by apply list_elem_of_In|done].
Qed.
Lemma absent_answers m c op ns s u s' : ensureMaterializationAbsent m c op ns s = (Ok u, s') ->
  ∃ jobs pods claims secrets, listing m c op ns jobs pods claims secrets s s' ∧
    (∀ o, o ∈ jobs ++ pods ++ claims ++ secrets -> isMaterializationObject o = false) ∧
    (∀ p, p ∈ pods -> has_suffix (podJobName p) "-fetch" = false).
Proof.
  unfold ensureMaterializationAbsent. intros H. minv H.
  apply none_left_ok in Hm0 as [<- N1], Hm2 as [<- N2], Hm4 as [<- N3], H as [<- N4]. cbn in N2.
  apply list_answered in Hm, Hm1, Hm3, Hm5. exists a, a1, a3, a5. split_and!.
  - split. eauto 8.
  - intros o. rewrite !elem_of_app. intros [?|[Ho|[?|?]]]; auto. by apply N2, orb_false_iff in Ho as [? _].
  - intros p Hp. by apply N2, orb_false_iff in Hp as [_ ?].
Qed.
Lemma fetch_pod_iff jobs p :
  isMaterializationPod (o_name <$> marked jobs) (filter (fun uid => uid ≠ "") (o_uid <$> marked jobs)) p = true <-> fetch_pod jobs p.
Proof.
  unfold isMaterializationPod, fetch_pod, marked. rewrite !orb_true_iff, andb_true_iff, orb_true_iff, negb_true_iff, bool_decide_eq_false, bool_decide_eq_true, existsb_exists.
  rewrite list_elem_of_fmap. setoid_rewrite bool_decide_eq_true. setoid_rewrite list_elem_of_filter. setoid_rewrite list_elem_of_fmap.
  setoid_rewrite list_elem_of_filter. setoid_rewrite <- list_elem_of_In. split.
  - intros [[H|(H1 & [(job & H2 & H3 & H4)|H2])]|(w & Hw & H1 & job & H2 & H3 & H4)]; [by left|right; left; eauto 8|right; left; by auto|].
    right. right. exists job, w. rewrite <- H2. done.
  - intros [H|[(H1 & [H2|(job & H2 & H3 & H4)])|(job & w & H1 & H2 & H3 & H4 & H5)]]; [by left; left|left; right; by auto|left; right; eauto 8|].
    right. exists w. rewrite H5. split; [done|]. split; [done|]. exists job. done.
Qed.

(** Claim C15. Removing a service removes its downloads and nothing else.  Whatever
    relation the deletion of removable objects respects, the whole clean-up respects,
    successful or not: every object it deletes carries the labels of this tenant and
    service, and is marked as a materialization object, or is a Pod that names a Job
    ending in -fetch, or a Pod that names or is owned by a marked Job; it is deleted
    under the UID it was listed with, when it has one.  A successful clean-up listed,
    in the namespace of the service, the Jobs, Pods, claims and Secrets of the
    service; then every marked one of them and every Pod of a download Job had its
    deletion accepted or was answered gone; and then, asked again last, the cluster
    listed no marked Job, Pod, claim or Secret and no Pod that names a Job ending in
    -fetch.  (A Pod tied to a marked Job in another way is deleted, but the second
    listing is not checked for it.) *)
Theorem cleanup_removes_downloads (R : relation St) `{!PreOrder R} m c op : mz_client m = Some c -> removal R m c op ->
  moves R (Materializer_CleanupModel (Some m) op) ∧
  ∀ s s', Materializer_CleanupModel (Some m) op s = (Ok tt, s') -> removed m c op s s'.
Proof.
  intros Hc Hr. cbn. rewrite Hc. split; [by apply materializer_cleanup_moves|]. intros s s' H. unfold remove_materialization in H. cbv zeta in H.
  minv H. apply absent_answers in H as (jobs' & pods' & claims' & secrets' & Hl & Hn & Hf).
  destruct a5, a6, a7, a8. apply list_answered in Hm1, Hm2, Hm3, Hm4. apply deletions_ok in Hm5, Hm6, Hm7, Hm8. split.
  eexists a0, _, _, _, _, _, _, a1, a2, a3, a4, _, jobs', pods', claims', secrets'.
  split; [eassumption|]. split; [split; eauto 8|]. split_and!; try eassumption. cbn beta. intros p. rewrite list_elem_of_filter, fetch_pod_iff. split; by intros [? ?].
Qed.
End Materializer.

(** ** Witnesses: a cluster as the list of its objects *)
Module Example.
Import Server.Server.Example Render.Render.Example KServe.KServe.Example.
#[local] Existing Instance Server.Server.Example.uuids.
Definition Objects : Type := list (ObjectKind * ObjectMeta).
Definition the_spec : RuntimeSpec := (cpu_spec "deployment") <| r_tenant := tenant |> <| r_service := resource |> <| r_generation := 3 |>
  <| r_namespace := namespace |> <| r_artifact_provider := "model" |> <| r_artifact_ref := "bucket/model.tar" |>
  <| r_artifact_sha256 := Gpu.sample_digest |> <| r_model_version := "v1" |>.
Definition the_model : DesiredRuntime := cpu_desired <| dr_spec := the_spec |>.
Definition the_meta (kind name uid : string) (more : gmap string string) : ObjectMeta :=
  mkObjectMeta kind namespace name uid "1" (job_labels the_operation) (more ∪ job_annotations the_spec) false 1 [].
Definition the_name : string := ModelClaimName sha the_spec.
Definition done_job : JobObject := mkJobObject (the_meta "Job" (the_name +:+ "-fetch") "j1" {[claimUIDAnnotation := "c1"]})
  [("downloader", ["-c"; "script"])] [("Complete", "True")].
Definition the_claim : ClaimObject := mkClaimObject (the_meta "PersistentVolumeClaim" the_name "c1" ∅) "Bound".
Definition other_object : ObjectMeta := mkObjectMeta "Secret" namespace "other" "o1" "1" (materializationListOptions the_operation) ∅ false 1 [].
Definition selected (kind : ObjectKind) (ns : string) (selector : gmap string string) (s : Objects) : list ObjectMeta :=
  snd <$> filter (fun x => x.1 = kind ∧ o_namespace x.2 = ns ∧ map_Forall (fun k v => label (o_labels x.2) k = v) selector) s.
#[global] Instance OwnerRef_eq_dec : EqDecision OwnerRef.
Proof. solve_decision. Defined.
#[global] Instance ObjectMeta_eq_dec : EqDecision ObjectMeta.
Proof. solve_decision. Defined.
Definition the_job_reader : JobReader (St := Objects) := mkJobReader (fun _ _ s => (Ok done_job, s)) (fun _ _ s => (Ok the_claim, s))
  (fun _ name s => (Err (NotFound name), s)) (fun kind ns selector s => (Ok (selected kind ns selector s), s)).
Definition the_job_client : JobClient (St := Objects) := mkJobClient the_job_reader (fun _ => mret "c1") (fun _ _ => mret tt) (fun _ _ => mret tt) (fun _ => mret tt)
  (fun kind o _ _ s => (Ok tt, filter (fun x => x ≠ (kind, o)) s)).
Definition the_catalog : Catalog (St := Objects) := mkCatalog
  (Some (fun _ version => mret (Some (mkModelVersion version "model" "ready" Gpu.sample_digest "bucket/model.tar" 1000), []))) None.
Definition the_materializer : Materializer (St := Objects) := mkMaterializer (Some the_catalog) (Some (fun _ _ _ => mret the_model)) (Some the_job_client) None
  "" "downloader" "" "" "" "".
Definition the_store : OperationStore Objects := mkOperationStore (fun _ => mret the_operation) (fun _ => mret tt) (fun _ _ => mret tt) (fun _ => mret tt)
  (fun _ => mret tt) (fun _ _ => mret tt) None (Some (mkModelObservationStore (fun _ => mret tt) (fun _ _ => mret tt))) None None.
Definition the_port : ModelPort Objects :=
  materializer_port sha error_text "script" (fun _ => None) (mret 0) (Some the_materializer).
Definition the_runner : Runner.Runner Objects := mkRunner the_store None (Some the_port) None None None None None None 0 (mret "").
Lemma step_runs : is_ok (step_materialize_model the_runner the_operation []).1 = true.
Proof. vm_compute. reflexivity. Qed.
Lemma materialized_means_verified_witness : ∃ job claim, downloaded "script" the_materializer the_operation the_spec job claim.
Proof.
  pose proof step_runs as Hr. destruct (step_materialize_model the_runner the_operation []) as [[res|] s'] eqn:E; [|discriminate Hr].
  destruct (materialized_means_verified sha error_text "script" (fun _ => None) (mret 0) the_runner (Some the_materializer) the_operation [] res s' eq_refl E)
    as (mz & c & catalog & source & d & v & job & claim & Em & _ & _ & Es & (t & t' & Hd) & _ & _ & _ & _ & _ & H).
  injection Em as <-. injection Es as <-. injection Hd as <- _. exists job, claim. exact H.
Defined.

Definition keeps_others (s t : Objects) : Prop := ∀ x, x ∈ s -> ¬ removable the_operation x.1 x.2 -> x ∈ t.
#[global] Instance keeps_others_preorder : PreOrder keeps_others.
Proof. split; [by intros s x|]. intros s t u H1 H2 x Hx Hn. auto. Qed.
Lemma the_removal : removal keeps_others the_materializer the_job_client the_operation.
Proof.
  split.
  - intros source t sv g [= <-] s. reflexivity.
  - intros kind ns selector s. reflexivity.
  - intros kind ns selector s l s' o k v [= <- <-] (x & -> & Hx)%list_elem_of_fmap Hk. apply list_elem_of_filter in Hx as [(_ & _ & Hx) _].
    exact (Hx k v Hk).
  - intros kind o Ho s x Hx Hn. apply list_elem_of_filter. split; [|done]. intros ->. by apply Hn.
Qed.
(** A Pod known as a download only by the Job that owns it. *)
Definition fetch_pod_object : ObjectMeta :=
  mkObjectMeta "Pod" namespace "fetch-x" "p1" "1" (materializationListOptions the_operation) ∅ false 1 [mkOwner "batch/v1" "Job" (the_name +:+ "-fetch") "j1" true].
Definition the_objects : Objects :=
  [(KJob, jb_meta done_job); (KPod, fetch_pod_object); (KClaim, cm_meta the_claim); (KSecret, other_object)].
Lemma cleanup_runs : is_ok (Materializer_CleanupModel (Some the_materializer) the_operation the_objects).1 = true.
Proof. vm_compute. reflexivity. Qed.
Lemma other_not_removable : ¬ removable the_operation KSecret other_object.
Proof. intros [_ [H|[H _]]]; [vm_compute in H; discriminate H|discriminate H]. Qed.
(** The downloads are gone, the other Secret stays. *)
Lemma cleanup_removes_downloads_witness :
  let s' := (Materializer_CleanupModel (Some the_materializer) the_operation the_objects).2 in
  (KSecret, other_object) ∈ s' ∧ s' = [(KSecret, other_object)] ∧ removed the_materializer the_job_client the_operation the_objects s'.
Proof.
  destruct (cleanup_removes_downloads keeps_others the_materializer the_job_client the_operation eq_refl the_removal) as [H1 H2]. split; [|split].
  - apply (H1 the_objects (KSecret, other_object)); [|exact other_not_removable]. right. right. right. left.
  - vm_compute. reflexivity.
  - pose proof cleanup_runs as Hr. destruct (Materializer_CleanupModel (Some the_materializer) the_operation the_objects) as [[[]|] s'] eqn:E; [|discriminate Hr].
    exact (H2 the_objects s' E).
Defined.
Lemma claim_fits_artifact_witness : pvc_gi (3 * 2 ^ 30) = 6 ∧ pvc_gi (2 ^ 62) = 1.
Proof.
  split.
  - destruct (claim_fits_artifact (3 * 2 ^ 30)) as (_ & _ & H & _); [lia|]. specialize (H ltac:(lia)). lia.
  - destruct (claim_fits_artifact (2 ^ 62)) as (_ & _ & _ & H); [lia|]. apply H. lia.
Defined.
End Example.
End Materializer.
