(* ===== verification/AccessKey.v ===== *)
(** * Access keys

    internal/biz/accesskey (credentials: secrets, hashes, the recoverable
    ciphertext and the authorization check) and internal/data/postgres/access_key.go
    (their rows, audit events and rate buckets).  Go times are nanoseconds since
    the epoch, the columns microseconds.  Randomness, AES-GCM and Argon2id are
    parameters. *)

From S2P Require Import Prelude GoStrings Base64 Operation Gpu Resources Engine Work Schema WorkStore Reconcile Runner ReconcileStore OperationStore Commands.
From Stdlib Require Import Ascii.
Local Open Scope Z_scope.

Module AccessKey.
Import Schema WorkStore ReconcileStore OperationStore.

(** ** Errors and records *)
Definition ErrNotFound : goerr := ENew "accesskey.ErrNotFound" "inference access key not found".
Definition ErrInvalidInput : goerr := ENew "accesskey.ErrInvalidInput" "invalid inference access key input".
Definition ErrAlreadyRevoked : goerr := ENew "accesskey.ErrAlreadyRevoked" "inference access key is already revoked".
Definition ErrIdempotencyReplay : goerr :=
  ENew "accesskey.ErrIdempotencyReplay" "inference access key idempotency replay".
Definition ErrSecretUnavailable : goerr :=
  ENew "accesskey.ErrSecretUnavailable" "inference access key secret is unavailable".
Definition notConfigured (what : string) : goerr := errorf ("inference access-" +:+ what +:+ " is not configured").

(** [accesskey.Record]. *)
Record KeyRecord := mkKeyRecord {
  TenantID : string; ID : string; Name : string; KeyPrefix : string; SecretHash : string; HashVersion : string;
  PolicyID : string; SecretCiphertext : string; Secret : string; AllowedServiceIDs : list string;
  AllowedModelNames : list string; RequestsPerSecond : Z; RequestsPerMinute : Z; RequestsPerHour : Z;
  ExpiresAt : option Z; RevokedAt : option Z; CreatedBy : string; CreatedAt : Z; LastUsedAt : option Z;
  Version : Z; CreateIdempotencyKey : string; RotationIdempotency : string }.
#[global] Instance KeyRecord_eta : Eta KeyRecord := fun r =>
  mkKeyRecord (TenantID r) (ID r) (Name r) (KeyPrefix r) (SecretHash r) (HashVersion r) (PolicyID r)
    (SecretCiphertext r) (Secret r) (AllowedServiceIDs r) (AllowedModelNames r) (RequestsPerSecond r)
    (RequestsPerMinute r) (RequestsPerHour r) (ExpiresAt r) (RevokedAt r) (CreatedBy r) (CreatedAt r)
    (LastUsedAt r) (Version r) (CreateIdempotencyKey r) (RotationIdempotency r).
Record PersistResult := mkPersistResult { PR_Record : KeyRecord; PR_Replayed : bool }.
Record RotatePersistInput := mkRotatePersistInput {
  RI_KeyPrefix : string; RI_SecretHash : string; RI_HashVersion : string; RI_SecretCiphertext : string;
  RI_Idempotency : string; RI_Actor : string; RI_RequestID : string }.
Record ListOptions := mkListOptions { LO_Limit : Z; LO_Offset : Z; LO_ServedModelName : string }.

(** ** Columns *)
(** [timestamptz] keeps microseconds. *)
Definition to_column (ns : Z) : Z := ns / 1000.
Definition of_column (us : Z) : Z := us * 1000.
Definition timeParam (t : option Z) : option Z := to_column <$> t.
Definition timePtr (t : option Z) : option Z := of_column <$> t.
Definition textParam (s : string) : option string := if bool_decide (s = "") then None else Some s.
Definition textValue (s : option string) : string := default "" s.

Section Rows.
Context `{U : UuidLib}.
Definition uuidValue (u : option uuid) : string := match u with Some u => uuid_string u | None => "" end.
Definition accessKeyRecord (k : key) (r : KeyRow) : KeyRecord :=
  mkKeyRecord (uuid_string k.1) (uuid_string k.2) (k_name r) (k_prefix r) (k_secret_hash r) (k_hash_version r)
    (uuidValue (k_policy_id r)) (textValue (k_secret_ciphertext r)) "" (k_allowed_service_ids r)
    (k_allowed_model_names r) (k_requests_per_second r) (k_requests_per_minute r) (k_requests_per_hour r)
    (timePtr (k_expires_at r)) (timePtr (k_revoked_at r)) (k_created_by r) (of_column (k_created_at r))
    (timePtr (k_last_used_at r)) (k_version r) (textValue (k_create_idempotency_key r))
    (textValue (k_rotation_idempotency_key r)).
End Rows.

(** ** Statements *)
Definition find_key (p : key -> KeyRow -> bool) (db : DB) : option (key * KeyRow) :=
  head (filter (fun kr => p kr.1 kr.2 = true) (map_to_list (access_keys db))).
Definition GetInferenceAccessKey (k : key) : statement KeyRow := select_one (fun _ db => access_keys db !! k).
Definition LockInferenceAccessKey (k : key) : statement KeyRow := select_one (fun _ db => access_keys db !! k).
Definition GetInferenceAccessKeyByPrefix (prefix : string) : statement (key * KeyRow) :=
  select_one (fun _ db => find_key (fun _ r => bool_decide (k_prefix r = prefix)) db).
Definition create_key_is (tenant : uuid) (idem : string) (k : key) (r : KeyRow) : bool :=
  bool_decide (k.1 = tenant) && bool_decide (k_create_idempotency_key r = Some idem).
Definition GetInferenceAccessKeyByCreateIdempotency (tenant : uuid) (idem : string) : statement (key * KeyRow) :=
  select_one (fun _ db => find_key (create_key_is tenant idem) db).
Definition GetInferenceAccessKeyByRotationIdempotency (k : key) (idem : string) : statement KeyRow :=
  select_one (fun _ db =>
    r ← access_keys db !! k;
    if bool_decide (k_rotation_idempotency_key r = Some idem) then Some r else None).

Definition prefix_taken (db : DB) (k : key) (prefix : string) : bool :=
  bool_decide (is_Some (find_key (fun k' r => bool_decide (k_prefix r = prefix) && negb (bool_decide (k' = k))) db)).
(** The idempotency index arbitrates first and turns the insert into nothing. *)
Definition InsertInferenceAccessKey (k : key) (row : Z -> KeyRow) : statement KeyRow := fun now db =>
  let r := row now in
  if negb ((0 <=? k_requests_per_second r) && (0 <=? k_requests_per_minute r) && (0 <=? k_requests_per_hour r))
  then Err CheckViolation
  else if match k_create_idempotency_key r with
          | Some idem => bool_decide (is_Some (find_key (create_key_is k.1 idem) db))
          | None => false
          end then Err ErrNoRows
  else if bool_decide (is_Some (access_keys db !! k)) then Err (UniqueViolation "inference_access_keys_pkey")
  else if prefix_taken db k (k_prefix r) then Err (UniqueViolation "inference_access_keys_key_prefix_key")
  else if match k_policy_id r with
          | Some p => bool_decide (policies db !! (k.1, p) = None)
          | None => false
          end then Err ForeignKeyViolation
  else Ok (r, db <| access_keys := <[k := r]> (access_keys db) |>).
(** [UPDATE ... RETURNING] of the row [k]. *)
Definition update_key (k : key) (f : Z -> DB -> KeyRow -> result (option KeyRow)) : statement KeyRow := fun now db =>
  match access_keys db !! k with
  | None => Err ErrNoRows
  | Some r =>
      changed ← f now db r;
      match changed with
      | Some r' => Ok (r', db <| access_keys := <[k := r']> (access_keys db) |>)
      | None => Err ErrNoRows
      end
  end.
Definition RevokeInferenceAccessKey (k : key) : statement KeyRow := update_key k (fun now _ r =>
  version ← bigint (k_version r + 1);
  Ok (Some (r <| k_revoked_at := Some (default now (k_revoked_at r)) |> <| k_version := version |>))).
Definition RotateInferenceAccessKey (k : key) (prefix hash hash_version : string) (idem ciphertext : option string)
    : statement KeyRow := update_key k (fun _ db r =>
  if bool_decide (is_Some (k_revoked_at r)) then Ok None else
  version ← bigint (k_version r + 1);
  if prefix_taken db k prefix then Err (UniqueViolation "inference_access_keys_key_prefix_key")
  else Ok (Some (r <| k_prefix := prefix |> <| k_secret_hash := hash |> <| k_hash_version := hash_version |>
                   <| k_revoked_at := None |> <| k_rotation_idempotency_key := idem |>
                   <| k_secret_ciphertext := ciphertext |> <| k_version := version |>))).
(** [:exec] and [:execrows] updates. *)
Definition touch_key (k : key) (f : Z -> KeyRow -> option KeyRow) : statement Z := execrows (fun now db =>
  r ← access_keys db !! k;
  r' ← f now r;
  Some (db <| access_keys := <[k := r']> (access_keys db) |>)).
Definition ArchiveInferenceAccessKeySecret (k : key) (version : Z) (hash : string) (ciphertext : option string)
    : statement Z := touch_key k (fun _ r =>
  if (k_version r =? version) && bool_decide (k_secret_hash r = hash) &&
     bool_decide (k_secret_ciphertext r = None) && bool_decide (k_revoked_at r = None)
  then Some (r <| k_secret_ciphertext := ciphertext |>) else None).
Definition MarkInferenceAccessKeyUsed (k : key) : statement Z :=
  touch_key k (fun now r => Some (r <| k_last_used_at := Some now |>)).
Definition AppendInferenceAccessKeyAudit (k : key) (event : uuid) (type actor request : string) (payload : doc)
    : statement unit := fun now db =>
  if bool_decide (is_Some (key_audits db !! (k.1, event)))
  then Err (UniqueViolation "inference_access_key_audit_events_pkey")
  else if bool_decide (access_keys db !! k = None) then Err ForeignKeyViolation
  else Ok (tt, db <| key_audits := <[(k.1, event) := mkKeyAuditRow k.2 type actor request payload now]> (key_audits db) |>).
(** Counts [cost] into a window, unless that would pass [max]. *)
Definition ConsumeInferenceAccessKeyRateBucket (k : key) (window : string) (start cost max : Z) : statement Z :=
  fun _ db =>
  let bk := (k.1, k.2, window, start) in
  let count z := if z <? 0 then Err CheckViolation
                 else Ok (z, db <| rate_buckets := <[bk := z]> (rate_buckets db) |>) in
  if negb (cost <=? max) then Err ErrNoRows
  else match rate_buckets db !! bk with
       | None => if bool_decide (access_keys db !! k = None) then Err ForeignKeyViolation else count cost
       | Some old => room ← bigint (max - cost);
                     if negb (old <=? room) then Err ErrNoRows else z ← bigint (old + cost); count z
       end.

Definition key_listed (db : DB) (tenant : uuid) (model : string) (k : key) (r : KeyRow) : bool :=
  bool_decide (k.1 = tenant) &&
  (bool_decide (model = "") ||
   match k_policy_id r with
   | Some p => match policies db !! (k.1, p) with
               | Some pl => in_list model (pl_allowed_model_names pl)
               | None => false
               end
   | None => false
   end).
Definition listed_keys (db : DB) (tenant : uuid) (model : string) : list (key * KeyRow) :=
  order_by (fun kr : key * KeyRow => [- k_created_at kr.2; - Z.of_N kr.1.2])
    (filter (fun kr => key_listed db tenant model kr.1 kr.2 = true) (map_to_list (access_keys db))).
Definition ListInferenceAccessKeys (tenant : uuid) (model : string) (limit offset : Z) : statement (list (key * KeyRow)) :=
  fun _ db =>
  if (limit <? 0) || (offset <? 0) then Err (ENew "2201W" "LIMIT or OFFSET must not be negative")
  else Ok (take (Z.to_nat limit) (drop (Z.to_nat offset) (listed_keys db tenant model)), db).
Definition CountInferenceAccessKeys (tenant : uuid) (model : string) : statement Z :=
  select (fun _ db => Z.of_nat (length (listed_keys db tenant model))).
Definition lock_policy (k : key) : statement PolicyRow := select_one (fun _ db => policies db !! k).

(** ** The life of a key

    A row never disappears and its version only grows; a revocation is final; and
    whatever the credential, its policy or its revocation changes under, the
    version changes too, so that a reader can tell a row it has seen by its version. *)
Record key_step (r r' : KeyRow) : Prop := mkKeyStep {
  ks_version : k_version r <= k_version r';
  ks_revoked : ∀ t, k_revoked_at r = Some t -> k_revoked_at r' = Some t;
  ks_expires : k_expires_at r' = k_expires_at r;
  ks_same : k_version r' = k_version r ->
    k_secret_hash r' = k_secret_hash r ∧ k_prefix r' = k_prefix r ∧ k_policy_id r' = k_policy_id r ∧
    k_revoked_at r' = k_revoked_at r }.
#[global] Instance key_step_preorder : PreOrder key_step.
Proof.
  split; [by intros r; split|]. intros a b c [V1 R1 E1 S1] [V2 R2 E2 S2]. split; [lia|auto|congruence|].
  intros Hv. destruct S1 as (?&?&?&?); [lia|]. destruct S2 as (?&?&?&?); [lia|]. split_and!; congruence.
Qed.
Definition prefixes_unique (db : DB) : Prop := ∀ k k' r r',
  access_keys db !! k = Some r -> access_keys db !! k' = Some r' -> k_prefix r = k_prefix r' -> k = k'.
Definition keys_kept (db db' : DB) : Prop :=
  (∀ k r, access_keys db !! k = Some r -> ∃ r', access_keys db' !! k = Some r' ∧ key_step r r') ∧
  (prefixes_unique db -> prefixes_unique db').
#[global] Instance keys_kept_preorder : PreOrder keys_kept.
Proof.
  split.
  - intros db. split; [|done]. intros k r H. exists r. by split.
  - intros a b c [H1 P1] [H2 P2]. split; [|auto].
    intros k r (r1 & Hr1 & S1)%H1. destruct (H2 _ _ Hr1) as (r2 & Hr2 & S2). exists r2. split; [done|]. by etrans.
Qed.

Lemma find_key_some p db k r : find_key p db = Some (k, r) -> access_keys db !! k = Some r ∧ p k r = true.
Proof.
  unfold find_key. intros H%head_Some_elem_of. apply list_elem_of_filter in H as [H1 H2].
  by rewrite elem_of_map_to_list in H2.
Qed.
Lemma find_key_none p db k r : find_key p db = None -> access_keys db !! k = Some r -> p k r = false.
Proof.
  unfold find_key. intros H%head_None Hk. destruct (p k r) eqn:E; [|done].
  assert ((k, r) ∈ filter (fun kr : key * KeyRow => p kr.1 kr.2 = true) (map_to_list (access_keys db))) as Hin.
  { apply list_elem_of_filter. split; [done|]. by apply elem_of_map_to_list. }
  rewrite H in Hin. by apply not_elem_of_nil in Hin.
Qed.
Lemma prefix_free db k prefix k' r :
  prefix_taken db k prefix = false -> access_keys db !! k' = Some r -> k_prefix r = prefix -> k' = k.
Proof.
  unfold prefix_taken. intros H%bool_decide_eq_false Hr <-. rewrite <- eq_None_not_Some in H.
  pose proof (find_key_none _ _ _ _ H Hr) as Hf. cbn in Hf. rewrite bool_decide_true in Hf by done.
  cbn in Hf. destruct (decide (k' = k)); [done|]. by rewrite bool_decide_false in Hf.
Qed.

Lemma kept_unkeyed db db' : access_keys db' = access_keys db -> keys_kept db db'.
Proof.
  intros E. unfold keys_kept, prefixes_unique. rewrite E. split; [|done]. intros k r H. exists r. by split.
Qed.
(** Writing one row: a new one, or a step of the old one. *)
Lemma kept_put db k r' :
  (∀ r, access_keys db !! k = Some r -> key_step r r') ->
  (prefix_taken db k (k_prefix r') = false ∨ ∃ r, access_keys db !! k = Some r ∧ k_prefix r' = k_prefix r) ->
  keys_kept db (db <| access_keys := <[k := r']> (access_keys db) |>).
Proof.
  intros Hs Hp. split; cbn.
  { intros k0 r H. destruct (decide (k0 = k)) as [->|Hne].
    - exists r'. rewrite lookup_insert_eq. auto.
    - exists r. rewrite lookup_insert_ne by done. by split. }
  intros Hu. assert (Hx : ∀ k0 r0, k0 ≠ k -> access_keys db !! k0 = Some r0 -> k_prefix r0 ≠ k_prefix r').
  { intros k0 r0 Hne Hr0 E. destruct Hp as [Hp|(r & Hr & E')]; [eauto using prefix_free|].
    apply Hne. eapply Hu; [exact Hr0|exact Hr|congruence]. }
  intros k1 k2 r1 r2 H1 H2 E. cbn in H1, H2. rewrite lookup_insert_Some in H1, H2.
  destruct H1 as [[<- <-]|[Hn1 H1]], H2 as [[<- <-]|[Hn2 H2]]; [done| | |eauto].
  - exfalso. eapply Hx; [|exact H2|]; congruence.
  - exfalso. eapply Hx; [|exact H1|]; congruence.
Qed.

Lemma respects_unkeyed {A} (f : statement A) :
  (∀ now db a db', f now db = Ok (a, db') -> access_keys db' = access_keys db) -> respects keys_kept f.
Proof. intros H now db a db' E. by eapply kept_unkeyed, H. Qed.
Lemma respects_insert_key k row : respects keys_kept (InsertInferenceAccessKey k row).
Proof.
  intros now db r db'. unfold InsertInferenceAccessKey.
  repeat match goal with |- context [if ?b then _ else _] => destruct b eqn:?; [done|] end.
  intros [= <- <-]. apply kept_put; [|by left].
  intros r H. rewrite bool_decide_eq_false, H in Heqb1. by destruct Heqb1.
Qed.
Lemma respects_update_key k f :
  (∀ now db r r', access_keys db !! k = Some r -> f now db r = Ok (Some r') ->
     key_step r r' ∧ (k_prefix r' = k_prefix r ∨ prefix_taken db k (k_prefix r') = false)) ->
  respects keys_kept (update_key k f).
Proof.
  intros Hf now db r' db'. unfold update_key. destruct (access_keys db !! k) as [r|] eqn:Er; [|done].
  destruct (f now db r) as [[r1|]|e] eqn:Ef; [|done..]. intros [= -> <-].
  destruct (Hf _ _ _ _ Er Ef) as [Hs Hp]. apply kept_put; [intros ? [= <-]%(eq_trans (eq_sym Er)); done|].
  destruct Hp; [right; eauto|by left].
Qed.
Lemma respects_revoke_key k : respects keys_kept (RevokeInferenceAccessKey k).
Proof.
  apply respects_update_key. intros now db r r' _ H. cbn in H. minv H. apply bigint_ok in Hm as ->.
  injection H as <-. split; [|by left]. split; cbn; [lia| |done|lia]. by intros t ->.
Qed.
Lemma respects_rotate_key k p h v i c : respects keys_kept (RotateInferenceAccessKey k p h v i c).
Proof.
  apply respects_update_key. intros now db r r' _ H. case_match eqn:Er; [done|]. minv H.
  apply bigint_ok in Hm as ->. destruct (prefix_taken db k p) eqn:Ep; [done|]. injection H as <-.
  rewrite bool_decide_eq_false in Er. split; [|by right]. split; cbn; [lia| |done|lia].
  intros t Ht. rewrite Ht in Er. by destruct Er.
Qed.
Lemma respects_touch_key k f :
  (∀ now r r', f now r = Some r' -> key_step r r' ∧ k_prefix r' = k_prefix r) -> respects keys_kept (touch_key k f).
Proof.
  intros Hf. apply respects_execrows; [apply _|]. intros now db db'.
  destruct (access_keys db !! k) as [r|] eqn:Er; [|done]. cbn. destruct (f now r) as [r'|] eqn:Ef; [|done].
  intros [= <-]. destruct (Hf _ _ _ Ef) as [Hs Hp]. apply kept_put; [intros ? [= <-]%(eq_trans (eq_sym Er)); done|eauto].
Qed.
Lemma respects_archive_key k v h c : respects keys_kept (ArchiveInferenceAccessKeySecret k v h c).
Proof. apply respects_touch_key. intros now r r' H. case_match; [|done]. by injection H as <-. Qed.
Lemma respects_mark_key k : respects keys_kept (MarkInferenceAccessKeyUsed k).
Proof. apply respects_touch_key. by intros now r r' [= <-]. Qed.
Lemma respects_key_audit k e t a r p : respects keys_kept (AppendInferenceAccessKeyAudit k e t a r p).
Proof.
  apply respects_unkeyed. intros now db u db'. unfold AppendInferenceAccessKeyAudit.
  do 2 (case_match; [done|]). by intros [= _ <-].
Qed.
(** The bucket counts [cost] more, and stays within [max]. *)
Lemma consume_inv k window start cost max now db z db' :
  ConsumeInferenceAccessKeyRateBucket k window start cost max now db = Ok (z, db') ->
  z = default 0 (rate_buckets db !! (k.1, k.2, window, start)) + cost ∧ 0 <= z <= max ∧
  db' = db <| rate_buckets := <[(k.1, k.2, window, start) := z]> (rate_buckets db) |>.
Proof.
  unfold ConsumeInferenceAccessKeyRateBucket. destruct (cost <=? max) eqn:Ec; cbn; [|done].
  destruct (rate_buckets db !! _) as [old|] eqn:Eb; cbn.
  - intros H. minv H. apply bigint_ok in Hm as ->. destruct (old <=? max - cost) eqn:Eo; cbn in H; [|done].
    minv H. apply bigint_ok in Hm as ->. destruct (old + cost <? 0) eqn:Ez; [done|]. injection H as <- <-.
    split_and!; [done|lia..|done].
  - case_match; [done|]. destruct (cost <? 0) eqn:Ez; [done|]. intros [= <- <-]. split_and!; [done|lia..|done].
Qed.
Lemma respects_consume k w s c m : respects keys_kept (ConsumeInferenceAccessKeyRateBucket k w s c m).
Proof. apply respects_unkeyed. by intros now db z db' (_ & _ & ->)%consume_inv. Qed.
Lemma respects_list_keys t m l o : respects keys_kept (ListInferenceAccessKeys t m l o).
Proof.
  apply respects_unkeyed. intros now db a db'. unfold ListInferenceAccessKeys. case_match; [done|]. by intros [= _ <-].
Qed.
#[export] Hint Resolve respects_insert_key respects_revoke_key respects_rotate_key respects_archive_key
  respects_mark_key respects_key_audit respects_consume respects_list_keys : moves.

(** ** The repository *)
Section Repository.
Context `{U : UuidLib}.

Definition key_of (tenantID id : string) : result key :=
  tenant ← requireUUID "tenant_id" tenantID;
  id ← requireUUID "id" id;
  Ok (tenant, id).
Definition missing {A} (e : goerr) (c : M World A) : M World A :=
  r ← try c;
  match r with Ok a => mret a | Err e' => throw (if errors_is e' "pgx.ErrNoRows" then e else e') end.
Definition new_row (in_ : KeyRecord) (policy : uuid) (now : Z) : KeyRow :=
  mkKeyRow (Name in_) (KeyPrefix in_) (SecretHash in_) (HashVersion in_) [] [] (RequestsPerSecond in_)
    (RequestsPerMinute in_) (RequestsPerHour in_) (timeParam (ExpiresAt in_)) None (CreatedBy in_) now None 1
    (textParam (CreateIdempotencyKey in_)) None (textParam (SecretCiphertext in_)) (Some policy).
Definition earlier_create (tenant : uuid) (idem : string) : M World (option PersistResult) :=
  if bool_decide (idem = "") then mret None else
  found ← optional (GetInferenceAccessKeyByCreateIdempotency tenant idem);
  mret ((fun kr => mkPersistResult (accessKeyRecord kr.1 kr.2) true) <$> found).
Definition create_body (in_ : KeyRecord) (requestID : string) (k : key) (policy : uuid)
    : M World (ending PersistResult) :=
  replayed ← earlier_create k.1 (CreateIdempotencyKey in_);
  match replayed with
  | Some r => mret (Schema.Commit r)
  | None =>
      _ ← missing ErrNotFound (exec (lock_policy (k.1, policy)));
      inserted ← try (exec (InsertInferenceAccessKey k (new_row in_ policy)));
      match inserted with
      | Ok r =>
          event ← new_uuid;
          _ ← exec (AppendInferenceAccessKeyAudit k event "inference.access_key.created" (CreatedBy in_) requestID
                      [("key_id", ID in_); ("key_prefix", KeyPrefix in_)]);
          mret (Schema.Commit (mkPersistResult (accessKeyRecord k r) false))
      | Err e =>
          if errors_is e "pgx.ErrNoRows" && negb (bool_decide (CreateIdempotencyKey in_ = "")) then
            '(k', r) ← exec (GetInferenceAccessKeyByCreateIdempotency k.1 (CreateIdempotencyKey in_));
            mret (Schema.Commit (mkPersistResult (accessKeyRecord k' r) true))
          else throw e
      end
  end.
Definition Repository_Create (in_ : KeyRecord) (requestID : string) : M World PersistResult :=
  k ← lift (key_of (TenantID in_) (ID in_));
  policy ← lift (requireUUID "policy_id" (PolicyID in_));
  transaction (create_body in_ requestID k policy).

Definition list_body (tenant : uuid) (o : ListOptions) : M World (ending (list KeyRecord * Z)) :=
  items ← exec (ListInferenceAccessKeys tenant (LO_ServedModelName o) (int32 (LO_Limit o)) (int32 (LO_Offset o)));
  total ← exec (CountInferenceAccessKeys tenant (LO_ServedModelName o));
  mret (Schema.Commit ((fun kr : key * KeyRow => accessKeyRecord kr.1 kr.2) <$> items, total)).
Definition Repository_List (tenantID : string) (o : ListOptions) : M World (list KeyRecord * Z) :=
  tenant ← lift (requireUUID "tenant_id" tenantID);
  transaction (list_body tenant o).
Definition Repository_Get (tenantID id : string) : M World KeyRecord :=
  k ← lift (key_of tenantID id);
  row ← missing ErrNotFound (exec (GetInferenceAccessKey k));
  mret (accessKeyRecord k row).
Definition Repository_GetByPrefix (prefix : string) : M World KeyRecord :=
  '(k, row) ← missing ErrNotFound (exec (GetInferenceAccessKeyByPrefix prefix));
  mret (accessKeyRecord k row).

Definition revoke_body (k : key) (id actor requestID : string) : M World (ending KeyRecord) :=
  current ← missing ErrNotFound (exec (LockInferenceAccessKey k));
  if bool_decide (is_Some (k_revoked_at current)) then mret (Schema.Commit (accessKeyRecord k current)) else
  row ← missing ErrNotFound (exec (RevokeInferenceAccessKey k));
  event ← new_uuid;
  _ ← exec (AppendInferenceAccessKeyAudit k event "inference.access_key.revoked" actor requestID [("key_id", id)]);
  mret (Schema.Commit (accessKeyRecord k row)).
Definition Repository_Revoke (tenantID id actor requestID : string) : M World KeyRecord :=
  k ← lift (key_of tenantID id);
  transaction (revoke_body k id actor requestID).

(** A failed update aborts the transaction, so that the lookup after it fails
    too and the error of the update is reported. *)
Definition rotate_row (k : key) (input : RotatePersistInput) : M World KeyRow :=
  rotated ← try (exec (RotateInferenceAccessKey k (RI_KeyPrefix input) (RI_SecretHash input) (RI_HashVersion input)
                         (textParam (RI_Idempotency input)) (textParam (RI_SecretCiphertext input))));
  match rotated with
  | Ok r => mret r
  | Err e =>
      if errors_is e "pgx.ErrNoRows" then
        found ← try (exec (GetInferenceAccessKey k));
        throw (match found with
               | Err e' => if errors_is e' "pgx.ErrNoRows" then ErrNotFound else ErrAlreadyRevoked
               | Ok _ => ErrAlreadyRevoked
               end)
      else throw e
  end.
Definition rotate_body (k : key) (id : string) (input : RotatePersistInput) : M World (ending PersistResult) :=
  current ← missing ErrNotFound (exec (LockInferenceAccessKey k));
  replayed ← (if bool_decide (RI_Idempotency input = "") then mret None
              else optional (GetInferenceAccessKeyByRotationIdempotency k (RI_Idempotency input)));
  match replayed with
  | Some r => mret (Schema.Commit (mkPersistResult (accessKeyRecord k r) true))
  | None =>
      _ ← check (bool_decide (k_revoked_at current = None)) ErrAlreadyRevoked;
      row ← rotate_row k input;
      event ← new_uuid;
      _ ← exec (AppendInferenceAccessKeyAudit k event "inference.access_key.rotated" (RI_Actor input) (RI_RequestID input)
                  [("key_id", id); ("key_prefix", RI_KeyPrefix input)]);
      mret (Schema.Commit (mkPersistResult (accessKeyRecord k row) false))
  end.
Definition Repository_Rotate (tenantID id : string) (input : RotatePersistInput) : M World PersistResult :=
  k ← lift (key_of tenantID id);
  transaction (rotate_body k id input).

(** *** Rate windows *)
Definition nanosecond : Z := 1000000000.
Definition windows (r : KeyRecord) : list (string * Z * Z) :=
  [("second", RequestsPerSecond r, nanosecond); ("minute", RequestsPerMinute r, 60 * nanosecond);
   ("hour", RequestsPerHour r, 3600 * nanosecond)].
Definition truncate (now d : Z) : Z := now - now mod d.
(** [None]: counted everywhere; [Some wait]: a window is full. *)
Fixpoint consume_windows (k : key) (now cost : Z) (ws : list (string * Z * Z)) : M World (option Z) :=
  match ws with
  | [] => mret None
  | (name, limit, duration) :: rest =>
      if limit <=? 0 then consume_windows k now cost rest else
      let start := truncate now duration in
      counted ← try (exec (ConsumeInferenceAccessKeyRateBucket k name (to_column start) cost limit));
      match counted with
      | Ok _ => consume_windows k now cost rest
      | Err e => if errors_is e "pgx.ErrNoRows" then mret (Some (start + duration - now)) else throw e
      end
  end.
Definition consumeKeyBuckets (k : key) (r : KeyRecord) (now cost : Z) : M World (bool * Z) :=
  full ← consume_windows k now cost (windows r);
  match full with
  | Some wait => mret (false, wait)
  | None => _ ← exec (MarkInferenceAccessKeyUsed k); mret (true, 0)
  end.
Definition Repository_Consume (r : KeyRecord) (now cost : Z) : M World (bool * Z) :=
  k ← lift (key_of (TenantID r) (ID r));
  transaction (
    '(allowed, wait) ← consumeKeyBuckets k r now cost;
    mret (if (allowed : bool) then Schema.Commit (true, 0) else Discard (false, wait))).
Definition Repository_ArchiveSecret (r : KeyRecord) (ciphertext : string) : M World unit :=
  _ ← check (negb (bool_decide (ciphertext = ""))) (errorf "access-key archive is not configured");
  k ← lift (key_of (TenantID r) (ID r));
  _ ← exec (ArchiveInferenceAccessKeySecret k (Version r) (SecretHash r) (textParam ciphertext));
  mret tt.
End Repository.
(** ** Every repository call keeps the keys *)
Section Kept.
Context `{U : UuidLib}.

Lemma moves_missing {A} R `{!PreOrder R} e (c : M World A) : moves (db_rel R) c -> moves (db_rel R) (missing e c).
Proof. intros H. unfold missing. moves. Qed.
Lemma moves_optional_read {A} R `{!PreOrder R} (f : statement A) : respects R f -> moves (db_rel R) (optional f).
Proof. intros H. unfold optional. moves. Qed.
#[local] Hint Resolve moves_missing moves_optional_read : moves.
#[local] Hint Unfold GetInferenceAccessKey LockInferenceAccessKey GetInferenceAccessKeyByPrefix
  GetInferenceAccessKeyByCreateIdempotency GetInferenceAccessKeyByRotationIdempotency lock_policy
  CountInferenceAccessKeys : moves.

Lemma moves_create in_ rid : moves (db_rel keys_kept) (Repository_Create in_ rid).
Proof. unfold Repository_Create, create_body, earlier_create. db_moves. Qed.
Lemma moves_list t o : moves (db_rel keys_kept) (Repository_List t o).
Proof. unfold Repository_List, list_body. db_moves. Qed.
Lemma moves_get_key t i : moves (db_rel keys_kept) (Repository_Get t i).
Proof. unfold Repository_Get. db_moves. Qed.
Lemma moves_by_prefix p : moves (db_rel keys_kept) (Repository_GetByPrefix p).
Proof. unfold Repository_GetByPrefix. db_moves. Qed.
Lemma moves_revoke t i a r : moves (db_rel keys_kept) (Repository_Revoke t i a r).
Proof. unfold Repository_Revoke, revoke_body. db_moves. Qed.
Lemma moves_rotate t i input : moves (db_rel keys_kept) (Repository_Rotate t i input).
Proof. unfold Repository_Rotate, rotate_body, rotate_row. db_moves. Qed.
Lemma moves_windows k now cost ws : moves (db_rel keys_kept) (consume_windows k now cost ws).
Proof. induction ws as [|[[name limit] d] ws IH]; cbn; db_moves. Qed.
Lemma moves_buckets k r now cost : moves (db_rel keys_kept) (consumeKeyBuckets k r now cost).
Proof. unfold consumeKeyBuckets. pose proof (moves_windows k now cost). db_moves. Qed.
Lemma moves_archive r c : moves (db_rel keys_kept) (Repository_ArchiveSecret r c).
Proof. unfold Repository_ArchiveSecret. db_moves. Qed.
End Kept.
#[export] Hint Resolve moves_create moves_list moves_get_key moves_by_prefix moves_revoke moves_rotate moves_buckets
  moves_archive moves_missing moves_optional_read : moves.

(** ** What the windows count *)
Definition bucket (k : key) (now : Z) (name : string) (duration : Z) : uuid * uuid * string * Z :=
  (k.1, k.2, name, to_column (truncate now duration)).
(** Every limited window of [ws] counted [cost], within its limit; nothing else changed. *)
Record counted (k : key) (now cost : Z) (ws : list (string * Z * Z)) (db db' : DB) : Prop := {
  ct_in name limit d : (name, limit, d) ∈ ws -> 0 < limit -> ∃ z,
    rate_buckets db' !! bucket k now name d = Some z ∧
    z = default 0 (rate_buckets db !! bucket k now name d) + cost ∧ 0 <= z <= limit;
  ct_out b : (∀ name limit d, (name, limit, d) ∈ ws -> 0 < limit -> b ≠ bucket k now name d) ->
    rate_buckets db' !! b = rate_buckets db !! b }.

Lemma windows_counted k now cost ws w w' :
  NoDup (map (fun x : string * Z * Z => x.1.1) ws) ->
  consume_windows k now cost ws w = (Ok None, w') -> counted k now cost ws (w_db w) (w_db w').
Proof.
  revert w. induction ws as [|[[name limit] d] ws IH]; intros w Hnd H; cbn in H.
  { injection H as <-. split; [by intros ??? ?%elem_of_nil|done]. }
  apply NoDup_cons in Hnd as [Hn Hnd]. cbn in Hn.
  assert (Hfresh : ∀ name' limit' d', (name', limit', d') ∈ ws -> bucket k now name d ≠ bucket k now name' d').
  { intros n' l' d' Hin [= -> _]. apply Hn. apply list_elem_of_fmap. by exists (n', l', d'). }
  destruct (limit <=? 0) eqn:El.
  { destruct (IH _ Hnd H) as [I1 I2]. split.
    - intros n' l' d' [[= -> -> ->]|Hin]%elem_of_cons Hl; [lia|eauto].
    - intros b Hb. apply I2. intros. eapply Hb; [by right|done]. }
  apply bind_ok_inv in H as (r & u & H1 & H). apply try_inv in H1 as (v & [= ->] & H1).
  destruct v as [z|e]; [|by case_match].
  apply exec_ok in H1 as (t & _ & (Hz & Hr & E)%consume_inv & _ & _). fold (bucket k now name d) in Hz, E.
  destruct (IH _ Hnd H) as [I1 I2]. rewrite E in I1, I2. cbn in I1, I2.
  split.
  - intros n' l' d' [[= -> -> ->]|Hin]%elem_of_cons Hl.
    + exists z. rewrite I2 by eauto. by rewrite lookup_insert_eq.
    + destruct (I1 _ _ _ Hin Hl) as (z' & Hz1 & Hz2 & Hz3). rewrite lookup_insert_ne in Hz2 by eauto. eauto.
  - intros b Hb. rewrite I2, lookup_insert_ne; [done| |].
    + apply not_eq_sym. eapply Hb; [left|lia].
    + intros n' l' d' Hin Hl. eapply Hb; [by right|done].
Qed.
Lemma mark_buckets k now db n db' :
  MarkInferenceAccessKeyUsed k now db = Ok (n, db') -> rate_buckets db' = rate_buckets db.
Proof.
  unfold MarkInferenceAccessKeyUsed, touch_key, execrows. destruct (access_keys db !! k); cbn; by intros [= _ <-].
Qed.
Lemma buckets_counted k r now cost w wait w' :
  consumeKeyBuckets k r now cost w = (Ok (true, wait), w') -> counted k now cost (windows r) (w_db w) (w_db w').
Proof.
  unfold consumeKeyBuckets. intros (full & u & H1 & H)%bind_ok_inv. destruct full as [?|]; [done|].
  apply bind_ok_inv in H as (n & v & H2 & [= _ <-]). apply exec_ok in H2 as (t & _ & H2 & _ & _).
  apply mark_buckets in H2. apply windows_counted in H1 as [I1 I2].
  { split; intros; rewrite H2; eauto. }
  cbn. apply NoDup_ListNoDup. repeat constructor; set_solver.
Qed.
End AccessKey.
