(* ===== verification/AccessPolicy.v ===== *)
(** * Access policies

    internal/biz/accesspolicy (the models and limits a key may use),
    internal/data/postgres/access_policy.go (their rows and audit events) and
    internal/data/postgres/service_policy.go (which service a model name leads to,
    and the transaction that grants or denies one request). *)

From S2P Require Import Prelude GoStrings Base64 Operation Gpu Resources Engine Work Schema WorkStore Reconcile Runner ReconcileStore OperationStore Commands AccessKey.
From Stdlib Require Import Ascii.
Local Open Scope Z_scope.

(** PostgreSQL reading a text parameter as a [uuid]. *)
Class UuidInput := uuid_in : string -> option uuid.

Module AccessPolicy.
Import Schema WorkStore ReconcileStore OperationStore AccessKey.

(** ** policy.go *)
Definition ErrInvalidInput : goerr := ENew "accesspolicy.ErrInvalidInput" "invalid inference access policy".
Definition ErrNotFound : goerr := ENew "accesspolicy.ErrNotFound" "inference access policy not found".
Definition ErrInUse : goerr := ENew "accesspolicy.ErrInUse" "inference access policy is bound to a key".

(** The names of the loop, in a set; [None] at an empty one. *)
Fixpoint model_set (names : list string) : option (gset string) :=
  match names with
  | [] => Some ∅
  | n :: rest =>
      let n := trim_space n in
      if bool_decide (n = "") then None else models ← model_set rest; Some ({[n]} ∪ models)
  end.
Definition Policy_Normalize (p : Policy) : result Policy :=
  let p := p <| P_Name := trim_space (P_Name p) |> in
  _ ← checkr (negb (bool_decide (P_Name p = ""))) (errorf_after ErrInvalidInput "name is required");
  _ ← checkr (negb ((P_RequestsPerSecond p <? 0) || (P_RequestsPerMinute p <? 0) || (P_RequestsPerHour p <? 0)))
        (errorf_after ErrInvalidInput "rate limits cannot be negative");
  match model_set (P_AllowedModelNames p) with
  | None => Err (errorf_after ErrInvalidInput "model names cannot be empty")
  | Some models => Ok (p <| P_AllowedModelNames := merge_sort String.le (elements models) |>)
  end.
Fixpoint allows (names : list string) (model : string) : bool :=
  match names with [] => false | n :: rest => bool_decide (n = model) || allows rest model end.
Definition AllowsModel (p : Policy) (model : string) : bool := allows (P_AllowedModelNames p) model.

(** ** access_policy.go *)
Definition policy_row_ok (r : PolicyRow) : bool :=
  negb (bool_decide (pl_name r = "")) && (0 <=? pl_requests_per_second r) && (0 <=? pl_requests_per_minute r) &&
  (0 <=? pl_requests_per_hour r).
Definition InsertPolicy (k : key) (p : Policy) : statement PolicyRow := fun now db =>
  let r := mkPolicyRow (P_Name p) (P_AllowedModelNames p) (P_RequestsPerSecond p) (P_RequestsPerMinute p)
             (P_RequestsPerHour p) 1 now now in
  if negb (policy_row_ok r) then Err CheckViolation
  else if bool_decide (is_Some (policies db !! k)) then Err (UniqueViolation "inference_access_policies_pkey")
  else Ok (r, db <| policies := <[k := r]> (policies db) |>).
Definition SelectPolicy (k : key) : statement PolicyRow := select_one (fun _ db => policies db !! k).
Definition UpdatePolicy (k : key) (p : Policy) : statement PolicyRow := fun now db =>
  match policies db !! k with
  | None => Err ErrNoRows
  | Some old =>
      version ← bigint (pl_version old + 1);
      let r := mkPolicyRow (P_Name p) (P_AllowedModelNames p) (P_RequestsPerSecond p) (P_RequestsPerMinute p)
                 (P_RequestsPerHour p) version (pl_created_at old) now in
      if negb (policy_row_ok r) then Err CheckViolation
      else Ok (r, db <| policies := <[k := r]> (policies db) |>)
  end.
(** The foreign key of the access keys holds the row. *)
Definition policy_bound (db : DB) (k : key) : bool :=
  bool_decide (is_Some (find_key (fun k' r => bool_decide (k'.1 = k.1) && bool_decide (k_policy_id r = Some k.2)) db)).
Definition DeletePolicy (k : key) : statement PolicyRow := fun _ db =>
  match policies db !! k with
  | None => Err ErrNoRows
  | Some r => if policy_bound db k then Err ForeignKeyViolation
              else Ok (r, db <| policies := delete k (policies db) |>)
  end.
Definition InsertPolicyAudit (k : key) (event : uuid) (type actor request : string) (payload : Policy) : statement unit := fun now db =>
  if bool_decide (is_Some (policy_audits db !! (k.1, event)))
  then Err (UniqueViolation "inference_access_policy_audit_events_pkey")
  else Ok (tt, db <| policy_audits := <[(k.1, event) := mkPolicyAuditRow k.2 type actor request payload now]> (policy_audits db) |>).
Definition tenant_policies (db : DB) (tenant : uuid) : list (key * PolicyRow) :=
  order_by (fun kr : key * PolicyRow => [- pl_created_at kr.2; - Z.of_N kr.1.2])
    (filter (fun kr : key * PolicyRow => kr.1.1 = tenant) (map_to_list (policies db))).
Definition SelectPolicies (tenant : uuid) (limit offset : Z) : statement (list (key * PolicyRow)) := fun _ db =>
  if (limit <? 0) || (offset <? 0) then Err (ENew "2201W" "LIMIT or OFFSET must not be negative")
  else Ok (List.firstn (Z.to_nat limit) (List.skipn (Z.to_nat offset) (tenant_policies db tenant)), db).
Definition CountPolicies (tenant : uuid) : statement Z :=
  select (fun _ db => Z.of_nat (length (tenant_policies db tenant))).
Definition BindPolicy (k : key) (policy : uuid) : statement Z := fun _ db =>
  match access_keys db !! k with
  | None => Ok (0, db)
  | Some r =>
      version ← bigint (k_version r + 1);
      if bool_decide (policies db !! (k.1, policy) = None) then Err ForeignKeyViolation
      else Ok (1, db <| access_keys := <[k := r <| k_policy_id := Some policy |> <| k_version := version |>]> (access_keys db) |>)
  end.

Section Repository.
Context `{U : UuidLib} `{I : UuidInput}.

(** A text parameter of a [uuid] column. *)
Definition uuid_param (s : string) : result uuid :=
  match uuid_in s with Some u => Ok u | None => Err (ENew "22P02" "invalid input syntax for type uuid") end.
Definition param_key (tenant id : string) : result key :=
  t ← uuid_param tenant; i ← uuid_param id; Ok (t, i).
Definition scanPolicy (tenant : string) (k : key) (r : PolicyRow) : Policy :=
  mkPolicy (uuid_string k.2) tenant (pl_name r) (pl_allowed_model_names r) (pl_requests_per_second r)
    (pl_requests_per_minute r) (pl_requests_per_hour r) (pl_version r).
Definition policyAudit (k : key) (p : Policy) (event actor request : string) : M World unit :=
  id ← new_uuid;
  exec (InsertPolicyAudit k id event actor request p).

Definition CreateAccessPolicy (p : Policy) (actor request : string) : M World Policy :=
  transaction (
    id ← new_uuid;
    tenant ← lift (uuid_param (P_TenantID p));
    row ← exec (InsertPolicy (tenant, id) p);
    let p := scanPolicy (P_TenantID p) (tenant, id) row in
    _ ← policyAudit (tenant, id) p "created" actor request;
    mret (Schema.Commit p)).
Definition GetAccessPolicy (tenant id : string) : M World Policy :=
  k ← lift (param_key tenant id);
  row ← missing ErrNotFound (exec (SelectPolicy k));
  mret (scanPolicy tenant k row).
Definition ListAccessPolicies (tenant : string) (limit offset : Z) : M World (list Policy * Z) :=
  transaction (
    t ← lift (uuid_param tenant);
    rows ← exec (SelectPolicies t limit offset);
    total ← exec (CountPolicies t);
    mret (Schema.Commit ((fun kr : key * PolicyRow => scanPolicy tenant kr.1 kr.2) <$> rows, total))).
Definition UpdateAccessPolicy (p : Policy) (actor request : string) : M World Policy :=
  transaction (
    k ← lift (param_key (P_TenantID p) (P_ID p));
    row ← missing ErrNotFound (exec (UpdatePolicy k p));
    let p := scanPolicy (P_TenantID p) k row in
    _ ← policyAudit k p "updated" actor request;
    mret (Schema.Commit p)).
Definition DeleteAccessPolicy (tenant id actor request : string) : M World unit :=
  transaction (
    k ← lift (param_key tenant id);
    deleted ← try (missing ErrNotFound (exec (DeletePolicy k)));
    match deleted with
    | Err e => throw (if errors_is e "23503" then ErrInUse else e)
    | Ok row =>
        _ ← policyAudit k (scanPolicy tenant k row) "deleted" actor request;
        mret (Schema.Commit tt)
    end).
Definition bind_body (k : key) (tenant keyID policyID actor request : string) : M World (ending KeyRecord) :=
  k' ← lift (param_key tenant keyID);
  _ ← missing AccessKey.ErrNotFound (exec (LockInferenceAccessKey k'));
  policy ← lift (uuid_param policyID);
  _ ← missing ErrNotFound (exec (lock_policy (k'.1, policy)));
  _ ← exec (BindPolicy k' policy);
  event ← new_uuid;
  _ ← exec (AppendInferenceAccessKeyAudit k' event "inference.access_key.policy_bound" actor request [("policy_id", policyID)]);
  row ← exec (GetInferenceAccessKey k);
  mret (Schema.Commit (accessKeyRecord k row)).
Definition BindAccessPolicy (tenant keyID policyID actor request : string) : M World KeyRecord :=
  k ← lift (key_of tenant keyID);
  transaction (bind_body k tenant keyID policyID actor request).

(** ** service_policy.go *)
Record PublishedRow := mkPublishedRow { pr_tenant : uuid; pr_service : uuid; pr_generation : Z; pr_effective : bool }.
(** [accesskey.CheckResult]. *)
Record CheckResult := mkCheckResult {
  CR_Record : option KeyRecord; CR_Allowed : bool; CR_DenialCode : string; CR_RetryAfter : Z; CR_PolicyVersion : Z }.
#[global] Instance CheckResult_eta : Eta CheckResult := fun r =>
  mkCheckResult (CR_Record r) (CR_Allowed r) (CR_DenialCode r) (CR_RetryAfter r) (CR_PolicyVersion r).

Definition LockPolicyServiceShared (k : key) : statement uuid := select_one (fun _ db =>
  s ← services db !! k;
  if bool_decide (s_deleted_at s = None) && negb (bool_decide (s_desired_state s = "deleted")) then Some k.2 else None).
Definition published_row (db : DB) (model : string) (kp : uuid * uuid * Z * PublicationRow) : option PublishedRow :=
  let '(tenant, service, generation, p) := kp in
  s ← services db !! (tenant, service);
  sp ← specs db !! (tenant, service, generation);
  if bool_decide (sp_served_model_name (sp_body sp) = model) &&
     (negb (bool_decide (p_observed_phase p = "withdrawn")) || negb (bool_decide (p_desired_phase p = "withdrawn")))
  then Some (mkPublishedRow tenant service generation
         (bool_decide (s_deleted_at s = None) && bool_decide (s_desired_state s = "running") &&
          (generation =? s_desired_generation s) &&
          bool_decide (p_desired_phase p = "published") && bool_decide (p_observed_phase p = "published")))
  else None.
Definition published_rows (db : DB) (model : string) : list PublishedRow :=
  omap (published_row db model) (map_to_list (publications db)).
Definition ResolvePublishedModel (model : string) : statement (list PublishedRow) :=
  select (fun _ db => published_rows db model).

(** The rows after the first, against the one before: [None] when they differ. *)
Fixpoint same_service (resolved : PublishedRow) (effective : bool) (rows : list PublishedRow)
    : option (PublishedRow * bool) :=
  match rows with
  | [] => Some (resolved, effective)
  | r :: rest =>
      if negb (bool_decide (pr_tenant r = pr_tenant resolved)) || negb (bool_decide (pr_service r = pr_service resolved))
      then None else same_service r (effective || pr_effective r) rest
  end.
(** [None] when there is no row, two services, or no effective publication. *)
Definition lookup_rows (rows : list PublishedRow) : option PublishedRow :=
  match rows with
  | [] => None
  | r :: rest =>
      match same_service r (pr_effective r) rest with
      | Some (resolved, true) => Some resolved
      | _ => None
      end
  end.
Definition lookupPublishedModel (model : string) : M World (option PublishedRow) :=
  rows ← exec (ResolvePublishedModel model);
  mret (lookup_rows rows).
Definition Resolve (model : string) : M World string :=
  found ← lookupPublishedModel model;
  mret (match found with Some r => uuid_string (pr_service r) | None => "" end).

Definition deny (record : KeyRecord) (code : string) (version : Z) : CheckResult :=
  mkCheckResult (Some record) false code 0 version.
(** Why the key itself is refused: its version, revocation and expiry. *)
Definition key_denial (record : KeyRecord) (latest : KeyRow) (now : Z) : option string :=
  if negb (k_version latest =? Version record) then Some "invalid_key"
  else if bool_decide (is_Some (k_revoked_at latest)) then Some "revoked"
  else match k_expires_at latest with
       | Some t => if of_column t <=? now then Some "expired" else None
       | None => None
       end.
(** What the policy grants, with its limits in place of the record's. *)
Definition grant (k : key) (record : KeyRecord) (model : string) (now cost : Z) (p : PolicyRow)
    : M World (ending CheckResult) :=
  let version := pl_version p in
  if negb (allows (pl_allowed_model_names p) model) then mret (Discard (deny record "scope_denied" version)) else
  let limited := record <| RequestsPerSecond := pl_requests_per_second p |>
    <| RequestsPerMinute := pl_requests_per_minute p |> <| RequestsPerHour := pl_requests_per_hour p |> in
  '(allowed, retry) ← consumeKeyBuckets k limited now cost;
  mret (if (allowed : bool) then Schema.Commit (mkCheckResult (Some limited) true "" 0 version)
        else Discard ((deny record "rate_limited" version) <| CR_RetryAfter := retry |>)).
Definition authorize (k : key) (record : KeyRecord) (model : string) (now cost : Z) : M World (ending CheckResult) :=
  let denied := Discard (deny record "scope_denied" (Version record)) in
  locked ← optional (LockInferenceAccessKey k);
  match locked with
  | None => mret denied
  | Some latest =>
      match key_denial record latest now with
      | Some code => mret (Discard (deny record code (Version record)))
      | None =>
          match k_policy_id latest with
          | None => mret denied
          | Some policy =>
              found ← optional (lock_policy (k.1, policy));
              match found with
              | None => mret denied
              | Some p => grant k record model now cost p
              end
          end
      end
  end.
(** The publication is looked up again once the service row is locked. *)
Definition publication_holds (record : KeyRecord) (service model : string) : M World bool :=
  first ← lookupPublishedModel model;
  match first with
  | None => mret false
  | Some pub =>
      if negb (bool_decide (uuid_string (pr_service pub) = service)) ||
         negb (bool_decide (uuid_string (pr_tenant pub) = TenantID record)) then mret false else
      locked ← optional (LockPolicyServiceShared (pr_tenant pub, pr_service pub));
      match locked with
      | None => mret false
      | Some _ =>
          second ← lookupPublishedModel model;
          mret (match second with
                | Some cur => bool_decide (pr_tenant cur = pr_tenant pub) && bool_decide (pr_service cur = pr_service pub)
                | None => false
                end)
      end
  end.
Definition consume_body (record : KeyRecord) (service model : string) (now cost : Z) : M World (ending CheckResult) :=
  held ← publication_holds record service model;
  if negb held then mret (Discard (deny record "scope_denied" (Version record))) else
  tenant ← lift (requireUUID "tenant_id" (TenantID record));
  id ← lift (requireUUID "key_id" (ID record));
  authorize (tenant, id) record model now cost.
Definition ConsumeAccess (record : KeyRecord) (service model : string) (now cost : Z) : M World CheckResult :=
  transaction (consume_body record service model now cost).
End Repository.
(** ** Every call keeps the keys *)
Section Kept.
Context `{U : UuidLib} `{I : UuidInput}.

Lemma respects_insert_policy k p : respects keys_kept (InsertPolicy k p).
Proof. apply respects_unkeyed. intros now db a db'. unfold InsertPolicy. do 2 (case_match; [done|]). by intros [= _ <-]. Qed.
Lemma respects_update_policy k p : respects keys_kept (UpdatePolicy k p).
Proof.
  apply respects_unkeyed. intros now db a db'. unfold UpdatePolicy. case_match; [|done]. intros Hu. minv Hu.
  case_match; [done|]. by injection Hu as _ <-.
Qed.
Lemma respects_delete_policy k : respects keys_kept (DeletePolicy k).
Proof.
  apply respects_unkeyed. intros now db a db'. unfold DeletePolicy. case_match; [|done]. case_match; [done|].
  by intros [= _ <-].
Qed.
Lemma respects_policy_audit k e t a r p : respects keys_kept (InsertPolicyAudit k e t a r p).
Proof. apply respects_unkeyed. intros now db u db'. unfold InsertPolicyAudit. case_match; [done|]. by intros [= _ <-]. Qed.
Lemma respects_select_policies t l o : respects keys_kept (SelectPolicies t l o).
Proof. apply respects_unkeyed. intros now db u db'. unfold SelectPolicies. case_match; [done|]. by intros [= _ <-]. Qed.
Lemma respects_bind_policy k p : respects keys_kept (BindPolicy k p).
Proof.
  intros now db n db'. unfold BindPolicy. destruct (access_keys db !! k) as [r|] eqn:Er; [|by intros [= _ <-]].
  intros H. minv H. apply bigint_ok in Hm as ->. case_match; [done|]. injection H as _ <-.
  apply kept_put; [|right; by exists r]. intros r0 Hr0. rewrite Er in Hr0. injection Hr0 as <-.
  split; cbn; [lia|done|done|lia].
Qed.
#[local] Hint Resolve respects_insert_policy respects_update_policy respects_delete_policy respects_policy_audit
  respects_select_policies respects_bind_policy : moves.
#[local] Hint Unfold SelectPolicy CountPolicies ResolvePublishedModel LockPolicyServiceShared lock_policy
  LockInferenceAccessKey GetInferenceAccessKey : moves.

Lemma moves_create_policy p a r : moves (db_rel keys_kept) (CreateAccessPolicy p a r).
Proof. unfold CreateAccessPolicy, policyAudit. db_moves. Qed.
Lemma moves_update_policy p a r : moves (db_rel keys_kept) (UpdateAccessPolicy p a r).
Proof. unfold UpdateAccessPolicy, policyAudit. db_moves. Qed.
Lemma moves_delete_policy t i a r : moves (db_rel keys_kept) (DeleteAccessPolicy t i a r).
Proof. unfold DeleteAccessPolicy, policyAudit. db_moves. Qed.
Lemma moves_bind_policy t k p a r : moves (db_rel keys_kept) (BindAccessPolicy t k p a r).
Proof. unfold BindAccessPolicy, bind_body. db_moves. Qed.
Lemma moves_lookup m : moves (db_rel keys_kept) (lookupPublishedModel m).
Proof. unfold lookupPublishedModel. db_moves. Qed.
#[local] Hint Resolve moves_lookup : moves.
Lemma moves_resolve m : moves (db_rel keys_kept) (Resolve m).
Proof. unfold Resolve. db_moves. Qed.
Lemma moves_consume r s m now cost : moves (db_rel keys_kept) (ConsumeAccess r s m now cost).
Proof. unfold ConsumeAccess, consume_body, publication_holds, authorize, grant. db_moves. Qed.
End Kept.
#[export] Hint Resolve moves_create_policy moves_update_policy moves_delete_policy moves_bind_policy moves_resolve
  moves_consume : moves.
(** ** What a grant requires *)
(** [model] leads to the service [k] only: some publication of it is in effect,
    and no publication of another service under that name may still have a route. *)
Definition published (db : DB) (k : key) (generation : Z) (model : string) (p : PublicationRow) : Prop :=
  publications db !! (k.1, k.2, generation) = Some p ∧
  (∃ s, services db !! k = Some s) ∧
  (∃ sp, specs db !! (k.1, k.2, generation) = Some sp ∧ sp_served_model_name (sp_body sp) = model) ∧
  (p_observed_phase p ≠ "withdrawn" ∨ p_desired_phase p ≠ "withdrawn").
Definition in_effect (db : DB) (k : key) (model : string) : Prop :=
  ∃ s p, services db !! k = Some s ∧ s_deleted_at s = None ∧ s_desired_state s = "running" ∧
    published db k (s_desired_generation s) model p ∧ p_desired_phase p = "published" ∧ p_observed_phase p = "published".
Definition leads_to (db : DB) (model : string) (k : key) : Prop :=
  in_effect db k model ∧ ∀ k' g p, published db k' g model p -> k' = k.

Lemma published_row_spec db model t s g p r : publications db !! (t, s, g) = Some p ->
  published_row db model (t, s, g, p) = Some r ->
  pr_tenant r = t ∧ pr_service r = s ∧ published db (t, s) g model p ∧ (pr_effective r = true -> in_effect db (t, s) model).
Proof.
  intros Hp. unfold published_row. destruct (services db !! (t, s)) as [sv|] eqn:Es; [|done]. cbn.
  destruct (specs db !! (t, s, g)) as [sp|] eqn:Esp; [|done]. cbn.
  destruct (_ && (_ || _)) eqn:E; [|done]. intros [= <-]. cbn.
  apply andb_true_iff in E as [E1%bool_decide_eq_true E2].
  assert (Hpub : published db (t, s) g model p).
  { split_and!; [done|by eexists|by exists sp|].
    apply orb_true_iff in E2 as [E2|E2]; apply negb_true_iff, bool_decide_eq_false in E2; auto. }
  split_and!; [done..|]. rewrite !andb_true_iff, !bool_decide_eq_true, Z.eqb_eq. intros ((((? & ?) & ->) & ?) & ?).
  exists sv, p. split_and!; auto.
Qed.
Lemma published_row_exists db k g model p : published db k g model p ->
  ∃ r, published_row db model (k.1, k.2, g, p) = Some r.
Proof.
  destruct k as [t s]. intros (_ & (sv & Es) & (sp & Esp & En) & Hw). cbn in *. unfold published_row. rewrite Es. cbn.
  rewrite Esp. cbn. rewrite (bool_decide_true _ En). cbn. rewrite <- !bool_decide_not.
  rewrite <- bool_decide_or, bool_decide_true by done. eauto.
Qed.
Lemma same_service_spec rows : ∀ r0 e0 r e, same_service r0 e0 rows = Some (r, e) ->
  (∀ x, x ∈ r0 :: rows -> pr_tenant x = pr_tenant r ∧ pr_service x = pr_service r) ∧
  (e = true -> e0 = true ∨ ∃ x, x ∈ rows ∧ pr_effective x = true).
Proof.
  induction rows as [|y rows IH]; intros r0 e0 r e H; cbn in H.
  { injection H as <- <-. split; [|auto]. by intros x ->%list_elem_of_singleton. }
  destruct (_ || _) eqn:E; [done|]. apply orb_false_iff in E as [E1 E2].
  rewrite negb_false_iff, bool_decide_eq_true in E1, E2. destruct (IH _ _ _ _ H) as [I1 I2].
  destruct (I1 y) as [Hy1 Hy2]; [left|]. split.
  - intros x [->|Hx]%elem_of_cons; [split; congruence|auto].
  - intros [[->|He]%orb_true_iff|(x & Hx & He)]%I2; [by left|right; exists y; split; [left|done]|].
    right. exists x. split; [by right|done].
Qed.
Lemma lookup_rows_spec rows r : lookup_rows rows = Some r ->
  (∀ x, x ∈ rows -> pr_tenant x = pr_tenant r ∧ pr_service x = pr_service r) ∧ ∃ x, x ∈ rows ∧ pr_effective x = true.
Proof.
  destruct rows as [|y rows]; [done|]. cbn. destruct (same_service _ _ _) as [[x []]|] eqn:E; [|done..].
  intros [= ->]. destruct (same_service_spec _ _ _ _ _ E) as [H1 H2]. split; [done|].
  destruct H2 as [H2|(x & Hx & H2)]; [done|exists y; split; [left|done]|exists x; split; [by right|done]].
Qed.
Lemma lookup_leads_to db model r :
  lookup_rows (published_rows db model) = Some r -> leads_to db model (pr_tenant r, pr_service r).
Proof.
  intros (Hall & x & Hx & He)%lookup_rows_spec. unfold published_rows in *. split.
  - pose proof (Hall _ Hx) as [Ht Hs]. apply list_elem_of_omap in Hx as ([[[t s] g] p] & Hin & Hr).
    apply elem_of_map_to_list in Hin. destruct (published_row_spec _ _ _ _ _ _ _ Hin Hr) as (E1 & E2 & _ & Hx).
    rewrite <- Ht, <- Hs, E1, E2. auto.
  - intros [t s] g p Hp. destruct (published_row_exists _ _ _ _ _ Hp) as (y & Hy). cbn in Hy.
    pose proof (proj1 Hp) as Hin. cbn in Hin. destruct (published_row_spec _ _ _ _ _ _ _ Hin Hy) as (E1 & E2 & _).
    destruct (Hall y) as [E3 E4]; [|congruence].
    apply list_elem_of_omap. exists (t, s, g, p). split; [|done]. by apply elem_of_map_to_list.
Qed.

(** Runs that only read. *)
Lemma optional_select {A} (f : Z -> DB -> option A) w a w' : optional (select_one f) w = (Ok (Some a), w') ->
  ∃ now, f now (w_db w) = Some a ∧ w_db w' = w_db w.
Proof.
  unfold optional. intros (r & u & H1 & H)%bind_ok_inv. apply try_inv in H1 as (v & [= ->] & H1).
  destruct v as [b|e]; [|by case_match]. injection H as -> ->. apply exec_ok in H1 as (now & _ & H1 & _).
  unfold select_one in H1. destruct (f now (w_db w)) eqn:E; [|done]. injection H1 as <- ?. eauto.
Qed.
Lemma lookup_ok model w r w' : lookupPublishedModel model w = (Ok r, w') ->
  r = lookup_rows (published_rows (w_db w) model) ∧ w_db w' = w_db w.
Proof.
  unfold lookupPublishedModel. intros (rows & u & (now & -> & Hu)%select_ok & [= <- <-])%bind_ok_inv. done.
Qed.
(** The key may use [model] at [now] under its policy [pol]. *)
Record grantable (db : DB) (k : key) (row : KeyRow) (pol : PolicyRow) (model : string) (now : Z) : Prop := mkGrantable {
  gr_row : access_keys db !! k = Some row;
  gr_live : k_revoked_at row = None;
  gr_unexpired : ∀ t, k_expires_at row = Some t -> now < of_column t;
  gr_policy : ∃ p, k_policy_id row = Some p ∧ policies db !! (k.1, p) = Some pol;
  gr_model : model ∈ pl_allowed_model_names pol }.
Definition policy_windows (p : PolicyRow) : list (string * Z * Z) :=
  [("second", pl_requests_per_second p, nanosecond); ("minute", pl_requests_per_minute p, 60 * nanosecond);
   ("hour", pl_requests_per_hour p, 3600 * nanosecond)].

Lemma allows_spec names model : allows names model = true <-> model ∈ names.
Proof.
  induction names as [|n names IH]; cbn; [split; [done|by intros ?%elem_of_nil]|].
  rewrite orb_true_iff, bool_decide_eq_true, elem_of_cons, IH. naive_solver.
Qed.
Lemma key_allowed record latest now : key_denial record latest now = None ->
  k_version latest = Version record ∧ k_revoked_at latest = None ∧
  ∀ t, k_expires_at latest = Some t -> now < of_column t.
Proof.
  unfold key_denial. destruct (k_version latest =? Version record) eqn:Ev; cbn; [|done].
  destruct (k_revoked_at latest); [done|]. cbn. destruct (k_expires_at latest) as [t|]; intros H.
  - destruct (of_column t <=? now) eqn:E; [done|]. split_and!; [lia|done|]. intros t' [= <-]. lia.
  - split_and!; [lia|done..].
Qed.

Section Grants.
Context `{U : UuidLib} {UL : UuidLaws}.

Lemma grant_run k record model now cost p w e w' : grant k record model now cost p w = (Ok e, w') ->
  match e with
  | Schema.Commit r => CR_Allowed r = true ∧ model ∈ pl_allowed_model_names p ∧
                counted k now cost (policy_windows p) (w_db w) (w_db w')
  | Discard r => CR_Allowed r = false
  end.
Proof.
  unfold grant. destruct (allows _ model) eqn:Ea; cbn -[consumeKeyBuckets]; [|by intros [= <- <-]].
  intros ([[] wait] & u & H & [= <- <-])%bind_ok_inv; cbn; [|done].
  apply buckets_counted in H. split_and!; [done|by apply allows_spec|done].
Qed.
Lemma authorize_run k record model now cost w e w' : authorize k record model now cost w = (Ok e, w') ->
  match e with
  | Schema.Commit r => CR_Allowed r = true ∧ ∃ row pol, k_version row = Version record ∧
      grantable (w_db w) k row pol model now ∧ counted k now cost (policy_windows pol) (w_db w) (w_db w')
  | Discard r => CR_Allowed r = false
  end.
Proof.
  unfold authorize. intros ([row|] & u & H1 & H)%bind_ok_inv; [|by injection H as <- <-].
  apply optional_select in H1 as (t1 & Hrow & Eu).
  destruct (key_denial record row now) eqn:Ed; [by injection H as <- <-|]. apply key_allowed in Ed as (Hv & Hl & Hx).
  destruct (k_policy_id row) as [policy|] eqn:Ep; [|by injection H as <- <-].
  apply bind_ok_inv in H as ([pol|] & v & H2 & H); [|by injection H as <- <-].
  apply optional_select in H2 as (t2 & Hpol & Ev). rewrite Eu in Hpol, Ev.
  apply grant_run in H. destruct e as [r|r]; [|done]. destruct H as (Ha & Hm & Hc). rewrite Ev in Hc.
  split; [done|]. exists row, pol. split_and!; [done|split; eauto|done].
Qed.
Lemma publication_run record service model w w' : publication_holds record service model w = (Ok true, w') ->
  w_db w' = w_db w ∧ ∃ t s, leads_to (w_db w) model (t, s) ∧ uuid_string s = service ∧ uuid_string t = TenantID record.
Proof.
  unfold publication_holds. intros ([pub|] & u & (E1 & Eu)%lookup_ok & H)%bind_ok_inv; [|done].
  destruct (_ || _) eqn:Eb; [done|]. apply orb_false_iff in Eb as [Eb1 Eb2].
  rewrite negb_false_iff, bool_decide_eq_true in Eb1, Eb2.
  apply bind_ok_inv in H as ([x|] & v & Ev & H); [|done]. apply optional_select in Ev as (now & _ & Ev).
  apply bind_ok_inv in H as (cur & v' & (_ & Ev')%lookup_ok & H). injection H as _ <-.
  split; [congruence|]. exists (pr_tenant pub), (pr_service pub). split_and!; [|done..]. by apply lookup_leads_to.
Qed.
Lemma requireUUID_parses l s u : requireUUID l s = Ok u -> uuid_parse s = Some u.
Proof. unfold requireUUID. destruct (uuid_parse s); [by intros [= ->]|done]. Qed.

(** What a run of the granting transaction means. *)
Definition consumed (record : KeyRecord) (service model : string) (now cost : Z) (db db' : DB) : Prop :=
  ∃ k row pol s, uuid_parse (TenantID record) = Some k.1 ∧ uuid_parse (ID record) = Some k.2 ∧
    k_version row = Version record ∧ grantable db k row pol model now ∧ leads_to db model (k.1, s) ∧
    uuid_string s = service ∧ counted k now cost (policy_windows pol) db db'.
Lemma consume_body_run record service model now cost w e w' :
  consume_body record service model now cost w = (Ok e, w') ->
  match e with
  | Schema.Commit r => CR_Allowed r = true ∧ consumed record service model now cost (w_db w) (w_db w')
  | Discard r => CR_Allowed r = false
  end.
Proof.
  unfold consume_body. intros ([] & u & H1 & H)%bind_ok_inv; cbn in H; [|by injection H as <- <-].
  apply publication_run in H1 as (Eu & t & s & Hl & Hs & Ht). minv H.
  injection Hm as Hm1 ->. injection Hm0 as Hm0 ->. apply requireUUID_parses in Hm1, Hm0.
  apply authorize_run in H. destruct e as [r|r]; [|done]. destruct H as (Ha & row & pol & Hv & Hg & Hc).
  split; [done|]. rewrite Eu in Hg, Hc. exists (a, a0), row, pol, s. split_and!; try done. cbn.
  rewrite <- Ht, uuid_parse_string in Hm1. by injection Hm1 as <-.
Qed.
Lemma consume_run record service model now cost w r w' :
  ConsumeAccess record service model now cost w = (Ok r, w') ->
  if CR_Allowed r then consumed record service model now cost (w_db w) (w_db w') else w_db w' = w_db w.
Proof.
  intros (u & v & Eu & _ & _ & [[H E]|[H E]])%transaction_ok; apply consume_body_run in H.
  - destruct H as [-> H]. by rewrite E, <- Eu.
  - by rewrite H.
Qed.
(** An allowing answer names the key it was asked about. *)
Definition names_key (record : KeyRecord) (r : CheckResult) : Prop :=
  ∃ named, CR_Record r = Some named ∧ ID named = ID record ∧ TenantID named = TenantID record.
Lemma authorize_names k record model now cost w e w' : authorize k record model now cost w = (Ok e, w') ->
  match e with Schema.Commit r => names_key record r | Discard r => True end.
Proof.
  unfold authorize. intros ([row|] & u & _ & H)%bind_ok_inv; [|by injection H as <- <-].
  destruct (key_denial record row now); [by injection H as <- <-|]. destruct (k_policy_id row) as [policy|]; [|by injection H as <- <-].
  apply bind_ok_inv in H as ([pol|] & v & _ & H); [|by injection H as <- <-]. unfold grant in H.
  destruct (allows _ model); cbn -[consumeKeyBuckets] in H; [|by injection H as <- <-].
  apply bind_ok_inv in H as ([[] wait] & x & _ & [= <- <-]); [|done]. by eexists.
Qed.
Lemma consume_names record service model now cost w r w' : ConsumeAccess record service model now cost w = (Ok r, w') ->
  CR_Allowed r = true -> names_key record r.
Proof.
  intros (u & v & Eu & _ & _ & [[H E]|[H E]])%transaction_ok Ha; [|by apply consume_body_run in H; congruence].
  unfold consume_body in H. apply bind_ok_inv in H as ([] & x & _ & H); cbn in H; [|done]. minv H. by apply authorize_names in H.
Qed.
End Grants.
End AccessPolicy.
