(* ===== verification/Credential.v ===== *)
(** * Credentials

    internal/biz/accesskey: secrets, their Argon2id hash, the archived ciphertext,
    and the key service: create, list, get, revoke, rotate and the access check.
    The random bytes of a call are its arguments ([Draws]), AES-GCM and Argon2id
    are parameters; the process clock is in nanoseconds. *)

From S2P Require Import Prelude GoStrings Base64 Operation Gpu Resources Engine Work Schema WorkStore Reconcile Runner ReconcileStore OperationStore Commands AccessKey AccessPolicy.
From Stdlib Require Import Ascii.
Local Open Scope Z_scope.

(** [cipher.AEAD]: [Seal] gives the ciphertext after the nonce it was given as [dst]. *)
Record AEAD := mkAEAD {
  NonceSize : nat; Overhead : nat;
  aead_seal : string -> string -> string -> string;         (* nonce, plaintext, data *)
  aead_open : string -> string -> string -> option string }.
(** [argon2.IDKey] of a secret and a salt, with the parameters of the package. *)
Class Argon2 := argon2_key : string -> string -> string.
(** Opening what was sealed under the same nonce and data gives it back; a
    ciphertext is [Overhead] bytes longer than its plaintext. *)
Class AEADLaws (a : AEAD) := {
  open_seal nonce plain aad : String.length nonce = NonceSize a ->
    aead_open a nonce (aead_seal a nonce plain aad) aad = Some plain;
  seal_length nonce plain aad : String.length nonce = NonceSize a ->
    String.length (aead_seal a nonce plain aad) = (String.length plain + Overhead a)%nat }.
Class Argon2Laws `{Argon2} := argon2_length s salt : String.length (argon2_key s salt) = 32%nat.

Module Credential.
Import Schema WorkStore ReconcileStore OperationStore AccessKey AccessPolicy Base64.

Definition secretPrefix : string := "iak_".
Definition hashVersion : string := "argon2id-v1".
Definition argonKeyLen : nat := 32.
Definition argonSaltLen : nat := 16.
Definition secret_bytes : nat := 32.

(** What [rand.Read] gives for the secret, the salt and the nonce of a call. *)
Record Draws := mkDraws { dr_secret : result string; dr_salt : result string; dr_nonce : result string }.

(** ** Package strings *)
Fixpoint str_drop (n : nat) (s : string) : string :=
  match n, s with O, _ => s | S _, EmptyString => EmptyString | S n, String _ t => str_drop n t end.
(** [strings.Split(s, sep)] for a separator of one byte. *)
Fixpoint split (sep : ascii) (s : string) : list string :=
  match s with
  | EmptyString => [EmptyString]
  | String c t =>
      if bool_decide (c = sep) then EmptyString :: split sep t
      else match split sep t with
           | part :: rest => String c part :: rest
           | [] => [String c EmptyString]
           end
  end.
Definition dollar : ascii := Ascii.ascii_of_nat 36.
Definition nul : string := String (Ascii.ascii_of_nat 0) EmptyString.

(** ** Secrets *)
Definition keyPrefix (secret : string) : string :=
  if (String.length secret <=? 16)%nat then secret else str_take 16 secret.
Definition newSecret (d : Draws) : result (string * string) :=
  match dr_secret d with
  | Err e => Err (errorf_before "generate inference access key" e)
  | Ok buf => let secret := secretPrefix +:+ EncodeToString UrlAlphabet buf in Ok (secret, keyPrefix secret)
  end.

Section Hashes.
Context `{G : Argon2}.
Definition encode_hash (salt derived : string) : string :=
  hashVersion +:+ String dollar (EncodeToString StdAlphabet salt +:+
    String dollar (EncodeToString StdAlphabet derived)).
Definition hashSecret (d : Draws) (secret : string) : result string :=
  match dr_salt d with
  | Err e => Err (errorf_before "generate access-key hash salt" e)
  | Ok salt => Ok (encode_hash salt (argon2_key secret salt))
  end.
Definition verifySecret (secret encoded : string) : bool :=
  match split dollar encoded with
  | [version; salt; want] =>
      if negb (bool_decide (version = hashVersion)) then false else
      match DecodeString StdAlphabet salt with
      | None => false
      | Some salt =>
          if negb (String.length salt =? argonSaltLen)%nat then false else
          match DecodeString StdAlphabet want with
          | None => false
          | Some want =>
              if negb (String.length want =? argonKeyLen)%nat then false
              else bool_decide (argon2_key secret salt = want)
          end
      end
  | _ => false
  end.
End Hashes.

(** ** secret.go: [c] is the cipher, or nil. *)
Definition secretAAD (r : KeyRecord) : string :=
  "inference-access-key/v1" +:+ nul +:+ TenantID r +:+ nul +:+ ID r +:+ nul +:+ KeyPrefix r +:+ nul +:+ SecretHash r.
Definition seal (c : option AEAD) (d : Draws) (r : KeyRecord) (secret : string) : result string :=
  match c with
  | None => Err ErrSecretUnavailable
  | Some a => nonce ← dr_nonce d;
              Ok ("v1:" +:+ EncodeToString UrlAlphabet (nonce +:+ aead_seal a nonce secret (secretAAD r)))
  end.
Definition open (c : option AEAD) (r : KeyRecord) : result string :=
  match c with
  | None => Err ErrSecretUnavailable
  | Some a =>
      if negb (has_prefix (SecretCiphertext r) "v1:") then Err ErrSecretUnavailable else
      match DecodeString UrlAlphabet (str_drop 3 (SecretCiphertext r)) with
      | None => Err ErrSecretUnavailable
      | Some sealed =>
          if (String.length sealed <? NonceSize a + Overhead a)%nat then Err ErrSecretUnavailable else
          match aead_open a (str_take (NonceSize a) sealed) (str_drop (NonceSize a) sealed) (secretAAD r) with
          | None => Err ErrSecretUnavailable
          | Some secret =>
              if negb (String.length secret =? 47)%nat || negb (bool_decide (keyPrefix secret = KeyPrefix r)) ||
                 negb (has_prefix secret secretPrefix) then Err ErrSecretUnavailable else Ok secret
          end
      end
  end.

(** ** access_key.go: the service *)
Record KeyInput := mkKeyInput {
  KI_TenantID : string; KI_RequestID : string; KI_Name : string; KI_PolicyID : string;
  KI_AllowedServiceIDs : list string; KI_AllowedModelNames : list string; KI_RequestsPerSecond : Z;
  KI_RequestsPerMinute : Z; KI_RequestsPerHour : Z; KI_ExpiresAt : option Z; KI_CreatedBy : string;
  KI_IdempotencyKey : string }.
#[global] Instance KeyInput_eta : Eta KeyInput := fun i =>
  mkKeyInput (KI_TenantID i) (KI_RequestID i) (KI_Name i) (KI_PolicyID i) (KI_AllowedServiceIDs i)
    (KI_AllowedModelNames i) (KI_RequestsPerSecond i) (KI_RequestsPerMinute i) (KI_RequestsPerHour i)
    (KI_ExpiresAt i) (KI_CreatedBy i) (KI_IdempotencyKey i).
(** [CreateResult] and [RotateResult]. *)
Record SecretResult := mkSecretResult { SR_Record : KeyRecord; SR_Secret : string; SR_Replayed : bool }.

Definition sameExpiry (a b : option Z) : bool := bool_decide (a = b).
Definition expired (t : option Z) (now : Z) : bool := match t with Some t => t <=? now | None => false end.

Section Service.
Context `{U : UuidLib} `{I : UuidInput} `{G : Argon2} (cipher : option AEAD).

Definition trim_input (i : KeyInput) : KeyInput :=
  i <| KI_Name := trim_space (KI_Name i) |> <| KI_TenantID := trim_space (KI_TenantID i) |>
    <| KI_CreatedBy := trim_space (KI_CreatedBy i) |> <| KI_IdempotencyKey := trim_space (KI_IdempotencyKey i) |>.
(** The guards of [Create]; the canonical policy id. *)
Definition check_input (i : KeyInput) (now : Z) : result string :=
  _ ← checkr (negb (bool_decide (KI_TenantID i = "") || bool_decide (KI_Name i = "") || bool_decide (KI_CreatedBy i = "")))
        (errorf_after AccessKey.ErrInvalidInput "tenant, name and actor are required");
  let invalid := Err (errorf_after AccessKey.ErrInvalidInput "a policy ID is required; scope and limits belong to the policy") in
  match uuid_parse (trim_space (KI_PolicyID i)) with
  | None => invalid
  | Some u =>
      if bool_decide (u = 0%N) || negb (bool_decide (uuid_string u = KI_PolicyID i)) ||
         negb (bool_decide (KI_AllowedServiceIDs i = [])) || negb (bool_decide (KI_AllowedModelNames i = [])) ||
         negb (KI_RequestsPerSecond i =? 0) || negb (KI_RequestsPerMinute i =? 0) || negb (KI_RequestsPerHour i =? 0) ||
         expired (KI_ExpiresAt i) now
      then invalid else Ok (uuid_string u)
  end.
Definition key_record (tenant id name prefix hash policy : string) (expires : option Z) (actor idem : string) : KeyRecord :=
  mkKeyRecord tenant id name prefix hash hashVersion policy "" "" [] [] 0 0 0 expires None actor 0 None 1 idem "".
Definition Service_Create (d : Draws) (now : Z) (input : KeyInput) : M World SecretResult :=
  let i := trim_input input in
  policy ← lift (check_input i now);
  '(secret, prefix) ← lift (newSecret d);
  hash ← lift (hashSecret d secret);
  id ← new_uuid;
  let record := key_record (KI_TenantID i) (uuid_string id) (KI_Name i) prefix hash policy (KI_ExpiresAt i)
                  (KI_CreatedBy i) (KI_IdempotencyKey i) in
  sealed ← lift (seal cipher d record secret);
  created ← Repository_Create (record <| SecretCiphertext := sealed |>) (trim_space (KI_RequestID i));
  let stored := PR_Record created in
  if PR_Replayed created then
    _ ← check (bool_decide (Name stored = KI_Name i) && bool_decide (PolicyID stored = policy) &&
               sameExpiry (ExpiresAt stored) (KI_ExpiresAt i)) ErrIdempotencyReplay;
    mret (mkSecretResult stored "" true)
  else mret (mkSecretResult stored secret false).

(** The archived secrets of a page; the first that does not open fails the call. *)
Fixpoint reveal (items : list KeyRecord) : result (list KeyRecord) :=
  match items with
  | [] => Ok []
  | r :: rest =>
      r' ← (if bool_decide (SecretCiphertext r = "") then Ok r
            else secret ← open cipher r; Ok (r <| Secret := secret |>));
      rest' ← reveal rest;
      Ok (r' :: rest')
  end.
Definition contains_nul (s : string) : bool := has_char 0 s.
Definition Service_List (tenantID : string) (o : ListOptions) : M World (list KeyRecord * Z) :=
  let limit := if LO_Limit o =? 0 then 20 else LO_Limit o in
  let model := trim_space (LO_ServedModelName o) in
  _ ← check (negb ((limit <? 1) || (100 <? limit) || (LO_Offset o <? 0)))
        (errorf_after AccessKey.ErrInvalidInput "invalid access-key page");
  _ ← check (negb (contains_nul model)) (errorf_after AccessKey.ErrInvalidInput "invalid model name");
  '(items, total) ← Repository_List (trim_space tenantID) (mkListOptions limit (LO_Offset o) model);
  items ← lift (reveal items);
  mret (items, total).
Definition Service_Get (tenantID id : string) : M World KeyRecord :=
  r ← Repository_Get (trim_space tenantID) (trim_space id);
  if bool_decide (SecretCiphertext r = "") then mret r else
  secret ← lift (open cipher r);
  mret (r <| Secret := secret |>).
Definition Service_Revoke (tenantID id actor requestID : string) : M World KeyRecord :=
  Repository_Revoke (trim_space tenantID) (trim_space id) (trim_space actor) (trim_space requestID).
Definition sealed_as (tenant id prefix hash : string) : KeyRecord :=
  mkKeyRecord tenant id "" prefix hash "" "" "" "" [] [] 0 0 0 None None "" 0 None 0 "" "".
Definition Service_Rotate (d : Draws) (tenantID id idem actor requestID : string) : M World SecretResult :=
  '(secret, prefix) ← lift (newSecret d);
  hash ← lift (hashSecret d secret);
  sealed ← lift (seal cipher d (sealed_as (trim_space tenantID) (trim_space id) prefix hash) secret);
  result ← Repository_Rotate (trim_space tenantID) (trim_space id)
             (mkRotatePersistInput prefix hash hashVersion sealed (trim_space idem) (trim_space actor) (trim_space requestID));
  mret (if PR_Replayed result then mkSecretResult (PR_Record result) "" true
        else mkSecretResult (PR_Record result) secret false).

Definition denied (r : option KeyRecord) (code : string) : CheckResult :=
  mkCheckResult r false code 0 (match r with Some r => Version r | None => 0 end).
(** The authenticated key, or the answer that refuses it. *)
Definition authenticate (apiKey : string) (now : Z) : M World (KeyRecord + CheckResult) :=
  if bool_decide (apiKey = "") || negb (has_prefix apiKey secretPrefix) then mret (inr (denied None "invalid_key")) else
  found ← try (Repository_GetByPrefix (keyPrefix apiKey));
  match found with
  | Err e => if errors_is e "accesskey.ErrNotFound" then mret (inr (denied None "invalid_key")) else throw e
  | Ok record =>
      mret (if negb (verifySecret apiKey (SecretHash record)) then inr (denied None "invalid_key")
            else if bool_decide (is_Some (RevokedAt record)) then inr (denied (Some record) "revoked")
            else if expired (ExpiresAt record) now then inr (denied (Some record) "expired")
            else inl record)
  end.
(** An accepted credential without a ciphertext is archived. *)
Definition archive (d : Draws) (record : KeyRecord) (apiKey : string) : M World unit :=
  if bool_decide (SecretCiphertext record = "") then
    sealed ← lift (seal cipher d record apiKey);
    Repository_ArchiveSecret record sealed
  else mret tt.
Definition Service_Check (d : Draws) (now : Z) (apiKey serviceID model : string) (cost : Z) : M World CheckResult :=
  let apiKey := trim_space apiKey in
  let wanted := trim_space serviceID in
  let model := trim_space model in
  who ← authenticate apiKey now;
  match who with
  | inr answer => mret answer
  | inl record =>
      resolved ← Resolve model;
      if bool_decide (resolved = "") || (negb (bool_decide (wanted = "")) && negb (bool_decide (wanted = resolved)))
      then mret (denied (Some record) "scope_denied") else
      result ← ConsumeAccess record resolved model now (if cost <? 1 then 1 else cost);
      if negb (CR_Allowed result) then mret result else
      _ ← archive d record apiKey;
      mret result
  end.
End Service.
(** ** The access check *)
Section Check.
Context `{U : UuidLib} {UL : UuidLaws} `{G : Argon2} (cipher : option AEAD).

Lemma by_prefix_ok p w r w' : Repository_GetByPrefix p w = (Ok r, w') ->
  w_db w' = w_db w ∧ ∃ k row, access_keys (w_db w) !! k = Some row ∧ k_prefix row = p ∧ r = accessKeyRecord k row.
Proof.
  unfold Repository_GetByPrefix, missing. intros ([k row] & u & H1 & [= <- <-])%bind_ok_inv.
  apply bind_ok_inv in H1 as (v & x & Hx & H1). apply try_inv in Hx as (y & [= ->] & Hx).
  destruct y as [[k' row']|e]; [|done]. injection H1 as -> -> ->. apply exec_ok in Hx as (t & _ & Hx & _).
  unfold GetInferenceAccessKeyByPrefix, select_one in Hx.
  destruct (find_key _ (w_db w)) as [[k' row']|] eqn:E; [|done]. injection Hx as -> -> Hu. split; [done|].
  apply find_key_some in E as [E1 E2%bool_decide_eq_true]. eauto.
Qed.
Lemma get_by_prefix_reads p w r w' : Repository_GetByPrefix p w = (r, w') -> w_db w' = w_db w.
Proof.
  intros H. assert (Hm : moves (db_rel (=)) (Repository_GetByPrefix p)).
  { unfold Repository_GetByPrefix, missing, GetInferenceAccessKeyByPrefix. moves. }
  specialize (Hm w). rewrite H in Hm. symmetry. apply Hm.
Qed.
(** The key a credential belongs to. *)
Record authentic (db : DB) (apiKey : string) (k : key) (row : KeyRow) : Prop := mkAuthentic {
  au_row : access_keys db !! k = Some row;
  au_prefix : k_prefix row = keyPrefix apiKey;
  au_secret : verifySecret apiKey (k_secret_hash row) = true }.
Lemma authenticate_run apiKey now w r w' : authenticate apiKey now w = (Ok r, w') ->
  w_db w' = w_db w ∧
  match r with
  | inl record => ∃ k row, authentic (w_db w) apiKey k row ∧ record = accessKeyRecord k row
  | inr answer => CR_Allowed answer = false
  end.
Proof.
  unfold authenticate. destruct (_ || _); [by intros [= <- <-]|].
  intros (found & u & H1 & H)%bind_ok_inv. apply try_inv in H1 as (v & [= ->] & H1).
  pose proof (get_by_prefix_reads _ _ _ _ H1) as Eu.
  destruct v as [record|e]; [|case_match; [by injection H as <- <-|done]].
  injection H as <- <-. split; [done|]. apply by_prefix_ok in H1 as (_ & k & row & Hrow & Hp & ->).
  destruct (verifySecret apiKey _) eqn:Ev; cbn [negb]; [|done].
  destruct (bool_decide _); [done|]. destruct (expired _ now); [done|].
  exists k, row. done.
Qed.
Lemma resolve_ok model w s w' : Resolve model w = (Ok s, w') -> w_db w' = w_db w.
Proof. unfold Resolve. by intros (r & u & (_ & Hu)%lookup_ok & [= _ <-])%bind_ok_inv. Qed.
Lemma archive_buckets d record apiKey w r w' :
  archive cipher d record apiKey w = (r, w') -> rate_buckets (w_db w') = rate_buckets (w_db w).
Proof.
  intros H. set (R := fun db db' : DB => rate_buckets db' = rate_buckets db).
  assert (PreOrder R) by (split; [done|intros ??? H1 H2; unfold R in *; congruence]).
  assert (Hm : moves (db_rel R) (archive cipher d record apiKey)).
  { unfold archive, Repository_ArchiveSecret. moves. apply moves_exec; [done|].
    unfold ArchiveInferenceAccessKeySecret, touch_key. apply respects_execrows; [apply _|].
    intros now db db'. destruct (access_keys db !! _); [|done]. cbn. case_match; [|done]. by intros [= <-]. }
  specialize (Hm w). rewrite H in Hm. apply Hm.
Qed.

(** One run of the check: what it granted, or that nothing changed. *)
Lemma check_run d now apiKey serviceID model cost w r w' :
  Service_Check cipher d now apiKey serviceID model cost w = (Ok r, w') ->
  if CR_Allowed r then
    ∃ k row pol s, authentic (w_db w) (trim_space apiKey) k row ∧
      grantable (w_db w) k row pol (trim_space model) now ∧ leads_to (w_db w) (trim_space model) (k.1, s) ∧
      (trim_space serviceID = "" ∨ trim_space serviceID = uuid_string s) ∧
      counted k now (Z.max 1 cost) (policy_windows pol) (w_db w) (w_db w') ∧ names_key (accessKeyRecord k row) r
  else w_db w' = w_db w.
Proof.
  unfold Service_Check. intros (who & u & Hw & H)%bind_ok_inv. apply authenticate_run in Hw as [Eu Hwho].
  destruct who as [record|answer]; [|by injection H as <- <-; rewrite Hwho].
  destruct Hwho as (k & row & Hauth & ->). apply bind_ok_inv in H as (resolved & v & Ev%resolve_ok & H).
  destruct (_ || _) eqn:Eb; [injection H as <- <-; cbn; congruence|].
  apply orb_false_iff in Eb as [_ Eb]. apply bind_ok_inv in H as (result & x & Hc & H).
  replace (if cost <? 1 then 1 else cost) with (Z.max 1 cost) in Hc by (destruct (cost <? 1) eqn:?; lia).
  pose proof (consume_names _ _ _ _ _ _ _ _ Hc) as Hn. apply consume_run in Hc. rewrite Ev, Eu in Hc.
  destruct (CR_Allowed result) eqn:Ea; cbn in H.
  2:{ injection H as <- <-. rewrite Ea. congruence. }
  apply bind_ok_inv in H as (? & y & Ha & [= <- <-]). apply archive_buckets in Ha. rewrite Ea.
  destruct Hc as ([t i] & row' & pol & s & Ht & Hi & _ & Hg & Hl & Hs & Hcount). cbn in Ht, Hi.
  rewrite uuid_parse_string in Ht, Hi. injection Ht as <-. injection Hi as <-. destruct k as [t i]. cbn in *.
  assert (row' = row) as -> by (apply (inj Some); rewrite <- (gr_row _ _ _ _ _ _ Hg); apply Hauth).
  exists (t, i), row, pol, s. split_and!; [done|done|done| | |by apply Hn].
  - subst resolved. apply andb_false_iff in Eb.
    destruct Eb as [Eb|Eb]; apply negb_false_iff, bool_decide_eq_true in Eb; auto.
  - destruct Hcount as [C1 C2]. split; intros; rewrite Ha; eauto.
Qed.

(** Claim C22. Whenever the access check answers "allowed", the presented secret
    belongs to a stored key (its prefix and its Argon2id hash match), that key is
    neither revoked nor expired, its policy belongs to the same tenant and lists
    the requested model, and the model name leads to exactly one service: one of
    the key's tenant whose current generation is published, with no other service
    holding a live publication under that name.  A service named by the caller is
    that service. *)
Theorem access_requires_grant d now apiKey serviceID model cost w r w' :
  Service_Check cipher d now apiKey serviceID model cost w = (Ok r, w') -> CR_Allowed r = true ->
  ∃ k row pol s, authentic (w_db w) (trim_space apiKey) k row ∧
    grantable (w_db w) k row pol (trim_space model) now ∧ leads_to (w_db w) (trim_space model) (k.1, s) ∧
    (trim_space serviceID = "" ∨ trim_space serviceID = uuid_string s).
Proof. intros H Ha. apply check_run in H. rewrite Ha in H. naive_solver. Qed.

(** Claim C23. Rate limits.  An allowed request is counted in every limited
    window of the key's policy - the second, the minute and the hour that contain
    the request - with its cost (at least one), and no count passes its limit; no
    other bucket changes.  A refused request changes nothing at all. *)
Theorem access_counted d now apiKey serviceID model cost w r w' :
  Service_Check cipher d now apiKey serviceID model cost w = (Ok r, w') ->
  if CR_Allowed r then
    ∃ k pol, (∃ row, grantable (w_db w) k row pol (trim_space model) now) ∧
      counted k now (Z.max 1 cost) (policy_windows pol) (w_db w) (w_db w')
  else w_db w' = w_db w.
Proof. intros H. apply check_run in H. destruct (CR_Allowed r); [naive_solver|done]. Qed.
End Check.
(** ** Secrets survive storage *)
Lemma append_nil b : "" +:+ b = b.
Proof. done. Qed.
Lemma append_cons c a b : String c a +:+ b = String c (a +:+ b).
Proof. done. Qed.
Lemma split_at sep a b : has_char (byte sep) a = false -> split sep (a +:+ String sep b) = a :: split sep b.
Proof.
  induction a as [|c a IH]; rewrite ?append_nil, ?append_cons; cbn -[byte]; intros H.
  - by rewrite bool_decide_true.
  - apply orb_false_iff in H as [H1 H2]. rewrite bool_decide_false.
    + by rewrite IH.
    + intros ->. by rewrite Z.eqb_refl in H1.
Qed.
Lemma split_none sep a : has_char (byte sep) a = false -> split sep a = [a].
Proof.
  induction a as [|c a IH]; cbn -[byte]; intros H; [done|].
  apply orb_false_iff in H as [H1 H2]. rewrite bool_decide_false by (intros ->; by rewrite Z.eqb_refl in H1).
  by rewrite IH.
Qed.
Lemma take_app a b : str_take (String.length a) (a +:+ b) = a.
Proof. induction a as [|c a IH]; rewrite ?append_nil, ?append_cons; cbn; [by destruct b|]. by rewrite IH. Qed.
Lemma drop_app a b : str_drop (String.length a) (a +:+ b) = b.
Proof. induction a as [|c a IH]; rewrite ?append_nil, ?append_cons; cbn; [by destruct b|done]. Qed.
Lemma has_prefix_app a b : has_prefix (a +:+ b) a = true.
Proof. induction a as [|c a IH]; rewrite ?append_nil, ?append_cons; cbn; [by destruct b|]. by rewrite bool_decide_true. Qed.
Lemma length_append a b : String.length (a +:+ b) = (String.length a + String.length b)%nat.
Proof. induction a as [|c a IH]; rewrite ?append_nil, ?append_cons; cbn; [done|]. by rewrite IH. Qed.

(** The reads of the random source that succeed. *)
Record good_draws (a : AEAD) (d : Draws) (buf salt nonce : string) : Prop := mkGoodDraws {
  gd_secret : dr_secret d = Ok buf; gd_salt : dr_salt d = Ok salt; gd_nonce : dr_nonce d = Ok nonce;
  gd_secret_len : String.length buf = secret_bytes; gd_salt_len : String.length salt = argonSaltLen;
  gd_nonce_len : String.length nonce = NonceSize a }.

Section Secrets.
Context `{G : Argon2} {GL : Argon2Laws} (a : AEAD) {AL : AEADLaws a}.

Lemma new_secret_form d buf secret prefix : dr_secret d = Ok buf -> String.length buf = secret_bytes ->
  newSecret d = Ok (secret, prefix) ->
  String.length secret = 47%nat ∧ has_prefix secret secretPrefix = true ∧ prefix = keyPrefix secret.
Proof.
  unfold newSecret. intros -> Hl [= <- <-]. split_and!; [|apply has_prefix_app|done].
  rewrite length_append, (length_encode UrlAlphabet buf 10) by done. done.
Qed.
Lemma verify_hash salt secret : String.length salt = argonSaltLen ->
  verifySecret secret (encode_hash salt (argon2_key secret salt)) = true.
Proof.
  intros Hl. unfold verifySecret, encode_hash. rewrite !split_at, split_none.
  - rewrite bool_decide_true by done. cbn [negb]. rewrite decode_encode, Hl. cbn [Nat.eqb negb argonSaltLen].
    rewrite decode_encode, argon2_length. cbn. by rewrite bool_decide_true.
  - by apply encode_without.
  - by apply encode_without.
  - done.
Qed.
Lemma open_sealed d nonce r r' secret sealed : dr_nonce d = Ok nonce -> String.length nonce = NonceSize a ->
  String.length secret = 47%nat -> has_prefix secret secretPrefix = true -> keyPrefix secret = KeyPrefix r' ->
  seal (Some a) d r secret = Ok sealed -> secretAAD r' = secretAAD r -> SecretCiphertext r' = sealed ->
  open (Some a) r' = Ok secret.
Proof.
  unfold seal, open. intros -> Hn Hl Hp Hk H HA HC. cbn [mbind result_bind] in H. injection H as <-. rewrite HC.
  rewrite has_prefix_app. cbn [negb]. change (str_drop 3 _) with (EncodeToString UrlAlphabet
    (nonce +:+ aead_seal a nonce secret (secretAAD r))). rewrite decode_encode.
  rewrite length_append, seal_length by done.
  replace (_ <? _)%nat with false by (symmetry; apply Nat.ltb_ge; lia).
  rewrite <- Hn, take_app, drop_app, HA, open_seal by done. rewrite Hl, Hp, (bool_decide_true _ Hk). done.
Qed.
End Secrets.

Lemma append_audit_keys k e t a r p now db u db' :
  AppendInferenceAccessKeyAudit k e t a r p now db = Ok (u, db') -> access_keys db' = access_keys db.
Proof. unfold AppendInferenceAccessKeyAudit. do 2 (case_match; [done|]). by intros [= _ <-]. Qed.
Lemma insert_key_inv k row now db r db' : InsertInferenceAccessKey k row now db = Ok (r, db') ->
  r = row now ∧ access_keys db' = <[k := r]> (access_keys db) ∧
  ∀ idem, k_create_idempotency_key r = Some idem -> find_key (create_key_is k.1 idem) db = None.
Proof.
  unfold InsertInferenceAccessKey. case_match; [done|].
  assert (Hx : ∀ (b : bool) {A} (x y z : A), (if b then x else y) = z -> b = true ∧ x = z ∨ b = false ∧ y = z).
  { intros [] ????; auto. }
  intros [[_ [=]]|[Hi H1]]%Hx. do 2 (case_match; [done|]). apply Hx in H1 as [[_ [=]]|[_ [= <- <-]]].
  split_and!; [done..|]. intros idem E. rewrite E in Hi. apply bool_decide_eq_false in Hi. by apply eq_None_not_Some.
Qed.
(** The row just inserted is the one its idempotency key finds. *)
Lemma find_created k r idem db db' : find_key (create_key_is k.1 idem) db = None ->
  k_create_idempotency_key r = Some idem -> access_keys db' = <[k := r]> (access_keys db) ->
  find_key (create_key_is k.1 idem) db' = Some (k, r).
Proof.
  intros Hn Hk E. assert (Hr : access_keys db' !! k = Some r) by (by rewrite E, lookup_insert_eq).
  destruct (find_key _ db') as [[k' r']|] eqn:Ef.
  - apply find_key_some in Ef as [H1 H2]. rewrite E, lookup_insert_Some in H1.
    destruct H1 as [[-> ->]|[_ H1]]; [done|]. by rewrite (find_key_none _ _ _ _ Hn H1) in H2.
  - pose proof (find_key_none _ _ _ _ Ef Hr) as H. unfold create_key_is in H. by rewrite !bool_decide_true in H.
Qed.
Lemma find_key_keys p db db' : access_keys db' = access_keys db -> find_key p db' = find_key p db.
Proof. unfold find_key. by intros ->. Qed.
Section Lifecycle.
Context `{U : UuidLib} {UL : UuidLaws}.

Lemma create_body_new in_ rid k policy w p w' :
  create_body in_ rid k policy w = (Ok (Schema.Commit p), w') -> PR_Replayed p = false ->
  ∃ now, let row := new_row in_ policy now in
    access_keys (w_db w') !! k = Some row ∧ PR_Record p = accessKeyRecord k row ∧
    ∀ idem, textParam (CreateIdempotencyKey in_) = Some idem ->
      find_key (create_key_is k.1 idem) (w_db w') = Some (k, row).
Proof.
  unfold create_body. intros ([r|] & u & H0 & H)%bind_ok_inv Hp.
  { injection H as <- <-. unfold earlier_create in H0. case_match; [done|].
    apply bind_ok_inv in H0 as ([kr|] & v & _ & [= <- _]); done. }
  apply bind_ok_inv in H as (? & v & _ & H). apply bind_ok_inv in H as (ins & wx & Hi & H).
  apply try_inv in Hi as (y & [= ->] & Hi). destruct y as [r|e].
  - apply bind_ok_inv in H as (event & x1 & [E1 _]%new_uuid_db & H).
    apply bind_ok_inv in H as ([] & x2 & Ha & [= <- <-]).
    apply exec_ok in Hi as (now & _ & (-> & Hi & Hu)%insert_key_inv & _).
    apply exec_ok in Ha as (now' & _ & Ha%append_audit_keys & _).
    exists now. cbv zeta. rewrite E1 in Ha. rewrite Ha, Hi, lookup_insert_eq. split_and!; [done..|].
    intros idem Hidem. rewrite (find_key_keys _ _ _ Ha). eapply find_created; [|exact Hidem|exact Hi]. auto.
  - case_match; [|done]. apply bind_ok_inv in H as ([k' r] & ? & _ & [= <- _]). done.
Qed.
Lemma create_new in_ rid w p w' : Repository_Create in_ rid w = (Ok p, w') -> PR_Replayed p = false ->
  ∃ t i policy now, let row := new_row in_ policy now in
    uuid_parse (TenantID in_) = Some t ∧ uuid_parse (ID in_) = Some i ∧
    uuid_parse (PolicyID in_) = Some policy ∧
    access_keys (w_db w') !! (t, i) = Some row ∧ PR_Record p = accessKeyRecord (t, i) row ∧
    ∀ idem, textParam (CreateIdempotencyKey in_) = Some idem ->
      find_key (create_key_is t idem) (w_db w') = Some ((t, i), row).
Proof.
  unfold Repository_Create. intros H Hp. minv H. injection Hm as Hk ->. injection Hm0 as Hpol ->.
  unfold key_of in Hk. minv Hk. apply requireUUID_parses in Hm, Hm0, Hpol. injection Hk as <-.
  apply transaction_ok in H as (u' & v & Eu & _ & _ & [[H E]|[H E]]).
  - destruct (create_body_new _ _ _ _ _ _ _ H Hp) as (now & H1 & H2 & H3). rewrite <- E in H1, H3.
    eexists _, _, _, now. split_and!; eauto.
  - exfalso. revert H. unfold create_body.
    intros ([r|] & ? & _ & H)%bind_ok_inv; [done|]. apply bind_ok_inv in H as (? & ? & _ & H).
    apply bind_ok_inv in H as ([r|e] & ? & _ & H).
    + apply bind_ok_inv in H as (? & ? & _ & H). by apply bind_ok_inv in H as (? & ? & _ & H).
    + case_match; [|done]. by apply bind_ok_inv in H as ([] & ? & _ & H).
Qed.

Context `{G : Argon2} {GL : Argon2Laws} (a : AEAD) {AL : AEADLaws a}.

(** Claim C35. The secret that a create hands out works: it is stored so that it
    authenticates (its prefix finds the row and its Argon2id hash verifies), and
    opening the archived ciphertext of that row gives the same secret back,
    provided the tenant id was given in its canonical spelling. *)
Theorem created_secret_round_trip d buf salt nonce t now input w r w' :
  good_draws a d buf salt nonce -> uuid_string t = trim_space (KI_TenantID input) ->
  Service_Create (Some a) d now input w = (Ok r, w') -> SR_Replayed r = false ->
  ∃ k row, authentic (w_db w') (SR_Secret r) k row ∧ SR_Record r = accessKeyRecord k row ∧
    open (Some a) (accessKeyRecord k row) = Ok (SR_Secret r).
Proof.
  intros [D1 D2 D3 D4 D5 D6] Ht. unfold Service_Create. intros H Hr.
  apply bind_ok_inv in H as (policy & ? & _ & H). apply bind_ok_inv in H as ([secret prefix] & ? & [= Hs ->] & H).
  apply bind_ok_inv in H as (hash & ? & [= Hh ->] & H). apply bind_ok_inv in H as (id & ? & _ & H).
  apply bind_ok_inv in H as (sealed & ? & [= Hc ->] & H). apply bind_ok_inv in H as (p & ? & Hp & H).
  destruct (PR_Replayed p) eqn:Ep.
  { by apply bind_ok_inv in H as (? & ? & _ & [= <- _]). }
  injection H as <- <-. cbn [SR_Secret SR_Record].
  destruct (create_new _ _ _ _ _ Hp Ep) as (t' & i & pol & now' & Pt & Pi & _ & Hrow & Hrec & _).
  cbn in Pt, Pi.
  rewrite <- Ht, uuid_parse_string in Pt. injection Pt as <-. rewrite uuid_parse_string in Pi. injection Pi as <-.
  destruct (new_secret_form _ _ _ _ D1 D4 Hs) as (Hl & Hpre & ->).
  unfold hashSecret in Hh. rewrite D2 in Hh. injection Hh as <-.
  eexists (t, id), _. split_and!; [|exact Hrec|].
  - split; [exact Hrow|done|]. cbn. by apply verify_hash.
  - eapply open_sealed; [exact _|exact D3|exact D6|exact Hl|exact Hpre|done|exact Hc| |].
    + unfold secretAAD. cbn. by rewrite Ht.
    + cbn. unfold seal in Hc. rewrite D3 in Hc. cbn [mbind result_bind] in Hc. injection Hc as <-. done.
Qed.
End Lifecycle.
(** ** Histories of keys

    The calls that write keys or policies, in any order and with any outcome. *)
Inductive KeyCommand :=
  | KCreate (d : Draws) (now : Z) (input : KeyInput)
  | KRevoke (tenant id actor request : string)
  | KRotate (d : Draws) (tenant id idem actor request : string)
  | KCheck (d : Draws) (now : Z) (apiKey service model : string) (cost : Z)
  | KBind (tenant id policy actor request : string)
  | KCreatePolicy (p : Policy) (actor request : string)
  | KUpdatePolicy (p : Policy) (actor request : string)
  | KDeletePolicy (tenant id actor request : string).

Section Histories.
Context `{U : UuidLib} {UL : UuidLaws} `{I : UuidInput} `{G : Argon2} (cipher : option AEAD).

Definition forget {A} (c : M World A) : M World unit := _ ← try c; mret tt.
Definition run_command (c : KeyCommand) : M World unit :=
  match c with
  | KCreate d now input => forget (Service_Create cipher d now input)
  | KRevoke t i a r => forget (Service_Revoke t i a r)
  | KRotate d t i k a r => forget (Service_Rotate cipher d t i k a r)
  | KCheck d now key s m cost => forget (Service_Check cipher d now key s m cost)
  | KBind t i p a r => forget (BindAccessPolicy t i p a r)
  | KCreatePolicy p a r => forget (CreateAccessPolicy p a r)
  | KUpdatePolicy p a r => forget (UpdateAccessPolicy p a r)
  | KDeletePolicy t i a r => forget (DeleteAccessPolicy t i a r)
  end.

Lemma moves_forget {A} (c : M World A) : moves (db_rel keys_kept) c -> moves (db_rel keys_kept) (forget c).
Proof. intros H. unfold forget. db_moves. Qed.
Lemma moves_command c : moves (db_rel keys_kept) (run_command c).
Proof.
  destruct c; cbn; apply moves_forget; [| | | |auto with moves..].
  - unfold Service_Create. db_moves.
  - unfold Service_Revoke. db_moves.
  - unfold Service_Rotate. db_moves.
  - unfold Service_Check, authenticate, archive. db_moves.
Qed.

(** Claim C24. Through any sequence of calls to the key service and the policy
    store, whether they succeed, fail or lose their answer: a key is never lost,
    its version never decreases, a revocation (and its time) is final, the expiry
    never changes, and a row whose version is unchanged still has the same secret
    hash, prefix, policy and revocation; and no two keys come to share a prefix. *)
Theorem keys_move_forward commands w :
  let w' := (each run_command commands w).2 in
  prefixes_unique (w_db w) ->
  prefixes_unique (w_db w') ∧
  ∀ k row, access_keys (w_db w) !! k = Some row -> ∃ row', access_keys (w_db w') !! k = Some row' ∧ key_step row row'.
Proof.
  intros w' Hu. assert (Hm : moves (db_rel keys_kept) (each run_command commands)).
  { apply moves_each; [typeclasses eauto|]. apply moves_command. }
  destruct (Hm w) as [_ [H1 H2]]. auto.
Qed.

(** A credential checked before a rotation, a revocation or a rebinding
    grants nothing after it: when the transaction that counts a request accepts a
    record read at an earlier state of the keys, the row it locks still has the
    secret hash, the prefix and the policy of that record and is not revoked,
    however many calls ran in between. *)
Theorem stale_credentials_refused commands w0 w k row service model now cost r w' :
  w_db w = w_db (each run_command commands w0).2 ->
  access_keys (w_db w0) !! k = Some row ->
  ConsumeAccess (accessKeyRecord k row) service model now cost w = (Ok r, w') -> CR_Allowed r = true ->
  ∃ row', access_keys (w_db w) !! k = Some row' ∧ k_secret_hash row' = k_secret_hash row ∧
    k_prefix row' = k_prefix row ∧ k_policy_id row' = k_policy_id row ∧ k_revoked_at row' = None.
Proof.
  intros Ew Hrow H Ha. assert (Hm : moves (db_rel keys_kept) (each run_command commands)).
  { apply moves_each; [typeclasses eauto|]. apply moves_command. }
  destruct (Hm w0) as [_ [H1 _]]. destruct (H1 _ _ Hrow) as (row' & Hrow' & Hs). rewrite <- Ew in Hrow'.
  apply consume_run in H. rewrite Ha in H. destruct H as ([t i] & row2 & pol & s & Ht & Hi & Hv & Hg & _).
  cbn in Ht, Hi. rewrite uuid_parse_string in Ht, Hi. injection Ht as <-. injection Hi as <-. destruct k as [t i].
  assert (row2 = row') as -> by (apply (inj Some); rewrite <- Hrow'; symmetry; apply (gr_row _ _ _ _ _ _ Hg)).
  destruct (ks_same _ _ Hs Hv) as (E1 & E2 & E3 & E4). exists row'. split_and!; [done..|]. apply Hg.
Qed.
End Histories.
(** ** Rotation and the spelling of an id *)
Lemma append_inj_l a b c : a +:+ b = a +:+ c -> b = c.
Proof. induction a as [|x a IH]; rewrite ?append_nil, ?append_cons; [done|]. intros [= H]. auto. Qed.
Lemma append_inj_r a b c : a +:+ c = b +:+ c -> a = b.
Proof.
  intros H. assert (String.length a = String.length b) as El.
  { apply (f_equal String.length) in H. rewrite !length_append in H. lia. }
  rewrite <- (take_app a c), H, El. apply take_app.
Qed.
Lemma rotate_key_inv k p h v i c now db r db' : RotateInferenceAccessKey k p h v i c now db = Ok (r, db') ->
  access_keys db' !! k = Some r ∧ k_prefix r = p ∧ k_secret_hash r = h ∧ k_secret_ciphertext r = c.
Proof.
  unfold RotateInferenceAccessKey, update_key. destruct (access_keys db !! k) as [r0|] eqn:E; [|done].
  intros H. minv H. destruct a as [r'|]; [|done]. injection H as -> <-. case_match; [done|]. minv Hm.
  case_match; [done|]. injection Hm as <-. cbn. by rewrite lookup_insert_eq.
Qed.

Section Rotation.
Context `{U : UuidLib} {UL : UuidLaws}.

Lemma rotate_new t i input w p w' : Repository_Rotate t i input w = (Ok p, w') -> PR_Replayed p = false ->
  ∃ k row, uuid_parse t = Some k.1 ∧ uuid_parse i = Some k.2 ∧ access_keys (w_db w') !! k = Some row ∧
    k_prefix row = RI_KeyPrefix input ∧ k_secret_hash row = RI_SecretHash input ∧
    k_secret_ciphertext row = textParam (RI_SecretCiphertext input).
Proof.
  unfold Repository_Rotate. intros H Hp. minv H. injection Hm as Hk ->. unfold key_of in Hk. minv Hk.
  apply requireUUID_parses in Hm, Hm0. injection Hk as <-.
  apply transaction_ok in H as (u' & v & Eu & _ & _ & H). unfold rotate_body in H.
  assert (∃ e, rotate_body (a0, a1) i input u' = (Ok e, v) ∧ e = Schema.Commit p ∧ w_db w' = w_db v ∨
             rotate_body (a0, a1) i input u' = (Ok e, v) ∧ e = Discard p) as (e & He).
  { destruct H as [[H ?]|[H ?]]; eexists; [left|right]; done. }
  clear H. assert (Hb : rotate_body (a0, a1) i input u' = (Ok e, v)) by tauto. unfold rotate_body in Hb.
  apply bind_ok_inv in Hb as (cur & w1 & _ & Hb). apply bind_ok_inv in Hb as (rep & w2 & _ & Hb).
  destruct rep as [r|]; [injection Hb as <- <-; destruct He as [(_ & [= <-] & _)|(_ & [=])]; done|].
  apply bind_ok_inv in Hb as (? & w3 & _ & Hb). apply bind_ok_inv in Hb as (row & w4 & Hr & Hb).
  apply bind_ok_inv in Hb as (ev & w5 & [E5 _]%new_uuid_db & Hb). apply bind_ok_inv in Hb as ([] & w6 & Ha & [= <- <-]).
  destruct He as [(_ & [= <-] & E6)|(_ & [=])]. apply exec_ok in Ha as (? & _ & Ha%append_audit_keys & _).
  unfold rotate_row in Hr. apply bind_ok_inv in Hr as (z & w7 & Hz & Hr). apply try_inv in Hz as (y & [= ->] & Hz).
  destruct y as [r|er]; [|case_match; [by apply bind_ok_inv in Hr as (? & ? & _ & ?)|done]].
  injection Hr as -> ->. apply exec_ok in Hz as (? & _ & (R1 & R2 & R3 & R4)%rotate_key_inv & _).
  exists (a0, a1), row. split_and!; [done..| |done|done|done]. by rewrite E6, Ha, E5.
Qed.

Context `{G : Argon2} {GL : Argon2Laws} (a : AEAD) {AL : AEADLaws a}.

Lemma reveal_refused r items e : r ∈ items -> SecretCiphertext r ≠ "" -> open (Some a) r = Err e ->
  is_ok (reveal (Some a) items) = false.
Proof.
  intros Hin Hc Ho. induction items as [|x items IH]; [by apply not_elem_of_nil in Hin|].
  cbn -[open]. apply elem_of_cons in Hin as [<-|Hin].
  - rewrite bool_decide_false by done. by rewrite Ho.
  - destruct (if bool_decide _ then _ else _); [|done]. cbn -[open]. specialize (IH Hin).
    by destruct (reveal (Some a) items).
Qed.

(** Claim C36. The spelling of the id decides whether a rotated secret can be
    recovered.  The ciphertext is bound to the id as the caller wrote it, while it
    is opened with the id as the database prints it: a rotation under the canonical
    spelling stores a ciphertext that opens to the new secret, but under another
    spelling of the same UUID, which the repository accepts, the rotation succeeds
    and the stored ciphertext cannot be opened, so that every listing with that key
    is refused.  (The hypothesis on [aead_open] is the cipher's rejection of a
    ciphertext under other associated data.) *)
Theorem rotated_secret_needs_spelling d buf salt nonce tenant id idem actor request w r w' :
  good_draws a d buf salt nonce ->
  Service_Rotate (Some a) d tenant id idem actor request w = (Ok r, w') -> SR_Replayed r = false ->
  ∃ k row, access_keys (w_db w') !! k = Some row ∧
    uuid_parse (trim_space tenant) = Some k.1 ∧ uuid_parse (trim_space id) = Some k.2 ∧
    (uuid_string k.1 = trim_space tenant ->
       (uuid_string k.2 = trim_space id -> open (Some a) (accessKeyRecord k row) = Ok (SR_Secret r)) ∧
       (uuid_string k.2 ≠ trim_space id ->
        (∀ plain prefix hash,
           let sealed := secretAAD (sealed_as (trim_space tenant) (trim_space id) prefix hash) in
           let opened := secretAAD (sealed_as (trim_space tenant) (uuid_string k.2) prefix hash) in
           sealed ≠ opened -> aead_open a nonce (aead_seal a nonce plain sealed) opened = None) ->
        open (Some a) (accessKeyRecord k row) = Err ErrSecretUnavailable ∧
        ∀ items, accessKeyRecord k row ∈ items -> is_ok (reveal (Some a) items) = false)).
Proof.
  intros [D1 D2 D3 D4 D5 D6]. unfold Service_Rotate. intros H Hr.
  apply bind_ok_inv in H as ([secret prefix] & ? & [= Hs ->] & H).
  apply bind_ok_inv in H as (hash & ? & [= Hh ->] & H). apply bind_ok_inv in H as (sealed & ? & [= Hc ->] & H).
  apply bind_ok_inv in H as (p & ? & Hp & [= <- <-]). destruct (PR_Replayed p) eqn:Ep; [done|]. cbn [SR_Secret].
  destruct (rotate_new _ _ _ _ _ _ Hp Ep) as (k & row & Pt & Pi & Hrow & Hpre & Hhash & Hct).
  cbn in Hpre, Hhash, Hct. destruct (new_secret_form _ _ _ _ D1 D4 Hs) as (Hl & Hpf & ->).
  exists k, row. split_and!; [done..|]. intros Ht.
  assert (HC : SecretCiphertext (accessKeyRecord k row) = sealed).
  { cbn. rewrite Hct. rewrite D3 in Hc. cbn [mbind result_bind] in Hc. injection Hc as <-. done. }
  split.
  - intros Hi. eapply open_sealed; [exact _|exact D3|exact D6|exact Hl|exact Hpf| |exact Hc| |exact HC].
    + by rewrite <- Hpre.
    + unfold secretAAD. cbn. by rewrite Hpre, Hhash, Ht, Hi.
  - intros Hne Hrej. assert (Ho : open (Some a) (accessKeyRecord k row) = Err ErrSecretUnavailable).
    { unfold open. rewrite HC. rewrite D3 in Hc. cbn [mbind result_bind] in Hc. injection Hc as <-.
      rewrite has_prefix_app. cbn [negb]. change (str_drop 3 _) with (EncodeToString UrlAlphabet (nonce +:+
        aead_seal a nonce secret (secretAAD (sealed_as (trim_space tenant) (trim_space id) (keyPrefix secret) hash)))).
      rewrite decode_encode. case_match; [done|]. rewrite <- D6, take_app, drop_app.
      replace (secretAAD (accessKeyRecord k row)) with
        (secretAAD (sealed_as (trim_space tenant) (uuid_string k.2) (keyPrefix secret) hash))
        by (unfold secretAAD; cbn; by rewrite Hpre, Hhash, Ht).
      rewrite Hrej; [done|]. unfold secretAAD. cbn [TenantID ID KeyPrefix SecretHash sealed_as]. intros E.
      do 4 apply append_inj_l in E. apply append_inj_r in E. by rewrite E in Hne. }
    split; [done|]. intros items Hin. eapply reveal_refused; [exact Hin| |exact Ho].
    rewrite HC. rewrite D3 in Hc. cbn [mbind result_bind] in Hc. by injection Hc as <-.
Qed.
End Rotation.
(** ** Retrying a create *)
Section Retry.
Context `{U : UuidLib} {UL : UuidLaws} `{G : Argon2} (a : AEAD).

Lemma check_input_at i now now' policy : check_input i now = Ok policy -> expired (KI_ExpiresAt i) now' = false ->
  check_input i now' = Ok policy ∧ ∃ u, uuid_string u = policy.
Proof.
  unfold check_input. intros H Hx. minv H. rewrite Hm. cbn [mbind result_bind checkr].
  destruct (uuid_parse _) as [u|]; [|done]. rewrite Hx. destruct (expired _ now).
  - by rewrite orb_true_r in H.
  - destruct (_ || false) eqn:E; [done|]. split; [done|]. exists u. by injection H.
Qed.
Lemma earlier_found tenant idem k row w : w_env w = [] -> idem ≠ "" ->
  find_key (create_key_is tenant idem) (w_db w) = Some (k, row) ->
  earlier_create tenant idem w = (Ok (Some (mkPersistResult (accessKeyRecord k row) true)), w).
Proof.
  intros He Hi Hf. unfold earlier_create. rewrite bool_decide_false by done.
  assert (Hs : optional (GetInferenceAccessKeyByCreateIdempotency tenant idem) w = (Ok (Some (k, row)), w)).
  { unfold optional, try, mbind, M_bind. rewrite (exec_read _ _ (k, row)); [done|done|].
    unfold GetInferenceAccessKeyByCreateIdempotency, select_one. by rewrite Hf. }
  by rewrite (bind_run _ _ _ _ _ Hs).
Qed.
Lemma create_replayed in_ rid k i row policy w : w_env w = [] -> CreateIdempotencyKey in_ ≠ "" ->
  uuid_parse (TenantID in_) = Some k.1 -> uuid_parse (ID in_) = Some i -> uuid_parse (PolicyID in_) = Some policy ->
  find_key (create_key_is k.1 (CreateIdempotencyKey in_)) (w_db w) = Some (k, row) ->
  Repository_Create in_ rid w = (Ok (mkPersistResult (accessKeyRecord k row) true), w).
Proof.
  intros He Hi H1 H2 H3 Hf. unfold Repository_Create, key_of, requireUUID. rewrite H1, H2, H3.
  apply transaction_delivered; [done..|]. unfold create_body. cbn [fst].
  by rewrite (bind_run _ _ _ _ _ (earlier_found _ _ _ _ _ He Hi Hf)).
Qed.
Lemma column_trip t : timePtr (timeParam (Some t)) = Some t <-> t mod 1000 = 0.
Proof.
  cbn. unfold of_column, to_column. pose proof (Z.div_mod t 1000). split; [intros [= H1]; lia|intros; f_equal; lia].
Qed.

(** Retrying a create with its idempotency key answers the stored key
    only when the requested expiry is a whole number of microseconds: the column
    keeps microseconds and the retry compares them with the caller's nanoseconds,
    so that the very request that created the key is refused as a different one
    (ErrIdempotencyReplay) when its expiry is finer. *)
Theorem create_retry_needs_microseconds d buf salt nonce d' buf' salt' nonce' now now' t input w r w1 :
  good_draws a d buf salt nonce -> good_draws a d' buf' salt' nonce' ->
  trim_space (KI_IdempotencyKey input) ≠ "" -> KI_ExpiresAt input = Some t -> now' < t ->
  Service_Create (Some a) d now input w = (Ok r, w1) -> SR_Replayed r = false -> w_env w1 = [] ->
  (Service_Create (Some a) d' now' input w1).1 =
    if t mod 1000 =? 0 then Ok (mkSecretResult (SR_Record r) "" true) else Err ErrIdempotencyReplay.
Proof.
  intros [D1 D2 D3 D4 D5 D6] [F1 F2 F3 F4 F5 F6] Hi Ht Hnow. unfold Service_Create at 1. intros H Hr He.
  apply bind_ok_inv in H as (policy & ? & [= Hcheck ->] & H).
  apply bind_ok_inv in H as ([secret prefix] & ? & [= Hs ->] & H). apply bind_ok_inv in H as (hash & ? & [= Hh ->] & H).
  apply bind_ok_inv in H as (id & ? & _ & H). apply bind_ok_inv in H as (sealed & ? & [= Hc ->] & H).
  apply bind_ok_inv in H as (p & ? & Hp & H). destruct (PR_Replayed p) eqn:Ep.
  { by apply bind_ok_inv in H as (? & ? & _ & [= <- _]). }
  injection H as <- ->. cbn [SR_Record].
  destruct (create_new _ _ _ _ _ Hp Ep) as (tt' & i & pol & now1 & Pt & Pi & Ppol & Hrow & Hrec & Hf).
  cbn -[new_row] in Pt, Pi, Ppol. set (row := new_row _ pol now1) in *.
  specialize (Hf (trim_space (KI_IdempotencyKey input))). cbn -[row] in Hf. unfold textParam in Hf.
  rewrite bool_decide_false in Hf by done. specialize (Hf eq_refl).
  destruct (check_input_at _ _ now' _ Hcheck) as [Hcheck' Hu].
  { cbn. rewrite Ht. cbn. lia. }
  destruct (newSecret d') as [[secret' prefix']|] eqn:Es'; [|by unfold newSecret in Es'; rewrite F1 in Es'].
  destruct (new_uuid w1) as [[id'|e] w2] eqn:Eu; [|by unfold new_uuid in Eu; case_match].
  assert (w_env w2 = [] ∧ w_db w2 = w_db w1) as [He2 Ed2] by (unfold new_uuid in Eu; case_match; by simplify_eq/=).
  rewrite <- Ed2 in Hf. unfold Service_Create. rewrite Hcheck', Es'.
  unfold hashSecret. rewrite F2. rewrite !(bind_run (lift (Ok _)) _ _ _ _ eq_refl).
  rewrite (bind_run _ _ _ _ _ Eu). unfold seal. rewrite F3. cbn [mbind result_bind].
  rewrite (bind_run (lift (Ok _)) _ _ _ _ eq_refl).
  erewrite (bind_run (Repository_Create _ _));
    [|eapply (create_replayed _ _ (tt', i)); [exact He2|exact Hi|exact Pt|apply uuid_parse_string|exact Ppol|exact Hf]].
  cbn -[row]. rewrite Hrec. cbn -[sameExpiry timeParam timePtr]. rewrite (bool_decide_true _ eq_refl).
  assert (uuid_string pol = policy) as ->.
  { destruct Hu as (u & <-). rewrite uuid_parse_string in Ppol. by injection Ppol as <-. }
  rewrite (bool_decide_true _ eq_refl), Ht. cbn [andb]. unfold sameExpiry.
  destruct (Z.eqb_spec (t mod 1000) 0) as [E|E]; rewrite <- column_trip in E.
  - by rewrite (bool_decide_true _ E).
  - by rewrite (bool_decide_false _ E).
Qed.
End Retry.
(** ** Examples

    A tenant with one published model, a policy for it and a key. *)
Module Example.
Import BinaryUuid.
#[local] Instance input : UuidInput := BinaryUuid.parse.
Fixpoint repeat_char (n : nat) (c : ascii) : string := match n with O => EmptyString | S n => String c (repeat_char n c) end.
(** Stand-ins with the lengths of the real functions. *)
#[local] Instance toy_argon2 : Argon2 := fun secret salt => str_take 32 (salt +:+ secret +:+ repeat_char 32 "k").
#[local] Instance toy_argon2_laws : Argon2Laws.
Proof.
  intros secret salt. assert (H : ∀ n s, (n <= String.length s)%nat -> String.length (str_take n s) = n).
  { induction n as [|n IH]; intros [|c s]; cbn; intros; try lia. by rewrite IH by lia. }
  apply H. rewrite !length_append. change (String.length (repeat_char 32 "k")) with 32%nat. lia.
Qed.
Definition tag (aad : string) : ascii := if Nat.even (String.length aad) then "e" else "o".
Definition toy_aead : AEAD := mkAEAD 1 1 (fun _ plain aad => String (tag aad) plain)
  (fun _ c aad => match c with
                  | String t plain => if bool_decide (t = tag aad) then Some plain else None
                  | EmptyString => None
                  end).
#[local] Instance toy_aead_laws : AEADLaws toy_aead.
Proof.
  split; intros nonce plain aad _; cbn; [by rewrite bool_decide_true|lia].
Qed.
Definition draws : Draws := mkDraws (Ok (repeat_char 32 "s")) (Ok (repeat_char 16 "t")) (Ok "n").
Lemma draws_good : good_draws toy_aead draws (repeat_char 32 "s") (repeat_char 16 "t") "n".
Proof. done. Defined.

Definition body : SpecBody := mkSpecBody None 9%N "" "" "" "" "m" "" Engine.JNull JBad 1 "" 0 "" ∅ None None None None.
Definition db : DB := empty_db
  <| services := {[(1%N, 2%N) := mkServiceRow "s" "running" 1 1 None None 0 0]} |>
  <| specs := {[(1%N, 2%N, 1) := mkSpecRow 5%N body 0]} |>
  <| publications := {[(1%N, 2%N, 1) := mkPublicationRow "published" "published" "" "" None 0]} |>
  <| policies := {[(1%N, 3%N) := mkPolicyRow "p" ["m"] 2 0 0 1 0 0]} |>.
Definition world : World := mkWorld db 1000 [] [6%N; 7%N; 8%N; 9%N; 10%N; 11%N; 12%N].
Definition request : KeyInput := mkKeyInput (uuid_string 1%N) "r" "key" (uuid_string 3%N) [] [] 0 0 0 (Some 5000001) "me" "once".
Definition created := Service_Create (Some toy_aead) draws 0 request world.
Definition result_of {A B} (c : result A * B) (d : A) : A := match c.1 with Ok a => a | Err _ => d end.
Definition none : SecretResult := mkSecretResult (sealed_as "" "" "" "") "" true.
Definition secret : string := SR_Secret (result_of created none).
Definition checked := Service_Check (Some toy_aead) draws 1000 secret "" "m" 1 created.2.
Definition answer : CheckResult := result_of checked (denied None "").

Lemma answer_allowed : checked = (Ok answer, checked.2) ∧ CR_Allowed answer = true.
Proof. vm_compute. done. Qed.

Lemma access_requires_grant_witness :
  ∃ k row pol s, authentic (w_db created.2) (trim_space secret) k row ∧
    grantable (w_db created.2) k row pol (trim_space "m") 1000 ∧ leads_to (w_db created.2) (trim_space "m") (k.1, s) ∧
    (trim_space "" = "" ∨ trim_space "" = uuid_string s).
Proof.
  apply (access_requires_grant (Some toy_aead) draws 1000 secret "" "m" 1 created.2 answer checked.2);
    apply answer_allowed.
Defined.
Lemma access_counted_witness :
  CR_Allowed answer = true ∧
  if CR_Allowed answer then
    ∃ k pol, (∃ row, grantable (w_db created.2) k row pol (trim_space "m") 1000) ∧
      counted k 1000 (Z.max 1 1) (policy_windows pol) (w_db created.2) (w_db checked.2)
  else w_db checked.2 = w_db created.2.
Proof.
  split; [apply answer_allowed|].
  apply (access_counted (Some toy_aead) draws 1000 secret "" "m" 1 created.2 answer checked.2). apply answer_allowed.
Defined.
Lemma created_secret_round_trip_witness :
  ∃ k row, authentic (w_db created.2) secret k row ∧ SR_Record (result_of created none) = accessKeyRecord k row ∧
    open (Some toy_aead) (accessKeyRecord k row) = Ok secret.
Proof.
  apply (created_secret_round_trip toy_aead draws _ _ _ 1%N 0 request world (result_of created none) created.2
    draws_good); vm_compute; reflexivity.
Defined.
Definition history : list KeyCommand :=
  [KCreate draws 0 request; KCheck draws 1000 secret "" "m" 1;
   KRevoke (uuid_string 1%N) (uuid_string 6%N) "me" "r2"].
Lemma keys_move_forward_witness :
  prefixes_unique (w_db (each (run_command (Some toy_aead)) history world).2) ∧
  ∀ k row, access_keys (w_db world) !! k = Some row ->
    ∃ row', access_keys (w_db (each (run_command (Some toy_aead)) history world).2) !! k = Some row' ∧ key_step row row'.
Proof. apply (keys_move_forward (Some toy_aead) history world). by intros k k' r r'. Defined.

Definition used := (each (run_command (Some toy_aead)) [KCheck draws 1000 secret "" "m" 1] created.2).2.
Definition used_key : option KeyRow := access_keys (w_db created.2) !! (1%N, 6%N).
Definition consumed_again (row : KeyRow) :=
  ConsumeAccess (accessKeyRecord (1%N, 6%N) row) (uuid_string 2%N) "m" 1000 1 used.
Lemma stale_credentials_refused_witness :
  ∃ row, used_key = Some row ∧ CR_Allowed (result_of (consumed_again row) (denied None "")) = true ∧
  ∃ row', access_keys (w_db used) !! (1%N, 6%N) = Some row' ∧ k_secret_hash row' = k_secret_hash row ∧
    k_prefix row' = k_prefix row ∧ k_policy_id row' = k_policy_id row ∧ k_revoked_at row' = None.
Proof.
  eexists. split; [vm_compute; reflexivity|]. split; [vm_compute; reflexivity|].
  eapply (stale_credentials_refused (Some toy_aead) [KCheck draws 1000 secret "" "m" 1] created.2 used (1%N, 6%N) _
    (uuid_string 2%N) "m" 1000 1); [reflexivity|vm_compute; reflexivity| |].
  - match goal with |- ?c = _ => rewrite (surjective_pairing c) end. vm_compute. reflexivity.
  - vm_compute. reflexivity.
Defined.

Lemma create_retry_needs_microseconds_witness :
  (Service_Create (Some toy_aead) draws 1 request created.2).1 = Err ErrIdempotencyReplay.
Proof.
  rewrite (create_retry_needs_microseconds toy_aead draws _ _ _ draws _ _ _ 0 1 5000001 request world
    (result_of created none) created.2 draws_good draws_good); vm_compute; reflexivity || discriminate.
Defined.

(** A library that also reads a UUID after the letter u. *)
Definition spelled : UuidLib := {|
  uuid_parse s := match s with String "u" t => BinaryUuid.parse t | _ => BinaryUuid.parse s end;
  uuid_string := BinaryUuid.print; uuid_sha1_oid := BinaryUuid.number |}.
Definition rotated := Service_Rotate (U := spelled) (Some toy_aead) draws "1" "u011" "" "me" "r" created.2.
Lemma rotated_secret_needs_spelling_witness :
  (∃ k row, access_keys (w_db rotated.2) !! k = Some row ∧ uuid_parse (UuidLib := spelled) (trim_space "u011") = Some k.2 ∧
    uuid_string (UuidLib := spelled) k.1 = trim_space "1" ∧ uuid_string (UuidLib := spelled) k.2 ≠ trim_space "u011" ∧
    open (Some toy_aead) (accessKeyRecord (U := spelled) k row) = Err ErrSecretUnavailable).
Proof.
  destruct (rotated_secret_needs_spelling (U := spelled) toy_aead draws _ _ _ "1" "u011" "" "me" "r"
    created.2 (result_of rotated none) rotated.2 draws_good) as ([t i] & row & Hrow & Ht & Hi & H);
    [vm_compute; reflexivity|vm_compute; reflexivity|].
  vm_compute in Ht, Hi. injection Ht as <-. injection Hi as <-. exists (1%N, 6%N), row.
  split_and!; [exact Hrow|reflexivity|reflexivity|vm_compute; discriminate|].
  destruct H as [_ H]; [reflexivity|]. apply H; [vm_compute; discriminate|].
  intros plain prefix hash sealed opened _. cbn. rewrite bool_decide_false; [done|].
  unfold tag, sealed, opened, secretAAD. cbn [TenantID ID KeyPrefix SecretHash sealed_as]. rewrite !length_append, !Nat.even_add.
  by destruct (Nat.even (String.length prefix)), (Nat.even (String.length hash)).
Defined.
End Example.
End Credential.
