(* ===== verification/Perimeter.v ===== *)
(** * The perimeter

    Who may call what, and for whom: the mutual-TLS identity and the method policy
    (cmd/ani-inference-service/rpc_policy.go, trusted_tenant.go, the middleware order
    of grpc_tls.go and app.go, runtime_diagnostics.go), the tenant check of
    internal/server/direct_tenant.go, the access-key and policy servers
    (internal/service/access_key.go, access_policy.go), and the gateway's
    authorization adapter (internal/data/inferenceaccess/client.go,
    internal/service/gatewayauthz/http.go, cmd/ani-inference-gateway-authz/main.go).
    The certificate is what the TLS stack verified.  Of the middlewares of
    internal/server/observability.go the tenant check is modelled; recovery,
    metadata, tracing, logging and metrics call the next handler, and
    validate.Validator (generated checks of the request messages) may refuse a call
    before it: these are left out, so the model lets through every call the
    program lets through. *)

From S2P Require Import Prelude GoStrings Base64 Operation Gpu Resources Engine Canonical Work Schema Contract WorkStore Reconcile Runner ReconcileStore OperationStore Commands Managed Update Server AccessKey AccessPolicy Credential.
From Stdlib Require Import Ascii.
Local Open Scope Z_scope.

Module Perimeter.
Import Schema Server.Server AccessKey.AccessKey AccessPolicy.AccessPolicy Credential.Credential.
Import Contract.Contract.

Definition governanceCallerDNS : string := "ani-governance".
Definition gatewayAuthzCallerDNS : string := "ani-inference-gateway.ani.internal".
Definition modelCallerDNS : string := "ani-model.ani.internal".
Definition checkInferenceAccessMethod : string := "/inference.v1.InferenceAccessKeyService/CheckInferenceAccess".

(** ** An incoming call *)
(** The other subject alternative names are only counted. *)
Record Certificate := mkCertificate { ce_dns : list string; ce_uris : nat; ce_ips : nat; ce_emails : nat }.
Record TLSState := mkTLSState { tl_version : Z; tl_peers : list Certificate; tl_chains : list (list Certificate) }.
Definition VersionTLS13 : Z := 772.
(** [ic_tls] is [None] without peer information and [Some None] on another transport
    than TLS; [ic_operation] is the transport's operation, [ic_metadata] the gRPC
    metadata, [ic_values] and [ic_headers] kratos' metadata and request header. *)
Record Incoming := mkIncoming {
  ic_operation : option string; ic_tls : option (option TLSState); ic_metadata : option (gmap string (list string));
  ic_values : option (gmap string (list string)); ic_headers : option (gmap string (list string)); ic_caller : Caller }.
#[global] Instance Incoming_eta : Eta Incoming := fun r =>
  mkIncoming (ic_operation r) (ic_tls r) (ic_metadata r) (ic_values r) (ic_headers r) (ic_caller r).
#[global] Instance Caller_eta : Eta Caller := fun r => mkCaller (caller_tenant r) (caller_actor r) (caller_governance r).
Definition values (m : gmap string (list string)) (keys : list string) : list string := keys ≫= (fun k => default [] (m !! k)).
(** The requests whose attachment names a tenant. *)
Inductive Attached :=
  | RqCreate (c : option CommandContext) | RqDelete (c : option CommandContext) | RqUpdate (c : option CommandContext) | RqOther.

(** [strings.ContainsAny(identity, ...)] with the characters of the source. *)
Definition bad_identity_char (c : ascii) : bool :=
  bool_decide (N_of_ascii c ∈ [42; 58; 47; 92; 32; 9; 13; 10]%N).
Fixpoint contains_any (bad : ascii -> bool) (s : string) : bool :=
  match s with EmptyString => false | String c t => bad c || contains_any bad t end.
Definition clientDNSIdentity (cert : Certificate) : result string :=
  match ce_dns cert with
  | [identity] =>
      _ ← checkr ((ce_uris cert =? 0)%nat && (ce_ips cert =? 0)%nat && (ce_emails cert =? 0)%nat)
            (errorf "client certificate must not contain URI, IP or email SANs");
      _ ← checkr (negb (bool_decide (identity = "") || contains_any bad_identity_char identity)) (errorf "invalid client DNS SAN");
      Ok identity
  | _ => Err (errorf "client certificate must have exactly one DNS SAN")
  end.
Definition extractClientIdentity (ctx : Incoming) : result string :=
  match ic_tls ctx with
  | None => Err (errorf "no peer info")
  | Some None => Err (errorf "not a TLS connection")
  | Some (Some tls) =>
      match tl_peers tls with
      | [] => Err (errorf "no client certificate")
      | cert :: _ =>
          _ ← checkr (VersionTLS13 <=? tl_version tls) (errorf "client TLS version must be 1.3 or newer");
          _ ← checkr (match tl_chains tls with (_ :: _) :: _ => true | _ => false end) (errorf "client certificate is not verified");
          clientDNSIdentity cert
      end
  end.

(** ** The method policy *)
Definition StaticRPCPolicy : list (string * list string) := [
  (governanceCallerDNS, [
    "/inference.v1.InferenceServiceManager/CreateInferenceService"; "/inference.v1.InferenceServiceManager/GetInferenceService";
    "/inference.v1.InferenceAccessKeyService/CreateInferenceAccessPolicy"; "/inference.v1.InferenceAccessKeyService/GetInferenceAccessPolicy";
    "/inference.v1.InferenceAccessKeyService/ListInferenceAccessPolicies"; "/inference.v1.InferenceAccessKeyService/UpdateInferenceAccessPolicy";
    "/inference.v1.InferenceAccessKeyService/DeleteInferenceAccessPolicy"; "/inference.v1.InferenceAccessKeyService/BindInferenceAccessKeyPolicy";
    "/inference.v1.InferenceServiceManager/ListInferenceServices"; "/inference.v1.InferenceServiceManager/DeleteInferenceService";
    "/inference.v1.InferenceServiceManager/UpdateInferenceService"; "/inference.v1.InferenceServiceManager/StartInferenceService";
    "/inference.v1.InferenceServiceManager/StopInferenceService"; "/inference.v1.InferenceServiceManager/RestartInferenceService";
    "/inference.v1.InferenceServiceManager/GetOperation"; "/inference.v1.InferenceServiceManager/ListOperations";
    "/inference.v1.InferenceDiagnostics/GetRuntimeDiagnostics"; "/inference.v1.InferenceDiagnostics/GetRuntimeLogs";
    "/inference.v1.InferenceDiagnostics/StreamRuntimeLogs"; "/inference.v1.InferenceDiagnostics/ListRuntimeEvents";
    "/inference.v1.InferenceAccessKeyService/CreateInferenceAccessKey"; "/inference.v1.InferenceAccessKeyService/ListInferenceAccessKeys";
    "/inference.v1.InferenceAccessKeyService/GetInferenceAccessKey"; "/inference.v1.InferenceAccessKeyService/RevokeInferenceAccessKey";
    "/inference.v1.InferenceAccessKeyService/RotateInferenceAccessKey"]);
  (modelCallerDNS, ["/inference.v1.ModelReferenceService/CheckModelVersionReferences"]);
  (gatewayAuthzCallerDNS, [checkInferenceAccessMethod])].
Definition StaticRPCPolicy_IsAllowed (policy : list (string * list string)) (identity method : string) : bool :=
  match list_find (fun e => e.1 = identity) policy with
  | None => false
  | Some (_, (_, methods)) => bool_decide (method ∈ methods)
  end.
Definition expectedIdentities : list string := [governanceCallerDNS; modelCallerDNS; gatewayAuthzCallerDNS].
(** [InferenceServicePolicy().IsAllowed]. *)
Definition IsAllowed (identity method : string) : bool :=
  bool_decide (identity ∈ expectedIdentities) && StaticRPCPolicy_IsAllowed StaticRPCPolicy identity method.

(** ** The trusted tenant *)
(** The one value a list of header values agrees on, empty when all are blank;
    [None] when two differ. *)
Fixpoint agreed (value : string) (l : list string) : option string :=
  match l with
  | [] => Some value
  | v :: rest =>
      let v := trim_space v in
      if bool_decide (v = "") then agreed value rest
      else if bool_decide (value = "") then agreed v rest
      else if bool_decide (value = v) then agreed value rest else None
  end.
Definition tenant_keys : list string := ["x-ani-tenant-id"; "tenant-id"; "x-tenant-id"; "x-md-tenant-id"].
Definition errTenantMetadataMissing : goerr := ENew "errTenantMetadataMissing" "x-ani-tenant-id metadata is required".
Definition trustedTenantMetadata (ctx : Incoming) : result string :=
  match ic_metadata ctx with
  | None => Err errTenantMetadataMissing
  | Some md =>
      match agreed "" (values md tenant_keys) with
      | None => Err (errorf "conflicting tenant metadata")
      | Some tenant => if bool_decide (tenant = "") then Err errTenantMetadataMissing else Ok tenant
      end
  end.
Definition trustedActorMetadata (ctx : Incoming) : result string :=
  match ic_metadata ctx with
  | None => Ok ""
  | Some md => match agreed "" (values md ["x-ani-actor"]) with None => Err (errorf "conflicting actor metadata") | Some actor => Ok actor end
  end.
Definition hasTrustedTenantOrActorMetadata (ctx : Incoming) : bool :=
  match ic_metadata ctx with
  | None => false
  | Some md => existsb (fun v => negb (blank v)) (values md (tenant_keys ++ ["x-ani-actor"]))
  end.
Definition attachment_tenant (req : Attached) : string :=
  match req with
  | RqCreate (Some c) | RqDelete (Some c) | RqUpdate (Some c) => trim_space (cx_tenant_id c)
  | _ => ""
  end.
Definition bindGovernanceGPUContext (caller : Caller) (req : Attached) (tenant identity : string) : result Caller :=
  if negb (bool_decide (identity = governanceCallerDNS)) then Ok caller else
  let attachment := attachment_tenant req in
  if bool_decide (attachment = "") then Ok caller else
  if negb (bool_decide (attachment = tenant)) then Err (status "PermissionDenied" "GPU command tenant does not match authenticated scope")
  else Ok (caller <| caller_governance := true |>).
(** The error of an answer under a status code. *)
Definition refused {A} (code : string) (before : string) (r : result A) : result A :=
  match r with Ok a => Ok a | Err e => Err (status code (before +:+ error_text e)) end.
(** The caller of a service that acts for a tenant. *)
Definition tenant_caller (ctx : Incoming) (req : Attached) (identity : string) : result Caller :=
  tenant ← (match trustedTenantMetadata ctx with
            | Ok t => Ok t
            | Err e => Err (status (if errors_is e "errTenantMetadataMissing" then "Unauthenticated" else "InvalidArgument") (error_text e))
            end);
  actor ← refused "InvalidArgument" "" (trustedActorMetadata ctx);
  _ ← (if bool_decide (identity = governanceCallerDNS) then
         _ ← checkr (negb (bool_decide (actor = ""))) (status "Unauthenticated" "x-ani-actor metadata is required for Governance");
         checkr (has_prefix actor "governance:") (status "PermissionDenied" "x-ani-actor must identify Governance")
       else Ok tt);
  let caller := (ic_caller ctx) <| caller_tenant := Some tenant |> in
  bindGovernanceGPUContext (if bool_decide (actor = "") then caller else caller <| caller_actor := Some actor |>) req tenant identity.

Section Middleware.
Context {St : Type}.
Definition Handler (A : Type) : Type := Incoming -> M St A.
Definition trustedTenantMiddleware {A} (next : Handler A) (req : Attached) : Handler A := fun ctx =>
  identity ← lift (refused "Unauthenticated" "trusted service identity unavailable: " (extractClientIdentity ctx));
  if negb (bool_decide (identity = governanceCallerDNS) || bool_decide (identity = modelCallerDNS)) then
    _ ← check (bool_decide (identity = gatewayAuthzCallerDNS)) (status "PermissionDenied" ("unregistered trusted service " +:+ quoted identity));
    _ ← check (bool_decide (ic_operation ctx = Some checkInferenceAccessMethod)) (status "PermissionDenied" "gateway identity is not authorized for this method");
    _ ← check (negb (hasTrustedTenantOrActorMetadata ctx)) (status "PermissionDenied" "gateway authz calls must not supply tenant or actor metadata");
    next ctx
  else
    caller ← lift (tenant_caller ctx req identity);
    next (ctx <| ic_caller := caller |>).
Definition RPCPolicyMiddleware {A} (allowed : string -> string -> bool) (next : Handler A) : Handler A := fun ctx =>
  match ic_operation ctx with
  | None => throw (status "Internal" "transport context unavailable")
  | Some method =>
      identity ← lift (refused "Unauthenticated" "client identity unavailable: " (extractClientIdentity ctx));
      _ ← check (allowed identity method)
            (status "PermissionDenied" ("client " +:+ quoted identity +:+ " not authorized for method " +:+ quoted method));
      next ctx
  end.
(** Streams: the policy first, then the tenant; the stream carries its own method. *)
Definition trustedDiagnosticsStreamInterceptor {A} (method : string) (handler : Handler A) : Handler A := fun ctx =>
  identity ← lift (match extractClientIdentity ctx with Ok i => Ok i | Err _ => Err (status "Unauthenticated" "trusted service identity unavailable") end);
  _ ← check (IsAllowed identity method) (status "PermissionDenied" "stream method not authorized");
  authenticated ← trustedTenantMiddleware (fun ctx => mret ctx) RqOther ctx;
  handler authenticated.

(** *** direct_tenant.go *)
Definition direct_keys : list string := ["tenant-id"; "x-tenant-id"; "x-md-tenant-id"].
Definition requestTenant (ctx : Incoming) : result string :=
  let l := from_option (fun md => values md direct_keys) [] (ic_metadata ctx) ++ from_option (fun md => values md ["tenant-id"]) [] (ic_values ctx) ++
           from_option (fun h => values h direct_keys) [] (ic_headers ctx) in
  match agreed "" l with None => Err (status "InvalidArgument" "conflicting request tenant metadata") | Some t => Ok t end.
Definition DirectTenantMiddleware {A} (next : Handler A) : Handler A := fun ctx =>
  tenant ← lift (requestTenant ctx);
  if bool_decide (tenant = "") then next ctx else
  selected ← lift (match RequireTenant (ic_caller ctx) tenant with
                   | Ok t => Ok t
                   | Err e => Err (status (if errors_is e "service.ErrTenantMismatch" then "PermissionDenied" else "Unauthenticated") (error_text e))
                   end);
  match Server.Server.TenantID (ic_caller ctx) with
  | Some _ => next ctx
  | None => next (ctx <| ic_caller := (ic_caller ctx) <| caller_tenant := Some selected |> |>)
  end.

(** The order of the unary middlewares: grpc_tls.go puts the tenant first, then come
    those of observability.go with the check of the request's tenant, and app.go
    appends the policy. *)
Definition wired_unary {A} (handler : Handler A) (req : Attached) : Handler A :=
  trustedTenantMiddleware (DirectTenantMiddleware (RPCPolicyMiddleware IsAllowed handler)) req.
End Middleware.
(** ** The access-key and policy servers *)
(** [timestamppb.Timestamp] fields: nil, a time, or an invalid value. *)
Record CreateKeyRequest := mkCreateKeyRequest {
  ck_request_id : string; ck_name : string; ck_policy_id : string; ck_services : list string; ck_models : list string; ck_second : Z;
  ck_minute : Z; ck_hour : Z; ck_expires : option (result Z); ck_idempotency : string }.
Record ListKeysRequest := mkListKeysRequest { lk_page : Z; lk_size : Z; lk_model : option string }.
Record KeyProto := mkKeyProto {
  kp_id : string; kp_name : string; kp_prefix : string; kp_policy : string; kp_created_by : string; kp_version : Z; kp_secret : option string;
  kp_created : option Z; kp_expires : option Z; kp_revoked : option Z; kp_used : option Z }.
Record PolicyProto := mkPolicyProto {
  pp_id : string; pp_name : string; pp_models : list string; pp_second : Z; pp_minute : Z; pp_hour : Z; pp_version : Z }.
Record AccessRequest := mkAccessRequest { ar_key : string; ar_service : string; ar_model : string; ar_cost : Z; ar_request_id : string }.
Record AccessResponse := mkAccessResponse {
  as_allowed : bool; as_denial : string; as_version : Z; as_key_id : string; as_tenant : string; as_retry : Z }.

(** A creation time of zero is Go's zero time: no stored key has it. *)
Definition accessKeyProto (item : KeyRecord) : KeyProto :=
  mkKeyProto (ID item) (Name item) (KeyPrefix item) (PolicyID item) (CreatedBy item) (Version item) (textParam (Secret item))
    (if CreatedAt item =? 0 then None else Some (CreatedAt item)) (ExpiresAt item) (RevokedAt item) (LastUsedAt item).
Definition accessKeyTimestampValue (value : option (result Z)) : result (option Z) :=
  match value with None => Ok None | Some (Ok t) => Ok (Some t) | Some (Err e) => Err e end.
Definition accessKeyStatusError (e : goerr) : goerr :=
  if errors_is e "accesskey.ErrNotFound" then status "NotFound" "inference access key not found"
  else if errors_is e "accesskey.ErrAlreadyRevoked" then status "FailedPrecondition" "inference access key is revoked"
  else if errors_is e "accesskey.ErrInvalidInput" then status "InvalidArgument" (error_text e)
  else if errors_is e "accesskey.ErrIdempotencyReplay" then status "AlreadyExists" "idempotency key has a different request"
  else if errors_is e "accesskey.ErrScopeDenied" then status "PermissionDenied" "inference access key scope denied"
  else if errors_is e "accesskey.ErrSecretUnavailable" then status "Unavailable" "inference access key secret unavailable"
  else status "Internal" "inference access key persistence failed".
Definition policyStatus (e : goerr) : goerr :=
  if errors_is e "accesspolicy.ErrNotFound" || errors_is e "accesskey.ErrNotFound" then status "NotFound" "policy or key not found"
  else if errors_is e "accesspolicy.ErrInUse" then status "FailedPrecondition" "policy is bound to an access key"
  else if errors_is e "accesspolicy.ErrInvalidInput" then status "InvalidArgument" "invalid policy"
  else status "Unavailable" "policy repository unavailable".
Definition policyProto (p : Policy) : PolicyProto :=
  mkPolicyProto (P_ID p) (P_Name p) (P_AllowedModelNames p) (P_RequestsPerSecond p) (P_RequestsPerMinute p) (P_RequestsPerHour p) (P_Version p).
Definition requireAccessKeyTenant (ctx : Caller) : result string :=
  match Server.Server.TenantID ctx with
  | Some tenant => if blank tenant then Err (status "Unauthenticated" "tenant identity is required") else Ok tenant
  | None => Err (status "Unauthenticated" "tenant identity is required")
  end.
(** An error of the call, as the status it becomes. *)
Definition status_of {A} (f : goerr -> goerr) (c : M World A) : M World A :=
  r ← try c; match r with Ok a => mret a | Err e => throw (f e) end.
Definition page_of (value fallback : Z) : Z := if value =? 0 then fallback else value.
Definition bad_page (page size : Z) : bool := (page <? 1) || (100 <? page) || (size <? 1) || (100 <? size).
Definition required (what value : string) : M World unit := check (negb (blank value)) (InvalidArgument (what +:+ " is required")).

Section Servers.
Context `{U : UuidLib} `{I : UuidInput} `{G : Argon2}.
(** The server without a service is [None]; [sv_policies] says whether its repository
    stores policies; [sv_draws] and [sv_now] are what a call draws and its time. *)
Record AccessServer := mkAccessServer { sv_cipher : option AEAD; sv_policies : bool; sv_draws : Draws; sv_now : Z }.
Definition with_service {A} (s : option AccessServer) (k : AccessServer -> M World A) : M World A :=
  match s with None => throw (FailedPrecondition "inference access-key service is not configured") | Some s => k s end.
Definition with_request {R A} (req : option R) (k : R -> M World A) : M World A :=
  match req with None => throw (InvalidArgument "request is required") | Some r => k r end.
Definition CreateInferenceAccessKey (s : option AccessServer) (ctx : Caller) (req : option CreateKeyRequest) : M World (KeyProto * string * bool) :=
  with_request req (fun req =>
  tenant ← lift (requireAccessKeyTenant ctx);
  _ ← required "request_id" (ck_request_id req);
  with_service s (fun s =>
  expires ← lift (refused "InvalidArgument" "" (accessKeyTimestampValue (ck_expires req)));
  result ← status_of accessKeyStatusError (Service_Create (sv_cipher s) (sv_draws s) (sv_now s)
    (mkKeyInput tenant (ck_request_id req) (ck_name req) (ck_policy_id req) (ck_services req) (ck_models req) (ck_second req) (ck_minute req)
       (ck_hour req) expires (Actor ctx) (ck_idempotency req)));
  mret (accessKeyProto (SR_Record result), SR_Secret result, SR_Replayed result))).
Definition ListInferenceAccessKeys (s : option AccessServer) (ctx : Caller) (req : option ListKeysRequest) : M World (list KeyProto * Z) :=
  with_request req (fun req =>
  tenant ← lift (requireAccessKeyTenant ctx);
  with_service s (fun s =>
  let page := page_of (lk_page req) 1 in let size := page_of (lk_size req) 20 in
  _ ← check (negb (bad_page page size)) (InvalidArgument "page and page_size must be between 1 and 100");
  let model := trim_space (default "" (lk_model req)) in
  _ ← check (negb (bool_decide (is_Some (lk_model req)) && (bool_decide (model = "") || contains_nul model)))
        (InvalidArgument "served_model_name must be nonempty");
  '(items, total) ← status_of accessKeyStatusError (Service_List (sv_cipher s) tenant (AccessKey.AccessKey.mkListOptions size ((page - 1) * size) model));
  mret (accessKeyProto <$> items, total))).
(** A request whose id is blank is refused like a missing one. *)
Definition GetInferenceAccessKey (s : option AccessServer) (ctx : Caller) (id : string) : M World KeyProto :=
  _ ← required "id" id;
  tenant ← lift (requireAccessKeyTenant ctx);
  with_service s (fun s =>
  item ← status_of accessKeyStatusError (Service_Get (sv_cipher s) tenant id);
  mret (accessKeyProto item)).
Definition RevokeInferenceAccessKey (s : option AccessServer) (ctx : Caller) (id request : string) : M World KeyProto :=
  _ ← required "id" id;
  _ ← required "request_id" request;
  tenant ← lift (requireAccessKeyTenant ctx);
  with_service s (fun s =>
  item ← status_of accessKeyStatusError (Service_Revoke tenant id (Actor ctx) request);
  mret (accessKeyProto item)).
Definition RotateInferenceAccessKey (s : option AccessServer) (ctx : Caller) (id idem request : string) : M World (KeyProto * string * bool) :=
  _ ← required "id" id;
  _ ← required "request_id" request;
  tenant ← lift (requireAccessKeyTenant ctx);
  with_service s (fun s =>
  result ← status_of accessKeyStatusError (Service_Rotate (sv_cipher s) (sv_draws s) tenant id idem (Actor ctx) request);
  mret (accessKeyProto (SR_Record result), SR_Secret result, SR_Replayed result)).
Definition retry_seconds (ns : Z) : Z := if 0 <? ns then int32 ((ns + 999000000) / 1000000000) else 0.
Definition access_response (r : CheckResult) : AccessResponse :=
  let '(key, tenant) := match CR_Record r with
                        | Some record => if bool_decide (ID record = "") then ("", "") else (ID record, AccessKey.AccessKey.TenantID record)
                        | None => ("", "")
                        end in
  mkAccessResponse (CR_Allowed r) (CR_DenialCode r) (CR_PolicyVersion r) key tenant (retry_seconds (CR_RetryAfter r)).
Definition CheckInferenceAccess (s : option AccessServer) (req : AccessRequest) : M World AccessResponse :=
  _ ← required "api_key" (ar_key req);
  with_service s (fun s =>
  result ← status_of (fun _ => status "Unavailable" "inference access check unavailable")
    (Service_Check (sv_cipher s) (sv_draws s) (sv_now s) (ar_key req) (ar_service req) (ar_model req) (ar_cost req));
  mret (access_response result)).

(** *** access_policy.go *)
Definition policyRepository (s : option AccessServer) (ctx : Caller) : M World string :=
  tenant ← lift (requireAccessKeyTenant ctx);
  match s with
  | None => throw (FailedPrecondition "access policy is not configured")
  | Some s => _ ← check (sv_policies s) (FailedPrecondition "access policy repository is not configured"); mret tenant
  end.
Definition validPolicyUUID (s : string) : bool :=
  match uuid_parse s with Some id => negb (bool_decide (id = 0%N)) && bool_decide (uuid_string id = s) | None => false end.
Definition policyRequestActor (ctx : Caller) (request : string) : result string :=
  let actor := trim_space (Actor ctx) in
  _ ← checkr (negb (bool_decide (actor = "") || blank request)) (InvalidArgument "actor and request_id are required");
  Ok actor.
Definition policyFromProto (p : option PolicyProto) (tenant : string) (updating : bool) : result Policy :=
  let invalid := Err (InvalidArgument "invalid policy identity or version") in
  match p with
  | None => invalid
  | Some p =>
      if (updating && negb (validPolicyUUID (pp_id p))) || (negb updating && (negb (bool_decide (pp_id p = "")) || negb (pp_version p =? 0))) then invalid
      else match Policy_Normalize (mkPolicy (pp_id p) tenant (pp_name p) (pp_models p) (pp_second p) (pp_minute p) (pp_hour p) 0) with
           | Ok out => Ok out
           | Err _ => Err (InvalidArgument "invalid policy")
           end
  end.
Definition with_policy {R A} (req : option R) (k : R -> M World A) : M World A :=
  match req with None => throw (InvalidArgument "request required") | Some r => k r end.
(** A request with its policy and its id. *)
Definition CreateInferenceAccessPolicy (s : option AccessServer) (ctx : Caller) (req : option (option PolicyProto * string)) : M World PolicyProto :=
  tenant ← policyRepository s ctx;
  with_policy req (fun '(policy, request) =>
  actor ← lift (policyRequestActor ctx request);
  p ← lift (policyFromProto policy tenant false);
  p ← status_of policyStatus (CreateAccessPolicy p actor request);
  mret (policyProto p)).
Definition GetInferenceAccessPolicy (s : option AccessServer) (ctx : Caller) (id : string) : M World PolicyProto :=
  tenant ← policyRepository s ctx;
  _ ← check (validPolicyUUID id) (InvalidArgument "valid id required");
  p ← status_of policyStatus (GetAccessPolicy tenant id);
  mret (policyProto p).
Definition ListInferenceAccessPolicies (s : option AccessServer) (ctx : Caller) (req : option (Z * Z)) : M World (list PolicyProto * Z) :=
  tenant ← policyRepository s ctx;
  with_policy req (fun '(page, size) =>
  let page := page_of page 1 in let size := page_of size 20 in
  _ ← check (negb (bad_page page size)) (InvalidArgument "invalid page");
  '(items, total) ← status_of policyStatus (ListAccessPolicies tenant size ((page - 1) * size));
  mret (policyProto <$> items, total)).
Definition UpdateInferenceAccessPolicy (s : option AccessServer) (ctx : Caller) (req : option (option PolicyProto * string)) : M World PolicyProto :=
  tenant ← policyRepository s ctx;
  with_policy req (fun '(policy, request) =>
  actor ← lift (policyRequestActor ctx request);
  p ← lift (policyFromProto policy tenant true);
  p ← status_of policyStatus (UpdateAccessPolicy p actor request);
  mret (policyProto p)).
Definition DeleteInferenceAccessPolicy (s : option AccessServer) (ctx : Caller) (id request : string) : M World unit :=
  tenant ← policyRepository s ctx;
  _ ← check (validPolicyUUID id) (InvalidArgument "valid id required");
  actor ← lift (policyRequestActor ctx request);
  status_of policyStatus (DeleteAccessPolicy tenant id actor request).
Definition BindInferenceAccessKeyPolicy (s : option AccessServer) (ctx : Caller) (key policy request : string) : M World KeyProto :=
  tenant ← policyRepository s ctx;
  _ ← check (validPolicyUUID key && validPolicyUUID policy) (InvalidArgument "valid key_id and policy_id required");
  actor ← lift (policyRequestActor ctx request);
  item ← status_of policyStatus (BindAccessPolicy tenant key policy actor request);
  mret (accessKeyProto item).
End Servers.

(** ** The gateway's adapter *)
Definition HeaderAPIKey : string := "x-api-key".
Definition HeaderModel : string := "x-higress-llm-model".
Definition HeaderRequestID : string := "x-request-id".
Definition HeaderAuthzSource : string := "x-ani-authz-source".
Definition HeaderTenantID : string := "x-ani-tenant-id".
Definition HeaderInferenceKey : string := "x-ani-inference-key-id".
Definition HeaderRetryAfter : string := "Retry-After".
(** [CheckRequest] and [CheckResult] of package gatewayauthz. *)
Record GateRequest := mkGateRequest { gq_key : string; gq_service : string; gq_model : string; gq_request_id : string; gq_cost : Z }.
Record GateResult := mkGateResult { gt_allowed : bool; gt_tenant : string; gt_key : string; gt_denial : string; gt_retry : Z; gt_version : Z }.
(** Header names are canonical: one list of values per name. *)
Record HTTPRequest := mkHTTPRequest { hq_method : string; hq_path : string; hq_header : gmap string (list string) }.
Record HTTPReply := mkHTTPReply { hr_status : Z; hr_headers : list (string * string) }.
Definition header_get (h : gmap string (list string)) (name : string) : string := default "" (head (default [] (h !! name))).
Definition singleHeader (h : gmap string (list string)) (name : string) : option string :=
  match default [] (h !! name) with [v] => Some (trim_space v) | _ => None end.
Definition denialStatus (code : string) : Z :=
  let code := trim_space code in
  if bool_decide (code ∈ ["invalid_key"; "expired"; "revoked"]) then 401
  else if bool_decide (code = "rate_limited") then 429 else 403.
Definition writeCommonHeaders : list (string * string) := [("Cache-Control", "no-store"); ("X-Content-Type-Options", "nosniff")].
Definition reply (code : Z) (more : list (string * string)) : HTTPReply := mkHTTPReply code (writeCommonHeaders ++ more).
Section Gateway.
Context {St : Type} (new_request_id : M St string).
Record GateHandler := mkGateHandler { gh_checker : option (GateRequest -> M St GateResult); gh_source : string }.
Definition NewHandler (checker : option (GateRequest -> M St GateResult)) : GateHandler := mkGateHandler checker "higress".
Definition decision_reply (r : GateResult) : HTTPReply :=
  if gt_allowed r then
    if blank (gt_tenant r) || blank (gt_key r) then reply 503 []
    else reply 200 [(HeaderTenantID, gt_tenant r); (HeaderInferenceKey, gt_key r)]
  else
    let code := denialStatus (gt_denial r) in
    reply code (if (code =? 429) && (0 <? gt_retry r) then [(HeaderRetryAfter, format_int (gt_retry r))] else []).
(** Nothing is written for a nil request. *)
Definition ServeHTTP (h : option GateHandler) (r : option HTTPRequest) : M St (option HTTPReply) :=
  match r with
  | None => mret None
  | Some r =>
      if negb (bool_decide (hq_method r = "POST")) || negb (bool_decide (hq_path r = "/authz")) then mret (Some (reply 404 [])) else
      match h with
      | Some (mkGateHandler (Some checker) source) =>
          let required := trim_space source in
          if negb (bool_decide (required = "")) && negb (bool_decide (trim_space (header_get (hq_header r) HeaderAuthzSource) = required))
          then mret (Some (reply 403 [])) else
          match singleHeader (hq_header r) HeaderAPIKey with
          | None => mret (Some (reply 401 []))
          | Some apiKey =>
              if blank apiKey then mret (Some (reply 401 [])) else
              match singleHeader (hq_header r) HeaderModel with
              | None => mret (Some (reply 403 []))
              | Some model =>
                  if blank model then mret (Some (reply 403 [])) else
                  requestID ← (let id := trim_space (header_get (hq_header r) HeaderRequestID) in if bool_decide (id = "") then new_request_id else mret id);
                  decision ← try (checker (mkGateRequest apiKey "" (trim_space model) requestID 1));
                  mret (Some (match decision with Err _ => reply 503 [] | Ok d => decision_reply d end))
              end
          end
      | _ => mret (Some (reply 503 []))
      end
  end.
(** inferenceaccess/client.go: the RPC behind the checker; no answer is [None]. *)
Definition ErrInvalidConfig : goerr := ENew "inferenceaccess.ErrInvalidConfig" "invalid Inference access-key client configuration".
Definition Client_Check (rpc : option (AccessRequest -> M St (option AccessResponse))) (timeout : Z) (input : GateRequest) : M St GateResult :=
  match rpc with
  | None => throw ErrInvalidConfig
  | Some call =>
      _ ← check (0 <? timeout) ErrInvalidConfig;
      response ← call (mkAccessRequest (gq_key input) (gq_service input) (gq_model input) (gq_cost input) (gq_request_id input));
      match response with
      | None => throw (errorf "Inference returned an empty access decision")
      | Some r => mret (mkGateResult (as_allowed r) (as_tenant r) (as_key_id r) (as_denial r) (as_retry r) (as_version r))
      end
  end.
End Gateway.

(** ** Who gets through *)
Lemma agreed_all value l t : agreed value l = Some t -> (value ≠ "" -> t = value) ∧ ∀ v, v ∈ l -> blank v = false -> trim_space v = t.
Proof.
  revert value. induction l as [|v l IH]; intros value; cbn [agreed].
  { intros [= ->]. split; [done|]. by intros v ?%elem_of_nil. }
  case_bool_decide as Hv; [|case_bool_decide as He; [|case_bool_decide as Hs; [|done]]]; intros H; apply IH in H as [H1 H2].
  - split; [done|]. intros x [->|Hx]%elem_of_cons Hb; [|auto]. unfold blank in Hb. by rewrite bool_decide_eq_true_2 in Hb.
  - split; [done|]. intros x [->|Hx]%elem_of_cons Hb; [|auto]. symmetry. auto.
  - split; [done|]. intros x [->|Hx]%elem_of_cons Hb; [|auto]. rewrite <- Hs. symmetry. auto.
Qed.
(** The certificate of [ctx] is verified, over TLS 1.3, and names only [identity]. *)
Record proven_identity (ctx : Incoming) (identity : string) : Prop := {
  id_named : identity ≠ "";
  id_certificate : ∃ tls cert rest, ic_tls ctx = Some (Some tls) ∧ tl_peers tls = cert :: rest ∧ VersionTLS13 <= tl_version tls ∧
    (∃ chain chains, tl_chains tls = chain :: chains ∧ chain ≠ []) ∧
    ce_dns cert = [identity] ∧ ce_uris cert = 0%nat ∧ ce_ips cert = 0%nat ∧ ce_emails cert = 0%nat }.
Lemma extract_identified ctx identity : extractClientIdentity ctx = Ok identity -> proven_identity ctx identity.
Proof.
  unfold extractClientIdentity. destruct (ic_tls ctx) as [[tls|]|] eqn:Et; [|done..]. destruct (tl_peers tls) as [|cert rest] eqn:Ep; [done|].
  intros H. minv H. unfold clientDNSIdentity in H. destruct (ce_dns cert) as [|i [|]] eqn:Ed; [done| |done]. minv H. injection H as ->.
  apply andb_true_iff in Hm1 as [Hm1 He]. apply andb_true_iff in Hm1 as [Hu Hi]. apply Nat.eqb_eq in Hu, Hi, He.
  apply negb_true_iff, orb_false_iff in Hm2 as [Hn _]. apply bool_decide_eq_false in Hn.
  split; [done|]. exists tls, cert, rest. split_and!; try done; [by apply Z.leb_le|].
  destruct (tl_chains tls) as [|[|c chain] chains]; try done. by exists (c :: chain), chains.
Qed.
(** What the middlewares establish about a caller that acts for a tenant. *)
Record scoped (ctx : Incoming) (req : Attached) (identity tenant : string) (caller : Caller) : Prop := {
  sc_tenant : caller_tenant caller = Some tenant;
  sc_metadata : trustedTenantMetadata ctx = Ok tenant;
  sc_named : tenant ≠ "";
  sc_agreed : ∀ md v, ic_metadata ctx = Some md -> v ∈ values md tenant_keys -> blank v = false -> trim_space v = tenant;
  sc_actor : identity = governanceCallerDNS -> ∃ actor, caller_actor caller = Some actor ∧ has_prefix actor "governance:" = true;
  sc_attachment : identity = governanceCallerDNS -> attachment_tenant req ≠ "" -> attachment_tenant req = tenant;
  sc_governance : caller_governance caller = true -> caller_governance (ic_caller ctx) = true ∨
    identity = governanceCallerDNS ∧ attachment_tenant req = tenant }.
Lemma tenant_scoped ctx req identity caller : tenant_caller ctx req identity = Ok caller -> ∃ tenant, scoped ctx req identity tenant caller.
Proof.
  unfold tenant_caller. intros H. minv H. rename a into tenant. exists tenant. destruct (trustedTenantMetadata ctx) as [t|] eqn:Et; [|done].
  injection Hm as ->. pose proof Et as Emeta. unfold trustedTenantMetadata in Et. destruct (ic_metadata ctx) as [md|] eqn:Emd; [|done].
  destruct (agreed "" (values md tenant_keys)) as [t|] eqn:Ea; [|done]. destruct (bool_decide (t = "")) eqn:Ht; [done|]. apply bool_decide_eq_false in Ht. injection Et as ->. apply agreed_all in Ea as [_ Ea].
  assert (identity = governanceCallerDNS -> a0 ≠ "" ∧ has_prefix a0 "governance:" = true) as Hg.
  { intros ->. rewrite bool_decide_eq_true_2 in Hm1 by done. minv Hm1. split; [|done]. intros ->. done. }
  unfold bindGovernanceGPUContext in H.
  assert (∀ c, caller_tenant c = Some tenant -> caller_actor c = (if bool_decide (a0 = "") then caller_actor (ic_caller ctx) else Some a0) ->
    (caller_governance c = true -> caller_governance (ic_caller ctx) = true ∨ identity = governanceCallerDNS ∧ attachment_tenant req = tenant) ->
    (identity = governanceCallerDNS -> attachment_tenant req ≠ "" -> attachment_tenant req = tenant) ->
    scoped ctx req identity tenant c) as Hmk.
  { intros c H1 H2 H3 H4. split; [done..| | |done|done].
    - intros md' v Hmd. rewrite Emd in Hmd. injection Hmd as <-. apply Ea.
    - intros Hi. destruct (Hg Hi) as [Hne Hp]. exists a0. rewrite H2. by rewrite bool_decide_eq_false_2. }
  destruct (bool_decide (identity = governanceCallerDNS)) eqn:Eg; cbn in H.
  2: { apply bool_decide_eq_false in Eg. injection H as <-. apply Hmk; [by destruct (bool_decide (a0 = ""))..|destruct (bool_decide (a0 = "")); cbn; auto|done]. }
  apply bool_decide_eq_true in Eg. destruct (bool_decide (attachment_tenant req = "")) eqn:Eat.
  { apply bool_decide_eq_true in Eat. injection H as <-. apply Hmk; [by destruct (bool_decide (a0 = ""))..|destruct (bool_decide (a0 = "")); cbn; auto|done]. }
  destruct (bool_decide (attachment_tenant req = tenant)) eqn:Ett; cbn in H; [|done]. apply bool_decide_eq_true in Ett. injection H as <-.
  apply Hmk; [by destruct (bool_decide (a0 = ""))..|auto|auto].
Qed.
Lemma allowed_listed identity method : IsAllowed identity method = true -> ∃ methods, (identity, methods) ∈ StaticRPCPolicy ∧ method ∈ methods.
Proof.
  unfold IsAllowed, StaticRPCPolicy_IsAllowed. intros [_ H]%andb_true_iff. destruct (list_find _ _) as [[i [id methods]]|] eqn:E; [|done].
  apply list_find_Some in E as (E & He & _). cbn in He. subst id. exists methods. split; [by eapply list_elem_of_lookup_2|by apply bool_decide_eq_true in H].
Qed.
(** The call that reaches a handler: by whom, for which method, on whose behalf. *)
Record authorized (ctx : Incoming) (req : Attached) (identity method : string) (ctx' : Incoming) : Prop := {
  az_identity : proven_identity ctx identity;
  az_method : ∃ methods, (identity, methods) ∈ StaticRPCPolicy ∧ method ∈ methods;
  az_scope : (identity = gatewayAuthzCallerDNS ∧ ctx' = ctx ∧ hasTrustedTenantOrActorMetadata ctx = false) ∨
    (identity ≠ gatewayAuthzCallerDNS ∧ ∃ tenant caller, ctx' = ctx <| ic_caller := caller |> ∧ scoped ctx req identity tenant caller) }.
Section Middleware.
Context {St A : Type}.
Lemma trusted_cases (next : Handler (St := St) A) req ctx s :
  (∃ e, trustedTenantMiddleware next req ctx s = (Err e, s)) ∨
  ∃ identity ctx', proven_identity ctx identity ∧ extractClientIdentity ctx' = Ok identity ∧ ic_operation ctx' = ic_operation ctx ∧
    ((identity = gatewayAuthzCallerDNS ∧ ctx' = ctx ∧ hasTrustedTenantOrActorMetadata ctx = false) ∨
     (identity ≠ gatewayAuthzCallerDNS ∧ ∃ tenant caller, ctx' = ctx <| ic_caller := caller |> ∧ scoped ctx req identity tenant caller)) ∧
    trustedTenantMiddleware next req ctx s = next ctx' s.
Proof.
  unfold trustedTenantMiddleware. destruct (extractClientIdentity ctx) as [identity|] eqn:Ei; [|left; by eexists].
  cbn [refused lift]. rewrite (bind_run _ _ _ identity s) by done. pose proof (extract_identified _ _ Ei) as Hid.
  destruct (bool_decide (identity = governanceCallerDNS) || bool_decide (identity = modelCallerDNS)) eqn:Eg; cbn [negb].
  - destruct (tenant_caller ctx req identity) as [caller|] eqn:Ec; [|left; by eexists]. right. exists identity, (ctx <| ic_caller := caller |>).
    split_and!; [done|done|done| |done]. right. apply orb_true_iff in Eg as [Eg|Eg]; apply bool_decide_eq_true in Eg as ->;
      (split; [done|]; apply tenant_scoped in Ec as [t Ht]; by exists t, caller).
  - clear Eg. unfold check. destruct (bool_decide (identity = gatewayAuthzCallerDNS)) eqn:H1; [|left; by eexists].
    destruct (bool_decide (ic_operation ctx = Some checkInferenceAccessMethod)); [|left; by eexists].
    destruct (hasTrustedTenantOrActorMetadata ctx) eqn:H3; [left; by eexists|]. right. apply bool_decide_eq_true in H1.
    exists identity, ctx. split_and!; [done..| |done]. by left.
Qed.
(** The request's tenant only refuses: a caller without a trusted tenant may not name
    one, and a caller with one keeps it. *)
Lemma direct_cases (next : Handler (St := St) A) ctx s :
  (∃ e, DirectTenantMiddleware next ctx s = (Err e, s)) ∨ DirectTenantMiddleware next ctx s = next ctx s.
Proof.
  unfold DirectTenantMiddleware. destruct (requestTenant ctx) as [tenant|]; [|left; by eexists].
  rewrite (bind_run _ _ s tenant s) by done. case_bool_decide; [by right|].
  unfold RequireTenant. destruct (Server.Server.TenantID (ic_caller ctx)) as [trusted|]; [|left; by eexists].
  destruct (_ && _); [left; by eexists|]. rewrite (bind_run _ _ s trusted s) by done. by right.
Qed.
End Middleware.
Lemma unary_cases {St A : Type} (handler : Handler (St := St) A) req ctx s :
  (∃ e, wired_unary handler req ctx s = (Err e, s)) ∨
  ∃ identity method ctx', ic_operation ctx = Some method ∧ authorized ctx req identity method ctx' ∧
    wired_unary handler req ctx s = handler ctx' s.
Proof.
  unfold wired_unary. destruct (trusted_cases (DirectTenantMiddleware (RPCPolicyMiddleware IsAllowed handler)) req ctx s) as [?|(identity & ctx' & Hid & Hx & Ho & Hs & ->)]; [by left|].
  destruct (direct_cases (RPCPolicyMiddleware IsAllowed handler) ctx' s) as [?| ->]; [by left|].
  unfold RPCPolicyMiddleware. rewrite Ho, Hx. destruct (ic_operation ctx) as [method|]; [|left; by eexists].
  cbn [refused]. rewrite (bind_run _ _ s identity s) by done. unfold check. destruct (IsAllowed identity method) eqn:Ea; [|left; by eexists].
  right. exists identity, method, ctx'. split_and!; [done|split; [done|by apply allowed_listed|done]|done].
Qed.
(** Claim C19. Deny by default.  A call either fails and changes nothing before any
    handler runs, or reaches the handler from a caller whose verified TLS 1.3
    certificate carries exactly one name, for a method listed for that name in the
    policy.  The gateway adapter reaches only the access check and supplies no tenant;
    every other caller acts for the one tenant all its metadata agree on, Governance
    names itself as the actor, and the right to issue managed GPU commands comes only
    from Governance with an attachment for that same tenant.  The same holds for
    streams. *)
Theorem calls_are_authorized {St A : Type} (handler : Handler (St := St) A) req ctx s :
  ((∃ e, wired_unary handler req ctx s = (Err e, s)) ∨
   ∃ identity method ctx', ic_operation ctx = Some method ∧ authorized ctx req identity method ctx' ∧
     wired_unary handler req ctx s = handler ctx' s) ∧
  ∀ method, (∃ e, trustedDiagnosticsStreamInterceptor method handler ctx s = (Err e, s)) ∨
    ∃ identity ctx', authorized ctx RqOther identity method ctx' ∧ trustedDiagnosticsStreamInterceptor method handler ctx s = handler ctx' s.
Proof.
  split; [apply unary_cases|].
  intros method. unfold trustedDiagnosticsStreamInterceptor. destruct (extractClientIdentity ctx) as [identity|] eqn:Ei; [|left; by eexists].
  cbn [refused]. rewrite (bind_run _ _ s identity s) by done. unfold check. destruct (IsAllowed identity method) eqn:Ea; [|left; by eexists].
  rewrite (bind_run _ _ s tt s) by done. unfold mbind, M_bind.
  destruct (trusted_cases (fun ctx => mret ctx) RqOther ctx s) as [[e ->]|(i & ctx' & Hid & Hx & Ho & Hs & ->)]; [left; by eexists|].
  right. exists identity, ctx'. assert (i = identity) as ->.
  { destruct Hs as [(_ & -> & _)|(_ & t & c & -> & _)]; unfold extractClientIdentity in *; cbn in *; congruence. }
  split; [split; [done|by apply allowed_listed|done]|done].
Qed.

(** ** The gateway asks the service *)
Lemma access_callers identity methods : (identity, methods) ∈ StaticRPCPolicy -> checkInferenceAccessMethod ∈ methods -> identity = gatewayAuthzCallerDNS.
Proof.
  intros Hin Hm. assert (forallb (fun e => negb (bool_decide (checkInferenceAccessMethod ∈ e.2)) || bool_decide (e.1 = gatewayAuthzCallerDNS)) StaticRPCPolicy = true) as H
    by (vm_compute; reflexivity).
  rewrite forallb_forall in H. apply list_elem_of_In in Hin. apply H in Hin. cbn [fst snd] in Hin. rewrite bool_decide_eq_true_2 in Hin by done.
  by apply bool_decide_eq_true in Hin.
Qed.
Lemma single_value h name v : singleHeader h name = Some v -> ∃ x, h !! name = Some [x] ∧ v = trim_space x.
Proof. unfold singleHeader. destruct (h !! name) as [[|x [|]]|]; cbn; try done. intros [= <-]. eauto. Qed.
Lemma denied_code code : denialStatus code ≠ 200.
Proof. unfold denialStatus. by repeat case_bool_decide. Qed.
Section Gate.
Context `{U : UuidLib} {UL : UuidLaws} `{I : UuidInput} `{G : Argon2}.
(** The RPC of the adapter, as the server runs it: [ctx] is the connection of the
    adapter, and the transport names the method. *)
Definition inference_check (s : option AccessServer) (ctx : Incoming) (req : AccessRequest) : M World (option AccessResponse) :=
  r ← wired_unary (fun _ => CheckInferenceAccess s req) RqOther (ctx <| ic_operation := Some checkInferenceAccessMethod |>);
  mret (Some r).
(** cmd/ani-inference-gateway-authz/main.go: [source] is the value of
    ANI_GATEWAY_AUTHZ_SOURCE, empty when it is not set. *)
Definition envOrDefault (value fallback : string) : string :=
  let value := trim_space value in if bool_decide (value = "") then fallback else value.
Definition gateway (s : option AccessServer) (ctx : Incoming) (timeout : Z) (source : string) : GateHandler :=
  mkGateHandler (gh_checker (NewHandler (Some (Client_Check (Some (inference_check s ctx)) timeout)))) (envOrDefault source "higress").
Lemma source_trimmed source : trim_space (envOrDefault source "higress") = envOrDefault source "higress" ∧ envOrDefault source "higress" ≠ "".
Proof. unfold envOrDefault. case_bool_decide; [by split|]. by rewrite trim_space_idemp. Qed.
(** What an answer of the RPC means. *)
Definition granted (s : option AccessServer) (apiKey model : string) (k : uuid * uuid) (w w' : World) : Prop :=
  ∃ server row pol svc, s = Some server ∧ authentic (w_db w) apiKey k row ∧ grantable (w_db w) k row pol model (sv_now server) ∧
    leads_to (w_db w) model (k.1, svc) ∧ counted k (sv_now server) 1 (policy_windows pol) (w_db w) (w_db w').
Lemma check_answer s req w r w' : CheckInferenceAccess s req w = (Ok r, w') -> ar_service req = "" -> ar_cost req = 1 ->
  if as_allowed r then ∃ k, granted s (trim_space (ar_key req)) (trim_space (ar_model req)) k w w' ∧
    (uuid_string k.2 ≠ "" -> as_tenant r = uuid_string k.1 ∧ as_key_id r = uuid_string k.2) ∧ (uuid_string k.2 = "" -> as_key_id r = "")
  else w_db w' = w_db w.
Proof.
  unfold CheckInferenceAccess, required, with_service, status_of. intros H Hs Hc. minv H. destruct s as [server|]; [|done]. minv H.
  injection H as <- <-. minv Hm0. destruct a1 as [answer|]; [|done]. injection Hm0 as -> ->. apply check_run in Hm1. rename a0 into answer.
  unfold access_response. destruct (match CR_Record _ with Some _ => _ | None => _ end) as [key tenant] eqn:E. cbn.
  destruct (CR_Allowed answer); [|done]. destruct Hm1 as (k & row & pol & svc & Ha & Hg & Hl & _ & Hn & named & Hr & Hi & Ht).
  exists k. rewrite Hr in E. cbn in Hi, Ht. rewrite Hi, Ht in E. rewrite Hc in Hn. split; [by exists server, row, pol, svc|].
  case_bool_decide; injection E as <- <-; split; done.
Qed.
Lemma client_answer s ctx timeout input w r w' : Client_Check (Some (inference_check s ctx)) timeout input w = (Ok r, w') ->
  gq_service input = "" -> gq_cost input = 1 ->
  proven_identity ctx gatewayAuthzCallerDNS ∧ hasTrustedTenantOrActorMetadata ctx = false ∧
  if gt_allowed r then ∃ k, granted s (trim_space (gq_key input)) (trim_space (gq_model input)) k w w' ∧
    (uuid_string k.2 ≠ "" -> gt_tenant r = uuid_string k.1 ∧ gt_key r = uuid_string k.2) ∧ (uuid_string k.2 = "" -> gt_key r = "")
  else w_db w' = w_db w.
Proof.
  unfold Client_Check. intros H Hs Hc. minv H. unfold inference_check in Hm0. minv Hm0. injection Hm0 as <- <-. injection H as <- <-.
  match type of Hm1 with wired_unary ?h ?q ?c ?x = _ => destruct (unary_cases h q c x) as [[e E]|(identity & method & ctx' & [= <-] & Ha & E)] end;
    rewrite E in Hm1; [done|]. apply check_answer in Hm1; [|done..].
  destruct Ha as [Hid (methods & Hin & Hmem) Hscope]. pose proof (access_callers _ _ Hin Hmem) as ->.
  split_and!; [by destruct Hid; split|by destruct Hscope as [(_ & _ & ?)|[? _]]|done].
Qed.
(** Claim C20. The gateway opens only for granted requests.  The adapter, asking this
    service over its own connection, answers 200 only to a POST of /authz from the
    configured source (higress when none is configured) with exactly one key and one model header, when the connection
    carries the gateway's certificate and no tenant of its own, the secret is that of a
    stored key, the key is neither revoked nor expired, its policy lists the model, the
    model is published for the key's tenant, and the request was counted against every
    window; the answer names that tenant and that key.  Every other answer but 503, an
    authority that cannot be asked, leaves the database as it was. *)
Theorem gateway_allows_only_granted (ids : M World string) (Hids : ∀ w, w_db (ids w).2 = w_db w) s ctx timeout source r w rep w' :
  ServeHTTP ids (Some (gateway s ctx timeout source)) (Some r) w = (Ok (Some rep), w') ->
  if hr_status rep =? 200 then
    hq_method r = "POST" ∧ hq_path r = "/authz" ∧ trim_space (header_get (hq_header r) HeaderAuthzSource) = envOrDefault source "higress" ∧
    proven_identity ctx gatewayAuthzCallerDNS ∧ hasTrustedTenantOrActorMetadata ctx = false ∧
    ∃ apiKey model k u, hq_header r !! HeaderAPIKey = Some [apiKey] ∧ hq_header r !! HeaderModel = Some [model] ∧ w_db u = w_db w ∧
      granted s (trim_space apiKey) (trim_space model) k u w' ∧
      hr_headers rep = writeCommonHeaders ++ [(HeaderTenantID, uuid_string k.1); (HeaderInferenceKey, uuid_string k.2)]
  else hr_status rep ≠ 503 -> w_db w' = w_db w.
Proof.
  unfold ServeHTTP, gateway, NewHandler. destruct (_ || _) eqn:Ep; [by intros [= <- <-]|].
  apply orb_false_iff in Ep as [Ep1%negb_false_iff%bool_decide_eq_true Ep2%negb_false_iff%bool_decide_eq_true].
  destruct (source_trimmed source) as [Et Hne]. cbn [gh_checker]. rewrite Et, bool_decide_eq_false_2 by done. cbn [negb andb].
  destruct (negb _) eqn:Es; [by intros [= <- <-]|].
  destruct (singleHeader _ HeaderAPIKey) as [apiKey|] eqn:Ek; [|by intros [= <- <-]]. destruct (blank apiKey); [by intros [= <- <-]|].
  destruct (singleHeader _ HeaderModel) as [model|] eqn:Em; [|by intros [= <- <-]]. destruct (blank model); [by intros [= <- <-]|].
  apply single_value in Ek as (key & Ek & ->), Em as (name & Em & ->). intros H. minv H. injection H as <- <-.
  assert (w_db u = w_db w) as Eu by (destruct (bool_decide (trim_space (header_get _ HeaderRequestID) = "")); [by specialize (Hids w); rewrite Hm in Hids|by injection Hm as <- <-]).
  destruct a0 as [d|e]; [|by intros []]. apply client_answer in Hm0 as (Hid & Hmd & Hm0); [|done..]. cbn [gq_key gq_model] in Hm0. rewrite !trim_space_idemp in Hm0.
  unfold decision_reply. destruct (gt_allowed d); cbn.
  2: { pose proof (denied_code (gt_denial d)) as Hd. apply Z.eqb_neq in Hd. cbn. rewrite Hd. congruence. }
  destruct Hm0 as (k & Hg & Hn1 & Hn2). destruct (blank (gt_tenant d) || blank (gt_key d)) eqn:Eb; [by intros []|]. cbn.
  assert (uuid_string k.2 ≠ "") as Hk by (intros Hk; apply Hn2 in Hk; rewrite Hk, orb_true_r in Eb; done).
  destruct (Hn1 Hk) as [-> ->]. apply negb_false_iff, bool_decide_eq_true in Es.
  split_and!; [done..|]. by exists key, name, k, u.
Qed.
End Gate.

Module Example.
Import BinaryUuid Credential.Credential.Example.
#[local] Instance input : UuidInput := BinaryUuid.parse.
#[local] Existing Instance toy_argon2.
Definition server : AccessServer := mkAccessServer (Some toy_aead) true draws 1000.
Definition adapter : Certificate := mkCertificate [gatewayAuthzCallerDNS] 0 0 0.
Definition connection : Incoming := mkIncoming None (Some (Some (mkTLSState VersionTLS13 [adapter] [[adapter]]))) None None None (mkCaller None None false).
Definition post : HTTPRequest := mkHTTPRequest "POST" "/authz"
  {[HeaderAPIKey := [secret]; HeaderModel := ["m"]; HeaderAuthzSource := ["higress"]]}.
Definition opened := ServeHTTP (mret "id") (Some (gateway (Some server) connection 5 "")) (Some post) created.2.
Definition refused_reply : HTTPReply := reply 503 [].
Definition opened_reply : HTTPReply := default refused_reply (result_of opened None).
Lemma opened_is : opened = (Ok (Some opened_reply), opened.2) ∧ hr_status opened_reply = 200.
Proof. vm_compute. done. Qed.
Lemma gateway_allows_only_granted_witness : hr_status opened_reply = 200 ∧
  ∃ apiKey model k u, hq_header post !! HeaderAPIKey = Some [apiKey] ∧ hq_header post !! HeaderModel = Some [model] ∧ w_db u = w_db created.2 ∧
    granted (Some server) (trim_space apiKey) (trim_space model) k u opened.2 ∧
    hr_headers opened_reply = writeCommonHeaders ++ [(HeaderTenantID, uuid_string k.1); (HeaderInferenceKey, uuid_string k.2)].
Proof.
  destruct opened_is as [Ho Hs]. split; [exact Hs|].
  pose proof (gateway_allows_only_granted (mret "id") (fun w => eq_refl) (Some server) connection 5 "" post created.2 opened_reply opened.2 Ho) as H.
  rewrite Hs in H. apply H.
Defined.
End Example.
End Perimeter.
