(* ===== verification/Tenancy.v ===== *)
(** * Tenants are isolated

    The access-key and policy RPCs behind the perimeter: a call changes only rows of
    the tenant its metadata names.  The relation [others] compares two databases
    outside the tenants of a caller; every statement of the two repositories respects
    it, so every management call does.  The access check, which the gateway makes
    without naming a tenant, marks the key whose secret it was given as used; the
    relation [touches] says that it does nothing else to a key. *)

From S2P Require Import Prelude GoStrings Schema Operation WorkStore ReconcileStore OperationStore Server AccessKey AccessPolicy Credential Perimeter.
Local Open Scope Z_scope.

Module Tenancy.
Import Schema Server.Server AccessKey.AccessKey AccessPolicy.AccessPolicy Credential.Credential Perimeter.Perimeter.

(** ** Rows outside the caller's tenant *)
Record others (mine : uuid -> Prop) (db db' : DB) : Prop := mkOthers {
  ot_rows (k : uuid * uuid) : ¬ mine k.1 -> access_keys db' !! k = access_keys db !! k ∧ policies db' !! k = policies db !! k ∧
    key_audits db' !! k = key_audits db !! k ∧ policy_audits db' !! k = policy_audits db !! k }.
#[global] Instance others_preorder mine : PreOrder (others mine).
Proof.
  split; [by split|]. intros x y z [H1] [H2]. split. intros k Hk.
  destruct (H1 k Hk) as (A1 & A2 & A3 & A4), (H2 k Hk) as (B1 & B2 & B3 & B4). split_and!; congruence.
Qed.
(** One row of the caller's tenant is written. *)
Ltac write_own := split; intros k' Hk'; cbn; rewrite ?lookup_insert_ne, ?lookup_delete_ne by (intros <-; done); done.
Ltac own_statement :=
  repeat match goal with
  | |- context [if ?b then _ else _] => destruct b
  | |- context [match ?x with Some _ => _ | None => _ end] => destruct x
  end; try done; try (intros [= _ <-]; write_own).
Section Statements.
Context (mine : uuid -> Prop) (k : uuid * uuid) (Hk : mine k.1).
Lemma own_insert_key row : respects (others mine) (InsertInferenceAccessKey k row).
Proof. intros now db a db'. unfold InsertInferenceAccessKey. cbv zeta. own_statement. Qed.
Lemma own_update_key f : respects (others mine) (update_key k f).
Proof. intros now db a db'. unfold update_key. destruct (access_keys db !! k); [|done]. intros H. minv H. destruct a0; [|done]. injection H as _ <-. write_own. Qed.
Lemma own_touch_key f : respects (others mine) (touch_key k f).
Proof.
  apply respects_execrows; [apply _|]. intros now db db'. destruct (access_keys db !! k); [|done]. cbn. destruct (f _ _); [|done].
  intros [= <-]. write_own.
Qed.
Lemma own_key_audit e t a r p : respects (others mine) (AppendInferenceAccessKeyAudit k e t a r p).
Proof. intros now db x db'. unfold AppendInferenceAccessKeyAudit. own_statement. Qed.
Lemma own_insert_policy p : respects (others mine) (InsertPolicy k p).
Proof. intros now db x db'. unfold InsertPolicy. cbv zeta. own_statement. Qed.
Lemma own_update_policy p : respects (others mine) (UpdatePolicy k p).
Proof.
  intros now db x db'. unfold UpdatePolicy. destruct (policies db !! k); [|done]. intros H. minv H. revert H. own_statement.
Qed.
Lemma own_delete_policy : respects (others mine) (DeletePolicy k).
Proof. intros now db x db'. unfold DeletePolicy. own_statement. Qed.
Lemma own_policy_audit e t a r p : respects (others mine) (InsertPolicyAudit k e t a r p).
Proof. intros now db x db'. unfold InsertPolicyAudit. own_statement. Qed.
Lemma own_bind_policy p : respects (others mine) (BindPolicy k p).
Proof.
  intros now db x db'. unfold BindPolicy. destruct (access_keys db !! k); [|by intros [= _ <-]]. intros H. minv H. revert H. own_statement.
Qed.
End Statements.
#[local] Hint Resolve own_insert_key own_update_key own_touch_key own_key_audit own_insert_policy own_update_policy own_delete_policy
  own_policy_audit own_bind_policy : moves.
Lemma own_list_keys mine t m l o : respects (others mine) (AccessKey.AccessKey.ListInferenceAccessKeys t m l o).
Proof. intros now db a db'. unfold AccessKey.AccessKey.ListInferenceAccessKeys. case_match; [done|]. by intros [= _ <-]. Qed.
Lemma own_select_policies mine t l o : respects (others mine) (SelectPolicies t l o).
Proof. intros now db u db'. unfold SelectPolicies. case_match; [done|]. by intros [= _ <-]. Qed.
#[local] Hint Resolve own_list_keys own_select_policies : moves.
#[local] Hint Unfold AccessKey.AccessKey.GetInferenceAccessKey LockInferenceAccessKey GetInferenceAccessKeyByPrefix AccessKey.AccessKey.RevokeInferenceAccessKey
  AccessKey.AccessKey.RotateInferenceAccessKey GetInferenceAccessKeyByCreateIdempotency GetInferenceAccessKeyByRotationIdempotency lock_policy
  CountInferenceAccessKeys SelectPolicy CountPolicies : moves.
Lemma moves_lift_value {A B} (R : relation World) `{!PreOrder R} (r : result A) (k : A -> M World B) :
  (∀ a, r = Ok a -> moves R (k a)) -> moves R (lift r ≫= k).
Proof. intros H. apply moves_bind_value; [done|by apply moves_lift|]. intros s a s' E. apply H. by injection E. Qed.
Lemma moves_status {A} mine f (c : M World A) : moves (db_rel (others mine)) c -> moves (db_rel (others mine)) (status_of f c).
Proof. intros H. unfold status_of. moves. Qed.
Section Calls.
Context `{U : UuidLib} `{I : UuidInput} `{G : Argon2} (mine : uuid -> Prop).
(** A tenant, as Go's parser or the database reads it, is the caller's. *)
Definition own (tenant : string) : Prop := ∀ u, uuid_parse tenant = Some u ∨ uuid_in tenant = Some u -> mine u.
Lemma own_key tenant id k : own tenant -> key_of tenant id = Ok k -> mine k.1.
Proof. unfold key_of. intros Ho H. minv H. injection H as <-. apply requireUUID_parses in Hm. cbn. eauto. Qed.
Lemma own_param tenant u : own tenant -> uuid_param tenant = Ok u -> mine u.
Proof. unfold uuid_param. intros Ho H. destruct (uuid_in tenant) eqn:E; [|done]. injection H as <-. eauto. Qed.
Lemma own_param_key tenant id k : own tenant -> param_key tenant id = Ok k -> mine k.1.
Proof. unfold param_key. intros Ho H. minv H. injection H as <-. cbn. by eapply own_param. Qed.
Lemma own_create in_ rid : own (TenantID in_) -> moves (db_rel (others mine)) (Repository_Create in_ rid).
Proof.
  intros Ho. unfold Repository_Create. apply moves_lift_value; [apply _|]. intros k Hk%own_key; [|done].
  unfold create_body, earlier_create. db_moves.
Qed.
Lemma own_list t o : moves (db_rel (others mine)) (Repository_List t o).
Proof. unfold Repository_List, list_body. db_moves. Qed.
Lemma own_get t i : moves (db_rel (others mine)) (Repository_Get t i).
Proof. unfold Repository_Get. db_moves. Qed.
Lemma own_revoke t i a r : own t -> moves (db_rel (others mine)) (Repository_Revoke t i a r).
Proof.
  intros Ho. unfold Repository_Revoke. apply moves_lift_value; [apply _|]. intros k Hk%own_key; [|done]. unfold revoke_body. db_moves.
Qed.
Lemma own_rotate t i input : own t -> moves (db_rel (others mine)) (Repository_Rotate t i input).
Proof.
  intros Ho. unfold Repository_Rotate. apply moves_lift_value; [apply _|]. intros k Hk%own_key; [|done]. unfold rotate_body, rotate_row. db_moves.
Qed.
Lemma own_create_policy p a r : own (P_TenantID p) -> moves (db_rel (others mine)) (CreateAccessPolicy p a r).
Proof.
  intros Ho. unfold CreateAccessPolicy, policyAudit. apply moves_transaction; [apply _|]. apply moves_bind; [apply _|eauto with moves typeclass_instances|]. intros id.
  apply moves_lift_value; [apply _|]. intros u Hu%own_param; [|done]. db_moves.
Qed.
Lemma own_update p a r : own (P_TenantID p) -> moves (db_rel (others mine)) (UpdateAccessPolicy p a r).
Proof.
  intros Ho. unfold UpdateAccessPolicy, policyAudit. apply moves_transaction; [apply _|]. apply moves_lift_value; [apply _|].
  intros k Hk%own_param_key; [|done]. db_moves.
Qed.
Lemma own_delete t i a r : own t -> moves (db_rel (others mine)) (DeleteAccessPolicy t i a r).
Proof.
  intros Ho. unfold DeleteAccessPolicy, policyAudit. apply moves_transaction; [apply _|]. apply moves_lift_value; [apply _|].
  intros k Hk%own_param_key; [|done]. db_moves.
Qed.
Lemma own_bind t key p a r : own t -> moves (db_rel (others mine)) (BindAccessPolicy t key p a r).
Proof.
  intros Ho. unfold BindAccessPolicy, bind_body. apply moves_lift_value; [apply _|]. intros k Hk. apply moves_transaction; [apply _|].
  apply moves_lift_value; [apply _|]. intros k' Hk'%own_param_key; [|done]. db_moves.
Qed.
#[local] Hint Resolve own_create own_list own_get own_revoke own_rotate : moves.
Lemma own_service_create cipher d now input : own (trim_space (KI_TenantID input)) -> moves (db_rel (others mine)) (Service_Create cipher d now input).
Proof. intros Ho. unfold Service_Create. db_moves. Qed.
Lemma own_service_list cipher t o : moves (db_rel (others mine)) (Service_List cipher t o).
Proof. unfold Service_List. db_moves. Qed.
Lemma own_service_get cipher t i : moves (db_rel (others mine)) (Service_Get cipher t i).
Proof. unfold Service_Get. db_moves. Qed.
Lemma own_service_revoke t i a r : own (trim_space t) -> moves (db_rel (others mine)) (Service_Revoke t i a r).
Proof. intros Ho. unfold Service_Revoke. db_moves. Qed.
Lemma own_service_rotate cipher d t i k a r : own (trim_space t) -> moves (db_rel (others mine)) (Service_Rotate cipher d t i k a r).
Proof. intros Ho. unfold Service_Rotate. db_moves. Qed.
Lemma own_get_policy t i : moves (db_rel (others mine)) (GetAccessPolicy t i).
Proof. unfold GetAccessPolicy. db_moves. Qed.
Lemma own_list_policies t l o : moves (db_rel (others mine)) (ListAccessPolicies t l o).
Proof. unfold ListAccessPolicies. db_moves. Qed.
End Calls.
#[local] Hint Resolve own_service_create own_service_list own_service_get own_service_revoke own_service_rotate own_get_policy
  own_list_policies own_create_policy own_update own_delete own_bind moves_status : moves.

(** ** The access check *)
(** A key that was used: the time of its last use, and its archived secret if it had
    none; its name, hash, scopes, policy, expiry, revocation and version stay. *)
Definition used_row (row row' : KeyRow) : Prop :=
  row' = row <| k_last_used_at := k_last_used_at row' |> <| k_secret_ciphertext := k_secret_ciphertext row' |> ∧
  (k_secret_ciphertext row' = k_secret_ciphertext row ∨ k_secret_ciphertext row = None).
#[global] Instance used_row_preorder : PreOrder used_row.
Proof.
  split; [intros row; split; [by destruct row|by left]|]. intros a b c [H1 H2] [H3 H4]. split; [|destruct H2, H4; (left + right); congruence].
  rewrite H3, H1. by destruct a, c.
Qed.
Record touches (k : uuid * uuid) (db db' : DB) : Prop := mkTouches {
  to_others (j : uuid * uuid) : j ≠ k -> access_keys db' !! j = access_keys db !! j;
  to_key : option_Forall2 used_row (access_keys db !! k) (access_keys db' !! k);
  to_tables : (policies db', key_audits db', policy_audits db') = (policies db, key_audits db, policy_audits db) }.
Lemma used_refl (o : option KeyRow) : option_Forall2 used_row o o.
Proof. destruct o; constructor. reflexivity. Qed.
#[global] Instance touches_preorder k : PreOrder (touches k).
Proof.
  split; [split; [done|apply used_refl|done]|]. intros a b c [A1 A2 A3] [B1 B2 B3]. split; [|etrans; [exact A2|exact B2]|congruence].
  intros j Hj. rewrite (B1 j Hj). by apply A1.
Qed.
Lemma touches_same k db db' : access_keys db' = access_keys db -> policies db' = policies db -> key_audits db' = key_audits db ->
  policy_audits db' = policy_audits db -> touches k db db'.
Proof. intros H1 H2 H3 H4. split; [by rewrite H1|rewrite H1; apply used_refl|congruence]. Qed.
Lemma touches_touch k f : (∀ now row row', f now row = Some row' -> used_row row row') -> respects (touches k) (touch_key k f).
Proof.
  intros Hf. apply respects_execrows; [apply _|]. intros now db db'. destruct (access_keys db !! k) as [row|] eqn:E; [|done]. cbn.
  destruct (f now row) as [row'|] eqn:Ef; [|done]. intros [= <-]. split; [|cbn; rewrite E, lookup_insert_eq; constructor; by eapply Hf|done].
  intros j Hj. cbn. by rewrite lookup_insert_ne.
Qed.
Lemma touches_used k : respects (touches k) (MarkInferenceAccessKeyUsed k).
Proof. apply touches_touch. intros now row row' [= <-]. split; [by destruct row|by left]. Qed.
Lemma touches_archive k v h c : respects (touches k) (ArchiveInferenceAccessKeySecret k v h c).
Proof.
  apply touches_touch. intros now row row'. destruct (_ && _ && bool_decide (k_secret_ciphertext row = None) && _) eqn:E; [|done]. intros [= <-].
  rewrite !andb_true_iff in E. destruct E as [[_ E%bool_decide_eq_true] _]. split; [by destruct row|by right].
Qed.
Lemma touches_bucket k j w s c m : respects (touches k) (ConsumeInferenceAccessKeyRateBucket j w s c m).
Proof. intros now db z db' (_ & _ & ->)%consume_inv. by apply touches_same. Qed.
#[local] Hint Resolve touches_used touches_archive touches_bucket : moves.
#[local] Hint Unfold ResolvePublishedModel LockPolicyServiceShared : moves.

Lemma touches_windows k now cost ws : moves (db_rel (touches k)) (consume_windows k now cost ws).
Proof. induction ws as [|[[name limit] d] ws IH]; cbn; db_moves. Qed.
Section Check.
Context `{U : UuidLib} {UL : UuidLaws} `{G : Argon2} (cipher : option AEAD).
Lemma touches_consume k row service model now cost : moves (db_rel (touches k)) (ConsumeAccess (accessKeyRecord k row) service model now cost).
Proof.
  unfold ConsumeAccess. apply moves_transaction; [apply _|]. unfold consume_body.
  apply moves_bind; [apply _|unfold publication_holds, lookupPublishedModel; db_moves|]. intros held. destruct (negb held); [moves|].
  cbn [TenantID ID accessKeyRecord]. unfold ReconcileStore.ReconcileStore.requireUUID. rewrite !uuid_parse_string.
  apply moves_lift_value; [apply _|]. intros t [= <-]. apply moves_lift_value; [apply _|]. intros i [= <-]. rewrite <- surjective_pairing.
  unfold authorize, grant, consumeKeyBuckets. pose proof (touches_windows k now cost). db_moves.
Qed.
Lemma record_key k row : key_of (TenantID (accessKeyRecord k row)) (ID (accessKeyRecord k row)) = Ok k.
Proof. unfold key_of, ReconcileStore.ReconcileStore.requireUUID. cbn. rewrite !uuid_parse_string. by destruct k. Qed.
Lemma touches_archived d k row apiKey : moves (db_rel (touches k)) (archive cipher d (accessKeyRecord k row) apiKey).
Proof.
  unfold archive, Repository_ArchiveSecret. rewrite record_key. destruct (bool_decide _); [|moves].
  apply moves_bind; [apply _|moves|intros sealed]. apply moves_bind; [apply _|moves|intros _].
  apply moves_lift_value; [apply _|]. intros ? [= <-]. moves.
Qed.
Lemma authenticate_reads apiKey now : moves (db_rel (=)) (authenticate apiKey now).
Proof. unfold authenticate, Repository_GetByPrefix, missing. moves. Qed.
(** A check leaves everything, or touches the key whose secret it was given. *)
Lemma check_touches d now apiKey serviceID model cost w :
  let w' := (Service_Check cipher d now apiKey serviceID model cost w).2 in
  w_db w' = w_db w ∨ ∃ k row, authentic (w_db w) (trim_space apiKey) k row ∧ touches k (w_db w) (w_db w').
Proof.
  cbv zeta. unfold Service_Check. cbv zeta. destruct (authenticate (trim_space apiKey) now w) as [[who|e] u] eqn:Ea.
  2:{ left. unfold mbind, M_bind. rewrite Ea. pose proof (authenticate_reads (trim_space apiKey) now w) as [_ H]. by rewrite Ea in H. }
  rewrite (bind_run _ _ w who u) by done. apply authenticate_run in Ea as [Eu Hwho]. destruct who as [record|answer]; [|by left].
  destruct Hwho as (k & row & Hauth & ->). right. exists k, row. split; [done|]. rewrite <- Eu.
  match goal with |- touches k _ (w_db (?c u).2) => assert (moves (db_rel (touches k)) c) as Hm end.
  { moves; [unfold Resolve, lookupPublishedModel; db_moves|apply touches_consume|apply touches_archived]. }
  apply Hm.
Qed.
End Check.

(** ** The calls *)
Section Servers.
Context `{U : UuidLib} {UL : UuidLaws} `{I : UuidInput} `{G : Argon2}.
Inductive AccessCall :=
  | CreateKey (req : option CreateKeyRequest) | ListKeys (req : option ListKeysRequest) | GetKey (id : string)
  | RevokeKey (id request : string) | RotateKey (id idem request : string)
  | CreatePolicy (req : option (option PolicyProto * string)) | GetPolicy (id : string) | ListPolicies (req : option (Z * Z))
  | UpdatePolicyCall (req : option (option PolicyProto * string)) | DeletePolicyCall (id request : string) | BindPolicyCall (key policy request : string)
  | CheckAccess (req : AccessRequest).
Definition method_name (c : AccessCall) : string :=
  "/inference.v1.InferenceAccessKeyService/" +:+ match c with
  | CreateKey _ => "CreateInferenceAccessKey" | ListKeys _ => "ListInferenceAccessKeys" | GetKey _ => "GetInferenceAccessKey"
  | RevokeKey _ _ => "RevokeInferenceAccessKey" | RotateKey _ _ _ => "RotateInferenceAccessKey"
  | CreatePolicy _ => "CreateInferenceAccessPolicy" | GetPolicy _ => "GetInferenceAccessPolicy" | ListPolicies _ => "ListInferenceAccessPolicies"
  | UpdatePolicyCall _ => "UpdateInferenceAccessPolicy" | DeletePolicyCall _ _ => "DeleteInferenceAccessPolicy"
  | BindPolicyCall _ _ _ => "BindInferenceAccessKeyPolicy" | CheckAccess _ => "CheckInferenceAccess"
  end.
Definition serve (s : option AccessServer) (c : AccessCall) (ctx : Caller) : M World unit :=
  match c with
  | CreateKey r => _ ← CreateInferenceAccessKey s ctx r; mret tt
  | ListKeys r => _ ← ListInferenceAccessKeys s ctx r; mret tt
  | GetKey i => _ ← GetInferenceAccessKey s ctx i; mret tt
  | RevokeKey i r => _ ← RevokeInferenceAccessKey s ctx i r; mret tt
  | RotateKey i k r => _ ← RotateInferenceAccessKey s ctx i k r; mret tt
  | CreatePolicy r => _ ← CreateInferenceAccessPolicy s ctx r; mret tt
  | GetPolicy i => _ ← GetInferenceAccessPolicy s ctx i; mret tt
  | ListPolicies r => _ ← ListInferenceAccessPolicies s ctx r; mret tt
  | UpdatePolicyCall r => _ ← UpdateInferenceAccessPolicy s ctx r; mret tt
  | DeletePolicyCall i r => DeleteInferenceAccessPolicy s ctx i r
  | BindPolicyCall k p r => _ ← BindInferenceAccessKeyPolicy s ctx k p r; mret tt
  | CheckAccess r => _ ← CheckInferenceAccess s r; mret tt
  end.
(** A call as the transport delivers it. *)
Definition access_call (s : option AccessServer) (c : AccessCall) (ctx : Incoming) : M World unit :=
  wired_unary (fun ctx => serve s c (ic_caller ctx)) RqOther (ctx <| ic_operation := Some (method_name c) |>).

Definition names (tenant : string) (u : uuid) : Prop :=
  ∃ t, (t = tenant ∨ t = trim_space tenant) ∧ (uuid_parse t = Some u ∨ uuid_in t = Some u).
Lemma own_named tenant : own (names tenant) tenant ∧ own (names tenant) (trim_space tenant).
Proof. split; intros u Hu; [exists tenant|exists (trim_space tenant)]; auto. Qed.
Lemma required_tenant ctx tenant t : caller_tenant ctx = Some tenant -> requireAccessKeyTenant ctx = Ok t -> t = tenant.
Proof. unfold requireAccessKeyTenant, Server.Server.TenantID. intros ->. case_bool_decide; [done|]. destruct (blank tenant); [done|]. by intros [= ->]. Qed.
Lemma policy_tenant p t b q : policyFromProto p t b = Ok q -> P_TenantID q = t.
Proof.
  unfold policyFromProto. destruct p as [p|]; [|done]. destruct (_ || _); [done|]. unfold Policy_Normalize. intros H. case_match eqn:E; [|done]. injection H as ->.
  minv E. case_match; [|done]. by injection E as <-.
Qed.
Ltac caller_tenant Hc :=
  repeat first
    [ match goal with
      | |- moves _ (with_request ?r _) => unfold with_request; destruct r
      | |- moves _ (with_service ?s _) => unfold with_service; destruct s
      | |- moves _ (with_policy ?r _) => unfold with_policy; destruct r as [[? ?]|]; cbv beta iota zeta
      | |- moves _ (required _ _ ≫= _) => unfold required at 1
      | |- moves _ (check _ _ ≫= _) => apply moves_bind; [apply _|eauto with moves typeclass_instances|intros _]
      | |- moves _ (lift (requireAccessKeyTenant _) ≫= _) =>
          apply moves_lift_value; [apply _|]; intros ? ->%(required_tenant _ _ _ Hc)
      end ].
Section Caller.
Context (ctx : Caller) (tenant : string) (Hc : caller_tenant ctx = Some tenant) (s : option AccessServer).
#[local] Abbreviation kept := (moves (db_rel (others (names tenant)))).
Lemma named_policies {A} (k : string -> M World A) : kept (k tenant) -> kept (tenant ← policyRepository s ctx; k tenant).
Proof.
  intros Hk. apply moves_bind_value; [apply _|unfold policyRepository; moves|]. intros w t w' H. unfold policyRepository in H. minv H.
  injection Hm as Hm <-. apply (required_tenant _ _ _ Hc) in Hm as ->. destruct s; [|done]. minv H. by injection H as <- _.
Qed.
Ltac serve := repeat first [progress (caller_tenant Hc) | apply named_policies].

Lemma create_key_own r : kept (CreateInferenceAccessKey s ctx r).
Proof. destruct (own_named tenant) as [Ho1 Ho2]. unfold CreateInferenceAccessKey. serve; db_moves. Qed.
Lemma list_keys_own r : kept (ListInferenceAccessKeys s ctx r).
Proof. unfold ListInferenceAccessKeys. serve; db_moves. Qed.
Lemma get_key_own i : kept (GetInferenceAccessKey s ctx i).
Proof. unfold GetInferenceAccessKey. serve; db_moves. Qed.
Lemma revoke_key_own i r : kept (RevokeInferenceAccessKey s ctx i r).
Proof. destruct (own_named tenant) as [Ho1 Ho2]. unfold RevokeInferenceAccessKey. serve; db_moves. Qed.
Lemma rotate_key_own i k r : kept (RotateInferenceAccessKey s ctx i k r).
Proof. destruct (own_named tenant) as [Ho1 Ho2]. unfold RotateInferenceAccessKey. serve; db_moves. Qed.
(** The policy of a request belongs to the caller's tenant. *)
Lemma from_proto_own {A} p b (k : Policy -> M World A) : (∀ q, own (names tenant) (P_TenantID q) -> kept (k q)) -> kept (q ← lift (policyFromProto p tenant b); k q).
Proof. intros Hk. apply moves_lift_value; [apply _|]. intros q Hq%policy_tenant. apply Hk. rewrite Hq. apply own_named. Qed.
Ltac policy := serve; try (apply moves_bind; [apply _|eauto with moves typeclass_instances|intros actor]); try (apply from_proto_own; intros q Hq); db_moves.
Lemma create_policy_own r : kept (CreateInferenceAccessPolicy s ctx r).
Proof. unfold CreateInferenceAccessPolicy. policy. Qed.
Lemma get_policy_own i : kept (GetInferenceAccessPolicy s ctx i).
Proof. unfold GetInferenceAccessPolicy. policy. Qed.
Lemma list_policies_own r : kept (ListInferenceAccessPolicies s ctx r).
Proof. unfold ListInferenceAccessPolicies. policy. Qed.
Lemma update_policy_own r : kept (UpdateInferenceAccessPolicy s ctx r).
Proof. unfold UpdateInferenceAccessPolicy. policy. Qed.
Lemma delete_policy_own i r : kept (DeleteInferenceAccessPolicy s ctx i r).
Proof. destruct (own_named tenant) as [Ho1 Ho2]. unfold DeleteInferenceAccessPolicy. policy. Qed.
Lemma bind_policy_own k p r : kept (BindInferenceAccessKeyPolicy s ctx k p r).
Proof. destruct (own_named tenant) as [Ho1 Ho2]. unfold BindInferenceAccessKeyPolicy. policy. Qed.
#[local] Hint Resolve create_key_own list_keys_own get_key_own revoke_key_own rotate_key_own create_policy_own get_policy_own
  list_policies_own update_policy_own delete_policy_own bind_policy_own : moves.
Lemma serve_own c : (∀ r, c ≠ CheckAccess r) -> kept (serve s c ctx).
Proof. intros Hn. destruct c as [| | | | | | | | | | |r]; cbn [serve]; [moves..|by destruct (Hn r)]. Qed.
End Caller.
Lemma gateway_methods methods c : (gatewayAuthzCallerDNS, methods) ∈ StaticRPCPolicy -> method_name c ∈ methods -> ∃ r, c = CheckAccess r.
Proof.
  intros Hin Hm. assert (methods = [checkInferenceAccessMethod]) as ->.
  { unfold StaticRPCPolicy in Hin. rewrite !elem_of_cons in Hin. destruct Hin as [[= ]|[[= ]|[[= ->]|?%elem_of_nil]]]; done. }
  apply list_elem_of_singleton in Hm. destruct c; try done. by eexists.
Qed.
Lemma serve_check s r caller w : let w' := (serve s (CheckAccess r) caller w).2 in
  w_db w' = w_db w ∨ ∃ k row, authentic (w_db w) (trim_space (ar_key r)) k row ∧ touches k (w_db w) (w_db w').
Proof.
  cbv zeta. cbn [serve]. unfold CheckInferenceAccess, required, check, with_service, status_of, try, lift, throw, mbind, M_bind.
  destruct (negb (blank (ar_key r))); cbn; [|by left]. destruct s as [server|]; [|by left].
  pose proof (check_touches (sv_cipher server) (sv_draws server) (sv_now server) (ar_key r) (ar_service r) (ar_model r) (ar_cost r) w) as Hc.
  cbv zeta in Hc. destruct (Service_Check _ _ _ _ _ _ _ w) as [[answer|e] u]; exact Hc.
Qed.
(** Claim C21. Tenants are isolated.  Whatever access-key or policy call arrives,
    from whichever connection, with whatever metadata and arguments, and whether it
    succeeds, fails or loses its answer: the keys, the policies and the audit events
    of a tenant that the trusted metadata of the call does not name are exactly what
    they were.  The one exception is the access check, which only the gateway may
    make and which names no tenant: of the one key whose own secret it was given (its
    prefix and its hash match) it may set the time of the last use, and archive the
    secret when none was archived; no other field of that key, no other key and no
    policy or audit event changes. *)
Theorem tenants_are_isolated s c ctx w (k : uuid * uuid) :
  (∀ tenant, trustedTenantMetadata ctx = Ok tenant -> ¬ names tenant k.1) ->
  let db := w_db w in let db' := w_db (access_call s c ctx w).2 in
  policies db' !! k = policies db !! k ∧ key_audits db' !! k = key_audits db !! k ∧ policy_audits db' !! k = policy_audits db !! k ∧
  (access_keys db' !! k = access_keys db !! k ∨
   ∃ r row row', c = CheckAccess r ∧ proven_identity ctx gatewayAuthzCallerDNS ∧ authentic db (trim_space (ar_key r)) k row ∧
     access_keys db' !! k = Some row' ∧ used_row row row').
Proof.
  intros Hn. cbv zeta. unfold access_call.
  match goal with |- context [wired_unary ?h ?q ?x w] => destruct (unary_cases h q x w) as [[e ->]|(identity & method & ctx' & [= <-] & Ha & ->)] end.
  { split_and!; [done..|by left]. }
  destruct Ha as [Hid (methods & Hin & Hm) Hscope].
  assert ((∃ r, c = CheckAccess r ∧ identity = gatewayAuthzCallerDNS) ∨ (∀ r, c ≠ CheckAccess r)) as [(r & -> & ->)|Hnot].
  { destruct c as [| | | | | | | | | | |r]; [right; done..|left]. exists r. split; [done|]. by eapply access_callers. }
  - pose proof (serve_check s r (ic_caller ctx') w) as Hc. cbv zeta beta in Hc |- *. revert Hc. generalize (w_db (serve s (CheckAccess r) (ic_caller ctx') w).2).
    intros db' [->|(k0 & row & Hauth & [H1 H2 [= H3 H4 H5]])]; [split_and!; [done..|by left]|].
    rewrite H3, H4, H5. split_and!; [done..|]. destruct (decide (k = k0)) as [->|Hne]; [|left; by apply H1].
    right. rewrite (au_row _ _ _ _ Hauth) in H2. inversion H2 as [? row' Hu Er Ek|]; subst.
    exists r, row, row'. split_and!; [done|by destruct Hid; split|done..].
  - destruct Hscope as [(-> & _)|(_ & tenant & caller & -> & Hs)]; [destruct (gateway_methods _ _ Hin Hm) as [r ->]; by destruct (Hnot r)|].
    destruct (serve_own caller tenant (sc_tenant _ _ _ _ _ Hs) s c Hnot w) as [_ [H]].
    destruct (H k) as (? & ? & ? & ?); [apply Hn, (sc_metadata _ _ _ _ _ Hs)|]. split_and!; [done..|by left].
Qed.
End Servers.

Module Example.
Import BinaryUuid Credential.Credential.Example.
#[local] Instance input : UuidInput := BinaryUuid.parse.
#[local] Existing Instance toy_argon2.
Definition server : AccessServer := mkAccessServer (Some toy_aead) true draws 1000.
Definition governance : Certificate := mkCertificate [governanceCallerDNS] 0 0 0.
Definition connection (tenant : uuid) : Incoming := mkIncoming None (Some (Some (mkTLSState VersionTLS13 [governance] [[governance]])))
  (Some {["x-ani-tenant-id" := [uuid_string tenant]; "x-ani-actor" := ["governance:me"]]}) None None (mkCaller None None false).
(** The key of tenant 1 is revoked by tenant 1, and untouched by the same call for tenant 2. *)
Definition revoke : AccessCall := RevokeKey (uuid_string 6%N) "r".
Definition revoked (tenant : uuid) := access_call (Some server) revoke (connection tenant) created.2.
Lemma revokes : (revoked 1%N).1 = Ok tt ∧ access_keys (w_db created.2) !! (1%N, 6%N) ≠ None ∧
  access_keys (w_db (revoked 1%N).2) !! (1%N, 6%N) ≠ access_keys (w_db created.2) !! (1%N, 6%N).
Proof. vm_compute. done. Qed.
(** The gateway's check marks the presented key of tenant 1, without naming it. *)
Definition check_call : AccessCall := CheckAccess (mkAccessRequest secret "" "m" 1 "r").
Definition checked := access_call (Some server) check_call Perimeter.Perimeter.Example.connection created.2.
Lemma checks : checked.1 = Ok tt ∧ access_keys (w_db checked.2) !! (1%N, 6%N) ≠ access_keys (w_db created.2) !! (1%N, 6%N).
Proof. vm_compute. done. Qed.
Lemma tenants_are_isolated_witness : (revoked 1%N).1 = Ok tt ∧
  access_keys (w_db (revoked 2%N).2) !! (1%N, 6%N) = access_keys (w_db created.2) !! (1%N, 6%N) ∧
  ∃ row row', access_keys (w_db checked.2) !! (1%N, 6%N) = Some row' ∧ used_row row row'.
Proof.
  split; [apply revokes|]. split.
  - destruct (tenants_are_isolated (Some server) revoke (connection 2%N) created.2 (1%N, 6%N)) as (_ & _ & _ & [H|(r & _ & _ & H & _)]);
      [|exact H|discriminate H].
    intros tenant Ht. vm_compute in Ht. injection Ht as <-. intros (t & [->| ->] & [H|H]); vm_compute in H; discriminate.
  - destruct (tenants_are_isolated (Some server) check_call Perimeter.Perimeter.Example.connection created.2 (1%N, 6%N))
      as (_ & _ & _ & [H|(r & row & row' & _ & _ & _ & H1 & H2)]).
    + intros tenant Ht. vm_compute in Ht. discriminate Ht.
    + destruct (proj2 checks H).
    + exists row, row'. split; [exact H1|exact H2].
Defined.
End Example.
End Tenancy.
