(* ===== verification/Read.v ===== *)
(** * Reads

    internal/data/postgres/read_usecase.go over its statements in inference.sql.go and
    the view inference_operation_projection (migrations/000021): the projections of a
    service and of an operation, cursor pages with their signed tokens, and numbered
    pages with their totals.  SHA-256, HMAC, the JSON text of a cursor, RFC 3339 times
    and the documents of a specification are parameters. *)

From S2P Require Import Prelude GoStrings Base64 Engine Gpu Resources Schema WorkStore ReconcileStore OperationStore Contract Managed Server AccessKey Credential.
From Stdlib Require Import Ascii.
Local Open Scope Z_scope.

Module Read.
Import Contract.Contract Schema WorkStore ReconcileStore OperationStore Managed.Managed Server.Server Base64.Base64.
#[local] Abbreviation to_column := AccessKey.AccessKey.to_column.
#[local] Abbreviation of_column := AccessKey.AccessKey.of_column.

(** ** Cursors *)
Record listCursor := mkCursor { lc_tenant : string; lc_created : string; lc_id : string }.
(** What the cursor needs of the Go library: [sha256.Sum256], [hmac], [encoding/json]
    on a cursor, and [time] with the layout RFC3339Nano, in nanoseconds. *)
Class CursorLib := {
  sha256_sum : string -> string;
  hmac_sum : string -> string -> string;
  cursor_json : listCursor -> string;
  cursor_of_json : string -> option listCursor;
  format_time : Z -> string;
  parse_time : string -> option Z }.
(** Times up to the year 9999 print and parse; a cursor of a parsed tenant, a printed
    time and a printed id is ASCII and survives JSON; a digest is not empty. *)
Definition year_10000 : Z := 253402300800000000000.
Class CursorLaws `{U : UuidLib} `{L : CursorLib} := {
  time_trip ns : 0 <= ns < year_10000 -> parse_time (format_time ns) = Some ns;
  json_trip tenant u ns id : uuid_parse tenant = Some u -> 0 <= ns < year_10000 ->
    let c := mkCursor tenant (format_time ns) (uuid_string id) in cursor_of_json (cursor_json c) = Some c;
  hmac_nonempty key message : hmac_sum key message ≠ "" }.

Definition ErrInvalidPageToken : goerr := ENew "inference.ErrInvalidPageToken" "invalid page token".
Definition defaultListPageSize : Z := 50.
Definition maxListPageSize : Z := 100.
Definition dot : ascii := ascii_of_nat 46.

Section Tokens.
Context `{U : UuidLib} `{L : CursorLib}.
Definition listTokenKey (tenantID : string) : string := sha256_sum ("ani-inference-list-token-v1:" +:+ tenantID).
Definition encodeListToken (c : listCursor) : string :=
  let payload := cursor_json c in
  EncodeToString UrlAlphabet payload +:+ String dot (EncodeToString UrlAlphabet (hmac_sum (listTokenKey (lc_tenant c)) payload)).
(** The loop over the dots: exactly one, with something after it. *)
Definition decodeListToken (token tenantID : string) : result listCursor :=
  match Credential.Credential.split dot token with
  | [first; second] =>
      _ ← checkr (negb (bool_decide (second = ""))) ErrInvalidPageToken;
      match DecodeString UrlAlphabet first, DecodeString UrlAlphabet second with
      | Some payload, Some sig =>
          _ ← checkr (bool_decide (sig = hmac_sum (listTokenKey tenantID) payload)) ErrInvalidPageToken;
          match cursor_of_json payload with
          | None => Err ErrInvalidPageToken
          | Some c =>
              _ ← checkr (bool_decide (lc_tenant c = tenantID)) ErrInvalidPageToken;
              _ ← checkr (bool_decide (is_Some (uuid_parse (lc_id c)))) ErrInvalidPageToken;
              _ ← checkr (bool_decide (is_Some (parse_time (lc_created c)))) ErrInvalidPageToken;
              Ok c
          end
      | _, _ => Err ErrInvalidPageToken
      end
  | _ => Err ErrInvalidPageToken
  end.
Definition page_size (size : Z) : result Z :=
  let size := if size <=? 0 then defaultListPageSize else size in
  if maxListPageSize <? size then Err (errorf ("page_size must be between 1 and " +:+ format_int maxListPageSize)) else Ok size.
(** Where the page starts: the creation time, as the column holds it, and the id. *)
Definition page_cursor (tenantID token : string) : result (option (Z * uuid)) :=
  if bool_decide (token = "") then Ok None else
  c ← decodeListToken token tenantID;
  match parse_time (lc_created c), uuid_parse (lc_id c) with
  | Some ns, Some id => Ok (Some (to_column ns, id))
  | _, _ => Err ErrInvalidPageToken
  end.
(** The token after a row created at [created], in microseconds. *)
Definition next_token (tenantID : string) (created : Z) (id : uuid) : string :=
  encodeListToken (mkCursor tenantID (format_time (of_column created)) (uuid_string id)).
End Tokens.

(** ** Statements *)
(** [ORDER BY created_at DESC, id DESC], and [(created_at, id) < cursor]. *)
Definition newest_first {A} (created : A -> Z) (id : A -> uuid) : list A -> list A :=
  order_by (fun x => [- created x; - Z.of_N (id x)]).
Definition older (cursor : option (Z * uuid)) (created : Z) (id : uuid) : bool :=
  match cursor with None => true | Some (c, i) => (created <? c) || ((created =? c) && (id <? i)%N) end.

(** The columns of ListServicesRow and ListServicesPageRow that are read. *)
Record ListServicesRow := mkListRow {
  ls_id : uuid; ls_name : string; ls_desired_state : string; ls_desired_generation : Z; ls_applied_generation : Z; ls_created_at : Z;
  ls_model_version_id : option uuid; ls_artifact_provider : string; ls_artifact_ref : string; ls_artifact_sha256 : string;
  ls_image_ref : string; ls_served_model_name : string; ls_engine_runtime : string; ls_command_argv : Engine.json;
  ls_spec_json : gmap string string; ls_resources : jsonb Resources.Spec; ls_replicas : Z; ls_runtime_mode : string; ls_worker_replicas : Z;
  ls_runtime_provider : string; ls_endpoint : option (Z * Z * string * string); ls_gpu_request : option (jsonb Gpu.Request);
  ls_runtime_phase : string; ls_publication_phase : string; ls_invocation_health : string; ls_observed_at : option Z }.
(** The lateral join with the specifications: that of the desired generation, or the
    last one before it when the service is deleted. *)
Definition list_spec (db : DB) (k : key) (s : ServiceRow) : option SpecBody :=
  snd <$> head (order_by (fun gs : Z * SpecBody => [- gs.1])
    (omap (fun ks : (uuid * uuid * Z) * SpecRow =>
       let '((t, i, g), sp) := ks in
       if bool_decide ((t, i) = k) &&
          ((g =? s_desired_generation s) || bool_decide (s_desired_state s = "deleted") && (g <? s_desired_generation s))
       then Some (g, sp_body sp) else None) (map_to_list (specs db)))).
Definition list_row (db : DB) (ks : key * ServiceRow) : ListServicesRow :=
  let '(k, s) := ks in
  let sp := list_spec db k s in
  let rt := runtimes db !! k in
  mkListRow k.2 (s_name s) (s_desired_state s) (s_desired_generation s) (s_applied_generation s) (s_created_at s)
    (sp_model_version_id <$> sp) (from_option sp_artifact_provider "" sp) (from_option sp_artifact_ref "" sp)
    (from_option sp_artifact_sha256 "" sp) (from_option sp_image_ref "" sp) (from_option sp_served_model_name "" sp)
    (from_option sp_engine_runtime "" sp) (from_option sp_command_argv (Engine.JArray []) sp) (from_option sp_spec_json ∅ sp)
    (from_option sp_resources (JVal (Resources.mkSpec ∅ ∅ None)) sp) (from_option sp_replicas 0 sp)
    (from_option sp_runtime_mode "deployment" sp) (from_option sp_worker_replicas 1 sp) (from_option sp_runtime_provider "deployment" sp)
    (sp ≫= sp_endpoint) (sp ≫= sp_gpu_request) (from_option r_runtime_phase "pending" rt)
    (match latest_publication db k (s_desired_generation s) with Some (_, p) => p_observed_phase p | None => "withdrawn" end)
    (from_option r_invocation_health "unhealthy" rt) (rt ≫= r_observed_at).
Definition listed_services (db : DB) (tenant : uuid) : list (key * ServiceRow) :=
  filter (fun ks => ks.1.1 = tenant ∧ s_deleted_at ks.2 = None) (map_to_list (services db)).
Definition service_created (ks : key * ServiceRow) : Z := s_created_at ks.2.
Definition service_id (ks : key * ServiceRow) : uuid := ks.1.2.
Definition ListServices_sql (tenant : uuid) (cursor : option (Z * uuid)) (limit : Z) : statement (list ListServicesRow) := Schema.select (fun _ db =>
  list_row db <$> take (Z.to_nat limit) (newest_first service_created service_id
    (filter (fun ks => older cursor (service_created ks) (service_id ks) = true) (listed_services db tenant)))).

Section Filters.
(** [jsonb_array_elements_text] of the stored capabilities, which are an array. *)
Context (capability_texts : string -> list string).
Fixpoint ltrim_spaces (s : string) : string := match s with String " " t => ltrim_spaces t | _ => s end.
(** [trim(text)] of PostgreSQL removes spaces only. *)
Definition pg_trim (s : string) : string := str_rev (ltrim_spaces (str_rev (ltrim_spaces s))).
Definition service_matches (db : DB) (status capability : string) (ks : key * ServiceRow) : bool :=
  let r := list_row db ks in
  (bool_decide (status = "") || bool_decide (ls_desired_state r = "running") && bool_decide (ls_runtime_phase r = "ready")) &&
  (bool_decide (capability = "") ||
   existsb (fun c => bool_decide (to_lower (pg_trim c) = capability)) (from_option capability_texts [] (ls_spec_json r !! "model_capabilities"))).
Definition matching_services (db : DB) (tenant : uuid) (status capability : string) : list (key * ServiceRow) :=
  filter (fun ks => service_matches db status capability ks = true) (listed_services db tenant).
Definition CountServices (tenant : uuid) (status capability : string) : statement Z :=
  Schema.select (fun _ db => Z.of_nat (length (matching_services db tenant status capability))).
Definition negative_page {A} : result A := Err (ENew "2201W" "LIMIT or OFFSET must not be negative").
Definition ListServicesPage_sql (tenant : uuid) (status capability : string) (limit offset : Z) : statement (list ListServicesRow) := fun _ db =>
  if (limit <? 0) || (offset <? 0) then negative_page
  else Ok (list_row db <$> take (Z.to_nat limit) (drop (Z.to_nat offset)
         (newest_first service_created service_id (matching_services db tenant status capability))), db).
End Filters.

(** *** The view of the operations *)
Record OperationProjection := mkOperationProjection {
  oj_id : uuid; oj_service : uuid; oj_kind : string; oj_phase : string; oj_step : string; oj_target : Z; oj_error_code : string;
  oj_error_message : string; oj_created_at : Z; oj_completed_at : option Z }.
Definition accepted_operation (db : DB) (ko : key * OperationRow) : key * OperationProjection :=
  let '(k, o) := ko in
  let reported := match managed_commands db !! k with Some c => bool_decide (is_Some (mc_release_report c)) | None => false end in
  (k, mkOperationProjection k.2 (o_service_id o) (o_kind o) (o_phase o)
    (if bool_decide (o_kind o = "delete") && negb (bool_decide (o_phase o ∈ ["succeeded"; "failed"])) && reported
     then "report_resource_released" else o_step o)
    (o_target_generation o) (o_error_code o) (o_error_message o) (o_created_at o) (o_completed_at o)).
(** A managed command without an operation of its own. *)
Definition managed_projection (db : DB) (kc : key * ManagedCommandRow) : option (key * OperationProjection) :=
  let '(k, c) := kc in
  let blocked := bool_decide (mc_execution_intent c = "blocked_by_delete") in
  if (bool_decide (mc_kind c = "delete") || blocked) && bool_decide (operations db !! k = None) then
    Some (k, mkOperationProjection k.2 (mc_resource_id c) (mc_kind c)
      (if blocked then "failed" else if bool_decide (mc_close_state c = "complete") then "succeeded" else "pending")
      (if blocked then "cancelled_by_delete" else if bool_decide (mc_close_state c = "complete") then "complete"
       else if bool_decide (is_Some (mc_release_report c)) then "report_resource_released"
       else if bool_decide (mc_close_state c = "unknown_execution") then "recover_execution"
       else if bool_decide (mc_close_state c = "pending") then "observe_release" else "closing_intent")
      0 (if blocked then "cancelled_by_delete" else "") (mc_close_error c) (mc_created_at c)
      (if blocked then Some (mc_created_at c) else mc_completed_at c))
  else None.
Definition operation_projection (db : DB) : list (key * OperationProjection) :=
  (accepted_operation db <$> map_to_list (operations db)) ++ omap (managed_projection db) (map_to_list (managed_commands db)).
Definition operation_created (ko : key * OperationProjection) : Z := oj_created_at ko.2.
Definition operation_id (ko : key * OperationProjection) : uuid := ko.1.2.
Definition tenant_operations (db : DB) (tenant : uuid) (service : option uuid) : list (key * OperationProjection) :=
  filter (fun ko => ko.1.1 = tenant ∧ (service = None ∨ service = Some (oj_service ko.2))) (operation_projection db).
Definition GetOperationProjection (k : key) : statement OperationProjection := select_one (fun _ db =>
  snd <$> head (filter (fun ko => ko.1 = k) (operation_projection db))).
Definition ListOperations_sql (tenant : uuid) (service : option uuid) (cursor : option (Z * uuid)) (limit : Z) : statement (list OperationProjection) :=
  Schema.select (fun _ db => snd <$> take (Z.to_nat limit) (newest_first operation_created operation_id
    (filter (fun ko => older cursor (operation_created ko) (operation_id ko) = true) (tenant_operations db tenant service)))).
Definition CountOperations (tenant : uuid) (service : option uuid) : statement Z :=
  Schema.select (fun _ db => Z.of_nat (length (tenant_operations db tenant service))).
Definition ListOperationsPage_sql (tenant : uuid) (service : option uuid) (limit offset : Z) : statement (list OperationProjection) := fun _ db =>
  if (limit <? 0) || (offset <? 0) then negative_page
  else Ok (snd <$> take (Z.to_nat limit) (drop (Z.to_nat offset) (newest_first operation_created operation_id (tenant_operations db tenant service))), db).

(** ** Projections *)
Record SpecProto := mkSpecProto {
  py_model_version_id : string; py_served_model_name : string; py_artifact : string * string * string; py_engine_type : string;
  py_engine_image : string; py_engine_command : string; py_image_id : string; py_image_scope : string; py_replicas : Z; py_mode : RuntimeMode;
  py_worker_replicas : Z; py_provider : string; py_endpoint : option Schema.EndpointSpec; py_requests : gmap string string;
  py_limits : gmap string string; py_gpu : option GpuRequest }.
(** [inferencev1.InferenceService]; [py_spec] is [None] when the specification part is
    left unset. *)
Record ServiceProto := mkServiceProto {
  py_id : string; py_name : string; py_desired_state : string; py_generation : Z; py_applied_generation : Z; py_spec : option SpecProto;
  py_runtime_phase : string; py_publication_phase : string; py_invocation_health : string; py_observed_at : option Z }.
Definition endpointProto (e : option (Z * Z * string * string)) : option Schema.EndpointSpec :=
  (fun e => let '(container, service, target, protocol) := e in Schema.mkEndpointSpec container service target protocol) <$> e.
Definition decodeGPURequest (payload : option (jsonb Gpu.Request)) : result (option GpuRequest) :=
  match payload with
  | None => Ok None
  | Some JBad => Err (errorf_before "decode gpu request" (errorf "cannot decode"))
  | Some (JVal request) => Ok (gpuProto (Some request))
  end.
Section Projections.
(** The selection stored under [image_selection]; null is [None]. *)
Context (parse_selection : string -> result (option ImageSelection)).
Definition image_of (spec_json : gmap string string) : result (string * string) :=
  match spec_json !! "image_selection" with
  | None => Ok ("", "")
  | Some raw => selection ← parse_selection raw; Ok (match selection with Some s => (IS_ImageID s, IS_Scope s) | None => ("", "") end)
  end.
(** [applySpecProjection], [applyImageSelectionProjection], the resources and the GPU
    request, in the order of their errors. *)
Definition spec_proto (version provider ref sha image model engine : string) (command : Engine.json) (spec_json : gmap string string)
    (resources : jsonb Resources.Spec) (replicas : Z) (mode : string) (workers : Z) (runtime : string)
    (endpoint : option (Z * Z * string * string)) (gpu : option (jsonb Gpu.Request)) : result SpecProto :=
  command ← Engine.unmarshalEngineSpec (Engine.Doc command);
  '(image_id, scope) ← image_of spec_json;
  resource ← (match resources with JVal r => Ok r | JBad => Err (errorf "cannot decode resources") end);
  request ← decodeGPURequest gpu;
  Ok (mkSpecProto version model (provider, ref, sha) engine image command image_id scope replicas (runtimeModeEnum mode) workers
        (runtimeProviderEnum runtime) (endpointProto endpoint) (Resources.Requests resource) (Resources.Limits resource) request).
Context `{U : UuidLib}.
Definition serviceFromListRow (r : ListServicesRow) : result ServiceProto :=
  let runtime := normalizeRuntimePhase (ls_runtime_phase r) in
  let publication := normalizePublicationPhase (ls_publication_phase r) in
  spec ← spec_proto (from_option uuid_string "" (ls_model_version_id r)) (ls_artifact_provider r) (ls_artifact_ref r) (ls_artifact_sha256 r)
    (ls_image_ref r) (ls_served_model_name r) (ls_engine_runtime r) (ls_command_argv r) (ls_spec_json r) (ls_resources r) (ls_replicas r)
    (ls_runtime_mode r) (ls_worker_replicas r) (ls_runtime_provider r) (ls_endpoint r) (ls_gpu_request r);
  Ok (mkServiceProto (uuid_string (ls_id r)) (ls_name r) (ls_desired_state r) (ls_desired_generation r) (ls_applied_generation r) (Some spec)
        runtime publication (normalizeInvocationHealth runtime publication (ls_invocation_health r)) (ls_observed_at r)).
Record OperationProto := mkOperationProto {
  py_op_id : string; py_op_service : string; py_op_kind : string; py_op_phase : string; py_op_step : string; py_op_target : Z;
  py_op_error_code : string; py_op_error_message : string; py_op_created : Z; py_op_completed : option Z }.
Definition operationProjectionProto (r : OperationProjection) : OperationProto :=
  mkOperationProto (uuid_string (oj_id r)) (uuid_string (oj_service r)) (oj_kind r) (oj_phase r) (oj_step r) (oj_target r) (oj_error_code r)
    (oj_error_message r) (oj_created_at r) (oj_completed_at r).
(** The rows of a page in order; the first that does not project fails the call. *)
Fixpoint project_rows (rows : list ListServicesRow) : result (list ServiceProto) :=
  match rows with
  | [] => Ok []
  | r :: rest => item ← serviceFromListRow r; items ← project_rows rest; Ok (item :: items)
  end.

(** ** The use case *)
(** A nil receiver or pool is [None]; [ru_begin] says whether the pool can begin a
    transaction. *)
Record ReadStore := mkReadStore { ru_begin : bool }.
Context `{L : CursorLib} (capability_texts : string -> list string).
Definition configured {A} (u : option ReadStore) (k : ReadStore -> M World A) : M World A :=
  match u with None => throw (errorf "nil postgres read use case") | Some u => k u end.
Definition spec_of_row (b : SpecBody) : result SpecProto :=
  spec_proto (uuid_string (sp_model_version_id b)) (sp_artifact_provider b) (sp_artifact_ref b) (sp_artifact_sha256 b) (sp_image_ref b)
    (sp_served_model_name b) (sp_engine_runtime b) (sp_command_argv b) (sp_spec_json b) (sp_resources b) (sp_replicas b) (sp_runtime_mode b)
    (sp_worker_replicas b) (sp_runtime_provider b) (sp_endpoint b) (sp_gpu_request b).
Definition ReadUseCase_GetService (u : option ReadStore) (tenantID serviceID : string) : M World ServiceProto :=
  tenant ← lift (tenantUUID tenantID);
  service ← lift (workUUID "service_id" serviceID);
  configured u (fun _ =>
  '(_, row) ← exec (ReconcileStore.GetService (tenant, service));
  found ← optional (Sql.GetSpec (tenant, service) (s_desired_generation row));
  spec ← lift (match found with Some (_, sp) => spec ← spec_of_row (sp_body sp); Ok (Some spec) | None => Ok None end);
  rt ← optional (GetRuntime (tenant, service));
  let result := mkServiceProto (uuid_string service) (s_name row) (s_desired_state row) (s_desired_generation row) (s_applied_generation row) spec in
  mret (match rt with
        | None => result "" "" "" None
        | Some rt =>
            let runtime := normalizeRuntimePhase (r_runtime_phase rt) in
            let publication := normalizePublicationPhase (r_publication_phase rt) in
            result runtime publication (normalizeInvocationHealth runtime publication (r_invocation_health rt)) (r_observed_at rt)
        end)).
(** Rows beyond the page only say that there is more. *)
Definition cut_rows {A} (size : Z) (rows : list A) : list A * bool :=
  if size <? Z.of_nat (length rows) then (take (Z.to_nat size) rows, true) else (rows, false).
Definition token_after {A} (tenantID : string) (created : A -> Z) (id : A -> uuid) (rows : list A) (more : bool) : string :=
  match more, last rows with true, Some r => next_token tenantID (created r) (id r) | _, _ => "" end.
Definition ListServices (u : option ReadStore) (tenantID : string) (pageSize : Z) (pageToken : string) : M World (list ServiceProto * string) :=
  tenant ← lift (tenantUUID tenantID);
  configured u (fun _ =>
  size ← lift (page_size pageSize);
  cursor ← lift (page_cursor tenantID pageToken);
  rows ← exec (ListServices_sql tenant cursor (int32 (size + 1)));
  let '(rows, more) := cut_rows size rows in
  items ← lift (project_rows rows);
  mret (items, token_after tenantID ls_created_at ls_id rows more)).
Definition ReadUseCase_GetOperation (u : option ReadStore) (tenantID operationID : string) : M World OperationProto :=
  tenant ← lift (tenantUUID tenantID);
  op ← lift (workUUID "operation_id" operationID);
  configured u (fun _ =>
  row ← exec (GetOperationProjection (tenant, op));
  mret (operationProjectionProto row)).
Definition service_filter (serviceID : string) : result (option uuid) :=
  if bool_decide (serviceID = "") then Ok None else id ← workUUID "resource_id" serviceID; Ok (Some id).
Definition ReadUseCase_ListOperations (u : option ReadStore) (tenantID serviceID : string) (pageSize : Z) (pageToken : string) : M World (list OperationProto * string) :=
  tenant ← lift (tenantUUID tenantID);
  configured u (fun _ =>
  size ← lift (page_size pageSize);
  service ← lift (service_filter serviceID);
  cursor ← lift (page_cursor tenantID pageToken);
  rows ← exec (ListOperations_sql tenant service cursor (int32 (size + 1)));
  let '(rows, more) := cut_rows size rows in
  mret (operationProjectionProto <$> rows, token_after tenantID oj_created_at oj_id rows more)).
Definition readTx {A} (u : ReadStore) (body : M World (ending A)) : M World A :=
  _ ← check (ru_begin u) (errorf "postgres read use case requires transaction-capable pool");
  transaction body.
Definition bad_options (o : ListOptions) : bool :=
  (lo_limit o <? 1) || (maxListPageSize <? lo_limit o) || (lo_offset o <? 0) || (2 ^ 31 - 1 <? lo_offset o).
Definition ListServicesPage (u : option ReadStore) (tenantID : string) (o : ListOptions) : M World (list ServiceProto * Z) :=
  tenant ← lift (tenantUUID tenantID);
  configured u (fun u =>
  _ ← check (negb (bad_options o)) (errorf "invalid list options");
  readTx u (
    total ← exec (CountServices capability_texts tenant (lo_status o) (lo_capability o));
    rows ← exec (ListServicesPage_sql capability_texts tenant (lo_status o) (lo_capability o) (lo_limit o) (int32 (lo_offset o)));
    items ← lift (project_rows rows);
    mret (Schema.Commit (items, total)))).
Definition ListOperationsPage (u : option ReadStore) (tenantID serviceID : string) (o : ListOptions) : M World (list OperationProto * Z) :=
  tenant ← lift (tenantUUID tenantID);
  configured u (fun u =>
  _ ← check (negb (bad_options o)) (errorf "invalid list options");
  service ← lift (service_filter serviceID);
  readTx u (
    total ← exec (CountOperations tenant service);
    rows ← exec (ListOperationsPage_sql tenant service (lo_limit o) (int32 (lo_offset o)));
    mret (Schema.Commit (operationProjectionProto <$> rows, total)))).
(** What the server is given. *)
Definition read_port (u : option ReadStore) : ReadUseCase :=
  mkReadUseCase (ReadUseCase_GetService u) (ListServicesPage u) (ReadUseCase_GetOperation u) (ListOperationsPage u).
End Projections.

(** ** Tokens come back *)
Lemma encode_no_dot src : has_char 46 (EncodeToString UrlAlphabet src) = false.
Proof.
  unfold EncodeToString. pose proof (group_sextets _ (bytes_octets src)) as Hs.
  induction Hs as [|s ss H _ IH]; [done|]. cbn. rewrite IH, orb_false_r. apply Z.eqb_neq.
  rewrite (enc_byte UrlAlphabet s H). unfold sextet in H. repeat case_match; lia.
Qed.
Lemma encode_nonempty src : src ≠ "" -> EncodeToString UrlAlphabet src ≠ "".
Proof. intros H E. pose proof (decode_encode UrlAlphabet src) as D. rewrite E in D. by injection D as <-. Qed.
Section TokenLaws.
Context `{U : UuidLib} {UL : UuidLaws} `{L : CursorLib} {CL : CursorLaws}.
Lemma column_time created : to_column (of_column created) = created.
Proof. unfold AccessKey.AccessKey.to_column, AccessKey.AccessKey.of_column. rewrite Z.div_mul; lia. Qed.
Lemma token_trip tenantID tenant created id : uuid_parse tenantID = Some tenant -> 0 <= of_column created < year_10000 ->
  page_cursor tenantID (next_token tenantID created id) = Ok (Some (created, id)).
Proof.
  intros Ht Hc. unfold page_cursor, next_token, encodeListToken. set (c := mkCursor _ _ _). rewrite bool_decide_eq_false_2.
  2: { destruct (EncodeToString UrlAlphabet (cursor_json c)); done. }
  unfold decodeListToken. change (lc_tenant c) with tenantID. rewrite Credential.Credential.split_at by apply encode_no_dot.
  rewrite Credential.Credential.split_none by apply encode_no_dot.
  rewrite bool_decide_eq_false_2 by (apply encode_nonempty, hmac_nonempty). rewrite !decode_encode. cbn.
  rewrite bool_decide_eq_true_2 by done. cbn. unfold c. rewrite (json_trip tenantID tenant (of_column created) id Ht Hc). cbn.
  rewrite (time_trip _ Hc), uuid_parse_string. rewrite !bool_decide_eq_true_2 by eauto. cbn. by rewrite (time_trip _ Hc), uuid_parse_string, column_time.
Qed.
Lemma token_nonempty tenantID created id : next_token tenantID created id ≠ "".
Proof. unfold next_token, encodeListToken. by destruct (EncodeToString _ _). Qed.
End TokenLaws.

(** ** Pages of an ordered table *)
Lemma lex_le_antisymm a b : length a = length b -> lex_le a b = true -> lex_le b a = true -> a = b.
Proof.
  revert b. induction a as [|x a IH]; intros [|y b] Hl; cbn in *; try done; try lia.
  rewrite !orb_true_iff, !andb_true_iff, !Z.ltb_lt, !Z.eqb_eq. intros [?|[-> ?]] [?|[? ?]]; try lia. f_equal. apply IH; [lia|done..].
Qed.
Lemma sorted_filter {A} (R : relation A) (P : A -> Prop) `{!∀ x, Decision (P x)} l : StronglySorted R l -> StronglySorted R (filter P l).
Proof.
  induction 1 as [|x l Hs IH Hx]; [constructor|]. rewrite filter_cons. destruct (decide (P x)); [|done]. constructor; [done|].
  rewrite Forall_forall in Hx |- *. intros y [_ Hy]%list_elem_of_filter. auto.
Qed.
Lemma filter_none {A} (P : A -> Prop) `{!∀ x, Decision (P x)} (l : list A) : (∀ x, x ∈ l -> ¬ P x) -> filter P l = [].
Proof. induction l as [|x l IH]; intros Hall; [done|]. rewrite filter_cons, decide_False by (apply Hall; left). apply IH. intros y Hy. apply Hall. by right. Qed.
Lemma filter_whole {A} (P : A -> Prop) `{!∀ x, Decision (P x)} (l : list A) : (∀ x, x ∈ l -> P x) -> filter P l = l.
Proof. induction l as [|x l IH]; intros Hall; [done|]. rewrite filter_cons, decide_True by (apply Hall; left). f_equal. apply IH. intros y Hy. apply Hall. by right. Qed.
Lemma sorted_app {A} (R : relation A) l1 l2 : StronglySorted R (l1 ++ l2) -> StronglySorted R l2 ∧ ∀ x y, x ∈ l1 -> y ∈ l2 -> R x y.
Proof.
  induction l1 as [|x l1 IH]; cbn; intros H; [split; [done|]; intros x y ?%elem_of_nil; done|].
  apply StronglySorted_inv in H as [H Hx]. destruct (IH H) as [H1 H2]. split; [done|]. rewrite Forall_forall in Hx.
  intros y z [->|Hy]%elem_of_cons Hz; [|auto]. apply Hx, elem_of_app. by right.
Qed.
Section Pages.
Context {A : Type} (created : A -> Z) (id : A -> uuid).
Definition unique_rows (l : list A) : Prop := NoDup l ∧ ∀ x y, x ∈ l -> y ∈ l -> id x = id y -> x = y.
#[local] Abbreviation row_key := (fun x => [- created x; - Z.of_N (id x)]).
Lemma same_key x y : by_key row_key x y -> by_key row_key y x -> id x = id y.
Proof. unfold by_key. intros H1 H2. apply lex_le_antisymm in H1 as [= _ H]; [lia|done|done]. Qed.
Lemma filter_newest (P : A -> Prop) `{!∀ x, Decision (P x)} l : unique_rows l -> newest_first created id (filter P l) = filter P (newest_first created id l).
Proof.
  intros [_ Hu]. unfold newest_first. eapply (StronglySorted_unique_strong (by_key row_key)).
  - intros x y Hx Hy H1 H2. apply elem_of_order_by, list_elem_of_filter in Hx as [_ Hx]. apply list_elem_of_filter in Hy as [_ Hy%elem_of_order_by].
    apply Hu; [done..|]. by apply same_key.
  - apply StronglySorted_merge_sort; apply _.
  - apply sorted_filter, StronglySorted_merge_sort; apply _.
  - unfold order_by. by rewrite !merge_sort_Permutation.
Qed.
Lemma older_key x z : older (Some (created z, id z)) (created x) (id x) = true <-> by_key row_key z x ∧ id x ≠ id z ∨ created x < created z.
Proof.
  unfold older, by_key. cbn. rewrite !orb_true_iff, !andb_true_iff, !orb_true_iff, !andb_true_iff, !Z.ltb_lt, !Z.eqb_eq, N.ltb_lt. split.
  - intros [?|[? ?]]; [by right|]. left. split; [right; split; [lia|left; lia]|lia].
  - intros [[[?|[? [?|[? _]]]] Hne]|?]; [left; lia|right; lia| |by left]. destruct Hne. lia.
Qed.
Lemma rest_is_older l pre z rest : unique_rows l -> newest_first created id l = pre ++ z :: rest ->
  newest_first created id (filter (fun x => older (Some (created z, id z)) (created x) (id x) = true) l) = rest.
Proof.
  intros Hu Hl. rewrite filter_newest, Hl by done. destruct Hu as [Hn Hu].
  assert (StronglySorted (by_key row_key) (pre ++ z :: rest)) as Hs by (rewrite <- Hl; apply StronglySorted_merge_sort; apply _).
  assert (NoDup (pre ++ z :: rest)) as Hd by (rewrite <- Hl; unfold newest_first, order_by; by rewrite merge_sort_Permutation).
  assert (∀ x, x ∈ pre ++ z :: rest -> x ∈ l) as Hin by (intros x; rewrite <- Hl; apply elem_of_order_by).
  apply sorted_app in Hs as [[_ Hz]%StronglySorted_inv Hpre]. rewrite Forall_forall in Hz. apply NoDup_app in Hd as (_ & Hd & Hr).
  apply NoDup_cons in Hr as [Hr _].
  assert (∀ x, x ∈ pre ++ z :: rest -> by_key row_key x z -> older (Some (created z, id z)) (created x) (id x) ≠ true) as Hnew.
  { intros x Hx Hxz [[Hzx Hne]|Hlt]%older_key; [by apply Hne, same_key|]. unfold by_key in Hxz. cbn in Hxz.
    rewrite orb_true_iff, andb_true_iff, Z.ltb_lt, Z.eqb_eq in Hxz. lia. }
  rewrite filter_app, filter_cons, decide_False.
  2: { apply Hnew; [apply elem_of_app; right; left|]. unfold by_key. cbn. rewrite !Z.eqb_refl, !Z.ltb_irrefl. done. }
  rewrite (filter_none _ pre), (filter_whole _ rest); [done| |].
  - intros y Hy. apply older_key. left. split; [auto|]. intros E. apply Hr. rewrite <- (Hu y z) at 1; [done| | |done]; apply Hin; set_solver.
  - intros x Hx. apply Hnew; [set_solver|]. apply Hpre; [done|left].
Qed.
(** The rows that follow a page, from the cursor of its last row. *)
Definition cursor_after (pre : list A) : option (Z * uuid) := (fun z => (created z, id z)) <$> last pre.
Lemma page_rows l pre rest : unique_rows l -> newest_first created id l = pre ++ rest ->
  newest_first created id (filter (fun x => older (cursor_after pre) (created x) (id x) = true) l) = rest.
Proof.
  intros Hu Hl. unfold cursor_after. destruct (last pre) as [z|] eqn:Ez; cbn [fmap option_fmap option_map].
  - apply last_Some in Ez as [pre' ->]. rewrite <- app_assoc in Hl. by eapply rest_is_older.
  - apply last_None in Ez as ->. by rewrite filter_whole.
Qed.
End Pages.

(** ** Following the tokens *)
(** A client that asks for page after page, [pages] of them at most. *)
Fixpoint walk {B} (fetch : string -> M World (list B * string)) (pages : nat) (token : string) : M World (list B) :=
  match pages with
  | O => throw (errorf "more pages")
  | S pages =>
      '(items, next) ← fetch token;
      if bool_decide (next = "") then mret items else
      rest ← walk fetch pages next; mret (items ++ rest)
  end.
(** The pages [rows] rows need: one without rows, and no page that is not full but
    the last. *)
Definition page_count (size : Z) (rows : nat) : nat := S ((rows - 1) / Z.to_nat size).
Lemma page_count_enough size rows : 1 <= size -> (rows <= page_count size rows * Z.to_nat size)%nat.
Proof.
  intros Hs. unfold page_count. destruct rows as [|rows]; [lia|]. replace (S rows - 1)%nat with rows by lia.
  pose proof (Nat.mul_succ_div_gt rows (Z.to_nat size) ltac:(lia)). lia.
Qed.
Section Walk.
Context {A B : Type} (fetch : string -> M World (list B * string)) (tok : A -> string) (P : A -> B -> Prop) (sorted : list A) (size : nat) (w : World).
Definition starts (token : string) (pre : list A) : Prop := token = from_option tok "" (last pre).
Definition next_of (rest : list A) : string := if (size <? length rest)%nat then from_option tok "" (last (take size rest)) else "".
Lemma walk_all : (∀ z, tok z ≠ "") -> (0 < size)%nat ->
  (∀ token pre rest items, sorted = pre ++ rest -> starts token pre -> Forall2 P rest items -> fetch token w = (Ok (take size items, next_of rest), w)) ->
  ∀ pages token pre rest items, sorted = pre ++ rest -> starts token pre -> Forall2 P rest items ->
    (0 < pages)%nat -> (length rest <= pages * size)%nat -> walk fetch pages token w = (Ok items, w).
Proof.
  intros Htok Hsize Hfetch. induction pages as [|pages IH]; intros token pre rest items Hs Ht Hp H0 Hf; [lia|]. cbn [walk].
  rewrite (bind_run _ _ w (take size items, next_of rest) w) by eauto. unfold next_of. destruct (Nat.ltb_spec size (length rest)) as [Hl|Hl].
  2: { rewrite take_ge by (apply Forall2_length in Hp; lia). done. }
  destruct (last (take size rest)) as [z|] eqn:Ez; cbn [from_option].
  2: { apply last_None in Ez. apply (f_equal length) in Ez. rewrite length_take in Ez. cbn in Ez. lia. }
  rewrite bool_decide_eq_false_2 by done. rewrite (bind_run _ _ w (drop size items) w).
  - by rewrite take_drop.
  - eapply (IH _ (pre ++ take size rest) (drop size rest)).
    + by rewrite <- app_assoc, take_drop.
    + unfold starts. by rewrite last_app, Ez.
    + by apply Forall2_drop.
    + nia.
    + rewrite length_drop. lia.
Qed.
End Walk.

Lemma exec_select {A} (f : Z -> DB -> A) w : w_env w = [] -> exec (Schema.select f) w = (Ok (f (w_now w) (w_db w)), w).
Proof. intros He. unfold exec, mbind, M_bind, round_trip. rewrite He. by destruct w. Qed.
Lemma keyed_unique {K V} `{Countable K} (m : gmap K V) (P : K * V -> Prop) `{!∀ x, Decision (P x)} : NoDup (filter P (map_to_list m)).
Proof. apply NoDup_filter, NoDup_map_to_list. Qed.
Lemma listed_unique db tenant : unique_rows service_id (listed_services db tenant).
Proof.
  split; [apply keyed_unique|]. intros [[t i] s] [[t' i'] s'] [[Ht _] H1%elem_of_map_to_list]%list_elem_of_filter [[Ht' _] H2%elem_of_map_to_list]%list_elem_of_filter Hid.
  cbn in *. unfold service_id in Hid. cbn in Hid. subst. congruence.
Qed.
Lemma elem_of_projection db k p : (k, p) ∈ operation_projection db <->
  (∃ o, operations db !! k = Some o ∧ (k, p) = accepted_operation db (k, o)) ∨
  (∃ c, managed_commands db !! k = Some c ∧ managed_projection db (k, c) = Some (k, p)).
Proof.
  unfold operation_projection. rewrite elem_of_app, list_elem_of_fmap, list_elem_of_omap. split.
  - intros [([k' o] & E & Ho%elem_of_map_to_list)|([k' c] & Hc%elem_of_map_to_list & E)].
    + left. exists o. unfold accepted_operation in E. injection E as -> ->. done.
    + right. exists c. assert (k' = k) as -> by (unfold managed_projection in E; destruct (_ && _); [by injection E|done]). done.
  - intros [(o & Ho & E)|(c & Hc & E)]; [left; exists (k, o)|right; exists (k, c)]; (split; [done|by apply elem_of_map_to_list]) || (split; [by apply elem_of_map_to_list|done]).
Qed.
Lemma projection_unique db k p p' : (k, p) ∈ operation_projection db -> (k, p') ∈ operation_projection db -> p = p'.
Proof.
  rewrite !elem_of_projection. intros [(o & Ho & E)|(c & Hc & E)] [(o' & Ho' & E')|(c' & Hc' & E')]; try congruence.
  - unfold managed_projection in E'. rewrite Ho, (bool_decide_eq_false_2 (Some o = None)), andb_false_r in E' by done. done.
  - unfold managed_projection in E. rewrite Ho', (bool_decide_eq_false_2 (Some o' = None)), andb_false_r in E by done. done.
Qed.
Lemma projection_id db k p : (k, p) ∈ operation_projection db -> oj_id p = k.2.
Proof.
  rewrite elem_of_projection. intros [(o & _ & [= ->])|(c & _ & E)]; [done|]. unfold managed_projection in E. destruct (_ && _); [|done]. by injection E as <-.
Qed.
Lemma keyed_omap {K V R} (f : K * V -> option (K * R)) (l : list (K * V)) : (∀ kv r, f kv = Some r -> r.1 = kv.1) -> NoDup l.*1 -> NoDup (omap f l).
Proof.
  intros Hf. induction l as [|x l IH]; cbn; [constructor|]. intros [Hx Hl]%NoDup_cons. destruct (f x) as [r|] eqn:E; [|auto].
  constructor; [|auto]. intros (y & Hy & Ey)%list_elem_of_omap. apply Hx, list_elem_of_fmap. exists y. split; [|done].
  by rewrite <- (Hf _ _ E), <- (Hf _ _ Ey).
Qed.
Lemma projection_nodup db : NoDup (operation_projection db).
Proof.
  unfold operation_projection. apply NoDup_app. split_and!.
  - apply (NoDup_fmap_2_strong _ _); [|apply NoDup_map_to_list]. intros [k o] [k' o'] Ho%elem_of_map_to_list Ho'%elem_of_map_to_list E.
    unfold accepted_operation in E. injection E as -> _. congruence.
  - intros x ([k o] & -> & Ho%elem_of_map_to_list)%list_elem_of_fmap ([k' c] & _ & E)%list_elem_of_omap.
    unfold managed_projection, accepted_operation in E. destruct (_ && _) eqn:Eb; [|done]. injection E as <- _.
    by rewrite Ho, (bool_decide_eq_false_2 (Some o = None)), andb_false_r in Eb by done.
  - apply keyed_omap; [|apply NoDup_fst_map_to_list]. intros [k c] r E. unfold managed_projection in E. destruct (_ && _); [|done]. by injection E as <-.
Qed.
Lemma operations_unique db tenant service : unique_rows operation_id (tenant_operations db tenant service).
Proof.
  split; [apply NoDup_filter, projection_nodup|].
  intros [[t i] o] [[t' i'] o'] [[Ht _] H1]%list_elem_of_filter [[Ht' _] H2]%list_elem_of_filter Hid. unfold operation_id in Hid. cbn in *. subst.
  by rewrite (projection_unique _ _ _ _ H1 H2).
Qed.
Lemma length_newest {A} (created : A -> Z) (id : A -> uuid) l : length (newest_first created id l) = length l.
Proof. unfold newest_first, order_by. by rewrite merge_sort_Permutation. Qed.
Section Complete.
Context `{U : UuidLib} {UL : UuidLaws} `{L : CursorLib} {CL : CursorLaws} (parse_selection : string -> result (option ImageSelection)).
Context (u : ReadStore) (tenantID : string) (tenant : uuid) (size : Z) (w : World).
Context (Htenant : uuid_parse tenantID = Some tenant) (Hsize : 1 <= size <= 100) (Henv : w_env w = []).
(** Every row of [l] was created between 1970 and the year 10000. *)
Definition datable {A} (created : A -> Z) (l : list A) : Prop := ∀ x, x ∈ l -> 0 <= of_column (created x) < year_10000.
Lemma page_starts {A} (created : A -> Z) (id : A -> uuid) l pre rest token : datable created l -> newest_first created id l = pre ++ rest ->
  starts (fun x => next_token tenantID (created x) (id x)) token pre -> page_cursor tenantID token = Ok (cursor_after created id pre).
Proof.
  intros Hd Hl ->. unfold cursor_after. destruct (last pre) as [z|] eqn:Ez; [|done]. cbn. apply (token_trip _ tenant); [done|].
  apply Hd. rewrite <- (elem_of_order_by (fun x => [- created x; - Z.of_N (id x)])). change (z ∈ newest_first created id l). rewrite Hl.
  apply last_Some in Ez as [pre' ->]. set_solver.
Qed.
Lemma cut_page {A} (rest : list A) : cut_rows size (take (Z.to_nat (int32 (size + 1))) rest) = (take (Z.to_nat size) rest, bool_decide (Z.to_nat size < length rest)%nat).
Proof.
  rewrite int32_id by (unfold in_int32; lia). unfold cut_rows. rewrite length_take.
  destruct (Z.ltb_spec size (Z.of_nat (Z.to_nat (size + 1) `min` length rest))) as [Hl|Hl].
  - rewrite take_take, bool_decide_eq_true_2 by lia. f_equal. f_equal. lia.
  - rewrite bool_decide_eq_false_2 by lia. rewrite !take_ge by lia. done.
Qed.
Lemma page_size_ok : page_size size = Ok size.
Proof.
  unfold page_size, maxListPageSize. destruct (Z.leb_spec size 0); [lia|]. by destruct (Z.ltb_spec 100 size); [lia|].
Qed.
Lemma project_spec rows items : project_rows parse_selection rows = Ok items <-> Forall2 (fun r i => serviceFromListRow parse_selection r = Ok i) rows items.
Proof.
  split.
  - revert items. induction rows as [|r rows IH]; cbn [project_rows]; intros items H; [injection H as <-; constructor|]. minv H. injection H as <-. constructor; auto.
  - induction 1 as [|r i rows items Hr _ IH]; cbn [project_rows]; [done|]. rewrite Hr, IH. done.
Qed.
(** The token of a page, from the rows before they are projected. *)
Lemma token_of_page {A C} (created : A -> Z) (id : A -> uuid) (created' : C -> Z) (id' : C -> uuid) (f : A -> C) rest :
  (∀ x, x ∈ rest -> created' (f x) = created x ∧ id' (f x) = id x) ->
  token_after tenantID created' id' (take (Z.to_nat size) (f <$> rest)) (bool_decide (Z.to_nat size < length rest)%nat) =
  next_of (fun x => next_token tenantID (created x) (id x)) (Z.to_nat size) rest.
Proof.
  intros Hf. unfold token_after, next_of. rewrite <- fmap_take, fmap_last.
  destruct (Nat.ltb_spec (Z.to_nat size) (length rest)); [rewrite bool_decide_eq_true_2 by done|by rewrite bool_decide_eq_false_2 by lia].
  destruct (last (take (Z.to_nat size) rest)) as [z|] eqn:Ez; cbn; [|done]. destruct (Hf z) as [-> ->]; [|done].
  apply last_Some_elem_of, elem_of_take in Ez as (i & Ei & _). by eapply list_elem_of_lookup_2.
Qed.
#[local] Abbreviation ordered_services := (newest_first service_created service_id (listed_services (w_db w) tenant)).
#[local] Abbreviation ordered_operations service := (newest_first operation_created operation_id (tenant_operations (w_db w) tenant service)).
Lemma service_page token pre rest items : datable service_created (listed_services (w_db w) tenant) -> ordered_services = pre ++ rest ->
  starts (fun x => next_token tenantID (service_created x) (service_id x)) token pre ->
  Forall2 (fun x i => serviceFromListRow parse_selection (list_row (w_db w) x) = Ok i) rest items ->
  ListServices parse_selection (Some u) tenantID size token w =
    (Ok (take (Z.to_nat size) items, next_of (fun x => next_token tenantID (service_created x) (service_id x)) (Z.to_nat size) rest), w).
Proof.
  intros Hd Hs Ht Hp. unfold ListServices, tenantUUID, workUUID. rewrite Htenant. rewrite (bind_run _ _ w tenant w) by done. cbn [configured].
  rewrite page_size_ok. rewrite (bind_run _ _ w size w) by done. rewrite (page_starts _ _ _ _ _ _ Hd Hs Ht).
  rewrite (bind_run _ _ w (cursor_after service_created service_id pre) w) by done. unfold ListServices_sql.
  rewrite (bind_run _ _ w _ w (exec_select _ _ Henv)). cbv beta.
  rewrite (page_rows _ _ _ _ _ (listed_unique _ _) Hs), fmap_take, cut_page. cbn iota beta.
  assert (project_rows parse_selection (take (Z.to_nat size) (list_row (w_db w) <$> rest)) = Ok (take (Z.to_nat size) items)) as ->.
  { apply project_spec, Forall2_take, Forall2_fmap_l, Hp. }
  rewrite (bind_run _ _ w (take (Z.to_nat size) items) w) by done. rewrite length_fmap, (token_of_page service_created service_id); [done|].
  by intros [k r] _.
Qed.
Lemma operation_page serviceID service token pre rest : service_filter serviceID = Ok service ->
  datable operation_created (tenant_operations (w_db w) tenant service) -> ordered_operations service = pre ++ rest ->
  starts (fun x => next_token tenantID (operation_created x) (operation_id x)) token pre ->
  ReadUseCase_ListOperations (Some u) tenantID serviceID size token w =
    (Ok (take (Z.to_nat size) ((fun x => operationProjectionProto x.2) <$> rest),
         next_of (fun x => next_token tenantID (operation_created x) (operation_id x)) (Z.to_nat size) rest), w).
Proof.
  intros Hf Hd Hs Ht. unfold ReadUseCase_ListOperations, tenantUUID, workUUID. rewrite Htenant. rewrite (bind_run _ _ w tenant w) by done. cbn [configured].
  rewrite page_size_ok. rewrite (bind_run _ _ w size w) by done. rewrite Hf. rewrite (bind_run _ _ w service w) by done.
  rewrite (page_starts _ _ _ _ _ _ Hd Hs Ht).
  rewrite (bind_run _ _ w (cursor_after operation_created operation_id pre) w) by done. unfold ListOperations_sql.
  rewrite (bind_run _ _ w _ w (exec_select _ _ Henv)). cbv beta.
  rewrite (page_rows _ _ _ _ _ (operations_unique _ _ _) Hs), fmap_take, cut_page. cbn iota beta.
  rewrite length_fmap, (token_of_page operation_created operation_id), <- fmap_take, <- list_fmap_compose, fmap_take; [done|].
  intros [k o] Hx. split; [done|]. apply (projection_id (w_db w)). assert ((k, o) ∈ ordered_operations service) as Hin by (rewrite Hs; set_solver).
  apply elem_of_order_by in Hin. by apply list_elem_of_filter in Hin as [_ Hin].
Qed.
(** Claim C29. Pages are complete.  A client that lists services, or operations, by
    following the page tokens from the empty one, with any page size from 1 to 100,
    over a database that does not change meanwhile and answers every query, ends
    after as many pages as the rows fill, one when there are none, and has received,
    exactly once and newest first, every service of its tenant that is not deleted,
    and every operation of the tenant's operation view (of one service, when it is
    named): no row is skipped or repeated at a page boundary, also when rows share
    their creation time.  The rows were created between 1970 and the year 10000, and
    every listed service can be projected (its stored specification decodes; one
    that does not makes its page fail). *)
Theorem page_walk_complete serviceID service items :
  datable service_created (listed_services (w_db w) tenant) -> service_filter serviceID = Ok service ->
  datable operation_created (tenant_operations (w_db w) tenant service) ->
  project_rows parse_selection (list_row (w_db w) <$> ordered_services) = Ok items ->
  walk (ListServices parse_selection (Some u) tenantID size) (page_count size (length (listed_services (w_db w) tenant))) "" w = (Ok items, w) ∧
  let operations := ordered_operations service in
  walk (ReadUseCase_ListOperations (Some u) tenantID serviceID size) (page_count size (length operations)) "" w =
    (Ok ((fun x => operationProjectionProto x.2) <$> operations), w).
Proof.
  intros Hd Hf Hd' Hp%project_spec%Forall2_fmap_l. split.
  - apply (walk_all _ (fun x => next_token tenantID (service_created x) (service_id x))
      (fun x i => serviceFromListRow parse_selection (list_row (w_db w) x) = Ok i) ordered_services (Z.to_nat size) w
      (fun z => token_nonempty _ _ _) ltac:(lia)) with (pre := []) (rest := ordered_services); try done.
    + intros token pre rest items' Hs Ht Hp'. by apply (service_page token pre rest items').
    + unfold page_count. lia.
    + rewrite length_newest. apply page_count_enough. lia.
  - cbv zeta. apply (walk_all _ (fun x => next_token tenantID (operation_created x) (operation_id x)) (fun x i => i = operationProjectionProto x.2)
      (ordered_operations service) (Z.to_nat size) w (fun z => token_nonempty _ _ _) ltac:(lia)) with (pre := []) (rest := ordered_operations service); try done.
    + intros token pre rest items' Hs Ht Hp'. rewrite (operation_page _ service _ pre rest) by done.
      assert (items' = (fun x => operationProjectionProto x.2) <$> rest) as ->; [|done].
      clear -Hp'. induction Hp' as [|x i rest items -> _ IH]; [done|]. cbn. by rewrite IH.
    + apply Forall2_fmap_r. by apply Forall_Forall2_diag, Forall_true.
    + unfold page_count. lia.
    + apply page_count_enough. lia.
Qed.
End Complete.

Module Example.
Import BinaryUuid.
(** A cursor as three encoded fields; a keyed message as its own digest. *)
#[local] Instance toy_lib : CursorLib := {|
  sha256_sum s := s; hmac_sum key message := String "h" (key +:+ message);
  cursor_json c := EncodeToString UrlAlphabet (lc_tenant c) +:+ String dot (EncodeToString UrlAlphabet (lc_created c) +:+
                     String dot (EncodeToString UrlAlphabet (lc_id c)));
  cursor_of_json s := match Credential.Credential.split dot s with
    | [a; b; c] => t ← DecodeString UrlAlphabet a; n ← DecodeString UrlAlphabet b; i ← DecodeString UrlAlphabet c; Some (mkCursor t n i)
    | _ => None
    end;
  format_time ns := BinaryUuid.print (Z.to_N ns); parse_time s := Z.of_N <$> BinaryUuid.parse s |}.
#[local] Instance toy_laws : CursorLaws.
Proof.
  split; [| |done].
  - intros ns Hns. cbn -[BinaryUuid.print BinaryUuid.parse]. pose proof (uuid_parse_string (Z.to_N ns)) as H. cbn [uuid_parse uuid_string lib] in H.
    rewrite H. cbn. by rewrite Z2N.id by lia.
  - intros tenant u ns id _ _. cbn [cursor_json cursor_of_json toy_lib lc_tenant lc_created lc_id].
    rewrite !Credential.Credential.split_at, Credential.Credential.split_none by apply encode_no_dot. by rewrite !decode_encode.
Qed.
Definition body : SpecBody := mkSpecBody None 9%N "" "" "" "" "m" "" Engine.JNull (JVal (Resources.mkSpec ∅ ∅ None)) 1 "" 0 "" ∅ None None None None.
Definition service (name : string) (created : Z) : ServiceRow := mkServiceRow name "running" 1 1 None None created 0.
Definition operation (created : Z) : OperationRow :=
  mkOperationRow 2%N "create" "succeeded" "complete" 1 "" 0 None None None None "" "" created 0 None None.
(** Two of the three services were created in the same microsecond. *)
Definition db : DB := empty_db
  <| services := {[(1%N, 2%N) := service "a" 7; (1%N, 3%N) := service "b" 7; (1%N, 4%N) := service "c" 5; (8%N, 5%N) := service "d" 6]} |>
  <| specs := {[(1%N, 2%N, 1) := mkSpecRow 5%N body 0; (1%N, 3%N, 1) := mkSpecRow 6%N body 0; (1%N, 4%N, 1) := mkSpecRow 7%N body 0]} |>
  <| operations := {[(1%N, 20%N) := operation 3; (1%N, 21%N) := operation 4]} |>.
Definition world : World := mkWorld db 1000 [] [].
Definition rows := newest_first service_created service_id (listed_services db 1%N).
Definition selections (raw : string) : result (option ImageSelection) := Ok None.
Definition protos : list ServiceProto := match project_rows selections (list_row db <$> rows) with Ok l => l | Err _ => [] end.
Lemma protos_are : project_rows selections (list_row db <$> rows) = Ok protos ∧ py_name <$> protos = ["b"; "a"; "c"].
Proof. vm_compute. done. Qed.
Lemma in_time {A} (created : A -> Z) (l : list A) :
  forallb (fun x => (0 <=? of_column (created x)) && (of_column (created x) <? year_10000)) l = true -> datable created l.
Proof.
  rewrite forallb_forall. intros H x Hx. apply list_elem_of_In, H, andb_true_iff in Hx as [H1 H2]. lia.
Qed.
Lemma page_walk_complete_witness : py_name <$> protos = ["b"; "a"; "c"] ∧
  walk (ListServices selections (Some (mkReadStore true)) (uuid_string 1%N) 2) 2 "" world = (Ok protos, world) ∧
  walk (ListServices selections (Some (mkReadStore true)) (uuid_string 1%N) 1) 3 "" world = (Ok protos, world).
Proof.
  split; [apply protos_are|]. split.
  - apply (page_walk_complete selections (mkReadStore true) (uuid_string 1%N) 1%N 2 world) with (serviceID := "") (service := None);
      [reflexivity|lia|reflexivity|apply in_time; vm_compute; reflexivity|reflexivity|apply in_time; vm_compute; reflexivity|apply protos_are].
  - apply (page_walk_complete selections (mkReadStore true) (uuid_string 1%N) 1%N 1 world) with (serviceID := "") (service := None);
      [reflexivity|lia|reflexivity|apply in_time; vm_compute; reflexivity|reflexivity|apply in_time; vm_compute; reflexivity|apply protos_are].
Defined.
End Example.
End Read.
